(* ===== verification/_CoqProject ===== *)
-Q . S2P
Prelude.v
CircList.v
Buffer.v
PacketId.v
Reliable.v
TlsSend.v
OTime.v
Mtu.v
Fragment.v
Hash.v
Proto.v
Mss.v
Schedule.v
Mroute.v
MultiRoute.v
RouteTable.v
PacketKeys.v
Pool.v
KeyCtx.v
SampleLib.v
FrameCalc.v
Epoch.v
Crypto.v
Aead.v
Channel.v
DataPath.v
CtrlWrap.v
Handshake.v
Text.v
Ncp.v
KeyMethod.v
KeyState.v
TlsSample.v
KeyMachine.v
KeyRun.v
StreamBuf.v
WireSize.v
Base64.v
CharClass.v
AuthToken.v
