(* ===== verification/Prelude.v ===== *)
(** * Verification of the OpenVPN core

    A model and correctness proofs of the protocol core of the OpenVPN daemon, the
    C program under src/Projects/VPN/Open VPN/OpenVPN_Guide/src/openvpn (file names
    below are relative to that directory).

    ** The program

    OpenVPN tunnels IP or Ethernet packets between hosts.  Packets live in a
    [struct buffer] with headroom, so that each layer prepends its header in place
    (buffer.h).  On the data channel a packet is compressed, optionally cut into
    fragments (fragment.c), stamped with a packet identifier against replay
    (packet_id.c) and encrypted under a key of the current epoch (crypto.c,
    crypto_epoch.c); the TCP MSS option of tunnelled SYN packets is lowered
    so that the result fits (mss.c, mtu.c).  On the control channel a TLS session with
    the peer negotiates the data channel's keys (ssl.c): its ciphertext is cut into packets
    that a reliability layer numbers, acknowledges, reorders and retransmits (reliable.c)
    and that are authenticated or encrypted with a static key (ssl_pkt.c, tls_crypt.c); over
    it the peers exchange key material and agree on a cipher (ssl_ncp.c).  Over TCP packets
    are taken out of a byte stream (socket.c).  A server answers new peers without state
    (mudp.c), checks their passwords and tokens (ssl_verify.c, auth_token.c), gives them
    addresses (pool.c), and routes packets between them by their addresses (multi.c, mroute.c)
    with hash tables (list.c) and a treap of wake-up times (schedule.c).

    ** The files

    Basics.
    - Prelude: outcomes of C computations ([res]: a value, a failed assertion or
      fatal message, undefined behaviour), machine integers as [Z] with the
      conversions written out, big-endian encodings, memory objects as lists whose
      out-of-range accesses are [UB], and the tactics.
    - CircList: integer.h and the CIRC_LIST macros of circ_list.h.
    - Buffer: [struct buffer] and its operations (buffer.h, buffer.c).
    - Text, CharClass, Base64: C strings and the text functions of buffer.c, its character
      classes, and base64.c.
    - OTime: otime.[ch], interval.[ch], shaper.[ch].
    - Hash: list.[ch], over the interface [HashKey] with the laws [HashKeyLaws] that a
      table needs of its hash and comparison functions.
    - Schedule: schedule.[ch], with a finite map from locations to entries as memory.

    Data channel.
    - PacketId: packet_id.h, packet_id.c and the replay check of crypto.c.
    - Mtu, FrameCalc: [struct frame], buffer allocation and the sizes of all layers (mtu.[ch],
      mss.c, init.c).
    - Fragment: fragment.[ch].
    - Proto, Mss: recognition of IP packets and checksums (proto.[ch]), and mss.c.
    - KeyCtx: key contexts of crypto.[ch] over the class [CryptoLib], the interface of the
      cryptographic library, with the laws [DeriveLaws] and [AeadLaws]; SampleLib: an instance
      that can be evaluated.
    - Epoch: crypto_epoch.[ch].
    - Crypto, Aead, Channel: encryption and decryption of crypto.c; what the AEAD format puts on the
      wire; sender and receiver together over any sequence of packets.
    - DataPath: from the tunnel device to the link and back (forward.c, ssl.c).
    - WireSize: the size of what the encryption code writes against the packet formats of FrameCalc.

    Control channel.
    - Reliable: reliable.h, reliable.c, session_id.h and the receive path of ssl.c
      behind the acknowledgment record.
    - TlsSend: [write_outgoing_tls_ciphertext] and the overhead computation of ssl.c.
    - CtrlWrap: tls-auth, tls-crypt and tls-crypt-v2 (ssl_pkt.c, tls_crypt.c), over the laws
      [CtrlLaws].
    - Handshake: the first packets of a connection (ssl_pkt.c, mudp.c, reflect_filter.c).
    - Ncp: cipher negotiation (ssl_ncp.c, ssl_util.c).
    - KeyMethod: the key method 2 messages and the derivation of keys (ssl.c).
    - KeyState: the key and session state machine (ssl.c), with all entry points other components
      call; the TLS library is the class [TlsLib].  TlsSample: an instance that can be evaluated.
    - KeyMachine, KeyRun: proofs about it, for single calls and for runs of a tunnel.
    - StreamBuf: packets in a TCP stream (socket.c).

    Server.
    - Mroute, MultiRoute, RouteTable, PacketKeys: addresses as keys (mroute.c), the table of
      virtual addresses (multi.c) as a machine on memory, its invariant and proofs, and the keys
      that arbitrary packets lead to.
    - Pool: pool.[ch].
    - AuthToken: auth_token.[ch] and the password verification of ssl_verify.c.

    C functions keep their names; one definition translates one function, a loop is a
    [Fixpoint] of its own that carries the loop variables.  A function that changes a
    struct returns the new one.  Where two pointers share memory and it matters, the
    sharing is in the model: a buffer carries its data object and its window into it
    ([Mss.share], [Buffer.buf_sub], the reassembly buffers of Fragment, [StreamBuf.stream_buf]),
    the scheduler and the address table work on an explicit memory, and KeyState numbers the
    blocks of the buffers that are handed to the event loop, so that a block that is freed
    while it is in use can be told.  Logging, freeing of memory and statistics
    counters that nothing reads are left out.  What the system answers (clock,
    [random], files, sockets, plugins and scripts) is an argument.

    The functions of the cryptographic and TLS libraries are not in the repository.  Their
    classes state documented behaviour only: lengths of outputs, that decryption undoes
    encryption under the same key and vector, that a tag made by one side is accepted by the
    other.  No law says that anything is hard to forge; the theorems on authenticity say that
    what is accepted carries the tag computed with the receiver's key.

    ** What is proved

    - Buffer: every sequence of operations is that of a bounded double-ended byte queue
      and stays inside the data object ([buf_refines_deque]); encodings round trip;
      size products never wrap ([array_mult_safe_exact]).
    - PacketId: no packet is accepted twice ([replay_never_accepted]), and without time
      expiry nothing inside the window is lost ([replay_window_exact]); the sender
      never repeats an identifier ([packet_id_send_unique]); the wire formats round trip; a
      restored state file reopens the window ([persisted_window_reopens]).
    - Channel: over any sequence of packets in any order and through changes of epoch nothing is
      accepted twice; every packet that leaves is what the cipher gives for a vector that no other
      packet of its epoch has ([data_channel_nonce_unique]); a payload comes back, and a forged packet
      changes nothing but the count of failures.
    - FrameCalc, WireSize, DataPath: measured on the packets as they are written, the limits for
      segments and fragments are the largest that fit, except that they are four bytes too large
      with epoch keys and eight too small with OFB and CFB ([frame_limits_exact]); the allocated
      buffers are large enough for every packet that is let in ([finalized_buffers_suffice]); a packet
      of the tunnel device comes out at the other end ([data_path_roundtrip]).
    - Fragment: fragments of a datagram, reordered and repeated, reassemble to it
      ([fragment_roundtrip]); the sizes chosen and the sliding window of reassembly
      buffers.
    - Mss: clamping changes nothing but the option values and the checksum, and keeps
      checksums correct for options at even offsets ([mss_fixup_correct]); at odd
      offsets it does not ([mss_fixup_odd_offset]).
    - Epoch: key expansion against its definition, its counter and its bounds; what moving to
      the last key of the window does ([epoch_last_future_fatal]).
    - Reliable: whatever arrives, control packets are delivered in order, each once, and
      no assertion fails ([control_channel_in_order]); the receive window cannot
      deadlock; the send window, the effect of acknowledgments, the choice of the packet
      to resend and the wake-up time are exact; acknowledgment records round trip.
    - TlsSend: the ciphertext is cut without loss inside the send window.
    - CtrlWrap: wrapped packets come back, only packets made with the receiver's key get through,
      and a client's first packet carries its own key to the server; eleven bytes that are not
      authenticated end a tls-crypt-v2 server ([eleven_bytes_abort]).
    - Handshake: a server answers a reset packet without keeping state for it, but for version 3
      packets of clients without early negotiation ([reset_answered_statelessly]); the test of the session identifier that comes back is
      inverted ([session_id_check_inverted]).
    - Ncp, KeyMethod: two peers choose the same cipher; a server's choice is one the client
      accepts; the peers read what the other wrote and derive matching keys.
    - KeyMachine, KeyRun: the loop of [tls_process] ends; in every state of a tunnel, for all
      packets, calls and answers of the TLS library, the assertions on session and key states hold
      and no block of memory has two owners; the packet handed to the event loop has an owner,
      except in the one case of [promotion_frees_link_packet].
    - StreamBuf: whatever pieces a stream arrives in, the packets come out as they were sent.
    - Hash, Schedule: a table is a map up to the comparison function for every sequence of
      operations ([hash_refines_map]); the treap with parent pointers is a priority queue, every
      operation returns and leaves no dangling pointer ([schedule_refines_queue]).
    - RouteTable, PacketKeys: no freed route or instance is reached, reference counts are consistent,
      a lookup answers with the valid entry of the address or the owner of the longest matching
      prefix; whatever is cached does not matter unless stale routes are removed
      ([lookup_longest_prefix], [stale_check_drops_used_network]), and what arbitrary packets
      lead to is covered.
    - Pool: no two clients have the same address.
    - AuthToken, Base64: tokens come back for the time they are meant for, without external-auth
      only valid ones replace a password; base64 round trips.  Two ways to reach an assertion or a read out of
      bounds from the network are shown ([reencoded_token_fatal], [short_token_overread]).
    - OTime: the clock filter, [struct timeval] arithmetic including the error of
      [tv_add], event timers, intervals and rate limits, exactly.

    The theorems that are named in the findings of the manifest state what the code does
    where that differs from its comments or from what it needs.

    ** Fuel and bounds

    Loops that are not structural take fuel that is computed from their input and
    proved to be enough: the distance to the target for the replay window, the length of
    the buffer for parsers, the number of buckets and elements for iterators, the number
    of entries in memory for walks in the treap, 256 blocks for key expansion, 65535 epochs for
    catching up with the peer's epoch, the length of the data for base64.  Running out of fuel is
    [UB], which the theorems exclude.  The loop of [tls_process] has no bound in the code; its fuel
    is a constant above a measure of the state, and [tls_process_loop_ends] proves that it ends.  The descent of
    [schedule_insert] restarts with another random priority after a collision, and session
    identifiers are drawn until one is not zero; the number of tries is a parameter, and the
    theorem of the scheduler says that some number is enough if the random source is [varied].
    [int] is 32 bits, [size_t] and [time_t] 64 bits; both byte orders are covered where memory is
    read as host integers.  Control packet identifiers are followed up to 2^31 packets of one
    session, where [in_range2_accepts_far_ahead] shows what happens beyond.

    ** Not modelled

    Input and output, the event loops and sockets beyond the stream buffer, tunnel devices,
    routes and DNS, the management interface, proxies, kernel offload and the Windows services
    are calls of the system and of other programs.  The configuration is a record of several
    hundred options and its parsers, without an algorithm of its own: the models take the
    options they read as arguments.  The cryptographic and TLS libraries and their bindings are
    not in the repository or have no logic but calls of them.  Of the parts that are modelled,
    the following is left out: static key files, dynamic tls-crypt keys for
    renegotiations, the update of cipher parameters after a push, certificates and the scripts
    that check them, the creation of client instances and the forwarding of packets between them.
    The older CBC, OFB and CFB packets are modelled, but apart from their sizes the theorems on the
    data channel are about AEAD packets; tls_process as a whole is proved to keep its
    invariants, not to return without an assertion, since what the TLS library answers decides about that. *)

From Stdlib Require Export ZArith Lia Sorted.
From stdpp Require Export base tactics option numbers sets list list_numbers.
Export stdpp.list_basics.list stdpp.list_relations.list stdpp.list_monad.list stdpp.list_misc.list.

#[global] Open Scope Z_scope.

(** ** Outcomes of a C computation

    [Ret a]: the function returned [a].  [Fatal]: the process left through
    [ASSERT] or [msg (M_FATAL, ...)], neither of which returns.  [UB]: the
    translation reached an access outside the object it was made through, a
    NULL dereference or another undefined behaviour; the safety theorems show
    that it is not reached from well-formed states. *)
Inductive res (A : Type) : Type :=
| Ret (a : A)
| Fatal
| UB.
Arguments Ret {A} a.
Arguments Fatal {A}.
Arguments UB {A}.

Definition res_bind {A B : Type} (m : res A) (k : A -> res B) : res B :=
  match m with
  | Ret a => k a
  | Fatal => Fatal
  | UB => UB
  end.

Declare Scope c_scope.
Delimit Scope c_scope with c.
Notation "'let!' x := m 'in' k" := (res_bind m (fun x => k))
  (at level 10, x pattern, m at level 100, k at level 200) : c_scope.
Notation "'assert!' b 'in' k" := (if b then k else Fatal)
  (at level 10, b at level 100, k at level 200) : c_scope.
#[global] Open Scope c_scope.

Definition safe {A : Type} (m : res A) : Prop := m <> UB.
Definition returns {A : Type} (m : res A) (P : A -> Prop) : Prop :=
  exists a, m = Ret a /\ P a.

Lemma res_bind_assoc {A B C : Type} (m : res A) (f : A -> res B) (g : B -> res C) :
  res_bind (res_bind m f) g = res_bind m (fun a => res_bind (f a) g).
Proof. by destruct m. Qed.

Lemma res_bind_Ret_inv {A B : Type} (m : res A) (f : A -> res B) (b : B) :
  res_bind m f = Ret b -> exists a, m = Ret a /\ f a = Ret b.
Proof. destruct m; naive_solver. Qed.

(** ** Machine integers *)
Definition u8 (x : Z) : Z := x mod 2 ^ 8.
Definition u16 (x : Z) : Z := x mod 2 ^ 16.
Definition u32 (x : Z) : Z := x mod 2 ^ 32.
Definition u64 (x : Z) : Z := x mod 2 ^ 64.
(** Conversion to a 32-bit or 64-bit two's complement integer. *)
Definition s32 (x : Z) : Z := (x + 2 ^ 31) mod 2 ^ 32 - 2 ^ 31.
Definition s64 (x : Z) : Z := (x + 2 ^ 63) mod 2 ^ 64 - 2 ^ 63.

Definition UINT32_MAX : Z := 2 ^ 32 - 1.
Definition INT_MAX : Z := 2 ^ 31 - 1.
Definition INT_MIN : Z := - 2 ^ 31.

Definition is_int (x : Z) : Prop := INT_MIN <= x <= INT_MAX.
Definition is_u8 (x : Z) : Prop := 0 <= x < 2 ^ 8.
Definition is_u16 (x : Z) : Prop := 0 <= x < 2 ^ 16.
Definition is_u32 (x : Z) : Prop := 0 <= x < 2 ^ 32.
Definition is_u64 (x : Z) : Prop := 0 <= x < 2 ^ 64.

#[export] Instance is_u8_dec x : Decision (is_u8 x).
Proof. unfold is_u8. apply _. Defined.

Lemma u8_id x : is_u8 x -> u8 x = x.
Proof. apply Z.mod_small. Qed.
Lemma u16_id x : is_u16 x -> u16 x = x.
Proof. apply Z.mod_small. Qed.
Lemma u32_id x : is_u32 x -> u32 x = x.
Proof. apply Z.mod_small. Qed.
Lemma u64_id x : is_u64 x -> u64 x = x.
Proof. apply Z.mod_small. Qed.
Lemma u32_range x : is_u32 (u32 x).
Proof. apply Z.mod_pos_bound. lia. Qed.
Lemma u64_range x : is_u64 (u64 x).
Proof. apply Z.mod_pos_bound. lia. Qed.
Lemma u16_range x : is_u16 (u16 x).
Proof. apply Z.mod_pos_bound. lia. Qed.
Lemma u8_range x : is_u8 (u8 x).
Proof. apply Z.mod_pos_bound. lia. Qed.
Lemma s64_id x : - 2 ^ 63 <= x < 2 ^ 63 -> s64 x = x.
Proof. intros H. unfold s64. rewrite Z.mod_small; lia. Qed.
Lemma s32_id x : is_int x -> s32 x = x.
Proof. intros [? ?]. unfold s32, INT_MIN, INT_MAX in *. rewrite Z.mod_small; lia. Qed.

(** The value of an arithmetic expression of type [int]. *)
Definition c_int (x : Z) : res Z := if (INT_MIN <=? x) && (x <=? INT_MAX) then Ret x else UB.
Lemma c_int_ok x : is_int x -> c_int x = Ret x.
Proof. intros [H1 H2]. unfold c_int. by rewrite !(proj2 (Z.leb_le _ _)) by done. Qed.

Create HintDb ovpn discriminated.
#[export] Hint Resolve u8_range u16_range u32_range u64_range : ovpn.

(** ** Byte strings *)
Abbreviation bytes := (list Z).
Definition Zlen {A : Type} (l : list A) : Z := Z.of_nat (length l).
Definition bytes_ok (l : bytes) : Prop := Forall is_u8 l.

Lemma Zlen_nonneg {A} (l : list A) : 0 <= Zlen l.
Proof. unfold Zlen. lia. Qed.
Lemma Zlen_app {A} (l k : list A) : Zlen (l ++ k) = Zlen l + Zlen k.
Proof. unfold Zlen. rewrite length_app. lia. Qed.
Lemma Zlen_cons {A} (x : A) (l : list A) : Zlen (x :: l) = 1 + Zlen l.
Proof. unfold Zlen. cbn. lia. Qed.
Lemma Zlen_nil {A} : Zlen (@nil A) = 0.
Proof. reflexivity. Qed.

(** Disjoint bit fields. *)
Lemma lor_shiftl_add a b n : 0 <= n -> 0 <= a < 2 ^ n -> Z.lor a (Z.shiftl b n) = a + b * 2 ^ n.
Proof.
  intros Hn Ha. rewrite Z.shiftl_mul_pow2 by done.
  symmetry. rewrite <- Z.lxor_lor, <- Z.add_nocarry_lxor; [done| |].
  all: apply Z.bits_inj'; intros i Hi; rewrite Z.land_spec, Z.bits_0.
  all: destruct (Z.lt_ge_cases i n);
    [rewrite (Z.mul_pow2_bits_low b n i) by done; apply andb_false_r|].
  all: rewrite <- (Z.mod_small a (2 ^ n)) by done; by rewrite Z.mod_pow2_bits_high by lia.
Qed.

(** Big-endian encodings: [be_bytes n x] is what [n] bytes of memory hold
    after storing [hton*(x)], on any host. *)
Fixpoint be_bytes (n : nat) (x : Z) : bytes :=
  match n with
  | O => []
  | S n' => (x / 256 ^ Z.of_nat n') mod 256 :: be_bytes n' x
  end.

Fixpoint be_val (l : bytes) : Z :=
  match l with
  | [] => 0
  | b :: l' => b * 256 ^ Zlen l' + be_val l'
  end.

Lemma length_be_bytes n x : length (be_bytes n x) = n.
Proof. induction n; cbn; congruence. Qed.

Lemma Zlen_be_bytes n x : Zlen (be_bytes n x) = Z.of_nat n.
Proof. unfold Zlen. by rewrite length_be_bytes. Qed.

Lemma be_bytes_ok n x : bytes_ok (be_bytes n x).
Proof.
  induction n; constructor; [|done].
  change (is_u8 (u8 (x / 256 ^ Z.of_nat n))). apply u8_range.
Qed.

Lemma be_val_bytes n x : be_val (be_bytes n x) = x mod 256 ^ Z.of_nat n.
Proof.
  induction n as [|n IH]; cbn [be_bytes be_val].
  - by rewrite Z.mod_1_r.
  - rewrite IH, Zlen_be_bytes, Nat2Z.inj_succ, Z.pow_succ_r by lia.
    rewrite (Z.mul_comm 256), Z.rem_mul_r by lia. ring.
Qed.

Lemma be_val_range l : bytes_ok l -> 0 <= be_val l < 256 ^ Zlen l.
Proof.
  induction 1 as [|b l Hb Hl IH]; cbn [be_val].
  - change (256 ^ Zlen (@nil Z)) with 1. lia.
  - rewrite Zlen_cons, Z.pow_add_r by (pose proof (Zlen_nonneg l); lia).
    unfold is_u8 in Hb. change (2 ^ 8) with 256 in Hb.
    change (256 ^ 1) with 256. nia.
Qed.

Lemma be_val_app l k : be_val (l ++ k) = be_val l * 256 ^ Zlen k + be_val k.
Proof.
  induction l as [|b l IH]; cbn [app be_val]; [lia|].
  rewrite IH, Zlen_app, Z.pow_add_r by apply Zlen_nonneg. ring.
Qed.

Lemma be_val_snoc l x : be_val (l ++ [x]) = be_val l * 256 + x.
Proof. rewrite be_val_app. cbn [be_val]. change (Zlen [x]) with 1. change (Zlen (@nil Z)) with 0. lia. Qed.

Lemma be_bytes_mod n m x :
  (n <= m)%nat -> be_bytes n (x mod 256 ^ Z.of_nat m) = be_bytes n x.
Proof.
  intros H. induction n as [|n IH]; [done|]. cbn [be_bytes].
  rewrite IH by lia. f_equal.
  replace (Z.of_nat m) with (Z.of_nat n + (1 + Z.of_nat (m - S n))) by lia.
  rewrite Z.pow_add_r, Z.rem_mul_r, (Z.mul_comm (256 ^ Z.of_nat n)) by lia.
  rewrite Z.div_add by lia.
  rewrite (Z.div_small (x mod _)) by (apply Z.mod_pos_bound; lia).
  rewrite Z.pow_add_r by lia. change (256 ^ 1) with 256.
  rewrite Z.rem_mul_r by lia.
  rewrite Z.add_0_l, (Z.mul_comm 256), Z.mod_add by lia.
  by rewrite Z.mod_mod by lia.
Qed.

Lemma be_bytes_val l : bytes_ok l -> be_bytes (length l) (be_val l) = l.
Proof.
  induction 1 as [|b l Hb Hl IH]; [done|]. cbn [length be_bytes be_val].
  pose proof (be_val_range l Hl) as Hr. unfold Zlen in *. f_equal.
  - rewrite Z.div_add_l, (Z.div_small (be_val l)) by lia.
    unfold is_u8 in Hb. rewrite Z.add_0_r, Z.mod_small; lia.
  - rewrite <- (be_bytes_mod _ (length l)) by lia.
    rewrite Z.add_comm, Z.mod_add, Z.mod_small by lia. done.
Qed.

(** ** Memory objects

    A C object is the list of its bytes; an access outside the list is [UB]. *)
Definition mem_read (d : bytes) (pos n : Z) : res bytes :=
  if (0 <=? pos) && (0 <=? n) && (pos + n <=? Zlen d)
  then Ret (take (Z.to_nat n) (drop (Z.to_nat pos) d)) else UB.

Definition mem_write (d : bytes) (pos : Z) (src : bytes) : res bytes :=
  if (0 <=? pos) && (pos + Zlen src <=? Zlen d)
  then Ret (take (Z.to_nat pos) d ++ src
            ++ drop (Z.to_nat pos + length src) d) else UB.

Definition arr_get {A : Type} (d : list A) (i : Z) : res A :=
  if i <? 0 then UB
  else match d !! Z.to_nat i with Some b => Ret b | None => UB end.

Definition arr_set {A : Type} (d : list A) (i : Z) (v : A) : res (list A) :=
  if (0 <=? i) && (i <? Zlen d) then Ret (<[Z.to_nat i := v]> d) else UB.

Lemma mem_read_ok d pos n :
  0 <= pos -> 0 <= n -> pos + n <= Zlen d ->
  mem_read d pos n = Ret (take (Z.to_nat n) (drop (Z.to_nat pos) d)).
Proof. intros. unfold mem_read. by rewrite !(proj2 (Z.leb_le _ _)) by lia. Qed.

Lemma mem_write_ok d pos src :
  0 <= pos -> pos + Zlen src <= Zlen d ->
  mem_write d pos src =
    Ret (take (Z.to_nat pos) d ++ src ++ drop (Z.to_nat pos + length src) d).
Proof. intros. unfold mem_write. by rewrite !(proj2 (Z.leb_le _ _)) by lia. Qed.

Lemma arr_get_Ret {A} (d : list A) i v :
  arr_get d i = Ret v <-> 0 <= i /\ d !! Z.to_nat i = Some v.
Proof.
  unfold arr_get. destruct (Z.ltb_spec i 0); [split; [done|lia]|].
  destruct (d !! Z.to_nat i); naive_solver.
Qed.

Lemma arr_get_ok {A} (d : list A) i :
  0 <= i < Zlen d -> exists v, arr_get d i = Ret v.
Proof.
  intros H. destruct (lookup_lt_is_Some_2 d (Z.to_nat i)) as [v Hv].
  { unfold Zlen in H. lia. }
  exists v. apply arr_get_Ret. split; [lia|done].
Qed.

Lemma arr_set_ok {A} (d : list A) i v :
  0 <= i < Zlen d -> arr_set d i v = Ret (<[Z.to_nat i := v]> d).
Proof.
  intros H. unfold arr_set.
  by rewrite (proj2 (Z.leb_le _ _)), (proj2 (Z.ltb_lt _ _)) by lia.
Qed.

(** ** Automation *)

(** Case analysis on the boolean tests of a translated body. *)
Ltac btest :=
  match goal with
  | |- context [Z.ltb ?a ?b] => destruct (Z.ltb_spec a b)
  | |- context [Z.leb ?a ?b] => destruct (Z.leb_spec a b)
  | |- context [Z.eqb ?a ?b] => destruct (Z.eqb_spec a b)
  | |- context [Z.gtb ?a ?b] => rewrite (Z.gtb_ltb a b)
  | |- context [Z.geb ?a ?b] => rewrite (Z.geb_leb a b)
  end.
Ltac btest_in H :=
  match type of H with
  | context [Z.ltb ?a ?b] => destruct (Z.ltb_spec a b)
  | context [Z.leb ?a ?b] => destruct (Z.leb_spec a b)
  | context [Z.eqb ?a ?b] => destruct (Z.eqb_spec a b)
  | context [Z.gtb ?a ?b] => rewrite (Z.gtb_ltb a b) in H
  | context [Z.geb ?a ?b] => rewrite (Z.geb_leb a b) in H
  end.
Ltac btests := repeat (btest; cbn [andb orb negb]; try lia).
(** Invert [res_bind m k = Ret b] hypotheses. *)
Ltac res_inv :=
  repeat match goal with
  | H : res_bind _ _ = Ret _ |- _ =>
      apply res_bind_Ret_inv in H; destruct H as (? & ? & ?)
  end; simplify_eq/=.

(** Inversion of one step of a computation that returned. *)
Ltac inv_tuple x :=
  match type of x with
  | (_ * _)%type => let a := fresh "a" in let b := fresh "b" in destruct x as [a b]; inv_tuple a; inv_tuple b
  | _ => idtac
  end.
Ltac inv_step H :=
  lazymatch type of H with
  | res_bind _ _ = Ret _ =>
      let x := fresh "x" in let E := fresh "E" in
      apply res_bind_Ret_inv in H; destruct H as (x & E & H); inv_tuple x; cbv beta iota in H
  | (if ?b then _ else _) = Ret _ => let E := fresh "E" in destruct b eqn:E; try discriminate H
  | match ?x with _ => _ end = Ret _ => let E := fresh "E" in destruct x eqn:E; try discriminate H
  | UB = Ret _ => discriminate H
  | Fatal = Ret _ => discriminate H
  | Ret _ = Ret _ => injection H; clear H; intros; subst
  end.
Ltac inv_steps H := inv_step H; try inv_steps H.
