(* ===== verification/CircList.v ===== *)
(** * Index arithmetic (integer.h) and circular lists (circ_list.h)

    [CIRC_LIST] is a macro that declares a ring of a given element type; here
    it is a record over the element type.  The contract is that the ring is a
    bounded history: its items, newest first, are the last [x_cap] pushed. *)

From S2P Require Import Prelude.

(** ** integer.h *)
Definition clamp_size_to_int (size : Z) : res Z :=
  assert! size <=? INT_MAX in Ret (s32 size).
Definition max_uint (x y : Z) : Z := if y <? x then x else y.
Definition min_uint (x y : Z) : Z := if x <? y then x else y.
Definition min_size (x y : Z) : Z := if x <? y then x else y.
Definition max_int (x y : Z) : Z := if y <? x then x else y.
Definition min_int (x y : Z) : Z := if x <? y then x else y.

Definition constrain_int (x min max : Z) : Z :=
  if max <? min then min
  else if x <? min then min
  else if max <? x then max
  else x.

Definition modulo_subtract (x y mod_ : Z) : res Z :=
  let d1 := x - y in
  let d2 := (if y <? x then - mod_ else mod_) + d1 in
  assert! (0 <=? x) && (x <? mod_) && (0 <=? y) && (y <? mod_) in
  Ret (if Z.abs d2 <? Z.abs d1 then d2 else d1).

Definition modulo_add (x y mod_ : Z) : res Z :=
  let sum := x + y in
  assert! (0 <=? x) && (x <? mod_) && (- mod_ <=? y) && (y <=? mod_) in
  let sum := if mod_ <=? sum then sum - mod_ else sum in
  Ret (if sum <? 0 then sum + mod_ else sum).

(** [while (ret < u) { ret <<= 1; ASSERT (ret > 0); }] on 64-bit [size_t]; the
    assertion stops the loop after at most 64 doublings. *)
Fixpoint adjust_power_of_2_loop (fuel : nat) (ret u : Z) : res Z :=
  if ret <? u then
    match fuel with
    | O => UB
    | S fuel' =>
        let ret := u64 (Z.shiftl ret 1) in
        assert! 0 <? ret in adjust_power_of_2_loop fuel' ret u
    end
  else Ret ret.
Definition adjust_power_of_2 (u : Z) : res Z := adjust_power_of_2_loop 64 1 u.

Definition index_verify (index size : Z) : res Z :=
  if (index <? 0) || (size <=? index) then Fatal else Ret index.

Definition round_down_size (num multiple : Z) : res Z :=
  if multiple =? 0 then UB else Ret (u64 (num / multiple * multiple)).

Lemma modulo_add_spec x y m :
  0 <= x < m -> - m <= y <= m ->
  modulo_add x y m = Ret ((x + y) mod m).
Proof.
  intros Hx Hy. unfold modulo_add.
  rewrite !(proj2 (Z.leb_le _ _)), !(proj2 (Z.ltb_lt _ _)) by lia. cbn [andb].
  f_equal. destruct (Z.leb_spec m (x + y)) as [H|H].
  - rewrite (proj2 (Z.ltb_ge _ _)) by lia.
    apply Z.mod_unique with 1; lia.
  - destruct (Z.ltb_spec (x + y) 0).
    + apply Z.mod_unique with (-1); lia.
    + rewrite Z.mod_small; lia.
Qed.

(** [modulo_subtract] returns the shortest signed distance on the circle:
    congruent to [x - y] and at most half the circumference. *)
Lemma modulo_subtract_spec x y m :
  0 <= x < m -> 0 <= y < m ->
  exists d, modulo_subtract x y m = Ret d /\ (y + d) mod m = x /\ 2 * Z.abs d <= m.
Proof.
  intros Hx Hy. unfold modulo_subtract.
  rewrite !(proj2 (Z.leb_le _ _)), !(proj2 (Z.ltb_lt _ _)) by lia. cbn [andb].
  eexists; split; [reflexivity|].
  assert (E : forall k, (y + (x - y + k * m)) mod m = x).
  { intros k. replace (y + (x - y + k * m)) with (x + k * m) by lia.
    rewrite Z.mod_add, Z.mod_small; lia. }
  destruct (Z.ltb_spec y x);
    match goal with |- context [Z.abs ?a <? Z.abs ?b] =>
      destruct (Z.ltb_spec (Z.abs a) (Z.abs b)) end.
  - split; [|lia]. specialize (E (-1)). rewrite <- E. f_equal. lia.
  - split; [|lia]. specialize (E 0). rewrite <- E. f_equal. lia.
  - split; [|lia]. specialize (E 1). rewrite <- E. f_equal. lia.
  - split; [|lia]. specialize (E 0). rewrite <- E. f_equal. lia.
Qed.

(** ** circ_list.h *)
Record circ_list (A : Type) : Type := mk_circ {
  x_head : Z;
  x_size : Z;
  x_cap : Z;
  x_list : list A
}.
Arguments mk_circ {A}.
Arguments x_head {A}.
Arguments x_size {A}.
Arguments x_cap {A}.
Arguments x_list {A}.

Section CircList.
Context {A : Type}.
Implicit Types (l : circ_list A) (es : list A).

(** The [memset] to zero leaves every item equal to [zero]. *)
Definition CIRC_LIST_ALLOC (zero : A) (size : Z) : circ_list A :=
  mk_circ 0 0 size (replicate (Z.to_nat size) zero).

Definition CIRC_LIST_PUSH l (item : A) : res (circ_list A) :=
  let! h := modulo_add (x_head l) (-1) (x_cap l) in
  let! d := arr_set (x_list l) h item in
  Ret (mk_circ h (min_int (x_size l + 1) (x_cap l)) (x_cap l) d).

Definition CIRC_LIST_SIZE l : Z := x_size l.

Definition CIRC_LIST_INDEX l (index : Z) : res Z :=
  let! i := index_verify (s32 index) (x_size l) in
  modulo_add (x_head l) i (x_cap l).

Definition CIRC_LIST_ITEM l (index : Z) : res A :=
  let! i := CIRC_LIST_INDEX l index in arr_get (x_list l) i.

(** [CIRC_LIST_ITEM (l, index) = v] *)
Definition CIRC_LIST_ITEM_set l (index : Z) (v : A) : res (circ_list A) :=
  let! i := CIRC_LIST_INDEX l index in
  let! d := arr_set (x_list l) i v in
  Ret (mk_circ (x_head l) (x_size l) (x_cap l) d).

Definition CIRC_LIST_RESET l : circ_list A := mk_circ 0 0 (x_cap l) (x_list l).

(** [circ_repr cap l es]: [l] is a ring of [cap] slots that holds [es],
    newest first. *)
Definition circ_slot l (i : Z) : nat := Z.to_nat ((x_head l + i) mod x_cap l).

Definition circ_repr (cap : Z) l es : Prop :=
  x_cap l = cap /\ 0 < cap <= INT_MAX /\ Zlen (x_list l) = cap
  /\ 0 <= x_head l < cap /\ x_size l = Zlen es /\ Zlen es <= cap
  /\ forall i, (i < length es)%nat -> x_list l !! circ_slot l (Z.of_nat i) = es !! i.

Lemma circ_slot_lt cap l es i :
  circ_repr cap l es -> (circ_slot l i < length (x_list l))%nat.
Proof.
  intros (H1 & Hc & Hl & _). subst cap. unfold circ_slot, Zlen in *.
  pose proof (Z.mod_pos_bound (x_head l + i) (x_cap l)). lia.
Qed.

Lemma circ_slot_inj cap l es i j :
  circ_repr cap l es -> 0 <= i < cap -> 0 <= j < cap ->
  circ_slot l i = circ_slot l j -> i = j.
Proof.
  intros (H1 & Hc & _ & Hh & _) Hi Hj. subst cap. unfold circ_slot. intros E.
  pose proof (Z.mod_pos_bound (x_head l + i) (x_cap l)).
  pose proof (Z.mod_pos_bound (x_head l + j) (x_cap l)).
  assert (E' : (x_head l + i) mod x_cap l = (x_head l + j) mod x_cap l) by lia.
  clear E. pose proof (Z.div_mod (x_head l + i) (x_cap l) ltac:(lia)) as D1.
  pose proof (Z.div_mod (x_head l + j) (x_cap l) ltac:(lia)) as D2.
  rewrite E' in D1. revert D1 D2.
  generalize ((x_head l + i) / x_cap l) ((x_head l + j) / x_cap l). intros q1 q2 D1 D2.
  assert (q1 = q2) by nia. subst q2. lia.
Qed.

Lemma CIRC_LIST_ALLOC_repr zero size :
  0 < size <= INT_MAX -> circ_repr size (CIRC_LIST_ALLOC zero size) [].
Proof.
  intros H. unfold circ_repr, CIRC_LIST_ALLOC, Zlen; cbn.
  rewrite length_replicate. repeat split; lia.
Qed.

Lemma CIRC_LIST_RESET_repr cap l es :
  circ_repr cap l es -> circ_repr cap (CIRC_LIST_RESET l) [].
Proof.
  intros (H1 & H2 & H3 & H4 & H5 & H6 & H7).
  unfold circ_repr, CIRC_LIST_RESET, Zlen in *; cbn. repeat split; lia.
Qed.

Lemma CIRC_LIST_PUSH_repr cap l es x :
  circ_repr cap l es ->
  exists l', CIRC_LIST_PUSH l x = Ret l'
             /\ circ_repr cap l' (take (Z.to_nat cap) (x :: es)).
Proof.
  intros Hr. pose proof Hr as (H1 & H2 & H3 & H4 & H5 & H6 & H7).
  unfold CIRC_LIST_PUSH. rewrite H1, modulo_add_spec by lia. cbn [res_bind].
  pose proof (Z.mod_pos_bound (x_head l + -1) cap ltac:(lia)) as Hm.
  rewrite arr_set_ok by lia. cbn [res_bind].
  eexists; split; [reflexivity|].
  unfold circ_repr, circ_slot; cbn [x_cap x_list x_head x_size].
  unfold Zlen in *. rewrite length_insert, length_take. cbn [length].
  unfold min_int. repeat split; try lia.
  { destruct (Z.ltb_spec (x_size l + 1) cap); lia. }
  intros i Hi. rewrite lookup_take_lt by lia.
  destruct i as [|i]; [change ((x :: es) !! 0%nat) with (Some x)
                      |change ((x :: es) !! S i) with (es !! i)].
  - rewrite Z.add_0_r, Z.mod_mod by lia. apply list_lookup_insert_eq. lia.
  - rewrite Z.add_mod_idemp_l by lia.
    replace (x_head l + -1 + Z.of_nat (S i)) with (x_head l + Z.of_nat i) by lia.
    assert (Hi' : (i < length es)%nat) by lia.
    rewrite list_lookup_insert_ne; [rewrite <- (H7 i Hi'); unfold circ_slot; by rewrite H1|].
    intros E. assert (circ_slot l (cap - 1) = circ_slot l (Z.of_nat i)) as E'.
    { unfold circ_slot. rewrite H1, <- E.
      replace (x_head l + (cap - 1)) with (x_head l + -1 + 1 * cap) by lia.
      by rewrite Z.mod_add by lia. }
    apply (circ_slot_inj cap l es) in E'; [lia|done|lia..].
Qed.

Lemma CIRC_LIST_INDEX_repr cap l es i :
  circ_repr cap l es -> 0 <= i < Zlen es ->
  CIRC_LIST_INDEX l i = Ret (Z.of_nat (circ_slot l i)).
Proof.
  intros (H1 & H2 & H3 & H4 & H5 & H6 & _) Hi. unfold CIRC_LIST_INDEX, index_verify.
  rewrite s32_id by (unfold is_int, INT_MIN, INT_MAX in *; lia).
  rewrite H5, (proj2 (Z.ltb_ge _ _)), (proj2 (Z.leb_gt _ _)) by lia. cbn.
  rewrite H1, modulo_add_spec by lia. unfold circ_slot. rewrite H1.
  pose proof (Z.mod_pos_bound (x_head l + i) cap ltac:(lia)). f_equal. lia.
Qed.

Lemma CIRC_LIST_ITEM_repr cap l es i x :
  circ_repr cap l es -> 0 <= i -> es !! Z.to_nat i = Some x ->
  CIRC_LIST_ITEM l i = Ret x.
Proof.
  intros Hr Hi Hx. pose proof (lookup_lt_Some _ _ _ Hx) as Hlt.
  unfold CIRC_LIST_ITEM.
  rewrite (CIRC_LIST_INDEX_repr _ _ _ _ Hr) by (unfold Zlen; lia). cbn.
  apply arr_get_Ret. split; [lia|]. rewrite Nat2Z.id.
  destruct Hr as (_ & _ & _ & _ & _ & _ & H7).
  specialize (H7 _ Hlt). rewrite Z2Nat.id in H7 by lia. congruence.
Qed.

Lemma CIRC_LIST_ITEM_set_repr cap l es i x :
  circ_repr cap l es -> 0 <= i < Zlen es ->
  exists l', CIRC_LIST_ITEM_set l i x = Ret l'
             /\ circ_repr cap l' (<[Z.to_nat i := x]> es).
Proof.
  intros Hr Hi. pose proof Hr as (H1 & H2 & H3 & H4 & H5 & H6 & H7).
  unfold CIRC_LIST_ITEM_set. rewrite (CIRC_LIST_INDEX_repr _ _ _ _ Hr) by lia.
  cbn [res_bind]. pose proof (circ_slot_lt cap l es i Hr) as Hs.
  rewrite arr_set_ok by (unfold Zlen; lia). cbn [res_bind].
  eexists; split; [reflexivity|].
  unfold circ_repr, circ_slot; cbn [x_cap x_list x_head x_size].
  unfold Zlen in *. rewrite !length_insert. repeat split; try lia.
  intros j Hj. rewrite Nat2Z.id.
  fold (circ_slot l i). fold (circ_slot l (Z.of_nat j)).
  destruct (decide (j = Z.to_nat i)) as [->|Hne].
  - rewrite Z2Nat.id by lia. rewrite !list_lookup_insert_eq by lia. done.
  - rewrite (list_lookup_insert_ne es) by lia.
    rewrite list_lookup_insert_ne; [by apply H7|].
    intros E. apply (circ_slot_inj cap l es) in E; [lia|done|lia..].
Qed.
End CircList.
