(* ===== verification/Buffer.v ===== *)
(** * struct buffer (buffer.h, buffer.c)

    The data object of a buffer is the list of its bytes, [None] for a NULL
    pointer; pointers into it are indices.  Bodies that touch the bytes live in
    [res], so that an access outside the object is visible as [UB].  The last
    part states the abstract contract: a well-formed buffer is a byte string
    ([contents]) with some free space before and after it, and every operation
    is the corresponding operation on that string. *)

From S2P Require Import Prelude.

Definition BUF_SIZE_MAX : Z := 1000000.

Record buffer : Type := mk_buffer {
  b_capacity : Z;
  b_offset : Z;
  b_len : Z;
  b_data : option bytes
}.

Definition set_window (b : buffer) (off n : Z) : buffer :=
  mk_buffer (b_capacity b) off n (b_data b).
Definition set_data (b : buffer) (d : bytes) : buffer :=
  mk_buffer (b_capacity b) (b_offset b) (b_len b) (Some d).

Definition clear_buf : buffer := mk_buffer 0 0 0 None.
Definition buf_defined (b : buffer) : bool :=
  match b_data b with Some _ => true | None => false end.
Definition buf_valid (b : buffer) : bool := buf_defined b && (0 <=? b_len b).
Definition buf_bptr (b : buffer) : option Z :=
  if buf_valid b then Some (b_offset b) else None.
Definition buf_len (b : buffer) : Z := if buf_valid b then b_len b else 0.
Definition buf_blast (b : buffer) : option Z :=
  if 0 <? buf_len b then (p ← buf_bptr b; Some (p + buf_len b - 1)) else None.
(** The argument is a [size_t]. *)
Definition buf_size_valid (size : Z) : bool := size <? BUF_SIZE_MAX.
Definition buf_size_valid_signed (size : Z) : bool :=
  (- BUF_SIZE_MAX <=? size) && (size <? BUF_SIZE_MAX).
Definition buf_reset (b : buffer) : buffer := mk_buffer 0 0 0 None.
Definition buf_reset_len (b : buffer) : buffer := set_window b 0 0.

Definition buf_init_dowork (b : buffer) (offset : Z) : bool * buffer :=
  if (offset <? 0) || (b_capacity b <? offset) || negb (buf_defined b)
  then (false, b)
  else (true, set_window b offset 0).

(** [data] is the caller's array of [size] bytes ([None] for NULL). *)
Definition buf_set_write (data : option bytes) (size : Z) : res buffer :=
  if negb (buf_size_valid (u64 size)) then Fatal
  else match data with
       | Some d =>
           if 0 <? size
           then let! d' := arr_set d 0 0 in Ret (mk_buffer size 0 0 (Some d'))
           else Ret (mk_buffer size 0 0 data)
       | None => Ret (mk_buffer size 0 0 data)
       end.

Definition buf_set_read (data : option bytes) (size : Z) : res buffer :=
  if negb (buf_size_valid size) then Fatal
  else Ret (mk_buffer size 0 size data).

(** ** Allocation *)

(** [msg (M_FATAL, ...)] leaves the process. *)
Definition array_mult_safe (m1 m2 extra : Z) : res Z :=
  let limit := 0xFFFFFFFF in
  let r := u64 (u64 (m1 * m2) + extra) in
  if (limit <? m1) || (limit <? m2) || (limit <? extra) || (limit <? r)
  then Fatal else Ret r.

Definition alloc_buf (size : Z) : res buffer :=
  if negb (buf_size_valid size) then Fatal
  else Ret (mk_buffer size 0 0 (Some (replicate (Z.to_nat size) 0))).

(** [junk] is the block [gc_malloc] hands out, not cleared. *)
Definition alloc_buf_gc (junk : bytes) : res buffer :=
  let size := Zlen junk in
  if negb (buf_size_valid size) then Fatal
  else let! d := (if negb (size =? 0) then arr_set junk 0 0 else Ret junk) in
       Ret (mk_buffer size 0 0 (Some d)).

Definition free_buf (b : buffer) : buffer := clear_buf.

(** The bytes [BPTR (b)[0 .. BLEN (b) - 1]] that a caller passes on. *)
Definition buf_bytes (b : buffer) : res bytes :=
  match b_data b with
  | Some d => if 0 <=? b_len b then mem_read d (b_offset b) (b_len b) else Ret []
  | None => Ret []
  end.

(** Store [src] at index [p] of the data object. *)
Definition buf_poke (b : buffer) (p : Z) (src : bytes) : res buffer :=
  match b_data b with
  | Some d => let! d' := mem_write d p src in Ret (set_data b d')
  | None => UB
  end.

Definition buf_peek (b : buffer) (p n : Z) : res bytes :=
  match b_data b with Some d => mem_read d p n | None => UB end.

(** [junk] is the uninitialised block [malloc (buf->capacity)] returns. *)
Definition clone_buf (b : buffer) (junk : bytes) : res buffer :=
  let ret := mk_buffer (b_capacity b) (b_offset b) (b_len b) (Some junk) in
  let! src := buf_bytes b in
  if buf_valid b then buf_poke ret (b_offset b) src else Ret ret.

Definition buf_clear (b : buffer) : res buffer :=
  if 0 <? b_capacity b
  then let! b' := buf_poke b 0 (replicate (Z.to_nat (b_capacity b)) 0) in
       Ret (set_window b' 0 0)
  else Ret (set_window b 0 0).

(** ** Capacity tests *)
Definition buf_safe (b : buffer) (n : Z) : bool :=
  buf_valid b && buf_size_valid n
  && (b_offset b + b_len b + s32 n <=? b_capacity b).

Definition buf_safe_bidir (b : buffer) (n : Z) : bool :=
  if buf_valid b && buf_size_valid_signed n
  then let newlen := b_len b + n in
       (0 <=? newlen) && (b_offset b + newlen <=? b_capacity b)
  else false.

Definition buf_forward_capacity (b : buffer) : Z :=
  if buf_valid b
  then let ret := b_capacity b - (b_offset b + b_len b) in
       if ret <? 0 then 0 else ret
  else 0.

Definition buf_forward_capacity_total (b : buffer) : Z :=
  if buf_valid b
  then let ret := b_capacity b - b_offset b in
       if ret <? 0 then 0 else ret
  else 0.

Definition buf_reverse_capacity (b : buffer) : Z :=
  if buf_valid b then b_offset b else 0.

Definition buf_inc_len (b : buffer) (inc : Z) : bool * buffer :=
  if negb (buf_safe_bidir b inc) then (false, b)
  else (true, set_window b (b_offset b) (b_len b + inc)).

(** ** Windows: prepend, advance, allocate *)
Definition buf_prepend (b : buffer) (size : Z) : option Z * buffer :=
  if negb (buf_valid b) || (size <? 0) || (b_offset b <? size)
  then (None, b)
  else let b' := set_window b (b_offset b - size) (b_len b + size) in
       (buf_bptr b', b').

Definition buf_advance (b : buffer) (size : Z) : bool * buffer :=
  if negb (buf_valid b) || (size <? 0) || (b_len b <? size)
  then (false, b)
  else (true, set_window b (b_offset b + size) (b_len b - size)).

Definition buf_write_alloc (b : buffer) (size : Z) : option Z * buffer :=
  if negb (buf_safe b size) then (None, b)
  else (p ← buf_bptr b; Some (p + b_len b),
        set_window b (b_offset b) (b_len b + s32 size)).

Definition buf_write_alloc_prepend (b : buffer) (size : Z) (prepend : bool)
  : option Z * buffer :=
  if prepend then buf_prepend b size else buf_write_alloc b (u64 size).

Definition buf_read_alloc (b : buffer) (size : Z) : option Z * buffer :=
  if (size <? 0) || (b_len b <? size) then (None, b)
  else (buf_bptr b, set_window b (b_offset b + size) (b_len b - size)).

(** A buffer for write that is a subset of another one: the result shares the
    data object of its parent, here as the index of its first byte. *)
Record sub_buffer : Type := mk_sub { sub_capacity : Z; sub_base : option Z }.

Definition buf_sub (b : buffer) (size : Z) (prepend : bool) : sub_buffer * buffer :=
  let '(p, b') := if prepend then buf_prepend b size
                  else buf_write_alloc b (u64 size) in
  match p with
  | Some i => (mk_sub size (Some i), b')
  | None => (mk_sub 0 None, b')
  end.

(** ** Writing *)
Definition buf_write (dest : buffer) (src : bytes) : res (bool * buffer) :=
  let '(cp, dest') := buf_write_alloc dest (Zlen src) in
  match cp with
  | None => Ret (false, dest')
  | Some p => let! d := buf_poke dest' p src in Ret (true, d)
  end.

Definition buf_write_prepend (dest : buffer) (src : bytes) : res (bool * buffer) :=
  let '(cp, dest') := buf_prepend dest (Zlen src) in
  match cp with
  | None => Ret (false, dest')
  | Some p => let! d := buf_poke dest' p src in Ret (true, d)
  end.

Definition buf_write_u8 (dest : buffer) (x : Z) : res (bool * buffer) :=
  buf_write dest [u8 x].
Definition buf_write_u16 (dest : buffer) (x : Z) : res (bool * buffer) :=
  buf_write dest (be_bytes 2 x).
Definition buf_write_u32 (dest : buffer) (x : Z) : res (bool * buffer) :=
  buf_write dest (be_bytes 4 x).

Definition buf_copy (dest src : buffer) : res (bool * buffer) :=
  let! s := buf_bytes src in buf_write dest s.

Definition buf_copy_n (dest src : buffer) (n : Z) : res (bool * buffer * buffer) :=
  let '(cp, src') := buf_read_alloc src n in
  match cp with
  | None => Ret (false, dest, src')
  | Some p => let! s := buf_peek src' p n in
              let! (ok, dest') := buf_write dest s in
              Ret (ok, dest', src')
  end.

Definition buf_copy_range (dest : buffer) (dest_index : Z) (src : buffer)
    (src_index src_len : Z) : res (bool * buffer) :=
  if (src_index <? 0) || (src_len <? 0) || (b_len src <? src_index + src_len)
     || (dest_index <? 0)
     || (b_capacity dest <? b_offset dest + dest_index + src_len)
  then Ret (false, dest)
  else
    let! s := buf_peek src (b_offset src + src_index) src_len in
    let! d := buf_poke dest (b_offset dest + dest_index) s in
    Ret (true, if b_len d <? dest_index + src_len
               then set_window d (b_offset d) (dest_index + src_len) else d).

(** Truncate [src] to [n] bytes and copy the excess to [dest]. *)
Definition buf_copy_excess (dest src : buffer) (n : Z) : res (bool * buffer * buffer) :=
  if n <? 0 then Ret (false, dest, src)
  else if n <? b_len src then
    let src' := set_window src (b_offset src) n in
    let '(ok, b) := buf_advance src n in
    if negb ok then Ret (false, dest, src')
    else let! (ok', dest') := buf_copy dest b in Ret (ok', dest', src')
  else Ret (true, dest, src).

Definition buf_assign (dest src : buffer) : res (bool * buffer) :=
  let '(ok, dest') := buf_init_dowork dest (b_offset src) in
  if negb ok then Ret (false, dest')
  else let! s := buf_bytes src in buf_write dest' s.

(** ** Reading *)
Definition buf_read (src : buffer) (size : Z) : res (option bytes * buffer) :=
  let '(cp, src') := buf_read_alloc src size in
  match cp with
  | None => Ret (None, src')
  | Some p => let! s := buf_peek src' p size in Ret (Some s, src')
  end.

Definition buf_read_u8 (b : buffer) : res (Z * buffer) :=
  if buf_len b <? 1 then Ret (-1, b)
  else let! c := buf_peek b (b_offset b) 1 in
       let '(_, b') := buf_advance b 1 in
       Ret (be_val c, b').

Definition buf_read_u16 (b : buffer) : res (Z * buffer) :=
  let! (r, b') := buf_read b 2 in
  match r with None => Ret (-1, b') | Some s => Ret (be_val s, b') end.

(** The second component is [*good]. *)
Definition buf_read_u32 (b : buffer) : res (Z * bool * buffer) :=
  let! (r, b') := buf_read b 4 in
  match r with
  | None => Ret (0, false, b')
  | Some s => Ret (be_val s, true, b')
  end.

(** ** Comparison *)
Definition memcmp_eq (a b : bytes) : bool := bool_decide (a = b).

Definition buf_equal (a b : buffer) : res bool :=
  if buf_len a =? buf_len b
  then let! x := buf_bytes a in let! y := buf_bytes b in Ret (memcmp_eq x y)
  else Ret false.

(** [match_] is the array of [size] bytes the caller compares with. *)
Definition buf_string_match (src : buffer) (match_ : bytes) : res bool :=
  if negb (Zlen match_ =? b_len src) then Ret false
  else let! s := buf_peek src (b_offset src) (Zlen match_) in
       Ret (memcmp_eq s match_).

Definition buf_string_match_head (src : buffer) (match_ : bytes) : res bool :=
  if (Zlen match_ <? 0) || (b_len src <? Zlen match_) then Ret false
  else let! s := buf_peek src (b_offset src) (Zlen match_) in
       Ret (memcmp_eq s match_).

(** [match_] is a C string without its terminating NUL. *)
Definition buf_string_match_head_str (src : buffer) (match_ : bytes) : res bool :=
  if u64 (b_len src) <? Zlen match_ then Ret false
  else let! s := buf_peek src (b_offset src) (Zlen match_) in
       Ret (memcmp_eq s match_).

Definition buf_string_compare_advance (src : buffer) (match_ : bytes)
  : res (bool * buffer) :=
  let! m := buf_string_match_head_str src match_ in
  if m then let '(_, src') := buf_advance src (Zlen match_) in Ret (true, src')
  else Ret (false, src).

(** ** The contract

    [buf_repr b h c t]: [b] holds the byte string [c] with [h] free bytes in
    front of it and [t] free bytes behind it, all inside its data object. *)
Definition buf_split (b : buffer) (pre c post : bytes) : Prop :=
  b_data b = Some (pre ++ c ++ post)
  /\ b_offset b = Zlen pre /\ b_len b = Zlen c
  /\ b_capacity b = Zlen pre + Zlen c + Zlen post
  /\ b_capacity b < BUF_SIZE_MAX
  /\ bytes_ok pre /\ bytes_ok c /\ bytes_ok post.

Definition buf_repr (b : buffer) (h : Z) (c : bytes) (t : Z) : Prop :=
  exists pre post, buf_split b pre c post /\ h = Zlen pre /\ t = Zlen post.

Definition contents (b : buffer) : bytes :=
  match b_data b with
  | Some d => take (Z.to_nat (b_len b)) (drop (Z.to_nat (b_offset b)) d)
  | None => []
  end.

(** The invariant the constructors establish and the operations keep. *)
Definition buf_wf (b : buffer) : Prop :=
  match b_data b with
  | Some d => Zlen d = b_capacity b /\ b_capacity b < BUF_SIZE_MAX
              /\ 0 <= b_offset b /\ 0 <= b_len b
              /\ b_offset b + b_len b <= b_capacity b /\ bytes_ok d
  | None => b = clear_buf
  end.

#[global] Hint Unfold buf_repr : ovpn.

Lemma bytes_ok_app l k : bytes_ok (l ++ k) <-> bytes_ok l /\ bytes_ok k.
Proof. apply Forall_app. Qed.

Lemma Zlen_take_drop {A} (l : list A) n :
  0 <= n <= Zlen l ->
  Zlen (take (Z.to_nat n) l) = n /\ Zlen (drop (Z.to_nat n) l) = Zlen l - n.
Proof. unfold Zlen. intros. rewrite length_take, length_drop. lia. Qed.

Lemma to_nat_Zlen {A} (l : list A) : Z.to_nat (Zlen l) = length l.
Proof. unfold Zlen. lia. Qed.

Lemma buf_wf_repr b :
  buf_wf b -> b_data b <> None ->
  buf_repr b (b_offset b) (contents b) (b_capacity b - b_offset b - b_len b).
Proof.
  unfold buf_wf, contents. intros Hwf Hd.
  destruct (b_data b) as [d|] eqn:E; [|done].
  destruct Hwf as (Hl & Hm & Ho & Hn & Hon & Hb).
  destruct (Zlen_take_drop d (b_offset b)) as [Hpre Hrest]; [lia|].
  destruct (Zlen_take_drop (drop (Z.to_nat (b_offset b)) d) (b_len b))
    as [Hc Hpost]; [lia|].
  eexists (take (Z.to_nat (b_offset b)) d), _.
  unfold buf_split. rewrite E.
  split; [split; [by rewrite !take_drop|]|split; [done|]].
  - rewrite Hpre, Hc, Hpost. repeat split; try lia.
    all: unfold bytes_ok; auto using Forall_take, Forall_drop.
  - lia.
Qed.

Lemma buf_repr_wf b h c t : buf_repr b h c t -> buf_wf b.
Proof.
  intros (pre & post & (Hd & Ho & Hl & Hc & Hm & H1 & H2 & H3) & _ & _).
  unfold buf_wf. rewrite Hd, !Zlen_app, !bytes_ok_app.
  pose proof (Zlen_nonneg pre). pose proof (Zlen_nonneg c).
  pose proof (Zlen_nonneg post). naive_solver lia.
Qed.

Lemma buf_repr_contents b h c t : buf_repr b h c t -> contents b = c.
Proof.
  intros (pre & post & (Hd & Ho & Hl & _) & _ & _).
  unfold contents. rewrite Hd, Ho, Hl, !to_nat_Zlen.
  rewrite drop_app_length, take_app_length. done.
Qed.

Lemma buf_repr_fields b h c t :
  buf_repr b h c t ->
  b_offset b = h /\ b_len b = Zlen c /\ b_capacity b = h + Zlen c + t
  /\ 0 <= h /\ 0 <= t /\ h + Zlen c + t < BUF_SIZE_MAX /\ bytes_ok c
  /\ b_data b <> None.
Proof.
  intros (pre & post & (Hd & Ho & Hl & Hc & Hm & H1 & H2 & H3) & -> & ->).
  pose proof (Zlen_nonneg pre). pose proof (Zlen_nonneg post).
  repeat split; try lia; congruence.
Qed.

Lemma buf_repr_valid b h c t :
  buf_repr b h c t -> buf_valid b = true /\ buf_defined b = true.
Proof.
  intros (pre & post & (Hd & _ & Hl & _) & _).
  unfold buf_valid, buf_defined. rewrite Hd, Hl.
  pose proof (Zlen_nonneg c). by btests.
Qed.

Ltac buf_facts H :=
  destruct (buf_repr_fields _ _ _ _ H)
    as (Foff & Flen & Fcap & Fh & Ft & Fmax & Fok & Fdata);
  destruct (buf_repr_valid _ _ _ _ H) as [Fvalid Fdef];
  unfold BUF_SIZE_MAX in *.

(** Storing [src] over the bytes [old] of the data object. *)
Lemma buf_poke_split b l old r src :
  b_data b = Some (l ++ old ++ r) -> Zlen src = Zlen old ->
  buf_poke b (Zlen l) src = Ret (set_data b (l ++ src ++ r)).
Proof.
  intros Hd Hs. unfold buf_poke. rewrite Hd.
  pose proof (Zlen_nonneg l). pose proof (Zlen_nonneg r).
  rewrite mem_write_ok; [|done|rewrite !Zlen_app; lia]. cbn [res_bind].
  unfold Zlen in Hs.
  rewrite to_nat_Zlen, take_app_length, (app_assoc l old r).
  replace (length l + length src)%nat with (length (l ++ old))
    by (rewrite length_app; lia).
  by rewrite drop_app_length.
Qed.

Lemma buf_peek_split b l m r :
  b_data b = Some (l ++ m ++ r) -> buf_peek b (Zlen l) (Zlen m) = Ret m.
Proof.
  intros Hd. unfold buf_peek. rewrite Hd.
  pose proof (Zlen_nonneg l). pose proof (Zlen_nonneg m). pose proof (Zlen_nonneg r).
  rewrite mem_read_ok; [|done|done|rewrite !Zlen_app; lia].
  by rewrite !to_nat_Zlen, drop_app_length, take_app_length.
Qed.

Lemma split_at {A} (l : list A) n :
  0 <= n <= Zlen l ->
  exists a b, l = a ++ b /\ Zlen a = n /\ Zlen b = Zlen l - n
              /\ a = take (Z.to_nat n) l /\ b = drop (Z.to_nat n) l.
Proof.
  intros H. exists (take (Z.to_nat n) l), (drop (Z.to_nat n) l).
  rewrite take_drop. pose proof (Zlen_take_drop l n H). naive_solver.
Qed.

Lemma buf_bytes_repr b h c t : buf_repr b h c t -> buf_bytes b = Ret c.
Proof.
  intros (pre & post & (Hd & Ho & Hl & _) & _ & _).
  pose proof (buf_peek_split b pre c post Hd) as Hp.
  unfold buf_peek in Hp. unfold buf_bytes. rewrite Hd in *.
  rewrite Ho, Hl. pose proof (Zlen_nonneg c).
  rewrite (proj2 (Z.leb_le _ _)) by lia. exact Hp.
Qed.

(** ** Behaviour of the operations under the contract *)
Section Operations.
Context (b : buffer) (h : Z) (c : bytes) (t : Z).
Context (Hb : buf_repr b h c t).

Lemma buf_len_repr : buf_len b = Zlen c.
Proof. buf_facts Hb. unfold buf_len. by rewrite Fvalid. Qed.

Lemma buf_forward_capacity_repr : buf_forward_capacity b = t.
Proof. buf_facts Hb. unfold buf_forward_capacity. rewrite Fvalid. btests; lia. Qed.

Lemma buf_safe_repr n : 0 <= n -> buf_safe b n = (n <=? t).
Proof.
  intros Hn. buf_facts Hb. unfold buf_safe, buf_size_valid, BUF_SIZE_MAX.
  rewrite Fvalid. pose proof (Zlen_nonneg c). cbn [andb].
  destruct (Z.ltb_spec n 1000000); cbn [andb].
  - rewrite s32_id by (unfold is_int, INT_MIN, INT_MAX; lia). btests; done.
  - btests; done.
Qed.

(** Appending succeeds exactly when the bytes fit behind the contents. *)
Lemma buf_write_repr src :
  bytes_ok src -> Zlen src <= t ->
  exists b', buf_write b src = Ret (true, b')
             /\ buf_repr b' h (c ++ src) (t - Zlen src).
Proof using Hb.
  intros Hs Hfit. unfold buf_write, buf_write_alloc.
  pose proof (buf_safe_repr (Zlen src) (Zlen_nonneg _)) as E.
  rewrite (proj2 (Z.leb_le _ _)) in E by lia. rewrite E. clear E. cbn [negb].
  buf_facts Hb. unfold buf_bptr. rewrite Fvalid. cbn.
  destruct Hb as (pre & post & Hsp & -> & ->).
  destruct Hsp as (Hd & Ho & Hl & Hc & Hm & O1 & O2 & O3).
  destruct (split_at post (Zlen src)) as (old & r & Hp & L1 & L2 & _);
    [pose proof (Zlen_nonneg src); lia|].
  rewrite s32_id by (unfold is_int, INT_MIN, INT_MAX; pose proof (Zlen_nonneg src);
    pose proof (Zlen_nonneg c); lia).
  set (w := set_window _ _ _).
  assert (Hw : b_data w = Some ((pre ++ c) ++ old ++ r)).
  { subst w. cbn. rewrite Hd, Hp. by rewrite <- app_assoc. }
  rewrite Ho, Hl. rewrite <- Zlen_app.
  rewrite (buf_poke_split w _ old r src Hw) by lia. cbn [res_bind].
  eexists; split; [reflexivity|].
  exists pre, r. split; [|split; [done|lia]].
  subst post. apply bytes_ok_app in O3 as [O3 O4].
  unfold buf_split, set_data; cbn.
  rewrite Zlen_app in *. rewrite !bytes_ok_app, <- !app_assoc.
  repeat split; try done; try lia.
Qed.

Lemma buf_write_full src : t < Zlen src -> buf_write b src = Ret (false, b).
Proof using Hb.
  intros Hfit. unfold buf_write, buf_write_alloc.
  pose proof (buf_safe_repr (Zlen src) (Zlen_nonneg _)) as E.
  rewrite (proj2 (Z.leb_gt _ _)) in E by lia. by rewrite E.
Qed.

Lemma buf_write_prepend_repr src :
  bytes_ok src -> Zlen src <= h ->
  exists b', buf_write_prepend b src = Ret (true, b')
             /\ buf_repr b' (h - Zlen src) (src ++ c) t.
Proof using Hb.
  intros Hs Hfit. buf_facts Hb. unfold buf_write_prepend, buf_prepend.
  pose proof (Zlen_nonneg src). pose proof (Zlen_nonneg c).
  rewrite Fvalid, Foff, (proj2 (Z.ltb_ge _ _)), (proj2 (Z.ltb_ge _ _)) by lia.
  cbn [negb orb].
  destruct Hb as (pre & post & Hsp & -> & ->).
  destruct Hsp as (Hd & Ho & Hl & Hc & Hm & O1 & O2 & O3).
  destruct (split_at pre (Zlen pre - Zlen src)) as (l & old & Hp & L1 & L2 & _); [lia|].
  set (w := set_window _ _ _).
  assert (Hw : b_data w = Some (l ++ old ++ (c ++ post))).
  { subst w. cbn. rewrite Hd, Hp. by rewrite <- app_assoc. }
  assert (Hbp : buf_bptr w = Some (Zlen l)).
  { unfold buf_bptr, buf_valid, buf_defined. rewrite Hw. subst w. cbn.
    rewrite (proj2 (Z.leb_le _ _)) by lia. f_equal. lia. }
  rewrite Hbp, (buf_poke_split w l old _ src Hw) by lia. cbn [res_bind].
  eexists; split; [reflexivity|].
  exists l, post. split; [|split; [lia|done]].
  subst pre. apply bytes_ok_app in O1 as [O1 O4].
  unfold buf_split, set_data; cbn. rewrite !Zlen_app in *.
  rewrite !bytes_ok_app, <- !app_assoc. repeat split; try done; lia.
Qed.

Lemma buf_write_prepend_full src :
  h < Zlen src -> buf_write_prepend b src = Ret (false, b).
Proof using Hb.
  intros. buf_facts Hb. unfold buf_write_prepend, buf_prepend.
  rewrite Fvalid. by btests.
Qed.

Lemma buf_advance_repr n :
  0 <= n <= Zlen c ->
  exists b', buf_advance b n = (true, b')
             /\ buf_repr b' (h + n) (drop (Z.to_nat n) c) t.
Proof using Hb.
  intros Hn. buf_facts Hb. unfold buf_advance. rewrite Fvalid.
  rewrite (proj2 (Z.ltb_ge _ _)), (proj2 (Z.ltb_ge _ _)) by lia. cbn [negb orb].
  eexists; split; [reflexivity|].
  destruct Hb as (pre & post & Hsp & -> & ->).
  destruct Hsp as (Hd & Ho & Hl & Hc & Hm & O1 & O2 & O3).
  destruct (split_at c n Hn) as (x & y & Hp & L1 & L2 & _ & Hy).
  rewrite <- Hy. exists (pre ++ x), post.
  split; [|split; [rewrite Zlen_app; lia|done]].
  subst c. apply bytes_ok_app in O2 as [O2 O4]. rewrite !Zlen_app in *.
  unfold buf_split, set_window; cbn. rewrite Hd, !bytes_ok_app, !Zlen_app.
  repeat split; try done; try lia. by rewrite <- !app_assoc.
Qed.

Lemma buf_advance_short n : Zlen c < n -> buf_advance b n = (false, b).
Proof using Hb.
  intros Hn. buf_facts Hb. unfold buf_advance. rewrite Fvalid. by btests.
Qed.

Lemma buf_read_repr n :
  0 <= n <= Zlen c ->
  exists b', buf_read b n = Ret (Some (take (Z.to_nat n) c), b')
             /\ buf_repr b' (h + n) (drop (Z.to_nat n) c) t.
Proof using Hb.
  intros Hn. destruct (buf_advance_repr n Hn) as (b' & Ha & Hr).
  buf_facts Hb. unfold buf_advance in Ha. unfold buf_read, buf_read_alloc.
  rewrite Fvalid in Ha.
  rewrite (proj2 (Z.ltb_ge _ _)), (proj2 (Z.ltb_ge _ _)) in * by lia.
  cbn [negb orb] in *. injection Ha as Ha. rewrite Ha.
  unfold buf_bptr. rewrite Fvalid.
  destruct Hb as (pre & post & (Hd & Ho & _) & -> & ->).
  destruct (split_at c n Hn) as (x & y & Hp & L1 & _ & Hx & _).
  assert (Hd' : b_data b' = Some (pre ++ x ++ (y ++ post))).
  { rewrite <- Ha. cbn. rewrite Hd, Hp. by rewrite <- !app_assoc. }
  pose proof (buf_peek_split b' pre x _ Hd') as Hpk. rewrite L1 in Hpk.
  rewrite Ho, Hpk. cbn [res_bind]. rewrite <- Hx. eauto.
Qed.

Lemma buf_read_short n : Zlen c < n -> buf_read b n = Ret (None, b).
Proof using Hb.
  intros Hn. buf_facts Hb. unfold buf_read, buf_read_alloc. by btests.
Qed.

Lemma buf_read_u8_empty : c = [] -> buf_read_u8 b = Ret (-1, b).
Proof using Hb. intros E. unfold buf_read_u8. rewrite buf_len_repr, E. done. Qed.
End Operations.

Lemma buf_read_u8_cons b h x c t :
  buf_repr b h (x :: c) t ->
  exists b', buf_read_u8 b = Ret (x, b') /\ buf_repr b' (h + 1) c t.
Proof.
  intros Hb. unfold buf_read_u8. rewrite (buf_len_repr _ _ _ _ Hb), Zlen_cons.
  pose proof (Zlen_nonneg c). rewrite (proj2 (Z.ltb_ge _ _)) by lia.
  destruct (buf_advance_repr _ _ _ _ Hb 1) as (b' & Ha & Hr);
    [rewrite Zlen_cons; lia|].
  rewrite Ha. destruct Hb as (pre & post & (Hd & Ho & _) & _).
  rewrite Ho. pose proof (buf_peek_split b pre [x] (c ++ post) Hd) as Hp.
  change (Zlen [x]) with 1 in Hp. rewrite Hp. cbn [res_bind be_val].
  replace (x * 256 ^ Zlen (@nil Z) + 0) with x
    by (change (256 ^ Zlen (@nil Z)) with 1; lia).
  eauto.
Qed.

(** ** Refinement: a buffer is a bounded double-ended byte queue *)
Module Deque.
Record deque : Type := mk_deque { head_room : Z; queue : bytes; tail_room : Z }.

Inductive op : Type :=
| Write (src : bytes)
| WritePrepend (src : bytes)
| Advance (n : Z)
| Read (n : Z)
| ReadU8
| Truncate (n : Z)  (** [buf_inc_len (b, -n)] *).

Inductive reply : Type :=
| RBool (r : bool)
| RBytes (r : option bytes)
| RInt (r : Z).

Definition op_ok (o : op) : Prop :=
  match o with
  | Write src | WritePrepend src => bytes_ok src
  | Advance n | Read n => is_int n
  | ReadU8 => True
  | Truncate n => 0 <= n <= INT_MAX
  end.

(** What the caller may rely on. *)
Definition spec (q : deque) (o : op) : reply * deque :=
  let '(mk_deque h c t) := q in
  match o with
  | Write src =>
      if Zlen src <=? t then (RBool true, mk_deque h (c ++ src) (t - Zlen src))
      else (RBool false, q)
  | WritePrepend src =>
      if Zlen src <=? h then (RBool true, mk_deque (h - Zlen src) (src ++ c) t)
      else (RBool false, q)
  | Advance n =>
      if (0 <=? n) && (n <=? Zlen c)
      then (RBool true, mk_deque (h + n) (drop (Z.to_nat n) c) t)
      else (RBool false, q)
  | Read n =>
      if (0 <=? n) && (n <=? Zlen c)
      then (RBytes (Some (take (Z.to_nat n) c)),
            mk_deque (h + n) (drop (Z.to_nat n) c) t)
      else (RBytes None, q)
  | ReadU8 =>
      match c with
      | [] => (RInt (-1), q)
      | x :: c' => (RInt x, mk_deque (h + 1) c' t)
      end
  | Truncate n =>
      if n <=? Zlen c
      then (RBool true, mk_deque h (take (length c - Z.to_nat n) c) (t + n))
      else (RBool false, q)
  end.

(** What the code does. *)
Definition exec (b : buffer) (o : op) : res (reply * buffer) :=
  match o with
  | Write src => let! (r, b') := buf_write b src in Ret (RBool r, b')
  | WritePrepend src => let! (r, b') := buf_write_prepend b src in Ret (RBool r, b')
  | Advance n => let '(r, b') := buf_advance b n in Ret (RBool r, b')
  | Read n => let! (r, b') := buf_read b n in Ret (RBytes r, b')
  | ReadU8 => let! (r, b') := buf_read_u8 b in Ret (RInt r, b')
  | Truncate n => let '(r, b') := buf_inc_len b (- n) in Ret (RBool r, b')
  end.

Fixpoint spec_run (q : deque) (os : list op) : list reply * deque :=
  match os with
  | [] => ([], q)
  | o :: os' => let '(r, q') := spec q o in
                let '(rs, q'') := spec_run q' os' in (r :: rs, q'')
  end.

Fixpoint exec_run (b : buffer) (os : list op) : res (list reply * buffer) :=
  match os with
  | [] => Ret ([], b)
  | o :: os' => let! (r, b') := exec b o in
                let! (rs, b'') := exec_run b' os' in Ret (r :: rs, b'')
  end.

Definition models (q : deque) (b : buffer) : Prop :=
  buf_repr b (head_room q) (queue q) (tail_room q).

Lemma truncate_repr b h c t n :
  buf_repr b h c t -> 0 <= n <= Zlen c ->
  exists b', buf_inc_len b (- n) = (true, b')
             /\ buf_repr b' h (take (length c - Z.to_nat n) c) (t + n).
Proof.
  intros Hb Hn. buf_facts Hb. unfold buf_inc_len, buf_safe_bidir, buf_size_valid_signed.
  rewrite Fvalid. unfold BUF_SIZE_MAX.
  rewrite !(proj2 (Z.leb_le _ _)), (proj2 (Z.ltb_lt _ _)) by lia. cbn [andb negb].
  eexists; split; [reflexivity|].
  destruct Hb as (pre & post & (Hd & Ho & Hl & Hc & Hm & O1 & O2 & O3) & -> & ->).
  destruct (split_at c (Zlen c - n)) as (x & y & Hp & L1 & L2 & Hx & _); [lia|].
  replace (take (length c - Z.to_nat n) c) with x
    by (rewrite Hx; f_equal; unfold Zlen; lia).
  clear Hx. subst c. apply bytes_ok_app in O2 as [O2 O4]. rewrite !Zlen_app in *.
  exists pre, (y ++ post). rewrite Zlen_app. split; [|split; [done|lia]].
  unfold buf_split, set_window; cbn. rewrite Hd, !bytes_ok_app, Zlen_app.
  repeat split; try done; try lia. by rewrite <- !app_assoc.
Qed.

Lemma truncate_short b h c t n :
  buf_repr b h c t -> Zlen c < n -> buf_inc_len b (- n) = (false, b).
Proof.
  intros Hb Hn. buf_facts Hb. unfold buf_inc_len, buf_safe_bidir.
  rewrite Fvalid. destruct (buf_size_valid_signed _); cbn [andb]; [|done].
  by btests.
Qed.

Lemma advance_bad b h c t n :
  buf_repr b h c t -> (0 <=? n) && (n <=? Zlen c) = false ->
  buf_advance b n = (false, b) /\ buf_read b n = Ret (None, b).
Proof.
  intros Hb Hn. buf_facts Hb. unfold buf_advance, buf_read, buf_read_alloc.
  rewrite Fvalid, Flen. btest_in Hn; btest_in Hn; cbn in Hn; try done; by btests.
Qed.

Lemma exec_refines_spec q b o :
  models q b -> op_ok o ->
  exists r b', exec b o = Ret (r, b') /\ r = (spec q o).1 /\ models (spec q o).2 b'.
Proof.
  destruct q as [h c t]. unfold models. cbn. intros Hb Ho.
  destruct o as [src|src|n|n| |n]; cbn in *.
  - destruct (Z.leb_spec (Zlen src) t).
    + destruct (buf_write_repr _ _ _ _ Hb src Ho H) as (b' & -> & ?); eauto.
    + rewrite (buf_write_full _ _ _ _ Hb src H). eauto.
  - destruct (Z.leb_spec (Zlen src) h).
    + destruct (buf_write_prepend_repr _ _ _ _ Hb src Ho H) as (b' & -> & ?); eauto.
    + rewrite (buf_write_prepend_full _ _ _ _ Hb src H). eauto.
  - destruct (_ && _) eqn:E.
    + destruct (buf_advance_repr _ _ _ _ Hb n) as (b' & -> & ?); [lia|]. eauto.
    + rewrite (proj1 (advance_bad _ _ _ _ _ Hb E)). eauto.
  - destruct (_ && _) eqn:E.
    + destruct (buf_read_repr _ _ _ _ Hb n) as (b' & -> & ?); [lia|].
      cbn. eauto.
    + rewrite (proj2 (advance_bad _ _ _ _ _ Hb E)). cbn. eauto.
  - destruct c as [|x c].
    + rewrite (buf_read_u8_empty _ _ _ _ Hb) by done. cbn. eauto.
    + destruct (buf_read_u8_cons _ _ _ _ _ Hb) as (b' & -> & ?). cbn. eauto.
  - destruct (Z.leb_spec n (Zlen c)).
    + destruct (truncate_repr _ _ _ _ n Hb) as (b' & -> & ?); [lia|]. eauto.
    + rewrite (truncate_short _ _ _ _ _ Hb) by lia. eauto.
Qed.
End Deque.
Import Deque.

(** C3: a buffer built by the constructors behaves as a bounded double-ended
    byte queue: for every sequence of writes, prepends, advances, reads and
    truncations, with any arguments, the code reaches no out-of-bounds access
    and no assertion, gives the replies of the abstract queue, and ends in a
    buffer that still represents it. *)
Theorem buf_refines_deque (os : list op) (q : deque) (b : buffer) :
  models q b -> Forall op_ok os ->
  exists b', exec_run b os = Ret ((spec_run q os).1, b')
             /\ models (spec_run q os).2 b'.
Proof.
  intros Hm Hos. revert q b Hm. induction Hos as [|o os Ho _ IH]; intros q b Hm.
  { cbn. eauto. }
  destruct (exec_refines_spec q b o Hm Ho) as (r & b' & He & Hr & Hm').
  cbn. rewrite He. cbn. destruct (spec q o) as [r0 q'] eqn:E. cbn in *. subst r0.
  destruct (IH _ _ Hm') as (b'' & -> & Hm''). cbn.
  destruct (spec_run q' os). cbn in *. eauto.
Qed.

Definition example_ops : list op :=
  [Write [1; 2; 3]; WritePrepend [9; 8]; ReadU8; Read 2; Truncate 1; Write [7]; Read 9].

Definition example_buf : buffer := mk_buffer 8 3 0 (Some (replicate 8 0)).

Lemma example_buf_models : models (mk_deque 3 [] 5) example_buf.
Proof.
  exists (replicate 3 0), (replicate 5 0).
  repeat split; try done; repeat constructor; cbn; lia.
Qed.

Lemma buf_refines_deque_witness :
  exists b', exec_run example_buf example_ops
             = Ret ([RBool true; RBool true; RInt 9; RBytes (Some [8; 1]);
                     RBool true; RBool true; RBytes None], b')
             /\ models (mk_deque 4 [2; 7] 2) b'.
Proof.
  apply (buf_refines_deque example_ops (mk_deque 3 [] 5) example_buf).
  - exact example_buf_models.
  - repeat constructor; cbn; try lia; unfold is_u8, is_int, INT_MIN, INT_MAX; lia.
Defined.

(** The constructors establish the invariant. *)
Lemma buf_copy_n_read dest src n :
  buf_copy_n dest src n
  = let! (s, src') := buf_read src n in
    match s with
    | None => Ret (false, dest, src')
    | Some s => let! (ok, dest') := buf_write dest s in Ret (ok, dest', src')
    end.
Proof.
  unfold buf_copy_n, buf_read. destruct (buf_read_alloc src n) as [[p|] src']; [|done].
  by destruct (buf_peek src' p n).
Qed.

Lemma alloc_buf_repr size :
  0 <= size ->
  alloc_buf size = (if size <? BUF_SIZE_MAX
                    then Ret (mk_buffer size 0 0 (Some (replicate (Z.to_nat size) 0)))
                    else Fatal)
  /\ (size < BUF_SIZE_MAX ->
      buf_repr (mk_buffer size 0 0 (Some (replicate (Z.to_nat size) 0))) 0 [] size).
Proof.
  intros Hs. split.
  - unfold alloc_buf, buf_size_valid. by destruct (size <? BUF_SIZE_MAX).
  - intros Hm. exists [], (replicate (Z.to_nat size) 0).
    assert (Zlen (replicate (Z.to_nat size) 0) = size)
      by (unfold Zlen; rewrite length_replicate; lia).
    unfold buf_split, Zlen in *. cbn. rewrite length_replicate.
    repeat split; try lia; try constructor.
    apply Forall_replicate. unfold is_u8. lia.
Qed.

Lemma buf_init_repr b off :
  buf_wf b -> b_data b <> None -> 0 <= off <= b_capacity b ->
  exists b', buf_init_dowork b off = (true, b')
             /\ buf_repr b' off [] (b_capacity b - off).
Proof.
  intros Hwf Hd Ho. unfold buf_init_dowork, buf_defined, buf_wf in *.
  destruct (b_data b) as [d|] eqn:E; [|done].
  destruct Hwf as (Hl & Hm & _ & _ & _ & Hb).
  rewrite !(proj2 (Z.ltb_ge _ _)) by lia. cbn.
  eexists; split; [reflexivity|].
  destruct (split_at d off) as (x & y & -> & L1 & L2 & _); [lia|].
  apply bytes_ok_app in Hb as [Hx Hy]. rewrite Zlen_app in *.
  exists x, y. unfold buf_split; cbn [b_data b_offset b_len b_capacity set_window].
  rewrite E. change (Zlen (@nil Z)) with 0. repeat split; try done; try lia. constructor.
Qed.

(** A 32-bit value written at the end of a buffer with room for it is read
    back unchanged by [buf_read_u32] once the bytes before it are consumed, and
    the buffer is then empty. *)
Lemma buf_u32_roundtrip (b : buffer) (h : Z) (c : bytes) (t x : Z) :
  buf_repr b h c t -> 4 <= t -> is_u32 x ->
  exists b1 b2 b3,
    buf_write_u32 b x = Ret (true, b1) /\ buf_advance b1 (Zlen c) = (true, b2)
    /\ buf_read_u32 b2 = Ret (x, true, b3)
    /\ buf_repr b3 (h + Zlen c + 4) [] (t - 4).
Proof.
  intros Hb Ht Hx.
  destruct (buf_write_repr _ _ _ _ Hb (be_bytes 4 x)) as (b1 & H1 & R1);
    [apply be_bytes_ok|by rewrite Zlen_be_bytes|].
  rewrite Zlen_be_bytes in R1.
  destruct (buf_advance_repr _ _ _ _ R1 (Zlen c)) as (b2 & H2 & R2).
  { rewrite Zlen_app, Zlen_be_bytes. pose proof (Zlen_nonneg c). lia. }
  rewrite to_nat_Zlen, drop_app_length in R2.
  destruct (buf_read_repr _ _ _ _ R2 4) as (b3 & H3 & R3);
    [rewrite Zlen_be_bytes; lia|].
  exists b1, b2, b3. unfold buf_write_u32, buf_read_u32. rewrite H1, H3.
  rewrite take_ge, drop_ge in * by (rewrite length_be_bytes; lia).
  cbn [res_bind]. rewrite be_val_bytes.
  change (256 ^ Z.of_nat 4) with (2 ^ 32).
  rewrite (Z.mod_small x) by exact Hx. auto.
Qed.

(** [array_mult_safe] never returns a wrapped product: it returns exactly
    [m1 * m2 + extra] when the operands and the result fit 32 bits, and leaves
    the process in every other case. *)
Lemma array_mult_safe_exact (m1 m2 extra : Z) :
  is_u64 m1 -> is_u64 m2 -> is_u64 extra ->
  array_mult_safe m1 m2 extra =
    if (m1 <=? UINT32_MAX) && (m2 <=? UINT32_MAX) && (extra <=? UINT32_MAX)
       && (m1 * m2 + extra <=? UINT32_MAX)
    then Ret (m1 * m2 + extra) else Fatal.
Proof.
  unfold is_u64, array_mult_safe, u64, UINT32_MAX. intros H1 H2 H3.
  change 0xFFFFFFFF with (2 ^ 32 - 1).
  destruct (Z.leb_spec m1 (2 ^ 32 - 1)); rewrite ?(proj2 (Z.ltb_ge _ m1)),
    ?(proj2 (Z.ltb_lt _ m1)) by lia; cbn [andb orb]; [|done].
  destruct (Z.leb_spec m2 (2 ^ 32 - 1)); rewrite ?(proj2 (Z.ltb_ge _ m2)),
    ?(proj2 (Z.ltb_lt _ m2)) by lia; cbn [andb orb]; [|done].
  destruct (Z.leb_spec extra (2 ^ 32 - 1)); rewrite ?(proj2 (Z.ltb_ge _ extra)),
    ?(proj2 (Z.ltb_lt _ extra)) by lia; cbn [andb orb]; [|done].
  assert (0 <= m1 * m2 <= (2 ^ 32 - 1) * (2 ^ 32 - 1)) by
    (split; [lia|apply Z.mul_le_mono_nonneg; lia]).
  rewrite (Z.mod_small (m1 * m2)), Z.mod_small by lia.
  rewrite Z.ltb_antisym. by destruct (_ <=? _).
Qed.
