(* ===== verification/PacketId.v ===== *)
(** * Replay protection (packet_id.h, packet_id.c)

    The sender side counts packets ([packet_id_send]); the receiver side
    ([packet_id_rec]) keeps the highest identifier seen and a sliding window of
    reception times, newest first, in a circular list.  The global [now] of the
    program is an argument of every function that reads it. *)

From S2P Require Import Prelude CircList Buffer.

Definition PACKET_ID_MAX : Z := UINT32_MAX.
Definition PACKET_ID_EPOCH_MAX : Z := 0x0000ffffffffffff.
Definition PACKET_ID_MASK : Z := 0x0000ffffffffffff.
Definition PACKET_ID_WRAP_TRIGGER : Z := 0xFF000000.
Definition MIN_SEQ_BACKTRACK : Z := 0.
Definition MAX_SEQ_BACKTRACK : Z := 65536.
Definition MIN_TIME_BACKTRACK : Z := 0.
Definition MAX_TIME_BACKTRACK : Z := 600.
Definition SEQ_REAP_INTERVAL : Z := 5.
Definition SEQ_UNSEEN : Z := 0.
Definition SEQ_EXPIRED : Z := 1.

Record packet_id_rec : Type := mk_rec {
  last_reap : Z;
  rec_time : Z;
  rec_id : Z;
  seq_backtrack : Z;
  time_backtrack : Z;
  max_backtrack_stat : Z;
  initialized : bool;
  seq_list : option (circ_list Z);
  rec_name : option bytes;
  rec_unit : Z
}.

Record packet_id_send : Type := mk_send { send_id : Z; send_time : Z }.
Record packet_id_net : Type := mk_net { net_id : Z; net_time : Z }.
Record packet_id : Type := mk_pid { pid_send : packet_id_send; pid_rec : packet_id_rec }.

Definition rec_zero : packet_id_rec := mk_rec 0 0 0 0 0 0 false None None 0.
Definition send_zero : packet_id_send := mk_send 0 0.

Definition rec_set_pos (p : packet_id_rec) (t i : Z) (sl : option (circ_list Z))
  : packet_id_rec :=
  mk_rec (last_reap p) t i (seq_backtrack p) (time_backtrack p)
    (max_backtrack_stat p) (initialized p) sl (rec_name p) (rec_unit p).

(** ** Life cycle *)
Definition packet_id_init_recv (r : packet_id_rec) (sb tb : Z)
    (name : option bytes) (unit_ : Z) : res packet_id_rec :=
  if negb (sb =? 0) then
    assert! (MIN_SEQ_BACKTRACK <=? sb) && (sb <=? MAX_SEQ_BACKTRACK) in
    assert! (MIN_TIME_BACKTRACK <=? tb) && (tb <=? MAX_TIME_BACKTRACK) in
    Ret (mk_rec (last_reap r) (rec_time r) (rec_id r) sb tb
           (max_backtrack_stat r) true (Some (CIRC_LIST_ALLOC SEQ_UNSEEN sb)) name unit_)
  else
    Ret (mk_rec (last_reap r) (rec_time r) (rec_id r) (seq_backtrack r)
           (time_backtrack r) (max_backtrack_stat r) true (seq_list r) name unit_).

Definition packet_id_init (sb tb : Z) (name : option bytes) (unit_ : Z) : res packet_id :=
  let! r := packet_id_init_recv rec_zero sb tb name unit_ in Ret (mk_pid send_zero r).

(** The new destination and the new source. *)
Definition packet_id_move_recv (dest src : packet_id_rec)
  : res (packet_id_rec * packet_id_rec) :=
  let dest := src in
  let! src := packet_id_init_recv rec_zero (seq_backtrack dest) (time_backtrack dest)
                (rec_name dest) (rec_unit dest) in
  Ret (dest, src).

Definition packet_id_free (p : packet_id) : packet_id := mk_pid send_zero rec_zero.
Definition packet_id_initialized (p : packet_id) : bool := initialized (pid_rec p).

(** ** Receiving *)

(** [while (p->id < pin->id) { CIRC_LIST_PUSH (seq_list, SEQ_UNSEEN); ++p->id; }] *)
Fixpoint pid_fill (fuel : nat) (id target : Z) (sl : circ_list Z)
  : res (Z * circ_list Z) :=
  match fuel with
  | O => Ret (id, sl)
  | S fuel' =>
      if id <? target then
        let! sl' := CIRC_LIST_PUSH sl SEQ_UNSEEN in
        pid_fill fuel' (u64 (id + 1)) target sl'
      else Ret (id, sl)
  end.

(** The part of [packet_id_add] behind the window reset: fill up to the new
    identifier, then mark it. *)
Definition packet_id_add_from (now : Z) (p : packet_id_rec) (pin : packet_id_net)
    (t id : Z) (sl : circ_list Z) : res packet_id_rec :=
  let! (id, sl) := pid_fill (Z.to_nat (net_id pin - id)) id (net_id pin) sl in
  let diff := s64 (u64 (id - net_id pin)) in
  let! sl :=
    if (diff <? CIRC_LIST_SIZE sl) && (SEQ_EXPIRED <? now)
    then CIRC_LIST_ITEM_set sl diff now else Ret sl in
  Ret (rec_set_pos p t id (Some sl)).

Definition packet_id_add (now : Z) (p : packet_id_rec) (pin : packet_id_net)
  : res packet_id_rec :=
  match seq_list p with
  | Some sl =>
      if (CIRC_LIST_SIZE sl =? 0) || (rec_time p <? net_time pin)
         || ((seq_backtrack p <=? net_id pin)
             && (rec_id p <? u64 (net_id pin - seq_backtrack p)))
      then packet_id_add_from now p pin (net_time pin)
             (if seq_backtrack p <? net_id pin
              then u64 (net_id pin - seq_backtrack p) else 0)
             (CIRC_LIST_RESET sl)
      else packet_id_add_from now p pin (rec_time p) (rec_id p) sl
  | None => Ret (rec_set_pos p (net_time pin) (net_id pin) None)
  end.

(** [n] iterations of the [for] loop are left; [i] is its index. *)
Fixpoint reap_loop (n : nat) (i : Z) (expire : bool) (tb now : Z) (sl : circ_list Z)
  : res (circ_list Z) :=
  match n with
  | O => Ret sl
  | S n' =>
      let! t := CIRC_LIST_ITEM sl i in
      if t =? SEQ_EXPIRED then Ret sl
      else
        let expire := expire || (negb (t =? 0) && (t + tb <? now)) in
        let! sl := if expire then CIRC_LIST_ITEM_set sl i SEQ_EXPIRED else Ret sl in
        reap_loop n' (i + 1) expire tb now sl
  end.

Definition packet_id_reap (now : Z) (p : packet_id_rec) : res packet_id_rec :=
  let! sl :=
    if negb (time_backtrack p =? 0) then
      match seq_list p with
      | Some sl =>
          let! sl' := reap_loop (Z.to_nat (CIRC_LIST_SIZE sl)) 0 false
                        (time_backtrack p) now sl in Ret (Some sl')
      | None => UB
      end
    else Ret (seq_list p) in
  Ret (mk_rec now (rec_time p) (rec_id p) (seq_backtrack p) (time_backtrack p)
         (max_backtrack_stat p) (initialized p) sl (rec_name p) (rec_unit p)).

Definition packet_id_reap_test (now : Z) (p : packet_id_rec) : res packet_id_rec :=
  if last_reap p + SEQ_REAP_INTERVAL <=? now then packet_id_reap now p else Ret p.

Definition rec_set_stat (p : packet_id_rec) (d : Z) : packet_id_rec :=
  if max_backtrack_stat p <? d
  then mk_rec (last_reap p) (rec_time p) (rec_id p) (seq_backtrack p)
         (time_backtrack p) d (initialized p) (seq_list p) (rec_name p) (rec_unit p)
  else p.

Definition packet_id_test (p : packet_id_rec) (pin : packet_id_net)
  : res (bool * packet_id_rec) :=
  assert! initialized p in
  if net_id pin =? 0 then Ret (false, p)
  else if negb (seq_backtrack p =? 0) then
    if net_time pin =? rec_time p then
      if rec_id p <? net_id pin then Ret (true, p)
      else
        let diff := u64 (rec_id p - net_id pin) in
        let p := rec_set_stat p diff in
        match seq_list p with
        | None => UB
        | Some sl =>
            if u32 (CIRC_LIST_SIZE sl) <=? diff then Ret (false, p)
            else
              let! v := CIRC_LIST_ITEM sl diff in
              Ret (v =? 0, p)
        end
    else if net_time pin <? rec_time p then Ret (false, p)
    else Ret (true, p)
  else
    if net_time pin =? rec_time p
    then Ret ((rec_id p =? 0) || (net_id pin =? u64 (rec_id p + 1)), p)
    else if net_time pin <? rec_time p then Ret (false, p)
    else Ret (net_id pin =? 1, p).

(** The receive path of [crypto_check_replay]: reap, test, and on success
    record the packet. *)
Definition replay_check (now : Z) (p : packet_id_rec) (pin : packet_id_net)
  : res (bool * packet_id_rec) :=
  let! p := packet_id_reap_test now p in
  let! (ok, p) := packet_id_test p pin in
  if ok then let! p := packet_id_add now p pin in Ret (true, p) else Ret (false, p).

(** ** Sending *)
Definition packet_id_send_update (now : Z) (p : packet_id_send) (long_form : bool)
  : bool * packet_id_send :=
  let t := if send_time p =? 0 then now else send_time p in
  if send_id p =? PACKET_ID_MAX then
    if negb long_form || (now <=? t) then (false, mk_send (send_id p) t)
    else (true, mk_send (u64 (0 + 1)) now)
  else (true, mk_send (u64 (send_id p + 1)) t).

Definition packet_id_send_update_epoch (now : Z) (p : packet_id_send)
  : bool * packet_id_send :=
  let t := if send_time p =? 0 then now else send_time p in
  if send_id p =? PACKET_ID_EPOCH_MAX then (false, mk_send (send_id p) t)
  else (true, mk_send (u64 (send_id p + 1)) t).

Definition reset_packet_id_send (p : packet_id_send) : packet_id_send := mk_send 0 0.
Definition packet_id_close_to_wrapping (p : packet_id_send) : bool :=
  PACKET_ID_WRAP_TRIGGER <=? send_id p.
Definition packet_id_size (long_form : bool) : Z := 4 + (if long_form then 4 else 0).

(** ** Wire format *)
Definition packet_id_read (buf : buffer) (long_form : bool)
  : res (bool * packet_id_net * buffer) :=
  let! (r, buf) := buf_read buf 4 in
  match r with
  | None => Ret (false, mk_net 0 0, buf)
  | Some s =>
      let id := be_val s in
      if long_form then
        let! (r, buf) := buf_read buf 4 in
        match r with
        | None => Ret (false, mk_net id 0, buf)
        | Some s' => Ret (true, mk_net id (be_val s'), buf)
        end
      else Ret (true, mk_net id 0, buf)
  end.

Definition packet_id_write (now : Z) (p : packet_id_send) (buf : buffer)
    (long_form prepend : bool) : res (bool * packet_id_send * buffer) :=
  let '(ok, p) := packet_id_send_update now p long_form in
  if negb ok then Ret (false, p, buf)
  else
    let net_id := be_bytes 4 (send_id p) in
    let net_time := be_bytes 4 (send_time p) in
    if prepend then
      let! (ok, buf) := if long_form then buf_write_prepend buf net_time
                        else Ret (true, buf) in
      if negb ok then Ret (false, p, buf)
      else let! (ok, buf) := buf_write_prepend buf net_id in Ret (ok, p, buf)
    else
      let! (ok, buf) := buf_write buf net_id in
      if negb ok then Ret (false, p, buf)
      else if long_form
           then let! (ok, buf) := buf_write buf net_time in Ret (ok, p, buf)
           else Ret (true, p, buf).

(** The identifier read, [None] where the function returns before storing it,
    the returned epoch and the buffer. *)
Definition packet_id_read_epoch (pin : packet_id_net) (buf : buffer)
  : res (Z * packet_id_net * buffer) :=
  let! (r, buf) := buf_read buf 8 in
  match r with
  | None => Ret (0, pin, buf)
  | Some s =>
      let id := be_val s in
      let epoch := u16 (Z.shiftr id 48) in
      Ret (epoch, mk_net (Z.land id PACKET_ID_MASK) (net_time pin), buf)
  end.

Definition packet_id_write_epoch (now : Z) (p : packet_id_send) (epoch : Z)
    (buf : buffer) : res (bool * packet_id_send * buffer) :=
  let '(ok, p) := packet_id_send_update_epoch now p in
  if negb ok then Ret (false, p, buf)
  else
    let net_id := Z.lor (u64 (Z.shiftl epoch 48)) (send_id p) in
    let! (ok, buf) := buf_write buf (be_bytes 8 net_id) in Ret (ok, p, buf).

(** ** Persistence: the results of the system calls are arguments *)
Record packet_id_persist : Type := mk_persist {
  p_filename : option bytes;
  p_fd : Z;
  p_time : Z;
  p_id : Z;
  p_time_last_written : Z;
  p_id_last_written : Z
}.

Definition packet_id_persist_init : packet_id_persist := mk_persist None (-1) 0 0 0 0.
Definition packet_id_persist_enabled (p : packet_id_persist) : bool := 0 <=? p_fd p.
Definition packet_id_persist_close (p : packet_id_persist) : packet_id_persist :=
  if packet_id_persist_enabled p then packet_id_persist_init else p.

(** [fd]: what [platform_open] returns; [locked]: [flock] succeeded; [image]:
    the file image, when [read] returned all of it. *)
Definition packet_id_persist_load (p : packet_id_persist) (filename : bytes)
    (fd : Z) (locked : bool) (image : option (Z * Z)) : res packet_id_persist :=
  if negb (packet_id_persist_enabled p) then
    if fd =? -1 then
      Ret (mk_persist (p_filename p) fd (p_time p) (p_id p)
             (p_time_last_written p) (p_id_last_written p))
    else
      assert! locked in
      match image with
      | Some (t, i) => Ret (mk_persist (Some filename) fd t i t i)
      | None => Ret (mk_persist (Some filename) fd (p_time p) (p_id p)
                       (p_time_last_written p) (p_id_last_written p))
      end
  else Ret p.

(** The image written to the file, if any, and the new state. *)
Definition packet_id_persist_save (p : packet_id_persist) (seek_ok write_ok : bool)
  : option (Z * Z) * packet_id_persist :=
  if packet_id_persist_enabled p && negb (p_time p =? 0)
     && (negb (p_time p =? p_time_last_written p) || negb (p_id p =? p_id_last_written p))
  then
    if seek_ok then
      if write_ok
      then (Some (p_time p, p_id p),
            mk_persist (p_filename p) (p_fd p) (p_time p) (p_id p) (p_time p) (p_id p))
      else (None, p)
    else (None, p)
  else (None, p).

Definition packet_id_persist_save_obj (p : packet_id_persist) (pid : packet_id)
  : packet_id_persist :=
  if packet_id_persist_enabled p && negb (rec_time (pid_rec pid) =? 0)
  then mk_persist (p_filename p) (p_fd p) (rec_time (pid_rec pid))
         (u32 (rec_id (pid_rec pid))) (p_time_last_written p) (p_id_last_written p)
  else p.

Definition packet_id_persist_load_obj (p : packet_id_persist) (pid : packet_id)
  : packet_id :=
  if packet_id_persist_enabled p && negb (p_time p =? 0)
  then mk_pid (pid_send pid)
         (rec_set_pos (pid_rec pid) (p_time p) (p_id p) (seq_list (pid_rec pid)))
  else pid.

(** ** The sliding window

    [window sb p es]: [p] is in backtrack mode with a window of [sb]
    identifiers, and entry [k] of [es] is the mark of identifier
    [rec_id p - k]: 0 for not seen, 1 for expired, else the reception time. *)
Definition id_bound : Z := 2 ^ 63.

Definition window (sb : Z) (p : packet_id_rec) (es : list Z) : Prop :=
  initialized p = true /\ seq_backtrack p = sb /\ 0 < sb <= MAX_SEQ_BACKTRACK
  /\ 0 <= rec_id p < id_bound
  /\ Zlen es = Z.min sb (rec_id p)
  /\ exists sl, seq_list p = Some sl /\ circ_repr sb sl es.

Lemma pid_fill_repr cap es id target sl :
  circ_repr cap sl es -> 0 <= id <= target -> target < id_bound ->
  exists sl', pid_fill (Z.to_nat (target - id)) id target sl = Ret (target, sl')
    /\ circ_repr cap sl' (take (Z.to_nat cap) (replicate (Z.to_nat (target - id)) 0 ++ es)).
Proof.
  intros Hr Hid Ht. remember (Z.to_nat (target - id)) as n eqn:En.
  revert id sl es Hr Hid En. induction n as [|n IH]; intros id sl es Hr Hid En; cbn [pid_fill].
  - replace id with target by lia. exists sl. split; [done|]. cbn.
    pose proof Hr as (_ & ? & _ & _ & _ & ? & _).
    rewrite take_ge by (unfold Zlen in *; lia). done.
  - rewrite (proj2 (Z.ltb_lt _ _)) by lia.
    destruct (CIRC_LIST_PUSH_repr _ _ _ SEQ_UNSEEN Hr) as (sl1 & -> & Hr1). cbn [res_bind].
    rewrite u64_id by (unfold is_u64, id_bound in *; lia).
    destruct (IH (id + 1) sl1 _ Hr1) as (sl2 & -> & Hr2); [lia|lia|].
    exists sl2. split; [done|].
    replace (replicate (S n) 0 ++ es) with (replicate n 0 ++ 0 :: es); cycle 1.
    { by rewrite replicate_S_end, <- app_assoc. }
    rewrite !take_app, take_take in *. rewrite length_replicate in *.
    by rewrite Nat.min_l in Hr2 by lia.
Qed.

(** Reaping only ever replaces marks by [SEQ_EXPIRED]. *)
Definition only_expires (es es' : list Z) : Prop :=
  length es' = length es
  /\ forall k v, es' !! k = Some v -> v = SEQ_EXPIRED \/ es !! k = Some v.

Lemma only_expires_refl es : only_expires es es.
Proof. split; auto. Qed.

Lemma only_expires_trans es1 es2 es3 :
  only_expires es1 es2 -> only_expires es2 es3 -> only_expires es1 es3.
Proof. intros [? H1] [? H2]. split; [congruence|]. naive_solver. Qed.

Lemma only_expires_insert es k : only_expires es (<[k := SEQ_EXPIRED]> es).
Proof.
  split; [apply length_insert|]. intros j v Hv.
  destruct (decide (j = k)) as [->|].
  - apply list_lookup_insert_Some in Hv. naive_solver.
  - rewrite list_lookup_insert_ne in Hv by done. auto.
Qed.

Lemma reap_loop_repr cap n i expire tb now sl es :
  circ_repr cap sl es -> 0 <= i -> i + Z.of_nat n = Zlen es ->
  exists sl' es', reap_loop n i expire tb now sl = Ret sl'
    /\ circ_repr cap sl' es' /\ only_expires es es'.
Proof.
  revert i expire sl es. induction n as [|n IH]; intros i expire sl es Hr Hi Hn; cbn [reap_loop].
  { eauto using only_expires_refl. }
  destruct (lookup_lt_is_Some_2 es (Z.to_nat i)) as [t Ht]; [unfold Zlen in Hn; lia|].
  rewrite (CIRC_LIST_ITEM_repr _ _ _ _ _ Hr Hi Ht). cbn [res_bind].
  destruct (t =? SEQ_EXPIRED); [eauto using only_expires_refl|].
  destruct (expire || _).
  - destruct (CIRC_LIST_ITEM_set_repr _ _ _ i SEQ_EXPIRED Hr) as (sl1 & -> & Hr1); [lia|].
    cbn [res_bind].
    destruct (IH (i + 1) true sl1 _ Hr1) as (sl2 & es2 & H1 & H2 & H3);
      [lia|unfold Zlen in *; rewrite length_insert; lia|].
    exists sl2, es2. split; [done|split; [done|]].
    eapply only_expires_trans; [apply only_expires_insert|done].
  - cbn [res_bind]. apply IH; [done|lia..].
Qed.

Lemma packet_id_reap_window now sb p es :
  window sb p es ->
  exists p' es', packet_id_reap now p = Ret p' /\ window sb p' es' /\ only_expires es es'
    /\ rec_time p' = rec_time p /\ rec_id p' = rec_id p
    /\ time_backtrack p' = time_backtrack p /\ last_reap p' = now
    /\ (time_backtrack p = 0 -> es' = es).
Proof.
  intros (Hi & Hs & Hb & Hid & Hl & sl & Hsl & Hr). unfold packet_id_reap.
  destruct (Z.eqb_spec (time_backtrack p) 0) as [E|E]; cbn [negb res_bind].
  - eexists _, es. split; [reflexivity|].
    split; [repeat split; cbn; eauto; lia|].
    cbn. split_and!; auto using only_expires_refl.
  - rewrite Hsl.
    destruct (reap_loop_repr sb (Z.to_nat (CIRC_LIST_SIZE sl)) 0 false
                (time_backtrack p) now sl es Hr) as (sl' & es' & -> & Hr' & He).
    { lia. }
    { pose proof Hr as (_ & _ & _ & _ & Hz & _). unfold CIRC_LIST_SIZE.
      pose proof (Zlen_nonneg es). lia. }
    cbn [res_bind]. eexists _, es'. split; [reflexivity|].
    split; [|cbn; split_and!; done].
    repeat split; cbn; eauto; try lia.
    unfold Zlen in *. destruct He as [-> _]. done.
Qed.

Lemma packet_id_reap_test_window now sb p es :
  window sb p es ->
  exists p' es', packet_id_reap_test now p = Ret p' /\ window sb p' es'
    /\ only_expires es es' /\ rec_time p' = rec_time p /\ rec_id p' = rec_id p
    /\ time_backtrack p' = time_backtrack p /\ (time_backtrack p = 0 -> es' = es).
Proof.
  intros Hw. unfold packet_id_reap_test. destruct (_ <=? now).
  - destruct (packet_id_reap_window now sb p es Hw) as (p' & es' & ?). naive_solver.
  - exists p, es. split_and!; auto using only_expires_refl.
Qed.

(** The verdict of the sliding window on a packet. *)
Definition window_accepts (sb : Z) (p : packet_id_rec) (es : list Z)
    (pin : packet_id_net) : bool :=
  negb (net_id pin =? 0)
  && ((rec_time p <? net_time pin)
      || ((net_time pin =? rec_time p)
          && ((rec_id p <? net_id pin)
              || bool_decide (es !! Z.to_nat (rec_id p - net_id pin) = Some 0)))).

Lemma packet_id_test_window sb p es pin :
  window sb p es -> 0 <= net_id pin < id_bound ->
  exists p', packet_id_test p pin = Ret (window_accepts sb p es pin, p')
    /\ window sb p' es /\ rec_time p' = rec_time p /\ rec_id p' = rec_id p
    /\ time_backtrack p' = time_backtrack p.
Proof.
  intros Hw Hpin. pose proof Hw as (Hi & Hs & Hb & Hid & Hl & sl & Hsl & Hr).
  unfold packet_id_test, window_accepts. rewrite Hi.
  destruct (Z.eqb_spec (net_id pin) 0) as [E0|E0]; [cbn; eauto 10|]. cbn [negb andb].
  rewrite Hs, (proj2 (Z.eqb_neq sb 0)) by lia. cbn [negb].
  destruct (Z.eqb_spec (net_time pin) (rec_time p)) as [Et|Et]; cbn [andb]; cycle 1.
  { destruct (Z.ltb_spec (net_time pin) (rec_time p)).
    - rewrite (proj2 (Z.ltb_ge (rec_time p) _)) by lia. cbn. eauto 10.
    - rewrite (proj2 (Z.ltb_lt (rec_time p) _)) by lia. cbn. eauto 10. }
  rewrite (proj2 (Z.ltb_ge (rec_time p) _)) by lia. cbn [orb].
  destruct (Z.ltb_spec (rec_id p) (net_id pin)) as [Hgt|Hle]; cbn [orb]; [eauto 10|].
  rewrite u64_id by (unfold is_u64, id_bound in *; lia).
  set (d := rec_id p - net_id pin).
  assert (Hp' : seq_list (rec_set_stat p d) = Some sl
                /\ window sb (rec_set_stat p d) es
                /\ rec_time (rec_set_stat p d) = rec_time p
                /\ rec_id (rec_set_stat p d) = rec_id p
                /\ time_backtrack (rec_set_stat p d) = time_backtrack p).
  { unfold rec_set_stat. destruct (_ <? d); [|auto 10].
    repeat split; cbn; eauto; lia. }
  destruct Hp' as (-> & Hw' & Ht' & Hid' & Htb).
  pose proof Hr as (_ & Hcap & _ & _ & Hz & Hle' & _).
  unfold CIRC_LIST_SIZE. rewrite Hz.
  rewrite u32_id by (unfold is_u32, MAX_SEQ_BACKTRACK in *; pose proof (Zlen_nonneg es); lia).
  destruct (Z.leb_spec (Zlen es) d) as [Hout|Hin].
  - rewrite bool_decide_false; [eauto 10|].
    rewrite lookup_ge_None_2; [done|]. unfold Zlen in Hout. subst d. lia.
  - assert (Hd : 0 <= d) by (subst d; lia).
    destruct (lookup_lt_is_Some_2 es (Z.to_nat d)) as [v Hv];
      [unfold Zlen in *; lia|].
    rewrite (CIRC_LIST_ITEM_repr _ _ _ _ _ Hr Hd Hv). cbn [res_bind].
    rewrite Hv. eexists. split; [|eauto].
    do 2 f_equal. destruct (Z.eqb_spec v 0); [subst; by rewrite bool_decide_true|].
    rewrite bool_decide_false; [done|congruence].
Qed.

(** What recording a packet does to the window. *)
Definition window_add (sb now T H : Z) (es : list Z) (pin : packet_id_net)
  : Z * Z * list Z :=
  let i := net_id pin in
  if (Zlen es =? 0) || (T <? net_time pin) || (H <? i - sb)
  then (net_time pin, i, <[0%nat := now]> (replicate (Z.to_nat (Z.min sb i)) 0))
  else if H <? i
  then (T, i, <[0%nat := now]> (take (Z.to_nat sb) (replicate (Z.to_nat (i - H)) 0 ++ es)))
  else (T, H, <[Z.to_nat (H - i) := now]> es).

Lemma mark_repr cap sl es now diff :
  circ_repr cap sl es -> SEQ_EXPIRED < now -> 0 <= diff ->
  exists sl', (if (diff <? CIRC_LIST_SIZE sl) && (SEQ_EXPIRED <? now)
               then CIRC_LIST_ITEM_set sl diff now else Ret sl) = Ret sl'
    /\ circ_repr cap sl' (<[Z.to_nat diff := now]> es).
Proof.
  intros Hr Hn Hd. pose proof Hr as (_ & _ & _ & _ & Hz & _).
  unfold CIRC_LIST_SIZE. rewrite Hz, (proj2 (Z.ltb_lt SEQ_EXPIRED now)) by lia.
  rewrite andb_true_r. destruct (Z.ltb_spec diff (Zlen es)).
  - apply (CIRC_LIST_ITEM_set_repr cap); [done|lia].
  - exists sl. split; [done|]. rewrite list_insert_ge; [done|]. unfold Zlen in *. lia.
Qed.

Lemma add_from_window now sb p pin t id sl es :
  initialized p = true -> seq_backtrack p = sb -> 0 < sb <= MAX_SEQ_BACKTRACK ->
  circ_repr sb sl es -> 0 <= id < id_bound -> 0 <= net_id pin < id_bound ->
  SEQ_EXPIRED < now ->
  let H' := Z.max id (net_id pin) in
  let es' := take (Z.to_nat sb) (replicate (Z.to_nat (net_id pin - id)) 0 ++ es) in
  Zlen es' = Z.min sb H' ->
  exists p', packet_id_add_from now p pin t id sl = Ret p'
    /\ rec_time p' = t /\ rec_id p' = H'
    /\ window sb p' (<[Z.to_nat (H' - net_id pin) := now]> es')
    /\ time_backtrack p' = time_backtrack p.
Proof.
  intros Hi Hs Hb Hr Hid Hpin Hn H' es' Hlen. unfold packet_id_add_from.
  assert (exists sl1, pid_fill (Z.to_nat (net_id pin - id)) id (net_id pin) sl
                      = Ret (H', sl1) /\ circ_repr sb sl1 es') as (sl1 & -> & Hr1).
  { destruct (Z.le_gt_cases id (net_id pin)).
    - destruct (pid_fill_repr sb es id (net_id pin) sl) as (sl1 & H1 & H2); [done|lia..|].
      exists sl1. rewrite H1. subst H' es'. rewrite Z.max_r by lia. done.
    - subst H' es'. rewrite Z.max_l by lia.
      replace (Z.to_nat (net_id pin - id)) with 0%nat by lia. cbn.
      exists sl. split; [done|]. pose proof Hr as (_ & _ & _ & _ & _ & ? & _).
      rewrite take_ge by (unfold Zlen in *; lia). done. }
  cbn [res_bind]. cbv zeta.
  rewrite u64_id, s64_id by (unfold is_u64, id_bound in *; lia).
  destruct (mark_repr sb sl1 es' now (H' - net_id pin) Hr1 Hn) as (sl2 & -> & Hr2); [lia|].
  cbn [res_bind]. eexists; split; [reflexivity|].
  unfold rec_set_pos, window, Zlen in *. cbn. rewrite length_insert.
  split_and!; eauto; lia.
Qed.

Lemma packet_id_add_window now sb p es pin :
  window sb p es -> 0 <= net_id pin < id_bound -> SEQ_EXPIRED < now ->
  exists p', packet_id_add now p pin = Ret p'
    /\ let '(t, i, es') := window_add sb now (rec_time p) (rec_id p) es pin in
       rec_time p' = t /\ rec_id p' = i /\ window sb p' es'
       /\ time_backtrack p' = time_backtrack p.
Proof.
  intros (Hi & Hs & Hb & Hid & Hl & sl & Hsl & Hr) Hpin Hn.
  unfold packet_id_add, window_add. rewrite Hsl, Hs.
  pose proof Hr as (_ & _ & _ & _ & Hz & _). unfold CIRC_LIST_SIZE at 1. rewrite Hz.
  assert ((sb <=? net_id pin) && (rec_id p <? u64 (net_id pin - sb))
          = (rec_id p <? net_id pin - sb)) as ->.
  { destruct (Z.leb_spec sb (net_id pin)); cbn [andb].
    - by rewrite u64_id by (unfold is_u64, id_bound in *; lia).
    - symmetry. apply Z.ltb_ge. lia. }
  destruct ((Zlen es =? 0) || (rec_time p <? net_time pin)
            || (rec_id p <? net_id pin - sb)) eqn:Ereset.
  - set (id0 := if sb <? net_id pin then u64 (net_id pin - sb) else 0).
    assert (net_id pin - id0 = Z.min sb (net_id pin) /\ 0 <= id0 <= net_id pin)
      as [Hd0 Hid0].
    { subst id0. destruct (Z.ltb_spec sb (net_id pin)); [|lia].
      rewrite u64_id by (unfold is_u64, id_bound in *; lia). lia. }
    destruct (add_from_window now sb p pin (net_time pin) id0 (CIRC_LIST_RESET sl) [])
      as (p' & -> & Hp'); try done.
    { by eapply CIRC_LIST_RESET_repr. }
    { unfold id_bound in *; lia. }
    { unfold Zlen. rewrite length_take, app_nil_r, length_replicate. lia. }
    eexists; split; [reflexivity|].
    rewrite Z.max_r, Z.sub_diag, app_nil_r, Hd0 in Hp' by lia.
    rewrite take_ge in Hp' by (rewrite length_replicate; lia). exact Hp'.
  - apply orb_false_iff in Ereset as [_ E3%Z.ltb_ge].
    destruct (add_from_window now sb p pin (rec_time p) (rec_id p) sl es)
      as (p' & -> & Hp'); try done.
    { unfold Zlen in *. rewrite length_take, length_app, length_replicate. lia. }
    eexists; split; [reflexivity|].
    destruct (Z.ltb_spec (rec_id p) (net_id pin)).
    + rewrite Z.max_r, Z.sub_diag in Hp' by lia. exact Hp'.
    + rewrite Z.max_l in Hp' by lia.
      replace (Z.to_nat (net_id pin - rec_id p)) with 0%nat in Hp' by lia.
      cbn [replicate app] in Hp'. rewrite take_ge in Hp' by (unfold Zlen in *; lia).
      exact Hp'.
Qed.

(** ** Histories: which packets were accepted so far *)

(** Every accepted packet is marked, or outside the window on the old side. *)
Definition hist_sound (p : packet_id_rec) (es : list Z) (acc : list packet_id_net) : Prop :=
  forall q, q ∈ acc -> 1 <= net_id q
    /\ (net_time q < rec_time p
        \/ (net_time q = rec_time p /\ net_id q <= rec_id p
            /\ es !! Z.to_nat (rec_id p - net_id q) <> Some 0)).

(** Every marked entry of the window is an accepted packet. *)
Definition hist_exact (p : packet_id_rec) (es : list Z) (acc : list packet_id_net) : Prop :=
  forall k v, es !! k = Some v -> v <> 0 ->
    mk_net (rec_id p - Z.of_nat k) (rec_time p) ∈ acc.

Lemma hist_sound_expires p p' es es' acc :
  hist_sound p es acc -> only_expires es es' ->
  rec_time p' = rec_time p -> rec_id p' = rec_id p -> hist_sound p' es' acc.
Proof.
  intros Hs [Hl He] Ht Hi q Hq. destruct (Hs q Hq) as [H1 H2].
  split; [done|]. rewrite Ht, Hi. destruct H2 as [?|(H2 & H3 & H4)]; [auto|right].
  split_and!; [done|done|]. intros E. apply He in E as [?|?]; [done|auto].
Qed.

Lemma hist_not_accepted sb p es acc pin :
  hist_sound p es acc -> window_accepts sb p es pin = true -> pin ∉ acc.
Proof.
  unfold window_accepts. intros Hs Ha Hq. destruct (Hs pin Hq) as [H1 H2].
  destruct (Z.ltb_spec (rec_time p) (net_time pin)); [lia|].
  destruct (Z.eqb_spec (net_time pin) (rec_time p)); [|by rewrite andb_false_r in Ha].
  destruct (Z.ltb_spec (rec_id p) (net_id pin)); [lia|].
  cbn [orb andb] in Ha. apply andb_true_iff in Ha as [_ Ha%bool_decide_eq_true].
  naive_solver lia.
Qed.

Lemma fill_lookup sb n es now k v :
  0 < sb -> <[0%nat := now]> (take (Z.to_nat sb) (replicate (Z.to_nat n) 0 ++ es)) !! k = Some v ->
  0 < n -> (k = 0%nat /\ v = now) \/ (0 < k < Z.to_nat n)%nat /\ v = 0
          \/ (Z.to_nat n <= k)%nat /\ es !! (k - Z.to_nat n)%nat = Some v.
Proof.
  intros Hsb Hk Hn. apply list_lookup_insert_Some in Hk as [(<- & <- & _)|[Hne Hk]]; [auto|].
  apply lookup_take_Some in Hk as [Hk _].
  apply lookup_app_Some in Hk as [Hk|[Hle Hk]].
  - apply lookup_replicate in Hk. right; left. split; [lia|naive_solver].
  - rewrite length_replicate in *. auto.
Qed.

(** The window after recording [pin] is a sound account of the longer history. *)
Lemma window_add_sound now sb p p' es acc pin t i es' :
  window sb p es -> SEQ_EXPIRED < now -> 1 <= net_id pin ->
  window_accepts sb p es pin = true -> hist_sound p es acc ->
  window_add sb now (rec_time p) (rec_id p) es pin = (t, i, es') ->
  rec_time p' = t -> rec_id p' = i -> hist_sound p' es' (pin :: acc).
Proof.
  intros (_ & _ & Hb & Hid & Hl & _) Hn Hpin Ha Hs Hadd Ht Hi q Hq.
  assert (Htime : rec_time p <= net_time pin).
  { unfold window_accepts in Ha. destruct (Z.ltb_spec (rec_time p) (net_time pin)); [lia|].
    destruct (Z.eqb_spec (net_time pin) (rec_time p)); [lia|].
    by rewrite andb_false_r in Ha. }
  unfold SEQ_EXPIRED, window_add in *. rewrite Ht, Hi.
  apply elem_of_cons in Hq as [->|Hq].
  - split; [lia|right].
    destruct (_ || _) eqn:E; [|apply orb_false_iff in E as [E _];
                               apply orb_false_iff in E as [_ E%Z.ltb_ge];
                               destruct (Z.ltb_spec (rec_id p) (net_id pin))];
      simplify_eq; split_and!; try lia; rewrite ?Z.sub_diag; cbn [Z.to_nat];
      intros Hx; apply list_lookup_insert_Some in Hx; naive_solver lia.
  - destruct (Hs q Hq) as [H1 H2]. split; [done|].
    destruct (_ || _) eqn:E; simplify_eq.
    + destruct (Z.ltb_spec (rec_time p) (net_time pin)); [lia|].
      destruct (Z.eqb_spec (Zlen es) 0); [lia|]. cbn in E. apply Z.ltb_lt in E.
      destruct H2 as [H2|(H2 & Q3 & Q4)]; [lia|right].
      split_and!; [lia|lia|]. rewrite lookup_ge_None_2; [done|].
      rewrite length_insert, length_replicate. lia.
    + destruct H2 as [H2|(H2 & Q3 & Q4)]; [left|right].
      { destruct (rec_id p <? net_id pin); simplify_eq; lia. }
      destruct (Z.ltb_spec (rec_id p) (net_id pin)); simplify_eq.
      * split_and!; [lia|lia|]. intros Hx. apply fill_lookup in Hx; [|lia..].
        destruct Hx as [?|[?|[_ Hx]]]; [lia|lia|]. apply Q4. rewrite <- Hx. f_equal. lia.
      * split_and!; [lia|lia|]. intros Hx.
        apply list_lookup_insert_Some in Hx as [Hx|[_ Hx]]; [lia|congruence].
Qed.

Lemma window_add_exact now sb p p' es acc pin t i es' :
  window sb p es -> window_accepts sb p es pin = true -> hist_exact p es acc ->
  window_add sb now (rec_time p) (rec_id p) es pin = (t, i, es') ->
  rec_time p' = t -> rec_id p' = i -> hist_exact p' es' (pin :: acc).
Proof.
  intros (_ & _ & Hb & Hid & Hl & _) Ha He Hadd Ht Hi k v Hk Hv.
  rewrite Ht, Hi, elem_of_cons. unfold window_add in Hadd.
  destruct (_ || _) eqn:E; simplify_eq.
  - left. apply list_lookup_insert_Some in Hk as [(<- & _)|[_ Hk]].
    + destruct pin; cbn in *. f_equal; lia.
    + apply lookup_replicate in Hk. naive_solver.
  - apply orb_false_iff in E as [E _]. apply orb_false_iff in E as [_ E%Z.ltb_ge].
    assert (net_time pin = rec_time p) as Htp.
    { unfold window_accepts in Ha. rewrite (proj2 (Z.ltb_ge _ _)) in Ha by lia.
      destruct (Z.eqb_spec (net_time pin) (rec_time p)); [done|].
      by rewrite andb_false_r in Ha. }
    destruct (Z.ltb_spec (rec_id p) (net_id pin)); simplify_eq.
    + apply fill_lookup in Hk; [|lia..]. destruct Hk as [[-> _]|[[_ ?]|[Hge Hk]]]; [|done|].
      * left. destruct pin; cbn in *. f_equal; lia.
      * right. specialize (He _ _ Hk Hv).
        match goal with |- mk_net ?a ?b ∈ _ =>
          replace a with (rec_id p - Z.of_nat (k - Z.to_nat (net_id pin - rec_id p)))
            by lia; replace b with (rec_time p) by lia end. done.
    + apply list_lookup_insert_Some in Hk as [(<- & _)|[_ Hk]]; [left|right].
      2: { specialize (He _ _ Hk Hv). congruence. }
      destruct pin; cbn in *. f_equal; lia.
Qed.

(** A run of the receiver over packets and their arrival times: the packets it
    accepts, in order. *)
Fixpoint replay_run (p : packet_id_rec) (evs : list (Z * packet_id_net))
  : res (list packet_id_net * packet_id_rec) :=
  match evs with
  | [] => Ret ([], p)
  | (now, pin) :: evs' =>
      let! (ok, p) := replay_check now p pin in
      let! (acc, p) := replay_run p evs' in
      Ret ((if ok then pin :: acc else acc), p)
  end.

Definition event_ok (e : Z * packet_id_net) : Prop :=
  SEQ_EXPIRED < e.1 /\ 0 <= net_id e.2 < id_bound.

(** The two modes share this argument: an account [I] of the history that
    excludes second acceptance and is kept by every step. *)
Section ReplayFilter.
Context (I : packet_id_rec -> list packet_id_net -> Prop).
Context (I_step : forall now p acc pin,
  I p acc -> event_ok (now, pin) ->
  exists ok p', replay_check now p pin = Ret (ok, p')
    /\ (ok = true -> pin ∉ acc) /\ I p' (if ok then pin :: acc else acc)).

Lemma replay_run_NoDup evs p acc :
  I p acc -> Forall event_ok evs ->
  exists acc' p', replay_run p evs = Ret (acc', p') /\ NoDup acc'
    /\ (forall q, q ∈ acc' -> q ∉ acc) /\ I p' (reverse acc' ++ acc).
Proof using I_step.
  intros HI Hev. revert p acc HI. induction Hev as [|[now pin] evs He _ IH]; intros p acc HI.
  { cbn. eexists [], p. split; [done|]. split_and!; [constructor|set_solver|done]. }
  destruct (I_step now p acc pin HI He) as (ok & p1 & H1 & Hnew & HI1).
  destruct (IH p1 _ HI1) as (acc' & p2 & H2 & Hnd & Hdis & HI2).
  cbn. rewrite H1. cbn. rewrite H2. cbn. destruct ok.
  - eexists (pin :: acc'), p2. split; [done|]. split_and!.
    + constructor; [|done]. intros Hin. specialize (Hdis _ Hin). set_solver.
    + intros q [->|Hq]%elem_of_cons; [auto|]. specialize (Hdis _ Hq). set_solver.
    + by rewrite reverse_cons, <- app_assoc.
  - exists acc', p2. auto.
Qed.
End ReplayFilter.

Definition window_hist (sb : Z) (p : packet_id_rec) (acc : list packet_id_net) : Prop :=
  exists es, window sb p es /\ hist_sound p es acc.

Lemma window_accepts_id sb p es pin :
  window_accepts sb p es pin = true -> net_id pin <> 0.
Proof. unfold window_accepts. destruct (Z.eqb_spec (net_id pin) 0); naive_solver. Qed.

Lemma window_hist_step sb now p acc pin :
  window_hist sb p acc -> event_ok (now, pin) ->
  exists ok p', replay_check now p pin = Ret (ok, p')
    /\ (ok = true -> pin ∉ acc) /\ window_hist sb p' (if ok then pin :: acc else acc).
Proof.
  intros (es & Hw & Hs) [Hn Hpin]. unfold replay_check. cbn in Hn, Hpin.
  destruct (packet_id_reap_test_window now sb p es Hw)
    as (p1 & es1 & -> & Hw1 & He & Ht1 & Hi1 & _).
  assert (Hs1 : hist_sound p1 es1 acc) by eauto using hist_sound_expires.
  destruct (packet_id_test_window sb p1 es1 pin Hw1 Hpin) as (p2 & H2 & Hw2 & Ht2 & Hi2 & _).
  assert (Hs2 : hist_sound p2 es1 acc)
    by eauto using hist_sound_expires, only_expires_refl.
  cbn [res_bind]. rewrite H2. cbn [res_bind].
  destruct (window_accepts sb p1 es1 pin) eqn:Ha.
  - assert (Ha2 : window_accepts sb p2 es1 pin = true)
      by (unfold window_accepts in *; by rewrite Ht2, Hi2).
    destruct (packet_id_add_window now sb p2 es1 pin Hw2 Hpin Hn) as (p3 & -> & H3).
    cbn. eexists true, p3. split; [done|]. split; [eauto using hist_not_accepted|].
    destruct (window_add sb now (rec_time p2) (rec_id p2) es1 pin) as [[t i] es2] eqn:E.
    destruct H3 as (Ht3 & Hi3 & Hw3 & _). exists es2. split; [done|].
    apply window_accepts_id in Ha. apply (window_add_sound now sb p2 p3 es1 acc pin t i es2); auto; lia.
  - eexists false, p2. split; [done|]. split; [done|]. by exists es1.
Qed.

(** The TCP mode: no window, identifiers without gaps. *)
Definition linear_hist (p : packet_id_rec) (acc : list packet_id_net) : Prop :=
  initialized p = true /\ seq_backtrack p = 0 /\ time_backtrack p = 0
  /\ seq_list p = None /\ 0 <= rec_id p < id_bound
  /\ forall q, q ∈ acc -> 1 <= net_id q
       /\ (net_time q < rec_time p
           \/ (net_time q = rec_time p /\ net_id q <= rec_id p)).

Lemma linear_hist_step now p acc pin :
  linear_hist p acc -> event_ok (now, pin) ->
  exists ok p', replay_check now p pin = Ret (ok, p')
    /\ (ok = true -> pin ∉ acc) /\ linear_hist p' (if ok then pin :: acc else acc).
Proof.
  intros Hh [_ Hpin]. unfold replay_check. cbn in Hpin.
  assert (exists p1, packet_id_reap_test now p = Ret p1 /\ linear_hist p1 acc)
    as (p1 & -> & Hi & Hsb & Htb & Hsl & Hid & Hacc).
  { unfold packet_id_reap_test, packet_id_reap.
    pose proof Hh as (? & ? & Htb & ? & ? & ?).
    destruct (_ <=? now); [|eauto]. rewrite Htb. cbn. eexists; split; [reflexivity|].
    unfold linear_hist. cbn. naive_solver. }
  cbn [res_bind]. unfold packet_id_test. rewrite Hi, Hsb.
  rewrite (u64_id (rec_id p1 + 1)) by (unfold is_u64, id_bound in *; lia).
  cbn [negb Z.eqb].
  assert (Hfalse : exists ok p', Ret (false, p1) = Ret (ok, p')
      /\ (ok = true -> pin ∉ acc) /\ linear_hist p' (if ok then pin :: acc else acc)).
  { exists false, p1. repeat split; try done; naive_solver. }
  set (p' := rec_set_pos p1 (net_time pin) (net_id pin) None).
  assert (Htrue : net_id pin <> 0 -> rec_time p1 < net_time pin
      \/ net_time pin = rec_time p1 /\ (rec_id p1 = 0 \/ net_id pin = rec_id p1 + 1) ->
      exists ok p'', (let! p := packet_id_add now p1 pin in Ret (true, p)) = Ret (ok, p'')
      /\ (ok = true -> pin ∉ acc) /\ linear_hist p'' (if ok then pin :: acc else acc)).
  { intros H0 Hacc'. exists true, p'.
    split; [unfold packet_id_add; by rewrite Hsl|]. split.
    - intros _ Hq. specialize (Hacc _ Hq). lia.
    - unfold linear_hist, p', rec_set_pos. cbn. split_and!; try done; try lia.
      intros q [->|Hq]%elem_of_cons; [lia|]. specialize (Hacc _ Hq). lia. }
  destruct (Z.eqb_spec (net_id pin) 0); [apply Hfalse|].
  destruct (Z.eqb_spec (net_time pin) (rec_time p1)); cbn [res_bind].
  - destruct (Z.eqb_spec (rec_id p1) 0); cbn [orb]; [apply Htrue; lia|].
    destruct (Z.eqb_spec (net_id pin) (rec_id p1 + 1)); [apply Htrue; lia|apply Hfalse].
  - destruct (Z.ltb_spec (net_time pin) (rec_time p1)); [apply Hfalse|]. cbn [res_bind].
    destruct (Z.eqb_spec (net_id pin) 1); [apply Htrue; lia|apply Hfalse].
Qed.

Lemma packet_id_init_hist sb tb name unit_ :
  0 <= sb <= MAX_SEQ_BACKTRACK -> 0 <= tb <= MAX_TIME_BACKTRACK ->
  exists p, packet_id_init sb tb name unit_ = Ret (mk_pid send_zero p)
    /\ (if sb =? 0 then linear_hist p [] else window_hist sb p [])
    /\ (0 < sb -> time_backtrack p = tb /\ rec_time p = 0 /\ window sb p []).
Proof.
  intros Hsb Htb. unfold packet_id_init, packet_id_init_recv.
  destruct (Z.eqb_spec sb 0) as [->|Hne]; cbn [negb].
  - eexists; split; [reflexivity|]. split; [|lia].
    unfold linear_hist, id_bound. cbn. split_and!; try done. set_solver.
  - unfold MIN_SEQ_BACKTRACK, MIN_TIME_BACKTRACK.
    rewrite !(proj2 (Z.leb_le _ _)) by lia. cbn [andb res_bind].
    eexists; split; [reflexivity|].
    set (p := mk_rec _ _ _ _ _ _ _ _ _ _).
    assert (Hw : window sb p []).
    { unfold window, p, id_bound, Zlen. cbn. split_and!; try done; try lia.
      eexists; split; [reflexivity|]. apply CIRC_LIST_ALLOC_repr.
      unfold MAX_SEQ_BACKTRACK, INT_MAX in *. lia. }
    split; [|auto]. exists []. split; [done|]. unfold hist_sound. set_solver.
Qed.

(** C1: no replay.  From a freshly initialised receiver, UDP ([sb > 0]) or TCP
    ([sb = 0]) mode, any sequence of packets with any identifiers and time
    stamps, at any clock readings, is processed without leaving the window
    array, and no identifier and time stamp pair is accepted twice. *)
Theorem replay_never_accepted (sb tb unit_ : Z) (name : option bytes)
    (evs : list (Z * packet_id_net)) :
  0 <= sb <= MAX_SEQ_BACKTRACK -> 0 <= tb <= MAX_TIME_BACKTRACK ->
  Forall event_ok evs ->
  exists pid acc p', packet_id_init sb tb name unit_ = Ret pid
    /\ replay_run (pid_rec pid) evs = Ret (acc, p') /\ NoDup acc.
Proof.
  intros Hsb Htb Hev.
  destruct (packet_id_init_hist sb tb name unit_ Hsb Htb) as (p & -> & Hh & _).
  destruct (sb =? 0).
  - destruct (replay_run_NoDup linear_hist linear_hist_step evs p [] Hh Hev)
      as (acc & p' & H1 & H2 & _). eauto 6.
  - destruct (replay_run_NoDup (window_hist sb) (window_hist_step sb) evs p [] Hh Hev)
      as (acc & p' & H1 & H2 & _). eauto 6.
Qed.

Definition example_events : list (Z * packet_id_net) :=
  [(100, mk_net 1 7); (101, mk_net 3 7); (101, mk_net 2 7); (102, mk_net 3 7);
   (103, mk_net 90 7); (104, mk_net 1 7); (105, mk_net 89 7); (200, mk_net 88 7);
   (201, mk_net 1 8); (202, mk_net 90 7)].

Lemma replay_never_accepted_witness :
  exists pid acc p', packet_id_init 64 15 None 0 = Ret pid
    /\ replay_run (pid_rec pid) example_events = Ret (acc, p') /\ NoDup acc.
Proof.
  apply (replay_never_accepted 64 15 0 None example_events).
  - unfold MAX_SEQ_BACKTRACK; lia.
  - unfold MAX_TIME_BACKTRACK; lia.
  - repeat constructor; cbn; unfold SEQ_EXPIRED; lia.
Defined.

(** Without time-based expiry the window is exact. *)
Definition exact_hist (sb : Z) (p : packet_id_rec) (acc : list packet_id_net) : Prop :=
  exists es, window sb p es /\ hist_sound p es acc /\ hist_exact p es acc
             /\ time_backtrack p = 0.

Definition fresh_in_window (sb : Z) (p : packet_id_rec) (acc : list packet_id_net)
    (pin : packet_id_net) : Prop :=
  net_id pin <> 0 /\ (pin ∉ acc)
  /\ (rec_time p < net_time pin
      \/ net_time pin = rec_time p /\ rec_id p - sb < net_id pin).

Lemma window_accepts_exact sb p es acc pin :
  window sb p es -> hist_sound p es acc -> hist_exact p es acc -> 0 <= net_id pin ->
  window_accepts sb p es pin = true <-> fresh_in_window sb p acc pin.
Proof.
  intros (_ & _ & Hb & Hid & Hl & _) Hs He Hpin. split.
  - intros Ha. split; [by eapply window_accepts_id|].
    split; [by eapply hist_not_accepted|].
    unfold window_accepts in Ha. destruct (Z.ltb_spec (rec_time p) (net_time pin)); [auto|right].
    destruct (Z.eqb_spec (net_time pin) (rec_time p)); [|by rewrite andb_false_r in Ha].
    split; [done|]. destruct (Z.ltb_spec (rec_id p) (net_id pin)); [lia|].
    cbn [orb andb] in Ha. apply andb_true_iff in Ha as [_ Ha%bool_decide_eq_true].
    apply lookup_lt_Some in Ha. unfold Zlen in Hl. lia.
  - intros (H0 & Hnin & Hwin). unfold window_accepts.
    rewrite (proj2 (Z.eqb_neq _ _)) by done. cbn [negb andb].
    destruct (Z.ltb_spec (rec_time p) (net_time pin)); [done|].
    destruct Hwin as [?|[Ht Hw]]; [lia|]. rewrite (proj2 (Z.eqb_eq _ _)) by done.
    destruct (Z.ltb_spec (rec_id p) (net_id pin)); [done|]. cbn [orb andb].
    apply bool_decide_eq_true.
    destruct (lookup_lt_is_Some_2 es (Z.to_nat (rec_id p - net_id pin))) as [v Hv];
      [unfold Zlen in Hl; lia|].
    destruct (decide (v = 0)) as [->|Hv0]; [done|]. exfalso. apply Hnin.
    specialize (He _ _ Hv Hv0). rewrite <- Ht in He.
    replace (rec_id p - Z.of_nat (Z.to_nat (rec_id p - net_id pin)))
      with (net_id pin) in He by lia. by destruct pin.
Qed.

Lemma hist_exact_same p p' es acc :
  hist_exact p es acc -> rec_time p' = rec_time p -> rec_id p' = rec_id p ->
  hist_exact p' es acc.
Proof. unfold hist_exact. intros H -> ->. exact H. Qed.

Lemma exact_hist_check sb now p acc pin :
  exact_hist sb p acc -> event_ok (now, pin) ->
  exists ok p', replay_check now p pin = Ret (ok, p')
    /\ (ok = true <-> fresh_in_window sb p acc pin)
    /\ exact_hist sb p' (if ok then pin :: acc else acc).
Proof.
  intros (es & Hw & Hs & He & Htb) [Hn Hpin]. unfold replay_check. cbn in Hn, Hpin.
  destruct (packet_id_reap_test_window now sb p es Hw)
    as (p1 & es1 & -> & Hw1 & _ & Ht1 & Hi1 & Htb1 & Hes). rewrite (Hes Htb) in *. clear Hes es1.
  assert (Hs1 : hist_sound p1 es acc) by eauto using hist_sound_expires, only_expires_refl.
  assert (He1 : hist_exact p1 es acc) by eauto using hist_exact_same.
  destruct (packet_id_test_window sb p1 es pin Hw1 Hpin)
    as (p2 & H2 & Hw2 & Ht2 & Hi2 & Htb2).
  cbn [res_bind]. rewrite H2. cbn [res_bind].
  assert (Hs2 : hist_sound p2 es acc) by eauto using hist_sound_expires, only_expires_refl.
  assert (He2 : hist_exact p2 es acc) by eauto using hist_exact_same.
  assert (Hiff : window_accepts sb p1 es pin = true <-> fresh_in_window sb p acc pin).
  { rewrite (window_accepts_exact sb p1 es acc pin Hw1 Hs1 He1) by lia.
    unfold fresh_in_window. by rewrite Ht1, Hi1. }
  assert (Ha2 : window_accepts sb p2 es pin = window_accepts sb p1 es pin)
    by (unfold window_accepts; by rewrite Ht2, Hi2).
  destruct (window_accepts sb p1 es pin) eqn:Ha.
  - destruct (packet_id_add_window now sb p2 es pin Hw2 Hpin Hn) as (p3 & -> & H3).
    cbn. eexists true, p3. split; [done|]. split; [done|].
    destruct (window_add sb now (rec_time p2) (rec_id p2) es pin) as [[t i] es2] eqn:E.
    destruct H3 as (Ht3 & Hi3 & Hw3 & Htb3). exists es2. split_and!; [done| | |congruence].
    + apply window_accepts_id in Ha.
      apply (window_add_sound now sb p2 p3 es acc pin t i es2); auto; lia.
    + by apply (window_add_exact now sb p2 p3 es acc pin t i es2).
  - eexists false, p2. split; [done|]. split; [done|]. exists es. split_and!; [done|done|done|congruence].
Qed.

(** C2: the replay window loses nothing.  In UDP mode without time-based
    expiry, after any run, the next packet is accepted exactly when it is new
    and either starts a later time stamp or lies above the highest identifier
    minus the window size: reordering within the window never drops a packet. *)
Theorem replay_window_exact (sb unit_ now : Z) (name : option bytes)
    (evs : list (Z * packet_id_net)) (pin : packet_id_net) :
  0 < sb <= MAX_SEQ_BACKTRACK -> Forall event_ok evs -> event_ok (now, pin) ->
  exists pid acc p ok p', packet_id_init sb 0 name unit_ = Ret pid
    /\ replay_run (pid_rec pid) evs = Ret (acc, p)
    /\ replay_check now p pin = Ret (ok, p')
    /\ (ok = true <-> fresh_in_window sb p acc pin).
Proof.
  intros Hsb Hev Hpin.
  destruct (packet_id_init_hist sb 0 name unit_) as (p & -> & _ & Hw);
    [lia|unfold MAX_TIME_BACKTRACK; lia|]. destruct Hw as (Htb & _ & Hw); [lia|].
  assert (HI : exact_hist sb p []).
  { exists []. unfold hist_sound, hist_exact. split_and!; set_solver. }
  destruct (replay_run_NoDup (exact_hist sb)
    ltac:(intros; destruct (exact_hist_check sb now0 p0 acc pin0) as (ok & p' & ? & Hok & ?);
          [done..|]; exists ok, p'; unfold fresh_in_window in Hok; naive_solver)
    evs p [] HI Hev) as (acc & p1 & H1 & _ & _ & HI1).
  rewrite app_nil_r in HI1.
  destruct (exact_hist_check sb now p1 _ pin HI1 Hpin) as (ok & p2 & H2 & Hok & _).
  eexists _, acc, p1, ok, p2. split_and!; [done|done|done|].
  rewrite Hok. unfold fresh_in_window. by rewrite elem_of_reverse.
Qed.

Lemma replay_window_exact_witness :
  exists pid acc p ok p', packet_id_init 64 0 None 0 = Ret pid
    /\ replay_run (pid_rec pid) example_events = Ret (acc, p)
    /\ replay_check 300 p (mk_net 2 8) = Ret (ok, p')
    /\ (ok = true <-> fresh_in_window 64 p acc (mk_net 2 8)).
Proof.
  apply (replay_window_exact 64 0 300 None example_events (mk_net 2 8)).
  - unfold MAX_SEQ_BACKTRACK; lia.
  - repeat constructor; cbn; unfold SEQ_EXPIRED; lia.
  - repeat constructor; cbn; unfold SEQ_EXPIRED; lia.
Defined.

(** ** The sender never reuses an identifier *)
Fixpoint send_run (p : packet_id_send) (nows : list Z) (long_form : bool) : list (Z * Z) :=
  match nows with
  | [] => []
  | now :: nows' =>
      let '(ok, p') := packet_id_send_update now p long_form in
      if ok then (send_time p', send_id p') :: send_run p' nows' long_form
      else send_run p' nows' long_form
  end.

Definition lex_lt (a b : Z * Z) : Prop := a.1 < b.1 \/ a.1 = b.1 /\ a.2 < b.2.

Definition send_wf (p : packet_id_send) : Prop :=
  0 <= send_id p <= PACKET_ID_MAX /\ 0 <= send_time p
  /\ (send_time p = 0 -> send_id p = 0).

Lemma send_update_fresh now p long_form ok p' :
  send_wf p -> 0 < now -> packet_id_send_update now p long_form = (ok, p') ->
  send_wf p' /\ (send_time p = 0 \/ send_time p' <> 0)
  /\ (if ok then 1 <= send_id p' /\
        (send_time p = 0 \/ lex_lt (send_time p, send_id p) (send_time p', send_id p'))
      else send_time p <> 0 -> send_time p' = send_time p /\ send_id p' = send_id p).
Proof.
  intros (Hi & Ht & H0) Hn.
  unfold packet_id_send_update, send_wf, lex_lt, PACKET_ID_MAX, UINT32_MAX in *.
  destruct (Z.eqb_spec (send_time p) 0) as [E|E].
  - rewrite (H0 E). cbn [Z.eqb]. intros [= <- <-]. cbn. change (u64 (0 + 1)) with 1. lia.
  - destruct (Z.eqb_spec (send_id p) (2 ^ 32 - 1)).
    + destruct (_ || _) eqn:Eb; intros; simplify_eq; cbn; [lia|].
      destruct long_form; [|done]. cbn in Eb. change (u64 (0 + 1)) with 1. lia.
    + intros; simplify_eq. cbn. rewrite u64_id by (unfold is_u64; lia). lia.
Qed.

Lemma send_run_sorted nows p long_form :
  send_wf p -> Forall (Z.lt 0) nows ->
  Forall (fun e => (send_time p = 0 \/ lex_lt (send_time p, send_id p) e)
                   /\ 1 <= e.2 <= PACKET_ID_MAX) (send_run p nows long_form)
  /\ StronglySorted lex_lt (send_run p nows long_form).
Proof.
  intros Hp Hn. revert p Hp. induction Hn as [|now nows Hnow _ IH]; intros p Hp; cbn [send_run].
  { split; constructor. }
  destruct (packet_id_send_update now p long_form) as [ok p'] eqn:E.
  destruct (send_update_fresh _ _ _ _ _ Hp Hnow E) as (Hp' & Hz & Hok).
  destruct (IH p' Hp') as [IH1 IH2]. 
  assert (Hlift : Forall (fun e => (send_time p = 0 \/ lex_lt (send_time p, send_id p) e)
                   /\ 1 <= e.2 <= PACKET_ID_MAX) (send_run p' nows long_form)).
  { eapply Forall_impl; [exact IH1|]. cbn. intros e [H1 H2]. split; [|done].
    destruct Hz as [?|Hz]; [auto|]. destruct H1 as [?|H1]; [done|].
    destruct (decide (send_time p = 0)); [auto|right].
    destruct ok; unfold lex_lt in *; cbn in *; lia. }
  destruct ok; [|done]. split.
  - constructor; [|done]. cbn. destruct Hp' as (? & ? & ?). naive_solver lia.
  - constructor; [done|]. eapply Forall_impl; [exact IH1|]. cbn. intros e [H1 _].
    destruct H1 as [H1|H1]; [|done]. destruct Hp' as (? & ? & Hp'). specialize (Hp' H1). lia.
Qed.

(** C4: the sender never repeats an identifier.  Over any sequence of calls at
    any clock readings, the pairs (time, id) that [packet_id_send_update] hands
    out are strictly increasing in lexicographic order, and no id is 0 or above
    the 32-bit maximum: the counter stops, or moves to a later time, instead of
    wrapping. *)
Theorem packet_id_send_unique (nows : list Z) (long_form : bool) :
  Forall (Z.lt 0) nows ->
  StronglySorted lex_lt (send_run send_zero nows long_form)
  /\ Forall (fun e => 1 <= e.2 <= PACKET_ID_MAX) (send_run send_zero nows long_form).
Proof.
  intros Hn. assert (Hz : send_wf send_zero).
  { unfold send_wf, PACKET_ID_MAX, UINT32_MAX. cbn. lia. }
  destruct (send_run_sorted nows send_zero long_form Hz Hn) as [H1 H2].
  split; [done|]. eapply Forall_impl; [exact H1|]. naive_solver.
Qed.

Lemma packet_id_send_unique_witness :
  StronglySorted lex_lt (send_run send_zero [5; 3; 9] true)
  /\ Forall (fun e => 1 <= e.2 <= PACKET_ID_MAX) (send_run send_zero [5; 3; 9] true).
Proof. apply (packet_id_send_unique [5; 3; 9] true). repeat constructor; lia. Defined.

(** ** Wire format round trips *)
Definition pid_room (long_form prepend : bool) (h t : Z) : Prop :=
  packet_id_size long_form <= if prepend then h else t.

Lemma packet_id_read_header b h id t c room long_form :
  buf_repr b h (be_bytes 4 id ++ (if long_form : bool then be_bytes 4 t else []) ++ c) room ->
  exists b', packet_id_read b long_form
             = Ret (true, mk_net (u32 id) (if long_form then u32 t else 0), b')
    /\ buf_repr b' (h + packet_id_size long_form) c room.
Proof.
  intros Hb. unfold packet_id_read, packet_id_size.
  destruct (buf_read_repr _ _ _ _ Hb 4) as (b1 & -> & Hb1).
  { rewrite Zlen_app, Zlen_be_bytes. split; [lia|].
    pose proof (Zlen_nonneg ((if long_form then be_bytes 4 t else []) ++ c)). lia. }
  change (Z.to_nat 4) with (length (be_bytes 4 id)) in *.
  rewrite take_app_length, drop_app_length in *. cbn [res_bind].
  rewrite be_val_bytes. change (256 ^ Z.of_nat 4) with (2 ^ 32). fold (u32 id).
  destruct long_form; [|eauto].
  destruct (buf_read_repr _ _ _ _ Hb1 4) as (b2 & -> & Hb2).
  { rewrite Zlen_app, Zlen_be_bytes. pose proof (Zlen_nonneg c). lia. }
  change (Z.to_nat 4) with (length (be_bytes 4 t)) in *.
  rewrite take_app_length, drop_app_length in *. cbn [res_bind].
  rewrite be_val_bytes. change (256 ^ Z.of_nat 4) with (2 ^ 32). fold (u32 t).
  eexists; split; [reflexivity|]. by replace (h + (4 + 4)) with (h + 4 + 4) by lia.
Qed.

Lemma packet_id_write_bytes now p b h c t long_form prepend p' :
  buf_repr b h c t -> pid_room long_form prepend h t ->
  (prepend = false -> c = []) ->
  packet_id_send_update now p long_form = (true, p') ->
  exists b' h' t', packet_id_write now p b long_form prepend = Ret (true, p', b')
    /\ buf_repr b' h' (be_bytes 4 (send_id p')
                       ++ (if long_form then be_bytes 4 (send_time p') else []) ++ c) t'
    /\ h' + packet_id_size long_form = (if prepend then h else h + packet_id_size long_form).
Proof.
  intros Hb Hroom Hc Hup. unfold packet_id_write. rewrite Hup. cbn [negb].
  unfold pid_room, packet_id_size in *.
  assert (Hok : forall x, bytes_ok (be_bytes 4 x)) by (intros; apply be_bytes_ok).
  assert (Hlen : forall x, Zlen (be_bytes 4 x) = 4) by (intros; apply Zlen_be_bytes).
  destruct prepend.
  - destruct long_form.
    + destruct (buf_write_prepend_repr _ _ _ _ Hb (be_bytes 4 (send_time p')))
        as (b1 & -> & Hb1); [auto|rewrite Hlen; lia|]. cbn [res_bind negb].
      destruct (buf_write_prepend_repr _ _ _ _ Hb1 (be_bytes 4 (send_id p')))
        as (b2 & -> & Hb2); [auto|rewrite !Hlen; lia|]. cbn [res_bind].
      rewrite !Hlen in Hb2. eexists _, _, _. split; [reflexivity|]. split; [exact Hb2|lia].
    + cbn [res_bind negb].
      destruct (buf_write_prepend_repr _ _ _ _ Hb (be_bytes 4 (send_id p')))
        as (b2 & -> & Hb2); [auto|rewrite !Hlen; lia|]. cbn [res_bind].
      rewrite !Hlen in Hb2. eexists _, _, _. split; [reflexivity|]. split; [exact Hb2|lia].
  - rewrite Hc in * by done.
    destruct (buf_write_repr _ _ _ _ Hb (be_bytes 4 (send_id p')))
      as (b1 & -> & Hb1); [auto|rewrite Hlen; destruct long_form; lia|]. cbn [res_bind negb].
    rewrite Hlen in Hb1. destruct long_form.
    + destruct (buf_write_repr _ _ _ _ Hb1 (be_bytes 4 (send_time p')))
        as (b2 & -> & Hb2); [auto|rewrite Hlen; lia|]. cbn [res_bind].
      eexists _, _, _. split; [reflexivity|]. rewrite !app_nil_r.
      split; [exact Hb2|lia].
    + eexists _, _, _. split; [reflexivity|]. rewrite app_nil_r. split; [exact Hb1|lia].
Qed.

(** Packet-id round trip.  Whatever the form (short or long) and the side
    (prepended to a payload, or appended to an empty buffer), the identifier and
    time stamp that [packet_id_write] puts on the wire are the ones
    [packet_id_read] returns, and reading leaves exactly the payload. *)
Lemma packet_id_wire_roundtrip (now : Z) (p p' : packet_id_send) (b : buffer)
    (h t : Z) (c : bytes) (long_form prepend : bool) :
  buf_repr b h c t -> pid_room long_form prepend h t -> (prepend = false -> c = []) ->
  send_wf p -> 0 < now ->
  packet_id_send_update now p long_form = (true, p') ->
  exists b1 b2, packet_id_write now p b long_form prepend = Ret (true, p', b1)
    /\ packet_id_read b1 long_form
       = Ret (true, mk_net (send_id p') (if long_form then u32 (send_time p') else 0), b2)
    /\ contents b2 = c.
Proof.
  intros Hb Hroom Hc Hp Hnow Hup.
  destruct (packet_id_write_bytes now p b h c t long_form prepend p')
    as (b1 & h' & t' & H1 & Hb1 & _); [done..|].
  destruct (packet_id_read_header _ _ _ _ _ _ _ Hb1) as (b2 & H2 & Hb2).
  exists b1, b2. split; [done|]. rewrite H2.
  split; [|by eapply buf_repr_contents].
  destruct (send_update_fresh _ _ _ _ _ Hp Hnow Hup) as ((Hid & _) & _).
  rewrite (u32_id (send_id p')); [done|].
  unfold is_u32, PACKET_ID_MAX, UINT32_MAX in *. lia.
Qed.

Definition payload_buf : buffer := mk_buffer 16 10 2 (Some (replicate 10 0 ++ [7; 7; 0; 0; 0; 0])).
Lemma payload_buf_repr : buf_repr payload_buf 10 [7; 7] 4.
Proof.
  exists (replicate 10 0), (replicate 4 0).
  repeat split; try done; repeat constructor; cbn; lia.
Qed.

Lemma epoch_pack epoch id :
  is_u16 epoch -> 0 <= id < 2 ^ 48 ->
  let x := Z.lor (u64 (Z.shiftl epoch 48)) id in
  x = epoch * 2 ^ 48 + id /\ u16 (Z.shiftr x 48) = epoch /\ Z.land x PACKET_ID_MASK = id.
Proof.
  intros He Hi x. unfold is_u16 in He.
  assert (Hx : x = epoch * 2 ^ 48 + id).
  { unfold x. rewrite Z.shiftl_mul_pow2 by lia.
    rewrite u64_id by (unfold is_u64; lia).
    pose proof (Z.add_lor_land (epoch * 2 ^ 48) id) as Hsum.
    assert (E : Z.land (epoch * 2 ^ 48) id = 0).
    { rewrite <- (Z.shiftl_mul_pow2 epoch 48) by lia. apply Z.bits_inj'. intros n Hn.
      rewrite Z.land_spec, Z.bits_0. destruct (Z.lt_ge_cases n 48).
      - by rewrite Z.shiftl_spec_low.
      - rewrite <- (Z.mod_small id (2 ^ 48)) by lia.
        rewrite Z.mod_pow2_bits_high by lia. apply andb_false_r. }
    rewrite E in Hsum. lia. }
  split; [done|]. rewrite Hx. split.
  - rewrite Z.shiftr_div_pow2, Z.div_add_l, (Z.div_small id) by lia.
    rewrite Z.add_0_r. by apply u16_id.
  - change PACKET_ID_MASK with (Z.ones 48). rewrite Z.land_ones by lia.
    rewrite Z.add_comm, Z.mod_add by lia. by apply Z.mod_small.
Qed.

(** Epoch packet-id round trip.  Until the 48-bit counter is exhausted,
    [packet_id_write_epoch] advances it by one and writes eight bytes from which
    [packet_id_read_epoch] recovers both the 16-bit epoch and the counter; at
    the maximum it writes nothing and leaves the state alone. *)
Lemma packet_id_epoch_roundtrip (now epoch : Z) (p : packet_id_send) (b : buffer)
    (h t : Z) (pin : packet_id_net) :
  buf_repr b h [] t -> 8 <= t -> is_u16 epoch ->
  0 <= send_id p <= PACKET_ID_EPOCH_MAX -> send_time p <> 0 ->
  if send_id p =? PACKET_ID_EPOCH_MAX
  then packet_id_write_epoch now p epoch b = Ret (false, p, b)
  else exists b1 b2,
    packet_id_write_epoch now p epoch b
      = Ret (true, mk_send (send_id p + 1) (send_time p), b1)
    /\ packet_id_read_epoch pin b1
       = Ret (epoch, mk_net (send_id p + 1) (net_time pin), b2)
    /\ contents b2 = [].
Proof.
  intros Hb Ht He Hi Htime. unfold packet_id_write_epoch, packet_id_send_update_epoch.
  rewrite (proj2 (Z.eqb_neq (send_time p) 0)) by done.
  destruct (Z.eqb_spec (send_id p) PACKET_ID_EPOCH_MAX) as [E|E].
  { cbn. by destruct p. }
  unfold PACKET_ID_EPOCH_MAX in *.
  rewrite u64_id by (unfold is_u64; lia). cbn [negb send_id send_time].
  destruct (epoch_pack epoch (send_id p + 1) He) as (Hx & H1 & H2); [lia|].
  set (x := Z.lor (u64 (Z.shiftl epoch 48)) (send_id p + 1)) in *. cbv zeta.
  destruct (buf_write_repr _ _ _ _ Hb (be_bytes 8 x)) as (b1 & -> & Hb1);
    [apply be_bytes_ok|by rewrite Zlen_be_bytes|]. cbn [res_bind].
  destruct (buf_read_repr _ _ _ _ Hb1 8) as (b2 & Hrd & Hb2).
  { cbn [app]. rewrite Zlen_be_bytes. lia. }
  exists b1, b2. split; [done|]. unfold packet_id_read_epoch. rewrite Hrd.
  cbn [app] in *. rewrite take_ge, drop_ge in * by (rewrite length_be_bytes; lia).
  cbn [res_bind]. rewrite be_val_bytes. change (256 ^ Z.of_nat 8) with (2 ^ 64).
  unfold is_u16 in He. rewrite (Z.mod_small x) by lia. rewrite H1, H2.
  split; [done|]. by eapply buf_repr_contents.
Qed.

(** ** Replay state restored from the --replay-persist file *)

Definition restored (sb unit_ T H : Z) : res packet_id :=
  let! pid := packet_id_init sb 0 None unit_ in
  Ret (packet_id_persist_load_obj (mk_persist None 3 T H T H) pid).

Definition empty_window_rec (sb unit_ T H lr : Z) (sl : circ_list Z) : packet_id_rec :=
  mk_rec lr T H sb 0 0 true (Some sl) None unit_.

Lemma empty_window_reap now sb unit_ T H lr sl :
  exists lr', packet_id_reap_test now (empty_window_rec sb unit_ T H lr sl)
              = Ret (empty_window_rec sb unit_ T H lr' sl).
Proof. unfold packet_id_reap_test. destruct (_ <=? now); eexists; reflexivity. Qed.

Lemma empty_window_add now sb unit_ T H lr sl :
  0 < sb <= MAX_SEQ_BACKTRACK -> SEQ_EXPIRED < now -> 0 < H < 2 ^ 32 - 1 ->
  circ_repr sb sl [] ->
  exists p1, packet_id_add now (empty_window_rec sb unit_ T H lr sl) (mk_net (H + 1) T) = Ret p1
    /\ rec_time p1 = T /\ rec_id p1 = H + 1
    /\ window sb p1 (<[0%nat := now]> (replicate (Z.to_nat (Z.min sb (H + 1))) 0))
    /\ time_backtrack p1 = 0.
Proof.
  intros Hsb Hn HH Hsl. unfold packet_id_add.
  cbn [empty_window_rec seq_list seq_backtrack net_id net_time rec_time rec_id].
  assert (CIRC_LIST_SIZE sl = 0) as -> by apply Hsl. cbn [Z.eqb orb].
  set (id0 := if sb <? H + 1 then u64 (H + 1 - sb) else 0).
  assert (H + 1 - id0 = Z.min sb (H + 1) /\ 0 <= id0 <= H + 1) as [Hd0 Hid0].
  { subst id0. destruct (Z.ltb_spec sb (H + 1)); [|lia].
    rewrite u64_id by (unfold is_u64; lia). lia. }
  destruct (add_from_window now sb (empty_window_rec sb unit_ T H lr sl)
              (mk_net (H + 1) T) T id0 (CIRC_LIST_RESET sl) [])
    as (p1 & Hadd & Ht & Hi & Hw & Htb); try done.
  { by eapply CIRC_LIST_RESET_repr. }
  { unfold id_bound; lia. }
  { unfold id_bound; cbn; lia. }
  { cbn [net_id]. unfold Zlen. rewrite length_take, app_nil_r, length_replicate. lia. }
  cbn [net_id] in *. rewrite Z.max_r, Z.sub_diag, app_nil_r, Hd0 in * by lia.
  rewrite take_ge in Hw by (rewrite length_replicate; lia). exists p1. auto.
Qed.

Lemma restored_first sb unit_ now T H :
  0 < sb <= MAX_SEQ_BACKTRACK -> SEQ_EXPIRED < now -> 0 < T -> 0 < H < 2 ^ 32 - 1 ->
  exists pid p1, restored sb unit_ T H = Ret pid
    /\ rec_id (pid_rec pid) = H
    /\ replay_check now (pid_rec pid) (mk_net (H + 1) T) = Ret (true, p1)
    /\ window sb p1 (<[0%nat := now]> (replicate (Z.to_nat (Z.min sb (H + 1))) 0))
    /\ rec_time p1 = T /\ rec_id p1 = H + 1 /\ time_backtrack p1 = 0.
Proof.
  intros Hsb Hn HT HH.
  assert (Hsl : circ_repr sb (CIRC_LIST_ALLOC SEQ_UNSEEN sb) []).
  { apply CIRC_LIST_ALLOC_repr. unfold MAX_SEQ_BACKTRACK, INT_MAX in *. lia. }
  assert (Hres : restored sb unit_ T H = Ret (mk_pid send_zero
      (empty_window_rec sb unit_ T H 0 (CIRC_LIST_ALLOC SEQ_UNSEEN sb)))).
  { unfold restored, packet_id_init, packet_id_init_recv.
    rewrite (proj2 (Z.eqb_neq sb 0)) by lia.
    unfold MIN_SEQ_BACKTRACK, MIN_TIME_BACKTRACK, MAX_TIME_BACKTRACK.
    rewrite !(proj2 (Z.leb_le _ _)) by lia. cbn [negb andb res_bind].
    unfold packet_id_persist_load_obj. cbn [packet_id_persist_enabled p_fd p_time].
    by rewrite (proj2 (Z.eqb_neq T 0)) by lia. }
  destruct (empty_window_reap now sb unit_ T H 0 (CIRC_LIST_ALLOC SEQ_UNSEEN sb)) as [lr Hr].
  destruct (empty_window_add now sb unit_ T H lr _ Hsb Hn HH Hsl) as (p1 & Ha & Ht & Hi & Hw & Htb).
  eexists _, p1. split; [exact Hres|]. split; [done|]. split; [|auto].
  unfold replay_check. cbn [pid_rec]. rewrite Hr. cbn [res_bind].
  unfold packet_id_test. cbn [empty_window_rec initialized net_id net_time rec_id rec_time seq_backtrack].
  rewrite (proj2 (Z.eqb_neq (H + 1) 0)), (proj2 (Z.eqb_neq sb 0)), Z.eqb_refl,
    (proj2 (Z.ltb_lt H (H + 1))) by lia. cbn [negb res_bind].
  fold (empty_window_rec sb unit_ T H lr (CIRC_LIST_ALLOC SEQ_UNSEEN sb)). by rewrite Ha.
Qed.

(** Restoring the persisted state does not restore the window.  A receiver
    that reloads highest identifier [H] at time [T] accepts [H + 1], and from
    then on accepts every identifier of the window below it although it is not
    above the persisted [H], so packets the previous session already received
    pass again. *)
Lemma persisted_window_reopens (sb unit_ now T H x : Z) :
  0 < sb <= MAX_SEQ_BACKTRACK -> SEQ_EXPIRED < now -> 0 < T -> 0 < H < 2 ^ 32 - 1 ->
  1 <= x <= H -> H + 1 - sb < x ->
  exists pid p1 p2, restored sb unit_ T H = Ret pid
    /\ rec_id (pid_rec pid) = H
    /\ replay_check now (pid_rec pid) (mk_net (H + 1) T) = Ret (true, p1)
    /\ replay_check now p1 (mk_net x T) = Ret (true, p2).
Proof.
  intros Hsb Hn HT HH Hx Hxw.
  destruct (restored_first sb unit_ now T H) as (pid & p1 & H1 & H2 & H3 & Hw & Ht & Hi & Htb);
    [done..|].
  set (es := <[0%nat := now]> (replicate (Z.to_nat (Z.min sb (H + 1))) 0)) in *.
  destruct (packet_id_reap_test_window now sb p1 es Hw)
    as (p2 & es2 & Hr & Hw2 & _ & Ht2 & Hi2 & _ & He). rewrite (He Htb) in Hw2.
  destruct (packet_id_test_window sb p2 es (mk_net x T) Hw2) as (p3 & Htest & Hw3 & _);
    [unfold id_bound; cbn; lia|].
  assert (Ha : window_accepts sb p2 es (mk_net x T) = true).
  { unfold window_accepts. cbn [net_id net_time]. rewrite Ht2, Hi2, Ht, Hi, Z.eqb_refl.
    rewrite (proj2 (Z.eqb_neq x 0)) by lia. cbn [negb andb].
    rewrite bool_decide_eq_true_2; [by rewrite !orb_true_r|].
    subst es. rewrite list_lookup_insert_ne by lia.
    apply lookup_replicate_2. lia. }
  rewrite Ha in Htest.
  destruct (packet_id_add_window now sb p3 es (mk_net x T) Hw3) as (p4 & Hadd & _);
    [unfold id_bound; cbn; lia|done|].
  exists pid, p1, p4. split_and!; [done..|].
  unfold replay_check. rewrite Hr. cbn [res_bind]. rewrite Htest. cbn [res_bind].
  by rewrite Hadd.
Qed.

