(* ===== verification/Reliable.v ===== *)
(** * The reliability layer of the control channel (session_id.h, reliable.h,
    reliable.c)

    Acknowledgment records, the ring of in-flight or out-of-order packets
    ([struct reliable]) and its timers.  A [struct buffer *] into the array of a
    [struct reliable] is the index of its entry. *)

From S2P Require Import Prelude CircList Buffer PacketId.

(** ** session_id.h *)
Definition SID_SIZE : Z := 8.
(** The eight bytes of [struct session_id]. *)
Definition session_id : Type := bytes.
Definition x_session_id_zero : session_id := replicate 8 0.
Definition session_id_equal (sid1 sid2 : session_id) : bool := memcmp_eq sid1 sid2.
Definition session_id_defined (sid1 : session_id) : bool :=
  negb (memcmp_eq sid1 x_session_id_zero).
Definition session_id_read (b : buffer) : res (option session_id * buffer) :=
  buf_read b SID_SIZE.
Definition session_id_write_prepend (sid : session_id) (b : buffer) : res (bool * buffer) :=
  buf_write_prepend b sid.
Definition session_id_write (sid : session_id) (b : buffer) : res (bool * buffer) :=
  buf_write b sid.

(** ** Sequence numbers with wraparound *)
Definition RELIABLE_ACK_SIZE : Z := 8.
Definition RELIABLE_CAPACITY : Z := 12.
Definition N_ACK_RETRANSMIT : Z := 3.
Definition BIG_TIMEOUT : Z := 60 * 60 * 24 * 7.

Definition subtract_pid (test base : Z) : Z := u32 (test - base).
Definition reliable_pid_in_range1 (test base extent : Z) : bool :=
  subtract_pid test base <? extent.
Definition reliable_pid_in_range2 (test base extent : Z) : bool :=
  if base <=? u32 (base + extent)
  then test <? u32 (base + extent)
  else u32 (test + 0x80000000) <? u32 (u32 (base + 0x80000000) + extent).
Definition reliable_pid_min (p1 p2 : Z) : bool :=
  negb (reliable_pid_in_range1 p1 p2 0x80000000).

(** ** Acknowledgment records *)
Record reliable_ack : Type := mk_ack { ack_len : Z; ack_packet_id : list Z }.

Definition ACK_SIZE (n : Z) : Z := 1 + (if n =? 0 then 0 else SID_SIZE) + 4 * n.

(** The entries in use. *)
Definition ack_ids (a : reliable_ack) : list Z := take (Z.to_nat (ack_len a)) (ack_packet_id a).

Definition reliable_ack_empty (a : reliable_ack) : bool := ack_len a =? 0.
Definition reliable_ack_outstanding (a : reliable_ack) : Z := ack_len a.

(** [for (i = 0; i < ack->len; ++i) if (ack->packet_id[i] == pid)]: [n]
    iterations are left. *)
Fixpoint ack_present_loop (n : nat) (i : Z) (a : reliable_ack) (pid : Z) : res bool :=
  match n with
  | O => Ret false
  | S n' => let! x := arr_get (ack_packet_id a) i in
            if x =? pid then Ret true else ack_present_loop n' (i + 1) a pid
  end.
Definition reliable_ack_packet_id_present (a : reliable_ack) (pid : Z) : res bool :=
  ack_present_loop (Z.to_nat (ack_len a)) 0 a pid.

Definition reliable_ack_read_packet_id (b : buffer) : res (option Z * buffer) :=
  let! (r, b) := buf_read b 4 in Ret (be_val <$> r, b).

Definition reliable_ack_acknowledge_packet_id (a : reliable_ack) (pid : Z)
  : res (bool * reliable_ack) :=
  let! present := reliable_ack_packet_id_present a pid in
  if negb present && (ack_len a <? RELIABLE_ACK_SIZE)
  then let! l := arr_set (ack_packet_id a) (ack_len a) pid in
       Ret (true, mk_ack (ack_len a + 1) l)
  else Ret (false, a).

(** The loop of [reliable_ack_parse]: [n] iterations left. *)
Fixpoint ack_parse_loop (n : nat) (b : buffer) (a : reliable_ack)
  : res (bool * reliable_ack * buffer) :=
  match n with
  | O => Ret (true, a, b)
  | S n' =>
      let! (r, b) := buf_read b 4 in
      match r with
      | None => Ret (false, a, b)
      | Some s =>
          if RELIABLE_ACK_SIZE <=? ack_len a then Ret (false, a, b)
          else let! l := arr_set (ack_packet_id a) (ack_len a) (be_val s) in
               ack_parse_loop n' b (mk_ack (ack_len a + 1) l)
      end
  end.

(** [sid] is what [*session_id_remote] holds; it stays when nothing is read. *)
Definition reliable_ack_parse (b : buffer) (a : reliable_ack) (sid : session_id)
  : res (bool * reliable_ack * session_id * buffer) :=
  let a := mk_ack 0 (ack_packet_id a) in
  let! (r, b) := buf_read b 1 in
  match r with
  | None => Ret (false, a, sid, b)
  | Some c =>
      let count := be_val c in
      let! (ok, a, b) := ack_parse_loop (Z.to_nat count) b a in
      if negb ok then Ret (false, a, sid, b)
      else if negb (count =? 0) then
        let! (r, b) := session_id_read b in
        match r with
        | None => Ret (false, a, sid, b)
        | Some s => Ret (true, a, s, b)
        end
      else Ret (true, a, sid, b)
  end.

(** [junk] is the uninitialised local [session_id_remote]. *)
Definition reliable_ack_read (a : reliable_ack) (b : buffer) (sid junk : session_id)
  : res (bool * reliable_ack * buffer) :=
  let! (ok, a, remote, b) := reliable_ack_parse b a junk in
  if negb ok then Ret (false, a, b)
  else if (1 <=? ack_len a)
          && (negb (session_id_defined remote) || negb (session_id_equal remote sid))
  then Ret (false, a, b) else Ret (true, a, b).

(** The inner loop of [copy_acks_to_mru]: shift entries right until [id] shows
    up; [n] iterations are left.  Result: [idfound], [move] and the array. *)
Fixpoint mru_shift (n : nat) (j : Z) (id move : Z) (l : list Z) : res (bool * Z * list Z) :=
  match n with
  | O => Ret (false, move, l)
  | S n' =>
      let! tmp := arr_get l j in
      let! l := arr_set l j move in
      if tmp =? id then Ret (true, tmp, l) else mru_shift n' (j + 1) id tmp l
  end.

Definition mru_insert (mru : reliable_ack) (id : Z) : res reliable_ack :=
  let! mru := if ack_len mru =? 0
              then let! l := arr_set (ack_packet_id mru) 0 id in Ret (mk_ack 1 l)
              else Ret mru in
  let! (idfound, move, l) := mru_shift (Z.to_nat (ack_len mru)) 0 id id (ack_packet_id mru) in
  if negb idfound && (ack_len mru <? RELIABLE_ACK_SIZE)
  then let! l := arr_set l (ack_len mru) move in Ret (mk_ack (ack_len mru + 1) l)
  else Ret (mk_ack (ack_len mru) l).

(** [for (i = n - 1; i >= 0; i--)]. *)
Fixpoint copy_acks_loop (n : nat) (a mru : reliable_ack) : res reliable_ack :=
  match n with
  | O => Ret mru
  | S n' => let! id := arr_get (ack_packet_id a) (Z.of_nat n') in
            let! mru := mru_insert mru id in
            copy_acks_loop n' a mru
  end.
Definition copy_acks_to_mru (a mru : reliable_ack) (n : Z) : res reliable_ack :=
  assert! n <=? ack_len a in copy_acks_loop (Z.to_nat n) a mru.

(** The bytes written through [sub] for [n] identifiers from [l]. *)
Fixpoint ack_ids_bytes (l : list Z) : bytes :=
  match l with [] => [] | x :: l' => be_bytes 4 x ++ ack_ids_bytes l' end.

(** [buf_sub] hands out a window of [ACK_SIZE (total_acks)] bytes, which the
    following writes fill from its start; the assertions on them are the
    comparison with that size. *)
Definition reliable_ack_write (a mru : reliable_ack) (b : buffer) (sid : session_id)
    (max : Z) (prepend : bool) : res (bool * reliable_ack * reliable_ack * buffer) :=
  let n := if max <? ack_len a then max else ack_len a in
  let! mru := copy_acks_to_mru a mru n in
  let total_acks := u8 (min_int max (ack_len mru)) in
  let '(sub, b) := buf_sub b (s32 (ACK_SIZE total_acks)) prepend in
  match sub_base sub with
  | None => Ret (false, a, mru, b)
  | Some p =>
      let! ids := mem_read (ack_packet_id mru) 0 total_acks in
      assert! (total_acks =? 0) || session_id_defined sid in
      let out := [total_acks] ++ ack_ids_bytes ids
                 ++ (if total_acks =? 0 then [] else sid) in
      assert! Zlen out <=? sub_capacity sub in
      let! b := buf_poke b p out in
      let! a := (if negb (n =? 0)
                 then let! rest := mem_read (ack_packet_id a) n (ack_len a - n) in
                      let! l := mem_write (ack_packet_id a) 0 rest in
                      Ret (mk_ack (ack_len a - n) l)
                 else Ret a) in
      Ret (true, a, mru, b)
  end.

(** ** The packet array *)
Record reliable_entry : Type := mk_entry {
  e_active : bool;
  e_timeout : Z;
  e_next_try : Z;
  e_packet_id : Z;
  e_n_acks : Z;
  e_opcode : Z;
  e_buf : buffer
}.
Record reliable : Type := mk_reliable {
  rel_size : Z;
  initial_timeout : Z;
  rel_packet_id : Z;
  rel_offset : Z;
  rel_hold : bool;
  rel_array : list reliable_entry
}.

Definition entry_zero : reliable_entry := mk_entry false 0 0 0 0 0 clear_buf.
Definition set_array (r : reliable) (l : list reliable_entry) : reliable :=
  mk_reliable (rel_size r) (initial_timeout r) (rel_packet_id r) (rel_offset r) (rel_hold r) l.
Definition set_pid (r : reliable) (id : Z) : reliable :=
  mk_reliable (rel_size r) (initial_timeout r) id (rel_offset r) (rel_hold r) (rel_array r).
Definition set_active (e : reliable_entry) (x : bool) : reliable_entry :=
  mk_entry x (e_timeout e) (e_next_try e) (e_packet_id e) (e_n_acks e) (e_opcode e) (e_buf e).
Definition set_buf (e : reliable_entry) (b : buffer) : reliable_entry :=
  mk_entry (e_active e) (e_timeout e) (e_next_try e) (e_packet_id e) (e_n_acks e) (e_opcode e) b.

(** [rel->array[0 .. rel->size - 1]]. *)
Definition entries (r : reliable) : list reliable_entry :=
  take (Z.to_nat (rel_size r)) (rel_array r).

Definition reliable_init (buf_size offset array_size : Z) (hold : bool) : res reliable :=
  assert! (0 <? array_size) && (array_size <=? RELIABLE_CAPACITY) in
  let! b := alloc_buf (u64 buf_size) in
  let '(ok, b) := buf_init_dowork b offset in
  assert! ok in
  Ret (mk_reliable array_size 0 0 offset hold
         (replicate (Z.to_nat array_size) (set_buf entry_zero b)
          ++ replicate (Z.to_nat (RELIABLE_CAPACITY - array_size)) entry_zero)).

Definition reliable_set_timeout (r : reliable) (timeout : Z) : reliable :=
  mk_reliable (rel_size r) timeout (rel_packet_id r) (rel_offset r) (rel_hold r) (rel_array r).

Definition reliable_empty (r : reliable) : bool := forallb (fun e => negb (e_active e)) (entries r).

(** One step of the inner loop of [reliable_send_purge]. *)
Definition purge_entry (pid : Z) (e : reliable_entry) : reliable_entry :=
  if e_active e && (e_packet_id e =? pid) then set_active e false
  else if e_active e && (e_packet_id e <? pid)
  then mk_entry (e_active e) (e_timeout e) (e_next_try e) (e_packet_id e)
         (u64 (e_n_acks e + 1)) (e_opcode e) (e_buf e)
  else e.
Definition purge_pid (r : reliable) (pid : Z) : reliable :=
  set_array r (map (purge_entry pid) (entries r)
               ++ drop (Z.to_nat (rel_size r)) (rel_array r)).
Definition reliable_send_purge (r : reliable) (a : reliable_ack) : reliable :=
  fold_left purge_pid (ack_ids a) r.

Definition reliable_can_get (r : reliable) : bool := existsb (fun e => negb (e_active e)) (entries r).

Definition reliable_not_replay (r : reliable) (id : Z) : bool :=
  if reliable_pid_min id (rel_packet_id r) then false
  else negb (existsb (fun e => e_active e && (e_packet_id e =? id)) (entries r)).

Definition reliable_wont_break_sequentiality (r : reliable) (id : Z) : bool :=
  reliable_pid_in_range2 id (rel_packet_id r) (rel_size r).

(** First index of the array whose entry satisfies [P]. *)
Fixpoint find_entry (P : reliable_entry -> bool) (l : list reliable_entry) (i : nat)
  : option (nat * reliable_entry) :=
  match l with
  | [] => None
  | e :: l' => if P e then Some (i, e) else find_entry P l' (S i)
  end.

Definition reliable_get_buf (r : reliable) : res (option nat * reliable) :=
  match find_entry (fun e => negb (e_active e)) (entries r) 0 with
  | Some (i, e) =>
      let '(ok, b) := buf_init_dowork (e_buf e) (rel_offset r) in
      assert! ok in Ret (Some i, set_array r (<[i := set_buf e b]> (rel_array r)))
  | None => Ret (None, r)
  end.

(** The loop that finds the minimum active packet id. *)
Definition min_step (m : option Z) (e : reliable_entry) : option Z :=
  if e_active e then
    match m with
    | None => Some (e_packet_id e)
    | Some min_id => if reliable_pid_min (e_packet_id e) min_id then Some (e_packet_id e) else m
    end
  else m.
Definition min_active_id (r : reliable) : option Z := fold_left min_step (entries r) None.

Definition reliable_get_num_output_sequenced_available (r : reliable) : Z :=
  match min_active_id r with
  | Some min_id => s32 (u32 (rel_size r - subtract_pid (rel_packet_id r) min_id))
  | None => rel_size r
  end.

Definition reliable_get_buf_output_sequenced (r : reliable) : res (option nat * reliable) :=
  if match min_active_id r with
     | Some min_id => reliable_pid_in_range1 (rel_packet_id r) min_id (rel_size r)
     | None => true
     end
  then reliable_get_buf r else Ret (None, r).

Definition reliable_get_entry_sequenced (r : reliable) : option (nat * reliable_entry) :=
  find_entry (fun e => e_active e && (e_packet_id e =? rel_packet_id r)) (entries r) 0.

Definition entry_due (now : Z) (e : reliable_entry) : bool :=
  e_active e && ((N_ACK_RETRANSMIT <=? e_n_acks e) || (e_next_try e <=? now)).

Definition reliable_can_send (now : Z) (r : reliable) : bool :=
  let n_current := length (filter (fun e => entry_due now e = true) (entries r)) in
  (0 <? Z.of_nat n_current) && negb (rel_hold r).

(** The selection loop of [reliable_send]. *)
Fixpoint best_entry (now : Z) (l : list reliable_entry) (i : nat)
    (best : option (nat * reliable_entry)) : option (nat * reliable_entry) :=
  match l with
  | [] => best
  | e :: l' =>
      let best :=
        if entry_due now e then
          match best with
          | None => Some (i, e)
          | Some (_, b) => if reliable_pid_min (e_packet_id e) (e_packet_id b)
                           then Some (i, e) else best
          end
        else best in
      best_entry now l' (S i) best
  end.

(** Result: the index of the packet to send with its opcode; the doubling of an
    [int] timeout is undefined when it overflows. *)
Definition reliable_send (now : Z) (r : reliable) : res (option (nat * Z) * reliable) :=
  match best_entry now (entries r) 0 None with
  | Some (i, e) =>
      if INT_MAX <? e_timeout e * 2 then UB
      else Ret (Some (i, e_opcode e),
                set_array r (<[i := mk_entry (e_active e) (e_timeout e * 2)
                                      (now + e_timeout e) (e_packet_id e) 0
                                      (e_opcode e) (e_buf e)]> (rel_array r)))
  | None => Ret (None, r)
  end.

Definition reliable_schedule_now (now : Z) (r : reliable) : reliable :=
  mk_reliable (rel_size r) (initial_timeout r) (rel_packet_id r) (rel_offset r) false
    (map (fun e => if e_active e
                   then mk_entry (e_active e) (initial_timeout r) now (e_packet_id e)
                          (e_n_acks e) (e_opcode e) (e_buf e)
                   else e) (entries r)
     ++ drop (Z.to_nat (rel_size r)) (rel_array r)).

Fixpoint send_timeout_loop (now : Z) (l : list reliable_entry) (ret : Z) : Z :=
  match l with
  | [] => ret
  | e :: l' =>
      if e_active e then
        if e_next_try e <=? now then 0
        else send_timeout_loop now l' (min_int ret (s32 (e_next_try e - now)))
      else send_timeout_loop now l' ret
  end.
Definition reliable_send_timeout (now : Z) (r : reliable) : Z :=
  send_timeout_loop now (entries r) BIG_TIMEOUT.

(** [idx] is the entry whose buffer the caller passes. *)
Definition reliable_mark_active_incoming (r : reliable) (idx : nat) (pid opcode : Z)
  : res reliable :=
  match entries r !! idx with
  | Some e =>
      assert! negb (reliable_pid_min pid (rel_packet_id r)) in
      Ret (set_array r (<[idx := mk_entry true 0 0 pid 0 opcode (e_buf e)]> (rel_array r)))
  | None => Fatal
  end.

Definition reliable_mark_active_outgoing (r : reliable) (idx : nat) (opcode : Z)
  : res reliable :=
  match entries r !! idx with
  | Some e =>
      let pid := rel_packet_id r in
      let r := set_pid r (u32 (pid + 1)) in
      let! (ok, b) := buf_write_prepend (e_buf e) (be_bytes 4 pid) in
      assert! ok in
      Ret (set_array r (<[idx := mk_entry true (initial_timeout r) 0 pid (e_n_acks e)
                                   opcode b]> (rel_array r)))
  | None => Fatal
  end.

Definition reliable_mark_deleted (r : reliable) (idx : nat) : res reliable :=
  match entries r !! idx with
  | Some e =>
      Ret (set_pid (set_array r (<[idx := set_active e false]> (rel_array r)))
             (u32 (e_packet_id e + 1)))
  | None => Fatal
  end.

(** ** Most recently used acknowledgments *)
Definition ack_wf (a : reliable_ack) : Prop :=
  Zlen (ack_packet_id a) = RELIABLE_ACK_SIZE /\ 0 <= ack_len a <= RELIABLE_ACK_SIZE.

(** Drop the first occurrence. *)
Fixpoint remove1 (id : Z) (l : list Z) : list Z :=
  match l with
  | [] => []
  | x :: l' => if x =? id then l' else x :: remove1 id l'
  end.

(** Move to front, keeping at most eight. *)
Definition mru_push (id : Z) (l : list Z) : list Z := take 8 (id :: remove1 id l).

Fixpoint shift_spec (id move : Z) (s : list Z) : bool * Z * list Z :=
  match s with
  | [] => (false, move, [])
  | x :: s' => if x =? id then (true, x, move :: s')
               else let '(f, m, t) := shift_spec id x s' in (f, m, move :: t)
  end.

Lemma arr_get_mid {A} (pre : list A) x post : arr_get (pre ++ x :: post) (Zlen pre) = Ret x.
Proof.
  apply arr_get_Ret. split; [apply Zlen_nonneg|]. rewrite to_nat_Zlen.
  by apply list_lookup_middle.
Qed.

Lemma arr_set_mid {A} (pre : list A) x post y :
  arr_set (pre ++ x :: post) (Zlen pre) y = Ret (pre ++ y :: post).
Proof.
  rewrite arr_set_ok.
  - rewrite to_nat_Zlen. rewrite <- (Nat.add_0_r (length pre)). by rewrite insert_app_r.
  - rewrite Zlen_app, Zlen_cons. pose proof (Zlen_nonneg pre). pose proof (Zlen_nonneg post). lia.
Qed.

Lemma arr_get_0 {A} (x : A) l : arr_get (x :: l) 0 = Ret x.
Proof. exact (arr_get_mid [] x l). Qed.
Lemma arr_set_0 {A} (x y : A) l : arr_set (x :: l) 0 y = Ret (y :: l).
Proof. exact (arr_set_mid [] x l y). Qed.

Lemma mru_shift_spec s id move pre post :
  mru_shift (length s) (Zlen pre) id move (pre ++ s ++ post)
  = let '(f, m, t) := shift_spec id move s in Ret (f, m, pre ++ t ++ post).
Proof.
  revert move pre. induction s as [|x s IH]; intros move pre; [done|].
  cbn [length mru_shift shift_spec app].
  rewrite arr_get_mid. cbn [res_bind]. rewrite arr_set_mid. cbn [res_bind].
  destruct (x =? id); [done|].
  specialize (IH x (pre ++ [move])). rewrite Zlen_app in IH.
  change (Zlen [move]) with 1 in IH. rewrite <- app_assoc in IH. cbn [app] in IH.
  rewrite IH. destruct (shift_spec id x s) as [[f m] t]. by rewrite <- app_assoc.
Qed.

Lemma shift_spec_remove1 id move s :
  let '(f, m, t) := shift_spec id move s in
  if f then t = move :: remove1 id s /\ id ∈ s
  else remove1 id s = s /\ t ++ [m] = move :: s.
Proof.
  revert move. induction s as [|x s IH]; intros move; cbn [shift_spec remove1]; [done|].
  destruct (Z.eqb_spec x id) as [->|Hne]; [split; [done|left]|].
  specialize (IH x). destruct (shift_spec id x s) as [[f m] t]. destruct f.
  - destruct IH as [-> ?]. split; [done|by right].
  - destruct IH as [-> <-]. done.
Qed.

Lemma length_remove1 id s : (length (remove1 id s) <= length s)%nat.
Proof. induction s as [|x s IH]; cbn; [lia|]. destruct (x =? id); cbn; lia. Qed.

Lemma length_remove1_in id s : id ∈ s -> length s = S (length (remove1 id s)).
Proof.
  induction s as [|x s IH]; [set_solver|]. intros [->|H]%elem_of_cons; cbn.
  - by rewrite Z.eqb_refl.
  - destruct (x =? id); cbn; [lia|]. rewrite <- IH; [lia|done].
Qed.

Lemma mru_insert_spec mru id :
  ack_wf mru ->
  exists mru', mru_insert mru id = Ret mru' /\ ack_wf mru'
    /\ ack_ids mru' = mru_push id (ack_ids mru).
Proof.
  destruct mru as [len l]. intros [Hl Hlen]. unfold mru_insert, ack_ids, mru_push, RELIABLE_ACK_SIZE in *.
  cbn [ack_len ack_packet_id] in *.
  destruct (Z.eqb_spec len 0) as [->|Hnz].
  - destruct l as [|x l]; [discriminate|]. cbn [res_bind]. cbn in Hl.
    rewrite arr_set_0. cbn [res_bind ack_len ack_packet_id app].
    change (Z.to_nat 1) with 1%nat. cbn [mru_shift].
    rewrite arr_get_0. cbn [res_bind].
    rewrite arr_set_0. cbn [res_bind app]. rewrite Z.eqb_refl. cbn [negb andb].
    eexists; split; [reflexivity|]. split; [|done]. split; cbn; [done|]. unfold RELIABLE_ACK_SIZE. lia.
  - cbn [res_bind ack_len ack_packet_id].
    destruct (split_at l len) as (s & post & -> & Ls & Lp & _); [lia|].
    assert (Z.to_nat len = length s) as Hn by (unfold Zlen in *; lia).
    rewrite Hn, take_app_length. pose proof (mru_shift_spec s id id [] post) as Hm.
    cbn [app] in Hm. change (Zlen (@nil Z)) with 0 in Hm. rewrite Hm. clear Hm.
    pose proof (shift_spec_remove1 id id s) as Hs.
    destruct (shift_spec id id s) as [[f m] t]. cbn [res_bind]. destruct f.
    + destruct Hs as [-> Hin]. cbn [negb andb].
      assert (Hlen' : Zlen (id :: remove1 id s) = len).
      { unfold Zlen in *. cbn [length]. rewrite <- (length_remove1_in id s Hin). lia. }
      eexists; split; [reflexivity|]. unfold ack_wf, RELIABLE_ACK_SIZE; cbn [ack_len ack_packet_id].
      rewrite !Zlen_app in *. split; [split; lia|].
      unfold Zlen in Hlen'. rewrite take_app_length' by lia. rewrite take_ge; [done|lia].
    + destruct Hs as [-> Ht].
      assert (Hlt : Zlen t = len).
      { apply (f_equal length) in Ht. rewrite length_app in Ht. cbn in Ht. unfold Zlen in *. lia. }
      rewrite Zlen_app in Hl. cbn [negb andb ack_len ack_packet_id].
      destruct (Z.ltb_spec len 8).
      * destruct post as [|y post]; [unfold Zlen in *; cbn in *; lia|].
        replace (arr_set (t ++ y :: post) len m) with (Ret (t ++ m :: post))
          by (rewrite <- Hlt; symmetry; apply arr_set_mid). cbn [res_bind].
        eexists; split; [reflexivity|]. unfold ack_wf, RELIABLE_ACK_SIZE; cbn [ack_len ack_packet_id].
        rewrite Zlen_app, Zlen_cons in *. split; [split; lia|].
        change (t ++ m :: post) with (t ++ [m] ++ post). rewrite app_assoc, Ht.
        unfold Zlen in *. cbn [app]. rewrite (take_ge (id :: s)) by (cbn; lia).
        change (id :: s ++ post) with ((id :: s) ++ post).
        by rewrite take_app_length' by (cbn; lia).
      * eexists; split; [reflexivity|]. unfold ack_wf, RELIABLE_ACK_SIZE; cbn [ack_len ack_packet_id].
        rewrite Zlen_app in *. split; [split; lia|].
        unfold Zlen in *. rewrite take_app_length' by lia.
        rewrite <- Ht. rewrite take_app_length' by lia. done.
Qed.

Lemma remove1_notin id s : id ∉ s -> remove1 id s = s.
Proof.
  induction s as [|x s IH]; [done|]. cbn. rewrite not_elem_of_cons.
  intros [Hne Hs]. rewrite (proj2 (Z.eqb_neq x id)) by done. by rewrite IH.
Qed.

Lemma elem_of_remove1 x id s : x ∈ remove1 id s -> x ∈ s.
Proof.
  induction s as [|y s IH]; cbn; [done|]. destruct (y =? id); [by right|].
  intros [->|H]%elem_of_cons; [left|right; auto].
Qed.

Lemma NoDup_remove1 id s : NoDup s -> NoDup (remove1 id s) /\ id ∉ remove1 id s.
Proof.
  induction s as [|y s IH]; cbn; [intros; split; [constructor|set_solver]|].
  intros [Hy Hs]%NoDup_cons. destruct (Z.eqb_spec y id) as [<-|Hne]; [done|].
  destruct (IH Hs). split.
  - constructor; [|done]. intros H1%elem_of_remove1. done.
  - rewrite not_elem_of_cons. done.
Qed.

Lemma NoDup_mru_push id s : NoDup s -> NoDup (mru_push id s).
Proof.
  intros Hs. destruct (NoDup_remove1 id s Hs). unfold mru_push.
  apply (sublist_NoDup _ (id :: remove1 id s)); [by constructor|apply sublist_take].
Qed.

Lemma take_remove1 x ids m :
  x ∉ ids -> take (length ids) m = ids -> take (length ids) (remove1 x m) = ids.
Proof.
  revert m. induction ids as [|y ids IH]; intros m Hx Hm; [done|].
  destruct m as [|z m]; [done|]. cbn [take length] in *. injection Hm as -> Hm.
  rewrite not_elem_of_cons in Hx. destruct Hx as [Hne Hx].
  cbn [remove1]. rewrite (proj2 (Z.eqb_neq y x)) by done. cbn [take]. f_equal. auto.
Qed.

(** Prepending a duplicate-free run of at most eight identifiers puts exactly
    that run at the front. *)
Lemma mru_push_front ids m :
  NoDup ids -> (length ids <= 8)%nat ->
  take (length ids) (foldr mru_push m ids) = ids
  /\ (forall x, x ∈ foldr mru_push m ids -> x ∈ ids \/ x ∈ m).
Proof.
  induction ids as [|x ids IH]; intros Hnd Hlen; cbn [foldr length] in *; [by split; [|auto]|].
  apply NoDup_cons in Hnd as [Hx Hnd]. destruct (IH Hnd ltac:(lia)) as [IH1 IH2].
  set (m' := foldr mru_push m ids) in *. unfold mru_push. split.
  - rewrite take_take, Nat.min_l by lia. cbn [take]. f_equal.
    by apply take_remove1.
  - intros y Hy. eapply elem_of_sublist in Hy; [|apply sublist_take].
    apply elem_of_cons in Hy as [->|Hy]; [left; left|].
    apply elem_of_remove1, IH2 in Hy as [?|?]; [left; by right|auto].
Qed.

Lemma copy_acks_loop_spec n a mru :
  ack_wf a -> ack_wf mru -> Z.of_nat n <= ack_len a ->
  exists mru', copy_acks_loop n a mru = Ret mru' /\ ack_wf mru'
    /\ ack_ids mru' = foldr mru_push (ack_ids mru) (take n (ack_ids a)).
Proof.
  intros Ha. revert mru. induction n as [|n IH]; intros mru Hm Hn; cbn [copy_acks_loop].
  { rewrite take_0. eauto. }
  destruct Ha as [Hal Hlen].
  destruct (lookup_lt_is_Some_2 (ack_packet_id a) n) as [id Hid].
  { unfold Zlen, RELIABLE_ACK_SIZE in *. lia. }
  assert (arr_get (ack_packet_id a) (Z.of_nat n) = Ret id) as ->.
  { apply arr_get_Ret. rewrite Nat2Z.id. split; [lia|done]. }
  cbn [res_bind]. destruct (mru_insert_spec mru id Hm) as (m1 & -> & Hm1 & Hids). cbn [res_bind].
  destruct (IH m1 Hm1) as (m2 & -> & Hm2 & Hids2); [lia|].
  exists m2. split; [done|]. split; [done|]. rewrite Hids2, Hids.
  rewrite (take_S_r _ n id); [by rewrite foldr_app|].
  unfold ack_ids. rewrite lookup_take_lt by lia. done.
Qed.

Lemma copy_acks_NoDup m ids : NoDup m -> NoDup (foldr mru_push m ids).
Proof. intros Hm. induction ids; [done|]. by apply NoDup_mru_push. Qed.

(** The acks sent now come first.  Copying the first [n] pending acks keeps
    the most recently used list free of duplicates and at most eight long, puts
    exactly those acks, in order, at its front, and adds no other identifier. *)
Lemma copy_acks_to_mru_front (a mru : reliable_ack) (n : Z) :
  ack_wf a -> ack_wf mru -> NoDup (ack_ids a) -> NoDup (ack_ids mru) ->
  0 <= n <= ack_len a ->
  exists mru', copy_acks_to_mru a mru n = Ret mru' /\ ack_wf mru' /\ NoDup (ack_ids mru')
    /\ take (Z.to_nat n) (ack_ids mru') = take (Z.to_nat n) (ack_ids a)
    /\ forall x, x ∈ ack_ids mru' -> x ∈ ack_ids a \/ x ∈ ack_ids mru.
Proof.
  intros Ha Hm Hna Hnm Hn. unfold copy_acks_to_mru.
  rewrite (proj2 (Z.leb_le _ _)) by lia.
  destruct (copy_acks_loop_spec (Z.to_nat n) a mru Ha Hm) as (m' & -> & Hm' & Hids); [lia|].
  exists m'. split; [done|]. split; [done|]. rewrite Hids.
  assert (Hlen : length (take (Z.to_nat n) (ack_ids a)) = Z.to_nat n).
  { destruct Ha as [Ha1 Ha2]. unfold ack_ids, Zlen, RELIABLE_ACK_SIZE in *.
    rewrite !length_take. lia. }
  assert (Hnd : NoDup (take (Z.to_nat n) (ack_ids a))).
  { eapply sublist_NoDup; [exact Hna|apply sublist_take]. }
  destruct (mru_push_front _ (ack_ids mru) Hnd) as [H1 H2].
  { destruct Ha as [_ Ha2]. unfold RELIABLE_ACK_SIZE in *. lia. }
  rewrite Hlen in H1. split; [by apply copy_acks_NoDup|]. split; [done|].
  intros x Hx. apply H2 in Hx as [Hx|Hx]; [left|auto].
  eapply elem_of_sublist; [exact Hx|apply sublist_take].
Qed.

(** ** Acknowledgment records on the wire *)
Lemma Zlen_ack_ids_bytes ids : Zlen (ack_ids_bytes ids) = 4 * Zlen ids.
Proof.
  induction ids as [|x ids IH]; [done|]. cbn [ack_ids_bytes].
  rewrite Zlen_app, Zlen_be_bytes, IH, Zlen_cons. lia.
Qed.

Lemma ack_ids_bytes_ok ids : bytes_ok (ack_ids_bytes ids).
Proof.
  induction ids as [|x ids IH]; [constructor|]. cbn [ack_ids_bytes].
  apply bytes_ok_app. split; [apply be_bytes_ok|done].
Qed.

Lemma buf_read_app b h x y t :
  buf_repr b h (x ++ y) t ->
  exists b', buf_read b (Zlen x) = Ret (Some x, b') /\ buf_repr b' (h + Zlen x) y t.
Proof.
  intros Hb. destruct (buf_read_repr _ _ _ _ Hb (Zlen x)) as (b' & H1 & H2).
  { rewrite Zlen_app. pose proof (Zlen_nonneg x). pose proof (Zlen_nonneg y). lia. }
  rewrite to_nat_Zlen, take_app_length, drop_app_length in *. eauto.
Qed.

Lemma ack_ids_snoc len l x :
  0 <= len < Zlen l ->
  ack_ids (mk_ack (len + 1) (<[Z.to_nat len := x]> l)) = ack_ids (mk_ack len l) ++ [x].
Proof.
  intros H. unfold ack_ids, Zlen in *. cbn.
  replace (Z.to_nat (len + 1)) with (S (Z.to_nat len)) by lia.
  rewrite (take_S_r _ _ x) by (apply list_lookup_insert_eq; lia).
  by rewrite take_insert_ge by lia.
Qed.

Lemma ack_parse_loop_spec ids b h rest t a :
  buf_repr b h (ack_ids_bytes ids ++ rest) t -> Forall is_u32 ids ->
  ack_wf a -> ack_len a + Zlen ids <= RELIABLE_ACK_SIZE ->
  exists a' b', ack_parse_loop (length ids) b a = Ret (true, a', b')
    /\ ack_wf a' /\ ack_ids a' = ack_ids a ++ ids
    /\ buf_repr b' (h + 4 * Zlen ids) rest t.
Proof.
  revert b h a. induction ids as [|x ids IH]; intros b h a Hb Hids Ha Hlen; cbn [ack_parse_loop length].
  { exists a, b. rewrite app_nil_r. change (Zlen (@nil Z)) with 0.
    rewrite Z.mul_0_r, Z.add_0_r. auto. }
  apply Forall_cons in Hids as [Hx Hids]. cbn [ack_ids_bytes] in Hb. rewrite <- app_assoc in Hb.
  destruct (buf_read_app _ _ _ _ _ Hb) as (b1 & Hr & Hb1).
  rewrite Zlen_be_bytes in *. change (Z.of_nat 4) with 4 in *. rewrite Hr. cbn [res_bind].
  rewrite Zlen_cons in Hlen. pose proof (Zlen_nonneg ids). destruct Ha as [Hal Ha2].
  unfold RELIABLE_ACK_SIZE in *. rewrite (proj2 (Z.leb_gt _ _)) by lia.
  rewrite arr_set_ok by lia. cbn [res_bind].
  rewrite be_val_bytes. change (256 ^ Z.of_nat 4) with (2 ^ 32).
  rewrite (Z.mod_small x) by exact Hx.
  destruct (IH b1 (h + 4) (mk_ack (ack_len a + 1) (<[Z.to_nat (ack_len a) := x]> (ack_packet_id a))))
    as (a' & b' & H1 & H2 & H3 & H4); [done|done| |cbn; lia|].
  { split; cbn; [unfold Zlen in *; by rewrite length_insert|unfold RELIABLE_ACK_SIZE; lia]. }
  exists a', b'. split; [done|]. split; [done|]. split.
  - rewrite H3, ack_ids_snoc by lia. rewrite <- app_assoc. by destruct a.
  - rewrite Zlen_cons. by replace (h + 4 * (1 + Zlen ids)) with (h + 4 + 4 * Zlen ids) by lia.
Qed.

Definition ack_record (ids : list Z) (sid : session_id) : bytes :=
  [Zlen ids] ++ ack_ids_bytes ids ++ (if Zlen ids =? 0 then [] else sid).

Lemma reliable_ack_parse_record ids sid b h c t a junk :
  buf_repr b h (ack_record ids sid ++ c) t -> Forall is_u32 ids ->
  Zlen sid = SID_SIZE -> ack_wf a -> Zlen ids <= RELIABLE_ACK_SIZE ->
  exists a' b', reliable_ack_parse b a junk
      = Ret (true, a', (if Zlen ids =? 0 then junk else sid), b')
    /\ ack_ids a' = ids /\ contents b' = c.
Proof.
  intros Hb Hids Hsid [Ha _] Hlen. unfold reliable_ack_parse, ack_record in *.
  rewrite <- app_assoc in Hb.
  destruct (buf_read_app _ _ _ _ _ Hb) as (b1 & Hr1 & Hb1).
  change (Zlen [Zlen ids]) with 1 in *. rewrite Hr1. cbn [res_bind be_val].
  change (256 ^ Zlen (@nil Z)) with 1. rewrite Z.mul_1_r, Z.add_0_r.
  rewrite to_nat_Zlen, <- app_assoc in *.
  destruct (ack_parse_loop_spec ids b1 (h + 1) _ t (mk_ack 0 (ack_packet_id a)) Hb1 Hids)
    as (a' & b2 & -> & _ & Hi & Hb2).
  { split; cbn; unfold RELIABLE_ACK_SIZE in *; [done|lia]. }
  { cbn. unfold RELIABLE_ACK_SIZE in *; lia. }
  cbn [res_bind negb]. assert (Hi' : ack_ids a' = ids) by (by rewrite Hi).
  destruct (Z.eqb_spec (Zlen ids) 0); cbn [negb].
  - exists a', b2. split; [done|]. split; [done|]. by eapply buf_repr_contents.
  - destruct (buf_read_app _ _ _ _ _ Hb2) as (b3 & Hr3 & Hb3).
    unfold session_id_read. rewrite <- Hsid, Hr3. cbn [res_bind].
    exists a', b3. split; [done|]. split; [done|]. by eapply buf_repr_contents.
Qed.

(** Filling a window handed out by [buf_sub] is a write on that side. *)
Lemma buf_sub_fill b h c t out (prepend : bool) :
  buf_repr b h c t -> bytes_ok out -> Zlen out <= (if prepend then h else t) ->
  exists p b1 b2 h' t',
    buf_sub b (Zlen out) prepend = (mk_sub (Zlen out) (Some p), b1)
    /\ buf_poke b1 p out = Ret b2
    /\ buf_repr b2 h' (if prepend then out ++ c else c ++ out) t'.
Proof.
  intros Hb Hok Hroom. buf_facts Hb. unfold buf_sub. pose proof (Zlen_nonneg out).
  pose proof (Zlen_nonneg c). destruct prepend.
  - destruct (buf_write_prepend_repr _ _ _ _ Hb out Hok Hroom) as (b2 & Hw & Hr).
    unfold buf_write_prepend in Hw. destruct (buf_prepend b (Zlen out)) as [[p|] b1];
      [|discriminate]. apply res_bind_Ret_inv in Hw as (b2' & Hp & [= ->]).
    eexists _, _, _, _, _. eauto.
  - destruct (buf_write_repr _ _ _ _ Hb out Hok Hroom) as (b2 & Hw & Hr).
    rewrite u64_id by (unfold is_u64; lia).
    unfold buf_write in Hw. destruct (buf_write_alloc b (Zlen out)) as [[p|] b1];
      [|discriminate]. apply res_bind_Ret_inv in Hw as (b2' & Hp & [= ->]).
    eexists _, _, _, _, _. eauto.
Qed.

Lemma Zlen_ack_record ids sid :
  Zlen sid = SID_SIZE -> Zlen (ack_record ids sid) = ACK_SIZE (Zlen ids).
Proof.
  intros Hs. unfold ack_record, ACK_SIZE. rewrite !Zlen_app, Zlen_ack_ids_bytes.
  change (Zlen [Zlen ids]) with 1. destruct (Zlen ids =? 0); [change (Zlen (@nil Z)) with 0|]; lia.
Qed.

Lemma take_ack_ids a k :
  ack_wf a -> 0 <= k <= ack_len a ->
  mem_read (ack_packet_id a) 0 k = Ret (take (Z.to_nat k) (ack_ids a))
  /\ Zlen (take (Z.to_nat k) (ack_ids a)) = k.
Proof.
  intros [Hl Hlen] Hk. unfold RELIABLE_ACK_SIZE in *. split.
  - rewrite mem_read_ok by lia. change (Z.to_nat 0) with 0%nat. rewrite drop_0.
    unfold ack_ids. rewrite take_take, Nat.min_l by lia. done.
  - unfold ack_ids, Zlen in *. rewrite !length_take. lia.
Qed.

Lemma ack_drop_front a n :
  ack_wf a -> 0 <= n <= ack_len a ->
  exists a', (if negb (n =? 0)
              then let! rest := mem_read (ack_packet_id a) n (ack_len a - n) in
                   let! l := mem_write (ack_packet_id a) 0 rest in
                   Ret (mk_ack (ack_len a - n) l)
              else Ret a) = Ret a'
    /\ ack_wf a' /\ ack_ids a' = drop (Z.to_nat n) (ack_ids a).
Proof.
  intros [Hl Hlen] Hn. unfold RELIABLE_ACK_SIZE in *.
  destruct (Z.eqb_spec n 0) as [->|Hnz]; cbn [negb].
  { exists a. change (Z.to_nat 0) with 0%nat. rewrite drop_0. done. }
  rewrite mem_read_ok by lia. cbn [res_bind].
  set (rest := take _ (drop _ _)).
  assert (Hrest : rest = drop (Z.to_nat n) (ack_ids a)).
  { subst rest. unfold ack_ids. rewrite skipn_firstn_comm. f_equal. lia. }
  assert (Hrl : Zlen rest = ack_len a - n).
  { subst rest. unfold Zlen in *. rewrite length_take, length_drop. lia. }
  rewrite mem_write_ok by lia. cbn [res_bind]. change (Z.to_nat 0) with 0%nat.
  rewrite take_0. cbn [app]. eexists; split; [reflexivity|].
  unfold ack_wf, RELIABLE_ACK_SIZE, ack_ids. cbn [ack_len ack_packet_id].
  rewrite Zlen_app. split.
  - split; [|lia]. unfold Zlen in *. rewrite length_drop. lia.
  - rewrite take_app_length' by (unfold Zlen in *; lia). exact Hrest.
Qed.

Lemma foldr_mru_push_Forall (P : Z -> Prop) ids m :
  Forall P ids -> Forall P m -> Forall P (foldr mru_push m ids).
Proof.
  intros Hids Hm. induction Hids as [|x ids Hx _ IH]; cbn [foldr]; [done|].
  unfold mru_push. apply Forall_take. constructor; [done|].
  rewrite Forall_forall in *. intros y Hy%elem_of_remove1. auto.
Qed.

Lemma ack_record_ok ids sid :
  Zlen ids <= 255 -> bytes_ok sid -> bytes_ok (ack_record ids sid).
Proof.
  intros Hl Hs. unfold ack_record. rewrite !bytes_ok_app.
  split_and!; [|apply ack_ids_bytes_ok|by destruct (_ =? 0); [constructor|]].
  pose proof (Zlen_nonneg ids). repeat constructor; lia.
Qed.

(** What [reliable_ack_write] puts into the buffer, given the updated list. *)
Lemma reliable_ack_write_record a mru mru' b h t max c sid prepend :
  ack_wf a -> ack_wf mru' -> 0 <= max <= INT_MAX -> bytes_ok sid ->
  Zlen sid = SID_SIZE -> session_id_defined sid = true -> buf_repr b h c t ->
  ACK_SIZE RELIABLE_ACK_SIZE <= (if prepend : bool then h else t) ->
  let n := Z.min max (ack_len a) in
  let ids := take (Z.to_nat (Z.min max (ack_len mru'))) (ack_ids mru') in
  copy_acks_to_mru a mru n = Ret mru' ->
  exists a' b1 h' t',
    reliable_ack_write a mru b sid max prepend = Ret (true, a', mru', b1)
    /\ ack_ids a' = drop (Z.to_nat n) (ack_ids a)
    /\ buf_repr b1 h' (if prepend then ack_record ids sid ++ c
                       else c ++ ack_record ids sid) t'.
Proof.
  intros Ha Hm' Hmax Hso Hsl Hsd Hb Hroom n ids Hcopy.
  pose proof Ha as [_ Hal]. pose proof Hm' as [_ Hml]. unfold RELIABLE_ACK_SIZE in *.
  set (k := Z.min max (ack_len mru')) in *.
  assert (Hk : 0 <= k <= ack_len mru') by (unfold k; lia).
  destruct (take_ack_ids mru' k Hm' Hk) as [Hrd Hkl]. fold ids in Hrd, Hkl.
  destruct (buf_sub_fill b h c t (ack_record ids sid) prepend Hb)
    as (p & b1 & b2 & h' & t' & Hsub & Hpoke & Hrep).
  { apply ack_record_ok; [lia|done]. }
  { rewrite Zlen_ack_record, Hkl by done. unfold ACK_SIZE, SID_SIZE in *.
    destruct (k =? 0), prepend; change (8 =? 0) with false in Hroom; cbv iota in Hroom; lia. }
  destruct (ack_drop_front a n Ha) as (a' & Hdrop & _ & Hdids); [unfold n; lia|].
  exists a', b2, h', t'. split; [|done]. unfold reliable_ack_write.
  replace (if max <? ack_len a then max else ack_len a) with n
    by (unfold n; destruct (Z.ltb_spec max (ack_len a)); lia).
  rewrite Hcopy. cbn [res_bind].
  replace (u8 (min_int max (ack_len mru'))) with k; cycle 1.
  { unfold min_int, k. rewrite u8_id; destruct (Z.ltb_spec max (ack_len mru')); unfold is_u8; lia. }
  rewrite Zlen_ack_record, Hkl in Hsub by done.
  rewrite s32_id by (unfold is_int, INT_MIN, INT_MAX, ACK_SIZE, SID_SIZE; destruct (k =? 0); lia).
  rewrite Hsub. cbn [sub_base sub_capacity]. rewrite Hrd. cbn [res_bind].
  rewrite Hsd, orb_true_r.
  replace ([k] ++ ack_ids_bytes ids ++ (if k =? 0 then [] else sid)) with (ack_record ids sid)
    by (unfold ack_record; by rewrite Hkl).
  rewrite Zlen_ack_record, Hkl, (proj2 (Z.leb_le _ _)) by (done || lia).
  rewrite Hpoke. cbn [res_bind]. by rewrite Hdrop.
Qed.

(** Acknowledgments survive the wire.  [reliable_ack_write], prepending or
    appending, writes a record from which [reliable_ack_parse] recovers exactly
    the first [min max len] identifiers of the updated most recently used list
    and, when there is any, the session id; the payload behind it is untouched,
    and the acks just sent leave the pending list. *)
Lemma reliable_ack_roundtrip (a mru a0 : reliable_ack) (b : buffer) (h t max : Z)
    (c : bytes) (sid junk : session_id) (prepend : bool) :
  ack_wf a -> ack_wf mru -> ack_wf a0 ->
  Forall is_u32 (ack_ids a) -> Forall is_u32 (ack_ids mru) ->
  0 <= max <= INT_MAX -> bytes_ok sid -> Zlen sid = SID_SIZE ->
  session_id_defined sid = true ->
  buf_repr b h c t -> (prepend = false -> c = []) ->
  ACK_SIZE RELIABLE_ACK_SIZE <= (if prepend then h else t) ->
  exists mru' a' b1 a2 b2,
    let n := Z.min max (ack_len a) in
    let ids := take (Z.to_nat (Z.min max (ack_len mru'))) (ack_ids mru') in
    copy_acks_to_mru a mru n = Ret mru'
    /\ reliable_ack_write a mru b sid max prepend = Ret (true, a', mru', b1)
    /\ ack_ids a' = drop (Z.to_nat n) (ack_ids a)
    /\ reliable_ack_parse b1 a0 junk = Ret (true, a2, (if Zlen ids =? 0 then junk else sid), b2)
    /\ ack_ids a2 = ids /\ contents b2 = c.
Proof.
  intros Ha Hm Ha0 Hua Hum Hmax Hso Hsl Hsd Hb Hc Hroom.
  pose proof Ha as [_ Hal]. set (n := Z.min max (ack_len a)).
  destruct (copy_acks_loop_spec (Z.to_nat n) a mru Ha Hm) as (mru' & Hcp & Hm' & Hids); [lia|].
  assert (Hcopy : copy_acks_to_mru a mru n = Ret mru').
  { unfold copy_acks_to_mru. by rewrite (proj2 (Z.leb_le _ _)) by lia. }
  destruct (reliable_ack_write_record a mru mru' b h t max c sid prepend)
    as (a' & b1 & h' & t' & Hw & Hd & Hrep); [done..|].
  set (ids := take (Z.to_nat (Z.min max (ack_len mru'))) (ack_ids mru')) in *.
  assert (Hrep' : buf_repr b1 h' (ack_record ids sid ++ c) t').
  { destruct prepend; [done|]. rewrite Hc in * by done. by rewrite app_nil_r. }
  destruct (reliable_ack_parse_record ids sid b1 h' c t' a0 junk Hrep')
    as (a2 & b2 & Hparse & Hids2 & Hcont); try done.
  { apply Forall_take. rewrite Hids. apply foldr_mru_push_Forall; [by apply Forall_take|done]. }
  { pose proof Hm' as [_ Hml]. destruct (take_ack_ids mru' (Z.min max (ack_len mru')) Hm');
      unfold ids; lia. }
  exists mru', a', b1, a2, b2. done.
Qed.

Definition example_sid : session_id := [1; 2; 3; 4; 5; 6; 7; 8].
Definition example_room : buffer := mk_buffer 60 50 1 (Some (replicate 50 0 ++ [77] ++ replicate 9 0)).
Lemma example_room_repr : buf_repr example_room 50 [77] 9.
Proof.
  exists (replicate 50 0), (replicate 9 0).
  repeat split; try done; repeat constructor; cbn; lia.
Qed.

(** ** The receive window *)

(** The tail of [tls_pre_decrypt], behind the header and the acknowledgment
    record: [Stored id], or the packet was ignored, or it was too big ([Error],
    the [goto error]).  The receive queue and the pending acks are updated. *)
Definition P_ACK_V1 : Z := 5.

Inductive recv_result : Type :=
| Stored (id : Z)
| Ignored
| Error.

Definition recv_store (r : reliable) (buf : buffer) (id op : Z) : res (recv_result * reliable) :=
  let! (i, r) := reliable_get_buf r in
  match i with
  | None => Fatal
  | Some i =>
      match rel_array r !! i with
      | None => UB
      | Some e =>
          let! (ok, b) := buf_copy (e_buf e) buf in
          let r := set_array r (<[i := set_buf e b]> (rel_array r)) in
          if negb ok then Ret (Error, r)
          else let! r := reliable_mark_active_incoming r i id op in Ret (Stored id, r)
      end
  end.

Definition recv_control (r : reliable) (rec_ack : reliable_ack) (op : Z) (buf : buffer)
  : res (recv_result * reliable * reliable_ack) :=
  if negb (op =? P_ACK_V1) && reliable_can_get r then
    let! (pid, buf) := reliable_ack_read_packet_id buf in
    match pid with
    | None => Ret (Ignored, r, rec_ack)
    | Some id =>
        if reliable_wont_break_sequentiality r id then
          let! (o, r) := if reliable_not_replay r id then recv_store r buf id op
                         else Ret (Ignored, r) in
          match o with
          | Error => Ret (Error, r, rec_ack)
          | _ => let! (_, rec_ack) := reliable_ack_acknowledge_packet_id rec_ack id in
                 Ret (o, r, rec_ack)
          end
        else Ret (Ignored, r, rec_ack)
    end
  else Ret (Ignored, r, rec_ack).

(** A stored packet: its identifier, opcode and payload. *)
Definition pkt : Type := Z * Z * bytes.
Definition pkt_of (e : reliable_entry) : pkt := (e_packet_id e, e_opcode e, contents (e_buf e)).
Definition pkt_id (p : pkt) : Z := p.1.1.

Definition CO_RESEND_WKC : Z := 16.
Definition TLV_TYPE_EARLY_NEG_FLAGS : Z := 1.
Definition EARLY_NEG_FLAG_RESEND_WKC : Z := 1.
Definition P_CONTROL_HARD_RESET_CLIENT_V2 : Z := 7.
Definition P_CONTROL_HARD_RESET_SERVER_V2 : Z := 8.
Definition P_CONTROL_HARD_RESET_CLIENT_V3 : Z := 10.

Definition is_hard_reset_method2 (op : Z) : bool :=
  (op =? P_CONTROL_HARD_RESET_CLIENT_V2) || (op =? P_CONTROL_HARD_RESET_SERVER_V2)
  || (op =? P_CONTROL_HARD_RESET_CLIENT_V3).

(** The loop of [parse_early_negotiation_tlvs]; every iteration reads at least the
    four bytes of type and length. *)
Fixpoint tlv_loop (fuel : nat) (b : buffer) (flags : Z) : res (bool * Z * buffer) :=
  match fuel with
  | O => UB
  | S fuel =>
      if negb (0 <? b_len b) then Ret (true, flags, b)
      else if buf_len b <? 4 then Ret (false, flags, b)
      else
        let! (type, b) := buf_read_u16 b in
        let! (len, b) := buf_read_u16 b in
        let type := u16 type in
        let len := u16 len in
        if buf_len b <? len then Ret (false, flags, b)
        else if type =? TLV_TYPE_EARLY_NEG_FLAGS then
          if negb (len =? 2) then Ret (false, flags, b)
          else let! (f, b) := buf_read_u16 b in
               tlv_loop fuel b
                 (if negb (Z.land (u16 f) EARLY_NEG_FLAG_RESEND_WKC =? 0)
                  then Z.lor flags CO_RESEND_WKC else flags)
        else let '(_, b) := buf_advance b len in tlv_loop fuel b flags
  end.

(** [i] is the entry of the packet in [rec_reliable]. *)
Definition parse_early_negotiation_tlvs (r : reliable) (i : nat) (e : reliable_entry) (flags : Z)
  : res (bool * Z * reliable) :=
  let! (ok, flags, b) := tlv_loop (S (Z.to_nat (b_len (e_buf e)))) (e_buf e) flags in
  let r := set_array r (<[i := set_buf e b]> (rel_array r)) in
  if negb ok then Ret (false, flags, r)
  else let! r := reliable_mark_deleted r i in Ret (true, flags, r).

(** [status] is what [key_state_write_ciphertext] answers: -1 for an error, 1 when
    the TLS library took the ciphertext, 0 to try again. *)
Definition read_incoming_tls_ciphertext (r : reliable) (i : nat) (e : reliable_entry) (status : Z)
  : res (bool * reliable) :=
  let status := if negb (b_len (e_buf e) =? 0) then status else 1 in
  if status =? -1 then Ret (false, r)
  else if status =? 1 then let! r := reliable_mark_deleted r i in Ret (true, r)
  else Ret (true, r).

(** The part of [tls_process_state] that hands the next packet in sequence to its
    consumer; [false] is the [goto error]. *)
Definition deliver_packet (r : reliable) (flags status : Z) : res (bool * Z * reliable) :=
  match reliable_get_entry_sequenced r with
  | Some (i, e) =>
      if (e_packet_id e =? 0) && is_hard_reset_method2 (e_opcode e)
      then parse_early_negotiation_tlvs r i e flags
      else let! (ok, r) := read_incoming_tls_ciphertext r i e status in Ret (ok, flags, r)
  | None => Ret (true, flags, r)
  end.

Definition active_ids (l : list reliable_entry) : list Z :=
  map e_packet_id (filter (fun e => e_active e = true) l).

Definition entry_ok (offset : Z) (e : reliable_entry) : Prop :=
  buf_wf (e_buf e) /\ b_data (e_buf e) <> None /\ 0 <= offset <= b_capacity (e_buf e).

(** Sequence numbers below half the space, so that no comparison wraps. *)
Definition pid_horizon : Z := 2 ^ 31.

Record recv_inv (r : reliable) : Prop := {
  ri_size : 0 < rel_size r <= RELIABLE_CAPACITY;
  ri_array : Zlen (rel_array r) = RELIABLE_CAPACITY;
  ri_entries : Forall (entry_ok (rel_offset r)) (entries r);
  ri_nodup : NoDup (active_ids (entries r));
  ri_range : Forall (fun id => rel_packet_id r <= id < rel_packet_id r + rel_size r)
               (active_ids (entries r));
  ri_base : 0 <= rel_packet_id r /\ rel_packet_id r + rel_size r <= pid_horizon
}.

Lemma active_ids_app l k : active_ids (l ++ k) = active_ids l ++ active_ids k.
Proof. unfold active_ids. by rewrite filter_app, map_app. Qed.

Lemma active_ids_cons e l :
  active_ids (e :: l) = (if e_active e then [e_packet_id e] else []) ++ active_ids l.
Proof. unfold active_ids. rewrite filter_cons. by destruct (e_active e). Qed.

Lemma find_entry_Some P l k i e :
  find_entry P l k = Some (i, e) ->
  exists j, i = (k + j)%nat /\ l !! j = Some e /\ P e = true.
Proof.
  revert k. induction l as [|x l IH]; intros k; cbn [find_entry]; [done|].
  destruct (P x) eqn:E.
  - intros [= <- <-]. exists 0%nat. split; [lia|done].
  - intros H. destruct (IH _ H) as (j & -> & H1 & H2). exists (S j). split; [lia|done].
Qed.

Lemma find_entry_None P l k : find_entry P l k = None -> Forall (fun e => P e = false) l.
Proof.
  revert k. induction l as [|x l IH]; intros k; cbn [find_entry]; [constructor|].
  destruct (P x) eqn:E; [done|]. intros H. constructor; eauto.
Qed.

Lemma split_lookup {A} (l : list A) i x :
  l !! i = Some x ->
  exists l1 l2, l = l1 ++ x :: l2 /\ length l1 = i /\ forall y, <[i := y]> l = l1 ++ y :: l2.
Proof.
  intros H. exists (take i l), (drop (S i) l).
  pose proof (lookup_lt_Some _ _ _ H). rewrite take_drop_middle by done.
  split; [done|]. split; [rewrite length_take; lia|].
  intros y. by rewrite insert_take_drop by lia.
Qed.

Section RecvWindow.
Context (r : reliable) (Hr : recv_inv r).

Lemma entries_insert i e :
  (i < Z.to_nat (rel_size r))%nat ->
  entries (set_array r (<[i := e]> (rel_array r))) = <[i := e]> (entries r).
Proof. intros H. unfold entries. cbn. by rewrite take_insert_lt. Qed.

Lemma length_entries : Zlen (entries r) = rel_size r.
Proof.
  destruct Hr as [H1 H2 _ _ _ _]. unfold entries, Zlen, RELIABLE_CAPACITY in *.
  rewrite length_take. lia.
Qed.

(** If every slot is taken, the next packet in sequence is in one of them. *)
Lemma full_has_next :
  reliable_can_get r = false -> rel_packet_id r ∈ active_ids (entries r).
Proof using Hr.
  intros Hfull. unfold reliable_can_get in Hfull.
  assert (Hall : Forall (fun e => e_active e = true) (entries r)).
  { apply Forall_forall. intros e He. destruct (e_active e) eqn:E; [done|].
    rewrite <- not_true_iff_false in Hfull. exfalso. apply Hfull.
    apply existsb_exists. exists e. split; [by apply list_elem_of_In|by rewrite E]. }
  assert (Hlen : length (active_ids (entries r)) = length (entries r)).
  { unfold active_ids. rewrite length_map. clear -Hall.
    induction Hall as [|e l He _ IH]; [done|].
    rewrite filter_cons. rewrite decide_True by done. cbn. by rewrite IH. }
  pose proof length_entries as Hle. destruct Hr as [H1 _ _ Hnd Hrange _].
  assert (Hsub : active_ids (entries r) ⊆+ seqZ (rel_packet_id r) (rel_size r)).
  { apply NoDup_submseteq; [done|]. intros x Hx. rewrite Forall_forall in Hrange.
    apply elem_of_seqZ. auto. }
  apply submseteq_length_Permutation in Hsub; [|rewrite length_seqZ, Hlen; unfold Zlen in *; lia].
  rewrite Hsub. apply elem_of_seqZ. lia.
Qed.

Lemma range_check id :
  is_u32 id -> reliable_wont_break_sequentiality r id = true ->
  reliable_pid_min id (rel_packet_id r) = false ->
  rel_packet_id r <= id < rel_packet_id r + rel_size r.
Proof using Hr.
  destruct Hr as [H1 _ _ _ _ [Hb1 Hb2]]. unfold RELIABLE_CAPACITY, pid_horizon in *.
  unfold is_u32, reliable_wont_break_sequentiality, reliable_pid_in_range2, reliable_pid_min,
    reliable_pid_in_range1, subtract_pid. intros Hid.
  rewrite (u32_id (rel_packet_id r + rel_size r)) by (unfold is_u32; lia).
  rewrite (proj2 (Z.leb_le _ _)) by lia. intros H%Z.ltb_lt Hm%negb_false_iff%Z.ltb_lt.
  unfold u32 in Hm. destruct (Z.le_gt_cases (rel_packet_id r) id); [lia|].
  rewrite <- (Z.mod_unique (id - rel_packet_id r) (2 ^ 32) (-1) (id - rel_packet_id r + 2 ^ 32)) in Hm
    by lia. lia.
Qed.
End RecvWindow.

Lemma ack_present_loop_spec pre s post a pid :
  ack_packet_id a = pre ++ s ++ post ->
  ack_present_loop (length s) (Zlen pre) a pid = Ret (bool_decide (pid ∈ s)).
Proof.
  revert pre. induction s as [|x s IH]; intros pre Ha; cbn [length ack_present_loop].
  { by rewrite bool_decide_false by set_solver. }
  rewrite Ha. cbn [app]. rewrite arr_get_mid. cbn [res_bind].
  destruct (Z.eqb_spec x pid) as [->|Hne].
  - by rewrite bool_decide_true by left.
  - specialize (IH (pre ++ [x])). rewrite Zlen_app in IH. change (Zlen [x]) with 1 in IH.
    rewrite IH by (rewrite Ha; by rewrite <- app_assoc).
    f_equal. apply bool_decide_ext. set_solver.
Qed.

Lemma reliable_ack_acknowledge_spec a pid :
  ack_wf a -> NoDup (ack_ids a) ->
  exists ok a', reliable_ack_acknowledge_packet_id a pid = Ret (ok, a') /\ ack_wf a'
    /\ NoDup (ack_ids a')
    /\ ack_ids a' = (if ok then ack_ids a ++ [pid] else ack_ids a)
    /\ (ok = true <-> (pid ∉ ack_ids a) /\ ack_len a < RELIABLE_ACK_SIZE).
Proof.
  intros [Hl Hlen] Hnd. unfold reliable_ack_acknowledge_packet_id, reliable_ack_packet_id_present.
  unfold RELIABLE_ACK_SIZE in *.
  destruct (split_at (ack_packet_id a) (ack_len a)) as (s & post & Ha & L1 & _ & Hs & _); [lia|].
  replace (Z.to_nat (ack_len a)) with (length s) by (unfold Zlen in *; lia).
  rewrite (ack_present_loop_spec [] s post a pid Ha : ack_present_loop (length s) 0 a pid = _).
  cbn [res_bind]. assert (Hids : ack_ids a = s) by (unfold ack_ids; by rewrite Hs).
  rewrite Hids in *. destruct (bool_decide_reflect (pid ∈ s)) as [Hin|Hin]; cbn [negb andb].
  { exists false, a. rewrite Hids. split_and!; try done. naive_solver. }
  destruct (Z.ltb_spec (ack_len a) 8).
  - rewrite arr_set_ok by lia. cbn [res_bind]. eexists true, _. split; [done|].
    split; [split; cbn; [unfold Zlen in *; by rewrite length_insert|unfold RELIABLE_ACK_SIZE; lia]|].
    rewrite ack_ids_snoc by lia.
    assert (ack_ids (mk_ack (ack_len a) (ack_packet_id a)) = s) as -> by (by destruct a).
    split_and!; [|done|by split].
    apply NoDup_app. split_and!; [done|set_solver|apply NoDup_singleton].
  - exists false, a. rewrite Hids. split_and!; try done. naive_solver lia.
Qed.

(** Replacing one slot. *)
Lemma recv_inv_insert r i e e' base' :
  recv_inv r -> entries r !! i = Some e -> entry_ok (rel_offset r) e' ->
  0 <= base' -> base' + rel_size r <= pid_horizon ->
  (forall l1 l2, entries r = l1 ++ e :: l2 ->
     NoDup (active_ids (l1 ++ e' :: l2))
     /\ Forall (fun id => base' <= id < base' + rel_size r) (active_ids (l1 ++ e' :: l2))) ->
  recv_inv (set_pid (set_array r (<[i := e']> (rel_array r))) base').
Proof.
  intros [H1 H2 H3 H4 H5 H6] Hi Hok Hb1 Hb2 Hids.
  pose proof (lookup_lt_Some _ _ _ Hi) as Hlt.
  destruct (split_lookup _ _ _ Hi) as (l1 & l2 & Hl & Hlen & Hins).
  assert (Hsz : (i < Z.to_nat (rel_size r))%nat).
  { unfold entries in Hlt. rewrite length_take in Hlt. lia. }
  assert (He : entries (set_pid (set_array r (<[i := e']> (rel_array r))) base') = l1 ++ e' :: l2).
  { unfold entries. cbn. rewrite take_insert_lt by done. apply Hins. }
  destruct (Hids l1 l2 Hl) as [Hn Hr].
  constructor; rewrite ?He; cbn [rel_size rel_array rel_offset rel_packet_id set_pid set_array];
    try done.
  - unfold Zlen in *. by rewrite length_insert.
  - rewrite Hl in H3. apply Forall_app in H3 as [? [_ ?]%Forall_cons].
    apply Forall_app. split; [done|by constructor].
Qed.

Lemma set_pid_id r l : set_pid (set_array r l) (rel_packet_id r) = set_array r l.
Proof. done. Qed.

Lemma can_get_find r :
  reliable_can_get r = true ->
  exists i e, find_entry (fun e => negb (e_active e)) (entries r) 0 = Some (i, e)
    /\ entries r !! i = Some e /\ e_active e = false.
Proof.
  intros Hc. destruct (find_entry _ _ 0) as [[i e]|] eqn:E.
  - destruct (find_entry_Some _ _ _ _ _ E) as (j & -> & H1 & H2%negb_true_iff). eauto.
  - apply find_entry_None in E. unfold reliable_can_get in Hc.
    apply existsb_exists in Hc as (e & He%list_elem_of_In & Hn).
    rewrite Forall_forall in E. rewrite (E e He) in Hn. done.
Qed.

Lemma not_replay_notin r id :
  reliable_not_replay r id = true ->
  reliable_pid_min id (rel_packet_id r) = false /\ id ∉ active_ids (entries r).
Proof.
  unfold reliable_not_replay. destruct (reliable_pid_min _ _); [done|].
  intros H%negb_true_iff. split; [done|]. intros Hin.
  apply not_true_iff_false in H. apply H. apply existsb_exists.
  unfold active_ids in Hin. apply list_elem_of_In, in_map_iff in Hin as (e & He & Hin).
  apply list_elem_of_In, list_elem_of_filter in Hin as [Ha Hin].
  exists e. split; [by apply list_elem_of_In|]. rewrite Ha, He. cbn. apply Z.eqb_refl.
Qed.

(** The stored copy keeps the slot's buffer well formed. *)
Lemma entry_copy_ok off e buf h c t :
  entry_ok off e -> buf_repr buf h c t ->
  exists b0 ok b, buf_init_dowork (e_buf e) off = (true, b0)
    /\ buf_copy b0 buf = Ret (ok, b)
    /\ forall e', entry_ok off (set_buf e' b0) /\ entry_ok off (set_buf e' b).
Proof.
  intros (Hwf & Hd & Ho) Hbuf.
  destruct (buf_init_repr (e_buf e) off Hwf Hd Ho) as (b0 & Hi & Hb0).
  unfold buf_copy. rewrite (buf_bytes_repr _ _ _ _ Hbuf). cbn [res_bind].
  assert (Hok : forall b h0 c0 t0, buf_repr b h0 c0 t0 ->
            h0 + Zlen c0 + t0 = b_capacity (e_buf e) ->
            forall e', entry_ok off (set_buf e' b)).
  { intros b h0 c0 t0 Hb Hcap e'. pose proof (buf_repr_wf _ _ _ _ Hb).
    buf_facts Hb. unfold entry_ok, set_buf. cbn. split_and!; try done; lia. }
  assert (Hc : bytes_ok c) by apply (buf_repr_fields _ _ _ _ Hbuf).
  destruct (Z.le_gt_cases (Zlen c) (b_capacity (e_buf e) - off)) as [Hle|Hgt].
  - destruct (buf_write_repr _ _ _ _ Hb0 c Hc Hle) as (b & Hw & Hb).
    exists b0, true, b. split; [done|]. split; [done|]. intros e'.
    split; [eapply Hok; [exact Hb0|]|eapply Hok; [exact Hb|]];
      rewrite ?Zlen_app; change (Zlen (@nil Z)) with 0; lia.
  - exists b0, false, b0. split; [done|].
    split; [by apply (buf_write_full _ _ _ _ Hb0)|]. intros e'.
    split; (eapply Hok; [exact Hb0|]); change (Zlen (@nil Z)) with 0; lia.
Qed.

(** Replacing the content of one slot, in terms of the stored packets. *)
Definition pkts (l : list reliable_entry) : list pkt :=
  map pkt_of (filter (fun e => e_active e = true) l).

Lemma active_ids_pkts l : active_ids l = map pkt_id (pkts l).
Proof. unfold active_ids, pkts. by rewrite map_map. Qed.

Lemma pkts_mid l1 e l2 :
  pkts (l1 ++ e :: l2) ≡ₚ (if e_active e then [pkt_of e] else []) ++ pkts (l1 ++ l2).
Proof.
  unfold pkts. rewrite !filter_app, !map_app, filter_cons.
  case_decide as E; [rewrite E; cbn; by rewrite Permutation_middle|].
  by destruct (e_active e).
Qed.

Lemma active_ids_perm l k : pkts l ≡ₚ pkts k -> active_ids l ≡ₚ active_ids k.
Proof. intros H. rewrite !active_ids_pkts. by rewrite H. Qed.

(** Overwriting a free slot adds the new entry's packet, if it is active. *)
Lemma recv_inv_fill r i e e' :
  recv_inv r -> entries r !! i = Some e -> e_active e = false -> entry_ok (rel_offset r) e' ->
  (e_active e' = true ->
     rel_packet_id r <= e_packet_id e' < rel_packet_id r + rel_size r
     /\ e_packet_id e' ∉ active_ids (entries r)) ->
  let r' := set_array r (<[i := e']> (rel_array r)) in
  recv_inv r' /\ entries r' !! i = Some e'
  /\ pkts (entries r') ≡ₚ (if e_active e' then [pkt_of e'] else []) ++ pkts (entries r).
Proof.
  intros Hr Hi Ha Hok Hnew r'.
  pose proof (lookup_lt_Some _ _ _ Hi) as Hlt.
  assert (Hsz : (i < Z.to_nat (rel_size r))%nat).
  { unfold entries in Hlt. rewrite length_take in Hlt. lia. }
  destruct (split_lookup _ _ _ Hi) as (l1 & l2 & Hl & Hlen & Hins).
  assert (He : entries r' = l1 ++ e' :: l2) by (unfold r'; rewrite entries_insert by done; apply Hins).
  assert (Hp : pkts (entries r) ≡ₚ pkts (l1 ++ l2)) by (rewrite Hl, pkts_mid, Ha; done).
  assert (Hp' : pkts (entries r') ≡ₚ (if e_active e' then [pkt_of e'] else []) ++ pkts (entries r)).
  { by rewrite He, pkts_mid, Hp. }
  split_and!; [|unfold r'; rewrite entries_insert by done; by apply list_lookup_insert_eq|done].
  unfold r'. rewrite <- set_pid_id.
  eapply recv_inv_insert; [done|exact Hi|done|apply Hr|apply Hr|].
  intros l1' l2' Hl'. rewrite active_ids_pkts.
  assert (Hq : pkts (l1' ++ e' :: l2') ≡ₚ (if e_active e' then [pkt_of e'] else []) ++ pkts (entries r)).
  { rewrite Hl', !pkts_mid, Ha. done. }
  rewrite Hq, map_app, <- active_ids_pkts. destruct Hr as [_ _ _ H4 H5 _].
  destruct (e_active e'); [|done]. destruct (Hnew eq_refl). cbn [map app].
  split; [by constructor|by constructor].
Qed.

Lemma buf_copy_contents b0 h0 t0 buf h c t b :
  buf_repr b0 h0 [] t0 -> buf_repr buf h c t -> buf_copy b0 buf = Ret (true, b) -> contents b = c.
Proof.
  intros Hb0 Hbuf. unfold buf_copy. rewrite (buf_bytes_repr _ _ _ _ Hbuf). cbn [res_bind].
  destruct (Z.le_gt_cases (Zlen c) t0) as [Hle|Hgt].
  - destruct (buf_write_repr _ _ _ _ Hb0 c) as (b' & -> & Hb'); [|done|].
    { apply (buf_repr_fields _ _ _ _ Hbuf). }
    intros [= <-]. by rewrite (buf_repr_contents _ _ _ _ Hb').
  - by rewrite (buf_write_full _ _ _ _ Hb0) by done.
Qed.

Lemma recv_store_spec r buf h c t id op :
  recv_inv r -> reliable_can_get r = true -> buf_repr buf h c t ->
  reliable_not_replay r id = true ->
  rel_packet_id r <= id < rel_packet_id r + rel_size r ->
  exists o r', recv_store r buf id op = Ret (o, r') /\ recv_inv r'
    /\ rel_packet_id r' = rel_packet_id r /\ rel_size r' = rel_size r
    /\ (o = Stored id /\ pkts (entries r') ≡ₚ (id, op, c) :: pkts (entries r)
        \/ o = Error /\ pkts (entries r') ≡ₚ pkts (entries r)).
Proof.
  intros Hr Hget Hbuf Hnr Hid. destruct (not_replay_notin _ _ Hnr) as [Hmin Hnew].
  destruct (can_get_find r Hget) as (i & e & Hf & Hi & Ha).
  assert (Hok : entry_ok (rel_offset r) e).
  { eapply Forall_lookup_1; [apply Hr|exact Hi]. }
  unfold recv_store, reliable_get_buf. rewrite Hf.
  destruct (entry_copy_ok (rel_offset r) e buf h c t Hok Hbuf) as (b0 & ok & b & Hinit & Hcp & Hoks).
  rewrite Hinit. cbn [res_bind].
  destruct (recv_inv_fill r i e (set_buf e b0) Hr Hi Ha) as (Hr1 & Hi1 & Hp1);
    [apply Hoks|cbn; congruence|]. cbn [e_active set_buf] in Hp1. rewrite Ha in Hp1.
  set (r1 := set_array r (<[i:=set_buf e b0]> (rel_array r))) in *.
  assert (rel_array r1 !! i = Some (set_buf e b0)) as ->.
  { unfold entries in Hi1. by apply lookup_take_Some in Hi1 as [? _]. }
  cbn [e_buf set_buf]. rewrite Hcp. cbn [res_bind].
  destruct (recv_inv_fill r1 i (set_buf e b0) (set_buf (set_buf e b0) b) Hr1 Hi1 Ha)
    as (Hr2 & Hi2 & Hp2); [apply Hoks|cbn; congruence|]. cbn [e_active set_buf] in Hp2.
  rewrite Ha in Hp2. cbn [app] in *.
  set (r2 := set_array r1 (<[i:=set_buf (set_buf e b0) b]> (rel_array r1))) in *.
  assert (Hpp : pkts (entries r2) ≡ₚ pkts (entries r)) by (by rewrite Hp2, Hp1).
  destruct ok; cbn [negb].
  - unfold reliable_mark_active_incoming. rewrite Hi2. cbn [rel_packet_id set_array r2 r1].
    rewrite Hmin. cbn [negb e_buf set_buf].
    destruct (recv_inv_fill r2 i _ (mk_entry true 0 0 id 0 op b) Hr2 Hi2 Ha) as (Hr3 & _ & Hp3).
    { apply (Hoks (mk_entry true 0 0 id 0 op b)). }
    { intros _. cbn. split; [done|]. by rewrite (active_ids_perm _ _ Hpp). }
    eexists (Stored id), _. split; [reflexivity|]. split; [exact Hr3|].
    split_and!; [done|done|left]. split; [done|]. rewrite Hp3. cbn [e_active app pkt_of].
    rewrite Hpp. unfold pkt_of. cbn. destruct Hok as (Hwf & Hd & Ho).
    destruct (buf_init_repr (e_buf e) _ Hwf Hd Ho) as (b0' & Hi' & Hb0). rewrite Hinit in Hi'.
    injection Hi' as <-. by rewrite (buf_copy_contents _ _ _ _ _ _ _ _ Hb0 Hbuf Hcp).
  - exists Error, r2. split_and!; [done|done|done|done|]. right. by split.
Qed.

(** Freeing the slot of the next packet in sequence; its buffer may have been
    read from before. *)
Lemma mark_deleted_spec r i e b :
  recv_inv r -> rel_packet_id r + rel_size r < pid_horizon ->
  entries r !! i = Some e -> e_active e = true -> e_packet_id e = rel_packet_id r ->
  entry_ok (rel_offset r) (set_buf e b) ->
  exists r', reliable_mark_deleted (set_array r (<[i := set_buf e b]> (rel_array r))) i = Ret r'
    /\ recv_inv r' /\ rel_packet_id r' = rel_packet_id r + 1 /\ rel_size r' = rel_size r
    /\ pkt_of e :: pkts (entries r') ≡ₚ pkts (entries r).
Proof.
  intros Hr Hhor Hi Ha Hid Hok. pose proof Hr as [H1 _ H3 Hnd Hrg [Hb1 Hb2]].
  unfold RELIABLE_CAPACITY, pid_horizon in *.
  pose proof (lookup_lt_Some _ _ _ Hi) as Hlt.
  assert (Hsz : (i < Z.to_nat (rel_size r))%nat).
  { unfold entries in Hlt. rewrite length_take in Hlt. lia. }
  unfold reliable_mark_deleted. rewrite entries_insert by done.
  rewrite list_lookup_insert_eq by done. cbn [e_packet_id set_buf].
  rewrite Hid, u32_id by (unfold is_u32; lia).
  set (e' := set_active (set_buf e b) false).
  assert (Hpk : forall l1 l2, entries r = l1 ++ e :: l2 ->
            pkts (entries r) ≡ₚ pkt_of e :: pkts (l1 ++ e' :: l2)).
  { intros l1 l2 ->. rewrite !pkts_mid. rewrite Ha. done. }
  exists (set_pid (set_array r (<[i := e']> (rel_array r))) (rel_packet_id r + 1)).
  split; [unfold set_array, set_pid; cbn; by rewrite list_insert_insert_eq|].
  split; [|split_and!; [done|done|]].
  - eapply recv_inv_insert; [done|exact Hi|exact Hok|lia|unfold pid_horizon; lia|].
    intros l1 l2 Hl. pose proof (Hpk l1 l2 Hl) as Hq.
    rewrite active_ids_pkts in Hnd, Hrg. rewrite Hq in Hnd, Hrg.
    rewrite active_ids_pkts. cbn [map] in *.
    apply NoDup_cons in Hnd as [Hnotin Hnd]. apply Forall_cons in Hrg as [_ Hrg].
    split; [done|]. rewrite Forall_forall in *. intros x Hx. specialize (Hrg x Hx).
    assert (x <> rel_packet_id r); [|lia]. intros ->. apply Hnotin.
    change (pkt_id (pkt_of e)) with (e_packet_id e). by rewrite Hid.
  - destruct (split_lookup _ _ _ Hi) as (l1 & l2 & Hl & _ & Hins).
    rewrite (Hpk l1 l2 Hl). unfold entries. cbn. rewrite take_insert_lt by lia.
    fold (entries r). by rewrite Hins.
Qed.

Lemma buf_read_u16_repr b h c t :
  buf_repr b h c t -> 2 <= Zlen c ->
  exists b', buf_read_u16 b = Ret (be_val (take 2 c), b') /\ buf_repr b' (h + 2) (drop 2 c) t.
Proof.
  intros Hb Hc. unfold buf_read_u16.
  destruct (buf_read_repr _ _ _ _ Hb 2) as (b' & -> & Hb'); [lia|]. cbn. eauto.
Qed.

(** The loop terminates within its fuel and stays inside the packet. *)
Lemma tlv_loop_total fuel b h c t flags :
  buf_repr b h c t -> (length c < fuel)%nat ->
  exists ok flags' b' h' c', tlv_loop fuel b flags = Ret (ok, flags', b') /\ buf_repr b' h' c' t
    /\ h' + Zlen c' = h + Zlen c.
Proof.
  revert b h c flags. induction fuel as [|fuel IH]; intros b h c flags Hb Hf; [lia|].
  cbn [tlv_loop]. buf_facts Hb. rewrite Flen, (buf_len_repr _ _ _ _ Hb).
  destruct (Z.ltb_spec 0 (Zlen c)); cbn [negb]; [|eexists _, _, _, _, _; eauto].
  destruct (Z.ltb_spec (Zlen c) 4); [eexists _, _, _, _, _; eauto|].
  destruct (buf_read_u16_repr _ _ _ _ Hb) as (b1 & -> & Hb1); [lia|]. cbn [res_bind].
  assert (Hl1 : Zlen (drop 2 c) = Zlen c - 2) by (unfold Zlen in *; rewrite length_drop; lia).
  destruct (buf_read_u16_repr _ _ _ _ Hb1) as (b2 & -> & Hb2); [lia|]. cbn [res_bind].
  rewrite drop_drop in Hb2. change (2 + 2)%nat with 4%nat in Hb2.
  assert (Hl2 : Zlen (drop 4 c) = Zlen c - 4) by (unfold Zlen in *; rewrite length_drop; lia).
  rewrite (buf_len_repr _ _ _ _ Hb2). set (len := u16 (be_val (take 2 (drop 2 c)))).
  assert (Hlen : 0 <= len) by apply u16_range.
  destruct (Z.ltb_spec (Zlen (drop 4 c)) len).
  { eexists _, _, _, _, _. split; [reflexivity|]. split; [exact Hb2|lia]. }
  destruct (u16 (be_val (take 2 c)) =? TLV_TYPE_EARLY_NEG_FLAGS).
  - destruct (Z.eqb_spec len 2); cbn [negb].
    + destruct (buf_read_u16_repr _ _ _ _ Hb2) as (b3 & -> & Hb3); [lia|]. cbn [res_bind].
      edestruct IH as (ok & f' & b' & h' & c' & -> & Hb' & Heq); [exact Hb3| |].
      { rewrite length_drop. unfold Zlen in *. lia. }
      eexists _, _, _, _, _. split; [reflexivity|]. split; [exact Hb'|].
      rewrite Heq. unfold Zlen in *. rewrite length_drop. lia.
    + eexists _, _, _, _, _. split; [reflexivity|]. split; [exact Hb2|lia].
  - destruct (buf_advance_repr _ _ _ _ Hb2 len) as (b3 & -> & Hb3); [lia|].
    edestruct IH as (ok & f' & b' & h' & c' & -> & Hb' & Heq); [exact Hb3| |].
    { rewrite length_drop. unfold Zlen in *. lia. }
    eexists _, _, _, _, _. split; [reflexivity|]. split; [exact Hb'|].
    rewrite Heq. unfold Zlen in *. rewrite length_drop. lia.
Qed.

(** One poll: the next packet in sequence is taken, or the session fails, or
    nothing changes. *)
Lemma deliver_spec r flags status :
  recv_inv r -> rel_packet_id r + rel_size r < pid_horizon ->
  exists ok flags' r', deliver_packet r flags status = Ret (ok, flags', r')
  /\ (forall i e, reliable_get_entry_sequenced r = Some (i, e) -> status = 1 ->
       is_hard_reset_method2 (e_opcode e) = false -> ok = true)
  /\ if negb ok then True
     else ((r' = r /\ (status = 1 -> reliable_get_entry_sequenced r = None))
           \/ exists e, reliable_get_entry_sequenced r = Some e
            /\ recv_inv r' /\ pkt_id (pkt_of e.2) = rel_packet_id r
            /\ rel_packet_id r' = rel_packet_id r + 1 /\ rel_size r' = rel_size r
            /\ pkt_of e.2 :: pkts (entries r') ≡ₚ pkts (entries r)).
Proof.
  intros Hr Hhor. unfold deliver_packet.
  destruct (reliable_get_entry_sequenced r) as [[i e]|] eqn:E.
  2:{ eexists true, _, _; split; [reflexivity|]. split; [done|by left]. }
  unfold reliable_get_entry_sequenced in E.
  destruct (find_entry_Some _ _ _ _ _ E) as (j & -> & Hi & [Ha Hid%Z.eqb_eq]%andb_true_iff).
  change (0 + j)%nat with j. pose proof (Forall_lookup_1 _ _ _ _ (ri_entries r Hr) Hi) as Hok.
  assert (Hdel : forall b, entry_ok (rel_offset r) (set_buf e b) ->
     exists r', reliable_mark_deleted (set_array r (<[j := set_buf e b]> (rel_array r))) j = Ret r'
       /\ recv_inv r' /\ pkt_id (pkt_of e) = rel_packet_id r
       /\ rel_packet_id r' = rel_packet_id r + 1 /\ rel_size r' = rel_size r
       /\ pkt_of e :: pkts (entries r') ≡ₚ pkts (entries r)).
  { intros b Hb. destruct (mark_deleted_spec r j e b) as (r' & ? & ? & ? & ? & ?); try done.
    exists r'. by split_and!. }
  destruct ((e_packet_id e =? 0) && is_hard_reset_method2 (e_opcode e)) eqn:Ehr.
  - apply andb_true_iff in Ehr as [_ Ehr].
    unfold parse_early_negotiation_tlvs. destruct Hok as (Hwf & Hd & Ho).
    pose proof (buf_wf_repr _ Hwf Hd) as Hb.
    destruct (buf_repr_fields _ _ _ _ Hb) as (_ & Hbl & Hbc & _).
    destruct (tlv_loop_total (S (Z.to_nat (b_len (e_buf e)))) _ _ _ _ flags Hb)
      as (ok & flags' & b' & h' & c' & -> & Hb' & Hsum); [rewrite Hbl, to_nat_Zlen; lia|].
    cbn [res_bind]. destruct ok; cbn [negb].
    2:{ eexists false, _, _. split; [reflexivity|]. split; [|done]. intros ? ? [= <- <-] _. congruence. }
    destruct (Hdel b') as (r' & -> & Hrest).
    { pose proof (buf_repr_wf _ _ _ _ Hb'). buf_facts Hb'. unfold entry_ok. cbn.
      split_and!; try done; lia. }
    cbn [res_bind]. eexists true, _, _. split; [reflexivity|]. split; [done|right]. by exists (j, e).
  - unfold read_incoming_tls_ciphertext. set (st := if negb _ then _ else _).
    assert (Hst : status = 1 -> st = 1) by (unfold st; intros ->; by destruct (negb _)).
    destruct (Z.eqb_spec st (-1)) as [Hm|Hm].
    { eexists false, _, _. split; [reflexivity|]. split; [|done]. intros ? ? _ H1.
      specialize (Hst H1). lia. }
    destruct (Z.eqb_spec st 1) as [Hs|Hs].
    2:{ eexists true, _, _. split; [reflexivity|]. split; [done|left]. split; [done|].
        intros H1. by apply Hst in H1. }
    destruct (Hdel (e_buf e)) as (r' & Hdr & Hrest); [by destruct e|].
    replace (set_array r (<[j:=set_buf e (e_buf e)]> (rel_array r))) with r in Hdr.
    + rewrite Hdr. cbn [res_bind]. eexists true, _, _. split; [reflexivity|].
      split; [done|right]. by exists (j, e).
    + destruct r as [a1 a2 a3 a4 a5 arr]. unfold set_array. cbn. f_equal. symmetry.
      replace (set_buf e (e_buf e)) with e by (by destruct e). apply list_insert_id.
      unfold entries in Hi. by apply lookup_take_Some in Hi as [? _].
Qed.

(** Nothing is delivered only when the next packet is not there. *)
Lemma entry_sequenced_None r :
  reliable_get_entry_sequenced r = None -> rel_packet_id r ∉ active_ids (entries r).
Proof.
  intros E. apply find_entry_None in E. intros Hin.
  apply list_elem_of_In, in_map_iff in Hin as (e & He & Hin).
  apply list_elem_of_In, list_elem_of_filter in Hin as [Ha Hin].
  rewrite Forall_forall in E. specialize (E e Hin). rewrite Ha, He, Z.eqb_refl in E. done.
Qed.

(** ** A run of the receiver *)

(** What the key state's receive side goes through: a control packet comes in
    (behind the acknowledgment record), or [tls_process_state] looks at the queue
    and the TLS library answers [status].  A failed poll puts the session into its
    error state and ends the run. *)
Inductive rx_event : Type :=
| Rx (op : Z) (buf : buffer)
| Poll (status : Z).

Record rx : Type := mk_rx {
  rx_rel : reliable;
  rx_ack : reliable_ack;
  rx_flags : Z;
  rx_failed : bool;
  rx_stored : list pkt;
  rx_delivered : list pkt
}.

(** What a poll that changed the queue took out of it. *)
Definition taken (r r' : reliable) : list pkt :=
  if rel_packet_id r =? rel_packet_id r' then []
  else match reliable_get_entry_sequenced r with Some (_, e) => [pkt_of e] | None => [] end.

Definition rx_step (s : rx) (ev : rx_event) : res rx :=
  match ev with
  | Rx op buf =>
      let! (o, r, a) := recv_control (rx_rel s) (rx_ack s) op buf in
      let new := match o with Stored id => [(id, op, drop 4 (contents buf))] | _ => [] end in
      Ret (mk_rx r a (rx_flags s) false (rx_stored s ++ new) (rx_delivered s))
  | Poll status =>
      let! (ok, flags, r) := deliver_packet (rx_rel s) (rx_flags s) status in
      Ret (mk_rx r (rx_ack s) flags (negb ok) (rx_stored s)
             (rx_delivered s ++ if ok then taken (rx_rel s) r else []))
  end.
Fixpoint rx_run (s : rx) (evs : list rx_event) : res rx :=
  match evs with
  | [] => Ret s
  | ev :: evs => let! s := rx_step s ev in if rx_failed s then Ret s else rx_run s evs
  end.

Definition rx_event_ok (ev : rx_event) : Prop :=
  match ev with Rx _ buf => exists h c t, buf_repr buf h c t | Poll _ => True end.

Record rx_inv (base0 : Z) (s : rx) : Prop := {
  xi_recv : recv_inv (rx_rel s);
  xi_ack : ack_wf (rx_ack s) /\ NoDup (ack_ids (rx_ack s));
  xi_base : base0 <= rel_packet_id (rx_rel s);
  xi_seq : map pkt_id (rx_delivered s) = seqZ base0 (rel_packet_id (rx_rel s) - base0);
  xi_perm : rx_delivered s ++ pkts (entries (rx_rel s)) ≡ₚ rx_stored s
}.

(** What holds at the end of a run, failed or not. *)
Definition rx_done (base0 : Z) (s : rx) : Prop :=
  map pkt_id (rx_delivered s) = seqZ base0 (Zlen (rx_delivered s))
  /\ NoDup (map pkt_id (rx_stored s))
  /\ (exists waiting, rx_delivered s ++ waiting ≡ₚ rx_stored s
      /\ (rx_failed s = false -> waiting = pkts (entries (rx_rel s)))).

Lemma be_val_u32 x : bytes_ok x -> Zlen x = 4 -> is_u32 (be_val x).
Proof.
  intros H1 H2. pose proof (be_val_range x H1) as H. rewrite H2 in H. exact H.
Qed.

(** Reading the identifier in front of a control packet. *)
Lemma read_packet_id_spec buf h c t :
  buf_repr buf h c t ->
  (exists b', reliable_ack_read_packet_id buf = Ret (None, b'))
  \/ (exists id b' h', reliable_ack_read_packet_id buf = Ret (Some id, b') /\ is_u32 id
        /\ buf_repr b' h' (drop 4 c) t).
Proof.
  intros Hb. unfold reliable_ack_read_packet_id.
  destruct (Z.le_gt_cases 4 (Zlen c)) as [Hle|Hgt].
  - right. destruct (buf_read_repr _ _ _ _ Hb 4) as (b' & -> & Hb'); [lia|]. cbn [res_bind].
    eexists _, _, _. split; [reflexivity|]. split; [|exact Hb'].
    apply be_val_u32.
    + apply Forall_take. apply (buf_repr_fields _ _ _ _ Hb).
    + unfold Zlen in *. rewrite length_take. lia.
  - left. rewrite (buf_read_short _ _ _ _ Hb) by lia. cbn. eauto.
Qed.

Lemma rx_step_packet base0 s op buf :
  rx_inv base0 s -> rx_event_ok (Rx op buf) ->
  exists s', rx_step s (Rx op buf) = Ret s' /\ rx_inv base0 s' /\ rx_failed s' = false
    /\ rel_packet_id (rx_rel s') = rel_packet_id (rx_rel s)
    /\ rel_size (rx_rel s') = rel_size (rx_rel s).
Proof.
  intros [Hr [Ha Hna] Hb Hs Hp] (h & c & t & Hbuf).
  cbn [rx_step]. unfold recv_control.
  assert (Hsame : forall r a, recv_inv r -> ack_wf a -> NoDup (ack_ids a) ->
    rel_packet_id r = rel_packet_id (rx_rel s) -> rel_size r = rel_size (rx_rel s) ->
    pkts (entries r) ≡ₚ pkts (entries (rx_rel s)) ->
    let s' := mk_rx r a (rx_flags s) false (rx_stored s ++ []) (rx_delivered s) in
    rx_inv base0 s' /\ rx_failed s' = false /\ rel_packet_id (rx_rel s') = rel_packet_id (rx_rel s)
    /\ rel_size (rx_rel s') = rel_size (rx_rel s)).
  { intros r a H1 H2 H3 H4 H5 H6. rewrite app_nil_r. split; [|by split_and!].
    constructor; cbn; rewrite ?H4, ?H6; auto. }
  destruct (negb (op =? P_ACK_V1) && reliable_can_get (rx_rel s)) eqn:E;
    [apply andb_true_iff in E as [_ Hget]|eauto 10].
  destruct (read_packet_id_spec _ _ _ _ Hbuf) as [(b' & ->)|(id & b' & h' & -> & Hid & Hb')];
    cbn [res_bind]; [eauto 10|].
  destruct (reliable_wont_break_sequentiality (rx_rel s) id) eqn:Hw; [|cbn; eauto 10].
  destruct (reliable_ack_acknowledge_spec (rx_ack s) id Ha Hna) as (ok & a' & Hak & Ha' & Hna' & _).
  destruct (reliable_not_replay (rx_rel s) id) eqn:Hnr; cbn [res_bind];
    [|rewrite Hak; cbn; eauto 10].
  pose proof (range_check _ Hr id Hid Hw (proj1 (not_replay_notin _ _ Hnr))) as Hrange.
  destruct (recv_store_spec _ _ _ _ _ id op Hr Hget Hb' Hnr Hrange)
    as (o & r' & -> & Hr' & Hpid & Hsz & [[-> Hpk]|[-> Hpk]]); cbn [res_bind]; [|eauto 10].
  rewrite Hak. cbn [res_bind]. eexists. split; [reflexivity|]. split; [|by split_and!].
  constructor; cbn; rewrite ?Hpid; try done.
  rewrite Hpk, (buf_repr_contents _ _ _ _ Hbuf), <- Hp, <- app_assoc.
  apply Permutation_app_head. apply Permutation_cons_append.
Qed.

Lemma rx_inv_done base0 s : rx_inv base0 s -> rx_done base0 s.
Proof.
  intros [Hr _ Hb Hs Hp]. unfold rx_done. split_and!.
  - assert (Zlen (rx_delivered s) = rel_packet_id (rx_rel s) - base0) as ->; [|done].
    apply (f_equal length) in Hs. rewrite length_map, length_seqZ in Hs. unfold Zlen. lia.
  - rewrite <- Hp, map_app, Hs, <- active_ids_pkts.
    destruct Hr as [_ _ _ Hnd Hrange _]. apply NoDup_app. split_and!; [apply NoDup_seqZ| |done].
    intros x Hx%elem_of_seqZ Hin. rewrite Forall_forall in Hrange. specialize (Hrange x Hin). lia.
  - eauto.
Qed.

Lemma rx_step_poll base0 s status :
  rx_inv base0 s -> rel_packet_id (rx_rel s) + rel_size (rx_rel s) < pid_horizon ->
  exists s', rx_step s (Poll status) = Ret s' /\ rx_done base0 s'
    /\ (rx_failed s' = false -> rx_inv base0 s'
         /\ rel_packet_id (rx_rel s') <= rel_packet_id (rx_rel s) + 1
         /\ rel_size (rx_rel s') = rel_size (rx_rel s)).
Proof.
  intros Hs Hhor. pose proof Hs as [Hr Ha Hb Hq Hp]. cbn [rx_step].
  destruct (deliver_spec _ (rx_flags s) status Hr Hhor) as (ok & flags' & r' & -> & _ & Hc).
  cbn [res_bind]. destruct ok; cbn [negb] in *.
  - enough (rx_inv base0 (mk_rx r' (rx_ack s) flags' false (rx_stored s)
              (rx_delivered s ++ taken (rx_rel s) r'))
            /\ rel_packet_id r' <= rel_packet_id (rx_rel s) + 1
            /\ rel_size r' = rel_size (rx_rel s)) as (Hi & ? & ?).
    { eexists. split; [reflexivity|]. split; [by apply rx_inv_done|]. intros _. by split_and!. }
    unfold taken. destruct Hc as [[-> _]|([i e] & Hget & Hr' & Hid & Hpid & Hsz & Hpk)].
    + rewrite Z.eqb_refl, app_nil_r. split; [by constructor|split; [lia|done]].
    + rewrite (proj2 (Z.eqb_neq _ _)) by lia. rewrite Hget. cbn [snd] in *.
      split; [|split; [lia|done]]. constructor; cbn; rewrite ?Hpid; [done|done|lia| |].
      * rewrite map_app, Hq. cbn [map].
        rewrite Hid. replace (rel_packet_id (rx_rel s) + 1 - base0)
          with ((rel_packet_id (rx_rel s) - base0) + 1) by lia.
        rewrite seqZ_app by lia. f_equal.
        replace (base0 + _) with (rel_packet_id (rx_rel s)) by lia. done.
      * by rewrite <- app_assoc, <- Hp, <- Hpk.
  - destruct (rx_inv_done _ _ Hs) as (D1 & D2 & (w & D3 & _)).
    eexists. split; [reflexivity|]. split; [|done]. rewrite app_nil_r.
    split_and!; [done|done|]. exists w. by split.
Qed.

Lemma rx_run_spec base0 evs s :
  rx_inv base0 s -> Forall rx_event_ok evs ->
  rel_packet_id (rx_rel s) + rel_size (rx_rel s) + Z.of_nat (length evs) <= pid_horizon ->
  exists s', rx_run s evs = Ret s' /\ rx_done base0 s'.
Proof.
  revert s. induction evs as [|ev evs IH]; intros s Hs Hok Hhor; cbn [rx_run].
  { eauto using rx_inv_done. }
  apply Forall_cons in Hok as [Hev Hok]. cbn [length] in Hhor.
  assert (exists s', rx_step s ev = Ret s' /\ rx_done base0 s'
    /\ (rx_failed s' = false -> rx_inv base0 s'
         /\ rel_packet_id (rx_rel s') <= rel_packet_id (rx_rel s) + 1
         /\ rel_size (rx_rel s') = rel_size (rx_rel s))) as (s' & -> & Hd & Hi).
  { destruct ev as [op buf|status].
    - destruct (rx_step_packet base0 s op buf Hs Hev) as (s' & E & Hi & _ & H1 & H2).
      exists s'. split_and!; [done|by apply rx_inv_done|]. intros _. split_and!; [done|lia|done].
    - apply rx_step_poll; [done|lia]. }
  cbn [res_bind]. destruct (rx_failed s'); [by eauto|]. destruct (Hi eq_refl) as (Hs' & H1 & H2).
  apply IH; [done|done|lia].
Qed.

(** C30: in-order, exactly-once delivery on the control channel.  Whatever control
    packets arrive, in whatever order and however often repeated, between any
    polls of the queue, the receiver never fails an assertion; the identifiers it
    delivers are consecutive from its initial one; what it has delivered and
    what still waits is exactly what it accepted, payloads included, and no
    identifier is accepted twice.  (Identifiers stay below 2^31.) *)
Theorem control_channel_in_order (r : reliable) (a : reliable_ack) (flags : Z)
    (evs : list rx_event) :
  recv_inv r -> pkts (entries r) = [] -> ack_wf a -> NoDup (ack_ids a) ->
  Forall rx_event_ok evs ->
  rel_packet_id r + rel_size r + Z.of_nat (length evs) <= pid_horizon ->
  exists s, rx_run (mk_rx r a flags false [] []) evs = Ret s
    /\ map pkt_id (rx_delivered s) = seqZ (rel_packet_id r) (Zlen (rx_delivered s))
    /\ NoDup (map pkt_id (rx_stored s))
    /\ exists waiting, rx_delivered s ++ waiting ≡ₚ rx_stored s
        /\ (rx_failed s = false -> waiting = pkts (entries (rx_rel s))).
Proof.
  intros Hr Hempty Ha Hna Hok Hhor.
  apply (rx_run_spec (rel_packet_id r) evs (mk_rx r a flags false [] [])); try done.
  constructor; cbn; [done|done|lia|by rewrite Z.sub_diag|by rewrite Hempty].
Qed.

(** A queue as [key_state_init] makes it. *)
Definition example_rel : reliable :=
  mk_reliable 8 2 0 0 false (replicate 8 (mk_entry false 0 0 0 0 0 (mk_buffer 4 0 0 (Some [0; 0; 0; 0])))
                             ++ replicate 4 entry_zero).
Definition ctl (id : Z) : buffer := mk_buffer 6 0 5 (Some [0; 0; 0; id; 7; 9]).

Lemma ctl_repr id : is_u8 id -> buf_repr (ctl id) 0 [0; 0; 0; id; 7] 1.
Proof.
  intros H. exists [], [9]. unfold is_u8 in H. repeat split; try done;
  repeat constructor; cbn; lia.
Qed.

Lemma example_rel_inv : recv_inv example_rel.
Proof.
  constructor; try done; try (by repeat constructor).
Qed.

Definition example_evs : list rx_event :=
  [Rx 4 (ctl 2); Poll 1; Rx 4 (ctl 0); Rx 4 (ctl 2); Rx 4 (ctl 1); Poll 1; Rx 4 (ctl 0);
   Poll 0; Poll 1; Poll 1].
Definition example_rx : rx := mk_rx example_rel (mk_ack 0 (replicate 8 0)) 0 false [] [].

Lemma control_channel_in_order_witness :
  exists s, rx_run example_rx example_evs = Ret s
    /\ map pkt_id (rx_delivered s) = seqZ 0 (Zlen (rx_delivered s))
    /\ NoDup (map pkt_id (rx_stored s))
    /\ exists waiting, rx_delivered s ++ waiting ≡ₚ rx_stored s
        /\ (rx_failed s = false -> waiting = pkts (entries (rx_rel s))).
Proof.
  apply (control_channel_in_order example_rel (mk_ack 0 (replicate 8 0)) 0 example_evs);
    [exact example_rel_inv|reflexivity| |constructor| |vm_compute; discriminate].
  - split; [reflexivity|unfold RELIABLE_ACK_SIZE; cbn; lia].
  - repeat constructor; cbn; eauto using ctl_repr; eexists _, _, _; apply ctl_repr;
      unfold is_u8; lia.
Defined.

Example example_evs_delivers :
  match rx_run example_rx example_evs with
  | Ret s => rx_delivered s = [(0, 4, [7]); (1, 4, [7]); (2, 4, [7])]
             /\ ack_ids (rx_ack s) = [2; 0; 1] /\ rx_failed s = false
  | _ => False
  end.
Proof. vm_compute. done. Qed.

(** C31: the receive window cannot deadlock.  Either the next packet in sequence
    is stored, and a poll the TLS library accepts moves the window by one (unless
    it is a malformed initial packet); or there is a free slot and the next
    packet, on arrival, passes the window and replay checks. *)
Theorem receive_window_no_deadlock (r : reliable) (flags : Z) :
  recv_inv r -> rel_packet_id r + rel_size r < pid_horizon ->
  (exists i e ok flags' r', reliable_get_entry_sequenced r = Some (i, e)
     /\ deliver_packet r flags 1 = Ret (ok, flags', r')
     /\ (ok = true -> rel_packet_id r' = rel_packet_id r + 1)
     /\ (is_hard_reset_method2 (e_opcode e) = false -> ok = true))
  \/ (reliable_can_get r = true
      /\ reliable_wont_break_sequentiality r (rel_packet_id r) = true
      /\ reliable_not_replay r (rel_packet_id r) = true).
Proof.
  intros Hr Hhor. destruct (reliable_get_entry_sequenced r) as [[i e]|] eqn:E; [left|right].
  - destruct (deliver_spec r flags 1 Hr Hhor) as (ok & f' & r' & H1 & H2 & H3).
    exists i, e, ok, f', r'. split_and!; [done|done| |].
    + intros ->. destruct H3 as [[-> Hn]|(? & _ & _ & _ & ? & _)]; [|done].
      by rewrite (Hn eq_refl) in E.
    + apply (H2 i e E eq_refl).
  - apply entry_sequenced_None in E as Hno.
    pose proof Hr as [Hsz _ _ _ _ [Hb1 Hb2]]. unfold RELIABLE_CAPACITY, pid_horizon in *. split_and!.
    + destruct (reliable_can_get r) eqn:Ec; [done|]. by apply full_has_next in Ec.
    + unfold reliable_wont_break_sequentiality, reliable_pid_in_range2.
      rewrite u32_id by (unfold is_u32; lia). rewrite (proj2 (Z.leb_le _ _)) by lia.
      apply Z.ltb_lt. lia.
    + unfold reliable_not_replay, reliable_pid_min, reliable_pid_in_range1, subtract_pid.
      rewrite Z.sub_diag. cbn [negb]. apply negb_true_iff, not_true_is_false. intros H.
      apply existsb_exists in H as (e & He%list_elem_of_In & [Ha Hid%Z.eqb_eq]%andb_true_iff).
      apply Hno. rewrite <- Hid. apply list_elem_of_In, in_map, list_elem_of_In.
      by apply list_elem_of_filter.
Qed.

Lemma receive_window_no_deadlock_witness :
  (exists i e ok flags' r', reliable_get_entry_sequenced example_rel = Some (i, e)
     /\ deliver_packet example_rel 0 1 = Ret (ok, flags', r')
     /\ (ok = true -> rel_packet_id r' = 0 + 1)
     /\ (is_hard_reset_method2 (e_opcode e) = false -> ok = true))
  \/ (reliable_can_get example_rel = true
      /\ reliable_wont_break_sequentiality example_rel 0 = true
      /\ reliable_not_replay example_rel 0 = true).
Proof. apply (receive_window_no_deadlock example_rel 0 example_rel_inv). reflexivity. Defined.

(** The window check is wrong across the wraparound it announces.  With the
    receiver at identifier 2^31 + 16, whose window is the next eight
    identifiers, identifier 5 (2^31 - 11 steps ahead) passes both the
    sequentiality and the replay check and takes a slot that is only freed
    about two thousand million packets later. *)
Lemma in_range2_accepts_far_ahead :
  let r := set_pid example_rel 0x80000010 in
  reliable_wont_break_sequentiality r 5 = true /\ reliable_not_replay r 5 = true
  /\ reliable_pid_in_range1 5 (rel_packet_id r) (rel_size r) = false
  /\ subtract_pid 5 (rel_packet_id r) = 2 ^ 31 - 11.
Proof. vm_compute. done. Qed.

(** ** The send window *)

Ltac znil := change (Zlen (@nil Z)) with 0.

Definition send_entry_ok (offset : Z) (e : reliable_entry) : Prop :=
  entry_ok offset e /\ 4 <= offset.

(** The unacknowledged identifiers are pairwise distinct and lie in one window
    of [rel_size] identifiers that ends at the next one to be given out. *)
Record send_inv (r : reliable) : Prop := {
  si_size : 0 < rel_size r <= RELIABLE_CAPACITY;
  si_array : Zlen (rel_array r) = RELIABLE_CAPACITY;
  si_entries : Forall (send_entry_ok (rel_offset r)) (entries r);
  si_nodup : NoDup (active_ids (entries r));
  si_range : Forall (fun id => rel_packet_id r - rel_size r <= id < rel_packet_id r
                               /\ 0 <= id) (active_ids (entries r));
  si_base : 0 <= rel_packet_id r < pid_horizon
}.

(** The body of the loop in [write_outgoing_tls_ciphertext] that takes a slot of
    the window, copies [len] bytes of [tmp] into it and marks it for sending; the
    result of the copy is ignored there.  Without a slot its assertion fails. *)
Definition send_enqueue (r : reliable) (tmp : buffer) (len op : Z) : res (buffer * reliable) :=
  let! (i, r) := reliable_get_buf_output_sequenced r in
  match i with
  | None => Fatal
  | Some i =>
      match rel_array r !! i with
      | None => UB
      | Some e =>
          let! (_, b, tmp) := buf_copy_n (e_buf e) tmp len in
          let r := set_array r (<[i := set_buf e b]> (rel_array r)) in
          let! r := reliable_mark_active_outgoing r i op in Ret (tmp, r)
      end
  end.

Lemma pid_min_lt p1 p2 :
  0 <= p1 < pid_horizon -> 0 <= p2 < pid_horizon -> reliable_pid_min p1 p2 = (p1 <? p2).
Proof.
  unfold pid_horizon. intros H1 H2.
  unfold reliable_pid_min, reliable_pid_in_range1, subtract_pid, u32.
  destruct (Z.ltb_spec p1 p2).
  - rewrite <- (Z.mod_unique (p1 - p2) (2 ^ 32) (-1) (p1 - p2 + 2 ^ 32)) by lia.
    rewrite (proj2 (Z.ltb_ge _ _)) by lia. done.
  - rewrite Z.mod_small by lia. rewrite (proj2 (Z.ltb_lt _ _)) by lia. done.
Qed.

Definition in_horizon (id : Z) : Prop := 0 <= id < pid_horizon.

(** The minimum of the active identifiers, as the loops compute it. *)
Lemma min_step_spec m e :
  in_horizon (e_packet_id e) -> e_active e = true -> (forall x, m = Some x -> in_horizon x) ->
  exists x, min_step m e = Some x /\ (x = e_packet_id e \/ m = Some x)
    /\ x <= e_packet_id e /\ (forall y, m = Some y -> x <= y).
Proof.
  intros He Ha Hm. unfold min_step. rewrite Ha. destruct m as [y|]; [|eexists; split_and!; [done|auto|lia|done]].
  rewrite pid_min_lt by (auto; apply Hm; done).
  destruct (Z.ltb_spec (e_packet_id e) y);
    (eexists; split_and!; [done|auto|lia|intros ? [= <-]; lia]).
Qed.

Lemma min_active_fold l m :
  Forall in_horizon (active_ids l) -> (forall x, m = Some x -> in_horizon x) ->
  match fold_left min_step l m with
  | None => active_ids l = [] /\ m = None
  | Some x => (x ∈ active_ids l \/ m = Some x)
              /\ Forall (Z.le x) (active_ids l) /\ (forall y, m = Some y -> x <= y)
  end.
Proof.
  revert m. induction l as [|e l IH]; intros m Hl Hm; cbn [fold_left].
  { destruct m; [|done]. split_and!; [by right|constructor|intros y [= ->]; lia]. }
  rewrite active_ids_cons in *. destruct (e_active e) eqn:Ha; cbn [app] in *.
  - apply Forall_cons in Hl as [He Hl].
    destruct (min_step_spec m e He Ha Hm) as (x & -> & Hx1 & Hx2 & Hx3).
    assert (in_horizon x) by (destruct Hx1 as [-> | ->]; auto).
    specialize (IH (Some x) Hl ltac:(by intros ? [= ->])).
    destruct (fold_left _ _ _) as [z|]; [|naive_solver].
    destruct IH as (H1 & H2 & H3). specialize (H3 x eq_refl). split_and!.
    + destruct H1 as [?|[= ->]]; [left; by right|].
      destruct Hx1 as [-> | ->]; [left; left|by right].
    + constructor; [lia|done].
    + intros y Hy. specialize (Hx3 y Hy). lia.
  - assert (min_step m e = m) as -> by (unfold min_step; by rewrite Ha). by apply IH.
Qed.

Lemma min_active_id_spec r :
  send_inv r ->
  match min_active_id r with
  | None => active_ids (entries r) = []
  | Some m => m ∈ active_ids (entries r) /\ Forall (Z.le m) (active_ids (entries r))
  end.
Proof.
  intros [_ _ _ _ Hrange [_ Hb]].
  assert (Hh : Forall in_horizon (active_ids (entries r))).
  { eapply Forall_impl; [exact Hrange|]. unfold in_horizon. intros ? [? ?]. lia. }
  pose proof (min_active_fold (entries r) None Hh ltac:(done)) as H.
  unfold min_active_id. destruct (fold_left _ _ _); naive_solver.
Qed.

(** How much of the window is in use. *)
Definition window_used (r : reliable) : Z :=
  match min_active_id r with Some m => rel_packet_id r - m | None => 0 end.

Lemma window_used_range r : send_inv r -> 0 <= window_used r <= rel_size r.
Proof.
  intros Hr. pose proof (min_active_id_spec r Hr) as H. unfold window_used.
  destruct Hr as [Hs _ _ _ Hrange _]. destruct (min_active_id r) as [m|]; [|lia].
  destruct H as [Hin _]. rewrite Forall_forall in Hrange. apply Hrange in Hin. lia.
Qed.

Lemma num_available_spec r :
  send_inv r -> reliable_get_num_output_sequenced_available r = rel_size r - window_used r.
Proof.
  intros Hr. pose proof (window_used_range r Hr) as Hw. destruct Hr as [Hs _ _ _ _ Hb].
  unfold reliable_get_num_output_sequenced_available, window_used, RELIABLE_CAPACITY, pid_horizon in *.
  destruct (min_active_id r) as [m|]; [|lia].
  unfold subtract_pid. rewrite (u32_id (_ - m)) by (unfold is_u32; lia).
  rewrite u32_id by (unfold is_u32; lia). apply s32_id. unfold is_int, INT_MIN, INT_MAX. lia.
Qed.

(** An open window has a free slot. *)
Lemma window_open_can_get r :
  send_inv r -> window_used r < rel_size r -> reliable_can_get r = true.
Proof.
  intros Hr Hw. pose proof (min_active_id_spec r Hr) as Hm. unfold window_used in Hw.
  destruct Hr as [Hs Ha _ Hnd Hrange _].
  destruct (reliable_can_get r) eqn:E; [done|exfalso].
  assert (Hlen : Zlen (active_ids (entries r)) = rel_size r).
  { assert (Zlen (entries r) = rel_size r) as <-.
    { unfold entries, Zlen, RELIABLE_CAPACITY in *. rewrite length_take. lia. }
    unfold reliable_can_get in E. unfold active_ids, Zlen. rewrite length_map. f_equal.
    clear -E. induction (entries r) as [|e l IH]; [done|]. cbn [existsb] in E.
    apply orb_false_iff in E as [E1%negb_false_iff E2].
    rewrite filter_cons, decide_True by done. cbn. by rewrite IH. }
  destruct (min_active_id r) as [m|].
  - destruct Hm as [_ Hmin].
    assert (Hsub : active_ids (entries r) ⊆+ seqZ m (rel_packet_id r - m)).
    { apply NoDup_submseteq; [done|]. intros x Hx. rewrite Forall_forall in Hrange, Hmin.
      apply elem_of_seqZ. specialize (Hrange x Hx). specialize (Hmin x Hx). lia. }
    apply submseteq_length in Hsub. rewrite length_seqZ in Hsub. unfold Zlen in Hlen. lia.
  - rewrite Hm in Hlen. change (Zlen (@nil Z)) with 0 in Hlen. lia.
Qed.

Definition own_pkt (e : reliable_entry) : list pkt := if e_active e then [pkt_of e] else [].

(** Updating one slot: what changes of the stored packets. *)
Lemma slot_update r i e e' (P : reliable_entry -> Prop) :
  entries r !! i = Some e -> Forall P (entries r) -> P e' ->
  let r' := set_array r (<[i := e']> (rel_array r)) in
  entries r' !! i = Some e' /\ Forall P (entries r') /\ Zlen (rel_array r') = Zlen (rel_array r)
  /\ exists rest, pkts (entries r) ≡ₚ own_pkt e ++ rest /\ pkts (entries r') ≡ₚ own_pkt e' ++ rest.
Proof.
  intros Hi HP He' r'. pose proof (lookup_lt_Some _ _ _ Hi) as Hlt.
  assert (Hsz : (i < Z.to_nat (rel_size r))%nat).
  { unfold entries in Hlt. rewrite length_take in Hlt. lia. }
  assert (He : entries r' = <[i := e']> (entries r)) by (by apply entries_insert).
  split_and!.
  - rewrite He. by apply list_lookup_insert_eq.
  - rewrite He. by apply Forall_insert.
  - unfold r', Zlen. cbn. by rewrite length_insert.
  - destruct (split_lookup _ _ _ Hi) as (l1 & l2 & Hl & _ & Hins).
    exists (pkts (l1 ++ l2)). rewrite He, Hins, Hl, !pkts_mid. done.
Qed.

Lemma send_inv_update r i e e' :
  send_inv r -> entries r !! i = Some e -> e_active e = false ->
  entry_ok (rel_offset r) e' -> e_active e' = false ->
  let r' := set_array r (<[i := e']> (rel_array r)) in
  send_inv r' /\ entries r' !! i = Some e' /\ pkts (entries r') ≡ₚ pkts (entries r).
Proof.
  intros Hr Hi Ha Hok Ha'. pose proof Hr as [H1 H2 H3 H4 H5 H6].
  destruct (slot_update r i e e' _ Hi H3) as (K1 & K2 & K3 & rest & K4 & K5).
  { split; [done|]. by destruct (Forall_lookup_1 _ _ _ _ H3 Hi). }
  unfold own_pkt in *. rewrite Ha in K4. rewrite Ha' in K5. cbn [app] in *.
  assert (Hp : pkts (entries (set_array r (<[i:=e']> (rel_array r)))) ≡ₚ pkts (entries r))
    by (by rewrite K4, K5).
  split_and!; [|done|done]. pose proof (active_ids_perm _ _ Hp) as Hq.
  constructor; cbn [rel_size rel_packet_id set_array]; rewrite ?Hq; try done. by rewrite K3.
Qed.

(** There is room for one more identifier. *)
Definition window_open (r : reliable) : Prop :=
  Forall (fun id => rel_packet_id r - rel_size r < id) (active_ids (entries r)).

Lemma window_used_open r : send_inv r -> window_used r < rel_size r -> window_open r.
Proof.
  intros Hr Hw. pose proof (min_active_id_spec r Hr) as Hmin. unfold window_used, window_open in *.
  destruct (min_active_id r) as [m|]; [|by rewrite Hmin].
  destruct Hmin as [_ Hmin]. eapply Forall_impl; [exact Hmin|]. cbn. lia.
Qed.

Lemma send_inv_activate r i e e' :
  send_inv r -> entries r !! i = Some e -> e_active e = false ->
  entry_ok (rel_offset r) e' -> e_active e' = true -> e_packet_id e' = rel_packet_id r ->
  window_open r -> rel_packet_id r + 1 < pid_horizon ->
  let r' := set_array (set_pid r (rel_packet_id r + 1)) (<[i := e']> (rel_array r)) in
  send_inv r' /\ pkts (entries r') ≡ₚ pkt_of e' :: pkts (entries r).
Proof.
  intros Hr Hi Ha Hok Ha' Hid Hw Hhor. pose proof Hr as [H1 H2 H3 H4 H5 H6].
  destruct (slot_update r i e e' _ Hi H3) as (K1 & K2 & K3 & rest & K4 & K5).
  { split; [done|]. by destruct (Forall_lookup_1 _ _ _ _ H3 Hi). }
  unfold own_pkt in *. rewrite Ha in K4. rewrite Ha' in K5. cbn [app] in *.
  set (r' := set_array (set_pid r (rel_packet_id r + 1)) (<[i := e']> (rel_array r))).
  change (entries (set_array r (<[i:=e']> (rel_array r)))) with (entries r') in *.
  assert (Hp : pkts (entries r') ≡ₚ pkt_of e' :: pkts (entries r)) by (by rewrite K4, K5).
  assert (Hq : active_ids (entries r') ≡ₚ rel_packet_id r :: active_ids (entries r)).
  { rewrite !active_ids_pkts, Hp. cbn. unfold pkt_id at 1. cbn. by rewrite Hid. }
  split; [|done].
  constructor; rewrite ?Hq; cbn [rel_size rel_packet_id set_array set_pid r']; try done.
  - by rewrite <- H2.
  - constructor; [|done]. intros Hin. rewrite Forall_forall in H5. apply H5 in Hin. lia.
  - constructor; [lia|]. unfold window_open in Hw. rewrite Forall_forall in *. intros x Hx.
    specialize (H5 x Hx). specialize (Hw x Hx). lia.
  - lia.
Qed.

(** [reliable_get_buf_output_sequenced] decides by the room in the window. *)
Lemma output_sequenced_window r :
  send_inv r ->
  (match min_active_id r with
   | Some min_id => reliable_pid_in_range1 (rel_packet_id r) min_id (rel_size r)
   | None => true
   end) = (window_used r <? rel_size r).
Proof.
  intros Hr. pose proof (window_used_range r Hr) as Hw. destruct Hr as [Hs _ _ _ _ Hb].
  unfold window_used, RELIABLE_CAPACITY, pid_horizon in *.
  destruct (min_active_id r) as [m|].
  - unfold reliable_pid_in_range1, subtract_pid. by rewrite u32_id by (unfold is_u32; lia).
  - symmetry. apply Z.ltb_lt. lia.
Qed.

(** Queueing the next [len] bytes of [tmp] when the window is open. *)
Lemma send_enqueue_spec r tmp h c t len op :
  send_inv r -> buf_repr tmp h c t -> 0 <= len <= Zlen c ->
  rel_packet_id r + 1 < pid_horizon -> window_used r < rel_size r ->
  Forall (fun e => rel_offset r + len <= b_capacity (e_buf e)) (entries r) ->
  exists tmp' r', send_enqueue r tmp len op = Ret (tmp', r')
    /\ buf_repr tmp' (h + len) (drop (Z.to_nat len) c) t
    /\ send_inv r' /\ rel_size r' = rel_size r /\ rel_packet_id r' = rel_packet_id r + 1
    /\ rel_offset r' = rel_offset r
    /\ map (fun e => b_capacity (e_buf e)) (entries r')
       = map (fun e => b_capacity (e_buf e)) (entries r)
    /\ pkts (entries r')
       ≡ₚ (rel_packet_id r, op, be_bytes 4 (rel_packet_id r) ++ take (Z.to_nat len) c)
          :: pkts (entries r).
Proof.
  intros Hr Htmp Hlen Hhor Hw Hfit. pose proof (window_used_range r Hr) as Hwr.
  unfold send_enqueue, reliable_get_buf_output_sequenced. rewrite (output_sequenced_window r Hr).
  rewrite (proj2 (Z.ltb_lt _ _) Hw).
  destruct (can_get_find r (window_open_can_get r Hr Hw)) as (i & e & Hf & Hi & Ha).
  destruct (Forall_lookup_1 _ _ _ _ (si_entries r Hr) Hi) as [(Hwf & Hd & Ho) Hoff].
  pose proof (Forall_lookup_1 _ _ _ _ Hfit Hi) as Hcap. cbn in Hcap.
  unfold reliable_get_buf. rewrite Hf.
  destruct (buf_init_repr (e_buf e) _ Hwf Hd Ho) as (b0 & Hinit & Hb0). rewrite Hinit.
  cbn [res_bind].
  assert (Hbok : forall b h0 c0 t0 e', buf_repr b h0 c0 t0 ->
            h0 + Zlen c0 + t0 = b_capacity (e_buf e) -> e_buf e' = b ->
            entry_ok (rel_offset r) e' /\ b_capacity (e_buf e') = b_capacity (e_buf e)).
  { intros b h0 c0 t0 e' Hb Hc <-. pose proof (buf_repr_wf _ _ _ _ Hb). buf_facts Hb.
    unfold entry_ok. split_and!; try done; lia. }
  destruct (send_inv_update r i e (set_buf e b0) Hr Hi Ha) as (Hr1 & Hi1 & Hp1);
    [eapply Hbok; [exact Hb0|znil; lia|done]|done|].
  set (r1 := set_array r (<[i:=set_buf e b0]> (rel_array r))) in *.
  assert (rel_array r1 !! i = Some (set_buf e b0)) as ->.
  { unfold entries in Hi1. by apply lookup_take_Some in Hi1 as [? _]. }
  cbn [e_buf set_buf]. rewrite buf_copy_n_read.
  destruct (buf_read_repr _ _ _ _ Htmp len Hlen) as (tmp' & -> & Htmp'). cbn [res_bind].
  set (payload := take (Z.to_nat len) c) in *.
  assert (Hpl : Zlen payload = len) by (unfold payload, Zlen in *; rewrite length_take; lia).
  destruct (buf_write_repr _ _ _ _ Hb0 payload) as (b1 & -> & Hb1); [|lia|].
  { apply Forall_take. apply (buf_repr_fields _ _ _ _ Htmp). }
  cbn [res_bind app] in *.
  destruct (send_inv_update r1 i _ (set_buf (set_buf e b0) b1) Hr1 Hi1 Ha) as (Hr2 & Hi2 & Hp2);
    [eapply Hbok; [exact Hb1|lia|done]|done|].
  set (r2 := set_array r1 _) in *. unfold reliable_mark_active_outgoing. rewrite Hi2.
  cbn [e_buf set_buf].
  destruct (buf_write_prepend_repr _ _ _ _ Hb1 (be_bytes 4 (rel_packet_id r2)))
    as (b2 & -> & Hb2); [apply be_bytes_ok|rewrite Zlen_be_bytes; lia|]. cbn [res_bind].
  assert (Hu : u32 (rel_packet_id r2 + 1) = rel_packet_id r2 + 1).
  { apply u32_id. destruct Hr as [_ _ _ _ _ Hb]. unfold pid_horizon, is_u32 in *. cbn. lia. }
  rewrite Hu.
  assert (Hp : pkts (entries r2) ≡ₚ pkts (entries r)) by (by rewrite Hp2, Hp1).
  assert (He3 : entry_ok (rel_offset r) (mk_entry true (initial_timeout r) 0 (rel_packet_id r2)
             (e_n_acks e) op b2) /\ b_capacity b2 = b_capacity (e_buf e)).
  { eapply (Hbok _ _ _ _ (mk_entry true (initial_timeout r) 0 (rel_packet_id r2) (e_n_acks e) op b2));
      [exact Hb2| |done]. rewrite !Zlen_app, Zlen_be_bytes. lia. }
  destruct (send_inv_activate r2 i _ (mk_entry true (initial_timeout r) 0 (rel_packet_id r2)
             (e_n_acks e) op b2) Hr2 Hi2 Ha) as [Hr3 Hp3]; try done; [apply He3| |].
  { unfold window_open. rewrite (active_ids_perm _ _ Hp). exact (window_used_open r Hr Hw). }
  eexists tmp', _. split; [reflexivity|]. split; [done|]. split_and!; [exact Hr3|done|done|done| |].
  - destruct He3 as [_ He3]. unfold entries. cbn.
    rewrite !list_insert_insert_eq. unfold entries in Hi.
    apply lookup_take_Some in Hi as [Hi Hlt]. rewrite take_insert_lt by done.
    change (map ?f ?l) with (f <$> l). rewrite list_fmap_insert. cbn. rewrite He3.
    apply list_insert_id. rewrite list_lookup_fmap, lookup_take_lt, Hi by done. done.
  - etransitivity; [exact Hp3|]. rewrite Hp. unfold pkt_of. cbn.
    by rewrite (buf_repr_contents _ _ _ _ Hb2).
Qed.

(** The send window.  A slot is handed out exactly when fewer than [rel_size]
    identifiers separate the next identifier from the oldest unacknowledged one,
    which is what [reliable_get_num_output_sequenced_available] reports.  The
    packet put into it gets the next identifier, prepended to its payload; the
    unacknowledged identifiers stay distinct and within one window, and no
    assertion fails. *)
Lemma send_window_exact (r : reliable) (tmp : buffer) (c : bytes) (h t op : Z) :
  send_inv r -> buf_repr tmp h c t -> rel_packet_id r + 1 < pid_horizon ->
  Forall (fun e => rel_offset r + Zlen c <= b_capacity (e_buf e)) (entries r) ->
  if reliable_get_num_output_sequenced_available r =? 0
  then reliable_get_buf_output_sequenced r = Ret (None, r)
  else exists tmp' r', send_enqueue r tmp (Zlen c) op = Ret (tmp', r') /\ send_inv r'
       /\ contents tmp' = [] /\ rel_packet_id r' = rel_packet_id r + 1
       /\ pkts (entries r')
          ≡ₚ (rel_packet_id r, op, be_bytes 4 (rel_packet_id r) ++ c) :: pkts (entries r).
Proof.
  intros Hr Htmp Hhor Hfit. rewrite num_available_spec by done.
  pose proof (window_used_range r Hr). destruct (Z.eqb_spec (rel_size r - window_used r) 0).
  - unfold reliable_get_buf_output_sequenced. rewrite (output_sequenced_window r Hr).
    by rewrite (proj2 (Z.ltb_ge _ _)) by lia.
  - pose proof (Zlen_nonneg c).
    destruct (send_enqueue_spec r tmp h c t (Zlen c) op) as (tmp' & r' & E & Ht & Hr' & _ & Hid & _ & _ & Hp);
      try done; try lia.
    exists tmp', r'. rewrite to_nat_Zlen, take_ge in Hp by done. split_and!; try done.
    rewrite (buf_repr_contents _ _ _ _ Ht). apply drop_ge. rewrite to_nat_Zlen. done.
Qed.

Definition example_send : reliable :=
  mk_reliable 2 2 7 4 false
    (mk_entry true 2 0 6 0 4 (mk_buffer 8 4 0 (Some (replicate 8 0)))
     :: mk_entry false 0 0 0 0 0 (mk_buffer 8 0 0 (Some (replicate 8 0)))
     :: replicate 10 entry_zero).

Lemma example_send_inv : send_inv example_send.
Proof.
  constructor; try done.
  - repeat constructor; cbn; try lia; try done.
  - by repeat constructor; set_solver.
  - by repeat constructor.
Qed.

Definition example_tmp : buffer := mk_buffer 4 0 3 (Some [1; 2; 3; 0]).
Lemma example_tmp_repr : buf_repr example_tmp 0 [1; 2; 3] 1.
Proof. exists [], [0]. repeat split; try done; repeat constructor; cbn; lia. Qed.

(** *** Acknowledgments *)

(** Entries with a larger identifier acknowledged count towards a fast resend. *)
Definition later_acks (id : Z) (acks : list Z) : Z :=
  Zlen (filter (fun a => id < a) acks).

Definition purged (acks : list Z) (e : reliable_entry) : reliable_entry :=
  fold_left (fun e a => purge_entry a e) acks e.

Lemma entries_app_drop (r : reliable) f :
  Zlen (rel_array r) = RELIABLE_CAPACITY -> 0 < rel_size r <= RELIABLE_CAPACITY ->
  entries (set_array r (map f (entries r) ++ drop (Z.to_nat (rel_size r)) (rel_array r)))
  = map f (entries r).
Proof.
  intros H1 H2. unfold entries at 1. cbn. rewrite take_app_length'; [done|].
  unfold entries, Zlen, RELIABLE_CAPACITY in *. rewrite length_map, length_take. lia.
Qed.

Lemma send_purge_entries acks r :
  Zlen (rel_array r) = RELIABLE_CAPACITY -> 0 < rel_size r <= RELIABLE_CAPACITY ->
  let r' := fold_left purge_pid acks r in
  entries r' = map (purged acks) (entries r) /\ Zlen (rel_array r') = RELIABLE_CAPACITY
  /\ rel_size r' = rel_size r /\ rel_packet_id r' = rel_packet_id r /\ rel_offset r' = rel_offset r.
Proof.
  revert r. induction acks as [|a acks IH]; intros r H1 H2; cbn [fold_left].
  { split_and!; try done. change (purged []) with (fun e : reliable_entry => e). by rewrite map_id. }
  destruct (IH (purge_pid r a)) as (E & K1 & K2 & K3 & K4).
  - unfold purge_pid, entries, Zlen, RELIABLE_CAPACITY in *. cbn.
    rewrite length_app, length_map, length_take, length_drop. lia.
  - done.
  - split_and!; try done. rewrite E. unfold purge_pid at 1. rewrite entries_app_drop by done.
    by rewrite map_map.
Qed.

(** The fields an acknowledgment leaves alone. *)
Definition same_packet (e e' : reliable_entry) : Prop :=
  e_packet_id e' = e_packet_id e /\ e_buf e' = e_buf e /\ e_opcode e' = e_opcode e
  /\ e_next_try e' = e_next_try e /\ e_timeout e' = e_timeout e.

Lemma purge_entry_spec a e :
  let e' := purge_entry a e in
  same_packet e e' /\ e_active e' = e_active e && negb (e_packet_id e =? a)
  /\ (e_active e' = true ->
      e_n_acks e' = if e_packet_id e <? a then u64 (e_n_acks e + 1) else e_n_acks e).
Proof.
  unfold purge_entry, same_packet. destruct (e_active e) eqn:Ea; cbn [andb]; [|by rewrite Ea].
  destruct (e_packet_id e =? a); cbn; [done|].
  destruct (e_packet_id e <? a); cbn; rewrite ?Ea; done.
Qed.

Lemma purged_spec acks e :
  let e' := purged acks e in
  same_packet e e' /\ e_active e' = e_active e && negb (bool_decide (e_packet_id e ∈ acks))
  /\ (e_active e' = true -> is_u64 (e_n_acks e) ->
      e_n_acks e' = u64 (e_n_acks e + later_acks (e_packet_id e) acks)).
Proof.
  revert e. induction acks as [|a acks IH]; intros e; cbn [purged fold_left].
  { split_and!; try done; [by rewrite andb_true_r|].
    intros _ Hu. unfold later_acks. cbn. rewrite Z.add_0_r. by rewrite u64_id. }
  fold (purged acks (purge_entry a e)).
  destruct (purge_entry_spec a e) as (K1 & K2 & K3). set (e1 := purge_entry a e) in *.
  destruct (IH e1) as (I1 & I2 & I3). unfold same_packet in *. clearbody e1. clear IH.
  destruct K1 as (Hid & ? & ? & ? & ?). destruct I1 as (? & ? & ? & ? & ?).
  rewrite Hid in *. split_and!; try congruence.
  - rewrite I2, K2, <- andb_assoc. f_equal. rewrite <- negb_orb. f_equal.
    destruct (Z.eqb_spec (e_packet_id e) a) as [Heq|Hne]; cbn [orb].
    + rewrite bool_decide_true; [done|]. rewrite Heq. left.
    + apply bool_decide_ext. set_solver.
  - intros Ha Hu. rewrite I2 in Ha. apply andb_true_iff in Ha as [Ha1 Ha2].
    specialize (K3 Ha1). rewrite I3; [|by rewrite I2, Ha1|].
    + rewrite K3. unfold later_acks. rewrite filter_cons.
      destruct (Z.ltb_spec (e_packet_id e) a).
      * rewrite decide_True by done. rewrite Zlen_cons. unfold u64. rewrite Zplus_mod_idemp_l.
        f_equal. lia.
      * by rewrite decide_False by lia.
    + rewrite K3. destruct (_ <? _); [apply u64_range|done].
Qed.

Lemma pkts_purged acks l :
  pkts (map (purged acks) l) = filter (fun p => pkt_id p ∉ acks) (pkts l).
Proof.
  unfold pkts. induction l as [|e l IH]; [done|]. cbn [map].
  destruct (purged_spec acks e) as ((Hid & Hb & Hop & _) & Hact & _).
  rewrite !filter_cons. destruct (e_active e) eqn:Ea; cbn [andb] in Hact.
  - cbn [map]. rewrite (decide_True _ _ eq_refl). cbn [map]. rewrite filter_cons. unfold pkt_id at 1, pkt_of at 1. cbn [fst].
    destruct (decide (e_packet_id e ∈ acks)).
    + rewrite bool_decide_true in Hact by done. rewrite Hact.
      rewrite decide_False by done. rewrite decide_False by auto. done.
    + rewrite bool_decide_false in Hact by done. rewrite Hact. rewrite decide_True by done.
      rewrite decide_True by auto. cbn [map]. f_equal; [|done].
      unfold pkt_of. congruence.
  - rewrite Hact, !decide_False by done. done.
Qed.

Lemma map_filter_sublist {A B} (f : A -> B) (P : A -> Prop) `{forall x, Decision (P x)} l :
  map f (filter P l) `sublist_of` map f l.
Proof.
  induction l as [|x l IH]; [done|]. rewrite filter_cons. case_decide; cbn; by constructor.
Qed.

(** An acknowledgment record frees exactly the packets it names.  The packets
    that stay keep their payload and timers, the send window stays well formed,
    and each of them has its early-resend counter raised by the number of
    acknowledged identifiers above its own. *)
Lemma send_purge_exact (r : reliable) (a : reliable_ack) :
  send_inv r ->
  let r' := reliable_send_purge r a in
  send_inv r'
  /\ pkts (entries r') = filter (fun p => pkt_id p ∉ ack_ids a) (pkts (entries r))
  /\ Forall2 (fun e e' => same_packet e e' /\
       (e_active e' = true -> is_u64 (e_n_acks e) ->
        e_n_acks e' = u64 (e_n_acks e + later_acks (e_packet_id e) (ack_ids a))))
      (entries r) (entries r').
Proof.
  intros Hr. pose proof Hr as [H1 H2 H3 H4 H5 H6].
  destruct (send_purge_entries (ack_ids a) r H2 H1) as (E & K1 & K2 & K3 & K4).
  fold (reliable_send_purge r a) in *. cbn zeta. set (r' := reliable_send_purge r a) in *.
  assert (Hp : pkts (entries r') = filter (fun p => pkt_id p ∉ ack_ids a) (pkts (entries r))).
  { by rewrite E, pkts_purged. }
  assert (Hsub : active_ids (entries r') `sublist_of` active_ids (entries r)).
  { rewrite !active_ids_pkts, Hp. apply map_filter_sublist. }
  split; [|split; [done|]].
  - constructor; rewrite ?K1, ?K2, ?K3, ?K4; try done.
    + rewrite E. clear -H3. induction H3 as [|e l He Hl IH]; cbn [map]; constructor; [|done].
      destruct (purged_spec (ack_ids a) e) as ((_ & Hb & _) & _). destruct He as [He ?].
      split; [|done]. unfold entry_ok in *. by rewrite Hb.
    + by eapply sublist_NoDup.
    + rewrite Forall_forall in *. intros x Hx. apply H5. by eapply elem_of_sublist.
  - rewrite E. clear. induction (entries r) as [|e l IH]; cbn [map]; constructor; [|done].
    destruct (purged_spec (ack_ids a) e) as (? & _ & ?). by split.
Qed.

Definition example_acks : reliable_ack := mk_ack 2 [6; 7; 0; 0; 0; 0; 0; 0].

(** *** Retransmission *)

Lemma best_entry_spec now l k best :
  Forall in_horizon (active_ids l) ->
  (forall i b, best = Some (i, b) -> in_horizon (e_packet_id b)) ->
  match best_entry now l k best with
  | None => best = None /\ Forall (fun e => entry_due now e = false) l
  | Some (i, e) =>
      ((exists j, i = (k + j)%nat /\ l !! j = Some e /\ entry_due now e = true)
       \/ best = Some (i, e))
      /\ Forall (fun x => entry_due now x = true -> e_packet_id e <= e_packet_id x) l
      /\ (forall i' b, best = Some (i', b) -> e_packet_id e <= e_packet_id b)
  end.
Proof.
  revert k best. induction l as [|x l IH]; intros k best Hl Hb; cbn [best_entry].
  { destruct best as [[i e]|]; [|done]. split_and!; [by right|constructor|intros ? ? [= _ <-]; lia]. }
  rewrite active_ids_cons in Hl. apply Forall_app in Hl as [Hx Hl].
  destruct (entry_due now x) eqn:Hd.
  - assert (Hxh : in_horizon (e_packet_id x)).
    { unfold entry_due in Hd. apply andb_true_iff in Hd as [Ha _]. rewrite Ha in Hx.
      by apply Forall_cons in Hx as [? _]. }
    set (best' := match best with None => Some (k, x) | Some _ => _ end).
    assert (Hbest' : exists i b, best' = Some (i, b) /\ in_horizon (e_packet_id b)
              /\ (b = x /\ i = k \/ best = Some (i, b))
              /\ e_packet_id b <= e_packet_id x
              /\ forall i' b', best = Some (i', b') -> e_packet_id b <= e_packet_id b').
    { unfold best'. destruct best as [[i b]|].
      - rewrite pid_min_lt by (auto; by eapply Hb).
        destruct (Z.ltb_spec (e_packet_id x) (e_packet_id b)).
        + eexists _, _. split_and!; [done|done|by left|lia|intros ? ? [= _ <-]; lia].
        + eexists _, _. split_and!; [done|by eapply Hb|by right|lia|intros ? ? [= _ <-]; lia].
      - eexists _, _. split_and!; [done|done|by left|lia|done]. }
    destruct Hbest' as (i & b & -> & Hbh & Hor & Hle & Hmin).
    specialize (IH (S k) (Some (i, b)) Hl ltac:(intros ? ? Heq; by injection Heq as _ <-)).
    destruct (best_entry _ _ _ _) as [[i' e]|]; [|naive_solver].
    destruct IH as (I1 & I2 & I3). specialize (I3 i b eq_refl). split_and!.
    + destruct I1 as [(j & -> & Hj & Hdj)|[= -> ->]].
      * left. exists (S j). split_and!; [lia|done|done].
      * destruct Hor as [[-> ->]| -> ]; [left; exists 0%nat; split_and!; [lia|done|done]|by right].
    + constructor; [lia|done].
    + intros i'' b' Heq. specialize (Hmin _ _ Heq). lia.
  - specialize (IH (S k) best Hl Hb). destruct (best_entry _ _ _ _) as [[i e]|].
    + destruct IH as (I1 & I2 & I3). split_and!; [|constructor; [congruence|done]|done].
      destruct I1 as [(j & -> & Hj & Hdj)|?]; [left; exists (S j); split_and!; [lia|done|done]|by right].
    + destruct IH as [-> ?]. split; [done|by constructor].
Qed.

(** Retransmission.  A sender that is not on hold has something to send
    exactly when some unacknowledged packet is due (its timer ran out or three
    later packets were acknowledged).  [reliable_send] then picks the due packet
    with the smallest identifier, doubles its timeout, schedules its next try one
    old timeout ahead and so makes it not due; no packet is lost. *)
Lemma reliable_send_oldest_due (now : Z) (r : reliable) :
  send_inv r -> rel_hold r = false ->
  Forall (fun e => e_active e = true -> 0 < e_timeout e < 2 ^ 30) (entries r) ->
  if reliable_can_send now r
  then exists i e e' r', reliable_send now r = Ret (Some (i, e_opcode e), r')
       /\ entries r !! i = Some e /\ entry_due now e = true
       /\ Forall (fun x => entry_due now x = true -> e_packet_id e <= e_packet_id x) (entries r)
       /\ entries r' = <[i := e']> (entries r) /\ pkt_of e' = pkt_of e
       /\ e_timeout e' = 2 * e_timeout e /\ e_next_try e' = now + e_timeout e
       /\ entry_due now e' = false
  else reliable_send now r = Ret (None, r).
Proof.
  intros Hr Hh Ht. pose proof Hr as [H1 H2 H3 H4 H5 H6].
  assert (Hhor : Forall in_horizon (active_ids (entries r))).
  { eapply Forall_impl; [exact H5|]. unfold in_horizon. intros ? [? ?]. lia. }
  pose proof (best_entry_spec now (entries r) 0 None Hhor ltac:(done)) as Hbest.
  unfold reliable_can_send, reliable_send. rewrite Hh, andb_true_r.
  destruct (best_entry now (entries r) 0 None) as [[i e]|].
  - destruct Hbest as ([(j & -> & Hj & Hd)|?] & Hmin & _); [|done]. change (0 + j)%nat with j.
    rewrite (proj2 (Z.ltb_lt _ _)).
    2:{ assert (e ∈ filter (fun x => entry_due now x = true) (entries r)) as Hin.
        { apply list_elem_of_filter. split; [done|by eapply list_elem_of_lookup_2]. }
        destruct (filter _ _); [set_solver|cbn; lia]. }
    pose proof Hd as Ha. unfold entry_due in Ha. apply andb_true_iff in Ha as [Ha _].
    pose proof (Forall_lookup_1 _ _ _ _ Ht Hj Ha) as Hto. unfold INT_MAX.
    rewrite (proj2 (Z.ltb_ge _ _)) by lia.
    eexists j, e, (mk_entry (e_active e) (e_timeout e * 2) (now + e_timeout e) (e_packet_id e) 0
                     (e_opcode e) (e_buf e)), _.
    split; [reflexivity|]. split_and!; try done.
    + apply entries_insert. pose proof (lookup_lt_Some _ _ _ Hj) as Hlt.
      unfold entries in Hlt. rewrite length_take in Hlt. lia.
    + cbn. lia.
    + unfold entry_due. cbn. rewrite Ha. cbn. apply Z.leb_gt. lia.
  - destruct Hbest as [_ Hnone].
    assert (filter (fun x => entry_due now x = true) (entries r) = []) as ->; [|done].
    clear -Hnone. induction Hnone as [|x l Hx _ IH]; [done|].
    rewrite filter_cons, decide_False by congruence. done.
Qed.

(** What the loop over the timers returns, from an initial bound. *)
Definition wakeup_spec (now : Z) (l : list reliable_entry) (bound t : Z) : Prop :=
  0 <= t <= bound
  /\ (t = 0 <-> exists e, e ∈ l /\ e_active e = true /\ e_next_try e <= now)
  /\ (forall e, e ∈ l -> e_active e = true -> t = 0 \/ now + t <= e_next_try e)
  /\ (0 < t < bound -> exists e, e ∈ l /\ e_active e = true /\ e_next_try e = now + t).

Lemma wakeup_cons_skip now e l bound t :
  e_active e = false -> wakeup_spec now l bound t -> wakeup_spec now (e :: l) bound t.
Proof.
  intros Ea (I1 & I2 & I3 & I4). split_and!; [lia|lia| | |].
  - rewrite I2. split; intros (x & Hx & Hxa & Hxt); exists x; [split_and!; [by right|done|done]|].
    split_and!; [|done|done]. apply elem_of_cons in Hx as [->|Hx]; [congruence|done].
  - intros x [->|Hx]%elem_of_cons Hxa; [congruence|auto].
  - intros Ht. destruct (I4 Ht) as (x & ? & ? & ?). exists x. split_and!; [by right|done|done].
Qed.

Lemma wakeup_cons_wait now e l bound t :
  e_active e = true -> now < e_next_try e -> 0 < bound ->
  wakeup_spec now l (Z.min bound (e_next_try e - now)) t -> wakeup_spec now (e :: l) bound t.
Proof.
  intros Ea He Hb (I1 & I2 & I3 & I4). split_and!; [lia|lia| | |].
  - rewrite I2. split; intros (x & Hx & Hxa & Hxt); exists x; [split_and!; [by right|done|done]|].
    split_and!; [|done|done]. apply elem_of_cons in Hx as [->|Hx]; [lia|done].
  - intros x [->|Hx]%elem_of_cons Hxa; [right; lia|auto].
  - intros Ht. destruct (decide (t = Z.min bound (e_next_try e - now))) as [Hmm|Hne].
    + exists e. split_and!; [left|done|lia].
    + destruct I4 as (x & ? & ? & ?); [lia|]. exists x. split_and!; [by right|done|done].
Qed.

Lemma send_timeout_loop_spec now l bound :
  Forall (fun e => e_active e = true -> e_next_try e - now <= INT_MAX) l -> 0 < bound ->
  wakeup_spec now l bound (send_timeout_loop now l bound).
Proof.
  revert bound. induction l as [|e l IH]; intros bound Hl Hb; cbn [send_timeout_loop].
  { split_and!; [lia|lia| |intros e []%not_elem_of_nil|lia].
    split; [lia|]. by intros (e & []%not_elem_of_nil & _). }
  apply Forall_cons in Hl as [He Hl]. destruct (e_active e) eqn:Ea.
  - destruct (Z.leb_spec (e_next_try e) now).
    + split_and!; [lia|lia| |auto|lia]. split; [|done]. exists e. split_and!; [left|done|done].
    + rewrite s32_id by (unfold is_int, INT_MIN, INT_MAX in *; specialize (He eq_refl); lia).
      replace (min_int bound (e_next_try e - now)) with (Z.min bound (e_next_try e - now))
        by (unfold min_int; case_match eqn:E; rewrite ?Z.ltb_lt, ?Z.ltb_ge in E; lia).
      apply wakeup_cons_wait; [done|done|done|]. apply IH; [done|lia].
  - apply wakeup_cons_skip; [done|]. by apply IH.
Qed.

(** The wake-up time.  [reliable_send_timeout] is 0 exactly when the timer of
    an unacknowledged packet has run out; otherwise no timer runs out before the
    time it returns, and, below one week, one does at that time. *)
Lemma reliable_send_timeout_exact (now : Z) (r : reliable) :
  Forall (fun e => e_active e = true -> e_next_try e - now <= INT_MAX) (entries r) ->
  let t := reliable_send_timeout now r in
  0 <= t <= BIG_TIMEOUT
  /\ (t = 0 <-> exists e, e ∈ entries r /\ e_active e = true /\ e_next_try e <= now)
  /\ (forall e, e ∈ entries r -> e_active e = true -> t = 0 \/ now + t <= e_next_try e)
  /\ (0 < t < BIG_TIMEOUT -> exists e, e ∈ entries r /\ e_active e = true /\ e_next_try e = now + t).
Proof. intros H. by apply send_timeout_loop_spec. Qed.

