(* ===== verification/TlsSend.v ===== *)
(** * Splitting TLS ciphertext into control packets (ssl.c)

    [write_outgoing_tls_ciphertext] asks the TLS library for as much ciphertext as
    the send window can take, cuts it into packets and queues them in the
    reliability layer.  The TLS library is an argument: given the room in the
    buffer it answers a status and the bytes it wrote. *)

From S2P Require Import Prelude CircList Buffer PacketId Reliable.

Definition TLS_CHANNEL_BUF_SIZE : Z := 2048.
Definition CONTROL_SEND_ACK_MAX : Z := 4.
Definition P_CONTROL_V1 : Z := 4.
Definition P_CONTROL_WKC_V1 : Z := 11.
Definition TLS_CRYPT_TAG_SIZE : Z := 256 / 8.
Definition TLS_CRYPT_BLOCK_SIZE : Z := 128 / 8.

(** The anonymous enum of [struct tls_wrap_ctx]. *)
Inductive tls_wrap_mode : Type :=
| TLS_WRAP_NONE
| TLS_WRAP_AUTH
| TLS_WRAP_CRYPT.

(** What the functions below read of [struct tls_session] and its primary
    [struct key_state]; [hmac_size] is [hmac_ctx_size] of the wrapping key and
    [wkc_len] the length of the wrapped client key. *)
Record tls_session : Type := mk_session {
  tun_mtu : Z;
  wrap_mode : tls_wrap_mode;
  hmac_size : Z;
  wkc_len : Z;
  peer_inet : bool;
  ks_flags : Z;
  rec_ack : reliable_ack;
  lru_acks : reliable_ack;
  send_reliable : reliable
}.

Definition tls_crypt_buf_overhead : Z :=
  packet_id_size true + TLS_CRYPT_TAG_SIZE + TLS_CRYPT_BLOCK_SIZE.

Definition datagram_overhead (inet udp : bool) : Z :=
  (if udp then 8 else 20) + (if inet then 20 else 40).

Definition calc_control_channel_frame_overhead (s : tls_session) : Z :=
  let overhead := 0 + 1 in
  let overhead := overhead + SID_SIZE in
  let ackstosend := reliable_ack_outstanding (rec_ack s) + ack_len (lru_acks s) in
  let overhead := overhead + ACK_SIZE (min_int ackstosend CONTROL_SEND_ACK_MAX) in
  let overhead := overhead + 4 in
  let overhead := match wrap_mode s with
                  | TLS_WRAP_CRYPT => overhead + tls_crypt_buf_overhead
                  | TLS_WRAP_AUTH => overhead + hmac_size s + packet_id_size true
                  | TLS_WRAP_NONE => overhead
                  end in
  overhead + datagram_overhead (peer_inet s) true.

Definition control_packet_needs_wkc (flags : Z) (r : reliable) : bool :=
  negb (Z.land flags CO_RESEND_WKC =? 0) && (rel_packet_id r =? 1).

(** [while (tmp.len > 0)]: at most one packet carries no byte, so the fuel is two
    more than the bytes. *)
Fixpoint split_loop (fuel : nat) (flags wkc max_pkt_len : Z) (r : reliable) (tmp : buffer)
    (generated : bool) : res (bool * reliable) :=
  match fuel with
  | O => UB
  | S fuel =>
      if 0 <? b_len tmp then
        let needs := control_packet_needs_wkc flags r in
        let opcode := if needs then P_CONTROL_WKC_V1 else P_CONTROL_V1 in
        let len := if needs then max_int 0 (max_pkt_len - wkc) else max_pkt_len in
        let len := min_int len (b_len tmp) in
        let! (tmp, r) := send_enqueue r tmp len opcode in
        split_loop fuel flags wkc max_pkt_len r tmp true
      else Ret (generated, r)
  end.

(** The room asked of the TLS library and the packet size. *)
Definition ciphertext_limits (s : tls_session) (rel_avail : Z) : Z * Z :=
  let max_pkt_len := min_int TLS_CHANNEL_BUF_SIZE (tun_mtu s)
                     - calc_control_channel_frame_overhead s in
  let maxlen := max_pkt_len * rel_avail in
  let maxlen := if control_packet_needs_wkc (ks_flags s) (send_reliable s)
                then maxlen - wkc_len s else maxlen in
  if maxlen <? 16 then (16, TLS_CHANNEL_BUF_SIZE) else (maxlen, max_pkt_len).

(** [fresh n] is what the [n] bytes from [malloc] hold.  Result: the return value, [*continue_tls_process] and the send queue. *)
Definition write_outgoing_tls_ciphertext (s : tls_session)
    (fresh : Z -> bytes) (key_state_read_ciphertext : Z -> Z * bytes)
    (continue_tls_process : bool)
  : res (bool * bool * reliable) :=
  let r := send_reliable s in
  let rel_avail := reliable_get_num_output_sequenced_available r in
  if rel_avail =? 0 then Ret (true, continue_tls_process, r)
  else
    let '(maxlen, max_pkt_len) := ciphertext_limits s rel_avail in
    let! tmp := alloc_buf_gc (fresh maxlen) in
    let '(status, data) := key_state_read_ciphertext maxlen in
    let! (_, tmp) := buf_write tmp data in
    if status =? -1 then Ret (false, continue_tls_process, r)
    else if status =? 1 then
      let! (c, r) := split_loop (S (S (Z.to_nat (b_len tmp)))) (ks_flags s) (wkc_len s)
                       max_pkt_len r tmp continue_tls_process in
      Ret (true, c, r)
    else Ret (true, continue_tls_process, r).

(** ** How much of the window a packet takes *)

Lemma window_used_enqueue r r' p :
  send_inv r -> send_inv r' -> rel_packet_id r' = rel_packet_id r + 1 ->
  pkt_id p = rel_packet_id r -> pkts (entries r') ≡ₚ p :: pkts (entries r) ->
  window_used r' = window_used r + 1.
Proof.
  intros Hr Hr' Hid Hp Hpk.
  assert (Ha : active_ids (entries r') ≡ₚ rel_packet_id r :: active_ids (entries r)).
  { rewrite !active_ids_pkts, Hpk. cbn [map]. by rewrite Hp. }
  pose proof (min_active_id_spec r Hr) as Hm. pose proof (min_active_id_spec r' Hr') as Hm'.
  unfold window_used. destruct (min_active_id r') as [m'|].
  2:{ rewrite Hm' in Ha. by apply Permutation_nil_cons in Ha. }
  destruct Hm' as [Hin' Hmin']. rewrite Ha in Hin', Hmin'. apply Forall_cons in Hmin' as [Hle Hmin'].
  destruct (min_active_id r) as [m|].
  - destruct Hm as [Hin Hmin]. rewrite Forall_forall in Hmin, Hmin'.
    pose proof (Hmin' m Hin). apply elem_of_cons in Hin' as [->|Hin'].
    + destruct Hr as [_ _ _ _ Hrg _]. rewrite Forall_forall in Hrg. specialize (Hrg m Hin). lia.
    + specialize (Hmin m' Hin'). lia.
  - rewrite Hm in Hin'. apply list_elem_of_singleton in Hin'. lia.
Qed.

(** ** The split *)

(** Packets with consecutive identifiers from [id] that carry [chunks]. *)
Fixpoint chunk_pkts (id : Z) (chunks : list (Z * bytes)) : list pkt :=
  match chunks with
  | [] => []
  | (op, c) :: rest => (id, op, be_bytes 4 id ++ c) :: chunk_pkts (id + 1) rest
  end.

(** The bytes that fit into what is left of the window. *)
Definition room (flags wkc m : Z) (r : reliable) : Z :=
  let avail := rel_size r - window_used r in
  if control_packet_needs_wkc flags r then Z.max 0 (m - wkc) + (avail - 1) * m else avail * m.

Definition slots_fit (m : Z) (r : reliable) : Prop :=
  Forall (fun e => rel_offset r + m <= b_capacity (e_buf e)) (entries r).

Lemma slots_fit_map m r :
  slots_fit m r <-> Forall (fun c => rel_offset r + m <= c) (map (fun e => b_capacity (e_buf e)) (entries r)).
Proof. unfold slots_fit. by rewrite Forall_map. Qed.

Lemma min_int_min x y : min_int x y = Z.min x y.
Proof. unfold min_int. destruct (Z.ltb_spec x y); lia. Qed.
Lemma max_int_max x y : max_int x y = Z.max x y.
Proof. unfold max_int. destruct (Z.ltb_spec y x); lia. Qed.

(** The next packet takes a full share of the remaining room. *)
Lemma next_len flags wkc m r n :
  0 < m -> 0 <= wkc -> 0 < n <= room flags wkc m r ->
  window_used r < rel_size r ->
  let len := min_int (if control_packet_needs_wkc flags r then max_int 0 (m - wkc) else m) n in
  0 <= len <= n /\ len <= m /\ n - len <= (rel_size r - window_used r - 1) * m
  /\ (control_packet_needs_wkc flags r = false -> 0 < len).
Proof.
  intros Hm Hw Hn Ho. cbn zeta. rewrite min_int_min. unfold room in Hn.
  assert (0 <= (rel_size r - window_used r - 1) * m) by nia.
  destruct (control_packet_needs_wkc flags r); [rewrite max_int_max|]; split_and!; try lia; done.
Qed.

Lemma split_loop_spec fuel flags wkc m r tmp h c t g :
  send_inv r -> buf_repr tmp h c t -> 0 < m -> 0 <= wkc -> 1 <= rel_packet_id r ->
  slots_fit m r -> Zlen c <= room flags wkc m r ->
  (control_packet_needs_wkc flags r = true -> window_used r < rel_size r) ->
  (length c + (if control_packet_needs_wkc flags r then 1 else 0) < fuel)%nat ->
  rel_packet_id r + (rel_size r - window_used r) < pid_horizon ->
  exists r' chunks, split_loop fuel flags wkc m r tmp g = Ret (g || (0 <? Zlen c), r')
    /\ send_inv r' /\ concat (map snd chunks) = c
    /\ Forall (fun x => Zlen x.2 <= m) chunks
    /\ rel_packet_id r' = rel_packet_id r + Zlen chunks
    /\ pkts (entries r') ≡ₚ chunk_pkts (rel_packet_id r) chunks ++ pkts (entries r).
Proof.
  revert r tmp h c g. induction fuel as [|fuel IH];
    intros r tmp h c g Hr Htmp Hm Hw Hid Hfit Hroom Hneeds Hfuel Hhor; [lia|].
  cbn [split_loop]. destruct (buf_repr_fields _ _ _ _ Htmp) as (_ & Hlen & _).
  rewrite Hlen. destruct (Z.ltb_spec 0 (Zlen c)) as [Hc|Hc].
  2:{ exists r, []. rewrite orb_false_r. split_and!; try done; [|unfold Zlen; cbn; lia].
      symmetry. apply nil_length_inv. unfold Zlen in Hc. lia. }
  pose proof (window_used_range r Hr).
  assert (Hopen : window_used r < rel_size r).
  { destruct (control_packet_needs_wkc flags r) eqn:E; [auto|].
    unfold room in Hroom. rewrite E in Hroom. nia. }
  set (op := if control_packet_needs_wkc flags r then P_CONTROL_WKC_V1 else P_CONTROL_V1).
  destruct (next_len flags wkc m r (Zlen c) Hm Hw ltac:(lia) Hopen) as (L1 & L2 & L3 & L4).
  set (len := min_int _ (Zlen c)) in *.
  destruct (send_enqueue_spec r tmp h c t len op) as
    (tmp' & r' & -> & Htmp' & Hr' & Hs' & Hid' & Hoff' & Hcap' & Hpk'); try done; try lia.
  { eapply Forall_impl; [exact Hfit|]. cbn. lia. }
  cbn [res_bind].
  assert (Hu : window_used r' = window_used r + 1) by (eapply window_used_enqueue; [exact Hr|exact Hr'|done| |exact Hpk']; done).
  assert (Hno : control_packet_needs_wkc flags r' = false).
  { unfold control_packet_needs_wkc. rewrite (proj2 (Z.eqb_neq (rel_packet_id r') 1)) by lia.
    apply andb_false_r. }
  assert (Hdl : Zlen (drop (Z.to_nat len) c) = Zlen c - len) by (apply Zlen_take_drop; lia).
  destruct (IH r' tmp' _ _ true Hr' Htmp' Hm Hw) as (r2 & chunks & -> & Hr2 & Hcat & Hall & Hid2 & Hpk2);
    rewrite ?Hno; try done; try lia.
  { apply slots_fit_map. rewrite Hcap', Hoff'. by apply slots_fit_map. }
  { unfold room. rewrite Hno, Hs', Hu, Hdl.
    by replace (rel_size r - (window_used r + 1)) with (rel_size r - window_used r - 1) by lia. }
  { destruct (control_packet_needs_wkc flags r); [|specialize (L4 eq_refl)];
      unfold Zlen in *; rewrite length_drop in *; lia. }
  exists r2, ((op, take (Z.to_nat len) c) :: chunks). cbn [map concat snd chunk_pkts].
  rewrite Hcat, take_drop, orb_true_r. split_and!; try done.
  - constructor; [|done]. cbn. rewrite (proj1 (Zlen_take_drop c len L1)). lia.
  - rewrite Hid2, Hid', Zlen_cons. lia.
  - rewrite Hpk2, Hpk', Hid'. cbn [app]. by rewrite Permutation_middle.
Qed.

Definition TLS_CRYPT_V2_MAX_WKC_LEN : Z := 1024.

Record session_ok (s : tls_session) : Prop := {
  so_send : send_inv (send_reliable s);
  so_pid : 1 <= rel_packet_id (send_reliable s);
  so_horizon : rel_packet_id (send_reliable s) + rel_size (send_reliable s) < pid_horizon;
  so_fit : slots_fit TLS_CHANNEL_BUF_SIZE (send_reliable s);
  so_wkc : 0 <= wkc_len s <= TLS_CRYPT_V2_MAX_WKC_LEN;
  so_hmac : 0 <= hmac_size s;
  so_acks : 0 <= ack_len (rec_ack s) /\ 0 <= ack_len (lru_acks s)
}.

(** What is asked of the TLS library always fits the window. *)
Lemma ciphertext_limits_spec s avail :
  session_ok s -> avail = rel_size (send_reliable s) - window_used (send_reliable s) ->
  0 < avail ->
  let '(maxlen, m) := ciphertext_limits s avail in
  0 < m <= TLS_CHANNEL_BUF_SIZE /\ 0 < maxlen <= 12 * TLS_CHANNEL_BUF_SIZE
  /\ maxlen <= room (ks_flags s) (wkc_len s) m (send_reliable s).
Proof.
  intros [Hr _ _ _ Hw Hh [Ha1 Ha2]] Hav Hpos. pose proof (window_used_range _ Hr) as Hu.
  destruct Hr as [Hsz _ _ _ _ _]. unfold ciphertext_limits, RELIABLE_CAPACITY in *.
  assert (Hov : 0 <= calc_control_channel_frame_overhead s).
  { unfold calc_control_channel_frame_overhead, ACK_SIZE, SID_SIZE, reliable_ack_outstanding,
      tls_crypt_buf_overhead, packet_id_size, datagram_overhead, TLS_CRYPT_TAG_SIZE,
      TLS_CRYPT_BLOCK_SIZE, CONTROL_SEND_ACK_MAX.
    rewrite min_int_min. destruct (wrap_mode s), (peer_inet s), (_ =? 0); change (256 / 8) with 32; change (128 / 8) with 16; lia. }
  set (m := min_int _ (tun_mtu s) - _).
  assert (Hm : m <= TLS_CHANNEL_BUF_SIZE).
  { unfold m. rewrite min_int_min. unfold TLS_CHANNEL_BUF_SIZE in *. lia. }
  clearbody m. unfold room, TLS_CHANNEL_BUF_SIZE, TLS_CRYPT_V2_MAX_WKC_LEN in *.
  rewrite <- Hav. assert (avail <= 12) by lia.
  destruct (control_packet_needs_wkc (ks_flags s) (send_reliable s)).
  - destruct (Z.ltb_spec (m * avail - wkc_len s) 16); split_and!; try lia; nia.
  - destruct (Z.ltb_spec (m * avail) 16); split_and!; try lia; nia.
Qed.

Lemma alloc_buf_gc_repr junk :
  bytes_ok junk -> Zlen junk < BUF_SIZE_MAX ->
  exists b, alloc_buf_gc junk = Ret b /\ buf_repr b 0 [] (Zlen junk).
Proof.
  intros Hok Hlt. unfold alloc_buf_gc, buf_size_valid. rewrite (proj2 (Z.ltb_lt _ _) Hlt). cbn [negb].
  assert (Hrep : forall d, Zlen d = Zlen junk -> bytes_ok d ->
            buf_repr (mk_buffer (Zlen junk) 0 0 (Some d)) 0 [] (Zlen junk)).
  { intros d Hd Hdok. exists [], d. rewrite <- Hd. split; [|done].
    unfold buf_split. cbn. split_and!; try done; try lia; by apply Forall_nil. }
  destruct junk as [|x junk]; cbn [res_bind].
  { change (Zlen (@nil Z) =? 0) with true. cbn. eexists. split; [reflexivity|by apply Hrep]. }
  rewrite (proj2 (Z.eqb_neq _ _)) by (rewrite Zlen_cons; pose proof (Zlen_nonneg junk); lia).
  cbn [negb]. rewrite arr_set_0. cbn [res_bind]. eexists. split; [reflexivity|].
  apply Hrep; [by rewrite !Zlen_cons|]. apply Forall_cons in Hok as [_ Hok].
  constructor; [unfold is_u8; lia|done].
Qed.

(** C33: the ciphertext is cut into packets without loss.  When the window has room,
    the TLS library is asked for no more ciphertext than the window can carry, so
    the assertion in the loop never fails and the loop ends; the queued packets
    have consecutive identifiers, and their payloads, in that order, are exactly
    the ciphertext, none longer than a control packet.  With a full window, an
    error, or no ciphertext, the queue does not change. *)
Theorem write_outgoing_splits (s : tls_session) (fresh : Z -> bytes) (read : Z -> Z * bytes)
    (cont : bool) :
  session_ok s ->
  (forall n, 0 <= n -> Zlen (fresh n) = n /\ bytes_ok (fresh n)) ->
  (forall n, 0 <= n -> Zlen (read n).2 <= n /\ bytes_ok (read n).2) ->
  let r := send_reliable s in
  let avail := reliable_get_num_output_sequenced_available r in
  let result := write_outgoing_tls_ciphertext s fresh read cont in
  if avail =? 0 then result = Ret (true, cont, r)
  else let '(maxlen, m) := ciphertext_limits s avail in
       let '(status, data) := read maxlen in
       if status =? 1
       then exists r' chunks, result = Ret (true, cont || (0 <? Zlen data), r')
            /\ send_inv r' /\ concat (map snd chunks) = data
            /\ Forall (fun x => Zlen x.2 <= m) chunks
            /\ rel_packet_id r' = rel_packet_id r + Zlen chunks
            /\ pkts (entries r') ≡ₚ chunk_pkts (rel_packet_id r) chunks ++ pkts (entries r)
       else result = Ret (negb (status =? -1), cont, r).
Proof.
  intros Hs Hfresh Hread r avail. unfold write_outgoing_tls_ciphertext. fold r. fold avail.
  destruct (Z.eqb_spec avail 0) as [|Hav]; [done|].
  pose proof (so_send s Hs) as Hr. pose proof (window_used_range _ Hr) as Hu.
  assert (Havail : avail = rel_size r - window_used r) by (by apply num_available_spec).
  pose proof (ciphertext_limits_spec s avail Hs Havail) as Hlim.
  destruct (ciphertext_limits s avail) as [maxlen m].
  destruct Hlim as (Hm & Hmax & Hroom); [unfold r in *; lia|]. unfold TLS_CHANNEL_BUF_SIZE in *.
  destruct (Hfresh maxlen ltac:(lia)) as [Hf1 Hf2].
  destruct (alloc_buf_gc_repr (fresh maxlen) Hf2) as (tmp & -> & Htmp).
  { rewrite Hf1. unfold BUF_SIZE_MAX. lia. }
  cbn [res_bind]. rewrite Hf1 in Htmp.
  destruct (Hread maxlen ltac:(lia)) as [Hd1 Hd2]. destruct (read maxlen) as [status data]. cbn [snd] in *.
  destruct (buf_write_repr _ _ _ _ Htmp data Hd2 Hd1) as (tmp1 & -> & Htmp1). cbn [res_bind app] in *.
  destruct (Z.eqb_spec status (-1)) as [->|Hne]; [done|].
  destruct (Z.eqb_spec status 1) as [->|]; [|done].
  destruct (buf_repr_fields _ _ _ _ Htmp1) as (_ & Hlen & _).
  pose proof Hs as [_ Hpid Hhor Hfit Hwkc _ _].
  destruct (split_loop_spec (S (S (Z.to_nat (b_len tmp1)))) (ks_flags s) (wkc_len s) m r tmp1 0 data
              (maxlen - Zlen data) cont) as (r' & chunks & -> & Hrest); try done.
  - lia.
  - lia.
  - eapply Forall_impl; [exact Hfit|]. unfold TLS_CHANNEL_BUF_SIZE, r. cbn. lia.
  - fold r in Hroom. lia.
  - fold r in Hu. lia.
  - rewrite Hlen, to_nat_Zlen. destruct (control_packet_needs_wkc _ _); lia.
  - fold r in Hhor, Hu. lia.
  - exists r', chunks. done.
Qed.

(** A send queue of one slot in use and three free ones, as [key_state_init] sets
    it up with the frame of a minimal control channel MTU. *)
Definition slot (active : bool) (id : Z) : reliable_entry :=
  mk_entry active 2 0 id 0 4 (mk_buffer 2200 100 0 (Some (replicate 2200 0))).
Definition example_tx : reliable :=
  mk_reliable 4 2 1 100 false
    ([slot true 0; slot false 0; slot false 0; slot false 0] ++ replicate 8 entry_zero).
Definition example_session : tls_session :=
  mk_session 154 TLS_WRAP_CRYPT 0 0 false CO_RESEND_WKC (mk_ack 0 (replicate 8 0))
    (mk_ack 4 (replicate 8 0)) example_tx.

Lemma slot_ok a id : entry_ok 100 (slot a id) /\ 4 <= 100.
Proof.
  split; [|lia]. unfold entry_ok, slot, buf_wf. cbn [e_buf b_data b_capacity b_offset b_len].
  split_and!; try done; try lia. unfold bytes_ok. apply Forall_replicate. unfold is_u8. lia.
Qed.

Lemma example_session_ok : session_ok example_session.
Proof.
  constructor; try (vm_compute; done); try (vm_compute; split; discriminate).
  - constructor; [by split|reflexivity| | | |by split].
    + repeat (constructor; [apply slot_ok|]). constructor.
    + vm_compute. constructor; [set_solver|constructor].
    + vm_compute. repeat constructor; discriminate.
  - unfold slots_fit. repeat (constructor; [vm_compute; discriminate|]). constructor.
Qed.

Lemma write_outgoing_splits_witness :
  let read := fun n => (1, replicate (Z.to_nat n) 7) in
  exists r' chunks,
    write_outgoing_tls_ciphertext example_session (fun n => replicate (Z.to_nat n) 0) read false
      = Ret (true, false || (0 <? Zlen (replicate 36 7)), r')
    /\ send_inv r' /\ concat (map snd chunks) = replicate 36 7
    /\ Forall (fun x => Zlen x.2 <= 12) chunks
    /\ rel_packet_id r' = 1 + Zlen chunks
    /\ pkts (entries r') ≡ₚ chunk_pkts 1 chunks ++ pkts (entries example_tx).
Proof.
  apply (write_outgoing_splits example_session (fun n => replicate (Z.to_nat n) 0)
           (fun n => (1, replicate (Z.to_nat n) 7)) false example_session_ok).
  - intros n Hn. split; [unfold Zlen; rewrite length_replicate; lia|].
    apply Forall_replicate. unfold is_u8. lia.
  - intros n Hn. split; [|apply Forall_replicate; unfold is_u8; lia].
    cbn. unfold Zlen. rewrite length_replicate. lia.
Defined.

Definition TLS_CHANNEL_MTU_MIN : Z := 154.

(** What the smallest control channel MTU leaves.  Over IPv6 with four
    acknowledgments, a minimal MTU leaves 12 payload bytes with tls-crypt and a
    deficit of 4 with tls-auth and a 64-byte digest, because the packet identifier
    of the control packet counts too; the 16 bytes only come from the fallback
    that ignores the MTU. *)
Lemma mtu_min_payload (acks lru : reliable_ack) (r : reliable) (wkc flags : Z) :
  4 <= ack_len acks + ack_len lru ->
  TLS_CHANNEL_MTU_MIN - calc_control_channel_frame_overhead
    (mk_session TLS_CHANNEL_MTU_MIN TLS_WRAP_CRYPT 0 wkc false flags acks lru r) = 12
  /\ TLS_CHANNEL_MTU_MIN - calc_control_channel_frame_overhead
    (mk_session TLS_CHANNEL_MTU_MIN TLS_WRAP_AUTH 64 wkc false flags acks lru r) = -4.
Proof.
  intros H. unfold calc_control_channel_frame_overhead, reliable_ack_outstanding.
  cbn [rec_ack lru_acks wrap_mode hmac_size peer_inet].
  replace (min_int (ack_len acks + ack_len lru) CONTROL_SEND_ACK_MAX) with 4.
  - split; reflexivity.
  - rewrite min_int_min. unfold CONTROL_SEND_ACK_MAX. lia.
Qed.

