(* ===== verification/OTime.v ===== *)
(** * Clocks and timers (otime.h, otime.c, interval.h, interval.c, shaper.h,
    shaper.c)

    [time_t] is 64 bits wide and is modelled as an unbounded integer; the
    conversions to [int] are written out.  The global variables [now],
    [now_adj] and [now_usec] are a record. *)

From S2P Require Import Prelude CircList.

(** ** The filtered clock *)
Record clock : Type := mk_clock { now : Z; now_adj : Z; now_usec : Z }.

Definition forward_threshold : Z := 86400.
Definition backward_trigger : Z := 10.

Definition update_now (c : clock) (system_time : Z) : clock :=
  let real_time := system_time + now_adj c in
  if now c <? real_time then
    let overshoot := real_time - now c - 1 in
    if (forward_threshold <? overshoot) && (overshoot <=? now_adj c)
    then mk_clock (real_time - overshoot) (now_adj c - overshoot) (now_usec c)
    else mk_clock real_time (now_adj c) (now_usec c)
  else if real_time <? now c - backward_trigger
  then mk_clock (now c) (now_adj c + (now c - real_time)) (now_usec c)
  else c.

Record timeval : Type := mk_tv { tv_sec : Z; tv_usec : Z }.

Definition update_now_usec (c : clock) (tv : timeval) : clock :=
  let last := now c in
  let c := update_now c (tv_sec tv) in
  if (last <? now c) || ((now c =? last) && (now_usec c <? tv_usec tv))
  then mk_clock (now c) (now_adj c) (tv_usec tv) else c.

(** [sys] is what [gettimeofday] stored; its status was zero. *)
Definition openvpn_gettimeofday (c : clock) (sys : timeval) : clock * timeval :=
  let c := update_now_usec c sys in (c, mk_tv (now c) (now_usec c)).

Definition update_time (c : clock) (system_time : Z) : clock :=
  let c := update_now c system_time in mk_clock (now c) (now_adj c) 0.

Definition openvpn_time (c : clock) (system_time : Z) : clock * Z :=
  let c := update_time c system_time in (c, now c).

(** ** struct timeval *)
Definition tv_clear : timeval := mk_tv 0 0.
Definition tv_defined (tv : timeval) : bool := (0 <? tv_sec tv) && (0 <? tv_usec tv).

Definition tv_subtract (tv1 tv2 : timeval) (max_seconds : Z) : Z :=
  let max_usec := s32 (u32 (max_seconds * 1000000)) in
  let sec_diff := s32 (tv_sec tv1 - tv_sec tv2) in
  if s32 max_seconds + 10 <? sec_diff then max_usec
  else if sec_diff <? - (s32 max_seconds + 10) then - max_usec
  else constrain_int (s32 (sec_diff * 1000000 + (tv_usec tv1 - tv_usec tv2))) (- max_usec) max_usec.

Definition tv_add (dest src : timeval) : timeval :=
  let sec := tv_sec dest + tv_sec src in
  let usec := tv_usec dest + tv_usec src in
  let sec := sec + Z.shiftr usec 20 in
  let usec := Z.land usec 0x000FFFFF in
  if 1000000 <=? usec then mk_tv (sec + 1) (usec - 1000000) else mk_tv sec usec.

Definition tv_lt (t1 t2 : timeval) : bool :=
  if tv_sec t1 <? tv_sec t2 then true
  else if tv_sec t2 <? tv_sec t1 then false else tv_usec t1 <? tv_usec t2.
Definition tv_le (t1 t2 : timeval) : bool :=
  if tv_sec t1 <? tv_sec t2 then true
  else if tv_sec t2 <? tv_sec t1 then false else tv_usec t1 <=? tv_usec t2.
Definition tv_ge (t1 t2 : timeval) : bool :=
  if tv_sec t2 <? tv_sec t1 then true
  else if tv_sec t1 <? tv_sec t2 then false else tv_usec t2 <=? tv_usec t1.
Definition tv_gt (t1 t2 : timeval) : bool :=
  if tv_sec t2 <? tv_sec t1 then true
  else if tv_sec t1 <? tv_sec t2 then false else tv_usec t2 <? tv_usec t1.
Definition tv_eq (t1 t2 : timeval) : bool :=
  (tv_sec t1 =? tv_sec t2) && (tv_usec t1 =? tv_usec t2).

(** [while (usec < 0) { usec += 1000000; sec -= 1; }]: the number of rounds is
    bounded by the distance below zero. *)
Fixpoint delta_loop (fuel : nat) (sec usec : Z) : Z * Z :=
  match fuel with
  | O => (sec, usec)
  | S fuel => if usec <? 0 then delta_loop fuel (sec - 1) (usec + 1000000) else (sec, usec)
  end.
Definition tv_delta (t1 t2 : timeval) : timeval :=
  let sec := s32 (tv_sec t2 - tv_sec t1) in
  let usec := s32 (tv_usec t2 - tv_usec t1) in
  let '(sec, usec) := delta_loop (S (Z.to_nat (- usec / 1000000))) sec usec in
  if sec <? 0 then mk_tv 0 0 else mk_tv sec usec.

Definition TV_WITHIN_SIGMA_MAX_SEC : Z := 600.
Definition tv_within_sigma (t1 t2 : timeval) (sigma : Z) : bool :=
  let delta := tv_subtract t1 t2 TV_WITHIN_SIGMA_MAX_SEC in
  (- s32 sigma <=? delta) && (delta <=? s32 sigma).

Definition interval_earliest_wakeup (wakeup at_ current : Z) : Z :=
  if current <? at_ then
    let delta := s32 (at_ - current) in
    let wakeup := if delta <? wakeup then delta else wakeup in
    if wakeup <? 0 then 0 else wakeup
  else wakeup.

(** ** Event rate limits *)
Record frequency_limit : Type := mk_fl { fl_max : Z; fl_per : Z; fl_n : Z; fl_reset : Z }.

Definition frequency_limit_init (max per : Z) : res frequency_limit :=
  assert! (0 <=? max) && (0 <=? per) in Ret (mk_fl max per 0 0).

(** The counter is an [int]; incrementing it past its maximum is undefined. *)
Definition frequency_limit_event_allowed (t : Z) (f : frequency_limit)
  : res (bool * frequency_limit) :=
  if negb (fl_per f =? 0) then
    let f := if fl_reset f + fl_per f <=? t then mk_fl (fl_max f) (fl_per f) 0 t else f in
    if INT_MAX <=? fl_n f then UB
    else let n := fl_n f + 1 in
         Ret (n <=? fl_max f, mk_fl (fl_max f) (fl_per f) n (fl_reset f))
  else Ret (true, f).

(** ** struct interval *)
Record interval : Type := mk_interval {
  refresh : Z; horizon : Z; future_trigger : Z; last_action : Z; last_test_true : Z
}.

Definition interval_init (hor ref : Z) : interval := mk_interval ref hor 0 0 0.

Definition interval_test (local_now : Z) (top : interval) : bool * interval :=
  let hit := negb (future_trigger top =? 0) && (future_trigger top <=? local_now) in
  let top := if hit
             then mk_interval (refresh top) (horizon top) 0 (last_action top) (last_test_true top)
             else top in
  if (local_now <? last_action top + horizon top)
     || (last_test_true top + refresh top <=? local_now) || hit
  then (true, mk_interval (refresh top) (horizon top) (future_trigger top) (last_action top) local_now)
  else (false, top).

Definition interval_schedule_wakeup (local_now : Z) (top : interval) (wakeup : Z) : Z :=
  let wakeup := interval_earliest_wakeup wakeup (last_test_true top + refresh top) local_now in
  interval_earliest_wakeup wakeup (future_trigger top) local_now.

Definition interval_future_trigger (t : Z) (top : interval) (wakeup : Z) : interval :=
  if negb (wakeup =? 0)
  then mk_interval (refresh top) (horizon top) (t + wakeup) (last_action top) (last_test_true top)
  else top.

Definition interval_action (t : Z) (top : interval) : interval :=
  mk_interval (refresh top) (horizon top) (future_trigger top) t (last_test_true top).

(** ** struct event_timeout *)
Record event_timeout : Type := mk_et { et_defined : bool; et_n : Z; et_last : Z }.

Definition event_timeout_defined (et : event_timeout) : bool := et_defined et.
Definition event_timeout_clear : event_timeout := mk_et false 0 0.
Definition event_timeout_init (n last : Z) : event_timeout :=
  mk_et true (if 0 <=? n then n else 0) last.
Definition event_timeout_reset (t : Z) (et : event_timeout) : event_timeout :=
  if et_defined et then mk_et true (et_n et) t else et.
Definition event_timeout_modify_wakeup (et : event_timeout) (n : Z) : event_timeout :=
  if et_defined et then mk_et true (if 0 <=? n then n else 0) (et_last et) else et.
Definition event_timeout_remaining (t : Z) (et : event_timeout) : Z :=
  s32 (et_last et + et_n et - t).

Definition ETT_DEFAULT : Z := -1.

(** [tv] is [None] for a NULL pointer. *)
Definition event_timeout_trigger (t : Z) (et : event_timeout) (tv : option timeval)
    (et_const_retry : Z) : bool * event_timeout * option timeval :=
  if negb (et_defined et) then (false, et, tv)
  else
    let wakeup := event_timeout_remaining t et in
    let '(ret, et, wakeup) :=
      if wakeup <=? 0 then
        if et_const_retry <? 0 then (true, mk_et (et_defined et) (et_n et) t, et_n et)
        else (false, et, et_const_retry)
      else (false, et, wakeup) in
    (ret, et,
     match tv with
     | Some v => Some (if wakeup <? tv_sec v then mk_tv wakeup 0 else v)
     | None => None
     end).

Definition USEC_TIMER_MAX : Z := 60.
Record usec_timer : Type := mk_usec { ut_start : timeval; ut_end : timeval }.
Definition usec_timer_start (c : clock) (sys : timeval) : clock * usec_timer :=
  let '(c, tv) := openvpn_gettimeofday c sys in (c, mk_usec tv (mk_tv 0 0)).
Definition usec_timer_end (c : clock) (sys : timeval) (obj : usec_timer) : clock * usec_timer :=
  let '(c, tv) := openvpn_gettimeofday c sys in (c, mk_usec (ut_start obj) tv).
Definition usec_timer_interval_defined (obj : usec_timer) : bool :=
  negb (tv_sec (ut_start obj) =? 0) && negb (tv_sec (ut_end obj) =? 0).
Definition usec_timer_interval (obj : usec_timer) : Z :=
  tv_subtract (ut_end obj) (ut_start obj) USEC_TIMER_MAX.

(** ** Traffic shaper

    The factor is a floating-point number; [cost n] stands for
    [(int)((double) n * s->factor)]. *)
Definition SHAPER_MIN : Z := 100.
Definition SHAPER_MAX : Z := 100000000.
Definition SHAPER_MAX_TIMEOUT : Z := 10.
Record shaper : Type := mk_shaper { bytes_per_second : Z; wakeup : timeval }.

Definition shaper_reset_wakeup (s : shaper) : shaper := mk_shaper (bytes_per_second s) tv_clear.
Definition shaper_reset (s : shaper) (bps : Z) : shaper :=
  mk_shaper (constrain_int bps SHAPER_MIN SHAPER_MAX) (wakeup s).
Definition shaper_init (s : shaper) (bps : Z) : shaper := shaper_reset_wakeup (shaper_reset s bps).

Definition shaper_delay (c : clock) (sys : timeval) (s : shaper) : clock * Z :=
  let '(c, delay) :=
    if tv_defined (wakeup s)
    then let '(c, tv) := openvpn_gettimeofday c sys in
         (c, tv_subtract (wakeup s) tv SHAPER_MAX_TIMEOUT)
    else (c, 0) in
  (c, if 0 <? delay then delay else 0).

Definition shaper_wrote_bytes (c : clock) (sys : timeval) (cost : Z -> Z) (s : shaper) (nbytes : Z)
  : clock * shaper :=
  let tv := mk_tv 0 (min_int (cost (max_int nbytes 100)) (SHAPER_MAX_TIMEOUT * 1000000)) in
  if negb (tv_usec tv =? 0)
  then let '(c, w) := openvpn_gettimeofday c sys in
       (c, mk_shaper (bytes_per_second s) (tv_add w tv))
  else (c, s).

(** C division truncates; [delay] is not negative here when it matters. *)
Definition shaper_soonest_event (tv : timeval) (delay : Z) : bool * timeval :=
  if delay <? 1000000 then
    if negb (tv_sec tv =? 0) then (true, mk_tv 0 delay)
    else if delay <? tv_usec tv then (true, mk_tv (tv_sec tv) delay) else (false, tv)
  else
    let sec := Z.quot delay 1000000 in
    let usec := Z.rem delay 1000000 in
    if sec <? tv_sec tv then (true, mk_tv sec usec)
    else if sec =? tv_sec tv then
      if usec <? tv_usec tv then (true, mk_tv (tv_sec tv) usec) else (false, tv)
    else (false, tv).

(** ** The clock *)

(** The clock filter.  Whatever the system clock does, [now] never goes back,
    and either it is the adjusted system time or it did not change.  A backward
    jump of more than ten seconds is absorbed into the adjustment.  While the
    system clock then advances by at most a day at a time, so does [now], by the
    same amount. *)
Lemma clock_filter (c : clock) (t d : Z) :
  0 <= now_adj c ->
  let c1 := update_now c t in
  now c <= now c1 /\ 0 <= now_adj c1
  /\ (now c1 = t + now_adj c1 \/ (now c1 = now c /\ now c - 10 <= t + now_adj c1 <= now c))
  /\ (t + now_adj c < now c - 10 -> now c1 = now c /\ now c1 = t + now_adj c1)
  /\ (now c1 = t + now_adj c1 -> 0 < d <= 86401 ->
      now (update_now c1 (t + d)) = now c1 + d).
Proof.
  intros Ha. unfold update_now, forward_threshold, backward_trigger. cbn zeta.
  assert (Hstep : forall c1 : clock, now c1 = t + now_adj c1 -> 0 < d <= 86401 ->
    now (if now c1 <? t + d + now_adj c1 then
           if (86400 <? t + d + now_adj c1 - now c1 - 1) && (t + d + now_adj c1 - now c1 - 1 <=? now_adj c1)
           then mk_clock (t + d + now_adj c1 - (t + d + now_adj c1 - now c1 - 1))
                  (now_adj c1 - (t + d + now_adj c1 - now c1 - 1)) (now_usec c1)
           else mk_clock (t + d + now_adj c1) (now_adj c1) (now_usec c1)
         else if t + d + now_adj c1 <? now c1 - 10
              then mk_clock (now c1) (now_adj c1 + (now c1 - (t + d + now_adj c1))) (now_usec c1)
              else c1) = now c1 + d).
  { intros c1 H1 H2. rewrite (proj2 (Z.ltb_lt _ _)) by lia.
    rewrite (proj2 (Z.ltb_ge 86400 _)) by lia. cbn. lia. }
  set (c1 := if now c <? t + now_adj c then _ else _).
  split_and!; try (apply Hstep).
  all: unfold c1; destruct (Z.ltb_spec (now c) (t + now_adj c)).
  all: try (destruct (Z.ltb_spec 86400 (t + now_adj c - now c - 1)),
              (Z.leb_spec (t + now_adj c - now c - 1) (now_adj c)); cbn; lia).
  all: destruct (Z.ltb_spec (t + now_adj c) (now c - 10)); cbn; lia.
Qed.

(** ** Arithmetic on struct timeval *)
Definition tv_norm (tv : timeval) : Prop := 0 <= tv_usec tv < 1000000.
Definition tv_total (tv : timeval) : Z := tv_sec tv * 1000000 + tv_usec tv.

(** The microseconds dropped for every 2^20 of them in the sum of the fractions. *)
Definition tv_add_loss (dest src : timeval) : Z :=
  (2 ^ 20 - 1000000) * Z.shiftr (tv_usec dest + tv_usec src) 20.

(** [tv_add] loses time.  The carry is taken in units of 2^20 microseconds but
    added as whole seconds: for non-negative fractions the result is normalised,
    and short of the exact sum by 48576 microseconds for every 2^20 in the sum of
    the fractions.  It is exact when that sum is below 2^20. *)
Lemma tv_add_total (dest src : timeval) :
  0 <= tv_usec dest -> 0 <= tv_usec src ->
  tv_norm (tv_add dest src)
  /\ tv_total (tv_add dest src) = tv_total dest + tv_total src - tv_add_loss dest src
  /\ (tv_add_loss dest src = 0 <-> tv_usec dest + tv_usec src < 2 ^ 20).
Proof.
  intros H1 H2. unfold tv_add, tv_add_loss, tv_total, tv_norm.
  set (u := tv_usec dest + tv_usec src).
  rewrite Z.shiftr_div_pow2 by lia. change 0xFFFFF with (Z.ones 20). rewrite Z.land_ones by lia.
  pose proof (Z.div_mod u (2 ^ 20) ltac:(lia)) as Hdm.
  pose proof (Z.mod_pos_bound u (2 ^ 20) ltac:(lia)) as Hm.
  assert (0 <= u) by (unfold u; lia).
  assert (0 <= u / 2 ^ 20) by (apply Z.div_pos; lia).
  split_and!.
  1-2: destruct (Z.leb_spec 1000000 (u mod 2 ^ 20)); cbn [tv_sec tv_usec]; lia.
  - destruct (Z.leb_spec 1000000 (u mod 2 ^ 20)); cbn [tv_sec tv_usec]; unfold u in *; lia.
  - split; intros Hx.
    + assert (u / 2 ^ 20 = 0) by lia. lia.
    + rewrite Z.div_small by lia. lia.
Qed.

Lemma constrain_int_clamp x m : 0 <= m -> constrain_int x (- m) m = Z.max (- m) (Z.min m x).
Proof.
  intros Hm. unfold constrain_int. rewrite (proj2 (Z.ltb_ge m (- m))) by lia.
  destruct (Z.ltb_spec x (- m)); [lia|]. destruct (Z.ltb_spec m x); lia.
Qed.

(** [tv_subtract] is the difference in microseconds, clamped to the limit, for
    normalised times and limits of up to 600 seconds; no conversion to [int]
    changes a value. *)
Lemma tv_subtract_clamped (t1 t2 : timeval) (max_seconds : Z) :
  tv_norm t1 -> tv_norm t2 -> 0 <= max_seconds <= 600 ->
  is_int (tv_sec t1 - tv_sec t2) ->
  tv_subtract t1 t2 max_seconds
  = Z.max (- (max_seconds * 1000000)) (Z.min (max_seconds * 1000000) (tv_total t1 - tv_total t2)).
Proof.
  unfold tv_norm, tv_total. intros H1 H2 Hm Hd. unfold tv_subtract.
  rewrite (u32_id (max_seconds * 1000000)) by (unfold is_u32; lia).
  rewrite (s32_id (max_seconds * 1000000)), (s32_id max_seconds), (s32_id (_ - _)) 
    by (unfold is_int, INT_MIN, INT_MAX in *; lia).
  set (d := tv_sec t1 - tv_sec t2) in *.
  destruct (Z.ltb_spec (max_seconds + 10) d); [lia|].
  destruct (Z.ltb_spec d (- (max_seconds + 10))); [lia|].
  rewrite s32_id by (unfold is_int, INT_MIN, INT_MAX; lia).
  rewrite constrain_int_clamp by lia. f_equal. f_equal. lia.
Qed.

(** ** Timers *)

(** [event_timeout_trigger].  An armed timer with [et_const_retry] negative
    fires exactly when its period has passed since the last event and is then
    rearmed at the current time; the caller's wake-up time is never set later than
    it was, is left alone when it is early enough, and otherwise becomes the time to
    the timer's next event.  A cleared timer does nothing. *)
Lemma event_timeout_trigger_exact (t : Z) (et : event_timeout) (tv : timeval) (retry : Z) :
  retry < 0 -> is_int (et_last et + et_n et - t) -> 0 <= et_n et ->
  let '(fired, et', tv') := event_timeout_trigger t et (Some tv) retry in
  fired = et_defined et && (et_last et + et_n et <=? t)
  /\ et_defined et' = et_defined et /\ et_n et' = et_n et
  /\ et_last et' = (if fired then t else et_last et)
  /\ tv' = Some (if et_defined et && (et_last et' + et_n et' - t <? tv_sec tv)
                 then mk_tv (et_last et' + et_n et' - t) 0 else tv).
Proof.
  intros Hr Hi Hn. unfold event_timeout_trigger, event_timeout_remaining.
  rewrite s32_id by done. destruct et as [d n l]. cbn [et_defined et_n et_last] in *.
  destruct d; cbn [negb andb]; [|by split_and!].
  destruct (Z.leb_spec (l + n - t) 0).
  - rewrite (proj2 (Z.ltb_lt _ _)) by done. rewrite (proj2 (Z.leb_le _ _)) by lia. cbn.
    split_and!; try done. replace (t + n - t) with n by lia. done.
  - rewrite (proj2 (Z.leb_gt _ _)) by lia. cbn. by split_and!.
Qed.

Lemma earliest_wakeup_spec w at_ t :
  0 <= w -> is_int (at_ - t) ->
  interval_earliest_wakeup w at_ t = if t <? at_ then Z.min w (at_ - t) else w.
Proof.
  intros Hw Hi. unfold interval_earliest_wakeup. rewrite s32_id by done.
  destruct (Z.ltb_spec t at_); [|done].
  destruct (Z.ltb_spec (at_ - t) w); [rewrite (proj2 (Z.ltb_ge (at_ - t) 0)) by lia; lia|].
  rewrite (proj2 (Z.ltb_ge w 0)) by lia. lia.
Qed.

(** An idle interval wakes up on time.  If the test is false now, the scheduled
    wake-up time is not raised; the test stays false until then, and is true then
    if the time was lowered. *)
Lemma interval_wakeup_exact (t : Z) (top : interval) (w : Z) :
  0 <= w -> is_int (last_test_true top + refresh top - t) -> is_int (future_trigger top - t) ->
  0 <= t -> (interval_test t top).1 = false ->
  let w' := interval_schedule_wakeup t top w in
  0 <= w' <= w
  /\ (forall u, t <= u < t + w' -> (interval_test u top).1 = false)
  /\ (w' < w -> (interval_test (t + w') top).1 = true).
Proof.
  intros Hw Hi1 Hi2 Ht Hidle. unfold interval_schedule_wakeup.
  assert (Htest : forall u, (interval_test u top).1
    = (u <? last_action top + horizon top) || (last_test_true top + refresh top <=? u)
      || (negb (future_trigger top =? 0) && (future_trigger top <=? u))).
  { intros u. unfold interval_test. destruct (negb _ && _); cbn; by destruct (_ || _). }
  rewrite Htest in Hidle.
  apply orb_false_iff in Hidle as [[H1%Z.ltb_ge H2%Z.leb_gt]%orb_false_iff H3%andb_false_iff].
  rewrite (earliest_wakeup_spec w) by (unfold is_int in *; lia).
  rewrite (proj2 (Z.ltb_lt _ _)) by lia.
  rewrite earliest_wakeup_spec by (unfold is_int in *; lia).
  destruct (Z.ltb_spec t (future_trigger top)) as [Hf|Hf].
  - assert (future_trigger top <> 0) by lia.
    split; [lia|]. split; [intros u Hu|intros Hlt]; rewrite Htest.
    + rewrite (proj2 (Z.ltb_ge u _)), (proj2 (Z.leb_gt _ u)), (proj2 (Z.leb_gt _ u)) by lia.
      by rewrite andb_false_r.
    + rewrite (proj2 (Z.eqb_neq _ _)) by done. cbn [negb andb].
      destruct (Z.le_gt_cases (future_trigger top) (last_test_true top + refresh top)).
      * rewrite (proj2 (Z.leb_le (future_trigger top) _)) by lia. by rewrite orb_true_r.
      * rewrite (proj2 (Z.leb_le (last_test_true top + _) _)) by lia. by rewrite orb_true_r.
  - assert (Hz : future_trigger top = 0).
    { destruct H3 as [H3%negb_false_iff%Z.eqb_eq|H3%Z.leb_gt]; [done|lia]. }
    rewrite Hz in *. split; [lia|]. split; [intros u Hu|intros Hlt]; rewrite Htest.
    + rewrite (proj2 (Z.ltb_ge u _)), (proj2 (Z.leb_gt _ u)) by lia. done.
    + rewrite (proj2 (Z.leb_le (last_test_true top + _) _)) by lia. by rewrite orb_true_r.
Qed.

(** Calls at the times [ts]; the number of events allowed. *)
Fixpoint limit_run (f : frequency_limit) (ts : list Z) : res (Z * frequency_limit) :=
  match ts with
  | [] => Ret (0, f)
  | t :: ts => let! (ok, f) := frequency_limit_event_allowed t f in
               let! (k, f) := limit_run f ts in
               Ret ((if ok : bool then 1 else 0) + k, f)
  end.

(** Within an open period the remaining budget is handed out. *)
Lemma limit_run_within max per t0 ts n :
  0 < per -> Forall (fun t => t < t0 + per) ts -> 0 <= n -> n + Zlen ts <= INT_MAX ->
  exists f', limit_run (mk_fl max per n t0) ts
    = Ret (Z.min (Z.max 0 (max - n)) (Zlen ts), f').
Proof.
  intros Hp. revert n. induction ts as [|t ts IH]; intros n Hts Hn Hlen; cbn [limit_run].
  { exists (mk_fl max per n t0). unfold Zlen. cbn [length]. do 2 f_equal. lia. }
  apply Forall_cons in Hts as [Ht Hts]. rewrite Zlen_cons in *. pose proof (Zlen_nonneg ts).
  unfold frequency_limit_event_allowed. cbn [fl_per fl_reset fl_n fl_max].
  rewrite (proj2 (Z.eqb_neq _ _)) by lia. cbn [negb].
  rewrite (proj2 (Z.leb_gt (t0 + _) t)) by lia. cbn [fl_per fl_reset fl_n fl_max].
  rewrite (proj2 (Z.leb_gt INT_MAX _)) by lia. cbn [res_bind].
  destruct (IH (n + 1) Hts) as [f' ->]; [lia|lia|]. cbn [res_bind]. exists f'. do 2 f_equal.
  destruct (Z.leb_spec (n + 1) max); lia.
Qed.

(** The rate limit.  Of the calls in one period, counted from the call that
    opened it, exactly the first [max] are allowed. *)
Lemma frequency_limit_per_period (f : frequency_limit) (t0 : Z) (ts : list Z) :
  0 < fl_per f -> 0 <= fl_max f -> fl_reset f + fl_per f <= t0 ->
  Forall (fun t => t < t0 + fl_per f) ts -> Zlen ts < INT_MAX ->
  exists f', limit_run f (t0 :: ts) = Ret (Z.min (fl_max f) (1 + Zlen ts), f').
Proof.
  intros Hp Hm Hr Hts Hlen. cbn [limit_run]. unfold frequency_limit_event_allowed at 1.
  rewrite (proj2 (Z.eqb_neq _ _)) by lia. cbn [negb]. rewrite (proj2 (Z.leb_le (fl_reset f + fl_per f) t0)) by lia.
  cbn [fl_n fl_max fl_per fl_reset]. rewrite (proj2 (Z.leb_gt INT_MAX 0)) by (unfold INT_MAX; lia).
  cbn [res_bind]. change (0 + 1) with 1. pose proof (Zlen_nonneg ts).
  destruct (limit_run_within (fl_max f) (fl_per f) t0 ts 1 Hp Hts) as [f' ->]; [lia|lia|].
  cbn [res_bind]. exists f'. do 2 f_equal. destruct (Z.leb_spec 1 (fl_max f)); lia.
Qed.

