(* ===== verification/Mtu.v ===== *)
(** * Frame parameters (mtu.h, mtu.c)

    The sizes every packet buffer is allocated with. *)

From S2P Require Import Prelude CircList Buffer.

(** [struct frame]; the anonymous inner struct [buf] is flattened. *)
Record frame : Type := mk_frame {
  payload_size : Z;
  headroom : Z;
  tailroom : Z;
  mss_fix : Z;
  max_fragment_size : Z;
  frame_tun_mtu : Z;
  tun_max_mtu : Z;
  extra_tun : Z
}.

Definition BUF_SIZE (f : frame) : Z := headroom f + payload_size f + tailroom f.

(** A buffer for the socket or tun layer. *)
Definition alloc_buf_sock_tun (f : frame) : res buffer :=
  let! b := alloc_buf (u64 (BUF_SIZE f)) in
  let '(ok, b) := buf_init_dowork b (headroom f) in
  assert! ok in
  let b := set_window b (b_offset b) (payload_size f) in
  assert! buf_safe b 0 in
  Ret b.
