(* ===== verification/Fragment.v ===== *)
(** * Fragmentation (fragment.h, fragment.c)

    Outgoing datagrams above the fragment size are cut into at most 32 parts that
    share a sequence identifier; the receiver reassembles up to 25 datagrams at a
    time in a sliding window over the sequence identifiers.  A copied
    [struct buffer] shares its data with the original: where the code copies one
    out, the model copies the bytes back when they are written. *)

From S2P Require Import Prelude CircList Buffer Mtu OTime.

Definition N_FRAG_BUF : Z := 25.
Definition FRAG_TTL_SEC : Z := 10.
Definition FRAG_WAKEUP_INTERVAL : Z := 5.
Definition FRAG_MAP_MASK : Z := 0xFFFFFFFF.
Definition MAX_FRAGS : Z := 32.
Definition N_SEQ_ID : Z := 256.

Definition FRAG_TYPE_MASK : Z := 0x00000003.
Definition FRAG_TYPE_SHIFT : Z := 0.
Definition FRAG_WHOLE : Z := 0.
Definition FRAG_YES_NOTLAST : Z := 1.
Definition FRAG_YES_LAST : Z := 2.
Definition FRAG_TEST : Z := 3.
Definition FRAG_SEQ_ID_MASK : Z := 0x000000ff.
Definition FRAG_SEQ_ID_SHIFT : Z := 2.
Definition FRAG_ID_MASK : Z := 0x0000001f.
Definition FRAG_ID_SHIFT : Z := 10.
Definition FRAG_SIZE_MASK : Z := 0x00003fff.
Definition FRAG_SIZE_SHIFT : Z := 15.
Definition FRAG_SIZE_ROUND_SHIFT : Z := 2.
Definition FRAG_SIZE_ROUND_MASK : Z := Z.shiftl 1 FRAG_SIZE_ROUND_SHIFT - 1.

Record fragment : Type := mk_fragment {
  fr_defined : bool;
  fr_max_frag_size : Z;
  fr_map : Z;
  fr_timestamp : Z;
  fr_buf : buffer
}.
Record fragment_list : Type := mk_fraglist {
  fl_seq_id : Z;
  fl_index : Z;
  fl_fragments : list fragment
}.
Record fragment_master : Type := mk_master {
  fm_wakeup : event_timeout;
  outgoing_seq_id : Z;
  outgoing_frag_size : Z;
  outgoing_frag_id : Z;
  outgoing : buffer;
  outgoing_return : buffer;
  incoming : fragment_list
}.

Definition set_incoming (f : fragment_master) (l : fragment_list) : fragment_master :=
  mk_master (fm_wakeup f) (outgoing_seq_id f) (outgoing_frag_size f) (outgoing_frag_id f)
    (outgoing f) (outgoing_return f) l.
Definition undefine (fr : fragment) : fragment :=
  mk_fragment false (fr_max_frag_size fr) (fr_map fr) (fr_timestamp fr) (fr_buf fr).

(** ** Set-up *)
Definition frag_zero : fragment := mk_fragment false 0 0 0 clear_buf.

Definition fragment_list_buf_init (l : fragment_list) (f : frame) : res fragment_list :=
  let! b := alloc_buf (u64 (BUF_SIZE f)) in
  Ret (mk_fraglist (fl_seq_id l) (fl_index l)
         (map (fun fr => mk_fragment (fr_defined fr) (fr_max_frag_size fr) (fr_map fr)
                           (fr_timestamp fr) b) (fl_fragments l))).

(** [random] is what [get_random] returned. *)
Definition fragment_init (random t : Z) : fragment_master :=
  mk_master (event_timeout_init FRAG_WAKEUP_INTERVAL t)
    (Z.land (s32 random) (N_SEQ_ID - 1)) 0 0 clear_buf clear_buf
    (mk_fraglist 0 0 (replicate (Z.to_nat N_FRAG_BUF) frag_zero)).

Definition fragment_frame_init (m : fragment_master) (f : frame) : res fragment_master :=
  let! l := fragment_list_buf_init (incoming m) f in
  let! out := alloc_buf (u64 (BUF_SIZE f)) in
  let! ret := alloc_buf (u64 (BUF_SIZE f)) in
  Ret (mk_master (fm_wakeup m) (outgoing_seq_id m) (outgoing_frag_size m) (outgoing_frag_id m)
         out ret l).

(** ** The reassembly window *)

(** [while (diff > 0)], with [n] rounds to go. *)
Fixpoint window_advance (n : nat) (l : fragment_list) : res fragment_list :=
  match n with
  | O => Ret l
  | S n' =>
      let! index := modulo_add (fl_index l) 1 N_FRAG_BUF in
      let! fr := arr_get (fl_fragments l) index in
      let! frs := arr_set (fl_fragments l) index (undefine fr) in
      let! seq := modulo_add (fl_seq_id l) 1 N_SEQ_ID in
      window_advance n' (mk_fraglist seq index frs)
  end.

(** Result: the index of the fragment buffer for [seq_id] and the new list. *)
Definition fragment_list_get_buf (l : fragment_list) (seq_id : Z) : res (Z * fragment_list) :=
  let! diff := modulo_subtract seq_id (fl_seq_id l) N_SEQ_ID in
  let '(l, diff) :=
    if N_FRAG_BUF <=? Z.abs diff
    then (mk_fraglist seq_id 0 (map undefine (fl_fragments l)), 0) else (l, diff) in
  let! l := window_advance (Z.to_nat diff) l in
  let! i := modulo_add (fl_index l) (if 0 <? diff then 0 else diff) N_FRAG_BUF in
  Ret (i, l).

(** ** Receiving *)

(** The branch of [fragment_incoming] for a part of a datagram; [buf] is behind
    the header.  [None] is the [goto error]. *)
Definition fragment_part (m : fragment_master) (buf : buffer) (frag_type flags : Z) (f : frame)
    (t : Z) : res (option buffer * fragment_master) :=
  let seq_id := Z.land (Z.shiftr flags FRAG_SEQ_ID_SHIFT) FRAG_SEQ_ID_MASK in
  let n := Z.land (Z.shiftr flags FRAG_ID_SHIFT) FRAG_ID_MASK in
  let size := if frag_type =? FRAG_YES_LAST
              then Z.shiftl (Z.land (Z.shiftr flags FRAG_SIZE_SHIFT) FRAG_SIZE_MASK)
                     FRAG_SIZE_ROUND_SHIFT
              else b_len buf in
  let! (i, l) := fragment_list_get_buf (incoming m) seq_id in
  if negb (Z.land size FRAG_SIZE_ROUND_MASK =? 0) then Ret (None, set_incoming m l)
  else
    let! fr := arr_get (fl_fragments l) i in
    let! fr := (if negb (fr_defined fr) || negb (fr_max_frag_size fr =? size)
                then let '(ok, b) := buf_init_dowork (fr_buf fr) (headroom f) in
                     assert! ok in Ret (mk_fragment true size 0 (fr_timestamp fr) b)
                else Ret fr) in
    let! (ok, b) := buf_copy_range (fr_buf fr) (n * size) buf 0 (b_len buf) in
    let! (out, fr) :=
      (if negb ok
       then Ret (None, mk_fragment (fr_defined fr) (fr_max_frag_size fr) (fr_map fr)
                         (fr_timestamp fr) b)
       else
         let map := Z.lor (fr_map fr)
                      (u32 (Z.shiftl (if frag_type =? FRAG_YES_LAST then FRAG_MAP_MASK else 1) n)) in
         if Z.land map FRAG_MAP_MASK =? FRAG_MAP_MASK
         then Ret (Some b, mk_fragment false (fr_max_frag_size fr) map t b)
         else Ret (Some (set_window buf (b_offset buf) 0),
                   mk_fragment (fr_defined fr) (fr_max_frag_size fr) map t b)) in
    let! frs := arr_set (fl_fragments l) i fr in
    Ret (out, set_incoming m (mk_fraglist (fl_seq_id l) (fl_index l) frs)).

(** [t] is the current time.  Result: [*buf] and the state. *)
Definition fragment_incoming (m : fragment_master) (buf : buffer) (f : frame) (t : Z)
  : res (buffer * fragment_master) :=
  if 0 <? b_len buf then
    let! (r, buf) := buf_read buf 4 in
    let error := set_window buf (b_offset buf) 0 in
    match r with
    | None => Ret (error, m)
    | Some s =>
        let flags := be_val s in
        let frag_type := Z.land (Z.shiftr flags FRAG_TYPE_SHIFT) FRAG_TYPE_MASK in
        if frag_type =? FRAG_WHOLE then
          if negb (Z.land flags (Z.lor FRAG_SEQ_ID_MASK FRAG_ID_MASK) =? 0)
          then Ret (error, m) else Ret (buf, m)
        else if (frag_type =? FRAG_YES_NOTLAST) || (frag_type =? FRAG_YES_LAST) then
          let! (out, m) := fragment_part m buf frag_type flags f t in
          Ret (match out with Some b => b | None => error end, m)
        else Ret (error, m)
    end
  else Ret (buf, m).

(** ** Sending *)
Definition fragment_flags (type seq_id frag_id frag_size : Z) : Z :=
  let flags := Z.lor (Z.lor (Z.shiftl (Z.land type FRAG_TYPE_MASK) FRAG_TYPE_SHIFT)
                        (Z.shiftl (Z.land seq_id FRAG_SEQ_ID_MASK) FRAG_SEQ_ID_SHIFT))
                 (Z.shiftl (Z.land frag_id FRAG_ID_MASK) FRAG_ID_SHIFT) in
  if (type =? FRAG_WHOLE) || (type =? FRAG_YES_NOTLAST) then flags
  else Z.lor flags (Z.shiftl (Z.land (Z.shiftr frag_size FRAG_SIZE_ROUND_SHIFT) FRAG_SIZE_MASK)
                      FRAG_SIZE_SHIFT).

Definition fragment_prepend_flags (b : buffer) (type seq_id frag_id frag_size : Z) : res buffer :=
  let! (ok, b) := buf_write_prepend b (be_bytes 4 (fragment_flags type seq_id frag_id frag_size)) in
  assert! ok in Ret b.

Definition optimal_fragment_size (len max_frag_size : Z) : res Z :=
  let mfs_aligned := Z.land max_frag_size (Z.lnot FRAG_SIZE_ROUND_MASK) in
  if mfs_aligned =? 0 then UB
  else
    let div := Z.quot len mfs_aligned in
    let mod_ := Z.rem len mfs_aligned in
    Ret (if (0 <? div) && (0 <? mod_) && (mod_ <? Z.quot (mfs_aligned * 3) 4)
         then min_int mfs_aligned
                (Z.land (max_frag_size - Z.quot (max_frag_size - mod_) (div + 1)
                         + FRAG_SIZE_ROUND_MASK) (Z.lnot FRAG_SIZE_ROUND_MASK))
         else mfs_aligned).

Definition fragment_outgoing_defined (m : fragment_master) : bool := 0 <? b_len (outgoing m).

(** Result: the return value, [*buf] (an alias of [outgoing_return]) and the state. *)
Definition fragment_ready_to_send (m : fragment_master) (buf : buffer) (f : frame)
  : res (bool * buffer * fragment_master) :=
  if fragment_outgoing_defined m then
    let last := b_len (outgoing m) <=? outgoing_frag_size m in
    let size := if last then b_len (outgoing m) else outgoing_frag_size m in
    let '(ok, buf) := buf_init_dowork (outgoing_return m) (headroom f) in
    assert! ok in
    let! (ok, buf, out) := buf_copy_n buf (outgoing m) size in
    assert! ok in
    let! buf := fragment_prepend_flags buf (if last then FRAG_YES_LAST else FRAG_YES_NOTLAST)
                  (outgoing_seq_id m) (outgoing_frag_id m) (outgoing_frag_size m) in
    let ret := outgoing_return m in
    let m := mk_master (fm_wakeup m) (outgoing_seq_id m) (outgoing_frag_size m)
               (outgoing_frag_id m + 1) out
               (mk_buffer (b_capacity ret) (b_offset ret) (b_len ret) (b_data buf)) (incoming m) in
    assert! negb last || (b_len out =? 0) in
    Ret (true, buf, m)
  else Ret (false, buf, m).

Definition fragment_outgoing (m : fragment_master) (buf : buffer) (f : frame)
  : res (buffer * fragment_master) :=
  if 0 <? b_len buf then
    if max_fragment_size f <? b_len buf then
      let! size := optimal_fragment_size (b_len buf) (max_fragment_size f) in
      let m := mk_master (fm_wakeup m) (outgoing_seq_id m) size (outgoing_frag_id m)
                 (outgoing m) (outgoing_return m) (incoming m) in
      if size * MAX_FRAGS <? b_len buf
      then Ret (set_window buf (b_offset buf) 0, m)
      else
        let '(ok, out) := buf_init_dowork (outgoing m) (headroom f) in
        assert! ok in
        let! (ok, out) := buf_copy out buf in
        assert! ok in
        let! seq := modulo_add (outgoing_seq_id m) 1 N_SEQ_ID in
        let m := mk_master (fm_wakeup m) seq size 0 out (outgoing_return m) (incoming m) in
        let! (ok, buf, m) := fragment_ready_to_send m (set_window buf (b_offset buf) 0) f in
        assert! ok in Ret (buf, m)
    else
      let! buf := fragment_prepend_flags buf FRAG_WHOLE 0 0 0 in Ret (buf, m)
  else Ret (buf, m).

(** ** Housekeeping *)
Definition fragment_ttl_reap (m : fragment_master) (t : Z) : fragment_master :=
  let l := incoming m in
  set_incoming m (mk_fraglist (fl_seq_id l) (fl_index l)
    (map (fun fr => if fr_defined fr && (fr_timestamp fr + FRAG_TTL_SEC <=? t)
                    then undefine fr else fr) (fl_fragments l))).
Definition fragment_wakeup (m : fragment_master) (t : Z) : fragment_master := fragment_ttl_reap m t.
Definition fragment_housekeeping (m : fragment_master) (t : Z) (tv : timeval)
  : fragment_master * option timeval :=
  let '(fired, et, tv) := event_timeout_trigger t (fm_wakeup m) (Some tv) ETT_DEFAULT in
  let m := mk_master et (outgoing_seq_id m) (outgoing_frag_size m) (outgoing_frag_id m)
             (outgoing m) (outgoing_return m) (incoming m) in
  (if fired then fragment_wakeup m t else m, tv).

(** ** The header *)

Lemma land_mask x n : 0 <= n -> Z.land x (2 ^ n - 1) = x mod 2 ^ n.
Proof. intros Hn. replace (2 ^ n - 1) with (Z.ones n) by (rewrite Z.ones_equiv; lia). by apply Z.land_ones. Qed.

(** The four fields as one number. *)
Definition packed (type seq id sz : Z) : Z := type + seq * 4 + id * 1024 + sz * 32768.

Record fields_ok (type seq id sz : Z) : Prop := {
  fo_type : 0 <= type < 4; fo_seq : 0 <= seq < 256; fo_id : 0 <= id < 32; fo_sz : 0 <= sz < 2 ^ 14
}.

Lemma fragment_flags_packed type seq id size :
  fields_ok type seq id (size / 4) -> 0 <= size ->
  fragment_flags type seq id size
  = packed type seq id (if (type =? 0) || (type =? 1) then 0 else size / 4).
Proof.
  intros [H1 H2 H3 H4] H5. unfold fragment_flags, FRAG_TYPE_MASK, FRAG_TYPE_SHIFT, FRAG_SEQ_ID_MASK,
    FRAG_SEQ_ID_SHIFT, FRAG_ID_MASK, FRAG_ID_SHIFT, FRAG_SIZE_MASK, FRAG_SIZE_SHIFT,
    FRAG_SIZE_ROUND_SHIFT, FRAG_WHOLE, FRAG_YES_NOTLAST, packed.
  change 0x3 with (2 ^ 2 - 1). change 0xff with (2 ^ 8 - 1). change 0x1f with (2 ^ 5 - 1).
  change 0x3fff with (2 ^ 14 - 1). rewrite !land_mask by lia.
  rewrite Z.shiftl_0_r, Z.shiftr_div_pow2 by lia. change (2 ^ 2) with 4. change (2 ^ 8) with 256.
  change (2 ^ 5) with 32. change (2 ^ 14) with 16384 in *.
  rewrite !Z.mod_small by lia.
  rewrite (lor_shiftl_add type seq 2) by lia. change (2 ^ 2) with 4.
  rewrite (lor_shiftl_add _ id 10) by (change (2 ^ 10) with 1024; lia). change (2 ^ 10) with 1024.
  destruct ((type =? 0) || (type =? 1)); [lia|].
  rewrite (lor_shiftl_add _ (size / 4) 15) by (change (2 ^ 15) with 32768; lia).
  change (2 ^ 15) with 32768. lia.
Qed.

(** Taking the header apart. *)
Lemma packed_fields type seq id sz :
  fields_ok type seq id sz ->
  let flags := packed type seq id sz in
  is_u32 flags
  /\ Z.land (Z.shiftr flags FRAG_TYPE_SHIFT) FRAG_TYPE_MASK = type
  /\ Z.land (Z.shiftr flags FRAG_SEQ_ID_SHIFT) FRAG_SEQ_ID_MASK = seq
  /\ Z.land (Z.shiftr flags FRAG_ID_SHIFT) FRAG_ID_MASK = id
  /\ Z.shiftl (Z.land (Z.shiftr flags FRAG_SIZE_SHIFT) FRAG_SIZE_MASK) FRAG_SIZE_ROUND_SHIFT
     = 4 * sz.
Proof.
  intros [H1 H2 H3 H4]. unfold packed, FRAG_TYPE_MASK, FRAG_TYPE_SHIFT, FRAG_SEQ_ID_MASK,
    FRAG_SEQ_ID_SHIFT, FRAG_ID_MASK, FRAG_ID_SHIFT, FRAG_SIZE_MASK, FRAG_SIZE_SHIFT,
    FRAG_SIZE_ROUND_SHIFT, is_u32. cbn zeta.
  change 0x3 with (2 ^ 2 - 1). change 0xff with (2 ^ 8 - 1). change 0x1f with (2 ^ 5 - 1).
  change 0x3fff with (2 ^ 14 - 1). rewrite !land_mask by lia.
  rewrite Z.shiftr_0_r, !Z.shiftr_div_pow2, Z.shiftl_mul_pow2 by lia.
  change (2 ^ 2) with 4. change (2 ^ 8) with 256. change (2 ^ 10) with 1024.
  change (2 ^ 5) with 32. change (2 ^ 14) with 16384 in *. change (2 ^ 15) with 32768.
  split_and!; Z.to_euclidean_division_equations; lia.
Qed.

(** ** Sizes *)
Definition frag_count (len size : Z) : Z := (len + size - 1) / size.

Lemma land_round x : Z.land x (Z.lnot FRAG_SIZE_ROUND_MASK) = 4 * (x / 4).
Proof.
  change FRAG_SIZE_ROUND_MASK with (Z.ones 2). rewrite <- Z.ldiff_land, Z.ldiff_ones_r by lia.
  rewrite Z.shiftr_div_pow2, Z.shiftl_mul_pow2 by lia. change (2 ^ 2) with 4. lia.
Qed.

(** The fragment size.  For a datagram above the configured size the computed
    fragment size is a positive multiple of four, at most the configured size, and
    it needs exactly as many fragments as the largest aligned size. *)
Lemma optimal_fragment_size_same_count (len max : Z) :
  4 <= max <= 65535 -> max < len ->
  exists size, optimal_fragment_size len max = Ret size
    /\ 0 < size <= max /\ size mod 4 = 0
    /\ frag_count len size = frag_count len (4 * (max / 4)).
Proof.
  intros Hmax Hlen. unfold optimal_fragment_size. rewrite !land_round.
  set (m := 4 * (max / 4)).
  assert (Hm : 4 <= m <= max /\ max - m < 4 /\ m mod 4 = 0).
  { unfold m. Z.to_euclidean_division_equations. lia. }
  rewrite (proj2 (Z.eqb_neq m 0)) by lia.
  rewrite !Z.quot_div_nonneg, !Z.rem_mod_nonneg by lia.
  set (div := len / m). set (mod_ := len mod m).
  pose proof (Z.div_mod len m ltac:(lia)) as Hdm. fold div mod_ in Hdm.
  pose proof (Z.mod_pos_bound len m ltac:(lia)) as Hmod. fold mod_ in Hmod.
  assert (Hdiv : 1 <= div) by nia.
  destruct ((0 <? div) && (0 <? mod_) && (mod_ <? m * 3 / 4)) eqn:E;
    [|exists m; split_and!; [done|lia|lia|lia|done]].
  apply andb_true_iff in E as [[_ E1%Z.ltb_lt]%andb_true_iff E2%Z.ltb_lt].
  rewrite Z.quot_div_nonneg by lia.
  set (q := (max - mod_) / (div + 1)).
  assert (Hq : 0 <= q /\ (div + 1) * q <= max - mod_).
  { unfold q. split; [apply Z.div_pos; lia|apply Z.mul_div_le; lia]. }
  change FRAG_SIZE_ROUND_MASK with 3. set (s := 4 * ((max - q + 3) / 4)).
  assert (Hs : max - q <= s /\ s mod 4 = 0) by (unfold s; Z.to_euclidean_division_equations; lia).
  assert (Hcover : len <= (div + 1) * s) by nia.
  assert (Hmin : exists z, min_int m s = z /\ 0 < z <= m /\ z mod 4 = 0 /\ len <= (div + 1) * z).
  { eexists. split; [reflexivity|]. unfold min_int. destruct (Z.ltb_spec m s); [split_and!; lia|].
    split_and!; nia. }
  destruct Hmin as (z & -> & Hz1 & Hz2 & Hz3). exists z. split_and!; try lia; [done|].
  unfold frag_count. transitivity (div + 1); [|symmetry].
  - symmetry. apply (Z.div_unique_pos _ _ _ (len + z - 1 - z * (div + 1))); nia.
  - symmetry. apply (Z.div_unique_pos _ _ _ (mod_ - 1)); nia.
Qed.

(** ** The window over the sequence identifiers *)
Record list_wf (l : fragment_list) : Prop := {
  lw_seq : 0 <= fl_seq_id l < N_SEQ_ID;
  lw_index : 0 <= fl_index l < N_FRAG_BUF;
  lw_length : Zlen (fl_fragments l) = N_FRAG_BUF
}.

(** The buffer for the datagram [k] identifiers behind the newest one. *)
Definition back_index (l : fragment_list) (k : Z) : Z := (fl_index l - k) mod N_FRAG_BUF.
Definition back (l : fragment_list) (k : Z) : option fragment :=
  fl_fragments l !! Z.to_nat (back_index l k).

Definition opt_undefined (o : option fragment) : Prop :=
  exists fr, o = Some fr /\ fr_defined fr = false.

Lemma back_index_range l k : 0 <= back_index l k < N_FRAG_BUF.
Proof. apply Z.mod_pos_bound. done. Qed.

Lemma back_Some l k : list_wf l -> is_Some (back l k).
Proof.
  intros [_ _ Hl]. apply lookup_lt_is_Some_2. pose proof (back_index_range l k).
  unfold Zlen in Hl. lia.
Qed.

Lemma window_advance_spec n l :
  list_wf l -> Z.of_nat n < N_FRAG_BUF ->
  exists l', window_advance n l = Ret l' /\ list_wf l'
    /\ fl_seq_id l' = (fl_seq_id l + Z.of_nat n) mod N_SEQ_ID
    /\ (forall k, 0 <= k < Z.of_nat n -> opt_undefined (back l' k))
    /\ (forall k, Z.of_nat n <= k < N_FRAG_BUF -> back l' k = back l (k - Z.of_nat n)).
Proof.
  revert l. induction n as [|n IH]; intros l Hl Hn; cbn [window_advance].
  { exists l. split_and!; [done|done| |lia|].
    - rewrite Z.add_0_r. symmetry. apply Z.mod_small. apply Hl.
    - intros k _. by rewrite Z.sub_0_r. }
  pose proof Hl as [Hs Hi Hlen]. unfold N_FRAG_BUF, N_SEQ_ID in *.
  rewrite modulo_add_spec by lia. cbn [res_bind]. set (i := (fl_index l + 1) mod 25).
  assert (Hir : 0 <= i < 25) by (apply Z.mod_pos_bound; lia).
  destruct (lookup_lt_is_Some_2 (fl_fragments l) (Z.to_nat i)) as [fr Hfr]; [unfold Zlen in *; lia|].
  rewrite (proj2 (arr_get_Ret _ _ fr)) by (split; [lia|done]). cbn [res_bind].
  rewrite arr_set_ok by lia. cbn [res_bind]. rewrite modulo_add_spec by lia. cbn [res_bind].
  set (l1 := mk_fraglist _ i _).
  assert (Hl1 : list_wf l1).
  { constructor; cbn; [by apply Z.mod_pos_bound|done|]. unfold Zlen in *. by rewrite length_insert. }
  destruct (IH l1 Hl1) as (l' & -> & Hl' & Hseq & Hnew & Hold); [lia|].
  exists l'. split; [done|]. split; [done|].
  assert (Hb0 : back l1 0 = Some (undefine fr)).
  { unfold back, back_index, N_FRAG_BUF. cbn. rewrite Z.sub_0_r, Z.mod_small by lia.
    apply list_lookup_insert_eq. unfold Zlen in *. lia. }
  assert (Hb : forall k, 1 <= k < 25 -> back l1 k = back l (k - 1)).
  { intros k Hk. unfold back, back_index. cbn [fl_index fl_fragments l1]. unfold N_FRAG_BUF.
    assert (Hx : (i - k) mod 25 = (fl_index l - (k - 1)) mod 25).
    { unfold i. rewrite Zminus_mod_idemp_l. f_equal. lia. }
    rewrite Hx. rewrite list_lookup_insert_ne; [done|]. intros He. apply Z2Nat.inj in He; [|lia|apply Z.mod_pos_bound; lia].
    unfold i in He. revert Hk Hi He. clear. intros. Z.to_euclidean_division_equations. lia. }
  split_and!.
  - rewrite Hseq. cbn [fl_seq_id l1]. rewrite Zplus_mod_idemp_l. f_equal. lia.
  - intros k Hk. destruct (Z.lt_ge_cases k (Z.of_nat n)); [apply Hnew; lia|].
    rewrite Hold by lia. replace (k - Z.of_nat n) with 0 by lia. rewrite Hb0. by eexists.
  - intros k Hk. rewrite Hold by lia. rewrite Hb by lia. f_equal. lia.
Qed.

(** What [fragment_list_get_buf] does, by the distance to the newest identifier. *)
Definition get_buf_spec (l : fragment_list) (seq_id d i : Z) (l' : fragment_list) : Prop :=
  (N_FRAG_BUF <= Z.abs d ->
     fl_seq_id l' = seq_id /\ i = back_index l' 0
     /\ forall k, 0 <= k < N_FRAG_BUF -> opt_undefined (back l' k))
  /\ (0 < d < N_FRAG_BUF ->
     fl_seq_id l' = seq_id /\ i = back_index l' 0
     /\ (forall k, 0 <= k < d -> opt_undefined (back l' k))
     /\ (forall k, d <= k < N_FRAG_BUF -> back l' k = back l (k - d)))
  /\ (- N_FRAG_BUF < d <= 0 -> l' = l /\ i = back_index l' (- d)).

Lemma list_wf_reset l seq_id :
  list_wf l -> 0 <= seq_id < N_SEQ_ID ->
  let l' := mk_fraglist seq_id 0 (map undefine (fl_fragments l)) in
  list_wf l' /\ forall k, opt_undefined (back l' k).
Proof.
  intros Hl Hs l'. assert (Hl' : list_wf l').
  { destruct Hl as [_ _ Hlen]. constructor; cbn; [done|done|].
    unfold Zlen in *. by rewrite length_map. }
  split; [done|]. intros k. destruct (back_Some l' k Hl') as [fr Hfr]. rewrite Hfr.
  exists fr. split; [done|]. unfold back in Hfr. cbn in Hfr.
  change (map undefine (fl_fragments l)) with (undefine <$> fl_fragments l) in Hfr.
  rewrite list_lookup_fmap in Hfr. destruct (fl_fragments l !! _) as [x|]; cbn in Hfr; [|done].
  by injection Hfr as <-.
Qed.

Lemma get_buf_total l seq_id :
  list_wf l -> 0 <= seq_id < N_SEQ_ID ->
  exists d i l', modulo_subtract seq_id (fl_seq_id l) N_SEQ_ID = Ret d
    /\ (fl_seq_id l + d) mod N_SEQ_ID = seq_id
    /\ fragment_list_get_buf l seq_id = Ret (i, l') /\ list_wf l' /\ get_buf_spec l seq_id d i l'.
Proof.
  intros Hl Hs. pose proof Hl as [Hq Hi Hlen]. unfold N_SEQ_ID in *.
  destruct (modulo_subtract_spec seq_id (fl_seq_id l) 256) as (d & Hd & Hmod & Habs); [lia|lia|].
  exists d. unfold fragment_list_get_buf, N_SEQ_ID. rewrite Hd. cbn [res_bind].
  unfold get_buf_spec, N_FRAG_BUF in *.
  destruct (Z.leb_spec 25 (Z.abs d)) as [Hfar|Hnear].
  - destruct (list_wf_reset l seq_id Hl Hs) as [Hl' Hu]. change (Z.to_nat 0) with 0%nat. cbn [window_advance res_bind fl_index].
    change (modulo_add 0 _ 25) with (Ret 0 : res Z). cbn [res_bind]. eexists _, _. split_and!; try done; try lia.
  - destruct (Z.ltb_spec 0 d).
    + destruct (window_advance_spec (Z.to_nat d) l Hl) as (l' & -> & Hl' & Hseq & Hnew & Hold);
        [unfold N_FRAG_BUF; lia|]. cbn [res_bind].
      rewrite modulo_add_spec by (destruct Hl'; unfold N_FRAG_BUF in *; lia). cbn [res_bind].
      rewrite Z2Nat.id in * by lia. eexists _, _. split_and!; try done; try lia.
      intros _. split_and!; [by rewrite Hseq| |done|done].
      unfold back_index. by rewrite Z.add_0_r, Z.sub_0_r.
    + replace (Z.to_nat d) with 0%nat by lia. cbn [window_advance res_bind].
      rewrite modulo_add_spec by lia. cbn [res_bind].
      eexists _, _. split_and!; try done; try lia. intros _. split; [done|].
      unfold back_index. by rewrite Z.sub_opp_r.
Qed.

(** The answer is stable. *)
Lemma get_buf_again l seq_id i l' :
  list_wf l -> 0 <= seq_id < N_SEQ_ID -> fragment_list_get_buf l seq_id = Ret (i, l') ->
  fragment_list_get_buf l' seq_id = Ret (i, l').
Proof.
  intros Hl Hs Hg.
  destruct (get_buf_total l seq_id Hl Hs) as (d & i0 & l0 & Hd & Hmod & Hg0 & Hl0 & H1 & H2 & H3).
  rewrite Hg in Hg0. injection Hg0 as -> ->. unfold N_FRAG_BUF in *.
  assert (Hsame : fl_seq_id l0 = seq_id -> i0 = back_index l0 0 ->
            fragment_list_get_buf l0 seq_id = Ret (i0, l0)).
  { intros Hq Hi0. unfold fragment_list_get_buf, modulo_subtract. rewrite Hq, Z.sub_diag.
    rewrite Z.ltb_irrefl, (proj2 (Z.leb_le 0 seq_id)), (proj2 (Z.ltb_lt seq_id N_SEQ_ID)) by lia.
    cbn [andb]. change (Z.abs (N_SEQ_ID + 0) <? Z.abs 0) with false. cbn [res_bind].
    change (N_FRAG_BUF <=? Z.abs 0) with false. change (Z.to_nat 0) with 0%nat.
    cbn [window_advance res_bind]. change (if 0 <? 0 then 0 else 0) with 0. destruct Hl0 as [_ Hi1 _].
    change (Z.to_nat 0) with 0%nat. cbn [window_advance res_bind].
    rewrite modulo_add_spec by (unfold N_FRAG_BUF in *; lia). cbn [res_bind].
    rewrite Hi0. unfold back_index. by rewrite Z.add_0_r, Z.sub_0_r. }
  destruct (Z.le_gt_cases 25 (Z.abs d)); [destruct H1 as (? & ? & _); auto|].
  destruct (Z.lt_ge_cases 0 d); [destruct H2 as (? & ? & _); [lia|auto]|].
  destruct H3 as [-> _]; [lia|]. done.
Qed.

(** The reassembly window.  [fragment_list_get_buf] never leaves its array.  For
    an identifier ahead of the window by less than 25 the window moves up to it:
    the buffers of the datagrams that stay keep their contents, the others are
    cleared.  For one inside the window nothing changes; for any other one the
    window restarts there.  In each case the buffer returned is the one for that
    identifier, and asking again returns it again without a change. *)
Lemma fragment_window_slides (l : fragment_list) (seq_id : Z) :
  list_wf l -> 0 <= seq_id < N_SEQ_ID ->
  exists d i l', modulo_subtract seq_id (fl_seq_id l) N_SEQ_ID = Ret d
    /\ fragment_list_get_buf l seq_id = Ret (i, l') /\ list_wf l'
    /\ fragment_list_get_buf l' seq_id = Ret (i, l')
    /\ get_buf_spec l seq_id d i l'.
Proof.
  intros Hl Hs.
  destruct (get_buf_total l seq_id Hl Hs) as (d & i & l' & H1 & _ & H2 & H3 & H4).
  exists d, i, l'. split_and!; try done. exact (get_buf_again l seq_id i l' Hl Hs H2).
Qed.

Lemma list_wf_zero : list_wf (mk_fraglist 0 0 (replicate 25 frag_zero)).
Proof. constructor; try done; cbn; unfold N_SEQ_ID, N_FRAG_BUF; lia. Qed.

(** ** Reassembly *)

(** Writing into memory, byte by byte. *)
Lemma mem_write_lookup d pos src d' j :
  mem_write d pos src = Ret d' -> 0 <= j ->
  Zlen d' = Zlen d
  /\ d' !! Z.to_nat j = if (pos <=? j) && (j <? pos + Zlen src)
                        then src !! Z.to_nat (j - pos) else d !! Z.to_nat j.
Proof.
  unfold mem_write. destruct ((0 <=? pos) && (pos + Zlen src <=? Zlen d)) eqn:E; [|done].
  apply andb_true_iff in E as [E1%Z.leb_le E2%Z.leb_le]. unfold Zlen in *. intros [= <-] Hj.
  assert (Hlt : length (take (Z.to_nat pos) d) = Z.to_nat pos) by (rewrite length_take; lia).
  split; [rewrite !length_app, Hlt, length_drop; lia|].
  destruct (Z.leb_spec pos j); cbn [andb].
  - rewrite lookup_app_r by lia. rewrite Hlt.
    destruct (Z.ltb_spec j (pos + Z.of_nat (length src))).
    + rewrite lookup_app_l by lia. f_equal. lia.
    + rewrite lookup_app_r by lia. rewrite lookup_drop. f_equal. lia.
  - rewrite lookup_app_l by lia. rewrite lookup_take_lt by lia. done.
Qed.

(** [seq_id] is inside the window and its buffer is [i]. *)
Definition in_window (l : fragment_list) (seq_id i : Z) : Prop :=
  exists d, modulo_subtract seq_id (fl_seq_id l) N_SEQ_ID = Ret d
    /\ - N_FRAG_BUF < d <= 0 /\ i = back_index l (- d).

Lemma get_buf_in_window l seq_id i :
  list_wf l -> in_window l seq_id i -> fragment_list_get_buf l seq_id = Ret (i, l).
Proof.
  intros [_ Hi _] (d & Hd & Hr & ->). unfold N_FRAG_BUF in *.
  unfold fragment_list_get_buf. rewrite Hd. cbn [res_bind]. unfold N_FRAG_BUF.
  rewrite (proj2 (Z.leb_gt 25 (Z.abs d))) by lia. replace (Z.to_nat d) with 0%nat by lia.
  cbn [window_advance res_bind]. rewrite (proj2 (Z.ltb_ge 0 d)) by lia.
  rewrite modulo_add_spec by lia. cbn [res_bind]. unfold back_index. by rewrite Z.sub_opp_r.
Qed.

Lemma modulo_subtract_same x m : 0 <= x < m -> modulo_subtract x x m = Ret 0.
Proof.
  intros H. unfold modulo_subtract. rewrite Z.sub_diag, Z.ltb_irrefl.
  rewrite (proj2 (Z.leb_le 0 x)), (proj2 (Z.ltb_lt x m)) by lia. cbn [andb].
  rewrite (proj2 (Z.ltb_ge _ (Z.abs 0))) by lia. done.
Qed.

Lemma get_buf_enters l seq_id :
  list_wf l -> 0 <= seq_id < N_SEQ_ID ->
  exists i l', fragment_list_get_buf l seq_id = Ret (i, l') /\ list_wf l' /\ in_window l' seq_id i.
Proof.
  intros Hl Hs.
  destruct (get_buf_total l seq_id Hl Hs) as (d & i & l' & Hd & _ & Hg & Hl' & H1 & H2 & H3).
  exists i, l'. split; [done|]. split; [done|]. unfold N_FRAG_BUF in *.
  assert (Hz : fl_seq_id l' = seq_id -> i = back_index l' 0 -> in_window l' seq_id i).
  { intros Hq Hi. exists 0. rewrite Hq, modulo_subtract_same by done.
    split_and!; [done|unfold N_FRAG_BUF; lia|lia|done]. }
  destruct (Z.le_gt_cases 25 (Z.abs d)); [destruct H1 as (? & ? & _); auto|].
  destruct (Z.lt_ge_cases 0 d); [destruct H2 as (? & ? & _); [lia|auto]|].
  destruct H3 as [-> ?]; [lia|]. exists d. split_and!; [done|unfold N_FRAG_BUF; lia|lia|done].
Qed.

Section Reassembly.
Context (data : bytes) (size seq : Z) (f : frame).
Context (Hsize : 0 < size < 2 ^ 16) (Halign : size mod 4 = 0) (Hseq : 0 <= seq < N_SEQ_ID).
Context (Hdata : bytes_ok data) (Hlen : size < Zlen data).
Context (Hcount : Zlen data <= size * MAX_FRAGS).
Context (Hhead : 0 <= headroom f).

Definition nf : Z := frag_count (Zlen data) size.
Definition chunk (k : Z) : bytes := take (Z.to_nat size) (drop (Z.to_nat (k * size)) data).
Definition frag_type_of (k : Z) : Z := if k =? nf - 1 then FRAG_YES_LAST else FRAG_YES_NOTLAST.
(** The [k]-th part as it travels. *)
Definition wire (k : Z) : bytes :=
  be_bytes 4 (fragment_flags (frag_type_of k) seq k size) ++ chunk k.

Lemma nf_spec : 2 <= nf <= 32 /\ (nf - 1) * size < Zlen data <= nf * size.
Proof using Hsize Hlen Hcount.
  unfold nf, frag_count, MAX_FRAGS in *.
  pose proof (Z.div_mod (Zlen data + size - 1) size ltac:(lia)) as E.
  pose proof (Z.mod_pos_bound (Zlen data + size - 1) size ltac:(lia)).
  set (q := (Zlen data + size - 1) / size) in *. nia.
Qed.

Lemma Zlen_chunk k :
  0 <= k < nf -> Zlen (chunk k) = if k =? nf - 1 then Zlen data - k * size else size.
Proof using Hsize Hlen Hcount.
  intros Hk. pose proof nf_spec as [H1 H2]. unfold chunk, Zlen in *.
  rewrite length_take, length_drop. assert (0 <= k * size) by nia.
  destruct (Z.eqb_spec k (nf - 1)); nia.
Qed.

Lemma chunk_lookup k x :
  0 <= k < nf -> k * size <= x < k * size + Zlen (chunk k) ->
  chunk k !! Z.to_nat (x - k * size) = data !! Z.to_nat x.
Proof using Hsize Hlen Hcount.
  intros Hk Hx. rewrite Zlen_chunk in Hx by done. pose proof nf_spec.
  unfold chunk. assert (0 <= k * size) by nia.
  rewrite lookup_take_lt by (destruct (k =? nf - 1) eqn:E; [apply Z.eqb_eq in E; nia|lia]).
  rewrite lookup_drop. f_equal. lia.
Qed.

(** The map of received parts. *)
Definition map_ok (S : list Z) (map : Z) : Prop :=
  is_u32 map /\ forall j, 0 <= j < 32 ->
    Z.testbit map j = bool_decide (j ∈ S \/ (nf - 1 ∈ S /\ nf - 1 <= j)).

Lemma map_step S map k :
  map_ok S map -> 0 <= k < nf ->
  map_ok (k :: S) (Z.lor map (u32 (Z.shiftl (if frag_type_of k =? FRAG_YES_LAST
                                             then FRAG_MAP_MASK else 1) k))).
Proof.
  intros [Hm Hbits] Hk. pose proof nf_spec as [H1 _]. split.
  - pose proof (u32_range (Z.shiftl (if frag_type_of k =? FRAG_YES_LAST then FRAG_MAP_MASK else 1) k)) as Hu.
    unfold is_u32 in *. split; [apply Z.lor_nonneg; lia|].
    destruct (Z.eq_dec map 0) as [->|]; [rewrite Z.lor_0_l; lia|].
    set (y := u32 _) in *. destruct (Z.eq_dec y 0) as [->|]; [rewrite Z.lor_0_r; lia|].
    assert (0 <= Z.lor map y) by (apply Z.lor_nonneg; lia).
    assert (Z.lor map y <> 0) by (rewrite Z.lor_eq_0_iff; lia).
    apply Z.log2_lt_pow2; [lia|]. rewrite Z.log2_lor by lia.
    apply Z.max_lub_lt; apply Z.log2_lt_pow2; lia.
  - intros j Hj. rewrite Z.lor_spec, Hbits by done. unfold u32.
    rewrite Z.mod_pow2_bits_low by lia. rewrite Z.shiftl_spec by lia.
    unfold frag_type_of. destruct (Z.eqb_spec k (nf - 1)) as [->|Hne].
    + change (FRAG_YES_LAST =? FRAG_YES_LAST) with true. cbn iota.
      change FRAG_MAP_MASK with (Z.ones 32).
      destruct (Z.le_gt_cases (nf - 1) j).
      * rewrite Z.ones_spec_low by lia. rewrite orb_true_r. symmetry. apply bool_decide_true. set_solver.
      * rewrite Z.testbit_neg_r by lia. rewrite orb_false_r. apply bool_decide_ext.
        rewrite !elem_of_cons. intuition lia.
    + change (FRAG_YES_NOTLAST =? FRAG_YES_LAST) with false. cbn iota.
      destruct (Z.eq_dec j k) as [->|Hjk].
      * rewrite Z.sub_diag. change (Z.testbit 1 0) with true. rewrite orb_true_r.
        symmetry. apply bool_decide_true. set_solver.
      * replace (Z.testbit 1 (j - k)) with false.
        -- rewrite orb_false_r. apply bool_decide_ext. rewrite !elem_of_cons. intuition lia.
        -- symmetry. change 1 with (2 ^ 0). apply Z.pow2_bits_false. lia.
Qed.

(** The datagram is complete exactly when every part is in. *)
Lemma map_full S map :
  map_ok S map ->
  (Z.land map FRAG_MAP_MASK =? FRAG_MAP_MASK)
  = bool_decide (Forall (fun j => j ∈ S) (seqZ 0 nf)).
Proof.
  intros [Hm Hbits]. pose proof nf_spec as [H1 _].
  change FRAG_MAP_MASK with (Z.ones 32). rewrite Z.land_ones by lia.
  rewrite Z.mod_small by exact Hm.
  apply eq_bool_prop_intro. rewrite bool_decide_spec, Forall_forall, Is_true_true, Z.eqb_eq. split.
  - intros E j [Hj0 Hj]%elem_of_seqZ. specialize (Hbits j ltac:(lia)).
    rewrite E, Z.ones_spec_low in Hbits by lia. symmetry in Hbits.
    apply bool_decide_eq_true in Hbits as [?|[Hl ?]]; [done|]. by replace j with (nf - 1) by lia.
  - intros Hall. apply Z.bits_inj'. intros j Hj.
    destruct (Z.lt_ge_cases j 32).
    + rewrite Hbits, Z.ones_spec_low by lia. apply bool_decide_true.
      destruct (Z.lt_ge_cases j nf); [left; apply Hall, elem_of_seqZ; lia|right].
      split; [apply Hall, elem_of_seqZ; lia|lia].
    + rewrite Z.ones_spec_high by lia. rewrite <- (Z.mod_small map (2 ^ 32)) by exact Hm.
      by rewrite Z.mod_pow2_bits_high by lia.
Qed.

(** A reassembly buffer that holds the parts [S]. *)
Record slot_holds (S : list Z) (fr : fragment) (d : bytes) : Prop := {
  sh_data : b_data (fr_buf fr) = Some d;
  sh_cap : Zlen d = b_capacity (fr_buf fr);
  sh_room : headroom f + Zlen data <= b_capacity (fr_buf fr) < BUF_SIZE_MAX;
  sh_bytes : bytes_ok d;
  sh_empty : S = [] -> fr_defined fr = false;
  sh_size : S <> [] -> fr_defined fr = true /\ fr_max_frag_size fr = size;
  sh_map : S <> [] -> map_ok S (fr_map fr);
  sh_offset : S <> [] -> b_offset (fr_buf fr) = headroom f;
  sh_len : S <> [] -> 0 <= b_len (fr_buf fr) <= Zlen data
                     /\ (nf - 1 ∈ S -> b_len (fr_buf fr) = Zlen data);
  sh_parts : forall x, 0 <= x < Zlen data -> x / size ∈ S ->
             d !! Z.to_nat (headroom f + x) = data !! Z.to_nat x
}.

(** The buffer as the next part finds it, initialised if it is the first one. *)
Lemma slot_prepare S fr d :
  slot_holds S fr d -> Forall (fun k => 0 <= k < nf) S ->
  exists fr', (if negb (fr_defined fr) || negb (fr_max_frag_size fr =? size)
               then let '(ok, b) := buf_init_dowork (fr_buf fr) (headroom f) in
                    assert! ok in Ret (mk_fragment true size 0 (fr_timestamp fr) b)
               else Ret fr) = Ret fr'
    /\ fr_defined fr' = true /\ fr_max_frag_size fr' = size /\ map_ok S (fr_map fr')
    /\ b_offset (fr_buf fr') = headroom f /\ b_data (fr_buf fr') = Some d
    /\ b_capacity (fr_buf fr') = b_capacity (fr_buf fr)
    /\ 0 <= b_len (fr_buf fr') <= Zlen data
    /\ (nf - 1 ∈ S -> b_len (fr_buf fr') = Zlen data).
Proof.
  intros Hs HS. destruct Hs as [H1 H2 H3 H4 H5 H6 H7 H8 H9 H10]. destruct S as [|k S].
  - rewrite H5 by done. cbn [negb orb]. unfold buf_init_dowork, buf_defined. rewrite H1.
    pose proof (Zlen_nonneg data).
    rewrite (proj2 (Z.ltb_ge (headroom f) 0)), (proj2 (Z.ltb_ge _ (headroom f))) by lia.
    cbn [orb negb]. eexists. split; [reflexivity|]. cbn. split_and!; try done; try lia.
    + split; [unfold is_u32; lia|]. intros j Hj. rewrite Z.bits_0. symmetry. apply bool_decide_false. set_solver.
    + set_solver.
  - destruct (H6 ltac:(done)) as [Hd Hm]. destruct (H9 ltac:(done)) as [Hl1 Hl2].
    rewrite Hd, Hm, Z.eqb_refl. cbn [negb orb]. exists fr. split_and!; try done; auto; apply Hl1.
Qed.

(** Copying part [k] to its place. *)
Lemma part_copy fr d k buf h t :
  0 <= k < nf -> buf_repr buf h (chunk k) t ->
  b_offset (fr_buf fr) = headroom f -> b_data (fr_buf fr) = Some d ->
  Zlen d = b_capacity (fr_buf fr) -> headroom f + Zlen data <= b_capacity (fr_buf fr) ->
  0 <= b_len (fr_buf fr) ->
  exists d', buf_copy_range (fr_buf fr) (k * size) buf 0 (b_len buf)
      = Ret (true, mk_buffer (b_capacity (fr_buf fr)) (headroom f)
               (Z.max (b_len (fr_buf fr)) (k * size + Zlen (chunk k))) (Some d'))
    /\ mem_write d (headroom f + k * size) (chunk k) = Ret d'.
Proof.
  intros Hk Hbuf Hoff Hd Hcap Hroom Hlen0. pose proof nf_spec as [N1 N2].
  pose proof (Zlen_chunk k Hk) as Hc. pose proof (Zlen_nonneg (chunk k)).
  destruct (buf_repr_fields _ _ _ _ Hbuf) as (Ho & Hl & _).
  assert (Hks : 0 <= k * size) by nia.
  assert (Hend : k * size + Zlen (chunk k) <= Zlen data).
  { rewrite Hc. destruct (Z.eqb_spec k (nf - 1)); nia. }
  unfold buf_copy_range. rewrite Hl, Hoff.
  rewrite !(proj2 (Z.ltb_ge _ _)) by lia. cbn [orb].
  rewrite Z.add_0_r. pose proof (buf_bytes_repr _ _ _ _ Hbuf) as Hbb.
  assert (buf_peek buf (b_offset buf) (Zlen (chunk k)) = Ret (chunk k)) as ->.
  { unfold buf_bytes in Hbb. unfold buf_peek. destruct (b_data buf) eqn:E.
    - rewrite Hl in Hbb. rewrite (proj2 (Z.leb_le _ _)) in Hbb by lia. done.
    - destruct Hbuf as (pre & post & (Hx & _) & _). congruence. }
  cbn [res_bind]. unfold buf_poke. rewrite Hd.
  rewrite mem_write_ok by lia. cbn [res_bind]. eexists. split; [|reflexivity].
  cbn [b_len set_data b_offset b_capacity b_data set_window]. rewrite Hoff.
  destruct (Z.ltb_spec (b_len (fr_buf fr)) (k * size + Zlen (chunk k))).
  - rewrite Z.max_r by lia. done.
  - rewrite Z.max_l by lia. unfold set_data. by rewrite Hoff.
Qed.

(** What the header of part [k] says. *)
Lemma wire_header k :
  0 <= k < nf ->
  let flags := fragment_flags (frag_type_of k) seq k size in
  is_u32 flags
  /\ Z.land (Z.shiftr flags FRAG_TYPE_SHIFT) FRAG_TYPE_MASK = frag_type_of k
  /\ Z.land (Z.shiftr flags FRAG_SEQ_ID_SHIFT) FRAG_SEQ_ID_MASK = seq
  /\ Z.land (Z.shiftr flags FRAG_ID_SHIFT) FRAG_ID_MASK = k
  /\ (if frag_type_of k =? FRAG_YES_LAST
      then Z.shiftl (Z.land (Z.shiftr flags FRAG_SIZE_SHIFT) FRAG_SIZE_MASK) FRAG_SIZE_ROUND_SHIFT
      else Zlen (chunk k)) = size.
Proof.
  intros Hk. pose proof nf_spec as [N1 N2].
  assert (Hq : 4 * (size / 4) = size) by (Z.to_euclidean_division_equations; lia).
  assert (Hf : fields_ok (frag_type_of k) seq k (size / 4)).
  { constructor; [|exact Hseq|lia|].
    - unfold frag_type_of, FRAG_YES_LAST, FRAG_YES_NOTLAST. destruct (k =? nf - 1); lia.
    - change (2 ^ 14) with 16384. change (2 ^ 16) with 65536 in *.
      Z.to_euclidean_division_equations; lia. }
  cbn zeta. rewrite fragment_flags_packed by (done || lia).
  set (sz := if _ || _ then 0 else size / 4).
  assert (Hf' : fields_ok (frag_type_of k) seq k sz).
  { destruct Hf as [F1 F2 F3 F4]. constructor; try done. unfold sz. destruct (_ || _); lia. }
  destruct (packed_fields _ _ _ _ Hf') as (P1 & P2 & P3 & P4 & P5). split_and!; try done.
  rewrite P5. pose proof (Zlen_chunk k Hk) as Hc. unfold sz, frag_type_of in *.
  destruct (k =? nf - 1).
  - change (FRAG_YES_LAST =? FRAG_YES_LAST) with true. cbn. exact Hq.
  - exact Hc.
Qed.

Lemma size_aligned : (Z.land size FRAG_SIZE_ROUND_MASK =? 0) = true.
Proof.
  change FRAG_SIZE_ROUND_MASK with (2 ^ 2 - 1). rewrite land_mask by lia.
  change (2 ^ 2) with 4. by rewrite Halign.
Qed.

(** The receiver, with the parts [S] of the datagram in. *)
Definition recv_state (S : list Z) (m : fragment_master) : Prop :=
  exists i l fr d, fragment_list_get_buf (incoming m) seq = Ret (i, l) /\ list_wf l
    /\ in_window l seq i /\ 0 <= i < N_FRAG_BUF
    /\ fl_fragments l !! Z.to_nat i = Some fr /\ slot_holds S fr d.

(** The buffer after part [k]. *)
Lemma slot_step S fr d k d' t :
  slot_holds S fr d -> 0 <= k < nf ->
  mem_write d (headroom f + k * size) (chunk k) = Ret d' ->
  forall len map, 0 <= len <= Zlen data -> (nf - 1 ∈ S -> len = Zlen data) -> map_ok S map ->
  let len' := Z.max len (k * size + Zlen (chunk k)) in
  let fr' := mk_fragment true size
     (Z.lor map (u32 (Z.shiftl (if frag_type_of k =? FRAG_YES_LAST then FRAG_MAP_MASK else 1) k))) t
     (mk_buffer (b_capacity (fr_buf fr)) (headroom f) len' (Some d')) in
  slot_holds (k :: S) fr' d'.
Proof.
  intros Hs Hk Hw len map Hl1 Hl2 Hmap len' fr'. pose proof nf_spec as [N1 N2].
  destruct Hs as [H1 H2 H3 H4 H5 H6 H7 H8 H9 H10].
  pose proof (Zlen_chunk k Hk) as Hc.
  assert (Hks : 0 <= k * size) by nia.
  assert (Hend : k * size + Zlen (chunk k) <= Zlen data
                 /\ (k = nf - 1 -> k * size + Zlen (chunk k) = Zlen data)).
  { rewrite Hc. destruct (Z.eqb_spec k (nf - 1)); nia. }
  destruct (mem_write_lookup d _ _ d' 0 Hw ltac:(lia)) as [Hdl _].
  constructor; cbn; try done.
  - lia.
  - unfold mem_write in Hw. destruct (_ && _); [|done]. injection Hw as <-.
    apply bytes_ok_app. split; [by apply Forall_take|]. apply bytes_ok_app.
    split; [apply Forall_take, Forall_drop, Hdata|by apply Forall_drop].
  - intros _. by apply map_step.
  - intros _. split; [unfold len'; pose proof (Zlen_nonneg (chunk k)); lia|].
    intros [Heq|Hin]%elem_of_cons; unfold len'; [destruct Hend as [_ Hend]; lia|].
    specialize (Hl2 Hin). lia.
  - intros x Hx Hin. destruct (mem_write_lookup d _ _ d' (headroom f + x) Hw ltac:(lia)) as [_ ->].
    pose proof (Z.div_mod x size ltac:(lia)) as Hdm.
    pose proof (Z.mod_pos_bound x size ltac:(lia)) as Hmb.
    destruct ((headroom f + k * size <=? headroom f + x)
              && (headroom f + x <? headroom f + k * size + Zlen (chunk k))) eqn:E.
    + apply andb_true_iff in E as [E1%Z.leb_le E2%Z.ltb_lt].
      replace (headroom f + x - (headroom f + k * size)) with (x - k * size) by lia.
      apply chunk_lookup; [done|lia].
    + apply elem_of_cons in Hin as [Heq|Hin]; [exfalso|by apply H10].
      apply andb_false_iff in E as [E%Z.leb_gt|E%Z.ltb_ge]; [nia|].
      rewrite Hc in E. destruct (Z.eqb_spec k (nf - 1)); nia.
Qed.

(** All parts in: the buffer is the datagram. *)
Lemma slot_complete S fr d :
  slot_holds S fr d -> Forall (fun j => j ∈ S) (seqZ 0 nf) -> contents (fr_buf fr) = data.
Proof.
  intros Hs Hall. pose proof nf_spec as [N1 N2]. rewrite Forall_forall in Hall.
  assert (Hne : S <> []).
  { intros ->. specialize (Hall 0). apply not_elem_of_nil in Hall; [done|]. apply elem_of_seqZ. lia. }
  destruct Hs as [H1 H2 H3 H4 H5 H6 H7 H8 H9 H10].
  destruct (H9 Hne) as [_ Hl]. specialize (H8 Hne).
  assert (b_len (fr_buf fr) = Zlen data) as Hlen' by (apply Hl, Hall, elem_of_seqZ; lia).
  unfold contents. rewrite H1, Hlen', H8, to_nat_Zlen.
  apply list_eq. intros j. destruct (decide (j < length data)%nat) as [Hj|Hj].
  - rewrite lookup_take_lt, lookup_drop by done.
    specialize (H10 (Z.of_nat j)). rewrite Nat2Z.id in H10. rewrite <- H10.
    + f_equal. lia.
    + unfold Zlen. lia.
    + apply Hall, elem_of_seqZ. unfold Zlen in *. split; [apply Z.div_pos; lia|].
      apply Z.div_lt_upper_bound; [lia|]. lia.
  - rewrite lookup_ge_None_2 by (rewrite length_take; lia). by rewrite lookup_ge_None_2 by lia.
Qed.

Lemma fragment_incoming_step S m k buf h tl t :
  recv_state S m -> Forall (fun j => 0 <= j < nf) S -> 0 <= k < nf -> buf_repr buf h (wire k) tl ->
  exists out m', fragment_incoming m buf f t = Ret (out, m')
    /\ if bool_decide (Forall (fun j => j ∈ k :: S) (seqZ 0 nf))
       then contents out = data else b_len out = 0 /\ recv_state (k :: S) m'.
Proof.
  intros (i & l & fr & d & Hget & Hl & Hwin & Hi & Hfr & Hs) HS Hk Hbuf.
  pose proof (wire_header k Hk) as (W1 & W2 & W3 & W4 & W5).
  set (flags := fragment_flags (frag_type_of k) seq k size) in *.
  unfold wire in Hbuf. fold flags in Hbuf.
  destruct (buf_repr_fields _ _ _ _ Hbuf) as (_ & Hbl & _).
  rewrite Zlen_app, Zlen_be_bytes in Hbl. pose proof (Zlen_nonneg (chunk k)).
  unfold fragment_incoming. rewrite Hbl, (proj2 (Z.ltb_lt _ _)) by lia.
  destruct (buf_read_repr _ _ _ _ Hbuf 4) as (b1 & -> & Hb1).
  { rewrite Zlen_app, Zlen_be_bytes. lia. }
  change (Z.to_nat 4) with 4%nat in *.
  rewrite take_app_length' by (by rewrite length_be_bytes).
  rewrite drop_app_length' in Hb1 by (by rewrite length_be_bytes).
  cbn [res_bind]. rewrite be_val_bytes. change (256 ^ Z.of_nat 4) with (2 ^ 32).
  rewrite (Z.mod_small flags) by exact W1. rewrite W2.
  assert (Htype : (frag_type_of k =? FRAG_WHOLE) = false
                  /\ (frag_type_of k =? FRAG_YES_NOTLAST) || (frag_type_of k =? FRAG_YES_LAST) = true).
  { unfold frag_type_of. by destruct (k =? nf - 1). }
  destruct Htype as [-> ->]. unfold fragment_part. rewrite W3, W4.
  destruct (buf_repr_fields _ _ _ _ Hb1) as (_ & Hb1l & _). rewrite Hb1l, W5, Hget.
  cbn [res_bind]. rewrite size_aligned. cbn [negb].
  rewrite (proj2 (arr_get_Ret _ _ fr)) by (split; [lia|done]). cbn [res_bind].
  destruct (slot_prepare S fr d Hs HS) as (fr1 & -> & D1 & D2 & D3 & D4 & D5 & D6 & D7 & D8).
  cbn [res_bind]. pose proof Hs as [_ Hcap Hroom _ _ _ _ _ _ _].
  destruct (part_copy fr1 d k b1 _ _ Hk Hb1 D4 D5) as (d' & Hcopy & Hw); try (rewrite D6; lia); [lia|].
  rewrite Hb1l in Hcopy. rewrite Hcopy. cbn [res_bind negb]. rewrite D2, D1.
  pose proof (slot_step S fr d k d' t Hs Hk Hw (b_len (fr_buf fr1)) (fr_map fr1) D7 D8 D3) as Hstep.
  cbn zeta in Hstep. rewrite <- D6 in Hstep.
  set (fr2 := mk_fragment true size _ t _) in Hstep.
  assert (Hmask : map_ok (k :: S) (fr_map fr2)) by (apply Hstep; done).
  pose proof (map_full (k :: S) (fr_map fr2) Hmask) as Hmf. unfold fr2 in Hmf. cbn [fr_map] in Hmf. rewrite Hmf.
  destruct (bool_decide_reflect (Forall (fun j => j ∈ k :: S) (seqZ 0 nf))) as [Hall|Hnot];
    cbn [res_bind].
  - rewrite arr_set_ok by (destruct Hl; lia). cbn [res_bind]. eexists _, _. split; [reflexivity|].
    exact (slot_complete _ _ _ Hstep Hall).
  - rewrite arr_set_ok by (destruct Hl; lia). cbn [res_bind]. eexists _, _. split; [reflexivity|].
    split; [done|]. set (l2 := mk_fraglist _ _ _).
    assert (Hl2 : list_wf l2).
    { destruct Hl as [L1 L2 L3]. constructor; cbn; [done|done|]. unfold Zlen in *. by rewrite length_insert. }
    exists i, l2, fr2, d'. split_and!; try done; try lia.
    + by apply get_buf_in_window.
    + cbn. apply list_lookup_insert_eq. destruct Hl as [_ _ L3]. unfold Zlen in L3. lia.
Qed.

(** *** The sender *)
Record return_ok (b : buffer) : Prop := {
  ro_wf : buf_wf b;
  ro_data : b_data b <> None;
  ro_room : headroom f + size <= b_capacity b;
  ro_head : 4 <= headroom f
}.

(** Parts [k] and later are still to be sent. *)
Record send_state (k : Z) (m : fragment_master) : Prop := {
  ss_out : exists h t, buf_repr (outgoing m) h (drop (Z.to_nat (k * size)) data) t;
  ss_seq : outgoing_seq_id m = seq;
  ss_size : outgoing_frag_size m = size;
  ss_id : outgoing_frag_id m = k;
  ss_return : return_ok (outgoing_return m)
}.

(** The structure keeps its window while the bytes behind it change. *)
Lemma return_alias b b' h c t :
  return_ok b -> buf_repr b' h c t -> b_capacity b' = b_capacity b ->
  return_ok (mk_buffer (b_capacity b) (b_offset b) (b_len b) (b_data b')).
Proof.
  intros [W D R H] Hb' Hc. pose proof (buf_repr_wf _ _ _ _ Hb') as W'. unfold buf_wf in *.
  destruct (b_data b) as [d|]; [|done]. destruct Hb' as (pre & post & (Hd & _) & _).
  rewrite Hd in *. constructor; cbn; [|done|lia|done]. unfold buf_wf. cbn.
  destruct W as (W1 & W2 & W3 & W4 & W5 & W6), W' as (V1 & V2 & V3 & V4 & V5 & V6).
  split_and!; try done; lia.
Qed.

Lemma send_step k m buf :
  send_state k m -> 0 <= k < nf ->
  exists b m' h t, fragment_ready_to_send m buf f = Ret (true, b, m') /\ send_state (k + 1) m'
    /\ buf_repr b h (wire k) t.
Proof.
  intros [(h & t & Hout) Sseq Ssize Sid Sret] Hk. pose proof nf_spec as [N1 N2].
  pose proof (Zlen_chunk k Hk) as Hc. assert (Hks : 0 <= k * size) by nia.
  set (rest := drop (Z.to_nat (k * size)) data) in *.
  assert (Hrest : Zlen rest = Zlen data - k * size).
  { unfold rest, Zlen in *. rewrite length_drop. nia. }
  assert (Hlast : (Zlen rest <=? size) = (k =? nf - 1)).
  { rewrite Hrest. destruct (Z.eqb_spec k (nf - 1)) as [->|]; [apply Z.leb_le; nia|apply Z.leb_gt; nia]. }
  destruct (buf_repr_fields _ _ _ _ Hout) as (_ & Hol & _).
  unfold fragment_ready_to_send, fragment_outgoing_defined. rewrite Hol, Ssize.
  rewrite (proj2 (Z.ltb_lt 0 _)) by (rewrite Hrest; nia). rewrite Hlast.
  set (sz := if k =? nf - 1 then Zlen rest else size).
  assert (Hsz : sz = Zlen (chunk k)).
  { unfold sz. rewrite Hc, Hrest. by destruct (k =? nf - 1). }
  assert (Hszr : 0 <= sz <= Zlen rest).
  { rewrite Hsz, Hc, Hrest. destruct (Z.eqb_spec k (nf - 1)); nia. }
  assert (Hchunk : take (Z.to_nat sz) rest = chunk k).
  { unfold chunk. fold rest. unfold sz. destruct (Z.eqb_spec k (nf - 1)) as [->|]; [|done].
    rewrite to_nat_Zlen, !take_ge; [done| |done]. unfold Zlen in *. nia. }
  destruct Sret as [W D R H4].
  destruct (buf_init_repr (outgoing_return m) (headroom f) W D) as (b0 & -> & Hb0).
  { assert (0 < size) by lia. lia. }
  rewrite buf_copy_n_read. destruct (buf_read_repr _ _ _ _ Hout sz Hszr) as (out' & -> & Hout').
  cbn [res_bind]. rewrite Hchunk.
  assert (Hbok : bytes_ok (chunk k)) by (apply Forall_take, Forall_drop, Hdata).
  assert (Hfits : Zlen (chunk k) <= size).
  { rewrite Hc. destruct (Z.eqb_spec k (nf - 1)); nia. }
  destruct (buf_write_repr _ _ _ _ Hb0 (chunk k) Hbok) as (b1 & -> & Hb1); [lia|]. cbn [res_bind app] in *.
  unfold fragment_prepend_flags. rewrite Sseq, Sid.
  assert (Htype : (if k =? nf - 1 then FRAG_YES_LAST else FRAG_YES_NOTLAST) = frag_type_of k) by done.
  rewrite Htype.
  destruct (buf_write_prepend_repr _ _ _ _ Hb1 (be_bytes 4 (fragment_flags (frag_type_of k) seq k size)))
    as (b2 & -> & Hb2); [apply be_bytes_ok|rewrite Zlen_be_bytes; lia|]. cbn [res_bind].
  assert (Hol' : b_len out' = Zlen rest - sz).
  { destruct (buf_repr_fields _ _ _ _ Hout') as (_ & -> & _). unfold Zlen in *. rewrite length_drop. lia. }
  rewrite Hol'. replace (negb (k =? nf - 1) || (Zlen rest - sz =? 0)) with true.
  2:{ unfold sz. destruct (k =? nf - 1); cbn; [|done]. symmetry. apply Z.eqb_eq. lia. }
  eexists b2, _, _, _. split; [reflexivity|]. split; [|exact Hb2].
  constructor; cbn; try done; [|].
  - unfold rest in Hout'. rewrite drop_drop in Hout'. eexists _, _.
    replace (drop (Z.to_nat ((k + 1) * size)) data)
      with (drop (Z.to_nat (k * size) + Z.to_nat sz) data); [exact Hout'|].
    destruct (Z.eqb_spec k (nf - 1)) as [->|] in sz.
    + unfold sz. unfold Zlen in *. rewrite !drop_ge; [done|nia|nia].
    + f_equal. unfold sz. nia.
  - eapply return_alias; [by constructor|exact Hb2|].
    destruct (buf_repr_fields _ _ _ _ Hb2) as (_ & _ & -> & _).
    rewrite Zlen_app. lia.
Qed.
End Reassembly.

(** ** Round trip *)

(** The sender's side of one datagram: [fragment_outgoing], then
    [fragment_ready_to_send] until nothing is left; each buffer is consumed before
    the next call. *)
Fixpoint send_rest (fuel : nat) (m : fragment_master) (buf : buffer) (f : frame) : res (list bytes) :=
  match fuel with
  | O => UB
  | S fuel =>
      let! (ok, buf, m) := fragment_ready_to_send m buf f in
      if ok : bool then let! rest := send_rest fuel m buf f in Ret (contents buf :: rest)
      else Ret []
  end.
Definition send_datagram (m : fragment_master) (buf : buffer) (f : frame) : res (list bytes) :=
  let! (buf, m) := fragment_outgoing m buf f in
  let! rest := send_rest (S (Z.to_nat MAX_FRAGS)) m buf f in
  Ret (contents buf :: rest).

(** A received datagram in a buffer of its own, and a sequence of them. *)
Definition wire_buf (w : bytes) : buffer := mk_buffer (Zlen w) 0 (Zlen w) (Some w).
Fixpoint receive_all (m : fragment_master) (f : frame) (t : Z) (ws : list bytes)
  : res (list bytes * fragment_master) :=
  match ws with
  | [] => Ret ([], m)
  | w :: ws => let! (out, m) := fragment_incoming m (wire_buf w) f t in
               let! (outs, m) := receive_all m f t ws in
               Ret (contents out :: outs, m)
  end.

Lemma wire_buf_repr w : bytes_ok w -> Zlen w < BUF_SIZE_MAX -> buf_repr (wire_buf w) 0 w 0.
Proof.
  intros Hok Hlt. exists [], []. split; [|done]. unfold buf_split, wire_buf. cbn.
  rewrite app_nil_r. split_and!; try done; try (unfold Zlen; cbn; lia); by apply Forall_nil.
Qed.

Lemma contents_len_0 b : b_len b = 0 -> contents b = [].
Proof. intros H. unfold contents. rewrite H. by destruct (b_data b). Qed.

Section RoundTrip.
Context (data : bytes) (size seq : Z) (f : frame).
Context (Hsize : 0 < size < 2 ^ 16) (Halign : size mod 4 = 0) (Hseq : 0 <= seq < N_SEQ_ID).
Context (Hdata : bytes_ok data) (Hlen : size < Zlen data).
Context (Hcount : Zlen data <= size * MAX_FRAGS).
Context (Hhead : 0 <= headroom f).

Abbreviation wire := (wire data size seq).
Abbreviation nf := (nf data size).
Abbreviation chunk := (chunk data size).

Lemma wire_ok k : 0 <= k < nf -> bytes_ok (wire k) /\ Zlen (wire k) < BUF_SIZE_MAX.
Proof using Hsize Hlen Hcount Hdata.
  intros Hk. unfold wire. split.
  - apply bytes_ok_app. split; [apply be_bytes_ok|apply Forall_take, Forall_drop, Hdata].
  - rewrite Zlen_app, Zlen_be_bytes, Zlen_chunk by done. pose proof (nf_spec data size Hsize Hlen Hcount).
    unfold BUF_SIZE_MAX, MAX_FRAGS in *. destruct (Z.eqb_spec k (nf - 1)); nia.
Qed.

Lemma wire_inj j k : 0 <= j < nf -> 0 <= k < nf -> wire j = wire k -> j = k.
Proof using Hsize Halign Hseq Hlen Hcount.
  intros Hj Hk E. unfold wire in E.
  apply (f_equal (take 4)) in E. rewrite !take_app_length' in E by (by rewrite length_be_bytes).
  apply (f_equal be_val) in E. rewrite !be_val_bytes in E. change (256 ^ Z.of_nat 4) with (2 ^ 32) in E.
  destruct (wire_header data size seq Hsize Halign Hseq Hlen Hcount j Hj) as (J1 & _ & _ & J2 & _).
  destruct (wire_header data size seq Hsize Halign Hseq Hlen Hcount k Hk) as (K1 & _ & _ & K2 & _).
  rewrite !Z.mod_small in E by done. by rewrite <- J2, <- K2, E.
Qed.

Lemma send_rest_spec n k m buf :
  send_state data size seq f k m -> 0 <= k -> nf = k + Z.of_nat n ->
  forall fuel, (n < fuel)%nat ->
  send_rest fuel m buf f = Ret (map wire (seqZ k (Z.of_nat n))).
Proof using Hsize Halign Hseq Hdata Hlen Hcount Hhead.
  revert k m buf. induction n as [|n IH]; intros k m buf Hs Hk Hnf fuel Hfuel;
    destruct fuel as [|fuel]; try lia; cbn [send_rest].
  - destruct Hs as [(h & t & Hout) _ _ _ _]. unfold fragment_ready_to_send, fragment_outgoing_defined.
    destruct (buf_repr_fields _ _ _ _ Hout) as (_ & -> & _).
    pose proof (nf_spec data size Hsize Hlen Hcount) as [_ Hn].
    rewrite drop_ge by (unfold Zlen in *; nia). done.
  - destruct (send_step data size seq f Hsize Hdata Hlen Hcount Hhead k m buf Hs)
      as (b & m' & h & t & -> & Hs' & Hb); [lia|]. cbn [res_bind].
    rewrite (IH (k + 1) m' b Hs') by lia. cbn [res_bind].
    rewrite (buf_repr_contents _ _ _ _ Hb). replace (Z.of_nat (S n)) with (1 + Z.of_nat n) by lia.
    rewrite seqZ_app by lia. done.
Qed.

(** Parts arrive in any order, any number of times, until the last missing one. *)
Lemma receive_all_spec ks k S m t :
  recv_state data size seq f S m -> Forall (fun j => 0 <= j < nf) (S ++ ks) -> 0 <= k < nf ->
  ~ Forall (fun j => j ∈ S ++ ks) (seqZ 0 nf) -> Forall (fun j => j ∈ k :: S ++ ks) (seqZ 0 nf) ->
  exists m', receive_all m f t (map wire (ks ++ [k])) = Ret (map (fun _ => []) ks ++ [data], m').
Proof using Hsize Halign Hseq Hdata Hlen Hcount Hhead.
  revert S m. induction ks as [|j ks IH]; intros S m Hs HS Hk Hnot Hall; cbn [map app receive_all].
  - rewrite app_nil_r in *. destruct (wire_ok k Hk) as [W1 W2].
    destruct (fragment_incoming_step data size seq f Hsize Halign Hseq Hdata Hlen Hcount Hhead
                S m k _ _ _ t Hs HS Hk (wire_buf_repr _ W1 W2)) as (out & m' & -> & Hout).
    cbn [res_bind]. rewrite bool_decide_true in Hout by done. rewrite Hout. eauto.
  - apply Forall_app in HS as [HS [Hj Hks]%Forall_cons].
    destruct (wire_ok j Hj) as [W1 W2].
    destruct (fragment_incoming_step data size seq f Hsize Halign Hseq Hdata Hlen Hcount Hhead
                S m j _ _ _ t Hs HS Hj (wire_buf_repr _ W1 W2)) as (out & m' & -> & Hout).
    assert (Hmem : forall x, x ∈ S ++ j :: ks <-> x ∈ (j :: S) ++ ks) by set_solver.
    rewrite bool_decide_false in Hout.
    2:{ intros Hf. apply Hnot. eapply Forall_impl; [exact Hf|]. cbn. set_solver. }
    destruct Hout as [Hl Hs']. cbn [res_bind]. rewrite (contents_len_0 _ Hl).
    destruct (IH (j :: S) m' Hs') as [m'' ->].
    + apply Forall_app. split; [by constructor|done].
    + done.
    + intros Hf. apply Hnot. eapply Forall_impl; [exact Hf|]. intros x. apply Hmem.
    + eapply Forall_impl; [exact Hall|]. cbn. set_solver.
    + eauto.
Qed.
End RoundTrip.

(** The buffers of [fragment_frame_init]: room for a datagram of [n] bytes. *)
Record buffer_for (f : frame) (n : Z) (b : buffer) : Prop := {
  bf_wf : buf_wf b;
  bf_data : b_data b <> None;
  bf_room : headroom f + n <= b_capacity b
}.
Record sender_ok (m : fragment_master) (f : frame) (n : Z) : Prop := {
  so_head : 4 <= headroom f;
  so_out : buffer_for f n (outgoing m);
  so_return : buffer_for f n (outgoing_return m);
  so_seq : 0 <= outgoing_seq_id m < N_SEQ_ID
}.
(** No datagram is being reassembled under the identifier [seq]. *)
Record receiver_ok (m : fragment_master) (f : frame) (seq n : Z) : Prop := {
  ro_list : list_wf (incoming m);
  ro_slot : forall i l fr, fragment_list_get_buf (incoming m) seq = Ret (i, l) ->
            fl_fragments l !! Z.to_nat i = Some fr ->
            fr_defined fr = false /\ buffer_for f n (fr_buf fr)
}.

Lemma receiver_start m f data size seq :
  0 <= seq < N_SEQ_ID -> receiver_ok m f seq (Zlen data) -> recv_state data size seq f [] m.
Proof.
  intros Hseq [Hl Hslot]. destruct (get_buf_enters _ seq Hl Hseq) as (i & l & Hg & Hl' & Hw).
  pose proof Hw as (d & _ & _ & Hi). pose proof (back_index_range l (- d)) as Hir. rewrite <- Hi in Hir.
  destruct (lookup_lt_is_Some_2 (fl_fragments l) (Z.to_nat i)) as [fr Hfr].
  { destruct Hl' as [_ _ Hn]. unfold Zlen in Hn. lia. }
  destruct (Hslot i l fr Hg Hfr) as [Hd [Hwf Hdat Hroom]]. unfold buf_wf in Hwf.
  destruct (b_data (fr_buf fr)) as [bd|] eqn:E; [|done].
  destruct Hwf as (W1 & W2 & W3 & W4 & W5 & W6).
  exists i, l, fr, bd. split_and!; try done; try lia.
  constructor; try done; try lia. set_solver.
Qed.

Lemma fragment_outgoing_first m buf f h data t size :
  sender_ok m f (Zlen data) -> buf_repr buf h data t -> max_fragment_size f < Zlen data ->
  optimal_fragment_size (Zlen data) (max_fragment_size f) = Ret size ->
  0 < size <= max_fragment_size f -> 4 <= max_fragment_size f <= 65535 ->
  Zlen data <= size * MAX_FRAGS ->
  let seq := (outgoing_seq_id m + 1) mod N_SEQ_ID in
  exists m0 buf0, fragment_outgoing m buf f = (let! (ok, b, m) := fragment_ready_to_send m0 buf0 f in
                                        assert! ok in Ret (b, m))
    /\ send_state data size seq f 0 m0.
Proof.
  intros [Hh Hout Hret Hsq] Hbuf Hgt Hopt Hsz Hmax Hcnt seq. unfold fragment_outgoing.
  destruct (buf_repr_fields _ _ _ _ Hbuf) as (_ & Hbl & _). rewrite Hbl.
  rewrite (proj2 (Z.ltb_lt 0 _)), (proj2 (Z.ltb_lt (max_fragment_size f) _)) by lia.
  rewrite Hopt. cbn [res_bind]. rewrite (proj2 (Z.ltb_ge (size * MAX_FRAGS) _)) by lia.
  cbn [outgoing outgoing_seq_id fm_wakeup outgoing_return incoming].
  destruct Hout as [W D R]. destruct Hret as [W2 D2 R2].
  destruct (buf_init_repr (outgoing m) (headroom f) W D) as (b0 & -> & Hb0); [lia|].
  unfold buf_copy. rewrite (buf_bytes_repr _ _ _ _ Hbuf). cbn [res_bind].
  destruct (buf_write_repr _ _ _ _ Hb0 data) as (b1 & -> & Hb1); [|lia|].
  { apply (buf_repr_fields _ _ _ _ Hbuf). }
  cbn [res_bind app] in *. rewrite modulo_add_spec by (unfold N_SEQ_ID in *; lia). cbn [res_bind].
  eexists _, _. split; [reflexivity|]. constructor; cbn; try done.
  - eexists _, _. exact Hb1.
  - constructor; try done. lia.
Qed.

Lemma wires_to_indices ws (g : Z -> bytes) n :
  Forall (fun w => w ∈ map g (seqZ 0 n)) ws ->
  exists ks, ws = map g ks /\ Forall (fun k => 0 <= k < n) ks.
Proof.
  induction 1 as [|w ws Hw _ (ks & -> & Hks)]; [by exists []|].
  apply list_elem_of_In, in_map_iff in Hw as (k & <- & Hk%list_elem_of_In%elem_of_seqZ).
  exists (k :: ks). split; [done|]. constructor; [lia|done].
Qed.

(** C32: fragmentation round trip.  A datagram above the fragment size (and within 32
    fragments) is sent as two or more fragments.  However they are reordered and
    repeated on the way, the receiver outputs nothing until the last missing one
    arrives, and then outputs the original datagram. *)
Theorem fragment_roundtrip (m mr : fragment_master) (f : frame) (buf : buffer)
    (data : bytes) (h t size now : Z) :
  sender_ok m f (Zlen data) ->
  receiver_ok mr f ((outgoing_seq_id m + 1) mod N_SEQ_ID) (Zlen data) ->
  buf_repr buf h data t ->
  4 <= max_fragment_size f <= 65535 -> max_fragment_size f < Zlen data ->
  optimal_fragment_size (Zlen data) (max_fragment_size f) = Ret size ->
  0 < size <= max_fragment_size f -> size mod 4 = 0 -> Zlen data <= size * MAX_FRAGS ->
  exists wires, send_datagram m buf f = Ret wires /\ (2 <= length wires)%nat
    /\ forall ws w, Forall (fun x => x ∈ wires) (ws ++ [w]) ->
         Forall (fun x => x ∈ ws ++ [w]) wires -> ~ Forall (fun x => x ∈ ws) wires ->
         exists mr', receive_all mr f now (ws ++ [w]) = Ret (map (fun _ => []) ws ++ [data], mr').
Proof.
  intros Hsend Hrecv Hbuf Hmax Hgt Hopt Hsz Hal Hcnt.
  set (seq := (outgoing_seq_id m + 1) mod N_SEQ_ID) in *.
  assert (Hseq : 0 <= seq < N_SEQ_ID) by (by apply Z.mod_pos_bound).
  assert (Hsize : 0 < size < 2 ^ 16) by (change (2 ^ 16) with 65536; lia).
  assert (Hlen : size < Zlen data) by lia.
  assert (Hhead : 0 <= headroom f) by (destruct Hsend; lia).
  assert (Hdata : bytes_ok data) by apply (buf_repr_fields _ _ _ _ Hbuf).
  pose proof (nf_spec data size Hsize Hlen Hcnt) as [Hn _].
  destruct (fragment_outgoing_first m buf f h data t size) as (m0 & buf0 & Hfo & Hs0); try done.
  fold seq in Hs0.
  destruct (send_step data size seq f Hsize Hdata Hlen Hcnt Hhead 0 m0 buf0 Hs0)
    as (b & m1 & h1 & t1 & Hr & Hs1 & Hb); [lia|].
  exists (map (wire data size seq) (seqZ 0 (nf data size))). split; [|split].
  - unfold send_datagram. rewrite Hfo, Hr. cbn [res_bind].
    rewrite (send_rest_spec data size seq f Hsize Hal Hseq Hdata Hlen Hcnt Hhead
               (Z.to_nat (nf data size - 1)) 1 m1 b) by (done || unfold MAX_FRAGS; lia).
    cbn [res_bind]. rewrite (buf_repr_contents _ _ _ _ Hb), Z2Nat.id by lia.
    replace (nf data size) with (1 + (nf data size - 1)) at 2 by lia. by rewrite seqZ_app by lia.
  - rewrite length_map, length_seqZ. lia.
  - intros ws w Hin Hall Hnot.
    destruct (wires_to_indices _ _ _ Hin) as (ks' & Heq & Hks').
    destruct (exists_last (l := ks')) as (ks & k & ->).
    { intros ->. by destruct ws. }
    rewrite map_app in Heq. apply app_inj_2 in Heq as [-> [= ->]]; [|done].
    apply Forall_app in Hks' as [Hks [Hk _]%Forall_cons].
    assert (Hiff : forall js, Forall (fun j => 0 <= j < nf data size) js ->
      Forall (fun x => x ∈ map (wire data size seq) js) (map (wire data size seq) (seqZ 0 (nf data size)))
      <-> Forall (fun j => j ∈ js) (seqZ 0 (nf data size))).
    { intros js Hjs. rewrite Forall_map, !Forall_forall. split; intros Hx j Hj; specialize (Hx j Hj); cbn beta in *.
      - apply list_elem_of_In, in_map_iff in Hx as (i & E & Hi%list_elem_of_In).
        apply (wire_inj data size seq Hsize Hal Hseq Hlen Hcnt) in E; [by subst| |].
        + rewrite Forall_forall in Hjs. by apply Hjs.
        + apply elem_of_seqZ in Hj. lia.
      - apply list_elem_of_In, in_map, list_elem_of_In. done. }
    change [wire data size seq k] with (map (wire data size seq) [k]) in *. rewrite <- map_app in *.
    rewrite (map_map (wire data size seq)).
    apply (receive_all_spec data size seq f Hsize Hal Hseq Hdata Hlen Hcnt Hhead ks k [] mr now);
      try done.
    + by apply receiver_start.
    + intros Hf. apply Hnot. by apply Hiff.
    + apply Hiff in Hall; [|apply Forall_app; split; [done|by constructor]].
      eapply Forall_impl; [exact Hall|]. cbn. set_solver.
Qed.

Definition example_frame : frame := mk_frame 40 4 4 0 8 1500 1500 0.
Definition example_frag_buf : buffer := mk_buffer 48 0 0 (Some (replicate 48 0)).
Definition example_master : fragment_master :=
  mk_master event_timeout_clear 255 0 0 example_frag_buf example_frag_buf
    (mk_fraglist 250 3 (replicate 25 (mk_fragment false 0 0 0 example_frag_buf))).
Definition example_datagram : buffer := mk_buffer 20 0 20 (Some (seqZ 1 20)).

Lemma example_frag_buf_for n : n <= 44 -> buffer_for example_frame n example_frag_buf.
Proof.
  intros H. constructor; [|done|cbn; lia]. unfold buf_wf. cbn [b_data example_frag_buf].
  split_and!; try done. apply (Forall_replicate is_u8 48 0). unfold is_u8. lia.
Qed.

Lemma example_datagram_repr : buf_repr example_datagram 0 (seqZ 1 20) 0.
Proof. exists [], []. split; [|done]. unfold buf_split. split_and!; try done; repeat constructor; cbn; lia. Qed.

Lemma example_receiver_ok : receiver_ok example_master example_frame 0 20.
Proof.
  constructor.
  - constructor; try done; cbn; unfold N_SEQ_ID, N_FRAG_BUF; lia.
  - intros i l fr. vm_compute (fragment_list_get_buf _ _). intros [= <- <-] Hfr.
    vm_compute in Hfr. injection Hfr as <-. split; [done|]. apply (example_frag_buf_for 20). lia.
Qed.

Lemma fragment_roundtrip_witness :
  exists wires, send_datagram example_master example_datagram example_frame = Ret wires
    /\ (2 <= length wires)%nat
    /\ forall ws w, Forall (fun x => x ∈ wires) (ws ++ [w]) ->
         Forall (fun x => x ∈ ws ++ [w]) wires -> ~ Forall (fun x => x ∈ ws) wires ->
         exists mr', receive_all example_master example_frame 100 (ws ++ [w])
                     = Ret (map (fun _ => []) ws ++ [seqZ 1 20], mr').
Proof.
  apply (fragment_roundtrip example_master example_master example_frame example_datagram
           (seqZ 1 20) 0 0 8 100); try reflexivity; try exact example_datagram_repr;
    try exact example_receiver_ok; try (cbn; lia).
  - constructor; [cbn; lia|apply (example_frag_buf_for 20); lia|apply (example_frag_buf_for 20); lia|].
    cbn. unfold N_SEQ_ID. lia.
  - vm_compute. done.
Defined.

(** Fragments in reverse order with a repetition. *)
Example example_reassembly :
  match send_datagram example_master example_datagram example_frame with
  | Ret [w0; w1; w2] =>
      match receive_all example_master example_frame 100 [w2; w1; w2; w0] with
      | Ret (outs, _) => outs = [[]; []; []; seqZ 1 20]
      | _ => False
      end
  | _ => False
  end.
Proof. vm_compute. done. Qed.

(** Datagrams up to the fragment size.  They travel in one piece behind an
    all-zero header, and the receiver returns them without touching its state. *)
Lemma fragment_whole_roundtrip (m mr : fragment_master) (f : frame) (buf : buffer)
    (data : bytes) (h t now : Z) :
  buf_repr buf h data t -> 4 <= h -> 0 < Zlen data <= max_fragment_size f ->
  exists b out, fragment_outgoing m buf f = Ret (b, m) /\ contents b = be_bytes 4 0 ++ data
    /\ fragment_incoming mr b f now = Ret (out, mr) /\ contents out = data.
Proof.
  intros Hbuf Hh Hlen. destruct (buf_repr_fields _ _ _ _ Hbuf) as (_ & Hbl & _).
  unfold fragment_outgoing. rewrite Hbl, (proj2 (Z.ltb_lt 0 _)) by lia.
  rewrite (proj2 (Z.ltb_ge _ (Zlen data))) by lia. unfold fragment_prepend_flags.
  change (fragment_flags FRAG_WHOLE 0 0 0) with 0.
  destruct (buf_write_prepend_repr _ _ _ _ Hbuf (be_bytes 4 0)) as (b & -> & Hb);
    [apply be_bytes_ok|rewrite Zlen_be_bytes; lia|]. cbn [res_bind].
  exists b. destruct (buf_read_repr _ _ _ _ Hb 4) as (b1 & Hr & Hb1).
  { rewrite Zlen_app, Zlen_be_bytes. lia. }
  exists b1. split; [done|]. split; [by eapply buf_repr_contents|].
  unfold fragment_incoming. destruct (buf_repr_fields _ _ _ _ Hb) as (_ & -> & _).
  rewrite Zlen_app, Zlen_be_bytes. rewrite (proj2 (Z.ltb_lt 0 _)) by lia. rewrite Hr. cbn [res_bind].
  split; [done|]. rewrite (buf_repr_contents _ _ _ _ Hb1). done.
Qed.

(** The check for spurious header bits of a whole datagram uses unshifted masks.
    A whole datagram whose header carries sequence identifier 192 and fragment
    identifier 5 passes it. *)
Lemma whole_accepts_spurious_flags (m : fragment_master) (f : frame) (now : Z) :
  let flags := packed FRAG_WHOLE 192 5 0 in
  exists out, fragment_incoming m (wire_buf (be_bytes 4 flags ++ [1; 2; 3])) f now = Ret (out, m)
    /\ contents out = [1; 2; 3].
Proof. eexists. split; reflexivity. Qed.
