(* ===== verification/Hash.v ===== *)
(** * Hash tables (list.h, list.c)

    Chained buckets with move-to-front lookup, iteration with deferred removal, and
    the hash function for byte strings.  A table is used through the interface
    [HashKey]: the two functions a table is created with, and what it needs of
    them.  The singly linked list of a bucket is a Rocq list; a pointer to an
    element of the bucket under iteration is its position. *)

From S2P Require Import Prelude CircList.

(** ** The interface to the users of a table *)
Class HashKey (K : Type) : Type := {
  hash_function : K -> Z -> Z;
  compare_function : K -> K -> bool
}.

(** What a table relies on: the comparison is an equivalence, and equal keys have
    equal hash values. *)
Class HashKeyLaws (K : Type) `{HashKey K} : Prop := {
  compare_refl : forall k, compare_function k k = true;
  compare_sym : forall k1 k2, compare_function k1 k2 = true -> compare_function k2 k1 = true;
  compare_trans : forall k1 k2 k3, compare_function k1 k2 = true -> compare_function k2 k3 = true ->
                                   compare_function k1 k3 = true;
  hash_compare : forall k1 k2 iv, compare_function k1 k2 = true ->
                                  hash_function k1 iv = hash_function k2 iv;
  hash_range : forall k iv, is_u32 (hash_function k iv)
}.

(** ** Data *)

(** The key of an element that is marked for removal is NULL. *)
Record hash_element (K V : Type) : Type := mk_he {
  he_value : V;
  he_key : option K;
  he_hash_value : Z
}.
Arguments mk_he {K V}.
Arguments he_value {K V}.
Arguments he_key {K V}.
Arguments he_hash_value {K V}.

Record hash (K V : Type) : Type := mk_hash {
  n_buckets : Z;
  n_elements : Z;
  hmask : Z;
  hiv : Z;
  buckets : list (list (hash_element K V))
}.
Arguments mk_hash {K V}.
Arguments n_buckets {K V}.
Arguments n_elements {K V}.
Arguments hmask {K V}.
Arguments hiv {K V}.
Arguments buckets {K V}.

Record hash_iterator : Type := mk_hi {
  hi_bucket_index : Z;
  hi_bucket : option Z;
  hi_elem : option nat;
  hi_last : option nat;
  hi_bucket_marked : bool;
  hi_bucket_index_start : Z;
  hi_bucket_index_end : Z
}.

Section Table.
Context {K V : Type} `{HashKey K} `{EqDecision V}.

Abbreviation element := (hash_element K V).
Abbreviation table := (hash K V).

Definition hash_value (h : table) (key : K) : Z := hash_function key (hiv h).
Definition hash_n_elements (h : table) : Z := n_elements h.
Definition hash_n_buckets (h : table) : Z := n_buckets h.

Definition hash_init (n iv : Z) : res table :=
  assert! 0 <? n in
  let! size := adjust_power_of_2 n in
  let n := s32 size in
  Ret (mk_hash n 0 (n - 1) iv (replicate (Z.to_nat n) [])).

Definition hash_bucket (h : table) (hv : Z) : Z := Z.land hv (hmask h).
Definition set_bucket (h : table) (i : Z) (b : list element) : res table :=
  let! bs := arr_set (buckets h) i b in
  Ret (mk_hash (n_buckets h) (n_elements h) (hmask h) (hiv h) bs).
Definition set_n_elements (h : table) (n : Z) : table :=
  mk_hash (n_buckets h) n (hmask h) (hiv h) (buckets h).

(** The loop over a bucket: the element found, and the bucket without it; [seen]
    is what the loop has passed, last first. *)
Fixpoint bucket_find (key : K) (hv : Z) (seen l : list element)
  : res (option (element * list element)) :=
  match l with
  | [] => Ret None
  | he :: l' =>
      if hv =? he_hash_value he then
        match he_key he with
        | None => UB
        | Some k => if compare_function key k then Ret (Some (he, rev_append seen l'))
                    else bucket_find key hv (he :: seen) l'
        end
      else bucket_find key hv (he :: seen) l'
  end.

(** Result: the element, now at the head of its bucket, and the bucket. *)
Definition hash_lookup_fast (b : list element) (key : K) (hv : Z)
  : res (option element * list element) :=
  let! r := bucket_find key hv [] b in
  match r with
  | Some (he, rest) => Ret (Some he, he :: rest)
  | None => Ret (None, b)
  end.

Definition hash_lookup (h : table) (key : K) : res (option V * table) :=
  let hv := hash_value h key in
  let! b := arr_get (buckets h) (hash_bucket h hv) in
  let! (he, b) := hash_lookup_fast b key hv in
  let! h := set_bucket h (hash_bucket h hv) b in
  Ret (he_value <$> he, h).

Definition hash_add_fast (h : table) (i : Z) (key : K) (hv : Z) (value : V) : res table :=
  let! b := arr_get (buckets h) i in
  let! h := set_bucket h i (mk_he value (Some key) hv :: b) in
  Ret (set_n_elements h (n_elements h + 1)).

Definition hash_add (h : table) (key : K) (value : V) (replace : bool) : res (bool * table) :=
  let hv := hash_value h key in
  let i := hash_bucket h hv in
  let! b := arr_get (buckets h) i in
  let! (he, b) := hash_lookup_fast b key hv in
  match he with
  | Some he =>
      let b := if replace
               then match b with
                    | _ :: rest => mk_he value (he_key he) (he_hash_value he) :: rest
                    | [] => []
                    end
               else b in
      let! h := set_bucket h i b in Ret (replace, h)
  | None =>
      let! h := hash_add_fast h i key hv value in Ret (true, h)
  end.

Definition hash_remove_fast (h : table) (i : Z) (key : K) (hv : Z) : res (bool * table) :=
  let! b := arr_get (buckets h) i in
  let! r := bucket_find key hv [] b in
  match r with
  | Some (_, rest) =>
      let! h := set_bucket h i rest in Ret (true, set_n_elements h (n_elements h - 1))
  | None => Ret (false, h)
  end.

Definition hash_remove (h : table) (key : K) : res (bool * table) :=
  let hv := hash_value h key in hash_remove_fast h (hash_bucket h hv) key hv.

(** ** Iteration *)

Definition marked (he : element) : bool := match he_key he with None => true | Some _ => false end.

Definition hash_remove_marked (h : table) (i : Z) : res table :=
  let! b := arr_get (buckets h) i in
  let kept := filter (fun he => marked he = false) b in
  let! h := set_bucket h i kept in
  Ret (set_n_elements h (n_elements h - (Zlen b - Zlen kept))).

Definition hash_iterator_init_range (h : table) (start_bucket end_bucket : Z) : res hash_iterator :=
  let end_bucket := if n_buckets h <? end_bucket then n_buckets h else end_bucket in
  assert! (0 <=? start_bucket) && (start_bucket <=? end_bucket) in
  Ret (mk_hi (start_bucket - 1) None None None false start_bucket end_bucket).
Definition hash_iterator_init (h : table) : res hash_iterator :=
  hash_iterator_init_range h 0 (n_buckets h).

Definition hash_iterator_lock (hi : hash_iterator) (b : Z) : hash_iterator :=
  mk_hi (hi_bucket_index hi) (Some b) (hi_elem hi) None false
    (hi_bucket_index_start hi) (hi_bucket_index_end hi).

Definition hash_iterator_unlock (h : table) (hi : hash_iterator) : res (table * hash_iterator) :=
  match hi_bucket hi with
  | None => Ret (h, hi)
  | Some b =>
      let! h := (if hi_bucket_marked hi then hash_remove_marked h b else Ret h) in
      Ret (h, mk_hi (hi_bucket_index hi) None (hi_elem hi) None false
                (hi_bucket_index_start hi) (hi_bucket_index_end hi))
  end.

(** The element at position [j] of the locked bucket is returned next. *)
Definition hash_iterator_take (h : table) (hi : hash_iterator) (b : Z) (j : nat)
  : res (option element * table * hash_iterator) :=
  let! l := arr_get (buckets h) b in
  match l !! j with
  | None => UB
  | Some he =>
      let next := if (S j <? length l)%nat then Some (S j) else None in
      Ret (Some he, h, mk_hi (hi_bucket_index hi) (hi_bucket hi) next (Some j)
                         (hi_bucket_marked hi) (hi_bucket_index_start hi) (hi_bucket_index_end hi))
  end.

(** [while (++hi->bucket_index < hi->bucket_index_end)], with [n] rounds left. *)
Fixpoint next_bucket (n : nat) (h : table) (hi : hash_iterator)
  : res (option element * table * hash_iterator) :=
  let hi := mk_hi (hi_bucket_index hi + 1) (hi_bucket hi) (hi_elem hi) (hi_last hi)
              (hi_bucket_marked hi) (hi_bucket_index_start hi) (hi_bucket_index_end hi) in
  if hi_bucket_index hi <? hi_bucket_index_end hi then
    match n with
    | O => UB
    | S n =>
        let! (h, hi) := hash_iterator_unlock h hi in
        let! l := arr_get (buckets h) (hi_bucket_index hi) in
        match l with
        | [] => next_bucket n h hi
        | _ => let hi := hash_iterator_lock hi (hi_bucket_index hi) in
               hash_iterator_take h hi (hi_bucket_index hi) 0
        end
    end
  else Ret (None, h, hi).

Definition hash_iterator_next (h : table) (hi : hash_iterator)
  : res (option element * table * hash_iterator) :=
  match hi_elem hi, hi_bucket hi with
  | Some j, Some b => hash_iterator_take h hi b j
  | Some _, None => UB
  | None, _ => next_bucket (Z.to_nat (hi_bucket_index_end hi - hi_bucket_index hi)) h hi
  end.

Definition hash_iterator_delete_element (h : table) (hi : hash_iterator) : res (table * hash_iterator) :=
  match hi_last hi, hi_bucket hi with
  | Some j, Some b =>
      let! l := arr_get (buckets h) b in
      match l !! j with
      | None => UB
      | Some he =>
          let! h := set_bucket h b (<[j := mk_he (he_value he) None (he_hash_value he)]> l) in
          Ret (h, mk_hi (hi_bucket_index hi) (hi_bucket hi) (hi_elem hi) (hi_last hi) true
                    (hi_bucket_index_start hi) (hi_bucket_index_end hi))
      end
  | None, _ => Fatal
  | Some _, None => UB
  end.

Definition hash_iterator_free (h : table) (hi : hash_iterator) : res table :=
  let! (h, _) := hash_iterator_unlock h hi in Ret h.

(** [while ((he = hash_iterator_next(&hi)))] around a body that works on a state of
    type [St] and says whether it calls [hash_iterator_delete_element]: one round per
    element. *)
Fixpoint hash_scan {St : Type} (body : St -> V -> res (bool * St)) (fuel : nat) (h : table)
    (hi : hash_iterator) (s : St) : res (table * St) :=
  match fuel with
  | O => UB
  | S fuel =>
      let! (he, h, hi) := hash_iterator_next h hi in
      match he with
      | None => let! h := hash_iterator_free h hi in Ret (h, s)
      | Some he =>
          let! (del, s) := body s (he_value he) in
          let! (h, hi) := (if (del : bool) then hash_iterator_delete_element h hi else Ret (h, hi)) in
          hash_scan body fuel h hi s
      end
  end.
Definition hash_scan_range {St : Type} (body : St -> V -> res (bool * St)) (h : table)
    (start_bucket end_bucket : Z) (s : St) : res (table * St) :=
  let! hi := hash_iterator_init_range h start_bucket end_bucket in
  hash_scan body (S (length (concat (buckets h)))) h hi s.

Definition hash_remove_by_value (h : table) (value : V) : res table :=
  let! (h, _) := hash_scan_range (fun (_ : unit) v => Ret (bool_decide (v = value), tt)) h 0 (n_buckets h) tt in
  Ret h.
End Table.

(** ** The hash of a byte string (Jenkins) *)
Definition mix (s : Z * Z * Z) : Z * Z * Z :=
  let '(a, b, c) := s in
  let a := Z.lxor (u32 (u32 (a - b) - c)) (Z.shiftr c 13) in
  let b := Z.lxor (u32 (u32 (b - c) - a)) (u32 (Z.shiftl a 8)) in
  let c := Z.lxor (u32 (u32 (c - a) - b)) (Z.shiftr b 13) in
  let a := Z.lxor (u32 (u32 (a - b) - c)) (Z.shiftr c 12) in
  let b := Z.lxor (u32 (u32 (b - c) - a)) (u32 (Z.shiftl a 16)) in
  let c := Z.lxor (u32 (u32 (c - a) - b)) (Z.shiftr b 5) in
  let a := Z.lxor (u32 (u32 (a - b) - c)) (Z.shiftr c 3) in
  let b := Z.lxor (u32 (u32 (b - c) - a)) (u32 (Z.shiftl a 10)) in
  let c := Z.lxor (u32 (u32 (c - a) - b)) (Z.shiftr b 15) in
  (a, b, c).

(** Four bytes, least significant first. *)
Definition le4 (k0 k1 k2 k3 : Z) : Z :=
  k0 + Z.shiftl k1 8 + Z.shiftl k2 16 + Z.shiftl k3 24.

(** The bytes of [k] beyond its end count as not added. *)
Definition byte_at (k : bytes) (i : nat) : Z := nth i k 0.

Fixpoint hash_blocks (fuel : nat) (k : bytes) (s : Z * Z * Z) : bytes * (Z * Z * Z) :=
  match fuel with
  | O => (k, s)
  | S fuel =>
      if 12 <=? Zlen k then
        let '(a, b, c) := s in
        let a := u32 (a + le4 (byte_at k 0) (byte_at k 1) (byte_at k 2) (byte_at k 3)) in
        let b := u32 (b + le4 (byte_at k 4) (byte_at k 5) (byte_at k 6) (byte_at k 7)) in
        let c := u32 (c + le4 (byte_at k 8) (byte_at k 9) (byte_at k 10) (byte_at k 11)) in
        hash_blocks fuel (drop 12 k) (mix (a, b, c))
      else (k, s)
  end.

(** The first byte of [c] is reserved for the length. *)
Definition hash_func (k : bytes) (initval : Z) : Z :=
  let length := Zlen k in
  let '(k, (a, b, c)) := hash_blocks (S (List.length k)) k (0x9e3779b9, 0x9e3779b9, initval) in
  let c := u32 (c + length) in
  let c := u32 (c + Z.shiftl (byte_at k 10) 24 + Z.shiftl (byte_at k 9) 16
                + Z.shiftl (byte_at k 8) 8) in
  let b := u32 (b + le4 (byte_at k 4) (byte_at k 5) (byte_at k 6) (byte_at k 7)) in
  let a := u32 (a + le4 (byte_at k 0) (byte_at k 1) (byte_at k 2) (byte_at k 3)) in
  let '(_, _, c) := mix (a, b, c) in c.

(** ** The table as a map *)
Section MapSpec.
Context {K V : Type} `{HashKeyLaws K} `{EqDecision V}.

Abbreviation element := (hash_element K V).
Abbreviation table := (hash K V).

(** Keys up to the comparison function. *)
Definition keq (k1 k2 : K) : Prop := compare_function k1 k2 = true.

#[export] Instance keq_equivalence : Equivalence keq.
Proof.
  split; red; unfold keq; [exact compare_refl|exact compare_sym|exact compare_trans].
Qed.

#[export] Instance hash_function_proper : Proper (keq ==> eq ==> eq) hash_function.
Proof. intros k1 k2 Hk iv _ <-. by apply hash_compare. Qed.

#[export] Instance compare_function_proper : Proper (keq ==> keq ==> eq) compare_function.
Proof.
  intros k1 k2 Hk j1 j2 Hj. apply eq_true_iff_eq. fold (keq k1 j1) (keq k2 j2). by rewrite Hk, Hj.
Qed.

(** Key-value pairs, at most one for a key. *)
Definition uniq (l : list (K * V)) : Prop :=
  forall i j p q, l !! i = Some p -> l !! j = Some q -> keq p.1 q.1 -> i = j.

Definition spec_lookup (l : list (K * V)) (k : K) : option V :=
  snd <$> find (fun p => compare_function k p.1) l.
Definition spec_remove (l : list (K * V)) (k : K) : list (K * V) :=
  filter (fun p => compare_function k p.1 = false) l.
Definition spec_add (l : list (K * V)) (k : K) (v : V) (replace : bool) : bool * list (K * V) :=
  match spec_lookup l k with
  | Some _ => if replace
              then (true, map (fun p => if compare_function k p.1 then (p.1, v) else p) l)
              else (false, l)
  | None => (true, (k, v) :: l)
  end.

Lemma uniq_cons p l : uniq (p :: l) <-> Forall (fun q => ~ keq p.1 q.1) l /\ uniq l.
Proof.
  split.
  - intros Hu. split.
    + apply Forall_forall. intros q [j Hj]%list_elem_of_lookup Hk.
      specialize (Hu 0%nat (S j) p q eq_refl Hj Hk). lia.
    + intros i j q q' Hi Hj Hk. specialize (Hu (S i) (S j) q q' Hi Hj Hk). lia.
  - intros [Hf Hu] i j q q' Hi Hj Hk. rewrite Forall_forall in Hf.
    destruct i as [|i], j as [|j]; cbn in *; [done| | |f_equal; by eapply Hu].
    + injection Hi as ->. exfalso. apply (Hf q'); [by eapply list_elem_of_lookup_2|done].
    + injection Hj as ->. exfalso. apply (Hf q); [by eapply list_elem_of_lookup_2|by symmetry].
Qed.

Lemma uniq_perm l l' : l ≡ₚ l' -> uniq l -> uniq l'.
Proof.
  induction 1 as [|p l l' Hp IH|p q l|l1 l2 l3 _ IH1 _ IH2]; [done| | |auto].
  - rewrite !uniq_cons. intros [Hf Hu]. split; [by rewrite <- Hp|auto].
  - rewrite !uniq_cons, !Forall_cons. intros [[H1 H2] [H3 H4]]. split_and!; try done.
Qed.

(** Lookup does not depend on the order. *)
Lemma spec_lookup_spec l k v :
  uniq l -> (spec_lookup l k = Some v <-> exists k', keq k k' /\ (k', v) ∈ l).
Proof.
  unfold spec_lookup, keq. induction l as [|p l IH]; intros Hu; cbn [find].
  { split; [done|]. by intros (k' & _ & []%not_elem_of_nil). }
  apply uniq_cons in Hu as [Hf Hu]. destruct (compare_function k p.1) eqn:E.
  - cbn. split.
    + intros [= <-]. exists p.1. split; [done|]. destruct p. left.
    + intros (k' & Hk & [<-|Hin]%elem_of_cons); [done|].
      rewrite Forall_forall in Hf. exfalso. apply (Hf _ Hin). cbn.
      transitivity k; [symmetry; exact E|exact Hk].
  - rewrite IH by done. split; intros (k' & Hk & Hin); exists k'; split; try done; [by right|].
    apply elem_of_cons in Hin as [<-|?]; [cbn in E; congruence|done].
Qed.

Lemma spec_lookup_perm l l' k : l ≡ₚ l' -> uniq l -> spec_lookup l k = spec_lookup l' k.
Proof.
  intros Hp Hu. pose proof (uniq_perm _ _ Hp Hu) as Hu'.
  destruct (spec_lookup l k) as [v|] eqn:E.
  - symmetry. apply spec_lookup_spec; [done|]. apply spec_lookup_spec in E; [|done].
    destruct E as (k' & ? & Hin). exists k'. by rewrite <- Hp.
  - destruct (spec_lookup l' k) as [v|] eqn:E'; [|done].
    apply spec_lookup_spec in E'; [|done]. destruct E' as (k' & ? & Hin).
    rewrite <- Hp in Hin. assert (spec_lookup l k = Some v) by (apply spec_lookup_spec; eauto). congruence.
Qed.

(** *** The representation *)
Definition pair_of (he : element) : option (K * V) := k ← he_key he; Some (k, he_value he).
Definition pairs (h : table) : list (K * V) := omap pair_of (concat (buckets h)).

Definition elem_ok (h : table) (i : nat) (he : element) : Prop :=
  exists k, he_key he = Some k /\ he_hash_value he = hash_value h k
    /\ hash_bucket h (hash_value h k) = Z.of_nat i.

Record hash_wf (h : table) : Prop := {
  hw_size : exists p, 0 <= p < 31 /\ n_buckets h = 2 ^ p;
  hw_mask : hmask h = n_buckets h - 1;
  hw_buckets : Zlen (buckets h) = n_buckets h;
  hw_elems : forall i b, buckets h !! i = Some b -> Forall (elem_ok h i) b;
  hw_uniq : uniq (pairs h);
  hw_count : n_elements h = Zlen (concat (buckets h))
}.

Lemma bucket_find_spec h i key seen b :
  Forall (elem_ok h i) b ->
  exists r, bucket_find key (hash_value h key) seen b = Ret r /\
  match r with
  | None => Forall (fun p => compare_function key p.1 = false) (omap pair_of b)
  | Some (he, rest) => exists b1 b2 k, b = b1 ++ he :: b2 /\ rest = rev_append seen (b1 ++ b2)
      /\ he_key he = Some k /\ keq key k
  end.
Proof.
  revert seen. induction b as [|he b IH]; intros seen Hb; cbn [bucket_find].
  { exists None. split; [done|constructor]. }
  apply Forall_cons in Hb as [(k & Hk & Hh & _) Hb]. rewrite Hk.
  assert (Hskip : compare_function key k = false ->
    exists r, bucket_find key (hash_value h key) (he :: seen) b = Ret r /\
    match r with
    | None => Forall (fun p => compare_function key p.1 = false) (omap pair_of (he :: b))
    | Some (he', rest) => exists b1 b2 k, he :: b = b1 ++ he' :: b2
        /\ rest = rev_append seen (b1 ++ b2) /\ he_key he' = Some k /\ keq key k
    end).
  { intros Hc. destruct (IH (he :: seen) Hb) as (r & Hr & Hspec). exists r. split; [done|].
    destruct r as [[he' rest]|].
    - destruct Hspec as (b1 & b2 & k' & -> & -> & Hk' & Heq). by exists (he :: b1), b2, k'.
    - cbn. unfold pair_of at 1. rewrite Hk. cbn. by constructor. }
  rewrite Hh. destruct (compare_function key k) eqn:E.
  - unfold hash_value. rewrite (hash_compare key k _ E), Z.eqb_refl.
    eexists. split; [reflexivity|]. exists [], b, k. by split_and!.
  - destruct (_ =? _); by apply Hskip.
Qed.

Lemma bucket_index_range h hv : hash_wf h -> is_u32 hv -> 0 <= hash_bucket h hv < n_buckets h.
Proof.
  intros [(p & Hp & Hn) Hm _ _ _ _] Hu. unfold hash_bucket. rewrite Hm, Hn.
  replace (2 ^ p - 1) with (Z.ones p) by (rewrite Z.ones_equiv; lia).
  rewrite Z.land_ones by lia. apply Z.mod_pos_bound. lia.
Qed.

(** The bucket of a key. *)
Lemma key_bucket h key :
  hash_wf h -> exists i b, hash_bucket h (hash_value h key) = Z.of_nat i
    /\ arr_get (buckets h) (Z.of_nat i) = Ret b /\ buckets h !! i = Some b /\ Forall (elem_ok h i) b.
Proof.
  intros Hh. pose proof (bucket_index_range h (hash_value h key) Hh (hash_range _ _)) as Hr.
  destruct Hh as [_ _ Hl He _ _].
  set (i := Z.to_nat (hash_bucket h (hash_value h key))).
  destruct (lookup_lt_is_Some_2 (buckets h) i) as [b Hb]; [unfold Zlen, i in *; lia|].
  exists i, b. split_and!; [unfold i; lia| |done|by apply He].
  apply arr_get_Ret. rewrite Nat2Z.id. split; [lia|done].
Qed.

(** Replacing a bucket: the pairs in the other buckets stay. *)
Record bucket_swap (h h' : table) (i : nat) (b b' : list element) (rest : list (K * V)) : Prop := {
  bs_fields : n_buckets h' = n_buckets h /\ hmask h' = hmask h /\ hiv h' = hiv h
              /\ n_elements h' = n_elements h;
  bs_buckets : buckets h' = <[i := b']> (buckets h);
  bs_pairs : pairs h ≡ₚ omap pair_of b ++ rest;
  bs_pairs' : pairs h' ≡ₚ omap pair_of b' ++ rest;
  bs_count : Zlen (concat (buckets h')) = Zlen (concat (buckets h)) - Zlen b + Zlen b';
  bs_other : Forall (fun p => hash_bucket h (hash_value h p.1) <> Z.of_nat i) rest
}.

Lemma concat_insert {A} (l : list (list A)) i b :
  l !! i = Some b -> exists r, concat l ≡ₚ b ++ r
    /\ (forall b', concat (<[i := b']> l) ≡ₚ b' ++ r)
    /\ (forall x, x ∈ r -> exists j c, j <> i /\ l !! j = Some c /\ x ∈ c).
Proof.
  intros Hb. pose proof (lookup_lt_Some _ _ _ Hb).
  exists (concat (take i l) ++ concat (drop (S i) l)). split_and!.
  - rewrite <- (take_drop_middle l i b Hb) at 1. rewrite concat_app. cbn.
    rewrite !app_assoc. by rewrite (Permutation_app_comm (concat _) b).
  - intros b'. rewrite insert_take_drop by done. rewrite concat_app. cbn.
    rewrite !app_assoc. by rewrite (Permutation_app_comm (concat _) b').
  - intros x [Hx|Hx]%elem_of_app; apply list_elem_of_In, in_concat in Hx as (c & Hc & Hx);
      apply list_elem_of_In in Hc, Hx; apply list_elem_of_lookup in Hc as [j Hj].
    + apply lookup_take_Some in Hj as [Hj Hlt]. exists j, c. split_and!; [lia|done|done].
    + rewrite lookup_drop in Hj. exists (S i + j)%nat, c. split_and!; [lia|done|done].
Qed.

Lemma set_bucket_spec h i b b' :
  hash_wf h -> buckets h !! i = Some b ->
  exists h' rest, set_bucket h (Z.of_nat i) b' = Ret h' /\ bucket_swap h h' i b b' rest.
Proof.
  intros Hh Hb. pose proof (lookup_lt_Some _ _ _ Hb) as Hlt.
  destruct (concat_insert (buckets h) i b Hb) as (r & Hc & Hc' & Hother).
  unfold set_bucket. rewrite arr_set_ok by (unfold Zlen; lia). cbn [res_bind].
  rewrite Nat2Z.id. eexists _, (omap pair_of r). split; [reflexivity|].
  assert (Hp : forall l k : list element, l ≡ₚ k -> omap pair_of l ≡ₚ omap pair_of k).
  { intros l k Hlk. by rewrite Hlk. }
  constructor; cbn; try done.
  - unfold pairs. rewrite (Hp _ _ Hc). by rewrite omap_app.
  - unfold pairs. cbn. rewrite (Hp _ _ (Hc' b')). by rewrite omap_app.
  - apply Permutation_length in Hc. specialize (Hc' b'). apply Permutation_length in Hc'.
    rewrite length_app in Hc, Hc'. unfold Zlen. lia.
  - apply Forall_forall. intros [k v] Hin. apply list_elem_of_omap in Hin as (he & Hhe & Hpr).
    destruct (Hother he Hhe) as (j & c & Hne & Hj & Hin).
    pose proof (hw_elems h Hh j c Hj) as He. rewrite Forall_forall in He.
    destruct (He he Hin) as (k' & Hk & _ & Hbk). unfold pair_of in Hpr. rewrite Hk in Hpr.
    injection Hpr as <- _. cbn. rewrite Hbk. lia.
Qed.

(** The new table is well formed if the new bucket is. *)
Lemma swap_wf h h' i b b' rest n :
  hash_wf h -> buckets h !! i = Some b -> bucket_swap h h' i b b' rest ->
  Forall (elem_ok h i) b' -> uniq (omap pair_of b' ++ rest) ->
  n = n_elements h - Zlen b + Zlen b' ->
  hash_wf (set_n_elements h' n) /\ pairs (set_n_elements h' n) ≡ₚ omap pair_of b' ++ rest.
Proof.
  intros [W1 W2 W3 W4 W5 W6] Hb [(F1 & F2 & F3 & F4) S1 S2 S3 S4 S5] Hok Hu ->.
  split; [|exact S3]. constructor; cbn.
  - by rewrite F1.
  - by rewrite F1, F2.
  - rewrite F1, S1. unfold Zlen in *. by rewrite length_insert.
  - intros j c Hj. rewrite S1 in Hj.
    assert (Hsame : forall x, elem_ok h j x -> elem_ok (set_n_elements h' (n_elements h - Zlen b + Zlen b')) j x).
    { intros x (k & K1 & K2 & K3). exists k. unfold hash_value, hash_bucket in *. cbn.
      rewrite F2, F3. by split_and!. }
    eapply Forall_impl; [|exact Hsame]. apply list_lookup_insert_Some in Hj as [(<- & <- & _)|[_ Hj]]; [done|auto].
  - change (uniq (pairs h')). by eapply uniq_perm.
  - change (n_elements h - Zlen b + Zlen b' = Zlen (concat (buckets h'))). rewrite S4, W6. lia.
Qed.

Lemma rest_no_match h h' i b b' rest key :
  bucket_swap h h' i b b' rest -> hash_bucket h (hash_value h key) = Z.of_nat i ->
  Forall (fun p => compare_function key p.1 = false) rest.
Proof.
  intros [_ _ _ _ _ Ho] Hi. eapply Forall_impl; [exact Ho|]. intros p Hp. cbn.
  apply not_true_is_false. intros Hc. apply Hp. rewrite <- Hi. unfold hash_value.
  by rewrite (hash_compare _ _ (hiv h) Hc).
Qed.

Lemma no_match_lookup l key :
  Forall (fun p => compare_function key p.1 = false) l -> spec_lookup l key = None.
Proof.
  intros Hf. unfold spec_lookup. induction Hf as [|p l Hp _ IH]; [done|]. cbn. by rewrite Hp.
Qed.

Lemma match_lookup l key k (v : V) :
  uniq l -> keq key k -> (k, v) ∈ l -> spec_lookup l key = Some v.
Proof. intros Hu Hk Hin. apply spec_lookup_spec; eauto. Qed.

(** In a list with unique keys, only one pair matches. *)
Lemma others_no_match key k (v : V) l :
  uniq ((k, v) :: l) -> keq key k -> Forall (fun p => compare_function key p.1 = false) l.
Proof.
  intros [Hf _]%uniq_cons Hk. eapply Forall_impl; [exact Hf|]. intros p Hp. cbn in *.
  apply not_true_is_false. intros Hc. apply Hp. transitivity key; [by symmetry|exact Hc].
Qed.

Lemma set_n_elements_id (h : table) n : n = n_elements h -> set_n_elements h n = h.
Proof. intros ->. by destruct h. Qed.

Lemma hash_wf_lookup_step h key :
  hash_wf h ->
  exists i b, hash_bucket h (hash_value h key) = Z.of_nat i
    /\ arr_get (buckets h) (Z.of_nat i) = Ret b /\ buckets h !! i = Some b
    /\ Forall (elem_ok h i) b
    /\ ((bucket_find key (hash_value h key) [] b = Ret None /\ spec_lookup (pairs h) key = None
          /\ Forall (fun p => compare_function key p.1 = false) (pairs h))
        \/ exists he k b1 b2 rest, bucket_find key (hash_value h key) [] b = Ret (Some (he, b1 ++ b2))
          /\ b = b1 ++ he :: b2 /\ he_key he = Some k /\ keq key k
          /\ pairs h ≡ₚ (k, he_value he) :: omap pair_of (b1 ++ b2) ++ rest
          /\ spec_lookup (pairs h) key = Some (he_value he)
          /\ Forall (fun p => compare_function key p.1 = false) (omap pair_of (b1 ++ b2) ++ rest)
          /\ forall b', exists h', set_bucket h (Z.of_nat i) b' = Ret h'
               /\ bucket_swap h h' i b b' rest).
Proof.
  intros Hh. destruct (key_bucket h key Hh) as (i & b & Hi & Hg & Hb & Hok).
  exists i, b. split_and!; try done.
  destruct (bucket_find_spec h i key [] b Hok) as (r & Hr & Hspec).
  destruct (set_bucket_spec h i b b Hh Hb) as (h0 & rest & Hs0 & Hsw).
  pose proof (rest_no_match _ _ _ _ _ _ key Hsw Hi) as Hrest.
  destruct r as [[he l]|].
  - right. destruct Hspec as (b1 & b2 & k & -> & -> & Hk & Heq). cbn [rev_append] in *.
    assert (Hpr : pairs h ≡ₚ (k, he_value he) :: omap pair_of (b1 ++ b2) ++ rest).
    { rewrite (bs_pairs _ _ _ _ _ _ Hsw). rewrite !omap_app. cbn. unfold pair_of at 2.
      rewrite Hk. cbn. rewrite <- !app_assoc. cbn. symmetry. apply Permutation_middle. }
    pose proof (uniq_perm _ _ Hpr (hw_uniq h Hh)) as Hu.
    exists he, k, b1, b2, rest. split_and!; try done.
    + apply (match_lookup _ key k); [apply Hh|done|]. rewrite Hpr. left.
    + by eapply others_no_match.
    + intros b'. destruct (set_bucket_spec h i (b1 ++ he :: b2) b' Hh Hb) as (h' & rest' & Hs & Hsw').
      exists h'. split; [done|].
      assert (Hrr : rest' ≡ₚ rest).
      { pose proof (bs_pairs _ _ _ _ _ _ Hsw) as P1. pose proof (bs_pairs _ _ _ _ _ _ Hsw') as P2.
        rewrite P1 in P2. by apply Permutation_app_inv_l in P2. }
      destruct Hsw' as [F B P P' C O]. constructor; try done; rewrite <- Hrr; done.
  - left. assert (Hall : Forall (fun p => compare_function key p.1 = false) (pairs h)).
    { rewrite (bs_pairs _ _ _ _ _ _ Hsw). by apply Forall_app. }
    split_and!; try done. by apply no_match_lookup.
Qed.

(** The lookup inside a bucket, and the bucket written back: what was found is at its head. *)
Lemma lookup_fast_spec h key :
  hash_wf h ->
  exists i b he b' h', hash_bucket h (hash_value h key) = Z.of_nat i
    /\ arr_get (buckets h) (Z.of_nat i) = Ret b /\ hash_lookup_fast b key (hash_value h key) = Ret (he, b')
    /\ set_bucket h (Z.of_nat i) b' = Ret h' /\ hash_wf h' /\ pairs h' ≡ₚ pairs h
    /\ hmask h' = hmask h /\ hiv h' = hiv h /\ buckets h' !! i = Some b'
    /\ he_value <$> he = spec_lookup (pairs h) key
    /\ match he with
       | None => Forall (fun p => compare_function key p.1 = false) (pairs h)
       | Some e => exists k tl, b' = e :: tl /\ he_key e = Some k /\ keq key k
       end.
Proof.
  intros Hh. destruct (hash_wf_lookup_step h key Hh) as (i & b & Hi & Hg & Hb & Hok & Hc).
  pose proof (lookup_lt_Some _ _ _ Hb) as Hlt. exists i, b. unfold hash_lookup_fast.
  destruct Hc as [(-> & Hn & Hno)|(he & k & b1 & b2 & rest & -> & -> & Hk & Heq & Hpr & Hsl & _ & Hset)];
    cbn [res_bind].
  - destruct (set_bucket_spec h i b b Hh Hb) as (h' & rest & Hs & Hsw).
    destruct (swap_wf h h' i b b rest (n_elements h) Hh Hb Hsw Hok) as [Hw Hp]; [|lia|].
    { eapply uniq_perm; [apply Hsw|apply Hh]. }
    rewrite set_n_elements_id in Hw, Hp by (symmetry; apply Hsw).
    exists None, b, h'. split_and!; try done; try apply Hsw.
    + rewrite Hp. symmetry. apply Hsw.
    + rewrite (bs_buckets _ _ _ _ _ _ Hsw). by apply list_lookup_insert_eq.
  - destruct (Hset (he :: b1 ++ b2)) as (h' & Hs & Hsw).
    assert (Hperm : omap pair_of (he :: b1 ++ b2) ++ rest ≡ₚ pairs h).
    { rewrite Hpr. cbn [omap list_omap]. unfold pair_of at 1. rewrite Hk. done. }
    destruct (swap_wf h h' i _ (he :: b1 ++ b2) rest (n_elements h) Hh Hb Hsw) as [Hw Hp].
    + rewrite Forall_app, Forall_cons in Hok. rewrite Forall_cons, Forall_app. tauto.
    + eapply uniq_perm; [symmetry; exact Hperm|apply Hh].
    + rewrite Zlen_cons, !Zlen_app, Zlen_cons. lia.
    + rewrite set_n_elements_id in Hw, Hp by (symmetry; apply Hsw).
      exists (Some he), (he :: b1 ++ b2), h'. split_and!; try done; try apply Hsw.
      * by rewrite Hp, Hperm.
      * rewrite (bs_buckets _ _ _ _ _ _ Hsw). by apply list_lookup_insert_eq.
      * by exists k, (b1 ++ b2).
Qed.

Lemma hash_lookup_spec h key :
  hash_wf h ->
  exists h', hash_lookup h key = Ret (spec_lookup (pairs h) key, h') /\ hash_wf h'
    /\ pairs h' ≡ₚ pairs h.
Proof.
  intros Hh. destruct (lookup_fast_spec h key Hh) as (i & b & he & b' & h' & Hi & Hg & Hf & Hs & Hw & Hp & _ & _ & _ & Hv & _).
  exists h'. unfold hash_lookup. rewrite Hi, Hg. cbn [res_bind]. rewrite Hf. cbn [res_bind]. rewrite Hs.
  cbn [res_bind]. by rewrite Hv.
Qed.

(** Giving the element at the head of a bucket an equal key and another value. *)
Lemma replace_head h i e tl k key v :
  hash_wf h -> buckets h !! i = Some (e :: tl) -> he_key e = Some k -> keq key k ->
  exists h' rest, set_bucket h (Z.of_nat i) (mk_he v (Some key) (he_hash_value e) :: tl) = Ret h'
    /\ hash_wf h' /\ pairs h ≡ₚ (k, he_value e) :: rest /\ pairs h' ≡ₚ (key, v) :: rest.
Proof.
  intros Hh Hb Hk Heq. set (e' := mk_he v (Some key) (he_hash_value e)).
  destruct (set_bucket_spec h i (e :: tl) (e' :: tl) Hh Hb) as (h' & rest & -> & Hsw).
  pose proof (hw_elems h Hh i _ Hb) as [(k0 & K1 & K2 & K3) Hok]%Forall_cons.
  rewrite Hk in K1. injection K1 as <-.
  assert (P1 : pairs h ≡ₚ (k, he_value e) :: omap pair_of tl ++ rest).
  { rewrite (bs_pairs _ _ _ _ _ _ Hsw). cbn. unfold pair_of at 1. by rewrite Hk. }
  assert (Hv : hash_value h key = hash_value h k) by (unfold hash_value; by rewrite (hash_compare _ _ _ Heq)).
  destruct (swap_wf h h' i _ (e' :: tl) rest (n_elements h) Hh Hb Hsw) as [Hw Hp].
  - constructor; [|done]. exists key. rewrite Hv. by split_and!.
  - cbn. pose proof (uniq_perm _ _ P1 (hw_uniq h Hh)) as [Hf Hu]%uniq_cons. apply uniq_cons. split; [|done].
    eapply Forall_impl; [exact Hf|]. intros q Hq Hq'. apply Hq. transitivity key; [by symmetry|exact Hq'].
  - rewrite !Zlen_cons. lia.
  - rewrite set_n_elements_id in Hw, Hp by (symmetry; apply Hsw).
    exists h', (omap pair_of tl ++ rest). by split_and!.
Qed.

(** A new element at the head of the bucket of its key. *)
Lemma hash_add_fast_spec h i key v :
  hash_wf h -> hash_bucket h (hash_value h key) = Z.of_nat i ->
  Forall (fun p => compare_function key p.1 = false) (pairs h) ->
  exists h', hash_add_fast h (Z.of_nat i) key (hash_value h key) v = Ret h'
    /\ hash_wf h' /\ pairs h' ≡ₚ (key, v) :: pairs h.
Proof.
  intros Hh Hi Hno. destruct (key_bucket h key Hh) as (i' & b & Hi' & Hg & Hb & Hok).
  assert (i' = i) as -> by lia. unfold hash_add_fast. rewrite Hg. cbn [res_bind].
  set (he := mk_he v (Some key) (hash_value h key)).
  destruct (set_bucket_spec h i b (he :: b) Hh Hb) as (h' & rest & -> & Hsw). cbn [res_bind].
  pose proof (bs_pairs _ _ _ _ _ _ Hsw) as Hpb.
  destruct (swap_wf h h' i b (he :: b) rest (n_elements h' + 1) Hh Hb Hsw) as [Hw Hp].
  - constructor; [|done]. exists key. by split_and!.
  - cbn. apply uniq_cons. split; [|eapply uniq_perm; [exact Hpb|apply Hh]].
    rewrite Hpb in Hno. eapply Forall_impl; [exact Hno|]. unfold keq. cbn. congruence.
  - destruct Hsw as [(_ & _ & _ & ->) _ _ _ _ _]. rewrite Zlen_cons. lia.
  - eexists. split; [reflexivity|]. split; [done|]. rewrite Hp. cbn. by rewrite Hpb.
Qed.

Lemma map_no_match key (v : V) l :
  Forall (fun p => compare_function key p.1 = false) l ->
  map (fun p => if compare_function key p.1 then (p.1, v) else p) l = l.
Proof. induction 1 as [|p l Hp _ IH]; [done|]. cbn. by rewrite Hp, IH. Qed.

Lemma filter_no_match key (l : list (K * V)) :
  Forall (fun p => compare_function key p.1 = false) l -> spec_remove l key = l.
Proof.
  unfold spec_remove. induction 1 as [|p l Hp _ IH]; [done|].
  rewrite filter_cons, decide_True by done. by rewrite IH.
Qed.

Lemma hash_add_spec h key v replace :
  hash_wf h ->
  exists h', hash_add h key v replace = Ret ((spec_add (pairs h) key v replace).1, h')
    /\ hash_wf h' /\ pairs h' ≡ₚ (spec_add (pairs h) key v replace).2.
Proof.
  intros Hh. destruct (hash_wf_lookup_step h key Hh) as (i & b & Hi & Hg & Hb & Hok & Hc).
  unfold hash_add, hash_lookup_fast, spec_add. rewrite Hi, Hg. cbn [res_bind].
  destruct Hc as [(-> & -> & Hno)|(he & k & b1 & b2 & rest & -> & -> & Hk & Heq & Hpr & -> & Hno & Hset)];
    cbn [res_bind].
  - destruct (hash_add_fast_spec h i key v Hh Hi Hno) as (h' & -> & Hw & Hp). cbn [res_bind fst snd].
    exists h'. by split_and!.
  - assert (Hokb : Forall (elem_ok h i) (b1 ++ b2) /\ elem_ok h i he).
    { rewrite Forall_app, Forall_cons in Hok. rewrite Forall_app. tauto. }
    destruct Hokb as [Hokb (k0 & K1 & K2 & K3)]. rewrite Hk in K1. injection K1 as <-.
    assert (Hb' : forall v', exists h', set_bucket h (Z.of_nat i)
               (mk_he v' (he_key he) (he_hash_value he) :: b1 ++ b2) = Ret h' /\ hash_wf h'
               /\ pairs h' ≡ₚ (k, v') :: omap pair_of (b1 ++ b2) ++ rest).
    { intros v'. destruct (Hset (mk_he v' (he_key he) (he_hash_value he) :: b1 ++ b2)) as (h' & -> & Hsw).
      set (he' := mk_he v' _ _) in *.
      assert (Hom : omap pair_of (he' :: b1 ++ b2) ++ rest = (k, v') :: omap pair_of (b1 ++ b2) ++ rest).
      { cbn. unfold pair_of at 1. cbn. by rewrite Hk. }
      destruct (swap_wf h h' i _ (he' :: b1 ++ b2) rest (n_elements h) Hh Hb Hsw) as [Hw Hp].
      - constructor; [|done]. exists k. by split_and!.
      - rewrite Hom. pose proof (uniq_perm _ _ Hpr (hw_uniq h Hh)) as [Hf Hu]%uniq_cons.
        by apply uniq_cons.
      - rewrite Zlen_cons, !Zlen_app, Zlen_cons. lia.
      - rewrite set_n_elements_id in Hw, Hp by (symmetry; apply Hsw). rewrite Hom in Hp. eauto. }
    destruct replace; cbn [fst snd].
    + destruct (Hb' v) as (h' & -> & Hw & Hp). cbn [res_bind]. exists h'. split_and!; try done.
      rewrite Hp. rewrite Hpr. cbn [map fst]. rewrite (Heq : compare_function key k = true), map_no_match by done. done.
    + destruct (Hb' (he_value he)) as (h' & Hs & Hw & Hp). destruct he as [vv kk hh]. cbn [he_value he_key he_hash_value] in *.
      rewrite Hs. cbn [res_bind]. exists h'. split_and!; try done. by rewrite Hp, Hpr.
Qed.

Definition spec_remove_result (l : list (K * V)) (k : K) : bool :=
  match spec_lookup l k with Some _ => true | None => false end.

Lemma hash_remove_spec h key :
  hash_wf h ->
  exists h', hash_remove h key = Ret (spec_remove_result (pairs h) key, h') /\ hash_wf h'
    /\ pairs h' ≡ₚ spec_remove (pairs h) key.
Proof.
  intros Hh. destruct (hash_wf_lookup_step h key Hh) as (i & b & Hi & Hg & Hb & Hok & Hc).
  unfold hash_remove, hash_remove_fast, spec_remove_result. rewrite Hi, Hg. cbn [res_bind].
  destruct Hc as [(-> & -> & Hno)|(he & k & b1 & b2 & rest & -> & -> & Hk & Heq & Hpr & -> & Hno & Hset)];
    cbn [res_bind].
  - exists h. split_and!; try done. by rewrite filter_no_match.
  - destruct (Hset (b1 ++ b2)) as (h' & -> & Hsw). cbn [res_bind].
    destruct (swap_wf h h' i _ (b1 ++ b2) rest (n_elements h' - 1) Hh Hb Hsw) as [Hw Hp].
    + rewrite Forall_app, Forall_cons in Hok. rewrite Forall_app. tauto.
    + pose proof (uniq_perm _ _ Hpr (hw_uniq h Hh)) as [_ Hu]%uniq_cons. done.
    + destruct Hsw as [(_ & _ & _ & ->) _ _ _ _ _]. rewrite !Zlen_app, Zlen_cons. lia.
    + eexists. split; [reflexivity|]. split; [done|]. rewrite Hp.
      unfold spec_remove. rewrite Hpr. rewrite filter_cons, decide_False.
      * fold (spec_remove (omap pair_of (b1 ++ b2) ++ rest) key). by rewrite filter_no_match.
      * cbn. unfold keq in Heq. congruence.
Qed.

(** *** A run of operations *)
Inductive hash_op : Type :=
| OpLookup (k : K)
| OpAdd (k : K) (v : V) (replace : bool)
| OpRemove (k : K).
Inductive hash_result : Type :=
| RValue (v : option V)
| RBool (b : bool).

Definition table_op (h : table) (op : hash_op) : res (hash_result * table) :=
  match op with
  | OpLookup k => let! (v, h) := hash_lookup h k in Ret (RValue v, h)
  | OpAdd k v r => let! (b, h) := hash_add h k v r in Ret (RBool b, h)
  | OpRemove k => let! (b, h) := hash_remove h k in Ret (RBool b, h)
  end.
Definition map_op (l : list (K * V)) (op : hash_op) : hash_result * list (K * V) :=
  match op with
  | OpLookup k => (RValue (spec_lookup l k), l)
  | OpAdd k v r => let '(b, l) := spec_add l k v r in (RBool b, l)
  | OpRemove k => (RBool (spec_remove_result l k), spec_remove l k)
  end.
Fixpoint table_run (h : table) (ops : list hash_op) : res (list hash_result * table) :=
  match ops with
  | [] => Ret ([], h)
  | op :: ops => let! (r, h) := table_op h op in
                 let! (rs, h) := table_run h ops in Ret (r :: rs, h)
  end.
Fixpoint map_run (l : list (K * V)) (ops : list hash_op) : list hash_result * list (K * V) :=
  match ops with
  | [] => ([], l)
  | op :: ops => let '(r, l) := map_op l op in
                 let '(rs, l) := map_run l ops in (r :: rs, l)
  end.

Lemma map_op_perm l l' op :
  l ≡ₚ l' -> uniq l -> (map_op l op).1 = (map_op l' op).1 /\ (map_op l op).2 ≡ₚ (map_op l' op).2.
Proof.
  intros Hp Hu. destruct op as [k|k v r|k]; cbn.
  - by rewrite (spec_lookup_perm _ _ k Hp Hu).
  - unfold spec_add. rewrite (spec_lookup_perm _ _ k Hp Hu).
    destruct (spec_lookup l' k); [|by rewrite Hp]. destruct r; [|done]. cbn. by rewrite Hp.
  - unfold spec_remove_result, spec_remove. rewrite (spec_lookup_perm _ _ k Hp Hu). by rewrite Hp.
Qed.

Lemma table_op_spec h op :
  hash_wf h ->
  exists h', table_op h op = Ret ((map_op (pairs h) op).1, h') /\ hash_wf h'
    /\ pairs h' ≡ₚ (map_op (pairs h) op).2.
Proof.
  intros Hh. destruct op as [k|k v r|k]; cbn.
  - destruct (hash_lookup_spec h k Hh) as (h' & -> & Hw & Hp). cbn. eauto.
  - destruct (hash_add_spec h k v r Hh) as (h' & -> & Hw & Hp). cbn.
    destruct (spec_add (pairs h) k v r) as [b l]. cbn in *. eauto.
  - destruct (hash_remove_spec h k Hh) as (h' & -> & Hw & Hp). cbn. eauto.
Qed.

Lemma table_run_spec ops h l :
  hash_wf h -> pairs h ≡ₚ l ->
  exists h', table_run h ops = Ret ((map_run l ops).1, h') /\ hash_wf h'
    /\ pairs h' ≡ₚ (map_run l ops).2.
Proof.
  revert h l. induction ops as [|op ops IH]; intros h l Hh Hp; cbn [table_run map_run].
  { by exists h. }
  destruct (table_op_spec h op Hh) as (h1 & -> & Hh1 & Hp1). cbn [res_bind].
  destruct (map_op_perm _ _ op Hp (hw_uniq h Hh)) as [-> Hp2]. rewrite Hp2 in Hp1.
  destruct (map_op l op) as [r l1]. cbn [fst snd] in *.
  destruct (IH h1 l1 Hh1 Hp1) as (h2 & -> & Hh2 & Hp3). cbn [res_bind].
  destruct (map_run l1 ops) as [rs l2]. by exists h2.
Qed.
End MapSpec.

(** ** Set-up *)

Lemma adjust_loop_spec fuel q n :
  0 <= q -> q + Z.of_nat fuel = 64 -> n <= 2 ^ 62 -> 2 ^ q <= 2 ^ 62 -> (q = 0 \/ 2 ^ (q - 1) < n) ->
  exists p, adjust_power_of_2_loop fuel (2 ^ q) n = Ret (2 ^ p) /\ 0 <= p /\ n <= 2 ^ p
    /\ (p = 0 \/ 2 ^ (p - 1) < n).
Proof.
  revert q. induction fuel as [|fuel IH]; intros q Hq Hf Hn Hb Hlow; cbn [adjust_power_of_2_loop].
  { assert (2 ^ 62 < 2 ^ q) by (apply Z.pow_lt_mono_r; lia). lia. }
  destruct (Z.ltb_spec (2 ^ q) n) as [Hlt|Hge]; [|by exists q].
  assert (Hsh : u64 (Z.shiftl (2 ^ q) 1) = 2 ^ (q + 1)).
  { rewrite Z.shiftl_mul_pow2 by lia. rewrite Z.pow_add_r by lia. apply u64_id.
    unfold is_u64. change (2 ^ 64) with (2 ^ 62 * 4). change (2 ^ 1) with 2. lia. }
  rewrite Hsh. rewrite (proj2 (Z.ltb_lt 0 _)) by (apply Z.pow_pos_nonneg; lia).
  apply IH; try lia.
  - assert (q < 62) by (apply (Z.pow_lt_mono_r_iff 2); lia).
    apply Z.pow_le_mono_r; lia.
  - right. by replace (q + 1 - 1) with q by lia.
Qed.

Lemma hash_init_spec {K V} `{HashKey K} n iv :
  0 < n <= 2 ^ 30 ->
  exists h : hash K V, hash_init n iv = Ret h /\ hash_wf h /\ pairs h = [].
Proof.
  intros Hn. unfold hash_init. rewrite (proj2 (Z.ltb_lt 0 n)) by lia.
  destruct (adjust_loop_spec 64 0 n) as (p & Hp & Hp0 & Hle & Hlow); try (cbn; lia).
  change (2 ^ 0) with 1 in Hp. unfold adjust_power_of_2. rewrite Hp. cbn [res_bind].
  assert (Hp31 : p < 31).
  { destruct Hlow as [->|Hlow]; [lia|]. assert (2 ^ (p - 1) < 2 ^ 30) as Hx%Z.pow_lt_mono_r_iff by lia; lia. }
  assert (H2p : 0 < 2 ^ p <= 2 ^ 30).
  { split; [apply Z.pow_pos_nonneg; lia|apply Z.pow_le_mono_r; lia]. }
  assert (Hs : s32 (2 ^ p) = 2 ^ p).
  { apply s32_id. unfold is_int, INT_MIN, INT_MAX. lia. }
  rewrite Hs. eexists. split; [reflexivity|].
  assert (Hc : concat (replicate (Z.to_nat (2 ^ p)) (@nil (hash_element K V))) = []).
  { generalize (Z.to_nat (2 ^ p)). intros m. induction m as [|m IH]; [done|exact IH]. }
  assert (Hpn : pairs (mk_hash (2 ^ p) 0 (2 ^ p - 1) iv
                  (replicate (Z.to_nat (2 ^ p)) (@nil (hash_element K V)))) = []).
  { unfold pairs. cbn [buckets]. by rewrite Hc. }
  split; [|exact Hpn]. constructor; cbn [n_buckets hmask buckets n_elements].
  - exists p. split; [lia|done].
  - done.
  - unfold Zlen. rewrite length_replicate. lia.
  - intros i b Hb%lookup_replicate. destruct Hb as [-> _]. constructor.
  - rewrite Hpn. by intros i j q q' Hi.
  - by rewrite Hc.
Qed.

(** C35: a hash table is a map.  From an empty table, any sequence of lookups,
    additions (with or without replacement) and removals gives exactly the results
    of a map from keys, taken up to the comparison function, to values, and the
    table holds exactly the pairs of that map; no step leaves the bucket array. *)
Theorem hash_refines_map {K V : Type} `{HashKeyLaws K} (n iv : Z) (ops : list (@hash_op K V)) :
  0 < n <= 2 ^ 30 ->
  exists h h', @hash_init K V n iv = Ret h
    /\ table_run h ops = Ret ((map_run [] ops).1, h')
    /\ pairs h' ≡ₚ (map_run [] ops).2 /\ uniq (pairs h')
    /\ n_elements h' = Zlen (concat (buckets h')).
Proof.
  intros Hn. destruct (hash_init_spec (K := K) (V := V) n iv Hn) as (h & Hi & Hh & Hp).
  destruct (table_run_spec ops h [] Hh) as (h' & Hr & Hh' & Hp'); [by rewrite Hp|].
  exists h, h'. split_and!; try done; apply Hh'.
Qed.

(** *** Byte strings as keys *)
Lemma lxor_u32 x y : is_u32 x -> is_u32 y -> is_u32 (Z.lxor x y).
Proof.
  unfold is_u32. intros Hx Hy. assert (0 <= Z.lxor x y) by (apply Z.lxor_nonneg; lia).
  split; [done|]. rewrite <- (Z.mod_small x (2 ^ 32)), <- (Z.mod_small y (2 ^ 32)) by lia.
  destruct (Z.eq_dec (Z.lxor (x mod 2 ^ 32) (y mod 2 ^ 32)) 0) as [->|Hne]; [lia|].
  rewrite !Z.mod_small in * by lia. apply Z.log2_lt_pow2; [lia|].
  eapply Z.le_lt_trans; [apply Z.log2_lxor; lia|].
  apply Z.max_lub_lt.
  - destruct (Z.eq_dec x 0) as [->|]; [done|]. apply Z.log2_lt_pow2; lia.
  - destruct (Z.eq_dec y 0) as [->|]; [done|]. apply Z.log2_lt_pow2; lia.
Qed.

Lemma shiftr_u32 x n : 0 <= n -> is_u32 x -> is_u32 (Z.shiftr x n).
Proof.
  unfold is_u32. intros Hn Hx. rewrite Z.shiftr_div_pow2 by done.
  assert (0 < 2 ^ n) by (apply Z.pow_pos_nonneg; lia).
  split; [apply Z.div_pos; lia|]. apply Z.div_lt_upper_bound; [done|]. nia.
Qed.

Lemma mix_range s : is_u32 (mix s).2.
Proof.
  destruct s as [[a b] c]. cbn [mix snd].
  apply lxor_u32; [apply u32_range|]. apply shiftr_u32; [lia|].
  apply lxor_u32; apply u32_range.
Qed.

Lemma hash_func_range k iv : is_u32 (hash_func k iv).
Proof.
  unfold hash_func. destruct (hash_blocks _ _ _) as [k' [[a b] c]].
  match goal with |- context [mix ?s] => pose proof (mix_range s) as Hm; destruct (mix s) as [[? ?] ?] end.
  exact Hm.
Qed.

#[export] Instance bytes_key : HashKey bytes :=
  {| hash_function := hash_func; compare_function := fun a b => bool_decide (a = b) |}.
#[export] Instance bytes_key_laws : HashKeyLaws bytes.
Proof.
  split; cbn.
  - intros k. by apply bool_decide_true.
  - intros k1 k2 ->%bool_decide_eq_true. by apply bool_decide_true.
  - intros k1 k2 k3 ->%bool_decide_eq_true ->%bool_decide_eq_true. by apply bool_decide_true.
  - by intros k1 k2 iv ->%bool_decide_eq_true.
  - apply hash_func_range.
Qed.

Definition example_ops : list (@hash_op bytes Z) :=
  [OpAdd [1; 2] 10 false; OpAdd [3] 11 false; OpAdd [1; 2] 12 false; OpLookup [1; 2];
   OpAdd [1; 2] 13 true; OpLookup [1; 2]; OpRemove [3]; OpLookup [3]].

Lemma hash_refines_map_witness :
  exists h h', @hash_init bytes Z 4 7 = Ret h
    /\ table_run h example_ops = Ret ((map_run [] example_ops).1, h')
    /\ pairs h' ≡ₚ (map_run [] example_ops).2 /\ uniq (pairs h')
    /\ n_elements h' = Zlen (concat (buckets h')).
Proof. apply (hash_refines_map 4 7 example_ops). lia. Defined.

Example example_ops_results :
  (map_run [] example_ops).1
  = [RBool true; RBool true; RBool false; RValue (Some 10); RBool true; RValue (Some 13);
     RBool true; RValue None].
Proof. vm_compute. done. Qed.

(** ** Iteration with removal

    [sel] says which values the body removes; [tail] are the buckets beyond the range. *)
Section Scan.
Context {K V : Type} `{HashKeyLaws K} {St : Type} (body : St -> V -> res (bool * St)) (sel : V -> bool)
  (tail : list (list (hash_element K V))).

(** The body run over a list of values from state [s] to [s']. *)
Inductive scanned : St -> list V -> St -> Prop :=
| scanned_nil s : scanned s [] s
| scanned_cons s s1 s' v vs : body s v = Ret (sel v, s1) -> scanned s1 vs s' -> scanned s (v :: vs) s'.

Abbreviation element := (hash_element K V).
Abbreviation table := (hash K V).

Definition mark (he : element) : element :=
  if sel (he_value he) then mk_he (he_value he) None (he_hash_value he) else he.
Definition clean (b : list element) : list element := filter (fun he => sel (he_value he) = false) b.
(** A bucket of which [j] elements have been visited. *)
Definition visited (j : nat) (b : list element) : list element := map mark (take j b) ++ drop j b.
Definition any_marked (j : nat) (b : list element) : bool :=
  existsb (fun he => sel (he_value he)) (take j b).
Definition live (b : list element) : Prop := Forall (fun he => marked he = false) b.

Lemma visited_all b : visited (length b) b = map mark b.
Proof. unfold visited. rewrite firstn_all, drop_all. apply app_nil_r. Qed.

Lemma mark_eq he : sel (he_value he) = true -> mark he = mk_he (he_value he) None (he_hash_value he).
Proof. intros Hv. unfold mark. by rewrite Hv. Qed.
Lemma mark_ne he : sel (he_value he) = false -> mark he = he.
Proof. intros Hv. unfold mark. by rewrite Hv. Qed.

Lemma filter_mark b : live b -> filter (fun he => marked he = false) (map mark b) = clean b.
Proof.
  unfold clean. induction 1 as [|he b Hl _ IH]; [done|]. cbn [map]. rewrite !filter_cons.
  destruct (sel (he_value he)) eqn:Hv.
  - rewrite (mark_eq he Hv). rewrite !decide_False by done. exact IH.
  - rewrite (mark_ne he Hv). rewrite !decide_True by done. by rewrite IH.
Qed.

Lemma no_mark_clean b : any_marked (length b) b = false -> map mark b = b /\ clean b = b.
Proof.
  unfold any_marked, clean. rewrite firstn_all. induction b as [|he b IH]; [done|].
  cbn [existsb map].
  intros [Hv Hb]%orb_false_iff. destruct (IH Hb) as [-> E].
  rewrite filter_cons, decide_True by auto. rewrite E. by rewrite mark_ne.
Qed.

Lemma visited_lookup j b : visited j b !! j = b !! j.
Proof.
  unfold visited. destruct (decide (j <= length b)%nat).
  - rewrite lookup_app_r by (rewrite length_map, length_take; lia).
    rewrite length_map, length_take, lookup_drop. f_equal. lia.
  - rewrite lookup_app_r by (rewrite length_map, length_take; lia).
    rewrite !lookup_ge_None_2; [done|lia|rewrite length_drop; lia].
Qed.

Lemma length_visited j b : length (visited j b) = length b.
Proof. unfold visited. rewrite length_app, length_map, length_take, length_drop. lia. Qed.

Lemma visited_S j b he :
  b !! j = Some he ->
  visited (S j) b = <[j := mark he]> (visited j b)
  /\ any_marked (S j) b = any_marked j b || sel (he_value he).
Proof.
  intros Hl. pose proof (lookup_lt_Some _ _ _ Hl). unfold visited, any_marked.
  rewrite (take_S_r _ _ _ Hl). split.
  - rewrite map_app. cbn [map]. rewrite insert_app_r_alt by (rewrite length_map, length_take; lia).
    rewrite length_map, length_take, Nat.min_l, Nat.sub_diag by lia.
    rewrite (drop_S _ _ _ Hl). cbn. by rewrite <- app_assoc.
  - rewrite existsb_app. cbn. by rewrite orb_false_r.
Qed.

(** The iterator stands in bucket [length done], [j > 0] elements of which it has
    returned; the first [v] of them have been dealt with. *)
Record locked (h : table) (hi : hash_iterator) (done : list (list element)) (b : list element)
    (v j : nat) (todo : list (list element)) : Prop := {
  lk_buckets : buckets h = done ++ visited v b :: todo ++ tail;
  lk_pos : (0 < j <= length b)%nat;
  lk_live : Forall live (b :: todo);
  lk_index : hi_bucket_index hi = Zlen done;
  lk_bucket : hi_bucket hi = Some (Zlen done);
  lk_elem : hi_elem hi = if (j <? length b)%nat then Some j else None;
  lk_last : hi_last hi = Some (j - 1)%nat;
  lk_marked : hi_bucket_marked hi = any_marked v b;
  lk_end : hi_bucket_index_end hi = Zlen done + 1 + Zlen todo
}.
(** The iterator stands before bucket [length done]. *)
Record unlocked (h : table) (hi : hash_iterator) (done todo : list (list element)) : Prop := {
  ul_buckets : buckets h = done ++ todo ++ tail;
  ul_live : Forall live todo;
  ul_index : hi_bucket_index hi + 1 = Zlen done;
  ul_bucket : hi_bucket hi = None;
  ul_elem : hi_elem hi = None;
  ul_end : hi_bucket_index_end hi = Zlen done + Zlen todo
}.
(** [h'] is [h] with its buckets [todo] clean. *)
Definition cleaned (h h' : table) (done todo : list (list element)) : Prop :=
  buckets h' = done ++ map clean todo ++ tail
  /\ n_buckets h' = n_buckets h /\ hmask h' = hmask h /\ hiv h' = hiv h
  /\ n_elements h' = n_elements h - (Zlen (concat todo) - Zlen (concat (map clean todo))).

Lemma set_bucket_mid (h : table) done b b' todo :
  buckets h = done ++ b :: todo ->
  set_bucket h (Zlen done) b'
  = Ret (mk_hash (n_buckets h) (n_elements h) (hmask h) (hiv h) (done ++ b' :: todo))
  /\ arr_get (buckets h) (Zlen done) = Ret b.
Proof.
  intros E. unfold set_bucket. rewrite E. pose proof (Zlen_nonneg done).
  assert (Hl : (done ++ b :: todo) !! length done = Some b) by (by apply list_lookup_middle).
  split.
  - rewrite arr_set_ok by (rewrite Zlen_app, Zlen_cons; pose proof (Zlen_nonneg todo); lia).
    cbn. unfold Zlen. rewrite Nat2Z.id, insert_app_r_alt by done. by rewrite Nat.sub_diag.
  - apply arr_get_Ret. unfold Zlen. rewrite Nat2Z.id. split; [lia|done].
Qed.

(** The iterator after leaving its bucket. *)
Definition released (hi : hash_iterator) : hash_iterator :=
  mk_hi (hi_bucket_index hi) None (hi_elem hi) None false
    (hi_bucket_index_start hi) (hi_bucket_index_end hi).

Lemma unlock_spec h hi hi' done b todo :
  locked h hi done b (length b) (length b) todo ->
  hi_bucket hi' = hi_bucket hi -> hi_bucket_marked hi' = hi_bucket_marked hi ->
  exists h', hash_iterator_unlock h hi' = Ret (h', released hi')
    /\ buckets h' = done ++ clean b :: todo ++ tail
    /\ n_buckets h' = n_buckets h /\ hmask h' = hmask h /\ hiv h' = hiv h
    /\ n_elements h' = n_elements h - (Zlen b - Zlen (clean b)).
Proof.
  intros [E Hj Hlive Hi Hb He Hl Hm Hend] Hb' Hm'. apply Forall_cons in Hlive as [Hlb _].
  rewrite visited_all in E. unfold hash_iterator_unlock. rewrite Hb', Hm', Hb, Hm.
  destruct (any_marked (length b) b) eqn:Ea.
  - unfold hash_remove_marked. destruct (set_bucket_mid h done (map mark b) (clean b) _ E) as [Hs ->].
    cbn [res_bind]. rewrite filter_mark by done. rewrite Hs. cbn [res_bind].
    eexists. split; [reflexivity|]. cbn. split_and!; try done.
    unfold Zlen. rewrite length_map. lia.
  - destruct (no_mark_clean b Ea) as [E1 E2]. cbn [res_bind]. rewrite E1 in E. rewrite E2.
    eexists. split; [reflexivity|]. cbn. split_and!; try done. lia.
Qed.

(** The rounds of the loop over buckets that find an empty bucket, and the one
    that finds an element or the end. *)
Lemma next_bucket_spec todo n h hi done :
  unlocked h hi done todo -> (length todo <= n)%nat ->
  (concat todo = [] /\ exists hi', next_bucket n h hi = Ret (None, h, hi') /\ hi_bucket hi' = None)
  \/ (exists empties he b rest hi', todo = empties ++ (he :: b) :: rest /\ concat empties = []
        /\ next_bucket n h hi = Ret (Some he, h, hi')
        /\ locked h hi' (done ++ empties) (he :: b) 0 1 rest).
Proof.
  revert n hi done. induction todo as [|b0 todo IH]; intros n hi done [E Hl Hi Hb He Hend] Hn.
  - left. split; [done|]. assert (hi_bucket_index_end hi = Zlen done).
    { rewrite Hend, Zlen_nil. lia. }
    destruct n; cbn [next_bucket]; cbn [hi_bucket_index hi_bucket_index_end];
      rewrite (proj2 (Z.ltb_ge _ _)) by lia; eexists; (split; [reflexivity|done]).
  - destruct n as [|n]; [cbn in Hn; lia|]. cbn [next_bucket].
    cbn [hi_bucket_index hi_bucket_index_end]. apply Forall_cons in Hl as [Hl0 Hl].
    pose proof (Zlen_nonneg todo).
    rewrite Zlen_cons in Hend.
    rewrite (proj2 (Z.ltb_lt _ _)) by lia. unfold hash_iterator_unlock. cbn [hi_bucket].
    rewrite Hb. cbn [res_bind hi_bucket_index]. rewrite Hi.
    destruct (set_bucket_mid h done b0 b0 _ E) as [_ Hg]. rewrite Hg. cbn [res_bind].
    destruct b0 as [|he b].
    + match goal with |- context [next_bucket n h ?hi1] =>
        destruct (IH n hi1 (done ++ [[]]))
          as [[Hc (hi' & Hx & Hy)]|(em & he & b & rest & hi' & -> & Hc & Hx & Hlk)];
        [| |left|right] end.
      * split; cbn; try done.
        -- by rewrite <- app_assoc.
        -- rewrite Zlen_app, Zlen_cons. unfold Zlen. cbn. lia.
        -- rewrite Zlen_app, Hend. change (Zlen [[]]) with 1. lia.
      * cbn in Hn. lia.
      * split; [done|]. by exists hi'.
      * exists ([] :: em), he, b, rest, hi'. split_and!; try done.
        by rewrite <- app_assoc in Hlk.
    + right. exists [], he, b, todo. unfold hash_iterator_take. cbn [hi_bucket_index hash_iterator_lock].
      rewrite Hg. cbn [res_bind lookup list_lookup]. eexists. split_and!; [done|done|reflexivity|].
      rewrite app_nil_r. split; cbn; try done; try (by constructor); lia.
Qed.

(** The step inside a bucket. *)
Lemma next_in_bucket h hi done b j todo :
  locked h hi done b j j todo -> (j < length b)%nat ->
  exists he hi', b !! j = Some he /\ hash_iterator_next h hi = Ret (Some he, h, hi')
    /\ locked h hi' done b j (S j) todo.
Proof.
  intros [E Hj Hlive Hi Hb He Hl Hm Hend] Hlt.
  destruct (lookup_lt_is_Some_2 b j Hlt) as [he Hhe]. exists he.
  unfold hash_iterator_next. rewrite He, (proj2 (Nat.ltb_lt j (length b))), Hb by done.
  unfold hash_iterator_take. destruct (set_bucket_mid h done _ [] _ E) as [_ ->].
  cbn [res_bind]. rewrite visited_lookup, Hhe. eexists. split_and!; [done|reflexivity|].
  split; cbn [hi_bucket_index hi_bucket hi_elem hi_last hi_bucket_marked hi_bucket_index_end];
    try done; try lia.
  - by rewrite length_visited.
  - f_equal. lia.
Qed.

(** The body of the loop deals with the element just returned. *)
Lemma body_spec h hi done b j todo he :
  locked h hi done b j (S j) todo -> b !! j = Some he ->
  exists h' hi',
    (if sel (he_value he) then hash_iterator_delete_element h hi else Ret (h, hi))
    = Ret (h', hi') /\ locked h' hi' done b (S j) (S j) todo
    /\ n_buckets h' = n_buckets h /\ hmask h' = hmask h /\ hiv h' = hiv h
    /\ n_elements h' = n_elements h.
Proof.
  intros [E Hj Hlive Hi Hb He Hl Hm Hend] Hhe. destruct (visited_S j b he Hhe) as [Hv Ha].
  destruct (sel (he_value he)) eqn:Heq.
  - unfold hash_iterator_delete_element. rewrite Hl, Hb. replace (S j - 1)%nat with j by lia.
    destruct (set_bucket_mid h done _ (<[j:=mk_he (he_value he) None (he_hash_value he)]> (visited j b))
                _ E) as [Hs ->].
    cbn [res_bind]. rewrite visited_lookup, Hhe, Hs. cbn [res_bind].
    eexists _, _. split; [reflexivity|]. split; [|done].
    split; cbn [hi_bucket_index hi_bucket hi_elem hi_last hi_bucket_marked hi_bucket_index_end buckets];
      try done.
    + by rewrite Hv, mark_eq.
    + f_equal. lia.
    + rewrite Ha. by rewrite orb_true_r.
  - eexists _, _. split; [reflexivity|]. split; [|done]. rewrite (mark_ne he Heq) in Hv.
    assert (Hsame : visited (S j) b = visited j b).
    { rewrite Hv. apply list_insert_id. by rewrite visited_lookup. }
    split; try done.
    + by rewrite Hsame.
    + rewrite Hm, Ha. by rewrite orb_false_r.
Qed.

(** Leaving a bucket all of which has been visited: as if the iterator had stood
    after the clean bucket. *)
Lemma leave_bucket h hi done b todo :
  locked h hi done b (length b) (length b) todo -> todo <> [] ->
  exists h1, unlocked h1 (released hi) (done ++ [clean b]) todo
    /\ hash_iterator_next h hi = hash_iterator_next h1 (released hi)
    /\ n_buckets h1 = n_buckets h /\ hmask h1 = hmask h /\ hiv h1 = hiv h
    /\ n_elements h1 = n_elements h - (Zlen b - Zlen (clean b)).
Proof.
  intros Hlk Hne. pose proof Hlk as [E Hj Hlive Hi Hb He Hl Hm Hend].
  apply Forall_cons in Hlive as [_ Hlive]. rewrite Nat.ltb_irrefl in He.
  destruct (unlock_spec h hi (mk_hi (hi_bucket_index hi + 1) (hi_bucket hi) (hi_elem hi) (hi_last hi)
              (hi_bucket_marked hi) (hi_bucket_index_start hi) (hi_bucket_index_end hi))
              done b todo Hlk eq_refl eq_refl) as (h1 & Hu & E1 & Hrest).
  exists h1. split; [|split; [|exact Hrest]].
  - split; cbn; try done.
    + by rewrite E1, <- app_assoc.
    + rewrite Hi, Zlen_app, Zlen_cons. unfold Zlen. cbn. lia.
    + rewrite Hend, Zlen_app. change (Zlen [clean b]) with 1. lia.
  - unfold hash_iterator_next. cbn [hi_elem released hi_bucket_index_end hi_bucket_index]. rewrite He.
    assert (Hlt : hi_bucket_index hi + 1 < hi_bucket_index_end hi).
    { rewrite Hi, Hend. destruct todo; [done|]. rewrite Zlen_cons. pose proof (Zlen_nonneg todo). lia. }
    destruct (Z.to_nat (hi_bucket_index_end hi - hi_bucket_index hi)) as [|n] eqn:En; [lia|].
    cbn [next_bucket]. cbn [hi_bucket_index hi_bucket_index_end released hi_bucket hi_elem hi_last
      hi_bucket_marked hi_bucket_index_start].
    rewrite (proj2 (Z.ltb_lt _ _)) by lia. rewrite Hu. done.
Qed.

Lemma clean_empties em : concat em = [] -> map clean em = em.
Proof.
  induction em as [|b em IH]; [done|]. cbn [concat map]. intros [-> E]%app_eq_nil. by rewrite IH.
Qed.

Lemma concat_nil_cleaned h done todo :
  buckets h = done ++ todo ++ tail -> concat todo = [] -> cleaned h h done todo.
Proof. intros E Hc. unfold cleaned. rewrite clean_empties by done. split_and!; try done; lia. Qed.

Definition loop_ok (fuel : nat) : Prop := forall h hi done b j todo s s',
  locked h hi done b j j todo -> (length b - j + length (concat todo) < fuel)%nat ->
  scanned s (map he_value (drop j b ++ concat todo)) s' ->
  exists h', hash_scan body fuel h hi s = Ret (h', s') /\ cleaned h h' done (b :: todo).

Lemma loop_after_body fuel h hi done b j todo he s s' :
  loop_ok fuel -> locked h hi done b j (S j) todo -> b !! j = Some he ->
  (length b - S j + length (concat todo) < fuel)%nat ->
  scanned s (map he_value (drop j b ++ concat todo)) s' ->
  exists h',
    (let! (del, s) := body s (he_value he) in
     let! (h, hi) := (if (del : bool) then hash_iterator_delete_element h hi else Ret (h, hi)) in
     hash_scan body fuel h hi s) = Ret (h', s') /\ cleaned h h' done (b :: todo).
Proof.
  intros IH Hlk Hhe Hf Hs. rewrite (drop_S _ _ _ Hhe) in Hs. cbn [app map] in Hs.
  inversion Hs as [|? s1 ? ? ? Hbody Hs']; subst. rewrite Hbody. cbn [res_bind].
  destruct (body_spec _ _ _ _ _ _ _ Hlk Hhe) as (h2 & hi2 & -> & Hlk2 & H1 & H2 & H3 & H4).
  cbn [res_bind]. destruct (IH _ _ _ _ _ _ _ _ Hlk2 Hf Hs') as (h' & Hr & Hc1 & Hc2 & Hc3 & Hc4 & Hc5).
  exists h'. split; [exact Hr|]. unfold cleaned. split_and!; try congruence.
Qed.

Lemma loop_unlocked fuel h hi done todo s s' :
  loop_ok fuel -> unlocked h hi done todo -> (length (concat todo) < S fuel)%nat ->
  scanned s (map he_value (concat todo)) s' ->
  exists h', hash_scan body (S fuel) h hi s = Ret (h', s') /\ cleaned h h' done todo.
Proof.
  intros IH Hul Hf Hs. pose proof Hul as [E Hl Hi Hb He Hend]. cbn [hash_scan].
  unfold hash_iterator_next. rewrite He.
  destruct (next_bucket_spec todo (Z.to_nat (hi_bucket_index_end hi - hi_bucket_index hi)) h hi done Hul)
    as [[Hc (hi' & -> & Hn)]|(em & he & b & rest & hi' & -> & Hc & -> & Hlk)].
  - rewrite Hend. unfold Zlen in *. lia.
  - cbn [res_bind]. unfold hash_iterator_free, hash_iterator_unlock. rewrite Hn. cbn [res_bind].
    rewrite Hc in Hs. inversion Hs; subst. exists h. split; [done|]. by apply concat_nil_cleaned.
  - rewrite concat_app, Hc in Hf, Hs. cbn in Hf. rewrite length_app in Hf. cbn [res_bind].
    destruct (loop_after_body fuel h hi' _ _ _ _ he s s' IH Hlk eq_refl) as (h' & -> & C1 & C2 & C3 & C4 & C5);
      [cbn; lia|exact Hs|].
    exists h'. split; [done|]. unfold cleaned. rewrite map_app, !concat_app, clean_empties, Hc by done.
    split_and!; try done. by rewrite C1, <- !app_assoc.
Qed.

(** The last round: the range ends after the bucket the iterator stands in. *)
Lemma loop_last fuel h hi done b s :
  locked h hi done b (length b) (length b) [] ->
  exists h', hash_scan body (S fuel) h hi s = Ret (h', s) /\ cleaned h h' done [b].
Proof.
  intros Hlk. pose proof Hlk as [E _ _ Hi Hb He _ _ Hend]. rewrite Nat.ltb_irrefl in He.
  cbn [hash_scan]. unfold hash_iterator_next. rewrite He. rewrite Zlen_nil in Hend.
  destruct (Z.to_nat _) as [|n] eqn:En; [lia|]. cbn [next_bucket hi_bucket_index hi_bucket_index_end].
  rewrite (proj2 (Z.ltb_ge _ _)) by lia. cbn [res_bind]. unfold hash_iterator_free.
  destruct (unlock_spec h hi (mk_hi (hi_bucket_index hi + 1) (hi_bucket hi) (hi_elem hi) (hi_last hi)
              (hi_bucket_marked hi) (hi_bucket_index_start hi) (hi_bucket_index_end hi))
              done b [] Hlk eq_refl eq_refl) as (h1 & -> & E1 & R1 & R2 & R3 & R4).
  cbn [res_bind]. exists h1. split; [done|]. unfold cleaned. cbn [map concat]. by rewrite !app_nil_r.
Qed.

Lemma hash_scan_spec fuel : loop_ok fuel.
Proof.
  induction fuel as [|fuel IH]; intros h hi done b j todo s s' Hlk Hf Hs; [lia|].
  pose proof (lk_pos _ _ _ _ _ _ _ Hlk) as Hj. destruct (decide (j = length b)) as [->|Hne].
  - rewrite drop_all in Hs. cbn [app] in Hs. destruct todo as [|b1 todo].
    + inversion Hs; subst. by apply loop_last.
    + destruct (leave_bucket _ _ _ _ _ Hlk) as (h1 & Hul & Hnext & R1 & R2 & R3 & R4); [done|].
      assert (Hf' : (length (concat (b1 :: todo)) < S fuel)%nat) by lia.
      destruct (loop_unlocked fuel _ _ _ _ _ _ IH Hul Hf' Hs) as (h' & Hr & C1 & C2 & C3 & C4 & C5).
      exists h'. cbn [hash_scan] in Hr |- *. rewrite Hnext. split; [exact Hr|].
      unfold cleaned. rewrite C1, C2, C3, C4, C5, R4, <- app_assoc. cbn [map concat].
      rewrite !Zlen_app. split_and!; try done. lia.
  - destruct (next_in_bucket _ _ _ _ _ _ Hlk) as (he & hi1 & Hhe & Hx & Hlk1); [lia|].
    cbn [hash_scan]. rewrite Hx. cbn [res_bind].
    apply (loop_after_body fuel _ _ _ _ j); try done. lia.
Qed.

Lemma omap_cons_Some {A B} (f : A -> option B) x l y : f x = Some y -> omap f (x :: l) = y :: omap f l.
Proof. intros E. cbn. by rewrite E. Qed.
Lemma omap_cons_None {A B} (f : A -> option B) x l : f x = None -> omap f (x :: l) = omap f l.
Proof. intros E. cbn. by rewrite E. Qed.

Lemma pairs_clean b :
  omap pair_of (clean b) = filter (fun p : K * V => sel p.2 = false) (omap pair_of b).
Proof.
  unfold clean. induction b as [|he b IH]; [done|]. rewrite filter_cons.
  destruct (pair_of he) as [p|] eqn:Ep.
  - rewrite (omap_cons_Some _ _ _ _ Ep), filter_cons.
    assert (p.2 = he_value he) as ->.
    { unfold pair_of in Ep. destruct (he_key he); [|done]. by injection Ep as <-. }
    destruct (decide (sel (he_value he) = false)); [|done]. by rewrite (omap_cons_Some _ _ _ _ Ep), IH.
  - rewrite (omap_cons_None _ _ _ Ep). destruct (decide (sel (he_value he) = false)); [|done].
    by rewrite (omap_cons_None _ _ _ Ep).
Qed.

Lemma concat_clean bs : concat (map clean bs) = clean (concat bs).
Proof.
  unfold clean. induction bs as [|b bs IH]; [done|]. cbn. by rewrite IH, filter_app.
Qed.

Lemma uniq_filter_mid (P : K * V -> Prop) `{!forall p, Decision (P p)} (l0 l1 l2 : list (K * V)) :
  uniq (l0 ++ l1 ++ l2) -> uniq (l0 ++ filter P l1 ++ l2).
Proof.
  intros Hu. apply (uniq_perm (filter P l1 ++ l0 ++ l2)); [rewrite !app_assoc; f_equiv; apply Permutation_app_comm|].
  apply (uniq_perm _ (l1 ++ l0 ++ l2)) in Hu; [|rewrite !app_assoc; f_equiv; apply Permutation_app_comm].
  revert Hu. generalize (l0 ++ l2). intros l. induction l1 as [|p l1 IH]; [done|].
  cbn [app]. rewrite filter_cons, uniq_cons. intros [Hf Hu]. destruct (decide (P p)); [|auto].
  cbn [app]. apply uniq_cons. split; [|auto]. rewrite Forall_forall in *. intros q Hq. apply Hf.
  apply elem_of_app in Hq as [[_ Hq]%list_elem_of_filter|Hq]; apply elem_of_app; auto.
Qed.
End Scan.

(** The buckets of a range, and the values of their elements in the order of the scan. *)
Definition range_buckets {K V} (h : hash K V) (a e : Z) : list (list (hash_element K V)) :=
  take (Z.to_nat (Z.min e (n_buckets h) - a)) (drop (Z.to_nat a) (buckets h)).
Definition range_values {K V} (h : hash K V) (a e : Z) : list V := map he_value (concat (range_buckets h a e)).

Lemma range_all {K V} (h : hash K V) : Zlen (buckets h) = n_buckets h -> range_buckets h 0 (n_buckets h) = buckets h.
Proof.
  intros Hl. unfold range_buckets. rewrite drop_0, Z.min_id, Z.sub_0_r. apply take_ge. unfold Zlen in Hl. lia.
Qed.

Lemma range_split {K V} (h : hash K V) a e :
  buckets h = take (Z.to_nat a) (buckets h) ++ range_buckets h a e
              ++ drop (Z.to_nat (Z.min e (n_buckets h) - a)) (drop (Z.to_nat a) (buckets h)).
Proof. unfold range_buckets. by rewrite take_drop, take_drop. Qed.

(** A well-formed table stays one when its buckets lose elements. *)
Lemma hash_wf_sublist {K V} `{HashKeyLaws K} (h h' : hash K V) :
  hash_wf h -> n_buckets h' = n_buckets h -> hmask h' = hmask h -> hiv h' = hiv h ->
  length (buckets h') = length (buckets h) ->
  (forall i b b', buckets h !! i = Some b -> buckets h' !! i = Some b' -> forall he, he ∈ b' -> he ∈ b) ->
  uniq (pairs h') -> n_elements h' = Zlen (concat (buckets h')) -> hash_wf h'.
Proof.
  intros [W1 W2 W3 W4 W5 W6] C1 C2 C3 Hlen Hsub Hu Hn. split; try done.
  - by rewrite C1.
  - by rewrite C2, C1.
  - unfold Zlen in *. by rewrite Hlen, C1.
  - intros i b' Hb'. apply Forall_forall. intros he Hin.
    destruct (lookup_lt_is_Some_2 (buckets h) i) as [b Hb]; [rewrite <- Hlen; by eapply lookup_lt_Some|].
    specialize (W4 i b Hb). rewrite Forall_forall in W4.
    destruct (W4 he (Hsub i b b' Hb Hb' he Hin)) as (k & K1 & K2 & K3).
    exists k. unfold hash_value, hash_bucket in *. by rewrite C2, C3.
Qed.

Lemma clean_mid_sub {K V} (sel : V -> bool) (l0 l1 l2 : list (list (hash_element K V))) i b b' :
  (l0 ++ l1 ++ l2) !! i = Some b -> (l0 ++ map (clean sel) l1 ++ l2) !! i = Some b' ->
  forall he, he ∈ b' -> he ∈ b.
Proof.
  destruct (decide (i < length l0)%nat); [rewrite !lookup_app_l by done; congruence|].
  rewrite !(lookup_app_r l0) by lia. set (k := (i - length l0)%nat).
  destruct (decide (k < length l1)%nat).
  - rewrite !lookup_app_l by (rewrite ?length_map; done). rewrite list_lookup_fmap. intros ->. cbn.
    intros [= <-] he. unfold clean. rewrite list_elem_of_filter. tauto.
  - rewrite !lookup_app_r by (rewrite ?length_map; lia). rewrite length_map. congruence.
Qed.

(** *** What a scan does: one application of the body per element of the range. *)
Lemma hash_scan_range_spec {K V St} `{HashKeyLaws K} (body : St -> V -> res (bool * St)) (sel : V -> bool)
    (h : hash K V) (a e : Z) (s s' : St) :
  hash_wf h -> 0 <= a <= Z.min e (n_buckets h) -> scanned body sel s (range_values h a e) s' ->
  exists h', hash_scan_range body h a e s = Ret (h', s') /\ hash_wf h' /\
    buckets h' = take (Z.to_nat a) (buckets h) ++ map (clean sel) (range_buckets h a e)
                 ++ drop (Z.to_nat (Z.min e (n_buckets h) - a)) (drop (Z.to_nat a) (buckets h)).
Proof.
  intros Hh Ha Hs. pose proof Hh as [W1 W2 W3 W4 W5 W6]. unfold hash_scan_range, hash_iterator_init_range.
  set (e' := if n_buckets h <? e then n_buckets h else e).
  assert (He' : e' = Z.min e (n_buckets h)) by (unfold e'; destruct (Z.ltb_spec (n_buckets h) e); lia).
  rewrite He', !(proj2 (Z.leb_le _ _)) by lia. cbn [res_bind andb].
  set (done := take (Z.to_nat a) (buckets h)). set (mid := range_buckets h a e).
  set (tail := drop _ (drop _ _)). pose proof (range_split h a e) as Hsp. fold done mid tail in Hsp.
  unfold Zlen in W3. assert (Hld : Zlen done = a) by (unfold Zlen, done; rewrite length_take; lia).
  assert (Hlm : Zlen mid = Z.min e (n_buckets h) - a)
    by (unfold Zlen, mid, range_buckets; rewrite length_take, length_drop; lia).
  destruct (loop_unlocked body sel tail (length (concat (buckets h))) h
              (mk_hi (a - 1) None None None false a (Z.min e (n_buckets h))) done mid s s')
    as (h' & Hr & C1 & C2 & C3 & C4 & C5); [apply hash_scan_spec| | |exact Hs|].
  { split; cbn; try done; [|lia|lia]. apply Forall_forall. intros b Hb.
    assert (Hb' : b ∈ buckets h) by (rewrite Hsp, !elem_of_app; auto).
    apply list_elem_of_lookup in Hb' as [i Hi]. unfold live. eapply Forall_impl; [apply (W4 i b Hi)|].
    intros he (k & Hk & _). unfold marked. by rewrite Hk. }
  { rewrite Hsp. rewrite !concat_app, !length_app. lia. }
  exists h'. split; [exact Hr|]. split; [|exact C1]. eapply hash_wf_sublist; try done.
  - rewrite C1. rewrite Hsp. by rewrite !length_app, length_map.
  - intros i b b'. rewrite C1, Hsp. apply clean_mid_sub.
  - unfold pairs in *. rewrite C1. rewrite Hsp in W5.
    rewrite !concat_app, !omap_app in *. rewrite concat_clean, pairs_clean. by apply uniq_filter_mid.
  - rewrite C5, W6, C1. rewrite Hsp. rewrite !concat_app, !Zlen_app. lia.
Qed.

(** The same in terms of the pairs before, in and after the range. *)
Definition range_before {K V} (h : hash K V) (a : Z) : list (K * V) := omap pair_of (concat (take (Z.to_nat a) (buckets h))).
Definition range_in {K V} (h : hash K V) (a e : Z) : list (K * V) := omap pair_of (concat (range_buckets h a e)).
Definition range_after {K V} (h : hash K V) (a e : Z) : list (K * V) :=
  omap pair_of (concat (drop (Z.to_nat (Z.min e (n_buckets h) - a)) (drop (Z.to_nat a) (buckets h)))).

Lemma range_pairs {K V} `{HashKeyLaws K} (h : hash K V) a e :
  hash_wf h -> pairs h = range_before h a ++ range_in h a e ++ range_after h a e /\ (range_in h a e).*2 = range_values h a e.
Proof.
  intros Hh. pose proof (range_split h a e) as Hsp. split.
  - unfold pairs. rewrite Hsp at 1. by rewrite !concat_app, !omap_app.
  - unfold range_in, range_values. assert (Hl : Forall (fun he => is_Some (he_key he)) (concat (range_buckets h a e))).
    { apply Forall_concat, Forall_forall. intros b Hb. assert (Hb' : b ∈ buckets h) by (rewrite Hsp, !elem_of_app; auto).
      apply list_elem_of_lookup in Hb' as [i Hi]. eapply Forall_impl; [apply (hw_elems h Hh i b Hi)|].
      intros he (k & -> & _). by exists k. }
    induction Hl as [|he l [k Hk] _ IH]; [done|]. cbn [map]. rewrite (omap_cons_Some _ _ _ (k, he_value he)).
    + cbn [fmap list_fmap]. by rewrite IH.
    + unfold pair_of. by rewrite Hk.
Qed.

Lemma hash_scan_range_pairs {K V St} `{HashKeyLaws K} (body : St -> V -> res (bool * St)) (sel : V -> bool)
    (h : hash K V) (a e : Z) (s s' : St) :
  hash_wf h -> 0 <= a <= Z.min e (n_buckets h) -> scanned body sel s (range_values h a e) s' ->
  exists h', hash_scan_range body h a e s = Ret (h', s') /\ hash_wf h' /\
    pairs h' = range_before h a ++ filter (fun p => sel p.2 = false) (range_in h a e) ++ range_after h a e.
Proof.
  intros Hh Ha Hs. destruct (hash_scan_range_spec body sel h a e s s' Hh Ha Hs) as (h' & Hr & Hh' & Hb).
  exists h'. split_and!; try done. unfold pairs. rewrite Hb, !concat_app, !omap_app, concat_clean, pairs_clean. done.
Qed.

(** Removal by value.  From any well-formed table [hash_remove_by_value] returns,
    with a well-formed table from which exactly the pairs with that value are gone,
    in every bucket, the other pairs in their order and the element count adjusted:
    an iteration visits every element once although it marks elements of the bucket
    it stands in and unlinks them when it leaves. *)
Lemma hash_remove_by_value_exact {K V : Type} `{HashKeyLaws K} `{EqDecision V}
    (h : hash K V) (value : V) :
  hash_wf h ->
  exists h', hash_remove_by_value h value = Ret h' /\ hash_wf h'
    /\ pairs h' = filter (fun p => p.2 <> value) (pairs h).
Proof.
  intros Hh. assert (0 <= n_buckets h) by (destruct (hw_size _ Hh) as (p & Hp & ->); apply Z.pow_nonneg; lia).
  destruct (hash_scan_range_spec (fun (_ : unit) v => Ret (bool_decide (v = value), tt))
              (fun v => bool_decide (v = value)) h 0 (n_buckets h) tt tt Hh) as (h' & Hr & Hh' & Hb); [lia| |].
  { induction (range_values h 0 (n_buckets h)) as [|v vs IH]; [constructor|]. by econstructor. }
  exists h'. unfold hash_remove_by_value. rewrite Hr. split; [done|]. split; [done|].
  unfold pairs. rewrite Hb, (range_all h) by (apply Hh). rewrite take_0, app_nil_l, drop_0.
  rewrite Z.min_id, Z.sub_0_r, drop_ge, app_nil_r by (pose proof (hw_buckets _ Hh); unfold Zlen in *; lia).
  rewrite concat_clean, pairs_clean. apply list_filter_iff. intros p. apply bool_decide_eq_false.
Qed.

Definition empty_table : hash bytes Z := mk_hash 4 0 3 7 (replicate 4 []).
Definition example_table : hash bytes Z :=
  match table_run empty_table [OpAdd [1; 2] 10 false; OpAdd [3] 11 false; OpAdd [4] 10 false; OpAdd [5] 12 false] with
  | Ret (_, h) => h
  | _ => empty_table
  end.
Lemma example_table_wf : hash_wf example_table.
Proof.
  destruct (hash_init_spec (K := bytes) (V := Z) 4 7) as (h & Hi & Hh & Hp); [lia|].
  assert (h = empty_table) as -> by (vm_compute in Hi; by injection Hi as <-).
  unfold example_table. match goal with |- context [table_run _ ?ops] =>
    destruct (table_run_spec ops empty_table [] Hh) as (h' & -> & Hh' & _); [by rewrite Hp|exact Hh'] end.
Qed.

Example remove_by_value_example :
  match hash_remove_by_value example_table 10 with
  | Ret h => (n_elements h, pairs h) = (2, [([5], 12); ([3], 11)]) \/ (n_elements h, pairs h) = (2, [([3], 11); ([5], 12)])
  | _ => False
  end.
Proof. vm_compute. auto. Qed.
