(* ===== verification/Proto.v ===== *)
(** * IP packets (proto.h, proto.c)

    Access to the bytes of a packet in a buffer, recognition of IP packets behind
    an Ethernet header, and Internet checksums: the full computation and the
    incremental update. *)

From S2P Require Import Prelude Buffer.

(** ** Bytes of a packet *)

(** [BPTR (buf)[i]], through the data object of the buffer. *)
Definition peek8 (b : buffer) (i : Z) : res Z :=
  match b_data b with Some d => arr_get d (b_offset b + i) | None => UB end.
Definition poke8 (b : buffer) (i v : Z) : res buffer :=
  match b_data b with
  | Some d => let! d := arr_set d (b_offset b + i) v in Ret (set_data b d)
  | None => UB
  end.
(** [ntohs] of the 16-bit field at byte [i]. *)
Definition peek16 (b : buffer) (i : Z) : res Z :=
  let! hi := peek8 b i in let! lo := peek8 b (i + 1) in Ret (hi * 256 + lo).

Section Host.
(** Whether the host stores the most significant byte first. *)
Variable big_endian : bool.

(** The value of two bytes of memory as a [uint16_t]. *)
Definition host16 (b0 b1 : Z) : Z := if big_endian then b0 * 256 + b1 else b1 * 256 + b0.
Definition htons (x : Z) : Z := host16 (x / 256) (x mod 256).
(** The two bytes of memory that hold a [uint16_t]. *)
Definition host16_bytes (x : Z) : Z * Z :=
  if big_endian then (x / 256, x mod 256) else (x mod 256, x / 256).
Definition load16 (b : buffer) (i : Z) : res Z :=
  let! b0 := peek8 b i in let! b1 := peek8 b (i + 1) in Ret (host16 b0 b1).
Definition store16 (b : buffer) (i v : Z) : res buffer :=
  let '(b0, b1) := host16_bytes v in
  let! b := poke8 b i b0 in poke8 b (i + 1) b1.
End Host.

(** ** Recognition *)
Definition DEV_TYPE_UNDEF : Z := 0.
Definition DEV_TYPE_TUN : Z := 2.
Definition DEV_TYPE_TAP : Z := 3.
Definition OPENVPN_ETH_P_IPV4 : Z := 0x0800.
Definition OPENVPN_ETH_P_IPV6 : Z := 0x86DD.
Definition OPENVPN_ETH_P_8021Q : Z := 0x8100.
(** The sizes of the packed structs. *)
Definition sizeof_ethhdr : Z := 14.
Definition sizeof_8021qhdr : Z := 18.
Definition sizeof_iphdr : Z := 20.
Definition sizeof_ipv6hdr : Z := 40.
Definition sizeof_tcphdr : Z := 20.
Definition OPENVPN_IPH_GET_VER (v : Z) : Z := Z.land (Z.shiftr v 4) 0x0F.
Definition OPENVPN_IPH_GET_LEN (v : Z) : Z := Z.shiftl (Z.land v 0x0F) 2.

(** [BLEN (buf) < sizeof ...] compares as [size_t]. *)
Definition is_ipv_X (tunnel_type : Z) (b : buffer) (ip_ver : Z) : res (bool * buffer) :=
  let check (offset : Z) :=
    let! v := peek8 b offset in
    if OPENVPN_IPH_GET_VER v =? ip_ver then Ret (buf_advance b offset) else Ret (false, b) in
  if tunnel_type =? DEV_TYPE_TUN then
    if u64 (buf_len b) <? sizeof_iphdr then Ret (false, b) else check 0
  else if tunnel_type =? DEV_TYPE_TAP then
    if u64 (buf_len b) <? sizeof_ethhdr + sizeof_iphdr then Ret (false, b)
    else
      let! proto := peek16 b 12 in
      let! (proto, offset) :=
        (if proto =? OPENVPN_ETH_P_8021Q
         then let! p := peek16 b 16 in Ret (p, sizeof_8021qhdr)
         else Ret (proto, sizeof_ethhdr)) in
      if negb (proto =? (if ip_ver =? 6 then OPENVPN_ETH_P_IPV6 else OPENVPN_ETH_P_IPV4))
      then Ret (false, b) else check offset
  else Ret (false, b).
Definition is_ipv4 (tunnel_type : Z) (b : buffer) : res (bool * buffer) := is_ipv_X tunnel_type b 4.
Definition is_ipv6 (tunnel_type : Z) (b : buffer) : res (bool * buffer) := is_ipv_X tunnel_type b 6.

(** Result: the version, or -1, and [*ip_hdr_offset], which other tunnel types
    leave as it was. *)
Definition get_tun_ip_ver (tunnel_type : Z) (b : buffer) (ip_hdr_offset : Z) : res (Z * Z) :=
  if tunnel_type =? DEV_TYPE_TUN then
    if sizeof_iphdr <=? buf_len b
    then let! v := peek8 b 0 in Ret (OPENVPN_IPH_GET_VER v, 0)
    else Ret (-1, 0)
  else if tunnel_type =? DEV_TYPE_TAP then
    if sizeof_ethhdr <=? buf_len b
    then let! proto := peek16 b 12 in
         Ret (if proto =? OPENVPN_ETH_P_IPV6 then 6
              else if proto =? OPENVPN_ETH_P_IPV4 then 4 else -1, sizeof_ethhdr)
    else Ret (-1, sizeof_ethhdr)
  else Ret (-1, ip_hdr_offset).

(** ** Checksums *)

(** The loop over the payload: two bytes at a time, a missing last byte is 0. *)
Fixpoint add_words (sum : Z) (l : bytes) : Z :=
  match l with
  | [] => sum
  | [a] => u32 (sum + u16 (Z.land (Z.shiftl a 8) 0xFF00))
  | a :: b :: l => add_words (u32 (sum + u16 (Z.land (Z.shiftl a 8) 0xFF00 + Z.land b 0xFF))) l
  end.

(** [while (sum >> 16)]. *)
Fixpoint fold_carries (fuel : nat) (sum : Z) : res Z :=
  if Z.shiftr sum 16 =? 0 then Ret sum
  else match fuel with
       | O => UB
       | S fuel => fold_carries fuel (u32 (Z.land sum 0xFFFF + Z.shiftr sum 16))
       end.

Inductive sa_family : Type := AF_UNSPEC | AF_INET | AF_INET6.

Definition ip_checksum (af : sa_family) (payload src_addr dest_addr : bytes) (proto : Z) : res Z :=
  let addr_len := match af with AF_INET => 4 | _ => 16 end in
  let sum := add_words 0 payload in
  let! src := mem_read src_addr 0 addr_len in
  let! dst := mem_read dest_addr 0 addr_len in
  let sum := add_words (add_words sum src) dst in
  let sum := u32 (sum + u16 (Zlen payload)) in
  let sum := u32 (sum + u16 proto) in
  let! sum := fold_carries 3 sum in
  Ret (u16 (Z.lnot sum)).

Definition ADJUST_CHECKSUM (acc cksum : Z) : Z :=
  let acc := acc + cksum in
  if acc <? 0 then
    let acc := - acc in
    let acc := Z.shiftr acc 16 + Z.land acc 0xffff in
    let acc := acc + Z.shiftr acc 16 in
    u16 (Z.lnot acc)
  else
    let acc := Z.shiftr acc 16 + Z.land acc 0xffff in
    let acc := acc + Z.shiftr acc 16 in
    u16 acc.

(** ** Lemmas *)

(** *** Access to the bytes between the free parts of a buffer *)
Definition byte (c : bytes) (i : Z) : Z := nth (Z.to_nat i) c 0.
Definition update (c : bytes) (i v : Z) : bytes := <[Z.to_nat i := v]> c.

Lemma lookup_byte c i : 0 <= i < Zlen c -> c !! Z.to_nat i = Some (byte c i).
Proof.
  unfold byte, Zlen. intros Hi. destruct (lookup_lt_is_Some_2 c (Z.to_nat i)) as [x Hx]; [lia|].
  rewrite Hx. f_equal. symmetry. by apply nth_lookup_Some.
Qed.

Lemma byte_range c i : bytes_ok c -> is_u8 (byte c i).
Proof.
  intros Hc. unfold byte. destruct (nth_in_or_default (Z.to_nat i) c 0) as [Hin | ->].
  - unfold bytes_ok in Hc. rewrite Forall_forall in Hc. apply Hc. by apply list_elem_of_In.
  - unfold is_u8. lia.
Qed.

Lemma byte_update c i j v :
  0 <= i < Zlen c -> 0 <= j -> byte (update c i v) j = if j =? i then v else byte c j.
Proof.
  intros Hi Hj. unfold byte, update. rewrite !nth_lookup. destruct (Z.eqb_spec j i) as [->|Hne].
  - unfold Zlen in Hi. by rewrite list_lookup_insert_eq by lia.
  - by rewrite list_lookup_insert_ne by lia.
Qed.

Lemma Zlen_update c i v : Zlen (update c i v) = Zlen c.
Proof. unfold Zlen, update. by rewrite length_insert. Qed.

Lemma update_ok c i v : bytes_ok c -> is_u8 v -> bytes_ok (update c i v).
Proof. intros Hc Hv. by apply Forall_insert. Qed.

Lemma peek8_split b pre c post i :
  buf_split b pre c post -> 0 <= i < Zlen c -> peek8 b i = Ret (byte c i).
Proof.
  intros (Hd & Ho & _) Hi. unfold peek8. rewrite Hd, Ho. apply arr_get_Ret.
  pose proof (Zlen_nonneg pre). split; [lia|].
  unfold Zlen in *. rewrite lookup_app_r by lia. rewrite lookup_app_l by lia.
  rewrite <- (lookup_byte c i) by (unfold Zlen; lia). f_equal. lia.
Qed.

Lemma poke8_split b pre c post i v :
  buf_split b pre c post -> 0 <= i < Zlen c -> is_u8 v ->
  exists b', poke8 b i v = Ret b' /\ buf_split b' pre (update c i v) post.
Proof.
  intros (Hd & Ho & Hl & Hcap & Hmax & H1 & H2 & H3) Hi Hv. unfold poke8. rewrite Hd, Ho.
  pose proof (Zlen_nonneg pre). pose proof (Zlen_nonneg post).
  rewrite arr_set_ok by (rewrite !Zlen_app; lia). cbn [res_bind].
  eexists. split; [reflexivity|]. unfold buf_split, set_data. cbn.
  rewrite Zlen_update. split_and!; try done; [|by apply update_ok].
  f_equal. unfold Zlen in *. rewrite insert_app_r_alt by lia. f_equal.
  rewrite insert_app_l by lia. f_equal. unfold update. f_equal. lia.
Qed.

Lemma peek16_split b pre c post i :
  buf_split b pre c post -> 0 <= i -> i + 1 < Zlen c ->
  peek16 b i = Ret (byte c i * 256 + byte c (i + 1)).
Proof.
  intros Hb Hi Hl. unfold peek16. rewrite !(peek8_split _ _ _ _ _ Hb) by lia. done.
Qed.

(** *** The sum of 16-bit words *)
Fixpoint wsum (l : bytes) : Z :=
  match l with
  | [] => 0
  | [a] => a * 256
  | a :: b :: l => a * 256 + b + wsum l
  end.

(** Induction two bytes at a time. *)
Lemma bytes_ind2 (P : bytes -> Prop) :
  P [] -> (forall a, P [a]) -> (forall a b l, P l -> P (a :: b :: l)) -> forall l, P l.
Proof.
  intros H0 H1 H2 l. enough (P l /\ forall a, P (a :: l)) by tauto.
  induction l as [|b l [IH1 IH2]]; split; auto.
Qed.

Definition weight (i : Z) : Z := if Z.even i then 256 else 1.

Lemma wsum_update c i v :
  0 <= i < Zlen c -> wsum (update c i v) = wsum c + (v - byte c i) * weight i.
Proof.
  intros Hi. replace i with (Z.of_nat (Z.to_nat i)) in * by lia. revert Hi.
  generalize (Z.to_nat i). clear i. intros n. unfold update, byte, weight. rewrite !Nat2Z.id.
  revert n. induction c as [|a|a b l IH] using bytes_ind2; intros n Hn; unfold Zlen in *; cbn in Hn.
  - lia.
  - destruct n; [|lia]. change (v * 256 = a * 256 + (v - a) * 256). lia.
  - destruct n as [|[|n]].
    + change (v * 256 + b + wsum l = a * 256 + b + wsum l + (v - a) * 256). lia.
    + change (a * 256 + v + wsum l = a * 256 + b + wsum l + (v - b) * 1). lia.
    + change (a * 256 + b + wsum (<[n:=v]> l)
              = a * 256 + b + wsum l + (v - nth n l 0) * (if Z.even (Z.of_nat (S (S n))) then 256 else 1)).
      rewrite IH by lia. rewrite !Nat2Z.inj_succ, Z.even_succ, Z.odd_succ. lia.
Qed.

Lemma wsum_range c : bytes_ok c -> 0 <= wsum c <= 65535 * ((Zlen c + 1) / 2).
Proof.
  induction c as [|a|a b l IH] using bytes_ind2; intros Hc.
  - done.
  - apply Forall_cons in Hc as [Ha _]. unfold is_u8 in Ha.
    change ((Zlen [a] + 1) / 2) with 1. cbn [wsum]. lia.
  - apply Forall_cons in Hc as [Ha Hc]. apply Forall_cons in Hc as [Hb Hc].
    specialize (IH Hc). unfold is_u8 in *. cbn [wsum]. rewrite !Zlen_cons.
    replace (1 + (1 + Zlen l) + 1) with (Zlen l + 1 + 1 * 2) by lia.
    rewrite Z.div_add by lia. lia.
Qed.

Lemma high_byte a : is_u8 a -> Z.land (Z.shiftl a 8) 0xFF00 = a * 256.
Proof.
  intros Ha. change 0xFF00 with (Z.shiftl (Z.ones 8) 8).
  rewrite <- Z.shiftl_land, Z.land_ones, Z.mod_small, Z.shiftl_mul_pow2 by (done || lia). done.
Qed.

Lemma low_byte a : is_u8 a -> Z.land a 0xFF = a.
Proof. intros Ha. change 0xFF with (Z.ones 8). rewrite Z.land_ones by lia. by apply Z.mod_small. Qed.

Lemma add_words_spec l sum :
  bytes_ok l -> 0 <= sum -> sum + wsum l < 2 ^ 32 -> add_words sum l = sum + wsum l.
Proof.
  revert sum. induction l as [|a|a b l IH] using bytes_ind2; intros sum Hl Hs Hb; cbn [add_words wsum].
  - lia.
  - apply Forall_cons in Hl as [Ha _]. cbn [wsum] in Hb. rewrite high_byte by done.
    unfold is_u8 in Ha. rewrite u16_id by (unfold is_u16; lia). apply u32_id. unfold is_u32. lia.
  - apply Forall_cons in Hl as [Ha Hl]. apply Forall_cons in Hl as [Hb8 Hl].
    pose proof (wsum_range l Hl) as [Hr _]. cbn [wsum] in Hb. rewrite high_byte, low_byte by done.
    unfold is_u8 in *. rewrite u16_id by (unfold is_u16; lia).
    rewrite u32_id by (unfold is_u32; lia). rewrite IH by (done || lia). lia.
Qed.

(** One round of the carry loop takes a multiple of 65535 away. *)
Lemma fold_once x : 0 <= x -> Z.land x 0xFFFF + Z.shiftr x 16 = x - 65535 * (x / 65536).
Proof.
  intros Hx. change (Z.land x 0xFFFF) with (Z.land x (Z.ones 16)). rewrite Z.land_ones, Z.shiftr_div_pow2 by lia.
  change (2 ^ 16) with 65536. pose proof (Z.div_mod x 65536). lia.
Qed.

Lemma div65536 x : 0 <= x -> 0 <= x / 65536 /\ 65536 * (x / 65536) <= x < 65536 * (x / 65536) + 65536.
Proof. intros Hx. pose proof (Z.div_mod x 65536). pose proof (Z.mod_pos_bound x 65536). lia. Qed.

Lemma fold_carries_spec sum :
  is_u32 sum -> exists s k, fold_carries 3 sum = Ret s /\ 0 <= s < 65536 /\ sum = s + 65535 * k
                            /\ (0 < sum -> 0 < s).
Proof.
  assert (Hstep : forall n x, is_u32 x -> fold_carries (S n) x
    = if x / 65536 =? 0 then Ret x else fold_carries n (x - 65535 * (x / 65536))).
  { intros n x Hx. unfold is_u32 in Hx. cbn [fold_carries]. rewrite fold_once by lia.
    rewrite Z.shiftr_div_pow2 by lia. change (2 ^ 16) with 65536.
    pose proof (div65536 x ltac:(lia)). rewrite u32_id by (unfold is_u32; lia). done. }
  intros Hs. pose proof Hs as Hs'. unfold is_u32 in Hs'. rewrite Hstep by done.
  pose proof (div65536 sum ltac:(lia)) as D1. destruct (Z.eqb_spec (sum / 65536) 0) as [E1|E1].
  { exists sum, 0. split; [done|]. lia. }
  set (x := sum - 65535 * (sum / 65536)) in *. rewrite Hstep by (unfold is_u32; lia).
  pose proof (div65536 x ltac:(lia)) as D2. destruct (Z.eqb_spec (x / 65536) 0) as [E2|E2].
  { exists x, (sum / 65536). split; [done|]. lia. }
  set (y := x - 65535 * (x / 65536)) in *. rewrite Hstep by (unfold is_u32; lia).
  pose proof (div65536 y ltac:(lia)) as D3. destruct (Z.eqb_spec (y / 65536) 0) as [E3|E3]; [|lia].
  exists y, (sum / 65536 + x / 65536). split; [done|]. lia.
Qed.

(** The words that [ip_checksum] adds up. *)
Definition checksum_total (af : sa_family) (payload src dst : bytes) (proto : Z) : Z :=
  let n := Z.to_nat (match af with AF_INET => 4 | _ => 16 end) in
  wsum payload + wsum (take n src) + wsum (take n dst) + Zlen payload + proto.

Definition addr_ok (af : sa_family) (a : bytes) : Prop :=
  bytes_ok a /\ match af with AF_INET => 4 | _ => 16 end <= Zlen a.

Lemma addr_take af a :
  addr_ok af a -> let n := match af with AF_INET => 4 | _ => 16 end in
  mem_read a 0 n = Ret (take (Z.to_nat n) a) /\ bytes_ok (take (Z.to_nat n) a)
  /\ 0 <= wsum (take (Z.to_nat n) a) <= 65535 * 8.
Proof.
  intros [Ha Hl] n. assert (Hn : 0 <= n <= 16) by (subst n; destruct af; lia).
  assert (Hok : bytes_ok (take (Z.to_nat n) a)) by (by apply Forall_take).
  split_and!; [by rewrite mem_read_ok by (subst n; lia)|done| |];
    pose proof (wsum_range _ Hok) as Hr; destruct (Zlen_take_drop a n) as [E _]; try (subst n; lia).
  rewrite E in Hr. assert ((n + 1) / 2 <= 8); [|lia].
  apply Z.lt_succ_r. apply Z.div_lt_upper_bound; lia.
Qed.

Lemma ip_checksum_spec af payload src dst proto :
  bytes_ok payload -> Zlen payload <= 65535 -> addr_ok af src -> addr_ok af dst -> 0 < proto < 256 ->
  exists v, ip_checksum af payload src dst proto = Ret v
    /\ (v = 0 <-> (65535 | checksum_total af payload src dst proto)).
Proof.
  intros Hp Hl Hs Hd Hpr. unfold ip_checksum, checksum_total. cbv zeta.
  destruct (addr_take af src Hs) as (-> & Os & Bs). destruct (addr_take af dst Hd) as (-> & Od & Bd).
  cbn [res_bind]. set (n := Z.to_nat _) in *. pose proof (Zlen_nonneg payload).
  pose proof (wsum_range payload Hp) as Bp.
  assert ((Zlen payload + 1) / 2 <= 32768) by (apply Z.div_le_upper_bound; lia).
  rewrite (add_words_spec payload), (add_words_spec (take n src)), (add_words_spec (take n dst))
    by (done || lia).
  rewrite !u16_id by (unfold is_u16; lia).
  rewrite (u32_id (_ + Zlen payload)) by (unfold is_u32; lia).
  rewrite u32_id by (unfold is_u32; lia).
  match goal with |- context [fold_carries 3 ?x] =>
    destruct (fold_carries_spec x) as (s & k & -> & Hs1 & Hs2 & Hs3); [unfold is_u32; lia|] end.
  cbn [res_bind]. eexists. split; [reflexivity|].
  assert (Hv : u16 (Z.lnot s) = 65535 - s).
  { unfold u16. rewrite <- (Z.mod_add (Z.lnot s) 1) by lia. rewrite Z.mod_small; unfold Z.lnot; lia. }
  rewrite Hv. split.
  - intros Hz. exists (1 + k). lia.
  - intros [m Hm]. assert (s = 65535 * (m - k)) by lia. lia.
Qed.

(** The incremental update adds [acc] to the checksum modulo 65535. *)
Lemma ADJUST_CHECKSUM_spec acc ck :
  -65535 <= acc <= 65535 -> is_u16 ck ->
  is_u16 (ADJUST_CHECKSUM acc ck) /\ exists k, ADJUST_CHECKSUM acc ck = acc + ck + 65535 * k.
Proof.
  unfold is_u16. intros Ha Hc. unfold ADJUST_CHECKSUM.
  assert (Hf : forall x, 0 <= x < 2 ^ 18 ->
    exists y k, (Z.shiftr x 16 + Z.land x 0xffff) + Z.shiftr (Z.shiftr x 16 + Z.land x 0xffff) 16 = y + 65536 * k
      /\ 0 <= y < 65536 /\ 0 <= k /\ exists j, y = x + 65535 * j).
  { intros x Hx. rewrite (Z.add_comm (Z.shiftr x 16)), fold_once by lia.
    pose proof (div65536 x ltac:(lia)). set (z := x - 65535 * (x / 65536)) in *.
    rewrite Z.shiftr_div_pow2 by lia. change (2 ^ 16) with 65536. pose proof (div65536 z ltac:(lia)).
    exists (z + z / 65536 - 65536 * (z / 65536)), (z / 65536).
    split_and!; try lia. exists (- (x / 65536) - z / 65536). lia. }
  btest; cbv zeta.
  - destruct (Hf (- (acc + ck))) as (y & k & -> & Hy & Hk & j & Hj); [lia|].
    assert (Hv : u16 (Z.lnot (y + 65536 * k)) = 65535 - y).
    { unfold u16. replace (Z.lnot (y + 65536 * k)) with (65535 - y + (- k - 1) * 2 ^ 16)
        by (unfold Z.lnot; lia).
      rewrite Z.mod_add by lia. apply Z.mod_small. lia. }
    rewrite Hv. split; [lia|]. exists (1 - j). lia.
  - destruct (Hf (acc + ck)) as (y & k & -> & Hy & Hk & j & Hj); [lia|].
    assert (Hv : u16 (y + 65536 * k) = y).
    { unfold u16. replace (y + 65536 * k) with (y + k * 2 ^ 16) by lia.
      rewrite Z.mod_add by lia. apply Z.mod_small. lia. }
    rewrite Hv. split; [lia|]. exists j. lia.
Qed.
