(* ===== verification/Mss.v ===== *)
(** * Clamping of the TCP maximum segment size (mss.c)

    [mss_fixup_ipv4] and [mss_fixup_ipv6] lower the MSS option of TCP SYN packets
    in the tunnel and repair the TCP checksum incrementally. *)

From S2P Require Import Prelude Buffer Proto.

Definition OPENVPN_IPPROTO_TCP : Z := 6.
Definition OPENVPN_IP_OFFMASK : Z := 0x1fff.
Definition OPENVPN_TCPH_SYN_MASK : Z := Z.shiftl 1 1.
Definition OPENVPN_TCPH_GET_DOFF (d : Z) : Z := Z.shiftr (Z.land d 0xF0) 2.
Definition OPENVPN_TCPOPT_EOL : Z := 0.
Definition OPENVPN_TCPOPT_NOP : Z := 1.
Definition OPENVPN_TCPOPT_MAXSEG : Z := 2.
Definition OPENVPN_TCPOLEN_MAXSEG : Z := 4.

Section Host.
Context (big_endian : bool).

(** The body for an MSS option at byte [opt] of the TCP header; [check] is the
    field at byte 16. *)
Definition mss_option (b : buffer) (opt maxmss : Z) : res buffer :=
  let! hi := peek8 b (opt + 2) in
  let! lo := peek8 b (opt + 3) in
  let mssval := u16 (u16 (Z.shiftl hi 8) + lo) in
  if maxmss <? mssval then
    let accumulate := htons big_endian mssval in
    let! b := poke8 b (opt + 2) (Z.land (Z.shiftr maxmss 8) 0xff) in
    let! b := poke8 b (opt + 3) (Z.land maxmss 0xff) in
    let accumulate := accumulate - htons big_endian maxmss in
    let! check := load16 big_endian b 16 in
    store16 big_endian b 16 (ADJUST_CHECKSUM accumulate check)
  else Ret b.

(** The loop over the options: [olen] bytes are left at byte [opt]. *)
Fixpoint mss_loop (fuel : nat) (b : buffer) (opt olen maxmss : Z) : res buffer :=
  if 1 <? olen then
    match fuel with
    | O => UB
    | S fuel =>
        let! kind := peek8 b opt in
        if kind =? OPENVPN_TCPOPT_EOL then Ret b
        else if kind =? OPENVPN_TCPOPT_NOP then mss_loop fuel b (opt + 1) (olen - 1) maxmss
        else
          let! optlen := peek8 b (opt + 1) in
          if (optlen <=? 0) || (olen <? optlen) then Ret b
          else
            let! b := (if (kind =? OPENVPN_TCPOPT_MAXSEG) && (optlen =? OPENVPN_TCPOLEN_MAXSEG)
                       then mss_option b opt maxmss else Ret b) in
            mss_loop fuel b (opt + optlen) (olen - optlen) maxmss
    end
  else Ret b.

Definition mss_fixup_dowork (b : buffer) (maxmss : Z) : res buffer :=
  if buf_len b <? sizeof_tcphdr then Ret b
  else
    let! doff_res := peek8 b 12 in
    let hlen := OPENVPN_TCPH_GET_DOFF doff_res in
    if (hlen <=? sizeof_tcphdr) || (buf_len b <? hlen) then Ret b
    else mss_loop (Z.to_nat (hlen - sizeof_tcphdr)) b sizeof_tcphdr (hlen - sizeof_tcphdr) maxmss.

(** [newbuf] is a copy of [*buf] that shares its data object. *)
Definition share (b newbuf : buffer) : buffer :=
  mk_buffer (b_capacity b) (b_offset b) (b_len b) (b_data newbuf).

Definition mss_fixup_ipv4 (b : buffer) (maxmss : Z) : res buffer :=
  if buf_len b <? sizeof_iphdr then Ret b
  else
    let! version_len := peek8 b 0 in
    let hlen := OPENVPN_IPH_GET_LEN version_len in
    let! protocol := peek8 b 9 in
    let! tot_len := peek16 b 2 in
    let! frag_off := peek16 b 6 in
    if (protocol =? OPENVPN_IPPROTO_TCP) && (tot_len =? buf_len b)
       && (Z.land frag_off OPENVPN_IP_OFFMASK =? 0) && (hlen <=? buf_len b)
       && (sizeof_tcphdr <=? buf_len b - hlen)
    then
      let '(ok, newbuf) := buf_advance b hlen in
      if ok : bool then
        let! flags := peek8 newbuf 13 in
        if negb (Z.land flags OPENVPN_TCPH_SYN_MASK =? 0)
        then let! newbuf := mss_fixup_dowork newbuf maxmss in Ret (share b newbuf)
        else Ret b
      else Ret b
    else Ret b.

(** [maxmss - 20] is converted to [uint16_t] by the call. *)
Definition mss_fixup_ipv6 (b : buffer) (maxmss : Z) : res buffer :=
  if buf_len b <? sizeof_ipv6hdr then Ret b
  else
    let! payload_len := peek16 b 4 in
    if negb (buf_len b =? payload_len + 40) then Ret b
    else
      let! nexthdr := peek8 b 6 in
      if negb (nexthdr =? OPENVPN_IPPROTO_TCP) then Ret b
      else
        let '(ok, newbuf) := buf_advance b 40 in
        if ok && (sizeof_tcphdr <=? buf_len newbuf) then
          let! flags := peek8 newbuf 13 in
          if negb (Z.land flags OPENVPN_TCPH_SYN_MASK =? 0)
          then let! newbuf := mss_fixup_dowork newbuf (u16 (maxmss - 20)) in Ret (share b newbuf)
          else Ret b
        else Ret b.
End Host.

(** ** Specification *)

(** The offsets of the MSS options that a parser of the TCP options meets. *)
Fixpoint mss_walk (fuel : nat) (c : bytes) (opt olen : Z) : list Z :=
  if 1 <? olen then
    match fuel with
    | O => []
    | S fuel =>
        let kind := byte c opt in
        if kind =? OPENVPN_TCPOPT_EOL then []
        else if kind =? OPENVPN_TCPOPT_NOP then mss_walk fuel c (opt + 1) (olen - 1)
        else
          let optlen := byte c (opt + 1) in
          if (optlen <=? 0) || (olen <? optlen) then []
          else (if (kind =? OPENVPN_TCPOPT_MAXSEG) && (optlen =? OPENVPN_TCPOLEN_MAXSEG) then [opt] else [])
               ++ mss_walk fuel c (opt + optlen) (olen - optlen)
    end
  else [].
(** The MSS options of a TCP segment. *)
Definition mss_options (c : bytes) : list Z :=
  let hlen := OPENVPN_TCPH_GET_DOFF (byte c 12) in
  if (Zlen c <? sizeof_tcphdr) || (hlen <=? sizeof_tcphdr) || (Zlen c <? hlen) then []
  else mss_walk (Z.to_nat (hlen - sizeof_tcphdr)) c sizeof_tcphdr (hlen - sizeof_tcphdr).
Definition word (c : bytes) (i : Z) : Z := byte c i * 256 + byte c (i + 1).

(** [c'] is [c] with the values of the options at [offs] limited to [maxmss]. *)
Record clamped (maxmss : Z) (offs : list Z) (c c' : bytes) : Prop := {
  cl_len : Zlen c' = Zlen c;
  cl_same : forall i, 0 <= i -> i <> 16 -> i <> 17 -> (forall o, o ∈ offs -> i <> o + 2 /\ i <> o + 3) ->
            byte c' i = byte c i;
  cl_value : forall o, o ∈ offs -> word c' (o + 2) = Z.min (word c (o + 2)) maxmss;
  cl_sum : Forall (fun o => Z.even o = true) offs -> (65535 | wsum c' - wsum c)
}.

(** ** Proofs *)
Lemma host16_bytes_spec be x :
  is_u16 x -> exists x0 x1, host16_bytes be x = (x0, x1) /\ is_u8 x0 /\ is_u8 x1 /\ host16 be x0 x1 = x.
Proof.
  unfold is_u16, is_u8. intros Hx. pose proof (Z.div_mod x 256 ltac:(lia)).
  pose proof (Z.mod_pos_bound x 256 ltac:(lia)). unfold host16_bytes, host16.
  destruct be; eexists _, _; (split; [reflexivity|]); lia.
Qed.

Lemma htons_word be hi lo : is_u8 hi -> is_u8 lo -> htons be (hi * 256 + lo) = host16 be hi lo.
Proof.
  unfold is_u8. intros Hh Hl. unfold htons. f_equal.
  - rewrite Z.div_add_l, Z.div_small by lia. lia.
  - rewrite Z.add_comm, Z.mod_add by lia. apply Z.mod_small. lia.
Qed.

Lemma word_of_bytes hi lo : is_u8 hi -> is_u8 lo -> u16 (u16 (Z.shiftl hi 8) + lo) = hi * 256 + lo.
Proof.
  unfold is_u8. intros Hh Hl. rewrite Z.shiftl_mul_pow2 by lia. change (2 ^ 8) with 256 in *.
  rewrite (u16_id (hi * 256)) by (unfold is_u16; lia). apply u16_id. unfold is_u16. lia.
Qed.

Lemma max_bytes m :
  is_u16 m -> exists mh ml, Z.land (Z.shiftr m 8) 0xff = mh /\ Z.land m 0xff = ml /\ is_u8 mh /\ is_u8 ml
              /\ m = mh * 256 + ml.
Proof.
  unfold is_u16, is_u8. intros Hm. eexists _, _. split; [reflexivity|]. split; [reflexivity|].
  change 0xff with (Z.ones 8). rewrite !Z.land_ones, Z.shiftr_div_pow2 by lia. change (2 ^ 8) with 256.
  pose proof (Z.div_mod m 256 ltac:(lia)). pose proof (Z.mod_pos_bound m 256 ltac:(lia)).
  assert (0 <= m / 256 < 256) by (split; [apply Z.div_pos; lia|apply Z.div_lt_upper_bound; lia]).
  rewrite (Z.mod_small (m / 256)) by lia. lia.
Qed.

(** The checksum bytes [k0 k1] repair the change of the value [hi lo] to [mh ml]. *)
Lemma repaired be hi lo mh ml c0 c1 k0 k1 k :
  host16 be k0 k1 = host16 be hi lo - host16 be mh ml + host16 be c0 c1 + 65535 * k ->
  (65535 | (mh - hi) * 256 + (ml - lo) * 1 + (k0 - c0) * 256 + (k1 - c1) * 1).
Proof.
  unfold host16. destruct be; intros E.
  - exists k. lia.
  - exists (- k1 + lo - ml + c1 + 256 * k). lia.
Qed.

Lemma host16_range be x y : is_u8 x -> is_u8 y -> is_u16 (host16 be x y).
Proof. unfold host16, is_u8, is_u16. destruct be; lia. Qed.

Lemma update4_byte c i1 i2 i3 i4 v1 v2 v3 v4 j :
  0 <= i1 < Zlen c -> 0 <= i2 < Zlen c -> 0 <= i3 < Zlen c -> 0 <= i4 < Zlen c -> 0 <= j ->
  byte (update (update (update (update c i1 v1) i2 v2) i3 v3) i4 v4) j
  = if j =? i4 then v4 else if j =? i3 then v3 else if j =? i2 then v2 else if j =? i1 then v1
    else byte c j.
Proof. intros. rewrite !byte_update by (rewrite ?Zlen_update; lia). done. Qed.

Lemma weight_even i : Z.even i = true -> weight (i + 2) = 256 /\ weight (i + 3) = 1.
Proof.
  intros [q ->]%Z.even_spec. unfold weight. rewrite (Z.add_comm _ 2), (Z.add_comm _ 3).
  by rewrite !Z.even_add_mul_2.
Qed.

Section MssProof.
Context (be : bool) (maxmss : Z) (Hmax : is_u16 maxmss).

Lemma clamped_refl c : clamped maxmss [] c c.
Proof.
  split; try done.
  - intros o Ho. by apply not_elem_of_nil in Ho.
  - intros _. exists 0. lia.
Qed.

Lemma mss_option_spec b pre c post opt :
  buf_split b pre c post -> 20 <= opt -> opt + 4 <= Zlen c ->
  exists b' c', mss_option be b opt maxmss = Ret b' /\ buf_split b' pre c' post
    /\ clamped maxmss [opt] c c'.
Proof.
  intros Hb Ho Hl. assert (Hok : bytes_ok c) by apply Hb. unfold mss_option.
  rewrite !(peek8_split _ _ _ _ _ Hb) by lia. cbn [res_bind].
  pose proof (byte_range c (opt + 2) Hok) as Rh. pose proof (byte_range c (opt + 3) Hok) as Rl.
  rewrite word_of_bytes by done. set (hi := byte c (opt + 2)) in *. set (lo := byte c (opt + 3)) in *.
  assert (Hw : word c (opt + 2) = hi * 256 + lo).
  { unfold word. subst hi lo. do 2 f_equal. lia. }
  destruct (Z.ltb_spec maxmss (hi * 256 + lo)) as [Hlt|Hge].
  2:{ exists b, c. split_and!; try done. split; try done.
      - intros o ->%list_elem_of_singleton. rewrite Hw. lia.
      - intros _. exists 0. lia. }
  destruct (max_bytes maxmss Hmax) as (mh & ml & -> & -> & Rmh & Rml & Em).
  destruct (poke8_split _ _ _ _ (opt + 2) mh Hb) as (b1 & -> & Hb1); [lia|done|]. cbn [res_bind].
  destruct (poke8_split _ _ _ _ (opt + 3) ml Hb1) as (b2 & -> & Hb2);
    [rewrite Zlen_update; lia|done|]. cbn [res_bind].
  unfold load16. rewrite !(peek8_split _ _ _ _ _ Hb2) by (rewrite !Zlen_update; lia). cbn [res_bind].
  rewrite !byte_update by (rewrite ?Zlen_update; lia).
  rewrite !(proj2 (Z.eqb_neq 16 _)), !(proj2 (Z.eqb_neq (16 + 1) _)) by lia.
  rewrite Em, !htons_word by done.
  pose proof (byte_range c 16 Hok) as R0. pose proof (byte_range c (16 + 1) Hok) as R1.
  pose proof (host16_range be _ _ Rh Rl). pose proof (host16_range be _ _ Rmh Rml).
  pose proof (host16_range be _ _ R0 R1) as Rc.
  destruct (ADJUST_CHECKSUM_spec (host16 be hi lo - host16 be mh ml) (host16 be (byte c 16) (byte c (16 + 1)))) as [Ra (k & Ek)];
    [unfold is_u16 in *; lia|exact Rc|].
  destruct (host16_bytes_spec be _ Ra) as (k0 & k1 & Hk & Rk0 & Rk1 & Ek').
  unfold store16. rewrite Hk.
  destruct (poke8_split _ _ _ _ 16 k0 Hb2) as (b3 & -> & Hb3); [rewrite !Zlen_update; lia|done|].
  cbn [res_bind].
  destruct (poke8_split _ _ _ _ (16 + 1) k1 Hb3) as (b4 & -> & Hb4); [rewrite !Zlen_update; lia|done|].
  exists b4. eexists. split; [done|]. split; [exact Hb4|]. split.
  - by rewrite !Zlen_update.
  - intros i Hi H16 H17 Hno. destruct (Hno opt) as [N1 N2]; [by apply list_elem_of_singleton|].
    rewrite update4_byte by lia. by rewrite !(proj2 (Z.eqb_neq i _)) by lia.
  - intros o ->%list_elem_of_singleton. rewrite Hw. unfold word. rewrite !update4_byte by lia.
    rewrite !(proj2 (Z.eqb_neq (opt + 2) (_ + 1))), !(proj2 (Z.eqb_neq (opt + 2) 16)),
      !(proj2 (Z.eqb_neq (opt + 2) (opt + 3))), Z.eqb_refl by lia.
    replace (opt + 2 + 1) with (opt + 3) by lia.
    rewrite !(proj2 (Z.eqb_neq (opt + 3) (_ + 1))), !(proj2 (Z.eqb_neq (opt + 3) 16)), Z.eqb_refl by lia.
    lia.
  - intros [Hev _]%Forall_cons. rewrite !wsum_update by (rewrite ?Zlen_update; lia).
    rewrite !byte_update by (rewrite ?Zlen_update; lia).
    rewrite (proj2 (Z.eqb_neq (opt + 3) (opt + 2))), !(proj2 (Z.eqb_neq 16 (opt + _))),
      !(proj2 (Z.eqb_neq (16 + 1) (opt + _))), (proj2 (Z.eqb_neq (16 + 1) 16)) by lia.
    fold hi lo. destruct (weight_even opt Hev) as [-> ->].
    change (weight 16) with 256. change (weight (16 + 1)) with 1.
    destruct (repaired be hi lo mh ml (byte c 16) (byte c (16 + 1)) k0 k1 k) as [q Hq]; [lia|].
    exists q. lia.
Qed.

Lemma mss_walk_range fuel c opt olen o : 0 <= opt -> o ∈ mss_walk fuel c opt olen -> opt <= o /\ o + 4 <= opt + olen.
Proof.
  revert opt olen. induction fuel as [|fuel IH]; intros opt olen Hopt; cbn [mss_walk].
  { destruct (1 <? olen); intros []%not_elem_of_nil. }
  destruct (Z.ltb_spec 1 olen); [|by intros []%not_elem_of_nil].
  destruct (byte c opt =? _); [by intros []%not_elem_of_nil|].
  destruct (byte c opt =? _); [intros Hin%IH; lia|].
  destruct (Z.leb_spec (byte c (opt + 1)) 0); [by intros []%not_elem_of_nil|].
  destruct (Z.ltb_spec olen (byte c (opt + 1))); [by intros []%not_elem_of_nil|].
  cbn [orb]. rewrite elem_of_app. intros [Hin|Hin%IH]; [|lia|lia].
  destruct (byte c opt =? _); [|by apply not_elem_of_nil in Hin]. cbn [andb] in Hin.
  destruct (Z.eqb_spec (byte c (opt + 1)) OPENVPN_TCPOLEN_MAXSEG) as [E|]; [|by apply not_elem_of_nil in Hin].
  apply list_elem_of_singleton in Hin. unfold OPENVPN_TCPOLEN_MAXSEG in E. lia.
Qed.

(** The walk depends on the bytes behind its position only. *)
Lemma mss_walk_ext fuel c c' opt olen :
  0 <= opt -> (forall i, opt <= i -> byte c' i = byte c i) -> mss_walk fuel c' opt olen = mss_walk fuel c opt olen.
Proof.
  revert opt olen. induction fuel as [|fuel IH]; intros opt olen Hopt Hs; cbn [mss_walk]; [done|].
  rewrite !Hs by lia. destruct (1 <? olen); [|done]. destruct (byte c opt =? _); [done|].
  destruct (byte c opt =? _); [apply IH; [lia|]; intros; apply Hs; lia|].
  destruct (Z.leb_spec (byte c (opt + 1)) 0); [done|]. destruct (olen <? _); [done|]. cbn [orb].
  f_equal. apply IH; [lia|]. intros i Hi. apply Hs. lia.
Qed.

(** Options one after the other. *)
Lemma clamped_cons c c1 c' o offs :
  20 <= o -> Forall (fun o' => o + 4 <= o') offs ->
  clamped maxmss [o] c c1 -> clamped maxmss offs c1 c' -> clamped maxmss (o :: offs) c c'.
Proof.
  intros Ho Hoffs [L1 S1 V1 W1] [L2 S2 V2 W2]. rewrite Forall_forall in Hoffs. split.
  - lia.
  - intros i Hi H16 H17 Hno. rewrite S2, S1; try done.
    + intros o' ->%list_elem_of_singleton. apply Hno. by left.
    + intros o' Hin. apply Hno. by right.
  - intros o' [->|Hin]%elem_of_cons.
    + rewrite <- V1 by (by apply list_elem_of_singleton). unfold word.
      rewrite !S2; try lia; try done; intros o' Hin; specialize (Hoffs _ Hin); cbn in Hoffs; lia.
    + rewrite V2 by done. f_equal. unfold word. specialize (Hoffs _ Hin). cbn in Hoffs.
      rewrite !S1; try lia; try done; intros o'' ->%list_elem_of_singleton; lia.
  - intros [He Hes]%Forall_cons. destruct (W1 ltac:(by repeat constructor)) as [q1 E1].
    destruct (W2 Hes) as [q2 E2]. exists (q1 + q2). lia.
Qed.

Lemma mss_loop_spec fuel b pre c post opt olen :
  buf_split b pre c post -> 20 <= opt -> opt + olen <= Zlen c -> olen <= Z.of_nat fuel ->
  exists b' c', mss_loop be fuel b opt olen maxmss = Ret b' /\ buf_split b' pre c' post
    /\ clamped maxmss (mss_walk fuel c opt olen) c c'.
Proof.
  revert b c opt olen. induction fuel as [|fuel IH]; intros b c opt olen Hb Ho Hl Hf;
    cbn [mss_loop mss_walk].
  { rewrite (proj2 (Z.ltb_ge _ _)) by lia. exists b, c. by auto using clamped_refl. }
  destruct (Z.ltb_spec 1 olen); [|exists b, c; by auto using clamped_refl].
  assert (Hok : bytes_ok c) by apply Hb.
  rewrite !(peek8_split _ _ _ _ _ Hb) by lia. cbn [res_bind].
  destruct (byte c opt =? OPENVPN_TCPOPT_EOL); [exists b, c; by auto using clamped_refl|].
  destruct (byte c opt =? OPENVPN_TCPOPT_NOP); [apply IH; (done || lia)|].
  destruct (Z.leb_spec (byte c (opt + 1)) 0); [exists b, c; by auto using clamped_refl|].
  destruct (Z.ltb_spec olen (byte c (opt + 1))); [exists b, c; by auto using clamped_refl|]. cbn [orb].
  destruct (byte c opt =? OPENVPN_TCPOPT_MAXSEG); cbn [andb]; [|apply IH; (done || lia)].
  destruct (Z.eqb_spec (byte c (opt + 1)) OPENVPN_TCPOLEN_MAXSEG) as [E|]; [|apply IH; (done || lia)].
  unfold OPENVPN_TCPOLEN_MAXSEG in E. rewrite E in *.
  destruct (mss_option_spec b pre c post opt Hb) as (b1 & c1 & -> & Hb1 & Hc1); [lia|lia|]. cbn [res_bind].
  assert (Hwalk : mss_walk fuel c1 (opt + 4) (olen - 4) = mss_walk fuel c (opt + 4) (olen - 4)).
  { apply mss_walk_ext; [lia|]. intros i Hi. apply (cl_same _ _ _ _ Hc1); try lia.
    intros o ->%list_elem_of_singleton. lia. }
  destruct (IH b1 c1 (opt + 4) (olen - 4) Hb1) as (b' & c' & -> & Hb' & Hc'); try lia.
  { rewrite (cl_len _ _ _ _ Hc1). lia. }
  exists b', c'. split_and!; try done. rewrite Hwalk in Hc'. apply (clamped_cons c c1); try done.
  apply Forall_forall. intros o Hin%mss_walk_range; lia.
Qed.

Lemma mss_dowork_spec b pre c post :
  buf_split b pre c post ->
  exists b' c', mss_fixup_dowork be b maxmss = Ret b' /\ buf_split b' pre c' post
    /\ clamped maxmss (mss_options c) c c'.
Proof.
  intros Hb. assert (Hlen : buf_len b = Zlen c).
  { apply (buf_len_repr b (Zlen pre) c (Zlen post)). by exists pre, post. }
  unfold mss_fixup_dowork, mss_options. rewrite Hlen. unfold sizeof_tcphdr.
  destruct (Z.ltb_spec (Zlen c) 20); [exists b, c; by auto using clamped_refl|].
  rewrite (peek8_split _ _ _ _ _ Hb) by lia. cbn [res_bind orb].
  destruct (Z.leb_spec (OPENVPN_TCPH_GET_DOFF (byte c 12)) 20); [exists b, c; by auto using clamped_refl|].
  destruct (Z.ltb_spec (Zlen c) (OPENVPN_TCPH_GET_DOFF (byte c 12))); [exists b, c; by auto using clamped_refl|].
  cbn [orb]. apply mss_loop_spec; (done || lia).
Qed.
End MssProof.

(** ** Packets *)

(** Where the TCP header of a packet starts whose options are looked at: an
    unfragmented TCP packet of the announced length with the SYN flag. *)
Definition is_syn (c : bytes) (n : Z) : bool := negb (Z.land (byte c (n + 13)) OPENVPN_TCPH_SYN_MASK =? 0).
Definition syn_header_v4 (c : bytes) : option Z :=
  let n := 4 * (byte c 0 mod 16) in
  if (20 <=? Zlen c) && (byte c 9 =? 6) && (word c 2 =? Zlen c) && (word c 6 mod 2 ^ 13 =? 0)
     && (n + 20 <=? Zlen c) && is_syn c n
  then Some n else None.
Definition syn_header_v6 (c : bytes) : option Z :=
  if (60 <=? Zlen c) && (byte c 6 =? 6) && (word c 4 + 40 =? Zlen c) && is_syn c 40
  then Some 40 else None.

(** What a fixup makes of the packet [c]: only the MSS options of the TCP header at
    [start] and its checksum change, and a correct checksum stays correct. *)
Definition fixed_up (maxmss : Z) (start : option Z) (c c' : bytes) : Prop :=
  match start with
  | None => c' = c
  | Some n => exists hd seg seg', c = hd ++ seg /\ c' = hd ++ seg' /\ Zlen hd = n
      /\ clamped maxmss (mss_options seg) seg seg'
      /\ (Forall (fun o => Z.even o = true) (mss_options seg) ->
          forall af src dst, addr_ok af src -> addr_ok af dst ->
          ip_checksum af seg src dst OPENVPN_IPPROTO_TCP = Ret 0 ->
          ip_checksum af seg' src dst OPENVPN_IPPROTO_TCP = Ret 0)
  end.

(** A clamped segment keeps a correct checksum. *)
Lemma clamped_checksum maxmss seg seg' af src dst :
  bytes_ok seg -> bytes_ok seg' -> Zlen seg <= 65535 -> addr_ok af src -> addr_ok af dst ->
  clamped maxmss (mss_options seg) seg seg' -> Forall (fun o => Z.even o = true) (mss_options seg) ->
  ip_checksum af seg src dst OPENVPN_IPPROTO_TCP = Ret 0 ->
  ip_checksum af seg' src dst OPENVPN_IPPROTO_TCP = Ret 0.
Proof.
  intros Ho Ho' Hl Hs Hd Hcl Hev. pose proof (cl_len _ _ _ _ Hcl) as Hlen.
  destruct (ip_checksum_spec af seg src dst OPENVPN_IPPROTO_TCP) as (v & -> & Hv);
    [done..|unfold OPENVPN_IPPROTO_TCP; lia|].
  destruct (ip_checksum_spec af seg' src dst OPENVPN_IPPROTO_TCP) as (v' & -> & Hv');
    [done|lia|done..|unfold OPENVPN_IPPROTO_TCP; lia|].
  intros [= ->]. f_equal. apply Hv'. destruct (proj1 Hv eq_refl) as [q Hq].
  destruct (cl_sum _ _ _ _ Hcl Hev) as [k Hk]. exists (q + k).
  unfold checksum_total in *. rewrite Hlen. lia.
Qed.

(** The common end of both functions: the window moves behind the IP header, and
    the data object is shared with the caller's buffer. *)
Lemma fixup_segment be maxmss b pre c post n :
  buf_split b pre c post -> is_u16 maxmss -> 0 <= n -> n + 20 <= Zlen c -> Zlen c - n <= 65535 ->
  exists nb nb' b' c', buf_advance b n = (true, nb) /\ buf_len nb = Zlen c - n
    /\ peek8 nb 13 = Ret (byte c (n + 13))
    /\ mss_fixup_dowork be nb maxmss = Ret nb' /\ b' = share b nb'
    /\ buf_split b' pre c' post /\ fixed_up maxmss (Some n) c c'.
Proof.
  intros Hb Hm Hn Hl Hmax. pose proof Hb as (Hd & Ho & Hlen & Hcap & Hm1 & O1 & O2 & O3).
  destruct (split_at c n) as (hd & seg & -> & Lhd & Lseg & _); [lia|].
  apply bytes_ok_app in O2 as [Oh Os]. rewrite Zlen_app in *.
  set (nb := set_window b (b_offset b + n) (b_len b - n)).
  assert (Hnb : buf_split nb (pre ++ hd) seg post).
  { unfold nb, buf_split, set_window. cbn. rewrite !Zlen_app, bytes_ok_app. split_and!; try done; try lia.
    rewrite Hd. f_equal. by rewrite <- !app_assoc. }
  destruct (mss_dowork_spec be maxmss Hm nb (pre ++ hd) seg post Hnb) as (nb' & seg' & Hw & Hnb' & Hcl).
  exists nb, nb', (share b nb'), (hd ++ seg').
  assert (Os' : bytes_ok seg') by apply Hnb'. pose proof (cl_len _ _ _ _ Hcl) as Hll.
  split_and!; try done.
  - unfold buf_advance. pose proof (buf_repr_valid b (Zlen pre) (hd ++ seg) (Zlen post)) as [-> _].
    { by exists pre, post. }
    cbn [negb orb]. by rewrite (proj2 (Z.ltb_ge n 0)), (proj2 (Z.ltb_ge (b_len b) n)) by lia.
  - rewrite (buf_len_repr nb (Zlen (pre ++ hd)) seg (Zlen post)); [lia|by exists (pre ++ hd), post].
  - rewrite (peek8_split _ _ _ _ _ Hnb) by lia. f_equal. unfold byte.
    replace (Z.to_nat (n + 13)) with (length hd + 13)%nat by (unfold Zlen in Lhd; lia).
    rewrite app_nth2 by lia. f_equal. lia.
  - destruct Hnb' as (Hd' & _). unfold share, buf_split. cbn. rewrite Hd', !Zlen_app, bytes_ok_app.
    split_and!; try done; try lia. f_equal. by rewrite <- !app_assoc.
  - exists hd, seg, seg'. split_and!; try done. intros Hev af src dst Hs Hd2.
    eapply clamped_checksum; try done. lia.
Qed.

Lemma iph_len v : is_u8 v -> OPENVPN_IPH_GET_LEN v = 4 * (v mod 16).
Proof.
  intros Hv. unfold OPENVPN_IPH_GET_LEN. change 0x0F with (Z.ones 4).
  rewrite Z.land_ones, Z.shiftl_mul_pow2 by lia. change (2 ^ 4) with 16. lia.
Qed.

Lemma untouched b pre c post m :
  buf_split b pre c post ->
  exists b' c', Ret b = Ret b' /\ buf_repr b' (Zlen pre) c' (Zlen post) /\ fixed_up m None c c'.
Proof. intros Hb. exists b, c. split; [done|]. split; [by exists pre, post|done]. Qed.

Lemma mss_fixup_ipv4_spec be b h c t maxmss :
  buf_repr b h c t -> is_u16 maxmss ->
  exists b' c', mss_fixup_ipv4 be b maxmss = Ret b' /\ buf_repr b' h c' t
    /\ fixed_up maxmss (syn_header_v4 c) c c'.
Proof.
  intros Hb Hm.
  pose proof (buf_len_repr _ _ _ _ Hb) as Hlen. pose proof (Zlen_nonneg c) as H0.
  destruct Hb as (pre & post & Hb & -> & ->). assert (Hok : bytes_ok c) by apply Hb.
  pose proof (fun m => untouched b pre c post m Hb) as Hsame.
  pose proof (fun i => byte_range c i Hok) as Hr.
  unfold mss_fixup_ipv4, syn_header_v4. rewrite Hlen. unfold sizeof_iphdr, sizeof_tcphdr.
  rewrite (Z.leb_antisym (Zlen c) 20).
  destruct (Z.ltb_spec (Zlen c) 20); [apply Hsame|]. cbn [negb].
  rewrite !(peek8_split _ _ _ _ _ Hb), !(peek16_split _ _ _ _ _ Hb) by lia. cbn [res_bind].
  rewrite iph_len by done. fold (word c 2) (word c 6). set (n := 4 * (byte c 0 mod 16)).
  assert (0 <= n) by (pose proof (Z.mod_pos_bound (byte c 0) 16); lia).
  change OPENVPN_IP_OFFMASK with (Z.ones 13). rewrite Z.land_ones by lia.
  unfold OPENVPN_IPPROTO_TCP. cbn [andb].
  destruct (byte c 9 =? 6); [|apply Hsame]. destruct (Z.eqb_spec (word c 2) (Zlen c)) as [Ew|]; [|apply Hsame].
  destruct (word c 6 mod 2 ^ 13 =? 0); [|apply Hsame]. cbn [andb].
  destruct (Z.leb_spec (n + 20) (Zlen c)).
  2:{ rewrite (proj2 (Z.leb_gt 20 (Zlen c - n))), andb_false_r by lia. apply Hsame. }
  rewrite !(proj2 (Z.leb_le _ _)) by lia. cbn [andb].
  assert (Zlen c <= 65535).
  { rewrite <- Ew. unfold word. pose proof (Hr 2). pose proof (Hr (2 + 1)). unfold is_u8 in *. lia. }
  destruct (fixup_segment be maxmss b pre c post n Hb) as (nb & nb' & b' & c' & -> & _ & -> & -> & -> & Hb' & Hf);
    [exact Hm|lia..|].
  cbn [res_bind]. unfold is_syn. destruct (negb _); [|apply Hsame].
  exists (share b nb'), c'. split; [done|]. split; [by exists pre, post|done].
Qed.

Lemma mss_fixup_ipv6_spec be b h c t maxmss :
  buf_repr b h c t -> 20 <= maxmss < 2 ^ 16 ->
  exists b' c', mss_fixup_ipv6 be b maxmss = Ret b' /\ buf_repr b' h c' t
    /\ fixed_up (maxmss - 20) (syn_header_v6 c) c c'.
Proof.
  intros Hb Hm.
  pose proof (buf_len_repr _ _ _ _ Hb) as Hlen. pose proof (Zlen_nonneg c) as H0.
  destruct Hb as (pre & post & Hb & -> & ->). assert (Hok : bytes_ok c) by apply Hb.
  pose proof (fun m => untouched b pre c post m Hb) as Hsame.
  pose proof (fun i => byte_range c i Hok) as Hr.
  unfold mss_fixup_ipv6, syn_header_v6. rewrite Hlen. unfold sizeof_ipv6hdr, sizeof_tcphdr.
  destruct (Z.ltb_spec (Zlen c) 40).
  { rewrite (proj2 (Z.leb_gt _ _)) by lia. apply Hsame. }
  rewrite !(peek16_split _ _ _ _ _ Hb), (peek8_split _ _ _ _ _ Hb) by lia. cbn [res_bind].
  fold (word c 4). rewrite (Z.eqb_sym (Zlen c)). unfold OPENVPN_IPPROTO_TCP.
  destruct (Z.eqb_spec (word c 4 + 40) (Zlen c)) as [Ew|]; [|rewrite !andb_false_r; apply Hsame].
  cbn [negb]. destruct (byte c 6 =? 6); [|rewrite !andb_false_r; apply Hsame]. cbn [negb andb].
  destruct (Z.leb_spec 60 (Zlen c)).
  2:{ cbn [andb]. destruct (buf_advance b 40) as [[|] nb] eqn:Ea; [|apply Hsame].
      assert (buf_len nb = Zlen c - 40) as ->.
      { destruct (buf_advance_repr b (Zlen pre) c (Zlen post) ltac:(by exists pre, post) 40)
          as (nb0 & E & Hn); [lia|]. rewrite Ea in E. injection E as <-.
        destruct (buf_len_repr _ _ _ _ Hn). rewrite (buf_len_repr _ _ _ _ Hn).
        destruct (Zlen_take_drop c 40) as [_ E2]; [lia|exact E2]. }
      rewrite (proj2 (Z.leb_gt 20 _)) by lia. apply Hsame. }
  assert (Zlen c - 40 <= 65535).
  { pose proof (Hr 4). pose proof (Hr (4 + 1)). unfold word, is_u8 in *. lia. }
  assert (Em : u16 (maxmss - 20) = maxmss - 20) by (apply u16_id; unfold is_u16; lia). rewrite Em.
  destruct (fixup_segment be (maxmss - 20) b pre c post 40 Hb)
    as (nb & nb' & b' & c' & -> & -> & -> & -> & -> & Hb' & Hf); [unfold is_u16; lia|lia..|].
  rewrite (proj2 (Z.leb_le 20 _)) by lia. cbn [res_bind andb]. unfold is_syn.
  destruct (negb _); [|apply Hsame]. exists (share b nb'), c'. split; [done|]. split; [by exists pre, post|done].
Qed.

(** C40: MSS clamping.  Given any packet, [mss_fixup_ipv4] and [mss_fixup_ipv6]
    return, without an access outside the data object, and change nothing but
    unfragmented TCP SYN packets; there every MSS option of the TCP header is limited
    to the maximum (20 less for IPv6), no byte other than those option values and the
    TCP checksum changes, and if the options start at even offsets a correct
    checksum, as [ip_checksum] computes it over the segment and the pseudo header,
    stays correct, on hosts of either byte order. *)
Theorem mss_fixup_correct (be : bool) (b : buffer) (h : Z) (c : bytes) (t maxmss : Z) :
  buf_repr b h c t -> 20 <= maxmss < 2 ^ 16 ->
  (exists b' c', mss_fixup_ipv4 be b maxmss = Ret b' /\ buf_repr b' h c' t
     /\ fixed_up maxmss (syn_header_v4 c) c c')
  /\ (exists b' c', mss_fixup_ipv6 be b maxmss = Ret b' /\ buf_repr b' h c' t
        /\ fixed_up (maxmss - 20) (syn_header_v6 c) c c').
Proof.
  intros Hb Hm. split; [apply mss_fixup_ipv4_spec|by apply mss_fixup_ipv6_spec]; [done|unfold is_u16; lia].
Qed.

Definition syn_packet : bytes :=
  [69; 0; 0; 48; 0; 1; 0; 0; 64; 6; 0; 0; 10; 8; 0; 1; 10; 8; 0; 2] ++
  [48; 57; 0; 80; 0; 0; 0; 1; 0; 0; 0; 0; 112; 2; 255; 255; 65; 133; 0; 0; 2; 4; 5; 180; 1; 1; 1; 0].
(** The MSS option behind a no-operation option. *)
Definition odd_syn_packet : bytes :=
  [69; 0; 0; 48; 0; 1; 0; 0; 64; 6; 0; 0; 10; 8; 0; 1; 10; 8; 0; 2] ++
  [48; 57; 0; 80; 0; 0; 0; 1; 0; 0; 0; 0; 112; 2; 255; 255; 145; 53; 0; 0; 1; 2; 4; 5; 180; 1; 1; 0].
Definition packet_buffer (c : bytes) : buffer := mk_buffer (Zlen c) 0 (Zlen c) (Some c).

Lemma packet_buffer_repr c :
  forallb (fun x => (0 <=? x) && (x <? 256)) c = true -> Zlen c < BUF_SIZE_MAX ->
  buf_repr (packet_buffer c) 0 c 0.
Proof.
  intros Hc Hl. exists [], []. unfold buf_split, packet_buffer. cbn [b_data b_offset b_len b_capacity app].
  rewrite app_nil_r. change (Zlen (@nil Z)) with 0. split_and!; try done; try lia; try constructor.
  apply Forall_forall. intros x Hx. pose proof (proj1 (forallb_forall _ _) Hc x (proj1 (list_elem_of_In _ _) Hx)) as [A%Z.leb_le B%Z.ltb_lt]%andb_true_iff.
  unfold is_u8. lia.
Qed.

Lemma mss_fixup_correct_witness :
  (exists b' c', mss_fixup_ipv4 false (packet_buffer syn_packet) 1200 = Ret b' /\ buf_repr b' 0 c' 0
     /\ fixed_up 1200 (syn_header_v4 syn_packet) syn_packet c')
  /\ (exists b' c', mss_fixup_ipv6 false (packet_buffer syn_packet) 1200 = Ret b' /\ buf_repr b' 0 c' 0
        /\ fixed_up (1200 - 20) (syn_header_v6 syn_packet) syn_packet c').
Proof.
  apply (mss_fixup_correct false (packet_buffer syn_packet) 0 syn_packet 0 1200); [|lia].
  apply packet_buffer_repr; [vm_compute; reflexivity|vm_compute; reflexivity].
Defined.

(** The hypotheses on the example: one option at an even offset, a correct checksum. *)
Example syn_packet_example :
  syn_header_v4 syn_packet = Some 20 /\ mss_options (drop 20 syn_packet) = [20]
  /\ ip_checksum AF_INET (drop 20 syn_packet) [10; 8; 0; 1] [10; 8; 0; 2] 6 = Ret 0.
Proof. vm_compute. done. Qed.

(** The checksum breaks when the MSS option starts at an odd offset, behind a
    single no-operation option: the code adds the difference of the values as if
    they were aligned.  A SYN packet with a correct checksum leaves
    [mss_fixup_ipv4] with a wrong one, on hosts of either byte order. *)
Lemma mss_fixup_odd_offset (be : bool) :
  ip_checksum AF_INET (drop 20 odd_syn_packet) [10; 8; 0; 1] [10; 8; 0; 2] OPENVPN_IPPROTO_TCP = Ret 0
  /\ exists b', mss_fixup_ipv4 be (packet_buffer odd_syn_packet) 1200 = Ret b'
       /\ word (contents b') 43 = 1200
       /\ ip_checksum AF_INET (drop 20 (contents b')) [10; 8; 0; 1] [10; 8; 0; 2] OPENVPN_IPPROTO_TCP
          <> Ret 0.
Proof.
  split; [vm_compute; done|]. destruct be; eexists; (split; [vm_compute; reflexivity|]); by vm_compute.
Qed.
