(* ===== verification/Schedule.v ===== *)
(** * The scheduler of the server (schedule.h, schedule.c)

    A randomised treap of wake-up times with parent links.  The entries belong to
    the callers; the memory that holds them is a finite map from locations to
    entries, and every pointer assignment of the code is an update of that map.
    The random source is a function of the number of calls made so far. *)

From S2P Require Import Prelude OTime.
From stdpp Require Import gmap.
#[local] Open Scope Z_scope.

Abbreviation loc := positive.

Record schedule_entry : Type := mk_entry {
  se_tv : timeval;
  se_pri : Z;
  se_parent : option loc;
  se_lt : option loc;
  se_gt : option loc
}.
Record schedule : Type := mk_schedule {
  earliest_wakeup : option loc;
  root : option loc
}.
(** The memory with the entries, the scheduler, and the number of calls of
    [random] made. *)
Abbreviation mem := (gmap loc schedule_entry).

Definition set_tv (tv : timeval) (e : schedule_entry) : schedule_entry :=
  mk_entry tv (se_pri e) (se_parent e) (se_lt e) (se_gt e).
Definition set_pri (p : Z) (e : schedule_entry) : schedule_entry :=
  mk_entry (se_tv e) p (se_parent e) (se_lt e) (se_gt e).
Definition set_parent (p : option loc) (e : schedule_entry) : schedule_entry :=
  mk_entry (se_tv e) (se_pri e) p (se_lt e) (se_gt e).
Definition set_lt (p : option loc) (e : schedule_entry) : schedule_entry :=
  mk_entry (se_tv e) (se_pri e) (se_parent e) p (se_gt e).
Definition set_gt (p : option loc) (e : schedule_entry) : schedule_entry :=
  mk_entry (se_tv e) (se_pri e) (se_parent e) (se_lt e) p.

Definition get (m : mem) (l : loc) : res schedule_entry :=
  match m !! l with Some e => Ret e | None => UB end.
Definition put (m : mem) (l : loc) (f : schedule_entry -> schedule_entry) : res mem :=
  match m !! l with Some e => Ret (<[l := f e]> m) | None => UB end.
Definition set_root (s : schedule) (r : option loc) : schedule := mk_schedule (earliest_wakeup s) r.
Definition set_earliest (s : schedule) (r : option loc) : schedule := mk_schedule r (root s).

Definition ptr_eq (p q : option loc) : bool := bool_decide (p = q).

Definition schedule_init : schedule := mk_schedule None None.

(** ** Comparison and priorities *)
Definition schedule_entry_compare (e1 e2 : schedule_entry) : Z :=
  if tv_sec (se_tv e1) <? tv_sec (se_tv e2) then -1
  else if tv_sec (se_tv e2) <? tv_sec (se_tv e1) then 1
  else if tv_usec (se_tv e1) <? tv_usec (se_tv e2) then -1
  else if tv_usec (se_tv e2) <? tv_usec (se_tv e1) then 1
  else if se_pri e1 <? se_pri e2 then -1
  else if se_pri e2 <? se_pri e1 then 1
  else 0.

Section Random.
(** [random ()] at its [n]-th call. *)
Variable random : Z -> Z.

Definition schedule_set_pri (m : mem) (n : Z) (e : loc) : res (mem * Z) :=
  let pri := u32 (random n) in
  let pri := if pri <? 1 then 1 else pri in
  let! m := put m e (set_pri pri) in Ret (m, n + 1).

(** ** Tree surgery *)
Definition schedule_detach_parent (s : schedule) (m : mem) (e : loc) : res (schedule * mem) :=
  let! en := get m e in
  match se_parent en with
  | Some p =>
      let! pn := get m p in
      let! m := (if ptr_eq (se_lt pn) (Some e) then put m p (set_lt None)
                 else if ptr_eq (se_gt pn) (Some e) then put m p (set_gt None)
                 else Fatal) in
      let! m := put m e (set_parent None) in
      Ret (s, m)
  | None => Ret (if ptr_eq (root s) (Some e) then set_root s None else s, m)
  end.

(** The link from the grandparent [gp] of [e] to its parent [p] now leads to [e]. *)
Definition relink (s : schedule) (m : mem) (gp : option loc) (p e : loc) : res (schedule * mem) :=
  match gp with
  | Some g =>
      let! gn := get m g in
      let! m := (if ptr_eq (se_gt gn) (Some p) then put m g (set_gt (Some e))
                 else if ptr_eq (se_lt gn) (Some p) then put m g (set_lt (Some e))
                 else Fatal) in
      Ret (s, m)
  | None => Ret (set_root s (Some e), m)
  end.

(** [if (o) o->parent = p]. *)
Definition reparent (m : mem) (o : option loc) (p : option loc) : res mem :=
  match o with Some k => put m k (set_parent p) | None => Ret m end.

Definition schedule_rotate_up (s : schedule) (m : mem) (e : loc) : res (schedule * mem) :=
  let! en := get m e in
  match se_parent en with
  | None => Ret (s, m)
  | Some p =>
      let lt := se_lt en in
      let gt := se_gt en in
      let! pn := get m p in
      let gp := se_parent pn in
      let! (s, m) := relink s m gp p e in
      let! m := put m e (set_parent gp) in
      let! m := put m p (set_parent (Some e)) in
      let! pn := get m p in
      if ptr_eq (se_gt pn) (Some e) then
        let! m := put m e (set_lt (Some p)) in
        let! m := put m p (set_gt lt) in
        let! m := reparent m lt (Some p) in Ret (s, m)
      else if ptr_eq (se_lt pn) (Some e) then
        let! m := put m e (set_gt (Some p)) in
        let! m := put m p (set_lt gt) in
        let! m := reparent m gt (Some p) in Ret (s, m)
      else Fatal
  end.

(** [while (e->lt || e->gt)]. *)
Fixpoint remove_loop (fuel : nat) (s : schedule) (m : mem) (e : loc) : res (schedule * mem) :=
  match fuel with
  | O => UB
  | S fuel =>
      let! en := get m e in
      match se_lt en, se_gt en with
      | None, None => Ret (s, m)
      | Some l, Some g =>
          let! ln := get m l in
          let! gn := get m g in
          let! (s, m) := schedule_rotate_up s m (if se_pri ln <? se_pri gn then l else g) in
          remove_loop fuel s m e
      | Some l, None => let! (s, m) := schedule_rotate_up s m l in remove_loop fuel s m e
      | None, Some g => let! (s, m) := schedule_rotate_up s m g in remove_loop fuel s m e
      end
  end.

Definition schedule_remove_node (s : schedule) (m : mem) (e : loc) : res (schedule * mem) :=
  let! (s, m) := remove_loop (S (size m)) s m e in
  let! (s, m) := schedule_detach_parent s m e in
  let! m := put m e (set_pri 0) in
  Ret (s, m).

(** The descent of [schedule_insert] from [c]: the memory with [e] linked in, or
    [None] if it met an entry with the same key. *)
Fixpoint insert_walk (fuel : nat) (m : mem) (e c : loc) : res (option mem) :=
  match fuel with
  | O => UB
  | S fuel =>
      let! en := get m e in
      let! cn := get m c in
      let comp := schedule_entry_compare en cn in
      if comp =? -1 then
        match se_lt cn with
        | Some l => insert_walk fuel m e l
        | None => let! m := put m c (set_lt (Some e)) in
                  let! m := put m e (set_parent (Some c)) in Ret (Some m)
        end
      else if comp =? 1 then
        match se_gt cn with
        | Some g => insert_walk fuel m e g
        | None => let! m := put m c (set_gt (Some e)) in
                  let! m := put m e (set_parent (Some c)) in Ret (Some m)
        end
      else Ret None
  end.

(** [tries] descents; after a collision the entry gets another priority. *)
Fixpoint schedule_insert (tries : nat) (s : schedule) (m : mem) (n : Z) (e : loc) : res (mem * Z) :=
  match tries, root s with
  | O, _ | _, None => UB
  | S tries, Some c =>
      let! r := insert_walk (S (size m)) m e c in
      match r with
      | Some m => Ret (m, n)
      | None => let! (m, n) := schedule_set_pri m n e in schedule_insert tries s m n e
      end
  end.

(** [while (e->parent && e->parent->pri > e->pri)]. *)
Fixpoint sift_up (fuel : nat) (s : schedule) (m : mem) (e : loc) : res (schedule * mem) :=
  match fuel with
  | O => UB
  | S fuel =>
      let! en := get m e in
      match se_parent en with
      | None => Ret (s, m)
      | Some p =>
          let! pn := get m p in
          if se_pri en <? se_pri pn
          then let! (s, m) := schedule_rotate_up s m e in sift_up fuel s m e
          else Ret (s, m)
      end
  end.

Definition IN_TREE (e : schedule_entry) : bool := negb (se_pri e =? 0).

(** The part of [schedule_add_modify] behind the removal. *)
Definition add_node (tries : nat) (s : schedule) (m : mem) (n : Z) (e : loc) : res (schedule * mem * Z) :=
  let! (m, n) := schedule_set_pri m n e in
  let! (s, m, n) :=
    match root s with
    | Some _ => let! (m, n) := schedule_insert tries s m n e in Ret (s, m, n)
    | None => Ret (set_root s (Some e), m, n)
    end in
  let! (s, m) := sift_up (S (size m)) s m e in
  Ret (s, m, n).

Definition schedule_add_modify (tries : nat) (s : schedule) (m : mem) (n : Z) (e : loc)
  : res (schedule * mem * Z) :=
  let! en := get m e in
  let! (s, m) := (if IN_TREE en then schedule_remove_node s m e else Ret (s, m)) in
  add_node tries s m n e.

(** [while (e->lt)]. *)
Fixpoint least_loop (fuel : nat) (m : mem) (e : loc) : res loc :=
  match fuel with
  | O => UB
  | S fuel => let! en := get m e in
              match se_lt en with Some l => least_loop fuel m l | None => Ret e end
  end.
Definition schedule_find_least (m : mem) (e : option loc) : res (option loc) :=
  match e with
  | Some e => let! l := least_loop (S (size m)) m e in Ret (Some l)
  | None => Ret None
  end.

(** ** Public functions *)
Definition schedule_remove_entry (s : schedule) (m : mem) (e : loc) : res (schedule * mem) :=
  schedule_remove_node (set_earliest s None) m e.

Definition schedule_add_entry (tries : nat) (s : schedule) (m : mem) (n : Z) (e : loc) (tv : timeval) (sigma : Z)
  : res (schedule * mem * Z) :=
  let! en := get m e in
  if negb (IN_TREE en) || (sigma =? 0) || negb (tv_within_sigma tv (se_tv en) sigma) then
    let! m := put m e (set_tv tv) in
    let! (s, m, n) := schedule_add_modify tries s m n e in
    Ret (set_earliest s None, m, n)
  else Ret (s, m, n).

(** Result: the entry, and the value stored through [wakeup]. *)
Definition schedule_get_earliest_wakeup (s : schedule) (m : mem)
  : res (option (loc * timeval) * schedule) :=
  let! s := (match earliest_wakeup s with
             | None => let! l := schedule_find_least m (root s) in Ret (set_earliest s l)
             | Some _ => Ret s
             end) in
  match earliest_wakeup s with
  | Some e => let! en := get m e in Ret (Some (e, se_tv en), s)
  | None => Ret (None, s)
  end.
End Random.

(** ** Trees

    A tree with the locations, times and priorities of its entries, and the
    context of one of its subtrees. *)
Record item : Type := mk_item { i_loc : loc; i_tv : timeval; i_pri : Z }.
Inductive tree : Type :=
| Leaf
| Node (l : tree) (x : item) (r : tree).
Inductive ctx : Type :=
| Top
| InLt (c : ctx) (x : item) (r : tree)
| InGt (l : tree) (x : item) (c : ctx).

Definition rootp (t : tree) : option loc :=
  match t with Leaf => None | Node _ x _ => Some (i_loc x) end.
Definition parentp (c : ctx) : option loc :=
  match c with Top => None | InLt _ x _ | InGt _ x _ => Some (i_loc x) end.

Fixpoint inorder (t : tree) : list item :=
  match t with Leaf => [] | Node l x r => inorder l ++ x :: inorder r end.
(** What stands in front of and behind the subtree. *)
Fixpoint before (c : ctx) : list item :=
  match c with Top => [] | InLt c _ _ => before c | InGt l x c => before c ++ inorder l ++ [x] end.
Fixpoint behind (c : ctx) : list item :=
  match c with Top => [] | InLt c x r => x :: inorder r ++ behind c | InGt _ _ c => behind c end.
Fixpoint plug (c : ctx) (t : tree) : tree :=
  match c with
  | Top => t
  | InLt c x r => plug c (Node t x r)
  | InGt l x c => plug c (Node l x t)
  end.
Definition locs (l : list item) : list loc := map i_loc l.

Lemma inorder_plug c t : inorder (plug c t) = before c ++ inorder t ++ behind c.
Proof.
  revert t. induction c as [|c IH x r|l x c IH]; intros t; cbn [plug before behind].
  - by rewrite app_nil_r.
  - rewrite IH. cbn [inorder]. by rewrite <- app_assoc.
  - rewrite IH. cbn [inorder]. by rewrite <- !app_assoc.
Qed.

(** *** Representation in memory *)
Definition node_at (m : mem) (x : item) (p l g : option loc) : Prop :=
  m !! i_loc x = Some (mk_entry (i_tv x) (i_pri x) p l g).
Fixpoint rep (m : mem) (p : option loc) (t : tree) : Prop :=
  match t with
  | Leaf => True
  | Node l x r => node_at m x p (rootp l) (rootp r) /\ rep m (Some (i_loc x)) l /\ rep m (Some (i_loc x)) r
  end.
(** The context of a subtree whose root is [h]. *)
Fixpoint repc (s : schedule) (m : mem) (c : ctx) (h : option loc) : Prop :=
  match c with
  | Top => root s = h
  | InLt c x r => node_at m x (parentp c) h (rootp r) /\ rep m (Some (i_loc x)) r /\ repc s m c (Some (i_loc x))
  | InGt l x c => node_at m x (parentp c) (rootp l) h /\ rep m (Some (i_loc x)) l /\ repc s m c (Some (i_loc x))
  end.
(** The tree [plug c t] is in memory, seen from its subtree [t]. *)
Record at_focus (s : schedule) (m : mem) (c : ctx) (t : tree) : Prop := {
  af_tree : rep m (parentp c) t;
  af_ctx : repc s m c (rootp t);
  af_nodup : NoDup (locs (inorder (plug c t)))
}.

Lemma rep_frame m p t k v : k ∉ locs (inorder t) -> rep m p t -> rep (<[k := v]> m) p t.
Proof.
  unfold locs. revert p. induction t as [|l IHl x r IHr]; intros p Hk; [done|]. cbn [inorder rep] in *.
  rewrite map_app, elem_of_app in Hk. cbn in Hk. rewrite elem_of_cons in Hk.
  intros (Hx & Hl & Hr). split_and!; [|apply IHl; tauto|apply IHr; tauto].
  unfold node_at. rewrite lookup_insert_ne by (intros ->; tauto). done.
Qed.

Lemma repc_frame s m c h k v :
  k ∉ locs (before c) -> k ∉ locs (behind c) -> repc s m c h -> repc s (<[k := v]> m) c h.
Proof.
  unfold locs. revert h. induction c as [|c IH x r|l x c IH]; intros h H1 H2; [done| |];
    cbn [before behind repc] in *.
  - cbn in H2. rewrite map_app, elem_of_cons, elem_of_app in H2. intros (Hx & Hr & Hc).
    split_and!; [|apply rep_frame; [unfold locs; tauto|done]|apply IH; [tauto|tauto|done]].
    unfold node_at. rewrite lookup_insert_ne by (intros ->; tauto). done.
  - rewrite !map_app, !elem_of_app in H1. cbn in H1. rewrite elem_of_cons in H1. intros (Hx & Hr & Hc).
    split_and!; [|apply rep_frame; [unfold locs; tauto|done]|apply IH; [tauto|tauto|done]].
    unfold node_at. rewrite lookup_insert_ne by (intros ->; tauto). done.
Qed.

(** Moving the focus does not touch the memory. *)
Lemma focus_lt s m c l x r : at_focus s m c (Node l x r) <-> at_focus s m (InLt c x r) l.
Proof.
  split; intros [H1 H2 H3]; cbn in *; (split; cbn; [| |exact H3]); tauto.
Qed.
Lemma focus_gt s m c l x r : at_focus s m c (Node l x r) <-> at_focus s m (InGt l x c) r.
Proof.
  split; intros [H1 H2 H3]; cbn in *; (split; cbn; [| |exact H3]); tauto.
Qed.
Lemma focus_top s m c t : at_focus s m c t <-> at_focus s m Top (plug c t).
Proof.
  revert t. induction c as [|c IH x r|l x c IH]; intros t; cbn [plug]; [done| |].
  - by rewrite <- focus_lt, IH.
  - by rewrite <- focus_gt, IH.
Qed.

Lemma rep_agree m m' p t :
  (forall k, k ∈ locs (inorder t) -> m' !! k = m !! k) -> rep m p t -> rep m' p t.
Proof.
  unfold locs. revert p. induction t as [|l IHl x r IHr]; intros p Hk; [done|]. cbn [inorder rep] in *.
  rewrite map_app in Hk. cbn in Hk. intros (Hx & Hl & Hr).
  split_and!; [|apply IHl; [set_solver|done]|apply IHr; [set_solver|done]].
  unfold node_at. rewrite Hk; [done|]. set_solver.
Qed.

Lemma repc_agree s s' m m' c h :
  root s' = root s -> (forall k, k ∈ locs (before c ++ behind c) -> m' !! k = m !! k) ->
  repc s m c h -> repc s' m' c h.
Proof.
  intros Hs. unfold locs. revert h. induction c as [|c IH x r|l x c IH]; intros h Hk;
    cbn [before behind repc] in *; [by intros <-| |].
  - rewrite map_app in Hk. cbn in Hk. rewrite map_app in Hk. intros (Hx & Hr & Hc).
    split_and!; [|eapply rep_agree; [|done]; unfold locs; set_solver|apply IH; [rewrite map_app; set_solver|done]].
    unfold node_at. rewrite Hk; [done|]. set_solver.
  - rewrite !map_app in Hk. cbn in Hk. intros (Hx & Hr & Hc).
    split_and!; [|eapply rep_agree; [|done]; unfold locs; set_solver|apply IH; [rewrite map_app; set_solver|done]].
    unfold node_at. rewrite Hk; [done|]. set_solver.
Qed.

(** *** Memory updates *)
Lemma get_ok m k e : m !! k = Some e -> get m k = Ret e.
Proof. unfold get. by intros ->. Qed.
Lemma put_ok m k e f : m !! k = Some e -> put m k f = Ret (<[k := f e]> m).
Proof. unfold put. by intros ->. Qed.

Lemma ptr_eq_refl p : ptr_eq p p = true.
Proof. by apply bool_decide_true. Qed.
Lemma ptr_eq_ne p q : p <> q -> ptr_eq p q = false.
Proof. apply bool_decide_false. Qed.

(** [m'] differs from [m] at the locations of [ks] only. *)
Definition changed (ks : list loc) (m m' : mem) : Prop :=
  (forall k, k ∉ ks -> m' !! k = m !! k) /\ dom m' = dom m.

Lemma changed_refl ks m : changed ks m m.
Proof. done. Qed.
Lemma changed_trans ks m1 m2 m3 : changed ks m1 m2 -> changed ks m2 m3 -> changed ks m1 m3.
Proof. intros [A1 B1] [A2 B2]. split; [|congruence]. intros k Hk. by rewrite A2, A1. Qed.
Lemma changed_insert ks m k e v : m !! k = Some e -> k ∈ ks -> changed ks m (<[k := v]> m).
Proof.
  intros Hm Hk. split.
  - intros j Hj. apply lookup_insert_ne. by intros ->.
  - apply elem_of_dom_2 in Hm. set_solver.
Qed.
Lemma changed_weaken ks ks' m m' : ks ⊆ ks' -> changed ks m m' -> changed ks' m m'.
Proof. intros Hs [A B]. split; [|done]. intros k Hk. apply A. set_solver. Qed.

Lemma rootp_in t k : rootp t = Some k -> k ∈ locs (inorder t).
Proof. destruct t as [|l x r]; [done|]. intros [= <-]. unfold locs. cbn. rewrite map_app. set_solver. Qed.

Lemma rep_root m p t k : rep m p t -> rootp t = Some k -> exists e, m !! k = Some e /\ se_parent e = p.
Proof. destruct t as [|l x r]; [done|]. intros (Hx & _) [= <-]. eexists. split; [exact Hx|done]. Qed.

(** A subtree gets another parent. *)
Lemma reparent_spec m p q t :
  rep m p t -> NoDup (locs (inorder t)) ->
  exists m', reparent m (rootp t) q = Ret m' /\ rep m' q t /\ changed (locs (inorder t)) m m'.
Proof.
  destruct t as [|l x r]; intros Hr Hnd; cbn [rootp reparent].
  { exists m. split_and!; [done|done|apply changed_refl]. }
  destruct Hr as (Hx & Hl & Hr). rewrite (put_ok _ _ _ _ Hx). eexists. split; [reflexivity|].
  unfold locs in Hnd. cbn [inorder] in Hnd. rewrite map_app in Hnd. cbn in Hnd.
  apply NoDup_app in Hnd as (_ & Hd & [Hxr _]%NoDup_cons). split.
  - cbn [rep]. split_and!.
    + unfold node_at. by rewrite lookup_insert_eq.
    + apply rep_frame; [|done]. unfold locs. intros Hin. apply (Hd _ Hin). by left.
    + by apply rep_frame.
  - eapply changed_insert; [exact Hx|]. unfold locs. cbn. rewrite map_app. set_solver.
Qed.

(** Another subtree in the place of the focus: the link of its parent, or the root,
    is set. *)
Definition hook_root (s : schedule) (c : ctx) (h : option loc) : schedule :=
  match c with Top => set_root s h | _ => s end.
Definition hook_mem (m : mem) (c : ctx) (h : option loc) : mem :=
  match c with
  | Top => m
  | InLt _ x _ => match m !! i_loc x with Some en => <[i_loc x := set_lt h en]> m | None => m end
  | InGt _ x _ => match m !! i_loc x with Some en => <[i_loc x := set_gt h en]> m | None => m end
  end.

Lemma hook_spec s m c h h' :
  repc s m c h -> NoDup (locs (before c ++ behind c)) ->
  repc (hook_root s c h') (hook_mem m c h') c h'
  /\ earliest_wakeup (hook_root s c h') = earliest_wakeup s
  /\ changed (locs (before c ++ behind c)) m (hook_mem m c h').
Proof.
  unfold locs. destruct c as [|c x r|l x c]; cbn [repc before behind hook_root hook_mem]; intros Hc Hnd.
  - split_and!; [done|done|apply changed_refl].
  - destruct Hc as (Hx & Hr & Hc). rewrite map_app in *. cbn in *. rewrite map_app in *. rewrite Hx.
    apply NoDup_app in Hnd as (_ & Hd & [Hxr _]%NoDup_cons).
    split_and!; [by unfold node_at; rewrite lookup_insert_eq|apply rep_frame; [unfold locs; set_solver|done]
      |apply repc_frame; unfold locs; set_solver|done|].
    eapply changed_insert; [exact Hx|]. set_solver.
  - destruct Hc as (Hx & Hl & Hc). rewrite !map_app in *. cbn in *. rewrite Hx.
    rewrite !NoDup_app in Hnd. destruct Hnd as ((_ & Hd1 & _ & Hd2 & _) & Hd & _).
    split_and!; [by unfold node_at; rewrite lookup_insert_eq|apply rep_frame; [unfold locs; set_solver|done]
      |apply repc_frame; unfold locs; set_solver|done|].
    eapply changed_insert; [exact Hx|]. set_solver.
Qed.

Lemma relink_hook s m c p e :
  repc s m c (Some p) -> p ∉ locs (before c ++ behind c) ->
  relink s m (parentp c) p e = Ret (hook_root s c (Some e), hook_mem m c (Some e)).
Proof.
  unfold locs. destruct c as [|c x r|l x c]; cbn [parentp relink repc before behind]; intros Hc Hp.
  - done.
  - destruct Hc as (Hx & Hr & Hc). rewrite map_app in *. cbn in *. rewrite map_app in *.
    rewrite (get_ok _ _ _ Hx). cbn [res_bind se_gt se_lt].
    rewrite ptr_eq_ne by (intros E%rootp_in; unfold locs in E; set_solver). rewrite ptr_eq_refl.
    rewrite (put_ok _ _ _ _ Hx). cbn [res_bind]. by rewrite Hx.
  - destruct Hc as (Hx & Hl & Hc). rewrite (get_ok _ _ _ Hx). cbn [res_bind se_gt se_lt]. rewrite ptr_eq_refl.
    rewrite (put_ok _ _ _ _ Hx). cbn [res_bind hook_mem]. by rewrite Hx.
Qed.

(** The locations of a tree seen from an entry [e] and its parent [p]. *)
Record family (e p : loc) (L R Q K : list loc) : Prop := {
  fm_ep : e <> p;
  fm_R : NoDup R;
  fm_L : NoDup L;
  fm_K : NoDup K;
  fm_e : (e ∉ L) /\ (e ∉ R) /\ (e ∉ Q) /\ (e ∉ K);
  fm_p : (p ∉ L) /\ (p ∉ R) /\ (p ∉ Q) /\ (p ∉ K);
  fm_LR : forall k, k ∈ L -> (k ∉ R) /\ (k ∉ Q) /\ (k ∉ K);
  fm_RQ : forall k, k ∈ R -> (k ∉ Q) /\ (k ∉ K);
  fm_QK : forall k, k ∈ Q -> k ∉ K
}.

Lemma family_nodup e p (L R Q K : list loc) : NoDup (p :: e :: L ++ R ++ Q ++ K) -> family e p L R Q K.
Proof.
  rewrite !NoDup_cons, !NoDup_app. setoid_rewrite elem_of_cons. setoid_rewrite elem_of_app.
  setoid_rewrite elem_of_app. setoid_rewrite elem_of_app.
  intros (Hp & He & HL & HLR & HR & HRQ & HQ & HQK & HK).
  split; try done; try tauto; [intros ->; tauto|..]; intros k Hk; specialize (HLR k); specialize (HRQ k); tauto.
Qed.

Lemma perm_lt {A} (B L R Q D : list A) e p :
  B ++ ((L ++ e :: R) ++ p :: Q) ++ D ≡ₚ p :: e :: L ++ R ++ Q ++ B ++ D.
Proof.
  rewrite Permutation_app_swap_app, <- app_assoc. cbn. rewrite <- Permutation_middle. constructor.
  rewrite <- app_assoc. cbn. by rewrite <- Permutation_middle.
Qed.

Lemma perm_gt {A} (B L R Q D : list A) e p :
  B ++ (Q ++ p :: L ++ e :: R) ++ D ≡ₚ p :: e :: L ++ R ++ Q ++ B ++ D.
Proof.
  rewrite Permutation_app_swap_app, <- app_assoc. cbn. rewrite <- Permutation_middle. constructor.
  rewrite <- app_assoc. cbn. rewrite (app_assoc Q L), <- Permutation_middle. constructor.
  rewrite <- app_assoc, Permutation_app_swap_app. apply Permutation_app_head.
  apply Permutation_app_swap_app.
Qed.

Lemma family_lt c l e r p rp :
  NoDup (locs (inorder (plug (InLt c p rp) (Node l e r)))) ->
  family (i_loc e) (i_loc p) (locs (inorder l)) (locs (inorder r)) (locs (inorder rp))
    (locs (before c ++ behind c)).
Proof.
  intros H. apply family_nodup. cbn [plug] in H. rewrite inorder_plug in H. cbn [inorder] in H.
  unfold locs in *. rewrite (Permutation_map i_loc (perm_lt _ _ _ _ _ _ _)) in H.
  cbn [map] in H. by rewrite !map_app in *.
Qed.

Lemma family_gt c l e r p lp :
  NoDup (locs (inorder (plug (InGt lp p c) (Node l e r)))) ->
  family (i_loc e) (i_loc p) (locs (inorder l)) (locs (inorder r)) (locs (inorder lp))
    (locs (before c ++ behind c)).
Proof.
  intros H. apply family_nodup. cbn [plug] in H. rewrite inorder_plug in H. cbn [inorder] in H.
  unfold locs in *. rewrite (Permutation_map i_loc (perm_gt _ _ _ _ _ _ _)) in H.
  cbn [map] in H. by rewrite !map_app in *.
Qed.

Ltac look := repeat (first [rewrite lookup_insert_eq | rewrite lookup_insert_ne by congruence]).

(** The end of a rotation: the entries [e] and [p] have been written over [m1], and
    the subtree [t] moves from [e] to [p]. *)
Lemma rotate_finish K m m1 m5 e p ee pe t :
  changed K m m1 -> m5 !! e = Some ee -> m5 !! p = Some pe ->
  (forall k, k <> e -> k <> p -> m5 !! k = m1 !! k) -> dom m5 = dom m1 ->
  rep m (Some e) t -> NoDup (locs (inorder t)) -> e ∉ locs (inorder t) -> p ∉ locs (inorder t) ->
  (forall k, k ∈ locs (inorder t) -> k ∉ K) ->
  exists m6, reparent m5 (rootp t) (Some p) = Ret m6 /\ rep m6 (Some p) t
    /\ m6 !! e = Some ee /\ m6 !! p = Some pe /\ dom m6 = dom m
    /\ (forall k, k <> e -> k <> p -> k ∉ locs (inorder t) -> m6 !! k = m1 !! k)
    /\ (forall k, k <> e -> k <> p -> k ∉ locs (inorder t) -> k ∉ K -> m6 !! k = m !! k).
Proof.
  intros [Hm1 Hd1] He Hp H5 Hd5 Hr Hnd Ne Np HK.
  assert (Hr5 : rep m5 (Some e) t).
  { eapply rep_agree; [|exact Hr]. intros k Hk. rewrite H5 by (by intros ->). by apply Hm1, HK. }
  destruct (reparent_spec m5 _ (Some p) t Hr5 Hnd) as (m6 & -> & Hr6 & [H6 Hd6]). exists m6.
  split_and!; try done; [by rewrite H6|by rewrite H6|congruence|..].
  - intros k N1 N2 N3. by rewrite H6, H5.
  - intros k N1 N2 N3 N4. by rewrite H6, H5, Hm1.
Qed.

Lemma rotate_lt s m c l e r p rp :
  at_focus s m (InLt c p rp) (Node l e r) ->
  exists s' m', schedule_rotate_up s m (i_loc e) = Ret (s', m')
    /\ at_focus s' m' c (Node l e (Node r p rp)) /\ earliest_wakeup s' = earliest_wakeup s
    /\ changed (locs (inorder (plug c (Node l e (Node r p rp))))) m m'.
Proof.
  intros [(He & Hl & Hr) (Hp & Hrp & Hc) Hnd]. pose proof (family_lt _ _ _ _ _ _ Hnd) as Fm.
  destruct Fm as [Fep FR FL FK (Fe1 & Fe2 & Fe3 & Fe4) (Fp1 & Fp2 & Fp3 & Fp4) FLR FRQ FQK].
  unfold schedule_rotate_up. rewrite (get_ok _ _ _ He). cbn [res_bind se_parent parentp se_lt se_gt].
  rewrite (get_ok _ _ _ Hp). cbn [res_bind se_parent].
  rewrite (relink_hook _ _ _ _ _ Hc Fp4).
  destruct (hook_spec s m c _ (Some (i_loc e)) Hc FK) as (Hc1 & Hs1 & Hm1 & Hd1).
  set (s1 := hook_root s c _) in *. set (m1 := hook_mem m c _) in *.
  cbn [res_bind]. unfold node_at in He, Hp.
  assert (He1 := Hm1 _ Fe4). assert (Hp1 := Hm1 _ Fp4). rewrite He in He1. rewrite Hp in Hp1.
  rewrite (put_ok _ _ _ _ He1). cbn [res_bind].
  erewrite put_ok by (look; exact Hp1). cbn [res_bind].
  erewrite get_ok by (look; reflexivity). cbn [res_bind set_parent se_gt se_lt].
  rewrite ptr_eq_ne by (intros E%rootp_in; done). rewrite ptr_eq_refl.
  erewrite put_ok by (look; reflexivity). cbn [res_bind].
  erewrite put_ok by (look; reflexivity). cbn [res_bind].
  unfold set_parent, set_lt, set_gt. cbn [se_tv se_pri se_parent se_lt se_gt].
  match goal with |- context [reparent ?mm _ _] => set (m5 := mm) end.
  edestruct (rotate_finish (locs (before c ++ behind c)) m m1 m5 (i_loc e) (i_loc p)) with (t := r)
    as (m6 & -> & Hr6 & E6 & P6 & Hd6 & H6 & Hout); [done|subst m5; by look|subst m5; by look
    |subst m5; intros k N1 N2; by rewrite !lookup_insert_ne by congruence
    |subst m5; apply elem_of_dom_2 in He1, Hp1; rewrite !dom_insert_L; clear -He1 Hp1; set_solver
    |done|done|done|done|intros k Hk; by apply FRQ|].
  cbn [res_bind]. exists s1, m6. split; [done|].
  split; [split|split; [done|split]].
  - cbn [rep]. split_and!; [exact E6|eapply rep_agree; [|exact Hl]|exact P6|done|eapply rep_agree; [|exact Hrp]];
      intros k Hk.
    + destruct (FLR k Hk) as (A1 & A2 & A3). apply Hout; [by intros ->|by intros ->|done..].
    + apply Hout; [by intros ->|by intros -> |by intros [? _]%FRQ|by apply FQK].
  - eapply repc_agree; [done| |exact Hc1]. intros k Hk. apply H6; [by intros ->|by intros -> |by intros [_ ?]%FRQ].
  - cbn [plug] in Hnd. rewrite inorder_plug in *. cbn [inorder] in *. by rewrite <- (app_assoc (inorder l)) in Hnd.
  - rewrite inorder_plug. cbn [inorder]. unfold locs. rewrite !map_app. cbn [map]. rewrite !map_app. cbn [map].
    intros k Hk. rewrite !elem_of_app, !elem_of_cons, !elem_of_app, !elem_of_cons in Hk.
    apply Hout; unfold locs; rewrite ?map_app, ?elem_of_app; tauto.
  - done.
Qed.

Lemma rotate_gt s m c l e r p lp :
  at_focus s m (InGt lp p c) (Node l e r) ->
  exists s' m', schedule_rotate_up s m (i_loc e) = Ret (s', m')
    /\ at_focus s' m' c (Node (Node lp p l) e r) /\ earliest_wakeup s' = earliest_wakeup s
    /\ changed (locs (inorder (plug c (Node (Node lp p l) e r)))) m m'.
Proof.
  intros [(He & Hl & Hr) (Hp & Hlp & Hc) Hnd]. pose proof (family_gt _ _ _ _ _ _ Hnd) as Fm.
  destruct Fm as [Fep FR FL FK (Fe1 & Fe2 & Fe3 & Fe4) (Fp1 & Fp2 & Fp3 & Fp4) FLR FRQ FQK].
  unfold schedule_rotate_up. rewrite (get_ok _ _ _ He). cbn [res_bind se_parent parentp se_lt se_gt].
  rewrite (get_ok _ _ _ Hp). cbn [res_bind se_parent].
  rewrite (relink_hook _ _ _ _ _ Hc Fp4).
  destruct (hook_spec s m c _ (Some (i_loc e)) Hc FK) as (Hc1 & Hs1 & Hm1 & Hd1).
  set (s1 := hook_root s c _) in *. set (m1 := hook_mem m c _) in *.
  cbn [res_bind]. unfold node_at in He, Hp.
  assert (He1 := Hm1 _ Fe4). assert (Hp1 := Hm1 _ Fp4). rewrite He in He1. rewrite Hp in Hp1.
  rewrite (put_ok _ _ _ _ He1). cbn [res_bind].
  erewrite put_ok by (look; exact Hp1). cbn [res_bind].
  erewrite get_ok by (look; reflexivity). cbn [res_bind set_parent se_gt se_lt].
  rewrite ptr_eq_refl.
  erewrite put_ok by (look; reflexivity). cbn [res_bind].
  erewrite put_ok by (look; reflexivity). cbn [res_bind].
  unfold set_parent, set_lt, set_gt. cbn [se_tv se_pri se_parent se_lt se_gt].
  match goal with |- context [reparent ?mm _ _] => set (m5 := mm) end.
  edestruct (rotate_finish (locs (before c ++ behind c)) m m1 m5 (i_loc e) (i_loc p)) with (t := l)
    as (m6 & -> & Hl6 & E6 & P6 & Hd6 & H6 & Hout); [done|subst m5; by look|subst m5; by look
    |subst m5; intros k N1 N2; by rewrite !lookup_insert_ne by congruence
    |subst m5; apply elem_of_dom_2 in He1, Hp1; rewrite !dom_insert_L; clear -He1 Hp1; set_solver
    |done|done|done|done|intros k Hk; by apply FLR|].
  cbn [res_bind]. exists s1, m6. split; [done|].
  split; [split|split; [done|split]].
  - cbn [rep]. split_and!; [exact E6|exact P6|eapply rep_agree; [|exact Hlp]|done|eapply rep_agree; [|exact Hr]];
      intros k Hk.
    + apply Hout; [by intros ->|by intros -> |by intros (_ & ? & _)%FLR|by apply FQK].
    + apply Hout; [by intros ->|by intros -> |by intros (? & _)%FLR|by apply FRQ].
  - eapply repc_agree; [done| |exact Hc1]. intros k Hk.
    apply H6; [by intros ->|by intros -> |by intros (_ & _ & ?)%FLR].
  - cbn [plug] in Hnd. rewrite inorder_plug in *. cbn [inorder] in *. by rewrite <- (app_assoc (inorder lp)).
  - rewrite inorder_plug. cbn [inorder]. unfold locs. rewrite !map_app. cbn [map]. rewrite ?map_app. cbn [map].
    intros k Hk. rewrite !elem_of_app, !elem_of_cons, ?elem_of_app in Hk.
    apply Hout; unfold locs; rewrite ?map_app, ?elem_of_app; tauto.
  - done.
Qed.

(** *** Heap order *)
Definition le_opt (b : option Z) (z : Z) : Prop := match b with Some b => b <= z | None => True end.
Definition pri_ge (b : option Z) (t : tree) : Prop :=
  match t with Leaf => True | Node _ x _ => le_opt b (i_pri x) end.
Fixpoint heap (t : tree) : Prop :=
  match t with
  | Leaf => True
  | Node l x r => pri_ge (Some (i_pri x)) l /\ pri_ge (Some (i_pri x)) r /\ heap l /\ heap r
  end.
Definition ctx_pri (c : ctx) : option Z :=
  match c with Top => None | InLt _ x _ | InGt _ x _ => Some (i_pri x) end.
Fixpoint heapc (c : ctx) : Prop :=
  match c with
  | Top => True
  | InLt c x t | InGt t x c => pri_ge (Some (i_pri x)) t /\ heap t /\ le_opt (ctx_pri c) (i_pri x) /\ heapc c
  end.

Lemma heap_plug c t : heap (plug c t) <-> heap t /\ heapc c /\ pri_ge (ctx_pri c) t.
Proof.
  revert t. induction c as [|c IH x r|l x c IH]; intros t; cbn [plug heapc ctx_pri].
  - destruct t; cbn; tauto.
  - rewrite IH. cbn [heap pri_ge]. tauto.
  - rewrite IH. cbn [heap pri_ge]. tauto.
Qed.

Lemma pri_ge_trans b p t : le_opt b p -> pri_ge (Some p) t -> pri_ge b t.
Proof. destruct b, t; cbn; try done. lia. Qed.

Definition tree_locs (c : ctx) (t : tree) : list loc := locs (inorder (plug c t)).

Lemma rotation_locs c l e r p q :
  tree_locs c (Node l e (Node r p q)) = tree_locs c (Node (Node l e r) p q).
Proof. unfold tree_locs. rewrite !inorder_plug. cbn [inorder]. do 3 f_equal. by rewrite <- app_assoc. Qed.

(** The outcome of [remove_loop] for [e] between [l] and [r]: [e] has no children,
    the rest is a heap in the same order. *)
Definition childless (s : schedule) (m : mem) (c : ctx) (l : tree) (e : item) (r : tree)
    (o : res (schedule * mem)) : Prop :=
  exists s' m' c', o = Ret (s', m')
    /\ at_focus s' m' c' (Node Leaf e Leaf) /\ heapc c'
    /\ before c' = before c ++ inorder l /\ behind c' = inorder r ++ behind c
    /\ earliest_wakeup s' = earliest_wakeup s /\ changed (tree_locs c (Node l e r)) m m'.

Lemma childless_lt s m s1 m1 c l1 x l2 e r o :
  childless s1 m1 (InGt l1 x c) l2 e r o -> earliest_wakeup s1 = earliest_wakeup s ->
  changed (tree_locs c (Node l1 x (Node l2 e r))) m m1 -> childless s m c (Node l1 x l2) e r o.
Proof.
  intros (s' & m' & c' & Ho & Hf & Hc & B1 & B2 & Hs & Hch) Hs1 Hm. exists s', m', c'. split_and!; try done.
  - rewrite B1. cbn. by rewrite <- !app_assoc.
  - congruence.
  - rewrite <- rotation_locs. eapply changed_trans; [exact Hm|exact Hch].
Qed.

Lemma childless_gt s m s1 m1 c l r1 x r2 e o :
  childless s1 m1 (InLt c x r2) l e r1 o -> earliest_wakeup s1 = earliest_wakeup s ->
  changed (tree_locs c (Node (Node l e r1) x r2)) m m1 -> childless s m c l e (Node r1 x r2) o.
Proof.
  intros (s' & m' & c' & Ho & Hf & Hc & B1 & B2 & Hs & Hch) Hs1 Hm. exists s', m', c'. split_and!; try done.
  - rewrite B2. cbn. by rewrite <- !app_assoc.
  - congruence.
  - rewrite rotation_locs. eapply changed_trans; [exact Hm|exact Hch].
Qed.

(** Rotating the child with the lesser priority up keeps the order of the heap
    around [e]. *)
Lemma remove_loop_spec fuel s m c l e r :
  at_focus s m c (Node l e r) -> heapc c -> heap l -> heap r -> pri_ge (ctx_pri c) l -> pri_ge (ctx_pri c) r ->
  (length (inorder l) + length (inorder r) < fuel)%nat ->
  childless s m c l e r (remove_loop fuel s m (i_loc e)).
Proof.
  revert s m c l r. induction fuel as [|fuel IH]; intros s m c l r Hf Hc Hl Hr Gl Gr Hfuel; [lia|].
  assert (Hlt : forall l1 x l2 (Gx : pri_ge (Some (i_pri x)) r), l = Node l1 x l2 ->
    childless s m c l e r (let! (s, m) := schedule_rotate_up s m (i_loc x) in remove_loop fuel s m (i_loc e))).
  { intros l1 x l2 Gx ->. destruct Hl as (A1 & A2 & A3 & A4). cbn [pri_ge] in Gl.
    destruct (rotate_lt s m c l1 x l2 e r) as (s1 & m1 & -> & Hf1 & Hs1 & Hch); [by apply (focus_lt s m c)|].
    cbn [res_bind]. apply focus_gt in Hf1. cbn [inorder] in Hfuel. rewrite length_app in Hfuel. cbn in Hfuel.
    eapply childless_lt; [|exact Hs1|exact Hch]. apply IH; try done. lia. }
  assert (Hgt : forall r1 x r2 (Gx : pri_ge (Some (i_pri x)) l), r = Node r1 x r2 ->
    childless s m c l e r (let! (s, m) := schedule_rotate_up s m (i_loc x) in remove_loop fuel s m (i_loc e))).
  { intros r1 x r2 Gx ->. destruct Hr as (A1 & A2 & A3 & A4). cbn [pri_ge] in Gr.
    destruct (rotate_gt s m c r1 x r2 e l) as (s1 & m1 & -> & Hf1 & Hs1 & Hch); [by apply (focus_gt s m c)|].
    cbn [res_bind]. apply focus_lt in Hf1. cbn [inorder] in Hfuel. rewrite length_app in Hfuel. cbn in Hfuel.
    eapply childless_gt; [|exact Hs1|exact Hch]. apply IH; try done. lia. }
  cbn [remove_loop]. pose proof Hf as [(He & Rl & Rr) _ _]. rewrite (get_ok _ _ _ He). cbn [res_bind se_lt se_gt].
  destruct l as [|l1 x l2], r as [|r1 y r2]; cbn [rootp].
  - exists s, m, c. cbn [inorder]. rewrite app_nil_r. split_and!; try done.
  - by apply (Hgt r1 y r2).
  - by apply (Hlt l1 x l2).
  - destruct Rl as (Hx & _). destruct Rr as (Hy & _). rewrite (get_ok _ _ _ Hx), (get_ok _ _ _ Hy).
    cbn [res_bind se_pri]. destruct (Z.ltb_spec (i_pri x) (i_pri y)).
    + apply (Hlt l1 x l2); [cbn; lia|done].
    + apply (Hgt r1 y r2); [cbn; lia|done].
Qed.

Lemma rep_dom m p t k : rep m p t -> k ∈ locs (inorder t) -> k ∈ dom m.
Proof.
  unfold locs. revert p. induction t as [|l IHl x r IHr]; intros p Hr; cbn [inorder]; [by intros []%not_elem_of_nil|].
  destruct Hr as (Hx & Hl & Hr). rewrite map_app, elem_of_app. cbn. rewrite elem_of_cons.
  intros [Hk|[->|Hk]]; [by eapply IHl|by eapply elem_of_dom_2|by eapply IHr].
Qed.

(** The memory has at least as many entries as the tree. *)
Lemma focus_size s m c t : at_focus s m c t -> (length (inorder (plug c t)) <= size m)%nat.
Proof.
  intros Hf. assert (Hnd := af_nodup _ _ _ _ Hf). apply focus_top in Hf. destruct Hf as [Hr _ _].
  rewrite <- (length_map i_loc). change (map i_loc (inorder (plug c t))) with (locs (inorder (plug c t))).
  rewrite <- (size_list_to_set (C := gset loc)) by done. rewrite <- size_dom. apply subseteq_size.
  intros k Hk%elem_of_list_to_set. by eapply rep_dom.
Qed.

(** The locations around an entry without children. *)
Lemma lone_facts c e :
  NoDup (tree_locs c (Node Leaf e Leaf)) ->
  NoDup (locs (before c ++ behind c)) /\ (i_loc e ∉ locs (before c ++ behind c))
  /\ tree_locs c (Node Leaf e Leaf) ≡ₚ i_loc e :: locs (before c ++ behind c).
Proof.
  unfold tree_locs. rewrite inorder_plug. cbn [inorder app]. intros Hnd.
  assert (Hp : locs (before c ++ e :: behind c) ≡ₚ i_loc e :: locs (before c ++ behind c)).
  { unfold locs. rewrite <- (Permutation_map i_loc (Permutation_middle _ _ _)). done. }
  rewrite Hp in Hnd. apply NoDup_cons in Hnd as [N1 N2]. done.
Qed.

Lemma detach_hook s m c e en :
  m !! i_loc e = Some en -> se_parent en = parentp c -> repc s m c (Some (i_loc e)) ->
  i_loc e ∉ locs (before c ++ behind c) ->
  schedule_detach_parent s m (i_loc e)
  = Ret (hook_root s c None, match c with Top => m | _ => <[i_loc e := set_parent None en]> (hook_mem m c None) end).
Proof.
  intros He Hpar Hc Hno. unfold schedule_detach_parent. rewrite (get_ok _ _ _ He). cbn [res_bind]. rewrite Hpar.
  unfold locs in Hno. destruct c as [|c p r|l p c]; cbn [parentp repc before behind hook_root hook_mem] in *.
  - by rewrite Hc, ptr_eq_refl.
  - destruct Hc as (Hp & Hr & Hc). rewrite map_app in Hno. cbn in Hno. rewrite Hp.
    rewrite (get_ok _ _ _ Hp). cbn [res_bind se_lt]. rewrite ptr_eq_refl, (put_ok _ _ _ _ Hp). cbn [res_bind].
    rewrite (put_ok _ _ en); [done|]. rewrite lookup_insert_ne; [done|]. intros E. apply Hno. rewrite E. set_solver.
  - destruct Hc as (Hp & Hl & Hc). rewrite !map_app in Hno. cbn in Hno. rewrite Hp.
    rewrite (get_ok _ _ _ Hp). cbn [res_bind se_lt se_gt].
    rewrite ptr_eq_ne by (intros E%rootp_in; unfold locs in E; set_solver). rewrite ptr_eq_refl.
    rewrite (put_ok _ _ _ _ Hp). cbn [res_bind].
    rewrite (put_ok _ _ en); [done|]. rewrite lookup_insert_ne; [done|]. intros E. apply Hno. rewrite E. set_solver.
Qed.

Lemma detach_spec s m c e :
  at_focus s m c (Node Leaf e Leaf) ->
  exists s' m', schedule_detach_parent s m (i_loc e) = Ret (s', m') /\ at_focus s' m' c Leaf
    /\ m' !! i_loc e = Some (mk_entry (i_tv e) (i_pri e) None None None)
    /\ earliest_wakeup s' = earliest_wakeup s /\ changed (tree_locs c (Node Leaf e Leaf)) m m'.
Proof.
  intros [(He & _ & _) Hc Hnd]. destruct (lone_facts c e Hnd) as (N1 & N2 & Hp). cbn [rootp] in *.
  rewrite (detach_hook s m c e _ He eq_refl Hc N2).
  destruct (hook_spec s m c _ None Hc N1) as (Hc1 & Hs1 & Hm1 & Hd1).
  assert (He1 := Hm1 _ N2). rewrite He in He1.
  assert (Hnd' : NoDup (locs (inorder (plug c Leaf)))) by (rewrite inorder_plug; done).
  eexists _, _. split; [reflexivity|]. split_and!; [split; [done| |done]| |done|].
  - destruct c; [done|..]; cbn [rootp]; (eapply repc_agree; [| |exact Hc1]; [done|]);
      intros k Hk; apply lookup_insert_ne; by intros <-.
  - destruct c; [exact He|..]; by rewrite lookup_insert_eq.
  - assert (Hsub : locs (before c ++ behind c) ⊆ tree_locs c (Node Leaf e Leaf)).
    { intros k Hk. rewrite Hp. by right. }
    destruct c; [apply changed_refl|..]; (eapply changed_trans;
      [eapply changed_weaken; [exact Hsub|split; [exact Hm1|exact Hd1]]
      |eapply changed_insert; [exact He1|rewrite Hp; by left]]).
Qed.

Lemma focus_frame s m c t k v :
  k ∉ tree_locs c t -> at_focus s m c t -> at_focus s (<[k := v]> m) c t.
Proof.
  unfold tree_locs. rewrite inorder_plug. unfold locs. rewrite !map_app, !elem_of_app.
  intros Hk [Hr Hc Hn]. split; [apply rep_frame; [unfold locs; tauto|done]
    |apply repc_frame; [unfold locs; tauto..|done]|done].
Qed.

(** Removal of the entry in focus. *)
Lemma remove_node_spec s m c l e r :
  at_focus s m c (Node l e r) -> heap (plug c (Node l e r)) ->
  exists s' m' T, schedule_remove_node s m (i_loc e) = Ret (s', m') /\ at_focus s' m' Top T /\ heap T
    /\ inorder T = before c ++ inorder l ++ inorder r ++ behind c
    /\ m' !! i_loc e = Some (mk_entry (i_tv e) 0 None None None)
    /\ earliest_wakeup s' = earliest_wakeup s /\ changed (tree_locs c (Node l e r)) m m'.
Proof.
  intros Hf (Hh & Hc & Gc)%heap_plug. destruct Hh as (G1 & G2 & Hl & Hr). cbn [pri_ge] in Gc.
  pose proof (focus_size _ _ _ _ Hf) as Hsz. rewrite inorder_plug in Hsz. cbn [inorder] in Hsz.
  rewrite !length_app in Hsz. cbn in Hsz. unfold schedule_remove_node.
  destruct (remove_loop_spec (S (size m)) s m c l e r Hf Hc Hl Hr)
    as (s1 & m1 & c1 & -> & Hf1 & Hc1 & B1 & B2 & Hs1 & Hch1); try (by eapply pri_ge_trans).
  { lia. }
  cbn [res_bind]. destruct (lone_facts c1 e (af_nodup _ _ _ _ Hf1)) as (_ & Hno & Hp).
  destruct (detach_spec s1 m1 c1 e Hf1) as (s2 & m2 & -> & Hf2 & He2 & Hs2 & Hch2). cbn [res_bind].
  rewrite (put_ok _ _ _ _ He2). cbn [res_bind]. unfold set_pri. cbn [se_tv se_parent se_lt se_gt].
  assert (Hin : forall k, k ∈ tree_locs c1 (Node Leaf e Leaf) <-> k ∈ tree_locs c (Node l e r)).
  { intros k. unfold tree_locs. rewrite !inorder_plug, B1, B2. cbn [inorder]. unfold locs.
    rewrite !map_app, !elem_of_app. cbn [map app].
    rewrite ?elem_of_cons, ?map_app, ?elem_of_app. rewrite ?elem_of_nil. tauto. }
  eexists s2, _, (plug c1 Leaf). split; [reflexivity|]. split_and!.
  - rewrite <- focus_top. apply focus_frame; [|done]. unfold tree_locs. rewrite inorder_plug. done.
  - by apply heap_plug.
  - rewrite inorder_plug, B1, B2. cbn. by rewrite <- !app_assoc.
  - by rewrite lookup_insert_eq.
  - congruence.
  - eapply changed_trans; [exact Hch1|]. eapply changed_trans.
    + eapply changed_weaken; [|exact Hch2]. intros k. by rewrite Hin.
    + eapply changed_insert; [exact He2|]. apply Hin. rewrite Hp. by left.
Qed.

(** *** The least entry *)
Lemma least_loop_spec fuel m p l x r :
  rep m p (Node l x r) -> (length (inorder l) < fuel)%nat ->
  exists y rest, least_loop fuel m (i_loc x) = Ret (i_loc y) /\ inorder (Node l x r) = y :: rest.
Proof.
  revert p l x r. induction fuel as [|fuel IH]; intros p l x r (Hx & Hl & Hr) Hf; [lia|].
  cbn [least_loop]. rewrite (get_ok _ _ _ Hx). cbn [res_bind se_lt]. destruct l as [|l1 y l2]; cbn [rootp].
  - by exists x, (inorder r).
  - cbn [inorder] in Hf. rewrite length_app in Hf. cbn in Hf.
    destruct (IH _ _ _ _ Hl) as (z & rest & -> & E); [lia|].
    exists z, (rest ++ x :: inorder r). split; [done|]. cbn [inorder] in *. by rewrite E.
Qed.

(** *** Sifting up *)
Lemma sift_up_spec fuel s m c l e r :
  at_focus s m c (Node l e r) -> heapc c -> heap l -> heap r ->
  pri_ge (ctx_pri c) l -> pri_ge (ctx_pri c) r -> pri_ge (Some (i_pri e)) l -> pri_ge (Some (i_pri e)) r ->
  (length (before c) + length (behind c) < fuel)%nat ->
  exists s' m' T, sift_up fuel s m (i_loc e) = Ret (s', m') /\ at_focus s' m' Top T /\ heap T
    /\ inorder T = inorder (plug c (Node l e r))
    /\ earliest_wakeup s' = earliest_wakeup s /\ changed (tree_locs c (Node l e r)) m m'.
Proof.
  revert s m c l r. induction fuel as [|fuel IH]; intros s m c l r Hf Hc Hl Hr Gl Gr El Er Hfuel; [lia|].
  cbn [sift_up]. pose proof Hf as [(He & _ & _) Rc _]. rewrite (get_ok _ _ _ He).
  cbn [res_bind se_parent se_pri].
  assert (Hstop : le_opt (ctx_pri c) (i_pri e) -> exists s' m' T, Ret (s, m) = Ret (s', m')
    /\ at_focus s' m' Top T /\ heap T /\ inorder T = inorder (plug c (Node l e r))
    /\ earliest_wakeup s' = earliest_wakeup s /\ changed (tree_locs c (Node l e r)) m m').
  { intros Hle. exists s, m, (plug c (Node l e r)). split_and!; try done; [by rewrite <- focus_top|].
    apply heap_plug. by cbn. }
  destruct c as [|c p q|q p c]; cbn [parentp]; [by apply Hstop|..];
    destruct Rc as (Hp & _); rewrite (get_ok _ _ _ Hp); cbn [res_bind se_pri];
    destruct (Z.ltb_spec (i_pri e) (i_pri p)); try (apply Hstop; cbn; lia);
    destruct Hc as (C1 & C2 & C3 & C4); cbn [ctx_pri before behind] in *.
  - destruct (rotate_lt s m c l e r p q Hf) as (s1 & m1 & -> & Hf1 & Hs1 & Hch). cbn [res_bind].
    cbn [length] in Hfuel. rewrite length_app in Hfuel.
    destruct (IH s1 m1 c l (Node r p q) Hf1) as (s' & m' & T & -> & Hf' & HT & E & Hs' & Hch');
      try (cbn; done || lia); try (by eapply pri_ge_trans).
    exists s', m', T. split_and!; try done; [|congruence|].
    + rewrite E. cbn [plug]. rewrite !inorder_plug. cbn [inorder]. do 2 f_equal. by rewrite <- app_assoc.
    + change (tree_locs (InLt c p q) (Node l e r)) with (tree_locs c (Node (Node l e r) p q)).
      rewrite <- rotation_locs.
      eapply changed_trans; [exact Hch|exact Hch'].
  - destruct (rotate_gt s m c l e r p q Hf) as (s1 & m1 & -> & Hf1 & Hs1 & Hch). cbn [res_bind].
    rewrite !length_app in Hfuel. cbn [length] in Hfuel.
    destruct (IH s1 m1 c (Node q p l) r Hf1) as (s' & m' & T & -> & Hf' & HT & E & Hs' & Hch');
      try (cbn; done || lia); try (by eapply pri_ge_trans).
    exists s', m', T. split_and!; try done; [|congruence|].
    + rewrite E. cbn [plug]. rewrite !inorder_plug. cbn [inorder]. do 2 f_equal. by rewrite <- app_assoc.
    + change (tree_locs (InGt q p c) (Node l e r)) with (tree_locs c (Node q p (Node l e r))).
      rewrite rotation_locs.
      eapply changed_trans; [exact Hch|exact Hch'].
Qed.

(** *** Search order *)
Definition item_entry (x : item) : schedule_entry := mk_entry (i_tv x) (i_pri x) None None None.
Definition item_compare (x y : item) : Z := schedule_entry_compare (item_entry x) (item_entry y).
Definition before_item (x y : item) : Prop := item_compare x y = -1.

Ltac compare_solve :=
  unfold before_item, item_compare, schedule_entry_compare; cbn [item_entry se_tv se_pri];
  intros; repeat (btest_in_all || btest); try lia
with btest_in_all :=
  match goal with
  | H : context [Z.ltb ?a ?b] |- _ => destruct (Z.ltb_spec a b)
  end.

Lemma before_item_trans x y z : before_item x y -> before_item y z -> before_item x z.
Proof. compare_solve. Qed.
Lemma compare_flip x y : item_compare x y = 1 -> before_item y x.
Proof. compare_solve. Qed.
Lemma compare_cases x y : item_compare x y = -1 \/ item_compare x y = 1
  \/ (item_compare x y = 0 /\ i_tv x = i_tv y /\ i_pri x = i_pri y).
Proof.
  unfold item_compare, schedule_entry_compare. cbn [item_entry se_tv se_pri]. repeat btest; auto.
  right. right. split_and!; [done| |lia]. destruct (i_tv x), (i_tv y); cbn in *. f_equal; lia.
Qed.
Lemma before_item_le x y : before_item x y -> tv_le (i_tv x) (i_tv y) = true.
Proof. unfold tv_le. compare_solve; done. Qed.

Abbreviation ordered := (StronglySorted before_item).

Lemma ordered_app l1 l2 :
  ordered (l1 ++ l2) <-> ordered l1 /\ ordered l2 /\ (forall x y, x ∈ l1 -> y ∈ l2 -> before_item x y).
Proof.
  induction l1 as [|a l1 IH]; cbn [app].
  { split; [|tauto]. intros H. split_and!; [constructor|done|]. by intros x y []%not_elem_of_nil. }
  split.
  - intros [Hs Hf]%StronglySorted_inv. apply IH in Hs as (H1 & H2 & H3). rewrite Forall_app in Hf.
    destruct Hf as [F1 F2]. split_and!; [by constructor|done|].
    intros x y [->|Hx]%elem_of_cons Hy; [|by apply H3]. rewrite Forall_forall in F2. by apply F2.
  - intros ([Hs Hf]%StronglySorted_inv & H2 & H3). constructor.
    + apply IH. split_and!; [done|done|]. intros x y Hx. apply H3. by right.
    + apply Forall_app. split; [done|]. apply Forall_forall. intros y Hy. apply H3; [by left|done].
Qed.

(** An entry outside the tree is hooked in at an empty place. *)
Lemma attach_spec s m c e :
  at_focus s m c Leaf -> m !! i_loc e = Some (item_entry e) -> i_loc e ∉ tree_locs c Leaf ->
  let m' := <[i_loc e := set_parent (parentp c) (item_entry e)]> (hook_mem m c (Some (i_loc e))) in
  at_focus (hook_root s c (Some (i_loc e))) m' c (Node Leaf e Leaf)
  /\ changed (i_loc e :: tree_locs c Leaf) m m'.
Proof.
  intros [_ Hc Hnd] He Hno. unfold tree_locs in *. rewrite inorder_plug in *. cbn [inorder app] in *.
  destruct (hook_spec s m c _ (Some (i_loc e)) Hc Hnd) as (Hc1 & _ & Hm1 & Hd1). cbv zeta.
  assert (He1 := Hm1 _ Hno). rewrite He in He1. split.
  - split.
    + cbn. split; [|done]. unfold node_at. by rewrite lookup_insert_eq.
    + eapply repc_agree; [| |exact Hc1]; [done|]. intros k Hk. apply lookup_insert_ne. by intros <-.
    + rewrite inorder_plug. cbn [inorder app]. unfold locs in *.
      rewrite <- (Permutation_map i_loc (Permutation_middle _ _ _)). cbn. by apply NoDup_cons.
  - eapply changed_trans; [|eapply changed_insert; [exact He1|by left]].
    eapply changed_weaken; [|split; [exact Hm1|exact Hd1]]. intros k Hk. by right.
Qed.

(** A place for [e] in the tree [plug c t]: its context, with the smaller items in
    front and the greater ones behind. *)
Definition placed (s : schedule) (m m' : mem) (T : list item) (e : item) : Prop :=
  exists c', at_focus s m' c' (Node Leaf e Leaf) /\ heapc c' /\ before c' ++ behind c' = T
    /\ (forall y, y ∈ before c' -> before_item y e) /\ (forall y, y ∈ behind c' -> before_item e y)
    /\ changed (i_loc e :: locs T) m m'.

Lemma attach_placed s m c e :
  c <> Top -> at_focus s m c Leaf -> heap (plug c Leaf) ->
  m !! i_loc e = Some (item_entry e) -> i_loc e ∉ tree_locs c Leaf ->
  (forall y, y ∈ before c -> before_item y e) -> (forall y, y ∈ behind c -> before_item e y) ->
  placed s m (<[i_loc e := set_parent (parentp c) (item_entry e)]> (hook_mem m c (Some (i_loc e))))
    (inorder (plug c Leaf)) e.
Proof.
  intros Hne Hf Hh He Hno H1 H2. destruct (attach_spec s m c e Hf He Hno) as [Hf' Hch].
  exists c. split_and!; try done; [by destruct c|by apply heap_plug in Hh as (_ & Hh & _)|by rewrite inorder_plug].
Qed.

Lemma insert_walk_spec fuel s m c l x r e :
  at_focus s m c (Node l x r) -> heap (plug c (Node l x r)) -> ordered (inorder (Node l x r)) ->
  m !! i_loc e = Some (item_entry e) -> i_loc e ∉ tree_locs c (Node l x r) ->
  (forall y, y ∈ before c -> before_item y e) -> (forall y, y ∈ behind c -> before_item e y) ->
  (length (inorder (Node l x r)) <= fuel)%nat ->
  (insert_walk fuel m (i_loc e) (i_loc x) = Ret None
   /\ exists y, y ∈ inorder (Node l x r) /\ i_tv y = i_tv e /\ i_pri y = i_pri e)
  \/ exists m', insert_walk fuel m (i_loc e) (i_loc x) = Ret (Some m')
       /\ placed s m m' (inorder (plug c (Node l x r))) e.
Proof.
  revert c l x r. induction fuel as [|fuel IH]; intros c l x r Hf Hh Ho He Hno Hb1 Hb2 Hfuel;
    cbn [inorder] in Hfuel; rewrite length_app in Hfuel; cbn [length] in Hfuel; [lia|].
  pose proof Hf as [(Hx & _ & _) _ _]. unfold node_at in Hx. cbn [inorder] in Ho.
  apply ordered_app in Ho as (Ol & [Or Ox]%StronglySorted_inv & Hlr). rewrite Forall_forall in Ox.
  cbn [insert_walk]. rewrite (get_ok _ _ _ He), (get_ok _ _ _ Hx). cbn [res_bind se_lt se_gt].
  change (schedule_entry_compare _ _) with (item_compare e x).
  assert (Hex : i_loc x <> i_loc e).
  { intros E. apply Hno. unfold tree_locs. rewrite inorder_plug. cbn [inorder]. unfold locs.
    rewrite <- E. apply list_elem_of_fmap. exists x. split; [done|]. rewrite !elem_of_app, elem_of_cons. tauto. }
  destruct (compare_cases e x) as [E|[E|(E & E1 & E2)]]; rewrite E; cbn [Z.eqb Pos.eqb].
  - assert (Hb2' : forall y, y ∈ behind (InLt c x r) -> before_item e y).
    { cbn [behind]. intros y. rewrite elem_of_cons, elem_of_app. intros [->|[Hy|Hy]]; [done| |by apply Hb2].
      by apply (before_item_trans _ x); [|apply Ox]. }
    apply focus_lt in Hf. destruct l as [|l1 z l2]; cbn [rootp].
    + right. rewrite (put_ok _ _ _ _ Hx). cbn [res_bind]. rewrite (put_ok _ _ (item_entry e)) by (by look).
      cbn [res_bind]. eexists. split; [reflexivity|].
      pose proof (attach_placed s m (InLt c x r) e ltac:(done) Hf Hh He Hno Hb1 Hb2') as Hp.
      cbn [hook_mem parentp] in Hp. by rewrite Hx in Hp.
    + destruct (IH (InLt c x r) l1 z l2 Hf Hh Ol He Hno Hb1 Hb2') as [(-> & y & Hy & Ey)|(m' & -> & Hp)];
        [lia|left|right].
      * split; [done|]. exists y. split; [|done]. cbn [inorder]. apply elem_of_app. by left.
      * by exists m'.
  - assert (Hb1' : forall y, y ∈ before (InGt l x c) -> before_item y e).
    { cbn [before]. intros y. rewrite !elem_of_app, list_elem_of_singleton.
      intros [Hy|[Hy| ->]]; [by apply Hb1| |by apply compare_flip].
      apply (before_item_trans _ x); [|by apply compare_flip]. apply Hlr; [done|by left]. }
    apply focus_gt in Hf. destruct r as [|r1 z r2]; cbn [rootp].
    + right. rewrite (put_ok _ _ _ _ Hx). cbn [res_bind]. rewrite (put_ok _ _ (item_entry e)) by (by look).
      cbn [res_bind]. eexists. split; [reflexivity|].
      pose proof (attach_placed s m (InGt l x c) e ltac:(done) Hf Hh He Hno Hb1' Hb2) as Hp.
      cbn [hook_mem parentp] in Hp. by rewrite Hx in Hp.
    + destruct (IH (InGt l x c) r1 z r2 Hf Hh Or He Hno Hb1' Hb2) as [(-> & y & Hy & Ey)|(m' & -> & Hp)];
        [lia|left|right].
      * split; [done|]. exists y. split; [|done]. cbn [inorder]. apply elem_of_app. right. by right.
      * by exists m'.
  - left. split; [done|]. exists x. split; [|done]. cbn [inorder]. apply elem_of_app. right. by left.
Qed.

(** ** Insertion with retries *)
Section Insertion.
Context (random : Z -> Z).

(** The priority that the [n]-th call of [random] gives. *)
Definition new_pri (n : Z) : Z := let p := u32 (random n) in if p <? 1 then 1 else p.

Lemma new_pri_pos n : 1 <= new_pri n.
Proof. unfold new_pri. cbv zeta. btest; lia. Qed.

Lemma set_pri_ok m n k en :
  m !! k = Some en -> schedule_set_pri random m n k = Ret (<[k := set_pri (new_pri n) en]> m, n + 1).
Proof. intros H. unfold schedule_set_pri. by rewrite (put_ok _ _ _ _ H). Qed.

Definition pris (T : tree) : list Z := map i_pri (inorder T).

(** The next priorities soon contain one that no entry of the tree has. *)
Definition fresh_within (T : tree) (n : Z) (k : nat) : Prop :=
  exists j, 0 <= j < Z.of_nat k /\ new_pri (n + j) ∉ pris T.

Lemma schedule_insert_spec k s m T n e tries :
  at_focus s m Top T -> T <> Leaf -> heap T -> ordered (inorder T) ->
  m !! i_loc e = Some (item_entry e) -> i_loc e ∉ locs (inorder T) -> 1 <= i_pri e ->
  (i_pri e ∉ pris T \/ fresh_within T n k) -> (k < tries)%nat ->
  exists m' n' p, 1 <= p /\ schedule_insert random tries s m n (i_loc e) = Ret (m', n')
    /\ placed s m m' (inorder T) (mk_item (i_loc e) (i_tv e) p).
Proof.
  intros Hf Hne Hh Ho. revert m n e tries Hf. induction k as [|k IH]; intros m n e tries Hf He Hno Hpos Hfr Htr;
    (destruct tries as [|tries]; [lia|]); cbn [schedule_insert];
    destruct T as [|l x r]; try done; rewrite (af_ctx _ _ _ _ Hf : root s = Some (i_loc x));
    (destruct (insert_walk_spec (S (size m)) s m Top l x r e) as [(-> & y & Hy & Ey1 & Ey2)|(m' & -> & Hp)];
      [done|done|done|done|done|by intros y []%not_elem_of_nil|by intros y []%not_elem_of_nil
      |pose proof (focus_size _ _ _ _ Hf); cbn [plug] in *; lia| |]); cbn [res_bind].
  - destruct Hfr as [Hfr|(j & Hj & _)]; [|lia]. exfalso. apply Hfr. unfold pris.
    apply list_elem_of_fmap. by exists y.
  - exists m', n, (i_pri e). split_and!; try done. by destruct e.
  - rewrite (set_pri_ok _ _ _ _ He). cbn [res_bind].
    set (e1 := mk_item (i_loc e) (i_tv e) (new_pri n)).
    destruct (IH (<[i_loc e := set_pri (new_pri n) (item_entry e)]> m) (n + 1) e1 tries)
      as (m' & n' & p & Hp1 & Hr & c' & P1 & P2 & P3 & P4 & P5 & P6).
    + by apply (focus_frame s m Top).
    + cbn [i_loc e1]. by rewrite lookup_insert_eq.
    + done.
    + apply new_pri_pos.
    + destruct Hfr as [Hfr|(j & Hj & Hfr)].
      * exfalso. apply Hfr. unfold pris. apply list_elem_of_fmap. by exists y.
      * destruct (decide (j = 0)) as [->|Hj0]; [left; by rewrite Z.add_0_r in Hfr|].
        right. exists (j - 1). split; [lia|]. by replace (n + 1 + (j - 1)) with (n + j) by lia.
    + lia.
    + exists m', n', p. split_and!; try done. exists c'. split_and!; try done.
      eapply changed_trans; [|exact P6]. eapply changed_insert; [exact He|by left].
  - exists m', n, (i_pri e). split_and!; try done. by destruct e.
Qed.

Lemma ordered_middle l1 l2 e :
  ordered (l1 ++ l2) -> (forall y, y ∈ l1 -> before_item y e) -> (forall y, y ∈ l2 -> before_item e y) ->
  ordered (l1 ++ e :: l2).
Proof.
  intros (O1 & O2 & O3)%ordered_app H1 H2. apply ordered_app. split_and!; [done| |].
  - constructor; [done|]. by apply Forall_forall.
  - intros x y Hx [->|Hy]%elem_of_cons; [by apply H1|by apply O3].
Qed.

(** What adding a node to the tree [T] gives. *)
Definition added (s : schedule) (m : mem) (T : tree) (k : loc) (tv : timeval) (o : res (schedule * mem * Z)) : Prop :=
  exists s' m' n' p T', o = Ret (s', m', n') /\ 1 <= p /\ at_focus s' m' Top T' /\ heap T'
    /\ ordered (inorder T') /\ inorder T' ≡ₚ mk_item k tv p :: inorder T
    /\ changed (k :: locs (inorder T)) m m'.

Lemma sift_placed s m0 m T n e :
  placed s m0 m (inorder T) e -> ordered (inorder T) -> 1 <= i_pri e ->
  added s m0 T (i_loc e) (i_tv e)
    (let! (s, m) := sift_up (S (size m)) s m (i_loc e) in Ret (s, m, n)).
Proof.
  intros (c & Hf & Hc & E & H1 & H2 & Hch) Ho Hp. pose proof (focus_size _ _ _ _ Hf) as Hsz.
  rewrite inorder_plug in Hsz. cbn [inorder app] in Hsz. rewrite length_app in Hsz. cbn in Hsz.
  destruct (sift_up_spec (S (size m)) s m c Leaf e Leaf Hf Hc) as (s' & m' & T' & -> & Hf' & Hh' & Ei & _ & Hch');
    try done; [lia|]. cbn [res_bind].
  rewrite inorder_plug in Ei. cbn [inorder app] in Ei. exists s', m', n, (i_pri e), T'.
  split_and!; try done.
  - rewrite Ei. apply ordered_middle; [by rewrite E|done|done].
  - rewrite Ei, <- Permutation_middle, E. by destruct e.
  - eapply changed_trans; [exact Hch|]. eapply changed_weaken; [|exact Hch'].
    intros j. unfold tree_locs. rewrite inorder_plug. cbn [inorder app]. unfold locs.
    rewrite <- (Permutation_map i_loc (Permutation_middle _ _ _)). cbn. by rewrite E.
Qed.

Lemma add_node_spec k s m T n e tv tries :
  at_focus s m Top T -> heap T -> ordered (inorder T) ->
  m !! e = Some (mk_entry tv 0 None None None) -> e ∉ locs (inorder T) ->
  fresh_within T n (S k) -> (k < tries)%nat ->
  added s m T e tv (add_node random tries s m n e).
Proof.
  intros Hf Hh Ho He Hno Hfr Htr. unfold add_node. rewrite (set_pri_ok _ _ _ _ He). cbn [res_bind].
  set (x := mk_item e tv (new_pri n)). set (m1 := <[e := _]> m).
  assert (Hf1 : at_focus s m1 Top T) by (by apply focus_frame).
  assert (He1 : m1 !! i_loc x = Some (item_entry x)) by (subst m1; cbn; by rewrite lookup_insert_eq).
  assert (Hch1 : changed (e :: locs (inorder T)) m m1) by (eapply changed_insert; [exact He|by left]).
  assert (Hfin : forall s1 m2 n2 p, placed s1 m1 m2 (inorder T) (mk_item e tv p) -> 1 <= p ->
    added s m T e tv (let! (s, m) := sift_up (S (size m2)) s1 m2 e in Ret (s, m, n2))).
  { intros s1 m2 n2 p Hp Hpos.
    destruct (sift_placed s1 m1 m2 T n2 (mk_item e tv p) Hp Ho Hpos)
      as (s' & m' & n' & p' & T' & A1 & A2 & A3 & A4 & A5 & A6 & A7).
    exists s', m', n', p', T'. split_and!; try done. by eapply changed_trans. }
  destruct T as [|l y r].
  - rewrite (af_ctx _ _ _ _ Hf : root s = None). cbn [res_bind].
    destruct (attach_spec s m1 Top x Hf1 He1) as [Hf2 Hch2]; [set_solver|]. cbn [hook_mem parentp] in Hf2.
    rewrite insert_id in Hf2 by done. apply (Hfin _ _ _ (new_pri n)); [|apply new_pri_pos].
    exists Top. split_and!; try done; try (by intros y []%not_elem_of_nil).
  - rewrite (af_ctx _ _ _ _ Hf : root s = Some (i_loc y)).
    destruct (schedule_insert_spec k s m1 (Node l y r) (n + 1) x tries Hf1)
      as (m2 & n2 & p & Hp & Hins & Hpl); try done.
    + apply new_pri_pos.
    + destruct Hfr as (j & Hj & Hfr). destruct (decide (j = 0)) as [->|Hj0].
      * left. by rewrite Z.add_0_r in Hfr.
      * right. exists (j - 1). split; [lia|]. by replace (n + 1 + (j - 1)) with (n + j) by lia.
    + change (i_loc x) with e in Hins. rewrite Hins. cbn [res_bind]. by apply (Hfin _ _ _ p).
Qed.
End Insertion.

(** ** The scheduler as a priority queue *)

(** The state of the scheduler: a treap in memory, and entries outside it that are
    marked as such. *)
Record sched_inv (s : schedule) (m : mem) (T : tree) : Prop := {
  si_focus : at_focus s m Top T;
  si_heap : heap T;
  si_ordered : ordered (inorder T);
  si_pri : Forall (fun x => 1 <= i_pri x) (inorder T);
  si_out : forall k en, m !! k = Some en -> k ∉ locs (inorder T) -> en = mk_entry (se_tv en) 0 None None None;
  si_cache : forall k, earliest_wakeup s = Some k -> exists x rest, inorder T = x :: rest /\ i_loc x = k
}.

(** The wake-up times of the entries in the tree. *)
Definition queue (T : tree) : gmap loc timeval :=
  list_to_map (map (fun x => (i_loc x, i_tv x)) (inorder T)).

Lemma queue_lookup T k tv :
  NoDup (locs (inorder T)) ->
  queue T !! k = Some tv <-> exists x, x ∈ inorder T /\ i_loc x = k /\ i_tv x = tv.
Proof.
  intros Hnd. unfold queue. rewrite <- elem_of_list_to_map.
  - rewrite list_elem_of_fmap. split; intros (x & H1 & H2).
    + injection H1 as -> ->. by exists x.
    + destruct H2 as [<- <-]. by exists x.
  - rewrite <- list_fmap_compose. exact Hnd.
Qed.

Lemma queue_in T k : k ∈ locs (inorder T) <-> k ∈ dom (queue T).
Proof.
  unfold queue, locs. rewrite dom_list_to_map_L, elem_of_list_to_set.
  rewrite <- list_fmap_compose. done.
Qed.

Lemma queue_perm T l :
  inorder T ≡ₚ l -> NoDup (locs (inorder T)) ->
  queue T = list_to_map (map (fun x => (i_loc x, i_tv x)) l).
Proof.
  intros Hp Hnd. unfold queue. apply list_to_map_proper; [|by rewrite Hp].
  rewrite <- list_fmap_compose. exact Hnd.
Qed.

Lemma find_ctx T k : k ∈ locs (inorder T) -> exists c l x r, T = plug c (Node l x r) /\ i_loc x = k.
Proof.
  enough (H : forall c0, k ∈ locs (inorder T) -> exists c l x r, plug c0 T = plug c (Node l x r) /\ i_loc x = k)
    by (apply (H Top)).
  unfold locs. induction T as [|l IHl x r IHr]; intros c0; cbn [inorder]; [by intros []%not_elem_of_nil|].
  rewrite map_app, elem_of_app. cbn. rewrite elem_of_cons. intros [Hk|[->|Hk]].
  - by apply (IHl (InLt c0 x r)).
  - by exists c0, l, x, r.
  - by apply (IHr (InGt l x c0)).
Qed.

Lemma focus_earliest s m c t q : at_focus s m c t -> at_focus (set_earliest s q) m c t.
Proof.
  intros [H1 H2 H3]. split; [done| |done]. eapply repc_agree; [| |exact H2]; done.
Qed.

(** An entry outside the tree. *)
Lemma remove_outside s m T k :
  sched_inv s m T -> k ∈ dom m -> k ∉ locs (inorder T) -> schedule_remove_node s m k = Ret (s, m).
Proof.
  intros Hi [en Hen]%elem_of_dom Hk. assert (E := si_out _ _ _ Hi _ _ Hen Hk). rewrite E in Hen.
  unfold schedule_remove_node. cbn [remove_loop]. rewrite (get_ok _ _ _ Hen). cbn [res_bind se_lt se_gt].
  unfold schedule_detach_parent. rewrite (get_ok _ _ _ Hen). cbn [res_bind se_parent].
  rewrite ptr_eq_ne.
  - rewrite (put_ok _ _ _ _ Hen). cbn [res_bind]. unfold set_pri. cbn. by rewrite insert_id.
  - rewrite (af_ctx _ _ _ _ (si_focus _ _ _ Hi) : root s = rootp T). by intros ?%rootp_in.
Qed.

Lemma ordered_sublist l1 l2 : sublist l1 l2 -> ordered l2 -> ordered l1.
Proof.
  induction 1 as [|x l1 l2 Hs IH|x l1 l2 Hs IH]; [done|..]; intros [Ho Hf]%StronglySorted_inv.
  - constructor; [by apply IH|]. rewrite Forall_forall in *. intros y Hy. apply Hf.
    by eapply elem_of_submseteq, sublist_submseteq.
  - by apply IH.
Qed.

(** Taking [x] out of a tree. *)
Lemma queue_without T T' x :
  NoDup (locs (inorder T)) -> inorder T ≡ₚ x :: inorder T' ->
  queue T = <[i_loc x := i_tv x]> (queue T') /\ (i_loc x ∉ locs (inorder T'))
  /\ queue T' = delete (i_loc x) (queue T).
Proof.
  intros Hnd Hp. assert (E : queue T = <[i_loc x := i_tv x]> (queue T')).
  { rewrite (queue_perm _ _ Hp Hnd). done. }
  assert (Hno : i_loc x ∉ locs (inorder T')).
  { unfold locs in *. rewrite Hp in Hnd. cbn in Hnd. by apply NoDup_cons in Hnd as [? _]. }
  split_and!; [done|done|]. rewrite E, delete_insert_id; [done|].
  apply not_elem_of_dom. by rewrite <- queue_in.
Qed.

Lemma inorder_without c l x r :
  inorder (plug c (Node l x r)) ≡ₚ x :: before c ++ inorder l ++ inorder r ++ behind c.
Proof.
  rewrite inorder_plug. cbn [inorder]. rewrite <- app_assoc. cbn. rewrite app_assoc, <- Permutation_middle.
  by rewrite <- app_assoc.
Qed.

Lemma ordered_without c l x r :
  ordered (inorder (plug c (Node l x r))) -> ordered (before c ++ inorder l ++ inorder r ++ behind c).
Proof.
  rewrite inorder_plug. cbn [inorder]. apply ordered_sublist. apply sublist_app; [done|].
  rewrite <- (app_assoc (inorder l)). apply sublist_app; [done|]. cbn. by apply sublist_cons.
Qed.

Lemma remove_entry_spec s m T k :
  sched_inv s m T -> k ∈ dom m ->
  exists s' m' T', schedule_remove_entry s m k = Ret (s', m') /\ sched_inv s' m' T'
    /\ queue T' = delete k (queue T) /\ dom m' = dom m.
Proof.
  intros Hi Hk. assert (Hnd := af_nodup _ _ _ _ (si_focus _ _ _ Hi) : NoDup (locs (inorder T))).
  unfold schedule_remove_entry. destruct (decide (k ∈ locs (inorder T))) as [Hin|Hno].
  - destruct (find_ctx _ _ Hin) as (c & l & x & r & -> & <-). destruct Hi as [Hf Hh Ho Hp Hout Hca].
    apply focus_top in Hf. apply (focus_earliest _ _ _ _ None) in Hf.
    destruct (remove_node_spec _ _ _ _ _ _ Hf Hh) as (s' & m' & T' & -> & Hf' & Hh' & E & He & Hs & [Hch Hd]).
    assert (Hperm := inorder_without c l x r). rewrite <- E in Hperm.
    destruct (queue_without _ _ _ Hnd Hperm) as (_ & _ & Hq). exists s', m', T'.
    split_and!; try done. split; try done.
    + rewrite E. by apply (ordered_without c l x r).
    + rewrite Hperm in Hp. by apply Forall_cons in Hp as [_ ?].
    + intros k en Hen Hk'. destruct (decide (k = i_loc x)) as [->|Hne]; [by rewrite He in Hen; injection Hen as <-|].
      assert (Hk2 : k ∉ tree_locs c (Node l x r)).
      { unfold tree_locs, locs in *. rewrite Hperm. cbn. by apply not_elem_of_cons. }
      rewrite Hch in Hen by done. by apply (Hout k).
    + rewrite Hs. done.
  - assert (Hi' : sched_inv (set_earliest s None) m T).
    { destruct Hi as [Hf Hh Ho Hp Hout Hca]. split; try done. by apply focus_earliest. }
    rewrite (remove_outside _ _ _ _ Hi' Hk Hno). exists (set_earliest s None), m, T. split_and!; try done.
    rewrite delete_id; [done|]. apply not_elem_of_dom. by rewrite <- queue_in.
Qed.

(** The least entry of the queue, if there is one. *)
Definition earliest (q : gmap loc timeval) (r : option (loc * timeval)) : Prop :=
  match r with
  | None => q = ∅
  | Some (k, tv) => q !! k = Some tv /\ forall k' tv', q !! k' = Some tv' -> tv_le tv tv' = true
  end.

Lemma entry_time s m T x : sched_inv s m T -> x ∈ inorder T -> exists en, m !! i_loc x = Some en /\ se_tv en = i_tv x.
Proof.
  intros Hi Hx. assert (Hnd := af_nodup _ _ _ _ (si_focus _ _ _ Hi) : NoDup (locs (inorder T))).
  destruct (find_ctx T (i_loc x)) as (c & l & y & r & -> & Ey); [by apply list_elem_of_fmap; exists x|].
  destruct (proj2 (focus_top _ _ _ _) (si_focus _ _ _ Hi)) as [(Hy & _) _ _].
  rewrite <- Ey. eexists. split; [exact Hy|]. cbn.
  assert (Q1 : queue (plug c (Node l y r)) !! i_loc x = Some (i_tv y)).
  { apply queue_lookup; [done|]. exists y. split_and!; try done. rewrite inorder_plug. cbn [inorder].
    rewrite !elem_of_app, elem_of_cons. tauto. }
  assert (Q2 : queue (plug c (Node l y r)) !! i_loc x = Some (i_tv x)).
  { apply queue_lookup; [done|]. by exists x. }
  congruence.
Qed.

Lemma cached_spec s m T :
  sched_inv s m T -> (earliest_wakeup s = None -> T = Leaf) ->
  exists r, match earliest_wakeup s with
            | Some e => let! en := get m e in Ret (Some (e, se_tv en), s)
            | None => Ret (None, s)
            end = Ret (r, s) /\ earliest (queue T) r.
Proof.
  intros Hi Hn. assert (Hnd := af_nodup _ _ _ _ (si_focus _ _ _ Hi) : NoDup (locs (inorder T))).
  destruct (earliest_wakeup s) as [e|] eqn:Ee.
  2:{ exists None. split; [done|]. by rewrite (Hn eq_refl). }
  destruct (si_cache _ _ _ Hi e Ee) as (x & rest & E & <-).
  assert (Hx : x ∈ inorder T) by (rewrite E; by left).
  destruct (entry_time _ _ _ _ Hi Hx) as (en & Hen & Htv).
  rewrite (get_ok _ _ _ Hen). cbn [res_bind]. rewrite Htv. eexists. split; [reflexivity|].
  split; [apply queue_lookup; [done|by exists x]|].
  intros k' tv' (y & Hy & _ & <-)%queue_lookup; [|done]. pose proof (si_ordered _ _ _ Hi) as Ho.
  rewrite E in Ho, Hy. apply StronglySorted_inv in Ho as [_ Hf]. rewrite Forall_forall in Hf.
  apply elem_of_cons in Hy as [->|Hy]; [unfold tv_le; btests|by apply before_item_le, Hf].
Qed.

Lemma get_earliest_spec s m T :
  sched_inv s m T ->
  exists r s', schedule_get_earliest_wakeup s m = Ret (r, s') /\ sched_inv s' m T /\ earliest (queue T) r.
Proof.
  intros Hi. unfold schedule_get_earliest_wakeup. destruct (earliest_wakeup s) as [e|] eqn:Ee.
  { cbn [res_bind]. destruct (cached_spec s m T Hi) as (r & Hr & He); [by rewrite Ee|]. by exists r, s. }
  assert (Hroot := af_ctx _ _ _ _ (si_focus _ _ _ Hi) : root s = rootp T).
  assert (Hfin : forall q, (forall k, q = Some k -> exists x rest, inorder T = x :: rest /\ i_loc x = k) ->
    (q = None -> T = Leaf) -> schedule_find_least m (root s) = Ret q ->
    exists r s', (let! l := schedule_find_least m (root s) in Ret (set_earliest s l)) = Ret s'
      /\ match earliest_wakeup s' with
         | Some e => let! en := get m e in Ret (Some (e, se_tv en), s')
         | None => Ret (None, s') end = Ret (r, s') /\ sched_inv s' m T /\ earliest (queue T) r).
  { intros q Hq1 Hq2 Hq. assert (Hi' : sched_inv (set_earliest s q) m T).
    { destruct Hi as [Hf Hh Ho Hp Hout _]. split; try done. by apply focus_earliest. }
    destruct (cached_spec _ _ _ Hi') as (r & Hr & He); [done|]. exists r, (set_earliest s q).
    split_and!; try done. by rewrite Hq. }
  enough (exists q, (forall k, q = Some k -> exists x rest, inorder T = x :: rest /\ i_loc x = k)
            /\ (q = None -> T = Leaf) /\ schedule_find_least m (root s) = Ret q) as (q & H1 & H2 & H3).
  { destruct (Hfin q H1 H2 H3) as (r & s' & -> & Hr & Hi' & He). cbn [res_bind]. by exists r, s'. }
  rewrite Hroot. destruct T as [|l x r]; cbn [rootp schedule_find_least]; [by exists None|].
  pose proof (focus_size _ _ _ _ (si_focus _ _ _ Hi)) as Hsz. cbn [plug inorder] in Hsz.
  rewrite length_app in Hsz. cbn in Hsz.
  destruct (least_loop_spec (S (size m)) m None l x r) as (y & rest & -> & E); [apply (si_focus _ _ _ Hi)|lia|].
  exists (Some (i_loc y)). split_and!; try done. intros k [= <-]. by exists y, rest.
Qed.

(** *** Adding *)

(** The entry in focus gets another time. *)
Lemma retime_focus s m c l x r tv :
  at_focus s m c (Node l x r) ->
  exists en, m !! i_loc x = Some en /\ se_pri en = i_pri x /\ se_tv en = i_tv x
    /\ at_focus s (<[i_loc x := set_tv tv en]> m) c (Node l (mk_item (i_loc x) tv (i_pri x)) r)
    /\ tree_locs c (Node l (mk_item (i_loc x) tv (i_pri x)) r) = tree_locs c (Node l x r).
Proof.
  intros [(Hx & Hl & Hr) Hc Hnd]. pose proof Hnd as Hnd0. eexists. split; [exact Hx|]. split; [done|].
  split; [done|].
  assert (E : tree_locs c (Node l (mk_item (i_loc x) tv (i_pri x)) r) = tree_locs c (Node l x r)).
  { unfold tree_locs. rewrite !inorder_plug. cbn [inorder]. unfold locs. rewrite !map_app. done. }
  split; [|done]. unfold tree_locs in E. rewrite inorder_plug in Hnd. cbn [inorder] in Hnd.
  unfold locs in Hnd. rewrite !map_app in Hnd. cbn [map] in Hnd. rewrite !NoDup_app, NoDup_cons in Hnd.
  destruct Hnd as (_ & D1 & (_ & D2 & D3 & _) & D4 & _). split.
  - cbn [rep i_loc i_tv i_pri]. split_and!.
    + unfold node_at. cbn [i_loc]. by rewrite lookup_insert_eq.
    + apply rep_frame; [|done]. intros Hin. apply (D2 _ Hin). by left.
    + by apply rep_frame.
  - cbn [rootp i_loc]. apply repc_frame; [| |done].
    + intros Hin. apply (D1 _ Hin). rewrite elem_of_app. left. apply elem_of_app. right. by left.
    + apply D4. apply elem_of_app. right. by left.
  - rewrite E. exact Hnd0.
Qed.

Section Adding.
Context (random : Z -> Z).

(** The random source does not stay inside a set of fewer than [2^31 - 1] priorities
    for ever. *)
Definition varied : Prop :=
  forall n (F : list Z), Zlen F < 2 ^ 31 - 1 -> exists j, 0 <= j /\ new_pri random (n + j) ∉ F.

Lemma varied_fresh T n : varied -> Zlen (inorder T) < 2 ^ 31 - 1 -> exists k, fresh_within random T n (S k).
Proof.
  intros Hv HT. destruct (Hv n (pris T)) as (j & Hj & Hfr).
  { unfold pris, Zlen in *. by rewrite length_map. }
  exists (Z.to_nat j), j. split; [lia|done].
Qed.

(** From the tree without [k] to the tree with it. *)
Lemma added_inv s m T k tv o :
  added s m T k tv o -> at_focus s m Top T -> Forall (fun x => 1 <= i_pri x) (inorder T) ->
  (forall j en, m !! j = Some en -> j ∉ k :: locs (inorder T) -> en = mk_entry (se_tv en) 0 None None None) ->
  exists s' m' n' T', o = Ret (s', m', n') /\ sched_inv (set_earliest s' None) m' T'
    /\ queue T' = <[k := tv]> (queue T) /\ dom m' = dom m.
Proof.
  intros (s' & m' & n' & p & T' & Ho & Hp & Hf & Hh & Hord & Hperm & [Hch Hd]) Hf0 Hpri Hout.
  exists s', m', n', T'. assert (Hnd := af_nodup _ _ _ _ Hf : NoDup (locs (inorder T'))).
  split_and!; try done.
  - split; try done.
    + by apply focus_earliest.
    + rewrite Hperm. by constructor.
    + intros j en Hen Hj. unfold locs in Hj. rewrite Hperm in Hj. cbn in Hj.
      apply (Hout j); [|done]. by rewrite <- Hch.
  - apply (queue_without _ _ _ Hnd Hperm).
Qed.

Lemma add_modify_inside s m c l x r tv n en :
  let T := plug c (Node l x r) in
  varied -> Zlen (inorder T) < 2 ^ 31 - 1 -> sched_inv s m T -> m !! i_loc x = Some en ->
  exists k0 s' m' n' T',
    schedule_add_modify random (S k0) s (<[i_loc x := set_tv tv en]> m) n (i_loc x) = Ret (s', m', n')
    /\ sched_inv (set_earliest s' None) m' T' /\ queue T' = <[i_loc x := tv]> (queue T) /\ dom m' = dom m.
Proof.
  intros T Hv HT Hi Hen. assert (Hnd := af_nodup _ _ _ _ (si_focus _ _ _ Hi) : NoDup (locs (inorder T))).
  assert (Hd0 : dom (<[i_loc x := set_tv tv en]> m) = dom m) by (apply elem_of_dom_2 in Hen; set_solver).
  destruct Hi as [Hf Hh Ho Hp Hout _]. unfold schedule_add_modify. rewrite (get_ok _ _ _ (lookup_insert_eq _ _ _)).
  cbn [res_bind]. subst T. apply focus_top in Hf.
  destruct (retime_focus _ _ _ _ _ _ tv Hf) as (en' & Hen' & Hpr & Htv & Hf1 & El).
  rewrite Hen in Hen'. injection Hen' as <-. set (x' := mk_item (i_loc x) tv (i_pri x)) in *.
  assert (Hperm := inorder_without c l x r). rewrite Hperm in Hp. apply Forall_cons in Hp as [Hpx Hp].
  unfold IN_TREE, set_tv at 1. cbn [se_pri]. rewrite Hpr, (proj2 (Z.eqb_neq _ 0)) by lia. cbn [negb].
  assert (Hh1 : heap (plug c (Node l x' r))) by (by apply heap_plug; apply heap_plug in Hh).
  destruct (remove_node_spec _ _ _ _ _ _ Hf1 Hh1) as (s1 & m1 & T1 & Hr1 & Hf2 & Hh2 & E & He & _ & [Hch Hd]).
  change (i_loc x') with (i_loc x) in *. change (i_tv x') with tv in *.
  rewrite <- E in Hperm, Hp. destruct (queue_without _ _ _ Hnd Hperm) as (_ & Hno1 & Hq).
  assert (HT1 : Zlen (inorder T1) < 2 ^ 31 - 1).
  { unfold Zlen in *. rewrite Hperm in HT. cbn [length] in HT. lia. }
  destruct (varied_fresh T1 n Hv HT1) as [k0 Hfr]. exists k0. rewrite Hr1. cbn [res_bind].
  assert (Ho2 : ordered (inorder T1)) by (rewrite E; by apply (ordered_without c l x r)).
  destruct (added_inv s1 m1 T1 (i_loc x) tv (add_node random (S k0) s1 m1 n (i_loc x)))
    as (s' & m' & n' & T' & -> & Hi' & Hq' & Hd'); [apply (add_node_spec random k0); (done || lia)|done|done| |].
  - intros j en' Hj Hnj. assert (Hnj' : j ∉ tree_locs c (Node l x r)).
    { unfold tree_locs, locs in *. by rewrite Hperm. }
    rewrite Hch in Hj by (by rewrite El).
    rewrite lookup_insert_ne in Hj by (intros <-; apply Hnj; by left). by apply (Hout j).
  - exists s', m', n', T'. split_and!; try done; [|congruence]. by rewrite Hq', Hq, insert_delete_eq.
Qed.

Lemma add_modify_outside s m T k tv n en :
  varied -> Zlen (inorder T) < 2 ^ 31 - 1 -> sched_inv s m T -> m !! k = Some en -> k ∉ locs (inorder T) ->
  exists k0 s' m' n' T', schedule_add_modify random (S k0) s (<[k := set_tv tv en]> m) n k = Ret (s', m', n')
    /\ sched_inv (set_earliest s' None) m' T' /\ queue T' = <[k := tv]> (queue T) /\ dom m' = dom m.
Proof.
  intros Hv HT [Hf Hh Ho Hp Hout _] Hen Hno.
  unfold schedule_add_modify. rewrite (get_ok _ _ _ (lookup_insert_eq _ _ _)). cbn [res_bind].
  assert (E := Hout _ _ Hen Hno). set (m1 := <[k := set_tv tv en]> m) in *.
  assert (Hd0 : dom m1 = dom m) by (apply elem_of_dom_2 in Hen; set_solver).
  assert (He1 : m1 !! k = Some (mk_entry tv 0 None None None)).
  { subst m1. rewrite lookup_insert_eq. by rewrite E. }
  rewrite E. cbn [IN_TREE set_tv se_pri Z.eqb negb res_bind].
  destruct (varied_fresh T n Hv HT) as [k0 Hfr]. exists k0.
  assert (Hf1 : at_focus s m1 Top T) by (by apply focus_frame).
  destruct (added_inv s m1 T k tv (add_node random (S k0) s m1 n k)) as (s' & m' & n' & T' & -> & Hi' & Hq' & Hd');
    [apply (add_node_spec random k0); (done || lia)|done|done| |].
  - intros j en' Hj Hnj. apply not_elem_of_cons in Hnj as [Hjk Hnj]. subst m1.
    rewrite lookup_insert_ne in Hj by done. by apply (Hout j).
  - exists s', m', n', T'. split_and!; try done. congruence.
Qed.

(** More tries do not change a result. *)
Lemma schedule_insert_mono t1 t2 s m n e r :
  schedule_insert random t1 s m n e = Ret r -> (t1 <= t2)%nat -> schedule_insert random t2 s m n e = Ret r.
Proof.
  revert t2 m n. induction t1 as [|t1 IH]; intros t2 m n H Hle; [done|]. destruct t2 as [|t2]; [lia|].
  cbn [schedule_insert] in *. destruct (root s) as [c|]; [|done].
  destruct (insert_walk _ _ _ _) as [[m1|]| |]; cbn [res_bind] in *; try done.
  destruct (schedule_set_pri _ _ _ _) as [[m1 n1]| |]; cbn [res_bind] in *; try done. apply IH; [done|lia].
Qed.

Lemma add_modify_mono t1 t2 s m n e r :
  schedule_add_modify random t1 s m n e = Ret r -> (t1 <= t2)%nat -> schedule_add_modify random t2 s m n e = Ret r.
Proof.
  intros H Hle. unfold schedule_add_modify, add_node in *. destruct (get m e); cbn [res_bind] in *; try done.
  match goal with H : res_bind ?o _ = _ |- _ => destruct o as [[s1 m1]| |] end; cbn [res_bind] in *; try done.
  destruct (schedule_set_pri _ _ _ _) as [[m2 n2]| |]; cbn [res_bind] in *; try done.
  destruct (root s1); [|done]. destruct (schedule_insert _ t1 _ _ _ _) as [r1| |] eqn:E; try done.
  by rewrite (schedule_insert_mono _ _ _ _ _ _ _ E Hle).
Qed.

(** The queue after [schedule_add_entry]. *)
Definition queue_add (q : gmap loc timeval) (k : loc) (tv : timeval) (sigma : Z) : gmap loc timeval :=
  match q !! k with
  | Some tv0 => if (sigma =? 0) || negb (tv_within_sigma tv tv0 sigma) then <[k := tv]> q else q
  | None => <[k := tv]> q
  end.

Lemma add_entry_spec s m T k tv sigma n :
  varied -> Zlen (inorder T) < 2 ^ 31 - 1 -> sched_inv s m T -> k ∈ dom m ->
  exists k0 s' m' n' T', (forall tries, (k0 < tries)%nat ->
      schedule_add_entry random tries s m n k tv sigma = Ret (s', m', n'))
    /\ sched_inv s' m' T' /\ queue T' = queue_add (queue T) k tv sigma /\ dom m' = dom m.
Proof.
  intros Hv HT Hi [en Hen]%elem_of_dom.
  assert (Hnd := af_nodup _ _ _ _ (si_focus _ _ _ Hi) : NoDup (locs (inorder T))).
  assert (Hdo : (exists k0 s' m' n' T', schedule_add_modify random (S k0) s (<[k := set_tv tv en]> m) n k = Ret (s', m', n')
    /\ sched_inv (set_earliest s' None) m' T' /\ queue T' = <[k := tv]> (queue T) /\ dom m' = dom m) ->
    exists k0 s' m' n' T', (forall tries, (k0 < tries)%nat ->
      (let! m := put m k (set_tv tv) in
       let! (s, m, n) := schedule_add_modify random tries s m n k in
       Ret (set_earliest s None, m, n)) = Ret (s', m', n'))
    /\ sched_inv s' m' T' /\ queue T' = <[k := tv]> (queue T) /\ dom m' = dom m).
  { intros (k0 & s' & m' & n' & T' & Hr & H1 & H2 & H3). exists k0, (set_earliest s' None), m', n', T'.
    split_and!; try done. intros tries Htr. rewrite (put_ok _ _ _ _ Hen). cbn [res_bind].
    by rewrite (add_modify_mono _ _ _ _ _ _ _ Hr Htr). }
  unfold schedule_add_entry, queue_add. rewrite (get_ok _ _ _ Hen). cbn [res_bind].
  destruct (decide (k ∈ locs (inorder T))) as [Hin|Hno].
  - destruct (find_ctx _ _ Hin) as (c & l & x & r & -> & <-).
    assert (Hx : x ∈ inorder (plug c (Node l x r))).
    { rewrite inorder_without. by left. }
    destruct (entry_time _ _ _ _ Hi Hx) as (en' & Hen' & Htv). rewrite Hen in Hen'. injection Hen' as <-.
    assert (Hq : queue (plug c (Node l x r)) !! i_loc x = Some (i_tv x)) by (apply queue_lookup; [done|by exists x]).
    destruct (proj2 (focus_top _ _ _ _) (si_focus _ _ _ Hi)) as [(Hy & _) _ _]. unfold node_at in Hy.
    rewrite Hen in Hy. injection Hy as Hy. rewrite Hq.
    assert (Hpx : 1 <= i_pri x).
    { pose proof (si_pri _ _ _ Hi) as Hp. rewrite Forall_forall in Hp. by apply Hp. }
    assert (HI : IN_TREE en = true).
    { rewrite Hy. unfold IN_TREE. cbn. by rewrite (proj2 (Z.eqb_neq _ 0)) by lia. }
    rewrite HI, Htv. cbn [negb orb]. destruct ((sigma =? 0) || negb (tv_within_sigma tv (i_tv x) sigma)).
    + apply Hdo. by apply add_modify_inside.
    + exists 0%nat, s, m, n, (plug c (Node l x r)). done.
  - assert (E := si_out _ _ _ Hi _ _ Hen Hno). assert (HI : IN_TREE en = false) by (by rewrite E).
    rewrite HI. cbn [negb orb]. assert (queue T !! k = None) as ->.
    { apply not_elem_of_dom. by rewrite <- queue_in. }
    apply Hdo. by apply add_modify_outside.
Qed.
End Adding.

(** ** Runs *)
Inductive sched_op : Type :=
| SAdd (k : loc) (tv : timeval) (sigma : Z)
| SRemove (k : loc)
| SEarliest.
Definition op_loc (o : sched_op) : option loc :=
  match o with SAdd k _ _ | SRemove k => Some k | SEarliest => None end.

Definition sched_step (random : Z -> Z) (tries : nat) (st : schedule * mem * Z) (o : sched_op)
  : res (option (loc * timeval) * (schedule * mem * Z)) :=
  let '(s, m, n) := st in
  match o with
  | SAdd k tv sigma => let! st := schedule_add_entry random tries s m n k tv sigma in Ret (None, st)
  | SRemove k => let! (s, m) := schedule_remove_entry s m k in Ret (None, (s, m, n))
  | SEarliest => let! (r, s) := schedule_get_earliest_wakeup s m in Ret (r, (s, m, n))
  end.
Fixpoint sched_run (random : Z -> Z) (tries : nat) (st : schedule * mem * Z) (ops : list sched_op)
  : res (list (option (loc * timeval)) * (schedule * mem * Z)) :=
  match ops with
  | [] => Ret ([], st)
  | o :: ops => let! (r, st) := sched_step random tries st o in
                let! (rs, st) := sched_run random tries st ops in Ret (r :: rs, st)
  end.

(** A priority queue: the answers it may give, and its state afterwards. *)
Definition queue_step (q : gmap loc timeval) (o : sched_op) (r : option (loc * timeval)) (q' : gmap loc timeval) : Prop :=
  match o with
  | SAdd k tv sigma => r = None /\ q' = queue_add q k tv sigma
  | SRemove k => r = None /\ q' = delete k q
  | SEarliest => earliest q r /\ q' = q
  end.
Inductive queue_run : gmap loc timeval -> list sched_op -> list (option (loc * timeval)) -> gmap loc timeval -> Prop :=
| queue_run_nil q : queue_run q [] [] q
| queue_run_cons q o r q1 ops rs q2 :
    queue_step q o r q1 -> queue_run q1 ops rs q2 -> queue_run q (o :: ops) (r :: rs) q2.

Lemma queue_size s m T : sched_inv s m T -> size (queue T) = length (inorder T).
Proof.
  intros Hi. rewrite <- size_dom. unfold queue. rewrite dom_list_to_map_L, <- list_fmap_compose.
  rewrite size_list_to_set; [by rewrite length_fmap|]. exact (af_nodup _ _ _ _ (si_focus _ _ _ Hi)).
Qed.

Lemma queue_step_size q o r q' : queue_step q o r q' -> (size q' <= S (size q))%nat.
Proof.
  destruct o as [k tv sigma|k|]; cbn; intros [_ ->]; [| |lia].
  - unfold queue_add. pose proof (map_size_insert k tv q) as Hs.
    destruct (q !! k); cbn in Hs; try destruct (_ || _); rewrite ?Hs; lia.
  - rewrite map_size_delete. destruct (q !! k); cbn; lia.
Qed.

Lemma sched_step_spec random s m n T o :
  varied random -> Zlen (inorder T) < 2 ^ 31 - 1 -> sched_inv s m T ->
  (forall k, op_loc o = Some k -> k ∈ dom m) ->
  exists k0 r s' m' n' T', (forall tries, (k0 < tries)%nat -> sched_step random tries (s, m, n) o = Ret (r, (s', m', n')))
    /\ sched_inv s' m' T' /\ queue_step (queue T) o r (queue T') /\ dom m' = dom m.
Proof.
  intros Hv HT Hi Hk. destruct o as [k tv sigma|k|]; cbn [sched_step queue_step].
  - destruct (add_entry_spec random s m T k tv sigma n Hv HT Hi) as (k0 & s' & m' & n' & T' & Hr & Hi' & Hq & Hd);
      [by apply Hk|].
    exists k0, None, s', m', n', T'. split_and!; try done. intros tries Htr. by rewrite (Hr tries Htr).
  - destruct (remove_entry_spec s m T k Hi) as (s' & m' & T' & Hr & Hi' & Hq & Hd); [by apply Hk|].
    exists 0%nat, None, s', m', n, T'. split_and!; try done. intros tries _. by rewrite Hr.
  - destruct (get_earliest_spec s m T Hi) as (r & s' & Hr & Hi' & He).
    exists 0%nat, r, s', m, n, T. split_and!; try done. intros tries _. by rewrite Hr.
Qed.

Lemma sched_run_spec random ops s m n T :
  varied random -> Zlen (inorder T) + Zlen ops < 2 ^ 31 - 1 -> sched_inv s m T ->
  (forall o k, o ∈ ops -> op_loc o = Some k -> k ∈ dom m) ->
  exists k0 rs s' m' n' T', (forall tries, (k0 < tries)%nat -> sched_run random tries (s, m, n) ops = Ret (rs, (s', m', n')))
    /\ sched_inv s' m' T' /\ queue_run (queue T) ops rs (queue T').
Proof.
  intros Hv. revert s m n T. induction ops as [|o ops IH]; intros s m n T Hlen Hi Hops.
  { exists 0%nat, [], s, m, n, T. split_and!; try done. constructor. }
  rewrite Zlen_cons in Hlen. pose proof (Zlen_nonneg ops).
  destruct (sched_step_spec random s m n T o Hv ltac:(lia) Hi) as (k1 & r & s1 & m1 & n1 & T1 & Hr & Hi1 & Hq & Hd).
  { intros k. apply Hops. by left. }
  assert (Hlen1 : Zlen (inorder T1) <= 1 + Zlen (inorder T)).
  { apply queue_step_size in Hq. unfold Zlen. rewrite (queue_size _ _ _ Hi), (queue_size _ _ _ Hi1) in Hq. lia. }
  destruct (IH s1 m1 n1 T1 ltac:(lia) Hi1) as (k2 & rs & s2 & m2 & n2 & T2 & Hrs & Hi2 & Hq2).
  { intros o' k Ho'. rewrite Hd. apply Hops. by right. }
  exists (Nat.max k1 k2), (r :: rs), s2, m2, n2, T2. split_and!; try done; [|by econstructor].
  intros tries Htr. cbn [sched_run]. rewrite Hr by lia. cbn [res_bind]. by rewrite Hrs by lia.
Qed.

(** C34: the scheduler is a priority queue.  Starting from an empty scheduler and
    entries that are in no tree, any sequence of additions, rescheduling, removals and
    queries for the earliest wake-up returns, provided the random source does not
    for ever repeat priorities that are in use and enough retries are allowed; no
    pointer is dangling and no linkage assertion fails; every query answers with an
    entry whose time is least, or with NULL exactly when no entry is scheduled; and
    at the end the memory holds a treap with exactly the scheduled entries. *)
Theorem schedule_refines_queue (random : Z -> Z) (ops : list sched_op) (m : mem) (n : Z) :
  varied random -> Zlen ops < 2 ^ 31 - 1 ->
  (forall k en, m !! k = Some en -> en = mk_entry (se_tv en) 0 None None None) ->
  (forall o k, o ∈ ops -> op_loc o = Some k -> k ∈ dom m) ->
  exists k0 rs s' m' n' T,
    (forall tries, (k0 < tries)%nat -> sched_run random tries (schedule_init, m, n) ops = Ret (rs, (s', m', n')))
    /\ queue_run ∅ ops rs (queue T) /\ sched_inv s' m' T.
Proof.
  intros Hv Hlen Hm Hops.
  destruct (sched_run_spec random ops schedule_init m n Leaf Hv) as (k0 & rs & s' & m' & n' & T & H1 & H2 & H3).
  - unfold Zlen at 1. cbn. lia.
  - split; try done; [split; [done|done|constructor]|constructor|]. intros k en Hen _. by apply (Hm k).
  - done.
  - by exists k0, rs, s', m', n', T.
Qed.

(** *** An instance: a source that runs through all values *)
Definition counter (n : Z) : Z := n mod 2 ^ 31.

Lemma missing_value (N : Z) (F : list Z) :
  0 <= N -> Zlen F < N -> exists v, 1 <= v <= N /\ v ∉ F.
Proof.
  intros HN HF. destruct (decide (Forall (fun v => v ∈ F) (seqZ 1 N))) as [Hall|Hex].
  - exfalso. assert (Hsub : seqZ 1 N ⊆+ F).
    { apply NoDup_submseteq; [apply NoDup_seqZ|]. by rewrite Forall_forall in Hall. }
    apply submseteq_length in Hsub. rewrite length_seqZ in Hsub. unfold Zlen in HF. lia.
  - apply not_Forall_Exists in Hex; [|apply _]. apply Exists_exists in Hex as (v & Hv & Hno).
    apply elem_of_seqZ in Hv. exists v. split; [lia|done].
Qed.

Lemma counter_varied : varied counter.
Proof.
  intros n F HF. destruct (missing_value (2 ^ 31 - 1) F) as (v & Hv & Hno); [lia|lia|].
  exists ((v - n) mod 2 ^ 31). split; [apply Z.mod_pos_bound; lia|].
  assert (E : new_pri counter (n + (v - n) mod 2 ^ 31) = v); [|by rewrite E].
  unfold new_pri, counter. rewrite Z.add_mod_idemp_r by lia. replace (n + (v - n)) with v by lia.
  rewrite Z.mod_small by lia. rewrite u32_id by (unfold is_u32; lia). cbv zeta. btest; lia.
Qed.

Definition unscheduled : schedule_entry := mk_entry (mk_tv 0 0) 0 None None None.
Definition three_entries : mem := <[1%positive := unscheduled]> (<[2%positive := unscheduled]> {[3%positive := unscheduled]}).
Definition example_ops : list sched_op :=
  [SEarliest; SAdd 1 (mk_tv 30 0) 0; SAdd 2 (mk_tv 10 5) 0; SAdd 3 (mk_tv 20 0) 0; SEarliest;
   SAdd 2 (mk_tv 40 0) 0; SEarliest; SRemove 3; SEarliest; SAdd 1 (mk_tv 30 100) 1000; SEarliest].

Lemma schedule_refines_queue_witness :
  exists k0 rs s' m' n' T,
    (forall tries, (k0 < tries)%nat ->
       sched_run counter tries (schedule_init, three_entries, 0) example_ops = Ret (rs, (s', m', n')))
    /\ queue_run ∅ example_ops rs (queue T) /\ sched_inv s' m' T.
Proof.
  apply (schedule_refines_queue counter example_ops three_entries 0).
  - exact counter_varied.
  - vm_compute. reflexivity.
  - intros k en. unfold three_entries. rewrite !lookup_insert_Some, lookup_singleton_Some. naive_solver.
  - intros o k Ho Hk. assert (k = 1 \/ k = 2 \/ k = 3)%positive as Hc.
    { unfold example_ops in Ho. rewrite !elem_of_cons, elem_of_nil in Ho. naive_solver. }
    unfold three_entries. rewrite !dom_insert, dom_singleton. set_solver.
Defined.

Example example_run :
  match sched_run counter 5 (schedule_init, three_entries, 0) example_ops with
  | Ret (rs, _) => rs = [None; None; None; None; Some (2%positive, mk_tv 10 5); None; Some (3%positive, mk_tv 20 0);
                         None; Some (1%positive, mk_tv 30 0); None; Some (1%positive, mk_tv 30 0)]
  | _ => False
  end.
Proof. vm_compute. reflexivity. Qed.
