(* ===== verification/Mroute.v ===== *)
(** * Addresses of clients inside the VPN (mroute.h, mroute.c)

    The keys of the server's table of virtual addresses: their extraction from packets,
    their network prefixes, the table of prefix lengths in use, and their use as the
    keys of a hash table. *)

From S2P Require Import Prelude Buffer CircList Proto Hash.

(** ** Data *)
Definition MR_MAX_ADDR_LEN : Z := 20.
Definition MR_ADDR_NONE : Z := 0.
Definition MR_ADDR_ETHER : Z := 1.
Definition MR_ADDR_IPV4 : Z := 2.
Definition MR_ADDR_IPV6 : Z := 3.
Definition MR_ADDR_MASK : Z := 3.
Definition MR_WITH_PORT : Z := 4.
Definition MR_WITH_NETBITS : Z := 8.
Definition MR_WITH_PROTO : Z := 32.
Definition MROUTE_EXTRACT_SUCCEEDED : Z := Z.shiftl 1 0.
Definition MROUTE_EXTRACT_BCAST : Z := Z.shiftl 1 1.
Definition MROUTE_EXTRACT_MCAST : Z := Z.shiftl 1 2.
Definition MROUTE_EXTRACT_IGMP : Z := Z.shiftl 1 3.
Definition IP_MCAST_SUBNET_MASK : Z := Z.shiftl 240 24.
Definition IP_MCAST_NETWORK : Z := Z.shiftl 224 24.
Definition OPENVPN_IPPROTO_IGMP : Z := 2.

(** The union is its [raw_addr] bytes: an IPv4 or IPv6 address in network order at
    the front with the port behind it, an Ethernet address with the VLAN identifier in
    host order behind it. *)
Record mroute_addr : Type := mk_maddr {
  ma_len : Z;
  ma_proto : Z;
  ma_type : Z;
  ma_netbits : Z;
  raw_addr : bytes
}.

Definition overwrite (raw src : bytes) (pos : nat) : bytes :=
  take pos raw ++ src ++ drop (pos + length src) raw.
Definition mroute_addr_init : mroute_addr := mk_maddr 0 0 0 0 (replicate 20 0).
Definition mroute_addr_reset (ma : mroute_addr) : mroute_addr :=
  mk_maddr 0 (ma_proto ma) MR_ADDR_NONE (ma_netbits ma) (raw_addr ma).

(** ** Addresses that are not learned *)
Definition is_mac_mcast_addr (mac : bytes) : bool :=
  match mac with b :: _ => negb (Z.land b 1 =? 0) | [] => false end.
Definition is_mac_mcast_maddr (addr : mroute_addr) : bool :=
  (Z.land (ma_type addr) MR_ADDR_MASK =? MR_ADDR_ETHER) && is_mac_mcast_addr (raw_addr addr).

Definition mroute_learnable_address (addr : mroute_addr) : res bool :=
  let! l := mem_read (raw_addr addr) 0 (ma_len addr) in
  let all_zeros := forallb (fun b => b =? 0x00) l in
  let all_ones := forallb (fun b => b =? 0xFF) l in
  if all_zeros && negb (negb (Z.land (ma_type addr) MR_WITH_NETBITS =? 0) && (ma_netbits addr <? 8))
  then Ret false
  else if all_ones then Ret false
  else if is_mac_mcast_maddr addr then Ret false
  else Ret true.

(** ** Extraction *)
Definition mroute_get_in_addr_t (ma : option mroute_addr) (src : bytes) (mask : Z) : option mroute_addr :=
  ma ← ma; Some (mk_maddr 4 (ma_proto ma) (Z.lor MR_ADDR_IPV4 mask) 0 (overwrite (raw_addr ma) src 0)).
Definition mroute_get_in6_addr (ma : option mroute_addr) (src : bytes) (mask : Z) : option mroute_addr :=
  ma ← ma; Some (mk_maddr 16 (ma_proto ma) (Z.lor MR_ADDR_IPV6 mask) 0 (overwrite (raw_addr ma) src 0)).

(** On the bytes in network order. *)
Definition mroute_is_mcast (addr : bytes) : bool :=
  Z.land (be_val addr) IP_MCAST_SUBNET_MASK =? IP_MCAST_NETWORK.
Definition mroute_is_mcast_ipv6 (addr : bytes) : bool :=
  match addr with b :: _ => b =? 0xff | [] => false end.

(** Bytes [pos .. pos + n - 1] of a packet. *)
Definition packet_bytes (b : buffer) (pos n : Z) : res bytes := buf_peek b (b_offset b + pos) n.

Definition mroute_extract_addr_ip (src dest : option mroute_addr) (b : buffer)
  : res (Z * option mroute_addr * option mroute_addr) :=
  if 1 <=? buf_len b then
    let! v := peek8 b 0 in
    if OPENVPN_IPH_GET_VER v =? 4 then
      if sizeof_iphdr <=? buf_len b then
        let! saddr := packet_bytes b 12 4 in
        let! daddr := packet_bytes b 16 4 in
        let! protocol := peek8 b 9 in
        let ret := if mroute_is_mcast daddr then MROUTE_EXTRACT_MCAST else 0 in
        let ret := if protocol =? OPENVPN_IPPROTO_IGMP then Z.lor ret MROUTE_EXTRACT_IGMP else ret in
        Ret (Z.lor ret MROUTE_EXTRACT_SUCCEEDED,
             mroute_get_in_addr_t src saddr 0, mroute_get_in_addr_t dest daddr 0)
      else Ret (0, src, dest)
    else if OPENVPN_IPH_GET_VER v =? 6 then
      if sizeof_ipv6hdr <=? buf_len b then
        let! saddr := packet_bytes b 8 16 in
        let! daddr := packet_bytes b 24 16 in
        let ret := if mroute_is_mcast_ipv6 daddr then MROUTE_EXTRACT_MCAST else 0 in
        Ret (Z.lor ret MROUTE_EXTRACT_SUCCEEDED,
             mroute_get_in6_addr src saddr 0, mroute_get_in6_addr dest daddr 0)
      else Ret (0, src, dest)
    else Ret (0, src, dest)
  else Ret (0, src, dest).

Section Host.
Context (big_endian : bool).

Definition mroute_copy_ether_to_addr (maddr : mroute_addr) (ether_addr : bytes) (vid : Z) : mroute_addr :=
  let '(v0, v1) := host16_bytes big_endian vid in
  mk_maddr (6 + 2) (ma_proto maddr) MR_ADDR_ETHER 0
    (overwrite (overwrite (raw_addr maddr) ether_addr 0) [v0; v1] 6).

Definition mroute_extract_addr_ether (src dest : option mroute_addr) (vid : Z) (b : buffer)
  : res (Z * option mroute_addr * option mroute_addr) :=
  if sizeof_ethhdr <=? buf_len b then
    let! eth_dest := packet_bytes b 0 6 in
    let! eth_source := packet_bytes b 6 6 in
    let ret := match dest with
               | Some _ => if is_mac_mcast_addr eth_dest then MROUTE_EXTRACT_BCAST else 0
               | None => 0
               end in
    Ret (Z.lor ret MROUTE_EXTRACT_SUCCEEDED,
         (fun s => mroute_copy_ether_to_addr s eth_source vid) <$> src,
         (fun d => mroute_copy_ether_to_addr d eth_dest vid) <$> dest)
  else Ret (0, src, dest).

Definition clear_proto (ma : mroute_addr) : mroute_addr :=
  mk_maddr (ma_len ma) 0 (ma_type ma) (ma_netbits ma) (raw_addr ma).

Definition mroute_extract_addr_from_packet (src dest : mroute_addr) (vid : Z) (b : buffer) (tunnel_type : Z)
  : res (Z * option mroute_addr * option mroute_addr) :=
  let src := Some (clear_proto src) in
  let dest := Some (clear_proto dest) in
  if tunnel_type =? DEV_TYPE_TUN then mroute_extract_addr_ip src dest b
  else if tunnel_type =? DEV_TYPE_TAP then mroute_extract_addr_ether src dest vid b
  else Ret (0, src, dest).
End Host.

(** The socket addresses of the system, as far as they are used here. *)
Inductive openvpn_sockaddr : Type :=
| SA_in4 (addr port : bytes)
| SA_in6 (addr port : bytes)
| SA_other.
Definition PROTO_NONE : Z := 0.

Definition mroute_extract_openvpn_sockaddr (addr : mroute_addr) (osaddr : openvpn_sockaddr) (use_port : bool)
  : bool * mroute_addr :=
  let with_proto (ty : Z) := if negb (ma_proto addr =? PROTO_NONE) then Z.lor ty MR_WITH_PROTO else ty in
  match osaddr with
  | SA_in4 a p =>
      (true,
       if use_port
       then mk_maddr 6 (ma_proto addr) (with_proto (Z.lor MR_ADDR_IPV4 MR_WITH_PORT)) 0
              (overwrite (overwrite (raw_addr addr) a 0) p 4)
       else mk_maddr 4 (ma_proto addr) MR_ADDR_IPV4 0 (overwrite (raw_addr addr) a 0))
  | SA_in6 a p =>
      (true,
       if use_port
       then mk_maddr 18 (ma_proto addr) (with_proto (Z.lor MR_ADDR_IPV6 MR_WITH_PORT)) 0
              (overwrite (overwrite (raw_addr addr) a 0) p 16)
       else mk_maddr 16 (ma_proto addr) MR_ADDR_IPV6 0 (overwrite (raw_addr addr) a 0))
  | SA_other => (false, addr)
  end.

Definition mroute_extract_in_addr_t (dest : mroute_addr) (src : Z) : mroute_addr :=
  mk_maddr 4 (ma_proto dest) MR_ADDR_IPV4 0 (overwrite (raw_addr dest) (be_bytes 4 src) 0).
Definition in_addr_t_from_mroute_addr (addr : mroute_addr) : Z :=
  if (Z.land (ma_type addr) MR_ADDR_MASK =? MR_ADDR_IPV4) && (ma_netbits addr =? 0) && (ma_len addr =? 4)
  then be_val (take 4 (raw_addr addr)) else 0.

(** ** Prefixes *)
Definition IPV4_NETMASK_HOST : Z := 0xffffffff.
Definition netbits_to_netmask (netbits : Z) : Z :=
  if (0 <? netbits) && (netbits <=? 32) then u32 (Z.shiftl IPV4_NETMASK_HOST (32 - netbits)) else 0.

(** [while (byte >= 0 && bits_to_clear > 0)]. *)
Fixpoint clear_bits (fuel : nat) (raw : bytes) (byte bits_to_clear : Z) : res (bytes * Z) :=
  if (0 <=? byte) && (0 <? bits_to_clear) then
    match fuel with
    | O => UB
    | S fuel =>
        if 8 <=? bits_to_clear
        then let! raw := arr_set raw byte 0 in clear_bits fuel raw (byte - 1) (bits_to_clear - 8)
        else let! b := arr_get raw byte in
             let! raw := arr_set raw byte (u8 (Z.land b (u32 (Z.shiftl IPV4_NETMASK_HOST bits_to_clear)))) in
             clear_bits fuel raw (byte - 1) 0
    end
  else Ret (raw, bits_to_clear).

Definition set_raw (ma : mroute_addr) (raw : bytes) : mroute_addr :=
  mk_maddr (ma_len ma) (ma_proto ma) (ma_type ma) (ma_netbits ma) raw.

Definition mroute_addr_mask_host_bits (ma : mroute_addr) : res mroute_addr :=
  if Z.land (ma_type ma) MR_ADDR_MASK =? MR_ADDR_IPV4 then
    let addr := be_val (take 4 (raw_addr ma)) in
    let addr := Z.land addr (netbits_to_netmask (ma_netbits ma)) in
    Ret (set_raw ma (overwrite (raw_addr ma) (be_bytes 4 addr) 0))
  else if Z.land (ma_type ma) MR_ADDR_MASK =? MR_ADDR_IPV6 then
    let! (raw, bits_to_clear) := clear_bits 16 (raw_addr ma) 15 (128 - ma_netbits ma) in
    assert! bits_to_clear =? 0 in Ret (set_raw ma raw)
  else Fatal.

(** ** Keys of a hash table *)
Definition mroute_addr_equal (a1 a2 : mroute_addr) : bool :=
  if negb (ma_type a1 =? ma_type a2) then false
  else if negb (ma_proto a1 =? ma_proto a2) then false
  else if negb (ma_netbits a1 =? ma_netbits a2) then false
  else if negb (ma_len a1 =? ma_len a2) then false
  else bool_decide (take (Z.to_nat (ma_len a1)) (raw_addr a1) = take (Z.to_nat (ma_len a1)) (raw_addr a2)).

(** The [len + 3] bytes of the struct from [proto] on. *)
Definition mroute_addr_hash_bytes (a : mroute_addr) : bytes :=
  ma_proto a :: ma_type a :: ma_netbits a :: take (Z.to_nat (ma_len a)) (raw_addr a).
Definition mroute_addr_hash_function (key : mroute_addr) (iv : Z) : Z :=
  hash_func (mroute_addr_hash_bytes key) iv.
Definition mroute_addr_compare_function (key1 key2 : mroute_addr) : bool := mroute_addr_equal key1 key2.

#[export] Instance mroute_key : HashKey mroute_addr :=
  {| hash_function := mroute_addr_hash_function; compare_function := mroute_addr_compare_function |}.

(** ** Prefix lengths in use *)
Definition MR_HELPER_NET_LEN : Z := 129.
Record mroute_helper : Type := mk_mh {
  cache_generation : Z;
  ageable_ttl_secs : Z;
  n_net_len : Z;
  net_len : list Z;
  net_len_refcount : list Z
}.

Definition mroute_helper_init (ttl : Z) : mroute_helper :=
  mk_mh 0 ttl 0 (replicate 129 0) (replicate 129 0).

(** [for (i = MR_HELPER_NET_LEN - 1; i >= 0; --i)], with [n = i + 1] rounds left. *)
Fixpoint regenerate_loop (n : nat) (j : Z) (net_len refcount : list Z) : res (Z * list Z) :=
  match n with
  | O => Ret (j, net_len)
  | S i =>
      let! c := arr_get refcount (Z.of_nat i) in
      if 0 <? c
      then let! net_len := arr_set net_len j (u8 (Z.of_nat i)) in regenerate_loop i (j + 1) net_len refcount
      else regenerate_loop i j net_len refcount
  end.
Definition mroute_helper_regenerate (mh : mroute_helper) : res mroute_helper :=
  let! (j, nl) := regenerate_loop 129 0 (net_len mh) (net_len_refcount mh) in
  Ret (mk_mh (cache_generation mh) (ageable_ttl_secs mh) j nl (net_len_refcount mh)).

Definition mroute_helper_add_iroute46 (mh : mroute_helper) (netbits : Z) : res mroute_helper :=
  if 0 <=? netbits then
    assert! netbits <? MR_HELPER_NET_LEN in
    let! c := arr_get (net_len_refcount mh) netbits in
    let! c := c_int (c + 1) in
    let! rc := arr_set (net_len_refcount mh) netbits c in
    let mh := mk_mh (u32 (cache_generation mh + 1)) (ageable_ttl_secs mh) (n_net_len mh) (net_len mh) rc in
    if c =? 1 then mroute_helper_regenerate mh else Ret mh
  else Ret mh.

Definition mroute_helper_del_iroute46 (mh : mroute_helper) (netbits : Z) : res mroute_helper :=
  if 0 <=? netbits then
    assert! netbits <? MR_HELPER_NET_LEN in
    let! c := arr_get (net_len_refcount mh) netbits in
    let! c := c_int (c - 1) in
    let! rc := arr_set (net_len_refcount mh) netbits c in
    let mh := mk_mh (u32 (cache_generation mh + 1)) (ageable_ttl_secs mh) (n_net_len mh) (net_len mh) rc in
    assert! 0 <=? c in
    if c =? 0 then mroute_helper_regenerate mh else Ret mh
  else Ret mh.

(** ** Addresses as keys *)
Lemma mroute_addr_equal_true a1 a2 :
  mroute_addr_equal a1 a2 = true <->
  ma_type a1 = ma_type a2 /\ ma_len a1 = ma_len a2 /\ mroute_addr_hash_bytes a1 = mroute_addr_hash_bytes a2.
Proof.
  unfold mroute_addr_equal, mroute_addr_hash_bytes.
  destruct (Z.eqb_spec (ma_type a1) (ma_type a2)) as [E1|]; cbn [negb]; [|naive_solver].
  destruct (Z.eqb_spec (ma_proto a1) (ma_proto a2)) as [E2|]; cbn [negb]; [|naive_solver].
  destruct (Z.eqb_spec (ma_netbits a1) (ma_netbits a2)) as [E3|]; cbn [negb]; [|naive_solver].
  destruct (Z.eqb_spec (ma_len a1) (ma_len a2)) as [E4|]; cbn [negb]; [|naive_solver].
  rewrite bool_decide_eq_true, E1, E2, E3, E4. split; [by intros ->|by intros (_ & _ & [= ->])].
Qed.

#[export] Instance mroute_key_laws : HashKeyLaws mroute_addr.
Proof.
  split; cbn; unfold mroute_addr_compare_function, mroute_addr_hash_function.
  - intros k. by apply mroute_addr_equal_true.
  - intros k1 k2. rewrite !mroute_addr_equal_true. intros (H1 & H2 & H3). by rewrite H1, H2, H3.
  - intros k1 k2 k3. rewrite !mroute_addr_equal_true. intuition congruence.
  - intros k1 k2 iv (_ & _ & ->)%mroute_addr_equal_true. done.
  - intros. apply hash_func_range.
Qed.

(** ** Masking *)

(** [v] with its lowest [k] bits cleared. *)
Definition clear_low (v k : Z) : Z := v / 2 ^ k * 2 ^ k.

Lemma land_shifted v m k : 0 <= k -> Z.land v (Z.shiftl m k) = Z.shiftl (Z.land (Z.shiftr v k) m) k.
Proof.
  intros Hk. apply Z.bits_inj'. intros j Hj. rewrite Z.land_spec, !Z.shiftl_spec by lia.
  destruct (Z.lt_ge_cases j k).
  - rewrite !(Z.testbit_neg_r _ (j - k)) by lia. by rewrite andb_false_r.
  - rewrite Z.land_spec, Z.shiftr_spec by lia. by replace (j - k + k) with j by lia.
Qed.

(** [0xffffffff << k] as a mask of the [w] low bits. *)
Lemma land_mask_low v w k :
  0 <= k <= w -> w <= 32 -> 0 <= v < 2 ^ w -> Z.land v (u32 (Z.shiftl IPV4_NETMASK_HOST k)) = clear_low v k.
Proof.
  intros Hk Hw Hv. unfold clear_low.
  assert (Hm : u32 (Z.shiftl IPV4_NETMASK_HOST k) = Z.shiftl (Z.ones (32 - k)) k).
  { unfold u32. change IPV4_NETMASK_HOST with (Z.ones 32). rewrite !Z.shiftl_mul_pow2 by lia.
    rewrite !Z.ones_equiv. assert (E : 2 ^ 32 = 2 ^ (32 - k) * 2 ^ k) by (rewrite <- Z.pow_add_r by lia; f_equal; lia).
    assert (0 < 2 ^ k) by (apply Z.pow_pos_nonneg; lia). assert (0 < 2 ^ (32 - k)) by (apply Z.pow_pos_nonneg; lia).
    replace (Z.pred (2 ^ 32) * 2 ^ k) with (Z.pred (2 ^ (32 - k)) * 2 ^ k + (2 ^ k - 1) * 2 ^ 32) by nia.
    rewrite Z.mod_add by lia. apply Z.mod_small. rewrite E. nia. }
  rewrite Hm, land_shifted by lia. rewrite Z.land_ones, Z.shiftl_mul_pow2, Z.shiftr_div_pow2 by lia.
  f_equal. apply Z.mod_small. assert (0 < 2 ^ k) by (apply Z.pow_pos_nonneg; lia).
  split; [apply Z.div_pos; lia|]. apply Z.div_lt_upper_bound; [done|]. rewrite <- Z.pow_add_r by lia.
  replace (k + (32 - k)) with 32 by lia. assert (2 ^ w <= 2 ^ 32) by (apply Z.pow_le_mono_r; lia). lia.
Qed.

Lemma clear_low_range v k : 0 <= k -> 0 <= v -> 0 <= clear_low v k <= v.
Proof.
  intros Hk Hv. unfold clear_low. assert (0 < 2 ^ k) by (apply Z.pow_pos_nonneg; lia).
  pose proof (Z.div_mod v (2 ^ k)). pose proof (Z.mod_pos_bound v (2 ^ k)). pose proof (Z.div_pos v (2 ^ k)). nia.
Qed.

Lemma clear_low_byte v x k :
  0 <= x < 256 -> 0 <= v -> 8 <= k -> clear_low (v * 256 + x) k = clear_low v (k - 8) * 256.
Proof.
  intros Hx Hv Hk. unfold clear_low. replace k with (8 + (k - 8)) at 1 2 by lia.
  rewrite Z.pow_add_r by lia. change (2 ^ 8) with 256. assert (0 < 2 ^ (k - 8)) by (apply Z.pow_pos_nonneg; lia).
  rewrite <- Z.div_div by lia. rewrite Z.div_add_l, (Z.div_small x) by lia. rewrite Z.add_0_r. ring.
Qed.

Lemma clear_low_last v x k :
  0 <= x < 256 -> 0 <= v -> 0 <= k <= 8 -> clear_low (v * 256 + x) k = v * 256 + clear_low x k.
Proof.
  intros Hx Hv Hk. unfold clear_low. assert (0 < 2 ^ k) by (apply Z.pow_pos_nonneg; lia).
  assert (E : 256 = 2 ^ (8 - k) * 2 ^ k) by (rewrite <- Z.pow_add_r by lia; by replace (8 - k + k) with 8 by lia).
  assert (Ev : v * 256 = v * 2 ^ (8 - k) * 2 ^ k) by (rewrite <- Z.mul_assoc, <- E; done).
  rewrite Ev, Z.div_add_l by lia. ring.
Qed.

Lemma clear_bits_spec fuel pre post bits :
  bytes_ok pre -> (length pre <= fuel)%nat -> 0 <= bits <= 8 * Zlen pre ->
  exists pre', clear_bits fuel (pre ++ post) (Zlen pre - 1) bits = Ret (pre' ++ post, 0)
    /\ bytes_ok pre' /\ length pre' = length pre /\ be_val pre' = clear_low (be_val pre) bits.
Proof.
  revert pre post bits. induction fuel as [|fuel IH]; intros pre post bits Hok Hf Hb;
    (assert (H0 : bits = 0 -> exists pre', clear_bits 0 (pre ++ post) (Zlen pre - 1) bits = Ret (pre' ++ post, 0)
      /\ bytes_ok pre' /\ length pre' = length pre /\ be_val pre' = clear_low (be_val pre) bits);
    [intros ->; exists pre; cbn; rewrite andb_false_r; split_and!; try done; unfold clear_low;
     by rewrite Z.pow_0_r, Z.div_1_r, Z.mul_1_r|]).
  { apply H0. unfold Zlen in Hb. lia. }
  destruct (decide (bits = 0)) as [E|Hne].
  { destruct (H0 E) as (pre' & Hr & Hrest). exists pre'. split; [|done]. subst bits. cbn in *.
    by rewrite andb_false_r in *. }
  destruct (exists_last (l := pre)) as (l & x & ->); [intros ->; unfold Zlen in Hb; cbn in Hb; lia|].
  apply bytes_ok_app in Hok as [Hl [Hx _]%Forall_cons]. rewrite Zlen_app in *. change (Zlen [x]) with 1 in *.
  rewrite length_app in Hf. cbn in Hf. unfold is_u8 in Hx. change (2 ^ 8) with 256 in Hx.
  pose proof (Zlen_nonneg l) as Hl0. pose proof (be_val_range l Hl) as Hv. rewrite <- app_assoc. cbn [app].
  assert (Hget : (l ++ x :: post) !! Z.to_nat (Zlen l + 1 - 1) = Some x).
  { replace (Z.to_nat _) with (length l) by (unfold Zlen; lia). by apply list_lookup_middle. }
  assert (Hset : forall y, arr_set (l ++ x :: post) (Zlen l + 1 - 1) y = Ret (l ++ y :: post)).
  { intros y. rewrite arr_set_ok by (rewrite Zlen_app, Zlen_cons; pose proof (Zlen_nonneg post); lia).
    f_equal. replace (Z.to_nat _) with (length l + 0)%nat by (unfold Zlen; lia).
    rewrite insert_app_r. done. }
  cbn [clear_bits]. rewrite (proj2 (Z.leb_le 0 _)), (proj2 (Z.ltb_lt 0 _)) by lia. cbn [andb].
  destruct (Z.leb_spec 8 bits) as [H8|H8].
  - rewrite Hset. cbn [res_bind]. replace (Zlen l + 1 - 1 - 1) with (Zlen l - 1) by lia.
    destruct (IH l (0 :: post) (bits - 8) Hl) as (pre' & -> & Ho & Hlen & Hval); [lia|lia|].
    exists (pre' ++ [0]). rewrite <- app_assoc. split; [done|]. split_and!.
    + apply bytes_ok_app. split; [done|]. constructor; [unfold is_u8; lia|constructor].
    + rewrite !length_app. cbn. lia.
    + rewrite !be_val_snoc, Hval, clear_low_byte by lia. lia.
  - rewrite (proj2 (arr_get_Ret _ _ _)) by (split; [lia|exact Hget]). cbn [res_bind]. rewrite Hset. cbn [res_bind].
    rewrite (land_mask_low x 8 bits) by lia. pose proof (clear_low_range x bits).
    rewrite u8_id by (unfold is_u8; lia).
    assert (Hend : forall n, clear_bits n (l ++ clear_low x bits :: post) (Zlen l + 1 - 1 - 1) 0
                   = Ret (l ++ clear_low x bits :: post, 0)) by (intros [|n]; cbn; by rewrite andb_false_r).
    rewrite Hend. exists (l ++ [clear_low x bits]). rewrite <- app_assoc. split; [done|]. split_and!.
    + apply bytes_ok_app. split; [done|]. constructor; [unfold is_u8; lia|constructor].
    + by rewrite !length_app.
    + rewrite !be_val_snoc, clear_low_last by lia. done.
Qed.

(** The [ma_len]-byte address at the front of the key, as a number. *)
Definition addr_value (ma : mroute_addr) : Z := be_val (take (Z.to_nat (ma_len ma)) (raw_addr ma)).

(** A key that holds an IPv4 or IPv6 prefix. *)
Definition prefix_ok (ma : mroute_addr) : Prop :=
  bytes_ok (raw_addr ma) /\ length (raw_addr ma) = 20%nat /\
  ((Z.land (ma_type ma) MR_ADDR_MASK = MR_ADDR_IPV4 /\ ma_len ma = 4) \/
   (Z.land (ma_type ma) MR_ADDR_MASK = MR_ADDR_IPV6 /\ ma_len ma = 16)) /\
  0 <= ma_netbits ma <= 8 * ma_len ma.

Lemma take_overwrite0 raw src : take (length src) (overwrite raw src 0) = src.
Proof. unfold overwrite. rewrite take_0, app_nil_l. apply take_app_length. Qed.

Lemma drop_overwrite0 raw src n : (length src <= n)%nat -> drop n (overwrite raw src 0) = drop n raw.
Proof.
  intros H. unfold overwrite. rewrite take_0, app_nil_l, drop_app_ge, drop_drop by done. f_equal. lia.
Qed.

Lemma bytes_ok_overwrite raw src n : bytes_ok raw -> bytes_ok src -> bytes_ok (overwrite raw src n).
Proof.
  intros H1 H2. unfold overwrite. apply bytes_ok_app; split; [by apply Forall_take|].
  apply bytes_ok_app; split; [done|by apply Forall_drop].
Qed.

Lemma length_overwrite raw src n : (n + length src <= length raw)%nat -> length (overwrite raw src n) = length raw.
Proof. intros H. unfold overwrite. rewrite !length_app, length_take, length_drop. lia. Qed.

Lemma land_netmask v netbits :
  0 <= netbits <= 32 -> 0 <= v < 2 ^ 32 -> Z.land v (netbits_to_netmask netbits) = clear_low v (32 - netbits).
Proof.
  intros Hn Hv. unfold netbits_to_netmask. destruct (decide (netbits = 0)) as [->|Hne].
  - cbn. rewrite Z.land_0_r. unfold clear_low. rewrite Z.div_small by done. done.
  - rewrite (proj2 (Z.ltb_lt _ _)), (proj2 (Z.leb_le _ _)) by lia. cbn [andb]. apply (land_mask_low v 32); lia.
Qed.

Lemma mask_host_bits_spec ma :
  prefix_ok ma ->
  exists raw, mroute_addr_mask_host_bits ma = Ret (set_raw ma raw) /\
    length raw = length (raw_addr ma) /\ bytes_ok raw /\
    addr_value (set_raw ma raw) = clear_low (addr_value ma) (8 * ma_len ma - ma_netbits ma) /\
    drop (Z.to_nat (ma_len ma)) raw = drop (Z.to_nat (ma_len ma)) (raw_addr ma).
Proof.
  intros (Hok & Hlen & [[Ht Hl]|[Ht Hl]] & Hn); unfold mroute_addr_mask_host_bits, addr_value;
    cbn [set_raw ma_len raw_addr]; rewrite Ht, Hl in *; cbn [Z.eqb Pos.eqb].
  - set (l := take 4 (raw_addr ma)). assert (Hl4 : Zlen l = 4) by (unfold Zlen, l; rewrite length_take; lia).
    pose proof (be_val_range l (Forall_take _ _ _ Hok)) as Hr. rewrite Hl4 in Hr.
    rewrite land_netmask by (cbn in *; lia). eexists. split; [reflexivity|].
    change (Z.to_nat 4) with 4%nat. fold l. split_and!.
    + apply length_overwrite. rewrite length_be_bytes. lia.
    + apply bytes_ok_overwrite, be_bytes_ok; done.
    + change 4%nat with (length (be_bytes 4 (clear_low (be_val l) (32 - ma_netbits ma)))) at 1.
      rewrite take_overwrite0, be_val_bytes, Z.mod_small; [done|].
      pose proof (clear_low_range (be_val l) (32 - ma_netbits ma)). cbn in *. lia.
    + rewrite drop_overwrite0; [done|]. by rewrite length_be_bytes.
  - change (MR_ADDR_IPV6 =? MR_ADDR_IPV4) with false. change (MR_ADDR_IPV6 =? MR_ADDR_IPV6) with true. cbn match.
    assert (Hl16 : Zlen (take 16 (raw_addr ma)) = 16) by (unfold Zlen; rewrite length_take; lia).
    destruct (clear_bits_spec 16 (take 16 (raw_addr ma)) (drop 16 (raw_addr ma)) (128 - ma_netbits ma))
      as (pre & Hc & Hpo & Hpl & Hpv); [by apply Forall_take|rewrite length_take; lia|lia|].
    rewrite take_drop, Hl16 in Hc. change (16 - 1) with 15 in Hc. rewrite Hc. cbn [res_bind].
    exists (pre ++ drop 16 (raw_addr ma)). split; [done|]. change (Z.to_nat 16) with 16%nat.
    rewrite length_take in Hpl. split_and!.
    + rewrite length_app, length_drop. lia.
    + apply bytes_ok_app; split; [done|by apply Forall_drop].
    + rewrite take_app_length' by lia. exact Hpv.
    + rewrite drop_app_length' by lia. done.
Qed.

(** Masking the host bits of an IPv4 or IPv6 prefix never fails its assertion and
    leaves exactly the network address: the number of the address with its lowest
    (width - netbits) bits cleared, and every byte after the address as it was. *)
Lemma mask_host_bits_prefix ma :
  prefix_ok ma ->
  exists raw, mroute_addr_mask_host_bits ma = Ret (set_raw ma raw) /\
    length raw = length (raw_addr ma) /\ bytes_ok raw /\
    addr_value (set_raw ma raw) = clear_low (addr_value ma) (8 * ma_len ma - ma_netbits ma) /\
    drop (Z.to_nat (ma_len ma)) raw = drop (Z.to_nat (ma_len ma)) (raw_addr ma).
Proof. apply mask_host_bits_spec. Qed.

(** ** The prefix lengths in use *)

(** The lengths below [n] with a positive count, longest first. *)
Fixpoint in_use (n : nat) (rc : list Z) : list Z :=
  match n with
  | O => []
  | S i => (if 0 <? nth i rc 0 then [Z.of_nat i] else []) ++ in_use i rc
  end.

Lemma in_use_length n rc : (length (in_use n rc) <= n)%nat.
Proof. induction n as [|n IH]; cbn [in_use]; [done|]. rewrite length_app. destruct (0 <? _); cbn; lia. Qed.

Lemma elem_of_in_use n rc k : k ∈ in_use n rc <-> 0 <= k < Z.of_nat n /\ 0 < nth (Z.to_nat k) rc 0.
Proof.
  induction n as [|n IH]; cbn [in_use]; [rewrite elem_of_nil; lia|].
  rewrite elem_of_app, IH. destruct (Z.ltb_spec 0 (nth n rc 0)) as [H|H].
  - rewrite list_elem_of_singleton. split.
    + intros [-> | ?]; [rewrite Nat2Z.id; lia|lia].
    + intros [H1 H2]. destruct (decide (k = Z.of_nat n)); [by left|right; lia].
  - rewrite elem_of_nil. split; [intros [[]|?]; lia|]. intros [H1 H2]. right. split; [|done].
    destruct (decide (k = Z.of_nat n)) as [->|]; [rewrite Nat2Z.id in H2|]; lia.
Qed.

Lemma in_use_sorted n rc : StronglySorted Z.gt (in_use n rc).
Proof.
  induction n as [|n IH]; cbn [in_use]; [constructor|]. destruct (0 <? nth n rc 0); [|done].
  cbn [app]. constructor; [done|]. apply Forall_forall. intros k [Hk _]%elem_of_in_use. lia.
Qed.

Lemma arr_get_nth (l : list Z) (n : nat) : (n < length l)%nat -> arr_get l (Z.of_nat n) = Ret (nth n l 0).
Proof.
  intros H. apply arr_get_Ret. split; [lia|]. rewrite Nat2Z.id, nth_lookup.
  by destruct (lookup_lt_is_Some_2 l n H) as [v ->].
Qed.

Lemma regenerate_loop_spec n nl done rest rc :
  (n <= 129)%nat -> length rc = 129%nat -> nl = done ++ rest -> (length (in_use n rc) <= length rest)%nat ->
  exists rest', regenerate_loop n (Zlen done) nl rc
    = Ret (Zlen done + Zlen (in_use n rc), (done ++ in_use n rc) ++ rest') /\
    (length (in_use n rc) + length rest')%nat = length rest.
Proof.
  revert nl done rest. induction n as [|n IH]; intros nl done rest Hn Hrc -> Hlen; cbn [regenerate_loop in_use].
  { exists rest. rewrite app_nil_r, Zlen_nil, Z.add_0_r. done. }
  rewrite (arr_get_nth rc n) by lia. cbn [res_bind]. cbn [in_use] in Hlen.
  destruct (0 <? nth n rc 0); [|apply IH; [lia|done..]].
  cbn [app length] in *. destruct rest as [|x rest]; cbn in Hlen; [lia|].
  rewrite arr_set_ok by (rewrite Zlen_app, Zlen_cons; pose proof (Zlen_nonneg rest); unfold Zlen; lia).
  cbn [res_bind]. rewrite u8_id by (unfold is_u8; lia).
  replace (Z.to_nat (Zlen done)) with (length done + 0)%nat by (unfold Zlen; lia).
  rewrite insert_app_r. cbn [insert list_insert].
  destruct (IH ((done ++ [Z.of_nat n]) ++ rest) (done ++ [Z.of_nat n]) rest) as (rest' & Hr & Hl); [lia|done|done|lia|].
  rewrite Zlen_app in Hr. change (Zlen [Z.of_nat n]) with 1 in Hr. rewrite <- app_assoc in Hr. cbn [app] in Hr.
  rewrite Hr. exists rest'. split; [|cbn; lia]. rewrite Zlen_cons, <- !app_assoc. cbn [app]. do 2 f_equal. lia.
Qed.

(** A helper whose table lists exactly the prefix lengths in use. *)
Record helper_ok (mh : mroute_helper) : Prop := {
  ho_counts : length (net_len_refcount mh) = 129%nat;
  ho_table : length (net_len mh) = 129%nat;
  ho_nonneg : Forall (fun c => 0 <= c) (net_len_refcount mh);
  ho_n : n_net_len mh = Zlen (in_use 129 (net_len_refcount mh));
  ho_used : take (Z.to_nat (n_net_len mh)) (net_len mh) = in_use 129 (net_len_refcount mh)
}.

Lemma helper_init_ok ttl : helper_ok (mroute_helper_init ttl).
Proof. split; try reflexivity. apply Forall_replicate. lia. Qed.

Lemma regenerate_spec mh :
  length (net_len_refcount mh) = 129%nat -> length (net_len mh) = 129%nat ->
  Forall (fun c => 0 <= c) (net_len_refcount mh) ->
  exists mh', mroute_helper_regenerate mh = Ret mh' /\ helper_ok mh' /\
    net_len_refcount mh' = net_len_refcount mh /\ cache_generation mh' = cache_generation mh /\
    ageable_ttl_secs mh' = ageable_ttl_secs mh.
Proof.
  intros H1 H2 H3. unfold mroute_helper_regenerate.
  destruct (regenerate_loop_spec 129 (net_len mh) [] (net_len mh) (net_len_refcount mh)) as (rest & Hr & Hl);
    [done|done|done|rewrite H2; apply in_use_length|].
  change (Zlen (@nil Z)) with 0 in Hr. cbn [app] in Hr. rewrite Hr. cbn [res_bind]. eexists. split; [reflexivity|].
  split; [|done]. split; cbn [n_net_len net_len net_len_refcount]; try done.
  - rewrite length_app. lia.
  - rewrite take_app_length' by (unfold Zlen; lia). done.
Qed.

(** When no count becomes or ceases to be zero the lengths in use stay. *)
Lemma in_use_same n rc rc' :
  (forall i, (i < n)%nat -> (0 <? nth i rc 0) = (0 <? nth i rc' 0)) -> in_use n rc = in_use n rc'.
Proof.
  induction n as [|n IH]; intros H; cbn [in_use]; [done|]. rewrite H by lia. f_equal. apply IH. intros i Hi. apply H. lia.
Qed.

Definition add_count (d : Z) (n : Z) (rc : list Z) : list Z := <[Z.to_nat n := nth (Z.to_nat n) rc 0 + d]> rc.

Lemma nth_add_count d n rc i :
  0 <= n < Zlen rc -> nth i (add_count d n rc) 0 = nth i rc 0 + (if decide (i = Z.to_nat n) then d else 0).
Proof.
  intros Hn. unfold add_count. rewrite !nth_lookup. unfold Zlen in Hn. case_decide as E.
  - subst i. rewrite list_lookup_insert_eq by lia. done.
  - rewrite list_lookup_insert_ne by done. lia.
Qed.

(** One step of either kind: the count of the length moves by [d], and the table follows. *)
Lemma helper_step mh netbits d :
  helper_ok mh -> 0 <= netbits < 129 -> 0 <= nth (Z.to_nat netbits) (net_len_refcount mh) 0 + d ->
  let rc := add_count d netbits (net_len_refcount mh) in
  let mh1 := mk_mh (u32 (cache_generation mh + 1)) (ageable_ttl_secs mh) (n_net_len mh) (net_len mh) rc in
  (exists mh', mroute_helper_regenerate mh1 = Ret mh' /\ helper_ok mh' /\ net_len_refcount mh' = rc /\
     cache_generation mh' = u32 (cache_generation mh + 1) /\ ageable_ttl_secs mh' = ageable_ttl_secs mh) /\
  ((0 <? nth (Z.to_nat netbits) (net_len_refcount mh) 0) = (0 <? nth (Z.to_nat netbits) rc 0) -> helper_ok mh1).
Proof.
  intros Hok Hn Hc rc mh1. assert (Hl : length rc = 129%nat) by (unfold rc, add_count; rewrite length_insert; apply Hok).
  assert (Hz : Zlen (net_len_refcount mh) = 129) by (unfold Zlen; rewrite (ho_counts _ Hok); done).
  assert (Hnn : Forall (fun c => 0 <= c) rc) by (apply Forall_insert; [apply Hok|exact Hc]).
  split; [apply (regenerate_spec mh1); [done|apply Hok|done]|]. intros Hsame.
  assert (E : in_use 129 rc = in_use 129 (net_len_refcount mh)).
  { symmetry. apply in_use_same. intros i _. destruct (decide (i = Z.to_nat netbits)) as [->|Hne]; [done|].
    unfold rc. rewrite nth_add_count by lia. rewrite decide_False by done. by rewrite Z.add_0_r. }
  split; unfold mh1; cbn [n_net_len net_len net_len_refcount]; rewrite ?E; (done || apply Hok).
Qed.

(** Steps of the helper and what they do to the multiset of prefix lengths. *)
Inductive helper_op : Type := HAdd (netbits : Z) | HDel (netbits : Z).
Definition helper_step_op (mh : mroute_helper) (op : helper_op) : res mroute_helper :=
  match op with
  | HAdd n => mroute_helper_add_iroute46 mh n
  | HDel n => mroute_helper_del_iroute46 mh n
  end.
Fixpoint helper_run (mh : mroute_helper) (ops : list helper_op) : res mroute_helper :=
  match ops with
  | [] => Ret mh
  | op :: ops => let! mh := helper_step_op mh op in helper_run mh ops
  end.

(** Routes announced and not withdrawn; [None] when a withdrawal has no announcement
    or a length does not exist.  Host routes ([-1]) are not counted. *)
Definition routes_op (c : list Z) (op : helper_op) : option (list Z) :=
  match op with
  | HAdd n => if n <? 0 then Some c else if n <? 129 then Some (add_count 1 n c) else None
  | HDel n => if n <? 0 then Some c
              else if (n <? 129) && (0 <? nth (Z.to_nat n) c 0) then Some (add_count (-1) n c) else None
  end.
Fixpoint routes_run (c : list Z) (ops : list helper_op) : option (list Z) :=
  match ops with
  | [] => Some c
  | op :: ops => c ← routes_op c op; routes_run c ops
  end.

Lemma nth_nonneg l i : Forall (fun c => 0 <= c) l -> 0 <= nth i l 0.
Proof. intros H. rewrite nth_lookup. destruct (l !! i) eqn:E; cbn; [|lia]. by eapply Forall_lookup_1 in E. Qed.

(** The accesses to the count of a length, as both functions make them. *)
Lemma count_access {A} mh n d (k : Z -> list Z -> res A) :
  helper_ok mh -> 0 <= n < 129 -> is_int (nth (Z.to_nat n) (net_len_refcount mh) 0 + d) ->
  (let! c := arr_get (net_len_refcount mh) n in
   let! c := c_int (c + d) in
   let! rc := arr_set (net_len_refcount mh) n c in k c rc)
  = k (nth (Z.to_nat n) (net_len_refcount mh) 0 + d) (add_count d n (net_len_refcount mh)).
Proof.
  intros Hok Hn Hi. replace n with (Z.of_nat (Z.to_nat n)) at 1 by lia.
  rewrite arr_get_nth by (rewrite (ho_counts _ Hok); lia). cbn [res_bind].
  rewrite c_int_ok by done. cbn [res_bind]. by rewrite arr_set_ok by (unfold Zlen; rewrite (ho_counts _ Hok); lia).
Qed.

Lemma add_iroute_spec mh n :
  helper_ok mh -> 0 <= n < 129 -> nth (Z.to_nat n) (net_len_refcount mh) 0 < INT_MAX ->
  exists mh', mroute_helper_add_iroute46 mh n = Ret mh' /\ helper_ok mh' /\
    net_len_refcount mh' = add_count 1 n (net_len_refcount mh) /\
    cache_generation mh' = u32 (cache_generation mh + 1) /\ ageable_ttl_secs mh' = ageable_ttl_secs mh.
Proof.
  intros Hok Hn Hmax. unfold mroute_helper_add_iroute46, MR_HELPER_NET_LEN.
  rewrite (proj2 (Z.leb_le _ _)), (proj2 (Z.ltb_lt _ _)) by lia.
  pose proof (nth_nonneg _ (Z.to_nat n) (ho_nonneg _ Hok)) as Hc.
  rewrite count_access by (done || (unfold is_int, INT_MIN, INT_MAX in *; lia)).
  destruct (helper_step mh n 1 Hok Hn) as [Hr Hs]; [lia|]. case Z.eqb_spec; intros H1; [exact Hr|].
  eexists. split; [reflexivity|]. split; [|done]. apply Hs.
  rewrite nth_add_count, decide_True by (done || (unfold Zlen; rewrite (ho_counts _ Hok); lia)).
  by rewrite !(proj2 (Z.ltb_lt _ _)) by lia.
Qed.

Lemma del_iroute_spec mh n :
  helper_ok mh -> 0 <= n < 129 -> nth (Z.to_nat n) (net_len_refcount mh) 0 <= INT_MAX ->
  if 0 <? nth (Z.to_nat n) (net_len_refcount mh) 0 then
    exists mh', mroute_helper_del_iroute46 mh n = Ret mh' /\ helper_ok mh' /\
      net_len_refcount mh' = add_count (-1) n (net_len_refcount mh) /\
      cache_generation mh' = u32 (cache_generation mh + 1) /\ ageable_ttl_secs mh' = ageable_ttl_secs mh
  else mroute_helper_del_iroute46 mh n = Fatal.
Proof.
  intros Hok Hn Hmax. unfold mroute_helper_del_iroute46, MR_HELPER_NET_LEN.
  rewrite (proj2 (Z.leb_le _ _)), (proj2 (Z.ltb_lt n _)) by lia.
  pose proof (nth_nonneg _ (Z.to_nat n) (ho_nonneg _ Hok)) as Hc. unfold Z.sub. change (- (1)) with (-1).
  rewrite count_access by (done || (unfold is_int, INT_MIN, INT_MAX in *; lia)).
  case Z.ltb_spec; intros H0; [|by rewrite (proj2 (Z.leb_gt _ _)) by lia].
  rewrite (proj2 (Z.leb_le _ _)) by lia.
  destruct (helper_step mh n (-1) Hok Hn) as [Hr Hs]; [lia|]. case Z.eqb_spec; intros H1; [exact Hr|].
  eexists. split; [reflexivity|]. split; [|done]. apply Hs.
  rewrite nth_add_count, decide_True by (done || (unfold Zlen; rewrite (ho_counts _ Hok); lia)).
  by rewrite !(proj2 (Z.ltb_lt _ _)) by lia.
Qed.

Lemma helper_op_spec mh op m :
  helper_ok mh -> (forall i, nth i (net_len_refcount mh) 0 <= m) -> m < INT_MAX ->
  match routes_op (net_len_refcount mh) op with
  | Some c => exists mh', helper_step_op mh op = Ret mh' /\ helper_ok mh' /\ net_len_refcount mh' = c /\
      forall i, nth i c 0 <= m + 1
  | None => helper_step_op mh op = Fatal
  end.
Proof.
  intros Hok Hle Hm.
  assert (Hself : forall d n, d <= 1 -> 0 <= n < 129 -> forall i, nth i (add_count d n (net_len_refcount mh)) 0 <= m + 1).
  { intros d n Hd Hn i. rewrite nth_add_count by (unfold Zlen; rewrite (ho_counts _ Hok); lia).
    specialize (Hle i). case_decide; lia. }
  destruct op as [n|n]; cbn [routes_op helper_step_op].
  - destruct (Z.ltb_spec n 0).
    { exists mh. unfold mroute_helper_add_iroute46. rewrite (proj2 (Z.leb_gt _ _)) by lia.
      split_and!; try done. intros i. specialize (Hle i). lia. }
    destruct (Z.ltb_spec n 129).
    + destruct (add_iroute_spec mh n) as (mh' & H1 & H2 & H3 & _); [done|lia|specialize (Hle (Z.to_nat n)); lia|].
      exists mh'. split_and!; try done. apply Hself; lia.
    + unfold mroute_helper_add_iroute46. rewrite (proj2 (Z.leb_le _ _)), (proj2 (Z.ltb_ge n _)) by (unfold MR_HELPER_NET_LEN; lia). done.
  - destruct (Z.ltb_spec n 0).
    { exists mh. unfold mroute_helper_del_iroute46. rewrite (proj2 (Z.leb_gt _ _)) by lia.
      split_and!; try done. intros i. specialize (Hle i). lia. }
    destruct (Z.ltb_spec n 129).
    + pose proof (del_iroute_spec mh n Hok) as Hd. specialize (Hle (Z.to_nat n)) as Hle'.
      cbn [andb]. destruct (0 <? nth (Z.to_nat n) (net_len_refcount mh) 0); [|apply Hd; lia].
      destruct Hd as (mh' & H1 & H2 & H3 & _); [lia|lia|]. exists mh'. split_and!; try done. apply Hself; lia.
    + unfold mroute_helper_del_iroute46. rewrite (proj2 (Z.leb_le _ _)), (proj2 (Z.ltb_ge n _)) by (unfold MR_HELPER_NET_LEN; lia). done.
Qed.

Lemma helper_run_spec ops mh m :
  helper_ok mh -> (forall i, nth i (net_len_refcount mh) 0 <= m) -> m + Zlen ops < INT_MAX ->
  match routes_run (net_len_refcount mh) ops with
  | Some c => exists mh', helper_run mh ops = Ret mh' /\ helper_ok mh' /\ net_len_refcount mh' = c
  | None => helper_run mh ops = Fatal
  end.
Proof.
  revert mh m. induction ops as [|op ops IH]; intros mh m Hok Hle Hm; cbn [routes_run helper_run]; [by exists mh|].
  rewrite Zlen_cons in Hm. pose proof (Zlen_nonneg ops). pose proof (helper_op_spec mh op m Hok Hle) as Hs.
  destruct (routes_op (net_len_refcount mh) op) as [c|]; cbn [mbind option_bind].
  - destruct Hs as (mh' & -> & Hok' & <- & Hle'); [lia|]. cbn [res_bind]. apply (IH mh' (m + 1)); [done..|lia].
  - rewrite Hs by lia. done.
Qed.

Lemma nth_replicate_0 (n i : nat) : nth i (replicate n 0) 0 = 0.
Proof. revert i. induction n as [|n IH]; intros [|i]; cbn; auto. Qed.

(** From the initial helper, any sequence of announcements and withdrawals of
    routes either leaves the process through an assertion, exactly when a withdrawal
    has no announcement before it or a length is above 128, or ends with the table
    listing each prefix length of the routes still announced, each once and longest
    first.  No array access is out of bounds. *)
Lemma helper_lists_prefixes ttl ops :
  Zlen ops < INT_MAX ->
  match routes_run (replicate 129 0) ops with
  | None => helper_run (mroute_helper_init ttl) ops = Fatal
  | Some c => exists mh, helper_run (mroute_helper_init ttl) ops = Ret mh /\
      let used := take (Z.to_nat (n_net_len mh)) (net_len mh) in
      StronglySorted Z.gt used /\ n_net_len mh = Zlen used /\
      forall n, n ∈ used <-> 0 <= n < 129 /\ 0 < nth (Z.to_nat n) c 0
  end.
Proof.
  intros Hlen. pose proof (helper_run_spec ops (mroute_helper_init ttl) 0 (helper_init_ok ttl)) as H.
  cbn [mroute_helper_init net_len_refcount] in H.
  destruct (routes_run (replicate 129 0) ops) as [c|]; [|apply H; [|lia]].
  - destruct H as (mh & Hr & Hok & <-); [|lia|].
    + intros i. rewrite nth_replicate_0. lia.
    + exists mh. split; [done|]. cbn. rewrite (ho_used _ Hok). split; [apply in_use_sorted|].
      split; [apply Hok|]. intros n. apply elem_of_in_use.
  - intros i. rewrite nth_replicate_0. lia.
Qed.

Definition example_helper_ops : list helper_op := [HAdd 24; HAdd 64; HAdd (-1); HAdd 24; HAdd 16; HDel 24; HDel 16].
