(* ===== verification/MultiRoute.v ===== *)
(** * The server's table of virtual addresses (multi.h, multi.c)

    Which client owns which address inside the VPN: routes as heap objects that the hash
    table of virtual addresses points to, reference-counted client instances, the table
    of prefix lengths, host routes cached from network routes, and the reaper.  A
    location is a number; [mc_routes] and [mc_instances] hold the live objects, and an
    access through a freed location is [UB]. *)

From stdpp Require Import gmap.
From S2P Require Import Prelude CircList Buffer Proto Hash Mroute.
#[local] Open Scope Z_scope.

(** ** Data *)
Definition MULTI_ROUTE_CACHE : Z := 1.
Definition MULTI_ROUTE_AGEABLE : Z := 2.
Definition REAP_DIVISOR : Z := 256.
Definition REAP_MIN : Z := 16.
Definition REAP_MAX : Z := 1024.
Definition MULTI_CACHE_ROUTE_TTL : Z := 60.

(** An option [--iroute]: the network in host byte order. *)
Record iroute : Type := mk_iroute { ir_network : Z; ir_netbits : Z }.
Record iroute_ipv6 : Type := mk_iroute6 { ir6_network : bytes; ir6_netbits : Z }.

(** The fields of a client instance and of its options that routing uses. *)
Record multi_instance : Type := mk_mi {
  mi_halt : bool;
  mi_refcount : Z;
  mi_route_count : Z;
  mi_did_iroutes : bool;
  mi_max_routes : Z;
  mi_iroutes : list iroute;
  mi_iroutes_ipv6 : list iroute_ipv6
}.

Record multi_route : Type := mk_route {
  mr_addr : mroute_addr;
  mr_instance : Z;
  mr_flags : Z;
  mr_cache_generation : Z;
  mr_last_reference : Z
}.

Record multi_reap : Type := mk_reap {
  bucket_base : Z;
  buckets_per_pass : Z;
  last_call : Z
}.

Record multi_context : Type := mk_mc {
  mc_instances : gmap Z multi_instance;
  mc_routes : gmap Z multi_route;
  mc_vhash : hash mroute_addr Z;
  mc_helper : mroute_helper;
  mc_local : mroute_addr;
  mc_dev_type : Z;
  mc_stale_ageing_time : Z
}.

Definition set_instances (m : multi_context) (x : gmap Z multi_instance) : multi_context :=
  mk_mc x (mc_routes m) (mc_vhash m) (mc_helper m) (mc_local m) (mc_dev_type m) (mc_stale_ageing_time m).
Definition set_routes (m : multi_context) (x : gmap Z multi_route) : multi_context :=
  mk_mc (mc_instances m) x (mc_vhash m) (mc_helper m) (mc_local m) (mc_dev_type m) (mc_stale_ageing_time m).
Definition set_vhash (m : multi_context) (x : hash mroute_addr Z) : multi_context :=
  mk_mc (mc_instances m) (mc_routes m) x (mc_helper m) (mc_local m) (mc_dev_type m) (mc_stale_ageing_time m).
Definition set_helper (m : multi_context) (x : mroute_helper) : multi_context :=
  mk_mc (mc_instances m) (mc_routes m) (mc_vhash m) x (mc_local m) (mc_dev_type m) (mc_stale_ageing_time m).

(** Access through a pointer. *)
Definition deref {A : Type} (h : gmap Z A) (l : Z) : res A :=
  match h !! l with Some a => Ret a | None => UB end.

(** ** Quotas and reference counts *)
Definition with_counts (mi : multi_instance) (refcount route_count : Z) : multi_instance :=
  mk_mi (mi_halt mi) refcount route_count (mi_did_iroutes mi) (mi_max_routes mi) (mi_iroutes mi) (mi_iroutes_ipv6 mi).

Definition route_quota_inc (m : multi_context) (i : Z) : res multi_context :=
  let! mi := deref (mc_instances m) i in
  let! c := c_int (mi_route_count mi + 1) in
  Ret (set_instances m (<[i := with_counts mi (mi_refcount mi) c]> (mc_instances m))).
Definition route_quota_dec (m : multi_context) (i : Z) : res multi_context :=
  let! mi := deref (mc_instances m) i in
  let! c := c_int (mi_route_count mi - 1) in
  Ret (set_instances m (<[i := with_counts mi (mi_refcount mi) c]> (mc_instances m))).
Definition route_quota_test (m : multi_context) (i : Z) : res bool :=
  let! mi := deref (mc_instances m) i in
  Ret (if mi_max_routes mi <=? mi_route_count mi then false else true).

Definition multi_instance_inc_refcount (m : multi_context) (i : Z) : res multi_context :=
  let! mi := deref (mc_instances m) i in
  let! c := c_int (mi_refcount mi + 1) in
  Ret (set_instances m (<[i := with_counts mi c (mi_route_count mi)]> (mc_instances m))).
Definition multi_instance_dec_refcount (m : multi_context) (i : Z) : res multi_context :=
  let! mi := deref (mc_instances m) i in
  let! c := c_int (mi_refcount mi - 1) in
  if c <=? 0 then Ret (set_instances m (delete i (mc_instances m)))
  else Ret (set_instances m (<[i := with_counts mi c (mi_route_count mi)]> (mc_instances m))).

Definition multi_route_del (m : multi_context) (route : Z) : res multi_context :=
  let! r := deref (mc_routes m) route in
  let! m := route_quota_dec m (mr_instance r) in
  let! m := multi_instance_dec_refcount m (mr_instance r) in
  Ret (set_routes m (delete route (mc_routes m))).

Definition multi_route_defined (now : Z) (m : multi_context) (r : multi_route) : res bool :=
  let! mi := deref (mc_instances m) (mr_instance r) in
  if mi_halt mi then Ret false
  else if negb (Z.land (mr_flags r) MULTI_ROUTE_CACHE =? 0)
          && negb (mr_cache_generation r =? cache_generation (mc_helper m)) then Ret false
  else if negb (Z.land (mr_flags r) MULTI_ROUTE_AGEABLE =? 0)
          && (mr_last_reference r + ageable_ttl_secs (mc_helper m) <? now) then Ret false
  else Ret true.

(** ** Learning and lookup

    [learn_address_script]: the answer of the plugins and scripts that are asked about a
    route. *)
Inductive learn_op : Type := LearnAdd | LearnUpdate | LearnDelete.

Section Operations.
Context (now : Z) (learn_address_script : option Z -> learn_op -> mroute_addr -> bool).

(** The owner of the route found, if it counts. *)
Definition route_owner (m : multi_context) (oldroute : option Z) : res (option Z) :=
  match oldroute with
  | None => Ret None
  | Some l => let! r := deref (mc_routes m) l in
              let! d := multi_route_defined now m r in
              Ret (if (d : bool) then Some (mr_instance r) else None)
  end.

Definition learn_allowed (m : multi_context) (mi : Z) (op : learn_op) (addr : mroute_addr) : res bool :=
  let! q := route_quota_test m mi in
  Ret ((q : bool) && learn_address_script (Some mi) op addr).

Definition multi_learn_addr (m : multi_context) (mi : Z) (addr : mroute_addr) (flags : Z)
  : res (option Z * multi_context) :=
  let hv := hash_value (mc_vhash m) addr in
  let bucket := hash_bucket (mc_vhash m) hv in
  let! b := arr_get (buckets (mc_vhash m)) bucket in
  let! (he, b) := hash_lookup_fast b addr hv in
  let! h := set_bucket (mc_vhash m) bucket b in
  let m := set_vhash m h in
  let oldroute := he_value <$> he in
  let! owner := route_owner m oldroute in
  if bool_decide (owner = Some mi) then Ret (owner, m)
  else
    let! learnable := mroute_learnable_address addr in
    if (learnable : bool) && negb (mroute_addr_equal addr (mc_local m)) then
      let newroute := fresh (dom (mc_routes m)) in
      let generation := if negb (Z.land flags MULTI_ROUTE_CACHE =? 0) then cache_generation (mc_helper m) else 0 in
      let m := set_routes m (<[newroute := mk_route addr mi flags generation now]> (mc_routes m)) in
      match he, oldroute with
      | Some he, Some old =>
          let! ok := learn_allowed m mi LearnUpdate addr in
          if ok then
            let! m := multi_instance_inc_refcount m mi in
            let! m := route_quota_inc m mi in
            let! m := multi_route_del m old in
            let b := match b with
                     | _ :: rest => mk_he newroute (Some addr) (he_hash_value he) :: rest
                     | [] => []
                     end in
            let! h := set_bucket (mc_vhash m) bucket b in
            Ret (Some mi, set_vhash m h)
          else Ret (owner, set_routes m (delete newroute (mc_routes m)))
      | _, _ =>
          let! ok := learn_allowed m mi LearnAdd addr in
          if ok then
            let! m := multi_instance_inc_refcount m mi in
            let! m := route_quota_inc m mi in
            let! h := hash_add_fast (mc_vhash m) bucket addr hv newroute in
            Ret (Some mi, set_vhash m h)
          else Ret (owner, set_routes m (delete newroute (mc_routes m)))
      end
    else Ret (owner, m).

(** The key tried for one prefix length. *)
Definition with_netbits (addr : mroute_addr) (netbits : Z) : mroute_addr :=
  mk_maddr (ma_len addr) (ma_proto addr) (Z.lor (ma_type addr) MR_WITH_NETBITS) netbits (raw_addr addr).

(** [for (i = 0; i < rh->n_net_len; ++i)], with [n] rounds left. *)
Fixpoint cidr_loop (n : nat) (i : Z) (m : multi_context) (addr : mroute_addr) : res (option Z * multi_context) :=
  match n with
  | O => Ret (None, m)
  | S n =>
      let! netbits := arr_get (net_len (mc_helper m)) i in
      let! tryaddr := mroute_addr_mask_host_bits (with_netbits addr netbits) in
      let! (route, h) := hash_lookup (mc_vhash m) tryaddr in
      let m := set_vhash m h in
      let! owner := route_owner m route in
      match owner with
      | Some mi =>
          let! (_, m) := multi_learn_addr m mi addr (Z.lor MULTI_ROUTE_CACHE MULTI_ROUTE_AGEABLE) in
          Ret (Some mi, m)
      | None => cidr_loop n (i + 1) m addr
      end
  end.

Definition touch_route (m : multi_context) (l : Z) : res multi_context :=
  let! r := deref (mc_routes m) l in
  Ret (set_routes m (<[l := mk_route (mr_addr r) (mr_instance r) (mr_flags r) (mr_cache_generation r) now]> (mc_routes m))).

Definition multi_get_instance_by_virtual_addr (m : multi_context) (addr : mroute_addr) (cidr_routing : bool)
  : res (option Z * multi_context) :=
  if mroute_addr_equal addr (mc_local m) then Ret (None, m)
  else
    let! (route, h) := hash_lookup (mc_vhash m) addr in
    let m := set_vhash m h in
    let! owner := route_owner m route in
    let! (ret, m) :=
      match owner, route with
      | Some mi, Some l => let! m := touch_route m l in Ret (Some mi, m)
      | _, _ => if cidr_routing then cidr_loop (Z.to_nat (n_net_len (mc_helper m))) 0 m addr else Ret (None, m)
      end in
    match ret with
    | Some i => let! mi := deref (mc_instances m) i in
                assert! negb (mi_halt mi) in Ret (ret, m)
    | None => Ret (ret, m)
    end.

(** ** Addresses and routes of a client *)
Definition multi_learn_in_addr_t (m : multi_context) (mi : Z) (a : Z) (netbits : Z) (primary : bool)
  : res (option Z * multi_context) :=
  let '(ok, addr) := mroute_extract_openvpn_sockaddr mroute_addr_init (SA_in4 (be_bytes 4 a) [0; 0]) false in
  assert! ok in
  let addr := if 0 <=? netbits
              then mk_maddr (ma_len addr) (ma_proto addr) (Z.lor (ma_type addr) MR_WITH_NETBITS) (u8 netbits) (raw_addr addr)
              else addr in
  let! (owner, m) := multi_learn_addr m mi addr 0 in
  if negb primary then assert! 0 <=? netbits in Ret (owner, m) else Ret (owner, m).

Definition multi_learn_in6_addr (m : multi_context) (mi : Z) (a6 : bytes) (netbits : Z) (primary : bool)
  : res (option Z * multi_context) :=
  let addr := mk_maddr 16 0 MR_ADDR_IPV6 0 (overwrite (raw_addr mroute_addr_init) a6 0) in
  let! addr := (if 0 <=? netbits
                then mroute_addr_mask_host_bits
                       (mk_maddr 16 0 (Z.lor MR_ADDR_IPV6 MR_WITH_NETBITS) (u8 netbits) (raw_addr addr))
                else Ret addr) in
  let! (owner, m) := multi_learn_addr m mi addr 0 in
  if negb primary then assert! 0 <=? netbits in Ret (owner, m) else Ret (owner, m).

Definition set_did_iroutes (mi : multi_instance) (d : bool) : multi_instance :=
  mk_mi (mi_halt mi) (mi_refcount mi) (mi_route_count mi) d (mi_max_routes mi) (mi_iroutes mi) (mi_iroutes_ipv6 mi).

Fixpoint add_iroutes4 (m : multi_context) (mi : Z) (irs : list iroute) : res multi_context :=
  match irs with
  | [] => Ret m
  | ir :: irs =>
      let! mh := mroute_helper_add_iroute46 (mc_helper m) (ir_netbits ir) in
      let! (_, m) := multi_learn_in_addr_t (set_helper m mh) mi (ir_network ir) (ir_netbits ir) false in
      add_iroutes4 m mi irs
  end.
Fixpoint add_iroutes6 (m : multi_context) (mi : Z) (irs : list iroute_ipv6) : res multi_context :=
  match irs with
  | [] => Ret m
  | ir :: irs =>
      let! mh := mroute_helper_add_iroute46 (mc_helper m) (ir6_netbits ir) in
      let! (_, m) := multi_learn_in6_addr (set_helper m mh) mi (ir6_network ir) (ir6_netbits ir) false in
      add_iroutes6 m mi irs
  end.
Definition multi_add_iroutes (m : multi_context) (i : Z) : res multi_context :=
  let! mi := deref (mc_instances m) i in
  if mc_dev_type m =? DEV_TYPE_TUN then
    let m := set_instances m (<[i := set_did_iroutes mi true]> (mc_instances m)) in
    let! m := add_iroutes4 m i (mi_iroutes mi) in
    add_iroutes6 m i (mi_iroutes_ipv6 mi)
  else Ret m.

Fixpoint del_iroutes (mh : mroute_helper) (lens : list Z) : res mroute_helper :=
  match lens with
  | [] => Ret mh
  | n :: lens => let! mh := mroute_helper_del_iroute46 mh n in del_iroutes mh lens
  end.
Definition multi_del_iroutes (m : multi_context) (i : Z) : res multi_context :=
  let! mi := deref (mc_instances m) i in
  if mc_dev_type m =? DEV_TYPE_TUN then
    let! mh := del_iroutes (mc_helper m) (map ir_netbits (mi_iroutes mi)) in
    let! mh := del_iroutes mh (map ir6_netbits (mi_iroutes_ipv6 mi)) in
    Ret (set_helper m mh)
  else Ret m.

(** What [multi_close_instance] does to the state modelled here, on a running server. *)
Definition set_halt (mi : multi_instance) : multi_instance :=
  mk_mi true (mi_refcount mi) (mi_route_count mi) (mi_did_iroutes mi) (mi_max_routes mi) (mi_iroutes mi) (mi_iroutes_ipv6 mi).
Definition close_routing (m : multi_context) (i : Z) : res multi_context :=
  let! mi := deref (mc_instances m) i in
  assert! negb (mi_halt mi) in
  let m := set_instances m (<[i := set_halt mi]> (mc_instances m)) in
  let! m := (if mi_did_iroutes mi
             then let! m := multi_del_iroutes m i in
                  Ret (set_instances m (<[i := set_did_iroutes (set_halt mi) false]> (mc_instances m)))
             else Ret m) in
  multi_instance_dec_refcount m i.

(** ** The reaper *)

(** The body of the loop: the table itself is being iterated. *)
Definition reap_body (m : multi_context) (l : Z) : res (bool * multi_context) :=
  let! r := deref (mc_routes m) l in
  let! d := multi_route_defined now m r in
  if (d : bool) then Ret (false, m) else let! m := multi_route_del m l in Ret (true, m).
Definition multi_reap_range (m : multi_context) (start_bucket end_bucket : Z) : res multi_context :=
  let '(start_bucket, end_bucket) :=
    if start_bucket <? 0 then (0, hash_n_buckets (mc_vhash m)) else (start_bucket, end_bucket) in
  let! (h, m) := hash_scan_range reap_body (mc_vhash m) start_bucket end_bucket m in
  Ret (set_vhash m h).
Definition multi_reap_all (m : multi_context) : res multi_context := multi_reap_range m (-1) 0.

Definition multi_reap_new (buckets_per_pass : Z) : multi_reap := mk_reap 0 buckets_per_pass now.
Definition multi_reap_process_dowork (m : multi_context) (mr : multi_reap) : res (multi_context * multi_reap) :=
  let base := if hash_n_buckets (mc_vhash m) <=? bucket_base mr then 0 else bucket_base mr in
  let! e := c_int (base + buckets_per_pass mr) in
  let! m := multi_reap_range m base e in
  Ret (m, mk_reap e (buckets_per_pass mr) now).
Definition reap_buckets_per_pass (n_buckets : Z) : Z :=
  constrain_int (Z.quot n_buckets REAP_DIVISOR) REAP_MIN REAP_MAX.
Definition multi_reap_process (m : multi_context) (mr : multi_reap) : res (multi_context * multi_reap) :=
  if negb (last_call mr =? now) then multi_reap_process_dowork m mr else Ret (m, mr).

Definition stale_body (m : multi_context) (l : Z) : res (bool * multi_context) :=
  let! r := deref (mc_routes m) l in
  let! d := multi_route_defined now m r in
  if (d : bool) && (mc_stale_ageing_time m <=? now - mr_last_reference r)
  then let! m := multi_route_del m l in Ret (true, m) else Ret (false, m).
Definition check_stale_routes (m : multi_context) : res multi_context :=
  let! (h, m) := hash_scan_range stale_body (mc_vhash m) 0 (hash_n_buckets (mc_vhash m)) m in
  Ret (set_vhash m h).
End Operations.
