(* ===== verification/RouteTable.v ===== *)
(** * The server's table of virtual addresses: invariant, safety and correct routing

    Proofs about [MultiRoute]: the table, the reference counts and the prefix lengths in
    use stay consistent under every operation, no freed object is reached, and a lookup
    answers with the valid entry of the address or the owner of the longest matching prefix;
    whatever is cached does not matter unless stale routes are checked for. *)

From stdpp Require Import gmap sorting.
From S2P Require Import Prelude CircList Buffer Proto Hash Mroute MultiRoute.
#[local] Open Scope Z_scope.

(** ** The table as a function of the address *)
Definition has (m : multi_context) (r : multi_route) : Prop := exists l, mc_routes m !! l = Some r.
Definition rt (m : multi_context) (k : mroute_addr) : option multi_route :=
  l ← spec_lookup (pairs (mc_vhash m)) k; mc_routes m !! l.

(** Table and heap: every entry points to a route with its key, every route is
    pointed to once. *)
Record table_ok (m : multi_context) : Prop := {
  tk_hash : hash_wf (mc_vhash m);
  tk_route : forall k l, (k, l) ∈ pairs (mc_vhash m) -> exists r, mc_routes m !! l = Some r /\ mr_addr r = k;
  tk_locs : NoDup (pairs (mc_vhash m)).*2;
  tk_dom : forall l r, mc_routes m !! l = Some r -> l ∈ (pairs (mc_vhash m)).*2
}.

Lemma route_pair m l r : table_ok m -> mc_routes m !! l = Some r -> (mr_addr r, l) ∈ pairs (mc_vhash m).
Proof.
  intros Ht Hl. pose proof (tk_dom _ Ht _ _ Hl) as Hin.
  apply list_elem_of_fmap in Hin as ([k l'] & -> & Hin). cbn in *.
  destruct (tk_route _ Ht k l' Hin) as (r' & Hr & <-). by simplify_eq.
Qed.

Lemma rt_Some m k r : table_ok m -> (rt m k = Some r <-> has m r /\ keq k (mr_addr r)).
Proof.
  intros Ht. unfold rt. rewrite bind_Some. split.
  - intros (l & Hl & Hr). apply spec_lookup_spec in Hl as (k' & Hk & Hin); [|apply Ht].
    destruct (tk_route _ Ht _ _ Hin) as (r' & Hr' & <-). simplify_eq. split; [by exists l|done].
  - intros [[l Hl] Hk]. exists l. split; [|done]. apply spec_lookup_spec; [apply Ht|].
    exists (mr_addr r). split; [done|]. by apply route_pair.
Qed.

Lemma rt_proper m k k' : table_ok m -> keq k k' -> rt m k = rt m k'.
Proof.
  intros Ht Hk. destruct (rt m k) as [r|] eqn:E.
  - symmetry. apply rt_Some in E as [Hh He]; [|done]. apply rt_Some; [done|]. split; [done|]. by rewrite <- Hk.
  - destruct (rt m k') as [r|] eqn:E'; [|done]. apply rt_Some in E' as [Hh He]; [|done].
    assert (rt m k = Some r) by (apply rt_Some; [done|]; split; [done|]; by rewrite Hk). congruence.
Qed.

Lemma has_rt m r : table_ok m -> (has m r <-> rt m (mr_addr r) = Some r).
Proof. intros Ht. rewrite rt_Some by done. split; [intros H; split; [done|reflexivity]|tauto]. Qed.

(** Only the order of the table has changed. *)
Lemma table_ok_perm m h :
  table_ok m -> hash_wf h -> pairs h ≡ₚ pairs (mc_vhash m) ->
  table_ok (set_vhash m h) /\ forall k, rt (set_vhash m h) k = rt m k.
Proof.
  intros [T1 T2 T3 T4] Hh Hp. split.
  - split; cbn; [done| | |].
    + intros k l. rewrite Hp. apply T2.
    + by rewrite Hp.
    + intros l r Hl. rewrite Hp. by eapply T4.
  - intros k. unfold rt. cbn. by rewrite (spec_lookup_perm _ _ k Hp) by apply Hh.
Qed.

(** ** Reference counts *)
Definition owned (routes : gmap Z multi_route) (i : Z) : Z :=
  Z.of_nat (size (filter (fun p => mr_instance p.2 = i) routes)).

Definition mine (r : multi_route) (i : Z) : Z := if decide (mr_instance r = i) then 1 else 0.

Lemma owned_insert routes l r i : routes !! l = None -> owned (<[l := r]> routes) i = owned routes i + mine r i.
Proof.
  intros Hl. unfold owned, mine. case_decide as E.
  - rewrite map_filter_insert_True by done. rewrite map_size_insert_None; [lia|].
    apply map_lookup_filter_None. by left.
  - rewrite map_filter_insert_not'; [lia|done|congruence].
Qed.
Lemma owned_delete routes l r i : routes !! l = Some r -> owned (delete l routes) i = owned routes i - mine r i.
Proof.
  intros Hl. rewrite <- (insert_delete_id routes l r Hl) at 2.
  rewrite owned_insert by apply lookup_delete_eq. lia.
Qed.
Lemma owned_nonneg routes i : 0 <= owned routes i.
Proof. unfold owned. lia. Qed.
Lemma owned_pos routes l r : routes !! l = Some r -> 0 < owned routes (mr_instance r).
Proof.
  intros Hl. pose proof (owned_delete routes l r (mr_instance r) Hl) as H.
  unfold mine in H. rewrite decide_True in H by done. pose proof (owned_nonneg (delete l routes) (mr_instance r)). lia.
Qed.

(** One reference per route, and one for the life of the client. *)
Record inst_ok (routes : gmap Z multi_route) (i : Z) (mi : multi_instance) : Prop := {
  io_count : mi_route_count mi = owned routes i;
  io_ref : mi_refcount mi = mi_route_count mi + (if mi_halt mi then 0 else 1);
  io_pos : 0 < mi_refcount mi;
  io_max : 0 <= mi_max_routes mi < INT_MAX;
  io_quota : mi_route_count mi <= mi_max_routes mi
}.
Record counts_ok (insts : gmap Z multi_instance) (routes : gmap Z multi_route) : Prop := {
  ck_inst : forall i mi, insts !! i = Some mi -> inst_ok routes i mi;
  ck_route : forall l r, routes !! l = Some r -> is_Some (insts !! mr_instance r)
}.

Lemma mine_self r : mine r (mr_instance r) = 1.
Proof. unfold mine. by rewrite decide_True. Qed.
Lemma mine_other r i : i <> mr_instance r -> mine r i = 0.
Proof. intros. unfold mine. by rewrite decide_False. Qed.

(** What does not change when a reference is taken or dropped; an instance disappears
    only when its client is gone. *)
Definition static (mi : multi_instance) := (mi_halt mi, mi_did_iroutes mi, mi_max_routes mi, mi_iroutes mi, mi_iroutes_ipv6 mi).
Definition same_clients (insts insts' : gmap Z multi_instance) : Prop := forall i,
  match insts !! i, insts' !! i with
  | Some a, Some b => static a = static b
  | Some a, None => mi_halt a = true
  | None, None => True
  | None, Some _ => False
  end.

#[export] Instance same_clients_preorder : PreOrder same_clients.
Proof.
  split.
  - intros a i. by destruct (a !! i).
  - intros a b c H1 H2 i. specialize (H1 i). specialize (H2 i).
    destruct (a !! i), (b !! i), (c !! i); try done; [congruence|]. unfold static in H1. congruence.
Qed.

Lemma same_clients_insert insts i a b :
  insts !! i = Some a -> static a = static b -> same_clients insts (<[i := b]> insts).
Proof.
  intros Ha Hs j. destruct (decide (j = i)) as [->|]; [by rewrite Ha, lookup_insert_eq|].
  rewrite lookup_insert_ne by done. by destruct (insts !! j).
Qed.
Lemma same_clients_delete insts i a : insts !! i = Some a -> mi_halt a = true -> same_clients insts (delete i insts).
Proof.
  intros Ha Hs j. destruct (decide (j = i)) as [->|]; [by rewrite Ha, lookup_delete_eq|].
  rewrite lookup_delete_ne by done. by destruct (insts !! j).
Qed.

(** A reference for a new route. *)
Lemma acquire_spec m i mi l r :
  counts_ok (mc_instances m) (mc_routes m) -> mc_instances m !! i = Some mi -> mi_halt mi = false ->
  mi_route_count mi < mi_max_routes mi -> mc_routes m !! l = None -> mr_instance r = i ->
  let mi' := with_counts mi (mi_refcount mi + 1) (mi_route_count mi + 1) in
  (let! m1 := multi_instance_inc_refcount (set_routes m (<[l := r]> (mc_routes m))) i in route_quota_inc m1 i)
  = Ret (set_instances (set_routes m (<[l := r]> (mc_routes m))) (<[i := mi']> (mc_instances m)))
  /\ counts_ok (<[i := mi']> (mc_instances m)) (<[l := r]> (mc_routes m))
  /\ same_clients (mc_instances m) (<[i := mi']> (mc_instances m)).
Proof.
  intros [C1 C2] Hi Hh Hq Hl <- mi'. pose proof (C1 _ _ Hi) as [K1 K2 K3 K4 K5]. rewrite Hh in K2.
  pose proof (owned_nonneg (mc_routes m) (mr_instance r)). split_and!.
  - unfold multi_instance_inc_refcount, route_quota_inc, deref. cbn. rewrite Hi. cbn [res_bind].
    rewrite c_int_ok by (unfold is_int, INT_MIN, INT_MAX in *; lia). cbn. rewrite lookup_insert_eq. cbn [res_bind].
    rewrite c_int_ok by (cbn; unfold is_int, INT_MIN, INT_MAX in *; lia). cbn. rewrite insert_insert_eq. done.
  - split.
    + intros j mj. destruct (decide (j = mr_instance r)) as [->|Hne].
      * rewrite lookup_insert_eq. intros [= <-]. split; cbn; rewrite ?owned_insert, ?mine_self, ?Hh by done; lia.
      * rewrite lookup_insert_ne by done. intros Hj. destruct (C1 _ _ Hj) as [? ? ? ? ?].
        split; try done. by rewrite owned_insert, mine_other, Z.add_0_r.
    + intros l' r' [[<- <-]|[Hne Hl']]%lookup_insert_Some; [by rewrite lookup_insert_eq|].
      rewrite lookup_insert_is_Some'. right. by eapply C2.
  - by eapply same_clients_insert.
Qed.

(** Dropping the reference of a route that is deleted. *)
Lemma route_del_spec m l r :
  counts_ok (mc_instances m) (mc_routes m) -> mc_routes m !! l = Some r ->
  exists insts, multi_route_del m l = Ret (set_routes (set_instances m insts) (delete l (mc_routes m)))
    /\ counts_ok insts (delete l (mc_routes m)) /\ same_clients (mc_instances m) insts.
Proof.
  intros [C1 C2] Hl. destruct (C2 _ _ Hl) as [mi Hi]. pose proof (C1 _ _ Hi) as [K1 K2 K3 K4 K5].
  pose proof (owned_pos _ _ _ Hl) as Hpos. set (i := mr_instance r) in *.
  set (mi' := with_counts mi (mi_refcount mi - 1) (mi_route_count mi - 1)).
  unfold multi_route_del, deref. rewrite Hl. cbn [res_bind]. unfold route_quota_dec, deref. fold i. rewrite Hi. cbn [res_bind].
  rewrite c_int_ok by (unfold is_int, INT_MIN, INT_MAX in *; lia). cbn [res_bind].
  unfold multi_instance_dec_refcount, deref. cbn [mc_instances set_instances]. rewrite lookup_insert_eq. cbn.
  assert (mi_refcount mi <= mi_max_routes mi + 1) by (destruct (mi_halt mi); lia).
  rewrite c_int_ok by (unfold is_int, INT_MIN, INT_MAX in *; lia). cbn [res_bind].
  assert (Hother : forall j mj, j <> i -> mc_instances m !! j = Some mj -> inst_ok (delete l (mc_routes m)) j mj).
  { intros j mj Hne Hj. destruct (C1 _ _ Hj) as [? ? ? ? ?]. split; try done.
    rewrite (owned_delete _ _ r) by done. rewrite mine_other by done. lia. }
  destruct (Z.leb_spec (mi_refcount mi - 1) 0) as [Hz|Hz].
  - assert (Hh : mi_halt mi = true) by (destruct (mi_halt mi); [done|lia]). rewrite Hh in K2.
    eexists. split; [reflexivity|]. rewrite delete_insert_eq. split; [|by eapply same_clients_delete]. split.
    + intros j mj [Hne Hj]%lookup_delete_Some. apply Hother; [done|done].
    + intros l' r' [Hne Hl']%lookup_delete_Some. destruct (C2 _ _ Hl') as [mj Hj].
      destruct (decide (mr_instance r' = i)) as [E|Hne']; [exfalso|exists mj; by rewrite lookup_delete_ne].
      pose proof (owned_pos (delete l (mc_routes m)) l' r') as Hp.
      rewrite lookup_delete_ne in Hp by done. specialize (Hp Hl'). rewrite E, (owned_delete _ _ r), mine_self in Hp by done.
      fold i in Hp. lia.
  - eexists. split; [reflexivity|]. rewrite insert_insert_eq. split; [|by eapply same_clients_insert]. split.
    + intros j mj. destruct (decide (j = i)) as [->|Hne].
      * rewrite lookup_insert_eq. intros [= <-]. split; cbn; try lia.
        rewrite (owned_delete _ _ r) by done. fold i. unfold i. rewrite mine_self. fold i. lia.
      * rewrite lookup_insert_ne by done. by apply Hother.
    + intros l' r' [Hne Hl']%lookup_delete_Some. rewrite lookup_insert_is_Some'. right. by eapply C2.
Qed.

(** ** Which routes count *)
Definition is_cached (r : multi_route) : bool := negb (Z.land (mr_flags r) MULTI_ROUTE_CACHE =? 0).
Definition is_ageable (r : multi_route) : bool := negb (Z.land (mr_flags r) MULTI_ROUTE_AGEABLE =? 0).
Definition live (insts : gmap Z multi_instance) (r : multi_route) : Prop :=
  exists mi, insts !! mr_instance r = Some mi /\ mi_halt mi = false.
Definition liveb (insts : gmap Z multi_instance) (r : multi_route) : bool :=
  match insts !! mr_instance r with Some mi => negb (mi_halt mi) | None => false end.
Definition defined (now : Z) (m : multi_context) (r : multi_route) : bool :=
  liveb (mc_instances m) r
  && negb (is_cached r && negb (mr_cache_generation r =? cache_generation (mc_helper m)))
  && negb (is_ageable r && (mr_last_reference r + ageable_ttl_secs (mc_helper m) <? now)).
Definition owner_at (now : Z) (m : multi_context) (k : mroute_addr) : option Z :=
  r ← rt m k; if defined now m r then Some (mr_instance r) else None.

Lemma liveb_spec insts r : liveb insts r = true <-> live insts r.
Proof.
  unfold liveb, live. destruct (insts !! mr_instance r) as [mi|]; [|naive_solver].
  destruct (mi_halt mi) eqn:E; naive_solver.
Qed.
Lemma live_same insts insts' r : same_clients insts insts' -> (live insts r <-> live insts' r).
Proof.
  intros Hs. specialize (Hs (mr_instance r)). unfold live, static in *.
  destruct (insts !! mr_instance r) as [a|], (insts' !! mr_instance r) as [b|]; try done;
    split; intros (mi & [= ->] & Hh); try congruence.
  - exists b. split; [done|congruence].
  - exists a. split; [done|congruence].
Qed.
Lemma liveb_same insts insts' r : same_clients insts insts' -> liveb insts r = liveb insts' r.
Proof. intros Hs. apply eq_true_iff_eq. rewrite !liveb_spec. by apply live_same. Qed.

Lemma defined_spec now m r :
  is_Some (mc_instances m !! mr_instance r) -> multi_route_defined now m r = Ret (defined now m r).
Proof.
  intros [mi Hi]. unfold multi_route_defined, defined, liveb, deref, is_cached, is_ageable. rewrite Hi. cbn [res_bind].
  destruct (mi_halt mi); [done|]. cbn [negb andb].
  destruct (_ && negb (mr_cache_generation r =? _)); [done|]. by destruct (_ && (_ <? now)).
Qed.

Record ok (m : multi_context) : Prop := {
  ok_table : table_ok m;
  ok_counts : counts_ok (mc_instances m) (mc_routes m)
}.

Lemma has_inst m r : ok m -> has m r -> is_Some (mc_instances m !! mr_instance r).
Proof. intros [_ [_ C2]] [l Hl]. by eapply C2. Qed.

Lemma route_owner_spec now m k :
  ok m -> route_owner now m (spec_lookup (pairs (mc_vhash m)) k) = Ret (owner_at now m k).
Proof.
  intros Hok. unfold owner_at, rt. destruct (spec_lookup _ k) as [l|] eqn:E; cbn; [|done].
  apply spec_lookup_spec in E as (k' & _ & Hin); [|apply Hok].
  destruct (tk_route _ (ok_table _ Hok) _ _ Hin) as (r & Hr & _).
  unfold deref. rewrite Hr. cbn. rewrite defined_spec by (apply (has_inst m r Hok); by exists l). done.
Qed.

(** What the operations leave alone. *)
Definition frame (m m' : multi_context) : Prop :=
  mc_helper m' = mc_helper m /\ mc_local m' = mc_local m /\ mc_dev_type m' = mc_dev_type m
  /\ mc_stale_ageing_time m' = mc_stale_ageing_time m /\ same_clients (mc_instances m) (mc_instances m').

#[export] Instance frame_preorder : PreOrder frame.
Proof.
  split; [by intros m|]. intros a b c (A1 & A2 & A3 & A4 & A5) (B1 & B2 & B3 & B4 & B5).
  unfold frame. split_and!; try congruence. by transitivity (mc_instances b).
Qed.

Lemma defined_frame now m m' r : frame m m' -> defined now m' r = defined now m r.
Proof. intros (Hh & _ & _ & _ & Hs). unfold defined. by rewrite Hh, (liveb_same _ _ r Hs). Qed.
Lemma owner_at_frame now m m' k : frame m m' -> rt m' k = rt m k -> owner_at now m' k = owner_at now m k.
Proof. intros Hf Hr. unfold owner_at. rewrite Hr. destruct (rt m k); cbn; [|done]. by rewrite (defined_frame now m m'). Qed.

(** The table after an entry has been added for a key that had none, or replaced. *)
Lemma rt_add m m' l r (rest : list (mroute_addr * Z)) :
  table_ok m -> hash_wf (mc_vhash m') -> (l ∉ (pairs (mc_vhash m)).*2) ->
  pairs (mc_vhash m') ≡ₚ (mr_addr r, l) :: rest ->
  (forall k l', (k, l') ∈ rest <-> (k, l') ∈ pairs (mc_vhash m) /\ ~ keq (mr_addr r) k) ->
  NoDup rest.*2 ->
  (forall l', mc_routes m' !! l' = if decide (l' = l) then Some r
              else if decide (l' ∈ rest.*2) then mc_routes m !! l' else None) ->
  table_ok m' /\ forall k, rt m' k = if compare_function (mr_addr r) k then Some r else rt m k.
Proof.
  intros Ht Hw Hl Hp Hrest Hnd Hr.
  assert (Hlr : l ∉ rest.*2).
  { intros ([k l'] & -> & Hin)%list_elem_of_fmap. apply Hrest in Hin as [Hin _]. apply Hl.
    apply list_elem_of_fmap. by exists (k, l'). }
  assert (Hold : forall k l', (k, l') ∈ rest -> mc_routes m' !! l' = mc_routes m !! l').
  { intros k l' Hin. assert (l' ∈ rest.*2) by (apply list_elem_of_fmap; by exists (k, l')).
    rewrite Hr, decide_False by (intros ->; done). by rewrite decide_True. }
  assert (Ht' : table_ok m').
  { split; [done| | |].
    - intros k l'. rewrite Hp. intros [[= -> ->]|Hin]%elem_of_cons; [exists r; by rewrite Hr, decide_True|].
      rewrite (Hold _ _ Hin). apply (tk_route _ Ht). by apply Hrest in Hin as [? _].
    - rewrite Hp. cbn. by constructor.
    - intros l' r'. rewrite Hp, Hr. cbn. destruct (decide (l' = l)) as [->|]; [left|].
      destruct (decide (l' ∈ rest.*2)); [by right|done]. }
  split; [exact Ht'|]. intros k. destruct (compare_function (mr_addr r) k) eqn:E.
  - apply rt_Some; [done|]. split; [exists l; by rewrite Hr, decide_True|]. by apply compare_sym.
  - apply option_eq. intros r'. rewrite !rt_Some by done. split; intros [[l' Hl'] Hk].
    + split; [|done]. rewrite Hr in Hl'. destruct (decide (l' = l)) as [->|].
      * injection Hl' as <-. apply compare_sym in Hk. congruence.
      * destruct (decide (l' ∈ rest.*2)); [by exists l'|done].
    + split; [|done]. exists l'. assert (Hin : (mr_addr r', l') ∈ rest).
      { apply Hrest. split; [by apply route_pair|]. intros Hk'. assert (keq (mr_addr r) k) by (by rewrite Hk). congruence. }
      by rewrite (Hold _ _ Hin).
Qed.

(** A new location, and the entry of an equal key given to it. *)
Lemma rt_update m m' l old k r rest :
  table_ok m -> mc_routes m !! l = None -> pairs (mc_vhash m) ≡ₚ (k, old) :: rest -> keq (mr_addr r) k ->
  hash_wf (mc_vhash m') -> pairs (mc_vhash m') ≡ₚ (mr_addr r, l) :: rest ->
  mc_routes m' = delete old (<[l := r]> (mc_routes m)) ->
  table_ok m' /\ forall k', rt m' k' = if compare_function (mr_addr r) k' then Some r else rt m k'.
Proof.
  intros Ht Hl Hp Hk Hw Hp' Hr. pose proof (tk_locs _ Ht) as Hnd. rewrite Hp in Hnd. cbn in Hnd.
  apply NoDup_cons in Hnd as [Hno Hnd].
  pose proof (uniq_perm _ _ Hp (hw_uniq _ (tk_hash _ Ht))) as [Hf _]%uniq_cons. rewrite Forall_forall in Hf.
  assert (Hin : forall l', is_Some (mc_routes m !! l') <-> l' ∈ old :: rest.*2).
  { intros l'. transitivity (l' ∈ (pairs (mc_vhash m)).*2); [|by rewrite Hp]. split.
    - intros [r' Hr']. by eapply tk_dom.
    - intros ([k1 l1] & -> & H1)%list_elem_of_fmap. destruct (tk_route _ Ht _ _ H1) as (r' & Hr' & _). by exists r'. }
  assert (Hlnew : l ∉ old :: rest.*2) by (rewrite <- Hin, Hl; by intros []).
  apply (rt_add m m' l r rest); try done.
  - rewrite Hp. exact Hlnew.
  - intros k1 l1. rewrite Hp, elem_of_cons. split.
    + intros H1. split; [by right|]. intros Hk1. apply (Hf _ H1). cbn. transitivity (mr_addr r); [by symmetry|done].
    + intros [[[= -> ->]|?] Hn]; [by destruct (Hn Hk)|done].
  - intros l'. rewrite Hr. apply not_elem_of_cons in Hlnew as [Hlo Hlr]. destruct (decide (l' = l)) as [->|Hne].
    + by rewrite lookup_delete_ne, lookup_insert_eq by done.
    + destruct (decide (l' ∈ rest.*2)) as [Hi|Hi].
      * rewrite lookup_delete_ne by (intros <-; done). by rewrite lookup_insert_ne by done.
      * destruct (decide (l' = old)) as [->|]; [apply lookup_delete_eq|].
        rewrite lookup_delete_ne, lookup_insert_ne by done. apply eq_None_not_Some.
        rewrite Hin, elem_of_cons. tauto.
Qed.

Lemma rt_new m m' l r :
  table_ok m -> mc_routes m !! l = None ->
  Forall (fun p => compare_function (mr_addr r) p.1 = false) (pairs (mc_vhash m)) ->
  hash_wf (mc_vhash m') -> pairs (mc_vhash m') ≡ₚ (mr_addr r, l) :: pairs (mc_vhash m) ->
  mc_routes m' = <[l := r]> (mc_routes m) ->
  table_ok m' /\ forall k', rt m' k' = if compare_function (mr_addr r) k' then Some r else rt m k'.
Proof.
  intros Ht Hl Hno Hw Hp' Hr. rewrite Forall_forall in Hno.
  apply (rt_add m m' l r (pairs (mc_vhash m))); [done|done| |done| |apply Ht|].
  - intros ([k1 l1] & -> & H1)%list_elem_of_fmap. destruct (tk_route _ Ht _ _ H1) as (r' & Hr' & _). cbn in *. congruence.
  - intros k1 l1. split; [|tauto]. intros H1. split; [done|]. specialize (Hno _ H1). cbn [fst] in Hno. unfold keq. congruence.
  - intros l'. rewrite Hr. destruct (decide (l' = l)) as [->|Hne]; [by rewrite lookup_insert_eq|].
    rewrite lookup_insert_ne by done. case_decide as Hi; [done|]. apply eq_None_not_Some. intros [r' Hr'].
    apply Hi. by eapply tk_dom.
Qed.

(** ** Learning *)
Section Learn.
Context (now : Z) (script : option Z -> learn_op -> mroute_addr -> bool).

Definition learnable (addr : mroute_addr) : bool :=
  match mroute_learnable_address addr with Ret b => b | _ => false end.
Definition new_route (m : multi_context) (i : Z) (addr : mroute_addr) (flags : Z) : multi_route :=
  mk_route addr i flags
    (if negb (Z.land flags MULTI_ROUTE_CACHE =? 0) then cache_generation (mc_helper m) else 0) now.

(** Whether an address is entered into the table for instance [i]. *)
Definition learns (m : multi_context) (i : Z) (addr : mroute_addr) : bool :=
  negb (bool_decide (owner_at now m addr = Some i))
  && (learnable addr && negb (mroute_addr_equal addr (mc_local m)))
  && (match mc_instances m !! i with Some mi => mi_route_count mi <? mi_max_routes mi | None => false end
      && script (Some i) (match rt m addr with Some _ => LearnUpdate | None => LearnAdd end) addr).

Lemma learnable_spec addr :
  0 <= ma_len addr <= Zlen (raw_addr addr) -> mroute_learnable_address addr = Ret (learnable addr).
Proof.
  intros H. unfold learnable, mroute_learnable_address. rewrite mem_read_ok by lia. cbn [res_bind].
  destruct (_ && _); [done|]. destruct (forallb _ _); [done|]. by destruct (is_mac_mcast_maddr addr).
Qed.

Lemma allowed_spec m i mi op addr :
  mc_instances m !! i = Some mi ->
  learn_allowed script m i op addr = Ret ((mi_route_count mi <? mi_max_routes mi) && script (Some i) op addr).
Proof.
  intros Hi. unfold learn_allowed, route_quota_test, deref. rewrite Hi. cbn [res_bind].
  by destruct (Z.leb_spec (mi_max_routes mi) (mi_route_count mi)), (Z.ltb_spec (mi_route_count mi) (mi_max_routes mi)); try lia.
Qed.

(** The state after a learn, in terms of the table as a function. *)
Definition learned (m m' : multi_context) (i : Z) (addr : mroute_addr) (flags : Z) : Prop :=
  ok m' /\ frame m m' /\
  forall k, rt m' k = if learns m i addr && compare_function addr k then Some (new_route m i addr flags) else rt m k.

Lemma learned_unchanged m h i addr flags :
  ok m -> hash_wf h -> pairs h ≡ₚ pairs (mc_vhash m) -> learns m i addr = false ->
  learned m (set_vhash m h) i addr flags.
Proof.
  intros [Ht Hc] Hh Hp Hl. destruct (table_ok_perm m h Ht Hh Hp) as [Ht' Hrt].
  split; [by split|]. split; [by split_and!|]. intros k. by rewrite Hl, Hrt.
Qed.

Lemma routes_fresh (routes : gmap Z multi_route) : routes !! fresh (dom routes) = None.
Proof. apply not_elem_of_dom. apply is_fresh. Qed.

Lemma learn_update m h i mi addr flags e tl k j :
  ok m -> hash_wf h -> pairs h ≡ₚ pairs (mc_vhash m) -> buckets h !! j = Some (e :: tl) -> he_key e = Some k ->
  keq addr k -> mc_instances m !! i = Some mi -> mi_halt mi = false -> mi_route_count mi < mi_max_routes mi ->
  learns m i addr = true ->
  let r := new_route m i addr flags in
  let l := fresh (dom (mc_routes m)) in
  exists m',
    (let! m1 := multi_instance_inc_refcount (set_routes (set_vhash m h) (<[l := r]> (mc_routes m))) i in
     let! m1 := route_quota_inc m1 i in
     let! m1 := multi_route_del m1 (he_value e) in
     let! h1 := set_bucket (mc_vhash m1) (Z.of_nat j) (mk_he l (Some addr) (he_hash_value e) :: tl) in
     Ret (Some i, set_vhash m1 h1)) = Ret (Some i, m') /\ learned m m' i addr flags.
Proof.
  intros Hok Hh Hp Hb Hk Heq Hi Hhalt Hq Hls r l. destruct (table_ok_perm m h (ok_table _ Hok) Hh Hp) as [Ht Hrt].
  pose proof (routes_fresh (mc_routes m)) as Hfr. fold l in Hfr.
  destruct (acquire_spec (set_vhash m h) i mi l r (ok_counts _ Hok) Hi Hhalt Hq Hfr eq_refl) as (Ha & Hc & Hs).
  cbn [mc_instances mc_routes set_vhash] in Ha, Hc, Hs. rewrite <- res_bind_assoc, Ha. cbn [res_bind].
  destruct (replace_head h j e tl k addr l Hh Hb Hk Heq) as (h' & rest & Hset & Hw & Hp1 & Hp2).
  assert (Hin : (k, he_value e) ∈ pairs h) by (rewrite Hp1; left).
  destruct (tk_route _ Ht _ _ Hin) as (ro & Hro & Hka). cbn [mc_routes set_vhash] in Hro.
  set (m1 := set_instances (set_routes (set_vhash m h) (<[l:=r]> (mc_routes m))) _).
  assert (Hne : he_value e <> l) by (intros E; rewrite E in Hro; congruence).
  destruct (route_del_spec m1 (he_value e) ro Hc) as (insts & Hd & Hc' & Hs');
    [cbn; by rewrite lookup_insert_ne|].
  rewrite Hd. cbn [res_bind]. cbn [mc_vhash set_routes set_instances set_vhash m1]. rewrite Hset. cbn [res_bind].
  eexists. split; [reflexivity|].
  match goal with |- learned _ ?m2 _ _ _ =>
    destruct (rt_update (set_vhash m h) m2 l (he_value e) k r rest Ht Hfr Hp1 Heq Hw Hp2 eq_refl) as [Ht2 Hrt2] end.
  split; [by split|]. split.
  - split_and!; try done. cbn. etransitivity; [exact Hs|exact Hs'].
  - intros k'. rewrite Hls, Hrt2, Hrt. done.
Qed.

Lemma learn_add m h i mi addr flags j :
  ok m -> hash_wf h -> pairs h ≡ₚ pairs (mc_vhash m) -> hmask h = hmask (mc_vhash m) -> hiv h = hiv (mc_vhash m) ->
  hash_bucket (mc_vhash m) (hash_value (mc_vhash m) addr) = Z.of_nat j ->
  Forall (fun p => compare_function addr p.1 = false) (pairs (mc_vhash m)) ->
  mc_instances m !! i = Some mi -> mi_halt mi = false -> mi_route_count mi < mi_max_routes mi ->
  learns m i addr = true ->
  let r := new_route m i addr flags in
  let l := fresh (dom (mc_routes m)) in
  exists m',
    (let! m1 := multi_instance_inc_refcount (set_routes (set_vhash m h) (<[l := r]> (mc_routes m))) i in
     let! m1 := route_quota_inc m1 i in
     let! h1 := hash_add_fast (mc_vhash m1) (Z.of_nat j) addr (hash_value (mc_vhash m) addr) l in
     Ret (Some i, set_vhash m1 h1)) = Ret (Some i, m') /\ learned m m' i addr flags.
Proof.
  intros Hok Hh Hp Hm Hiv Hj Hno Hi Hhalt Hq Hls r l.
  destruct (table_ok_perm m h (ok_table _ Hok) Hh Hp) as [Ht Hrt].
  pose proof (routes_fresh (mc_routes m)) as Hfr. fold l in Hfr.
  destruct (acquire_spec (set_vhash m h) i mi l r (ok_counts _ Hok) Hi Hhalt Hq Hfr eq_refl) as (Ha & Hc & Hs).
  cbn [mc_instances mc_routes set_vhash] in Ha, Hc, Hs. rewrite <- res_bind_assoc, Ha. cbn [res_bind].
  cbn [mc_vhash set_routes set_instances set_vhash].
  assert (Hv : hash_value (mc_vhash m) addr = hash_value h addr) by (unfold hash_value; by rewrite Hiv).
  assert (Hno' : Forall (fun p => compare_function addr p.1 = false) (pairs h)) by (by rewrite Hp).
  rewrite Hv in Hj |- *. destruct (hash_add_fast_spec h j addr l Hh) as (h' & -> & Hw & Hp'); [|done|].
  { unfold hash_bucket in *. by rewrite Hm. }
  cbn [res_bind]. eexists. split; [reflexivity|].
  match goal with |- learned _ ?m2 _ _ _ =>
    destruct (rt_new (set_vhash m h) m2 l r Ht Hfr Hno' Hw Hp' eq_refl) as [Ht2 Hrt2] end.
  split; [by split|]. split; [by split_and!|]. intros k'. rewrite Hls, Hrt2, Hrt. done.
Qed.

Lemma learn_spec m i mi addr flags :
  ok m -> mc_instances m !! i = Some mi -> mi_halt mi = false -> 0 <= ma_len addr <= Zlen (raw_addr addr) ->
  exists m', multi_learn_addr now script m i addr flags
      = Ret (if learns m i addr then Some i else owner_at now m addr, m')
    /\ learned m m' i addr flags.
Proof.
  intros Hok Hi Hhalt Hlen. destruct (lookup_fast_spec (mc_vhash m) addr (tk_hash _ (ok_table _ Hok)))
    as (j & b & he & b' & h & Hj & Hg & Hf & Hset & Hw & Hp & Hm & Hiv & Hb & Hv & Hcase).
  destruct (table_ok_perm m h (ok_table _ Hok) Hw Hp) as [Ht Hrt].
  assert (Hok' : ok (set_vhash m h)) by (split; [exact Ht|apply Hok]).
  unfold multi_learn_addr. rewrite Hj, Hg. cbn [res_bind]. rewrite Hf. cbn [res_bind]. rewrite Hset. cbn [res_bind].
  assert (Ho : route_owner now (set_vhash m h) (he_value <$> he) = Ret (owner_at now m addr)).
  { rewrite Hv, <- (spec_lookup_perm _ _ addr Hp) by apply Hw.
    etransitivity; [exact (route_owner_spec now (set_vhash m h) addr Hok')|]. f_equal. by apply owner_at_frame. }
  rewrite Ho. cbn [res_bind].
  assert (Hkeep : learns m i addr = false -> exists m', Ret (owner_at now m addr, set_vhash m h)
      = Ret (if learns m i addr then Some i else owner_at now m addr, m') /\ learned m m' i addr flags).
  { intros E. exists (set_vhash m h). rewrite E. split; [done|by apply learned_unchanged]. }
  assert (Hop : match rt m addr with Some _ => LearnUpdate | None => LearnAdd end
                = match he with Some _ => LearnUpdate | None => LearnAdd end).
  { unfold rt. rewrite <- Hv. destruct he as [e|]; [|done]. cbn. symmetry in Hv.
    apply spec_lookup_spec in Hv as (k' & _ & Hin); [|apply Hok].
    by destruct (tk_route _ (ok_table _ Hok) _ _ Hin) as (r & -> & _). }
  destruct (bool_decide (owner_at now m addr = Some i)) eqn:Eo; [apply Hkeep; unfold learns; by rewrite Eo|].
  rewrite learnable_spec by done. cbn [res_bind]. change (mc_local (set_vhash m h)) with (mc_local m).
  destruct (learnable addr && negb (mroute_addr_equal addr (mc_local m))) eqn:El;
    [|apply Hkeep; unfold learns; by rewrite Eo, El].
  set (op := match he with Some _ => LearnUpdate | None => LearnAdd end) in Hop.
  assert (Hlearns : learns m i addr = (mi_route_count mi <? mi_max_routes mi) && script (Some i) op addr)
    by (unfold learns; by rewrite Eo, El, Hi, Hop).
  destruct he as [e|]; cbn [fmap option_fmap option_map]; rewrite (allowed_spec _ i mi) by done; cbn [res_bind];
    fold op; rewrite <- Hlearns; destruct (learns m i addr) eqn:E; cbn [mc_routes set_routes set_vhash];
    try (rewrite delete_insert_id by apply routes_fresh; exact (Hkeep eq_refl)).
  - destruct Hcase as (k & tl & -> & Hk & Heq). symmetry in Hlearns. apply andb_true_iff in Hlearns as [Hq%Z.ltb_lt _].
    by apply (learn_update m h i mi addr flags e tl k j).
  - symmetry in Hlearns. apply andb_true_iff in Hlearns as [Hq%Z.ltb_lt _].
    by apply (learn_add m h i mi addr flags j).
Qed.
End Learn.

(** ** Keys *)
Definition raw_ok (k : mroute_addr) : Prop := bytes_ok (raw_addr k) /\ length (raw_addr k) = 20%nat.
Definition host_key (k : mroute_addr) : Prop :=
  raw_ok k /\ ma_proto k = 0 /\ ma_netbits k = 0 /\
  ((ma_type k = MR_ADDR_IPV4 /\ ma_len k = 4) \/ (ma_type k = MR_ADDR_IPV6 /\ ma_len k = 16)).
Definition net_key (k : mroute_addr) : Prop :=
  raw_ok k /\ ma_proto k = 0 /\ 0 <= ma_netbits k <= 8 * ma_len k /\
  ((ma_type k = Z.lor MR_ADDR_IPV4 MR_WITH_NETBITS /\ ma_len k = 4) \/
   (ma_type k = Z.lor MR_ADDR_IPV6 MR_WITH_NETBITS /\ ma_len k = 16)).
Definition ether_key (k : mroute_addr) : Prop :=
  raw_ok k /\ ma_proto k = 0 /\ ma_netbits k = 0 /\ ma_type k = MR_ADDR_ETHER /\ ma_len k = 8.
Definition key_ok (k : mroute_addr) : Prop := host_key k \/ net_key k \/ ether_key k.

(** The network [k] contains the host [addr]. *)
Definition covers (k addr : mroute_addr) : Prop :=
  net_key k /\ ma_type k = Z.lor (ma_type addr) MR_WITH_NETBITS /\
  addr_value k = clear_low (addr_value addr) (8 * ma_len addr - ma_netbits k).

Lemma key_raw k : key_ok k -> raw_ok k /\ 0 <= ma_len k <= Zlen (raw_addr k).
Proof.
  intros Hk. assert (H : raw_ok k /\ 0 <= ma_len k <= 20); [|destruct H as [[H1 H2] H3]; split; [done|unfold Zlen; lia]].
  destruct Hk as [(Hr & _ & _ & [[_ E]|[_ E]])|[(Hr & _ & _ & [[_ E]|[_ E]])|(Hr & _ & _ & _ & E)]];
    rewrite E; split; (done || lia).
Qed.

Lemma key_net k : key_ok k -> ma_type k = Z.lor MR_ADDR_IPV4 MR_WITH_NETBITS \/
  ma_type k = Z.lor MR_ADDR_IPV6 MR_WITH_NETBITS -> net_key k.
Proof.
  intros [(_ & _ & _ & [[E _]|[E _]])|[Hd|(_ & _ & _ & E & _)]] [H|H]; try done; rewrite E in H; done.
Qed.

Lemma keq_fields k k' :
  keq k k' <-> ma_type k = ma_type k' /\ ma_len k = ma_len k' /\ ma_proto k = ma_proto k' /\
    ma_netbits k = ma_netbits k' /\ take (Z.to_nat (ma_len k)) (raw_addr k) = take (Z.to_nat (ma_len k')) (raw_addr k').
Proof.
  unfold keq. cbn. unfold mroute_addr_compare_function. rewrite mroute_addr_equal_true.
  unfold mroute_addr_hash_bytes. split; [intros (H1 & H2 & [= H3 _ H4 H5]); auto|].
  intros (H1 & H2 & H3 & H4 & H5). split_and!; [done|done|]. by rewrite H1, H3, H4, H5.
Qed.

Lemma value_eq k k' :
  raw_ok k -> raw_ok k' -> ma_len k = ma_len k' -> 0 <= ma_len k <= 20 ->
  (addr_value k = addr_value k' <->
   take (Z.to_nat (ma_len k)) (raw_addr k) = take (Z.to_nat (ma_len k')) (raw_addr k')).
Proof.
  intros [H1 L1] [H2 L2] El Hl. unfold addr_value. rewrite <- El. split; [|by intros ->]. intros E.
  rewrite <- (be_bytes_val (take _ (raw_addr k))), <- (be_bytes_val (take _ (raw_addr k'))) by (by apply Forall_take).
  rewrite E, !length_take, L1, L2. done.
Qed.

(** The key tried for one prefix length is that of the network of this length
    around the address, whichever routes exist. *)
Lemma try_match addr n :
  host_key addr -> 0 <= n < 129 ->
  exists t, mroute_addr_mask_host_bits (with_netbits addr n) = Ret t /\
    forall k, key_ok k -> (keq t k <-> covers k addr /\ ma_netbits k = n).
Proof.
  intros ([Hb Hl] & Hp & Hn0 & Hty) Hn.
  assert (Hlen : ma_len addr = 4 \/ ma_len addr = 16) by tauto.
  destruct (decide (n <= 8 * ma_len addr)) as [Hle|Hgt].
  - destruct (mask_host_bits_spec (with_netbits addr n)) as (raw & Hm & L & B & V & _).
    { split_and!; try done; cbn; try lia. destruct Hty as [[-> ->]|[-> ->]]; [left|right]; done. }
    exists (set_raw (with_netbits addr n) raw). split; [exact Hm|]. intros k Hk. rewrite keq_fields.
    cbn [ma_type ma_len ma_proto ma_netbits set_raw with_netbits raw_addr] in *.
    assert (Ho : raw_ok (set_raw (with_netbits addr n) raw)) by (split; [done|cbn in *; lia]). split.
    + intros (E1 & E2 & E3 & E4 & E5). assert (Hnk : net_key k).
      { apply key_net; [done|]. rewrite <- E1. destruct Hty as [[-> _]|[-> _]]; auto. }
      split; [|done]. split_and!; [done|done|]. rewrite <- E4.
      replace (addr_value addr) with (addr_value (with_netbits addr n)) by done. rewrite <- V. symmetry.
      apply value_eq; [done|apply Hnk|cbn; lia|cbn; lia|done].
    + intros [(Hnk & E1 & E2) E4]. pose proof Hnk as (Hrk & Hpk & _ & Htk).
      assert (E3 : ma_len k = ma_len addr) by (destruct Hty as [[A ->]|[A ->]], Htk as [[A' ->]|[A' ->]]; rewrite A, A' in E1; done).
      split_and!; [congruence|done|congruence|done|]. apply (value_eq (set_raw (with_netbits addr n) raw) k); [done|done|cbn; lia|cbn; lia|].
      rewrite V, E2, E4. done.
  - destruct Hty as [[Ht E4]|[Ht E4]]; [|lia]. unfold mroute_addr_mask_host_bits. cbn [ma_type with_netbits]. rewrite Ht.
    eexists. split; [reflexivity|]. intros k Hk. rewrite keq_fields. cbn [ma_type ma_len ma_proto ma_netbits set_raw with_netbits].
    rewrite Ht, E4. split.
    + intros (E1 & E2 & _ & E5 & _). exfalso. assert (Hnk : net_key k) by (apply key_net; auto).
      destruct Hnk as (_ & _ & Hnb & _). lia.
    + intros [(Hnk & E1 & _) <-]. rewrite Ht in E1. destruct Hnk as (_ & _ & Hnb & [[_ E]|[E _]]); [lia|]. by rewrite E1 in E.
Qed.

(** ** The invariant *)
Definition lens (mi : multi_instance) : list Z := map ir_netbits (mi_iroutes mi) ++ map ir6_netbits (mi_iroutes_ipv6 mi).
Record client_ok (mi : multi_instance) : Prop := {
  co_halt : mi_halt mi = true -> mi_did_iroutes mi = false;
  co_iroutes : Forall (fun ir => 0 <= ir_netbits ir <= 32 /\ is_u32 (ir_network ir)) (mi_iroutes mi);
  co_iroutes6 : Forall (fun ir => 0 <= ir6_netbits ir <= 128 /\ bytes_ok (ir6_network ir)
                                  /\ length (ir6_network ir) = 16%nat) (mi_iroutes_ipv6 mi)
}.

Definition generation (m : multi_context) : Z := cache_generation (mc_helper m).

(** Networks come from the [iroute] options of clients that are still there. *)
Record core (m : multi_context) : Prop := {
  cr_ok : ok m;
  cr_clients : forall i mi, mc_instances m !! i = Some mi -> client_ok mi;
  cr_key : forall r, has m r -> key_ok (mr_addr r);
  cr_flags : forall r, has m r -> mr_flags r = 0 \/
      mr_flags r = Z.lor MULTI_ROUTE_CACHE MULTI_ROUTE_AGEABLE /\ host_key (mr_addr r)
      /\ mr_cache_generation r <= generation m;
  cr_net : forall r mi, has m r -> net_key (mr_addr r) -> mc_instances m !! mr_instance r = Some mi ->
      mi_halt mi = false -> mi_did_iroutes mi = true /\ ma_netbits (mr_addr r) ∈ lens mi;
  cr_gen : is_u32 (generation m)
}.

(** The networks of present clients around a host, and the client of the longest. *)
Definition nets (m : multi_context) (addr : mroute_addr) (r : multi_route) : Prop :=
  has m r /\ live (mc_instances m) r /\ covers (mr_addr r) addr.
Definition best (m : multi_context) (addr : mroute_addr) (j : Z) : Prop :=
  exists r0, nets m addr r0 /\ mr_instance r0 = j /\
    forall r1, nets m addr r1 -> ma_netbits (mr_addr r1) <= ma_netbits (mr_addr r0).

(** A cached route that may still be used agrees with the networks. *)
Definition coherent (m : multi_context) : Prop := forall r,
  has m r -> is_cached r = true -> mr_cache_generation r = generation m -> live (mc_instances m) r ->
  best m (mr_addr r) (mr_instance r).

Definition nonnet (k : mroute_addr) : Prop := host_key k \/ ether_key k.

Lemma nonnet_not_net a k : nonnet a -> net_key k -> compare_function a k = false.
Proof.
  intros Ha (_ & _ & _ & Hk). apply not_true_is_false. fold (keq a k). rewrite keq_fields. intros (E & _).
  destruct Ha as [(_ & _ & _ & [[A _]|[A _]])|(_ & _ & _ & A & _)], Hk as [[B _]|[B _]]; rewrite A, B in E; done.
Qed.

Lemma best_map m m' addr j :
  best m addr j ->
  (forall r', nets m' addr r' -> exists r, nets m addr r /\ ma_netbits (mr_addr r) = ma_netbits (mr_addr r')) ->
  (forall r, nets m addr r -> mr_instance r = j ->
     exists r', nets m' addr r' /\ mr_instance r' = j /\ ma_netbits (mr_addr r') = ma_netbits (mr_addr r)) ->
  best m' addr j.
Proof.
  intros (r0 & Hr & Hj & Hb) H1 H2. destruct (H2 r0 Hr Hj) as (r0' & Hr' & Hj' & E). exists r0'. split_and!; try done.
  intros r1' (r1 & Hr1 & E1)%H1. rewrite E, <- E1. by apply Hb.
Qed.

Lemma best_keep m m' addr j :
  best m addr j -> (forall r, nets m' addr r -> nets m addr r) ->
  (forall r, nets m addr r -> mr_instance r = j -> nets m' addr r) -> best m' addr j.
Proof. intros Hb H1 H2. apply (best_map m); [done| |]; intros r; eauto 10. Qed.

Lemma best_live m addr j : best m addr j -> exists mi, mc_instances m !! j = Some mi /\ mi_halt mi = false.
Proof. intros (r0 & (_ & Hl & _) & <- & _). exact Hl. Qed.

Section LearnInv.
Context (now : Z) (script : option Z -> learn_op -> mroute_addr -> bool).

Lemma has_learned m m' i addr flags r :
  ok m -> learned now script m m' i addr flags ->
  (has m' r <-> (learns now script m i addr = true /\ r = new_route now m i addr flags) \/
                (has m r /\ learns now script m i addr && compare_function addr (mr_addr r) = false)).
Proof.
  intros Hok (Hok' & _ & Hrt). rewrite (has_rt m'), Hrt, (has_rt m) by (apply Hok || apply Hok').
  destruct (learns now script m i addr) eqn:E; cbn [andb].
  - destruct (compare_function addr (mr_addr r)) eqn:Ec.
    + split; [intros [= <-]; by left|]. intros [[_ ->]|[_ ?]]; [done|done].
    + split; [by right|]. intros [[_ ->]|[? _]]; [|done]. cbn [mr_addr new_route] in Ec. by rewrite compare_refl in Ec.
  - split; [by right|]. intros [[? _]|[? _]]; done.
Qed.

Lemma core_learn m m' i mi addr flags :
  core m -> mc_instances m !! i = Some mi -> mi_halt mi = false -> key_ok addr ->
  (net_key addr -> mi_did_iroutes mi = true /\ ma_netbits addr ∈ lens mi) ->
  flags = 0 \/ flags = Z.lor MULTI_ROUTE_CACHE MULTI_ROUTE_AGEABLE /\ host_key addr ->
  learned now script m m' i addr flags -> core m'.
Proof.
  intros [C1 C2 C3 C4 C5 C6] Hi Hh Hk Hn Hf Hl. pose proof Hl as (Hok' & (F1 & F2 & F3 & F4 & F5) & Hrt).
  assert (Hst : forall j mj', mc_instances m' !! j = Some mj' -> exists mj, mc_instances m !! j = Some mj /\ static mj = static mj').
  { intros j mj' Hj. specialize (F5 j). rewrite Hj in F5. destruct (mc_instances m !! j) as [mj|]; [|done]. by exists mj. }
  assert (Hcases := fun r => proj1 (has_learned m m' i addr flags r C1 Hl)). unfold static in Hst.
  split; unfold generation; rewrite ?F1; try done.
  - intros j mj' (mj & Hj & [= E1 E2 E3 E4 E5])%Hst. destruct (C2 j mj Hj) as [K1 K2 K3].
    split; [rewrite <- E1, <- E2; exact K1|by rewrite <- E4|by rewrite <- E5].
  - intros r [[_ ->]|[Hr _]]%Hcases; [done|auto].
  - intros r [[_ ->]|[Hr _]]%Hcases; [|by apply C4]. destruct Hf as [->|[-> Hf]]; [by left|right].
    split_and!; [done|done|]. reflexivity.
  - intros r mj' Hr Hrk Hj Hhj. destruct (Hst _ _ Hj) as (mj & Hj0 & [= E1 E2 E3 E4 E5]).
    assert (Hlens : lens mj' = lens mj) by (unfold lens; congruence). rewrite Hlens, <- E2.
    apply Hcases in Hr as [[_ ->]|[Hr _]].
    + cbn in *. simplify_eq. auto.
    + apply (C5 r mj); congruence.
Qed.

(** Learning an address of a host does not touch the networks. *)
Lemma nets_learn m m' i addr flags a r :
  ok m -> nonnet addr -> learned now script m m' i addr flags -> (nets m' a r <-> nets m a r).
Proof.
  intros Hok Ha Hl. unfold nets. rewrite (has_learned m m' i addr flags r Hok Hl).
  destruct Hl as (_ & (_ & _ & _ & _ & F5) & _). rewrite <- (live_same _ _ r F5). split.
  - intros ([[_ ->]|[Hr _]] & Hlv & Hc); [|done]. destruct Hc as (Hnk & _). exfalso.
    pose proof (nonnet_not_net _ _ Ha Hnk) as E. cbn [new_route mr_addr] in E. by rewrite compare_refl in E.
  - intros (Hr & Hlv & Hc). split_and!; try done. right. split; [done|]. destruct Hc as (Hnk & _).
    by rewrite (nonnet_not_net _ _ Ha Hnk), andb_false_r.
Qed.

Lemma coherent_learn m m' i addr flags :
  ok m -> coherent m -> nonnet addr -> learned now script m m' i addr flags ->
  flags = 0 \/ best m addr i -> coherent m'.
Proof.
  intros Hok Hco Ha Hl Hf r Hr Hc Hg Hlv. pose proof Hl as (_ & (F1 & _ & _ & _ & F5) & _).
  assert (Hkeep : forall a j, best m a j -> best m' a j).
  { intros a j Hb. apply (best_keep m); [done| |]; intros r'; by rewrite (nets_learn m m' i addr flags). }
  apply (has_learned m m' i addr flags r Hok Hl) in Hr as [[_ ->]|[Hr _]]; apply Hkeep.
  - destruct Hf as [->|?]; [done|done].
  - apply Hco; [done|done| |by rewrite (live_same _ _ r F5)]. unfold generation in *. by rewrite <- F1.
Qed.
End LearnInv.

(** ** Prefix lengths in use *)
Definition occ (l : list Z) (n : Z) : Z := Z.of_nat (count_occ Z.eq_dec l n).
Definition contrib (n : Z) (mi : multi_instance) : Z := if mi_did_iroutes mi then occ (lens mi) n else 0.
Definition contrib_at (n : Z) (insts : gmap Z multi_instance) (i : Z) : Z :=
  match insts !! i with Some mi => contrib n mi | None => 0 end.
Definition contribs (n : Z) (insts : gmap Z multi_instance) : gmap Z Z :=
  omap (fun mi => if contrib n mi =? 0 then None else Some (contrib n mi)) insts.
Definition announced (insts : gmap Z multi_instance) (n : Z) : Z := map_fold (fun _ c acc => c + acc) 0 (contribs n insts).

Lemma contribs_lookup n insts i :
  contribs n insts !! i = if contrib_at n insts i =? 0 then None else Some (contrib_at n insts i).
Proof. unfold contribs, contrib_at. rewrite lookup_omap. by destruct (insts !! i). Qed.

Lemma announced_ext insts insts' n :
  (forall i, contrib_at n insts i = contrib_at n insts' i) -> announced insts n = announced insts' n.
Proof. intros H. unfold announced. f_equal. apply map_eq. intros i. by rewrite !contribs_lookup, H. Qed.

Lemma announced_delete insts i n : announced insts n = contrib_at n insts i + announced (delete i insts) n.
Proof.
  assert (Hd : contribs n (delete i insts) = delete i (contribs n insts)).
  { apply map_eq. intros j. rewrite contribs_lookup. unfold contrib_at.
    destruct (decide (j = i)) as [->|]; [by rewrite !lookup_delete_eq|].
    rewrite !lookup_delete_ne by done. by rewrite contribs_lookup. }
  unfold announced. rewrite Hd. pose proof (contribs_lookup n insts i) as Hl.
  destruct (Z.eqb_spec (contrib_at n insts i) 0) as [E|E].
  - by rewrite delete_id, E.
  - rewrite (map_fold_delete_L (fun _ c acc => c + acc) 0 i (contrib_at n insts i) (contribs n insts)); [done| |done].
    intros. lia.
Qed.

Lemma announced_insert insts i mi n :
  announced (<[i := mi]> insts) n = announced insts n - contrib_at n insts i + contrib n mi.
Proof.
  rewrite (announced_delete (<[i := mi]> insts) i), (announced_delete insts i), delete_insert_eq.
  unfold contrib_at at 1. rewrite lookup_insert_eq. lia.
Qed.

Lemma contrib_nonneg n mi : 0 <= contrib n mi.
Proof. unfold contrib, occ. destruct (mi_did_iroutes mi); lia. Qed.

Lemma announced_ge insts i mi n : insts !! i = Some mi -> contrib n mi <= announced insts n.
Proof.
  intros Hi. rewrite (announced_delete insts i). unfold contrib_at. rewrite Hi.
  enough (0 <= announced (delete i insts) n) by lia. unfold announced.
  apply (map_fold_weak_ind (fun acc c => (forall j x, c !! j = Some x -> 0 <= x) -> 0 <= acc)); [done| |].
  - intros j x c acc Hj IH Hc. assert (0 <= x) by (apply (Hc j); by rewrite lookup_insert_eq).
    enough (0 <= acc) by lia. apply IH. intros j' x' Hj'. apply (Hc j'). rewrite lookup_insert_ne; [done|]. by intros ->; simplify_eq.
  - intros j x. rewrite contribs_lookup. case_match; [done|]. intros [= <-]. unfold contrib_at.
    destruct (_ !! j); [apply contrib_nonneg|lia].
Qed.

Lemma occ_pos l n : n ∈ l -> 0 < occ l n.
Proof. intros H%list_elem_of_In%(count_occ_In Z.eq_dec). unfold occ. lia. Qed.

(** The counts of the helper are those of the clients whose routes are announced. *)
Record helper_rel (m : multi_context) : Prop := {
  hr_ok : helper_ok (mc_helper m);
  hr_count : forall n, 0 <= n < 129 -> nth (Z.to_nat n) (net_len_refcount (mc_helper m)) 0 = announced (mc_instances m) n;
  hr_max : forall n, 0 <= n < 129 -> announced (mc_instances m) n <= INT_MAX;
  hr_dev : forall i mi, mc_instances m !! i = Some mi -> mi_did_iroutes mi = true -> mc_dev_type m = DEV_TYPE_TUN
}.

(** Whether the server runs with [--stale-routes-check].  The check removes networks that
    cached routes came from, so the cache agrees with the networks only without it. *)
Section StaleRoutesCheck.
Context (stale_routes_check : bool).

Record inv (m : multi_context) : Prop := {
  iv_core : core m;
  iv_coherent : stale_routes_check = false -> coherent m;
  iv_helper : helper_rel m
}.

Lemma announced_same m insts' n :
  core m -> same_clients (mc_instances m) insts' -> announced (mc_instances m) n = announced insts' n.
Proof.
  intros Hc Hs. apply announced_ext. intros i. specialize (Hs i). unfold contrib_at.
  destruct (mc_instances m !! i) as [a|] eqn:Ha, (insts' !! i) as [b|]; try done.
  - unfold static in Hs. injection Hs as E1 E2 E3 E4 E5. unfold contrib, lens. by rewrite E2, E4, E5.
  - unfold contrib. by rewrite (co_halt _ (cr_clients _ Hc _ _ Ha)).
Qed.

Lemma helper_rel_frame m m' : core m -> frame m m' -> helper_rel m -> helper_rel m'.
Proof.
  intros Hc (F1 & _ & F3 & _ & F5) [H1 H2 H3 H4]. split; rewrite ?F1, ?F3; [done| | |].
  - intros n Hn. by rewrite H2, (announced_same m (mc_instances m')).
  - intros n Hn. rewrite <- (announced_same m (mc_instances m')); auto.
  - intros i mi' Hi Hd. specialize (F5 i). rewrite Hi in F5. unfold static in F5.
    destruct (mc_instances m !! i) as [mi|] eqn:E; [|done]. apply (H4 i mi E). congruence.
Qed.

(** A network of a present client has its length in the table of lengths. *)
Lemma net_length_used m addr r : inv m -> nets m addr r -> ma_netbits (mr_addr r) ∈ in_use 129 (net_len_refcount (mc_helper m)).
Proof.
  intros [Hc _ [H1 H2 _ _]] (Hr & (mi & Hi & Hh) & (Hnk & _)).
  destruct (cr_net _ Hc r mi Hr Hnk Hi Hh) as [Hd Hin]. pose proof Hnk as (_ & _ & Hb & Hty).
  assert (0 <= ma_netbits (mr_addr r) < 129) by (destruct Hty as [[_ E]|[_ E]]; rewrite E in Hb; lia).
  apply elem_of_in_use. split; [lia|]. rewrite H2 by lia.
  pose proof (announced_ge (mc_instances m) _ mi (ma_netbits (mr_addr r)) Hi) as Hge.
  unfold contrib in Hge. rewrite Hd in Hge. pose proof (occ_pos _ _ Hin). lia.
Qed.

(** ** Lookup *)

(** The table in another order. *)
Definition reordered (m m1 : multi_context) : Prop :=
  exists h, hash_wf h /\ pairs h ≡ₚ pairs (mc_vhash m) /\ m1 = set_vhash m h.

Lemma reordered_spec m m1 :
  inv m -> reordered m m1 -> inv m1 /\ frame m m1 /\ forall k, rt m1 k = rt m k.
Proof.
  intros [Hc Hco Hh] (h & Hw & Hp & ->). destruct (table_ok_perm m h (ok_table _ (cr_ok _ Hc)) Hw Hp) as [Ht Hrt].
  split; [|split; [by split_and!|done]]. split; [|exact Hco|by destruct Hh].
  destruct Hc as [C1 C2 C3 C4 C5 C6]. split; try done. split; [done|apply C1].
Qed.

Lemma lookup_owner now m k :
  inv m -> exists h, reordered m (set_vhash m h) /\
    hash_lookup (mc_vhash m) k = Ret (spec_lookup (pairs (mc_vhash m)) k, h) /\
    route_owner now (set_vhash m h) (spec_lookup (pairs (mc_vhash m)) k) = Ret (owner_at now m k).
Proof.
  intros Hinv. pose proof (cr_ok _ (iv_core _ Hinv)) as Hok.
  destruct (hash_lookup_spec (mc_vhash m) k (tk_hash _ (ok_table _ Hok))) as (h & Hl & Hw & Hp).
  assert (Hre : reordered m (set_vhash m h)) by (by exists h). exists h. split; [done|]. split; [done|].
  destruct (reordered_spec m _ Hinv Hre) as (Hinv' & Hfr & Hrt).
  rewrite <- (spec_lookup_perm _ _ k Hp) by apply Hw.
  change (pairs h) with (pairs (mc_vhash (set_vhash m h))).
  rewrite route_owner_spec by apply Hinv'. by rewrite (owner_at_frame now m).
Qed.

Lemma net_not_cached m r : core m -> has m r -> net_key (mr_addr r) -> mr_flags r = 0.
Proof.
  intros Hc Hr Hn. destruct (cr_flags _ Hc r Hr) as [?|(_ & Hh & _)]; [done|].
  pose proof (nonnet_not_net _ _ (or_introl Hh) Hn) as E. by rewrite compare_refl in E.
Qed.

Lemma defined_plain now m r : mr_flags r = 0 -> defined now m r = liveb (mc_instances m) r.
Proof. intros E. unfold defined, is_cached, is_ageable. rewrite E. cbn. by rewrite !andb_true_r. Qed.

(** The owner of the key tried for one length. *)
Lemma owner_try now m addr t n :
  core m -> (forall k, key_ok k -> (keq t k <-> covers k addr /\ ma_netbits k = n)) ->
  match owner_at now m t with
  | Some j => exists r, nets m addr r /\ ma_netbits (mr_addr r) = n /\ mr_instance r = j
  | None => forall r, nets m addr r -> ma_netbits (mr_addr r) <> n
  end.
Proof.
  intros Hc Ht. assert (Htk : table_ok m) by apply Hc.
  assert (Hfind : forall r, has m r -> covers (mr_addr r) addr -> ma_netbits (mr_addr r) = n -> rt m t = Some r).
  { intros r Hr Hcv Hn. apply rt_Some; [done|]. split; [done|]. apply Ht; [by apply (cr_key _ Hc)|done]. }
  unfold owner_at. destruct (rt m t) as [r|] eqn:E; cbn.
  - apply rt_Some in E as [Hr Hk]; [|done]. apply Ht in Hk as [Hcv Hn]; [|by apply (cr_key _ Hc)].
    pose proof Hcv as (Hnk & _). rewrite defined_plain by (by apply (net_not_cached m)).
    destruct (liveb (mc_instances m) r) eqn:El.
    + exists r. apply liveb_spec in El. done.
    + intros r' (Hr' & Hl' & Hcv') Hn'. assert (r' = r) as ->.
      { pose proof (Hfind r Hr Hcv Hn). pose proof (Hfind r' Hr' Hcv' Hn'). congruence. }
      apply liveb_spec in Hl'. congruence.
  - intros r (Hr & _ & Hcv) Hn. pose proof (Hfind r Hr Hcv Hn). congruence.
Qed.

Lemma sorted_le (l : list Z) i n x :
  StronglySorted Z.gt l -> l !! i = Some n -> x ∈ l -> x ∉ take i l -> x <= n.
Proof.
  intros Hs Hi Hx Hn. rewrite <- (take_drop_middle l i n Hi) in Hs, Hx.
  apply elem_of_app in Hx as [?|[->|Hx]%elem_of_cons]; [done|done|].
  apply StronglySorted_app in Hs as (_ & _ & Hs). apply StronglySorted_inv in Hs as [_ Hf].
  rewrite Forall_forall in Hf. specialize (Hf x Hx). lia.
Qed.

Lemma core_table m : core m -> table_ok m.
Proof. intros Hc. apply Hc. Qed.

Section Lookup.
Context (now : Z) (script : option Z -> learn_op -> mroute_addr -> bool).

(** Learning the address of a host for a present client keeps the invariant. *)
Lemma inv_learn m i mi addr flags :
  inv m -> mc_instances m !! i = Some mi -> mi_halt mi = false -> nonnet addr ->
  flags = 0 \/ flags = Z.lor MULTI_ROUTE_CACHE MULTI_ROUTE_AGEABLE /\ host_key addr /\ best m addr i ->
  exists m', multi_learn_addr now script m i addr flags
      = Ret (if learns now script m i addr then Some i else owner_at now m addr, m')
    /\ learned now script m m' i addr flags /\ inv m'.
Proof.
  intros [Hc Hco Hh] Hi Hhalt Ha Hf.
  assert (Hk : key_ok addr) by (destruct Ha; [by left|by right; right]).
  destruct (learn_spec now script m i mi addr flags (cr_ok _ Hc) Hi Hhalt) as (m' & Hr & Hl);
    [by apply key_raw|]. exists m'. split; [done|]. split; [done|]. split.
  - apply (core_learn now script m m' i mi addr flags); try done; [|tauto].
    intros Hnk. pose proof (nonnet_not_net _ _ Ha Hnk) as E. by rewrite compare_refl in E.
  - intros Hs. apply (coherent_learn now script m m' i addr flags); try done; [apply Hc|by apply Hco|tauto].
  - apply (helper_rel_frame m); [done|apply Hl|done].
Qed.

Lemma cidr_loop_spec addr n i m :
  inv m -> host_key addr -> Z.of_nat (i + n) = n_net_len (mc_helper m) ->
  (forall r, nets m addr r -> ma_netbits (mr_addr r) ∉ take i (in_use 129 (net_len_refcount (mc_helper m)))) ->
  exists o m', cidr_loop now script n (Z.of_nat i) m addr = Ret (o, m') /\ inv m' /\ frame m m' /\
    match o with Some j => best m addr j | None => forall r, ~ nets m addr r end.
Proof.
  intros Hinv Ha. revert i m Hinv. induction n as [|n IH]; intros i m Hinv Hlen Hnot; cbn [cidr_loop];
    pose proof (iv_helper _ Hinv) as [[H1 H2 H3 H4 H5] _ _ _]; set (used := in_use 129 _) in *.
  { exists None, m. split_and!; try done. intros r Hr. apply (Hnot r Hr).
    rewrite take_ge by (unfold Zlen in H4; lia). by apply (net_length_used m addr). }
  destruct (lookup_lt_is_Some_2 used i) as [nb Hnb]; [unfold Zlen in H4; lia|].
  assert (Hget : arr_get (net_len (mc_helper m)) (Z.of_nat i) = Ret nb).
  { apply arr_get_Ret. split; [lia|]. rewrite Nat2Z.id. rewrite <- H5 in Hnb. by apply lookup_take_Some in Hnb as [? _]. }
  assert (Hrange : 0 <= nb < 129).
  { assert (Hin : nb ∈ used) by (by eapply list_elem_of_lookup_2). apply elem_of_in_use in Hin. lia. }
  destruct (try_match addr nb Ha Hrange) as (t & Hm & Ht). rewrite Hget. cbn [res_bind]. rewrite Hm. cbn [res_bind].
  destruct (lookup_owner now m t Hinv) as (h & Hre & -> & Ho). cbn [res_bind]. rewrite Ho. clear Ho. cbn [res_bind].
  set (m1 := set_vhash m h) in *. destruct (reordered_spec m m1 Hinv Hre) as (Hinv1 & Hfr & Hrt).
  assert (Hn1 : forall a r, nets m1 a r <-> nets m a r) by done.
  assert (Hh1 : mc_helper m1 = mc_helper m) by apply Hfr.
  pose proof (owner_try now m addr t nb (iv_core _ Hinv) Ht) as Hown.
  destruct (owner_at now m t) as [j|].
  - destruct Hown as (r & Hr & Hnbr & Hj). assert (Hbest : best m addr j).
    { exists r. split_and!; try done. intros r1 Hr1. rewrite Hnbr. apply (sorted_le used i);
        [apply in_use_sorted|done|by apply (net_length_used m addr)|by apply Hnot]. }
    assert (Hbest1 : best m1 addr j) by (apply (best_keep m); [done| |]; intros r'; by rewrite Hn1).
    destruct (best_live _ _ _ Hbest1) as (mj & Hmj & Hhj).
    destruct (inv_learn m1 j mj addr (Z.lor MULTI_ROUTE_CACHE MULTI_ROUTE_AGEABLE) Hinv1 Hmj Hhj) as (m2 & -> & Hl & Hinv2);
      [by left|by right|].
    cbn [res_bind]. exists (Some j), m2. split_and!; try done. transitivity m1; [done|apply Hl].
  - replace (Z.of_nat i + 1) with (Z.of_nat (S i)) by lia.
    destruct (IH (S i) m1 Hinv1) as (o & m2 & Hr & Hinv2 & Hfr2 & Ho); [rewrite Hh1; lia| |].
    { intros r Hr%Hn1. rewrite Hh1. fold used. rewrite (take_S_r _ _ _ Hnb), not_elem_of_app.
      split; [by apply Hnot|]. rewrite list_elem_of_singleton. by apply Hown. }
    exists o, m2. by split_and!.
Qed.

(** ** A route used: only the time of its last use changes *)
Definition touched (r : multi_route) : multi_route :=
  mk_route (mr_addr r) (mr_instance r) (mr_flags r) (mr_cache_generation r) now.

Lemma owned_touch routes l r i : routes !! l = Some r -> owned (<[l := touched r]> routes) i = owned routes i.
Proof.
  intros Hl. rewrite <- (insert_delete_eq routes l (touched r)), owned_insert by apply lookup_delete_eq.
  rewrite (owned_delete _ _ r) by done. unfold mine. cbn. lia.
Qed.

Lemma touch_has m l r r' :
  mc_routes m !! l = Some r -> has (set_routes m (<[l := touched r]> (mc_routes m))) r' ->
  exists r0, has m r0 /\ mr_addr r0 = mr_addr r' /\ mr_instance r0 = mr_instance r' /\ mr_flags r0 = mr_flags r'
    /\ mr_cache_generation r0 = mr_cache_generation r'.
Proof.
  intros Hl [l' Hl']. cbn in Hl'. apply lookup_insert_Some in Hl' as [[<- <-]|[_ Hl']].
  - exists r. split_and!; try done. by exists l.
  - exists r'. split_and!; try done. by exists l'.
Qed.
Lemma has_touch m l r r0 :
  mc_routes m !! l = Some r -> has m r0 ->
  exists r', has (set_routes m (<[l := touched r]> (mc_routes m))) r' /\ mr_addr r' = mr_addr r0 /\ mr_instance r' = mr_instance r0.
Proof.
  intros Hl [l' Hl']. destruct (decide (l' = l)) as [->|Hne].
  - exists (touched r). simplify_eq. split_and!; try done. exists l. cbn. by rewrite lookup_insert_eq.
  - exists r0. split_and!; try done. exists l'. cbn. by rewrite lookup_insert_ne.
Qed.

Lemma inv_touch m l r : inv m -> mc_routes m !! l = Some r -> inv (set_routes m (<[l := touched r]> (mc_routes m))).
Proof.
  intros [[[[T1 T2 T3 T4] [K1 K2]] C2 C3 C4 C5 C6] Hco Hhr] Hl. split; [split; [split| | | | |]| |].
  - split; try done; cbn.
    + intros k l' Hin. destruct (T2 k l' Hin) as (r' & Hr' & Hk). destruct (decide (l' = l)) as [->|Hne].
      * exists (touched r). rewrite lookup_insert_eq. simplify_eq. done.
      * exists r'. by rewrite lookup_insert_ne.
    + intros l' r' [[<- <-]|[_ Hl']]%lookup_insert_Some; by eapply T4.
  - cbn. split.
    + intros i mi Hi. destruct (K1 i mi Hi) as [? ? ? ? ?]. split; try done. by rewrite owned_touch.
    + intros l' r' [[<- <-]|[_ Hl']]%lookup_insert_Some; [exact (K2 l r Hl)|by eapply K2].
  - done.
  - intros r' (r0 & Hr0 & <- & _)%(touch_has m l r); auto.
  - intros r' (r0 & Hr0 & <- & _ & <- & <-)%(touch_has m l r); auto.
  - intros r' mi (r0 & Hr0 & <- & <- & _)%(touch_has m l r); [|done]. intros. by apply C5.
  - done.
  - intros Hs r' (r0 & Hr0 & Ea & Ei & Ef & Eg)%(touch_has m l r); [|done]. intros Hc Hg Hlv. rewrite <- Ea, <- Ei.
    apply (best_map m).
    + apply (Hco Hs); [done|unfold is_cached in *; congruence|unfold generation in *; cbn in *; congruence|].
      unfold live in *. by rewrite Ei.
    + intros r1 (Hr1 & Hl1 & Hc1). destruct (touch_has m l r r1 Hl Hr1) as (r2 & Hr2 & Ea2 & Ei2 & _).
      exists r2. rewrite Ea2. split; [|done]. unfold nets, live in *. by rewrite Ea2, Ei2.
    + intros r1 (Hr1 & Hl1 & Hc1) Hj. destruct (has_touch m l r r1 Hl Hr1) as (r2 & Hr2 & Ea2 & Ei2).
      exists r2. rewrite Ea2, Ei2. split; [|done]. unfold nets, live in *. by rewrite Ea2, Ei2.
  - by destruct Hhr.
Qed.
End Lookup.

(** ** What a lookup should answer

    A route that a present client holds for this very host comes first; without one, the
    client of the longest network around the host. Cached routes play no part. *)
Definition host_route (m : multi_context) (addr : mroute_addr) (r : multi_route) : Prop :=
  has m r /\ live (mc_instances m) r /\ is_cached r = false /\ keq addr (mr_addr r).
Definition routes_to (m : multi_context) (addr : mroute_addr) (j : Z) : Prop :=
  (exists r, host_route m addr r /\ mr_instance r = j) \/
  ((forall r, ~ host_route m addr r) /\ best m addr j).

Lemma covers_keq k a a' : keq a a' -> covers k a -> covers k a'.
Proof.
  intros (E1 & E2 & E3 & E4 & E5)%keq_fields (Hn & Ht & Hv). split_and!; [done|congruence|].
  rewrite Hv, E2. f_equal. unfold addr_value. by rewrite E5.
Qed.
Lemma best_keq m a a' j : keq a a' -> best m a j -> best m a' j.
Proof.
  intros Hk (r0 & (Hr & Hl & Hc) & Hj & Hb). exists r0. split_and!; try done.
  - split_and!; try done. by eapply covers_keq.
  - intros r1 (Hr1 & Hl1 & Hc1). apply Hb. split_and!; try done. symmetry in Hk. by eapply covers_keq.
Qed.

(** Two networks of one length around a host are the same. *)
Lemma covers_unique k k' a :
  host_key a -> covers k a -> covers k' a -> ma_netbits k = ma_netbits k' -> keq k k'.
Proof.
  intros Ha (Hn & Ht & Hv) (Hn' & Ht' & Hv') E. pose proof Hn as (R & P & _ & T). pose proof Hn' as (R' & P' & _ & T').
  assert (El : ma_len k = ma_len k').
  { rewrite Ht in T. rewrite Ht' in T'. destruct Ha as (_ & _ & _ & [[A _]|[A _]]); rewrite A in T, T';
      destruct T as [[? ?]|[? ?]], T' as [[? ?]|[? ?]]; try done; congruence. }
  apply keq_fields. split_and!; [congruence|done|congruence|done|]. apply value_eq; try done.
  - destruct T as [[_ ->]|[_ ->]]; lia.
  - rewrite Hv, Hv', E. done.
Qed.
Lemma best_unique m a j j' : core m -> host_key a -> best m a j -> best m a j' -> j = j'.
Proof.
  intros Hc Ha (r0 & H0 & <- & B0) (r1 & H1 & <- & B1). pose proof (B0 r1 H1). pose proof (B1 r0 H0).
  destruct H0 as (Hr0 & _ & C0), H1 as (Hr1 & _ & C1).
  assert (Hk : keq (mr_addr r0) (mr_addr r1)) by (apply (covers_unique _ _ a); try done; lia).
  assert (r0 = r1) as ->; [|done].
  assert (E0 : rt m (mr_addr r0) = Some r0) by (by apply has_rt; [apply core_table|]).
  assert (E1 : rt m (mr_addr r0) = Some r1) by (by apply rt_Some; [apply core_table|]).
  congruence.
Qed.

(** The entry found first decides, and agrees with the networks if it is cached. *)
Lemma owner_at_spec now m addr :
  inv m -> stale_routes_check = false ->
  match owner_at now m addr with
  | Some j => (exists r, host_route m addr r /\ mr_instance r = j) \/
              ((forall r, ~ host_route m addr r) /\ best m addr j)
  | None => forall r, ~ host_route m addr r
  end.
Proof.
  intros [Hc Hco _] Hs. specialize (Hco Hs). pose proof (core_table _ Hc) as Ht.
  assert (Huniq : forall r r', rt m addr = Some r -> host_route m addr r' -> r' = r).
  { intros r r' E (Hr' & _ & _ & Hk). assert (rt m addr = Some r') by (by apply rt_Some). congruence. }
  unfold owner_at. destruct (rt m addr) as [r|] eqn:E; cbn.
  2: { intros r (Hr & _ & _ & Hk). assert (rt m addr = Some r) by (by apply rt_Some). congruence. }
  pose proof E as [Hr Hk]%rt_Some; [|done]. destruct (defined now m r) eqn:D.
  - unfold defined in D. apply andb_true_iff in D as [[Hl Hg]%andb_true_iff _]. apply liveb_spec in Hl.
    destruct (is_cached r) eqn:Ecd; cbn in Hg.
    + right. split; [intros r' Hr'; rewrite (Huniq r r') in Hr' by done; by destruct Hr' as (_ & _ & ? & _); congruence|].
      apply (best_keq m (mr_addr r)); [by symmetry|]. apply Hco; try done.
      destruct (Z.eqb_spec (mr_cache_generation r) (cache_generation (mc_helper m))); done.
    + left. by exists r.
  - intros r' Hr'. rewrite (Huniq r r') in Hr' by done. destruct Hr' as (_ & Hl & Hnc & _).
    destruct (cr_flags _ Hc r Hr) as [Hf|(Hf & _)]; [|unfold is_cached in Hnc; by rewrite Hf in Hnc].
    rewrite defined_plain in D by done. apply liveb_spec in Hl. congruence.
Qed.

Lemma routes_to_unique m addr j j' : core m -> host_key addr -> routes_to m addr j -> routes_to m addr j' -> j = j'.
Proof.
  intros Hc Ha [(r & Hr & <-)|[Hn Hb]] [(r' & Hr' & <-)|[Hn' Hb']].
  - f_equal. pose proof (core_table _ Hc). destruct Hr as (H1 & _ & _ & K1), Hr' as (H2 & _ & _ & K2).
    assert (rt m addr = Some r) by (by apply rt_Some). assert (rt m addr = Some r') by (by apply rt_Some). congruence.
  - by destruct (Hn' r).
  - by destruct (Hn r').
  - by apply (best_unique m addr).
Qed.

Lemma frame_live m m' j mi :
  frame m m' -> mc_instances m !! j = Some mi -> mi_halt mi = false ->
  exists mi', mc_instances m' !! j = Some mi' /\ mi_halt mi' = false.
Proof.
  intros (_ & _ & _ & _ & F) Hi Hh. specialize (F j). rewrite Hi in F. unfold static in F.
  destruct (mc_instances m' !! j) as [mi'|]; [|congruence]. exists mi'. split; [done|congruence].
Qed.

(** What a lookup does answer: the owner of the entry of the address, cached or not, or
    without an entry that counts the client of the longest network. *)
Definition answer (now : Z) (m : multi_context) (addr : mroute_addr) (j : Z) : Prop :=
  owner_at now m addr = Some j \/ (owner_at now m addr = None /\ best m addr j).

Lemma owner_live now m addr j :
  owner_at now m addr = Some j -> exists mi, mc_instances m !! j = Some mi /\ mi_halt mi = false.
Proof.
  unfold owner_at. destruct (rt m addr) as [r|]; cbn; [|done]. destruct (defined now m r) eqn:D; [|done]. intros [= <-].
  unfold defined in D. apply andb_true_iff in D as [[Hl _]%andb_true_iff _]. by apply liveb_spec in Hl.
Qed.
Lemma answer_live now m addr j : answer now m addr j -> exists mi, mc_instances m !! j = Some mi /\ mi_halt mi = false.
Proof. intros [Ho|[_ Hb]]; [by eapply owner_live|by eapply best_live]. Qed.
Lemma answer_unique now m addr j j' : core m -> host_key addr -> answer now m addr j -> answer now m addr j' -> j = j'.
Proof. intros Hc Ha [E|[E Hb]] [E'|[E' Hb']]; try congruence. by apply (best_unique m addr). Qed.

(** Without stale checks the two agree. *)
Lemma answer_routes_to now m addr j :
  inv m -> stale_routes_check = false -> host_key addr -> answer now m addr j <-> routes_to m addr j.
Proof.
  intros Hinv Hs Ha. pose proof (owner_at_spec now m addr Hinv Hs) as Ho. unfold answer.
  destruct (owner_at now m addr) as [j'|] eqn:E; [|split; [by intros [?|[_ ?]]; [|right]|]].
  - split.
    + intros [[= ->]|[? _]]; [exact Ho|done].
    + intros Hj. left. f_equal. by apply (routes_to_unique m addr); [apply Hinv| | |].
  - intros [(r & Hr & _)|[_ Hb]]; [by destruct (Ho r)|by right].
Qed.

Lemma lookup_spec now script m addr :
  inv m -> host_key addr ->
  exists o m', multi_get_instance_by_virtual_addr now script m addr true = Ret (o, m') /\ inv m' /\ frame m m' /\
    if mroute_addr_equal addr (mc_local m) then o = None
    else match o with Some j => answer now m addr j | None => forall j, ~ answer now m addr j end.
Proof.
  intros Hinv Ha. unfold multi_get_instance_by_virtual_addr.
  destruct (mroute_addr_equal addr (mc_local m)); [by exists None, m|].
  destruct (lookup_owner now m addr Hinv) as (h & Hre & -> & Ho). cbn [res_bind]. rewrite Ho. cbn [res_bind].
  set (m1 := set_vhash m h) in *. destruct (reordered_spec m m1 Hinv Hre) as (Hinv1 & Hfr & _).
  assert (Hend : forall (o : option Z) m2, inv m2 -> frame m m2 ->
    match o with Some j => answer now m addr j | None => forall j, ~ answer now m addr j end ->
    exists o' m', match o with
      | Some i => let! mi := deref (mc_instances m2) i in assert! negb (mi_halt mi) in Ret (o, m2)
      | None => Ret (o, m2)
      end = Ret (o', m') /\ inv m' /\ frame m m' /\
      match o' with Some j => answer now m addr j | None => forall j, ~ answer now m addr j end).
  { intros [j|] m2 Hi2 Hf2 Hto; [|by exists None, m2]. exists (Some j), m2. split; [|done].
    destruct (answer_live _ _ _ _ Hto) as (mi & Hmi & Hh). destruct (frame_live m m2 j mi Hf2 Hmi Hh) as (mi' & Hmi' & Hh').
    unfold deref. rewrite Hmi'. cbn. by rewrite Hh'. }
  destruct (owner_at now m addr) as [j|] eqn:Eo.
  - assert (Hans : answer now m addr j) by by left. unfold owner_at, rt in Eo. destruct (spec_lookup (pairs (mc_vhash m)) addr) as [l|]; [|done]. cbn in Eo.
    destruct (mc_routes m !! l) as [r|] eqn:El; [|done]. unfold touch_route, deref. cbn [mc_routes m1 set_vhash]. rewrite El.
    cbn [res_bind]. apply (Hend (Some j) (set_routes m1 (<[l := touched now r]> (mc_routes m1))));
      [by apply inv_touch|by split_and!|exact Hans].
  - destruct (cidr_loop_spec now script addr (Z.to_nat (n_net_len (mc_helper m1))) 0 m1 Hinv1 Ha) as (o & m2 & Hl & Hi2 & Hf2 & Hb).
    { pose proof (iv_helper _ Hinv1) as [[_ _ _ -> _] _ _ _]. unfold Zlen. lia. }
    { intros r _. rewrite take_0. apply not_elem_of_nil. }
    change (Z.of_nat 0) with 0 in Hl. rewrite Hl. cbn [res_bind].
    apply (Hend o m2); [done|by transitivity m1|]. destruct o as [j|]; [by right|].
    intros j [?|[_ (r0 & Hr0 & _)]]; [congruence|by apply (Hb r0)].
Qed.

(** ** Announcing the routes of a client *)
Definition uncached (m : multi_context) : Prop :=
  forall r, has m r -> is_cached r = true -> mr_cache_generation r < generation m.
Lemma uncached_coherent m : uncached m -> coherent m.
Proof. intros Hu r Hr Hc Hg. specialize (Hu r Hr Hc). lia. Qed.

(** Everything but the helper and the routes stays. *)
Definition hframe (m m' : multi_context) : Prop :=
  mc_local m' = mc_local m /\ mc_dev_type m' = mc_dev_type m
  /\ mc_stale_ageing_time m' = mc_stale_ageing_time m /\ same_clients (mc_instances m) (mc_instances m').
#[export] Instance hframe_preorder : PreOrder hframe.
Proof.
  split; [by intros m|]. intros a b c (A2 & A3 & A4 & A5) (B2 & B3 & B4 & B5).
  unfold hframe. split_and!; try congruence. by transitivity (mc_instances b).
Qed.

Lemma core_helper m mh k :
  core m -> 0 <= k -> cache_generation mh = generation m + k -> generation m + k < 2 ^ 32 ->
  core (set_helper m mh) /\ (0 < k -> uncached (set_helper m mh)) /\ (coherent m -> coherent (set_helper m mh)).
Proof.
  intros Hc Hk Hg Hlt. assert (Hle : forall r, has m r -> is_cached r = true -> mr_cache_generation r <= generation m).
  { intros r Hr Hcd. destruct (cr_flags _ Hc r Hr) as [E|(_ & _ & ?)]; [|done]. unfold is_cached in Hcd. by rewrite E in Hcd. }
  assert (Hu : 0 < k -> uncached (set_helper m mh)).
  { intros Hpos r Hr Hcd. specialize (Hle r Hr Hcd). unfold generation in *. cbn. lia. }
  split; [|split; [done|]].
  - destruct Hc as [[Ht Hcn] C2 C3 C4 C5 C6]. split; try done.
    + split; [|done]. by destruct Ht.
    + intros r Hr. destruct (C4 r Hr) as [?|(? & ? & ?)]; [by left|right]. unfold generation in *. cbn. split_and!; try done. lia.
    + unfold generation, is_u32 in *. cbn. lia.
  - intros Hco. destruct (decide (0 < k)); [by apply uncached_coherent, Hu|].
    intros r Hr Hcd Hgr. apply Hco; try done. unfold generation in *. cbn in *. lia.
Qed.

Section Iroutes.
Context (now : Z) (script : option Z -> learn_op -> mroute_addr -> bool).

(** What one call of [multi_learn_in_addr_t] or [multi_learn_in6_addr] for a network does. *)
Definition net_learned (m : multi_context) (r : res (option Z * multi_context)) : Prop :=
  exists o m', r = Ret (o, m') /\ core m' /\ frame m m' /\ (uncached m -> uncached m').

Lemma learn_net m i mi addr :
  core m -> mc_instances m !! i = Some mi -> mi_halt mi = false -> mi_did_iroutes mi = true ->
  net_key addr -> ma_netbits addr ∈ lens mi -> net_learned m (multi_learn_addr now script m i addr 0).
Proof.
  intros Hc Hi Hh Hd Hn Hin. destruct (learn_spec now script m i mi addr 0 (cr_ok _ Hc) Hi Hh) as (m' & Hr & Hl);
    [apply key_raw; by right; left|]. eexists _, m'. split; [exact Hr|]. split_and!.
  - apply (core_learn now script m m' i mi addr 0); try done; [by right; left|by left].
  - apply Hl.
  - intros Hu r Hr' Hcd. assert (Hg : generation m' = generation m) by (unfold generation; by destruct Hl as (_ & (-> & _) & _)).
    rewrite Hg. by apply (has_learned now script m m' i addr 0 r (cr_ok _ Hc) Hl) in Hr' as [[_ ->]|[Hr' _]]; [|apply Hu].
Qed.

Lemma init_raw : bytes_ok (raw_addr mroute_addr_init) /\ length (raw_addr mroute_addr_init) = 20%nat.
Proof. split; [by apply (Forall_replicate is_u8 20)|done]. Qed.

Lemma netbits_u8 n : 0 <= n <= 128 -> u8 n = n.
Proof. intros H. apply u8_id. unfold is_u8. lia. Qed.

Lemma learn_iroute4 m i mi a nb :
  core m -> mc_instances m !! i = Some mi -> mi_halt mi = false -> mi_did_iroutes mi = true ->
  0 <= nb <= 32 -> nb ∈ lens mi -> net_learned m (multi_learn_in_addr_t now script m i a nb false).
Proof.
  intros Hc Hi Hh Hd Hnb Hin. unfold multi_learn_in_addr_t. cbn -[multi_learn_addr be_bytes overwrite].
  rewrite (proj2 (Z.leb_le 0 nb)), netbits_u8 by lia. cbn -[multi_learn_addr be_bytes overwrite].
  match goal with |- context [multi_learn_addr _ _ _ _ ?k _] =>
    destruct (learn_net m i mi k Hc Hi Hh Hd) as (o & m' & -> & H); [|done|] end.
  - split_and!; try done; cbn -[be_bytes overwrite]; try lia.
    + split; [apply bytes_ok_overwrite; [apply init_raw|apply be_bytes_ok]|].
      apply (length_overwrite (raw_addr mroute_addr_init) (be_bytes 4 a) 0). rewrite length_be_bytes. cbn. lia.
  - cbn [res_bind]. by exists o, m'.
Qed.

Lemma learn_iroute6 m i mi a6 nb :
  core m -> mc_instances m !! i = Some mi -> mi_halt mi = false -> mi_did_iroutes mi = true ->
  0 <= nb <= 128 -> nb ∈ lens mi -> bytes_ok a6 -> length a6 = 16%nat ->
  net_learned m (multi_learn_in6_addr now script m i a6 nb false).
Proof.
  intros Hc Hi Hh Hd Hnb Hin Hb Hl. unfold multi_learn_in6_addr.
  rewrite (proj2 (Z.leb_le 0 nb)), netbits_u8 by lia. cbn [raw_addr negb].
  set (k := mk_maddr 16 0 (Z.lor MR_ADDR_IPV6 MR_WITH_NETBITS) nb (overwrite (raw_addr mroute_addr_init) a6 0)).
  assert (Hr : bytes_ok (raw_addr k) /\ length (raw_addr k) = 20%nat).
  { cbn -[overwrite]. split; [apply bytes_ok_overwrite; [apply init_raw|done]|].
    by rewrite length_overwrite by (rewrite Hl; cbn; lia). }
  destruct (mask_host_bits_spec k) as (raw & -> & L & B & _).
  { split; [apply Hr|]. split; [apply Hr|]. split; [by right|]. cbn. lia. }
  cbn [res_bind]. destruct (learn_net m i mi (set_raw k raw) Hc Hi Hh Hd) as (o & m' & -> & H); [|done|].
  - split_and!; try done; cbn; try lia.
    + split; [done|]. etransitivity; [exact L|apply Hr].
  - cbn [res_bind]. by exists o, m'.
Qed.

(** The state after announcing networks of the lengths [ns] for instance [i]. *)
Record announced_to (m m' : multi_context) (ns : list Z) : Prop := {
  an_core : core m';
  an_frame : hframe m m';
  an_coherent : coherent m -> coherent m';
  an_helper : helper_ok (mc_helper m');
  an_counts : forall n, 0 <= n < 129 -> nth (Z.to_nat n) (net_len_refcount (mc_helper m')) 0
                = nth (Z.to_nat n) (net_len_refcount (mc_helper m)) 0 + occ ns n;
  an_gen : generation m' = generation m + Zlen ns
}.

(** Room for [k] more networks in the counters. *)
Record room (m : multi_context) (k : Z) : Prop := {
  rm_gen : generation m + k < 2 ^ 32;
  rm_count : forall n, 0 <= n < 129 -> nth (Z.to_nat n) (net_len_refcount (mc_helper m)) 0 + k <= INT_MAX
}.

Lemma occ_cons x l n : occ (x :: l) n = (if decide (n = x) then 1 else 0) + occ l n.
Proof. unfold occ. cbn. destruct (Z.eq_dec x n), (decide (n = x)); subst; try done; lia. Qed.
Lemma occ_app l k n : occ (l ++ k) n = occ l n + occ k n.
Proof. unfold occ. rewrite count_occ_app. lia. Qed.
Lemma occ_le l n : 0 <= occ l n <= Zlen l.
Proof. induction l as [|x l IH]; [done|]. rewrite occ_cons, Zlen_cons. destruct (decide (n = x)); lia. Qed.

Lemma announced_to_refl m : core m -> helper_ok (mc_helper m) -> announced_to m m [].
Proof. intros. split; try done. - intros. unfold occ. cbn. lia. - rewrite Zlen_nil. lia. Qed.
Lemma announced_to_trans m m1 m2 ns ns' :
  announced_to m m1 ns -> announced_to m1 m2 ns' -> announced_to m m2 (ns ++ ns').
Proof.
  intros [A1 A2 A3 A4 A5 A6] [B1 B2 B3 B4 B5 B6]. split; try done; [by transitivity m1|auto| |].
  - intros n Hn. rewrite B5, A5, occ_app by done. lia.
  - rewrite Zlen_app. lia.
Qed.
Lemma room_after m m' ns k : announced_to m m' ns -> room m (Zlen ns + k) -> 0 <= k -> room m' k.
Proof.
  intros [_ _ _ _ A5 A6] [R1 R2] Hk. split; [lia|]. intros n Hn. rewrite A5 by done.
  specialize (R2 n Hn). pose proof (occ_le ns n). lia.
Qed.

(** A client whose routes are being announced. *)
Definition announcing (m : multi_context) (i : Z) (l : list Z) : Prop :=
  exists mi, mc_instances m !! i = Some mi /\ mi_halt mi = false /\ mi_did_iroutes mi = true /\ lens mi = l.
Lemma announcing_frame m m' i l : hframe m m' -> announcing m i l -> announcing m' i l.
Proof.
  intros (_ & _ & _ & F) (mi & Hi & Hh & Hd & <-). specialize (F i). rewrite Hi in F. unfold static in F.
  destruct (mc_instances m' !! i) as [mi'|] eqn:E; [|congruence]. injection F as E1 E2 E3 E4 E5.
  exists mi'. unfold lens. split_and!; congruence.
Qed.

(** One round: the length is entered into the helper, then the route is learned. *)
Lemma announce_round m i l nb (learn : multi_context -> res (option Z * multi_context)) :
  core m -> helper_ok (mc_helper m) -> room m 1 -> announcing m i l -> 0 <= nb < 129 ->
  (forall m1, core m1 -> announcing m1 i l -> net_learned m1 (learn m1)) ->
  exists o m', (let! mh := mroute_helper_add_iroute46 (mc_helper m) nb in learn (set_helper m mh)) = Ret (o, m')
    /\ announced_to m m' [nb].
Proof.
  intros Hc Hh [R1 R2] Han Hnb Hlearn. specialize (R2 nb Hnb).
  destruct (add_iroute_spec (mc_helper m) nb Hh Hnb) as (mh & -> & Hok & Hcnt & Hgen & _); [lia|].
  rewrite u32_id in Hgen by (pose proof (cr_gen _ Hc); unfold is_u32, generation in *; lia). cbn [res_bind].
  destruct (core_helper m mh 1 Hc) as (Hc1 & Hu1 & _); [lia|done|done|].
  destruct (Hlearn (set_helper m mh) Hc1) as (o & m' & -> & Hc' & (F1 & F2 & F3 & F4 & F5) & Hu'); [done|].
  exists o, m'. split; [done|]. split; try done.
  - intros _. apply uncached_coherent, Hu', Hu1. lia.
  - by rewrite F1.
  - intros n Hn. rewrite F1. cbn. rewrite Hcnt, nth_add_count by (unfold Zlen; rewrite (ho_counts _ Hh); lia).
    rewrite occ_cons. change (occ [] n) with 0. destruct (decide (n = nb)) as [->|]; [by rewrite decide_True by done|].
    rewrite decide_False by lia. lia.
  - unfold generation in *. rewrite F1. exact Hgen.
Qed.

Lemma add_iroutes4_spec m i l irs :
  core m -> helper_ok (mc_helper m) -> room m (Zlen irs) -> announcing m i l ->
  Forall (fun ir => 0 <= ir_netbits ir <= 32 /\ ir_netbits ir ∈ l) irs ->
  exists m', add_iroutes4 now script m i irs = Ret m' /\ announced_to m m' (map ir_netbits irs).
Proof.
  intros Hc Hh Hrm Han Hf. revert m Hc Hh Hrm Han.
  induction Hf as [|ir irs [Hnb Hin] _ IH]; intros m Hc Hh Hrm Han; cbn [add_iroutes4 map].
  { exists m. split; [done|by apply announced_to_refl]. }
  rewrite Zlen_cons in Hrm. pose proof (Zlen_nonneg irs).
  destruct (announce_round m i l (ir_netbits ir)
    (fun m => multi_learn_in_addr_t now script m i (ir_network ir) (ir_netbits ir) false)) as (o & m1 & Hr & Ha1); try done.
  - split; [pose proof (rm_gen _ _ Hrm); lia|]. intros n Hn. pose proof (rm_count _ _ Hrm n Hn). lia.
  - lia.
  - intros m1 Hc1 (mi & Hi & Hh1 & Hd & <-). by apply (learn_iroute4 m1 i mi).
  - rewrite <- res_bind_assoc, Hr. cbn [res_bind]. destruct (IH m1) as (m2 & -> & Ha2).
    + apply Ha1.
    + apply Ha1.
    + by apply (room_after m m1 [ir_netbits ir]).
    + by apply (announcing_frame m); [apply Ha1|].
    + exists m2. split; [done|]. by apply (announced_to_trans m m1 m2 [_]).
Qed.

Lemma add_iroutes6_spec m i l irs :
  core m -> helper_ok (mc_helper m) -> room m (Zlen irs) -> announcing m i l ->
  Forall (fun ir => (0 <= ir6_netbits ir <= 128 /\ bytes_ok (ir6_network ir) /\ length (ir6_network ir) = 16%nat)
                    /\ ir6_netbits ir ∈ l) irs ->
  exists m', add_iroutes6 now script m i irs = Ret m' /\ announced_to m m' (map ir6_netbits irs).
Proof.
  intros Hc Hh Hrm Han Hf. revert m Hc Hh Hrm Han.
  induction Hf as [|ir irs [(Hnb & Hb & Hl) Hin] _ IH]; intros m Hc Hh Hrm Han; cbn [add_iroutes6 map].
  { exists m. split; [done|by apply announced_to_refl]. }
  rewrite Zlen_cons in Hrm. pose proof (Zlen_nonneg irs).
  destruct (announce_round m i l (ir6_netbits ir)
    (fun m => multi_learn_in6_addr now script m i (ir6_network ir) (ir6_netbits ir) false)) as (o & m1 & Hr & Ha1); try done.
  - split; [pose proof (rm_gen _ _ Hrm); lia|]. intros n Hn. pose proof (rm_count _ _ Hrm n Hn). lia.
  - lia.
  - intros m1 Hc1 (mi & Hi & Hh1 & Hd & <-). by apply (learn_iroute6 m1 i mi).
  - rewrite <- res_bind_assoc, Hr. cbn [res_bind]. destruct (IH m1) as (m2 & -> & Ha2).
    + apply Ha1.
    + apply Ha1.
    + by apply (room_after m m1 [ir6_netbits ir]).
    + by apply (announcing_frame m); [apply Ha1|].
    + exists m2. split; [done|]. by apply (announced_to_trans m m1 m2 [_]).
Qed.
End Iroutes.

(** ** Clients that come, announce and go *)

(** A change of the instances under which fewer routes may count. *)
Lemma core_insts m insts :
  core m -> counts_ok insts (mc_routes m) -> (forall i mi, insts !! i = Some mi -> client_ok mi) ->
  (forall r, has m r -> live insts r -> live (mc_instances m) r) ->
  (forall r mi, has m r -> net_key (mr_addr r) -> insts !! mr_instance r = Some mi -> mi_halt mi = false ->
     mi_did_iroutes mi = true /\ ma_netbits (mr_addr r) ∈ lens mi) ->
  core (set_instances m insts) /\ (coherent m -> coherent (set_instances m insts)).
Proof.
  intros [[Ht Hcn] C2 C3 C4 C5 C6] Hcn' Hcl Hlive Hnet. split.
  - split; try done. split; [by destruct Ht|done].
  - intros Hco r Hr Hc Hg Hl. apply (best_keep m).
    + apply Hco; [done|done|done|by apply Hlive].
    + intros r' (Hr' & Hl' & Hcv). split_and!; [done|by apply Hlive|done].
    + intros r' (Hr' & _ & Hcv) E. split_and!; [done| |done]. unfold live in *. by rewrite E.
Qed.

Lemma owned_zero routes i : (forall l r, routes !! l = Some r -> mr_instance r <> i) -> owned routes i = 0.
Proof.
  intros H. unfold owned.
  replace (filter _ routes) with (∅ : gmap Z multi_route); [by rewrite map_size_empty|].
  symmetry. apply map_empty. intros l. apply map_lookup_filter_None. right. intros r Hr. by eapply H.
Qed.

Definition connected (max_routes : Z) (irs : list iroute) (irs6 : list iroute_ipv6) : multi_instance :=
  mk_mi false 1 0 false max_routes irs irs6.

Lemma inv_connect m i max_routes irs irs6 :
  inv m -> mc_instances m !! i = None -> 0 <= max_routes < INT_MAX -> client_ok (connected max_routes irs irs6) ->
  inv (set_instances m (<[i := connected max_routes irs irs6]> (mc_instances m))).
Proof.
  intros [Hc Hco [H1 H2 H3 H4]] Hi Hmax Hcl. pose proof (cr_ok _ Hc) as [_ [K1 K2]].
  assert (Hne : forall l r, mc_routes m !! l = Some r -> mr_instance r <> i).
  { intros l r Hl E. destruct (K2 l r Hl) as [mi Hmi]. congruence. }
  assert (Hnr : forall r, has m r -> mr_instance r <> i) by (intros r [l Hl]; by eapply Hne).
  destruct (core_insts m (<[i := connected max_routes irs irs6]> (mc_instances m))) as [Hc' Hco']; try done.
  - split.
    + intros j mj [[<- <-]|[_ Hj]]%lookup_insert_Some; [|by apply K1].
      split; cbn; try lia. by rewrite owned_zero.
    + intros l r Hl. rewrite lookup_insert_is_Some'. right. by eapply K2.
  - intros j mj [[<- <-]|[_ Hj]]%lookup_insert_Some; [done|by apply (cr_clients _ Hc j)].
  - intros r Hr. unfold live. by rewrite lookup_insert_ne by (apply not_eq_sym; auto).
  - intros r mi Hr Hn. rewrite lookup_insert_ne by (apply not_eq_sym; auto). by apply (cr_net _ Hc).
  - assert (Ha : forall n, announced (<[i := connected max_routes irs irs6]> (mc_instances m)) n = announced (mc_instances m) n).
    { intros n. rewrite announced_insert. unfold contrib_at. rewrite Hi. cbn. lia. }
    split; [done|auto|]. split; try done; cbn [mc_instances set_instances mc_helper mc_dev_type].
    + intros n Hn. rewrite Ha. auto.
    + intros n Hn. rewrite Ha. auto.
    + intros j mj [[<- <-]|[_ Hj]]%lookup_insert_Some; [done|by apply (H4 j)].
Qed.

Definition doing_iroutes (m : multi_context) (i : Z) (mi : multi_instance) : multi_context :=
  set_instances m (<[i := set_did_iroutes mi true]> (mc_instances m)).

Lemma core_doing m i mi :
  core m -> mc_instances m !! i = Some mi -> mi_halt mi = false -> mi_did_iroutes mi = false ->
  core (doing_iroutes m i mi) /\ (coherent m -> coherent (doing_iroutes m i mi)).
Proof.
  intros Hc Hi Hh Hd. pose proof (cr_ok _ Hc) as [_ [K1 K2]]. apply core_insts; [done|split| | |].
  - intros j mj [[<- <-]|[_ Hj]]%lookup_insert_Some; [|by apply K1]. by destruct (K1 _ _ Hi).
  - intros l r Hl. rewrite lookup_insert_is_Some'. right. by eapply K2.
  - intros j mj [[<- <-]|[_ Hj]]%lookup_insert_Some; [|by apply (cr_clients _ Hc j)].
    destruct (cr_clients _ Hc _ _ Hi). split; try done. cbn. by rewrite Hh.
  - intros r Hr (mj & Hj & Hhj). apply lookup_insert_Some in Hj as [[E <-]|[_ Hj]]; [|by exists mj].
    exists mi. by rewrite <- E.
  - intros r mj Hr Hn Hj Hhj. apply lookup_insert_Some in Hj as [[E <-]|[_ Hj]]; [|by apply (cr_net _ Hc)].
    destruct (cr_net _ Hc r mi Hr Hn) as [Hd' _]; [by rewrite <- E|done|congruence].
Qed.

Lemma Zlen_map {A B} (f : A -> B) l : Zlen (map f l) = Zlen l.
Proof. unfold Zlen. by rewrite length_map. Qed.

(** Both loops of [multi_add_iroutes]. *)
Lemma add_both now script m i mi :
  core m -> helper_ok (mc_helper m) -> client_ok mi -> announcing m i (lens mi) -> room m (Zlen (lens mi)) ->
  exists m', (let! m := add_iroutes4 now script m i (mi_iroutes mi) in add_iroutes6 now script m i (mi_iroutes_ipv6 mi)) = Ret m'
    /\ announced_to m m' (lens mi).
Proof.
  intros Hc H1 [_ I4 I6] Han Hrm. unfold lens in Hrm. rewrite Zlen_app, !Zlen_map in Hrm.
  pose proof (Zlen_nonneg (mi_iroutes_ipv6 mi)). pose proof (Zlen_nonneg (mi_iroutes mi)).
  destruct (add_iroutes4_spec now script m i (lens mi) (mi_iroutes mi)) as (m1 & -> & A1); try done.
  { destruct Hrm as [R1 R2]. split; [lia|]. intros n Hn. specialize (R2 n Hn). lia. }
  { rewrite Forall_forall in *. intros ir Hir. split; [by apply I4|]. unfold lens. apply elem_of_app. left.
    by apply list_elem_of_fmap_2. }
  cbn [res_bind]. destruct (add_iroutes6_spec now script m1 i (lens mi) (mi_iroutes_ipv6 mi)) as (m2 & -> & A2);
    [apply A1|apply A1| | | |].
  { apply (room_after m m1 (map ir_netbits (mi_iroutes mi))); [done|by rewrite Zlen_map|done]. }
  { by apply (announcing_frame m); [apply A1|]. }
  { rewrite Forall_forall in *. intros ir Hir. split; [by apply I6|]. unfold lens. apply elem_of_app. right.
    by apply list_elem_of_fmap_2. }
  exists m2. split; [done|]. exact (announced_to_trans _ _ _ _ _ A1 A2).
Qed.

Lemma inv_add_iroutes now script m i mi :
  inv m -> mc_instances m !! i = Some mi -> mi_halt mi = false -> mi_did_iroutes mi = false -> room m (Zlen (lens mi)) ->
  exists m', multi_add_iroutes now script m i = Ret m' /\ inv m'.
Proof.
  intros [Hc Hco [H1 H2 H3 H4]] Hi Hh Hd Hrm. unfold multi_add_iroutes, deref. rewrite Hi. cbn [res_bind].
  destruct (Z.eqb_spec (mc_dev_type m) DEV_TYPE_TUN) as [Htun|]; [|by exists m].
  destruct (core_doing m i mi Hc Hi Hh Hd) as [Hc0 Hco0]. fold (doing_iroutes m i mi).
  destruct (add_both now script (doing_iroutes m i mi) i mi Hc0 H1) as (m' & Hr & [A1 A2 A3 A4 A5 A6]).
  { by apply (cr_clients _ Hc i). }
  { exists (set_did_iroutes mi true). cbn. by rewrite lookup_insert_eq. }
  { by destruct Hrm. }
  exists m'. split; [exact Hr|]. split; [done|by auto|]. pose proof A2 as (F1 & F2 & F3 & F4).
  assert (Ha : forall n, announced (mc_instances m') n = announced (mc_instances m) n + occ (lens mi) n).
  { intros n. rewrite <- (announced_same _ (mc_instances m') n Hc0 F4). unfold doing_iroutes. cbn [mc_instances set_instances].
    rewrite announced_insert. unfold contrib_at, contrib. rewrite Hi, Hd. cbn [mi_did_iroutes set_did_iroutes].
    change (lens (set_did_iroutes mi true)) with (lens mi). lia. }
  split; [done| | |].
  - intros n Hn. rewrite A5, Ha by done. cbn. by rewrite H2.
  - intros n Hn. rewrite Ha. pose proof (rm_count _ _ Hrm n Hn) as Hle. rewrite H2 in Hle by done. pose proof (occ_le (lens mi) n). lia.
  - intros j mj _ _. by rewrite F2.
Qed.

(** *** Closing *)
Lemma del_iroutes_spec mh ns :
  helper_ok mh -> Forall (fun n => 0 <= n < 129) ns ->
  (forall n, 0 <= n < 129 -> occ ns n <= nth (Z.to_nat n) (net_len_refcount mh) 0 <= INT_MAX) ->
  0 <= cache_generation mh -> cache_generation mh + Zlen ns < 2 ^ 32 ->
  exists mh', del_iroutes mh ns = Ret mh' /\ helper_ok mh' /\ cache_generation mh' = cache_generation mh + Zlen ns /\
    forall n, 0 <= n < 129 ->
      nth (Z.to_nat n) (net_len_refcount mh') 0 = nth (Z.to_nat n) (net_len_refcount mh) 0 - occ ns n.
Proof.
  intros Hok Hf. revert mh Hok. induction Hf as [|x ns Hx _ IH]; intros mh Hok Hc Hg0 Hg; cbn [del_iroutes].
  { exists mh. split_and!; try done; [rewrite Zlen_nil; lia|]. intros n Hn. unfold occ. cbn. lia. }
  rewrite Zlen_cons in Hg. pose proof (Zlen_nonneg ns). pose proof (Hc x Hx) as Hcx. rewrite occ_cons, decide_True in Hcx by done.
  pose proof (occ_le ns x). pose proof (del_iroute_spec mh x Hok Hx) as Hd. rewrite (proj2 (Z.ltb_lt _ _)) in Hd by lia.
  destruct Hd as (mh1 & -> & Hok1 & Hc1 & Hg1 & _); [lia|]. cbn [res_bind].
  rewrite u32_id in Hg1 by (unfold is_u32; lia).
  assert (Hcnt : forall n, 0 <= n < 129 -> nth (Z.to_nat n) (net_len_refcount mh1) 0
            = nth (Z.to_nat n) (net_len_refcount mh) 0 - (if decide (n = x) then 1 else 0)).
  { intros n Hn. rewrite Hc1, nth_add_count by (unfold Zlen; rewrite (ho_counts _ Hok); lia).
    destruct (decide (n = x)) as [->|]; [rewrite decide_True by done|rewrite decide_False by lia]; lia. }
  destruct (IH mh1 Hok1) as (mh2 & -> & Hok2 & Hg2 & Hc2).
  - intros n Hn. specialize (Hc n Hn). rewrite occ_cons in Hc. rewrite Hcnt by done. case_decide; lia.
  - lia.
  - lia.
  - exists mh2. split_and!; [done|done|rewrite Zlen_cons; lia|]. intros n Hn. rewrite Hc2, Hcnt, occ_cons by done. lia.
Qed.

(** The instance after its client has gone. *)
Definition gone (mi : multi_instance) : multi_instance :=
  mk_mi true (mi_refcount mi - 1) (mi_route_count mi) false (mi_max_routes mi) (mi_iroutes mi) (mi_iroutes_ipv6 mi).
Definition without (insts : gmap Z multi_instance) (i : Z) (mi : multi_instance) : gmap Z multi_instance :=
  if mi_refcount mi - 1 <=? 0 then delete i insts else <[i := gone mi]> insts.

Lemma without_Some insts i mi j mj :
  without insts i mi !! j = Some mj -> (j <> i /\ insts !! j = Some mj) \/ (j = i /\ mj = gone mi /\ 1 < mi_refcount mi).
Proof.
  unfold without. destruct (Z.leb_spec (mi_refcount mi - 1) 0).
  - rewrite lookup_delete_Some. intros [? ?]. left. split; [congruence|done].
  - intros [[<- <-]|[? ?]]%lookup_insert_Some; [right; split_and!; try done; lia|left; split; [congruence|done]].
Qed.

Lemma core_without m i mi :
  core m -> mc_instances m !! i = Some mi -> mi_halt mi = false ->
  core (set_instances m (without (mc_instances m) i mi))
  /\ (coherent m -> coherent (set_instances m (without (mc_instances m) i mi))).
Proof.
  intros Hc Hi Hh. pose proof (cr_ok _ Hc) as [_ [K1 K2]]. pose proof (K1 _ _ Hi) as [E1 E2 E3 E4 E5]. rewrite Hh in E2.
  apply core_insts; [done|split| | |].
  - intros j mj [[_ Hj]|(-> & -> & Hr)]%without_Some; [by apply K1|]. split; cbn; try done; lia.
  - intros l r Hl. destruct (K2 l r Hl) as [mj Hj]. unfold without. case_match eqn:Ez.
    + exists mj. rewrite lookup_delete_ne; [done|]. intros E. apply Z.leb_le in Ez.
      pose proof (owned_pos _ _ _ Hl) as Hp. rewrite <- E in Hp. lia.
    + rewrite lookup_insert_is_Some'. right. by exists mj.
  - intros j mj [[_ Hj]|(-> & -> & _)]%without_Some; [by apply (cr_clients _ Hc j)|].
    by destruct (cr_clients _ Hc _ _ Hi).
  - intros r Hr (mj & [[_ Hj]|(_ & -> & _)]%without_Some & Hhj); [by exists mj|done].
  - intros r mj Hr Hn [[_ Hj]|(_ & -> & _)]%without_Some Hhj; [by apply (cr_net _ Hc)|done].
Qed.

Lemma announced_without m i mi n :
  mc_instances m !! i = Some mi ->
  announced (without (mc_instances m) i mi) n = announced (mc_instances m) n - contrib n mi.
Proof.
  intros Hi. assert (E : contrib_at n (mc_instances m) i = contrib n mi) by (unfold contrib_at; by rewrite Hi).
  unfold without. case_match.
  - pose proof (announced_delete (mc_instances m) i n). lia.
  - rewrite announced_insert, E. cbn. lia.
Qed.

Lemma del_iroutes_app mh l k : del_iroutes mh (l ++ k) = (let! mh := del_iroutes mh l in del_iroutes mh k).
Proof. revert mh. induction l as [|n l IH]; intros mh; [done|]. cbn. rewrite res_bind_assoc. destruct (mroute_helper_del_iroute46 mh n); [apply IH|done..]. Qed.

(** The last reference of the client itself. *)
Lemma dec_refcount_gone m i mi mi1 insts :
  mc_instances m = <[i := mi1]> insts -> mi_refcount mi1 = mi_refcount mi -> is_int (mi_refcount mi - 1) ->
  with_counts mi1 (mi_refcount mi - 1) (mi_route_count mi1) = gone mi ->
  multi_instance_dec_refcount m i = Ret (set_instances m (without insts i mi)).
Proof.
  intros Hm Hr Hint Hg. unfold multi_instance_dec_refcount, deref, without. rewrite Hm, lookup_insert_eq. cbn [res_bind].
  rewrite Hr, c_int_ok by done. cbn [res_bind]. rewrite Hg. case_match; [by rewrite delete_insert_eq|by rewrite insert_insert_eq].
Qed.

Lemma lens_range mi : client_ok mi -> Forall (fun n => 0 <= n < 129) (lens mi).
Proof.
  intros [_ I4 I6]. unfold lens. apply Forall_app. split; apply Forall_map; [eapply Forall_impl; [exact I4|]|eapply Forall_impl; [exact I6|]];
    cbn; intros; lia.
Qed.

Lemma close_result m i mi :
  inv m -> mc_instances m !! i = Some mi -> mi_halt mi = false -> generation m + Zlen (lens mi) < 2 ^ 32 ->
  exists mh k, close_routing m i = Ret (set_instances (set_helper m mh) (without (mc_instances m) i mi)) /\
    helper_ok mh /\ 0 <= k /\ cache_generation mh = generation m + k /\ generation m + k < 2 ^ 32 /\
    forall n, 0 <= n < 129 -> nth (Z.to_nat n) (net_len_refcount mh) 0
      = nth (Z.to_nat n) (net_len_refcount (mc_helper m)) 0 - contrib n mi.
Proof.
  intros [Hc _ [H1 H2 H3 H4]] Hi Hh Hg. pose proof (cr_ok _ Hc) as [_ [K1 _]]. pose proof (K1 _ _ Hi) as [E1 E2 E3 E4 E5].
  rewrite Hh in E2. pose proof (cr_gen _ Hc) as Hu. unfold is_u32 in Hu. pose proof (Zlen_nonneg (lens mi)).
  assert (Hint : is_int (mi_refcount mi - 1)) by (unfold is_int, INT_MIN, INT_MAX in *; lia).
  unfold close_routing, deref. rewrite Hi. cbn [res_bind]. rewrite Hh. cbn [negb].
  destruct (mi_did_iroutes mi) eqn:Hd; cbn [res_bind].
  - unfold multi_del_iroutes, deref. cbn [mc_instances set_instances mc_dev_type mc_helper]. rewrite lookup_insert_eq.
    cbn [res_bind]. rewrite (H4 i mi Hi Hd), Z.eqb_refl. cbn [mi_iroutes mi_iroutes_ipv6 set_halt].
    destruct (del_iroutes_spec (mc_helper m) (lens mi) H1) as (mh & Hdel & Hok & Hgen & Hcnt).
    + by apply lens_range, (cr_clients _ Hc i).
    + intros n Hn. rewrite H2 by done. split; [|by apply H3].
      pose proof (announced_ge _ i mi n Hi) as Hge. unfold contrib in Hge. by rewrite Hd in Hge.
    + apply Hu.
    + exact Hg.
    + unfold lens in Hdel. rewrite del_iroutes_app in Hdel. rewrite <- res_bind_assoc, Hdel. cbn [res_bind].
      rewrite (dec_refcount_gone _ i mi (set_did_iroutes (set_halt mi) false) (mc_instances m)); [| |done|done|done].
      * exists mh, (Zlen (lens mi)). split_and!; try done; try lia. intros n Hn. rewrite Hcnt by done. unfold contrib. by rewrite Hd.
      * cbn. apply insert_insert_eq.
  - rewrite (dec_refcount_gone _ i mi (set_halt mi) (mc_instances m)); [|done|done|done|].
    + exists (mc_helper m), 0. split_and!; try done; try lia.
      * unfold generation. lia.
      * intros n Hn. unfold contrib. rewrite Hd. lia.
    + unfold with_counts, gone, set_halt. cbn. by rewrite Hd.
Qed.

Lemma inv_close m i mi :
  inv m -> mc_instances m !! i = Some mi -> mi_halt mi = false -> generation m + Zlen (lens mi) < 2 ^ 32 ->
  exists m', close_routing m i = Ret m' /\ inv m'.
Proof.
  intros Hinv Hi Hh Hg. destruct (close_result m i mi Hinv Hi Hh Hg) as (mh & k & -> & Hok & Hk & Hgen & Hlt & Hcnt).
  destruct Hinv as [Hc Hco [H1 H2 H3 H4]]. eexists. split; [reflexivity|].
  destruct (core_helper m mh k Hc Hk Hgen Hlt) as (Hc1 & _ & Hco1).
  destruct (core_without (set_helper m mh) i mi Hc1 Hi Hh) as [Hc2 Hco2].
  split; [exact Hc2|intros Hs; by apply Hco2, Hco1, Hco|]. split; [done| | |]; cbn [mc_instances set_instances set_helper mc_helper mc_dev_type].
  - intros n Hn. rewrite Hcnt, announced_without, H2 by done. done.
  - intros n Hn. rewrite announced_without by done. specialize (H3 n Hn). pose proof (contrib_nonneg n mi). lia.
  - intros j mj [[_ Hj]|(_ & -> & _)]%without_Some; [by apply (H4 j)|done].
Qed.

(** ** Reaping *)

(** Routes that no longer count may be removed. *)
Lemma inv_remove m m' :
  inv m -> ok m' -> frame m m' -> (forall r, has m' r -> has m r) ->
  (stale_routes_check = false -> forall r, has m r -> net_key (mr_addr r) -> live (mc_instances m) r -> has m' r) ->
  inv m'.
Proof.
  intros [Hc Hco Hh] Hok Hf Hsub Hkeep. pose proof Hf as (F1 & _ & _ & _ & F5).
  split; [| |by apply (helper_rel_frame m)].
  - destruct Hc as [C1 C2 C3 C4 C5 C6]. split; unfold generation; rewrite ?F1; try done; auto.
    + intros i mi' Hi. specialize (F5 i). rewrite Hi in F5. unfold static in F5.
      destruct (mc_instances m !! i) as [mi|] eqn:E; [|done]. injection F5 as E1 E2 E3 E4 E5.
      destruct (C2 i mi E) as [K1 K2 K3]. split; [rewrite <- E1, <- E2; exact K1|by rewrite <- E4|by rewrite <- E5].
    + intros r mi' Hr Hn Hi Hhi. specialize (F5 (mr_instance r)). rewrite Hi in F5. unfold static in F5.
      destruct (mc_instances m !! mr_instance r) as [mi|] eqn:E; [|done]. injection F5 as E1 E2 E3 E4 E5.
      assert (El : lens mi' = lens mi) by (unfold lens; congruence). rewrite El, <- E2. apply (C5 r mi); auto. congruence.
  - intros Hs r Hr Hcd Hg Hl. apply (best_keep m).
    + apply (Hco Hs); [auto|done|unfold generation in *; by rewrite <- F1|by rewrite (live_same _ _ r F5)].
    + intros r' (Hr' & Hl' & Hcv). split_and!; [auto|by rewrite (live_same _ _ r' F5)|done].
    + intros r' (Hr' & Hl' & Hcv) _. split_and!; [apply (Hkeep Hs); try done; apply Hcv|by rewrite <- (live_same _ _ r' F5)|done].
Qed.

(** A pass over the table whose loop deletes the routes that [sel] selects. *)
Section Pass.
Context (body : multi_context -> Z -> res (bool * multi_context)) (sel : multi_context -> multi_route -> bool).
Context (sel_frame : forall m m' r, frame m m' -> sel m' r = sel m r).
Context (body_spec : forall m l r, mc_routes m !! l = Some r -> is_Some (mc_instances m !! mr_instance r) ->
  body m l = if sel m r then let! m := multi_route_del m l in Ret (true, m) else Ret (false, m)).

Definition picked (m : multi_context) (l : Z) : bool :=
  match mc_routes m !! l with Some r => sel m r | None => false end.

(** The loop over the routes [ls] of [m], some of whose other routes are already gone in
    [mk]. *)
Lemma pass_scanned m ls mk :
  NoDup ls -> (forall l, l ∈ ls -> is_Some (mc_routes m !! l) /\ mc_routes mk !! l = mc_routes m !! l) ->
  counts_ok (mc_instances mk) (mc_routes mk) -> frame m mk ->
  exists m', scanned body (picked m) mk ls m' /\ counts_ok (mc_instances m') (mc_routes m') /\ frame m m' /\
    forall l, mc_routes m' !! l = if decide (l ∈ ls /\ picked m l = true) then None else mc_routes mk !! l.
Proof.
  intros Hnd. revert mk. induction Hnd as [|l ls Hl Hnd IH]; intros mk Hls Hc Hf.
  { exists mk. split; [constructor|]. by split_and!. }
  destruct (Hls l) as [[r Hr] Hk]; [left|]. rewrite Hr in Hk.
  assert (Hdef : picked m l = sel mk r) by (unfold picked; rewrite Hr; by rewrite (sel_frame m mk)).
  assert (Hinst : is_Some (mc_instances mk !! mr_instance r)) by (by eapply ck_route).
  assert (Hbody : exists mk1, body mk l = Ret (picked m l, mk1) /\ counts_ok (mc_instances mk1) (mc_routes mk1) /\ frame m mk1
            /\ mc_routes mk1 = if picked m l then delete l (mc_routes mk) else mc_routes mk).
  { rewrite (body_spec mk l r Hk Hinst), Hdef. destruct (sel mk r); [|by exists mk].
    destruct (route_del_spec mk l r Hc Hk) as (insts & -> & Hc' & Hs'). cbn [res_bind]. eexists. split_and!; [reflexivity|done| |done].
    transitivity mk; [done|]. by split_and!. }
  destruct Hbody as (mk1 & Hb & Hc1 & Hf1 & Hr1).
  destruct (IH mk1) as (m' & Hs & Hc' & Hf' & Hr'); [|done|done|].
  { intros l' Hl'. destruct (Hls l') as [H1 H2]; [by right|]. split; [done|]. rewrite Hr1.
    destruct (picked m l); [|done]. rewrite lookup_delete_ne; [done|]. by intros <-. }
  exists m'. split; [by econstructor|]. split_and!; try done. intros l'. rewrite Hr', Hr1.
  destruct (decide (l' = l)) as [->|Hne].
  - rewrite decide_False by tauto. destruct (picked m l) eqn:E.
    + rewrite decide_True by (split; [left|done]). apply lookup_delete_eq.
    + by rewrite decide_False by (intros [_ ?]; congruence).
  - assert (Hiff : l' ∈ l :: ls <-> l' ∈ ls) by (rewrite elem_of_cons; tauto).
    destruct (decide (l' ∈ ls /\ picked m l' = true)) as [Hd|Hd]; [by rewrite decide_True by tauto|].
    rewrite decide_False by tauto. destruct (picked m l); [by rewrite lookup_delete_ne|done].
Qed.

(** Of a list of pairs with distinct locations the middle is filtered. *)
Lemma filter_mid_spec (A B C : list (mroute_addr * Z)) (p : Z -> bool) :
  NoDup (A ++ B ++ C).*2 ->
  NoDup (A ++ filter (fun q => p q.2 = false) B ++ C).*2 /\
  forall k l, (k, l) ∈ A ++ filter (fun q => p q.2 = false) B ++ C <->
              (k, l) ∈ A ++ B ++ C /\ ~ (l ∈ B.*2 /\ p l = true).
Proof.
  intros Hnd. split.
  - eapply sublist_NoDup; [exact Hnd|]. apply fmap_sublist, sublist_app, sublist_app; [done|apply sublist_filter|done].
  - rewrite !fmap_app in Hnd. apply NoDup_app in Hnd as (_ & HA & Hnd). apply NoDup_app in Hnd as (_ & HB & _).
    assert (Hfst : forall k l (X : list (mroute_addr * Z)), (k, l) ∈ X -> l ∈ X.*2)
      by (intros k l X HX; apply list_elem_of_fmap; by exists (k, l)).
    intros k l. rewrite !elem_of_app, list_elem_of_filter. cbn [snd]. split.
    + intros [Hk|[[Hs Hk]|Hk]]; (split; [tauto|]); intros [Hl Hs'].
      * apply (HA l); [by eapply Hfst|]. apply elem_of_app. by left.
      * congruence.
      * apply (HB l Hl). by eapply Hfst.
    + intros [[Hk|[Hk|Hk]] Hn]; [auto| |auto]. right. left. split; [|done].
      destruct (p l) eqn:E; [|done]. exfalso. apply Hn. split; [by eapply Hfst|done].
Qed.

(** The table after a pass over the buckets [a .. e - 1]. *)
Lemma table_pass m a e :
  inv m -> 0 <= a <= Z.min e (n_buckets (mc_vhash m)) ->
  exists m', (let! (h, m) := hash_scan_range body (mc_vhash m) a e m in Ret (set_vhash m h)) = Ret m' /\
    ok m' /\ frame m m' /\
    forall l, mc_routes m' !! l = if decide (l ∈ range_values (mc_vhash m) a e /\ picked m l = true) then None else mc_routes m !! l.
Proof.
  intros Hinv Ha. pose proof (cr_ok _ (iv_core _ Hinv)) as [Ht Hc]. pose proof Ht as [T1 T2 T3 T4].
  destruct (range_pairs (mc_vhash m) a e T1) as [Hsp Hvals]. rewrite Hsp in T3.
  destruct (filter_mid_spec _ _ _ (picked m) T3) as [Hnd' Hmem]. rewrite <- Hsp in Hmem. setoid_rewrite Hvals in Hmem.
  set (vs := range_values (mc_vhash m) a e) in *.
  destruct (pass_scanned m vs m) as (m' & Hs & Hc' & Hf & Hr); [| |done|done|].
  { rewrite <- Hvals. rewrite !fmap_app in T3. apply NoDup_app in T3 as (_ & _ & T3). by apply NoDup_app in T3 as (? & _ & _). }
  { intros l Hl. rewrite <- Hvals in Hl. apply list_elem_of_fmap in Hl as ([k l'] & -> & Hl).
    destruct (T2 k l') as (r & Hr & _); [rewrite Hsp, !elem_of_app; auto|]. by split. }
  destruct (hash_scan_range_pairs body (picked m) (mc_vhash m) a e m m' T1 Ha Hs) as (h' & -> & Hw & Hp).
  cbn [res_bind]. eexists. split; [reflexivity|]. rewrite <- Hp in Hnd', Hmem. split; [|done]. split; [|done].
  split; [done| |done|]; cbn [mc_vhash mc_routes set_vhash].
  - intros k l [Hk Hn]%Hmem. rewrite Hr, decide_False by done. by apply T2.
  - intros l r. rewrite Hr. case_decide as Hd; [done|]. intros Hl. apply list_elem_of_fmap. exists (mr_addr r, l).
    split; [done|]. apply Hmem. split; [by apply route_pair|done].
Qed.

Lemma inv_pass m a e :
  inv m -> 0 <= a <= Z.min e (n_buckets (mc_vhash m)) ->
  (stale_routes_check = false -> forall r, has m r -> net_key (mr_addr r) -> live (mc_instances m) r -> sel m r = false) ->
  exists m', (let! (h, m) := hash_scan_range body (mc_vhash m) a e m in Ret (set_vhash m h)) = Ret m' /\
    inv m' /\ frame m m' /\
    forall l, mc_routes m' !! l = if decide (l ∈ range_values (mc_vhash m) a e /\ picked m l = true) then None else mc_routes m !! l.
Proof.
  intros Hinv Ha Hsel. destruct (table_pass m a e Hinv Ha) as (m' & -> & Hok & Hf & Hr).
  exists m'. split; [done|]. split; [|done]. apply (inv_remove m); try done.
  - intros r [l Hl]. rewrite Hr in Hl. case_decide; [done|]. by exists l.
  - intros Hs r [l Hl] Hn Hlv. exists l. rewrite Hr, decide_False; [done|]. intros [_ Hd]. unfold picked in Hd. rewrite Hl in Hd.
    rewrite (Hsel Hs r) in Hd; [done|by exists l|done|done].
Qed.
End Pass.

Section Reap.
Context (now : Z).

Definition expired (m : multi_context) (r : multi_route) : bool := negb (defined now m r).
Definition is_stale (m : multi_context) (r : multi_route) : bool :=
  defined now m r && (mc_stale_ageing_time m <=? now - mr_last_reference r).
Definition reaped : multi_context -> Z -> bool := picked expired.

Lemma inv_reap m a e :
  inv m -> 0 <= a <= Z.min e (n_buckets (mc_vhash m)) ->
  exists m', (let! (h, m) := hash_scan_range (reap_body now) (mc_vhash m) a e m in Ret (set_vhash m h)) = Ret m' /\
    inv m' /\ frame m m' /\
    forall l, mc_routes m' !! l = if decide (l ∈ range_values (mc_vhash m) a e /\ reaped m l = true) then None else mc_routes m !! l.
Proof.
  intros Hinv Ha. apply inv_pass; [| |done|done|].
  - intros m0 m1 r Hf. unfold expired. by rewrite (defined_frame now m0 m1).
  - intros m0 l r Hr Hi. unfold reap_body, deref, expired. rewrite Hr. cbn [res_bind]. rewrite defined_spec by done.
    cbn [res_bind]. by destruct (defined now m0 r).
  - intros _ r Hr Hn Hlv. unfold expired. rewrite defined_plain by (by apply (net_not_cached m); [apply Hinv|..]).
    apply liveb_spec in Hlv. by rewrite Hlv.
Qed.

Lemma inv_stale m :
  inv m -> stale_routes_check = true -> exists m', check_stale_routes now m = Ret m' /\ inv m'.
Proof.
  intros Hinv Hs. pose proof (tk_hash _ (core_table _ (iv_core _ Hinv))) as Hw.
  destruct (inv_pass (stale_body now) is_stale) with (m := m) (a := 0) (e := n_buckets (mc_vhash m)) as (m' & Hr & Hi & _); try done.
  - intros m0 m1 r Hf. unfold is_stale. rewrite (defined_frame now m0 m1) by done. by destruct Hf as (_ & _ & _ & -> & _).
  - intros m0 l r Hr Hi. unfold stale_body, deref, is_stale. rewrite Hr. cbn [res_bind]. by rewrite defined_spec by done.
  - destruct (hw_size _ Hw) as (p & Hp & ->). pose proof (Z.pow_nonneg 2 p). lia.
  - congruence.
  - by exists m'.
Qed.
End Reap.

(** ** The server as a machine *)
Lemma lookup_plain_spec now script m addr :
  inv m ->
  exists m', multi_get_instance_by_virtual_addr now script m addr false
      = Ret (if mroute_addr_equal addr (mc_local m) then None else owner_at now m addr, m') /\ inv m' /\ frame m m'.
Proof.
  intros Hinv. unfold multi_get_instance_by_virtual_addr. destruct (mroute_addr_equal addr (mc_local m)); [by exists m|].
  destruct (lookup_owner now m addr Hinv) as (h & Hre & -> & Ho). cbn [res_bind]. rewrite Ho. cbn [res_bind].
  destruct (reordered_spec m (set_vhash m h) Hinv Hre) as (Hinv1 & Hfr & _).
  destruct (owner_at now m addr) as [j|] eqn:Eo; [|by exists (set_vhash m h)].
  unfold owner_at, rt in Eo. destruct (spec_lookup (pairs (mc_vhash m)) addr) as [l|]; [|done]. cbn in Eo.
  destruct (mc_routes m !! l) as [r|] eqn:El; [|done]. cbn in Eo. destruct (defined now m r) eqn:D; [|done].
  injection Eo as <-. unfold touch_route, deref. cbn [mc_routes set_vhash]. rewrite El. cbn [res_bind mc_instances set_routes set_vhash].
  unfold defined in D. apply andb_true_iff in D as [[(mi & Hi & Hh)%liveb_spec _]%andb_true_iff _]. rewrite Hi. cbn [res_bind].
  rewrite Hh. cbn [negb]. eexists. split; [reflexivity|]. split; [|by split_and!]. by apply (inv_touch now (set_vhash m h)).
Qed.

Inductive event : Type :=
| EConnect (i max_routes : Z) (irs : list iroute) (irs6 : list iroute_ipv6)
| EIroutes (i : Z)
| ELearn (i : Z) (addr : mroute_addr)
| ELookup (addr : mroute_addr) (cidr_routing : bool)
| EClose (i : Z)
| EReap (start_bucket end_bucket : Z)
| EStale.

Definition exec (now : Z) (script : option Z -> learn_op -> mroute_addr -> bool) (m : multi_context) (ev : event)
  : res (option Z * multi_context) :=
  match ev with
  | EConnect i max_routes irs irs6 =>
      Ret (None, set_instances m (<[i := connected max_routes irs irs6]> (mc_instances m)))
  | EIroutes i => let! m := multi_add_iroutes now script m i in Ret (None, m)
  | ELearn i addr => multi_learn_addr now script m i addr 0
  | ELookup addr cidr => multi_get_instance_by_virtual_addr now script m addr cidr
  | EClose i => let! m := close_routing m i in Ret (None, m)
  | EReap a e => let! m := multi_reap_range now m a e in Ret (None, m)
  | EStale => let! m := check_stale_routes now m in Ret (None, m)
  end.

(** A client that is connected. *)
Definition present (m : multi_context) (i : Z) (mi : multi_instance) : Prop :=
  mc_instances m !! i = Some mi /\ mi_halt mi = false.

(** When the events happen: what the callers see to, and counters that do not overflow.
    Stale routes are looked for only if the option is given. *)
Definition event_ok (m : multi_context) (ev : event) : Prop :=
  match ev with
  | EConnect i max_routes irs irs6 =>
      mc_instances m !! i = None /\ 0 <= max_routes < INT_MAX /\ client_ok (connected max_routes irs irs6)
  | EIroutes i => exists mi, present m i mi /\ mi_did_iroutes mi = false /\ room m (Zlen (lens mi))
  | ELearn i addr => (exists mi, present m i mi) /\ nonnet addr
  | ELookup addr cidr => cidr = true -> host_key addr
  | EClose i => exists mi, present m i mi /\ generation m + Zlen (lens mi) < 2 ^ 32
  | EReap a e => 0 <= a -> a <= Z.min e (n_buckets (mc_vhash m))
  | EStale => stale_routes_check = true
  end.

Lemma exec_inv now script m ev :
  inv m -> event_ok m ev -> exists o m', exec now script m ev = Ret (o, m') /\ inv m'.
Proof.
  intros Hinv Hev. destruct ev as [i mx irs irs6|i|i addr|addr cidr|i|a e|]; cbn [exec event_ok] in *.
  - destruct Hev as (H1 & H2 & H3). eexists _, _. split; [reflexivity|]. by apply inv_connect.
  - destruct Hev as (mi & [H1 H2] & H3 & H4). destruct (inv_add_iroutes now script m i mi Hinv H1 H2 H3 H4) as (m' & -> & Hi).
    by exists None, m'.
  - destruct Hev as [(mi & H1 & H2) H3]. destruct (inv_learn now script m i mi addr 0 Hinv H1 H2 H3) as (m' & -> & _ & Hi);
      [by left|]. by eexists _, m'.
  - destruct cidr.
    + destruct (lookup_spec now script m addr Hinv (Hev eq_refl)) as (o & m' & -> & Hi & _). by exists o, m'.
    + destruct (lookup_plain_spec now script m addr Hinv) as (m' & -> & Hi & _). by eexists _, m'.
  - destruct Hev as (mi & [H1 H2] & H3). destruct (inv_close m i mi Hinv H1 H2 H3) as (m' & -> & Hi). by exists None, m'.
  - unfold multi_reap_range. pose proof (tk_hash _ (core_table _ (iv_core _ Hinv))) as Hw.
    assert (0 <= n_buckets (mc_vhash m)) by (destruct (hw_size _ Hw) as (p & Hp & ->); apply Z.pow_nonneg; lia).
    destruct (Z.ltb_spec a 0).
    + destruct (inv_reap now m 0 (n_buckets (mc_vhash m)) Hinv) as (m' & Hr & Hi & _); [lia|].
      unfold hash_n_buckets. rewrite Hr. by exists None, m'.
    + destruct (inv_reap now m a e Hinv) as (m' & -> & Hi & _); [lia|]. by exists None, m'.
  - destruct (inv_stale now m Hinv Hev) as (m' & -> & Hi). by exists None, m'.
Qed.

Definition server_init (h : hash mroute_addr Z) (local : mroute_addr) (dev_type ageing : Z) : multi_context :=
  mk_mc ∅ ∅ h (mroute_helper_init MULTI_CACHE_ROUTE_TTL) local dev_type ageing.

Lemma inv_init h local dev ageing : hash_wf h -> pairs h = [] -> inv (server_init h local dev ageing).
Proof.
  intros Hw Hp. assert (Hno : forall r, ~ has (server_init h local dev ageing) r) by (intros r [l Hl]; cbn in Hl; by rewrite lookup_empty in Hl).
  split.
  - split; try (intros r ?; by destruct (Hno r)).
    + split; [split; cbn; try done|split; cbn; by intros ? ? ?%lookup_empty_Some].
      * rewrite Hp. by intros ? ? ?%not_elem_of_nil.
      * rewrite Hp. constructor.
    + intros i mi Hi. cbn in Hi. by rewrite lookup_empty in Hi.
    + intros r mi Hr. by destruct (Hno r).
    + by split.
  - intros _ r Hr. by destruct (Hno r).
  - split; cbn [server_init mc_helper mc_instances].
    + apply helper_init_ok.
    + intros n _. cbn [mroute_helper_init net_len_refcount]. rewrite nth_replicate_0. reflexivity.
    + intros n _. by change (announced ∅ n) with 0.
    + intros i mi Hi. cbn in Hi. by rewrite lookup_empty in Hi.
Qed.

(** States of a server that started with an empty table of [n] buckets. *)
Inductive reachable : multi_context -> Prop :=
| reach_init n iv h local dev ageing : 0 < n <= 2 ^ 30 -> hash_init n iv = Ret h -> reachable (server_init h local dev ageing)
| reach_step now script m ev o m' : reachable m -> event_ok m ev -> exec now script m ev = Ret (o, m') -> reachable m'.

Lemma reachable_inv m : reachable m -> inv m.
Proof.
  induction 1 as [n iv h local dev ageing Hn Hh|now script m ev o m' _ IH Hev Hex].
  - destruct (hash_init_spec (K := mroute_addr) (V := Z) n iv Hn) as (h' & Hh' & Hw & Hp). rewrite Hh in Hh'.
    injection Hh' as <-. by apply inv_init.
  - destruct (exec_inv now script m ev IH Hev) as (o' & m'' & Hex' & Hi). congruence.
Qed.

End StaleRoutesCheck.

(** *** An example: two clients, the network of one inside that of the other *)
Definition next (now : Z) (m : multi_context) (ev : event) : multi_context :=
  match exec now (fun _ _ _ => true) m ev with Ret (_, m') => m' | _ => m end.

Lemma reachable_next stale now m ev : reachable stale m -> event_ok stale m ev -> reachable stale (next now m ev).
Proof.
  intros Hr Hev. destruct (exec_inv stale now (fun _ _ _ => true) m ev (reachable_inv stale m Hr) Hev) as (o & m' & Hex & _).
  unfold next. rewrite Hex. by eapply reach_step.
Qed.

Lemma room_bound m k :
  generation m + k < 2 ^ 32 -> k <= INT_MAX -> Forall (fun c => c + k <= INT_MAX) (net_len_refcount (mc_helper m)) -> room m k.
Proof.
  intros H1 H0 H2. split; [done|]. intros n _. rewrite nth_lookup.
  destruct (_ !! Z.to_nat n) as [c|] eqn:E; cbn; [|done]. exact (Forall_lookup_1 _ _ _ _ H2 E).
Qed.

Definition ip4 (a b c d : Z) : mroute_addr := mroute_extract_in_addr_t mroute_addr_init (be_val [a; b; c; d]).
Definition ex_hash : hash mroute_addr Z := mk_hash 4 0 3 7 (replicate 4 []).
Definition ex_m0 : multi_context := server_init ex_hash (ip4 10 255 0 1) DEV_TYPE_TUN 100.
Definition ex_m1 := next 1000 ex_m0 (EConnect 1 256 [mk_iroute (be_val [10; 0; 0; 0]) 8] []).
Definition ex_m2 := next 1001 ex_m1 (EIroutes 1).
Definition ex_m3 := next 1002 ex_m2 (EConnect 2 256 [mk_iroute (be_val [10; 1; 0; 0]) 16] []).
Definition ex_m4 := next 1003 ex_m3 (EIroutes 2).
Definition ex_m5 := next 1004 ex_m4 (ELookup (ip4 10 1 2 3) true).
Definition ex_m6 := next 1005 ex_m5 (EClose 2).

Lemma host_ip4 a b c d : host_key (ip4 a b c d).
Proof.
  split_and!; try done; [|by left]. split.
  - apply bytes_ok_overwrite; [apply init_raw|apply be_bytes_ok].
  - apply (length_overwrite (raw_addr mroute_addr_init)). rewrite length_be_bytes. cbn. lia.
Qed.

Ltac ex_iroutes :=
  eexists; split; [split; [vm_compute; reflexivity|reflexivity]|]; split; [reflexivity|];
  apply room_bound; [done|done|apply (bool_decide_unpack _); vm_compute; exact I].
Ltac ex_connect :=
  split; [vm_compute; reflexivity|]; split; [done|]; split; [done| |constructor];
  repeat constructor; cbn; done.

Lemma ex_m4_reachable stale : reachable stale ex_m4.
Proof.
  apply reachable_next; [apply reachable_next; [apply reachable_next; [apply reachable_next|]|]|].
  - by apply (reach_init stale 4 7).
  - ex_connect.
  - ex_iroutes.
  - ex_connect.
  - ex_iroutes.
Qed.
Lemma ex_m6_reachable stale : reachable stale ex_m6.
Proof.
  apply reachable_next; [apply reachable_next; [apply ex_m4_reachable|]|].
  - intros _. apply host_ip4.
  - eexists. split; [split; [vm_compute; reflexivity|reflexivity]|vm_compute; reflexivity].
Qed.

(** C38: safety of the address table.  In every state that a server reaches by clients
    connecting, announcing networks, being learned, being looked up, disconnecting and
    being reaped, and by the check for stale routes where the server runs with
    --stale-routes-check, the next such step returns: no assertion fails, no array is left and
    no freed route or instance is touched.  Afterwards the reference count of every
    instance is the number of its routes plus one while its client is connected, so
    that it is freed exactly when neither is left, and every route is found under its
    own address and points to an instance that exists. *)
Theorem routing_safe stale now script m ev :
  reachable stale m -> event_ok stale m ev ->
  exists o m', exec now script m ev = Ret (o, m') /\
    (forall i mi, mc_instances m' !! i = Some mi ->
       mi_refcount mi = owned (mc_routes m') i + (if mi_halt mi then 0 else 1) /\ 0 < mi_refcount mi) /\
    (forall l r, mc_routes m' !! l = Some r ->
       rt m' (mr_addr r) = Some r /\ is_Some (mc_instances m' !! mr_instance r)).
Proof.
  intros Hr Hev. destruct (exec_inv stale now script m ev (reachable_inv stale m Hr) Hev) as (o & m' & Hex & [Hc _ _]).
  exists o, m'. split; [done|]. destruct (cr_ok _ Hc) as [Ht [K1 K2]]. split.
  - intros i mi Hi. destruct (K1 i mi Hi) as [E1 E2 E3 _ _]. by rewrite <- E1.
  - intros l r Hl. split; [|by eapply K2]. apply has_rt; [done|by exists l].
Qed.

Lemma routing_safe_witness :
  exists m1 m2, exec 1006 (fun _ _ _ => true) ex_m6 (EReap (-1) 0) = Ret (None, m1) /\
    exec 1206 (fun _ _ _ => true) ex_m6 EStale = Ret (None, m2) /\
    (forall l r, mc_routes m1 !! l = Some r -> is_Some (mc_instances m1 !! mr_instance r)) /\
    (forall l r, mc_routes m2 !! l = Some r -> is_Some (mc_instances m2 !! mr_instance r)).
Proof.
  destruct (routing_safe false 1006 (fun _ _ _ => true) ex_m6 (EReap (-1) 0) (ex_m6_reachable false)) as (o1 & m1 & H1 & _ & R1).
  { cbn. lia. }
  destruct (routing_safe true 1206 (fun _ _ _ => true) ex_m6 EStale (ex_m6_reachable true) eq_refl) as (o2 & m2 & H2 & _ & R2).
  assert (E1 : o1 = None) by (vm_compute in H1; congruence). assert (E2 : o2 = None) by (vm_compute in H2; congruence).
  exists m1, m2. rewrite <- E1 at 1. rewrite <- E2. split; [exact H1|]. split; [exact H2|]. split.
  - intros l r Hl. apply (R1 l r Hl).
  - intros l r Hl. apply (R2 l r Hl).
Defined.

(** C36: lookups follow the longest prefix.  In every reachable state, stale checks or not,
    the lookup of a host address returns, and answers with nobody if the address is the
    server's own; otherwise with the client of the entry for this very address, cached or
    learned, or, where no entry counts, with exactly the client that announced the longest
    network around it.  In a server without --stale-routes-check the cache is moreover
    invisible: the answer is exactly the connected client that was learned for this very
    address, or else the one that announced the longest network around it, or nobody if
    there is neither; the host routes cached by earlier lookups never change it.  With
    the check they do ([stale_check_drops_used_network]). *)
Theorem lookup_longest_prefix stale now script m addr :
  reachable stale m -> host_key addr ->
  exists o m', multi_get_instance_by_virtual_addr now script m addr true = Ret (o, m') /\
    (forall j, o = Some j <-> mroute_addr_equal addr (mc_local m) = false /\ answer now m addr j) /\
    (stale = false -> forall j, o = Some j <-> mroute_addr_equal addr (mc_local m) = false /\ routes_to m addr j).
Proof.
  intros Hr Ha. pose proof (reachable_inv stale m Hr) as Hinv.
  destruct (lookup_spec stale now script m addr Hinv Ha) as (o & m' & -> & _ & _ & Ho). exists o, m'. split; [done|].
  assert (H : forall j, o = Some j <-> mroute_addr_equal addr (mc_local m) = false /\ answer now m addr j).
  { intros j. destruct (mroute_addr_equal addr (mc_local m)); [subst; split; [done|by intros []]|].
    destruct o as [j'|]; (split; [try (by intros [= ->]); done|]); intros [_ Hj].
    - f_equal. by apply (answer_unique now m addr); [apply Hinv| | |].
    - by destruct (Ho j). }
  split; [exact H|]. intros Hs j. rewrite H. by rewrite (answer_routes_to stale now m addr j Hinv Hs Ha).
Qed.

Lemma lookup_longest_prefix_witness :
  exists o m', multi_get_instance_by_virtual_addr 1004 (fun _ _ _ => true) ex_m4 (ip4 10 1 2 3) true = Ret (o, m') /\
    o = Some 2 /\ answer 1004 ex_m4 (ip4 10 1 2 3) 2 /\ routes_to ex_m4 (ip4 10 1 2 3) 2.
Proof.
  destruct (lookup_longest_prefix false 1004 (fun _ _ _ => true) ex_m4 (ip4 10 1 2 3) (ex_m4_reachable false)) as (o & m' & H & Ha & Ho);
    [apply host_ip4|].
  exists o, m'. assert (E : o = Some 2) by (vm_compute in H; congruence).
  split; [exact H|]. split; [exact E|]. split; [apply (Ha 2); exact E|apply (Ho eq_refl 2); exact E].
Defined.

(** The answers before and after the client with the longer network is gone, with the
    address in the cache. *)
Example cache_follows_clients :
  (match exec 1006 (fun _ _ _ => true) ex_m5 (ELookup (ip4 10 1 2 3) true) with Ret (o, _) => o | _ => None end,
   match exec 1006 (fun _ _ _ => true) ex_m6 (ELookup (ip4 10 1 2 3) true) with Ret (o, _) => o | _ => None end)
  = (Some 2, Some 1).
Proof. vm_compute. reflexivity. Qed.

(** Learning an address.  For a connected client the call returns; the address is
    entered exactly when it does not belong to this client already, is learnable and not
    the server's own, the client is below its quota and the scripts agree; then the client
    becomes the answer and the new route the entry of this address, and otherwise the
    present owner is the answer and nothing changes.  No other entry changes. *)
Lemma learn_exact stale now script m i mi addr flags :
  reachable stale m -> present m i mi -> key_ok addr ->
  exists m', multi_learn_addr now script m i addr flags
      = Ret (if learns now script m i addr then Some i else owner_at now m addr, m') /\
    forall k, rt m' k = if learns now script m i addr && mroute_addr_equal addr k
                        then Some (new_route now m i addr flags) else rt m k.
Proof.
  intros Hr [Hi Hh] Hk. destruct (learn_spec now script m i mi addr flags) as (m' & -> & _ & _ & Hrt); try done.
  - by apply reachable_inv in Hr as [[Hok _ _ _ _ _] _ _].
  - by apply key_raw.
  - exists m'. split; [done|]. exact Hrt.
Qed.

Lemma range_all_values (h : hash mroute_addr Z) : hash_wf h -> range_values h 0 (n_buckets h) = (pairs h).*2.
Proof.
  intros Hw. destruct (range_pairs h 0 (n_buckets h) Hw) as [_ <-]. unfold range_in, pairs. by rewrite range_all by apply Hw.
Qed.

(** The reaper frees what is left of clients that are gone, and only that.  From every
    reachable state a full pass returns; afterwards the routes are exactly those that
    still count, and no instance of a disconnected client is left in memory. *)
Lemma reap_all_exact stale now m :
  reachable stale m ->
  exists m', multi_reap_all now m = Ret m' /\
    (forall r, has m' r <-> has m r /\ defined now m r = true) /\
    (forall i mi, mc_instances m' !! i = Some mi -> mi_halt mi = false).
Proof.
  intros Hr. pose proof (reachable_inv stale m Hr) as Hinv. pose proof (core_table _ (iv_core _ _ Hinv)) as Ht.
  assert (Hn : 0 <= n_buckets (mc_vhash m)) by (destruct (hw_size _ (tk_hash _ Ht)) as (p & Hp & ->); apply Z.pow_nonneg; lia).
  destruct (inv_reap stale now m 0 (n_buckets (mc_vhash m)) Hinv) as (m' & Hex & Hinv' & Hf & Hl); [lia|].
  exists m'. split; [exact Hex|]. rewrite range_all_values in Hl by apply Ht.
  assert (Hhas : forall r, has m' r <-> has m r /\ defined now m r = true).
  { intros r. split.
    - intros [l E]. rewrite Hl in E. case_decide as Hd; [done|]. split; [by exists l|]. apply not_false_is_true. intros D.
      apply Hd. split; [by eapply tk_dom|]. unfold reaped, picked, expired. by rewrite E, D.
    - intros [[l E] D]. exists l. rewrite Hl, decide_False; [done|]. intros [_ Hd]. unfold reaped, picked, expired in Hd. by rewrite E, D in Hd. }
  split; [done|]. intros i mi Hi. destruct (mi_halt mi) eqn:Hh; [|done]. exfalso.
  pose proof (cr_ok _ (iv_core _ _ Hinv')) as [_ [K1 _]]. destruct (K1 i mi Hi) as [E1 E2 E3 _ _]. rewrite Hh in E2.
  rewrite owned_zero in E1; [lia|]. intros l r Hlr E.
  assert (Hr' : has m' r) by (by exists l). apply Hhas in Hr' as [_ D]. rewrite <- (defined_frame now m m') in D by done.
  unfold defined, liveb in D. rewrite E, Hi, Hh in D. done.
Qed.

(** *** Two behaviours that a reader of the documentation might not expect *)

Definition ex_used : multi_context := next 1100 (next 1050 ex_m2 (ELookup (ip4 10 2 0 1) true)) (ELookup (ip4 10 2 0 1) true).
(** [check_stale_routes] looks at the time of the last use, which a network route does
    not have: its use goes to the cached host routes.  A network in use 2 seconds ago is
    deleted 100 seconds, the ageing time, after it was learned, and a host that is not in
    the cache loses its route. *)
Lemma stale_check_drops_used_network :
  match exec 1102 (fun _ _ _ => true) ex_used (ELookup (ip4 10 2 0 9) true), check_stale_routes 1102 ex_used with
  | Ret (before, _), Ret m' =>
      before = Some 1 /\
      match exec 1102 (fun _ _ _ => true) m' (ELookup (ip4 10 2 0 9) true),
            exec 1102 (fun _ _ _ => true) m' (ELookup (ip4 10 2 0 1) true) with
      | Ret (after, _), Ret (cached, _) => after = None /\ cached = Some 1
      | _, _ => False
      end
  | _, _ => False
  end.
Proof. vm_compute. auto. Qed.

(** An IPv4 network written with host bits set is learned as it is written, and then no
    address of it is found; the IPv6 function clears them. *)
Definition ex_hostbits : multi_context :=
  next 1001 (next 1000 ex_m0 (EConnect 1 256 [mk_iroute (be_val [10; 0; 0; 5]) 24] [])) (EIroutes 1).
Theorem iroute_host_bits_unreachable :
  match exec 1002 (fun _ _ _ => true) ex_hostbits (ELookup (ip4 10 0 0 5) true),
        exec 1002 (fun _ _ _ => true) ex_hostbits (ELookup (ip4 10 0 0 6) true) with
  | Ret (o1, _), Ret (o2, _) => o1 = None /\ o2 = None /\ size (mc_routes ex_hostbits) = 1%nat
  | _, _ => False
  end.
Proof. vm_compute. auto. Qed.
