(* ===== verification/PacketKeys.v ===== *)
(** * The addresses of a packet as keys of the address table (mroute.c, multi.c)

    What a client sends is arbitrary bytes.  The keys the server extracts from them have the
    types the address table relies on, so that learning the source and looking up the
    destination are steps the table is proved safe for. *)

From S2P Require Import Prelude CircList Buffer Proto Hash Mroute MultiRoute RouteTable.
#[local] Open Scope Z_scope.

(** Bytes [i .. i + n - 1] of a packet with the contents [c]. *)
Definition field (c : bytes) (i n : nat) : bytes := take n (drop i c).

Lemma packet_field b pre c post (i n : nat) :
  buf_split b pre c post -> Z.of_nat (i + n) <= Zlen c ->
  packet_bytes b (Z.of_nat i) (Z.of_nat n) = Ret (field c i n) /\ bytes_ok (field c i n) /\ length (field c i n) = n.
Proof.
  intros (Hd & Ho & _ & _ & _ & _ & Hok & _) Hl. unfold field.
  assert (Ln : length (take n (drop i c)) = n) by (unfold Zlen in Hl; rewrite length_take, length_drop; lia).
  split_and!; [|by apply Forall_take, Forall_drop|done]. unfold packet_bytes. rewrite Ho.
  assert (E : Zlen pre + Z.of_nat i = Zlen (pre ++ take i c)).
  { rewrite Zlen_app. unfold Zlen in *. rewrite length_take. lia. }
  rewrite E. replace (Z.of_nat n) with (Zlen (take n (drop i c))) by (unfold Zlen; by rewrite Ln).
  apply (buf_peek_split _ _ _ (drop n (drop i c) ++ post)). rewrite Hd, <- !app_assoc. do 2 f_equal.
  rewrite (app_assoc (take n _)), take_drop, app_assoc, take_drop. done.
Qed.

Lemma split_len b pre c post : buf_split b pre c post -> buf_len b = Zlen c.
Proof.
  intros (Hd & _ & Hl & _). pose proof (Zlen_nonneg c). unfold buf_len, buf_valid, buf_defined.
  rewrite Hd, (proj2 (Z.leb_le 0 _)) by lia. done.
Qed.

(** The key holds these address bytes. *)
Definition holds (k : mroute_addr) (a : bytes) : Prop := take (length a) (raw_addr k) = a.

Lemma ip4_key k a : raw_ok k -> ma_proto k = 0 -> bytes_ok a -> length a = 4%nat ->
  exists k', mroute_get_in_addr_t (Some k) a 0 = Some k' /\ host_key k' /\ ma_len k' = 4 /\ holds k' a.
Proof.
  intros [Hb Hl] Hp Ha La. eexists. split; [done|]. unfold host_key, raw_ok, holds. cbn.
  rewrite length_overwrite by lia. split_and!; try done; [by apply bytes_ok_overwrite|by left|apply take_overwrite0].
Qed.
Lemma ip6_key k a : raw_ok k -> ma_proto k = 0 -> bytes_ok a -> length a = 16%nat ->
  exists k', mroute_get_in6_addr (Some k) a 0 = Some k' /\ host_key k' /\ ma_len k' = 16 /\ holds k' a.
Proof.
  intros [Hb Hl] Hp Ha La. eexists. split; [done|]. unfold host_key, raw_ok, holds. cbn.
  rewrite length_overwrite by lia. split_and!; try done; [by apply bytes_ok_overwrite|by right|apply take_overwrite0].
Qed.
Lemma ether_addr_key big_endian k a vid : raw_ok k -> ma_proto k = 0 -> bytes_ok a -> length a = 6%nat -> is_u16 vid ->
  ether_key (mroute_copy_ether_to_addr big_endian k a vid) /\ holds (mroute_copy_ether_to_addr big_endian k a vid) a.
Proof.
  intros [Hb Hl] Hp Ha La Hv. unfold mroute_copy_ether_to_addr.
  destruct (host16_bytes big_endian vid) as [v0 v1] eqn:Ev.
  assert (Hvb : bytes_ok [v0; v1]).
  { unfold is_u16 in Hv. pose proof (Z.mod_pos_bound vid 256). pose proof (Z.div_mod vid 256).
    revert Ev. unfold host16_bytes. destruct big_endian; intros [= <- <-]; repeat constructor; unfold is_u8; lia. }
  unfold ether_key, raw_ok, holds. cbn.
  rewrite !length_overwrite by (rewrite ?length_overwrite; cbn; lia).
  split_and!; try done; [by repeat apply bytes_ok_overwrite|].
  rewrite La. unfold overwrite at 1. rewrite take_app_le by (rewrite length_take, length_overwrite; lia).
  rewrite take_take. replace (6 `min` 6)%nat with 6%nat by done. rewrite <- La at 1. apply take_overwrite0.
Qed.

Section Extract.
Context (big_endian : bool) (b : buffer) (pre c post : bytes) (src dest : mroute_addr) (vid : Z).
Context (Hb : buf_split b pre c post) (Hsrc : raw_ok src) (Hdest : raw_ok dest) (Hvid : is_u16 vid).

(** What a successful extraction gives, by the kind of tunnel. *)
Definition ip_keys (s d : mroute_addr) : Prop :=
  host_key s /\ host_key d
  /\ ((ma_len s = 4 /\ ma_len d = 4 /\ holds s (field c 12 4) /\ holds d (field c 16 4))
      \/ (ma_len s = 16 /\ ma_len d = 16 /\ holds s (field c 8 16) /\ holds d (field c 24 16))).
Definition ether_keys (s d : mroute_addr) : Prop :=
  ether_key s /\ ether_key d /\ holds s (field c 6 6) /\ holds d (field c 0 6).

Lemma succeeded_or ret : ret = 0 \/ ret = MROUTE_EXTRACT_MCAST \/ ret = MROUTE_EXTRACT_IGMP \/ ret = MROUTE_EXTRACT_BCAST
  \/ ret = Z.lor MROUTE_EXTRACT_MCAST MROUTE_EXTRACT_IGMP -> Z.land (Z.lor ret MROUTE_EXTRACT_SUCCEEDED) MROUTE_EXTRACT_SUCCEEDED = 1.
Proof using. intros [-> | [-> | [-> | [-> | ->]]]]; reflexivity. Qed.

Lemma extract_ip_cases :
  exists ret s d, mroute_extract_addr_ip (Some (clear_proto src)) (Some (clear_proto dest)) b = Ret (ret, Some s, Some d)
    /\ (ret = 0 \/ (Z.land ret MROUTE_EXTRACT_SUCCEEDED = 1 /\ ip_keys s d)).
Proof using Hb Hsrc Hdest.
  unfold mroute_extract_addr_ip. rewrite (split_len _ _ _ _ Hb). unfold sizeof_iphdr, sizeof_ipv6hdr.
  destruct (Z.leb_spec 1 (Zlen c)) as [H1|]; [|eauto 10].
  rewrite (peek8_split _ _ _ _ 0 Hb) by lia. cbn [res_bind].
  destruct (OPENVPN_IPH_GET_VER _ =? 4).
  - destruct (Z.leb_spec 20 (Zlen c)) as [H2|]; [|eauto 10].
    destruct (packet_field b pre c post 12 4 Hb ltac:(lia)) as (E1 & O1 & L1).
    destruct (packet_field b pre c post 16 4 Hb ltac:(lia)) as (E2 & O2 & L2).
    change (Z.of_nat 12) with 12 in E1. change (Z.of_nat 16) with 16 in E2. change (Z.of_nat 4) with 4 in E1, E2.
    rewrite E1, E2, (peek8_split _ _ _ _ 9 Hb) by lia. cbn [res_bind].
    destruct (ip4_key (clear_proto src) _ Hsrc eq_refl O1 L1) as (s & -> & K1 & M1 & R1).
    destruct (ip4_key (clear_proto dest) _ Hdest eq_refl O2 L2) as (d & -> & K2 & M2 & R2).
    eexists _, s, d. split; [done|]. right. split; [|unfold ip_keys; eauto 10].
    apply succeeded_or. destruct (mroute_is_mcast _), (_ =? OPENVPN_IPPROTO_IGMP); auto.
  - destruct (OPENVPN_IPH_GET_VER _ =? 6); [|eauto 10].
    destruct (Z.leb_spec 40 (Zlen c)) as [H2|]; [|eauto 10].
    destruct (packet_field b pre c post 8 16 Hb ltac:(lia)) as (E1 & O1 & L1).
    destruct (packet_field b pre c post 24 16 Hb ltac:(lia)) as (E2 & O2 & L2).
    change (Z.of_nat 8) with 8 in E1. change (Z.of_nat 24) with 24 in E2. change (Z.of_nat 16) with 16 in E1, E2.
    rewrite E1, E2. cbn [res_bind].
    destruct (ip6_key (clear_proto src) _ Hsrc eq_refl O1 L1) as (s & -> & K1 & M1 & R1).
    destruct (ip6_key (clear_proto dest) _ Hdest eq_refl O2 L2) as (d & -> & K2 & M2 & R2).
    eexists _, s, d. split; [done|]. right. split; [|unfold ip_keys; eauto 10].
    apply succeeded_or. destruct (mroute_is_mcast_ipv6 _); auto.
Qed.

Lemma extract_ether_cases :
  exists ret s d, mroute_extract_addr_ether big_endian (Some (clear_proto src)) (Some (clear_proto dest)) vid b
    = Ret (ret, Some s, Some d)
    /\ (ret = 0 \/ (Z.land ret MROUTE_EXTRACT_SUCCEEDED = 1 /\ ether_keys s d)).
Proof using Hb Hsrc Hdest Hvid.
  unfold mroute_extract_addr_ether. rewrite (split_len _ _ _ _ Hb). unfold sizeof_ethhdr.
  destruct (Z.leb_spec 14 (Zlen c)) as [H2|]; [|eauto 10].
  destruct (packet_field b pre c post 0 6 Hb ltac:(lia)) as (E1 & O1 & L1).
  destruct (packet_field b pre c post 6 6 Hb ltac:(lia)) as (E2 & O2 & L2).
  change (Z.of_nat 0) with 0 in E1. change (Z.of_nat 6) with 6 in E1, E2. rewrite E1, E2. cbn [res_bind].
  destruct (ether_addr_key big_endian (clear_proto src) _ vid Hsrc eq_refl O2 L2 Hvid) as [K1 R1].
  destruct (ether_addr_key big_endian (clear_proto dest) _ vid Hdest eq_refl O1 L1 Hvid) as [K2 R2].
  eexists _, _, _. split; [done|]. right. split; [|done].
  apply succeeded_or. destruct (is_mac_mcast_addr _); auto.
Qed.

(** C37: Keys from packets are well typed.  Whatever bytes a client sends, of whatever length,
    mroute_extract_addr_from_packet reads only inside the packet and returns, and when it
    reports success both keys are IP host keys without netbits that hold the addresses of the
    IPv4 or IPv6 header (tun) or Ethernet keys that hold the addresses of the frame (tap).  So
    in every state of the server, learning the source for a connected client and looking up
    the destination are among the steps for which the address table is safe. *)
Theorem packet_keys_typed (tunnel_type : Z) :
  exists ret s d, mroute_extract_addr_from_packet big_endian src dest vid b tunnel_type = Ret (ret, Some s, Some d)
    /\ (ret = 0
        \/ (Z.land ret MROUTE_EXTRACT_SUCCEEDED = 1
            /\ ((tunnel_type = DEV_TYPE_TUN /\ ip_keys s d) \/ (tunnel_type = DEV_TYPE_TAP /\ ether_keys s d))
            /\ forall stale m i mi, present m i mi ->
                 event_ok stale m (ELearn i s) /\ event_ok stale m (ELookup d (tunnel_type =? DEV_TYPE_TUN)))).
Proof using Hb Hsrc Hdest Hvid.
  unfold mroute_extract_addr_from_packet.
  destruct (Z.eqb_spec tunnel_type DEV_TYPE_TUN) as [-> | Hn].
  { destruct extract_ip_cases as (ret & s & d & E & Hc). exists ret, s, d. split; [done|].
    destruct Hc as [-> | (H1 & H2)]; [by left|]. right. split; [done|]. split; [by left|].
    destruct H2 as (K1 & K2 & _). intros stale m i mi Hp. split; [split; [by exists mi|by left]|intros _; exact K2]. }
  destruct (Z.eqb_spec tunnel_type DEV_TYPE_TAP) as [-> | Ht]; [|eauto 10].
  destruct extract_ether_cases as (ret & s & d & E & Hc). exists ret, s, d. split; [done|].
  destruct Hc as [-> | (H1 & H2)]; [by left|]. right. split; [done|]. split; [by right|].
  destruct H2 as (K1 & K2 & _). intros stale m i mi Hp. split; [split; [by exists mi|by right]|intros Hx; discriminate Hx].
Qed.
End Extract.

(** An IPv4 packet from 10.8.0.6 to 10.8.0.1. *)
Definition sample_ip : bytes := [69; 0; 0; 20; 0; 0; 0; 0; 64; 17; 0; 0; 10; 8; 0; 6; 10; 8; 0; 1].
Definition sample_buf : buffer := mk_buffer 20 0 20 (Some sample_ip).

Lemma packet_keys_typed_witness : exists s d,
  mroute_extract_addr_from_packet false mroute_addr_init mroute_addr_init 0 sample_buf DEV_TYPE_TUN
  = Ret (MROUTE_EXTRACT_SUCCEEDED, Some s, Some d) /\ ip_keys sample_ip s d.
Proof.
  destruct (packet_keys_typed false sample_buf [] sample_ip [] mroute_addr_init mroute_addr_init 0) with (tunnel_type := DEV_TYPE_TUN)
    as (ret & s & d & E & Hc).
  - unfold buf_split, BUF_SIZE_MAX. cbn. split_and!; try done; repeat constructor; unfold is_u8; lia.
  - exact init_raw.
  - exact init_raw.
  - unfold is_u16. lia.
  - exists s, d.
    assert (Hr : mroute_extract_addr_from_packet false mroute_addr_init mroute_addr_init 0 sample_buf DEV_TYPE_TUN
                 = Ret (MROUTE_EXTRACT_SUCCEEDED, Some s, Some d)).
    { revert E. vm_compute. by intros [= <- <- <-]. }
    split; [exact Hr|]. rewrite Hr in E. injection E as <-.
    destruct Hc as [Hc | (_ & [[_ Hk] | [Ht _]] & _)]; [discriminate Hc|exact Hk|discriminate Ht].
Defined.
