(* ===== verification/Pool.v ===== *)
(** * The pool of client addresses (pool.c, pool.h, socket.c)

    The server hands out addresses from a range and remembers which client had which one.
    An entry is identified by its handle, its index in the list; the addresses are computed
    from the handle.  The file the pool is kept in is modelled by its lines after parsing. *)

From stdpp Require Import list.
From S2P Require Import Prelude CircList Buffer.
#[local] Open Scope Z_scope.

Definition IFCONFIG_POOL_MAX : Z := 65536.

Inductive pool_type : Type := IFCONFIG_POOL_30NET | IFCONFIG_POOL_INDIV.

Record ifconfig_pool_entry : Type := mk_pe {
  in_use : bool;
  common_name : option bytes;
  last_release : Z;
  fixed : bool
}.

Record ifconfig_pool : Type := mk_pool {
  duplicate_cn : bool;
  ipv4_enabled : bool;
  ipv4_type : pool_type;
  ipv4_base : Z;
  ipv6_enabled : bool;
  ipv6_base : bytes;
  pool_size : Z;
  pool_list : list ifconfig_pool_entry
}.

Definition set_list (p : ifconfig_pool) (l : list ifconfig_pool_entry) : ifconfig_pool :=
  mk_pool (duplicate_cn p) (ipv4_enabled p) (ipv4_type p) (ipv4_base p) (ipv6_enabled p) (ipv6_base p) (pool_size p) l.

Definition entry_clear : ifconfig_pool_entry := mk_pe false None 0 false.

Definition ifconfig_pool_entry_free (now : Z) (e : ifconfig_pool_entry) (hard : bool) : ifconfig_pool_entry :=
  mk_pe false (if hard then None else common_name e) (if hard then 0 else now) (fixed e).

(** ** Addresses *)

(** The loop from the last byte on, on the bytes in reverse. *)
Fixpoint add_in6_loop (rev_addr : bytes) (add : Z) : bytes :=
  match rev_addr with
  | [] => []
  | h :: rest =>
      if 0 <? add then
        let b := Z.land (u32 (h + add)) 255 in
        let carry := Z.shiftr (Z.land h 255 + Z.land add 255) 8 in
        b :: add_in6_loop rest (u32 (Z.shiftr add 8 + carry))
      else rev_addr
  end.
Definition add_in6_addr (base : bytes) (add : Z) : bytes := rev (add_in6_loop (rev base) add).

(** The last four bytes as an integer in host order. *)
Definition last4 (addr : bytes) : Z := be_val (drop 12 addr).

Definition ifconfig_pool_verify_range (start end_ : Z) : bool :=
  negb (end_ <? start) && negb (IFCONFIG_POOL_MAX <=? u32 (end_ - start)).

(** The IPv6 part: the base and the size. *)
Definition ipv6_range (base6 : bytes) (netbits : Z) : res (bytes * Z) :=
  let base := last4 base6 in
  let base := if 128 - netbits <? 32 then Z.land base (u32 (Z.shiftl 1 (128 - netbits) - 1)) else base in
  let '(base, base6) :=
    if base =? 0
    then (base + 1, take 15 base6 ++ [u8 (default 0 (base6 !! 15%nat) + 1)])
    else (base, base6) in
  let size := if 112 <=? netbits then s32 (u32 (Z.shiftl 1 (128 - netbits) - base)) else IFCONFIG_POOL_MAX in
  if size <? 2 then Fatal else Ret (base6, size).

(** The IPv4 part: the base and the size. *)
Definition ipv4_range (type : pool_type) (start end_ : Z) : res (Z * Z) :=
  let '(b, n) := match type with
                 | IFCONFIG_POOL_30NET =>
                     let b := Z.land start (u32 (Z.lnot 3)) in
                     (b, s32 (Z.shiftr (u32 (Z.lor end_ 3 + 1 - b)) 2))
                 | IFCONFIG_POOL_INDIV => (start, s32 (u32 (end_ - start + 1)))
                 end in
  if n <? 2 then Fatal else Ret (b, n).

Definition ifconfig_pool_init (ipv4_pool : bool) (type : pool_type) (start end_ : Z) (dup_cn : bool)
    (ipv6_pool : bool) (base6 : bytes) (netbits : Z) : res ifconfig_pool :=
  assert! (start <=? end_) && (u32 (end_ - start) <? IFCONFIG_POOL_MAX) in
  let! (base4, size) := (if ipv4_pool then ipv4_range type start end_ else Ret (0, 0)) in
  let! (b6, size) :=
    (if ipv6_pool then
       let! (b6, n) := ipv6_range base6 netbits in
       Ret (b6, if (size <=? 0) || (n <? size) then n else size)
     else Ret (replicate 16 0, size)) in
  assert! 0 <? size in
  Ret (mk_pool dup_cn ipv4_pool (if ipv4_pool then type else IFCONFIG_POOL_30NET) base4 ipv6_pool b6 size
         (replicate (Z.to_nat size) entry_clear)).

(** ** Choosing an entry *)
Definition same_name (cn : option bytes) (e : ifconfig_pool_entry) : bool :=
  match cn, common_name e with Some a, Some b => bool_decide (a = b) | _, _ => false end.

Fixpoint find_loop (dup : bool) (cn : option bytes) (i : Z) (l : list ifconfig_pool_entry)
    (earliest_release previous_usage new_usage : Z) : Z * Z :=
  match l with
  | [] => (previous_usage, new_usage)
  | ipe :: l =>
      if in_use ipe then find_loop dup cn (i + 1) l earliest_release previous_usage new_usage
      else if dup then (previous_usage, i)
      else
        let better := ((new_usage =? -1) || (last_release ipe <? earliest_release)) && negb (fixed ipe) in
        let earliest_release := if better then last_release ipe else earliest_release in
        let new_usage := if better then i else new_usage in
        let previous_usage := if (previous_usage <? 0) && same_name cn ipe then i else previous_usage in
        find_loop dup cn (i + 1) l earliest_release previous_usage new_usage
  end.
Definition ifconfig_pool_find (p : ifconfig_pool) (cn : option bytes) : Z :=
  let '(previous_usage, new_usage) :=
    find_loop (duplicate_cn p) cn 0 (take (Z.to_nat (pool_size p)) (pool_list p)) 0 (-1) (-1) in
  if 0 <=? previous_usage then previous_usage
  else if 0 <=? new_usage then new_usage
  else -1.

(** The local and the remote IPv4 address of an entry, and its IPv6 address. *)
Definition entry_ipv4 (p : ifconfig_pool) (i : Z) : Z * Z :=
  match ipv4_type p with
  | IFCONFIG_POOL_30NET => let b := u32 (ipv4_base p + Z.shiftl i 2) in (u32 (b + 1), u32 (b + 2))
  | IFCONFIG_POOL_INDIV => let b := u32 (ipv4_base p + i) in (0, b)
  end.

(** The handle, and the addresses that are written: [None] where the pool has none. *)
Definition ifconfig_pool_acquire (now : Z) (p : ifconfig_pool) (cn : option bytes)
  : res (Z * option (Z * Z) * option bytes * ifconfig_pool) :=
  let i := ifconfig_pool_find p cn in
  if 0 <=? i then
    let! ipe := arr_get (pool_list p) i in
    assert! negb (in_use ipe) in
    let ipe := ifconfig_pool_entry_free now ipe true in
    let ipe := mk_pe true cn (last_release ipe) (fixed ipe) in
    let! l := arr_set (pool_list p) i ipe in
    Ret (i, if ipv4_enabled p then Some (entry_ipv4 p i) else None,
         if ipv6_enabled p then Some (add_in6_addr (ipv6_base p) i) else None, set_list p l)
  else Ret (i, None, None, p).

Definition ifconfig_pool_release (now : Z) (p : ifconfig_pool) (hand : Z) (hard : bool) : res (bool * ifconfig_pool) :=
  if (0 <=? hand) && (hand <? pool_size p) then
    let! e := arr_get (pool_list p) hand in
    let! l := arr_set (pool_list p) hand (ifconfig_pool_entry_free now e hard) in
    Ret (true, set_list p l)
  else Ret (false, p).

(** ** The file *)
Definition ifconfig_pool_ip_base_to_handle (p : ifconfig_pool) (addr : Z) : Z :=
  let ret := match ipv4_type p with
             | IFCONFIG_POOL_30NET => s32 (Z.shiftr (u32 (addr - ipv4_base p)) 2)
             | IFCONFIG_POOL_INDIV => s32 (u32 (addr - ipv4_base p))
             end in
  if (ret <? 0) || (pool_size p <=? ret) then -1 else ret.

Definition ifconfig_pool_ipv6_base_to_handle (p : ifconfig_pool) (addr : bytes) : Z :=
  if bool_decide (take 12 (ipv6_base p) = take 12 addr) then
    let ret := s32 (u32 (last4 addr - last4 (ipv6_base p))) in
    if (ret <? 0) || (pool_size p <=? ret) then -1 else ret
  else -1.

Definition ifconfig_pool_handle_to_ip_base (p : ifconfig_pool) (hand : Z) : Z :=
  if ipv4_enabled p && (0 <=? hand) && (hand <? pool_size p) then
    match ipv4_type p with
    | IFCONFIG_POOL_30NET => u32 (ipv4_base p + Z.shiftl hand 2)
    | IFCONFIG_POOL_INDIV => u32 (ipv4_base p + hand)
    end
  else 0.

Definition ifconfig_pool_handle_to_ipv6_base (p : ifconfig_pool) (hand : Z) : bytes :=
  if ipv6_enabled p && (0 <=? hand) && (hand <? pool_size p) then add_in6_addr (ipv6_base p) hand else replicate 16 0.

Definition ifconfig_pool_set (now : Z) (p : ifconfig_pool) (cn : bytes) (h : Z) (fix_ : bool) : res ifconfig_pool :=
  let! _ := arr_get (pool_list p) h in
  let! l := arr_set (pool_list p) h (mk_pe false (Some cn) now fix_) in
  Ret (set_list p l).

(** A line "CN,IP4,IP6" of the file; an address is absent where its text is empty. *)
Record pool_line : Type := mk_line { line_cn : bytes; line_ip : option Z; line_ip6 : option bytes }.

Definition pool_entry_line (p : ifconfig_pool) (i : Z) (e : ifconfig_pool_entry) : option pool_line :=
  cn ← common_name e;
  Some (mk_line cn (if ipv4_enabled p then Some (ifconfig_pool_handle_to_ip_base p i) else None)
          (if ipv6_enabled p then Some (ifconfig_pool_handle_to_ipv6_base p i) else None)).
Fixpoint list_loop (p : ifconfig_pool) (i : Z) (l : list ifconfig_pool_entry) : list pool_line :=
  match l with
  | [] => []
  | e :: l => match pool_entry_line p i e with
              | Some line => line :: list_loop p (i + 1) l
              | None => list_loop p (i + 1) l
              end
  end.
Definition ifconfig_pool_list (p : ifconfig_pool) : list pool_line :=
  list_loop p 0 (take (Z.to_nat (pool_size p)) (pool_list p)).

(** What [ifconfig_pool_read] does with one line, and with all of them. *)
Definition line_handle (p : ifconfig_pool) (line : pool_line) : Z :=
  let h := match line_ip line with Some a => ifconfig_pool_ip_base_to_handle p a | None => -1 end in
  match line_ip6 line with
  | Some a6 => let h6 := ifconfig_pool_ipv6_base_to_handle p a6 in if h <? 0 then h6 else h
  | None => h
  end.
Definition read_line (now : Z) (fix_ : bool) (p : ifconfig_pool) (line : pool_line) : res ifconfig_pool :=
  let h := line_handle p line in
  if 0 <=? h then ifconfig_pool_set now p (line_cn line) h fix_ else Ret p.
Fixpoint ifconfig_pool_read (now : Z) (fix_ : bool) (lines : list pool_line) (p : ifconfig_pool) : res ifconfig_pool :=
  match lines with
  | [] => Ret p
  | line :: lines => let! p := read_line now fix_ p line in ifconfig_pool_read now fix_ lines p
  end.

(** ** IPv6 addresses as numbers *)
Fixpoint le_val (l : bytes) : Z := match l with [] => 0 | b :: l => b + 256 * le_val l end.

Lemma be_val_rev l : be_val (rev l) = le_val l.
Proof. induction l as [|b l IH]; [done|]. cbn [rev le_val]. rewrite be_val_snoc, IH. lia. Qed.

Lemma bytes_ok_rev l : bytes_ok l -> bytes_ok (rev l).
Proof. intros H. unfold bytes_ok in *. rewrite <- (Permutation_rev l). done. Qed.

Lemma add_loop_spec l add :
  bytes_ok l -> 0 <= add < 2 ^ 32 ->
  le_val (add_in6_loop l add) = (le_val l + add) mod 256 ^ Zlen l
  /\ bytes_ok (add_in6_loop l add) /\ length (add_in6_loop l add) = length l.
Proof.
  intros Hl. revert add. induction Hl as [|h l Hh Hl IH]; intros add Ha.
  { cbn. rewrite Z.mod_1_r. repeat split. constructor. }
  cbn [add_in6_loop]. destruct (Z.ltb_spec 0 add) as [Hp|Hz].
  - unfold is_u8 in Hh.
    assert (Eb : Z.land (u32 (h + add)) 255 = (h + add) mod 256).
    { change 255 with (Z.ones 8). rewrite Z.land_ones by lia. unfold u32. change (2 ^ 32) with (256 * 2 ^ 24).
      rewrite Z.rem_mul_r by lia. change (2 ^ 8) with 256. rewrite (Z.mul_comm 256), Z.mod_add, Z.mod_mod by lia. done. }
    assert (Ec : u32 (Z.shiftr add 8 + Z.shiftr (Z.land h 255 + Z.land add 255) 8) = (h + add) / 256).
    { change 255 with (Z.ones 8). rewrite !Z.land_ones, !Z.shiftr_div_pow2 by lia. change (2 ^ 8) with 256 in *.
      rewrite (Z.mod_small h) by lia. rewrite u32_id; unfold is_u32; Z.div_mod_to_equations; lia. }
    rewrite Eb, Ec. destruct (IH ((h + add) / 256)) as (E & Hok & Hlen); [Z.div_mod_to_equations; lia|].
    cbn [le_val]. rewrite E. split_and!.
    + rewrite Zlen_cons, Z.pow_add_r, Z.pow_1_r, Z.rem_mul_r by (pose proof (Zlen_nonneg l); lia).
      replace (h + 256 * le_val l + add) with (h + add + le_val l * 256) by lia.
      rewrite Z.mod_add, Z.div_add by lia. f_equal. f_equal. f_equal. lia.
    + constructor; [|done]. unfold is_u8. apply Z.mod_pos_bound. lia.
    + cbn. by rewrite Hlen.
  - replace add with 0 by lia. rewrite Z.add_0_r. split_and!; [|by constructor|done].
    rewrite Z.mod_small; [done|]. rewrite <- be_val_rev.
    replace (Zlen (h :: l)) with (Zlen (rev (h :: l))) by (unfold Zlen; by rewrite length_rev).
    apply be_val_range, bytes_ok_rev. by constructor.
Qed.

Lemma add_in6_spec base add :
  bytes_ok base -> length base = 16%nat -> 0 <= add < 2 ^ 32 ->
  be_val (add_in6_addr base add) = (be_val base + add) mod 2 ^ 128
  /\ bytes_ok (add_in6_addr base add) /\ length (add_in6_addr base add) = 16%nat.
Proof.
  intros Hb Hl Ha. unfold add_in6_addr. destruct (add_loop_spec (rev base) add) as (E & Hok & Hlen); [by apply bytes_ok_rev|done|].
  rewrite be_val_rev, E, <- be_val_rev, rev_involutive. split_and!.
  - unfold Zlen. rewrite length_rev, Hl. done.
  - by apply bytes_ok_rev.
  - by rewrite length_rev, Hlen, length_rev.
Qed.

Lemma add_in6_inj base i j :
  bytes_ok base -> length base = 16%nat -> 0 <= i < 2 ^ 32 -> 0 <= j < 2 ^ 32 ->
  add_in6_addr base i = add_in6_addr base j -> i = j.
Proof.
  intros Hb Hl Hi Hj E%(f_equal be_val).
  rewrite (proj1 (add_in6_spec _ _ Hb Hl Hi)), (proj1 (add_in6_spec _ _ Hb Hl Hj)) in E.
  assert (Hm : ((be_val base + i) - (be_val base + j)) mod 2 ^ 128 = 0) by (rewrite Zminus_mod, E, Z.sub_diag; done).
  apply Z.mod_divide in Hm as [c Hc]; [|lia]. nia.
Qed.

(** ** The entry that is chosen *)
Definition free (e : ifconfig_pool_entry) : Prop := in_use e = false.
Definition named (cn : option bytes) (e : ifconfig_pool_entry) : Prop := free e /\ same_name cn e = true.
Definition open (e : ifconfig_pool_entry) : Prop := free e /\ fixed e = false.

(** The first entry with a property. *)
Definition first_at (P : ifconfig_pool_entry -> Prop) (l : list ifconfig_pool_entry) (i : Z) : Prop :=
  exists e, 0 <= i /\ l !! Z.to_nat i = Some e /\ P e
    /\ forall j e', (j < Z.to_nat i)%nat -> l !! j = Some e' -> ~ P e'.
(** The open entry that was released first, the first one among equals. *)
Definition oldest_at (l : list ifconfig_pool_entry) (i : Z) : Prop :=
  exists e, 0 <= i /\ l !! Z.to_nat i = Some e /\ open e
    /\ forall j e', l !! j = Some e' -> open e' ->
         last_release e <= last_release e' /\ (last_release e' = last_release e -> (Z.to_nat i <= j)%nat).
Definition none_with (P : ifconfig_pool_entry -> Prop) (l : list ifconfig_pool_entry) : Prop :=
  forall j e, l !! j = Some e -> ~ P e.

(** What the scan knows after the entries [pre]. *)
Record scanned (cn : option bytes) (pre : list ifconfig_pool_entry) (er pu nu : Z) : Prop := {
  sc_prev : (pu = -1 /\ none_with (named cn) pre) \/ first_at (named cn) pre pu;
  sc_new : (nu = -1 /\ none_with open pre)
           \/ (oldest_at pre nu /\ exists e, pre !! Z.to_nat nu = Some e /\ er = last_release e)
}.

Lemma none_snoc P pre e : none_with P pre -> ~ P e -> none_with P (pre ++ [e]).
Proof. intros H He j e' Hj%lookup_app_Some. destruct Hj as [Hj | [_ [_ <-]%list_lookup_singleton_Some]]; [eauto|done]. Qed.

Lemma first_snoc P pre e i : first_at P pre i -> first_at P (pre ++ [e]) i.
Proof.
  intros (x & Hi & Hx & Hp & Hm). pose proof (lookup_lt_Some _ _ _ Hx). exists x. split_and!; try done.
  - by apply lookup_app_l_Some.
  - intros j e' Hj. rewrite lookup_app_l by lia. by apply Hm.
Qed.

Lemma first_new P pre e : none_with P pre -> P e -> first_at P (pre ++ [e]) (Zlen pre).
Proof.
  intros Hn He. exists e. rewrite to_nat_Zlen. split_and!; [apply Zlen_nonneg|by apply list_lookup_middle|done|].
  intros j e' Hj. rewrite lookup_app_l by lia. apply Hn.
Qed.

Lemma oldest_keep pre e i er :
  oldest_at pre i -> (exists x, pre !! Z.to_nat i = Some x /\ er = last_release x) -> ~ (open e /\ last_release e < er) ->
  oldest_at (pre ++ [e]) i.
Proof.
  intros (x & Hi & Hx & Hp & Hm) (x' & Hx' & ->) He. rewrite Hx in Hx'. injection Hx' as <-.
  pose proof (lookup_lt_Some _ _ _ Hx) as Hl. exists x. split_and!; try done.
  - by apply lookup_app_l_Some.
  - intros j e' [Hj | [Hge [_ <-]%list_lookup_singleton_Some]]%lookup_app_Some Ho; [by apply Hm|].
    split; [apply Z.nlt_ge; intros ?; by apply He|]. intros _. lia.
Qed.

Lemma oldest_new pre e er nu :
  (nu = -1 /\ none_with open pre) \/ (oldest_at pre nu /\ exists x, pre !! Z.to_nat nu = Some x /\ er = last_release x) ->
  open e -> nu = -1 \/ last_release e < er -> oldest_at (pre ++ [e]) (Zlen pre).
Proof.
  intros Hs He Hlt. exists e. rewrite to_nat_Zlen. split_and!; [apply Zlen_nonneg|by apply list_lookup_middle|done|].
  intros j e' [Hj | [Hge [Hj <-]%list_lookup_singleton_Some]]%lookup_app_Some Ho; [|split; [lia|intros _; lia]].
  destruct Hs as [[_ Hn] | [(x & Hi & Hx & Hp & Hm) (x' & Hx' & ->)]]; [by destruct (Hn _ _ Hj)|].
  rewrite Hx in Hx'. injection Hx' as <-. destruct (Hm _ _ Hj Ho) as [Hle _]. destruct Hlt as [-> | Hlt]; [lia|].
  split; [lia|]. intros ?. lia.
Qed.

Lemma scanned_snoc cn pre e er pu nu :
  scanned cn pre er pu nu ->
  let better := ((nu =? -1) || (last_release e <? er)) && negb (fixed e) in
  in_use e = false ->
  scanned cn (pre ++ [e]) (if better then last_release e else er)
    (if (pu <? 0) && same_name cn e then Zlen pre else pu) (if better then Zlen pre else nu).
Proof.
  intros [Hp Hn] better Hf. split.
  - destruct (same_name cn e) eqn:Es; [rewrite andb_true_r|rewrite andb_false_r].
    + destruct (Z.ltb_spec pu 0) as [Hlt|Hge]; right.
      * destruct Hp as [[_ Hp] | (x & Hi & _)]; [|lia]. by apply first_new.
      * destruct Hp as [[-> _] | Hp]; [lia|]. by apply first_snoc.
    + destruct Hp as [[-> Hp] | Hp]; [left; split; [done|]; apply none_snoc; [done|]|right; by apply first_snoc].
      intros [_ Hs]. by rewrite Es in Hs.
  - subst better. destruct (fixed e) eqn:Efx; [rewrite andb_false_r|rewrite andb_true_r].
    + destruct Hn as [[-> Hn] | [Ho Hx]].
      * left. split; [done|]. apply none_snoc; [done|]. intros [_ H]. by rewrite Efx in H.
      * right. split; [apply (oldest_keep _ _ _ er); [done|done|]; intros [[_ H] _]; by rewrite Efx in H|].
        destruct Hx as (x & Hx & ->). exists x. split; [by apply lookup_app_l_Some|done].
    + destruct ((nu =? -1) || (last_release e <? er)) eqn:Eb.
      * right. split; [|exists e; rewrite to_nat_Zlen; split; [by apply list_lookup_middle|done]].
        apply (oldest_new _ _ er nu); [done|by split|]. apply orb_true_iff in Eb as [Eb | Eb]; [left|right]; lia.
      * apply orb_false_iff in Eb as [E1 E2]. destruct Hn as [[-> _] | [Ho Hx]]; [done|].
        right. split; [apply (oldest_keep _ _ _ er); [done|done|]; intros [_ H]; lia|].
        destruct Hx as (x & Hx & ->). exists x. split; [by apply lookup_app_l_Some|done].
Qed.

Lemma scanned_skip cn pre e er pu nu :
  scanned cn pre er pu nu -> in_use e = true -> scanned cn (pre ++ [e]) er pu nu.
Proof.
  intros [Hp Hn] Hu. assert (Hf : ~ free e) by (unfold free; by rewrite Hu). split.
  - destruct Hp as [[-> Hp] | Hp]; [left; split; [done|]; apply none_snoc; [done|]; by intros [? _]|right; by apply first_snoc].
  - destruct Hn as [[-> Hn] | [Ho Hx]]; [left; split; [done|]; apply none_snoc; [done|]; by intros [? _]|right].
    split; [apply (oldest_keep _ _ _ er); [done|done|]; by intros [[? _] _]|].
    destruct Hx as (x & Hx & ->). exists x. split; [by apply lookup_app_l_Some|done].
Qed.

Lemma find_loop_scanned cn suf pre er pu nu :
  scanned cn pre er pu nu ->
  exists er', let '(pu', nu') := find_loop false cn (Zlen pre) suf er pu nu in scanned cn (pre ++ suf) er' pu' nu'.
Proof.
  revert pre er pu nu. induction suf as [|e suf IH]; intros pre er pu nu H; cbn [find_loop].
  - exists er. by rewrite app_nil_r.
  - replace (Zlen pre + 1) with (Zlen (pre ++ [e])) by (rewrite Zlen_app; done).
    replace (pre ++ e :: suf) with ((pre ++ [e]) ++ suf) by (by rewrite <- app_assoc).
    destruct (in_use e) eqn:Eu; [apply IH; by apply scanned_skip|].
    apply IH. by apply scanned_snoc.
Qed.

Lemma find_loop_dup cn suf pre er :
  none_with free pre ->
  let '(pu', nu') := find_loop true cn (Zlen pre) suf er (-1) (-1) in
  pu' = -1 /\ ((nu' = -1 /\ none_with free (pre ++ suf)) \/ first_at free (pre ++ suf) nu').
Proof.
  revert pre. induction suf as [|e suf IH]; intros pre H; cbn [find_loop].
  - rewrite app_nil_r. auto.
  - destruct (in_use e) eqn:Eu.
    + replace (Zlen pre + 1) with (Zlen (pre ++ [e])) by (rewrite Zlen_app; done).
      replace (pre ++ e :: suf) with ((pre ++ [e]) ++ suf) by (by rewrite <- app_assoc).
      apply IH. apply none_snoc; [done|]. unfold free. by rewrite Eu.
    + split; [done|]. right. exists e. rewrite to_nat_Zlen.
      split_and!; [apply Zlen_nonneg|by apply list_lookup_middle|done|].
      intros j e' Hj. rewrite lookup_app_l by lia. apply H.
Qed.

(** ** The invariant of a pool *)
Definition span (ty : pool_type) (n : Z) : Z := match ty with IFCONFIG_POOL_30NET => 4 * n | IFCONFIG_POOL_INDIV => n end.

Record pool_ok (p : ifconfig_pool) : Prop := {
  po_len : Zlen (pool_list p) = pool_size p;
  po_size : 0 < pool_size p <= IFCONFIG_POOL_MAX;
  po_base6 : bytes_ok (ipv6_base p) /\ length (ipv6_base p) = 16%nat;
  po_v4 : ipv4_enabled p = true -> 0 <= ipv4_base p /\ ipv4_base p + span (ipv4_type p) (pool_size p) <= 2 ^ 32
}.

Lemma pool_take p : pool_ok p -> take (Z.to_nat (pool_size p)) (pool_list p) = pool_list p.
Proof. intros [Hl _ _ _]. apply take_ge. unfold Zlen in Hl. lia. Qed.

Lemma set_list_ok p l : pool_ok p -> length l = length (pool_list p) -> pool_ok (set_list p l).
Proof. intros [Hl Hs Hb Hv] Hlen. split; try done. cbn. unfold Zlen in *. by rewrite Hlen. Qed.

(** What [ifconfig_pool_find] promises: the client's own entry, else the one free for longest. *)
Definition choice (p : ifconfig_pool) (cn : option bytes) (i : Z) : Prop :=
  if duplicate_cn p then (i = -1 /\ none_with free (pool_list p)) \/ first_at free (pool_list p) i
  else first_at (named cn) (pool_list p) i
       \/ (none_with (named cn) (pool_list p)
           /\ ((i = -1 /\ none_with open (pool_list p)) \/ oldest_at (pool_list p) i)).

Lemma find_choice p cn : pool_ok p -> choice p cn (ifconfig_pool_find p cn).
Proof.
  intros Hok. unfold ifconfig_pool_find, choice. rewrite pool_take by done.
  destruct (duplicate_cn p).
  - pose proof (find_loop_dup cn (pool_list p) [] 0 ltac:(intros j e H; by rewrite lookup_nil in H)) as H.
    change (Zlen []) with 0 in H. destruct (find_loop _ _ _ _ _ _ _) as [pu nu]. destruct H as [-> H].
    cbn [Z.leb Z.compare]. cbn [app] in H. destruct H as [[-> Hn] | Hf]; [by left|]. right.
    destruct Hf as (e & Hi & Hf). rewrite (proj2 (Z.leb_le 0 nu)) by lia. by exists e.
  - assert (H0 : scanned cn [] 0 (-1) (-1)).
    { split; left; split; try done; intros j e H; by rewrite lookup_nil in H. }
    destruct (find_loop_scanned cn (pool_list p) [] 0 _ _ H0) as (er & H). change (Zlen []) with 0 in H.
    destruct (find_loop _ _ _ _ _ _ _) as [pu nu]. cbn [app] in H. destruct H as [Hp Hn].
    destruct Hp as [[-> Hp] | Hp].
    + cbn [Z.leb Z.compare]. right. split; [done|].
      destruct Hn as [[-> Hn] | [Ho _]]; [by left|]. right. destruct Ho as (e & Hi & Ho).
      rewrite (proj2 (Z.leb_le 0 nu)) by lia. by exists e.
    + left. destruct Hp as (e & Hi & Hp). rewrite (proj2 (Z.leb_le 0 pu)) by lia. by exists e.
Qed.

(** A choice is free, or there is none. *)
Lemma choice_free p cn i :
  choice p cn i -> i = -1 \/ (0 <= i /\ exists e, pool_list p !! Z.to_nat i = Some e /\ in_use e = false).
Proof.
  unfold choice. destruct (duplicate_cn p).
  - intros [[-> _] | (e & Hi & He & Hf & _)]; eauto 10.
  - intros [(e & Hi & He & [Hf _] & _) | [_ [[-> _] | (e & Hi & He & [Hf _] & _)]]]; eauto 10.
Qed.

(** The entry of a client that has just been given an address. *)
Definition taken (cn : option bytes) (e : ifconfig_pool_entry) : ifconfig_pool_entry := mk_pe true cn 0 (fixed e).

Lemma pool_acquire_spec now p cn :
  pool_ok p ->
  let i := ifconfig_pool_find p cn in
  (i = -1 /\ ifconfig_pool_acquire now p cn = Ret (-1, None, None, p))
  \/ (0 <= i < pool_size p /\ exists e, pool_list p !! Z.to_nat i = Some e /\ in_use e = false
      /\ ifconfig_pool_acquire now p cn
         = Ret (i, if ipv4_enabled p then Some (entry_ipv4 p i) else None,
                if ipv6_enabled p then Some (add_in6_addr (ipv6_base p) i) else None,
                set_list p (<[Z.to_nat i := taken cn e]> (pool_list p)))).
Proof.
  intros Hok i. pose proof (find_choice p cn Hok) as Hc. fold i in Hc. unfold ifconfig_pool_acquire. fold i.
  destruct (choice_free _ _ _ Hc) as [-> | (Hi & e & He & Hu)]; [by left|]. right.
  pose proof (lookup_lt_Some _ _ _ He) as Hlt. pose proof (po_len _ Hok) as Hl. unfold Zlen in Hl.
  split; [lia|]. exists e. split; [done|]. split; [done|]. rewrite (proj2 (Z.leb_le 0 i)) by lia.
  rewrite (proj2 (arr_get_Ret _ _ _) (conj Hi He)). cbn [res_bind]. rewrite Hu. cbn [negb].
  rewrite arr_set_ok by (unfold Zlen; lia). done.
Qed.

Lemma release_spec now p h hard :
  pool_ok p ->
  (~ (0 <= h < pool_size p) /\ ifconfig_pool_release now p h hard = Ret (false, p))
  \/ (0 <= h < pool_size p /\ exists e, pool_list p !! Z.to_nat h = Some e
      /\ ifconfig_pool_release now p h hard
         = Ret (true, set_list p (<[Z.to_nat h := ifconfig_pool_entry_free now e hard]> (pool_list p)))).
Proof.
  intros Hok. unfold ifconfig_pool_release. pose proof (po_len _ Hok) as Hl. unfold Zlen in Hl.
  destruct (Z.leb_spec 0 h), (Z.ltb_spec h (pool_size p)); cbn [andb]; try (left; split; [lia|done]).
  right. split; [lia|]. destruct (lookup_lt_is_Some_2 (pool_list p) (Z.to_nat h)) as [e He]; [lia|].
  exists e. split; [done|]. rewrite (proj2 (arr_get_Ret _ _ _) (conj H He)). cbn [res_bind].
  rewrite arr_set_ok by (unfold Zlen; lia). done.
Qed.

(** ** Addresses of entries *)
Lemma entry_ipv4_eq p i :
  pool_ok p -> ipv4_enabled p = true -> 0 <= i < pool_size p ->
  entry_ipv4 p i = match ipv4_type p with
                   | IFCONFIG_POOL_30NET => (ipv4_base p + 4 * i + 1, ipv4_base p + 4 * i + 2)
                   | IFCONFIG_POOL_INDIV => (0, ipv4_base p + i)
                   end.
Proof.
  intros Hok He Hi. destruct (po_v4 _ Hok He) as [H0 H1]. unfold entry_ipv4, span in *. destruct (ipv4_type p).
  - rewrite Z.shiftl_mul_pow2 by lia. change (2 ^ 2) with 4. rewrite (Z.mul_comm i 4).
    rewrite !u32_id by (rewrite ?u32_id; unfold is_u32; lia). done.
  - by rewrite u32_id by (unfold is_u32; lia).
Qed.

Lemma entry_ipv4_inj p i j :
  pool_ok p -> ipv4_enabled p = true -> 0 <= i < pool_size p -> 0 <= j < pool_size p ->
  (entry_ipv4 p i).2 = (entry_ipv4 p j).2 -> i = j.
Proof. intros Hok He Hi Hj. rewrite !entry_ipv4_eq by done. destruct (ipv4_type p); cbn; lia. Qed.

(** ** Clients that come and go *)
Inductive pool_event : Type := Acquire (now : Z) (cn : option bytes) | Release (now h : Z) (hard : bool).

Record lease : Type := mk_lease { ls_handle : Z; ls_ipv4 : option (Z * Z); ls_ipv6 : option bytes }.

(** The leases that are held: an acquired handle adds one, a release ends it. *)
Definition pool_step (p : ifconfig_pool) (leases : list lease) (ev : pool_event) : res (ifconfig_pool * list lease) :=
  match ev with
  | Acquire now cn =>
      let! (i, a4, a6, p) := ifconfig_pool_acquire now p cn in
      Ret (p, if 0 <=? i then mk_lease i a4 a6 :: leases else leases)
  | Release now h hard =>
      let! (_, p) := ifconfig_pool_release now p h hard in
      Ret (p, filter (fun l => ls_handle l <> h) leases)
  end.
Fixpoint pool_run (p : ifconfig_pool) (leases : list lease) (evs : list pool_event) : res (ifconfig_pool * list lease) :=
  match evs with
  | [] => Ret (p, leases)
  | ev :: evs => let! (p, leases) := pool_step p leases ev in pool_run p leases evs
  end.

(** The addresses of the pool do not depend on its list. *)
Definition same_range (p q : ifconfig_pool) : Prop :=
  ipv4_enabled q = ipv4_enabled p /\ ipv4_type q = ipv4_type p /\ ipv4_base q = ipv4_base p
  /\ ipv6_enabled q = ipv6_enabled p /\ ipv6_base q = ipv6_base p /\ pool_size q = pool_size p.

Definition lease_ok (p : ifconfig_pool) (l : lease) : Prop :=
  0 <= ls_handle l < pool_size p
  /\ ls_ipv4 l = (if ipv4_enabled p then Some (entry_ipv4 p (ls_handle l)) else None)
  /\ ls_ipv6 l = (if ipv6_enabled p then Some (add_in6_addr (ipv6_base p) (ls_handle l)) else None).

(** The entries in use are those of the leases. *)
Record leased (p : ifconfig_pool) (leases : list lease) : Prop := {
  ld_ok : pool_ok p;
  ld_leases : Forall (lease_ok p) leases;
  ld_nodup : NoDup (ls_handle <$> leases);
  ld_used : forall i e, pool_list p !! i = Some e -> in_use e = true <-> Z.of_nat i ∈ ls_handle <$> leases
}.

Lemma leased_acquire p leases now cn :
  leased p leases ->
  exists p' leases', pool_step p leases (Acquire now cn) = Ret (p', leases') /\ leased p' leases' /\ same_range p p'.
Proof.
  intros [Hok Hl Hn Hu]. cbn [pool_step].
  destruct (pool_acquire_spec now p cn Hok) as [[_ ->] | (Hi & e & He & Hf & ->)]; cbn [res_bind]; [by exists p, leases|].
  set (i := ifconfig_pool_find p cn) in *. rewrite (proj2 (Z.leb_le 0 i)) by lia.
  eexists _, _. split; [done|]. split; [|done].
  assert (Hni : i ∉ ls_handle <$> leases).
  { intros Hin. rewrite <- (Z2Nat.id i) in Hin by lia. apply (Hu _ _ He) in Hin. by rewrite Hf in Hin. }
  split.
  - apply set_list_ok; [done|]. by rewrite length_insert.
  - constructor; [by split|done].
  - by constructor.
  - intros j e'. cbn [pool_list set_list fmap list_fmap ls_handle].
    pose proof (lookup_lt_Some _ _ _ He) as Hlt. rewrite elem_of_cons.
    destruct (decide (j = Z.to_nat i)) as [-> | Hne].
    + rewrite list_lookup_insert_eq by done. intros [= <-]. cbn. rewrite Z2Nat.id by lia. naive_solver.
    + rewrite list_lookup_insert_ne by done. intros Hj. rewrite (Hu _ _ Hj). split; [by right|].
      intros [? | ?]; [lia|done].
Qed.

Lemma leased_release p leases now h hard :
  leased p leases ->
  exists p' leases', pool_step p leases (Release now h hard) = Ret (p', leases') /\ leased p' leases' /\ same_range p p'.
Proof.
  intros [Hok Hl Hn Hu]. cbn [pool_step].
  assert (Hfl : Forall (lease_ok p) (filter (fun l => ls_handle l <> h) leases)).
  { apply Forall_forall. intros l [_ Hx]%list_elem_of_filter. by apply (proj1 (Forall_forall _ _) Hl). }
  assert (Hfn : NoDup (ls_handle <$> filter (fun l => ls_handle l <> h) leases)).
  { eapply sublist_NoDup; [exact Hn|]. apply fmap_sublist, sublist_filter. }
  assert (Hfe : forall j, j ∈ ls_handle <$> filter (fun l => ls_handle l <> h) leases <-> j ∈ ls_handle <$> leases /\ j <> h).
  { intros j. rewrite !list_elem_of_fmap. setoid_rewrite list_elem_of_filter. naive_solver. }
  destruct (release_spec now p h hard Hok) as [[Hr ->] | (Hi & e & He & ->)]; cbn [res_bind].
  - eexists _, _. split; [done|]. split; [|done]. split; [done|done|done|].
    intros i e He. rewrite Hfe, (Hu _ _ He). split; [|naive_solver]. intros Hin. split; [done|]. intros <-.
    apply lookup_lt_Some in He. pose proof (po_len _ Hok) as Hlen. unfold Zlen in Hlen. lia.
  - eexists _, _. split; [done|]. split; [|done]. split.
    + apply set_list_ok; [done|]. by rewrite length_insert.
    + done.
    + done.
    + intros j e'. cbn [pool_list set_list]. pose proof (lookup_lt_Some _ _ _ He) as Hlt. rewrite Hfe.
      destruct (decide (j = Z.to_nat h)) as [-> | Hne].
      * rewrite list_lookup_insert_eq by done. intros [= <-]. cbn. rewrite Z2Nat.id by lia. naive_solver.
      * rewrite list_lookup_insert_ne by done. intros Hj. rewrite (Hu _ _ Hj). split; [|naive_solver].
        intros Hin. split; [done|]. lia.
Qed.

Lemma same_range_trans p q r : same_range p q -> same_range q r -> same_range p r.
Proof. unfold same_range. intros (-> & -> & -> & -> & -> & ->) (-> & -> & -> & -> & -> & ->). done. Qed.

Lemma pool_run_spec evs p leases :
  leased p leases -> exists p' leases', pool_run p leases evs = Ret (p', leases') /\ leased p' leases' /\ same_range p p'.
Proof.
  revert p leases. induction evs as [|ev evs IH]; intros p leases H; cbn [pool_run]; [by exists p, leases|].
  assert (Hs : exists p' leases', pool_step p leases ev = Ret (p', leases') /\ leased p' leases' /\ same_range p p').
  { destruct ev; [by apply leased_acquire|by apply leased_release]. }
  destruct Hs as (p1 & l1 & -> & H1 & R1). cbn [res_bind]. destruct (IH _ _ H1) as (p2 & l2 & -> & H2 & R2).
  exists p2, l2. split; [done|]. split; [done|]. by apply (same_range_trans _ p1).
Qed.

(** ** A new pool *)
Lemma ipv6_range_spec base6 netbits b n :
  bytes_ok base6 -> length base6 = 16%nat -> ipv6_range base6 netbits = Ret (b, n) ->
  bytes_ok b /\ length b = 16%nat /\ 2 <= n.
Proof.
  intros Hok Hl. unfold ipv6_range.
  set (base := if 128 - netbits <? 32 then _ else _). clearbody base.
  destruct (base =? 0); destruct (_ <? 2) eqn:E; try done; intros [= <- <-]; apply Z.ltb_ge in E.
  - split_and!; [|rewrite length_app, length_take, Hl; done|done].
    apply bytes_ok_app. split; [by apply Forall_take|]. constructor; [apply u8_range|constructor].
  - done.
Qed.

Lemma last4_range base6 : bytes_ok base6 -> length base6 = 16%nat -> 0 <= last4 base6 < 2 ^ 32.
Proof.
  intros Hok Hl. unfold last4. pose proof (be_val_range (drop 12 base6) (Forall_drop _ _ _ Hok)) as H.
  unfold Zlen in H. rewrite length_drop, Hl in H. exact H.
Qed.

(** The first host number of the pool: the bits of the base outside the network, but not 0. *)
Definition first_host (base6 : bytes) (netbits : Z) : Z :=
  let b := if 128 - netbits <? 32 then last4 base6 mod 2 ^ (128 - netbits) else last4 base6 in
  if b =? 0 then 1 else b.

Lemma ipv6_range_size base6 netbits b n :
  bytes_ok base6 -> length base6 = 16%nat -> 0 <= netbits <= 124 -> ipv6_range base6 netbits = Ret (b, n) ->
  n = (if 112 <=? netbits then 2 ^ (128 - netbits) - first_host base6 netbits else IFCONFIG_POOL_MAX).
Proof.
  intros Hok Hl Hn. pose proof (last4_range base6 Hok Hl) as H4. unfold ipv6_range, first_host.
  assert (Em : (if 128 - netbits <? 32 then Z.land (last4 base6) (u32 (Z.shiftl 1 (128 - netbits) - 1)) else last4 base6)
               = (if 128 - netbits <? 32 then last4 base6 mod 2 ^ (128 - netbits) else last4 base6)).
  { destruct (Z.ltb_spec (128 - netbits) 32) as [H32|]; [|done]. rewrite Z.shiftl_1_l.
    assert (0 < 2 ^ (128 - netbits) <= 2 ^ 31) by (split; [apply Z.pow_pos_nonneg; lia|apply Z.pow_le_mono_r; lia]).
    rewrite u32_id by (unfold is_u32; lia).
    replace (2 ^ (128 - netbits) - 1) with (Z.ones (128 - netbits)) by (rewrite Z.ones_equiv; lia).
    by rewrite Z.land_ones by lia. }
  rewrite Em. set (base := if 128 - netbits <? 32 then _ else _).
  destruct (Z.leb_spec 112 netbits) as [H112|].
  - rewrite Z.shiftl_1_l.
    assert (Hp : 16 <= 2 ^ (128 - netbits) <= 2 ^ 16).
    { change 16 with (2 ^ 4) at 1. split; apply Z.pow_le_mono_r; lia. }
    assert (Hb : 0 <= base < 2 ^ (128 - netbits)).
    { unfold base. rewrite (proj2 (Z.ltb_lt (128 - netbits) 32)) by lia. apply Z.mod_pos_bound. lia. }
    destruct (Z.eqb_spec base 0) as [E0|]; [rewrite E0 in *|];
      (rewrite u32_id, s32_id by (rewrite ?u32_id; unfold is_u32, is_int, INT_MAX, INT_MIN; lia));
      (destruct (_ <? 2); [done|by intros [= _ <-]]).
  - destruct (base =? 0); change (IFCONFIG_POOL_MAX <? 2) with false; by intros [= _ <-].
Qed.

(** The IPv4 addresses a pool is configured with: whole subnets of four where it hands those out. *)
Definition in_range (ty : pool_type) (start end_ : Z) (a : Z) : Prop :=
  match ty with
  | IFCONFIG_POOL_30NET => 4 * (start / 4) <= a <= 4 * (end_ / 4) + 3
  | IFCONFIG_POOL_INDIV => start <= a <= end_
  end.

Lemma land_lnot3 x : is_u32 x -> Z.land x (u32 (Z.lnot 3)) = 4 * (x / 4).
Proof.
  intros Hx. unfold is_u32 in Hx. change (u32 (Z.lnot 3)) with (Z.shiftl (Z.ones 30) 2).
  apply Z.bits_inj'. intros n Hn. rewrite Z.land_spec, Z.shiftl_spec by done.
  replace (4 * (x / 4)) with (Z.shiftl (Z.shiftr x 2) 2) by (rewrite Z.shiftl_mul_pow2, Z.shiftr_div_pow2 by lia; change (2 ^ 2) with 4; lia).
  rewrite Z.shiftl_spec by done. destruct (Z.ltb_spec n 2).
  { rewrite !(Z.testbit_neg_r _ (n - 2)) by lia. by rewrite andb_false_r. }
  rewrite Z.shiftr_spec by lia. replace (n - 2 + 2) with n by lia.
  destruct (Z.ltb_spec n 32).
  - rewrite Z.ones_spec_low by lia. by rewrite andb_true_r.
  - rewrite Z.ones_spec_high by lia. rewrite andb_false_r. symmetry.
    destruct (Z.eq_dec x 0) as [-> | Hne]; [apply Z.bits_0|]. apply Z.bits_above_log2; [lia|].
    assert (Z.log2 x < 32) by (apply Z.log2_lt_pow2; lia). lia.
Qed.

Lemma lor_3 x : Z.lor x 3 = 4 * (x / 4) + 3.
Proof.
  pose proof (Z.mod_pos_bound x 4 ltac:(lia)) as Hm.
  assert (E : x = Z.lor (x mod 4) (Z.shiftl (x / 4) 2)).
  { rewrite lor_shiftl_add by lia. pose proof (Z.div_mod x 4). lia. }
  rewrite E at 1. rewrite <- Z.lor_assoc, (Z.lor_comm (Z.shiftl _ _)), Z.lor_assoc.
  assert (E3 : Z.lor (x mod 4) 3 = 3).
  { assert (x mod 4 = 0 \/ x mod 4 = 1 \/ x mod 4 = 2 \/ x mod 4 = 3) as [-> | [-> | [-> | ->]]] by lia; reflexivity. }
  rewrite E3, lor_shiftl_add by lia. lia.
Qed.

(** A base and a size within the configured range. *)
Definition ipv4_good (ty : pool_type) (start end_ b n : Z) : Prop :=
  0 <= b /\ b + span ty n <= 2 ^ 32 /\ in_range ty start end_ b /\ in_range ty start end_ (b + span ty n - 1).

Lemma ipv4_range_spec ty start end_ b n :
  is_u32 start -> is_u32 end_ -> start <= end_ -> end_ - start < IFCONFIG_POOL_MAX ->
  ipv4_range ty start end_ = Ret (b, n) -> 2 <= n <= IFCONFIG_POOL_MAX /\ ipv4_good ty start end_ b n.
Proof.
  intros Hs He Hse Hm. unfold ipv4_range, ipv4_good, IFCONFIG_POOL_MAX in *. unfold is_u32 in Hs, He. destruct ty; cbn [in_range span].
  - rewrite land_lnot3, lor_3 by done. pose proof (Z.div_mod start 4 ltac:(lia)). pose proof (Z.div_mod end_ 4 ltac:(lia)).
    pose proof (Z.mod_pos_bound start 4 ltac:(lia)). pose proof (Z.mod_pos_bound end_ 4 ltac:(lia)).
    rewrite u32_id by (unfold is_u32; lia). rewrite Z.shiftr_div_pow2 by lia. change (2 ^ 2) with 4.
    replace (4 * (end_ / 4) + 3 + 1 - 4 * (start / 4)) with ((end_ / 4 - start / 4 + 1) * 4) by lia.
    rewrite Z.div_mul, s32_id by (unfold is_int, INT_MIN, INT_MAX; lia).
    destruct (Z.ltb_spec (end_ / 4 - start / 4 + 1) 2); [done|]. intros [= <- <-]. lia.
  - rewrite u32_id, s32_id by (unfold is_int, is_u32, INT_MIN, INT_MAX; lia).
    destruct (Z.ltb_spec (end_ - start + 1) 2); [done|]. intros [= <- <-]. lia.
Qed.

Lemma ipv6_size_max base6 netbits :
  bytes_ok base6 -> length base6 = 16%nat -> 0 <= netbits <= 124 ->
  (if 112 <=? netbits then 2 ^ (128 - netbits) - first_host base6 netbits else IFCONFIG_POOL_MAX) <= IFCONFIG_POOL_MAX.
Proof.
  intros Hok Hl Hn. unfold IFCONFIG_POOL_MAX. destruct (Z.leb_spec 112 netbits); [|lia].
  assert (2 ^ (128 - netbits) <= 2 ^ 16) by (apply Z.pow_le_mono_r; lia).
  assert (0 <= first_host base6 netbits); [|lia]. unfold first_host. pose proof (last4_range base6 Hok Hl).
  destruct (_ <? 32); destruct (_ =? 0); try lia. apply Z.mod_pos_bound. apply Z.pow_pos_nonneg; lia.
Qed.

Lemma pool_init_spec ipv4_pool ty start end_ dup ipv6_pool base6 netbits p :
  is_u32 start -> is_u32 end_ -> bytes_ok base6 -> length base6 = 16%nat -> 0 <= netbits <= 124 ->
  ifconfig_pool_init ipv4_pool ty start end_ dup ipv6_pool base6 netbits = Ret p ->
  leased p [] /\ ipv4_enabled p = ipv4_pool /\ ipv6_enabled p = ipv6_pool
  /\ (ipv4_pool = true -> ipv4_type p = ty /\ in_range ty start end_ (ipv4_base p)
                          /\ in_range ty start end_ (ipv4_base p + span ty (pool_size p) - 1)).
Proof.
  intros Hs He Hok Hl Hn. unfold is_u32 in *. unfold ifconfig_pool_init.
  destruct (Z.leb_spec start end_) as [Hse|]; [|done].
  destruct (Z.ltb_spec (u32 (end_ - start)) IFCONFIG_POOL_MAX) as [Hm|]; [|done]. cbn [andb].
  rewrite u32_id in Hm by (unfold is_u32; lia).
  set (r4 := if ipv4_pool then _ else _).
  assert (H4 : forall b n, r4 = Ret (b, n) -> (if ipv4_pool then 2 <= n <= IFCONFIG_POOL_MAX else n = 0)
     /\ (ipv4_pool = true -> ipv4_good ty start end_ b n)).
  { intros b n. unfold r4. destruct ipv4_pool; [|by intros [= <- <-]]. intros E.
    destruct (ipv4_range_spec ty start end_ b n) as [? ?]; try done; unfold is_u32; lia. }
  destruct r4 as [[b4 n4]| |]; cbn [res_bind]; [|done..]. destruct (H4 _ _ eq_refl) as [Hn4 Hg]. clear H4.
  set (r6 := if ipv6_pool then _ else _).
  assert (H6 : forall b n, r6 = Ret (b, n) -> bytes_ok b /\ length b = 16%nat /\ (n <= n4 \/ n4 <= 0) /\ n <= IFCONFIG_POOL_MAX).
  { intros b n. unfold r6, IFCONFIG_POOL_MAX in *. destruct ipv6_pool.
    - destruct (ipv6_range base6 netbits) as [[b' n']| |] eqn:E; cbn [res_bind]; [|done..]. intros [= <- <-].
      destruct (ipv6_range_spec _ _ _ _ Hok Hl E) as (? & ? & ?).
      pose proof (ipv6_range_size _ _ _ _ Hok Hl Hn E) as En. pose proof (ipv6_size_max base6 netbits Hok Hl Hn) as Hmax.
      rewrite <- En in Hmax. unfold IFCONFIG_POOL_MAX in *.
      destruct (Z.leb_spec n4 0), (Z.ltb_spec n' n4); cbn [orb]; split_and!; try done; lia.
    - intros [= <- <-]. split_and!; [repeat constructor; unfold is_u8; lia|done|lia|destruct ipv4_pool; lia]. }
  destruct r6 as [[b6 n]| |]; cbn [res_bind]; [|done..]. destruct (H6 _ _ eq_refl) as (B1 & B2 & B3 & B4). clear H6.
  destruct (Z.ltb_spec 0 n) as [Hpos|]; [|done]. intros [= <-]. cbn [ipv4_enabled ipv6_enabled ipv4_type ipv4_base pool_size].
  split; [|split; [done|split; [done|]]].
  - split; [|constructor|constructor|].
    + split; cbn [pool_list pool_size ipv6_base ipv4_enabled ipv4_type ipv4_base]; try done.
      * unfold Zlen. rewrite length_replicate. lia.
      * intros ->. destruct (Hg eq_refl) as (G1 & G2 & _). split; [done|]. unfold span in *. destruct ty; lia.
    + intros i e [-> _]%lookup_replicate_1. cbn. split; [done|]. by intros ?%not_elem_of_nil.
  - intros ->. destruct (Hg eq_refl) as (G1 & G2 & G3 & G4). split; [done|]. split; [done|].
    unfold in_range, span in *. destruct ty; lia.
Qed.

(** The address a client gets.  Without --duplicate-cn, ifconfig_pool_acquire gives a client
    the free entry it had before, the first one if there are several; if there is none, the
    entry, not reserved by the file, that has been free for longest; and none exactly when
    there is neither.  With --duplicate-cn it gives the first free entry.  The entry is then in
    use under the client's name, and no other entry changes. *)
Lemma pool_acquire_exact (now : Z) (p : ifconfig_pool) (cn : option bytes) :
  pool_ok p ->
  exists i a4 a6 p', ifconfig_pool_acquire now p cn = Ret (i, a4, a6, p') /\ choice p cn i
    /\ (i = -1 -> p' = p)
    /\ (forall j : nat, Z.of_nat j <> i -> pool_list p' !! j = pool_list p !! j)
    /\ (0 <= i -> exists e e', pool_list p !! Z.to_nat i = Some e /\ in_use e = false
          /\ pool_list p' !! Z.to_nat i = Some e' /\ in_use e' = true /\ common_name e' = cn).
Proof.
  intros Hok. pose proof (find_choice p cn Hok) as Hc.
  destruct (pool_acquire_spec now p cn Hok) as [[Ei ->] | (Hi & e & He & Hf & ->)].
  - rewrite Ei in Hc. exists (-1), None, None, p. split_and!; try done; lia.
  - eexists _, _, _, _. split; [done|]. split; [exact Hc|]. split; [lia|]. split.
    + intros j Hj. cbn. apply list_lookup_insert_ne. lia.
    + intros _. exists e, (taken cn e). split_and!; try done. cbn.
      apply list_lookup_insert_eq. by apply lookup_lt_Some in He.
Qed.

Lemma leases_inj {A} (p : ifconfig_pool) (leases : list lease) (f : lease -> A) :
  NoDup (ls_handle <$> leases) -> (forall x y, x ∈ leases -> y ∈ leases -> f x = f y -> ls_handle x = ls_handle y) ->
  NoDup (f <$> leases).
Proof.
  intros Hn Hinj. induction leases as [|l leases IH]; [constructor|]. cbn in *. apply NoDup_cons in Hn as [Hl Hn].
  apply NoDup_cons. split.
  - intros (y & E & Hy)%list_elem_of_fmap. apply Hl, list_elem_of_fmap. exists y. split; [|done].
    apply Hinj; [apply list_elem_of_here|by apply list_elem_of_further|done].
  - apply IH; [done|]. intros x y Hx Hy. apply Hinj; by apply list_elem_of_further.
Qed.

(** C39: No address is held twice.  However clients come and go after the pool is set up, with
    any names and releases of any handles, every step returns, the addresses held at the same
    time are pairwise different, IPv4 and IPv6, and the IPv4 addresses lie in the configured
    range (its subnets of four addresses where the pool hands those out). *)
Theorem pool_addresses_unique (ipv4_pool : bool) (ty : pool_type) (start end_ : Z) (dup ipv6_pool : bool) (base6 : bytes)
    (netbits : Z) (p : ifconfig_pool) (evs : list pool_event) :
  is_u32 start -> is_u32 end_ -> bytes_ok base6 -> length base6 = 16%nat -> 0 <= netbits <= 124 ->
  ifconfig_pool_init ipv4_pool ty start end_ dup ipv6_pool base6 netbits = Ret p ->
  exists p' leases, pool_run p [] evs = Ret (p', leases)
    /\ NoDup (ls_handle <$> leases)
    /\ (ipv4_pool = true -> NoDup ((fun l => snd <$> ls_ipv4 l) <$> leases)
          /\ forall l local remote, l ∈ leases -> ls_ipv4 l = Some (local, remote) -> in_range ty start end_ remote)
    /\ (ipv6_pool = true -> NoDup (ls_ipv6 <$> leases)).
Proof.
  intros Hs He Hok Hl Hn Hi.
  destruct (pool_init_spec _ _ _ _ _ _ _ _ _ Hs He Hok Hl Hn Hi) as (H0 & E4 & E6 & Hr).
  destruct (pool_run_spec evs p [] H0) as (p' & leases & Hrun & [Pok Pl Pn _] & (R1 & R2 & R3 & R4 & R5 & R6)).
  exists p', leases. split; [done|]. split; [done|].
  assert (Hlo : forall l, l ∈ leases -> lease_ok p' l) by (intros; by apply (proj1 (Forall_forall _ _) Pl)).
  rewrite <- R1 in E4. rewrite <- R4 in E6. split.
  - intros ->. destruct (Hr eq_refl) as (T & B1 & B2). rewrite <- R2 in T. rewrite <- R3, <- R6 in *. split.
    + apply (leases_inj p'); [done|]. intros x y Hx Hy. destruct (Hlo _ Hx) as (X1 & -> & _), (Hlo _ Hy) as (Y1 & -> & _).
      rewrite E4. cbn. intros [= E]. by apply (entry_ipv4_inj p').
    + intros l local remote (L1 & -> & _)%Hlo. rewrite E4, entry_ipv4_eq, T by done.
      unfold in_range, span in *. destruct ty; intros [= _ <-]; lia.
  - intros ->. apply (leases_inj p'); [done|]. intros x y Hx Hy.
    destruct (Hlo _ Hx) as (X1 & _ & ->), (Hlo _ Hy) as (Y1 & _ & ->). rewrite E6. intros [= E].
    destruct (po_base6 _ Pok) as [Hb Hbl]. pose proof (po_size _ Pok). unfold IFCONFIG_POOL_MAX in *.
    apply (add_in6_inj (ipv6_base p')); [done|done|lia|lia|done].
Qed.

(** ** The file *)
Lemma handle_ipv4 p i :
  pool_ok p -> ipv4_enabled p = true -> 0 <= i < pool_size p ->
  ifconfig_pool_ip_base_to_handle p (ifconfig_pool_handle_to_ip_base p i) = i.
Proof.
  intros Hok He Hi. destruct (po_v4 _ Hok He) as [H0 H1]. pose proof (po_size _ Hok) as Hs. unfold IFCONFIG_POOL_MAX in Hs.
  unfold ifconfig_pool_ip_base_to_handle, ifconfig_pool_handle_to_ip_base.
  rewrite He, (proj2 (Z.leb_le 0 i)), (proj2 (Z.ltb_lt i (pool_size p))) by lia. cbn [andb]. unfold span in *.
  destruct (ipv4_type p).
  - rewrite Z.shiftl_mul_pow2 by lia. change (2 ^ 2) with 4. rewrite (u32_id (ipv4_base p + _)) by (unfold is_u32; lia).
    replace (ipv4_base p + i * 4 - ipv4_base p) with (i * 4) by lia.
    rewrite u32_id, Z.shiftr_div_pow2 by (unfold is_u32; lia). change (2 ^ 2) with 4.
    rewrite Z.div_mul, s32_id by (unfold is_int, INT_MIN, INT_MAX; lia).
    rewrite (proj2 (Z.ltb_ge i 0)), (proj2 (Z.leb_gt (pool_size p) i)) by lia. done.
  - rewrite (u32_id (ipv4_base p + i)) by (unfold is_u32; lia).
    replace (ipv4_base p + i - ipv4_base p) with i by lia. rewrite u32_id, s32_id by (unfold is_u32, is_int, INT_MIN, INT_MAX; lia).
    rewrite (proj2 (Z.ltb_ge i 0)), (proj2 (Z.leb_gt (pool_size p) i)) by lia. done.
Qed.

(** Adding to the last four bytes, without a carry out of them. *)
Lemma add_in6_last4 base i :
  bytes_ok base -> length base = 16%nat -> 0 <= i -> last4 base + i < 2 ^ 32 ->
  take 12 (add_in6_addr base i) = take 12 base /\ last4 (add_in6_addr base i) = last4 base + i.
Proof.
  intros Hok Hl Hi Hs. pose proof (last4_range base Hok Hl) as H4.
  destruct (add_in6_spec base i Hok Hl ltac:(lia)) as (E & Ok' & L'). set (r := add_in6_addr base i) in *.
  assert (D : forall a, bytes_ok a -> length a = 16%nat ->
            be_val a = be_val (take 12 a) * 2 ^ 32 + last4 a /\ 0 <= be_val (take 12 a) < 2 ^ 96 /\ 0 <= last4 a < 2 ^ 32).
  { intros a Ha La. pose proof (last4_range a Ha La). pose proof (be_val_range (take 12 a) (Forall_take _ _ _ Ha)) as Ht.
    unfold Zlen in Ht. rewrite length_take, La in Ht. change (256 ^ Z.of_nat (12 `min` 16)) with (2 ^ 96) in Ht.
    split; [|done].
    rewrite <- (take_drop 12 a) at 1. rewrite be_val_app. unfold last4, Zlen. rewrite length_drop, La. done. }
  destruct (D base Hok Hl) as (E1 & R1 & _), (D r Ok' L') as (E2 & R2 & R3).
  rewrite Z.mod_small in E by lia.
  assert (Et : be_val (take 12 r) = be_val (take 12 base)) by lia. split; [|lia].
  rewrite <- (be_bytes_val (take 12 r)), <- (be_bytes_val (take 12 base)) by (by apply Forall_take).
  rewrite !length_take, L', Hl, Et. done.
Qed.

(** The last four bytes of the IPv6 base leave room for the whole pool. *)
Definition no_carry (p : ifconfig_pool) : Prop := last4 (ipv6_base p) + pool_size p <= 2 ^ 32.

Lemma handle_ipv6 p i :
  pool_ok p -> ipv6_enabled p = true -> no_carry p -> 0 <= i < pool_size p ->
  ifconfig_pool_ipv6_base_to_handle p (ifconfig_pool_handle_to_ipv6_base p i) = i.
Proof.
  intros Hok He Hn Hi. unfold ifconfig_pool_ipv6_base_to_handle, ifconfig_pool_handle_to_ipv6_base, no_carry in *.
  rewrite He, (proj2 (Z.leb_le 0 i)), (proj2 (Z.ltb_lt i (pool_size p))) by lia. cbn [andb].
  destruct (po_base6 _ Hok) as [Hb Hl]. pose proof (po_size _ Hok) as Hs. unfold IFCONFIG_POOL_MAX in Hs.
  destruct (add_in6_last4 (ipv6_base p) i Hb Hl) as [-> ->]; [lia|lia|].
  rewrite bool_decide_eq_true_2 by done. replace (last4 (ipv6_base p) + i - last4 (ipv6_base p)) with i by lia.
  rewrite u32_id, s32_id by (unfold is_u32, is_int, INT_MIN, INT_MAX; lia).
  rewrite (proj2 (Z.ltb_ge i 0)), (proj2 (Z.leb_gt (pool_size p) i)) by lia. done.
Qed.

Lemma line_handle_entry p q i e line :
  pool_ok p -> same_range p q -> ipv4_enabled p = true \/ (ipv6_enabled p = true /\ no_carry p) ->
  0 <= i < pool_size p -> pool_entry_line p i e = Some line -> line_handle q line = i.
Proof.
  intros Hok Hr Hv Hi. unfold pool_entry_line. destruct (common_name e) as [cn|]; cbn; [|done]. intros [= <-].
  assert (E4 : forall a, ifconfig_pool_ip_base_to_handle q a = ifconfig_pool_ip_base_to_handle p a)
    by (intros a; unfold ifconfig_pool_ip_base_to_handle; destruct Hr as (_ & -> & -> & _ & _ & ->); done).
  assert (E6 : forall a, ifconfig_pool_ipv6_base_to_handle q a = ifconfig_pool_ipv6_base_to_handle p a)
    by (intros a; unfold ifconfig_pool_ipv6_base_to_handle; destruct Hr as (_ & _ & _ & _ & -> & ->); done).
  unfold line_handle. cbn [line_ip line_ip6]. destruct (ipv4_enabled p) eqn:Ev.
  - rewrite E4, handle_ipv4 by done. destruct (ipv6_enabled p); [|done]. by rewrite (proj2 (Z.ltb_ge i 0)) by lia.
  - destruct Hv as [? | [Hv Hn]]; [done|]. rewrite Hv, E6, handle_ipv6 by done. done.
Qed.

(** What the file keeps of an entry. *)
Definition restored (now : Z) (fix_ : bool) (e : ifconfig_pool_entry) : ifconfig_pool_entry :=
  match common_name e with Some cn => mk_pe false (Some cn) now fix_ | None => entry_clear end.

Lemma read_list now fix_ p q suf pre :
  pool_ok p -> same_range p q -> ipv4_enabled p = true \/ (ipv6_enabled p = true /\ no_carry p) ->
  Zlen pre + Zlen suf = pool_size p ->
  ifconfig_pool_read now fix_ (list_loop p (Zlen pre) suf) (set_list q (pre ++ replicate (length suf) entry_clear))
  = Ret (set_list q (pre ++ (restored now fix_ <$> suf))).
Proof.
  intros Hok Hr Hv. revert pre. induction suf as [|e suf IH]; intros pre Hlen; [done|].
  rewrite Zlen_cons in Hlen. pose proof (Zlen_nonneg pre). pose proof (Zlen_nonneg suf).
  assert (Hz : Zlen pre + 1 = Zlen (pre ++ [restored now fix_ e])) by (rewrite Zlen_app; done).
  cbn [list_loop length replicate fmap list_fmap].
  destruct (pool_entry_line p (Zlen pre) e) as [line|] eqn:El.
  - assert (Hh : forall l, line_handle (set_list q l) line = Zlen pre).
    { intros l. apply (line_handle_entry p _ _ e); [done| |done|lia|done]. exact Hr. }
    assert (Hc : common_name e = Some (line_cn line)).
    { revert El. unfold pool_entry_line. destruct (common_name e); cbn; [|done]. by intros [= <-]. }
    cbn [ifconfig_pool_read]. unfold read_line. rewrite Hh, (proj2 (Z.leb_le 0 (Zlen pre))) by done.
    unfold ifconfig_pool_set. cbn [pool_list set_list].
    assert (Hg : arr_get (pre ++ entry_clear :: replicate (length suf) entry_clear) (Zlen pre) = Ret entry_clear).
    { apply arr_get_Ret. split; [done|]. rewrite to_nat_Zlen. by apply list_lookup_middle. }
    rewrite Hg. cbn [res_bind]. rewrite arr_set_ok by (rewrite Zlen_app, Zlen_cons; pose proof (Zlen_nonneg (replicate (length suf) entry_clear)); lia).
    cbn [res_bind]. rewrite to_nat_Zlen, insert_app_r_alt, Nat.sub_diag by lia. cbn [insert list_insert].
    assert (Er : mk_pe false (Some (line_cn line)) now fix_ = restored now fix_ e) by (unfold restored; by rewrite Hc).
    rewrite Er, Hz. specialize (IH (pre ++ [restored now fix_ e])). rewrite <- !app_assoc in IH.
    apply IH. rewrite Zlen_app. change (Zlen [_]) with 1. lia.
  - assert (Hc : restored now fix_ e = entry_clear).
    { revert El. unfold pool_entry_line, restored. by destruct (common_name e). }
    rewrite Hz, Hc. specialize (IH (pre ++ [entry_clear])). rewrite <- !app_assoc in IH.
    apply IH. rewrite Zlen_app. change (Zlen [_]) with 1. lia.
Qed.

(** What the file keeps.  The lines ifconfig_pool_write puts out, read back by
    ifconfig_pool_read into a new pool of the same range, restore for every handle the name of
    its client, free and, if the file is read-only, reserved, and nothing else: a client gets
    the address it had before the restart.  For a pool with IPv6 addresses only this needs that
    the last four bytes of the base leave room for the pool. *)
Lemma pool_file_roundtrip (now : Z) (fix_ : bool) (p q : ifconfig_pool) :
  pool_ok p -> same_range p q -> pool_list q = replicate (Z.to_nat (pool_size q)) entry_clear ->
  ipv4_enabled p = true \/ (ipv6_enabled p = true /\ no_carry p) ->
  ifconfig_pool_read now fix_ (ifconfig_pool_list p) q = Ret (set_list q (restored now fix_ <$> pool_list p)).
Proof.
  intros Hok Hr Hq Hv. unfold ifconfig_pool_list. rewrite pool_take by done.
  pose proof (po_len _ Hok) as Hl. destruct Hr as (R1 & R2 & R3 & R4 & R5 & R6).
  assert (Eq : q = set_list q (replicate (length (pool_list p)) entry_clear)).
  { destruct q. unfold set_list. cbn in *. f_equal. rewrite Hq, R6, <- Hl. unfold Zlen. by rewrite Nat2Z.id. }
  rewrite Eq at 1. by apply (read_list now fix_ p q (pool_list p) []).
Qed.

(** A pool can hand out addresses outside its network.  For an IPv6 network shorter than /112
    the pool always has 65536 entries, wherever in the network it starts.  If fewer addresses
    are left behind the start, ifconfig_pool_init accepts the configuration, and every handle
    from the number of addresses left on gets an address of a different network. *)
Lemma pool_leaves_network (dup : bool) (base6 : bytes) (netbits i : Z) :
  bytes_ok base6 -> length base6 = 16%nat -> 97 <= netbits < 112 ->
  2 ^ (128 - netbits) - first_host base6 netbits <= i < IFCONFIG_POOL_MAX ->
  0 < last4 base6 mod 2 ^ (128 - netbits) ->
  be_val base6 + i < 2 ^ 128 ->
  exists p, ifconfig_pool_init false IFCONFIG_POOL_INDIV 0 0 dup true base6 netbits = Ret p
    /\ pool_size p = IFCONFIG_POOL_MAX
    /\ be_val (ifconfig_pool_handle_to_ipv6_base p i) / 2 ^ (128 - netbits) <> be_val base6 / 2 ^ (128 - netbits).
Proof.
  intros Hok Hl Hn Hi Hb Hs. unfold IFCONFIG_POOL_MAX in Hi. set (m := 2 ^ (128 - netbits)) in *.
  assert (Hm : 0 < m <= 2 ^ 31) by (unfold m; split; [apply Z.pow_pos_nonneg|apply Z.pow_le_mono_r]; lia).
  unfold first_host in Hi. rewrite (proj2 (Z.ltb_lt (128 - netbits) 32)), (proj2 (Z.eqb_neq (last4 base6 mod _) 0)) in Hi
    by (fold m; lia). fold m in Hi.
  assert (Er : ipv6_range base6 netbits = Ret (base6, IFCONFIG_POOL_MAX)).
  { unfold ipv6_range. rewrite (proj2 (Z.ltb_lt (128 - netbits) 32)), Z.shiftl_1_l by lia. fold m.
    rewrite u32_id by (unfold is_u32; lia).
    replace (m - 1) with (Z.ones (128 - netbits)) by (rewrite Z.ones_equiv; unfold m; lia).
    rewrite Z.land_ones by lia. fold m. rewrite (proj2 (Z.eqb_neq (last4 base6 mod m) 0)), (proj2 (Z.leb_gt 112 netbits)) by lia.
    done. }
  unfold ifconfig_pool_init. change (u32 (0 - 0) <? IFCONFIG_POOL_MAX) with true. cbn [Z.leb Z.compare andb res_bind].
  rewrite Er. cbn [res_bind Z.leb Z.compare orb]. change (0 <? IFCONFIG_POOL_MAX) with true. cbv iota.
  eexists. split; [done|]. split; [done|].
  unfold ifconfig_pool_handle_to_ipv6_base. cbn [ipv6_enabled pool_size ipv6_base]. unfold IFCONFIG_POOL_MAX.
  pose proof (Z.mod_pos_bound (last4 base6) m ltac:(lia)).
  rewrite (proj2 (Z.leb_le 0 i)), (proj2 (Z.ltb_lt i 65536)) by lia. cbn [andb].
  rewrite (proj1 (add_in6_spec base6 i Hok Hl ltac:(lia))). pose proof (be_val_range base6 Hok).
  rewrite Z.mod_small by lia.
  assert (Em : be_val base6 mod m = last4 base6 mod m).
  { rewrite <- (take_drop 12 base6) at 1. rewrite be_val_app. fold (last4 base6). unfold Zlen. rewrite length_drop, Hl.
    change (256 ^ Z.of_nat (16 - 12)) with (2 ^ 32). replace (2 ^ 32) with (2 ^ (32 - (128 - netbits)) * m)
      by (unfold m; rewrite <- Z.pow_add_r by lia; f_equal; lia).
    rewrite Z.mul_assoc, Z.add_comm. apply Z.mod_add. lia. }
  pose proof (Z.div_mod (be_val base6) m ltac:(lia)) as D1. pose proof (Z.div_mod (be_val base6 + i) m ltac:(lia)) as D2.
  pose proof (Z.mod_pos_bound (be_val base6 + i) m ltac:(lia)). intros E. rewrite E in D2. lia.
Qed.

(** ** Examples *)
Definition sample_base6 : bytes := [32; 1; 13; 184; 0; 0; 0; 0; 0; 0; 0; 0; 0; 1; 255; 254].
Definition sample_pool : ifconfig_pool :=
  match ifconfig_pool_init true IFCONFIG_POOL_30NET 168296452 168296500 false true sample_base6 64 with
  | Ret p => p | _ => mk_pool false false IFCONFIG_POOL_INDIV 0 false [] 0 [] end.
Definition alice : option bytes := Some [97].
Definition bob : option bytes := Some [98].

Lemma sample_base6_ok : bytes_ok sample_base6 /\ length sample_base6 = 16%nat.
Proof. split; [|done]. repeat constructor; unfold is_u8; lia. Qed.
Lemma sample_pool_init :
  ifconfig_pool_init true IFCONFIG_POOL_30NET 168296452 168296500 false true sample_base6 64 = Ret sample_pool.
Proof. vm_compute. reflexivity. Qed.
Lemma sample_pool_ok : pool_ok sample_pool.
Proof.
  destruct (pool_init_spec true IFCONFIG_POOL_30NET 168296452 168296500 false true sample_base6 64 sample_pool) as [[H _ _ _] _];
    [unfold is_u32; lia|unfold is_u32; lia|apply sample_base6_ok|apply sample_base6_ok|lia|exact sample_pool_init|exact H].
Qed.

(** Three clients; the first one leaves and comes back to its address. *)
Definition sample_pool_events : list pool_event :=
  [Acquire 10 alice; Acquire 11 bob; Release 12 0 false; Acquire 13 (Some [99]); Acquire 14 alice].
Lemma pool_addresses_unique_witness : exists p' leases,
  pool_run sample_pool [] sample_pool_events = Ret (p', leases)
  /\ (ls_handle <$> leases) = [0; 2; 1] /\ NoDup ((fun l => snd <$> ls_ipv4 l) <$> leases).
Proof.
  destruct (pool_addresses_unique true IFCONFIG_POOL_30NET 168296452 168296500 false true sample_base6 64 sample_pool
              sample_pool_events) as (p' & leases & E & _ & H4 & _);
    [unfold is_u32; lia|unfold is_u32; lia|apply sample_base6_ok|apply sample_base6_ok|lia|exact sample_pool_init|].
  exists p', leases. split; [exact E|]. split; [|apply H4; reflexivity].
  revert E. vm_compute. intros [= _ <-]. reflexivity.
Defined.

(** The last but one address of 2001:db8::/111 is the start, and the third address of the pool is outside. *)
