(* ===== verification/KeyCtx.v ===== *)
(** * Key contexts of the data channel (crypto.h, crypto.c, crypto_backend.h)

    The cryptographic library behind an interface, and the contexts that are built from
    key material.  A context of the library is reset with an initialisation vector for
    every packet, so that it is given here by its key: the calls between two resets are
    functions of the key, the vector, the additional data and the data. *)

From Stdlib Require Import String Ascii.
From S2P Require Import Prelude CircList Buffer PacketId.
#[local] Open Scope Z_scope.

(** The bytes of a C string, without its terminating NUL. *)
Fixpoint str (s : string) : bytes :=
  match s with EmptyString => [] | String c s => Z.of_N (N_of_ascii c) :: str s end.

Definition OPENVPN_AEAD_TAG_LENGTH : Z := 16.
(** The value of OpenSSL's [EVP_MAX_IV_LENGTH] and of mbed TLS's [MBEDTLS_MAX_IV_LENGTH]. *)
Definition OPENVPN_MAX_IV_LENGTH : Z := 16.
Definition OPENVPN_AEAD_MIN_IV_LEN : Z := 4 + 8.
Definition MAX_CIPHER_KEY_LENGTH : Z := 64.
Definition MAX_HMAC_KEY_LENGTH : Z := 64.
Definition SHA256_DIGEST_LENGTH : Z := 32.
Definition AEAD_LIMIT_BLOCKSIZE : Z := 16.
Definition OPENVPN_MAX_CIPHER_BLOCK_SIZE : Z := 32.
Definition OPENVPN_MAX_HMAC_SIZE : Z := 64.

Inductive cipher_mode : Type := MODE_CBC | MODE_OFB | MODE_CFB | MODE_AEAD | MODE_OTHER.

(** ** The library *)
Class CryptoLib (cipher_ctx hmac_ctx : Type) : Type := {
  cipher_kt_key_size : bytes -> Z;
  cipher_kt_iv_size : bytes -> Z;
  cipher_valid : bytes -> bool;
  cipher_kt_mode_cbc : bytes -> bool;
  cipher_kt_mode_aead : bytes -> bool;
  cipher_kt_mode_ofb_cfb : bytes -> bool;
  cipher_kt_block_size : bytes -> Z;
  cipher_kt_tag_size : bytes -> Z;
  cipher_kt_name : bytes -> bytes;
  md_kt_size : bytes -> Z;
  md_valid : bytes -> bool;
  (** key bytes, cipher name, encrypting *)
  cipher_ctx_init : bytes -> bytes -> bool -> cipher_ctx;
  hmac_ctx_init : bytes -> bytes -> hmac_ctx;
  cipher_ctx_mode : cipher_ctx -> cipher_mode;
  cipher_ctx_iv_length : cipher_ctx -> Z;
  cipher_ctx_block_size : cipher_ctx -> Z;
  cipher_ctx_reset : cipher_ctx -> bytes -> bool;
  (** After a reset with the vector, with the additional data and the data: what
      [update] and [final] put out, and the tag. *)
  cipher_ctx_update : cipher_ctx -> bytes -> bytes -> bytes -> option bytes;
  (** After a reset with the vector and an update with the first bytes: what an update with
      the second puts out. *)
  cipher_ctx_update_more : cipher_ctx -> bytes -> bytes -> bytes -> option bytes;
  cipher_ctx_final : cipher_ctx -> bytes -> bytes -> bytes -> option bytes;
  cipher_ctx_get_tag : cipher_ctx -> bytes -> bytes -> bytes -> option bytes;
  cipher_ctx_final_check_tag : cipher_ctx -> bytes -> bytes -> bytes -> bytes -> option bytes;
  hmac_ctx_size : hmac_ctx -> Z;
  (** [reset], [update] with the bytes, [final] *)
  hmac_ctx_value : hmac_ctx -> bytes -> bytes
}.

Section KeyCtx.
Context {cipher_ctx hmac_ctx : Type} `{CL : CryptoLib cipher_ctx hmac_ctx}.

Definition cipher_ctx_mode_aead (c : option cipher_ctx) : bool :=
  match c with Some c => match cipher_ctx_mode c with MODE_AEAD => true | _ => false end | None => false end.
Definition cipher_ctx_mode_cbc (c : option cipher_ctx) : bool :=
  match c with Some c => match cipher_ctx_mode c with MODE_CBC => true | _ => false end | None => false end.
Definition cipher_ctx_mode_ofb_cfb (c : option cipher_ctx) : bool :=
  match c with Some c => match cipher_ctx_mode c with MODE_OFB | MODE_CFB => true | _ => false end | None => false end.

Definition cipher_defined (ciphername : bytes) : bool := negb (bool_decide (ciphername = str "none")).
Definition md_defined (mdname : bytes) : bool := negb (bool_decide (mdname = str "none")).

(** ** Facts of the library

    The derivation of keys relies on these: a SHA-256 digest has 32 bytes, a context takes its
    mode and the length of its vectors from the cipher, a cipher has one mode, and the tag of an
    AEAD cipher has 16 bytes. *)
Class DeriveLaws : Prop := {
  law_hmac_len k d : Zlen (hmac_ctx_value (hmac_ctx_init k (str "SHA256")) d) = SHA256_DIGEST_LENGTH;
  law_iv_length kb c enc : cipher_ctx_iv_length (cipher_ctx_init kb c enc) = cipher_kt_iv_size c;
  law_mode_aead kb c enc : cipher_ctx_mode_aead (Some (cipher_ctx_init kb c enc)) = cipher_kt_mode_aead c;
  law_modes c : cipher_kt_mode_aead c = true -> cipher_kt_mode_cbc c = false /\ cipher_kt_mode_ofb_cfb c = false;
  law_tag_size c : cipher_kt_mode_aead c = true -> cipher_kt_tag_size c = OPENVPN_AEAD_TAG_LENGTH
}.

(** AEAD ciphers: they put out as many bytes as they take in, nothing at the end, and a tag of
    16 bytes; what one side seals the other side opens. *)
Class AeadLaws : Prop := {
  law_block_size kb c enc : cipher_kt_mode_aead c = true ->
    0 <= cipher_ctx_block_size (cipher_ctx_init kb c enc) <= 16;
  law_reset kb c enc iv : cipher_kt_mode_aead c = true -> cipher_ctx_reset (cipher_ctx_init kb c enc) iv = true;
  law_open kb c iv ad d out : cipher_kt_mode_aead c = true ->
    cipher_ctx_update (cipher_ctx_init kb c false) iv ad d = Some out -> Zlen out = Zlen d /\ bytes_ok out;
  law_check_out kb c iv ad d t out : cipher_kt_mode_aead c = true ->
    cipher_ctx_final_check_tag (cipher_ctx_init kb c false) iv ad d t = Some out -> out = [];
  law_seal kb c iv ad d : cipher_kt_mode_aead c = true -> bytes_ok d ->
    exists ct t,
      cipher_ctx_update (cipher_ctx_init kb c true) iv ad d = Some ct /\ Zlen ct = Zlen d /\ bytes_ok ct
      /\ cipher_ctx_final (cipher_ctx_init kb c true) iv ad d = Some []
      /\ cipher_ctx_get_tag (cipher_ctx_init kb c true) iv ad d = Some t
      /\ Zlen t = OPENVPN_AEAD_TAG_LENGTH /\ bytes_ok t
      /\ cipher_ctx_update (cipher_ctx_init kb c false) iv ad ct = Some d
      /\ cipher_ctx_final_check_tag (cipher_ctx_init kb c false) iv ad ct t = Some []
}.

(** ** Key material *)
Record key_type : Type := mk_kt { kt_cipher : bytes; kt_digest : bytes }.
Record key : Type := mk_key { k_cipher : bytes; k_hmac : bytes }.
Record key_parameters : Type := mk_kp {
  kp_cipher : bytes;
  kp_cipher_size : Z;
  kp_hmac : bytes;
  kp_hmac_size : Z;
  kp_epoch : Z
}.
Definition kp_zero : key_parameters := mk_kp (replicate 64 0) 0 (replicate 64 0) 0 0.

Definition key_parameters_from_key (k : key) : key_parameters :=
  mk_kp (k_cipher k) MAX_CIPHER_KEY_LENGTH (k_hmac k) MAX_HMAC_KEY_LENGTH 0.

(** The fatal message for a cipher that is not supported leaves the process. *)
Definition init_key_type (ofb_cfb_enabled : bool) (ciphername authname : bytes) (tls_mode : bool) : res key_type :=
  let! aead_cipher :=
    (if negb (bool_decide (ciphername = str "none")) then
       if negb (cipher_valid ciphername) then Fatal
       else
         let aead_cipher := cipher_kt_mode_aead ciphername in
         if negb (cipher_kt_mode_cbc ciphername || (tls_mode && aead_cipher)
                  || (ofb_cfb_enabled && tls_mode && cipher_kt_mode_ofb_cfb ciphername))
         then Fatal
         else if OPENVPN_MAX_CIPHER_BLOCK_SIZE <? cipher_kt_block_size ciphername then Fatal
         else Ret aead_cipher
     else Ret false) in
  if negb (bool_decide (authname = str "none")) then
    if aead_cipher then Ret (mk_kt ciphername (str "none"))
    else if OPENVPN_MAX_HMAC_SIZE <? md_kt_size authname then Fatal
    else Ret (mk_kt ciphername authname)
  else Ret (mk_kt ciphername authname).

Definition calculate_crypto_overhead (kt : key_type) (pkt_id_size : Z) (occ : bool) : Z :=
  let crypto_overhead := if negb (cipher_kt_mode_cbc (kt_cipher kt)) then pkt_id_size else 0 in
  if cipher_kt_mode_aead (kt_cipher kt) then
    let crypto_overhead := u32 (crypto_overhead + cipher_kt_tag_size (kt_cipher kt)) in
    if occ
    then u32 (u32 (crypto_overhead + cipher_kt_iv_size (kt_cipher kt)) + cipher_kt_block_size (kt_cipher kt))
    else crypto_overhead
  else
    let crypto_overhead :=
      if cipher_defined (kt_cipher kt) then
        let crypto_overhead :=
          if occ then u32 (crypto_overhead + cipher_kt_block_size (kt_cipher kt)) else crypto_overhead in
        u32 (crypto_overhead + cipher_kt_iv_size (kt_cipher kt))
      else crypto_overhead in
    if md_defined (kt_digest kt) then u32 (crypto_overhead + md_kt_size (kt_digest kt)) else crypto_overhead.

Definition crypto_max_overhead : Z :=
  packet_id_size true + OPENVPN_MAX_IV_LENGTH + OPENVPN_MAX_CIPHER_BLOCK_SIZE
  + max_int OPENVPN_MAX_HMAC_SIZE OPENVPN_AEAD_TAG_LENGTH.

(** ** Contexts *)
Record key_ctx : Type := mk_ctx {
  ctx_cipher : option cipher_ctx;
  ctx_hmac : option hmac_ctx;
  implicit_iv : bytes;
  plaintext_blocks : Z;
  failed_verifications : Z;
  ctx_epoch : Z
}.
Definition ctx_zero : key_ctx := mk_ctx None None (replicate 16 0) 0 0 0.

Definition set_implicit_iv (ctx : key_ctx) (iv : bytes) : key_ctx :=
  mk_ctx (ctx_cipher ctx) (ctx_hmac ctx) iv (plaintext_blocks ctx) (failed_verifications ctx) (ctx_epoch ctx).
Definition set_epoch (ctx : key_ctx) (epoch : Z) : key_ctx :=
  mk_ctx (ctx_cipher ctx) (ctx_hmac ctx) (implicit_iv ctx) (plaintext_blocks ctx) (failed_verifications ctx) epoch.

Definition key_ctx_update_implicit_iv (ctx : key_ctx) (k : key_parameters) : res key_ctx :=
  match ctx_cipher ctx with
  | Some c =>
      if cipher_ctx_mode_aead (Some c) then
        assert! OPENVPN_AEAD_MIN_IV_LEN <=? cipher_ctx_iv_length c in
        let '(impl_iv_len, impl_iv_offset) :=
          if negb (kp_epoch k =? 0) then (cipher_ctx_iv_length c, 0) else (cipher_ctx_iv_length c - 4, 4) in
        assert! impl_iv_offset + impl_iv_len <=? OPENVPN_MAX_IV_LENGTH in
        assert! impl_iv_len <=? MAX_HMAC_KEY_LENGTH in
        assert! impl_iv_len <=? kp_hmac_size k in
        let! src := mem_read (kp_hmac k) 0 impl_iv_len in
        let! iv := mem_write (replicate 16 0) impl_iv_offset src in
        Ret (set_implicit_iv ctx iv)
      else Ret ctx
  | None => Ret ctx
  end.

Definition init_key_ctx (k : key_parameters) (kt : key_type) (enc : bool) : res key_ctx :=
  let! cipher :=
    (if cipher_defined (kt_cipher kt) then
       assert! cipher_kt_key_size (kt_cipher kt) <=? kp_cipher_size k in
       let! kb := mem_read (kp_cipher k) 0 (cipher_kt_key_size (kt_cipher kt)) in
       Ret (Some (cipher_ctx_init kb (kt_cipher kt) enc))
     else Ret None) in
  let! hmac :=
    (if md_defined (kt_digest kt) then
       assert! md_kt_size (kt_digest kt) <=? kp_hmac_size k in
       let! kb := mem_read (kp_hmac k) 0 (md_kt_size (kt_digest kt)) in
       Ret (Some (hmac_ctx_init kb (kt_digest kt)))
     else Ret None) in
  Ret (mk_ctx cipher hmac (replicate 16 0) 0 0 (kp_epoch k)).

Definition init_key_bi_ctx_send (k : key_parameters) (kt : key_type) : res key_ctx :=
  let! ctx := init_key_ctx k kt true in
  let! ctx := key_ctx_update_implicit_iv ctx k in
  Ret (set_epoch ctx (kp_epoch k)).
Definition init_key_bi_ctx_recv (k : key_parameters) (kt : key_type) : res key_ctx :=
  let! ctx := init_key_ctx k kt false in
  let! ctx := key_ctx_update_implicit_iv ctx k in
  Ret (set_epoch ctx (kp_epoch k)).

Definition free_key_ctx (ctx : key_ctx) : key_ctx :=
  mk_ctx None None (replicate 16 0) 0 (failed_verifications ctx) 0.

Record key_ctx_bi : Type := mk_bi { bi_encrypt : key_ctx; bi_decrypt : key_ctx; bi_initialized : bool }.
Definition free_key_ctx_bi (ctx : key_ctx_bi) : key_ctx_bi :=
  mk_bi (free_key_ctx (bi_encrypt ctx)) (free_key_ctx (bi_decrypt ctx)) false.

(** [key2]: the two keys of a direction pair. *)
Record key2 : Type := mk_key2 { key2_n : Z; key2_keys : list key }.
Record key_direction_state : Type := mk_kds { out_key : Z; in_key : Z; need_keys : Z }.
Definition KEY_DIRECTION_BIDIRECTIONAL : Z := 0.
Definition KEY_DIRECTION_NORMAL : Z := 1.
Definition KEY_DIRECTION_INVERSE : Z := 2.

Definition key_direction_state_init (key_direction : Z) : res key_direction_state :=
  if key_direction =? KEY_DIRECTION_NORMAL then Ret (mk_kds 0 1 2)
  else if key_direction =? KEY_DIRECTION_INVERSE then Ret (mk_kds 1 0 2)
  else if key_direction =? KEY_DIRECTION_BIDIRECTIONAL then Ret (mk_kds 0 0 1)
  else Fatal.

Definition init_key_ctx_bi (k2 : key2) (key_direction : Z) (kt : key_type) : res key_ctx_bi :=
  let! kds := key_direction_state_init key_direction in
  let! ks := arr_get (key2_keys k2) (out_key kds) in
  let! kr := arr_get (key2_keys k2) (in_key kds) in
  let! e := init_key_bi_ctx_send (key_parameters_from_key ks) kt in
  let! d := init_key_bi_ctx_recv (key_parameters_from_key kr) kt in
  Ret (mk_bi e d true).

Fixpoint key_zero_loop (n : nat) (i : Z) (k : key) : res bool :=
  match n with
  | O => Ret true
  | S n => let! b := arr_get (k_cipher k) i in
           if negb (b =? 0) then Ret false else key_zero_loop n (i + 1) k
  end.
Definition key_is_zero (k : key) (kt : key_type) : res bool :=
  key_zero_loop (Z.to_nat (cipher_kt_key_size (kt_cipher kt))) 0 k.
Definition check_key (k : key) (kt : key_type) : res bool :=
  if cipher_defined (kt_cipher kt)
  then let! z := key_is_zero k kt in Ret (negb z)
  else Ret true.

(** ** Limits *)
Definition cipher_get_aead_limits (ciphername : bytes) : Z :=
  if negb (cipher_kt_mode_aead ciphername) then 0
  else if bool_decide (cipher_kt_name ciphername = cipher_kt_name (str "CHACHA20-POLY1305")) then 0
  else Z.shiftl 1 36 - 1.
Definition cipher_decrypt_verify_fail_exceeded (ctx : key_ctx) : bool := Z.shiftl 1 36 <? failed_verifications ctx.
Definition cipher_decrypt_verify_fail_warn (ctx : key_ctx) : bool := Z.shiftl 1 35 <? failed_verifications ctx.
Definition aead_usage_limit_reached (limit : Z) (ctx : key_ctx) (higest_pid : Z) : bool :=
  (0 <? limit) && (limit <? u64 (plaintext_blocks ctx + u64 (s64 higest_pid))).

(** ** Security parameters of a key state *)
Record epoch_key : Type := mk_ek { ek_key : bytes; ek_epoch : Z }.

Record crypto_options : Type := mk_co {
  co_keys : key_ctx_bi;
  co_epoch_key_send : epoch_key;
  co_epoch_key_recv : epoch_key;
  co_epoch_key_type : key_type;
  co_aead_usage_limit : Z;
  co_future : list key_ctx;
  co_retiring : key_ctx;
  co_retiring_pid_recv : packet_id_rec;
  co_packet_id : packet_id;
  co_pid_persist : option packet_id_persist;
  co_flags : Z
}.

(** Stores into the fields of the structure. *)
Definition set_keys (co : crypto_options) (b : key_ctx_bi) : crypto_options :=
  mk_co b (co_epoch_key_send co) (co_epoch_key_recv co) (co_epoch_key_type co) (co_aead_usage_limit co)
    (co_future co) (co_retiring co) (co_retiring_pid_recv co) (co_packet_id co) (co_pid_persist co) (co_flags co).
Definition set_encrypt (co : crypto_options) (c : key_ctx) : crypto_options :=
  set_keys co (mk_bi c (bi_decrypt (co_keys co)) (bi_initialized (co_keys co))).
Definition set_decrypt (co : crypto_options) (c : key_ctx) : crypto_options :=
  set_keys co (mk_bi (bi_encrypt (co_keys co)) c (bi_initialized (co_keys co))).
Definition set_epoch_key_send (co : crypto_options) (e : epoch_key) : crypto_options :=
  mk_co (co_keys co) e (co_epoch_key_recv co) (co_epoch_key_type co) (co_aead_usage_limit co)
    (co_future co) (co_retiring co) (co_retiring_pid_recv co) (co_packet_id co) (co_pid_persist co) (co_flags co).
Definition set_epoch_key_recv (co : crypto_options) (e : epoch_key) : crypto_options :=
  mk_co (co_keys co) (co_epoch_key_send co) e (co_epoch_key_type co) (co_aead_usage_limit co)
    (co_future co) (co_retiring co) (co_retiring_pid_recv co) (co_packet_id co) (co_pid_persist co) (co_flags co).
Definition set_epoch_type (co : crypto_options) (kt : key_type) (limit : Z) : crypto_options :=
  mk_co (co_keys co) (co_epoch_key_send co) (co_epoch_key_recv co) kt limit
    (co_future co) (co_retiring co) (co_retiring_pid_recv co) (co_packet_id co) (co_pid_persist co) (co_flags co).
Definition set_future (co : crypto_options) (f : list key_ctx) : crypto_options :=
  mk_co (co_keys co) (co_epoch_key_send co) (co_epoch_key_recv co) (co_epoch_key_type co) (co_aead_usage_limit co)
    f (co_retiring co) (co_retiring_pid_recv co) (co_packet_id co) (co_pid_persist co) (co_flags co).
Definition set_retiring (co : crypto_options) (c : key_ctx) : crypto_options :=
  mk_co (co_keys co) (co_epoch_key_send co) (co_epoch_key_recv co) (co_epoch_key_type co) (co_aead_usage_limit co)
    (co_future co) c (co_retiring_pid_recv co) (co_packet_id co) (co_pid_persist co) (co_flags co).
Definition set_retiring_pid (co : crypto_options) (r : packet_id_rec) : crypto_options :=
  mk_co (co_keys co) (co_epoch_key_send co) (co_epoch_key_recv co) (co_epoch_key_type co) (co_aead_usage_limit co)
    (co_future co) (co_retiring co) r (co_packet_id co) (co_pid_persist co) (co_flags co).
Definition set_packet_id (co : crypto_options) (p : packet_id) : crypto_options :=
  mk_co (co_keys co) (co_epoch_key_send co) (co_epoch_key_recv co) (co_epoch_key_type co) (co_aead_usage_limit co)
    (co_future co) (co_retiring co) (co_retiring_pid_recv co) p (co_pid_persist co) (co_flags co).
Definition set_pid_persist (co : crypto_options) (p : option packet_id_persist) : crypto_options :=
  mk_co (co_keys co) (co_epoch_key_send co) (co_epoch_key_recv co) (co_epoch_key_type co) (co_aead_usage_limit co)
    (co_future co) (co_retiring co) (co_retiring_pid_recv co) (co_packet_id co) p (co_flags co).
Definition set_pid_send (co : crypto_options) (s : packet_id_send) : crypto_options :=
  set_packet_id co (mk_pid s (pid_rec (co_packet_id co))).
Definition set_pid_rec (co : crypto_options) (r : packet_id_rec) : crypto_options :=
  set_packet_id co (mk_pid (pid_send (co_packet_id co)) r).
End KeyCtx.
Arguments DeriveLaws : clear implicits.
Arguments DeriveLaws _ _ {_}.
Arguments AeadLaws : clear implicits.
Arguments AeadLaws _ _ {_}.
Arguments key_ctx : clear implicits.
Arguments key_ctx_bi : clear implicits.
Arguments crypto_options : clear implicits.

Definition CO_PACKET_ID_LONG_FORM : Z := Z.shiftl 1 0.
Definition CO_IGNORE_PACKET_ID : Z := Z.shiftl 1 1.
Definition CO_EPOCH_DATA_KEY_FORMAT : Z := Z.shiftl 1 8.
