(* ===== verification/SampleLib.v ===== *)
(** * A small library behind the cryptographic interface

    It satisfies the laws of KeyCtx.v and can be evaluated, so that the theorems about the
    data channel can be used on concrete packets.  It offers no security. *)

From Stdlib Require Import String.
From S2P Require Import Prelude CircList Buffer PacketId KeyCtx.
#[local] Open Scope Z_scope.

Definition GCM : bytes := str "AES-256-GCM".
Definition CTR : bytes := str "AES-256-CTR".
Definition sample_sum (l : bytes) : Z := foldr (fun x a => 3 * a + x + 1) 0 l.

(** A context of the sample: key, cipher name, direction. *)
Record sample_cipher : Type := mk_sc { sc_key : bytes; sc_name : bytes; sc_enc : bool }.
Record sample_hmac : Type := mk_sh { sh_key : bytes }.

Definition sample_stream (c : sample_cipher) (iv : bytes) : Z := sample_sum (sc_key c ++ iv).
Definition sample_crypt (c : sample_cipher) (iv d : bytes) : bytes :=
  (fun x => u8 (if sc_enc c then x + sample_stream c iv else x - sample_stream c iv)) <$> d.
Definition sample_tag (c : sample_cipher) (iv ad ct : bytes) : bytes :=
  be_bytes 16 (sample_sum (sc_key c ++ iv ++ ad ++ ct)).

#[export] Instance sample_lib : CryptoLib sample_cipher sample_hmac := {
  cipher_kt_key_size _ := 32;
  cipher_kt_iv_size _ := 12;
  cipher_kt_mode_aead n := bool_decide (n = GCM);
  cipher_valid n := bool_decide (n = GCM) || bool_decide (n = CTR);
  cipher_kt_mode_cbc _ := false;
  cipher_kt_mode_ofb_cfb _ := false;
  cipher_kt_block_size _ := 16;
  cipher_kt_tag_size _ := 16;
  cipher_kt_name n := n;
  md_kt_size _ := 32;
  md_valid _ := true;
  cipher_ctx_init k n e := mk_sc k n e;
  hmac_ctx_init k _ := mk_sh k;
  cipher_ctx_mode c := if bool_decide (sc_name c = GCM) then MODE_AEAD else MODE_OTHER;
  cipher_ctx_iv_length _ := 12;
  cipher_ctx_block_size _ := 16;
  cipher_ctx_reset _ _ := true;
  cipher_ctx_update c iv _ d := Some (sample_crypt c iv d);
  cipher_ctx_update_more c iv _ d := Some (sample_crypt c iv d);
  cipher_ctx_final _ _ _ _ := Some [];
  cipher_ctx_get_tag c iv ad d := Some (sample_tag c iv ad (sample_crypt c iv d));
  cipher_ctx_final_check_tag c iv ad d t := if bool_decide (t = sample_tag c iv ad d) then Some [] else None;
  hmac_ctx_size _ := 32;
  hmac_ctx_value h d := be_bytes 32 (7 * sample_sum (sh_key h ++ d) + 256 ^ 20 * sample_sum (d ++ sh_key h))
}.

#[export] Instance sample_derive_laws : DeriveLaws sample_cipher sample_hmac.
Proof.
  split.
  - intros k d. apply Zlen_be_bytes.
  - done.
  - intros kb c enc. unfold cipher_ctx_mode_aead, cipher_ctx_mode, cipher_kt_mode_aead, cipher_ctx_init, sample_lib.
    cbn [sc_name]. by case_bool_decide.
  - done.
  - done.
Qed.

Lemma sample_crypt_ok c iv d : Zlen (sample_crypt c iv d) = Zlen d /\ bytes_ok (sample_crypt c iv d).
Proof.
  unfold sample_crypt, Zlen. rewrite length_fmap. split; [done|].
  apply Forall_fmap, Forall_true. intros x. apply u8_range.
Qed.

Lemma sample_crypt_inv kb n iv d :
  bytes_ok d -> sample_crypt (mk_sc kb n false) iv (sample_crypt (mk_sc kb n true) iv d) = d.
Proof.
  intros Hd. unfold sample_crypt. cbn. rewrite <- list_fmap_compose.
  rewrite <- (list_fmap_id d) at 2. apply list_fmap_ext. intros i x Hx. cbn.
  unfold sample_stream. cbn. unfold u8. rewrite Zminus_mod_idemp_l. rewrite Z.add_simpl_r.
  apply u8_id. apply (Forall_lookup_1 _ _ _ _ Hd Hx).
Qed.

#[export] Instance sample_aead_laws : AeadLaws sample_cipher sample_hmac.
Proof.
  split.
  - intros. cbn. lia.
  - done.
  - intros kb c iv ad d out _ [= <-]. apply sample_crypt_ok.
  - intros kb c iv ad d t out _. cbn. destruct (bool_decide _); [|done]. by intros [= <-].
  - intros kb c iv ad d _ Hd. cbn.
    exists (sample_crypt (mk_sc kb c true) iv d), (sample_tag (mk_sc kb c true) iv ad (sample_crypt (mk_sc kb c true) iv d)).
    destruct (sample_crypt_ok (mk_sc kb c true) iv d). split_and!; try done.
    + apply be_bytes_ok.
    + by rewrite sample_crypt_inv.
    + by rewrite bool_decide_eq_true_2.
Qed.

Definition sample_kt : key_type := mk_kt GCM (str "none").
