(* ===== verification/FrameCalc.v ===== *)
(** * Sizes of the data channel (mtu.c, mss.c, init.c)

    How many bytes a packet grows on its way to the link by the count of mtu.c, the sizes of
    the packet formats as they are written, the limits that are computed from
    it for [--mssfix] and [--fragment], and the room that every packet buffer is allocated
    with.  Sizes are [size_t] (64 bits) where the code has [size_t], and [int] or
    [uint16_t] in the fields of [struct frame]. *)

From Stdlib Require Import String.
From S2P Require Import Prelude CircList Buffer PacketId TlsSend Mtu KeyCtx SampleLib.
#[local] Open Scope Z_scope.

(** ** Options *)
Definition PROTO_UDP : Z := 1.
Definition PROTO_TCP_SERVER : Z := 3.
Definition PROTO_TCP_CLIENT : Z := 4.
Definition PROTO_N : Z := 5.

Definition proto_is_udp (proto : Z) : res bool :=
  assert! (0 <=? proto) && (proto <? PROTO_N) in Ret (proto =? PROTO_UDP).
Definition proto_is_tcp (proto : Z) : res bool :=
  assert! (0 <=? proto) && (proto <? PROTO_N) in
  Ret ((proto =? PROTO_TCP_CLIENT) || (proto =? PROTO_TCP_SERVER)).

Definition COMP_ALG_UNDEF : Z := 0.
Definition COMP_ALG_STUB : Z := 1.
Definition COMP_ALG_LZO : Z := 2.
Definition COMP_ALG_LZ4 : Z := 4.
Definition COMP_PREFIX_LEN : Z := 1.
Definition COMP_EXTRA_BUFFER (len : Z) : Z := len / 6 + 128 + 3 + COMP_PREFIX_LEN.
Definition TUN_MTU_MIN : Z := 100.

(** The fields of [struct connection_entry] that sizes depend on; [ce_inet] is
    [af == AF_INET]. *)
Record connection_entry : Type := mk_ce {
  ce_proto : Z;
  ce_inet : bool;
  ce_socks_proxy_server : bool;
  ce_tun_mtu : Z;
  ce_tun_mtu_defined : bool;
  ce_tun_mtu_max : Z;
  ce_tun_mtu_extra : Z;
  ce_link_mtu : Z;
  ce_link_mtu_defined : bool;
  ce_tls_mtu : Z;
  ce_fragment : Z;
  ce_fragment_encap : bool;
  ce_mssfix : Z;
  ce_mssfix_encap : bool;
  ce_mssfix_fixed : bool
}.

Record options : Type := mk_options {
  ce : connection_entry;
  tls_server : bool;
  tls_client : bool;
  use_peer_id : bool;
  comp_alg : Z;
  ciphername : bytes;
  authname : bytes;
  shared_secret_file : bool
}.

Definition set_ce (o : options) (e : connection_entry) : options :=
  mk_options e (tls_server o) (tls_client o) (use_peer_id o) (comp_alg o) (ciphername o) (authname o)
    (shared_secret_file o).
Definition set_ce_mssfix (e : connection_entry) (n : Z) (encap : bool) : connection_entry :=
  mk_ce (ce_proto e) (ce_inet e) (ce_socks_proxy_server e) (ce_tun_mtu e) (ce_tun_mtu_defined e) (ce_tun_mtu_max e)
    (ce_tun_mtu_extra e) (ce_link_mtu e) (ce_link_mtu_defined e) (ce_tls_mtu e) (ce_fragment e) (ce_fragment_encap e)
    n encap (ce_mssfix_fixed e).
Definition set_ce_fragment (e : connection_entry) (n : Z) (encap : bool) : connection_entry :=
  mk_ce (ce_proto e) (ce_inet e) (ce_socks_proxy_server e) (ce_tun_mtu e) (ce_tun_mtu_defined e) (ce_tun_mtu_max e)
    (ce_tun_mtu_extra e) (ce_link_mtu e) (ce_link_mtu_defined e) (ce_tls_mtu e) n encap
    (ce_mssfix e) (ce_mssfix_encap e) (ce_mssfix_fixed e).

Definition set_mss_fix (f : frame) (n : Z) : frame :=
  mk_frame (payload_size f) (headroom f) (tailroom f) n (max_fragment_size f) (frame_tun_mtu f) (tun_max_mtu f)
    (extra_tun f).
Definition set_max_fragment_size (f : frame) (n : Z) : frame :=
  mk_frame (payload_size f) (headroom f) (tailroom f) (mss_fix f) n (frame_tun_mtu f) (tun_max_mtu f) (extra_tun f).

(** [struct link_socket_info]: the address is [None] before the peer is known. *)
Record link_socket_info : Type := mk_lsi { lsa_inet : option bool; lsi_proto : Z }.

Section FrameCalc.
Context {cipher_ctx hmac_ctx : Type} `{CL : CryptoLib cipher_ctx hmac_ctx}.
(** [USE_COMP] and the build's support of OFB and CFB ciphers. *)
Context (use_comp ofb_cfb_enabled : bool).

Definition tlsmode (o : options) : bool := tls_server o || tls_client o.

(** ** mtu.c *)
Definition calc_packet_id_size_dc (o : options) (kt : key_type) : Z :=
  let packet_id_long_form := negb (tlsmode o) || cipher_kt_mode_ofb_cfb (kt_cipher kt) in
  packet_id_size packet_id_long_form.

Definition frame_calculate_protocol_header_size (kt : key_type) (o : options) (occ : bool) : res Z :=
  let! udp := (if ce_socks_proxy_server (ce o) then proto_is_udp (ce_proto (ce o)) else Ret false) in
  let header_size := if udp then 10 else 0 in
  let! tcp := proto_is_tcp (ce_proto (ce o)) in
  let header_size := if tcp then header_size + 2 else header_size in
  let header_size := if tlsmode o then header_size + (if use_peer_id o then 4 else 1) else header_size in
  let pkt_id_size := calc_packet_id_size_dc o kt in
  Ret (u64 (header_size + calculate_crypto_overhead kt pkt_id_size occ)).

Definition frame_calculate_payload_overhead (extra_tun : Z) (o : options) (kt : key_type) : Z :=
  let overhead := extra_tun in
  let overhead :=
    if use_comp && ((comp_alg o =? COMP_ALG_LZ4) || (comp_alg o =? COMP_ALG_STUB) || (comp_alg o =? COMP_ALG_LZO))
    then u64 (overhead + 1) else overhead in
  let overhead := if negb (ce_fragment (ce o) =? 0) then u64 (overhead + 4) else overhead in
  if cipher_kt_mode_cbc (kt_cipher kt) then u64 (overhead + calc_packet_id_size_dc o kt) else overhead.

Definition frame_calculate_payload_size (f : frame) (o : options) (kt : key_type) : Z :=
  u64 (u64 (ce_tun_mtu (ce o)) + frame_calculate_payload_overhead (u64 (extra_tun f)) o kt).

Definition calc_options_string_link_mtu (o : options) (f : frame) : res Z :=
  if negb (tls_client o) && negb (tls_server o) && negb (shared_secret_file o) then
    let! occ_kt := init_key_type ofb_cfb_enabled (str "none") (str "none") false in
    Ret (frame_calculate_payload_size f o occ_kt)
  else
    let bf := bool_decide (ciphername o = str "BF-CBC") in
    let overhead := if bf then 64 / 8 + 64 / 8 else 0 in
    let name := if bf then str "none" else ciphername o in
    let! occ_kt := init_key_type ofb_cfb_enabled name (authname o) true in
    let payload := frame_calculate_payload_size f o occ_kt in
    let! h := frame_calculate_protocol_header_size occ_kt o true in
    Ret (u64 (payload + u64 (overhead + h))).

(** ** mss.c *)
Definition adjust_payload_max_cbc (kt : key_type) (target : Z) : res Z :=
  if negb (cipher_kt_mode_cbc (kt_cipher kt)) then Ret target
  else
    let block_size := cipher_kt_block_size (kt_cipher kt) in
    let! target := round_down_size target block_size in
    Ret (u64 (target - 1)).

Definition get_ip_encap_overhead (o : options) (lsi : link_socket_info) : Z :=
  match lsa_inet lsi with
  | Some inet => datagram_overhead inet (lsi_proto lsi =? PROTO_UDP)
  | None => datagram_overhead (ce_inet (ce o)) (ce_proto (ce o) =? PROTO_UDP)
  end.

Definition frame_calculate_fragment (f : frame) (kt : key_type) (o : options) (lsi : link_socket_info) : res frame :=
  let! overhead := frame_calculate_protocol_header_size kt o false in
  let overhead := if ce_fragment_encap (ce o) then u64 (overhead + get_ip_encap_overhead o lsi) else overhead in
  let target := u64 (ce_fragment (ce o) - overhead) in
  let! m := adjust_payload_max_cbc kt target in
  let! m := clamp_size_to_int m in
  let f := set_max_fragment_size f (m - 4) in
  Ret (if cipher_kt_mode_cbc (kt_cipher kt)
       then set_max_fragment_size f (s32 (u32 (max_fragment_size f) - calc_packet_id_size_dc o kt))
       else f).

Definition frame_calculate_mssfix (f : frame) (kt : key_type) (o : options) (lsi : link_socket_info) : res frame :=
  if ce_mssfix_fixed (ce o) then Ret (set_mss_fix f (u16 (ce_mssfix (ce o) - (20 + 20))))
  else
    let! overhead := frame_calculate_protocol_header_size kt o false in
    let payload_overhead := frame_calculate_payload_overhead (u64 (extra_tun f)) o kt in
    let overhead := if ce_mssfix_encap (ce o) then u64 (overhead + get_ip_encap_overhead o lsi) else overhead in
    let payload_overhead := u64 (payload_overhead + (20 + 20)) in
    let target := u64 (ce_mssfix (ce o) - overhead) in
    let! m := adjust_payload_max_cbc kt target in
    Ret (set_mss_fix f (u16 (u64 (m - payload_overhead)))).

Definition frame_calculate_dynamic (f : frame) (kt : key_type) (o : options) (lsi : link_socket_info) : res frame :=
  let! f := (if 0 <? ce_fragment (ce o) then frame_calculate_fragment f kt o lsi else Ret f) in
  if 0 <? ce_mssfix (ce o) then frame_calculate_mssfix f kt o lsi else Ret f.

(** [frame_adjust_path_mtu] on the options and the two frames of a context, for a path MTU
    and the address of the peer. *)
Record mtu_ctx : Type := mk_mtu_ctx { mc_options : options; mc_frame : frame; mc_frame_fragment : frame }.

Definition adjust_path_mssfix (c : mtu_ctx) (kt : key_type) (pmtu encap_overhead : Z) (lsi : link_socket_info)
  : res mtu_ctx :=
  let e := ce (mc_options c) in
  if (pmtu <? ce_mssfix e) || (ce_mssfix_encap e && (pmtu <? ce_mssfix e + encap_overhead)) then
    let o := set_ce (mc_options c) (set_ce_mssfix e pmtu true) in
    let! f := frame_calculate_dynamic (mc_frame c) kt o lsi in
    Ret (mk_mtu_ctx o f (mc_frame_fragment c))
  else Ret c.
Definition adjust_path_fragment (c : mtu_ctx) (kt : key_type) (pmtu encap_overhead : Z) (lsi : link_socket_info)
  : res mtu_ctx :=
  let e := ce (mc_options c) in
  if (pmtu <? ce_fragment e) || (ce_fragment_encap e && (pmtu <? ce_fragment e + encap_overhead)) then
    let o := set_ce (mc_options c) (set_ce_fragment e pmtu true) in
    let! f := frame_calculate_dynamic (mc_frame_fragment c) kt o lsi in
    Ret (mk_mtu_ctx o (mc_frame c) f)
  else Ret c.
Definition frame_adjust_path_mtu (c : mtu_ctx) (kt : key_type) (pmtu : Z) (lsi : link_socket_info) : res mtu_ctx :=
  match lsa_inet lsi with
  | None => UB
  | Some inet =>
      let encap_overhead := datagram_overhead inet (lsi_proto lsi =? PROTO_UDP) in
      let! c := adjust_path_mssfix c kt pmtu encap_overhead lsi in
      adjust_path_fragment c kt pmtu encap_overhead lsi
  end.

(** ** init.c *)
Definition get_frame_mtu (kt : key_type) (o : options) : res Z :=
  let! mtu :=
    (if ce_link_mtu_defined (ce o) then
       let! overhead := frame_calculate_protocol_header_size kt o true in
       Ret (u64 (ce_link_mtu (ce o) - overhead))
     else assert! ce_tun_mtu_defined (ce o) in Ret (u64 (ce_tun_mtu (ce o)))) in
  if mtu <? TUN_MTU_MIN then Fatal else Ret mtu.

Definition finalize_headroom : Z :=
  let headroom := crypto_max_overhead in
  let headroom := headroom + 4 in
  let headroom := headroom + 10 in
  let headroom := headroom + (1 + 1) in
  Z.land (headroom + 3) (u64 (Z.lnot 3)).

Definition frame_finalize_options (f : frame) (kt : key_type) (o : options) : res frame :=
  let! mtu := get_frame_mtu kt o in
  let tun_mtu := s32 mtu in
  let tun_max_mtu := ce_tun_mtu_max (ce o) in
  let tun_max_mtu := max_int tun_mtu tun_max_mtu in
  let tun_max_mtu := max_int 1600 tun_max_mtu in
  let payload := u64 tun_max_mtu in
  let payload := u64 (max_int (s32 payload) (ce_tls_mtu (ce o))) in
  let payload := if ce_tun_mtu_defined (ce o) then u64 (payload + ce_tun_mtu_extra (ce o)) else payload in
  let payload := u64 (payload + 32) in
  let head := finalize_headroom in
  let payload := u64 (payload + head) in
  let tail := head in
  let tail := if use_comp then u64 (tail + COMP_EXTRA_BUFFER payload) else tail in
  Ret (mk_frame (s32 payload) (s32 head) (s32 tail) (mss_fix f) (max_fragment_size f) tun_mtu tun_max_mtu (extra_tun f)).

(** ** What the sizes mean *)

(** The library's sizes for a cipher and a digest are within the maxima of the code. *)
Record sizes_ok (kt : key_type) : Prop := {
  so_iv : 0 <= cipher_kt_iv_size (kt_cipher kt) <= OPENVPN_MAX_IV_LENGTH;
  so_block : 0 < cipher_kt_block_size (kt_cipher kt) <= OPENVPN_MAX_CIPHER_BLOCK_SIZE;
  so_tag : 0 <= cipher_kt_tag_size (kt_cipher kt) <= OPENVPN_AEAD_TAG_LENGTH;
  so_md : 0 <= md_kt_size (kt_digest kt) <= OPENVPN_MAX_HMAC_SIZE
}.

Definition proto_ok (o : options) : Prop := 0 <= ce_proto (ce o) < PROTO_N.

(** What the cipher makes of [n] bytes: a CBC cipher pads to the next multiple of its block,
    by one byte at least. *)
Definition ciphered_size (kt : key_type) (n : Z) : Z :=
  if cipher_kt_mode_cbc (kt_cipher kt)
  then (n / cipher_kt_block_size (kt_cipher kt) + 1) * cipher_kt_block_size (kt_cipher kt)
  else n.

(** *** The packets on the link

    What the code that builds a data packet writes, whatever mtu.c counts for it:
    [openvpn_encrypt_aead] puts a packet identifier (4 bytes, or 8 with epoch keys) and a tag of 16
    bytes around the ciphertext; [openvpn_encrypt_v1] puts the HMAC and the vector in front of it,
    with the identifier encrypted together with the payload (CBC), inside the vector (OFB, CFB), or
    in front of the payload (no cipher).  WireSize proves that the packets have this size. *)
Inductive data_format : Type := AeadFormat | EpochFormat | CbcFormat | StreamFormat | ClearFormat.

Definition format_of (kt : key_type) (epoch : bool) : data_format :=
  if cipher_kt_mode_aead (kt_cipher kt) then if epoch then EpochFormat else AeadFormat
  else if negb (cipher_defined (kt_cipher kt)) then ClearFormat
  else if cipher_kt_mode_cbc (kt_cipher kt) then CbcFormat else StreamFormat.

Definition hmac_size (kt : key_type) : Z := if md_defined (kt_digest kt) then md_kt_size (kt_digest kt) else 0.
(** CBC pads to the next multiple of the block, by one byte at least. *)
Definition cbc_size (kt : key_type) (n : Z) : Z :=
  (n / cipher_kt_block_size (kt_cipher kt) + 1) * cipher_kt_block_size (kt_cipher kt).

(** What [openvpn_encrypt] makes of [n] bytes; a short packet identifier has 4 bytes, a long one 8. *)
Definition data_packet_size (kt : key_type) (long_form epoch : bool) (n : Z) : Z :=
  let pid := if long_form then 8 else 4 in
  match format_of kt epoch with
  | AeadFormat => 4 + 16 + n
  | EpochFormat => 8 + n + 16
  | CbcFormat => hmac_size kt + cipher_kt_iv_size (kt_cipher kt) + cbc_size kt (pid + n)
  | StreamFormat => hmac_size kt + cipher_kt_iv_size (kt_cipher kt) + n
  | ClearFormat => hmac_size kt + pid + n
  end.

(** In front of it: the SOCKS header of a UDP packet, the length of a TCP packet, and the opcode,
    alone or with the peer id. *)
Definition link_prefix (o : options) : Z :=
  (if ce_socks_proxy_server (ce o) && (ce_proto (ce o) =? PROTO_UDP) then 10 else 0)
  + (if (ce_proto (ce o) =? PROTO_TCP_CLIENT) || (ce_proto (ce o) =? PROTO_TCP_SERVER) then 2 else 0)
  + (if tlsmode o then if use_peer_id o then 4 else 1 else 0).

(** The headers of IPv4 or IPv6 and of UDP or TCP, of the peer's address or of the configured one. *)
Definition ip_headers (o : options) (lsi : link_socket_info) : Z :=
  match lsa_inet lsi with
  | Some inet => (if inet then 20 else 40) + (if lsi_proto lsi =? PROTO_UDP then 8 else 20)
  | None => (if ce_inet (ce o) then 20 else 40) + (if ce_proto (ce o) =? PROTO_UDP then 8 else 20)
  end.

(** The size on the link of a packet with [n] bytes of payload: long packet identifiers are used
    without TLS (do_init_crypto_static). *)
Definition packet_size (kt : key_type) (o : options) (lsi : link_socket_info) (epoch encap : bool) (n : Z) : Z :=
  link_prefix o + data_packet_size kt (negb (tlsmode o)) epoch n + (if encap then ip_headers o lsi else 0).

(** What is in front of a tunnel packet in the payload: the Ethernet header of a tap device, the
    byte of the older compression framing, and the fragmentation header. *)
Definition tunnel_overhead (f : frame) (o : options) : Z :=
  extra_tun f
  + (if use_comp && ((comp_alg o =? COMP_ALG_LZ4) || (comp_alg o =? COMP_ALG_STUB) || (comp_alg o =? COMP_ALG_LZO))
     then 1 else 0)
  + (if ce_fragment (ce o) =? 0 then 0 else 4).

(** The packet that carries an IPv4 TCP segment of [n] bytes, with headers of 20 bytes each, and
    the one that carries a fragment of [n] bytes with its fragmentation header. *)
Definition segment_packet (f : frame) (kt : key_type) (o : options) (lsi : link_socket_info) (epoch : bool) (n : Z) : Z :=
  packet_size kt o lsi epoch (ce_mssfix_encap (ce o)) (tunnel_overhead f o + (20 + 20) + n).
Definition fragment_packet (kt : key_type) (o : options) (lsi : link_socket_info) (epoch : bool) (n : Z) : Z :=
  packet_size kt o lsi epoch (ce_fragment_encap (ce o)) (4 + n).

(** A cipher as [init_key_type] admits it: AEAD in TLS mode only, otherwise CBC or a stream mode
    but not both, or none. *)
Record format_ok (kt : key_type) (o : options) : Prop := {
  fo_aead : cipher_kt_mode_aead (kt_cipher kt) = true ->
    tlsmode o = true /\ cipher_kt_mode_cbc (kt_cipher kt) = false /\ cipher_kt_mode_ofb_cfb (kt_cipher kt) = false
    /\ cipher_kt_tag_size (kt_cipher kt) = OPENVPN_AEAD_TAG_LENGTH;
  fo_mode : cipher_kt_mode_aead (kt_cipher kt) = false -> cipher_defined (kt_cipher kt) = true ->
    cipher_kt_mode_ofb_cfb (kt_cipher kt) = negb (cipher_kt_mode_cbc (kt_cipher kt));
  fo_none : cipher_kt_mode_aead (kt_cipher kt) = false -> cipher_defined (kt_cipher kt) = false ->
    cipher_kt_mode_cbc (kt_cipher kt) = false /\ cipher_kt_mode_ofb_cfb (kt_cipher kt) = false
}.

(** *** The sizes mtu.c counts *)

(** The bytes in front of and behind the ciphertext. *)
Definition header_size (kt : key_type) (o : options) : Z :=
  (if ce_socks_proxy_server (ce o) && (ce_proto (ce o) =? PROTO_UDP) then 10 else 0)
  + (if (ce_proto (ce o) =? PROTO_TCP_CLIENT) || (ce_proto (ce o) =? PROTO_TCP_SERVER) then 2 else 0)
  + (if tlsmode o then if use_peer_id o then 4 else 1 else 0)
  + calculate_crypto_overhead kt (calc_packet_id_size_dc o kt) false.

(** The bytes in front of a tunnel packet that are encrypted with it. *)
Definition inner_overhead (f : frame) (kt : key_type) (o : options) : Z :=
  extra_tun f
  + (if use_comp && ((comp_alg o =? COMP_ALG_LZ4) || (comp_alg o =? COMP_ALG_STUB) || (comp_alg o =? COMP_ALG_LZO))
     then 1 else 0)
  + (if ce_fragment (ce o) =? 0 then 0 else 4)
  + (if cipher_kt_mode_cbc (kt_cipher kt) then calc_packet_id_size_dc o kt else 0).

(** The size counted for an encrypted payload of [n] bytes, with the headers of the encapsulating
    IP packet if [encap]. *)
Definition link_size (kt : key_type) (o : options) (lsi : link_socket_info) (encap : bool) (n : Z) : Z :=
  header_size kt o + ciphered_size kt n + (if encap then get_ip_encap_overhead o lsi else 0).

Lemma pid_size_dc o kt : 4 <= calc_packet_id_size_dc o kt <= 8.
Proof. unfold calc_packet_id_size_dc, packet_id_size. destruct (_ || _); lia. Qed.

Lemma encap_range o lsi : 28 <= get_ip_encap_overhead o lsi <= 60.
Proof. unfold get_ip_encap_overhead, datagram_overhead. destruct (lsa_inet lsi) as [[|]|], (_ =? _), (ce_inet (ce o)); lia. Qed.

Lemma crypto_overhead_range kt n :
  sizes_ok kt -> 4 <= n <= 8 -> 0 <= calculate_crypto_overhead kt n false <= 88.
Proof.
  intros [Hi Hb Ht Hm] Hn. unfold calculate_crypto_overhead,
    OPENVPN_MAX_IV_LENGTH, OPENVPN_AEAD_TAG_LENGTH, OPENVPN_MAX_HMAC_SIZE in *.
  destruct (cipher_kt_mode_cbc (kt_cipher kt)), (cipher_kt_mode_aead (kt_cipher kt)), (cipher_defined (kt_cipher kt)), (md_defined (kt_digest kt)); cbn [negb];
    rewrite ?u32_id by (rewrite ?u32_id; unfold is_u32; lia); lia.
Qed.

Lemma header_size_range kt o : sizes_ok kt -> 0 <= header_size kt o <= 104.
Proof.
  intros Hk. pose proof (crypto_overhead_range kt _ Hk (pid_size_dc o kt)). unfold header_size.
  destruct (ce_socks_proxy_server (ce o)), (Z.eqb_spec (ce_proto (ce o)) PROTO_UDP),
    (Z.eqb_spec (ce_proto (ce o)) PROTO_TCP_CLIENT), (Z.eqb_spec (ce_proto (ce o)) PROTO_TCP_SERVER); cbn [andb orb];
    unfold PROTO_UDP, PROTO_TCP_CLIENT, PROTO_TCP_SERVER in *; destruct (tlsmode o), (use_peer_id o); lia.
Qed.

Lemma protocol_header_spec kt o :
  sizes_ok kt -> proto_ok o -> frame_calculate_protocol_header_size kt o false = Ret (header_size kt o).
Proof.
  intros Hk Hp. pose proof (header_size_range kt o Hk) as Hr.
  unfold frame_calculate_protocol_header_size, proto_is_udp, proto_is_tcp, proto_ok in *.
  rewrite !(proj2 (Z.leb_le _ _)), !(proj2 (Z.ltb_lt _ _)) by lia. cbn [andb].
  unfold header_size in *. destruct (ce_socks_proxy_server (ce o)); cbn [res_bind andb] in *; f_equal;
  rewrite u64_id; unfold is_u64;
  repeat match goal with |- context [if ?b then _ else _] => destruct b end; lia.
Qed.

Lemma inner_overhead_range f kt o : 0 <= extra_tun f <= 65535 -> 0 <= inner_overhead f kt o <= 65548.
Proof.
  intros He. pose proof (pid_size_dc o kt). unfold inner_overhead.
  destruct (use_comp && _), (_ =? 0), (cipher_kt_mode_cbc (kt_cipher kt)); lia.
Qed.

Lemma payload_overhead_spec f kt o :
  0 <= extra_tun f <= 65535 ->
  frame_calculate_payload_overhead (u64 (extra_tun f)) o kt = inner_overhead f kt o.
Proof.
  intros He. pose proof (pid_size_dc o kt). unfold frame_calculate_payload_overhead, inner_overhead.
  rewrite (u64_id (extra_tun f)) by (unfold is_u64; lia).
  destruct (use_comp && _), (ce_fragment (ce o) =? 0), (cipher_kt_mode_cbc (kt_cipher kt)); cbn [negb];
    rewrite ?u64_id by (rewrite ?u64_id; unfold is_u64; rewrite ?u64_id; unfold is_u64; lia); lia.
Qed.

(** The payload that fills a target: exactly the payloads up to it stay within the target. *)
Lemma adjust_cbc_spec kt target :
  sizes_ok kt -> ciphered_size kt 0 <= target < 2 ^ 63 ->
  exists m, adjust_payload_max_cbc kt target = Ret m /\ 0 <= m <= target
    /\ forall n, 0 <= n -> ciphered_size kt n <= target <-> n <= m.
Proof.
  intros [_ Hb _ _] Ht. unfold adjust_payload_max_cbc, ciphered_size, round_down_size in *.
  destruct (cipher_kt_mode_cbc (kt_cipher kt)); cbn [negb]; [|exists target; split_and!; [done|lia|lia|lia]].
  set (b := cipher_kt_block_size _) in *. rewrite (proj2 (Z.eqb_neq b 0)) by lia. cbn [res_bind].
  rewrite Z.div_0_l in Ht by lia.
  pose proof (Z.mul_div_le target b). pose proof (Z.mul_succ_div_gt target b).
  assert (1 <= target / b) by (apply Z.div_le_lower_bound; lia).
  rewrite !u64_id by (unfold is_u64; rewrite ?u64_id; unfold is_u64; nia).
  eexists. split; [done|]. split; [nia|]. intros n Hn.
  pose proof (Z.mul_div_le n b). pose proof (Z.mul_succ_div_gt n b). split; intros.
  - assert (n / b + 1 <= target / b) by (apply Z.div_le_lower_bound; lia). nia.
  - assert (n / b < target / b) by (apply Z.div_lt_upper_bound; nia). nia.
Qed.

Lemma ciphered_size_mono kt n m : sizes_ok kt -> 0 <= n <= m -> n <= ciphered_size kt n <= ciphered_size kt m.
Proof.
  intros [_ Hb _ _] H. unfold ciphered_size. destruct (cipher_kt_mode_cbc (kt_cipher kt)); [|lia].
  set (b := cipher_kt_block_size _) in *. pose proof (Z.mul_succ_div_gt n b).
  pose proof (Z.div_le_mono n m b). nia.
Qed.

(** The payload limit for a link limit: the payloads that fit are those up to it. *)
Lemma payload_limit_spec kt o lsi (encap : bool) limit n0 :
  sizes_ok kt -> 0 <= n0 -> link_size kt o lsi encap n0 <= limit < 2 ^ 31 ->
  let overhead := if encap then u64 (header_size kt o + get_ip_encap_overhead o lsi) else header_size kt o in
  exists m, adjust_payload_max_cbc kt (u64 (limit - overhead)) = Ret m /\ n0 <= m <= limit
    /\ forall n, 0 <= n -> link_size kt o lsi encap n <= limit <-> n <= m.
Proof.
  intros Hk Hn Hl. pose proof (header_size_range kt o Hk). pose proof (encap_range o lsi).
  pose proof (ciphered_size_mono kt 0 n0 Hk ltac:(lia)) as Hc0.
  pose proof (ciphered_size_mono kt n0 n0 Hk ltac:(lia)).
  set (ov := header_size kt o + (if encap then get_ip_encap_overhead o lsi else 0)).
  assert (Hov : forall n, link_size kt o lsi encap n = ov + ciphered_size kt n) by (intros; unfold link_size, ov; lia).
  assert (E : (if encap then u64 (header_size kt o + get_ip_encap_overhead o lsi) else header_size kt o) = ov).
  { unfold ov. destruct encap; [rewrite u64_id; unfold is_u64; lia|lia]. }
  cbv zeta. rewrite E. assert (0 <= ov) by (unfold ov; destruct encap; lia). rewrite Hov in Hl.
  rewrite (u64_id (limit - ov)) by (unfold is_u64; lia).
  destruct (adjust_cbc_spec kt (limit - ov) Hk) as (m & Em & Hm & Hiff); [lia|].
  exists m. split; [done|]. split; [split; [apply Hiff; lia|lia]|].
  intros n H'. rewrite Hov, <- Hiff by done. lia.
Qed.

Section Limits.
Context (f : frame) (kt : key_type) (o : options) (lsi : link_socket_info).
Context (Hk : sizes_ok kt) (Hp : proto_ok o) (Hx : 0 <= extra_tun f <= 65535).

(** The size counted for an IPv4 TCP segment of [m] bytes in the tunnel. *)
Definition segment_size (m : Z) : Z := link_size kt o lsi (ce_mssfix_encap (ce o)) (inner_overhead f kt o + (20 + 20) + m).
(** The size counted for a fragment of [n] bytes, with its fragmentation header. *)
Definition fragment_packet_size (n : Z) : Z :=
  link_size kt o lsi (ce_fragment_encap (ce o))
    ((if cipher_kt_mode_cbc (kt_cipher kt) then calc_packet_id_size_dc o kt else 0) + 4 + n).

Lemma mssfix_spec :
  ce_mssfix_fixed (ce o) = false -> segment_size 0 <= ce_mssfix (ce o) <= 65535 ->
  exists m, frame_calculate_mssfix f kt o lsi = Ret (set_mss_fix f m)
    /\ 0 <= m <= ce_mssfix (ce o)
    /\ forall n, 0 <= n -> segment_size n <= ce_mssfix (ce o) <-> n <= m.
Proof using Hk Hp Hx.
  intros Hf Hs. unfold segment_size in *. pose proof (inner_overhead_range f kt o Hx).
  destruct (payload_limit_spec kt o lsi (ce_mssfix_encap (ce o)) (ce_mssfix (ce o)) (inner_overhead f kt o + (20 + 20) + 0) Hk)
    as (m & Em & Hm & Hiff); [lia|lia|].
  exists (m - (inner_overhead f kt o + (20 + 20))). unfold frame_calculate_mssfix.
  rewrite Hf, protocol_header_spec by done. cbn [res_bind]. cbv zeta in Em. rewrite Em. cbn [res_bind].
  rewrite payload_overhead_spec by done. rewrite (u64_id (inner_overhead _ _ _ + _)) by (unfold is_u64; lia).
  rewrite u64_id, u16_id by (unfold is_u64, is_u16; lia).
  split; [done|]. split; [lia|]. intros n Hn. rewrite Hiff by lia. lia.
Qed.

Lemma fragment_limit_spec :
  fragment_packet_size 0 <= ce_fragment (ce o) <= INT_MAX ->
  exists m, frame_calculate_fragment f kt o lsi = Ret (set_max_fragment_size f m)
    /\ 0 <= m <= ce_fragment (ce o)
    /\ forall n, 0 <= n -> fragment_packet_size n <= ce_fragment (ce o) <-> n <= m.
Proof using Hk Hp.
  intros Hs. unfold fragment_packet_size, INT_MAX in *. pose proof (pid_size_dc o kt).
  set (pid := if cipher_kt_mode_cbc (kt_cipher kt) then calc_packet_id_size_dc o kt else 0) in *.
  assert (0 <= pid <= 8) by (unfold pid; destruct (cipher_kt_mode_cbc (kt_cipher kt)); lia).
  destruct (payload_limit_spec kt o lsi (ce_fragment_encap (ce o)) (ce_fragment (ce o)) (pid + 4 + 0) Hk)
    as (m & Em & Hm & Hiff); [lia|lia|].
  exists (m - (pid + 4)). unfold frame_calculate_fragment.
  rewrite protocol_header_spec by done. cbn [res_bind]. cbv zeta in Em. rewrite Em. cbn [res_bind].
  unfold clamp_size_to_int. rewrite (proj2 (Z.leb_le _ INT_MAX)) by (unfold INT_MAX; lia). cbn [res_bind].
  rewrite (s32_id m) by (unfold is_int, INT_MAX, INT_MIN; lia).
  split.
  - f_equal. unfold pid in *. destruct (cipher_kt_mode_cbc (kt_cipher kt)); unfold set_max_fragment_size; cbn; f_equal; try lia.
    rewrite u32_id by (unfold is_u32; lia). rewrite s32_id by (unfold is_int, INT_MAX, INT_MIN; lia). lia.
  - split; [lia|]. intros n Hn. rewrite Hiff by lia. lia.
Qed.
End Limits.

(** By how much a packet on the link is larger than what mtu.c counts for it: the identifier of an
    epoch packet has 8 bytes where 4 are counted, and for OFB and CFB 8 bytes are counted for an
    identifier that is inside the vector. *)
Definition miscount (kt : key_type) (epoch : bool) : Z :=
  match format_of kt epoch with EpochFormat => 4 | StreamFormat => -8 | _ => 0 end.

Lemma size_counted kt o lsi epoch encap n :
  sizes_ok kt -> format_ok kt o ->
  packet_size kt o lsi epoch encap n
  = link_size kt o lsi encap ((if cipher_kt_mode_cbc (kt_cipher kt) then calc_packet_id_size_dc o kt else 0) + n)
    + miscount kt epoch.
Proof.
  intros [Hi Hb Ht Hm] [Ha Hv Hn].
  assert (Eip : ip_headers o lsi = get_ip_encap_overhead o lsi)
    by (unfold ip_headers, get_ip_encap_overhead, datagram_overhead; destruct (lsa_inet lsi); lia).
  unfold packet_size, link_size, header_size, link_prefix, data_packet_size, miscount, format_of, hmac_size, cbc_size,
    ciphered_size, calculate_crypto_overhead, calc_packet_id_size_dc, packet_id_size, OPENVPN_MAX_IV_LENGTH,
    OPENVPN_AEAD_TAG_LENGTH, OPENVPN_MAX_HMAC_SIZE in *.
  rewrite Eip. destruct (cipher_kt_mode_aead (kt_cipher kt)) eqn:Eaead.
  - destruct (Ha eq_refl) as (-> & -> & -> & ->). cbn [negb orb].
    rewrite u32_id by (unfold is_u32; lia). destruct epoch; lia.
  - destruct (cipher_defined (kt_cipher kt)) eqn:Ed; cbn [negb].
    + rewrite (Hv eq_refl eq_refl). destruct (cipher_kt_mode_cbc (kt_cipher kt)) eqn:Ec; cbn [negb];
        rewrite ?orb_false_r, ?orb_true_r; destruct (tlsmode o), (md_defined (kt_digest kt)); cbn [negb];
        rewrite ?u32_id by (rewrite ?u32_id; unfold is_u32; lia);
        change (4 + 0) with 4; change (4 + 4) with 8; lia.
    + destruct (Hn eq_refl eq_refl) as [-> ->]. rewrite orb_false_r.
      destruct (tlsmode o), (md_defined (kt_digest kt)); cbn [negb]; rewrite ?u32_id by (unfold is_u32; lia); lia.
Qed.

(** C11: frame_calculate_dynamic computes exact limits for most packet formats, and is off by a
    constant for two.  Measured on the packets that openvpn_encrypt writes, for every cipher, mode,
    protocol and proxy: a TCP segment of n bytes (IPv4, no options) leaves in a packet of at most
    --mssfix bytes exactly when n is at most the computed mss_fix, and a fragment of n bytes leaves
    within --fragment exactly when n is at most max_fragment_size, with AEAD and no epoch keys, with
    CBC (the padding is accounted for to the byte) and without a cipher.  With epoch keys the largest
    packets admitted are those of four bytes more than the option allows, because the packet
    identifier has eight bytes and four are counted; with OFB and CFB they are those of eight bytes
    less, because an identifier is counted that is part of the vector.  The headers of the link's IP
    packet are counted or not as configured, and it suffices that an empty segment and an empty
    fragment fit. *)
Theorem frame_limits_exact (f : frame) (kt : key_type) (o : options) (lsi : link_socket_info) (epoch : bool) :
  sizes_ok kt -> format_ok kt o -> proto_ok o -> 0 <= extra_tun f <= 65535 ->
  let e := ce o in
  let off := match format_of kt epoch with
             | AeadFormat | CbcFormat | ClearFormat => 0 | EpochFormat => 4 | StreamFormat => -8 end in
  ce_mssfix_fixed e = false -> 0 < ce_mssfix e <= 65535 -> segment_packet f kt o lsi epoch 0 <= ce_mssfix e + off ->
  0 < ce_fragment e <= INT_MAX -> fragment_packet kt o lsi epoch 0 <= ce_fragment e + off ->
  exists f', frame_calculate_dynamic f kt o lsi = Ret f'
    /\ (forall n, 0 <= n -> segment_packet f kt o lsi epoch n <= ce_mssfix e + off <-> n <= mss_fix f')
    /\ (forall n, 0 <= n -> fragment_packet kt o lsi epoch n <= ce_fragment e + off <-> n <= max_fragment_size f').
Proof.
  intros Hk Hfo Hp Hx e off Hf Hm Hs Hg Hfs. unfold frame_calculate_dynamic. fold e.
  assert (Eoff : off = miscount kt epoch) by (unfold off, miscount; by destruct (format_of kt epoch)).
  assert (Es : forall n, segment_packet f kt o lsi epoch n = segment_size f kt o lsi n + off).
  { intros n. unfold segment_packet, segment_size. rewrite size_counted, Eoff by done. do 2 f_equal.
    unfold tunnel_overhead, inner_overhead. lia. }
  assert (Ef : forall n, fragment_packet kt o lsi epoch n = fragment_packet_size kt o lsi n + off).
  { intros n. unfold fragment_packet, fragment_packet_size. rewrite size_counted, Eoff by done. do 2 f_equal. lia. }
  clearbody off. rewrite !(proj2 (Z.ltb_lt 0 _)) by lia. rewrite Es in Hs. rewrite Ef in Hfs.
  destruct (fragment_limit_spec f kt o lsi Hk Hp) as (n & -> & Hn & Hfrag); [fold e; lia|]. cbn [res_bind].
  destruct (mssfix_spec (set_max_fragment_size f n) kt o lsi Hk Hp Hx Hf) as (m & -> & Hm' & Hmss);
    [change (segment_size f kt o lsi 0 <= ce_mssfix e <= 65535); lia|].
  eexists. split; [done|]. cbn [set_mss_fix mss_fix max_fragment_size set_max_fragment_size]. fold e in Hmss, Hfrag.
  split; intros i Hi; [rewrite Es, <- Hmss by done|rewrite Ef, <- Hfrag by done]; [|lia].
  change (segment_size (set_max_fragment_size f n) kt o lsi i) with (segment_size f kt o lsi i). lia.
Qed.

(** ** The path MTU *)
Section PathMtu.
Context (c : mtu_ctx) (f0 : frame) (kt : key_type) (lsi : link_socket_info) (inet : bool) (pmtu : Z).
Abbreviation o := (mc_options c).
Abbreviation overhead := (get_ip_encap_overhead o lsi).
Context (Hk : sizes_ok kt) (Hp : proto_ok o) (Hx : 0 <= extra_tun f0 <= 65535).
Context (Hlsi : lsa_inet lsi = Some inet).
Context (Hf : ce_mssfix_fixed (ce o) = false) (Hg : ce_fragment (ce o) = 0).
Context (Hm : 0 < ce_mssfix (ce o) <= 65535) (Hs : segment_size f0 kt o lsi 0 <= ce_mssfix (ce o)).
Context (Hc : frame_calculate_dynamic f0 kt o lsi = Ret (mc_frame c)).

(** The size counted for the IP packet that carries a segment of [n] bytes. *)
Definition ip_packet_size (n : Z) : Z := link_size kt o lsi true (inner_overhead f0 kt o + (20 + 20) + n).

Lemma ip_packet_segment n :
  ip_packet_size n = segment_size f0 kt o lsi n + (if ce_mssfix_encap (ce o) then 0 else overhead).
Proof using. unfold ip_packet_size, segment_size, link_size. destruct (ce_mssfix_encap (ce o)); lia. Qed.

Lemma old_limit : exists m, mc_frame c = set_mss_fix f0 m /\ 0 <= m
  /\ forall n, 0 <= n -> segment_size f0 kt o lsi n <= ce_mssfix (ce o) <-> n <= m.
Proof using Hk Hp Hx Hlsi Hf Hg Hm Hs Hc.
  destruct (mssfix_spec f0 kt o lsi Hk Hp Hx Hf) as (m & E & Hm' & Hiff); [lia|].
  exists m. split; [|split; [lia|done]]. revert Hc. unfold frame_calculate_dynamic. rewrite Hg. cbn [Z.ltb Z.compare res_bind].
  rewrite (proj2 (Z.ltb_lt 0 _)) by lia. rewrite E. by intros [= <-].
Qed.

(** What the limit is after the call: that of the path MTU if one of the two tests holds. *)
Lemma adjust_path_spec :
  ip_packet_size 0 <= pmtu <= 65535 ->
  let e := ce o in
  let lowered := (pmtu <? ce_mssfix e) || (ce_mssfix_encap e && (pmtu <? ce_mssfix e + overhead)) in
  exists c', frame_adjust_path_mtu c kt pmtu lsi = Ret c'
    /\ (if lowered then ce_mssfix (ce (mc_options c')) = pmtu else c' = c)
    /\ forall n, 0 <= n -> n <= mss_fix (mc_frame c')
         <-> (if lowered then ip_packet_size n <= pmtu else segment_size f0 kt o lsi n <= ce_mssfix e).
Proof using Hk Hp Hx Hlsi Hf Hg Hm Hs Hc.
  intros H0. cbv zeta. destruct old_limit as (m & Em & Hm0 & Hiff).
  unfold frame_adjust_path_mtu. rewrite Hlsi.
  assert (Eo : datagram_overhead inet (lsi_proto lsi =? PROTO_UDP) = overhead)
    by (unfold get_ip_encap_overhead; rewrite Hlsi; done).
  rewrite Eo. pose proof (encap_range o lsi). unfold adjust_path_mssfix.
  assert (Hov : overhead <= ip_packet_size 0).
  { unfold ip_packet_size, link_size. pose proof (header_size_range kt o Hk). pose proof (inner_overhead_range f0 kt o Hx).
    set (n := inner_overhead f0 kt o + (20 + 20) + 0) in *. assert (0 <= n <= n) by (unfold n; lia).
    pose proof (ciphered_size_mono kt n n Hk). lia. }
  assert (Hfr : forall x, ce_fragment (ce (mc_options x)) = 0 -> adjust_path_fragment x kt pmtu overhead lsi = Ret x).
  { intros x Hx0. unfold adjust_path_fragment. rewrite Hx0, !(proj2 (Z.ltb_ge pmtu _)) by lia. cbn [orb].
    by rewrite andb_false_r. }
  destruct (_ || _) eqn:El.
  - set (o' := set_ce o (set_ce_mssfix (ce o) pmtu true)).
    destruct (mssfix_spec (mc_frame c) kt o' lsi Hk Hp) as (m' & E' & Hm' & Hiff').
    { by rewrite Em. } { done. } { rewrite Em. exact H0. }
    unfold frame_calculate_dynamic. change (ce_fragment (ce o')) with (ce_fragment (ce o)).
    change (ce_mssfix (ce o')) with pmtu.
    rewrite Hg. cbn [Z.ltb Z.compare res_bind]. rewrite (proj2 (Z.ltb_lt 0 pmtu)) by lia. rewrite E'. cbn [res_bind]. rewrite Hfr by exact Hg.
    eexists. split; [done|]. split; [done|]. intros n Hn. cbn [mc_frame set_mss_fix mss_fix].
    rewrite <- Hiff' by done. rewrite Em. done.
  - cbn [res_bind]. rewrite Hfr by exact Hg. eexists. split; [done|]. split; [done|].
    intros n Hn. rewrite Em. cbn [set_mss_fix mss_fix]. by rewrite Hiff.
Qed.

(** The path MTU is taken for a limit of the wrong kind.  frame_adjust_path_mtu compares it
    with mssfix as it stands when mssfix does not count the IP and UDP headers, and adds their
    size when mssfix already counts them.  So without the mtu flag, for a path MTU from mssfix
    up to mssfix plus those headers, nothing is adjusted and the largest segment the clamping
    admits leaves in an IP packet above the path MTU (for every cipher that does not pad); and
    with the flag, a path MTU in that range raises the configured limit.  For all other path
    MTUs the segments that mss_fix admits leave in IP packets within the path MTU.  The sizes
    here are those mtu.c counts, which [size_counted] relates to the packets on the link. *)
Lemma path_mtu_test_swapped :
  ip_packet_size 0 <= pmtu <= 65535 ->
  let e := ce o in
  let between := ce_mssfix e <= pmtu < ce_mssfix e + overhead in
  exists c', frame_adjust_path_mtu c kt pmtu lsi = Ret c'
    /\ (between -> ce_mssfix_encap e = false ->
        mc_frame c' = mc_frame c
        /\ (cipher_kt_mode_cbc (kt_cipher kt) = false -> pmtu < ip_packet_size (mss_fix (mc_frame c'))))
    /\ (between -> ce_mssfix_encap e = true -> ce_mssfix (ce (mc_options c')) = pmtu)
    /\ (~ (between /\ ce_mssfix_encap e = false) -> forall n, 0 <= n <= mss_fix (mc_frame c') -> ip_packet_size n <= pmtu).
Proof using Hk Hp Hx Hlsi Hf Hg Hm Hs Hc.
  intros H0. cbv zeta. destruct old_limit as (m & Em & Hm0 & Hiff).
  destruct (adjust_path_spec H0) as (c' & Hadj & Hopt & Hlim). exists c'. split; [done|].
  pose proof (encap_range o lsi).
  destruct (ce_mssfix_encap (ce o)) eqn:Ee; cbn [andb] in *.
  - split; [done|]. split.
    + intros [_ Hb] _. revert Hopt. rewrite (proj2 (Z.ltb_lt pmtu (_ + _))) by lia. by rewrite orb_true_r.
    + intros _ n Hn. assert (Hn' := proj1 (Hlim n ltac:(lia)) (proj2 Hn)). revert Hn'.
      destruct (_ || _) eqn:El; [done|]. apply orb_false_iff in El as [_ Hge%Z.ltb_ge].
      intros. pose proof (ip_packet_segment n) as Ei. rewrite Ee in Ei. lia.
  - rewrite orb_false_r in *. split; [|split; [done|]].
    + intros [Hb1 Hb2] _. rewrite (proj2 (Z.ltb_ge _ _)) in Hopt by lia. subst c'. split; [done|]. intros Hcbc.
      rewrite Em. cbn [set_mss_fix mss_fix]. rewrite ip_packet_segment, Ee.
      assert (E1 : segment_size f0 kt o lsi (m + 1) = segment_size f0 kt o lsi m + 1)
        by (unfold segment_size, link_size, ciphered_size; rewrite Hcbc; lia).
      pose proof (Hiff (m + 1) ltac:(lia)). lia.
    + intros Hnb n Hn. assert (Hn' := proj1 (Hlim n ltac:(lia)) (proj2 Hn)). revert Hn'.
      destruct (Z.ltb_spec pmtu (ce_mssfix (ce o))); [done|].
      intros. pose proof (ip_packet_segment n) as Ei. rewrite Ee in Ei. lia.
Qed.
End PathMtu.

(** ** The room in every buffer *)
Lemma finalize_headroom_eq : finalize_headroom = 136.
Proof using. reflexivity. Qed.

(** Options within what the parser of the configuration admits. *)
Record mtu_options_ok (o : options) : Prop := {
  mo_link : ce_link_mtu_defined (ce o) = false;
  mo_tun : ce_tun_mtu_defined (ce o) = true;
  mo_tun_mtu : TUN_MTU_MIN <= ce_tun_mtu (ce o) <= 65536;
  mo_tun_max : 0 <= ce_tun_mtu_max (ce o) <= 65536;
  mo_tun_extra : 0 <= ce_tun_mtu_extra (ce o) <= 65536;
  mo_tls_mtu : 0 <= ce_tls_mtu (ce o) <= TLS_CHANNEL_BUF_SIZE
}.

Lemma finalize_spec f kt o :
  mtu_options_ok o ->
  exists f', frame_finalize_options f kt o = Ret f'
    /\ headroom f' = 136 /\ 136 <= tailroom f' <= 30000
    /\ Z.max (ce_tun_mtu (ce o)) (ce_tun_mtu_max (ce o)) + ce_tun_mtu_extra (ce o) + 32 + headroom f' <= payload_size f' <= 140000.
Proof.
  intros [Hl Ht Hm Hmax Hx Htls]. unfold TUN_MTU_MIN, TLS_CHANNEL_BUF_SIZE in *. unfold frame_finalize_options, get_frame_mtu.
  rewrite Hl, Ht. cbn [res_bind]. rewrite (u64_id (ce_tun_mtu _)) by (unfold is_u64; lia). unfold TUN_MTU_MIN.
  rewrite (proj2 (Z.ltb_ge (ce_tun_mtu (ce o)) _)) by lia. cbn [res_bind]. rewrite finalize_headroom_eq, !max_int_max.
  rewrite (s32_id (ce_tun_mtu _)) by (unfold is_int, INT_MIN, INT_MAX; lia).
  rewrite (u64_id (Z.max 1600 _)), (s32_id (Z.max 1600 _)) by (unfold is_u64, is_int, INT_MIN, INT_MAX; lia).
  rewrite (u64_id (Z.max (Z.max _ _) _)) by (unfold is_u64; lia).
  set (p := Z.max (Z.max 1600 _) _).
  assert (Hp : Z.max (ce_tun_mtu (ce o)) (ce_tun_mtu_max (ce o)) <= p <= 65536) by (unfold p; lia). clearbody p.
  rewrite (u64_id (p + _)), (u64_id (p + ce_tun_mtu_extra (ce o) + 32)) by (unfold is_u64; lia).
  rewrite (u64_id (_ + 32 + 136)) by (unfold is_u64; lia).
  set (q := p + _ + 32 + 136). assert (Hq : q <= 140000 /\ p + ce_tun_mtu_extra (ce o) + 168 = q) by (unfold q; lia). clearbody q.
  assert (Hc : 0 <= COMP_EXTRA_BUFFER q <= 24000).
  { unfold COMP_EXTRA_BUFFER, COMP_PREFIX_LEN. pose proof (Z.div_le_mono q 140000 6). pose proof (Z.div_pos q 6).
    change (140000 / 6) with 23333 in *. lia. }
  eexists. split; [done|]. cbn [headroom tailroom payload_size].
  rewrite (s32_id q), (s32_id 136) by (unfold is_int, INT_MIN, INT_MAX; lia). split; [done|].
  split; [|lia]. destruct use_comp; [rewrite u64_id by (unfold is_u64; lia)|];
    rewrite s32_id; unfold is_int, INT_MIN, INT_MAX; lia.
Qed.

(** A buffer for the socket or the tunnel device can be allocated, and after [buf_init] it has
    the headroom in front and the payload and the tailroom behind. *)
Lemma alloc_sock_tun_spec (f : frame) :
  0 <= headroom f -> 0 <= payload_size f -> 0 <= tailroom f -> BUF_SIZE f < BUF_SIZE_MAX ->
  exists b b', alloc_buf_sock_tun f = Ret b /\ buf_wf b /\ b_data b <> None /\ b_capacity b = BUF_SIZE f
    /\ buf_init_dowork b (headroom f) = (true, b')
    /\ buf_repr b' (headroom f) [] (payload_size f + tailroom f).
Proof using.
  intros Hh Hp Ht Hs. unfold alloc_buf_sock_tun. unfold BUF_SIZE_MAX in *.
  rewrite u64_id by (unfold is_u64, BUF_SIZE in *; lia).
  destruct (alloc_buf_repr (BUF_SIZE f)) as [Ea Hr]; [unfold BUF_SIZE; lia|].
  rewrite (proj2 (Z.ltb_lt _ BUF_SIZE_MAX)) in Ea by (unfold BUF_SIZE_MAX; lia).
  specialize (Hr ltac:(unfold BUF_SIZE_MAX; lia)).
  destruct (buf_init_repr _ (headroom f) (buf_repr_wf _ _ _ _ Hr) ltac:(done)) as (b1 & E1 & R1);
    [cbn; unfold BUF_SIZE; lia|]. cbn [b_capacity] in R1.
  replace (BUF_SIZE f - headroom f) with (payload_size f + tailroom f) in R1 by (unfold BUF_SIZE; lia).
  rewrite Ea. cbn [res_bind]. rewrite E1. revert E1. unfold buf_init_dowork at 1. cbn [b_capacity].
  destruct (_ || _); [done|]. intros [= <-].
  assert (Hv : buf_safe (set_window (set_window (mk_buffer (BUF_SIZE f) 0 0 (Some (replicate (Z.to_nat (BUF_SIZE f)) 0)))
                 (headroom f) 0) (headroom f) (payload_size f)) 0 = true).
  { unfold buf_safe, buf_valid, buf_defined, buf_size_valid, BUF_SIZE_MAX. cbn. change (s32 0) with 0.
    rewrite (proj2 (Z.leb_le 0 _)), (proj2 (Z.leb_le _ (BUF_SIZE f))) by (unfold BUF_SIZE; lia). done. }
  cbn [b_offset set_window] in *. rewrite Hv. eexists _, _. split; [done|]. pose proof (buf_repr_wf _ _ _ _ Hr) as Hwf.
  split; [revert Hwf; unfold buf_wf, BUF_SIZE; cbn; intuition lia|]. split; [done|]. split; [done|]. split; [|exact R1].
  unfold buf_init_dowork. cbn [b_capacity set_window buf_defined b_data].
  rewrite (proj2 (Z.ltb_ge (headroom f) 0)), (proj2 (Z.ltb_ge (BUF_SIZE f) _)) by (unfold BUF_SIZE; lia). done.
Qed.

Lemma finalized_buffer f kt o :
  mtu_options_ok o ->
  exists f' b b', frame_finalize_options f kt o = Ret f' /\ alloc_buf_sock_tun f' = Ret b
    /\ buf_wf b /\ b_data b <> None /\ b_capacity b = BUF_SIZE f'
    /\ buf_init_dowork b (headroom f') = (true, b') /\ buf_repr b' 136 [] (payload_size f' + tailroom f')
    /\ headroom f' = 136 /\ 136 <= tailroom f'
    /\ Z.max (ce_tun_mtu (ce o)) (ce_tun_mtu_max (ce o)) + ce_tun_mtu_extra (ce o) + 32 + 136 <= payload_size f'.
Proof.
  intros Ho. destruct (finalize_spec f kt o Ho) as (f' & E & Hh & Ht & Hp). destruct Ho.
  unfold TUN_MTU_MIN in *. rewrite Hh in *.
  destruct (alloc_sock_tun_spec f') as (b & b' & Ea & Wf & Hd & Hc & Ei & R); [lia..|unfold BUF_SIZE, BUF_SIZE_MAX; lia|].
  rewrite Hh in *. exists f', b, b'. rewrite Hh. split_and!; try done; lia.
Qed.
End FrameCalc.

(** ** Examples *)
Definition sample_options (mssfix fragment : Z) : options :=
  mk_options (mk_ce PROTO_UDP true false 1500 true 1600 0 0 false 1250 fragment false mssfix false false)
    false true true COMP_ALG_UNDEF GCM (str "SHA1") false.
Definition sample_lsi : link_socket_info := mk_lsi (Some true) PROTO_UDP.
Definition blank_frame : frame := mk_frame 0 0 0 0 0 0 0 0.

Lemma sample_sizes : sizes_ok sample_kt.
Proof. split; vm_compute; split; (reflexivity || discriminate). Qed.

Lemma sample_format : format_ok sample_kt (sample_options 1450 1300).
Proof. split; vm_compute; intuition discriminate. Qed.

Lemma frame_limits_exact_witness :
  exists f', frame_calculate_dynamic true blank_frame sample_kt (sample_options 1450 1300) sample_lsi = Ret f'
    /\ mss_fix f' = 1382 /\ max_fragment_size f' = 1272
    /\ segment_packet true blank_frame sample_kt (sample_options 1450 1300) sample_lsi true 1382 = 1454
    /\ segment_packet true blank_frame sample_kt (sample_options 1450 1300) sample_lsi false 1382 = 1450.
Proof.
  destruct (frame_limits_exact true blank_frame sample_kt (sample_options 1450 1300) sample_lsi true) as (f' & E & _ & _).
  - apply sample_sizes.
  - apply sample_format.
  - vm_compute. split; [discriminate|reflexivity].
  - vm_compute. split; (reflexivity || discriminate).
  - reflexivity.
  - vm_compute. split; (reflexivity || discriminate).
  - vm_compute. discriminate.
  - vm_compute. split; (reflexivity || discriminate).
  - vm_compute. discriminate.
  - exists f'. split; [done|]. revert E. vm_compute. intros [= <-]. done.
Defined.

(** With the default limit and a path MTU of 1460 bytes, IP packets of 1478 bytes are sent. *)
