(* ===== verification/Epoch.v ===== *)
(** * Epoch data keys (crypto_epoch.c)

    Both directions of a data channel have a chain of epoch keys [E_1], [E_2], ...; the
    data key of an epoch is derived from its epoch key.  The receiver holds the key in
    use, the one before it and a fixed number of keys ahead. *)

From Stdlib Require Import String.
From S2P Require Import Prelude CircList Buffer PacketId KeyCtx SampleLib.
#[local] Open Scope Z_scope.

Definition UINT16_MAX : Z := 65535.

Section Epoch.
Context {cipher_ctx hmac_ctx : Type} `{CL : CryptoLib cipher_ctx hmac_ctx}.
#[local] Abbreviation key_ctx := (KeyCtx.key_ctx cipher_ctx hmac_ctx).
#[local] Abbreviation crypto_options := (KeyCtx.crypto_options cipher_ctx hmac_ctx).

(** ** Derivation *)

(** The loop over the blocks; its counter is a [uint8_t].  The store before the
    first byte of [out] that a wrapped counter leads to ends every run that is too
    long, within 256 rounds. *)
Fixpoint hkdf_loop (fuel : nat) (h : hmac_ctx) (info : bytes) (out_len block : Z) (t_prev out : bytes)
  : res bytes :=
  if (block - 1) * SHA256_DIGEST_LENGTH <? out_len then
    match fuel with
    | O => UB
    | S fuel =>
        let t_prev := hmac_ctx_value h (t_prev ++ info ++ [block]) in
        let out_offset := (block - 1) * SHA256_DIGEST_LENGTH in
        let copylen := Z.min SHA256_DIGEST_LENGTH (out_len - out_offset) in
        let! src := mem_read t_prev 0 copylen in
        let! out := mem_write out out_offset src in
        hkdf_loop fuel h info out_len (u8 (block + 1)) t_prev out
    end
  else Ret out.

Definition ovpn_hkdf_expand (secret info out : bytes) (out_len : Z) : res bytes :=
  hkdf_loop 256 (hmac_ctx_init secret (str "SHA256")) info out_len 1 [] out.

(** The block of [alloc_buf_gc] is written in full before it is read, so that its
    first contents do not matter. *)
Definition ovpn_expand_label (secret label context out : bytes) (out_len : Z) : res (bool * bytes) :=
  let secret_len := Zlen secret in
  let label_len := Zlen label in
  let context_len := Zlen context in
  if negb (secret_len =? 32) || (250 <? label_len) || (255 <? context_len) || (label_len <? 1)
  then Ret (false, out)
  else
    let label_prefix := str "ovpn " in
    let prefix_len := 5 in
    let hkdf_label_len := 2 + prefix_len + 1 + label_len + 1 + context_len in
    let! hkdf_label := alloc_buf_gc (replicate (Z.to_nat hkdf_label_len) 0) in
    let! (_, hkdf_label) := buf_write_u16 hkdf_label out_len in
    let! (_, hkdf_label) := buf_write_u8 hkdf_label (prefix_len + label_len) in
    let! (_, hkdf_label) := buf_write hkdf_label label_prefix in
    let! (_, hkdf_label) := buf_write hkdf_label label in
    let! (_, hkdf_label) := buf_write_u8 hkdf_label context_len in
    let! (_, hkdf_label) := (if 0 <? context_len then buf_write hkdf_label context else Ret (true, hkdf_label)) in
    assert! buf_len hkdf_label =? hkdf_label_len in
    let! info := buf_bytes hkdf_label in
    let! out := ovpn_hkdf_expand secret info out out_len in
    Ret (true, out).

Definition epoch_key_iterate (epoch_key : epoch_key) : res KeyCtx.epoch_key :=
  let! (_, k) := ovpn_expand_label (ek_key epoch_key) (str "datakey upd") [] (replicate 32 0) 32 in
  Ret (mk_ek k (u16 (ek_epoch epoch_key + 1))).

Definition epoch_data_key_derive (key : key_parameters) (epoch_key : epoch_key) (kt : key_type)
  : res key_parameters :=
  let hmac_size := cipher_kt_iv_size (kt_cipher kt) in
  let cipher_size := cipher_kt_key_size (kt_cipher kt) in
  let! (_, cipher) :=
    ovpn_expand_label (ek_key epoch_key) (str "data_key") [] (kp_cipher key) (u16 cipher_size) in
  let! (_, hmac) :=
    ovpn_expand_label (ek_key epoch_key) (str "data_iv") [] (kp_hmac key) (u16 hmac_size) in
  Ret (mk_kp cipher cipher_size hmac hmac_size (ek_epoch epoch_key)).

(** ** Keys in use *)
Definition epoch_init_send_key_ctx (co : crypto_options) : res crypto_options :=
  assert! negb (ctx_epoch (bi_encrypt (co_keys co)) =? ek_epoch (co_epoch_key_send co)) in
  let! send_key := epoch_data_key_derive kp_zero (co_epoch_key_send co) (co_epoch_key_type co) in
  let! ctx := init_key_bi_ctx_send send_key (co_epoch_key_type co) in
  let co := set_encrypt co ctx in
  Ret (set_pid_send co (reset_packet_id_send (pid_send (co_packet_id co)))).

Definition epoch_init_recv_key (co : crypto_options) : res key_ctx :=
  let! recv_key := epoch_data_key_derive kp_zero (co_epoch_key_recv co) (co_epoch_key_type co) in
  init_key_bi_ctx_recv recv_key (co_epoch_key_type co).

(** ** Keys ahead *)
Definition free_old_key (current : Z) (c : key_ctx) : key_ctx :=
  if (0 <? ctx_epoch c) && (ctx_epoch c <? current) then free_key_ctx c else c.

(** [for (i = 0; i < num; i++) ASSERT (future[i].epoch == 0);] *)
Fixpoint assert_freed (n : nat) (i : Z) (f : list key_ctx) : res unit :=
  match n with
  | O => Ret tt
  | S n => let! c := arr_get f i in
           assert! ctx_epoch c =? 0 in
           assert_freed n (i + 1) f
  end.

(** The loop that clears and regenerates the [n] elements from index [i]. *)
Fixpoint regenerate (n : nat) (i : Z) (co : crypto_options) : res crypto_options :=
  match n with
  | O => Ret co
  | S n =>
      let! f := arr_set (co_future co) i ctx_zero in
      let! ek := epoch_key_iterate (co_epoch_key_recv co) in
      let co := set_epoch_key_recv (set_future co f) ek in
      let! ctx := epoch_init_recv_key co in
      let! f := arr_set (co_future co) i ctx in
      regenerate n (i + 1) (set_future co f)
  end.

Definition future_count (co : crypto_options) : Z := Zlen (co_future co).

Definition epoch_generate_future_receive_keys (co : crypto_options) : res crypto_options :=
  assert! bi_initialized (co_keys co) in
  let current_decrypt_epoch := ctx_epoch (bi_decrypt (co_keys co)) in
  let! highest_future_key := arr_get (co_future co) (future_count co - 1) in
  assert! (ek_epoch (co_epoch_key_recv co) =? 1)
          || (ctx_epoch highest_future_key =? ek_epoch (co_epoch_key_recv co)) in
  let f := free_old_key current_decrypt_epoch <$> co_future co in
  let! highest_future_key := arr_get f (future_count co - 1) in
  let current_highest_key :=
    if negb (ctx_epoch highest_future_key =? 0) then ctx_epoch highest_future_key else 1 in
  let desired_highest_key := u16 (current_decrypt_epoch + future_count co) in
  let num_keys_generate := u16 (desired_highest_key - current_highest_key) in
  let! _ := assert_freed (Z.to_nat num_keys_generate) 0 f in
  if future_count co <? num_keys_generate then UB
  else
    let n := Z.to_nat num_keys_generate in
    let f := drop n f ++ drop (length f - n) f in
    let! co := regenerate n (future_count co - num_keys_generate) (set_future co f) in
    assert! forallb (fun c => 0 <? ctx_epoch c) (co_future co) in
    Ret co.

(** ** Moving on *)
Definition epoch_iterate_send_key (co : crypto_options) : res crypto_options :=
  assert! ek_epoch (co_epoch_key_send co) <? UINT16_MAX in
  let! ek := epoch_key_iterate (co_epoch_key_send co) in
  let co := set_epoch_key_send co ek in
  let co := set_encrypt co (free_key_ctx (bi_encrypt (co_keys co))) in
  epoch_init_send_key_ctx co.

(** [while (co->epoch_key_send.epoch < new_epoch)]; epochs have 16 bits. *)
Fixpoint catch_up (fuel : nat) (ek : epoch_key) (new_epoch : Z) : res epoch_key :=
  if ek_epoch ek <? new_epoch then
    match fuel with
    | O => UB
    | S fuel => let! ek := epoch_key_iterate ek in catch_up fuel ek new_epoch
    end
  else Ret ek.

Definition find_epoch (f : list key_ctx) (new_epoch : Z) : option (nat * key_ctx) :=
  list_find (fun c => ctx_epoch c = new_epoch) f.

Definition epoch_replace_update_recv_key (co : crypto_options) (new_epoch : Z) : res crypto_options :=
  match find_epoch (co_future co) new_epoch with
  | None => Fatal
  | Some (fki, new_ctx) =>
      let! co :=
        (if ctx_epoch (bi_encrypt (co_keys co)) <? new_epoch then
           let co := set_encrypt co (free_key_ctx (bi_encrypt (co_keys co))) in
           let! ek := catch_up (Z.to_nat UINT16_MAX) (co_epoch_key_send co) new_epoch in
           epoch_init_send_key_ctx (set_epoch_key_send co ek)
         else Ret co) in
      let co := set_retiring co (bi_decrypt (co_keys co)) in
      let! (dest, src) := packet_id_move_recv (co_retiring_pid_recv co) (pid_rec (co_packet_id co)) in
      let co := set_pid_rec (set_retiring_pid co dest) src in
      let co := set_decrypt co new_ctx in
      let! f := arr_set (co_future co) (Z.of_nat fki) ctx_zero in
      epoch_generate_future_receive_keys (set_future co f)
  end.

Definition ek_zero : epoch_key := mk_ek (replicate 32 0) 0.

(** The freed array is given as the empty one. *)
Definition free_epoch_key_ctx (co : crypto_options) : crypto_options :=
  let co := set_future co [] in
  let co := set_retiring co (free_key_ctx (co_retiring co)) in
  let r := co_retiring_pid_recv co in
  let co := set_retiring_pid co (rec_set_pos r (rec_time r) (rec_id r) None) in
  set_epoch_key_send (set_epoch_key_recv co ek_zero) ek_zero.

Definition epoch_init_key_ctx (co : crypto_options) (key_type : key_type) (e1_send e1_recv : epoch_key)
    (future_key_count : Z) : res crypto_options :=
  assert! (ek_epoch e1_send =? 1) && (ek_epoch e1_recv =? 1) in
  let co := set_epoch_key_send (set_epoch_key_recv co e1_recv) e1_send in
  let co := set_epoch_type co key_type (cipher_get_aead_limits (kt_cipher key_type)) in
  let! co := epoch_init_send_key_ctx co in
  let! ctx := epoch_init_recv_key co in
  let co := set_keys co (mk_bi (bi_encrypt (co_keys co)) ctx true) in
  let co := set_future co (replicate (Z.to_nat future_key_count) ctx_zero) in
  epoch_generate_future_receive_keys co.

(** ** Finding the key of a packet *)

(** The place of the context that the returned pointer designates. *)
Inductive key_slot : Type := SlotDecrypt | SlotRetiring | SlotFuture (index : Z).

Definition epoch_lookup_decrypt_key (opt : crypto_options) (epoch : Z) : option key_slot :=
  let current := ctx_epoch (bi_decrypt (co_keys opt)) in
  if current =? epoch then Some SlotDecrypt
  else if negb (ctx_epoch (co_retiring opt) =? 0) && (ctx_epoch (co_retiring opt) =? epoch) then Some SlotRetiring
  else if (current <? epoch) && (epoch <=? current + future_count opt) then
    let index := epoch - (current + 1) in
    if UINT16_MAX - future_count opt - 1 <? epoch then None else Some (SlotFuture index)
  else None.

(** Reading and writing through the returned pointer. *)
Definition slot_get (opt : crypto_options) (s : key_slot) : res key_ctx :=
  match s with
  | SlotDecrypt => Ret (bi_decrypt (co_keys opt))
  | SlotRetiring => Ret (co_retiring opt)
  | SlotFuture i => arr_get (co_future opt) i
  end.
Definition slot_set (opt : crypto_options) (s : key_slot) (c : key_ctx) : res crypto_options :=
  match s with
  | SlotDecrypt => Ret (set_decrypt opt c)
  | SlotRetiring => Ret (set_retiring opt c)
  | SlotFuture i => let! f := arr_set (co_future opt) i c in Ret (set_future opt f)
  end.

Definition epoch_check_send_iterate (opt : crypto_options) : res crypto_options :=
  if ek_epoch (co_epoch_key_send opt) =? UINT16_MAX then Ret opt
  else
    let! opt :=
      (if negb (co_aead_usage_limit opt =? 0) then
         if aead_usage_limit_reached (co_aead_usage_limit opt) (bi_encrypt (co_keys opt))
              (send_id (pid_send (co_packet_id opt)))
         then epoch_iterate_send_key opt
         else if (ctx_epoch (bi_encrypt (co_keys opt)) =? ctx_epoch (bi_decrypt (co_keys opt)))
                 && (aead_usage_limit_reached (co_aead_usage_limit opt) (bi_decrypt (co_keys opt))
                       (rec_id (pid_rec (co_packet_id opt)))
                     || cipher_decrypt_verify_fail_warn (bi_decrypt (co_keys opt)))
         then epoch_iterate_send_key opt
         else Ret opt
       else Ret opt) in
    if send_id (pid_send (co_packet_id opt)) =? PACKET_ID_EPOCH_MAX
    then epoch_iterate_send_key opt
    else Ret opt.

(** ** What the derivation computes *)

Context `{DL : !DeriveLaws cipher_ctx hmac_ctx}.

(** The blocks T(0), T(1), ... of RFC 5869, and the first bytes of T(1) | T(2) | ... *)
Fixpoint hkdf_T (h : hmac_ctx) (info : bytes) (n : nat) : bytes :=
  match n with
  | O => []
  | S m => hmac_ctx_value h (hkdf_T h info m ++ info ++ [Z.of_nat n])
  end.
Definition hkdf_okm (secret info : bytes) : bytes :=
  concat (hkdf_T (hmac_ctx_init secret (str "SHA256")) info <$> seq 1 255).

Section Hkdf.
Context (secret info out : bytes).
Abbreviation T := (hkdf_T (hmac_ctx_init secret (str "SHA256")) info).
Abbreviation okm := (hkdf_okm secret info).

Lemma length_T k : length (T (S k)) = 32%nat.
Proof.
  pose proof (law_hmac_len secret (T k ++ info ++ [Z.of_nat (S k)])) as H.
  unfold Zlen, SHA256_DIGEST_LENGTH in H. cbn [hkdf_T]. lia.
Qed.

Lemma drop_blocks k n a :
  (k <= n)%nat -> drop (32 * k) (concat (T <$> seq (S a) n)) = concat (T <$> seq (S a + k) (n - k)).
Proof.
  revert n a. induction k as [|k IH]; intros [|n] a Hk; try lia.
  1,2: by rewrite Nat.add_0_r, Nat.sub_0_r, Nat.mul_0_r.
  cbn [seq fmap list_fmap concat]. rewrite drop_app_ge by (rewrite length_T; lia).
  rewrite length_T. replace (32 * S k - 32)%nat with (32 * k)%nat by lia.
  rewrite IH by lia. by replace (S (S a) + k)%nat with (S a + S k)%nat by lia.
Qed.

Lemma block_of_okm k : (k < 255)%nat -> take 32 (drop (32 * k) okm) = T (S k).
Proof.
  intros Hk. unfold hkdf_okm. rewrite drop_blocks by lia.
  replace (255 - k)%nat with (S (254 - k)) by lia. cbn [seq fmap list_fmap concat].
  change (1 + k)%nat with (S k). rewrite <- (length_T k) at 1. by rewrite take_app_length.
Qed.

Lemma length_okm : length okm = (32 * 255)%nat.
Proof.
  assert (Hl : forall n a, length (concat (T <$> seq (S a) n)) = (32 * n)%nat).
  { induction n as [|n IH]; intros a; [done|]. cbn [seq fmap list_fmap concat].
    rewrite length_app, IH, length_T. lia. }
  apply Hl.
Qed.

(** What [out] holds when the first [p] bytes are stored. *)
Definition stage (p : nat) : bytes := take p okm ++ drop p out.

Lemma stage_write k c :
  (k < 255)%nat -> (c <= 32)%nat -> (32 * k + c <= length out)%nat ->
  mem_write (stage (32 * k)) (32 * Z.of_nat k) (take c (T (S k))) = Ret (stage (32 * k + c)).
Proof.
  intros Hk Hc Hl. pose proof (length_T k). pose proof length_okm.
  rewrite mem_write_ok by (unfold stage, Zlen; rewrite ?length_app, ?length_take, ?length_drop; lia).
  replace (Z.to_nat (32 * Z.of_nat k)) with (32 * k)%nat by lia. unfold stage.
  rewrite take_app_length', drop_app_ge, length_take by (rewrite length_take; lia).
  rewrite drop_drop, length_take.
  replace (32 * k + (32 * k + c `min` length (T (S k)) - (32 * k) `min` length okm))%nat
    with (32 * k + c)%nat by lia.
  rewrite app_assoc. f_equal. f_equal.
  rewrite <- (block_of_okm k) by lia. rewrite take_take, Nat.min_l by lia.
  rewrite (take_take_drop okm). done.
Qed.

Abbreviation loop fuel := (hkdf_loop fuel (hmac_ctx_init secret (str "SHA256")) info).

Lemma hkdf_loop_step fuel L k :
  (k < 255)%nat -> 32 * Z.of_nat k < L -> L <= Zlen out ->
  loop (S fuel) L (Z.of_nat k + 1) (T k) (stage (32 * k))
  = loop fuel L (u8 (Z.of_nat k + 2)) (T (S k)) (stage (32 * k + Z.to_nat (Z.min 32 (L - 32 * Z.of_nat k)))).
Proof.
  intros Hk HL Ho. cbn [hkdf_loop]. unfold SHA256_DIGEST_LENGTH.
  replace (Z.of_nat k + 1 - 1) with (Z.of_nat k) by lia. rewrite (Z.mul_comm _ 32).
  rewrite (proj2 (Z.ltb_lt _ _)) by lia.
  assert (HT : hmac_ctx_value (hmac_ctx_init secret (str "SHA256")) (T k ++ info ++ [Z.of_nat k + 1]) = T (S k)).
  { cbn [hkdf_T]. by replace (Z.of_nat k + 1) with (Z.of_nat (S k)) by lia. }
  cbv zeta. rewrite HT. pose proof (length_T k).
  rewrite mem_read_ok by (unfold Zlen; lia). cbn [res_bind]. rewrite drop_0.
  rewrite stage_write by (unfold Zlen in *; lia). cbn [res_bind].
  by replace (Z.of_nat k + 1 + 1) with (Z.of_nat k + 2) by lia.
Qed.

Lemma hkdf_loop_end fuel L k t o :
  (k < 255)%nat -> L <= 32 * Z.of_nat k -> loop fuel L (Z.of_nat k + 1) t o = Ret o.
Proof.
  intros Hk HL. destruct fuel; cbn [hkdf_loop]; unfold SHA256_DIGEST_LENGTH;
    by rewrite (proj2 (Z.ltb_ge _ _)) by lia.
Qed.

(** The counter wraps after block 255: the next block goes in front of [out]. *)
Lemma hkdf_loop_wrapped fuel L k o : 0 <= L -> loop fuel L 0 (T k) o = UB.
Proof.
  intros HL. destruct fuel as [|fuel]; cbn [hkdf_loop]; unfold SHA256_DIGEST_LENGTH;
    rewrite (proj2 (Z.ltb_lt _ _)) by lia; [done|].
  pose proof (law_hmac_len secret (T k ++ info ++ [0])) as Hl. unfold SHA256_DIGEST_LENGTH in Hl.
  rewrite mem_read_ok by lia. cbn [res_bind]. unfold mem_write. done.
Qed.

Lemma hkdf_loop_spec L m k :
  (k + m = 254)%nat -> 32 * Z.of_nat k <= L -> L <= Zlen out ->
  loop (S (S m)) L (Z.of_nat k + 1) (T k) (stage (32 * k))
  = if L <=? 8128 then Ret (stage (Z.to_nat L)) else UB.
Proof.
  revert k. induction m as [|m IH]; intros k Hk HL Ho;
    (destruct (decide (L = 32 * Z.of_nat k)) as [HLk|];
     [rewrite hkdf_loop_end, (proj2 (Z.leb_le _ _)) by lia; by replace (Z.to_nat L) with (32 * k)%nat by lia|]);
    rewrite hkdf_loop_step by lia.
  - replace k with 254%nat by lia. change (u8 (Z.of_nat 254 + 2)) with 0.
    rewrite hkdf_loop_wrapped by lia. by rewrite (proj2 (Z.leb_gt _ _)) by lia.
  - rewrite u8_id by (unfold is_u8; lia). replace (Z.of_nat k + 2) with (Z.of_nat (S k) + 1) by lia.
    destruct (Z.le_gt_cases L (32 * Z.of_nat (S k))).
    + rewrite hkdf_loop_end, (proj2 (Z.leb_le _ _)) by lia.
      by replace (32 * k + Z.to_nat (Z.min 32 (L - 32 * Z.of_nat k)))%nat with (Z.to_nat L) by lia.
    + replace (32 * k + Z.to_nat (Z.min 32 (L - 32 * Z.of_nat k)))%nat with (32 * S k)%nat by lia.
      apply IH; lia.
Qed.
End Hkdf.

Lemma hkdf_expand_spec secret info out L :
  0 <= L <= Zlen out ->
  ovpn_hkdf_expand secret info out L
  = if L <=? 8128 then Ret (take (Z.to_nat L) (hkdf_okm secret info) ++ drop (Z.to_nat L) out) else UB.
Proof.
  intros HL. apply (hkdf_loop_spec secret info out L 254 0); lia.
Qed.

(** [ovpn_hkdf_expand] is HKDF-Expand of RFC 5869 with SHA-256: for every length up to
    8128 the loop ends and the first [out_len] bytes of T(1) | T(2) | ... are stored, where
    T(n) = HMAC (secret, T(n-1) | info | n), and the bytes behind them are left alone.  For a
    longer request the 8-bit block counter wraps to 0 before the test ends the loop, and the
    next block is stored in front of the caller's array. *)
Lemma hkdf_expand_exact (secret info out : bytes) (out_len : Z) :
  0 <= out_len <= Zlen out ->
  ovpn_hkdf_expand secret info out out_len
  = if out_len <=? 8128
    then Ret (take (Z.to_nat out_len) (hkdf_okm secret info) ++ drop (Z.to_nat out_len) out)
    else UB.
Proof. apply hkdf_expand_spec. Qed.

(** ** Labels *)
Definition hkdf_label (out_len : Z) (label context : bytes) : bytes :=
  be_bytes 2 out_len ++ [u8 (5 + Zlen label)] ++ str "ovpn " ++ label ++ [u8 (Zlen context)] ++ context.

Definition expand (secret label context : bytes) (out_len : Z) : bytes :=
  take (Z.to_nat out_len) (hkdf_okm secret (hkdf_label out_len label context)).

Lemma Zlen_expand secret label context L : 0 <= L <= 8160 -> Zlen (expand secret label context L) = L.
Proof.
  intros HL. unfold expand, Zlen. rewrite length_take, length_okm. lia.
Qed.

(** One more field of a buffer that has room for it. *)
Ltac write_field Hb :=
  match goal with
  | |- context [buf_write ?b ?x] =>
      let b' := fresh "b" in let E := fresh "E" in let H := fresh "Hb" in
      destruct (buf_write_repr _ _ _ _ Hb x) as (b' & E & H);
      [first [done | apply be_bytes_ok | (constructor; [apply u8_range|constructor])
             | (repeat constructor; unfold is_u8; lia)]
      | rewrite ?Zlen_be_bytes; unfold Zlen in *; cbn [length] in *; try lia
      | rewrite E; cbn [res_bind]; clear E Hb; rename H into Hb]
  end.

Lemma expand_label_spec secret label context out L :
  Zlen secret = 32 -> 1 <= Zlen label <= 250 -> Zlen context <= 255 ->
  bytes_ok label -> bytes_ok context -> 0 <= L <= 8128 -> L <= Zlen out ->
  ovpn_expand_label secret label context out L
  = Ret (true, expand secret label context L ++ drop (Z.to_nat L) out).
Proof.
  intros Hs Hl Hc Bl Bc HL Ho. unfold ovpn_expand_label.
  rewrite Hs, !(proj2 (Z.ltb_ge _ _)) by lia. cbn [negb orb Z.eqb Pos.eqb].
  pose proof (Zlen_nonneg context). set (n := 2 + 5 + 1 + Zlen label + 1 + Zlen context).
  assert (Hn : Zlen (replicate (Z.to_nat n) 0) = n) by (unfold Zlen in *; rewrite length_replicate; lia).
  unfold alloc_buf_gc. rewrite Hn. unfold buf_size_valid, BUF_SIZE_MAX.
  rewrite (proj2 (Z.ltb_lt _ _)), (proj2 (Z.eqb_neq _ _)) by lia. cbn [negb].
  rewrite arr_set_ok by lia. cbn [res_bind].
  rewrite list_insert_id by (apply lookup_replicate_2; lia).
  destruct (alloc_buf_repr n) as [_ Hb]; [lia|]. specialize (Hb ltac:(unfold BUF_SIZE_MAX; lia)).
  set (b0 := mk_buffer n 0 0 _) in *. clearbody b0.
  assert (Hp : Zlen (str "ovpn ") = 5) by done. subst n.
  unfold buf_write_u16, buf_write_u8.
  write_field Hb. write_field Hb. write_field Hb. write_field Hb. write_field Hb.
  assert (exists b', (if 0 <? Zlen context then buf_write b4 context else Ret (true, b4)) = Ret (true, b')
            /\ buf_repr b' 0 (hkdf_label L label context) 0) as (b' & -> & Hb').
  { unfold hkdf_label. destruct (Z.ltb_spec 0 (Zlen context)).
    - write_field Hb. eexists; split; [done|]. rewrite <- !app_assoc in Hb. cbn [app] in *.
      match type of Hb with buf_repr _ _ _ ?t => replace t with 0 in Hb by (rewrite ?Zlen_be_bytes; unfold Zlen in *; cbn [length] in *; lia) end. exact Hb.
    - assert (context = []) as -> by (destruct context; [done|rewrite Zlen_cons in *; pose proof (Zlen_nonneg context); lia]).
      eexists; split; [done|]. rewrite <- !app_assoc in Hb. cbn [app] in *.
      match type of Hb with buf_repr _ _ _ ?t => replace t with 0 in Hb by (rewrite ?Zlen_be_bytes; unfold Zlen in *; cbn [length] in *; lia) end. exact Hb. }
  cbn [res_bind]. rewrite (buf_len_repr _ _ _ _ Hb'), (buf_bytes_repr _ _ _ _ Hb'). cbn [res_bind].
  unfold hkdf_label at 1. rewrite !Zlen_app, Zlen_be_bytes, Hp; change (Zlen [_]) with 1.
  rewrite (proj2 (Z.eqb_eq _ _)) by lia.
  rewrite hkdf_expand_spec, (proj2 (Z.leb_le _ _)) by lia. done.
Qed.

(** ** The chain of epoch keys *)
Definition next_key (e : epoch_key) : epoch_key :=
  mk_ek (expand (ek_key e) (str "datakey upd") [] 32) (u16 (ek_epoch e + 1)).

Lemma iterate_spec e : Zlen (ek_key e) = 32 -> epoch_key_iterate e = Ret (next_key e).
Proof.
  intros He. unfold epoch_key_iterate.
  rewrite expand_label_spec by (try done; try lia; repeat constructor; unfold is_u8; lia).
  cbn [res_bind]. by rewrite drop_ge, app_nil_r by (rewrite length_replicate; lia).
Qed.

(** [E_k] of the chain that starts at [E_1]. *)
Definition chain (e1 : epoch_key) (k : Z) : epoch_key := Nat.iter (Z.to_nat (k - 1)) next_key e1.

Lemma chain_next e1 k : 1 <= k -> next_key (chain e1 k) = chain e1 (k + 1).
Proof. intros Hk. unfold chain. by replace (Z.to_nat (k + 1 - 1)) with (S (Z.to_nat (k - 1))) by lia. Qed.

Lemma chain_len e1 k : Zlen (ek_key e1) = 32 -> Zlen (ek_key (chain e1 k)) = 32.
Proof.
  intros H. unfold chain. destruct (Z.to_nat (k - 1)) as [|n]; [done|]. cbn [Nat.iter next_key ek_key].
  by apply Zlen_expand.
Qed.

Lemma chain_epoch e1 k : ek_epoch e1 = 1 -> 1 <= k <= UINT16_MAX -> ek_epoch (chain e1 k) = k.
Proof.
  intros H1 Hk. unfold chain, UINT16_MAX in *. replace k with (1 + Z.of_nat (Z.to_nat (k - 1))) at 2 by lia.
  assert (Hb : 1 + Z.of_nat (Z.to_nat (k - 1)) <= 65535) by lia. clear Hk.
  induction (Z.to_nat (k - 1)) as [|n IH]; [done|].
  change (u16 (ek_epoch (Nat.iter n next_key e1) + 1) = 1 + Z.of_nat (S n)).
  rewrite IH, u16_id; unfold is_u16; lia.
Qed.

Definition key_ok (e1 : epoch_key) : Prop := ek_epoch e1 = 1 /\ Zlen (ek_key e1) = 32.

Lemma catch_up_spec e1 fuel k new :
  key_ok e1 -> 1 <= k -> k <= UINT16_MAX -> new <= UINT16_MAX -> new - k <= Z.of_nat fuel ->
  catch_up fuel (chain e1 k) new = Ret (chain e1 (Z.max k new)).
Proof.
  intros [H1 H32] Hk. revert k Hk. induction fuel as [|fuel IH]; intros k Hk Hm Hn Hf;
    cbn [catch_up]; rewrite chain_epoch by lia; destruct (Z.ltb_spec k new); try lia.
  - by rewrite Z.max_l by lia.
  - rewrite iterate_spec by (by apply chain_len). cbn [res_bind].
    rewrite chain_next, IH by lia. by replace (Z.max (k + 1) new) with (Z.max k new) by lia.
  - by rewrite Z.max_l by lia.
Qed.

(** ** The data key of an epoch *)

(** The ciphers of the epoch format: AEAD, without a separate digest. *)
Definition kt_ok (kt : key_type) : Prop :=
  cipher_defined (kt_cipher kt) = true /\ kt_digest kt = str "none"
  /\ cipher_kt_mode_aead (kt_cipher kt) = true
  /\ 0 <= cipher_kt_key_size (kt_cipher kt) <= MAX_CIPHER_KEY_LENGTH
  /\ OPENVPN_AEAD_MIN_IV_LEN <= cipher_kt_iv_size (kt_cipher kt) <= OPENVPN_MAX_IV_LENGTH.

Definition data_ctx (kt : key_type) (enc : bool) (e : epoch_key) : key_ctx :=
  mk_ctx
    (Some (cipher_ctx_init (expand (ek_key e) (str "data_key") [] (cipher_kt_key_size (kt_cipher kt)))
             (kt_cipher kt) enc))
    None
    (expand (ek_key e) (str "data_iv") [] (cipher_kt_iv_size (kt_cipher kt))
       ++ replicate (Z.to_nat (16 - cipher_kt_iv_size (kt_cipher kt))) 0)
    0 0 (ek_epoch e).

Lemma derive_spec e kt :
  kt_ok kt -> Zlen (ek_key e) = 32 ->
  epoch_data_key_derive kp_zero e kt
  = Ret (mk_kp
      (expand (ek_key e) (str "data_key") [] (cipher_kt_key_size (kt_cipher kt))
         ++ drop (Z.to_nat (cipher_kt_key_size (kt_cipher kt))) (replicate 64 0))
      (cipher_kt_key_size (kt_cipher kt))
      (expand (ek_key e) (str "data_iv") [] (cipher_kt_iv_size (kt_cipher kt))
         ++ drop (Z.to_nat (cipher_kt_iv_size (kt_cipher kt))) (replicate 64 0))
      (cipher_kt_iv_size (kt_cipher kt)) (ek_epoch e)).
Proof.
  unfold kt_ok, MAX_CIPHER_KEY_LENGTH, OPENVPN_AEAD_MIN_IV_LEN, OPENVPN_MAX_IV_LENGTH.
  intros (_ & _ & _ & Hk & Hi) He. unfold epoch_data_key_derive.
  rewrite !u16_id by (unfold is_u16; lia).
  assert (H64 : Zlen (replicate 64 (0 : Z)) = 64) by done.
  rewrite !expand_label_spec; cbn [kp_zero kp_cipher kp_hmac]; rewrite ?H64; try done; try lia;
    repeat constructor; unfold is_u8; lia.
Qed.

Lemma take_expand secret label L (r : bytes) :
  0 <= L <= 8160 -> take (Z.to_nat L) (expand secret label [] L ++ r) = expand secret label [] L.
Proof.
  intros HL. apply take_app_length'. pose proof (Zlen_expand secret label [] L HL). unfold Zlen in *. lia.
Qed.

Lemma init_key_bi_ctx_spec e kt enc :
  kt_ok kt -> Zlen (ek_key e) = 32 -> ek_epoch e <> 0 ->
  (let! kp := epoch_data_key_derive kp_zero e kt in
   let! ctx := init_key_ctx kp kt enc in
   let! ctx := key_ctx_update_implicit_iv ctx kp in
   Ret (set_epoch ctx (kp_epoch kp)))
  = Ret (data_ctx kt enc e).
Proof.
  intros Hkt He H0. rewrite derive_spec by done. cbn [res_bind].
  unfold kt_ok, MAX_CIPHER_KEY_LENGTH, OPENVPN_AEAD_MIN_IV_LEN, OPENVPN_MAX_IV_LENGTH in Hkt.
  destruct Hkt as (Hd & Hn & Ha & Hk & Hi).
  unfold init_key_ctx. rewrite Hd, Hn. cbn [kp_cipher kp_cipher_size kp_hmac kp_hmac_size kp_epoch].
  change (md_defined (str "none")) with false. cbn match. rewrite Z.leb_refl.
  rewrite mem_read_ok by (rewrite ?Zlen_app, ?Zlen_expand; pose proof (Zlen_nonneg
    (drop (Z.to_nat (cipher_kt_key_size (kt_cipher kt))) (replicate 64 (0 : Z)))); lia).
  rewrite drop_0, take_expand by lia. cbn [res_bind].
  unfold key_ctx_update_implicit_iv. cbn [ctx_cipher kp_epoch kp_hmac kp_hmac_size].
  rewrite law_mode_aead, law_iv_length, Ha. unfold OPENVPN_AEAD_MIN_IV_LEN, OPENVPN_MAX_IV_LENGTH, MAX_HMAC_KEY_LENGTH.
  rewrite (proj2 (Z.eqb_neq _ _)) by done. cbn [negb].
  rewrite !(proj2 (Z.leb_le _ _)) by lia.
  rewrite mem_read_ok by (rewrite ?Zlen_app, ?Zlen_expand; pose proof (Zlen_nonneg
    (drop (Z.to_nat (cipher_kt_iv_size (kt_cipher kt))) (replicate 64 (0 : Z)))); lia).
  rewrite drop_0, take_expand by lia. cbn [res_bind].
  assert (Hl : Zlen (expand (ek_key e) (str "data_iv") [] (cipher_kt_iv_size (kt_cipher kt)))
               = cipher_kt_iv_size (kt_cipher kt)) by (apply Zlen_expand; lia).
  rewrite mem_write_ok by (rewrite ?Hl; unfold Zlen; rewrite ?length_replicate; lia).
  cbn [res_bind Z.to_nat take app]. unfold data_ctx, set_epoch, set_implicit_iv.
  cbn [ctx_cipher ctx_hmac plaintext_blocks failed_verifications ctx_epoch implicit_iv].
  unfold Zlen in Hl. f_equal. f_equal.
  change (Z.to_nat 0) with 0%nat. rewrite take_0. cbn [app]. rewrite drop_replicate. f_equal. f_equal. lia.
Qed.

Lemma send_ctx_spec e kt :
  kt_ok kt -> Zlen (ek_key e) = 32 -> ek_epoch e <> 0 ->
  (let! kp := epoch_data_key_derive kp_zero e kt in init_key_bi_ctx_send kp kt) = Ret (data_ctx kt true e).
Proof. apply init_key_bi_ctx_spec. Qed.
Lemma recv_ctx_spec e kt :
  kt_ok kt -> Zlen (ek_key e) = 32 -> ek_epoch e <> 0 ->
  (let! kp := epoch_data_key_derive kp_zero e kt in init_key_bi_ctx_recv kp kt) = Ret (data_ctx kt false e).
Proof. apply init_key_bi_ctx_spec. Qed.

(** ** Generating the keys ahead *)
Section Schedule.
Context (kt : key_type) (e1_send e1_recv : epoch_key).
Context (Hkt : kt_ok kt) (Hes : key_ok e1_send) (Her : key_ok e1_recv).

(** The data keys of epoch [k]. *)
Definition recv_key (k : Z) : key_ctx := data_ctx kt false (chain e1_recv k).
Definition send_key (k : Z) : key_ctx := data_ctx kt true (chain e1_send k).

Lemma epoch_init_recv_key_spec co k :
  co_epoch_key_type co = kt -> co_epoch_key_recv co = chain e1_recv k -> 1 <= k <= UINT16_MAX ->
  epoch_init_recv_key co = Ret (recv_key k).
Proof.
  intros Ht Hk Hr. destruct Her as [H1 H32]. unfold epoch_init_recv_key. rewrite Ht, Hk.
  apply recv_ctx_spec; [done|by apply chain_len|]. rewrite chain_epoch by done. lia.
Qed.

Lemma recv_key_epoch k : 1 <= k <= UINT16_MAX -> ctx_epoch (recv_key k) = k.
Proof. destruct Her. by apply chain_epoch. Qed.
Lemma send_key_epoch k : 1 <= k <= UINT16_MAX -> ctx_epoch (send_key k) = k.
Proof. destruct Hes. by apply chain_epoch. Qed.

Lemma regenerate_keys_spec m pre post co k :
  co_future co = pre ++ post -> length post = m -> co_epoch_key_type co = kt ->
  co_epoch_key_recv co = chain e1_recv k -> 1 <= k -> k + Z.of_nat m <= UINT16_MAX ->
  regenerate m (Zlen pre) co
  = Ret (set_epoch_key_recv (set_future co (pre ++ (recv_key <$> seqZ (k + 1) (Z.of_nat m))))
           (chain e1_recv (k + Z.of_nat m))).
Proof.
  revert pre post co k. induction m as [|m IH]; intros pre post co k Hf Hm Ht Hk H1 Hb; cbn [regenerate].
  - apply nil_length_inv in Hm as ->. rewrite Z.add_0_r, <- Hk.
    change (pre ++ (recv_key <$> seqZ (k + 1) (Z.of_nat 0))) with (pre ++ []). rewrite <- Hf. by destruct co.
  - destruct post as [|c post]; [done|]. injection Hm as Hm.
    rewrite Hf, arr_set_ok by (rewrite Zlen_app, Zlen_cons; pose proof (Zlen_nonneg post);
      pose proof (Zlen_nonneg pre); lia).
    cbn [res_bind]. rewrite Hk, iterate_spec by (destruct Her; by apply chain_len). cbn [res_bind].
    rewrite chain_next, (epoch_init_recv_key_spec _ (k + 1)) by (done || lia). cbn [res_bind].
    cbn [set_epoch_key_recv set_future co_future].
    rewrite to_nat_Zlen, insert_app_r_alt, Nat.sub_diag by lia. cbn [insert list_insert].
    rewrite arr_set_ok by (rewrite Zlen_app, Zlen_cons; pose proof (Zlen_nonneg post);
      pose proof (Zlen_nonneg pre); lia).
    cbn [res_bind]. rewrite to_nat_Zlen, insert_app_r_alt, Nat.sub_diag by lia. cbn [insert list_insert].
    replace (Zlen pre + 1) with (Zlen (pre ++ [recv_key (k + 1)])) by (by rewrite Zlen_app).
    rewrite (IH _ post _ (k + 1)); cbn; try done; try lia; [|by rewrite <- app_assoc].
    rewrite (seqZ_cons _ (Z.of_nat (S m))) by lia. cbn [fmap list_fmap]. rewrite <- app_assoc. cbn [app].
    replace (k + Z.of_nat (S m)) with (k + 1 + Z.of_nat m) by lia.
    replace (Z.pred (Z.of_nat (S m))) with (Z.of_nat m) by lia. done.
Qed.

Lemma assert_freed_spec n i (f : list key_ctx) (z g : list key_ctx) :
  f = z ++ g -> Forall (fun c => ctx_epoch c = 0) z -> 0 <= i -> (Z.to_nat i + n = length z)%nat ->
  assert_freed n i f = Ret tt.
Proof.
  intros -> Hz. revert i. induction n as [|n IH]; intros i Hi Hn; cbn [assert_freed]; [done|].
  destruct (lookup_lt_is_Some_2 z (Z.to_nat i)) as [c Hc]; [lia|].
  rewrite (proj2 (arr_get_Ret _ i c)) by (split; [done|by apply lookup_app_l_Some]). cbn [res_bind].
  rewrite (Forall_lookup_1 _ _ _ _ Hz Hc), IH by lia. done.
Qed.

(** Where the highest key ahead of the array stands, none counting as epoch 1. *)
Definition highest (g : list key_ctx) : Z := match last g with Some c => ctx_epoch c | None => 1 end.

(** The last element of the array, before and after the old keys are freed. *)
Lemma highest_last (z g : list key_ctx) c d :
  Forall (fun c => ctx_epoch c = 0) z -> Forall (fun c => 0 < ctx_epoch c) g -> z ++ g <> [] ->
  (z ++ g) !! Z.to_nat (Zlen z + Zlen g - 1) = Some (free_old_key d c) ->
  (ctx_epoch (free_old_key d c) = 0 /\ highest g = 1)
  \/ (free_old_key d c = c /\ ctx_epoch c = highest g /\ 0 < highest g).
Proof.
  intros Hz Hg Hne Hc. unfold highest. destruct (last g) as [x|] eqn:El.
  - rewrite last_lookup in El.
    rewrite lookup_app_r in Hc by (unfold Zlen in *; destruct g; [done|cbn [length] in *; lia]).
    replace (Z.to_nat (Zlen z + Zlen g - 1) - length z)%nat with (pred (length g)) in Hc
      by (unfold Zlen in *; lia).
    rewrite El in Hc. injection Hc as ->. pose proof (Forall_lookup_1 _ _ _ _ Hg El) as Hp. cbn in Hp.
    right. unfold free_old_key in *. destruct (_ && _); [cbn in Hp; lia|]. done.
  - apply last_None in El as ->. left. split; [|done]. rewrite app_nil_r in Hc.
    by apply (Forall_lookup_1 _ _ _ _ Hz Hc).
Qed.

Lemma generate_spec co z g d k :
  co_epoch_key_type co = kt -> bi_initialized (co_keys co) = true ->
  ctx_epoch (bi_decrypt (co_keys co)) = d -> 0 <= d ->
  free_old_key d <$> co_future co = z ++ g ->
  Forall (fun c => ctx_epoch c = 0) z -> Forall (fun c => 0 < ctx_epoch c) g -> z ++ g <> [] ->
  co_epoch_key_recv co = chain e1_recv k -> highest g = k -> 1 <= k ->
  k + Zlen z = d + Zlen (z ++ g) -> k + Zlen z <= UINT16_MAX ->
  epoch_generate_future_receive_keys co
  = Ret (set_epoch_key_recv (set_future co (g ++ (recv_key <$> seqZ (k + 1) (Zlen z))))
           (chain e1_recv (k + Zlen z))).
Proof.
  intros Ht Hi Hd Hd0 Hf Hz Hg Hne Hk Hh H1 Hsum Hb.
  assert (Hcount : future_count co = Zlen (z ++ g)).
  { unfold future_count, Zlen. by rewrite <- Hf, length_fmap. }
  assert (Hlen : length (co_future co) = length (z ++ g)) by (by rewrite <- Hf, length_fmap).
  pose proof (Zlen_nonneg z). pose proof (Zlen_nonneg g). rewrite Zlen_app in *.
  assert (Hpos : 0 < Zlen z + Zlen g) by (destruct z, g; try done; rewrite ?Zlen_cons in *;
    unfold Zlen; lia).
  unfold epoch_generate_future_receive_keys. rewrite Hi, Hd, Hcount.
  destruct (arr_get_ok (co_future co) (Zlen z + Zlen g - 1)) as [c Hc].
  { unfold Zlen in *. rewrite Hlen, length_app. lia. }
  rewrite Hc. cbn [res_bind]. apply arr_get_Ret in Hc as [_ Hc].
  assert (Hc' : (z ++ g) !! Z.to_nat (Zlen z + Zlen g - 1) = Some (free_old_key d c)).
  { by rewrite <- Hf, list_lookup_fmap, Hc. }
  rewrite Hf, (proj2 (arr_get_Ret _ _ (free_old_key d c))) by (split; [lia|done]).
  pose proof (highest_last z g c d Hz Hg Hne Hc') as Hhigh. rewrite Hh in Hhigh.
  rewrite Hk, chain_epoch by (destruct Her; unfold Zlen in *; lia || done).
  assert (E1 : (k =? 1) || (ctx_epoch c =? k) = true).
  { destruct Hhigh as [[_ ->] | (_ & -> & _)]; [done|]. by rewrite Z.eqb_refl, orb_true_r. }
  rewrite E1. cbn [res_bind].
  assert (E2 : (if negb (ctx_epoch (free_old_key d c) =? 0) then ctx_epoch (free_old_key d c) else 1) = k).
  { destruct Hhigh as [[-> ->] | (-> & -> & ?)]; [done|]. by rewrite (proj2 (Z.eqb_neq _ _)) by lia. }
  rewrite E2. unfold UINT16_MAX in *.
  rewrite (u16_id (d + _)) by (unfold is_u16; lia). replace (d + (Zlen z + Zlen g) - k) with (Zlen z) by lia.
  rewrite u16_id by (unfold is_u16; lia).
  rewrite (assert_freed_spec _ _ _ z g) by (done || unfold Zlen; lia). cbn [res_bind].
  rewrite (proj2 (Z.ltb_ge _ _)) by lia. rewrite to_nat_Zlen, drop_app_length.
  replace (Zlen z + Zlen g - Zlen z) with (Zlen g) by lia.
  rewrite (regenerate_keys_spec _ g (drop (length (z ++ g) - length z) (z ++ g)) _ k)
    by (try done; first [rewrite length_drop, length_app; lia | unfold Zlen, UINT16_MAX in *; lia]).
  cbn [res_bind set_epoch_key_recv set_future co_future]. rewrite forallb_app.
  assert (E3 : forallb (fun c => 0 <? ctx_epoch c) g = true).
  { apply forallb_forall. intros x Hx%list_elem_of_In. rewrite Forall_forall in Hg. apply Z.ltb_lt. auto. }
  assert (E4 : forallb (fun c => 0 <? ctx_epoch c) (recv_key <$> seqZ (k + 1) (Z.of_nat (length z))) = true).
  { apply forallb_forall. intros x Hx%list_elem_of_In. apply list_elem_of_fmap in Hx as (j & -> & Hj).
    apply elem_of_seqZ in Hj. rewrite recv_key_epoch by (unfold Zlen, UINT16_MAX in *; lia). apply Z.ltb_lt. lia. }
  rewrite E3, E4. done.
Qed.

(** ** The invariant of the key schedule *)

(** What a context holds apart from its counters. *)
Definition key_of (c : key_ctx) : option cipher_ctx * option hmac_ctx * bytes * Z :=
  (ctx_cipher c, ctx_hmac c, implicit_iv c, ctx_epoch c).

Lemma key_of_epoch c c' : key_of c = key_of c' -> ctx_epoch c = ctx_epoch c'.
Proof. by intros [= _ _ _ ?]. Qed.

(** The replay window is configured within its limits. *)
Definition backtrack_ok (r : packet_id_rec) : Prop :=
  seq_backtrack r = 0
  \/ (MIN_SEQ_BACKTRACK <= seq_backtrack r <= MAX_SEQ_BACKTRACK
      /\ MIN_TIME_BACKTRACK <= time_backtrack r <= MAX_TIME_BACKTRACK).

(** The receiver decrypts with epoch [d] and holds the [n] epochs after it; the sender
    encrypts with epoch [s], which is never behind [d]. *)
Record schedule (n d s : Z) (co : crypto_options) : Prop := {
  sch_type : co_epoch_key_type co = kt;
  sch_init : bi_initialized (co_keys co) = true;
  sch_count : 0 < n;
  sch_range : 1 <= d /\ d + n < UINT16_MAX /\ d <= s <= UINT16_MAX;
  sch_decrypt : key_of (bi_decrypt (co_keys co)) = key_of (recv_key d);
  sch_future : key_of <$> co_future co = (fun k => key_of (recv_key k)) <$> seqZ (d + 1) n;
  sch_recv : co_epoch_key_recv co = chain e1_recv (d + n);
  sch_encrypt : key_of (bi_encrypt (co_keys co)) = key_of (send_key s);
  sch_send : co_epoch_key_send co = chain e1_send s;
  sch_retiring : ctx_epoch (co_retiring co) = 0
                 \/ exists r, 1 <= r < d /\ key_of (co_retiring co) = key_of (recv_key r);
  sch_backtrack : backtrack_ok (pid_rec (co_packet_id co))
}.

Lemma sch_future_count n d s co : schedule n d s co -> future_count co = n.
Proof.
  intros S. pose proof (sch_future _ _ _ _ S) as Hf. apply (f_equal length) in Hf.
  rewrite !length_fmap, length_seqZ in Hf. unfold future_count, Zlen. pose proof (sch_count _ _ _ _ S). lia.
Qed.

Lemma sch_future_lookup n d s co i :
  schedule n d s co -> 0 <= i < n ->
  exists c, co_future co !! Z.to_nat i = Some c /\ key_of c = key_of (recv_key (d + 1 + i)).
Proof.
  intros S Hi. pose proof (f_equal (lookup (Z.to_nat i)) (sch_future _ _ _ _ S)) as Hf.
  rewrite !list_lookup_fmap, lookup_seqZ_lt in Hf by lia. cbn in Hf.
  destruct (co_future co !! Z.to_nat i) as [c|]; [|done]. apply (inj Some) in Hf.
  exists c. split; [done|]. by rewrite Z2Nat.id in Hf by lia.
Qed.

Lemma sch_future_epochs n d s co :
  schedule n d s co -> ctx_epoch <$> co_future co = seqZ (d + 1) n.
Proof.
  intros S. pose proof (f_equal (fmap (fun k => k.2)) (sch_future _ _ _ _ S)) as Hf.
  rewrite <- !list_fmap_compose in Hf. etrans; [exact Hf|].
  rewrite <- (list_fmap_id (seqZ (d + 1) n)) at 2. apply list_fmap_ext. intros i k Hk.
  apply lookup_seqZ in Hk as [-> ?]. pose proof (sch_range _ _ _ _ S). cbn.
  apply recv_key_epoch. lia.
Qed.

(** ** The operations keep it *)
Lemma move_recv_spec dest src :
  backtrack_ok src ->
  exists src', packet_id_move_recv dest src = Ret (src, src') /\ backtrack_ok src'
               /\ rec_id src' = 0 /\ rec_time src' = 0 /\ initialized src' = true.
Proof.
  intros Hb. unfold packet_id_move_recv, packet_id_init_recv.
  destruct (Z.eqb_spec (seq_backtrack src) 0) as [E|E]; cbn [negb res_bind].
  - eexists. split; [done|]. split; [by left|done].
  - destruct Hb as [?|[[H1 H2] [H3 H4]]]; [done|].
    rewrite !(proj2 (Z.leb_le _ _)) by done. cbn [andb res_bind]. eexists. split; [done|]. split; [by right|done].
Qed.

Lemma init_send_spec co s :
  co_epoch_key_type co = kt -> co_epoch_key_send co = chain e1_send s -> 1 <= s <= UINT16_MAX ->
  ctx_epoch (bi_encrypt (co_keys co)) <> s ->
  epoch_init_send_key_ctx co = Ret (set_pid_send (set_encrypt co (send_key s)) send_zero).
Proof.
  intros Ht Hs Hr Hne. destruct Hes as [H1 H32]. unfold epoch_init_send_key_ctx.
  rewrite Hs, chain_epoch, (proj2 (Z.eqb_neq _ _)) by done. cbn [negb].
  rewrite <- res_bind_assoc, Ht, send_ctx_spec; [done|done|by apply chain_len|].
  rewrite chain_epoch by done. lia.
Qed.

Lemma iterate_send_spec n d s co :
  schedule n d s co -> s < UINT16_MAX ->
  exists co', epoch_iterate_send_key co = Ret co' /\ schedule n d (s + 1) co'
              /\ co' = set_pid_send (set_encrypt (set_epoch_key_send co (chain e1_send (s + 1))) (send_key (s + 1))) send_zero.
Proof.
  intros S Hs. pose proof (sch_range _ _ _ _ S). unfold epoch_iterate_send_key.
  rewrite (sch_send _ _ _ _ S). rewrite chain_epoch, (proj2 (Z.ltb_lt _ _)) by (destruct Hes; done || lia).
  rewrite iterate_spec by (destruct Hes; by apply chain_len). cbn [res_bind].
  rewrite chain_next, (init_send_spec _ (s + 1)) by (try apply (sch_type _ _ _ _ S); try done; cbn; lia).
  eexists. split; [done|]. split; [|done]. destruct S. by split; cbn; try done; try lia.
Qed.

(** The send side follows the receive side. *)
Lemma follow_spec n d s co new :
  schedule n d s co -> d <= new <= UINT16_MAX ->
  (if ctx_epoch (bi_encrypt (co_keys co)) <? new then
     let co := set_encrypt co (free_key_ctx (bi_encrypt (co_keys co))) in
     let! ek := catch_up (Z.to_nat UINT16_MAX) (co_epoch_key_send co) new in
     epoch_init_send_key_ctx (set_epoch_key_send co ek)
   else Ret co)
  = Ret (if s <? new
         then set_pid_send (set_encrypt (set_epoch_key_send co (chain e1_send new)) (send_key new)) send_zero
         else co).
Proof.
  intros S Hn. pose proof (sch_range _ _ _ _ S) as Hr. rewrite (key_of_epoch _ _ (sch_encrypt _ _ _ _ S)).
  rewrite send_key_epoch by lia. destruct (Z.ltb_spec s new); [|done].
  cbn [set_encrypt set_keys co_epoch_key_send]. rewrite (sch_send _ _ _ _ S).
  rewrite catch_up_spec by (done || unfold UINT16_MAX in *; lia). cbn [res_bind].
  rewrite Z.max_r by lia. rewrite (init_send_spec _ new); [done|apply (sch_type _ _ _ _ S)|done|lia|cbn; lia].
Qed.

Lemma find_epoch_spec n d s co e :
  schedule n d s co -> d < e <= d + n ->
  exists c, find_epoch (co_future co) e = Some (Z.to_nat (e - d - 1), c)
            /\ co_future co !! Z.to_nat (e - d - 1) = Some c /\ key_of c = key_of (recv_key e).
Proof.
  intros S He. destruct (sch_future_lookup _ _ _ _ (e - d - 1) S) as (c & Hc & Hk); [lia|].
  replace (d + 1 + (e - d - 1)) with e in Hk by lia. exists c. split; [|done].
  pose proof (sch_range _ _ _ _ S). unfold find_epoch.
  apply list_find_Some. split; [done|]. split.
  - rewrite (key_of_epoch _ _ Hk). apply recv_key_epoch. lia.
  - intros j y Hj Hlt Hy. pose proof (f_equal (lookup j) (sch_future_epochs _ _ _ _ S)) as Hf.
    rewrite list_lookup_fmap, Hj, lookup_seqZ_lt in Hf by lia. cbn in Hf. injection Hf as Hf. lia.
Qed.

(** The state in which [epoch_replace_update_recv_key] generates the keys ahead. *)
Definition moved (co : crypto_options) (s e : Z) (c : key_ctx) (i : nat) (src : packet_id_rec) : crypto_options :=
  let co1 := if s <? e
             then set_pid_send (set_encrypt (set_epoch_key_send co (chain e1_send e)) (send_key e)) send_zero
             else co in
  let co2 := set_retiring co1 (bi_decrypt (co_keys co)) in
  let co3 := set_pid_rec (set_retiring_pid co2 (pid_rec (co_packet_id co))) src in
  set_future (set_decrypt co3 c) (<[i := ctx_zero]> (co_future co)).

Lemma replace_moves n d s co e :
  schedule n d s co -> d < e <= d + n ->
  exists c src,
    epoch_replace_update_recv_key co e
    = epoch_generate_future_receive_keys (moved co s e c (Z.to_nat (e - d - 1)) src)
    /\ co_future co !! Z.to_nat (e - d - 1) = Some c /\ key_of c = key_of (recv_key e)
    /\ packet_id_move_recv (co_retiring_pid_recv co) (pid_rec (co_packet_id co))
       = Ret (pid_rec (co_packet_id co), src)
    /\ backtrack_ok src.
Proof.
  intros S He. destruct (find_epoch_spec _ _ _ _ _ S He) as (c & Hf & Hc & Hk).
  destruct (move_recv_spec (co_retiring_pid_recv co) _ (sch_backtrack _ _ _ _ S)) as (src & Hm & Hb & _).
  exists c, src. split; [|done]. unfold epoch_replace_update_recv_key. rewrite Hf.
  pose proof (sch_range _ _ _ _ S). pose proof (sch_future_count _ _ _ _ S) as Hn. unfold future_count in Hn.
  rewrite (follow_spec _ _ _ _ _ S) by lia. cbn [res_bind]. unfold moved.
  destruct (s <? e); cbn; rewrite Hm; cbn [res_bind];
    rewrite arr_set_ok by (cbn; lia); cbn [res_bind co_future set_decrypt set_keys]; by rewrite Nat2Z.id.
Qed.

Lemma free_old_take n d s co e :
  schedule n d s co -> d < e <= d + n ->
  Forall (fun c => ctx_epoch c = 0) (free_old_key e <$> take (Z.to_nat (e - d - 1)) (co_future co)).
Proof.
  intros S He. apply Forall_fmap, Forall_lookup_2. intros i c Hc. cbn.
  apply lookup_take_Some in Hc as [Hc Hi].
  pose proof (f_equal (lookup i) (sch_future_epochs _ _ _ _ S)) as Hf. pose proof (sch_range _ _ _ _ S).
  rewrite list_lookup_fmap, Hc, lookup_seqZ_lt in Hf by lia. cbn in Hf. injection Hf as Hf.
  unfold free_old_key. rewrite !(proj2 (Z.ltb_lt _ _)) by lia. done.
Qed.

Lemma free_old_drop n d s co e :
  schedule n d s co -> d < e <= d + n ->
  free_old_key e <$> drop (Z.to_nat (e - d)) (co_future co) = drop (Z.to_nat (e - d)) (co_future co)
  /\ Forall (fun c => 0 < ctx_epoch c) (drop (Z.to_nat (e - d)) (co_future co)).
Proof.
  intros S He.
  assert (Hd : forall i c, drop (Z.to_nat (e - d)) (co_future co) !! i = Some c -> e < ctx_epoch c).
  { intros i c Hc. rewrite lookup_drop in Hc.
    pose proof (f_equal (lookup (Z.to_nat (e - d) + i)%nat) (sch_future_epochs _ _ _ _ S)) as Hf.
    rewrite list_lookup_fmap, Hc in Hf. symmetry in Hf. apply lookup_seqZ in Hf as [Hf _]. cbn in Hf. lia. }
  pose proof (sch_range _ _ _ _ S). split.
  - rewrite <- (list_fmap_id (drop _ _)) at 2. apply list_fmap_ext. intros i c Hc%Hd. cbn. unfold free_old_key.
    by rewrite (proj2 (Z.ltb_ge _ e)), andb_false_r by lia.
  - apply Forall_lookup_2. intros i c Hc%Hd. lia.
Qed.

Lemma moved_future n d s co e :
  schedule n d s co -> d < e <= d + n ->
  free_old_key e <$> <[Z.to_nat (e - d - 1) := ctx_zero]> (co_future co)
  = (((free_old_key e <$> take (Z.to_nat (e - d - 1)) (co_future co)) ++ [ctx_zero])
     ++ drop (Z.to_nat (e - d)) (co_future co)).
Proof.
  intros S He. pose proof (sch_future_count _ _ _ _ S) as Hn. unfold future_count, Zlen in Hn.
  pose proof (sch_range _ _ _ _ S).
  rewrite insert_take_drop by lia. replace (Datatypes.S (Z.to_nat (e - d - 1))) with (Z.to_nat (e - d)) by lia.
  rewrite fmap_app, fmap_cons, (proj1 (free_old_drop _ _ _ _ _ S He)).
  rewrite <- app_assoc. cbn [app]. do 2 f_equal.
Qed.

Lemma highest_drop n d s co e :
  schedule n d s co -> d < e < d + n -> highest (drop (Z.to_nat (e - d)) (co_future co)) = d + n.
Proof.
  intros S He. pose proof (sch_future_count _ _ _ _ S) as Hn. unfold future_count, Zlen in Hn.
  unfold highest. rewrite last_lookup, length_drop, lookup_drop.
  destruct (sch_future_lookup _ _ _ _ (n - 1) S) as (c & Hc & Hk); [lia|].
  replace (Z.to_nat (e - d) + pred (length (co_future co) - Z.to_nat (e - d)))%nat with (Z.to_nat (n - 1)) by lia.
  rewrite Hc, (key_of_epoch _ _ Hk), recv_key_epoch by (pose proof (sch_range _ _ _ _ S); lia). lia.
Qed.

Lemma shifted_future n d s co e :
  schedule n d s co -> d < e < d + n ->
  key_of <$> (drop (Z.to_nat (e - d)) (co_future co) ++ (recv_key <$> seqZ (d + n + 1) (e - d)))
  = (fun k => key_of (recv_key k)) <$> seqZ (e + 1) n.
Proof.
  intros S He.
  rewrite fmap_app, fmap_drop, (sch_future _ _ _ _ S), <- fmap_drop, <- list_fmap_compose, <- fmap_app.
  f_equal. replace n with ((e - d) + (n - (e - d))) at 1 by lia.
  rewrite seqZ_app, drop_app_length' by (rewrite ?length_seqZ; lia).
  replace n with ((n - (e - d)) + (e - d)) at 3 by lia. rewrite seqZ_app by lia.
  f_equal; f_equal; lia.
Qed.

Lemma replace_spec n d s co e :
  schedule n d s co -> d < e < d + n -> e + n < UINT16_MAX ->
  exists co', epoch_replace_update_recv_key co e = Ret co' /\ schedule n e (Z.max s e) co'
    /\ co_packet_id co' = mk_pid (if s <? e then send_zero else pid_send (co_packet_id co)) (pid_rec (co_packet_id co'))
    /\ packet_id_move_recv (co_retiring_pid_recv co) (pid_rec (co_packet_id co))
       = Ret (co_retiring_pid_recv co', pid_rec (co_packet_id co'))
    /\ key_of (co_retiring co') = key_of (recv_key d) /\ co_flags co' = co_flags co.
Proof.
  intros S He Hb. destruct (replace_moves _ _ _ _ e S) as (c & src & -> & Hc & Hk & Hm & Hbt); [lia|].
  pose proof (sch_range _ _ _ _ S) as Hr. pose proof (sch_future_count _ _ _ _ S) as Hn. unfold future_count in Hn.
  set (j := Z.to_nat (e - d)).
  assert (Hz : Zlen ((free_old_key e <$> take (Z.to_nat (e - d - 1)) (co_future co)) ++ [ctx_zero]) = e - d).
  { rewrite Zlen_app. unfold Zlen in *. rewrite length_fmap, length_take. cbn [length]. lia. }
  assert (Hg : Zlen (drop j (co_future co)) = d + n - e).
  { unfold Zlen in *. rewrite length_drop. lia. }
  rewrite (generate_spec _ ((free_old_key e <$> take (Z.to_nat (e - d - 1)) (co_future co)) ++ [ctx_zero])
             (drop j (co_future co)) e (d + n)).
  - rewrite Hz. eexists. split; [done|].
    replace (d + n + (e - d)) with (e + n) by lia.
    pose proof (shifted_future _ _ _ _ e S ltac:(lia)) as Hfut.
    unfold moved. destruct S. destruct (Z.ltb_spec s e); cbn;
      (split; [split; cbn; rewrite ?Z.max_l, ?Z.max_r by lia; try done; try lia; right; exists d; (split; [lia|done])|done]).
  - unfold moved. destruct S. by destruct (s <? e).
  - unfold moved. destruct S. by destruct (s <? e).
  - transitivity (ctx_epoch c); [unfold moved; by destruct (s <? e)|].
    rewrite (key_of_epoch _ _ Hk). apply recv_key_epoch. lia.
  - lia.
  - transitivity (free_old_key e <$> <[Z.to_nat (e - d - 1) := ctx_zero]> (co_future co));
      [unfold moved; by destruct (s <? e)|]. apply (moved_future _ _ _ _ _ S). lia.
  - apply Forall_app. split; [apply (free_old_take _ _ _ _ _ S); lia|by repeat constructor].
  - apply (free_old_drop _ _ _ _ _ S). lia.
  - intros E%(f_equal Zlen). rewrite Zlen_app, Hz in E. change (Zlen []) with 0 in E.
    pose proof (Zlen_nonneg (drop j (co_future co))). lia.
  - unfold moved. destruct S. by destruct (s <? e).
  - apply (highest_drop _ _ _ _ _ S). lia.
  - lia.
  - rewrite (Zlen_app _ (drop _ _)), Hz, Hg. lia.
  - rewrite Hz. lia.
Qed.

Lemma init_spec co n :
  ctx_epoch (bi_encrypt (co_keys co)) <> 1 -> ctx_epoch (co_retiring co) = 0 ->
  backtrack_ok (pid_rec (co_packet_id co)) -> 0 < n -> 1 + n < UINT16_MAX ->
  exists co', epoch_init_key_ctx co kt e1_send e1_recv n = Ret co' /\ schedule n 1 1 co'
    /\ co_packet_id co' = mk_pid send_zero (pid_rec (co_packet_id co)) /\ co_flags co' = co_flags co
    /\ co_retiring co' = co_retiring co.
Proof.
  intros He Hr Hb Hn Hn2. unfold epoch_init_key_ctx. destruct Hes as [Hs1 Hs32], Her as [Hr1 Hr32].
  rewrite Hs1, Hr1. cbn [Z.eqb andb Pos.eqb].
  rewrite (init_send_spec _ 1) by (done || unfold UINT16_MAX; cbn; lia). cbn [res_bind].
  rewrite (epoch_init_recv_key_spec _ 1) by (done || unfold UINT16_MAX; lia). cbn [res_bind].
  set (z := replicate (Z.to_nat n) (@ctx_zero cipher_ctx hmac_ctx)).
  assert (Hz : Zlen z = n) by (unfold Zlen, z; rewrite length_replicate; lia).
  erewrite (generate_spec _ z [] 1 1); try done.
  - rewrite Hz. eexists. split; [done|]. split; [|done].
    split; cbn; try done; try (unfold UINT16_MAX in *; lia).
    rewrite <- list_fmap_compose. done.
  - cbn. rewrite app_nil_r. unfold z. by rewrite fmap_replicate.
  - by apply Forall_replicate.
  - destruct (Z.to_nat n) eqn:E; [lia|done].
  - rewrite Zlen_app, Hz. change (Zlen []) with 0. lia.
  - rewrite Hz. lia.
Qed.

(** ** Finding a key *)
Lemma epoch_lookup_spec n d s co e :
  schedule n d s co ->
  match epoch_lookup_decrypt_key co e with
  | Some sl => exists c, slot_get co sl = Ret c /\ key_of c = key_of (recv_key e) /\ 1 <= e < UINT16_MAX
  | None => True
  end
  /\ (is_Some (epoch_lookup_decrypt_key co e)
      <-> e = d \/ (e <> 0 /\ e = ctx_epoch (co_retiring co)) \/ (d < e <= d + n /\ e + n < UINT16_MAX)).
Proof.
  intros S. pose proof (sch_range _ _ _ _ S) as Hr. pose proof (sch_count _ _ _ _ S) as Hc.
  unfold epoch_lookup_decrypt_key. rewrite (key_of_epoch _ _ (sch_decrypt _ _ _ _ S)), recv_key_epoch by lia.
  rewrite (sch_future_count _ _ _ _ S).
  destruct (Z.eqb_spec d e) as [<-|Hd].
  { split; [|naive_solver]. exists (bi_decrypt (co_keys co)). split; [done|]. split; [apply S|lia]. }
  destruct (Z.eqb_spec (ctx_epoch (co_retiring co)) 0) as [E0|E0]; cbn [negb andb].
  2: destruct (Z.eqb_spec (ctx_epoch (co_retiring co)) e) as [<-|E1].
  2: { destruct (sch_retiring _ _ _ _ S) as [?|(r & Hrr & Hk)]; [done|].
       pose proof (key_of_epoch _ _ Hk) as Her'. rewrite recv_key_epoch in Her' by lia.
       split; [|naive_solver]. exists (co_retiring co). rewrite Her'. split; [done|]. split; [done|lia]. }
  all: destruct (Z.ltb_spec d e), (Z.leb_spec e (d + n)); cbn [andb];
    try (split; [done|]; split; [intros [? [=]]|lia]).
  all: destruct (Z.ltb_spec (UINT16_MAX - n - 1) e); [split; [done|]; split; [intros [? [=]]|lia]|].
  all: split; [|split; [lia|eauto]].
  all: destruct (sch_future_lookup _ _ _ _ (e - (d + 1)) S) as (c & Hl & Hk); [lia|].
  all: exists c; cbn; rewrite (proj2 (arr_get_Ret _ _ c)) by (split; [lia|done]).
  all: replace (d + 1 + (e - (d + 1))) with e in Hk by lia; split; [done|]; split; [done|lia].
Qed.

(** ** Sending *)
Lemma check_send_iterate_spec n d s co :
  schedule n d s co ->
  exists co', epoch_check_send_iterate co = Ret co'
    /\ ((co' = co /\ (send_id (pid_send (co_packet_id co)) = PACKET_ID_EPOCH_MAX -> s = UINT16_MAX))
        \/ (schedule n d (s + 1) co'
            /\ co' = set_pid_send (set_encrypt (set_epoch_key_send co (chain e1_send (s + 1)))
                                     (send_key (s + 1))) send_zero)).
Proof.
  intros S. pose proof (sch_range _ _ _ _ S) as Hr. unfold epoch_check_send_iterate.
  rewrite (sch_send _ _ _ _ S). rewrite chain_epoch by (destruct Hes; done || lia).
  destruct (Z.eqb_spec s UINT16_MAX) as [->|Hs]; [by eauto|].
  assert (Hi : exists co', epoch_iterate_send_key co = Ret co' /\ schedule n d (s + 1) co'
    /\ co' = set_pid_send (set_encrypt (set_epoch_key_send co (chain e1_send (s + 1))) (send_key (s + 1))) send_zero)
    by (apply iterate_send_spec; [done|lia]).
  destruct Hi as (co' & Hi & S' & ->). rewrite Hi.
  set (co' := set_pid_send _ _) in *. set (o := pid_send (co_packet_id co)).
  assert (Hfin : forall b1 b2 b3 : bool, exists c,
    (let! opt := (if b1 then if b2 then Ret co' else if b3 then Ret co' else Ret co else Ret co) in
     if send_id (pid_send (co_packet_id opt)) =? PACKET_ID_EPOCH_MAX then epoch_iterate_send_key opt else Ret opt)
    = Ret c /\ ((c = co /\ (send_id o = PACKET_ID_EPOCH_MAX -> s = UINT16_MAX)) \/ (schedule n d (s + 1) c /\ c = co'))).
  { intros b1 b2 b3.
    destruct (b1 && (b2 || b3)) eqn:Eb.
    - exists co'. split; [|by right]. destruct b1, b2, b3; done.
    - replace (if b1 then _ else _) with (Ret co) by (by destruct b1, b2, b3). cbn [res_bind]. fold o.
      destruct (Z.eqb_spec (send_id o) PACKET_ID_EPOCH_MAX) as [E|E]; [exists co'; rewrite Hi; auto|].
      exists co. split; [done|]. left. done. }
  apply Hfin.
Qed.

(** Only the counters of a context change while it is in use. *)
Lemma slot_set_schedule n d s co sl c c' :
  schedule n d s co -> slot_get co sl = Ret c -> key_of c' = key_of c ->
  exists co', slot_set co sl c' = Ret co' /\ schedule n d s co'
    /\ co_packet_id co' = co_packet_id co /\ co_flags co' = co_flags co
    /\ co_retiring_pid_recv co' = co_retiring_pid_recv co
    /\ ctx_epoch (co_retiring co') = ctx_epoch (co_retiring co).
Proof.
  intros S Hg Hk. destruct sl as [| |i]; cbn in Hg |- *.
  - injection Hg as <-. eexists. split; [done|]. split; [|done]. destruct S. split; cbn; congruence.
  - injection Hg as <-. eexists. split; [done|].
    split; [|split_and!; try done; by apply key_of_epoch].
    destruct S. split; try done. cbn. rewrite (key_of_epoch _ _ Hk), Hk. done.
  - apply arr_get_Ret in Hg as [Hi Hg]. pose proof (lookup_lt_Some _ _ _ Hg).
    rewrite arr_set_ok by (unfold Zlen; lia). cbn [res_bind]. eexists. split; [done|]. split; [|done].
    destruct S. split; try done. cbn. rewrite list_fmap_insert, Hk.
    rewrite list_insert_id; [done|]. by rewrite list_lookup_fmap, Hg.
Qed.

(** ** The end of the window *)
Lemma last_epoch_spec n d s co :
  schedule n d s co -> epoch_replace_update_recv_key co (d + n) = Fatal.
Proof.
  intros S. pose proof (sch_range _ _ _ _ S) as Hr. pose proof (sch_count _ _ _ _ S).
  destruct (replace_moves _ _ _ _ (d + n) S) as (c & src & -> & Hc & Hk & Hm & Hbt); [lia|].
  pose proof (sch_future_count _ _ _ _ S) as Hn. unfold future_count, Zlen in Hn.
  unfold epoch_generate_future_receive_keys.
  assert (E1 : bi_initialized (co_keys (moved co s (d + n) c (Z.to_nat (d + n - d - 1)) src)) = true)
    by (unfold moved; destruct S; by destruct (s <? d + n)).
  assert (E2 : co_future (moved co s (d + n) c (Z.to_nat (d + n - d - 1)) src)
               = <[Z.to_nat (d + n - d - 1) := ctx_zero]> (co_future co))
    by (unfold moved; by destruct (s <? d + n)).
  assert (E3 : co_epoch_key_recv (moved co s (d + n) c (Z.to_nat (d + n - d - 1)) src) = chain e1_recv (d + n))
    by (unfold moved; destruct S; by destruct (s <? d + n)).
  unfold future_count. rewrite E1, E2, E3. unfold Zlen. rewrite length_insert, Hn.
  replace (d + n - d - 1) with (n - 1) by lia.
  rewrite (proj2 (arr_get_Ret _ (n - 1) ctx_zero)) by (split; [lia|apply list_lookup_insert_eq; lia]).
  cbn [res_bind]. rewrite chain_epoch by (destruct Her; done || lia).
  rewrite (proj2 (Z.eqb_neq _ 1)), (proj2 (Z.eqb_neq _ (d + n))) by (cbn; lia). done.
Qed.

(** The key that [epoch_lookup_decrypt_key] designates for the epoch of a packet is the data
    key of that epoch in the peer's chain, and there is one exactly for the epoch in use, for the
    one that is being retired and for the keys ahead, as far as these can still move on without
    leaving the 16-bit range of epochs. *)
Lemma epoch_lookup_exact (n d s e : Z) (co : crypto_options) :
  schedule n d s co ->
  (forall sl, epoch_lookup_decrypt_key co e = Some sl ->
     exists c, slot_get co sl = Ret c /\ key_of c = key_of (recv_key e))
  /\ (is_Some (epoch_lookup_decrypt_key co e)
      <-> e = d \/ (e <> 0 /\ e = ctx_epoch (co_retiring co)) \/ (d < e <= d + n /\ e + n < UINT16_MAX)).
Proof.
  intros S. destruct (epoch_lookup_spec _ _ _ _ e S) as [H1 H2]. split; [|done].
  intros sl E. rewrite E in H1. destruct H1 as (c & Hg & Hk & _). eauto.
Qed.

(** After an authenticated packet of a new epoch [e] within the keys ahead, but not the last of
    them, all assertions hold and the receiver uses the key of [e], keeps the key and the replay
    window of the old epoch, starts an empty window and holds the [n] keys after [e]; the sender
    moves to [e] with its packet counter at zero if it was behind, and is left alone if not. *)
Lemma epoch_replace_exact (n d s e : Z) (co : crypto_options) :
  schedule n d s co -> d < e < d + n -> e + n < UINT16_MAX ->
  exists co', epoch_replace_update_recv_key co e = Ret co' /\ schedule n e (Z.max s e) co'
    /\ key_of (co_retiring co') = key_of (recv_key d)
    /\ co_retiring_pid_recv co' = pid_rec (co_packet_id co)
    /\ rec_id (pid_rec (co_packet_id co')) = 0
    /\ pid_send (co_packet_id co') = if s <? e then send_zero else pid_send (co_packet_id co).
Proof.
  intros S He Hb. destruct (replace_spec _ _ _ _ _ S He Hb) as (co' & E & S' & Hp & Hm & Hk & _).
  destruct (move_recv_spec (co_retiring_pid_recv co) _ (sch_backtrack _ _ _ _ S)) as (src & Hm' & _ & H0 & _).
  rewrite Hm' in Hm. injection Hm as H1 H2. exists co'.
  split_and!; try done; [by rewrite <- H2|by rewrite Hp].
Qed.

(** The last of the keys ahead is handed out by [epoch_lookup_decrypt_key] like the others,
    but when a packet of that epoch is authenticated [epoch_replace_update_recv_key] clears its
    place in the array first and the assertion on the highest key then ends the process. *)
Lemma epoch_last_future_fatal (n d s : Z) (co : crypto_options) :
  schedule n d s co -> d + n + n < UINT16_MAX ->
  epoch_lookup_decrypt_key co (d + n) = Some (SlotFuture (n - 1))
  /\ epoch_replace_update_recv_key co (d + n) = Fatal.
Proof.
  intros S Hb. split; [|by apply (last_epoch_spec _ _ s)].
  pose proof (sch_range _ _ _ _ S) as Hr. pose proof (sch_count _ _ _ _ S) as Hc.
  unfold epoch_lookup_decrypt_key. rewrite (key_of_epoch _ _ (sch_decrypt _ _ _ _ S)), recv_key_epoch by lia.
  rewrite (sch_future_count _ _ _ _ S), (proj2 (Z.eqb_neq _ _)) by lia.
  assert (E : (ctx_epoch (co_retiring co) =? d + n) = false).
  { apply Z.eqb_neq. destruct (sch_retiring _ _ _ _ S) as [?|(r & ? & Hk)]; [lia|].
    rewrite (key_of_epoch _ _ Hk), recv_key_epoch by lia. lia. }
  rewrite E, andb_false_r, (proj2 (Z.ltb_lt _ _)), Z.leb_refl, (proj2 (Z.ltb_ge _ _)) by lia. cbn [andb].
  do 2 f_equal. lia.
Qed.
End Schedule.
End Epoch.

(** ** Concrete states *)
Definition sample_e1 (x : Z) : epoch_key := mk_ek (replicate 32 x) 1.
Definition sample_pid : packet_id :=
  mk_pid send_zero (mk_rec 0 0 0 64 15 0 true (Some (CIRC_LIST_ALLOC SEQ_UNSEEN 64)) None 0).
Definition sample_blank : crypto_options sample_cipher sample_hmac :=
  mk_co (mk_bi ctx_zero ctx_zero false) ek_zero ek_zero sample_kt 0 [] ctx_zero rec_zero sample_pid None
    CO_EPOCH_DATA_KEY_FORMAT.

Lemma sample_kt_ok : kt_ok sample_kt.
Proof. unfold kt_ok. cbn. unfold MAX_CIPHER_KEY_LENGTH, OPENVPN_AEAD_MIN_IV_LEN, OPENVPN_MAX_IV_LENGTH.
  split_and!; try done; lia. Qed.
Lemma sample_e1_ok x : key_ok (sample_e1 x).
Proof. done. Qed.

Lemma sample_init : exists co,
  epoch_init_key_ctx sample_blank sample_kt (sample_e1 1) (sample_e1 2) 16 = Ret co
  /\ schedule sample_kt (sample_e1 1) (sample_e1 2) 16 1 1 co.
Proof.
  assert (Hb : backtrack_ok (pid_rec (co_packet_id sample_blank))).
  { right. unfold MIN_SEQ_BACKTRACK, MAX_SEQ_BACKTRACK, MIN_TIME_BACKTRACK, MAX_TIME_BACKTRACK. cbn. lia. }
  destruct (init_spec sample_kt (sample_e1 1) (sample_e1 2) sample_kt_ok (sample_e1_ok 1) (sample_e1_ok 2)
              sample_blank 16 ltac:(discriminate) eq_refl Hb ltac:(lia) ltac:(unfold UINT16_MAX; lia))
    as (co & E & S & _).
  exists co. split; [exact E|exact S].
Qed.

