(* ===== verification/Crypto.v ===== *)
(** * Data channel packets (crypto.c)

    Encryption, decryption and the replay check.  [buf] and [work] are buffers over different
    data objects; the additional data of a received packet starts at an index of the data
    object of [buf]. *)

From Stdlib Require Import String.
From S2P Require Import Prelude CircList Buffer PacketId Mtu KeyCtx SampleLib Epoch.
#[local] Open Scope Z_scope.

Section Crypto.
Context {cipher_ctx hmac_ctx : Type} `{CL : CryptoLib cipher_ctx hmac_ctx}.
#[local] Abbreviation key_ctx := (KeyCtx.key_ctx cipher_ctx hmac_ctx).
#[local] Abbreviation crypto_options := (KeyCtx.crypto_options cipher_ctx hmac_ctx).

Definition flag (opt : crypto_options) (f : Z) : bool := negb (Z.land (co_flags opt) f =? 0).

(** [for (i = 0; i < iv_len; i++) iv[i] = iv[i] ^ implicit_iv[i];] *)
Fixpoint xor_loop (n : nat) (i : Z) (iv impl : bytes) : res bytes :=
  match n with
  | O => Ret iv
  | S n => let! a := arr_get iv i in
           let! b := arr_get impl i in
           let! iv := arr_set iv i (Z.lxor a b) in
           xor_loop n (i + 1) iv impl
  end.

Definition buf_data (b : buffer) : bytes := match b_data b with Some d => d | None => [] end.
(** [BEND (b)], as an index. *)
Definition buf_bend (b : buffer) : Z := b_offset b + b_len b.

Definition add_blocks (ctx : key_ctx) (outlen : Z) : key_ctx :=
  mk_ctx (ctx_cipher ctx) (ctx_hmac ctx) (implicit_iv ctx)
    (u64 (plaintext_blocks ctx + Z.quot (outlen + (AEAD_LIMIT_BLOCKSIZE - 1)) AEAD_LIMIT_BLOCKSIZE))
    (failed_verifications ctx) (ctx_epoch ctx).
Definition add_failure (ctx : key_ctx) : key_ctx :=
  mk_ctx (ctx_cipher ctx) (ctx_hmac ctx) (implicit_iv ctx) (plaintext_blocks ctx)
    (u64 (failed_verifications ctx + 1)) (ctx_epoch ctx).

(** What the library stores behind the contents of [work], and [buf_inc_len]. *)
Definition append_out (work : buffer) (out : bytes) : res buffer :=
  let! work := buf_poke work (buf_bend work) out in
  let '(ok, work) := buf_inc_len work (Zlen out) in
  assert! ok in Ret work.

(** The label [err]: the packet is emptied. *)
Definition drop_buf (buf : buffer) : buffer := set_window buf (b_offset buf) 0.

(** ** Sending *)

(** From the point where the key is settled. *)
Definition aead_seal (now : Z) (use_epoch_data_format : bool) (buf work : buffer) (opt : crypto_options)
  : res (buffer * crypto_options) :=
  let ctx := bi_encrypt (co_keys opt) in
  let mac_len := OPENVPN_AEAD_TAG_LENGTH in
  match ctx_cipher ctx with
  | None => Fatal
  | Some cipher =>
      assert! packet_id_initialized (co_packet_id opt) in
      let iv_len := cipher_ctx_iv_length cipher in
      assert! (OPENVPN_AEAD_MIN_IV_LEN <=? iv_len) && (iv_len <=? OPENVPN_MAX_IV_LENGTH) in
      let! iv_buffer := buf_set_write (Some (replicate 16 0)) iv_len in
      let! (ok, send, iv_buffer) :=
        (if use_epoch_data_format
         then packet_id_write_epoch now (pid_send (co_packet_id opt)) (ctx_epoch ctx) iv_buffer
         else packet_id_write now (pid_send (co_packet_id opt)) iv_buffer false false) in
      let opt := set_pid_send opt send in
      if negb ok then Ret (drop_buf buf, opt)
      else
        let iv := buf_data iv_buffer in
        let! pid := mem_read iv 0 (buf_len iv_buffer) in
        let! (ok, work) := buf_write work pid in
        assert! ok in
        let! iv := xor_loop (Z.to_nat iv_len) 0 iv (implicit_iv ctx) in
        let! iv := mem_read iv 0 iv_len in
        assert! cipher_ctx_reset cipher iv in
        if negb (buf_safe work (u64 (b_len buf + mac_len + cipher_ctx_block_size cipher)))
        then Ret (drop_buf buf, opt)
        else
          let! ad := buf_bytes work in
          let! (mac_out, work) :=
            (if negb use_epoch_data_format
             then let '(p, work) := buf_write_alloc work mac_len in
                  match p with Some _ => Ret (p, work) | None => Fatal end
             else Ret (None, work)) in
          let! plain := buf_bytes buf in
          match cipher_ctx_update cipher iv ad plain with
          | None => Fatal
          | Some out =>
              let! work := append_out work out in
              let opt := set_encrypt opt (add_blocks ctx (Zlen out)) in
              match cipher_ctx_final cipher iv ad plain with
              | None => Fatal
              | Some out =>
                  let! work := append_out work out in
                  let! (mac_out, work) :=
                    (if use_epoch_data_format
                     then let '(p, work) := buf_write_alloc work mac_len in
                          match p with Some _ => Ret (p, work) | None => Fatal end
                     else Ret (mac_out, work)) in
                  match cipher_ctx_get_tag cipher iv ad plain, mac_out with
                  | Some tag, Some p => let! work := buf_poke work p tag in Ret (work, opt)
                  | None, _ => Fatal
                  | Some _, None => UB
                  end
              end
          end
  end.

Definition openvpn_encrypt_aead (now : Z) (buf work : buffer) (opt : crypto_options)
  : res (buffer * crypto_options) :=
  let use_epoch_data_format := flag opt CO_EPOCH_DATA_KEY_FORMAT in
  let! opt := (if use_epoch_data_format then epoch_check_send_iterate opt else Ret opt) in
  aead_seal now use_epoch_data_format buf work opt.

(** [prng]: what [prng_bytes] stores. *)
Definition encrypt_v1_iv (now : Z) (prng : bytes) (buf : buffer) (opt : crypto_options) (cipher : cipher_ctx)
  : res (bool * bytes * buffer * crypto_options) :=
  let iv_size := cipher_ctx_iv_length cipher in
  if cipher_ctx_mode_cbc (Some cipher) then
    let! iv_buf := mem_write (replicate 16 0) 0 (take (Z.to_nat iv_size) prng) in
    if packet_id_initialized (co_packet_id opt) then
      let! (ok, send, buf) :=
        packet_id_write now (pid_send (co_packet_id opt)) buf (flag opt CO_PACKET_ID_LONG_FORM) true in
      Ret (ok, iv_buf, buf, set_pid_send opt send)
    else Ret (true, iv_buf, buf, opt)
  else if cipher_ctx_mode_ofb_cfb (Some cipher) then
    assert! packet_id_initialized (co_packet_id opt) in
    let! b := buf_set_write (Some (replicate 16 0)) iv_size in
    let! (ok, send, b) := packet_id_write now (pid_send (co_packet_id opt)) b true false in
    assert! ok in
    Ret (true, buf_data b, buf, set_pid_send opt send)
  else Fatal.

Definition openvpn_encrypt_v1 (now : Z) (prng : bytes) (buf work : buffer) (opt : crypto_options)
  : res (buffer * crypto_options) :=
  if 0 <? b_len buf then
    let ctx := bi_encrypt (co_keys opt) in
    let! (ok, mac_out, hmac_start, buf, work, opt) :=
      match ctx_cipher ctx with
      | Some cipher =>
          let iv_size := cipher_ctx_iv_length cipher in
          let! (mac_out, hmac_start, work) :=
            match ctx_hmac ctx with
            | Some h =>
                let '(p, work) := buf_write_alloc work (u64 (hmac_ctx_size h)) in
                match p with Some _ => Ret (p, buf_bend work, work) | None => Fatal end
            | None => Ret (None, 0, work)
            end in
          let! (ok, iv_buf, buf, opt) := encrypt_v1_iv now prng buf opt cipher in
          if negb ok then Ret (false, mac_out, hmac_start, buf, work, opt)
          else
            let! iv := mem_read iv_buf 0 iv_size in
            let! (ok, work) := buf_write work iv in
            assert! ok in
            assert! cipher_ctx_reset cipher iv in
            if negb (buf_safe work (u64 (b_len buf + cipher_ctx_block_size cipher)))
            then Ret (false, mac_out, hmac_start, buf, work, opt)
            else
              let! plain := buf_bytes buf in
              match cipher_ctx_update cipher iv [] plain with
              | None => Fatal
              | Some out =>
                  let! work := append_out work out in
                  match cipher_ctx_final cipher iv [] plain with
                  | None => Fatal
                  | Some out =>
                      let! work := append_out work out in
                      assert! negb (cipher_ctx_mode_cbc (Some cipher)) || (Zlen out =? iv_size) in
                      Ret (true, mac_out, hmac_start, buf, work, opt)
                  end
              end
      | None =>
          let! (ok, send, buf) :=
            (if packet_id_initialized (co_packet_id opt)
             then packet_id_write now (pid_send (co_packet_id opt)) buf (flag opt CO_PACKET_ID_LONG_FORM) true
             else Ret (true, pid_send (co_packet_id opt), buf)) in
          let opt := set_pid_send opt send in
          if negb ok then Ret (false, None, 0, buf, work, opt)
          else
            let! (mac_out, hmac_start, buf) :=
              match ctx_hmac ctx with
              | Some h =>
                  let hmac_start := b_offset buf in
                  let '(p, buf) := buf_prepend buf (hmac_ctx_size h) in
                  match p with Some _ => Ret (p, hmac_start, buf) | None => Fatal end
              | None => Ret (None, 0, buf)
              end in
            let! buf :=
              (if negb (buf_len work =? 0)
               then let! w := buf_bytes work in
                    let! (_, buf) := buf_write_prepend buf w in Ret buf
               else Ret buf) in
            Ret (true, mac_out, hmac_start, buf, buf, opt)
      end in
    if negb ok then Ret (drop_buf buf, opt)
    else
      match ctx_hmac ctx with
      | Some h =>
          let! d := mem_read (buf_data work) hmac_start (buf_bend work - hmac_start) in
          match mac_out with
          | Some p => let! work := buf_poke work p (hmac_ctx_value h d) in Ret (work, opt)
          | None => UB
          end
      | None => Ret (work, opt)
      end
  else Ret (buf, opt).

Definition openvpn_encrypt (now : Z) (prng : bytes) (buf work : buffer) (opt : crypto_options)
  : res (buffer * crypto_options) :=
  if 0 <? b_len buf then
    if cipher_ctx_mode_aead (ctx_cipher (bi_encrypt (co_keys opt)))
    then openvpn_encrypt_aead now buf work opt
    else openvpn_encrypt_v1 now prng buf work opt
  else Ret (buf, opt).

(** ** Receiving *)
Definition crypto_check_replay (now : Z) (opt : crypto_options) (pin : packet_id_net) (epoch : Z)
  : res (bool * crypto_options) :=
  let! (retiring, opt) :=
    (if (epoch =? 0) || (ctx_epoch (bi_decrypt (co_keys opt)) =? epoch) then Ret (false, opt)
     else if epoch =? ctx_epoch (co_retiring opt) then Ret (true, opt)
     else let! opt := epoch_replace_update_recv_key opt epoch in Ret (false, opt)) in
  let recv := if retiring : bool then co_retiring_pid_recv opt else pid_rec (co_packet_id opt) in
  let! (ok, recv) := replay_check now recv pin in
  let opt := if retiring then set_retiring_pid opt recv else set_pid_rec opt recv in
  if ok then
    match co_pid_persist opt with
    | Some p =>
        if flag opt CO_PACKET_ID_LONG_FORM
        then Ret (true, set_pid_persist opt (Some (packet_id_persist_save_obj p (co_packet_id opt))))
        else Ret (true, opt)
    | None => Ret (true, opt)
    end
  else Ret (false, opt).

(** [error_exit]: the packet is emptied and [false] returned. *)
Definition error_exit (buf : buffer) (opt : crypto_options) : res (bool * buffer * crypto_options) :=
  Ret (false, drop_buf buf, opt).

(** From the implicit part of the IV on, with the context [ctx] at [slot]. *)
Definition aead_open (now : Z) (buf work : buffer) (opt : crypto_options) (ad_start : Z) (slot : key_slot)
    (ctx : key_ctx) (cipher : cipher_ctx) (iv_len : Z) (iv : bytes) (pin : packet_id_net) (epoch : Z)
  : res (bool * buffer * crypto_options) :=
  let use_epoch_data_format := flag opt CO_EPOCH_DATA_KEY_FORMAT in
  let tag_size := OPENVPN_AEAD_TAG_LENGTH in
  let! iv := xor_loop (Z.to_nat iv_len) 0 iv (implicit_iv ctx) in
  let! iv := mem_read iv 0 iv_len in
  if negb (cipher_ctx_reset cipher iv) then error_exit buf opt
  else
    let ad_size := b_offset buf - ad_start in
    let! (tag_ptr, data_len, buf) :=
      (if use_epoch_data_format then
         let data_len := b_len buf - tag_size in
         Ret (b_offset buf + data_len, data_len, buf)
       else
         let tag_ptr := b_offset buf in
         let '(ok, buf) := buf_advance buf tag_size in
         assert! ok in Ret (tag_ptr, b_len buf, buf)) in
    if negb (buf_safe work (u64 (b_len buf + cipher_ctx_block_size cipher))) then error_exit buf opt
    else
      let! ad := buf_peek buf ad_start ad_size in
      let! data := buf_peek buf (b_offset buf) data_len in
      match cipher_ctx_update cipher iv ad data with
      | None => error_exit buf opt
      | Some out =>
          let! work := append_out work out in
          let! tag := buf_peek buf tag_ptr tag_size in
          match cipher_ctx_final_check_tag cipher iv ad data tag with
          | None =>
              let! opt := slot_set opt slot (add_failure ctx) in
              error_exit buf opt
          | Some out =>
              let! work := append_out work out in
              let outlen := Zlen out in
              let! (ok, opt) := crypto_check_replay now opt pin epoch in
              if negb ok then error_exit buf opt
              else Ret (true, work, set_decrypt opt (add_blocks (bi_decrypt (co_keys opt)) outlen))
          end
      end.

Definition openvpn_decrypt_aead (now : Z) (buf work : buffer) (opt : crypto_options) (frame : frame) (ad_start : Z)
  : res (bool * buffer * crypto_options) :=
  let ctx := bi_decrypt (co_keys opt) in
  let use_epoch_data_format := flag opt CO_EPOCH_DATA_KEY_FORMAT in
  if negb use_epoch_data_format && cipher_decrypt_verify_fail_exceeded ctx then error_exit buf opt
  else
    let tag_size := OPENVPN_AEAD_TAG_LENGTH in
    assert! 0 <? b_len buf in
    match ctx_cipher ctx with
    | None => Fatal
    | Some cipher =>
        assert! (0 <=? ad_start) && (ad_start <=? b_offset buf) in
        let '(ok, work) := buf_init_dowork work (headroom frame) in
        assert! ok in
        assert! packet_id_initialized (co_packet_id opt) in
        let min_packet_len := packet_id_size false + tag_size + 1 in
        let min_packet_len := if use_epoch_data_format then min_packet_len + 4 else min_packet_len in
        if b_len buf <? min_packet_len then error_exit buf opt
        else
          let iv_len := cipher_ctx_iv_length cipher in
          if use_epoch_data_format then
            let! h := buf_peek buf (b_offset buf) 8 in
            let! iv := mem_write (replicate 16 0) 0 h in
            let! (epoch, pin, buf) := packet_id_read_epoch (mk_net 0 0) buf in
            if epoch =? 0 then error_exit buf opt
            else
              match epoch_lookup_decrypt_key opt epoch with
              | None => error_exit buf opt
              | Some slot =>
                  let! ctx := slot_get opt slot in
                  if cipher_decrypt_verify_fail_exceeded ctx then error_exit buf opt
                  else match ctx_cipher ctx with
                       | None => UB
                       | Some cipher => aead_open now buf work opt ad_start slot ctx cipher iv_len iv pin epoch
                       end
              end
          else
            let! h := buf_peek buf (b_offset buf) (packet_id_size false) in
            let! iv := mem_write (replicate 16 0) 0 h in
            let! (ok, pin, buf) := packet_id_read buf false in
            if negb ok then error_exit buf opt
            else aead_open now buf work opt ad_start SlotDecrypt ctx cipher iv_len iv pin 0
    end.

(** The packet identifier of the older formats, from the plaintext or from the IV. *)
Definition decrypt_v1_pin (opt : crypto_options) (cipher : cipher_ctx) (iv_buf : bytes) (work : buffer)
  : res (bool * bool * packet_id_net * buffer) :=
  if cipher_ctx_mode_cbc (Some cipher) then
    if packet_id_initialized (co_packet_id opt) then
      let! (ok, pin, work) := packet_id_read work (flag opt CO_PACKET_ID_LONG_FORM) in
      Ret (ok, true, pin, work)
    else Ret (true, false, mk_net 0 0, work)
  else if cipher_ctx_mode_ofb_cfb (Some cipher) then
    assert! packet_id_initialized (co_packet_id opt) in
    let! b := buf_set_read (Some iv_buf) (cipher_ctx_iv_length cipher) in
    let! (ok, pin, _) := packet_id_read b true in
    Ret (ok, true, pin, work)
  else Fatal.

Definition openvpn_decrypt_v1 (now : Z) (buf work : buffer) (opt : crypto_options) (frame : frame)
  : res (bool * buffer * crypto_options) :=
  if 0 <? b_len buf then
    let ctx := bi_decrypt (co_keys opt) in
    let! (ok, buf) :=
      match ctx_hmac ctx with
      | Some h =>
          let hmac_len := hmac_ctx_size h in
          if b_len buf <? hmac_len then Ret (false, buf)
          else
            let! d := buf_peek buf (b_offset buf + hmac_len) (b_len buf - hmac_len) in
            let! m := buf_peek buf (b_offset buf) hmac_len in
            if negb (memcmp_eq (hmac_ctx_value h d) m) then Ret (false, buf)
            else let '(ok, buf) := buf_advance buf hmac_len in
                 assert! ok in Ret (true, buf)
      | None => Ret (true, buf)
      end in
    if negb ok then error_exit buf opt
    else
      let! (ok, have_pin, pin, buf, work) :=
        match ctx_cipher ctx with
        | Some cipher =>
            let iv_size := cipher_ctx_iv_length cipher in
            let '(ok, work) := buf_init_dowork work (headroom frame) in
            assert! ok in
            if b_len buf <? iv_size then Ret (false, false, mk_net 0 0, buf, work)
            else
              let! iv := buf_peek buf (b_offset buf) iv_size in
              let! iv_buf := mem_write (replicate 16 0) 0 iv in
              let '(ok, buf) := buf_advance buf iv_size in
              assert! ok in
              if b_len buf <? 1 then Ret (false, false, mk_net 0 0, buf, work)
              else if negb (cipher_ctx_reset cipher iv) then Ret (false, false, mk_net 0 0, buf, work)
              else if negb (buf_safe work (u64 (b_len buf + cipher_ctx_block_size cipher)))
              then Ret (false, false, mk_net 0 0, buf, work)
              else
                let! data := buf_bytes buf in
                match cipher_ctx_update cipher iv [] data with
                | None => Ret (false, false, mk_net 0 0, buf, work)
                | Some out =>
                    let! work := append_out work out in
                    match cipher_ctx_final cipher iv [] data with
                    | None => Ret (false, false, mk_net 0 0, buf, work)
                    | Some out =>
                        let! work := append_out work out in
                        let! (ok, have_pin, pin, work) := decrypt_v1_pin opt cipher iv_buf work in
                        Ret (ok, have_pin, pin, buf, work)
                    end
                end
        | None =>
            let work := buf in
            if packet_id_initialized (co_packet_id opt) then
              let! (ok, pin, work) := packet_id_read work (flag opt CO_PACKET_ID_LONG_FORM) in
              Ret (ok, negb (flag opt CO_IGNORE_PACKET_ID), pin, buf, work)
            else Ret (true, false, mk_net 0 0, buf, work)
        end in
      if negb ok then error_exit buf opt
      else
        let! (ok, opt) := (if have_pin : bool then crypto_check_replay now opt pin 0 else Ret (true, opt)) in
        if negb ok then error_exit buf opt else Ret (true, work, opt)
  else Ret (true, buf, opt).

Definition openvpn_decrypt (now : Z) (buf work : buffer) (opt : crypto_options) (frame : frame) (ad_start : Z)
  : res (bool * buffer * crypto_options) :=
  if 0 <? b_len buf then
    if cipher_ctx_mode_aead (ctx_cipher (bi_decrypt (co_keys opt)))
    then openvpn_decrypt_aead now buf work opt frame ad_start
    else openvpn_decrypt_v1 now buf work opt frame
  else Ret (true, buf, opt).
End Crypto.
