(* ===== verification/Aead.v ===== *)
(** * AEAD packets of the data channel

    What [openvpn_encrypt_aead] puts on the wire, that the peer gets it back, what an
    unauthenticated packet can change, and that no nonce is used twice under a key. *)

From Stdlib Require Import String.
From S2P Require Import Prelude CircList Buffer PacketId Mtu KeyCtx SampleLib Epoch Crypto.
#[local] Open Scope Z_scope.

(** ** Buffers *)
Lemma buf_bend_repr b h c t : buf_repr b h c t -> buf_bend b = h + Zlen c.
Proof. intros Hb. buf_facts Hb. unfold buf_bend. lia. Qed.

(** Bytes inside the contents are overwritten. *)
Lemma poke_inside b h l old r t src :
  buf_repr b h (l ++ old ++ r) t -> Zlen src = Zlen old -> bytes_ok src ->
  exists b', buf_poke b (h + Zlen l) src = Ret b' /\ buf_repr b' h (l ++ src ++ r) t.
Proof.
  intros (pre & post & (Hd & Ho & Hl & Hc & Hm & O1 & O2 & O3) & -> & ->) Hs Os.
  rewrite <- Zlen_app. rewrite (buf_poke_split b (pre ++ l) old (r ++ post) src);
    [|rewrite Hd; by rewrite <- !app_assoc|done].
  eexists. split; [done|]. exists pre, post. split; [|done].
  rewrite !bytes_ok_app in O2. unfold buf_split, set_data. cbn. rewrite !bytes_ok_app, !Zlen_app in *.
  repeat split; try done; try (by rewrite <- !app_assoc); try lia; naive_solver.
Qed.

(** Space behind the contents, with whatever it holds. *)
Lemma write_alloc_repr b h c t n :
  buf_repr b h c t -> 0 <= n <= t ->
  exists junk b', buf_write_alloc b n = (Some (h + Zlen c), b') /\ Zlen junk = n
    /\ buf_repr b' h (c ++ junk) (t - n).
Proof.
  intros Hb Hn. buf_facts Hb. unfold buf_write_alloc.
  rewrite (buf_safe_repr _ _ _ _ Hb), (proj2 (Z.leb_le _ _)) by lia. cbn [negb].
  unfold buf_bptr. rewrite Fvalid. cbn. pose proof (Zlen_nonneg c). rewrite s32_id by (unfold is_int, INT_MIN, INT_MAX; lia).
  destruct Hb as (pre & post & (Hd & Ho & Hl & Hc & Hm & O1 & O2 & O3) & -> & ->).
  destruct (split_at post n) as (x & y & -> & L1 & L2 & _); [lia|].
  exists x. eexists. split; [by rewrite Ho, Hl|]. split; [done|].
  exists pre, y. apply bytes_ok_app in O3 as [O3 O4].
  unfold buf_split, set_window. cbn. rewrite Hd, !bytes_ok_app, !Zlen_app in *.
  repeat split; try done; try lia. by rewrite <- !app_assoc.
Qed.

Lemma append_out_repr b h c t out :
  buf_repr b h c t -> Zlen out <= t -> bytes_ok out ->
  exists b', append_out b out = Ret b' /\ buf_repr b' h (c ++ out) (t - Zlen out).
Proof.
  intros Hb Ht Ho. pose proof (Zlen_nonneg c). buf_facts Hb. unfold append_out. rewrite (buf_bend_repr _ _ _ _ Hb).
  destruct Hb as (pre & post & (Hd & Hof & Hl & Hc & Hm & O1 & O2 & O3) & -> & ->).
  destruct (split_at post (Zlen out)) as (x & y & -> & L1 & L2 & _); [pose proof (Zlen_nonneg out); lia|].
  rewrite <- Zlen_app, (buf_poke_split b (pre ++ c) x y out);
    [|rewrite Hd; by rewrite <- !app_assoc|done].
  cbn [res_bind]. unfold buf_inc_len, buf_safe_bidir. rewrite Zlen_app in *.
  assert (E : buf_valid (set_data b ((pre ++ c) ++ out ++ y)) = true)
    by (unfold buf_valid, buf_defined; cbn; rewrite (proj2 (Z.leb_le _ _)) by lia; done).
  rewrite E. unfold buf_size_valid_signed, BUF_SIZE_MAX. pose proof (Zlen_nonneg out). pose proof (Zlen_nonneg c).
  cbn [b_len b_offset b_capacity set_data]. pose proof (Zlen_nonneg y).
  rewrite !(proj2 (Z.leb_le _ _)), ?(proj2 (Z.ltb_lt _ _)) by lia. cbn [andb negb].
  eexists. split; [done|]. exists pre, y. apply bytes_ok_app in O3 as [O3 O4].
  unfold buf_split, set_window, set_data. cbn. rewrite !bytes_ok_app, !Zlen_app in *.
  repeat split; try done; try lia. by rewrite <- !app_assoc.
Qed.

Lemma append_out_nil b h c t : buf_repr b h c t -> append_out b [] = Ret b.
Proof.
  intros Hb. buf_facts Hb. unfold append_out, buf_bend, buf_poke.
  destruct Hb as (pre & post & (Hd & Hof & Hl & _) & -> & ->). rewrite Hd.
  pose proof (Zlen_nonneg pre). pose proof (Zlen_nonneg c). pose proof (Zlen_nonneg post).
  rewrite mem_write_ok by (rewrite ?Zlen_app; change (Zlen []) with 0; lia). cbn [res_bind app].
  rewrite Nat.add_0_r, take_drop. unfold buf_inc_len, buf_safe_bidir, buf_valid, buf_defined. cbn.
  unfold buf_size_valid_signed, BUF_SIZE_MAX. change (Zlen []) with 0.
  rewrite !(proj2 (Z.leb_le _ _)) by lia. cbn. unfold set_window, set_data. cbn. rewrite Z.add_0_r, <- Hd.
  by destruct b.
Qed.

(** ** The vector of a packet *)
Definition nonce (iv_len : Z) (pid impl : bytes) : bytes :=
  zip_with Z.lxor (take (Z.to_nat iv_len) (pid ++ replicate (16 - length pid) 0)) impl.

Lemma xor_loop_spec n pre iv impl :
  (n <= length iv)%nat -> (length pre + n <= length impl)%nat ->
  xor_loop n (Zlen pre) (pre ++ iv) impl
  = Ret (pre ++ zip_with Z.lxor (take n iv) (drop (length pre) impl) ++ drop n iv).
Proof.
  revert pre iv. induction n as [|n IH]; intros pre iv Hn Hi; cbn [xor_loop]; [by rewrite take_0|].
  destruct iv as [|a iv]; [cbn in Hn; lia|]. cbn [length] in Hn.
  destruct (lookup_lt_is_Some_2 impl (length pre)) as [b Hb]; [lia|].
  rewrite (proj2 (arr_get_Ret (pre ++ a :: iv) _ a))
    by (split; [apply Zlen_nonneg|rewrite to_nat_Zlen; by apply list_lookup_middle]).
  rewrite (proj2 (arr_get_Ret impl _ b)) by (split; [apply Zlen_nonneg|by rewrite to_nat_Zlen]).
  cbn [res_bind]. rewrite arr_set_ok by (pose proof (Zlen_nonneg pre); pose proof (Zlen_nonneg iv);
    rewrite Zlen_app, Zlen_cons; lia).
  cbn [res_bind]. rewrite to_nat_Zlen, insert_app_r_alt, Nat.sub_diag by lia. cbn [insert list_insert].
  replace (Zlen pre + 1) with (Zlen (pre ++ [Z.lxor a b])) by (by rewrite Zlen_app).
  replace (pre ++ Z.lxor a b :: iv) with ((pre ++ [Z.lxor a b]) ++ iv) by (by rewrite <- app_assoc).
  rewrite IH by (rewrite ?length_app; cbn [length]; lia).
  rewrite <- app_assoc. cbn [app take drop]. rewrite (drop_S _ _ _ Hb). cbn [zip_with].
  rewrite length_app. cbn [length]. by rewrite Nat.add_1_r.
Qed.

Lemma nonce_spec iv_len pid impl :
  0 <= iv_len <= 16 -> (length pid <= 16)%nat -> length impl = 16%nat ->
  (let! iv := xor_loop (Z.to_nat iv_len) 0 (pid ++ replicate (16 - length pid) 0) impl in
   mem_read iv 0 iv_len) = Ret (nonce iv_len pid impl).
Proof.
  intros Hl Hp Hi. pose proof (xor_loop_spec (Z.to_nat iv_len) [] (pid ++ replicate (16 - length pid) 0) impl) as H.
  change (Zlen []) with 0 in H. cbn [app length] in H. rewrite drop_0 in H.
  rewrite H by (rewrite ?length_app, ?length_replicate; lia). cbn [res_bind].
  assert (Hn : length (nonce iv_len pid impl) = Z.to_nat iv_len).
  { unfold nonce. rewrite length_zip_with, length_take, length_app, length_replicate. lia. }
  fold (nonce iv_len pid impl).
  assert (Hz : iv_len <= Zlen (nonce iv_len pid impl ++ drop (Z.to_nat iv_len) (pid ++ replicate (16 - length pid) 0)))
    by (unfold Zlen; rewrite length_app, Hn; lia).
  rewrite mem_read_ok by lia.
  by rewrite drop_0, take_app_length' by done.
Qed.

(** Two packets with different identifiers have different vectors. *)
Lemma nonce_inj iv_len p q impl :
  0 <= iv_len <= 16 -> length impl = 16%nat -> length p = length q -> Z.of_nat (length p) <= iv_len ->
  nonce iv_len p impl = nonce iv_len q impl -> p = q.
Proof.
  intros Hl Hi Hpq Hp Hn. apply list_eq. intros i.
  destruct (decide (i < length p)%nat) as [Hlt|]; [|rewrite !lookup_ge_None_2 by lia; done].
  destruct (lookup_lt_is_Some_2 p i) as [x Hx]; [lia|]. destruct (lookup_lt_is_Some_2 q i) as [y Hy]; [lia|].
  destruct (lookup_lt_is_Some_2 impl i) as [z Hz]; [lia|].
  apply (f_equal (lookup i)) in Hn. unfold nonce in Hn. rewrite !lookup_zip_with in Hn.
  rewrite !lookup_take_lt, !lookup_app_l, Hx, Hy, Hz in Hn by lia. cbn in Hn. injection Hn as Hn.
  rewrite Hx, Hy. f_equal. apply (f_equal (fun a => Z.lxor a z)) in Hn.
  by rewrite !Z.lxor_assoc, Z.lxor_nilpotent, !Z.lxor_0_r in Hn.
Qed.

(** The array the packet identifier is written to. *)
Lemma iv_write iv_len pid :
  12 <= iv_len <= 16 -> Zlen pid <= 12 ->
  buf_write (mk_buffer iv_len 0 0 (Some (replicate 16 0))) pid
  = Ret (true, mk_buffer iv_len 0 (Zlen pid) (Some (pid ++ replicate (16 - length pid) 0))).
Proof.
  intros Hl Hp. unfold buf_write, buf_write_alloc, buf_safe, buf_valid, buf_defined, buf_size_valid, BUF_SIZE_MAX.
  cbn [b_data b_len b_offset b_capacity]. pose proof (Zlen_nonneg pid).
  rewrite s32_id by (unfold is_int, INT_MIN, INT_MAX; lia).
  rewrite (proj2 (Z.ltb_lt (Zlen pid) _)), (proj2 (Z.leb_le (0 + 0 + Zlen pid) _)) by lia.
  cbn [Z.leb Z.compare andb negb]. unfold buf_bptr, buf_valid, buf_defined.
  cbn [b_data b_len b_offset Z.leb Z.compare andb mbind option_bind].
  unfold buf_poke. cbn [b_data set_window]. rewrite mem_write_ok by (unfold Zlen in *; rewrite ?length_replicate; lia).
  cbn [res_bind Z.to_nat take app]. unfold set_data, set_window. cbn [b_capacity b_offset b_len].
  do 4 f_equal. by rewrite drop_replicate.
Qed.

Section Aead.
Context {cipher_ctx hmac_ctx : Type} `{CL : CryptoLib cipher_ctx hmac_ctx}.
Context `{DL : !DeriveLaws cipher_ctx hmac_ctx} `{AL : !AeadLaws cipher_ctx hmac_ctx}.
#[local] Abbreviation key_ctx := (KeyCtx.key_ctx cipher_ctx hmac_ctx).
#[local] Abbreviation crypto_options := (KeyCtx.crypto_options cipher_ctx hmac_ctx).

(** ** The packet identifier on the wire *)
Definition pid_bytes (ep : bool) (epoch id : Z) : bytes :=
  if ep then be_bytes 8 (Z.lor (u64 (Z.shiftl epoch 48)) id) else be_bytes 4 id.
Definition pid_len (ep : bool) : Z := if ep then 8 else 4.
Definition send_next (ep : bool) (now : Z) (p : packet_id_send) : bool * packet_id_send :=
  if ep then packet_id_send_update_epoch now p else packet_id_send_update now p false.

Lemma Zlen_pid_bytes ep epoch id : Zlen (pid_bytes ep epoch id) = pid_len ep.
Proof. destruct ep; apply Zlen_be_bytes. Qed.
Lemma pid_bytes_ok ep epoch id : bytes_ok (pid_bytes ep epoch id).
Proof. destruct ep; apply be_bytes_ok. Qed.

(** The IV array with a packet identifier. *)
Definition iv_buf (iv_len : Z) (pid : bytes) : buffer :=
  mk_buffer iv_len 0 (Zlen pid) (Some (pid ++ replicate (16 - length pid) 0)).

Lemma pid_write (ep : bool) now p epoch iv_len :
  12 <= iv_len <= 16 ->
  (if ep then packet_id_write_epoch now p epoch (iv_buf iv_len [])
   else packet_id_write now p (iv_buf iv_len []) false false)
  = Ret (let '(ok, p') := send_next ep now p in
         (ok, p', if ok then iv_buf iv_len (pid_bytes ep epoch (send_id p')) else iv_buf iv_len [])).
Proof.
  intros Hl. unfold packet_id_write_epoch, packet_id_write, send_next, iv_buf.
  destruct ep; [destruct (packet_id_send_update_epoch now p) as [[|] p']
               |destruct (packet_id_send_update now p false) as [[|] p']]; cbn [negb]; try done;
    change (mk_buffer iv_len 0 (Zlen []) _) with (mk_buffer iv_len 0 0 (Some (replicate 16 0)));
    rewrite iv_write by (rewrite ?Zlen_be_bytes; lia); done.
Qed.

(** ** Sending *)

(** A context of the library for the AEAD cipher [cn] with the key [kb]. *)
Record aead_ctx (enc : bool) (kb cn : bytes) (ctx : key_ctx) : Prop := {
  ac_cipher : ctx_cipher ctx = Some (cipher_ctx_init kb cn enc);
  ac_mode : cipher_kt_mode_aead cn = true;
  ac_iv : 12 <= cipher_kt_iv_size cn <= 16;
  ac_implicit : length (implicit_iv ctx) = 16%nat
}.

(** The calls that give [ct] and [tag]: the cipher [cn] with the key [kb] and the vector [iv],
    encrypting [plain] behind the additional data [ad]. *)
Definition encrypts (kb cn iv ad plain ct tag : bytes) : Prop :=
  let c := cipher_ctx_init kb cn true in
  cipher_ctx_reset c iv = true /\ cipher_ctx_update c iv ad plain = Some ct
  /\ cipher_ctx_final c iv ad plain = Some [] /\ cipher_ctx_get_tag c iv ad plain = Some tag.

(** [ct] and [tag] are what sealing [plain] gives, and the other side can open them. *)
Definition sealed (kb cn iv ad plain ct tag : bytes) : Prop :=
  Zlen ct = Zlen plain /\ bytes_ok ct /\ Zlen tag = OPENVPN_AEAD_TAG_LENGTH /\ bytes_ok tag
  /\ cipher_ctx_update (cipher_ctx_init kb cn false) iv ad ct = Some plain
  /\ cipher_ctx_final_check_tag (cipher_ctx_init kb cn false) iv ad ct tag = Some []
  /\ encrypts kb cn iv ad plain ct tag.

Definition packet_body (ep : bool) (ct tag : bytes) : bytes := if ep then ct ++ tag else tag ++ ct.

Lemma seal_body (ep : bool) h ad work t kb cn iv plain :
  cipher_kt_mode_aead cn = true -> bytes_ok plain -> buf_repr work h ad t -> Zlen plain + 16 <= t ->
  exists ct tag work', sealed kb cn iv ad plain ct tag
    /\ buf_repr work' h (ad ++ packet_body ep ct tag) (t - Zlen plain - 16)
    /\ forall (opt : crypto_options) (ctx : key_ctx),
      (let! (mac_out, work) :=
         (if negb ep
          then let '(p, work) := buf_write_alloc work OPENVPN_AEAD_TAG_LENGTH in
               match p with Some _ => Ret (p, work) | None => Fatal end
          else Ret (None, work)) in
       match cipher_ctx_update (cipher_ctx_init kb cn true) iv ad plain with
       | None => Fatal
       | Some out =>
           let! work := append_out work out in
           let opt := set_encrypt opt (add_blocks ctx (Zlen out)) in
           match cipher_ctx_final (cipher_ctx_init kb cn true) iv ad plain with
           | None => Fatal
           | Some out =>
               let! work := append_out work out in
               let! (mac_out, work) :=
                 (if ep
                  then let '(p, work) := buf_write_alloc work OPENVPN_AEAD_TAG_LENGTH in
                       match p with Some _ => Ret (p, work) | None => Fatal end
                  else Ret (mac_out, work)) in
               match cipher_ctx_get_tag (cipher_ctx_init kb cn true) iv ad plain, mac_out with
               | Some tag, Some p => let! work := buf_poke work p tag in Ret (work, opt)
               | None, _ => Fatal
               | Some _, None => UB
               end
           end
       end) = Ret (work', set_encrypt opt (add_blocks ctx (Zlen plain))).
Proof.
  intros Hm Hp Hw Ht.
  destruct (law_seal kb cn iv ad plain Hm Hp) as (ct & tag & Eu & Lc & Oc & Ef & Et & Lt & Ot & Ed & Ec).
  unfold OPENVPN_AEAD_TAG_LENGTH in *. exists ct, tag. rewrite Eu, Ef, Et, <- Lc.
  pose proof (Zlen_nonneg plain).
  assert (Hs : sealed kb cn iv ad plain ct tag)
    by (unfold sealed, encrypts; rewrite law_reset by done; done).
  destruct ep; cbn [negb res_bind packet_body].
  - destruct (append_out_repr _ _ _ _ ct Hw) as (w1 & E1 & H1); [lia|done|].
    destruct (append_out_repr _ _ _ _ [] H1) as (w2 & E2 & H2); [change (Zlen []) with 0; lia|constructor|].
    rewrite app_nil_r in H2. change (Zlen []) with 0 in H2.
    destruct (write_alloc_repr _ _ _ _ 16 H2) as (junk & w3 & E3 & L3 & H3); [lia|].
    rewrite <- (app_nil_r ((ad ++ ct) ++ junk)), <- app_assoc in H3.
    destruct (poke_inside _ _ _ _ _ _ tag H3) as (w4 & E4 & H4); [lia|done|].
    exists w4. split; [done|]. split.
    { rewrite app_nil_r, <- app_assoc in H4. by replace (t - Zlen ct - 16) with (t - Zlen ct - 0 - 16) by lia. }
    intros opt ctx. rewrite E1. cbn [res_bind]. rewrite E2. cbn [res_bind]. rewrite E3. cbn [res_bind].
    rewrite E4. done.
  - destruct (write_alloc_repr _ _ _ _ 16 Hw) as (junk & w3 & E3 & L3 & H3); [lia|].
    destruct (append_out_repr _ _ _ _ ct H3) as (w1 & E1 & H1); [lia|done|].
    destruct (append_out_repr _ _ _ _ [] H1) as (w2 & E2 & H2); [change (Zlen []) with 0; lia|constructor|].
    rewrite app_nil_r, <- app_assoc in H2. change (Zlen []) with 0 in H2.
    destruct (poke_inside _ _ _ _ _ _ tag H2) as (w4 & E4 & H4); [lia|done|].
    exists w4. split; [done|]. split.
    { by replace (t - Zlen ct - 16) with (t - 16 - Zlen ct - 0) by lia. }
    intros opt ctx. rewrite E3. cbn [res_bind]. rewrite E1. cbn [res_bind]. rewrite E2. cbn [res_bind].
    rewrite E4. done.
Qed.

Section Seal.
Context (ep : bool) (now : Z) (buf work : buffer) (opt : crypto_options) (kb cn : bytes).
Context (hb : Z) (plain : bytes) (tb hw : Z) (hdr : bytes) (tw : Z).
Abbreviation ctx := (bi_encrypt (co_keys opt)).
Context (Hctx : aead_ctx true kb cn ctx).
Context (Hpid : packet_id_initialized (co_packet_id opt) = true).
Context (Hbuf : buf_repr buf hb plain tb) (Hwork : buf_repr work hw hdr tw).
Context (Hroom : pid_len ep + Zlen plain + 32 <= tw).

Lemma aead_seal_prefix :
  aead_seal now ep buf work opt
  = let '(ok, send') := send_next ep now (pid_send (co_packet_id opt)) in
    if ok then
      let pid := pid_bytes ep (ctx_epoch ctx) (send_id send') in
      let iv := nonce (cipher_kt_iv_size cn) pid (implicit_iv ctx) in
      let! (ok, work) := buf_write work pid in
      assert! ok in
      if negb (buf_safe work (u64 (b_len buf + 16 + cipher_ctx_block_size (cipher_ctx_init kb cn true))))
      then Ret (drop_buf buf, set_pid_send opt send')
      else
        let! ad := buf_bytes work in
        let! (mac_out, work) :=
          (if negb ep
           then let '(p, work) := buf_write_alloc work OPENVPN_AEAD_TAG_LENGTH in
                match p with Some _ => Ret (p, work) | None => Fatal end
           else Ret (None, work)) in
        let! plain := buf_bytes buf in
        match cipher_ctx_update (cipher_ctx_init kb cn true) iv ad plain with
        | None => Fatal
        | Some out =>
            let! work := append_out work out in
            let opt := set_encrypt (set_pid_send opt send') (add_blocks ctx (Zlen out)) in
            match cipher_ctx_final (cipher_ctx_init kb cn true) iv ad plain with
            | None => Fatal
            | Some out =>
                let! work := append_out work out in
                let! (mac_out, work) :=
                  (if ep
                   then let '(p, work) := buf_write_alloc work OPENVPN_AEAD_TAG_LENGTH in
                        match p with Some _ => Ret (p, work) | None => Fatal end
                   else Ret (mac_out, work)) in
                match cipher_ctx_get_tag (cipher_ctx_init kb cn true) iv ad plain, mac_out with
                | Some tag, Some p => let! work := buf_poke work p tag in Ret (work, opt)
                | None, _ => Fatal
                | Some _, None => UB
                end
            end
        end
    else Ret (drop_buf buf, set_pid_send opt send').
Proof using Hctx Hpid DL AL.
  clear Hroom. destruct Hctx as [Hc Hm Hi Himp]. unfold aead_seal. rewrite Hc, Hpid.
  unfold OPENVPN_AEAD_MIN_IV_LEN, OPENVPN_MAX_IV_LENGTH. rewrite law_iv_length.
  rewrite !(proj2 (Z.leb_le _ _)) by lia. cbn [andb].
  assert (E : buf_set_write (Some (replicate 16 0)) (cipher_kt_iv_size cn) = Ret (iv_buf (cipher_kt_iv_size cn) [])).
  { unfold buf_set_write, buf_size_valid, BUF_SIZE_MAX. rewrite u64_id by (unfold is_u64; lia).
    rewrite (proj2 (Z.ltb_lt _ 1000000)), (proj2 (Z.ltb_lt 0 _)) by lia. done. }
  rewrite E. cbn [res_bind]. rewrite pid_write by lia.
  destruct (send_next ep now (pid_send (co_packet_id opt))) as [[|] send']; cbn [res_bind negb]; [|done].
  set (pid := pid_bytes ep _ _). pose proof (Zlen_pid_bytes ep (ctx_epoch ctx) (send_id send')) as Lp. fold pid in Lp.
  assert (Lp' : (length pid <= 16)%nat) by (unfold Zlen, pid_len in Lp; destruct ep; lia).
  unfold iv_buf at 1 2. unfold buf_len, buf_valid, buf_defined, buf_data. cbn [b_data b_len].
  rewrite (proj2 (Z.leb_le 0 (Zlen pid))) by (apply Zlen_nonneg). cbn [andb].
  rewrite mem_read_ok by (rewrite ?Zlen_app; pose proof (Zlen_nonneg pid);
    pose proof (Zlen_nonneg (replicate (16 - length pid) (0 : Z))); lia).
  rewrite drop_0, to_nat_Zlen, take_app_length. cbn [res_bind].
  destruct (buf_write work pid) as [[[|] w]| |]; cbn [res_bind]; try done.
  assert (Hi' : 0 <= cipher_kt_iv_size cn <= 16) by lia.
  pose proof (nonce_spec (cipher_kt_iv_size cn) pid (implicit_iv ctx) Hi' Lp' Himp) as En.
  rewrite <- res_bind_assoc. unfold iv_buf. cbn [b_data]. rewrite En. cbn [res_bind].
  rewrite law_reset by done. done.
Qed.

(** What goes on the wire: the header, the packet identifier, and the ciphertext with its tag. *)
Lemma aead_seal_spec send' :
  send_next ep now (pid_send (co_packet_id opt)) = (true, send') ->
  let pid := pid_bytes ep (ctx_epoch ctx) (send_id send') in
  exists work' ct tag,
    aead_seal now ep buf work opt
    = Ret (work', set_encrypt (set_pid_send opt send') (add_blocks ctx (Zlen plain)))
    /\ buf_repr work' hw (hdr ++ pid ++ packet_body ep ct tag) (tw - pid_len ep - Zlen plain - 16)
    /\ sealed kb cn (nonce (cipher_kt_iv_size cn) pid (implicit_iv ctx)) (hdr ++ pid) plain ct tag.
Proof using All.
  intros Hs pid. rewrite aead_seal_prefix, Hs. cbv zeta. fold pid. pose proof (Zlen_nonneg plain).
  pose proof (Zlen_pid_bytes ep (ctx_epoch ctx) (send_id send')) as Lp. fold pid in Lp.
  assert (0 <= pid_len ep) by (rewrite <- Lp; apply Zlen_nonneg).
  destruct (buf_write_repr _ _ _ _ Hwork pid) as (w & -> & Hw); [apply pid_bytes_ok|lia|]. cbn [res_bind].
  pose proof (law_block_size kb cn true (ac_mode _ _ _ _ Hctx)) as Hbs. buf_facts Hbuf.
  rewrite u64_id, (buf_safe_repr _ _ _ _ Hw), (proj2 (Z.leb_le _ _)) by (unfold is_u64; lia). cbn [negb].
  rewrite (buf_bytes_repr _ _ _ _ Hw). cbn [res_bind].
  destruct (seal_body ep hw (hdr ++ pid) w _ kb cn (nonce (cipher_kt_iv_size cn) pid (implicit_iv ctx)) plain
              (ac_mode _ _ _ _ Hctx) Fok Hw ltac:(lia)) as (ct & tag & w' & Hsl & Hr & E).
  exists w', ct, tag. specialize (E (set_pid_send opt send') ctx).
  rewrite (buf_bytes_repr _ _ _ _ Hbuf). cbn [res_bind]. rewrite <- app_assoc in Hr.
  split; [|split; [|done]].
  - rewrite <- E. destruct ep; [done|]. cbn [negb].
    destruct (buf_write_alloc w OPENVPN_AEAD_TAG_LENGTH) as [[?|] ?]; done.
  - by rewrite Lp in Hr.
Qed.
End Seal.

(** ** Receiving *)

(** The bytes a received packet hands to the cipher. *)
Definition body_data (ep : bool) (body : bytes) : bytes :=
  if ep then take (length body - 16) body else drop 16 body.
Definition body_tag (ep : bool) (body : bytes) : bytes :=
  if ep then drop (length body - 16) body else take 16 body.

Lemma body_of_packet ep ct tag :
  Zlen tag = 16 -> body_data ep (packet_body ep ct tag) = ct /\ body_tag ep (packet_body ep ct tag) = tag.
Proof.
  intros Ht. unfold Zlen in Ht. unfold body_data, body_tag, packet_body. destruct ep.
  - rewrite length_app. replace (length ct + length tag - 16)%nat with (length ct) by lia.
    by rewrite take_app_length, drop_app_length.
  - by rewrite take_app_length', drop_app_length' by lia.
Qed.

(** [work] with the bytes the cipher puts out. *)
Definition with_out (work : buffer) (out : bytes) : buffer :=
  match append_out work out with Ret w => w | _ => work end.

Section Open.
Context (ep : bool) (now : Z) (buf work : buffer) (opt : crypto_options) (slot : key_slot) (ctx : key_ctx).
Context (kb cn pre ad body post : bytes) (pid : bytes) (pin : packet_id_net) (epoch hw tw : Z).
Context (Hep : flag opt CO_EPOCH_DATA_KEY_FORMAT = ep).
Context (Hctx : aead_ctx false kb cn ctx).
Context (Hbuf : buf_split buf (pre ++ ad) body post) (Hlen : 16 <= Zlen body).
Context (Hpid : (length pid <= 16)%nat).
Context (Hwork : buf_repr work hw [] tw).
Abbreviation cipher := (cipher_ctx_init kb cn false).
Abbreviation iv := (nonce (cipher_kt_iv_size cn) pid (implicit_iv ctx)).

Definition rest (buf : buffer) : buffer :=
  if ep then buf else set_window buf (b_offset buf + 16) (b_len buf - 16).

Lemma rest_data :
  b_data (rest buf) = b_data buf /\ b_len (rest buf) = Zlen (if ep then body else body_data ep body).
Proof using Hbuf Hlen.
  clear Hep Hpid. destruct Hbuf as (Hd & Ho & Hl & _). unfold rest, body_data. destruct ep; [done|]. cbn.
  unfold Zlen in *. rewrite length_drop. split; [done|lia].
Qed.

(** Where the parts of the packet are found. *)
Lemma body_peeks :
  buf_peek (rest buf) (Zlen pre) (b_offset buf - Zlen pre) = Ret ad
  /\ buf_peek (rest buf) (b_offset (rest buf)) (Zlen (body_data ep body)) = Ret (body_data ep body)
  /\ buf_peek (rest buf) (if ep then b_offset buf + (b_len buf - 16) else b_offset buf) 16 = Ret (body_tag ep body).
Proof using Hbuf Hlen.
  clear Hep Hpid. destruct rest_data as [Hdr _]. destruct Hbuf as (Hd & Ho & Hl & _). rewrite Hd in Hdr. rewrite Zlen_app in Ho.
  assert (Hb : body = if ep then body_data ep body ++ body_tag ep body else body_tag ep body ++ body_data ep body).
  { unfold body_data, body_tag. destruct ep; by rewrite take_drop. }
  assert (Lt : Zlen (body_tag ep body) = 16).
  { unfold body_tag, Zlen in *. destruct ep; rewrite ?length_drop, ?length_take; lia. }
  split_and!.
  - replace (b_offset buf - Zlen pre) with (Zlen ad) by lia.
    apply (buf_peek_split _ pre ad (body ++ post)). by rewrite Hdr, <- app_assoc.
  - rewrite Hb in Hdr at 1. unfold rest in *. destruct ep.
    + replace (b_offset buf) with (Zlen (pre ++ ad)) by (rewrite Zlen_app; lia).
      apply (buf_peek_split _ _ _ (body_tag true body ++ post)). rewrite Hdr. by rewrite <- !app_assoc.
    + change (b_offset (set_window buf (b_offset buf + 16) (b_len buf - 16))) with (b_offset buf + 16).
      replace (b_offset buf + 16) with (Zlen ((pre ++ ad) ++ body_tag false body)) by (rewrite !Zlen_app; lia).
      apply (buf_peek_split _ _ _ post).
      etrans; [exact Hdr|]. by rewrite <- !app_assoc.
  - rewrite <- Lt. rewrite Hb in Hdr at 1. destruct ep.
    + assert (Ld : Zlen body = Zlen (body_data true body) + 16) by (rewrite <- Lt, <- Zlen_app, <- Hb; done).
      replace (b_offset buf + (b_len buf - Zlen (body_tag true body)))
        with (Zlen ((pre ++ ad) ++ body_data true body)) by (rewrite !Zlen_app; lia).
      apply (buf_peek_split _ _ _ post). rewrite Hdr. by rewrite <- !app_assoc.
    + replace (b_offset buf) with (Zlen (pre ++ ad)) by (rewrite Zlen_app; lia).
      apply (buf_peek_split _ _ _ (body_data false body ++ post)). rewrite Hdr. by rewrite <- !app_assoc.
Qed.

Lemma aead_open_cases :
  aead_open now buf work opt (Zlen pre) slot ctx cipher (cipher_kt_iv_size cn)
    (pid ++ replicate (16 - length pid) 0) pin epoch
  = if b_len (rest buf) + cipher_ctx_block_size cipher <=? tw then
      match cipher_ctx_update cipher iv ad (body_data ep body) with
      | None => error_exit (rest buf) opt
      | Some out =>
          match cipher_ctx_final_check_tag cipher iv ad (body_data ep body) (body_tag ep body) with
          | None => let! opt := slot_set opt slot (add_failure ctx) in error_exit (rest buf) opt
          | Some _ =>
              let! (ok, opt) := crypto_check_replay now opt pin epoch in
              if negb ok then error_exit (rest buf) opt
              else Ret (true, with_out work out, set_decrypt opt (add_blocks (bi_decrypt (co_keys opt)) 0))
          end
      end
    else error_exit (rest buf) opt.
Proof using All.
  destruct Hctx as [Hc Hm Hi Himp]. unfold aead_open. rewrite Hep.
  assert (Hi' : 0 <= cipher_kt_iv_size cn <= 16) by lia.
  rewrite <- res_bind_assoc, (nonce_spec _ pid (implicit_iv ctx) Hi' Hpid Himp). cbn [res_bind].
  rewrite law_reset by done. cbn [negb].
  pose proof (law_block_size kb cn false Hm) as Hbs.
  destruct Hbuf as (Hd & Ho & Hl & Hcap & Hmax & O1 & O2 & O3). unfold BUF_SIZE_MAX in Hmax.
  rewrite !Zlen_app in *. pose proof (Zlen_nonneg pre). pose proof (Zlen_nonneg ad). pose proof (Zlen_nonneg post).
  unfold OPENVPN_AEAD_TAG_LENGTH. destruct body_peeks as (Pad & Pdata & Ptag). destruct rest_data as [Dr Lr].
  assert (E : (if ep then let data_len := b_len buf - 16 in Ret (b_offset buf + data_len, data_len, buf)
               else let tag_ptr := b_offset buf in
                    let '(ok, buf) := buf_advance buf 16 in
                    assert! ok in Ret (tag_ptr, b_len buf, buf))
              = Ret (if ep then b_offset buf + (b_len buf - 16) else b_offset buf,
                     Zlen (body_data ep body), rest buf)).
  { unfold rest, body_data, buf_advance, buf_valid, buf_defined. rewrite Hd, (proj2 (Z.leb_le 0 (b_len buf))) by lia.
    unfold Zlen in *. destruct ep; cbn [andb negb].
    - rewrite length_take. do 3 f_equal. lia.
    - rewrite (proj2 (Z.ltb_ge 16 0)), (proj2 (Z.ltb_ge (b_len buf) 16)) by lia. cbn [orb].
      rewrite length_drop. cbn [b_len set_window]. do 3 f_equal. lia. }
  cbv zeta in E |- *. rewrite E. cbn [res_bind]. rewrite Pad. cbn [res_bind]. rewrite Pdata. cbn [res_bind].
  assert (Lb : 0 <= b_len (rest buf) <= Zlen body).
  { rewrite Lr. unfold body_data, Zlen in *. destruct ep; rewrite ?length_drop; lia. }
  rewrite u64_id, (buf_safe_repr _ _ _ _ Hwork) by (unfold is_u64; lia).
  destruct (Z.leb_spec (b_len (rest buf) + cipher_ctx_block_size cipher) tw) as [Hr|]; cbn [negb]; [|done].
  destruct (cipher_ctx_update cipher iv ad (body_data ep body)) as [out|] eqn:Eu; [|done].
  destruct (law_open _ _ _ _ _ _ Hm Eu) as [Lo Oo].
  destruct (append_out_repr _ _ _ _ out Hwork) as (w & Ew & Hw); [|done|].
  { rewrite Lo. rewrite Lr in Hr. unfold body_data, Zlen in *. destruct ep; rewrite ?length_take in *; lia. }
  unfold with_out. rewrite Ew. cbn [res_bind]. rewrite Ptag. cbn [res_bind].
  destruct (cipher_ctx_final_check_tag cipher iv ad (body_data ep body) (body_tag ep body)) as [o2|] eqn:Ec; [|done].
  apply (law_check_out _ _ _ _ _ _ _ Hm) in Ec as ->. by rewrite (append_out_nil _ _ _ _ Hw).
Qed.
End Open.

Lemma mem_write_head pid :
  (length pid <= 16)%nat -> mem_write (replicate 16 0) 0 pid = Ret (pid ++ replicate (16 - length pid) 0).
Proof.
  intros Hl. rewrite mem_write_ok by (unfold Zlen; rewrite ?length_replicate; lia).
  cbn [Z.to_nat take app]. by rewrite drop_replicate.
Qed.

(** Consuming the head of the contents. *)
Lemma split_advance buf pre x c post :
  buf_split buf pre (x ++ c) post -> buf_split (set_window buf (b_offset buf + Zlen x) (b_len buf - Zlen x)) (pre ++ x) c post.
Proof.
  intros (Hd & Ho & Hl & Hc & Hm & O1 & O2 & O3). apply bytes_ok_app in O2 as [? ?].
  unfold buf_split, set_window. cbn. rewrite !bytes_ok_app, !Zlen_app in *. rewrite Hd.
  repeat split; try done; try lia. by rewrite <- !app_assoc.
Qed.

Lemma split_read buf pre x c post :
  buf_split buf pre (x ++ c) post ->
  buf_read buf (Zlen x) = Ret (Some x, set_window buf (b_offset buf + Zlen x) (b_len buf - Zlen x))
  /\ buf_peek buf (b_offset buf) (Zlen x) = Ret x.
Proof.
  intros (Hd & Ho & Hl & _). rewrite Zlen_app in Hl. pose proof (Zlen_nonneg x). pose proof (Zlen_nonneg c).
  assert (Hp : buf_peek buf (b_offset buf) (Zlen x) = Ret x).
  { rewrite Ho. apply (buf_peek_split _ pre x (c ++ post)). rewrite Hd. by rewrite <- app_assoc. }
  split; [|done]. unfold buf_read, buf_read_alloc, buf_bptr, buf_valid, buf_defined. rewrite Hd.
  rewrite !(proj2 (Z.ltb_ge _ _)), (proj2 (Z.leb_le _ _)) by lia. cbn [andb orb].
  unfold buf_peek in *. cbn [b_data set_window]. by rewrite Hp.
Qed.

Section Decrypt.
Context (now : Z) (buf work : buffer) (opt : crypto_options) (frame : frame).
Context (pre hdr pid body post : bytes) (hw tw : Z) (w0 : buffer).
Context (Hpid : packet_id_initialized (co_packet_id opt) = true).
Context (Hinit : buf_init_dowork work (headroom frame) = (true, w0)) (Hw0 : buf_repr w0 hw [] tw).
Context (Hbuf : buf_split buf (pre ++ hdr) (pid ++ body) post).
Abbreviation adv := (set_window buf (b_offset buf + Zlen pid) (b_len buf - Zlen pid)).
Context (c0 : cipher_ctx) (Hc0 : ctx_cipher (bi_decrypt (co_keys opt)) = Some c0).

(** The epoch and the counter in the first eight bytes. *)
Definition pid_epoch (pid : bytes) : Z := u16 (Z.shiftr (be_val pid) 48).
Definition pid_id (pid : bytes) : Z := Z.land (be_val pid) PACKET_ID_MASK.

Lemma decrypt_epoch_cases :
  flag opt CO_EPOCH_DATA_KEY_FORMAT = true -> Zlen pid = 8 -> 17 <= Zlen body ->
  openvpn_decrypt_aead now buf work opt frame (Zlen pre)
  = if pid_epoch pid =? 0 then error_exit adv opt
    else match epoch_lookup_decrypt_key opt (pid_epoch pid) with
         | None => error_exit adv opt
         | Some slot =>
             let! ctx := slot_get opt slot in
             if cipher_decrypt_verify_fail_exceeded ctx then error_exit adv opt
             else match ctx_cipher ctx with
                  | None => UB
                  | Some cipher =>
                      aead_open now adv w0 opt (Zlen pre) slot ctx cipher (cipher_ctx_iv_length c0)
                        (pid ++ replicate (16 - length pid) 0) (mk_net (pid_id pid) 0) (pid_epoch pid)
                  end
         end.
Proof using All.
  intros Hf Lp Lb. unfold openvpn_decrypt_aead. rewrite Hf, Hc0, Hinit, Hpid. cbn [negb andb].
  pose proof Hbuf as (Hd & Ho & Hl & _). rewrite !Zlen_app in *.
  pose proof (Zlen_nonneg pre). pose proof (Zlen_nonneg hdr).
  rewrite (proj2 (Z.ltb_lt 0 _)), !(proj2 (Z.leb_le _ _)) by lia. cbn [andb].
  unfold packet_id_size, OPENVPN_AEAD_TAG_LENGTH. rewrite (proj2 (Z.ltb_ge _ _)) by lia.
  destruct (split_read _ _ _ _ _ Hbuf) as [Er Ep]. rewrite Lp in Er, Ep. rewrite Ep. cbn [res_bind].
  rewrite mem_write_head by (unfold Zlen in *; lia). cbn [res_bind].
  unfold packet_id_read_epoch. rewrite Er. cbn [res_bind]. rewrite Lp. done.
Qed.

Lemma decrypt_legacy_cases :
  flag opt CO_EPOCH_DATA_KEY_FORMAT = false -> Zlen pid = 4 -> 17 <= Zlen body ->
  cipher_decrypt_verify_fail_exceeded (bi_decrypt (co_keys opt)) = false ->
  openvpn_decrypt_aead now buf work opt frame (Zlen pre)
  = aead_open now adv w0 opt (Zlen pre) SlotDecrypt (bi_decrypt (co_keys opt)) c0 (cipher_ctx_iv_length c0)
      (pid ++ replicate (16 - length pid) 0) (mk_net (be_val pid) 0) 0.
Proof using All.
  intros Hf Lp Lb Hx. unfold openvpn_decrypt_aead. rewrite Hf, Hc0, Hinit, Hpid, Hx. cbn [negb andb].
  pose proof Hbuf as (Hd & Ho & Hl & _). rewrite !Zlen_app in *.
  pose proof (Zlen_nonneg pre). pose proof (Zlen_nonneg hdr).
  rewrite (proj2 (Z.ltb_lt 0 _)), !(proj2 (Z.leb_le _ _)) by lia. cbn [andb].
  unfold packet_id_size, OPENVPN_AEAD_TAG_LENGTH. rewrite (proj2 (Z.ltb_ge _ _)) by lia.
  destruct (split_read _ _ _ _ _ Hbuf) as [Er Ep]. rewrite Lp in Er, Ep. change (4 + 0) with 4. rewrite Ep. cbn [res_bind].
  rewrite mem_write_head by (unfold Zlen in *; lia). cbn [res_bind].
  unfold packet_id_read. rewrite Er. cbn [res_bind negb]. rewrite Lp. done.
Qed.
End Decrypt.
End Aead.
