(* ===== verification/Channel.v ===== *)
(** * The data channel of a key state (crypto.c, crypto_epoch.c, packet_id.c together)

    Packets are sent and received in any order; the receiver moves through the epochs.  The
    account [acc] lists the packets accepted so far with their epochs. *)

From Stdlib Require Import String.
From S2P Require Import Prelude CircList Buffer PacketId Mtu KeyCtx SampleLib Epoch Crypto Aead.
#[local] Open Scope Z_scope.

(** ** Replay windows *)
Definition hist (p : packet_id_rec) (acc : list packet_id_net) : Prop :=
  linear_hist p acc \/ exists sb, window_hist sb p acc.

Lemma hist_init p acc : hist p acc -> initialized p = true.
Proof. intros [(? & _)|(sb & es & (? & _) & _)]; done. Qed.

Lemma hist_step now p acc pin :
  hist p acc -> event_ok (now, pin) ->
  exists ok p', replay_check now p pin = Ret (ok, p')
    /\ (ok = true -> pin ∉ acc) /\ hist p' (if ok then pin :: acc else acc).
Proof.
  intros [Hh|(sb & Hh)] He.
  - destruct (linear_hist_step now p acc pin Hh He) as (ok & p' & H1 & H2 & H3). unfold hist. eauto 10.
  - destruct (window_hist_step sb now p acc pin Hh He) as (ok & p' & H1 & H2 & H3). unfold hist. eauto 10.
Qed.

(** The configuration of a window does not change. *)
Lemma replay_check_cfg now p pin ok p' :
  replay_check now p pin = Ret (ok, p') ->
  seq_backtrack p' = seq_backtrack p /\ time_backtrack p' = time_backtrack p.
Proof.
  unfold replay_check. intros H. apply res_bind_Ret_inv in H as (p1 & H1 & H).
  assert (E1 : seq_backtrack p1 = seq_backtrack p /\ time_backtrack p1 = time_backtrack p).
  { unfold packet_id_reap_test, packet_id_reap in H1. destruct (_ <=? now); [|by simplify_eq]. res_inv. done. }
  apply res_bind_Ret_inv in H as ([ok2 p2] & H2 & H).
  assert (E2 : seq_backtrack p2 = seq_backtrack p1 /\ time_backtrack p2 = time_backtrack p1).
  { unfold packet_id_test, rec_set_stat in H2. destruct (initialized p1); [|done].
    repeat (case_match; simplify_eq/=; try done); res_inv; done. }
  destruct E1 as [E1 E1'], E2 as [E2 E2']. destruct ok2; [|simplify_eq; split; congruence].
  apply res_bind_Ret_inv in H as (p3 & H3 & H). simplify_eq.
  assert (E3 : seq_backtrack p' = seq_backtrack p2 /\ time_backtrack p' = time_backtrack p2).
  { unfold packet_id_add, packet_id_add_from in H3. destruct (seq_list p2); [|by simplify_eq/=].
    destruct (_ || _); apply res_bind_Ret_inv in H3 as ([? ?] & _ & H3);
      apply res_bind_Ret_inv in H3 as (? & _ & H3); by simplify_eq/=. }
  destruct E3. split; congruence.
Qed.

Lemma backtrack_ok_cfg p p' :
  seq_backtrack p' = seq_backtrack p /\ time_backtrack p' = time_backtrack p -> backtrack_ok p -> backtrack_ok p'.
Proof. unfold backtrack_ok. intros [-> ->]. done. Qed.

(** Moving a window away leaves an empty one. *)
Lemma hist_move dest src acc :
  hist src acc -> backtrack_ok src ->
  exists src', packet_id_move_recv dest src = Ret (src, src') /\ hist src' [] /\ backtrack_ok src'.
Proof.
  intros Hh Hb. destruct (move_recv_spec dest src Hb) as (src' & E & Hb' & _). exists src'.
  split; [done|]. split; [|done]. unfold packet_id_move_recv in E.
  apply res_bind_Ret_inv in E as (s & E & E'). injection E' as <-.
  assert (Hsb : 0 <= seq_backtrack src <= MAX_SEQ_BACKTRACK /\ (seq_backtrack src <> 0 -> 0 <= time_backtrack src <= MAX_TIME_BACKTRACK)).
  { unfold backtrack_ok, MIN_SEQ_BACKTRACK, MIN_TIME_BACKTRACK in Hb. unfold MAX_SEQ_BACKTRACK in *. lia. }
  unfold hist. destruct (decide (seq_backtrack src = 0)) as [E0|E0].
  - left. destruct (packet_id_init_hist 0 0 (rec_name src) (rec_unit src)) as (p & Ei & Hp & _);
      [unfold MAX_SEQ_BACKTRACK; lia|unfold MAX_TIME_BACKTRACK; lia|].
    unfold packet_id_init in Ei. rewrite E0 in E. unfold packet_id_init_recv in *. cbn in *.
    injection Ei as <-. by injection E as <-.
  - right. exists (seq_backtrack src).
    destruct (packet_id_init_hist (seq_backtrack src) (time_backtrack src) (rec_name src) (rec_unit src))
      as (p & Ei & Hp & _); [lia|apply Hsb; done|].
    unfold packet_id_init in Ei. rewrite E in Ei. cbn in Ei. injection Ei as <-.
    by rewrite (proj2 (Z.eqb_neq _ _)) in Hp.
Qed.

Section Channel.
Context {cipher_ctx hmac_ctx : Type} `{CL : CryptoLib cipher_ctx hmac_ctx}.
Context `{DL : !DeriveLaws cipher_ctx hmac_ctx} `{AL : !AeadLaws cipher_ctx hmac_ctx}.
#[local] Abbreviation key_ctx := (KeyCtx.key_ctx cipher_ctx hmac_ctx).
#[local] Abbreviation crypto_options := (KeyCtx.crypto_options cipher_ctx hmac_ctx).
Context (kt : key_type) (e1_send e1_recv : epoch_key) (n : Z).
Context (Hkt : kt_ok kt) (Hes : key_ok e1_send) (Her : key_ok e1_recv).
#[local] Abbreviation schedule := (schedule kt e1_send e1_recv n).
#[local] Abbreviation recv_key := (recv_key kt e1_recv).
#[local] Abbreviation send_key := (send_key kt e1_send).

(** The packets of epoch [e] in the account. *)
Definition seen_at (e : Z) (acc : list (Z * packet_id_net)) : list packet_id_net :=
  snd <$> filter (fun x => x.1 = e) acc.

Lemma seen_at_elem e acc pin : pin ∈ seen_at e acc <-> (e, pin) ∈ acc.
Proof.
  unfold seen_at. rewrite list_elem_of_fmap. split.
  - intros ([e' p] & -> & [H1 H2]%list_elem_of_filter). cbn in *. by subst.
  - intros H. exists (e, pin). split; [done|]. by apply list_elem_of_filter.
Qed.
Lemma seen_at_cons e pin acc : seen_at e ((e, pin) :: acc) = pin :: seen_at e acc.
Proof. unfold seen_at. by rewrite filter_cons_True. Qed.
Lemma seen_at_cons_ne e e' pin acc : e' <> e -> seen_at e ((e', pin) :: acc) = seen_at e acc.
Proof. intros H. unfold seen_at. by rewrite filter_cons_False. Qed.
Lemma seen_at_above e acc : (forall x, x ∈ acc -> x.1 < e) -> seen_at e acc = [].
Proof.
  intros H. destruct (seen_at e acc) as [|p l] eqn:E; [done|].
  assert (Hp : p ∈ seen_at e acc) by (rewrite E; apply list_elem_of_here).
  apply seen_at_elem in Hp. specialize (H _ Hp). cbn in H. lia.
Qed.

(** The state between packets: the key schedule holds, the counter is in range, and the
    window of the current and of the retiring epoch account for what was accepted. *)
Record channel (d s : Z) (co : crypto_options) (acc : list (Z * packet_id_net)) : Prop := {
  ch_sched : schedule d s co;
  ch_flag : flag co CO_EPOCH_DATA_KEY_FORMAT = true;
  ch_send : 0 <= send_id (pid_send (co_packet_id co)) <= PACKET_ID_EPOCH_MAX;
  ch_cur : hist (pid_rec (co_packet_id co)) (seen_at d acc);
  ch_ret : ctx_epoch (co_retiring co) <> 0 ->
           hist (co_retiring_pid_recv co) (seen_at (ctx_epoch (co_retiring co)) acc);
  ch_old : forall x, x ∈ acc -> x.1 <= d
}.

(** The position of the sender: unchanged, or a later epoch from the start. *)
Definition send_moves (s s' : Z) (co co' : crypto_options) : Prop :=
  (s' = s /\ pid_send (co_packet_id co') = pid_send (co_packet_id co))
  \/ (s < s' /\ pid_send (co_packet_id co') = send_zero).

Lemma retiring_epoch d s co :
  schedule d s co -> ctx_epoch (co_retiring co) = 0 \/ 1 <= ctx_epoch (co_retiring co) < d.
Proof.
  intros S. pose proof (sch_range _ _ _ _ _ _ _ S).
  destruct (sch_retiring _ _ _ _ _ _ _ S) as [?|(r & ? & Hk)]; [lia|].
  rewrite (key_of_epoch _ _ Hk), recv_key_epoch by (done || lia). lia.
Qed.

(** ** The replay check *)
Lemma replay_in_current now d s co acc pin :
  channel d s co acc -> event_ok (now, pin) ->
  exists ok r', replay_check now (pid_rec (co_packet_id co)) pin = Ret (ok, r')
    /\ (ok = true -> (d, pin) ∉ acc)
    /\ channel d s (set_pid_rec co r') (if ok then (d, pin) :: acc else acc).
Proof.
  intros [S Hf Hs Hc Hr Ho] He. destruct (hist_step now _ _ pin Hc He) as (ok & r' & E & Hnew & Hh).
  exists ok, r'. split; [done|]. split; [intros Hok Hin; apply (Hnew Hok); by apply seen_at_elem|].
  pose proof (retiring_epoch _ _ _ S). split; cbn; try done.
  - destruct S. split; cbn; try done. by apply (backtrack_ok_cfg _ _ (replay_check_cfg _ _ _ _ _ E)).
  - destruct ok; [by rewrite seen_at_cons|done].
  - intros Hne. destruct ok; [rewrite seen_at_cons_ne by lia|]; auto.
  - destruct ok; [|done]. intros x [->|Hx]%elem_of_cons; [cbn; lia|auto].
Qed.

Lemma replay_in_retiring now d s co acc pin :
  channel d s co acc -> event_ok (now, pin) -> ctx_epoch (co_retiring co) <> 0 ->
  exists ok r', replay_check now (co_retiring_pid_recv co) pin = Ret (ok, r')
    /\ (ok = true -> (ctx_epoch (co_retiring co), pin) ∉ acc)
    /\ channel d s (set_retiring_pid co r') (if ok then (ctx_epoch (co_retiring co), pin) :: acc else acc).
Proof.
  intros [S Hf Hs Hc Hr Ho] He Hne. destruct (hist_step now _ _ pin (Hr Hne) He) as (ok & r' & E & Hnew & Hh).
  exists ok, r'. split; [done|]. split; [intros Hok Hin; apply (Hnew Hok); by apply seen_at_elem|].
  pose proof (retiring_epoch _ _ _ S). split; cbn; try done.
  - by destruct S.
  - destruct ok; [rewrite seen_at_cons_ne by lia|]; done.
  - intros _. destruct ok; [by rewrite seen_at_cons|done].
  - destruct ok; [|done]. intros x [->|Hx]%elem_of_cons; [cbn; lia|auto].
Qed.

Lemma replace_channel d s co acc e :
  channel d s co acc -> d < e < d + n -> e + n < UINT16_MAX ->
  exists co', epoch_replace_update_recv_key co e = Ret co' /\ channel e (Z.max s e) co' acc
    /\ send_moves s (Z.max s e) co co' /\ co_flags co' = co_flags co.
Proof.
  intros [S Hf Hs Hc Hr Ho] He Hb. pose proof (sch_range _ _ _ _ _ _ _ S).
  destruct (replace_spec kt e1_send e1_recv Hkt Hes Her _ _ _ _ _ S He Hb) as (co' & E & S' & Hp & Hm & Hk & Hfl).
  destruct (hist_move (co_retiring_pid_recv co) _ _ Hc (sch_backtrack _ _ _ _ _ _ _ S)) as (src' & Hm' & Hh' & _).
  rewrite Hm' in Hm. injection Hm as H1 H2.
  assert (Hke : ctx_epoch (co_retiring co') = d)
    by (rewrite (key_of_epoch _ _ Hk); apply recv_key_epoch; done || lia).
  exists co'. split; [done|]. split; [|split; [|done]].
  - split; try done.
    + unfold flag in *. by rewrite Hfl.
    + rewrite Hp. cbn [pid_send]. destruct (s <? e); [unfold PACKET_ID_EPOCH_MAX; cbn; lia|done].
    + rewrite <- H2, seen_at_above; [done|]. intros x Hx%Ho. lia.
    + intros _. rewrite Hke. by rewrite <- H1.
    + intros x Hx%Ho. lia.
  - unfold send_moves. rewrite Hp. cbn [pid_send]. destruct (Z.ltb_spec s e); [right|left]; (split; [lia|done]).
Qed.

Lemma check_replay_spec now d s co acc pin e :
  channel d s co acc -> event_ok (now, pin) -> e <> 0 ->
  (e = d \/ e = ctx_epoch (co_retiring co) \/ (d < e < d + n /\ e + n < UINT16_MAX)) ->
  exists ok co' d' s', crypto_check_replay now co pin e = Ret (ok, co')
    /\ (ok = true -> (e, pin) ∉ acc)
    /\ channel d' s' co' (if ok then (e, pin) :: acc else acc)
    /\ send_moves s s' co co'.
Proof.
  intros C He H0 Hcase. pose proof (ch_sched _ _ _ _ C) as S. unfold crypto_check_replay.
  pose proof (sch_range _ _ _ _ _ _ _ S) as Hr. pose proof (retiring_epoch _ _ _ S) as Hre.
  rewrite (key_of_epoch _ _ (sch_decrypt _ _ _ _ _ _ _ S)), recv_key_epoch by (done || lia).
  rewrite (proj2 (Z.eqb_neq e 0)) by done. cbn [orb].
  (* the state behind the check, with and without a persistent state file *)
  assert (Hfin : forall d' s' (co1 : crypto_options) ok acc',
    channel d' s' co1 acc' -> send_moves s s' co co1 -> (ok = true -> (e, pin) ∉ acc) ->
    acc' = (if ok then (e, pin) :: acc else acc) ->
    exists ok' co' d' s',
      (if ok : bool then
         match co_pid_persist co1 with
         | Some p => if flag co1 CO_PACKET_ID_LONG_FORM
                     then Ret (true, set_pid_persist co1 (Some (packet_id_persist_save_obj p (co_packet_id co1))))
                     else Ret (true, co1)
         | None => Ret (true, co1)
         end
       else Ret (false, co1)) = Ret (ok', co')
      /\ (ok' = true -> (e, pin) ∉ acc) /\ channel d' s' co' (if ok' then (e, pin) :: acc else acc)
      /\ send_moves s s' co co').
  { intros d' s' co1 ok acc' C1 M1 Hn ->. destruct ok; [|by eauto 10].
    destruct (co_pid_persist co1); [destruct (flag co1 CO_PACKET_ID_LONG_FORM)|]; [|by eauto 10..].
    eexists true, _, d', s'. split; [done|]. split; [done|]. split; [|done].
    destruct C1 as [S1 ? ? ? ? ?]. split; try done. by destruct S1. }
  destruct (Z.eqb_spec d e) as [<-|Hne].
  { cbn [res_bind]. destruct (replay_in_current now _ _ _ _ pin C He) as (ok & r' & -> & Hn & C'). cbn [res_bind].
    eapply Hfin; try done. by left. }
  destruct (Z.eqb_spec e (ctx_epoch (co_retiring co))) as [->|Hnr].
  { cbn [res_bind]. destruct (replay_in_retiring now _ _ _ _ pin C He H0) as (ok & r' & -> & Hn & C'). cbn [res_bind].
    eapply Hfin; try done. by left. }
  destruct (replace_channel _ _ _ _ e C) as (co1 & -> & C1 & M1 & _); [lia..|]. cbn [res_bind].
  destruct (replay_in_current now _ _ _ _ pin C1 He) as (ok & r' & -> & Hn & C'). cbn [res_bind].
  eapply Hfin; done.
Qed.

(** ** Receiving any packet *)
Definition data_key (e1 : epoch_key) (k : Z) : bytes :=
  expand (ek_key (chain e1 k)) (str "data_key") [] (cipher_kt_key_size (kt_cipher kt)).

Lemma data_ctx_aead enc e1 k c :
  key_of c = key_of (data_ctx kt enc (chain e1 k)) -> aead_ctx enc (data_key e1 k) (kt_cipher kt) c.
Proof using Hkt DL.
  intros H. pose proof (f_equal (fun k => k.1.1.1) H) as Hc. pose proof (f_equal (fun k => k.1.2) H) as Hi.
  destruct Hkt as (_ & _ & Hm & _ & Hiv). unfold OPENVPN_AEAD_MIN_IV_LEN, OPENVPN_MAX_IV_LENGTH in Hiv.
  split; [exact Hc|done|lia|]. change (implicit_iv c = implicit_iv (data_ctx kt enc (chain e1 k))) in Hi.
  rewrite Hi. cbn [implicit_iv data_ctx]. rewrite length_app, length_replicate.
  assert (Hl : Zlen (expand (ek_key (chain e1 k)) (str "data_iv") [] (cipher_kt_iv_size (kt_cipher kt)))
               = cipher_kt_iv_size (kt_cipher kt)) by (apply Zlen_expand; lia).
  unfold Zlen in Hl. lia.
Qed.

(** No field but the failure counter of one receive key differs. *)
Definition harmless (co co' : crypto_options) : Prop :=
  co' = co \/ exists sl c, slot_get co sl = Ret c /\ slot_set co sl (add_failure c) = Ret co'.

Lemma slot_channel d s co acc sl c c' :
  channel d s co acc -> slot_get co sl = Ret c -> key_of c' = key_of c ->
  exists co', slot_set co sl c' = Ret co' /\ channel d s co' acc /\ co_packet_id co' = co_packet_id co.
Proof.
  intros [S Hf Hs Hc Hr Ho] Hg Hk.
  destruct (slot_set_schedule _ _ _ _ _ _ _ _ _ _ S Hg Hk) as (co' & E & S' & Hp & Hfl & Hrp & Hre).
  exists co'. split; [done|]. split; [|done]. split; try done.
  - unfold flag in *. by rewrite Hfl.
  - by rewrite Hp.
  - by rewrite Hp.
  - by rewrite Hre, Hrp.
Qed.

Lemma harmless_channel d s co co' acc :
  channel d s co acc -> harmless co co' -> channel d s co' acc /\ co_packet_id co' = co_packet_id co.
Proof.
  intros C [->|(sl & c & Hg & Hs)]; [done|].
  destruct (slot_channel _ _ _ _ _ _ (add_failure c) C Hg) as (co1 & E & C' & Hp); [done|].
  rewrite Hs in E. injection E as <-. done.
Qed.

Section Receive.
Context (now : Z) (buf work : buffer) (frame : frame) (pre hdr c post : bytes) (hw tw : Z) (w0 : buffer).
Context (Hbuf : buf_split buf (pre ++ hdr) c post) (Hlen : c <> []).
Context (Hinit : buf_init_dowork work (headroom frame) = (true, w0)) (Hw0 : buf_repr w0 hw [] tw).
Context (d s : Z) (co : crypto_options) (acc : list (Z * packet_id_net)) (C : channel d s co acc).
Abbreviation pid := (take 8 c).
Abbreviation body := (drop 8 c).
Abbreviation recv := (openvpn_decrypt now buf work co frame (Zlen pre)).

(** The tag of the packet is right for the key of its epoch. *)
Definition authentic (sl : key_slot) (ctx : key_ctx) (plain : bytes) : Prop :=
  let cipher := cipher_ctx_init (data_key e1_recv (pid_epoch pid)) (kt_cipher kt) false in
  let iv := nonce (cipher_kt_iv_size (kt_cipher kt)) pid (implicit_iv ctx) in
  25 <= Zlen c /\ pid_epoch pid <> 0
  /\ epoch_lookup_decrypt_key co (pid_epoch pid) = Some sl /\ slot_get co sl = Ret ctx
  /\ key_of ctx = key_of (recv_key (pid_epoch pid))
  /\ cipher_ctx_update cipher iv (hdr ++ pid) (body_data true body) = Some plain
  /\ cipher_ctx_final_check_tag cipher iv (hdr ++ pid) (body_data true body) (body_tag true body) <> None.

Lemma drop_buf_len b : b_len (drop_buf b) = 0.
Proof. done. Qed.

Lemma decrypt_dispatch : recv = openvpn_decrypt_aead now buf work co frame (Zlen pre).
Proof using All.
  pose proof (sch_decrypt _ _ _ _ _ _ _ (ch_sched _ _ _ _ C)) as Hk. apply data_ctx_aead in Hk as [Hc Hm _ _].
  unfold openvpn_decrypt. destruct Hbuf as (_ & _ & Hl & _).
  assert (0 < Zlen c) by (destruct c; [done|rewrite Zlen_cons; pose proof (Zlen_nonneg l); lia]).
  rewrite (proj2 (Z.ltb_lt _ _)), Hc, law_mode_aead, Hm by lia. done.
Qed.

Lemma decrypt_outcome :
  (exists b co', recv = Ret (false, b, co') /\ b_len b = 0 /\ harmless co co')
  \/ (exists sl ctx plain b w, authentic sl ctx plain
      /\ buf_repr w hw plain (tw - Zlen plain)
      /\ recv = (let! (ok, opt) := crypto_check_replay now co (mk_net (pid_id pid) 0) (pid_epoch pid) in
                 if negb ok then error_exit b opt
                 else Ret (true, w, set_decrypt opt (add_blocks (bi_decrypt (co_keys opt)) 0)))).
Proof using All.
  assert (Herr : forall b, (exists b' co', @error_exit cipher_ctx hmac_ctx b co = Ret (false, b', co') /\ b_len b' = 0 /\ harmless co co'))
    by (intros b; exists (drop_buf b), co; split_and!; [done|done|by left]).
  pose proof (ch_sched _ _ _ _ C) as S.
  pose proof (data_ctx_aead _ _ _ _ (sch_decrypt _ _ _ _ _ _ _ S)) as [Hc Hm Hi _].
  pose proof (hist_init _ _ (ch_cur _ _ _ _ C)) as Hin.
  rewrite decrypt_dispatch. destruct (Z.lt_ge_cases (Zlen c) 25) as [Hshort|Hlong].
  - left. unfold openvpn_decrypt_aead. rewrite (ch_flag _ _ _ _ C), Hc, Hinit. cbn [negb andb].
    unfold packet_id_initialized. rewrite Hin. destruct Hbuf as (_ & Ho & Hl & _). rewrite Zlen_app in Ho.
    assert (0 < Zlen c) by (destruct c; [done|rewrite Zlen_cons; pose proof (Zlen_nonneg l); lia]).
    pose proof (Zlen_nonneg pre). pose proof (Zlen_nonneg hdr).
    rewrite (proj2 (Z.ltb_lt 0 _)), !(proj2 (Z.leb_le _ _)) by lia. cbn [andb].
    unfold packet_id_size, OPENVPN_AEAD_TAG_LENGTH. rewrite (proj2 (Z.ltb_lt _ _)) by lia. apply Herr.
  - assert (Lp : Zlen pid = 8) by (unfold Zlen in *; rewrite length_take; lia).
    assert (Lb : 17 <= Zlen body) by (unfold Zlen in *; rewrite length_drop; lia).
    assert (Hsp : buf_split buf (pre ++ hdr) (pid ++ body) post) by (by rewrite take_drop).
    rewrite (decrypt_epoch_cases now buf work co frame pre hdr pid body post hw tw w0 Hin Hinit Hw0 Hsp _ Hc)
      by (done || apply (ch_flag _ _ _ _ C)).
    destruct (Z.eqb_spec (pid_epoch pid) 0) as [|He0]; [left; apply Herr|].
    destruct (epoch_lookup_spec kt e1_send e1_recv Her n d s co (pid_epoch pid) S) as [Hl _].
    destruct (epoch_lookup_decrypt_key co (pid_epoch pid)) as [sl|] eqn:El; [|left; apply Herr].
    destruct Hl as (ctx & Hg & Hk & Her'). rewrite Hg. cbn [res_bind].
    destruct (cipher_decrypt_verify_fail_exceeded ctx); [left; apply Herr|].
    pose proof (data_ctx_aead _ _ _ _ Hk) as A. rewrite (ac_cipher _ _ _ _ A), law_iv_length.
    apply split_advance in Hsp. rewrite <- app_assoc in Hsp.
    rewrite (aead_open_cases true now _ w0 co sl ctx _ _ pre (hdr ++ pid) body post pid _ _ hw tw
               (ch_flag _ _ _ _ C) A Hsp) by (done || unfold Zlen in *; lia).
    destruct (_ <=? tw) eqn:Hroom; [|left; apply Herr].
    destruct (cipher_ctx_update _ _ (hdr ++ pid) (body_data true body)) as [out|] eqn:Eu; [|left; apply Herr].
    destruct (cipher_ctx_final_check_tag _ _ (hdr ++ pid) _ (body_tag true body)) eqn:Ec.
    + right. destruct (law_open _ _ _ _ _ _ Hm Eu) as [Lo Oo].
      destruct (append_out_repr _ _ _ _ out Hw0) as (w & Ew & Hw); [|done|].
      { apply Z.leb_le in Hroom. pose proof (law_block_size (data_key e1_recv (pid_epoch pid)) (kt_cipher kt) false Hm).
        cbn [rest b_len set_window] in Hroom. destruct Hbuf as (_ & _ & Hl & _). rewrite Hl in Hroom.
        rewrite Lo. unfold body_data, Zlen in *. rewrite length_take, length_drop. rewrite length_take in Hroom. lia. }
      unfold with_out. rewrite Ew. eexists sl, ctx, out, _, w. split; [|split; [exact Hw|reflexivity]].
      unfold authentic. rewrite Eu, Ec. done.
    + left. destruct (slot_set_schedule kt e1_send e1_recv n d s co sl ctx (add_failure ctx) S Hg)
        as (co' & Es & _); [done|].
      rewrite Es. cbn [res_bind]. eexists _, co'. split; [done|]. split; [done|]. right. eauto.
Qed.

Lemma pid_event_ok : SEQ_EXPIRED < now -> event_ok (now, mk_net (pid_id pid) 0).
Proof.
  intros Hn. split; [done|]. cbn. unfold pid_id. change PACKET_ID_MASK with (Z.ones 48).
  rewrite Z.land_ones by lia. unfold id_bound. pose proof (Z.mod_pos_bound (be_val pid) (2 ^ 48)). lia.
Qed.

(** One packet, authentic or not. *)
Lemma decrypt_step :
  SEQ_EXPIRED < now ->
  (exists ok b co' d' s', recv = Ret (ok, b, co')
     /\ (ok = true -> (pid_epoch pid, mk_net (pid_id pid) 0) ∉ acc)
     /\ channel d' s' co' (if ok then (pid_epoch pid, mk_net (pid_id pid) 0) :: acc else acc)
     /\ send_moves s s' co co')
  \/ (recv = Fatal /\ pid_epoch pid = d + n /\ exists sl ctx plain, authentic sl ctx plain).
Proof using All.
  intros Hn. destruct decrypt_outcome as [(b & co' & E & _ & Hh) | (sl & ctx & plain & b & w & A & _ & E)].
  - left. destruct (harmless_channel _ _ _ _ _ C Hh) as [C' Hp].
    exists false, b, co', d, s. split; [done|]. split; [done|]. split; [done|]. left. by rewrite Hp.
  - pose proof A as (_ & He0 & El & _). pose proof (ch_sched _ _ _ _ C) as S.
    pose proof (sch_range _ _ _ _ _ _ _ S) as Hr. pose proof (retiring_epoch _ _ _ S) as Hre.
    destruct (epoch_lookup_spec kt e1_send e1_recv Her n d s co (pid_epoch pid) S) as [_ [Hl _]].
    specialize (Hl ltac:(eauto)).
    destruct (decide (pid_epoch pid = d + n)) as [Elast|Hnl].
    + right. split; [|by eauto]. rewrite E. unfold crypto_check_replay.
      rewrite (key_of_epoch _ _ (sch_decrypt _ _ _ _ _ _ _ S)), recv_key_epoch by (done || lia).
      pose proof (sch_count _ _ _ _ _ _ _ S). rewrite Elast.
      rewrite !(proj2 (Z.eqb_neq _ _)) by lia. cbn [orb].
      rewrite (last_epoch_spec kt e1_send e1_recv Hkt Hes Her n d s co S). done.
    + left. destruct (check_replay_spec now _ _ _ _ (mk_net (pid_id pid) 0) (pid_epoch pid) C (pid_event_ok Hn) He0)
        as (ok & co' & d' & s' & Ec & Hnew & C' & M); [lia|].
      rewrite E, Ec. cbn [res_bind]. destruct ok; cbn [negb].
      * destruct (slot_channel _ _ _ _ SlotDecrypt _ (add_blocks (bi_decrypt (co_keys co')) 0) C' eq_refl)
          as (co2 & E2 & C2 & Hp2); [done|].
        injection E2 as <-. eexists true, w, _, d', s'. split_and!; [done|done|done|].
        unfold send_moves in *. by rewrite Hp2.
      * eexists false, _, co', d', s'. done.
Qed.
End Receive.

(** ** Sending *)
Section Send.
Context (now : Z) (prng : bytes) (buf work : buffer) (hb : Z) (plain : bytes) (tb hw : Z) (hdr : bytes) (tw : Z).
Context (Hbuf : buf_repr buf hb plain tb) (Hplain : plain <> []) (Hwork : buf_repr work hw hdr tw).
Context (Hroom : 8 + Zlen plain + 32 <= tw).

(** A packet left under epoch [s] with the counter [id]. *)
Definition packet_sent (p : buffer) (s id : Z) : Prop :=
  exists ct tag t,
    buf_repr p hw (hdr ++ pid_bytes true s id ++ packet_body true ct tag) t
    /\ sealed (data_key e1_send s) (kt_cipher kt)
         (nonce (cipher_kt_iv_size (kt_cipher kt)) (pid_bytes true s id) (implicit_iv (send_key s)))
         (hdr ++ pid_bytes true s id) plain ct tag.

Lemma seal_step d s co acc :
  channel d s co acc ->
  exists p co', aead_seal now true buf work co = Ret (p, co') /\ channel d s co' acc
    /\ ((send_id (pid_send (co_packet_id co)) = PACKET_ID_EPOCH_MAX /\ b_len p = 0
         /\ send_id (pid_send (co_packet_id co')) = PACKET_ID_EPOCH_MAX)
        \/ (send_id (pid_send (co_packet_id co')) = send_id (pid_send (co_packet_id co)) + 1
            /\ packet_sent p s (send_id (pid_send (co_packet_id co'))))).
Proof using All.
  intros C. pose proof (ch_sched _ _ _ _ C) as S. pose proof (sch_encrypt _ _ _ _ _ _ _ S) as Hk.
  pose proof (data_ctx_aead _ _ _ _ Hk) as A. pose proof (hist_init _ _ (ch_cur _ _ _ _ C)) as Hin.
  pose proof (ch_send _ _ _ _ C) as Hid. pose proof (sch_range _ _ _ _ _ _ _ S) as Hr.
  assert (Hchan : forall o : packet_id_send, 0 <= send_id o <= PACKET_ID_EPOCH_MAX -> forall c,
    key_of c = key_of (bi_encrypt (co_keys co)) -> channel d s (set_encrypt (set_pid_send co o) c) acc).
  { intros o Ho c Hc. destruct C as [[] ? ? ? ? ?]. split; try done. split; try done. cbn. congruence. }
  destruct (Z.eq_dec (send_id (pid_send (co_packet_id co))) PACKET_ID_EPOCH_MAX) as [Emax|Hmax].
  - set (t := if send_time (pid_send (co_packet_id co)) =? 0 then now else send_time (pid_send (co_packet_id co))).
    assert (En : send_next true now (pid_send (co_packet_id co)) = (false, mk_send PACKET_ID_EPOCH_MAX t)).
    { unfold send_next, packet_id_send_update_epoch. by rewrite Emax. }
    rewrite (aead_seal_prefix true now buf work co _ _ A Hin), En.
    eexists _, _. split; [done|]. split; [|left; done].
    specialize (Hchan (mk_send PACKET_ID_EPOCH_MAX t) ltac:(unfold PACKET_ID_EPOCH_MAX; cbn; lia) _ eq_refl).
    by destruct co as [[? ? ?]].
  - set (t := if send_time (pid_send (co_packet_id co)) =? 0 then now else send_time (pid_send (co_packet_id co))).
    assert (En : send_next true now (pid_send (co_packet_id co))
                 = (true, mk_send (send_id (pid_send (co_packet_id co)) + 1) t)).
    { unfold send_next, packet_id_send_update_epoch. rewrite (proj2 (Z.eqb_neq _ _)) by done.
      rewrite u64_id by (unfold is_u64, PACKET_ID_EPOCH_MAX in *; lia). done. }
    destruct (aead_seal_spec true now buf work co _ _ hb plain tb hw hdr tw A Hin Hbuf Hwork Hroom _ En)
      as (w & ct & tag & E & Hw & Hsl).
    eexists w, _. split; [exact E|]. split; [apply Hchan; [cbn; lia|done]|]. right. split; [done|].
    rewrite (key_of_epoch _ _ Hk), send_key_epoch in Hw, Hsl by (done || lia).
    exists ct, tag. eexists. split; [exact Hw|].
    pose proof (f_equal (fun k => k.1.2) Hk) as Hi.
    change (implicit_iv (bi_encrypt (co_keys co)) = implicit_iv (send_key s)) in Hi. by rewrite Hi in Hsl.
Qed.

Lemma iterate_channel d s co acc :
  channel d s co acc ->
  exists co' s', epoch_check_send_iterate co = Ret co' /\ channel d s' co' acc
    /\ ((s' = s /\ pid_send (co_packet_id co') = pid_send (co_packet_id co)
         /\ (send_id (pid_send (co_packet_id co)) = PACKET_ID_EPOCH_MAX -> s = UINT16_MAX))
        \/ (s' = s + 1 /\ pid_send (co_packet_id co') = send_zero)).
Proof using Hkt Hes Her DL.
  intros C. destruct (check_send_iterate_spec kt e1_send e1_recv Hkt Hes n d s co (ch_sched _ _ _ _ C))
    as (co' & E & [[-> Hm] | [S' ->]]).
  - exists co, s. eauto 10.
  - eexists _, (s + 1). split; [exact E|]. split; [|right; done].
    destruct C as [? ? ? ? ? ?]. split; try done.
Qed.

(** A non-empty packet leaves under the next position of the sender, or it is dropped because
    all positions are used up. *)
Lemma encrypt_step d s co acc :
  channel d s co acc ->
  exists p co' s', openvpn_encrypt now prng buf work co = Ret (p, co') /\ channel d s' co' acc
    /\ ((b_len p = 0 /\ s' = s /\ s = UINT16_MAX
         /\ send_id (pid_send (co_packet_id co)) = PACKET_ID_EPOCH_MAX
         /\ send_id (pid_send (co_packet_id co')) = PACKET_ID_EPOCH_MAX)
        \/ (packet_sent p s' (send_id (pid_send (co_packet_id co')))
            /\ ((s' = s /\ send_id (pid_send (co_packet_id co')) = send_id (pid_send (co_packet_id co)) + 1)
                \/ (s' = s + 1 /\ send_id (pid_send (co_packet_id co')) = 1)))).
Proof using All.
  intros C. pose proof (data_ctx_aead _ _ _ _ (sch_encrypt _ _ _ _ _ _ _ (ch_sched _ _ _ _ C))) as [Hc Hm _ _].
  unfold openvpn_encrypt. buf_facts Hbuf.
  assert (0 < Zlen plain) by (destruct plain; [done|rewrite Zlen_cons; pose proof (Zlen_nonneg l); lia]).
  rewrite (proj2 (Z.ltb_lt _ _)), Hc, law_mode_aead, Hm by lia.
  unfold openvpn_encrypt_aead. rewrite (ch_flag _ _ _ _ C).
  destruct (iterate_channel _ _ _ _ C) as (co1 & s1 & -> & C1 & Hcase). cbn [res_bind].
  destruct (seal_step _ _ _ _ C1) as (p & co' & E & C' & Hp). exists p, co', s1. split; [done|]. split; [done|].
  destruct Hcase as [(-> & Hs & Hmx) | (-> & Hs)]; rewrite Hs in Hp.
  - destruct Hp as [(H1 & H2 & H3) | (H1 & H2)]; [left; auto 10|right; auto].
  - destruct Hp as [(H1 & _) | (H1 & H2)]; [done|]. right. split; [done|]. right. done.
Qed.
End Send.

(** ** Any sequence of packets in both directions *)
Inductive event : Type :=
| Send (now : Z) (prng : bytes) (buf work : buffer)
| Recv (now : Z) (buf work : buffer) (frame : frame) (ad_start : Z).

(** A packet that left: the header in front of it, the payload, and what goes on the wire. *)
Record packet : Type := mk_packet { pk_header : bytes; pk_plain : bytes; pk_wire : bytes }.
Definition identity (buf : buffer) : Z * packet_id_net :=
  (pid_epoch (take 8 (contents buf)), mk_net (pid_id (take 8 (contents buf))) 0).

(** The packet that leaves, the identity accepted, the new state. *)
Definition step (co : crypto_options) (e : event)
  : res (list packet * list (Z * packet_id_net) * crypto_options) :=
  match e with
  | Send now prng buf work =>
      let! (p, co) := openvpn_encrypt now prng buf work co in
      Ret (if (0 <? b_len buf) && (0 <? b_len p) then [mk_packet (contents work) (contents buf) (contents p)] else [], [], co)
  | Recv now buf work frame ad_start =>
      let! (ok, _, co) := openvpn_decrypt now buf work co frame ad_start in
      Ret ([], if (0 <? b_len buf) && ok then [identity buf] else [], co)
  end.

Fixpoint run (co : crypto_options) (evs : list event)
  : res (list packet * list (Z * packet_id_net) * crypto_options) :=
  match evs with
  | [] => Ret ([], [], co)
  | e :: evs =>
      let! (sent, got, co) := step co e in
      let! (sents, gots, co) := run co evs in
      Ret (sent ++ sents, got ++ gots, co)
  end.

(** Buffers as the callers provide them. *)
Definition event_wf (e : event) : Prop :=
  match e with
  | Send now prng buf work => exists hb plain tb hw hdr tw,
      buf_repr buf hb plain tb /\ buf_repr work hw hdr tw /\ 8 + Zlen plain + 32 <= tw
  | Recv now buf work frame ad_start => SEQ_EXPIRED < now /\ exists pre hdr c post hw tw w0,
      buf_split buf (pre ++ hdr) c post /\ ad_start = Zlen pre
      /\ buf_init_dowork work (headroom frame) = (true, w0) /\ buf_repr w0 hw [] tw
  end.

(** The vector of position [p], an epoch and a counter. *)
Definition vector (p : Z * Z) : bytes :=
  nonce (cipher_kt_iv_size (kt_cipher kt)) (pid_bytes true p.1 p.2) (implicit_iv (send_key p.1)).
(** The packet [k] left at position [p]: behind its header is the position, and then what the cipher
    gives for the payload with the data key of the epoch and the vector of the position. *)
Definition left_at (p : Z * Z) (k : packet) : Prop :=
  exists ct tag,
    pk_wire k = pk_header k ++ pid_bytes true p.1 p.2 ++ packet_body true ct tag
    /\ encrypts (data_key e1_send p.1) (kt_cipher kt) (vector p) (pk_header k ++ pid_bytes true p.1 p.2)
         (pk_plain k) ct tag.
Definition pos_ok (p : Z * Z) : Prop := 1 <= p.1 <= UINT16_MAX /\ 0 <= p.2 <= PACKET_ID_EPOCH_MAX.

Definition pos_le (p q : Z * Z) : Prop := p = q \/ lex_lt p q.
Lemma lex_lt_trans p q r : lex_lt p q -> lex_lt q r -> lex_lt p r.
Proof. unfold lex_lt. lia. Qed.
Lemma pos_le_lt p q r : pos_le p q -> lex_lt q r -> lex_lt p r.
Proof. intros [->|H]; [done|]. by apply lex_lt_trans. Qed.
Lemma pos_le_trans p q r : pos_le p q -> pos_le q r -> pos_le p r.
Proof. intros [->|H]; [done|]. intros [<-|H']; right; [done|by eapply lex_lt_trans]. Qed.

Definition pos (s : Z) (co : crypto_options) : Z * Z := (s, send_id (pid_send (co_packet_id co))).

Lemma send_moves_le s s' co co' acc d' :
  channel d' s' co' acc -> send_moves s s' co co' -> pos_le (pos s co) (pos s' co').
Proof.
  intros C [[-> E]|[Hs E]]; unfold pos; rewrite E; [by left|]. right. left. done.
Qed.

Lemma send_event_step d s co acc now prng buf work :
  channel d s co acc -> event_wf (Send now prng buf work) ->
  exists ps ks co' s', step co (Send now prng buf work) = Ret (ks, [], co') /\ Forall2 left_at ps ks
    /\ channel d s' co' acc
    /\ StronglySorted lex_lt (pos s co :: ps) /\ Forall pos_ok ps
    /\ Forall (fun p => pos_le p (pos s' co')) (pos s co :: ps).
Proof using All.
  intros C (hb & plain & tb & hw & hdr & tw & Hbuf & Hwork & Hroom). unfold step.
  pose proof (buf_repr_fields _ _ _ _ Hbuf) as (_ & Fl & _).
  destruct plain as [|x l].
  { assert (E : openvpn_encrypt now prng buf work co = Ret (buf, co)) by (unfold openvpn_encrypt; by rewrite Fl).
    rewrite E. cbn [res_bind]. rewrite Fl. exists [], [], co, s. split; [done|]. split; [constructor|].
    split; [done|]. repeat constructor; by left. }
  destruct (encrypt_step now prng buf work hb _ tb hw hdr tw Hbuf ltac:(done) Hwork Hroom _ _ _ _ C)
    as (p & co' & s' & -> & C' & Hcase). cbn [res_bind].
  pose proof (sch_encrypt _ _ _ _ _ _ _ (ch_sched _ _ _ _ C')) as Hk.
  pose proof (sch_range _ _ _ _ _ _ _ (ch_sched _ _ _ _ C')) as Hr.
  destruct Hcase as [(E0 & -> & -> & Ei & Ei') | (Hsent & Hpos)].
  - rewrite E0, andb_false_r. exists [], [], co', UINT16_MAX. split; [done|]. split; [constructor|].
    split; [done|]. unfold pos. rewrite Ei, Ei'. repeat constructor.
  - destruct Hsent as (ct & tag & t & Hp & Hsl). pose proof (buf_repr_fields _ _ _ _ Hp) as (_ & Lp & _).
    assert (E : (0 <? b_len buf) && (0 <? b_len p) = true).
    { rewrite Fl, Lp, !Zlen_app, Zlen_pid_bytes, Zlen_cons. pose proof (Zlen_nonneg l). pose proof (Zlen_nonneg hdr).
      pose proof (Zlen_nonneg (packet_body true ct tag)). unfold pid_len. by rewrite !(proj2 (Z.ltb_lt _ _)) by lia. }
    rewrite E. exists [pos s' co'], [mk_packet (contents work) (contents buf) (contents p)], co', s'.
    split; [done|]. split; [|split; [done|]].
    + apply Forall2_cons. split; [|constructor]. exists ct, tag. cbn [pk_wire pk_header pk_plain].
      rewrite (buf_repr_contents _ _ _ _ Hp), (buf_repr_contents _ _ _ _ Hwork), (buf_repr_contents _ _ _ _ Hbuf).
      split; [done|]. apply Hsl.
    + pose proof (ch_send _ _ _ _ C'). pose proof (ch_send _ _ _ _ C).
      assert (Hlt : lex_lt (pos s co) (pos s' co')) by (unfold lex_lt, pos; cbn; lia).
      split; [|split].
      * apply SSorted_cons; [apply SSorted_cons; constructor|]. by apply Forall_singleton.
      * apply Forall_singleton. unfold pos_ok, pos. cbn. lia.
      * apply Forall_cons. split; [by right|]. apply Forall_singleton. by left.
Qed.

Lemma recv_step d s co acc now buf work frame ad_start :
  channel d s co acc -> event_wf (Recv now buf work frame ad_start) ->
  (exists got co' d' s', step co (Recv now buf work frame ad_start) = Ret ([], got, co')
     /\ channel d' s' co' (got ++ acc) /\ NoDup got /\ (forall x, x ∈ got -> x ∉ acc)
     /\ pos_le (pos s co) (pos s' co'))
  \/ (step co (Recv now buf work frame ad_start) = Fatal
      /\ pid_epoch (take 8 (contents buf)) = ctx_epoch (bi_decrypt (co_keys co)) + n).
Proof using All.
  intros C (Hn & pre & hdr & c & post & hw & tw & w0 & Hbuf & -> & Hinit & Hw0). unfold step.
  pose proof Hbuf as (_ & _ & Hl & _).
  assert (Hct : contents buf = c) by (apply (buf_repr_contents buf (Zlen (pre ++ hdr)) c (Zlen post)); by exists (pre ++ hdr), post).
  destruct c as [|x l].
  { left. exists [], co, d, s. unfold openvpn_decrypt. rewrite Hl. cbn.
    split; [done|]. split; [done|]. split; [constructor|]. split; [set_solver|by left]. }
  destruct (decrypt_step now buf work frame pre hdr (x :: l) post hw tw w0 Hbuf ltac:(done) Hinit Hw0 d s co acc C Hn)
    as [(ok & b & co' & d' & s' & E & Hnew & C' & M) | (E & He & _)]; rewrite E; cbn [res_bind].
  - left. assert (El : (0 <? b_len buf) = true)
      by (apply Z.ltb_lt; rewrite Hl, Zlen_cons; pose proof (Zlen_nonneg l); lia).
    rewrite El. unfold identity. rewrite Hct. cbn [andb].
    pose proof (send_moves_le _ _ _ _ _ _ C' M) as Hle.
    destruct ok; eexists _, co', d', s'; (split; [done|]); (split; [done|]);
      (split; [apply NoDup_singleton || constructor|]); (split; [|done]); [|set_solver].
    intros y ->%list_elem_of_singleton. auto.
  - right. split; [done|]. rewrite Hct, He. pose proof (ch_sched _ _ _ _ C) as S.
    pose proof (sch_range _ _ _ _ _ _ _ S). rewrite (key_of_epoch _ _ (sch_decrypt _ _ _ _ _ _ _ S)).
    by rewrite recv_key_epoch by (done || lia).
Qed.

Lemma sorted_join l x m :
  StronglySorted lex_lt l -> StronglySorted lex_lt (x :: m) -> Forall (fun p => pos_le p x) l ->
  StronglySorted lex_lt (l ++ m).
Proof.
  intros Hl Hm Hle. apply StronglySorted_inv in Hm as [Hm Hx].
  induction Hl as [|a l Hl IH Ha]; [done|]. apply Forall_cons in Hle as [Hax Hle]. cbn [app].
  constructor; [by apply IH|]. apply Forall_app. split; [done|].
  eapply Forall_impl; [exact Hx|]. intros y Hy. by eapply pos_le_lt.
Qed.

(** The process ended at a packet of the last epoch of the window. *)
Definition ends_at_last_epoch (co : crypto_options) (evs : list event) : Prop :=
  exists evs1 now buf work frame ad_start evs2 sent got co1,
    evs = evs1 ++ Recv now buf work frame ad_start :: evs2
    /\ run co evs1 = Ret (sent, got, co1)
    /\ pid_epoch (take 8 (contents buf)) = ctx_epoch (bi_decrypt (co_keys co1)) + n.

Lemma run_spec evs d s co acc :
  channel d s co acc -> Forall event_wf evs ->
  (exists ps ks gots co', run co evs = Ret (ks, gots, co') /\ Forall2 left_at ps ks
     /\ StronglySorted lex_lt (pos s co :: ps) /\ Forall pos_ok ps
     /\ NoDup gots /\ (forall x, x ∈ gots -> x ∉ acc))
  \/ (run co evs = Fatal /\ ends_at_last_epoch co evs).
Proof using All.
  intros C Hev. revert d s co acc C. induction Hev as [|e evs He Hev IH]; intros d s co acc C; cbn [run].
  { left. exists [], [], [], co. split; [done|]. repeat constructor. set_solver. }
  assert (Hstep : (exists ps ks got co1 d1 s1, step co e = Ret (ks, got, co1) /\ Forall2 left_at ps ks
      /\ channel d1 s1 co1 (got ++ acc)
      /\ StronglySorted lex_lt (pos s co :: ps) /\ Forall pos_ok ps
      /\ Forall (fun p => pos_le p (pos s1 co1)) (pos s co :: ps) /\ NoDup got /\ (forall x, x ∈ got -> x ∉ acc))
      \/ (step co e = Fatal /\ ends_at_last_epoch co (e :: evs))).
  { destruct e as [now prng buf work | now buf work frame ad_start].
    - left. destruct (send_event_step _ _ _ _ _ _ _ _ C He) as (ps & ks & co1 & s1 & H1 & Hk & H2 & H3 & H4 & H5).
      exists ps, ks, [], co1, d, s1. split_and!; try done; [constructor|set_solver].
    - destruct (recv_step _ _ _ _ _ _ _ _ _ C He) as [(got & co1 & d1 & s1 & H1 & H2 & H3 & H4 & H5) | (H1 & H2)].
      + left. exists [], [], got, co1, d1, s1. split_and!; try done; [by repeat constructor|by apply Forall_singleton].
      + right. split; [done|]. exists [], now, buf, work, frame, ad_start, evs, [], [], co. done. }
  destruct Hstep as [(ps & ks & got & co1 & d1 & s1 & E & Hk & C1 & Hs & Hok & Hle & Hnd & Hdis) | (E & Hfat)];
    [|right; by rewrite E].
  rewrite E. cbn [res_bind].
  destruct (IH _ _ _ _ C1) as [(ps2 & ks2 & gots & co' & E2 & Hk2 & Hs2 & Hok2 & Hnd2 & Hdis2) | (E2 & Hfat)].
  - left. rewrite E2. cbn [res_bind]. exists (ps ++ ps2), (ks ++ ks2), (got ++ gots), co'.
    split; [done|]. split; [by apply Forall2_app|]. split; [|split; [|split]].
    + apply (sorted_join (pos s co :: ps) (pos s1 co1) ps2 Hs Hs2 Hle).
    + by apply Forall_app.
    + apply NoDup_app. split_and!; [done| |done]. intros x Hx Hx'. specialize (Hdis2 x Hx'). set_solver.
    + intros x [Hx|Hx]%elem_of_app; [auto|]. specialize (Hdis2 x Hx). set_solver.
  - right. rewrite E2. split; [done|].
    destruct Hfat as (evs1 & now & buf & work & frame & ad & evs2 & sent & got1 & co2 & -> & Hr & Hp).
    exists (e :: evs1), now, buf, work, frame, ad, evs2. cbn [run]. rewrite E. cbn [res_bind]. rewrite Hr. cbn [res_bind].
    eexists _, _, co2. done.
Qed.

(** Different positions of an epoch have different vectors. *)
Lemma vector_inj p q : pos_ok p -> pos_ok q -> p.1 = q.1 -> vector p = vector q -> p = q.
Proof using Hkt Hes DL.
  destruct p as [e i], q as [e' i']. unfold pos_ok, vector, UINT16_MAX, PACKET_ID_EPOCH_MAX. cbn [fst snd].
  intros [He Hi] [_ Hi'] <- E. f_equal.
  destruct (data_ctx_aead true e1_send e _ eq_refl) as [_ _ Hiv Himp].
  apply nonce_inj in E; [|lia|exact Himp|unfold pid_bytes; by rewrite !length_be_bytes|unfold pid_bytes; rewrite length_be_bytes; lia].
  unfold pid_bytes in E. apply (f_equal be_val) in E. rewrite !be_val_bytes in E. change (256 ^ Z.of_nat 8) with (2 ^ 64) in E.
  destruct (epoch_pack e i) as (Hx & _); [unfold is_u16; lia|lia|].
  destruct (epoch_pack e i') as (Hx' & _); [unfold is_u16; lia|lia|].
  cbv zeta in Hx, Hx'. rewrite Hx, Hx', !Z.mod_small in E by lia. lia.
Qed.

(** Increasing positions differ, and so does what they are mapped to, if it tells epochs and vectors apart. *)
Lemma sorted_nodup {A : Type} (f : Z * Z -> A) ps :
  (forall p q, p ∈ ps -> q ∈ ps -> f p = f q -> p.1 = q.1 /\ vector p = vector q) ->
  StronglySorted lex_lt ps -> Forall pos_ok ps -> NoDup (f <$> ps).
Proof using Hkt Hes DL.
  intros Hf Hs Hok. rewrite Forall_forall in Hok. apply NoDup_fmap_2_strong.
  - intros p q Hp Hq [E1 E2]%Hf; [|done..]. apply vector_inj; auto.
  - clear Hf Hok. induction Hs as [|p ps Hs IH Hp]; constructor; [|done].
    rewrite Forall_forall in Hp. intros Hin%Hp. unfold lex_lt in Hin. lia.
Qed.
End Channel.

(** ** What one side seals the other side opens *)
Lemma pid_of_bytes e id :
  is_u16 e -> 0 <= id < 2 ^ 48 -> pid_epoch (pid_bytes true e id) = e /\ pid_id (pid_bytes true e id) = id.
Proof.
  intros He Hi. destruct (epoch_pack e id He Hi) as (Hx & H1 & H2). unfold pid_epoch, pid_id, pid_bytes.
  rewrite be_val_bytes. change (256 ^ Z.of_nat 8) with (2 ^ 64).
  rewrite Z.mod_small by (rewrite Hx; unfold is_u16 in He; lia). done.
Qed.

(** An empty window accepts any identifier but 0. *)
Lemma fresh_accepts now p id :
  hist p [] -> rec_id p = 0 -> rec_time p = 0 -> 0 < id < id_bound -> SEQ_EXPIRED < now ->
  exists p', replay_check now p (mk_net id 0) = Ret (true, p').
Proof.
  intros Hh Hi Ht Hid Hn.
  destruct (hist_step now p [] (mk_net id 0) Hh) as (ok & p' & E & _); [split; [done|cbn; lia]|].
  destruct ok; [by eauto|]. exfalso. unfold replay_check in E.
  apply res_bind_Ret_inv in E as (p1 & H1 & E).
  assert (E1 : rec_id p1 = 0 /\ rec_time p1 = 0).
  { unfold packet_id_reap_test, packet_id_reap in H1. destruct (_ <=? now); [|by simplify_eq]. res_inv. done. }
  destruct E1 as [E1 E2]. apply res_bind_Ret_inv in E as ([ok p2] & H2 & E).
  unfold packet_id_test in H2. rewrite E1, E2 in H2. destruct (initialized p1); [|done].
  cbn [net_id net_time Z.eqb] in H2. rewrite (proj2 (Z.eqb_neq id 0)), (proj2 (Z.ltb_lt 0 id)) in H2 by lia.
  assert (ok = true) as -> by (destruct (negb (seq_backtrack p1 =? 0)); by simplify_eq/=).
  apply res_bind_Ret_inv in E as (p3 & _ & E). done.
Qed.

Section RoundTrip.
Context {cipher_ctx hmac_ctx : Type} `{CL : CryptoLib cipher_ctx hmac_ctx}.
Context `{DL : !DeriveLaws cipher_ctx hmac_ctx} `{AL : !AeadLaws cipher_ctx hmac_ctx}.
#[local] Abbreviation crypto_options := (KeyCtx.crypto_options cipher_ctx hmac_ctx).
Context (kt : key_type) (ea eb : epoch_key) (na nb : Z).
Context (Hkt : kt_ok kt) (Hea : key_ok ea) (Heb : key_ok eb).

Lemma replay_accepts d s (b : crypto_options) acc now e id :
  channel kt eb ea nb d s b acc -> SEQ_EXPIRED < now -> 0 < id < id_bound -> 0 < e ->
  (e = d /\ (exists r, replay_check now (pid_rec (co_packet_id b)) (mk_net id 0) = Ret (true, r)))
  \/ (d < e < d + nb /\ e + nb < UINT16_MAX) ->
  exists b', crypto_check_replay now b (mk_net id 0) e = Ret (true, b').
Proof using All.
  intros C Hn Hid He Hcase. pose proof (ch_sched _ _ _ _ _ _ _ _ C) as S.
  pose proof (sch_range _ _ _ _ _ _ _ S) as Hr. pose proof (retiring_epoch _ _ _ _ Hea _ _ _ S) as Hre.
  unfold crypto_check_replay. rewrite (key_of_epoch _ _ (sch_decrypt _ _ _ _ _ _ _ S)), recv_key_epoch by (done || lia).
  rewrite (proj2 (Z.eqb_neq e 0)) by lia. cbn [orb].
  destruct Hcase as [(-> & r & Er) | (Hrange & Hmax)].
  - rewrite Z.eqb_refl. cbn [res_bind]. rewrite Er. cbn [res_bind]. repeat case_match; eauto.
  - rewrite !(proj2 (Z.eqb_neq _ _)) by lia.
    destruct (replace_spec kt eb ea Hkt Heb Hea _ _ _ _ e S Hrange Hmax) as (b1 & -> & _ & _ & Hm & _). cbn [res_bind].
    destruct (move_recv_spec (co_retiring_pid_recv b) _ (sch_backtrack _ _ _ _ _ _ _ S)) as (src & Hm' & _ & H0 & H1 & _).
    destruct (hist_move (co_retiring_pid_recv b) _ _ (ch_cur _ _ _ _ _ _ _ _ C) (sch_backtrack _ _ _ _ _ _ _ S))
      as (src2 & Hm2 & Hh & _).
    rewrite Hm' in Hm, Hm2. injection Hm2 as <-. injection Hm as _ <-.
    destruct (fresh_accepts now src id Hh H0 H1 Hid Hn) as (r & ->). cbn [res_bind]. repeat case_match; eauto.
Qed.

(** The room a receiver needs, and that its key is not worn out by forgeries. *)
Definition can_open (b : crypto_options) (e : Z) : Prop :=
  forall sl c, epoch_lookup_decrypt_key b e = Some sl -> slot_get b sl = Ret c ->
  cipher_decrypt_verify_fail_exceeded c = false.

Lemma open_sealed now rbuf rwork frame pre hdr post hw tw w0 d s (b : crypto_options) acc e id plain ct tag :
  channel kt eb ea nb d s b acc -> SEQ_EXPIRED < now -> 1 <= e <= UINT16_MAX -> 0 < id < 2 ^ 48 -> plain <> [] ->
  buf_split rbuf (pre ++ hdr) (pid_bytes true e id ++ packet_body true ct tag) post ->
  buf_init_dowork rwork (headroom frame) = (true, w0) -> buf_repr w0 hw [] tw -> Zlen plain + 32 <= tw ->
  sealed (data_key kt ea e) (kt_cipher kt)
    (nonce (cipher_kt_iv_size (kt_cipher kt)) (pid_bytes true e id) (implicit_iv (send_key kt ea e)))
    (hdr ++ pid_bytes true e id) plain ct tag ->
  can_open b e ->
  (e = d /\ (exists r, replay_check now (pid_rec (co_packet_id b)) (mk_net id 0) = Ret (true, r)))
  \/ (d < e < d + nb /\ e + nb < UINT16_MAX) ->
  exists q b', openvpn_decrypt now rbuf rwork b frame (Zlen pre) = Ret (true, q, b') /\ contents q = plain.
Proof using All.
  intros C Hn He Hid Hp Hbuf Hinit Hw0 Hroom (Lc & Oc & Lt & Ot & Eu & Ec & _) Hopen Hcase.
  unfold OPENVPN_AEAD_TAG_LENGTH in Lt. pose proof (ch_sched _ _ _ _ _ _ _ _ C) as S.
  pose proof (sch_range _ _ _ _ _ _ _ S) as Hr.
  destruct (pid_of_bytes e id) as [Pe Pi]; [unfold is_u16, UINT16_MAX in *; lia|lia|].
  pose proof (Zlen_pid_bytes true e id) as Lp. set (pid := pid_bytes true e id) in *. change (pid_len true) with 8 in Lp.
  set (body := packet_body true ct tag) in *.
  assert (Lpl : 1 <= Zlen plain) by (destruct plain as [|x l]; [done|rewrite Zlen_cons; pose proof (Zlen_nonneg l); lia]).
  assert (Lb : Zlen body = Zlen plain + 16) by (unfold body, packet_body; rewrite Zlen_app; lia).
  rewrite (decrypt_dispatch kt eb ea nb Hkt Heb Hea now rbuf rwork frame pre hdr _ post hw tw w0 Hbuf)
    with (C := C) by (done || (intros E%(f_equal Zlen); rewrite Zlen_app in E; change (Zlen []) with 0 in E; lia)).
  pose proof (data_ctx_aead kt Hkt _ _ _ _ (sch_decrypt _ _ _ _ _ _ _ S)) as [Hc Hm _ _].
  rewrite (decrypt_epoch_cases now rbuf rwork b frame pre hdr pid body post hw tw w0
             (hist_init _ _ (ch_cur _ _ _ _ _ _ _ _ C)) Hinit Hw0 Hbuf _ Hc (ch_flag _ _ _ _ _ _ _ _ C) Lp) by lia.
  rewrite Pe, Pi, (proj2 (Z.eqb_neq e 0)) by lia.
  destruct (epoch_lookup_spec kt eb ea Hea nb d s b e S) as [Hl [_ Hl2]].
  destruct (epoch_lookup_decrypt_key b e) as [sl|] eqn:El; [|destruct Hl2 as [? [=]]; lia].
  destruct Hl as (ctx & Hg & Hk & _). rewrite Hg. cbn [res_bind]. rewrite (Hopen _ _ El Hg).
  pose proof (data_ctx_aead kt Hkt _ _ _ _ Hk) as A. rewrite (ac_cipher _ _ _ _ A), law_iv_length.
  apply split_advance in Hbuf. rewrite <- app_assoc in Hbuf.
  rewrite (aead_open_cases true now _ w0 b sl ctx _ _ pre (hdr ++ pid) body post pid _ _ hw tw
             (ch_flag _ _ _ _ _ _ _ _ C) A Hbuf) by (done || lia || (unfold Zlen in Lp; lia)).
  destruct (body_of_packet true ct tag Lt) as [Bd Bt]. fold body in Bd, Bt. rewrite Bd, Bt.
  pose proof (law_block_size (data_key kt ea e) (kt_cipher kt) false Hm).
  destruct Hbuf as (_ & _ & Hl & _). cbn [rest]. rewrite (proj2 (Z.leb_le _ _)) by (rewrite Hl; lia).
  pose proof (f_equal (fun k => k.1.2) Hk) as Hi. change (implicit_iv ctx = implicit_iv (send_key kt ea e)) in Hi.
  rewrite Hi, Eu, Ec.
  destruct (replay_accepts d s b acc now e id C Hn ltac:(unfold id_bound; lia) ltac:(lia) Hcase) as (b' & ->).
  cbn [res_bind negb]. eexists _, _. split; [done|]. unfold with_out.
  assert (Op : bytes_ok plain) by (apply (law_open _ _ _ _ _ _ Hm Eu)).
  destruct (append_out_repr _ _ _ _ plain Hw0) as (w & -> & Hw); [lia|done|]. by apply buf_repr_contents in Hw.
Qed.

(** C7: a payload that one peer encrypts is recovered by the other one from the packet on the wire,
    however the two have moved through their epochs: if the epoch of the packet is the one the
    receiver uses and the packet is new to the replay window, or the epoch is ahead of it within the
    window but not the last one, [openvpn_decrypt] returns the payload.  The packet is empty only
    when all 2^16 - 1 epochs and the counter of the last one are used up. *)
Theorem data_channel_roundtrip (now : Z) (prng : bytes) (buf work : buffer)
    (hb : Z) (plain : bytes) (tb hw : Z) (hdr : bytes) (tw : Z)
    (da sa db sb : Z) (a b : crypto_options) (acca accb : list (Z * packet_id_net)) :
  channel kt ea eb na da sa a acca -> channel kt eb ea nb db sb b accb ->
  buf_repr buf hb plain tb -> plain <> [] -> buf_repr work hw hdr tw -> 8 + Zlen plain + 32 <= tw ->
  exists p a', openvpn_encrypt now prng buf work a = Ret (p, a')
    /\ (b_len p = 0 -> ctx_epoch (bi_encrypt (co_keys a)) = UINT16_MAX
                       /\ send_id (pid_send (co_packet_id a)) = PACKET_ID_EPOCH_MAX)
    /\ let e := ctx_epoch (bi_encrypt (co_keys a')) in
       let id := send_id (pid_send (co_packet_id a')) in
       forall now' rbuf rwork frame pre post hw' tw' w0,
       0 < b_len p -> SEQ_EXPIRED < now' ->
       buf_split rbuf (pre ++ hdr) (drop (length hdr) (contents p)) post ->
       buf_init_dowork rwork (headroom frame) = (true, w0) -> buf_repr w0 hw' [] tw' -> Zlen plain + 32 <= tw' ->
       can_open b e ->
       (e = db /\ (exists r, replay_check now' (pid_rec (co_packet_id b)) (mk_net id 0) = Ret (true, r)))
       \/ (db < e < db + nb /\ e + nb < UINT16_MAX) ->
       exists q b', openvpn_decrypt now' rbuf rwork b frame (Zlen pre) = Ret (true, q, b') /\ contents q = plain.
Proof using All.
  intros Ca Cb Hbuf Hp Hwork Hroom.
  destruct (encrypt_step kt ea eb na Hkt Hea Heb now prng buf work hb plain tb hw hdr tw Hbuf Hp Hwork Hroom _ _ _ _ Ca)
    as (p & a' & s' & E & Ca' & Hcase).
  exists p, a'. split; [done|]. pose proof (ch_sched _ _ _ _ _ _ _ _ Ca') as S'.
  pose proof (sch_range _ _ _ _ _ _ _ S') as Hr. pose proof (ch_sched _ _ _ _ _ _ _ _ Ca) as S.
  pose proof (sch_range _ _ _ _ _ _ _ S) as Hr0.
  rewrite (key_of_epoch _ _ (sch_encrypt _ _ _ _ _ _ _ S')), (key_of_epoch _ _ (sch_encrypt _ _ _ _ _ _ _ S)).
  rewrite !send_key_epoch by (done || lia).
  destruct Hcase as [(H0 & -> & -> & Hi & _) | (Hsent & Hpos)]; [split; [done|]; cbv zeta; lia|].
  destruct Hsent as (ct & tag & t & Hw & Hsl). pose proof (buf_repr_fields _ _ _ _ Hw) as (_ & Lp & _).
  split.
  { rewrite Lp, !Zlen_app, Zlen_pid_bytes. pose proof (Zlen_nonneg hdr).
    pose proof (Zlen_nonneg (packet_body true ct tag)). unfold pid_len. lia. }
  cbv zeta. intros now' rbuf rwork frame pre post hw' tw' w0 _ Hn Hsp Hinit Hw0 Hroom' Hopen Hc. rewrite (buf_repr_contents _ _ _ _ Hw), drop_app_length in Hsp.
  pose proof (ch_send _ _ _ _ _ _ _ _ Ca') as Hid. pose proof (ch_send _ _ _ _ _ _ _ _ Ca).
  unfold PACKET_ID_EPOCH_MAX in *.
  eapply (open_sealed now' rbuf rwork frame pre hdr post hw' tw' w0 db sb b accb s'); try done; lia.
Qed.
End RoundTrip.

(** ** From the installation of the keys on *)
Section Session.
Context {cipher_ctx hmac_ctx : Type} `{CL : CryptoLib cipher_ctx hmac_ctx}.
Context `{DL : !DeriveLaws cipher_ctx hmac_ctx} `{AL : !AeadLaws cipher_ctx hmac_ctx}.
#[local] Abbreviation crypto_options := (KeyCtx.crypto_options cipher_ctx hmac_ctx).
Context (kt : key_type) (e1_send e1_recv : epoch_key) (n : Z).

(** Two epoch keys, an AEAD cipher, and a key state with cleared contexts and an empty window. *)
Record session_start (co : crypto_options) : Prop := {
  ss_kt : kt_ok kt;
  ss_send : key_ok e1_send;
  ss_recv : key_ok e1_recv;
  ss_count : 0 < n < UINT16_MAX - 1;
  ss_encrypt : ctx_epoch (bi_encrypt (co_keys co)) = 0;
  ss_retiring : ctx_epoch (co_retiring co) = 0;
  ss_flag : flag co CO_EPOCH_DATA_KEY_FORMAT = true;
  ss_window : hist (pid_rec (co_packet_id co)) [];
  ss_backtrack : backtrack_ok (pid_rec (co_packet_id co))
}.

Lemma session_channel co0 :
  session_start co0 ->
  exists co, epoch_init_key_ctx co0 kt e1_send e1_recv n = Ret co /\ channel kt e1_send e1_recv n 1 1 co [].
Proof.
  intros [Hkt Hes Her Hn He Hr Hf Hw Hb].
  destruct (init_spec kt e1_send e1_recv Hkt Hes Her co0 n) as (co & E & S & Hp & Hfl & Hre); try done; try lia.
  exists co. split; [done|]. split; try done.
  - unfold flag in *. by rewrite Hfl.
  - rewrite Hp. unfold PACKET_ID_EPOCH_MAX. cbn. lia.
  - by rewrite Hp.
  - by rewrite Hre.
  - set_solver.
Qed.

(** C5: in any sequence of packets sent and received after the keys are installed, whatever bytes
    arrive and however the receiver moves between epochs, no packet is accepted twice, and no
    access leaves its object.  The only way the process can end is a packet of the last epoch of
    the window. *)
Theorem data_channel_no_replay (co0 : crypto_options) (evs : list event) :
  session_start co0 -> Forall event_wf evs ->
  exists co, epoch_init_key_ctx co0 kt e1_send e1_recv n = Ret co
    /\ ((exists sent got co', run co evs = Ret (sent, got, co') /\ NoDup got)
        \/ (run co evs = Fatal /\ ends_at_last_epoch n co evs)).
Proof.
  intros H Hev. destruct (session_channel _ H) as (co & E & C). exists co. split; [done|].
  destruct H as [Hkt Hes Her _ _ _ _ _ _].
  destruct (run_spec kt e1_send e1_recv n Hkt Hes Her evs 1 1 co [] C Hev)
    as [(ps & ks & gots & co' & Er & _ & _ & _ & Hnd & _) | Hf]; [left; eauto 10|by right].
Qed.

(** C6: no two packets that leave are encrypted with the same key and the same vector, in any
    sequence of packets sent and received, although the counter restarts with every epoch, and the
    send key is replaced both by its own limits and by packets of the peer.  Every packet on the wire
    is its header, its position (the epoch and the counter of the sender), and exactly what the calls
    to the cipher give for its payload with the data key of that epoch and the vector of that
    position; the pairs of an epoch and a vector are all different, and so are the pairs of a key and
    a vector as long as the key derivation gives the epochs that were used different keys. *)
Theorem data_channel_nonce_unique (co0 co co' : crypto_options) (evs : list event)
    (sent : list packet) (got : list (Z * packet_id_net)) :
  session_start co0 -> Forall event_wf evs ->
  epoch_init_key_ctx co0 kt e1_send e1_recv n = Ret co -> run co evs = Ret (sent, got, co') ->
  exists ps, Forall2 (left_at kt e1_send) ps sent /\ Forall pos_ok ps
    /\ NoDup ((fun p => (p.1, vector kt e1_send p)) <$> ps)
    /\ ((forall p q, p ∈ ps -> q ∈ ps -> data_key kt e1_send p.1 = data_key kt e1_send q.1 -> p.1 = q.1) ->
        NoDup ((fun p => (data_key kt e1_send p.1, vector kt e1_send p)) <$> ps)).
Proof.
  intros H Hev Ei Er. destruct (session_channel _ H) as (co1 & E & C). rewrite Ei in E. injection E as <-.
  destruct H as [Hkt Hes Her _ _ _ _ _ _].
  destruct (run_spec kt e1_send e1_recv n Hkt Hes Her evs 1 1 co [] C Hev)
    as [(ps & ks & gots & co2 & Er' & Hk & Hs & Hok & _) | [Ef _]]; [|congruence].
  rewrite Er in Er'. injection Er' as <- _ _. apply StronglySorted_inv in Hs as [Hs _].
  exists ps. split; [done|]. split; [done|]. split.
  - apply (sorted_nodup kt e1_send Hkt Hes); [|done|done]. by intros p q _ _ [= ? ?].
  - intros Hkeys. apply (sorted_nodup kt e1_send Hkt Hes); [|done|done]. intros p q Hp Hq [= ? ?]. auto.
Qed.


(** The blocks of received packets are not counted: [openvpn_decrypt_aead] adds the number of
    blocks of what [cipher_ctx_final_check_tag] put out, which is nothing for an AEAD cipher, so
    after any accepted packet the usage counter of the receive key is what it was, or that of the
    key moved to. *)
Lemma received_blocks_not_counted (now : Z) (buf work : buffer) (frame : frame) (pre hdr c post : bytes)
    (hw tw : Z) (w0 b : buffer) (d s : Z) (co co' : crypto_options) (acc : list (Z * packet_id_net)) :
  kt_ok kt -> key_ok e1_send -> key_ok e1_recv -> channel kt e1_send e1_recv n d s co acc ->
  buf_split buf (pre ++ hdr) c post -> c <> [] ->
  buf_init_dowork work (headroom frame) = (true, w0) -> buf_repr w0 hw [] tw ->
  pid_epoch (take 8 c) = d -> 0 <= plaintext_blocks (bi_decrypt (co_keys co)) < 2 ^ 64 ->
  openvpn_decrypt now buf work co frame (Zlen pre) = Ret (true, b, co') ->
  plaintext_blocks (bi_decrypt (co_keys co')) = plaintext_blocks (bi_decrypt (co_keys co)).
Proof.
  intros Hkt Hes Her C Hbuf Hc Hinit Hw0 He Hb Hok.
  destruct (decrypt_outcome kt e1_send e1_recv n Hkt Hes Her now buf work frame pre hdr c post hw tw w0 Hbuf Hc Hinit Hw0
              d s co acc C) as [(? & ? & E & _) | (sl & ctx & plain & b' & w & A & _ & E)]; [congruence|].
  rewrite E in Hok. apply res_bind_Ret_inv in Hok as ([ok opt] & Ec & Hok).
  destruct ok; [|done]. injection Hok as <- <-. cbn.
  pose proof (ch_sched _ _ _ _ _ _ _ _ C) as S. pose proof (sch_range _ _ _ _ _ _ _ S) as Hr.
  unfold crypto_check_replay in Ec. rewrite (key_of_epoch _ _ (sch_decrypt _ _ _ _ _ _ _ S)), recv_key_epoch in Ec
    by (done || lia).
  rewrite He, Z.eqb_refl, orb_true_r in Ec. cbn [res_bind] in Ec.
  apply res_bind_Ret_inv in Ec as ([ok r] & _ & Ec).
  assert (Hk : co_keys opt = co_keys co).
  { destruct ok; [|done]. destruct (co_pid_persist (set_pid_rec co r)); [destruct (flag _ _)|];
      by injection Ec as <-. }
  rewrite Hk. change (Z.quot (0 + (AEAD_LIMIT_BLOCKSIZE - 1)) AEAD_LIMIT_BLOCKSIZE) with 0. rewrite Z.add_0_r.
  by apply u64_id.
Qed.
End Session.

(** ** Concrete sessions *)
Definition sample_a : crypto_options sample_cipher sample_hmac :=
  match epoch_init_key_ctx sample_blank sample_kt (sample_e1 1) (sample_e1 2) 16 with
  | Ret co => co | _ => sample_blank end.
Definition sample_b : crypto_options sample_cipher sample_hmac :=
  match epoch_init_key_ctx sample_blank sample_kt (sample_e1 2) (sample_e1 1) 16 with
  | Ret co => co | _ => sample_blank end.

Lemma sample_start x y : session_start sample_kt (sample_e1 x) (sample_e1 y) 16 sample_blank.
Proof.
  split; try done.
  - right. exists 64. destruct (packet_id_init_hist 64 15 None 0) as (p & E & H & _);
      [unfold MAX_SEQ_BACKTRACK; lia|unfold MAX_TIME_BACKTRACK; lia|].
    cbn in E. injection E as <-. exact H.
  - right. unfold MIN_SEQ_BACKTRACK, MAX_SEQ_BACKTRACK, MIN_TIME_BACKTRACK, MAX_TIME_BACKTRACK. cbn. lia.
Qed.

Lemma sample_channel_a : channel sample_kt (sample_e1 1) (sample_e1 2) 16 1 1 sample_a [].
Proof. destruct (session_channel _ _ _ _ _ (sample_start 1 2)) as (co & E & C). unfold sample_a. rewrite E. exact C. Qed.
Lemma sample_channel_b : channel sample_kt (sample_e1 2) (sample_e1 1) 16 1 1 sample_b [].
Proof. destruct (session_channel _ _ _ _ _ (sample_start 2 1)) as (co & E & C). unfold sample_b. rewrite E. exact C. Qed.

(** A buffer with [h] bytes of room around some contents. *)
Definition around (h : nat) (c : bytes) : buffer :=
  mk_buffer (Z.of_nat h + Zlen c + Z.of_nat h) (Z.of_nat h) (Zlen c) (Some (replicate h 0 ++ c ++ replicate h 0)).

Lemma zeros_ok h : bytes_ok (replicate h 0).
Proof. apply Forall_replicate. unfold is_u8. lia. Qed.

Lemma around_split h c :
  bytes_ok c -> Z.of_nat h + Zlen c + Z.of_nat h < BUF_SIZE_MAX ->
  buf_split (around h c) (replicate h 0) c (replicate h 0).
Proof.
  intros Hc Hm. unfold buf_split, around, Zlen in *. cbn. rewrite length_replicate.
  split_and!; try done; apply zeros_ok.
Qed.
Lemma around_repr h c :
  bytes_ok c -> Z.of_nat h + Zlen c + Z.of_nat h < BUF_SIZE_MAX ->
  buf_repr (around h c) (Z.of_nat h) c (Z.of_nat h).
Proof.
  intros Hc Hm. exists (replicate h 0), (replicate h 0). split; [by apply around_split|].
  unfold Zlen. by rewrite length_replicate.
Qed.

Definition sample_payload : bytes := [7; 8; 9].
Definition sample_header : bytes := [72; 1; 2; 3].
Definition sample_frame : frame := mk_frame 50 20 30 0 0 0 0 0.

Lemma small_ok l : forallb (fun x => (0 <=? x) && (x <? 256)) l = true -> bytes_ok l.
Proof.
  intros H. apply Forall_forall. intros x Hx. apply list_elem_of_In in Hx.
  rewrite forallb_forall in H. specialize (H x Hx). unfold is_u8. lia.
Qed.

Lemma sample_work_init : exists w0, buf_init_dowork (around 60 []) (headroom sample_frame) = (true, w0)
  /\ buf_repr w0 20 [] 100.
Proof.
  destruct (buf_init_repr (around 60 []) 20) as (w0 & E & H);
    [apply (buf_repr_wf _ 60 [] 60); apply around_repr; [by apply small_ok|by vm_compute]
    |done|by vm_compute|].
  exists w0. done.
Qed.

Definition sample_events : list event :=
  [Send 1000 [] (around 20 sample_payload) (around 60 sample_header);
   Recv 1000 (around 60 (replicate 40 5)) (around 60 []) sample_frame 60;
   Send 1001 [] (around 20 sample_payload) (around 60 sample_header)].
Lemma sample_send_wf now : event_wf (Send now [] (around 20 sample_payload) (around 60 sample_header)).
Proof.
  eexists _, sample_payload, _, _, sample_header, _.
  split_and!; [apply around_repr|apply around_repr|]; try (by apply small_ok); by vm_compute.
Qed.
Lemma sample_events_wf :
  Forall event_wf sample_events.
Proof.
  unfold sample_events.
  apply Forall_cons. split; [apply sample_send_wf|]. apply Forall_cons. split; [|apply Forall_singleton, sample_send_wf].
  split; [unfold SEQ_EXPIRED; lia|]. destruct sample_work_init as (w0 & E & H).
  exists (replicate 60 0), [], (replicate 40 5), (replicate 60 0), 20, 100, w0.
  split_and!; [|done|exact E|exact H]. rewrite app_nil_r.
  apply around_split; [by apply small_ok|by vm_compute].
Qed.

Lemma data_channel_no_replay_witness : exists co,
  epoch_init_key_ctx sample_blank sample_kt (sample_e1 1) (sample_e1 2) 16 = Ret co
  /\ ((exists sent got co', run co sample_events = Ret (sent, got, co') /\ NoDup got)
      \/ (run co sample_events = Fatal /\ ends_at_last_epoch 16 co sample_events)).
Proof.
  apply (data_channel_no_replay sample_kt (sample_e1 1) (sample_e1 2) 16 sample_blank sample_events
           (sample_start 1 2) sample_events_wf).
Defined.

(** The epochs of the packets that left, from the wire. *)
Definition wire_epoch (k : packet) : Z := pid_epoch (take 8 (drop (length (pk_header k)) (pk_wire k))).
Definition sent_epochs {A B : Type} (r : res (list packet * A * B)) : option (list Z) :=
  match r with Ret (sent, _, _) => Some (wire_epoch <$> sent) | _ => None end.

Lemma sample_a_init : epoch_init_key_ctx sample_blank sample_kt (sample_e1 1) (sample_e1 2) 16 = Ret sample_a.
Proof. destruct (session_channel _ _ _ _ _ (sample_start 1 2)) as (co & E & C). unfold sample_a. rewrite E. exact eq_refl. Qed.

Lemma left_wire_epoch e1 ps ks :
  Forall2 (left_at sample_kt e1) ps ks -> Forall pos_ok ps -> wire_epoch <$> ks = fst <$> ps.
Proof.
  intros H. induction H as [|p k ps ks (ct & tag & E & _) _ IH]; intros Hok; [done|].
  apply Forall_cons in Hok as [[He Hi] Hok]. cbn. rewrite IH by done. f_equal.
  unfold wire_epoch. rewrite E, drop_app_length, take_app_length'
    by (pose proof (Zlen_pid_bytes true p.1 p.2) as Lz; unfold Zlen, pid_len in Lz; lia).
  apply pid_of_bytes; unfold is_u16, UINT16_MAX, PACKET_ID_EPOCH_MAX in *; lia.
Qed.

Lemma data_channel_nonce_unique_witness : exists sent got co' ps,
  run sample_a sample_events = Ret (sent, got, co') /\ length ps = 2%nat
  /\ Forall2 (left_at sample_kt (sample_e1 1)) ps sent
  /\ NoDup ((fun p => (data_key sample_kt (sample_e1 1) p.1, vector sample_kt (sample_e1 1) p)) <$> ps).
Proof.
  assert (Hc : sent_epochs (run sample_a sample_events) = Some [1; 1]) by (vm_compute; reflexivity).
  destruct (run sample_a sample_events) as [[[sent got] co']| |] eqn:E; [|discriminate Hc..].
  injection Hc as Hc.
  destruct (data_channel_nonce_unique sample_kt (sample_e1 1) (sample_e1 2) 16 sample_blank sample_a co' sample_events
              sent got (sample_start 1 2) sample_events_wf sample_a_init E) as (ps & Hk & Hok & _ & Hn).
  rewrite (left_wire_epoch _ _ _ Hk Hok) in Hc.
  exists sent, got, co', ps. split; [reflexivity|]. split; [|split; [exact Hk|]].
  - apply (f_equal length) in Hc. rewrite length_fmap in Hc. exact Hc.
  - assert (He : forall p, p ∈ ps -> p.1 = 1).
    { apply Forall_forall, (Forall_fmap fst (fun z => z = 1)). rewrite Hc. repeat constructor. }
    apply Hn. intros p q Hp Hq _. rewrite (He p Hp), (He q Hq). reflexivity.
Defined.

(** A packet as it comes from the socket, behind its header. *)
Definition received (hdr c : bytes) : buffer :=
  mk_buffer (60 + Zlen hdr + Zlen c + 60) (60 + Zlen hdr) (Zlen c)
    (Some ((replicate 60 0 ++ hdr) ++ c ++ replicate 60 0)).
Lemma received_split hdr c :
  bytes_ok hdr -> bytes_ok c -> Zlen hdr + Zlen c < 10000 ->
  buf_split (received hdr c) (replicate 60 0 ++ hdr) c (replicate 60 0).
Proof.
  intros Hh Hc Hl. unfold buf_split, received, BUF_SIZE_MAX. cbn [b_data b_offset b_len b_capacity].
  rewrite bytes_ok_app, Zlen_app. change (Zlen (replicate 60 0)) with 60.
  split_and!; try done; try lia; apply zeros_ok.
Qed.

Lemma Ret_inj {A : Type} (a b : A) : Ret a = Ret b -> a = b.
Proof. by intros [= ->]. Qed.



(** What [sample_a] sends first, received by [sample_b]. *)
Definition sample_packet : bytes :=
  match openvpn_encrypt 1000 [] (around 20 sample_payload) (around 60 sample_header) sample_a with
  | Ret (p, _) => contents p | _ => [] end.
Definition opened {A B C : Type} (r : res (bool * A * B)) (f : A -> C) : option C :=
  match r with Ret (true, q, _) => Some (f q) | _ => None end.

Lemma data_channel_roundtrip_witness : exists p a' q b',
  openvpn_encrypt 1000 [] (around 20 sample_payload) (around 60 sample_header) sample_a = Ret (p, a')
  /\ openvpn_decrypt 1000 (received sample_header (drop 4 (contents p))) (around 60 []) sample_b sample_frame 60
     = Ret (true, q, b')
  /\ contents q = sample_payload.
Proof.
  destruct sample_work_init as (w0 & E & H).
  destruct (data_channel_roundtrip sample_kt (sample_e1 1) (sample_e1 2) 16 16 sample_kt_ok (sample_e1_ok 1) (sample_e1_ok 2)
              1000 [] (around 20 sample_payload) (around 60 sample_header) 20 sample_payload 20 60 sample_header 60
              1 1 1 1 sample_a sample_b [] [] sample_channel_a sample_channel_b)
    as (p & a' & Ep & _ & Hopen);
    [apply around_repr; [by apply small_ok|by vm_compute]|discriminate
    |apply around_repr; [by apply small_ok|by vm_compute]|by vm_compute|].
  assert (Hp : match openvpn_encrypt 1000 [] (around 20 sample_payload) (around 60 sample_header) sample_a with
               | Ret (p, a') => (b_len p, ctx_epoch (bi_encrypt (co_keys a')), send_id (pid_send (co_packet_id a')),
                                 forallb (fun x => (0 <=? x) && (x <? 256)) (contents p), Zlen (contents p))
               | _ => (0, 0, 0, false, 0) end = (31, 1, 1, true, 31)) by (vm_compute; reflexivity).
  rewrite Ep in Hp. injection Hp as Hl He Hi Hb Hz. cbv zeta in Hopen. rewrite He, Hi in Hopen.
  destruct (Hopen 1000 (received sample_header (drop 4 (contents p))) (around 60 []) sample_frame
              (replicate 60 0) (replicate 60 0) 20 100 w0) as (q & b' & Eq & Hq).
  - lia.
  - by vm_compute.
  - apply received_split; [by apply small_ok|apply Forall_drop, small_ok, Hb|].
    change (Zlen sample_header) with 4. unfold Zlen in *. rewrite length_drop. lia.
  - exact E.
  - exact H.
  - by vm_compute.
  - intros sl c Hs Hg.
    assert (Hd : epoch_lookup_decrypt_key sample_b 1 = Some SlotDecrypt) by (vm_compute; reflexivity).
    rewrite Hd in Hs. injection Hs as <-. apply Ret_inj in Hg. destruct Hg. vm_compute. reflexivity.
  - left. split; [reflexivity|].
    assert (Hr : match replay_check 1000 (pid_rec (co_packet_id sample_b)) (mk_net 1 0) with Ret (true, _) => true | _ => false end
                 = true) by (vm_compute; reflexivity).
    destruct (replay_check 1000 _ (mk_net 1 0)) as [[[|] r]| |]; try discriminate Hr. exists r. reflexivity.
  - exists p, a', q, b'. split; [exact Ep|]. split; [exact Eq|exact Hq].
Defined.
