(* ===== verification/DataPath.v ===== *)
(** * The path of a data packet (ssl.c, ssl_common.h, socket.h, forward.c)

    From a packet of the tunnel device to the bytes on the link: the choice of the key among
    the keys of the TLS sessions, the opcode and the peer identifier in front, fragmentation
    and encryption; and back: the choice of the key for a packet that arrives.  The sizes come
    from FrameCalc.v and the encryption from Crypto.v. *)

From Stdlib Require Import String.
From S2P Require Import Prelude CircList Buffer PacketId Mtu Fragment KeyCtx SampleLib Epoch Crypto Aead Channel FrameCalc.
#[local] Open Scope Z_scope.

(** ** Addresses of peers *)
Inductive addr_family : Type := AF_UNSPEC | AF_INET | AF_INET6.

(** The union of [sockaddr_in] and [sockaddr_in6]: the port has one place in both, and the
    IPv4 address lies where IPv6 has its flow label. *)
Record sockaddr : Type := mk_sa { sin_family : addr_family; sin_port : Z; sin_addr : Z; sin6_addr : bytes }.
#[export] Instance addr_family_eq : EqDecision addr_family.
Proof. solve_decision. Defined.

Definition addr_port_match (a1 a2 : sockaddr) : res bool :=
  match sin_family a1 with
  | AF_INET => Ret ((sin_addr a1 =? sin_addr a2) && (sin_port a1 =? sin_port a2))
  | AF_INET6 => Ret (bool_decide (sin6_addr a1 = sin6_addr a2) && (sin_port a1 =? sin_port a2))
  | AF_UNSPEC => Fatal
  end.
Definition link_socket_actual_match (a1 a2 : sockaddr) : res bool := addr_port_match a1 a2.

(** ** Constants *)
Definition P_KEY_ID_MASK : Z := 7.
Definition P_OPCODE_SHIFT : Z := 3.
Definition P_DATA_V1 : Z := 6.
Definition P_DATA_V2 : Z := 9.
Definition S_GENERATED_KEYS : Z := 8.
Definition KEY_SCAN_SIZE : Z := 3.
Definition CAS_CONNECT_DONE : Z := 8.

Inductive ks_auth_state : Type := KS_AUTH_FALSE | KS_AUTH_DEFERRED | KS_AUTH_TRUE.
#[export] Instance ks_auth_state_eq : EqDecision ks_auth_state.
Proof. solve_decision. Defined.

Section DataPath.
Context {cipher_ctx hmac_ctx : Type} `{CL : CryptoLib cipher_ctx hmac_ctx}.
#[local] Abbreviation crypto_options := (KeyCtx.crypto_options cipher_ctx hmac_ctx).

(** ** State *)

(** The fields of [struct key_state] the data channel uses. *)
Record key_state : Type := mk_ks {
  ks_state : Z;
  ks_key_id : Z;
  ks_authenticated : ks_auth_state;
  ks_auth_deferred_expire : Z;
  ks_remote_addr : sockaddr;
  ks_crypto_options : crypto_options;
  ks_n_bytes : Z;
  ks_n_packets : Z
}.
Definition set_ks_crypto (k : key_state) (co : crypto_options) : key_state :=
  mk_ks (ks_state k) (ks_key_id k) (ks_authenticated k) (ks_auth_deferred_expire k) (ks_remote_addr k) co
    (ks_n_bytes k) (ks_n_packets k).
(** [++ks->n_packets; ks->n_bytes += n;] *)
Definition ks_count (k : key_state) (n : Z) : key_state :=
  mk_ks (ks_state k) (ks_key_id k) (ks_authenticated k) (ks_auth_deferred_expire k) (ks_remote_addr k)
    (ks_crypto_options k) (u64 (ks_n_bytes k + n)) (u64 (ks_n_packets k + 1)).

(** [session[TM_SIZE]], each with [key[KS_SIZE]]; [save_ks] points to one of the keys of the
    scan and is given by its index there. *)
Record data_session : Type := mk_session { key_primary : key_state; key_lame_duck : key_state }.
Record tls_multi : Type := mk_multi {
  tm_active : data_session;
  tm_initial : data_session;
  tm_lame_duck : data_session;
  multi_state : Z;
  tm_use_peer_id : bool;
  tm_peer_id : Z;
  save_ks : option Z;
  n_soft_errors : Z
}.

Definition set_sessions (m : tls_multi) (a l : data_session) : tls_multi :=
  mk_multi a (tm_initial m) l (multi_state m) (tm_use_peer_id m) (tm_peer_id m) (save_ks m) (n_soft_errors m).
Definition set_save_ks (m : tls_multi) (s : option Z) : tls_multi :=
  mk_multi (tm_active m) (tm_initial m) (tm_lame_duck m) (multi_state m) (tm_use_peer_id m) (tm_peer_id m) s
    (n_soft_errors m).
Definition soft_error (m : tls_multi) : tls_multi :=
  mk_multi (tm_active m) (tm_initial m) (tm_lame_duck m) (multi_state m) (tm_use_peer_id m) (tm_peer_id m) (save_ks m)
    (n_soft_errors m + 1).

Definition get_key_scan (m : tls_multi) (index : Z) : res key_state :=
  if index =? 0 then Ret (key_primary (tm_active m))
  else if index =? 1 then Ret (key_lame_duck (tm_active m))
  else if index =? 2 then Ret (key_lame_duck (tm_lame_duck m))
  else Fatal.
(** Writing through the pointer [get_key_scan] returns. *)
Definition set_key_scan (m : tls_multi) (index : Z) (k : key_state) : tls_multi :=
  if index =? 0 then set_sessions m (mk_session k (key_lame_duck (tm_active m))) (tm_lame_duck m)
  else if index =? 1 then set_sessions m (mk_session (key_primary (tm_active m)) k) (tm_lame_duck m)
  else set_sessions m (tm_active m) (mk_session (key_primary (tm_lame_duck m)) k).

(** ** Sending *)
Fixpoint select_loop (n : nat) (i : Z) (now : Z) (m : tls_multi) (ks_select : option Z) : res (option Z) :=
  match n with
  | O => Ret ks_select
  | S n =>
      let! ks := get_key_scan m i in
      if (S_GENERATED_KEYS <=? ks_state ks) && bool_decide (ks_authenticated ks = KS_AUTH_TRUE) then
        assert! bi_initialized (co_keys (ks_crypto_options ks)) in
        let ks_select := match ks_select with None => Some i | Some _ => ks_select end in
        if ks_auth_deferred_expire ks <=? now then Ret (Some i)
        else select_loop n (i + 1) now m ks_select
      else select_loop n (i + 1) now m ks_select
  end.
Definition tls_select_encryption_key (now : Z) (m : tls_multi) : res (option Z) :=
  select_loop (Z.to_nat KEY_SCAN_SIZE) 0 now m None.

(** The third result is the key whose options the caller uses. *)
Definition tls_pre_encrypt (now : Z) (m : tls_multi) (buf : buffer) : res (tls_multi * buffer * option Z) :=
  let m := set_save_ks m None in
  if b_len buf <=? 0 then Ret (m, set_window buf (b_offset buf) 0, None)
  else
    let! ks_select := tls_select_encryption_key now m in
    match ks_select with
    | Some i => Ret (set_save_ks m (Some i), buf, Some i)
    | None => Ret (m, set_window buf (b_offset buf) 0, None)
    end.

Definition saved_key (m : tls_multi) : res key_state :=
  match save_ks m with Some i => get_key_scan m i | None => Fatal end.

Definition tls_prepend_opcode_v1 (m : tls_multi) (buf : buffer) : res buffer :=
  let! ks := saved_key m in
  let op := u8 (Z.lor (Z.shiftl P_DATA_V1 P_OPCODE_SHIFT) (ks_key_id ks)) in
  let! (ok, buf) := buf_write_prepend buf [op] in
  assert! ok in Ret buf.

Definition tls_prepend_opcode_v2 (m : tls_multi) (buf : buffer) : res buffer :=
  let! ks := saved_key m in
  let peer := be_bytes 4 (u32 (Z.lor (Z.shiftl (Z.lor (Z.shiftl P_DATA_V2 P_OPCODE_SHIFT) (ks_key_id ks)) 24)
                                     (Z.land (tm_peer_id m) 16777215))) in
  let! (ok, buf) := buf_write_prepend buf peer in
  assert! ok in Ret buf.

Definition tls_post_encrypt (m : tls_multi) (buf : buffer) : res tls_multi :=
  let ks := save_ks m in
  let m' := set_save_ks m None in
  if 0 <? b_len buf then
    match ks with
    | None => Fatal
    | Some i => let! k := get_key_scan m' i in Ret (set_key_scan m' i (ks_count k (b_len buf)))
    end
  else Ret m'.

(** The part of [struct context] a packet passes through.  [tls_multi] is NULL in static key
    mode; the compression is a function pointer of the negotiated algorithm. *)
Record path_ctx : Type := mk_dctx {
  dc_buf : buffer;
  dc_encrypt_buf : buffer;
  dc_frame : frame;
  dc_frame_fragment : frame;
  dc_fragment : option fragment_master;
  dc_tls_multi : option tls_multi;
  dc_crypto_options : crypto_options
}.
Definition with_buf (c : path_ctx) (b : buffer) : path_ctx :=
  mk_dctx b (dc_encrypt_buf c) (dc_frame c) (dc_frame_fragment c) (dc_fragment c) (dc_tls_multi c) (dc_crypto_options c).

Context (compress : option (buffer -> res buffer)).

(** [if (comp_frag)]: compression, then fragmentation. *)
Definition compress_fragment (c : path_ctx) : res path_ctx :=
  let! buf := match compress with Some f => f (dc_buf c) | None => Ret (dc_buf c) end in
  match dc_fragment c with
  | Some fm =>
      let! (buf, fm) := fragment_outgoing fm buf (dc_frame_fragment c) in
      Ret (mk_dctx buf (dc_encrypt_buf c) (dc_frame c) (dc_frame_fragment c) (Some fm) (dc_tls_multi c) (dc_crypto_options c))
  | None => Ret (with_buf c buf)
  end.

(** [openvpn_encrypt] does nothing without options. *)
Definition encrypt_tls (now : Z) (prng : bytes) (m : tls_multi) (buf work : buffer) : res (tls_multi * buffer) :=
  let! (m, buf, sel) := tls_pre_encrypt now m buf in
  let! work := (if (0 <? b_len buf) && tm_use_peer_id m then tls_prepend_opcode_v2 m work else Ret work) in
  let! (m, buf) :=
    match sel with
    | Some i =>
        let! k := get_key_scan m i in
        let! (buf, co) := openvpn_encrypt now prng buf work (ks_crypto_options k) in
        Ret (set_key_scan m i (set_ks_crypto k co), buf)
    | None => Ret (m, buf)
    end in
  let! buf := (if (0 <? b_len buf) && negb (tm_use_peer_id m) then tls_prepend_opcode_v1 m buf else Ret buf) in
  let! m := tls_post_encrypt m buf in
  Ret (m, buf).

Definition encrypt_sign (now : Z) (prng : bytes) (dco_enabled comp_frag : bool) (c : path_ctx) : res path_ctx :=
  let buf := dc_buf c in
  let buf := if dco_enabled then set_window buf (b_offset buf) 0 else buf in
  let buf := match dc_tls_multi c with
             | Some m => if multi_state m <? CAS_CONNECT_DONE then set_window buf (b_offset buf) 0 else buf
             | None => buf
             end in
  let! c := (if comp_frag then compress_fragment (with_buf c buf) else Ret (with_buf c buf)) in
  let '(ok, work) := buf_init_dowork (dc_encrypt_buf c) (headroom (dc_frame c)) in
  assert! ok in
  match dc_tls_multi c with
  | Some m =>
      let! (m, buf) := encrypt_tls now prng m (dc_buf c) work in
      Ret (mk_dctx buf work (dc_frame c) (dc_frame_fragment c) (dc_fragment c) (Some m) (dc_crypto_options c))
  | None =>
      let! (buf, co) := openvpn_encrypt now prng (dc_buf c) work (dc_crypto_options c) in
      Ret (mk_dctx buf work (dc_frame c) (dc_frame_fragment c) (dc_fragment c) None co)
  end.

(** ** Receiving *)

(** [BPTR (buf)] as an index; NULL is no index. *)
Definition bptr (buf : buffer) : Z := default (-1) (buf_bptr buf).

(** The key matches a packet from an address with a key id. *)
Definition key_hit (floated : bool) (from : sockaddr) (key_id : Z) (k : key_state) : res bool :=
  if (S_GENERATED_KEYS <=? ks_state k) && (key_id =? ks_key_id k) && bool_decide (ks_authenticated k = KS_AUTH_TRUE)
  then if floated then Ret true else link_socket_actual_match from (ks_remote_addr k)
  else Ret false.

(** The header of a packet for a key: what follows it, and the start of the authenticated data;
    or no key and an empty packet. *)
Definition take_packet (m : tls_multi) (i : Z) (ks : key_state) (buf : buffer) (op : Z)
  : res (tls_multi * buffer * option (Z * Z)) :=
  assert! bi_initialized (co_keys (ks_crypto_options ks)) in
  let ad_start := if op =? P_DATA_V2 then bptr buf else -1 in
  let '(ok, buf) := buf_advance buf 1 in
  assert! ok in
  if op =? P_DATA_V1 then Ret (set_key_scan m i (ks_count ks (b_len buf)), buf, Some (i, bptr buf))
  else if op =? P_DATA_V2 then
    if b_len buf <? 4 then Ret (soft_error m, set_window buf (b_offset buf) 0, None)
    else
      let '(ok, buf) := buf_advance buf 3 in
      assert! ok in Ret (set_key_scan m i (ks_count ks (b_len buf)), buf, Some (i, ad_start))
  else Ret (set_key_scan m i (ks_count ks (b_len buf)), buf, Some (i, ad_start)).

Fixpoint data_packet_loop (n : nat) (i : Z) (m : tls_multi) (from : sockaddr) (buf : buffer) (floated : bool) (op key_id : Z)
  : res (tls_multi * buffer * option (Z * Z)) :=
  match n with
  | O => Ret (m, set_window buf (b_offset buf) 0, None)
  | S n =>
      let! ks := get_key_scan m i in
      let! hit := key_hit floated from key_id ks in
      if hit then take_packet m i ks buf op
      else data_packet_loop n (i + 1) m from buf floated op key_id
  end.
Definition handle_data_channel_packet (m : tls_multi) (from : sockaddr) (buf : buffer) (floated : bool)
  : res (tls_multi * buffer * option (Z * Z)) :=
  let! c := buf_peek buf (b_offset buf) 1 in
  let! c := arr_get c 0 in
  let op := Z.shiftr c P_OPCODE_SHIFT in
  let key_id := Z.land c P_KEY_ID_MASK in
  data_packet_loop (Z.to_nat KEY_SCAN_SIZE) 0 m from buf floated op key_id.

(** A data packet through [process_incoming_link_part1]: the key, then decryption with the
    options it points to.  A connection that is not established drops the packet. *)
Definition incoming_data_packet (now : Z) (m : tls_multi) (from : sockaddr) (buf work : buffer) (f : frame) (floated : bool)
  : res (bool * buffer * tls_multi) :=
  let! (m, buf, sel) := handle_data_channel_packet m from buf floated in
  let buf := if multi_state m <? CAS_CONNECT_DONE then set_window buf (b_offset buf) 0 else buf in
  match sel with
  | Some (i, ad_start) =>
      let! k := get_key_scan m i in
      let! (ok, buf, co) := openvpn_decrypt now buf work (ks_crypto_options k) f ad_start in
      Ret (ok, buf, set_key_scan m i (set_ks_crypto k co))
  | None => Ret (true, buf, m)
  end.

(** ** Which key *)
Definition scan (m : tls_multi) : list key_state :=
  [key_primary (tm_active m); key_lame_duck (tm_active m); key_lame_duck (tm_lame_duck m)].
(** The key may carry data, and its deferred authentication has expired. *)
Definition usable (k : key_state) : Prop := S_GENERATED_KEYS <= ks_state k /\ ks_authenticated k = KS_AUTH_TRUE.
Definition settled (now : Z) (k : key_state) : Prop := usable k /\ ks_auth_deferred_expire k <= now.
#[export] Instance usable_dec k : Decision (usable k).
Proof. unfold usable. apply _. Defined.
#[export] Instance settled_dec now k : Decision (settled now k).
Proof. unfold settled. apply _. Defined.
(** Keys that may carry data have been installed. *)
Definition keys_installed (m : tls_multi) : Prop :=
  Forall (fun k => usable k -> bi_initialized (co_keys (ks_crypto_options k)) = true) (scan m).

Lemma get_scan m i k : get_key_scan m i = Ret k <-> 0 <= i /\ scan m !! Z.to_nat i = Some k.
Proof.
  unfold get_key_scan, scan. destruct (Z.eqb_spec i 0) as [-> | H0]; [split; [by intros [= <-]|by intros [_ [= <-]]]|].
  destruct (Z.eqb_spec i 1) as [-> | H1]; [split; [by intros [= <-]|by intros [_ [= <-]]]|].
  destruct (Z.eqb_spec i 2) as [-> | H2]; [split; [by intros [= <-]|by intros [_ [= <-]]]|].
  split; [done|]. intros [Hi Hk]. apply lookup_lt_Some in Hk. cbn in Hk. lia.
Qed.

Lemma scan_set m i k : 0 <= i < 3 -> scan (set_key_scan m i k) = <[Z.to_nat i := k]> (scan m).
Proof.
  intros Hi. assert (i = 0 \/ i = 1 \/ i = 2) as [-> | [-> | ->]] by lia; done.
Qed.

Lemma usable_bool k :
  (S_GENERATED_KEYS <=? ks_state k) && bool_decide (ks_authenticated k = KS_AUTH_TRUE) = bool_decide (usable k).
Proof.
  unfold usable. destruct (Z.leb_spec S_GENERATED_KEYS (ks_state k)); cbn [andb];
    repeat case_bool_decide; try done; naive_solver lia.
Qed.

Lemma select_spec now m :
  keys_installed m ->
  tls_select_encryption_key now m
  = Ret (match list_find (settled now) (scan m) with
         | Some (i, _) => Some (Z.of_nat i)
         | None => (fun x => Z.of_nat x.1) <$> list_find usable (scan m)
         end).
Proof.
  unfold keys_installed, scan. rewrite !Forall_cons. intros (H0 & H1 & H2 & _).
  unfold tls_select_encryption_key. change (Z.to_nat KEY_SCAN_SIZE) with 3%nat. cbn [select_loop].
  change (get_key_scan m 0) with (Ret (key_primary (tm_active m))).
  change (get_key_scan m (0 + 1)) with (Ret (key_lame_duck (tm_active m))).
  change (get_key_scan m (0 + 1 + 1)) with (Ret (key_lame_duck (tm_lame_duck m))).
  cbn [res_bind]. rewrite !usable_bool.
  assert (Hs : forall k, usable k -> (ks_auth_deferred_expire k <=? now) = bool_decide (settled now k)).
  { intros k Hk. unfold settled. destruct (Z.leb_spec (ks_auth_deferred_expire k) now); case_bool_decide; try done;
      naive_solver lia. }
  assert (Hn : forall k, ~ usable k -> ~ settled now k) by (unfold settled; naive_solver).
  assert (Hp : forall k, settled now k -> usable k) by (unfold settled; naive_solver).
  repeat match goal with
  | |- context [bool_decide (usable ?k)] =>
      destruct (decide (usable k)) as [? | ?];
      [rewrite (bool_decide_eq_true_2 (usable k)) by done; rewrite (Hs k) by done
      |rewrite (bool_decide_eq_false_2 (usable k)) by done; pose proof (Hn k ltac:(done))]
  end;
  rewrite ?H0, ?H1, ?H2 by done; unfold list_find;
  repeat (case_bool_decide || case_decide; try done).
Qed.

(** ** What is sent *)

(** The bytes in front of the packet identifier. *)
Definition opcode_v2 (m : tls_multi) (k : key_state) : bytes :=
  be_bytes 4 (u32 (Z.lor (Z.shiftl (Z.lor (Z.shiftl P_DATA_V2 P_OPCODE_SHIFT) (ks_key_id k)) 24)
                         (Z.land (tm_peer_id m) 16777215))).
Definition opcode_v1 (k : key_state) : bytes := [u8 (Z.lor (Z.shiftl P_DATA_V1 P_OPCODE_SHIFT) (ks_key_id k))].
Definition opcode (m : tls_multi) (k : key_state) : bytes := if tm_use_peer_id m then opcode_v2 m k else opcode_v1 k.
(** What the authentication covers of it. *)
Definition opcode_ad (m : tls_multi) (k : key_state) : bytes := if tm_use_peer_id m then opcode_v2 m k else [].

Lemma opcode_v2_bytes m k : bytes_ok (opcode_v2 m k) /\ Zlen (opcode_v2 m k) = 4.
Proof. split; [apply be_bytes_ok|apply Zlen_be_bytes]. Qed.

Lemma get_scan_save m s i : get_key_scan (set_save_ks m s) i = get_key_scan m i.
Proof. done. Qed.

Lemma get_set_key_scan m i k : 0 <= i < 3 -> get_key_scan (set_key_scan m i k) i = Ret k.
Proof.
  intros Hi. apply get_scan. split; [lia|]. rewrite scan_set by done.
  apply list_lookup_insert_eq. change (length (scan m)) with 3%nat. lia.
Qed.

Section Sent.
Context (now : Z) (prng : bytes) (m : tls_multi) (buf work : buffer) (i : Z) (k : key_state).
Context (hb : Z) (plain : bytes) (tb hw tw : Z).
Context (Hsel : tls_select_encryption_key now (set_save_ks m None) = Ret (Some i)) (Hk : get_key_scan m i = Ret k).
Context (Hbuf : buf_repr buf hb plain tb) (Hplain : plain <> []) (Hwork : buf_repr work hw [] tw) (Hhw : 4 <= hw).
(** What the encryption makes of the payload behind the authenticated part of the header. *)
Context (Q : crypto_options -> bytes -> Prop).
Context (Henc : forall work' hw', buf_repr work' hw' (opcode_ad m k) tw ->
           exists p co' body t, openvpn_encrypt now prng buf work' (ks_crypto_options k) = Ret (p, co')
             /\ buf_repr p hw' (opcode_ad m k ++ body) t /\ body <> [] /\ Q co' body).

Lemma payload_pos : 0 < b_len buf.
Proof using Hbuf Hplain.
  buf_facts Hbuf. destruct plain as [|x l]; [done|]. rewrite Zlen_cons in *. pose proof (Zlen_nonneg l). lia.
Qed.

Lemma sel_range : 0 <= i < 3.
Proof using Hk. apply get_scan in Hk as [? H%lookup_lt_Some]. cbn in H. lia. Qed.

Lemma work_ready :
  exists w, (if tm_use_peer_id m then tls_prepend_opcode_v2 (set_save_ks m (Some i)) work else Ret work) = Ret w
    /\ buf_repr w (hw - Zlen (opcode_ad m k)) (opcode_ad m k) tw.
Proof using Hk Hwork Hhw.
  unfold opcode_ad. destruct (tm_use_peer_id m); [|exists work; split; [done|by rewrite Z.sub_0_r]].
  unfold tls_prepend_opcode_v2, saved_key. change (save_ks (set_save_ks m (Some i))) with (Some i). cbv iota.
  rewrite get_scan_save, Hk. cbn [res_bind]. change (be_bytes 4 _) with (opcode_v2 m k). destruct (opcode_v2_bytes m k) as [Hok Hl].
  destruct (buf_write_prepend_repr _ _ _ _ Hwork (opcode_v2 m k) Hok) as (w & -> & Hw); [lia|].
  exists w. split; [done|]. by rewrite app_nil_r in Hw.
Qed.

Lemma opcode_done m2 p co' body t :
  save_ks m2 = Some i -> get_key_scan m2 i = Ret (set_ks_crypto k co') ->
  buf_repr p (hw - Zlen (opcode_ad m k)) (opcode_ad m k ++ body) t ->
  exists q t', (if negb (tm_use_peer_id m) then tls_prepend_opcode_v1 m2 p else Ret p) = Ret q
    /\ buf_repr q (hw - Zlen (opcode m k)) (opcode m k ++ body) t'.
Proof using Hhw.
  clear Henc. intros Hs Hg Hp. unfold opcode, opcode_ad in *. destruct (tm_use_peer_id m); cbn [negb]; [eauto|].
  unfold tls_prepend_opcode_v1, saved_key. rewrite Hs, Hg. cbn [res_bind ks_key_id set_ks_crypto].
  change [u8 _] with (opcode_v1 k). change (Zlen []) with 0 in Hp. rewrite Z.sub_0_r in Hp.
  destruct (buf_write_prepend_repr _ _ _ _ Hp (opcode_v1 k)) as (q & -> & Hq).
  { repeat constructor; apply u8_range. } { change (Zlen (opcode_v1 k)) with 1. lia. }
  eauto.
Qed.

Lemma encrypt_tls_sent :
  exists m' p t' co' body, encrypt_tls now prng m buf work = Ret (m', p) /\ Q co' body
    /\ buf_repr p (hw - Zlen (opcode m k)) (opcode m k ++ body) t'
    /\ save_ks m' = None /\ tm_use_peer_id m' = tm_use_peer_id m
    /\ scan m' = <[Z.to_nat i := ks_count (set_ks_crypto k co') (Zlen (opcode m k) + Zlen body)]> (scan m).
Proof using All.
  pose proof payload_pos as Hpos. pose proof sel_range as Hi.
  unfold encrypt_tls, tls_pre_encrypt. rewrite (proj2 (Z.leb_gt _ _)) by lia. rewrite Hsel. cbn [res_bind].
  change (set_save_ks (set_save_ks m None) (Some i)) with (set_save_ks m (Some i)).
  rewrite (proj2 (Z.ltb_lt 0 (b_len buf))) by lia. cbn [andb].
  change (tm_use_peer_id (set_save_ks m (Some i))) with (tm_use_peer_id m).
  destruct work_ready as (w & -> & Hw). cbn [res_bind].
  rewrite get_scan_save, Hk. cbn [res_bind].
  destruct (Henc w _ Hw) as (p & co' & body & t & -> & Hp & Hbody & HQ). cbn [res_bind].
  set (m2 := set_key_scan (set_save_ks m (Some i)) i (set_ks_crypto k co')).
  assert (Hu : tm_use_peer_id m2 = tm_use_peer_id m) by (unfold m2, set_key_scan; repeat case_match; done).
  assert (Hs : save_ks m2 = Some i) by (unfold m2, set_key_scan; repeat case_match; done).
  assert (Hg : get_key_scan m2 i = Ret (set_ks_crypto k co')) by (by apply get_set_key_scan).
  buf_facts Hp. pose proof (Zlen_nonneg (opcode_ad m k)).
  assert (0 < Zlen body) by (destruct body as [|x l]; [done|rewrite Zlen_cons; pose proof (Zlen_nonneg l); lia]).
  rewrite Zlen_app in *. rewrite (proj2 (Z.ltb_lt 0 (b_len p))), Hu by lia. cbn [andb].
  destruct (opcode_done m2 p co' body t Hs Hg Hp) as (q & t' & -> & Hq). cbn [res_bind].
  pose proof (buf_repr_fields _ _ _ _ Hq) as (_ & Lq & _). rewrite Zlen_app in Lq.
  pose proof (Zlen_nonneg (opcode m k)). unfold tls_post_encrypt.
  rewrite (proj2 (Z.ltb_lt 0 (b_len q))), Hs, get_scan_save, Hg by lia. cbn [res_bind].
  eexists _, q, t', co', body. split; [done|]. split; [done|]. split; [done|]. rewrite Lq.
  split; [unfold set_key_scan; repeat case_match; done|].
  split; [rewrite <- Hu; unfold set_key_scan; repeat case_match; done|].
  rewrite scan_set by done. change (scan (set_save_ks m2 None)) with (scan m2). unfold m2.
  rewrite scan_set by done. by rewrite list_insert_insert_eq.
Qed.
End Sent.

(** The buffer of a context for outgoing packets, from its allocation on. *)
Definition link_buffer (f : frame) (b : buffer) : Prop := buf_wf b /\ b_data b <> None /\ b_capacity b = BUF_SIZE f.

Lemma packet_buffer_init f b :
  link_buffer f b -> 0 <= headroom f -> 0 <= payload_size f + tailroom f ->
  exists w, buf_init_dowork b (headroom f) = (true, w) /\ buf_repr w (headroom f) [] (payload_size f + tailroom f)
    /\ link_buffer f w.
Proof using.
  intros (Hwf & Hd & Hc) Hh Ht. destruct (buf_init_repr b (headroom f) Hwf Hd) as (w & E & R).
  { rewrite Hc. unfold BUF_SIZE. lia. }
  replace (b_capacity b - headroom f) with (payload_size f + tailroom f) in R by (rewrite Hc; unfold BUF_SIZE; lia).
  exists w. split; [done|]. split; [done|]. pose proof (buf_repr_wf _ _ _ _ R). destruct R as (pre & post & (Hw & _) & _).
  split; [done|]. split; [by rewrite Hw|]. revert E. unfold buf_init_dowork. destruct (_ || _); [done|]. by intros [= <-].
Qed.

Lemma encrypt_sign_tls now prng comp_frag c m m' p work :
  dc_tls_multi c = Some m -> CAS_CONNECT_DONE <= multi_state m -> comp_frag = false \/ (compress = None /\ dc_fragment c = None) ->
  buf_init_dowork (dc_encrypt_buf c) (headroom (dc_frame c)) = (true, work) ->
  encrypt_tls now prng m (dc_buf c) work = Ret (m', p) ->
  encrypt_sign now prng false comp_frag c
  = Ret (mk_dctx p work (dc_frame c) (dc_frame_fragment c) (dc_fragment c) (Some m') (dc_crypto_options c)).
Proof.
  intros Hm Hs Hcf Hi He. unfold encrypt_sign. rewrite Hm, (proj2 (Z.ltb_ge _ _)) by done.
  assert (E : (if comp_frag then compress_fragment (with_buf c (dc_buf c)) else Ret (with_buf c (dc_buf c)))
              = Ret (with_buf c (dc_buf c))).
  { destruct comp_frag; [|done]. destruct Hcf as [? | [Hc Hf]]; [done|]. unfold compress_fragment. rewrite Hc. cbn [res_bind].
    change (dc_fragment (with_buf c (dc_buf c))) with (dc_fragment c). by rewrite Hf. }
  rewrite E. cbn [res_bind]. change (dc_encrypt_buf (with_buf c (dc_buf c))) with (dc_encrypt_buf c).
  change (dc_frame (with_buf c (dc_buf c))) with (dc_frame c). rewrite Hi.
  change (dc_tls_multi (with_buf c (dc_buf c))) with (dc_tls_multi c). rewrite Hm.
  change (dc_buf (with_buf c (dc_buf c))) with (dc_buf c). rewrite He. done.
Qed.

(** ** Packets of the two formats *)
Section Formats.
Context `{DL : !DeriveLaws cipher_ctx hmac_ctx} `{AL : !AeadLaws cipher_ctx hmac_ctx}.
Context (now : Z) (prng : bytes) (comp_frag : bool) (c : path_ctx) (m : tls_multi) (i : Z) (k : key_state).
Context (hb : Z) (plain : bytes) (tb : Z).
Abbreviation f := (dc_frame c).
Context (Hm : dc_tls_multi c = Some m) (Hst : CAS_CONNECT_DONE <= multi_state m).
Context (Hcf : comp_frag = false \/ (compress = None /\ dc_fragment c = None)).
Context (Hsel : tls_select_encryption_key now (set_save_ks m None) = Ret (Some i)) (Hk : get_key_scan m i = Ret k).
Context (Hframe : 4 <= headroom f /\ 40 <= tailroom f).
Context (Hwork : link_buffer f (dc_encrypt_buf c)).
Context (Hbuf : buf_repr (dc_buf c) hb plain tb) (Hplain : plain <> []) (Hlen : Zlen plain <= payload_size f).

(** The packet [body] behind the opcode, with the state after it. *)
Definition packet_out (c' : path_ctx) (co' : crypto_options) (body : bytes) : Prop :=
  contents (dc_buf c') = opcode m k ++ body
  /\ link_buffer f (dc_encrypt_buf c') /\ dc_frame c' = f
  /\ exists m', dc_tls_multi c' = Some m'
       /\ scan m' = <[Z.to_nat i := ks_count (set_ks_crypto k co') (Zlen (opcode m k) + Zlen body)]> (scan m).

Lemma encrypt_sign_with (Q : crypto_options -> bytes -> Prop) :
  (forall work hw, buf_repr work hw (opcode_ad m k) (payload_size f + tailroom f) ->
     exists p co' body t, openvpn_encrypt now prng (dc_buf c) work (ks_crypto_options k) = Ret (p, co')
       /\ buf_repr p hw (opcode_ad m k ++ body) t /\ body <> [] /\ Q co' body) ->
  exists c' co' body, encrypt_sign now prng false comp_frag c = Ret c' /\ packet_out c' co' body /\ Q co' body.
Proof using All.
  intros Henc. pose proof (Zlen_nonneg plain).
  destruct (packet_buffer_init f _ Hwork) as (w & Ew & Rw & Pw); [lia|lia|].
  destruct (encrypt_tls_sent now prng m (dc_buf c) w i k hb plain tb _ _ Hsel Hk Hbuf Hplain Rw ltac:(lia) Q Henc)
    as (m' & p & t' & co' & body & E & HQ & Hp & _ & _ & Hs).
  eexists _, co', body. split; [exact (encrypt_sign_tls _ _ _ _ _ _ _ _ Hm Hst Hcf Ew E)|]. split; [|done].
  split; [exact (buf_repr_contents _ _ _ _ Hp)|]. split; [done|]. split; [done|]. exists m'. done.
Qed.

(** With epoch keys. *)
Lemma encrypt_sign_epoch kt e1_send e1_recv n d s acc :
  kt_ok kt -> key_ok e1_send -> key_ok e1_recv ->
  channel kt e1_send e1_recv n d s (ks_crypto_options k) acc -> s < UINT16_MAX ->
  exists c' co' s' ct tag, encrypt_sign now prng false comp_frag c = Ret c'
    /\ let pid := pid_bytes true s' (send_id (pid_send (co_packet_id co'))) in
       packet_out c' co' (pid ++ packet_body true ct tag)
       /\ channel kt e1_send e1_recv n d s' co' acc /\ s' <= s + 1
       /\ 0 < send_id (pid_send (co_packet_id co'))
       /\ sealed (data_key kt e1_send s') (kt_cipher kt)
            (nonce (cipher_kt_iv_size (kt_cipher kt)) pid (implicit_iv (send_key kt e1_send s')))
            (opcode_ad m k ++ pid) plain ct tag.
Proof using All.
  intros Hkt Hes Her C Hs.
  set (Q := fun co' body => exists s' ct tag, let pid := pid_bytes true s' (send_id (pid_send (co_packet_id co'))) in
       body = pid ++ packet_body true ct tag
       /\ channel kt e1_send e1_recv n d s' co' acc /\ s' <= s + 1 /\ 0 < send_id (pid_send (co_packet_id co'))
       /\ sealed (data_key kt e1_send s') (kt_cipher kt)
            (nonce (cipher_kt_iv_size (kt_cipher kt)) pid (implicit_iv (send_key kt e1_send s')))
            (opcode_ad m k ++ pid) plain ct tag).
  destruct (encrypt_sign_with Q) as (c' & co' & body & E & Hout & s' & ct & tag & -> & HC & H1 & H2 & H3);
    [|by exists c', co', s', ct, tag].
  intros work hw Hw.
  destruct (encrypt_step kt e1_send e1_recv n Hkt Hes Her now prng (dc_buf c) work hb plain tb hw _ _ Hbuf Hplain Hw
              ltac:(lia) _ _ _ _ C) as (p & co' & s' & E & C' & [(_ & _ & ? & _) | ((ct & tag & t & Hp & Hsl) & Hpos)]);
    [lia|].
  exists p, co', (pid_bytes true s' (send_id (pid_send (co_packet_id co'))) ++ packet_body true ct tag), t.
  split; [done|]. split; [done|]. pose proof (ch_send _ _ _ _ _ _ _ _ C). split.
  - intros H0%(f_equal Zlen). rewrite Zlen_app, Zlen_pid_bytes in H0. change (Zlen []) with 0 in H0.
    pose proof (Zlen_nonneg (packet_body true ct tag)). unfold pid_len in H0. lia.
  - exists s', ct, tag. split; [done|]. split; [done|]. split; [lia|]. split; [lia|done].
Qed.

(** With one key for the whole session. *)
Lemma encrypt_sign_legacy kb cn :
  aead_ctx true kb cn (bi_encrypt (co_keys (ks_crypto_options k))) ->
  flag (ks_crypto_options k) CO_EPOCH_DATA_KEY_FORMAT = false ->
  packet_id_initialized (co_packet_id (ks_crypto_options k)) = true ->
  forall send', packet_id_send_update now (pid_send (co_packet_id (ks_crypto_options k))) false = (true, send') ->
  exists c' co' ct tag, encrypt_sign now prng false comp_frag c = Ret c'
    /\ packet_out c' co' (pid_bytes false 0 (send_id send') ++ packet_body false ct tag)
    /\ Zlen ct = Zlen plain /\ Zlen tag = OPENVPN_AEAD_TAG_LENGTH.
Proof using All.
  intros Hctx Hfl Hin send' Hs.
  set (Q := fun (co' : crypto_options) body => exists ct tag, body = pid_bytes false 0 (send_id send') ++ packet_body false ct tag
       /\ Zlen ct = Zlen plain /\ Zlen tag = OPENVPN_AEAD_TAG_LENGTH).
  destruct (encrypt_sign_with Q) as (c' & co' & body & E & Hout & ct & tag & -> & H1 & H2); [|by exists c', co', ct, tag].
  intros work hw Hw. pose proof (payload_pos (dc_buf c) hb plain tb Hbuf Hplain) as Hpos.
  destruct (aead_seal_spec false now (dc_buf c) work (ks_crypto_options k) kb cn hb plain tb hw (opcode_ad m k) _ Hctx Hin Hbuf Hw
              ltac:(unfold pid_len; lia) send' Hs) as (p & ct & tag & E & Hp & (Lc & _ & Lt & _)).
  unfold openvpn_encrypt. rewrite (proj2 (Z.ltb_lt _ _)) by lia.
  rewrite (ac_cipher _ _ _ _ Hctx), law_mode_aead, (ac_mode _ _ _ _ Hctx). unfold openvpn_encrypt_aead. rewrite Hfl.
  eexists p, _, _, _. split; [exact E|]. split; [exact Hp|]. split.
  - intros H0%(f_equal Zlen). rewrite Zlen_app, Zlen_pid_bytes in H0. change (Zlen []) with 0 in H0.
    pose proof (Zlen_nonneg (packet_body false ct tag)). unfold pid_len in H0. lia.
  - by exists ct, tag.
Qed.

(** A key that can encrypt, in the format with epochs or without. *)
Definition key_ready (ep : bool) (kt : key_type) : Prop :=
  if ep
  then exists e1_send e1_recv n d s acc, kt_ok kt /\ key_ok e1_send /\ key_ok e1_recv
         /\ channel kt e1_send e1_recv n d s (ks_crypto_options k) acc /\ s < UINT16_MAX
  else exists kb send', aead_ctx true kb (kt_cipher kt) (bi_encrypt (co_keys (ks_crypto_options k)))
         /\ flag (ks_crypto_options k) CO_EPOCH_DATA_KEY_FORMAT = false
         /\ packet_id_initialized (co_packet_id (ks_crypto_options k)) = true
         /\ packet_id_send_update now (pid_send (co_packet_id (ks_crypto_options k))) false = (true, send').

Lemma encrypt_sign_length ep kt :
  key_ready ep kt ->
  exists c' co' body, encrypt_sign now prng false comp_frag c = Ret c' /\ packet_out c' co' body
    /\ Zlen body = pid_len ep + Zlen plain + OPENVPN_AEAD_TAG_LENGTH.
Proof using All.
  destruct ep; cbn [key_ready].
  - intros (e1 & e2 & n & d & s & acc & Hkt & He1 & He2 & C & Hs).
    destruct (encrypt_sign_epoch kt e1 e2 n d s acc Hkt He1 He2 C Hs) as (c' & co' & s' & ct & tag & E & Hout & _ & _ & _ & Hsl).
    destruct Hsl as (Lc & _ & Lt & _). eexists c', co', _. split; [done|]. split; [exact Hout|].
    unfold packet_body. rewrite !Zlen_app, Zlen_pid_bytes. lia.
  - intros (kb & send' & Hctx & Hfl & Hin & Hs).
    destruct (encrypt_sign_legacy kb _ Hctx Hfl Hin send' Hs) as (c' & co' & ct & tag & E & Hout & Lc & Lt).
    eexists c', co', _. split; [done|]. split; [exact Hout|].
    unfold packet_body. rewrite !Zlen_app, Zlen_pid_bytes. lia.
Qed.
End Formats.

Lemma opcode_len m k : Zlen (opcode m k) = if tm_use_peer_id m then 4 else 1.
Proof. unfold opcode. destruct (tm_use_peer_id m); [apply Zlen_be_bytes|done]. Qed.

(** The size [link_size] computes for an AEAD cipher in TLS mode over UDP. *)
Lemma link_size_aead `{DL : !DeriveLaws cipher_ctx hmac_ctx} kt o lsi n :
  cipher_kt_mode_aead (kt_cipher kt) = true -> tlsmode o = true ->
  ce_proto (ce o) = PROTO_UDP -> ce_socks_proxy_server (ce o) = false ->
  link_size kt o lsi false n = (if FrameCalc.use_peer_id o then 4 else 1) + 4 + OPENVPN_AEAD_TAG_LENGTH + n.
Proof.
  intros Ha Ht Hp Hs. destruct (law_modes _ Ha) as [Hc Hof].
  unfold link_size, header_size, ciphered_size, calculate_crypto_overhead, calc_packet_id_size_dc.
  rewrite Ha, Ht, Hp, Hs, Hc, Hof, (law_tag_size _ Ha). cbn [negb andb orb]. unfold packet_id_size, OPENVPN_AEAD_TAG_LENGTH.
  change (u32 (4 + 0 + 16)) with 20. change (PROTO_UDP =? PROTO_TCP_CLIENT) with false.
  change (PROTO_UDP =? PROTO_TCP_SERVER) with false. cbn [orb]. lia.
Qed.

(** A tunnel packet that can be sent: the connection is established, a key is chosen, the
    buffer for the result is there, and the packet fits the payload size. *)
Record sendable (now : Z) (comp_frag : bool) (c : path_ctx) (m : tls_multi) (i : Z) (k : key_state) (plain : bytes) : Prop := {
  sd_multi : dc_tls_multi c = Some m;
  sd_state : CAS_CONNECT_DONE <= multi_state m;
  sd_filters : comp_frag = false \/ (compress = None /\ dc_fragment c = None);
  sd_select : tls_select_encryption_key now (set_save_ks m None) = Ret (Some i);
  sd_key : get_key_scan m i = Ret k;
  sd_work : link_buffer (dc_frame c) (dc_encrypt_buf c);
  sd_buf : exists hb tb, buf_repr (dc_buf c) hb plain tb;
  sd_plain : plain <> [];
  sd_len : Zlen plain <= payload_size (dc_frame c)
}.

Lemma sendable_length `{DL : !DeriveLaws cipher_ctx hmac_ctx} `{AL : !AeadLaws cipher_ctx hmac_ctx}
    now prng comp_frag c m i k plain ep kt :
  sendable now comp_frag c m i k plain -> 4 <= headroom (dc_frame c) /\ 40 <= tailroom (dc_frame c) ->
  key_ready now k ep kt ->
  exists c' co' body, encrypt_sign now prng false comp_frag c = Ret c' /\ packet_out c m i k c' co' body
    /\ Zlen body = pid_len ep + Zlen plain + OPENVPN_AEAD_TAG_LENGTH.
Proof. intros [Hm Hs Hf Hsel Hk Hw (hb & tb & Hb) Hp Hl] Hfr. by apply (encrypt_sign_length _ _ _ _ _ _ _ hb plain tb). Qed.

(** C10: The buffers that frame_finalize_options sizes have room for every packet.  They can be
    allocated, and encrypt_sign on any tunnel packet up to the payload size returns, in the
    format with epoch keys and in the older one: no assertion fails, no packet is dropped for
    lack of room, the result is the opcode (with the peer id if negotiated), the packet
    identifier, the ciphertext and the tag, to the byte, the counters of the key that was
    chosen are advanced and no other key is touched. *)
Theorem finalized_buffers_suffice `{DL : !DeriveLaws cipher_ctx hmac_ctx} `{AL : !AeadLaws cipher_ctx hmac_ctx}
    (use_comp : bool) (f0 : frame) (kt0 kt : key_type) (o : options) (now : Z) (prng : bytes) (comp_frag : bool)
    (c : path_ctx) (m : tls_multi) (i : Z) (k : key_state) (plain : bytes) (ep : bool) :
  mtu_options_ok o -> frame_finalize_options use_comp f0 kt0 o = Ret (dc_frame c) ->
  sendable now comp_frag c m i k plain -> key_ready now k ep kt ->
  (exists b, alloc_buf_sock_tun (dc_frame c) = Ret b /\ link_buffer (dc_frame c) b)
  /\ exists c' co' body, encrypt_sign now prng false comp_frag c = Ret c' /\ packet_out c m i k c' co' body
       /\ Zlen body = pid_len ep + Zlen plain + OPENVPN_AEAD_TAG_LENGTH.
Proof.
  intros Ho Hf Hs Hk. destruct (finalized_buffer use_comp f0 kt0 o Ho) as (f' & b & b' & E & Ea & Wf & Hd & Hc & Ei & R & Hh & Ht & Hp).
  rewrite Hf in E. injection E as <-. split; [by exists b|]. apply (sendable_length now prng comp_frag c m i k plain ep kt Hs); [lia|done].
Qed.

(** The limits of --mssfix are kept to the byte in the older packet format and exceeded by
    four bytes with epoch keys.  For the segment size that frame_calculate_dynamic computes for
    an AEAD cipher over UDP, the packet that encrypt_sign puts on the link for a full segment
    has exactly mssfix bytes without epoch keys; with them the packet identifier has 8 bytes
    where calc_packet_id_size_dc counts 4, and the packet has mssfix + 4 bytes. *)
Lemma epoch_packets_exceed_mssfix `{DL : !DeriveLaws cipher_ctx hmac_ctx} `{AL : !AeadLaws cipher_ctx hmac_ctx}
    (use_comp : bool) (f0 : frame) (kt : key_type) (o : options) (lsi : link_socket_info) (now : Z) (prng : bytes)
    (comp_frag : bool) (c : path_ctx) (m : tls_multi) (i : Z) (k : key_state) (plain : bytes) (ep : bool) :
  sizes_ok kt -> cipher_kt_mode_aead (kt_cipher kt) = true -> tlsmode o = true ->
  ce_proto (ce o) = PROTO_UDP -> ce_socks_proxy_server (ce o) = false -> FrameCalc.use_peer_id o = tm_use_peer_id m ->
  0 <= extra_tun f0 <= 65535 -> ce_fragment (ce o) = 0 ->
  ce_mssfix_fixed (ce o) = false -> ce_mssfix_encap (ce o) = false ->
  0 < ce_mssfix (ce o) <= 65535 -> segment_size use_comp f0 kt o lsi 0 <= ce_mssfix (ce o) ->
  frame_calculate_dynamic use_comp f0 kt o lsi = Ret (dc_frame c) ->
  4 <= headroom (dc_frame c) /\ 40 <= tailroom (dc_frame c) ->
  sendable now comp_frag c m i k plain -> key_ready now k ep kt ->
  Zlen plain = inner_overhead use_comp f0 kt o + (20 + 20) + mss_fix (dc_frame c) ->
  exists c', encrypt_sign now prng false comp_frag c = Ret c'
    /\ Zlen (contents (dc_buf c')) = ce_mssfix (ce o) + (if ep then 4 else 0).
Proof.
  intros Hk Ha Ht Hp Hs Hpeer Hx Hg Hf He Hm Hseg Hc Hroom Hsend Hkey Hlen.
  destruct (sendable_length now prng comp_frag c m i k plain ep kt Hsend Hroom Hkey) as (c' & co' & body & E & Hout & Lb).
  exists c'. split; [done|]. destruct Hout as [-> _]. rewrite Zlen_app, Lb, opcode_len, Hlen.
  assert (Hpo : proto_ok o) by (unfold proto_ok; rewrite Hp; unfold PROTO_UDP, PROTO_N; lia).
  destruct (mssfix_spec use_comp f0 kt o lsi Hk Hpo Hx Hf) as (n & En & Hn & Hiff); [lia|].
  assert (Hc' : dc_frame c = set_mss_fix f0 n).
  { revert Hc. unfold frame_calculate_dynamic. rewrite Hg, (proj2 (Z.ltb_lt 0 (ce_mssfix (ce o)))) by lia.
    cbn [Z.ltb Z.compare res_bind]. rewrite En. by intros [= <-]. }
  rewrite Hc'. cbn [set_mss_fix mss_fix].
  pose proof (Hiff (n + 1) ltac:(lia)) as H1. pose proof (Hiff n ltac:(lia)) as H0.
  unfold segment_size in H0, H1. rewrite He, !link_size_aead, Hpeer in * by done.
  unfold pid_len, OPENVPN_AEAD_TAG_LENGTH in *. destruct (tm_use_peer_id m), ep; lia.
Qed.

(** ** What is received *)
Lemma opcode_v2_head m k :
  0 <= ks_key_id k < 8 -> exists r, opcode_v2 m k = (Z.shiftl P_DATA_V2 P_OPCODE_SHIFT + ks_key_id k) :: r /\ Zlen r = 3.
Proof.
  intros Hi. unfold opcode_v2. cbn [be_bytes].
  match goal with |- exists r, _ :: ?t = _ /\ _ => exists t end. split; [|reflexivity]. f_equal.
  change (Z.shiftl P_DATA_V2 P_OPCODE_SHIFT) with 72. change (256 ^ Z.of_nat 3) with (2 ^ 24).
  assert (Ea : Z.lor 72 (ks_key_id k) = 72 + ks_key_id k).
  { rewrite Z.lor_comm. change 72 with (Z.shiftl 9 3) at 1. rewrite lor_shiftl_add by lia. lia. }
  rewrite Ea. change 16777215 with (Z.ones 24). rewrite Z.land_ones by lia.
  pose proof (Z.mod_pos_bound (tm_peer_id m) (2 ^ 24)) as Hb.
  rewrite Z.lor_comm, lor_shiftl_add by lia. rewrite u32_id by (unfold is_u32; lia).
  rewrite Z.div_add, Z.div_small, Z.mod_small by lia. lia.
Qed.

Lemma opcode_v1_head k : 0 <= ks_key_id k < 8 -> opcode_v1 k = [Z.shiftl P_DATA_V1 P_OPCODE_SHIFT + ks_key_id k].
Proof.
  intros Hi. unfold opcode_v1. f_equal. change (Z.shiftl P_DATA_V1 P_OPCODE_SHIFT) with 48.
  rewrite Z.lor_comm. change 48 with (Z.shiftl 6 3) at 1. rewrite lor_shiftl_add by lia.
  rewrite u8_id by (unfold is_u8; lia). lia.
Qed.

Lemma opcode_parse op id : 0 <= id < 8 ->
  Z.shiftr (Z.shiftl op P_OPCODE_SHIFT + id) P_OPCODE_SHIFT = op /\ Z.land (Z.shiftl op P_OPCODE_SHIFT + id) P_KEY_ID_MASK = id.
Proof.
  intros Hi. unfold P_OPCODE_SHIFT, P_KEY_ID_MASK. rewrite Z.shiftr_div_pow2, Z.shiftl_mul_pow2 by lia.
  change 7 with (Z.ones 3). rewrite Z.land_ones by lia. split.
  - rewrite Z.div_add_l, Z.div_small by lia. lia.
  - rewrite Z.add_comm, Z.mod_add, Z.mod_small by lia. done.
Qed.

(** It is the first such key of the scan. *)
Definition first_hit (floated : bool) (from : sockaddr) (key_id : Z) (m : tls_multi) (j : nat) (k : key_state) : Prop :=
  scan m !! j = Some k /\ key_hit floated from key_id k = Ret true
  /\ Forall (fun k => key_hit floated from key_id k = Ret false) (take j (scan m)).

Lemma packet_loop_found floated from key_id m j k buf op :
  first_hit floated from key_id m j k ->
  data_packet_loop 3 0 m from buf floated op key_id = take_packet m (Z.of_nat j) k buf op.
Proof.
  intros (Hj & Hk & Hprev). cbn [data_packet_loop].
  change (get_key_scan m 0) with (Ret (key_primary (tm_active m))).
  change (get_key_scan m (0 + 1)) with (Ret (key_lame_duck (tm_active m))).
  change (get_key_scan m (0 + 1 + 1)) with (Ret (key_lame_duck (tm_lame_duck m))). cbn [res_bind].
  destruct j as [|[|[|j]]]; cbn in Hj; try discriminate Hj; injection Hj as <-; cbn in Hprev;
    rewrite ?Forall_cons in Hprev; destruct_and?; repeat match goal with H : key_hit _ _ _ _ = Ret false |- _ => rewrite H; clear H end;
    cbn [res_bind]; rewrite Hk; done.
Qed.

Lemma advance_split b pre x c post :
  buf_split b pre (x ++ c) post -> exists b', buf_advance b (Zlen x) = (true, b') /\ buf_split b' (pre ++ x) c post.
Proof.
  intros Hb. eexists. split; [|exact (split_advance _ _ _ _ _ Hb)]. destruct Hb as (Hd & _ & Hl & _).
  rewrite Zlen_app in Hl. pose proof (Zlen_nonneg x). pose proof (Zlen_nonneg c).
  unfold buf_advance, buf_valid, buf_defined. rewrite Hd, (proj2 (Z.leb_le 0 _)) by lia. cbn [andb negb orb].
  rewrite !(proj2 (Z.ltb_ge _ _)) by lia. done.
Qed.

Lemma bptr_split b pre c post : buf_split b pre c post -> bptr b = Zlen pre.
Proof.
  intros (Hd & Ho & Hl & _). pose proof (Zlen_nonneg c). unfold bptr, buf_bptr, buf_valid, buf_defined.
  rewrite Hd, (proj2 (Z.leb_le 0 _)) by lia. done.
Qed.

(** The packets [encrypt_sign] builds are taken apart again. *)
Lemma take_packet_spec ma ka m j k buf pre body post :
  0 <= ks_key_id ka < 8 -> bi_initialized (co_keys (ks_crypto_options k)) = true ->
  buf_split buf pre (opcode ma ka ++ body) post -> body <> [] ->
  let op := if tm_use_peer_id ma then P_DATA_V2 else P_DATA_V1 in
  let hdr := if tm_use_peer_id ma then [] else opcode ma ka in
  exists buf', take_packet m j k buf op
    = Ret (set_key_scan m j (ks_count k (Zlen body)), buf', Some (j, Zlen (pre ++ hdr)))
    /\ buf_split buf' ((pre ++ hdr) ++ opcode_ad ma ka) body post.
Proof.
  intros Hi Hin Hb Hbody. assert (0 < Zlen body) by (destruct body as [|x l]; [done|rewrite Zlen_cons; pose proof (Zlen_nonneg l); lia]).
  pose proof (opcode_len ma ka) as Hl. pose proof (Zlen_nonneg pre). unfold opcode, opcode_ad in *. unfold take_packet. rewrite Hin.
  rewrite (bptr_split _ _ _ _ Hb). destruct (tm_use_peer_id ma).
  - destruct (opcode_v2_head ma ka Hi) as (r & E & Lr). rewrite E in *.
    change (_ :: r) with ([Z.shiftl P_DATA_V2 P_OPCODE_SHIFT + ks_key_id ka] ++ r) in *. rewrite <- app_assoc in Hb.
    destruct (advance_split _ _ _ _ _ Hb) as (b1 & E1 & B1). change (Zlen [_]) with 1 in E1. rewrite E1.
    change (P_DATA_V2 =? P_DATA_V1) with false. change (P_DATA_V2 =? P_DATA_V2) with true. cbv iota zeta.
    pose proof B1 as (_ & _ & L1 & _). rewrite Zlen_app in L1. rewrite (proj2 (Z.ltb_ge _ _)) by lia.
    destruct (advance_split _ _ _ _ _ B1) as (b2 & E2 & B2). rewrite Lr in E2. rewrite E2.
    pose proof B2 as (_ & _ & L2 & _). rewrite L2, app_nil_r. exists b2. split; [done|]. by rewrite <- app_assoc in B2.
  - destruct (advance_split _ _ _ _ _ Hb) as (b1 & E1 & B1). rewrite Hl in E1. rewrite E1.
    change (P_DATA_V1 =? P_DATA_V1) with true. cbv iota zeta. pose proof B1 as (_ & _ & L1 & _).
    rewrite L1, (bptr_split _ _ _ _ B1). exists b1. split; [done|]. by rewrite app_nil_r.
Qed.

Lemma handle_packet ma ka m from buf floated j k pre body post :
  0 <= ks_key_id ka < 8 -> bi_initialized (co_keys (ks_crypto_options k)) = true ->
  first_hit floated from (ks_key_id ka) m j k ->
  buf_split buf pre (opcode ma ka ++ body) post -> body <> [] ->
  let hdr := if tm_use_peer_id ma then [] else opcode ma ka in
  exists buf', handle_data_channel_packet m from buf floated
    = Ret (set_key_scan m (Z.of_nat j) (ks_count k (Zlen body)), buf', Some (Z.of_nat j, Zlen (pre ++ hdr)))
    /\ buf_split buf' ((pre ++ hdr) ++ opcode_ad ma ka) body post.
Proof.
  intros Hi Hin Hhit Hb Hbody. cbv zeta. set (op := if tm_use_peer_id ma then P_DATA_V2 else P_DATA_V1).
  assert (Hop : exists r, opcode ma ka = (Z.shiftl op P_OPCODE_SHIFT + ks_key_id ka) :: r).
  { unfold opcode, op. destruct (tm_use_peer_id ma); [|rewrite opcode_v1_head by done; eauto].
    destruct (opcode_v2_head ma ka Hi) as (r & -> & _). eauto. }
  destruct Hop as (r & E). unfold handle_data_channel_packet. pose proof Hb as (Hd & Ho & _). rewrite Ho.
  assert (Hp : buf_peek buf (Zlen pre) 1 = Ret [Z.shiftl op P_OPCODE_SHIFT + ks_key_id ka]).
  { apply (buf_peek_split buf pre [_] (r ++ body ++ post)). rewrite Hd, E. by rewrite <- app_assoc. }
  rewrite Hp. cbn [res_bind]. set (v := Z.shiftl op P_OPCODE_SHIFT + ks_key_id ka). change (arr_get [v] 0) with (Ret v).
  cbn [res_bind]. destruct (opcode_parse op (ks_key_id ka) Hi) as [E1 E2]. fold v in E1, E2. rewrite E1, E2. change (Z.to_nat KEY_SCAN_SIZE) with 3%nat.
  rewrite (packet_loop_found _ _ _ _ _ _ _ _ Hhit). by apply take_packet_spec.
Qed.

(** The packet identifier on the wire, behind the opcode. *)
Definition wire_pid (m : tls_multi) (k : key_state) (p : bytes) : bytes := take 8 (drop (length (opcode m k)) p).

(** C9: a tunnel packet crosses the link between two peers.  The bytes that encrypt_sign of one
    peer puts out, received by the other one from the address of the session (or any address
    if it floats), select the key with the same key id, are taken apart and decrypted to the
    tunnel packet, with and without a peer id, if the epoch of the packet is the current one of
    the receiver and new to its replay window, or ahead within the window of future keys.  The
    opcode and the peer id are authenticated with the packet when the peer id is sent. *)
Theorem data_path_roundtrip `{DL : !DeriveLaws cipher_ctx hmac_ctx} `{AL : !AeadLaws cipher_ctx hmac_ctx}
    (now : Z) (prng : bytes) (comp_frag : bool) (c : path_ctx) (ma : tls_multi) (i : Z) (ka : key_state) (plain : bytes)
    (kt : key_type) (ea eb : epoch_key) (na nb da sa db sb : Z) (acca accb : list (Z * packet_id_net))
    (mb : tls_multi) (from : sockaddr) (floated : bool) (j : nat) (kb : key_state) :
  kt_ok kt -> key_ok ea -> key_ok eb ->
  sendable now comp_frag c ma i ka plain -> 4 <= headroom (dc_frame c) /\ 40 <= tailroom (dc_frame c) ->
  0 <= ks_key_id ka < 8 ->
  channel kt ea eb na da sa (ks_crypto_options ka) acca -> sa < UINT16_MAX ->
  channel kt eb ea nb db sb (ks_crypto_options kb) accb ->
  first_hit floated from (ks_key_id ka) mb j kb -> bi_initialized (co_keys (ks_crypto_options kb)) = true ->
  CAS_CONNECT_DONE <= multi_state mb ->
  exists c', encrypt_sign now prng false comp_frag c = Ret c'
    /\ let e := pid_epoch (wire_pid ma ka (contents (dc_buf c'))) in
       let id := pid_id (wire_pid ma ka (contents (dc_buf c'))) in
       forall now' rbuf rwork frame pre post hw' tw' w0,
       SEQ_EXPIRED < now' ->
       buf_split rbuf pre (contents (dc_buf c')) post ->
       buf_init_dowork rwork (headroom frame) = (true, w0) -> buf_repr w0 hw' [] tw' -> Zlen plain + 32 <= tw' ->
       can_open (ks_crypto_options kb) e ->
       (e = db /\ (exists r, replay_check now' (pid_rec (co_packet_id (ks_crypto_options kb))) (mk_net id 0) = Ret (true, r)))
       \/ (db < e < db + nb /\ e + nb < UINT16_MAX) ->
       exists q mb', incoming_data_packet now' mb from rbuf rwork frame floated = Ret (true, q, mb') /\ contents q = plain.
Proof.
  intros Hkt Hea Heb [Hm Hs Hf Hsel Hk Hw (hb & tb & Hb) Hp Hl] Hfr Hid Ca Hsa Cb Hhit Hin Hst.
  destruct (encrypt_sign_epoch now prng comp_frag c ma i ka hb plain tb Hm Hs Hf Hsel Hk Hfr Hw Hb Hp Hl kt ea eb na da sa acca Hkt Hea Heb Ca Hsa)
    as (c' & co' & s' & ct & tag & E & (Hc' & _) & C' & _ & Hpos & Hsl).
  exists c'. split; [done|]. cbv zeta.
  intros now' rbuf rwork frame pre post hw' tw' w0 Hn Hsp Hinit Hw0 Hroom Hopen Hcase. rewrite Hc' in Hsp.
  pose proof (sch_range _ _ _ _ _ _ _ (ch_sched _ _ _ _ _ _ _ _ C')) as Hr. pose proof (ch_send _ _ _ _ _ _ _ _ C') as Hid'.
  unfold PACKET_ID_EPOCH_MAX in Hid'.
  assert (Hwp : wire_pid ma ka (contents (dc_buf c')) = pid_bytes true s' (send_id (pid_send (co_packet_id co')))).
  { unfold wire_pid. rewrite Hc', drop_app_length.
    replace 8%nat with (length (pid_bytes true s' (send_id (pid_send (co_packet_id co')))))
      by (apply length_be_bytes). apply take_app_length. }
  destruct (pid_of_bytes s' (send_id (pid_send (co_packet_id co')))) as [Pe Pi]; [unfold is_u16, UINT16_MAX in *; lia|lia|].
  rewrite Hwp, Pe in Hopen. rewrite Hwp, Pe, Pi in Hcase.
  set (body := pid_bytes _ _ _ ++ _) in *. assert (Hbody : body <> []).
  { intros H0%(f_equal Zlen). unfold body in H0. rewrite Zlen_app, Zlen_pid_bytes in H0. change (Zlen []) with 0 in H0.
    pose proof (Zlen_nonneg (packet_body true ct tag)). unfold pid_len in H0. lia. }
  destruct (handle_packet ma ka mb from rbuf floated j kb pre body post Hid Hin Hhit Hsp Hbody) as (b1 & E1 & B1).
  unfold incoming_data_packet. rewrite E1. cbn [res_bind].
  assert (Hj : (j < 3)%nat) by (destruct Hhit as [H0%lookup_lt_Some _]; exact H0).
  set (mb' := set_key_scan mb _ _).
  assert (Hms : multi_state mb' = multi_state mb) by (unfold mb', set_key_scan; repeat case_match; done).
  rewrite Hms, (proj2 (Z.ltb_ge _ _)) by done. unfold mb' at 1. rewrite get_set_key_scan by lia. cbn [res_bind ks_crypto_options ks_count].
  destruct (open_sealed kt ea eb na nb Hkt Hea Heb now' b1 rwork frame _ _ post hw' tw' w0 db sb (ks_crypto_options kb) accb s'
              (send_id (pid_send (co_packet_id co'))) plain ct tag Cb Hn ltac:(lia) ltac:(lia) Hp B1 Hinit Hw0 Hroom Hsl Hopen Hcase)
    as (q & b' & -> & Hq).
  cbn [res_bind]. eauto.
Qed.
End DataPath.

(** ** Two peers *)
Definition sample_addr : sockaddr := mk_sa AF_INET 1194 167772161 (replicate 16 0).
Definition sample_ks (state : Z) (auth : ks_auth_state) (co : crypto_options sample_cipher sample_hmac) : key_state :=
  mk_ks state 3 auth 0 sample_addr co 0 0.
Definition sample_multi (co : crypto_options sample_cipher sample_hmac) : tls_multi :=
  let blank := sample_ks 0 KS_AUTH_FALSE sample_blank in
  mk_multi (mk_session (sample_ks 9 KS_AUTH_TRUE co) blank) (mk_session blank blank) (mk_session blank blank)
    CAS_CONNECT_DONE true 66051 None 0.
Definition sample_ctx (f : frame) (eb : buffer) (plain : bytes) : path_ctx :=
  mk_dctx (around 20 plain) eb f f None (Some (sample_multi sample_a)) sample_blank.

Lemma sample_sendable f eb plain :
  link_buffer f eb -> bytes_ok plain -> plain <> [] -> Zlen plain <= 2000 -> Zlen plain <= payload_size f ->
  sendable None 1000 true (sample_ctx f eb plain) (sample_multi sample_a) 0 (sample_ks 9 KS_AUTH_TRUE sample_a) plain.
Proof.
  intros Hw Hok Hp Hl Hl'. split.
  - reflexivity.
  - apply Z.le_refl.
  - right. split; reflexivity.
  - vm_compute. reflexivity.
  - reflexivity.
  - exact Hw.
  - exists 20, 20. apply around_repr; [exact Hok|]. unfold BUF_SIZE_MAX. lia.
  - exact Hp.
  - exact Hl'.
Qed.

Lemma sample_ready : key_ready 1000 (sample_ks 9 KS_AUTH_TRUE sample_a) true sample_kt.
Proof.
  exists (sample_e1 1), (sample_e1 2), 16, 1, 1, [].
  split; [exact sample_kt_ok|]. split; [exact (sample_e1_ok 1)|]. split; [exact (sample_e1_ok 2)|].
  split; [exact sample_channel_a|]. unfold UINT16_MAX. lia.
Qed.

Lemma sample_mtu_ok n : mtu_options_ok (sample_options n 0).
Proof. split; vm_compute; try reflexivity; split; (reflexivity || discriminate). Qed.

Lemma finalized_buffers_suffice_witness : exists f b c' co' body,
  frame_finalize_options true blank_frame sample_kt (sample_options 1450 0) = Ret f
  /\ encrypt_sign None 1000 [] false true (sample_ctx f b sample_payload) = Ret c'
  /\ packet_out (sample_ctx f b sample_payload) (sample_multi sample_a) 0 (sample_ks 9 KS_AUTH_TRUE sample_a) c' co' body
  /\ Zlen body = 27.
Proof.
  destruct (finalized_buffer true blank_frame sample_kt (sample_options 1450 0) (sample_mtu_ok 1450))
    as (f & b & b' & E & Ea & Wf & Hd & Hc & _ & _ & _ & _ & Hp).
  destruct (finalized_buffers_suffice None true blank_frame sample_kt sample_kt (sample_options 1450 0) 1000 [] true
              (sample_ctx f b sample_payload) (sample_multi sample_a) 0 (sample_ks 9 KS_AUTH_TRUE sample_a) sample_payload true
              (sample_mtu_ok 1450) E)
    as (_ & c' & co' & body & Es & Ho & Hl).
  - apply sample_sendable; [by split|by apply small_ok|done|by vm_compute|]. cbn in Hp. change (Zlen sample_payload) with 3. lia.
  - exact sample_ready.
  - exists f, b, c', co', body. split; [exact E|]. split; [exact Es|]. split; [exact Ho|exact Hl].
Defined.

(** A limit of 200 bytes: the largest segment has 136 bytes, and its packet has 204. *)
Definition small_frame : frame := mk_frame 400 20 60 0 0 1500 1600 0.
Definition full_segment : bytes := replicate 176 5.

Lemma sample_packet_buffer f :
  0 <= headroom f + payload_size f + tailroom f < BUF_SIZE_MAX ->
  link_buffer f (mk_buffer (BUF_SIZE f) 0 0 (Some (replicate (Z.to_nat (BUF_SIZE f)) 0))).
Proof.
  intros H. destruct (alloc_buf_repr (BUF_SIZE f)) as [_ Hr]; [unfold BUF_SIZE; lia|].
  split; [exact (buf_repr_wf _ _ _ _ (Hr (proj2 H)))|]. split; [discriminate|reflexivity].
Qed.
Definition sample_small (f : frame) (plain : bytes) : path_ctx :=
  sample_ctx f (mk_buffer (BUF_SIZE f) 0 0 (Some (replicate (Z.to_nat (BUF_SIZE f)) 0))) plain.

Lemma sample_first_hit a b :
  first_hit false sample_addr (ks_key_id (sample_ks 9 KS_AUTH_TRUE a)) (sample_multi b) 0 (sample_ks 9 KS_AUTH_TRUE b).
Proof. split; [reflexivity|]. split; [vm_compute; reflexivity|constructor]. Qed.
Lemma sample_ks_co s a co : ks_crypto_options (sample_ks s a co) = co.
Proof. reflexivity. Qed.
Lemma sample_connected co : CAS_CONNECT_DONE <= multi_state (sample_multi co).
Proof. apply Z.le_refl. Qed.
Lemma sample_can_open : can_open sample_b 1.
Proof.
  intros sl c Hs Hg.
  assert (Hd : epoch_lookup_decrypt_key sample_b 1 = Some SlotDecrypt) by (vm_compute; reflexivity).
  rewrite Hd in Hs. injection Hs as <-. apply Ret_inj in Hg. destruct Hg. vm_compute. reflexivity.
Qed.
Lemma sample_new : exists r, replay_check 1000 (pid_rec (co_packet_id sample_b)) (mk_net 1 0) = Ret (true, r).
Proof.
  assert (Hr : match replay_check 1000 (pid_rec (co_packet_id sample_b)) (mk_net 1 0) with Ret (true, _) => true | _ => false end
               = true) by (vm_compute; reflexivity).
  destruct (replay_check 1000 _ (mk_net 1 0)) as [[[|] r]| |]; try discriminate Hr. exists r. reflexivity.
Qed.
Lemma sample_sent : match encrypt_sign None 1000 [] false true (sample_small small_frame sample_payload) with
  | Ret c' => let p := contents (dc_buf c') in
              let w := wire_pid (sample_multi sample_a) (sample_ks 9 KS_AUTH_TRUE sample_a) p in
              (pid_epoch w, pid_id w, forallb (fun x => (0 <=? x) && (x <? 256)) p, Zlen p)
  | _ => (0, 0, false, 0) end = (1, 1, true, 31).
Proof. vm_compute. reflexivity. Qed.

Lemma data_path_roundtrip_witness : exists c' q mb',
  encrypt_sign None 1000 [] false true (sample_small small_frame sample_payload) = Ret c'
  /\ incoming_data_packet 1000 (sample_multi sample_b) sample_addr (received [] (contents (dc_buf c'))) (around 60 [])
       sample_frame false = Ret (true, q, mb')
  /\ contents q = sample_payload.
Proof.
  destruct sample_work_init as (w0 & E & H).
  destruct (data_path_roundtrip None 1000 [] true (sample_small small_frame sample_payload) (sample_multi sample_a) 0
              (sample_ks 9 KS_AUTH_TRUE sample_a) sample_payload sample_kt (sample_e1 1) (sample_e1 2) 16 16 1 1 1 1 [] []
              (sample_multi sample_b) sample_addr false 0 (sample_ks 9 KS_AUTH_TRUE sample_b)
              sample_kt_ok (sample_e1_ok 1) (sample_e1_ok 2))
    as (c' & Es & Hopen).
  - apply sample_sendable; [apply sample_packet_buffer; by vm_compute|by apply small_ok|discriminate|by vm_compute|by vm_compute].
  - vm_compute. split; discriminate.
  - vm_compute. split; [discriminate|reflexivity].
  - rewrite sample_ks_co. exact sample_channel_a.
  - by vm_compute.
  - rewrite sample_ks_co. exact sample_channel_b.
  - apply sample_first_hit.
  - vm_compute. reflexivity.
  - apply sample_connected.
  - pose proof sample_sent as Hp. rewrite Es in Hp. cbv zeta in Hp, Hopen. injection Hp as He Hi Hb Hz.
    rewrite He, Hi, sample_ks_co in Hopen.
    destruct (Hopen 1000 (received [] (contents (dc_buf c'))) (around 60 []) sample_frame
                (replicate 60 0 ++ []) (replicate 60 0) 20 100 w0) as (q & mb' & Eq & Hq).
    + by vm_compute.
    + apply received_split; [constructor|by apply small_ok|]. change (Zlen []) with 0. lia.
    + exact E.
    + exact H.
    + by vm_compute.
    + exact sample_can_open.
    + left. split; [reflexivity|exact sample_new].
    + exists c', q, mb'. split; [exact Es|]. split; [exact Eq|exact Hq].
Defined.
