(* ===== verification/CtrlWrap.v ===== *)
(** * Wrapping of control channel packets (ssl_pkt.c, tls_crypt.c)

    Every control packet leaves with its opcode and the sender's session identifier in front,
    and, if the configuration says so, with an HMAC over it (tls-auth) or encrypted and
    authenticated (tls-crypt, with a static key, with a key that the client carries wrapped
    under a key of the server, or with a key from the TLS session for renegotiations). *)

From Stdlib Require Import String.
From S2P Require Import Prelude CircList Buffer PacketId Reliable TlsSend Mtu KeyCtx SampleLib Epoch Crypto Aead Channel DataPath.
#[local] Open Scope Z_scope.

Definition SWAP_BUF_SIZE : Z := 256.
Definition TLS_CRYPT_PID_SIZE : Z := 4 + 4.
Definition TLS_CRYPT_OFF_PID : Z := 1 + SID_SIZE.
Definition TLS_CRYPT_OFF_TAG : Z := TLS_CRYPT_OFF_PID + TLS_CRYPT_PID_SIZE.
Definition TLS_CRYPT_OFF_CT : Z := TLS_CRYPT_OFF_TAG + TLS_CRYPT_TAG_SIZE.
Definition TLS_CRYPT_V2_CLIENT_KEY_LEN : Z := 2048 / 8.
Definition TLS_CRYPT_V2_TAG_SIZE : Z := TLS_CRYPT_TAG_SIZE.
Definition TLS_CRYPT_V2_MAX_METADATA_LEN : Z :=
  TLS_CRYPT_V2_MAX_WKC_LEN - (TLS_CRYPT_V2_CLIENT_KEY_LEN + TLS_CRYPT_V2_TAG_SIZE + 2).

(** The bytes of [keys[2]], each key with 64 bytes for the cipher and 64 for the HMAC. *)
Definition key2_bytes (k : key2) : bytes := concat (map (fun k => k_cipher k ++ k_hmac k) (key2_keys k)).
Definition key_of_bytes (l : bytes) : key := mk_key (take 64 l) (drop 64 l).
Definition key2_of_bytes (l : bytes) : key2 := mk_key2 2 [key_of_bytes (take 128 l); key_of_bytes (drop 128 l)].
Definition key_zero : key := mk_key (replicate 64 0) (replicate 64 0).
Definition key2_zero : key2 := mk_key2 0 [key_zero; key_zero].

Fixpoint xor_bytes (a b : bytes) : bytes :=
  match a, b with x :: a, y :: b => Z.lxor x y :: xor_bytes a b | _, _ => a end.
Definition xor_key (k other : key) : key :=
  mk_key (xor_bytes (k_cipher k) (k_cipher other)) (xor_bytes (k_hmac k) (k_hmac other)).
Definition xor_key2 (k other : key2) : res key2 :=
  assert! (key2_n k =? 2) && (key2_n other =? 2) in
  Ret (mk_key2 (key2_n k) (zip_with xor_key (key2_keys k) (key2_keys other))).

Section CtrlWrap.
Context {cipher_ctx hmac_ctx : Type} `{CL : CryptoLib cipher_ctx hmac_ctx}.
#[local] Abbreviation key_ctx := (KeyCtx.key_ctx cipher_ctx hmac_ctx).
#[local] Abbreviation crypto_options := (KeyCtx.crypto_options cipher_ctx hmac_ctx).

Record tls_wrap_ctx : Type := mk_tw {
  tw_mode : tls_wrap_mode;
  tw_opt : crypto_options;
  tw_work : buffer;
  tw_server_key : key_ctx;
  tw_wkc : option buffer;
  tw_metadata : buffer;
  tw_cleanup : bool;
  tw_original : key2
}.
Definition set_tw_opt (c : tls_wrap_ctx) (o : crypto_options) : tls_wrap_ctx :=
  mk_tw (tw_mode c) o (tw_work c) (tw_server_key c) (tw_wkc c) (tw_metadata c) (tw_cleanup c) (tw_original c).
Definition set_tw_work (c : tls_wrap_ctx) (o : crypto_options) (w : buffer) : tls_wrap_ctx :=
  mk_tw (tw_mode c) o w (tw_server_key c) (tw_wkc c) (tw_metadata c) (tw_cleanup c) (tw_original c).
Definition set_tw_unwrapped (c : tls_wrap_ctx) (md : buffer) (k : key2) : tls_wrap_ctx :=
  mk_tw (tw_mode c) (tw_opt c) (tw_work c) (tw_server_key c) (tw_wkc c) md (tw_cleanup c) k.

(** ** tls-auth *)
Definition swap_hmac (buf : buffer) (co : crypto_options) (incoming : bool) : res (bool * buffer) :=
  match ctx_hmac (if incoming then bi_decrypt (co_keys co) else bi_encrypt (co_keys co)) with
  | None => Fatal
  | Some h =>
      let hmac_size := hmac_ctx_size h + packet_id_size true in
      let osid_size := 1 + SID_SIZE in
      let '(e1, e2) := if incoming then (osid_size, hmac_size) else (hmac_size, osid_size) in
      assert! (e1 <=? SWAP_BUF_SIZE) && (e2 <=? SWAP_BUF_SIZE) in
      if e1 + e2 <=? b_len buf then
        let b := b_offset buf in
        let! buf1 := buf_peek buf b e1 in
        let! buf2 := buf_peek buf (b + e1) e2 in
        let! buf := buf_poke buf b buf2 in
        let! buf := buf_poke buf (b + e2) buf1 in
        Ret (true, buf)
      else Ret (false, buf)
  end.

(** ** tls-crypt *)

(** The structure with null pointers is [None]. *)
Definition create_kt (cipher md : bytes) : option key_type :=
  if cipher_defined cipher && negb (cipher_valid cipher) then None
  else if md_defined md && negb (md_valid md) then None
  else Some (mk_kt cipher md).
Definition tls_crypt_kt : option key_type := create_kt (str "AES-256-CTR") (str "SHA256").

(** What [cipher_ctx_final] stores at the start of [dst], and [buf_inc_len]. *)
Definition prefix_out (dst : buffer) (out : bytes) : res buffer :=
  let! dst := buf_poke dst (b_offset dst) out in
  let '(ok, dst) := buf_inc_len dst (Zlen out) in
  assert! ok in Ret dst.

Definition tls_crypt_wrap (now : Z) (src dst : buffer) (opt : crypto_options) : res (bool * buffer * crypto_options) :=
  let ctx := bi_encrypt (co_keys opt) in
  match ctx_cipher ctx, ctx_hmac ctx with
  | Some cipher, Some hmac =>
      assert! packet_id_initialized (co_packet_id opt) in
      assert! hmac_ctx_size hmac =? 256 / 8 in
      let! (ok, send, dst) := packet_id_write now (pid_send (co_packet_id opt)) dst true false in
      let opt := set_pid_send opt send in
      if negb ok then Ret (false, drop_buf dst, opt)
      else if negb (buf_safe dst (u64 (buf_len src + TLS_CRYPT_BLOCK_SIZE + TLS_CRYPT_TAG_SIZE)))
      then Ret (false, drop_buf dst, opt)
      else
        let! ad := buf_bytes dst in
        let! plain := buf_bytes src in
        let '(tag, dst) := buf_write_alloc dst TLS_CRYPT_TAG_SIZE in
        match tag with
        | None => Fatal
        | Some tag =>
            let! dst := buf_poke dst tag (hmac_ctx_value hmac (ad ++ plain)) in
            let! iv := buf_peek dst tag (cipher_ctx_iv_length cipher) in
            assert! cipher_ctx_reset cipher iv in
            match cipher_ctx_update cipher iv [] plain with
            | None => Fatal
            | Some out =>
                let! dst := append_out dst out in
                match cipher_ctx_final cipher iv [] plain with
                | None => Fatal
                | Some out => let! dst := prefix_out dst out in Ret (true, dst, opt)
                end
            end
        end
  | _, _ => Fatal
  end.

(** The label [error_exit]. *)
Definition unwrap_error (dst : buffer) (opt : crypto_options) : res (bool * buffer * crypto_options) :=
  Ret (false, drop_buf dst, opt).

Definition tls_crypt_unwrap (now : Z) (src dst : buffer) (opt : crypto_options) : res (bool * buffer * crypto_options) :=
  let ctx := bi_decrypt (co_keys opt) in
  assert! 0 <? b_len src in
  match ctx_cipher ctx with
  | None => Fatal
  | Some cipher =>
      assert! packet_id_initialized (co_packet_id opt) || flag opt CO_IGNORE_PACKET_ID in
      if buf_len src <? TLS_CRYPT_OFF_CT then unwrap_error dst opt
      else if negb (buf_safe dst (u64 (buf_len src - TLS_CRYPT_OFF_CT + TLS_CRYPT_BLOCK_SIZE))) then unwrap_error dst opt
      else
        let! iv := buf_peek src (b_offset src + TLS_CRYPT_OFF_TAG) (cipher_ctx_iv_length cipher) in
        if negb (cipher_ctx_reset cipher iv) then unwrap_error dst opt
        else
          let! data := buf_peek src (b_offset src + TLS_CRYPT_OFF_CT) (buf_len src - TLS_CRYPT_OFF_CT) in
          match cipher_ctx_update cipher iv [] data with
          | None => unwrap_error dst opt
          | Some out =>
              let! dst := prefix_out dst out in
              match cipher_ctx_final cipher iv [] data with
              | None => unwrap_error dst opt
              | Some out =>
                  let! dst := prefix_out dst out in
                  let! tag := buf_peek src (b_offset src + TLS_CRYPT_OFF_TAG) TLS_CRYPT_TAG_SIZE in
                  let! ad := buf_peek src (b_offset src) TLS_CRYPT_OFF_TAG in
                  let! plain := buf_bytes dst in
                  match ctx_hmac ctx with
                  | None => UB
                  | Some hmac =>
                      let! tag_check := mem_write (replicate 32 0) 0 (hmac_ctx_value hmac (ad ++ plain)) in
                      if negb (memcmp_eq tag tag_check) then unwrap_error dst opt
                      else if negb (flag opt CO_IGNORE_PACKET_ID) then
                        let '(ok, tmp) := buf_advance src TLS_CRYPT_OFF_PID in
                        assert! ok in
                        let! (ok, pin, _) := packet_id_read tmp true in
                        assert! ok in
                        let! (ok, opt) := crypto_check_replay now opt pin 0 in
                        if negb ok then unwrap_error dst opt else Ret (true, dst, opt)
                      else Ret (true, dst, opt)
                  end
              end
          end
  end.

(** ** tls-crypt-v2: the client key wrapped under the key of the server *)
Definition tls_crypt_v2_load_client_key (k2 : key2) (tls_server : bool) : res (key_ctx_bi cipher_ctx hmac_ctx) :=
  match tls_crypt_kt with
  | None => Fatal
  | Some kt => init_key_ctx_bi k2 (if tls_server then KEY_DIRECTION_NORMAL else KEY_DIRECTION_INVERSE) kt
  end.

(** [junk]: what the allocated work buffer holds. *)
Definition tls_crypt_v2_wrap_client_key (junk : bytes) (wkc : buffer) (src_key : key2) (src_metadata : buffer)
    (server_key : key_ctx) : res (bool * buffer) :=
  match ctx_cipher server_key, ctx_hmac server_key with
  | Some cipher, Some hmac =>
      let! work := alloc_buf_gc (take (Z.to_nat (TLS_CRYPT_V2_MAX_WKC_LEN + cipher_ctx_block_size cipher)) junk) in
      let '(tag, work) := buf_write_alloc work TLS_CRYPT_TAG_SIZE in
      match tag with
      | None => Ret (false, wkc)
      | Some tag =>
          let keys := key2_bytes src_key in
          let! md := buf_bytes src_metadata in
          let net_len := be_bytes 2 (Zlen keys + buf_len src_metadata + TLS_CRYPT_V2_TAG_SIZE + 2) in
          let! work := buf_poke work tag (hmac_ctx_value hmac (net_len ++ keys ++ md)) in
          let! iv := buf_peek work tag (cipher_ctx_iv_length cipher) in
          assert! cipher_ctx_reset cipher iv in
          if buf_forward_capacity work <? Zlen keys + buf_len src_metadata + 2 + cipher_ctx_block_size cipher
          then Ret (false, wkc)
          else
            match cipher_ctx_update cipher iv [] keys, cipher_ctx_update_more cipher iv keys md,
                  cipher_ctx_final cipher iv [] (keys ++ md) with
            | Some o1, Some o2, Some o3 =>
                let! work := append_out work o1 in
                let! work := append_out work o2 in
                let! work := append_out work o3 in
                let! (ok, work) := buf_write work net_len in
                assert! ok in
                buf_copy wkc work
            | _, _, _ => Fatal
            end
      end
  | _, _ => UB
  end.

(** The label [error_exit]: the key is cleared, [metadata] is as it was. *)
Definition unwrap_key_error (metadata : buffer) : res (bool * key2 * buffer) := Ret (false, key2_zero, metadata).

Definition tls_crypt_v2_unwrap_client_key (metadata wrapped : buffer) (server_key : key_ctx)
  : res (bool * key2 * buffer) :=
  if TLS_CRYPT_V2_MAX_WKC_LEN <? buf_len wrapped then unwrap_key_error metadata
  else if buf_len wrapped <? 2 then unwrap_key_error metadata
  else
    let tag := b_offset wrapped in
    let! net_len := buf_peek wrapped (buf_bend wrapped - 2) 2 in
    if negb (be_val net_len =? buf_len wrapped) then unwrap_key_error metadata
    else
      let '(_, wrapped) := buf_inc_len wrapped (-2) in
      let '(ok, wrapped) := buf_advance wrapped TLS_CRYPT_TAG_SIZE in
      if negb ok then unwrap_key_error metadata
      else
        match ctx_cipher server_key with
        | None => UB
        | Some cipher =>
            let! iv := buf_peek wrapped tag (cipher_ctx_iv_length cipher) in
            if negb (cipher_ctx_reset cipher iv) then unwrap_key_error metadata
            else
              let! plaintext := buf_set_write (Some (replicate 1024 0)) TLS_CRYPT_V2_MAX_WKC_LEN in
              let! data := buf_bytes wrapped in
              match cipher_ctx_update cipher iv [] data with
              | None => unwrap_key_error metadata
              | Some out =>
                  let! plaintext := prefix_out plaintext out in
                  match cipher_ctx_final cipher iv [] data with
                  | None => unwrap_key_error metadata
                  | Some out =>
                      let! plaintext := append_out plaintext out in
                      match ctx_hmac server_key with
                      | None => UB
                      | Some hmac =>
                          let! plain := buf_bytes plaintext in
                          let! tag_check := mem_write (replicate 32 0) 0 (hmac_ctx_value hmac (net_len ++ plain)) in
                          let! tag := buf_peek wrapped tag TLS_CRYPT_TAG_SIZE in
                          if negb (memcmp_eq tag tag_check) then unwrap_key_error metadata
                          else if buf_len plaintext <? TLS_CRYPT_V2_CLIENT_KEY_LEN then unwrap_key_error metadata
                          else
                            let! keys := buf_peek plaintext (b_offset plaintext) TLS_CRYPT_V2_CLIENT_KEY_LEN in
                            let '(ok, plaintext) := buf_advance plaintext TLS_CRYPT_V2_CLIENT_KEY_LEN in
                            assert! ok in
                            let! (ok, metadata) := buf_copy metadata plaintext in
                            if negb ok then unwrap_key_error metadata
                            else Ret (true, key2_of_bytes keys, metadata)
                      end
                  end
              end
        end.

(** The script of [--tls-crypt-v2-verify] gets the type and the rest of the metadata; [file_ok]
    says whether the temporary file could be written. *)
Definition tls_crypt_v2_verify_metadata (file_ok : bool) (script : Z -> bytes -> bool) (ctx : tls_wrap_ctx) : res bool :=
  let! (metadata_type, metadata) := buf_read_u8 (tw_metadata ctx) in
  if metadata_type <? 0 then Ret false
  else if negb file_ok then Ret false
  else let! md := buf_bytes metadata in Ret (script metadata_type md).

Definition tls_crypt_v2_extract_client_key (verify : option (tls_wrap_ctx -> res bool)) (buf : buffer) (ctx : tls_wrap_ctx)
    (initial_packet : bool) : res (bool * buffer * tls_wrap_ctx) :=
  match ctx_cipher (tw_server_key ctx) with
  | None => Ret (false, buf, ctx)
  | Some _ =>
      if buf_len buf <? 2 then Ret (false, buf, ctx)
      else
        let! net_len := buf_peek buf (buf_bend buf - 2) 2 in
        let wkc_len := be_val net_len in
        let '(ok, wrapped) := buf_advance buf (buf_len buf - wkc_len) in
        if negb ok then Ret (false, buf, ctx)
        else if negb initial_packet then
          let '(ok, buf) := buf_inc_len buf (- buf_len wrapped) in
          assert! ok in Ret (true, buf, ctx)
        else
          let! metadata := alloc_buf TLS_CRYPT_V2_MAX_METADATA_LEN in
          let! (ok, k2, metadata) := tls_crypt_v2_unwrap_client_key metadata wrapped (tw_server_key ctx) in
          if negb ok then Ret (false, buf, set_tw_unwrapped ctx metadata key2_zero)
          else
            let! bi := tls_crypt_v2_load_client_key k2 true in
            let opt := set_keys (tw_opt ctx) bi in
            let opt := mk_co (co_keys opt) (co_epoch_key_send opt) (co_epoch_key_recv opt) (co_epoch_key_type opt)
                         (co_aead_usage_limit opt) (co_future opt) (co_retiring opt) (co_retiring_pid_recv opt)
                         (co_packet_id opt) (co_pid_persist opt) (Z.lor (co_flags opt) CO_PACKET_ID_LONG_FORM) in
            let ctx := mk_tw TLS_WRAP_CRYPT opt (tw_work ctx) (tw_server_key ctx) (tw_wkc ctx) metadata true k2 in
            let '(ok, buf) := buf_inc_len buf (- buf_len wrapped) in
            assert! ok in
            match verify with
            | Some verify => let! ok := verify ctx in Ret (ok, buf, ctx)
            | None => Ret (true, buf, ctx)
            end
  end.

(** ** Wrapping and unwrapping *)

(** [header] is the byte with opcode and key identifier. *)
Definition tls_wrap_control (now : Z) (prng : bytes) (ctx : tls_wrap_ctx) (header : Z) (buf : buffer)
    (sid : session_id) : res (buffer * tls_wrap_ctx) :=
  let! buf :=
    match tw_mode ctx with
    | TLS_WRAP_AUTH | TLS_WRAP_NONE =>
        let! (ok, buf) := session_id_write_prepend sid buf in
        assert! ok in
        let! (ok, buf) := buf_write_prepend buf [header] in
        assert! ok in Ret buf
    | TLS_WRAP_CRYPT => Ret buf
    end in
  match tw_mode ctx with
  | TLS_WRAP_NONE => Ret (buf, ctx)
  | TLS_WRAP_AUTH =>
      let! (buf, opt) := openvpn_encrypt now prng buf clear_buf (tw_opt ctx) in
      let! (ok, buf) := swap_hmac buf opt false in
      assert! ok in Ret (buf, set_tw_opt ctx opt)
  | TLS_WRAP_CRYPT =>
      let '(ok, work) := buf_init_dowork (tw_work ctx) (b_offset buf) in
      assert! ok in
      let! (ok, work) := buf_write work [header] in
      assert! ok in
      let! (ok, work) := session_id_write sid work in
      assert! ok in
      let! (ok, work, opt) := tls_crypt_wrap now buf work (tw_opt ctx) in
      if negb ok then Ret (drop_buf buf, set_tw_work ctx opt work)
      else if (Z.shiftr header P_OPCODE_SHIFT =? P_CONTROL_HARD_RESET_CLIENT_V3)
              || (Z.shiftr header P_OPCODE_SHIFT =? P_CONTROL_WKC_V1) then
        match tw_wkc ctx with
        | None => UB
        | Some wkc =>
            let! (ok, work) := buf_copy work wkc in
            if negb ok then Ret (drop_buf buf, set_tw_work ctx opt work)
            else Ret (work, set_tw_work ctx opt work)
        end
      else Ret (work, set_tw_work ctx opt work)
  end.

(** [openvpn_decrypt] with the frame NULL, which is read only for a key with a cipher. *)
Definition auth_decrypt (now : Z) (buf : buffer) (opt : crypto_options) : res (buffer * crypto_options) :=
  match ctx_cipher (bi_decrypt (co_keys opt)) with
  | Some _ => UB
  | None => let! (_, buf, opt) := openvpn_decrypt now buf clear_buf opt (mk_frame 0 0 0 0 0 0 0 0) (b_offset buf) in
            Ret (buf, opt)
  end.

(** By the mode of the context.  [fresh n]: what [n] allocated bytes hold. *)
Definition unwrap_by_mode (now : Z) (fresh : Z -> bytes) (buf : buffer) (ctx : tls_wrap_ctx)
  : res (bool * buffer * tls_wrap_ctx) :=
  let! (ok, buf, ctx) :=
    match tw_mode ctx with
    | TLS_WRAP_AUTH =>
        let! (ok, buf) := swap_hmac buf (tw_opt ctx) true in
        if negb ok then Ret (false, buf, ctx)
        else
          let! (buf, opt) := auth_decrypt now buf (tw_opt ctx) in
          Ret (negb (b_len buf =? 0), buf, set_tw_opt ctx opt)
    | TLS_WRAP_CRYPT =>
        let! tmp := alloc_buf_gc (fresh (buf_forward_capacity_total buf)) in
        let! (ok, tmp, opt) := tls_crypt_unwrap now buf tmp (tw_opt ctx) in
        let ctx := set_tw_opt ctx opt in
        if negb ok then Ret (false, buf, ctx)
        else
          let '(ok, buf) := buf_init_dowork buf (b_offset buf) in
          assert! ok in
          let! (ok, buf) := buf_copy buf tmp in
          assert! ok in Ret (true, buf, ctx)
    | TLS_WRAP_NONE =>
        match ctx_cipher (tw_server_key ctx) with
        | Some _ => Ret (false, buf, ctx)
        | None => Ret (true, buf, ctx)
        end
    end in
  if negb ok then Ret (false, buf, ctx)
  else
    match tw_mode ctx with
    | TLS_WRAP_NONE | TLS_WRAP_AUTH => let '(_, buf) := buf_advance buf (SID_SIZE + 1) in Ret (true, buf, ctx)
    | TLS_WRAP_CRYPT => Ret (true, buf, ctx)
    end.

Definition read_control_auth (now : Z) (fresh : Z -> bytes) (verify : option (tls_wrap_ctx -> res bool))
    (buf : buffer) (ctx : tls_wrap_ctx) (initial_packet : bool) : res (bool * buffer * tls_wrap_ctx) :=
  let! first := buf_peek buf (b_offset buf) 1 in
  let opcode := Z.shiftr (be_val first) P_OPCODE_SHIFT in
  let! (ok, buf, ctx) :=
    (if (opcode =? P_CONTROL_HARD_RESET_CLIENT_V3) || (opcode =? P_CONTROL_WKC_V1)
     then tls_crypt_v2_extract_client_key verify buf ctx initial_packet
     else Ret (true, buf, ctx)) in
  if negb ok then Ret (false, buf, ctx) else unwrap_by_mode now fresh buf ctx.

(** ** Facts of the library

    A digest has the length of its context, the one of the digest it was set up with; SHA-256 has 32
    bytes.  AES-256 in counter mode takes its vector from at most 16 bytes, puts out as many
    bytes as it takes in and nothing at the end, also when the data comes in two parts, and
    decryption undoes encryption. *)
Class CtrlLaws : Prop := {
  cl_hmac h d : Zlen (hmac_ctx_value h d) = hmac_ctx_size h /\ bytes_ok (hmac_ctx_value h d);
  cl_hmac_size k md : hmac_ctx_size (hmac_ctx_init k md) = md_kt_size md;
  cl_md_range md : 0 <= md_kt_size md <= OPENVPN_MAX_HMAC_SIZE;
  cl_sha256 : md_kt_size (str "SHA256") = SHA256_DIGEST_LENGTH /\ md_valid (str "SHA256") = true;
  cl_ctr_valid : cipher_valid (str "AES-256-CTR") = true;
  cl_ctr_key : 0 <= cipher_kt_key_size (str "AES-256-CTR") <= MAX_CIPHER_KEY_LENGTH;
  cl_ctr_iv kb enc : cipher_ctx_iv_length (cipher_ctx_init kb (str "AES-256-CTR") enc) = cipher_kt_iv_size (str "AES-256-CTR");
  cl_ctr_iv_size : 0 <= cipher_kt_iv_size (str "AES-256-CTR") <= 16;
  cl_ctr_block kb enc : 0 <= cipher_ctx_block_size (cipher_ctx_init kb (str "AES-256-CTR") enc) <= 16;
  cl_ctr_mode kb enc : cipher_ctx_mode_aead (Some (cipher_ctx_init kb (str "AES-256-CTR") enc)) = false;
  cl_ctr_reset kb enc iv : cipher_ctx_reset (cipher_ctx_init kb (str "AES-256-CTR") enc) iv = true;
  cl_ctr_update kb enc iv d : bytes_ok d -> exists out,
    cipher_ctx_update (cipher_ctx_init kb (str "AES-256-CTR") enc) iv [] d = Some out
    /\ Zlen out = Zlen d /\ bytes_ok out
    /\ cipher_ctx_final (cipher_ctx_init kb (str "AES-256-CTR") enc) iv [] d = Some [];
  cl_ctr_more kb enc iv d1 d2 o1 o : bytes_ok d1 -> bytes_ok d2 ->
    cipher_ctx_update (cipher_ctx_init kb (str "AES-256-CTR") enc) iv [] d1 = Some o1 ->
    cipher_ctx_update (cipher_ctx_init kb (str "AES-256-CTR") enc) iv [] (d1 ++ d2) = Some o ->
    exists o2, cipher_ctx_update_more (cipher_ctx_init kb (str "AES-256-CTR") enc) iv d1 d2 = Some o2 /\ o = o1 ++ o2;
  cl_ctr_inv kb iv d ct : bytes_ok d ->
    cipher_ctx_update (cipher_ctx_init kb (str "AES-256-CTR") true) iv [] d = Some ct ->
    cipher_ctx_update (cipher_ctx_init kb (str "AES-256-CTR") false) iv [] ct = Some d
}.
End CtrlWrap.
Arguments tls_wrap_ctx : clear implicits.
Arguments CtrlLaws : clear implicits.
Arguments CtrlLaws _ _ {_}.

(** ** Buffers *)
Lemma peek_inside b h l m r t n p :
  buf_repr b h (l ++ m ++ r) t -> n = Zlen m -> p = h + Zlen l -> buf_peek b p n = Ret m.
Proof.
  intros (pre & post & (Hd & _) & -> & ->) -> ->. rewrite <- Zlen_app.
  apply (buf_peek_split _ (pre ++ l) m (r ++ post)). rewrite Hd. by rewrite <- !app_assoc.
Qed.

Lemma prefix_out_nil b h c t : buf_repr b h c t -> prefix_out b [] = Ret b.
Proof.
  intros Hb. rewrite <- (append_out_nil _ _ _ _ Hb). unfold prefix_out, append_out.
  buf_facts Hb. unfold buf_bend, buf_poke. destruct Hb as (pre & post & (Hd & Ho & Hl & _) & -> & ->). rewrite Hd.
  pose proof (Zlen_nonneg c). pose proof (Zlen_nonneg post).
  rewrite !mem_write_ok by (rewrite ?Zlen_app; change (Zlen []) with 0; lia). cbn [res_bind app length].
  by rewrite !Nat.add_0_r, !take_drop.
Qed.

Lemma prefix_out_empty b h t out :
  buf_repr b h [] t -> Zlen out <= t -> bytes_ok out ->
  exists b', prefix_out b out = Ret b' /\ buf_repr b' h out (t - Zlen out).
Proof.
  intros Hb Ht Ho. destruct (append_out_repr b h [] t out Hb Ht Ho) as (b' & E & Hb'). exists b'. split; [|done].
  rewrite <- E. unfold prefix_out, append_out. rewrite (buf_bend_repr _ _ _ _ Hb).
  buf_facts Hb. change (Zlen []) with 0. by rewrite Foff, Z.add_0_r.
Qed.

(** The identifier on the wire, in long form. *)
Definition long_pid (id time : Z) : bytes := be_bytes 4 id ++ be_bytes 4 time.
Definition pin_of (pid : bytes) : packet_id_net := mk_net (be_val (take 4 pid)) (be_val (drop 4 pid)).

Lemma Zlen_long_pid id time : Zlen (long_pid id time) = 8.
Proof. done. Qed.
Lemma long_pid_ok id time : bytes_ok (long_pid id time).
Proof. apply bytes_ok_app. split; apply be_bytes_ok. Qed.
Lemma pin_of_long id time : is_u32 id -> is_u32 time -> pin_of (long_pid id time) = mk_net id time.
Proof.
  intros Hi Ht. unfold pin_of, long_pid.
  rewrite (take_app_length' (be_bytes 4 id)), (drop_app_length' (be_bytes 4 id)) by done. rewrite !be_val_bytes. change (256 ^ Z.of_nat 4) with (2 ^ 32).
  unfold is_u32 in *. by rewrite !Z.mod_small by lia.
Qed.

Lemma packet_id_read_long b h pid c t :
  buf_repr b h (pid ++ c) t -> Zlen pid = 8 ->
  exists b', packet_id_read b true = Ret (true, pin_of pid, b') /\ buf_repr b' (h + 8) c t.
Proof.
  intros Hb Hp. unfold packet_id_read. pose proof (Zlen_nonneg c).
  assert (Hl : length pid = 8%nat) by (unfold Zlen in Hp; lia).
  destruct (buf_read_repr _ _ _ _ Hb 4) as (b1 & -> & H1); [rewrite Zlen_app; lia|]. cbn [res_bind].
  destruct (buf_read_repr _ _ _ _ H1 4) as (b2 & -> & H2).
  { change (Z.to_nat 4) with 4%nat. unfold Zlen. rewrite length_drop, length_app. lia. }
  cbn [res_bind]. change (Z.to_nat 4) with 4%nat in *. exists b2. unfold pin_of.
  rewrite !drop_app_le, !take_app_le in * by (rewrite ?length_drop; lia).
  rewrite (take_ge (drop 4 pid)), (drop_ge (drop 4 pid)) in * by (rewrite length_drop; lia).
  split; [done|]. by replace (h + 8) with (h + 4 + 4) by lia.
Qed.

Lemma packet_id_write_long now p b h c t (prepend : bool) p' :
  buf_repr b h c t -> 8 <= (if prepend then h else t) -> packet_id_send_update now p true = (true, p') ->
  exists b', packet_id_write now p b true prepend = Ret (true, p', b')
    /\ if prepend then buf_repr b' (h - 8) (long_pid (send_id p') (send_time p') ++ c) t
       else buf_repr b' h (c ++ long_pid (send_id p') (send_time p')) (t - 8).
Proof.
  intros Hb Hroom Hup. unfold packet_id_write, long_pid. rewrite Hup. cbn [negb].
  assert (Hok : forall x, bytes_ok (be_bytes 4 x)) by (intros; apply be_bytes_ok).
  assert (Hlen : forall x, Zlen (be_bytes 4 x) = 4) by (intros; apply Zlen_be_bytes). destruct prepend.
  - destruct (buf_write_prepend_repr _ _ _ _ Hb (be_bytes 4 (send_time p'))) as (b1 & -> & H1); [done|rewrite Hlen; lia|].
    cbn [res_bind negb]. destruct (buf_write_prepend_repr _ _ _ _ H1 (be_bytes 4 (send_id p'))) as (b2 & -> & H2);
      [done|rewrite !Hlen; lia|]. cbn [res_bind]. exists b2. split; [done|]. rewrite !Hlen, app_assoc in H2.
    by replace (h - 8) with (h - 4 - 4) by lia.
  - destruct (buf_write_repr _ _ _ _ Hb (be_bytes 4 (send_id p'))) as (b1 & -> & H1); [done|rewrite Hlen; lia|].
    cbn [res_bind negb]. destruct (buf_write_repr _ _ _ _ H1 (be_bytes 4 (send_time p'))) as (b2 & -> & H2);
      [done|rewrite !Hlen; lia|]. cbn [res_bind]. exists b2. split; [done|]. rewrite !Hlen, <- app_assoc in H2.
    by replace (t - 8) with (t - 4 - 4) by lia.
Qed.

Section Wrap.
Context {cipher_ctx hmac_ctx : Type} `{CL : CryptoLib cipher_ctx hmac_ctx}.
Context `{LL : !CtrlLaws cipher_ctx hmac_ctx}.
#[local] Abbreviation key_ctx := (KeyCtx.key_ctx cipher_ctx hmac_ctx).
#[local] Abbreviation crypto_options := (KeyCtx.crypto_options cipher_ctx hmac_ctx).
#[local] Abbreviation wrap_ctx := (tls_wrap_ctx cipher_ctx hmac_ctx).

(** ** tls-auth *)
Lemma swap_hmac_spec (co : crypto_options) (incoming : bool) hm buf h a b c t :
  ctx_hmac (if incoming then bi_decrypt (co_keys co) else bi_encrypt (co_keys co)) = Some hm ->
  0 <= hmac_ctx_size hm <= OPENVPN_MAX_HMAC_SIZE -> buf_repr buf h (a ++ b ++ c) t ->
  (Zlen a, Zlen b) = (if incoming then (9, hmac_ctx_size hm + 8) else (hmac_ctx_size hm + 8, 9)) ->
  exists buf', swap_hmac buf co incoming = Ret (true, buf') /\ buf_repr buf' h (b ++ a ++ c) t.
Proof.
  intros Hh Hs Hb Hab. unfold swap_hmac. rewrite Hh. unfold SID_SIZE, packet_id_size, SWAP_BUF_SIZE, OPENVPN_MAX_HMAC_SIZE in *.
  change (1 + 8) with 9. change (4 + 4) with 8. rewrite <- Hab.
  assert (Hlt : Zlen a <= 72 /\ Zlen b <= 72) by (destruct incoming; injection Hab; lia).
  rewrite !(proj2 (Z.leb_le _ _)) by lia. cbn [andb res_bind]. buf_facts Hb.
  pose proof (Zlen_nonneg a). pose proof (Zlen_nonneg b). pose proof (Zlen_nonneg c).
  rewrite !Zlen_app in Flen. rewrite (proj2 (Z.leb_le _ (b_len buf))) by lia. rewrite Foff.
  rewrite (peek_inside buf h [] a (b ++ c) t) by (done || (change (Zlen []) with 0; lia)). cbn [res_bind].
  rewrite (peek_inside buf h a b c t) by done. cbn [res_bind].
  destruct (split_at (a ++ b) (Zlen b)) as (x & y & Exy & Lx & Ly & _); [rewrite Zlen_app; lia|].
  rewrite Zlen_app in Ly. rewrite app_assoc, Exy, <- app_assoc in Hb.
  apply bytes_ok_app in Fok as [Oa Ob]. apply bytes_ok_app in Ob as [Ob _].
  destruct (poke_inside buf h [] x (y ++ c) t b) as (b1 & E1 & Hb1); [done|lia|done|].
  change (Zlen []) with 0 in E1. rewrite Z.add_0_r in E1. rewrite E1. cbn [res_bind app] in *.
  destruct (poke_inside b1 h b y c t a) as (b2 & -> & Hb2); [done|lia|done|]. cbn [res_bind]. eauto.
Qed.

(** The options of tls-auth: no cipher, long identifiers. *)
Record auth_opt (hm : hmac_ctx) (ctx : key_ctx) (opt : crypto_options) : Prop := {
  ao_cipher : ctx_cipher ctx = None;
  ao_hmac : ctx_hmac ctx = Some hm;
  ao_size : 0 <= hmac_ctx_size hm <= OPENVPN_MAX_HMAC_SIZE;
  ao_pid : packet_id_initialized (co_packet_id opt) = true;
  ao_long : flag opt CO_PACKET_ID_LONG_FORM = true
}.

Lemma auth_encrypt_spec now prng hm opt send' buf h c t :
  auth_opt hm (bi_encrypt (co_keys opt)) opt -> buf_repr buf h c t -> 0 < Zlen c ->
  8 + hmac_ctx_size hm <= h -> packet_id_send_update now (pid_send (co_packet_id opt)) true = (true, send') ->
  let pid := long_pid (send_id send') (send_time send') in
  exists buf', openvpn_encrypt now prng buf clear_buf opt = Ret (buf', set_pid_send opt send')
    /\ buf_repr buf' (h - 8 - hmac_ctx_size hm) (hmac_ctx_value hm (pid ++ c) ++ pid ++ c) t.
Proof using LL.
  intros [Hc Hh Hs Hp Hl] Hb Hpos Hroom Hup pid. buf_facts Hb.
  unfold openvpn_encrypt, openvpn_encrypt_v1. rewrite Flen, (proj2 (Z.ltb_lt 0 _) Hpos), Hc, Hh. cbn [cipher_ctx_mode_aead].
  rewrite Hp, Hl. destruct (packet_id_write_long now (pid_send (co_packet_id opt)) buf h c t true send') as (b1 & -> & H1);
    [done|lia|done|]. fold pid in H1. cbn [res_bind negb].
  destruct (cl_hmac hm (pid ++ c)) as [Lm Om]. pose proof (Zlen_nonneg (hmac_ctx_value hm (pid ++ c))).
  pose proof (buf_write_prepend_repr _ _ _ _ H1 (hmac_ctx_value hm (pid ++ c)) Om) as (b2 & E2 & H2); [lia|].
  unfold buf_write_prepend in E2. rewrite Lm in E2, H2. destruct (buf_prepend b1 (hmac_ctx_size hm)) as [q b1'] eqn:Eq.
  destruct q as [q|]; [|done]. apply res_bind_Ret_inv in E2 as (b2' & E2 & [= ->]).
  assert (Ed : buf_data b1' = buf_data b1 /\ buf_bend b1' = buf_bend b1).
  { unfold buf_prepend in Eq. destruct (_ || _); [done|]. injection Eq as _ <-.
    unfold buf_data, buf_bend, set_window. cbn. split; [done|lia]. }
  destruct Ed as [Ed Ee].
  change (buf_len clear_buf =? 0) with true. cbn [res_bind negb].
  rewrite Ed, Ee. rewrite (buf_bend_repr _ _ _ _ H1), (proj1 (buf_repr_fields _ _ _ _ H1)).
  destruct H1 as (pre & post & (Hd & _) & H1h & _).
  unfold buf_data. rewrite Hd. rewrite H1h.
  replace (Zlen pre + Zlen (pid ++ c) - Zlen pre) with (Zlen (pid ++ c)) by lia.
  pose proof (Zlen_nonneg pre). pose proof (Zlen_nonneg post). pose proof (Zlen_nonneg (pid ++ c)).
  rewrite mem_read_ok by (rewrite ?Zlen_app in *; lia). cbn [res_bind].
  rewrite !to_nat_Zlen, drop_app_length, take_app_length, E2. cbn [res_bind]. rewrite <- H1h. eauto.
Qed.

(** What arrives in tls-auth mode, after the swap: digest, identifier and the rest. *)
Lemma auth_decrypt_cases now hm opt buf h m pid c t :
  auth_opt hm (bi_decrypt (co_keys opt)) opt -> buf_repr buf h (m ++ pid ++ c) t ->
  Zlen m = hmac_ctx_size hm -> Zlen pid = 8 -> flag opt CO_IGNORE_PACKET_ID = false ->
  if bool_decide (m = hmac_ctx_value hm (pid ++ c)) then
    forall ok opt', crypto_check_replay now opt (pin_of pid) 0 = Ret (ok, opt') ->
    exists buf', auth_decrypt now buf opt = Ret (buf', opt')
      /\ if ok : bool then exists h', buf_repr buf' h' c t else b_len buf' = 0
  else exists buf', auth_decrypt now buf opt = Ret (buf', opt) /\ b_len buf' = 0.
Proof using LL.
  intros [Hc Hh Hs Hp Hl] Hb Hm Hpid Hig. unfold auth_decrypt. rewrite Hc.
  unfold openvpn_decrypt, openvpn_decrypt_v1. rewrite Hc, Hh. cbn [cipher_ctx_mode_aead].
  buf_facts Hb. rewrite !Zlen_app in Flen. pose proof (Zlen_nonneg c).
  rewrite (proj2 (Z.ltb_lt 0 (b_len buf))), (proj2 (Z.ltb_ge (b_len buf) _)) by lia.
  rewrite (peek_inside buf h m (pid ++ c) [] t), (peek_inside buf h [] m (pid ++ c) t)
    by (rewrite ?app_nil_r; try done; rewrite ?Zlen_app; change (Zlen []) with 0; lia).
  cbn [res_bind]. unfold memcmp_eq.
  case_bool_decide as Hmac; case_bool_decide as Hmac'; try congruence; cbn [negb res_bind error_exit].
  2:{ eexists. split; [done|]. apply drop_buf_len. }
  intros ok opt' Hck.
  destruct (buf_advance_repr _ _ _ _ Hb (hmac_ctx_size hm)) as (b1 & -> & H1); [rewrite !Zlen_app; lia|].
  cbn [res_bind negb]. rewrite Hp, Hl. rewrite <- Hm, to_nat_Zlen, drop_app_length in H1.
  destruct (packet_id_read_long _ _ _ _ _ H1 Hpid) as (b2 & -> & H2). cbn [res_bind]. rewrite Hig. cbn [negb].
  rewrite Hck. destruct ok; cbn; eexists; split; try done; eauto.
Qed.

(** ** tls-crypt *)
#[local] Abbreviation ctr kb enc := (cipher_ctx_init kb (str "AES-256-CTR") enc).
#[local] Abbreviation sha hk := (hmac_ctx_init hk (str "SHA256")).
#[local] Abbreviation vector c tag := (take (Z.to_nat (cipher_ctx_iv_length c)) tag).

Record crypt_key (enc : bool) (kb hk : bytes) (ctx : key_ctx) : Prop := {
  ck_cipher : ctx_cipher ctx = Some (ctr kb enc);
  ck_hmac : ctx_hmac ctx = Some (sha hk)
}.

Definition tls_crypt_tag (hk ad plain : bytes) : bytes := hmac_ctx_value (sha hk) (ad ++ plain).

Lemma tls_crypt_tag_ok hk ad plain : Zlen (tls_crypt_tag hk ad plain) = 32 /\ bytes_ok (tls_crypt_tag hk ad plain).
Proof using LL.
  unfold tls_crypt_tag. destruct (cl_hmac (sha hk) (ad ++ plain)) as [-> ?]. split; [|done].
  by rewrite cl_hmac_size, (proj1 cl_sha256).
Qed.

Lemma Zlen_vector kb enc (tag : bytes) : Zlen tag = 32 -> Zlen (vector (ctr kb enc) tag) = cipher_ctx_iv_length (ctr kb enc).
Proof using LL. intros Ht. pose proof cl_ctr_iv_size. rewrite cl_ctr_iv. apply Zlen_take_drop. lia. Qed.

Lemma tls_crypt_wrap_spec now kb hk opt send' src hs plain ts dst hd hdr td :
  crypt_key true kb hk (bi_encrypt (co_keys opt)) -> packet_id_initialized (co_packet_id opt) = true ->
  packet_id_send_update now (pid_send (co_packet_id opt)) true = (true, send') ->
  buf_repr src hs plain ts -> buf_repr dst hd hdr td -> Zlen plain + 56 <= td ->
  let ad := hdr ++ long_pid (send_id send') (send_time send') in
  let tag := tls_crypt_tag hk ad plain in
  exists ct dst', cipher_ctx_update (ctr kb true) (vector (ctr kb true) tag) [] plain = Some ct
    /\ tls_crypt_wrap now src dst opt = Ret (true, dst', set_pid_send opt send')
    /\ Zlen ct = Zlen plain
    /\ buf_repr dst' hd (ad ++ tag ++ ct) (td - 40 - Zlen plain).
Proof using LL.
  intros [Hc Hh] Hp Hup Hs Hd Hroom ad tag. unfold tls_crypt_wrap. rewrite Hc, Hh, Hp.
  destruct (tls_crypt_tag_ok hk ad plain) as [Lt Ot]. fold tag in Lt, Ot.
  rewrite cl_hmac_size, (proj1 cl_sha256). cbn [SHA256_DIGEST_LENGTH Z.eqb res_bind]. change (32 =? 256 / 8) with true.
  cbn [res_bind]. pose proof (Zlen_nonneg plain).
  destruct (packet_id_write_long now (pid_send (co_packet_id opt)) dst hd hdr td false send') as (d1 & -> & H1);
    [done|lia|done|]. fold ad in H1. cbn [res_bind negb].
  buf_facts Hs. rewrite (buf_len_repr _ _ _ _ Hs). unfold TLS_CRYPT_BLOCK_SIZE, TLS_CRYPT_TAG_SIZE.
  change (128 / 8) with 16. change (256 / 8) with 32.
  rewrite u64_id by (unfold is_u64; lia). rewrite (buf_safe_repr _ _ _ _ H1), (proj2 (Z.leb_le _ _)) by lia. cbn [negb].
  rewrite (buf_bytes_repr _ _ _ _ H1), (buf_bytes_repr _ _ _ _ Hs). cbn [res_bind]. fold (tls_crypt_tag hk ad plain). fold tag.
  destruct (write_alloc_repr d1 _ _ _ 32 H1) as (junk & d2 & -> & Lj & H2); [lia|].
  rewrite <- (app_nil_r junk) in H2.
  destruct (poke_inside d2 hd ad junk [] (td - 8 - 32) tag) as (d3 & -> & H3); [done|lia|done|]. cbn [res_bind].
  assert (Etag : tag = vector (ctr kb true) tag ++ drop (Z.to_nat (cipher_ctx_iv_length (ctr kb true))) tag)
    by (by rewrite take_drop).
  rewrite (peek_inside d3 hd ad (vector (ctr kb true) tag) (drop (Z.to_nat (cipher_ctx_iv_length (ctr kb true))) tag) (td - 8 - 32));
    [|rewrite <- Etag; by rewrite app_nil_r in H3|by rewrite Zlen_vector|done].
  cbn [res_bind]. rewrite cl_ctr_reset. cbn [res_bind].
  destruct (cl_ctr_update kb true (vector (ctr kb true) tag) plain Fok) as (ct & Ec & Lc & Oc & Ef). rewrite Ec.
  destruct (append_out_repr d3 _ _ _ ct H3) as (d4 & -> & H4); [lia|done|]. cbn [res_bind]. rewrite Ef.
  rewrite (prefix_out_nil _ _ _ _ H4). cbn [res_bind]. exists ct, d4. split_and!; try done.
  rewrite app_nil_r, <- app_assoc in H4. by replace (td - 40 - Zlen plain) with (td - 8 - 32 - Zlen ct) by lia.
Qed.

(** Unwrapping: the packet is accepted exactly if the tag is the one of the decrypted bytes
    and the replay check passes; the options change only in the replay window. *)
Lemma tls_crypt_unwrap_cases now kb hk opt src h ad tag ct t dst hd td :
  crypt_key false kb hk (bi_decrypt (co_keys opt)) -> packet_id_initialized (co_packet_id opt) = true ->
  flag opt CO_IGNORE_PACKET_ID = false ->
  buf_repr src h (ad ++ tag ++ ct) t -> Zlen ad = 17 -> Zlen tag = 32 ->
  buf_repr dst hd [] td -> Zlen ct + 16 <= td ->
  exists plain, cipher_ctx_update (ctr kb false) (vector (ctr kb false) tag) [] ct = Some plain /\ Zlen plain = Zlen ct
    /\ if bool_decide (tag = tls_crypt_tag hk ad plain) then
         forall ok opt', crypto_check_replay now opt (pin_of (drop 9 ad)) 0 = Ret (ok, opt') ->
         exists dst', tls_crypt_unwrap now src dst opt = Ret (ok, dst', opt')
           /\ (ok = true -> buf_repr dst' hd plain (td - Zlen plain))
       else exists dst', tls_crypt_unwrap now src dst opt = Ret (false, dst', opt).
Proof using LL.
  intros [Hc Hh] Hp Hig Hs La Lt Hd Hroom. unfold tls_crypt_unwrap. rewrite Hc, Hh, Hp, Hig. buf_facts Hs.
  rewrite (buf_len_repr _ _ _ _ Hs). rewrite Zlen_app, Zlen_app in Flen.
  assert (Elen : Zlen (ad ++ tag ++ ct) = 49 + Zlen ct) by (rewrite !Zlen_app; lia). rewrite Elen.
  pose proof (Zlen_nonneg ct). rewrite (proj2 (Z.ltb_lt 0 (b_len src))) by lia. cbn [res_bind orb].
  change TLS_CRYPT_OFF_CT with 49. change TLS_CRYPT_OFF_TAG with 17. change TLS_CRYPT_OFF_PID with 9.
  change TLS_CRYPT_BLOCK_SIZE with 16. change TLS_CRYPT_TAG_SIZE with 32.
  rewrite (proj2 (Z.ltb_ge (49 + _) 49)) by lia. replace (49 + Zlen ct - 49) with (Zlen ct) by lia.
  rewrite u64_id by (unfold is_u64; lia). rewrite (buf_safe_repr _ _ _ _ Hd), (proj2 (Z.leb_le _ _)) by lia. cbn [negb].
  apply bytes_ok_app in Fok as [Oa Fok]. apply bytes_ok_app in Fok as [Ot Oc].
  pose proof (take_drop (Z.to_nat (cipher_ctx_iv_length (ctr kb false))) tag) as Etag. rewrite Foff.
  rewrite (peek_inside src h ad (vector (ctr kb false) tag) (drop (Z.to_nat (cipher_ctx_iv_length (ctr kb false))) tag ++ ct) t);
    [|by rewrite (app_assoc (take _ _)), Etag|by rewrite Zlen_vector|lia].
  cbn [res_bind]. rewrite cl_ctr_reset. cbn [negb].
  rewrite (peek_inside src h (ad ++ tag) ct [] t) by (rewrite ?app_nil_r, <- ?app_assoc; try done; rewrite Zlen_app; lia).
  cbn [res_bind]. destruct (cl_ctr_update kb false (vector (ctr kb false) tag) ct Oc) as (plain & Ec & Lc & Op & Ef).
  exists plain. split; [done|]. split; [done|]. rewrite Ec.
  destruct (prefix_out_empty dst hd td plain Hd) as (d1 & -> & H1); [lia|done|]. cbn [res_bind]. rewrite Ef.
  rewrite (prefix_out_nil _ _ _ _ H1). cbn [res_bind].
  rewrite (peek_inside src h ad tag ct t) by (done || lia). cbn [res_bind].
  rewrite (peek_inside src h [] ad (tag ++ ct) t) by (done || (change (Zlen []) with 0; lia)). cbn [res_bind].
  rewrite (buf_bytes_repr _ _ _ _ H1). cbn [res_bind]. fold (tls_crypt_tag hk ad plain).
  destruct (tls_crypt_tag_ok hk ad plain) as [Lv Ov].
  rewrite mem_write_ok by (rewrite ?Lv; unfold Zlen; rewrite ?length_replicate; lia). cbn [res_bind].
  rewrite (drop_ge (replicate 32 0)), app_nil_r by (unfold Zlen in Lv; rewrite length_replicate; lia).
  change (take (Z.to_nat 0) (replicate 32 0) ++ tls_crypt_tag hk ad plain) with (tls_crypt_tag hk ad plain).
  unfold memcmp_eq. destruct (decide (tag = tls_crypt_tag hk ad plain));
    [rewrite !bool_decide_eq_true_2 by done | rewrite !bool_decide_eq_false_2 by done; by eexists]. cbn [negb].
  intros ok opt' Hck. destruct (buf_advance_repr _ _ _ _ Hs 9) as (s1 & -> & Hs1); [lia|]. cbn [res_bind].
  change (Z.to_nat 9) with 9%nat in Hs1.
  rewrite drop_app_le in Hs1 by (unfold Zlen in La; lia).
  destruct (packet_id_read_long _ _ _ _ _ Hs1) as (s2 & -> & _); [unfold Zlen in *; rewrite length_drop; lia|].
  cbn [res_bind]. rewrite Hck. destruct ok; cbn; eexists; split; try done.
Qed.

(** ** The replay window *)

(** A packet behind every packet before it. *)
Definition later (p : packet_id_rec) (pin : packet_id_net) : Prop :=
  0 < net_id pin < id_bound /\ (rec_time p < net_time pin \/ net_time pin = rec_time p /\ rec_id p < net_id pin).

Lemma later_accepts now sb p acc pin :
  window_hist sb p acc -> SEQ_EXPIRED < now -> later p pin ->
  exists p', replay_check now p pin = Ret (true, p') /\ window_hist sb p' (pin :: acc).
Proof.
  intros Hw Hn [Hid Hl]. destruct (window_hist_step sb now p acc pin Hw) as (ok & p' & E & _ & Hw'); [split; cbn; lia|].
  destruct ok; [by eauto|]. exfalso. destruct Hw as (es & Hw & _). unfold replay_check in E.
  destruct (packet_id_reap_test_window now sb p es Hw) as (p1 & es1 & E1 & Hw1 & _ & Ht & Hi & _).
  rewrite E1 in E. cbn [res_bind] in E.
  destruct (packet_id_test_window sb p1 es1 pin Hw1) as (p2 & E2 & _); [lia|]. rewrite E2 in E. cbn [res_bind] in E.
  assert (Ha : window_accepts sb p1 es1 pin = true).
  { unfold window_accepts. rewrite Ht, Hi, (proj2 (Z.eqb_neq (net_id pin) 0)) by lia. cbn [negb andb].
    destruct Hl as [Hl | [Hl Hl']]; [by rewrite (proj2 (Z.ltb_lt _ _) Hl)|].
    rewrite (proj2 (Z.eqb_eq _ _) Hl), (proj2 (Z.ltb_lt _ _) Hl'). by rewrite orb_true_r. }
  rewrite Ha in E. apply res_bind_Ret_inv in E as (p3 & _ & E). done.
Qed.

Lemma check_replay_later now sb (opt : crypto_options) acc pin :
  window_hist sb (pid_rec (co_packet_id opt)) acc -> SEQ_EXPIRED < now -> later (pid_rec (co_packet_id opt)) pin ->
  exists opt', crypto_check_replay now opt pin 0 = Ret (true, opt') /\ co_keys opt' = co_keys opt
    /\ co_flags opt' = co_flags opt /\ window_hist sb (pid_rec (co_packet_id opt')) (pin :: acc).
Proof.
  intros Hw Hn Hl. destruct (later_accepts now sb _ acc pin Hw Hn Hl) as (p' & E & Hw').
  unfold crypto_check_replay. cbn [Z.eqb orb res_bind]. rewrite E. cbn [res_bind].
  destruct (co_pid_persist (set_pid_rec opt p')); [destruct (flag _ _)|]; eexists; split; [done| |done| |done|]; done.
Qed.

Lemma window_hist_init sb p acc : window_hist sb p acc -> initialized p = true.
Proof. by intros (es & (? & _) & _). Qed.

(** ** Both ends of the control channel *)
Inductive wrap_peers (a b : wrap_ctx) : Prop :=
| peers_none :
    tw_mode a = TLS_WRAP_NONE -> tw_mode b = TLS_WRAP_NONE -> ctx_cipher (tw_server_key b) = None -> wrap_peers a b
| peers_auth hm :
    tw_mode a = TLS_WRAP_AUTH -> tw_mode b = TLS_WRAP_AUTH -> flag (tw_opt b) CO_IGNORE_PACKET_ID = false ->
    auth_opt hm (bi_encrypt (co_keys (tw_opt a))) (tw_opt a) ->
    auth_opt hm (bi_decrypt (co_keys (tw_opt b))) (tw_opt b) -> wrap_peers a b
| peers_crypt kb hk :
    tw_mode a = TLS_WRAP_CRYPT -> tw_mode b = TLS_WRAP_CRYPT -> flag (tw_opt b) CO_IGNORE_PACKET_ID = false ->
    packet_id_initialized (co_packet_id (tw_opt a)) = true ->
    crypt_key true kb hk (bi_encrypt (co_keys (tw_opt a))) ->
    crypt_key false kb hk (bi_decrypt (co_keys (tw_opt b))) -> wrap_peers a b.

(** The room for a payload of [n] bytes that lies [h] bytes into its buffer. *)
Definition wrap_room (a : wrap_ctx) (h n : Z) : Prop :=
  match tw_mode a with
  | TLS_WRAP_NONE => 9 <= h
  | TLS_WRAP_AUTH => 9 + 8 + OPENVPN_MAX_HMAC_SIZE <= h
  | TLS_WRAP_CRYPT => buf_wf (tw_work a) /\ b_data (tw_work a) <> None /\ h + 9 + 56 + n <= b_capacity (tw_work a)
  end.

(** The bytes on the wire of a packet with the header [hdr] and the identifier [pid]. *)
Definition on_wire (a b : wrap_ctx) (hdr pid c w : bytes) : Prop :=
  match tw_mode a with
  | TLS_WRAP_NONE => w = hdr ++ c
  | TLS_WRAP_AUTH => exists hm, auth_opt hm (bi_decrypt (co_keys (tw_opt b))) (tw_opt b)
      /\ w = hdr ++ hmac_ctx_value hm (pid ++ hdr ++ c) ++ pid ++ c
  | TLS_WRAP_CRYPT => exists kb hk ct, crypt_key false kb hk (bi_decrypt (co_keys (tw_opt b)))
      /\ cipher_ctx_update (ctr kb true) (vector (ctr kb true) (tls_crypt_tag hk (hdr ++ pid) c)) [] c = Some ct
      /\ w = hdr ++ pid ++ tls_crypt_tag hk (hdr ++ pid) c ++ ct
  end.

(** The sender's context afterwards. *)
Definition sent_ctx (a : wrap_ctx) (send' : packet_id_send) (a' : wrap_ctx) : Prop :=
  match tw_mode a with
  | TLS_WRAP_NONE => a' = a
  | TLS_WRAP_AUTH => a' = set_tw_opt a (set_pid_send (tw_opt a) send')
  | TLS_WRAP_CRYPT => exists work h c t, a' = set_tw_work a (set_pid_send (tw_opt a) send') work
      /\ buf_repr work h c t /\ b_capacity work = b_capacity (tw_work a)
  end.

Definition carries_wkc (header : Z) : bool :=
  (Z.shiftr header P_OPCODE_SHIFT =? P_CONTROL_HARD_RESET_CLIENT_V3) || (Z.shiftr header P_OPCODE_SHIFT =? P_CONTROL_WKC_V1).

Lemma prepend_header (header : Z) sid buf h c t :
  is_u8 header -> Zlen sid = 8 -> bytes_ok sid -> buf_repr buf h c t -> 9 <= h ->
  exists buf',
    (let! (ok, buf) := session_id_write_prepend sid buf in
     assert! ok in
     let! (ok, buf) := buf_write_prepend buf [header] in
     assert! ok in Ret buf) = Ret buf'
    /\ buf_repr buf' (h - 9) ((header :: sid) ++ c) t.
Proof.
  intros Hh Ls Os Hb Hr. unfold session_id_write_prepend.
  destruct (buf_write_prepend_repr _ _ _ _ Hb sid Os) as (b1 & -> & H1); [lia|]. cbn [res_bind].
  destruct (buf_write_prepend_repr _ _ _ _ H1 [header]) as (b2 & -> & H2);
    [by apply Forall_singleton|rewrite Ls; change (Zlen [header]) with 1; lia|]. cbn [res_bind].
  exists b2. split; [done|]. rewrite Ls in H2. change (Zlen [header]) with 1 in H2.
  by replace (h - 9) with (h - 8 - 1) by lia.
Qed.

(** The packet in the work buffer, before a wrapped client key is appended. *)
Lemma wrap_crypt_spec now prng (a : wrap_ctx) header sid buf h c t send' kb hk :
  tw_mode a = TLS_WRAP_CRYPT -> packet_id_initialized (co_packet_id (tw_opt a)) = true ->
  crypt_key true kb hk (bi_encrypt (co_keys (tw_opt a))) -> is_u8 header -> Zlen sid = 8 -> bytes_ok sid ->
  buf_repr buf h c t -> wrap_room a h (Zlen c) ->
  packet_id_send_update now (pid_send (co_packet_id (tw_opt a))) true = (true, send') ->
  let ad := (header :: sid) ++ long_pid (send_id send') (send_time send') in
  let opt := set_pid_send (tw_opt a) send' in
  exists w ct, cipher_ctx_update (ctr kb true) (vector (ctr kb true) (tls_crypt_tag hk ad c)) [] c = Some ct
    /\ buf_repr w h (ad ++ tls_crypt_tag hk ad c ++ ct) (b_capacity (tw_work a) - h - 49 - Zlen c)
    /\ tls_wrap_control now prng a header buf sid
       = (if carries_wkc header then
            match tw_wkc a with
            | None => UB
            | Some wkc => let! (ok, work) := buf_copy w wkc in
                          if negb ok then Ret (drop_buf buf, set_tw_work a opt work) else Ret (work, set_tw_work a opt work)
            end
          else Ret (w, set_tw_work a opt w)).
Proof using LL.
  intros Ma Hi Ha Hu Ls Os Hb Hr Hup ad opt. unfold tls_wrap_control, wrap_room in *. rewrite Ma in *.
  destruct Hr as (Hw & Hwd & Hcap). destruct (buf_repr_fields _ _ _ _ Hb) as (Foff & _ & _ & Fh & _). cbn [res_bind]. rewrite Foff.
  pose proof (Zlen_nonneg c). destruct (buf_init_repr (tw_work a) h Hw Hwd) as (w0 & E0 & H0); [lia|].
  rewrite E0. cbn [res_bind].
  destruct (buf_write_repr _ _ _ _ H0 [header]) as (w1 & -> & H1); [by apply Forall_singleton|change (Zlen [header]) with 1; lia|].
  cbn [res_bind app] in *. change (Zlen [header]) with 1 in H1. unfold session_id_write.
  destruct (buf_write_repr _ _ _ _ H1 sid Os) as (w2 & -> & H2); [lia|]. cbn [res_bind app] in *.
  destruct (tls_crypt_wrap_spec now kb hk (tw_opt a) send' buf h c t w2 _ _ _ Ha Hi Hup Hb H2)
    as (ct & w3 & Ec & -> & Lc & H3); [lia|]. cbn [res_bind negb]. exists w3, ct. split; [done|]. split; [|done].
  by replace (b_capacity (tw_work a) - h - 49 - Zlen c) with (b_capacity (tw_work a) - h - 1 - Zlen sid - 40 - Zlen c) by lia.
Qed.

Lemma wrap_control_spec now prng a b header sid buf h c t send' :
  wrap_peers a b -> carries_wkc header = false -> is_u8 header -> Zlen sid = 8 -> bytes_ok sid ->
  buf_repr buf h c t -> wrap_room a h (Zlen c) ->
  packet_id_send_update now (pid_send (co_packet_id (tw_opt a))) true = (true, send') ->
  exists p a' hp w tp, tls_wrap_control now prng a header buf sid = Ret (p, a') /\ buf_repr p hp w tp
    /\ on_wire a b (header :: sid) (long_pid (send_id send') (send_time send')) c w /\ sent_ctx a send' a'
    /\ hp + Zlen w <= h + 49 + Zlen c.
Proof using LL.
  intros Hp Hk Hu Ls Os Hb Hr Hup. unfold wrap_room, on_wire, sent_ctx in *.
  set (pid := long_pid _ _).
  destruct Hp as [Ma Mb _ | hm Ma Mb _ Ha Hbb | kb hk Ma Mb _ Hi Ha Hbb]; rewrite Ma in *.
  - unfold tls_wrap_control. rewrite Ma.
    destruct (prepend_header header sid buf h c t) as (p & -> & Hp); [done..|]. cbn [res_bind].
    eexists _, _, _, _, _. split_and!; try done. rewrite Zlen_app, Zlen_cons. lia.
  - unfold tls_wrap_control. rewrite Ma. unfold OPENVPN_MAX_HMAC_SIZE in Hr. pose proof (ao_size _ _ _ Ha) as Hs. unfold OPENVPN_MAX_HMAC_SIZE in Hs.
    destruct (prepend_header header sid buf h c t) as (b1 & -> & H1); [done|done|done|done|lia|]. cbn [res_bind].
    destruct (auth_encrypt_spec now prng hm (tw_opt a) send' b1 _ _ _ Ha H1) as (b2 & -> & H2);
      [rewrite Zlen_app, Zlen_cons; pose proof (Zlen_nonneg sid); pose proof (Zlen_nonneg c); lia|lia|done|].
    cbn [res_bind]. fold pid in H2.
    destruct (cl_hmac hm (pid ++ (header :: sid) ++ c)) as [Lm _].
    destruct (swap_hmac_spec (set_pid_send (tw_opt a) send') false hm b2 (h - 9 - 8 - hmac_ctx_size hm)
      (hmac_ctx_value hm (pid ++ (header :: sid) ++ c) ++ pid) (header :: sid) c t) as (b3 & -> & H3).
    { apply (ao_hmac _ _ _ Ha). } { done. } { by rewrite <- app_assoc. }
    { rewrite Zlen_app, Lm, Zlen_cons, Ls. unfold pid. by rewrite Zlen_long_pid. }
    cbn [res_bind]. eexists _, _, _, _, _. split; [done|]. split; [exact H3|].
    split; [exists hm; split; [done|]; by rewrite <- app_assoc|]. split; [done|].
    rewrite !Zlen_app, Lm, Zlen_cons. unfold pid. rewrite Zlen_long_pid. lia.
  - destruct (wrap_crypt_spec now prng a header sid buf h c t send' kb hk) as (w & ct & Ec & H3 & ->); try done.
    { unfold wrap_room. by rewrite Ma. }
    fold pid in Ec, H3. rewrite Hk. assert (Lc : Zlen ct = Zlen c).
    { destruct (cl_ctr_update kb true (vector (ctr kb true) (tls_crypt_tag hk ((header :: sid) ++ pid) c)) c) as (o & Eo & Lo & _);
        [by apply (buf_repr_fields _ _ _ _ Hb)|congruence]. }
    destruct (tls_crypt_tag_ok hk ((header :: sid) ++ pid) c) as [Lt _].
    eexists _, _, _, _, _. split; [done|]. split; [exact H3|]. split; [|split].
    + exists kb, hk, ct. split; [done|]. split; [done|]. by rewrite <- app_assoc.
    + eexists _, _, _, _. split; [done|]. split; [exact H3|]. destruct (buf_repr_fields _ _ _ _ H3) as (_ & _ & -> & _).
      rewrite !Zlen_app, Lt, Zlen_cons, Ls, Lc. unfold pid. rewrite Zlen_long_pid. lia.
    + rewrite !Zlen_app, Lt, Zlen_cons, Ls, Lc. unfold pid. rewrite Zlen_long_pid. lia.
Qed.

Lemma on_wire_header a b hdr pid c w : on_wire a b hdr pid c w -> exists r, w = hdr ++ r.
Proof. unfold on_wire. destruct (tw_mode a); naive_solver. Qed.

(** What an accepted packet changes in the receiver. *)
Definition got (sb : Z) (acc : list packet_id_net) (pin : packet_id_net) (b b' : wrap_ctx) : Prop :=
  match tw_mode b with
  | TLS_WRAP_NONE => b' = b
  | _ => exists opt', b' = set_tw_opt b opt' /\ co_keys opt' = co_keys (tw_opt b) /\ co_flags opt' = co_flags (tw_opt b)
      /\ window_hist sb (pid_rec (co_packet_id opt')) (pin :: acc)
  end.

Lemma advance_header buf h hdr c t :
  buf_repr buf h (hdr ++ c) t -> Zlen hdr = 9 -> exists buf', buf_advance buf (SID_SIZE + 1) = (true, buf') /\ buf_repr buf' (h + 9) c t.
Proof.
  intros Hb Lh. pose proof (Zlen_nonneg c). destruct (buf_advance_repr _ _ _ _ Hb 9) as (b' & E & H'); [rewrite Zlen_app; lia|].
  rewrite <- Lh, to_nat_Zlen, drop_app_length, Lh in H'. exists b'. by rewrite <- E.
Qed.

(** The first byte decides whether there is a wrapped client key. *)
Lemma read_first now fresh verify rbuf b initial hr header r tr :
  buf_repr rbuf hr (header :: r) tr ->
  read_control_auth now fresh verify rbuf b initial
  = (let! (ok, buf, ctx) := (if carries_wkc header then tls_crypt_v2_extract_client_key verify rbuf b initial
                             else Ret (true, rbuf, b)) in
     if negb ok then Ret (false, buf, ctx) else unwrap_by_mode now fresh buf ctx).
Proof.
  intros Hb. unfold read_control_auth, carries_wkc. destruct (buf_repr_fields _ _ _ _ Hb) as (-> & _).
  rewrite (peek_inside rbuf hr [] [header] r tr) by (done || (change (Zlen []) with 0; lia)). cbn [res_bind].
  assert (Ev : be_val [header] = header) by (cbn [be_val]; change (256 ^ Zlen []) with 1; lia). by rewrite Ev.
Qed.

Lemma unwrap_mode_spec now fresh a b hdr pid c w rbuf hr tr sb acc :
  wrap_peers a b -> Zlen hdr = 9 -> Zlen pid = 8 -> bytes_ok c ->
  on_wire a b hdr pid c w -> buf_repr rbuf hr w tr ->
  (forall n, 0 <= n -> Zlen (fresh n) = n /\ bytes_ok (fresh n)) -> SEQ_EXPIRED < now ->
  window_hist sb (pid_rec (co_packet_id (tw_opt b))) acc -> later (pid_rec (co_packet_id (tw_opt b))) (pin_of pid) ->
  exists q b' hq tq, unwrap_by_mode now fresh rbuf b = Ret (true, q, b') /\ buf_repr q hq c tq
    /\ got sb acc (pin_of pid) b b'.
Proof using LL.
  intros Hp Lh Lp Oc Hw Hb Hf Hn Hwin Hl. unfold unwrap_by_mode, on_wire, got in *.
  destruct (buf_repr_fields _ _ _ _ Hb) as (Foff & Flen & Fcap & Fh & Ft & Fmax & Fok & _).
  destruct Hp as [Ma Mb Hs | hm Ma Mb Hig Ha Hbb | kb hk Ma Mb Hig Hi Ha Hbb]; rewrite Ma, Mb in *.
  - subst w. rewrite Hs. cbn [res_bind negb]. rewrite Mb. destruct (advance_header _ _ _ _ _ Hb Lh) as (q & -> & Hq). eauto 10.
  - destruct Hw as (hm' & Hm' & ->). assert (hm' = hm) as -> by (pose proof (ao_hmac _ _ _ Hm'); pose proof (ao_hmac _ _ _ Hbb); congruence).
    set (m := hmac_ctx_value hm _) in *. destruct (cl_hmac hm (pid ++ hdr ++ c)) as [Lm _]. fold m in Lm.
    rewrite (app_assoc m pid c) in Hb.
    destruct (swap_hmac_spec (tw_opt b) true hm rbuf hr hdr (m ++ pid) c tr) as (b1 & -> & H1);
      [apply (ao_hmac _ _ _ Hbb)|apply (ao_size _ _ _ Hbb)|done|rewrite Zlen_app, Lm, Lp, Lh; done|].
    cbn [res_bind negb]. rewrite <- app_assoc in H1.
    destruct (check_replay_later now sb (tw_opt b) acc (pin_of pid) Hwin Hn Hl) as (opt' & Eck & K1 & K2 & Hwin').
    pose proof (auth_decrypt_cases now hm (tw_opt b) b1 hr m pid (hdr ++ c) tr Hbb H1 Lm Lp Hig) as Hd.
    rewrite bool_decide_eq_true_2 in Hd by done. destruct (Hd _ _ Eck) as (b2 & -> & h2 & H2). cbn [res_bind].
    destruct (buf_repr_fields _ _ _ _ H2) as (_ & -> & _). rewrite Zlen_app, Lh. pose proof (Zlen_nonneg c).
    rewrite (proj2 (Z.eqb_neq _ 0)) by lia. cbn [negb set_tw_opt tw_mode]. rewrite Mb.
    destruct (advance_header _ _ _ _ _ H2 Lh) as (q & -> & Hq). eexists _, _, _, _. split; [done|]. split; [done|]. eauto.
  - destruct Hw as (kb' & hk' & ct & Hk' & Ec & ->). set (tag := tls_crypt_tag hk' (hdr ++ pid) c) in *.
    destruct (tls_crypt_tag_ok hk' (hdr ++ pid) c) as [Lt Ot]. fold tag in Lt, Ot.
    assert (Lc : Zlen ct = Zlen c).
    { destruct (cl_ctr_update kb' true (vector (ctr kb' true) tag) c Oc) as (o & Eo & Lo & _). congruence. }
    rewrite !Zlen_app, Lh, Lp, Lt, Lc in *. pose proof (Zlen_nonneg c).
    unfold buf_forward_capacity_total. rewrite (proj1 (buf_repr_valid _ _ _ _ Hb)), Fcap, Foff.
    rewrite (proj2 (Z.ltb_ge _ 0)) by lia.
    set (n := hr + _ + tr - hr). assert (Hnn : n = 49 + Zlen c + tr) by (unfold n; lia).
    destruct (Hf n) as [Lf Of]; [lia|].
    destruct (alloc_buf_gc_repr (fresh n) Of) as (tmp & -> & Htmp); [unfold BUF_SIZE_MAX in *; lia|]. cbn [res_bind]. rewrite Lf in Htmp.
    rewrite (app_assoc hdr pid) in Hb.
    destruct (tls_crypt_unwrap_cases now kb' hk' (tw_opt b) rbuf hr (hdr ++ pid) tag ct tr tmp 0 n Hk'
      (window_hist_init _ _ _ Hwin) Hig Hb) as (plain & Ep & Lpl & Hun); [rewrite Zlen_app; lia|done|done|lia|].
    assert (Ev2 : vector (ctr kb' false) tag = vector (ctr kb' true) tag).
    { by rewrite !cl_ctr_iv. }
    rewrite Ev2 in Ep. rewrite (cl_ctr_inv kb' _ _ _ Oc Ec) in Ep. injection Ep as <-.
    rewrite bool_decide_eq_true_2 in Hun by done.
    destruct (check_replay_later now sb (tw_opt b) acc (pin_of pid) Hwin Hn Hl) as (opt' & Eck & K1 & K2 & Hwin').
    rewrite (drop_app_length' hdr pid 9) in Hun by (unfold Zlen in Lh; lia).
    destruct (Hun _ _ Eck) as (tmp' & -> & Htmp'). specialize (Htmp' eq_refl). cbn [res_bind negb].
    destruct (buf_init_repr rbuf hr (buf_repr_wf _ _ _ _ Hb)) as (b1 & -> & H1); [apply (buf_repr_fields _ _ _ _ Hb)|lia|].
    cbn [res_bind]. unfold buf_copy. rewrite (buf_bytes_repr _ _ _ _ Htmp'). cbn [res_bind].
    destruct (buf_write_repr _ _ _ _ H1 c Oc) as (b2 & -> & H2); [lia|]. cbn [res_bind negb set_tw_opt tw_mode app] in *. rewrite Mb.
    eexists _, _, _, _. split; [done|]. split; [exact H2|]. eauto.
Qed.

Lemma read_control_spec now fresh verify a b header sid pid c w rbuf hr tr initial sb acc :
  wrap_peers a b -> carries_wkc header = false -> Zlen sid = 8 -> Zlen pid = 8 -> bytes_ok c ->
  on_wire a b (header :: sid) pid c w -> buf_repr rbuf hr w tr ->
  (forall n, 0 <= n -> Zlen (fresh n) = n /\ bytes_ok (fresh n)) -> SEQ_EXPIRED < now ->
  window_hist sb (pid_rec (co_packet_id (tw_opt b))) acc -> later (pid_rec (co_packet_id (tw_opt b))) (pin_of pid) ->
  exists q b' hq tq, read_control_auth now fresh verify rbuf b initial = Ret (true, q, b') /\ buf_repr q hq c tq
    /\ got sb acc (pin_of pid) b b'.
Proof using LL.
  intros Hp Hk Ls Lp Oc Hw Hb Hf Hn Hwin Hl. destruct (on_wire_header _ _ _ _ _ _ Hw) as (r0 & Er0).
  rewrite (read_first now fresh verify rbuf b initial hr header (sid ++ r0) tr), Hk by (by rewrite Er0 in Hb).
  cbn [res_bind negb]. eapply unwrap_mode_spec; try done. rewrite Zlen_cons. lia.
Qed.

Lemma flag_set_pid_send (co : crypto_options) s f : flag (set_pid_send co s) f = flag co f.
Proof. done. Qed.

Lemma peers_next a b a' b' send' sb acc pin :
  wrap_peers a b -> sent_ctx a send' a' -> got sb acc pin b b' -> wrap_peers a' b'.
Proof.
  intros Hp Ha Hb. unfold sent_ctx, got in *.
  destruct Hp as [Ma Mb Hs | hm Ma Mb Hig Ho Hr | kb hk Ma Mb Hig Hi Ho Hr]; rewrite Ma in Ha; rewrite Mb in Hb.
  - subst. by apply peers_none.
  - subst a'. destruct Hb as (opt' & -> & Ek & Ef & Hw). destruct Ho as [? ? ? ? ?], Hr as [? ? ? ? ?].
    apply (peers_auth _ _ hm); cbn; try done; unfold flag in *; rewrite ?Ef; try done.
    split; cbn; rewrite ?Ek; try done; [by eapply window_hist_init|unfold flag in *; by rewrite Ef].
  - destruct Ha as (wk & h & c & t & -> & _). destruct Hb as (opt' & -> & Ek & Ef & Hw).
    apply (peers_crypt _ _ kb hk); cbn; try done; unfold flag in *; by rewrite ?Ef, ?Ek.
Qed.

Lemma send_time_u32 now p l ok p' :
  is_u32 now -> is_u32 (send_time p) -> packet_id_send_update now p l = (ok, p') -> is_u32 (send_time p').
Proof.
  intros Hn Ht. unfold packet_id_send_update. destruct (send_time p =? 0); repeat case_match; intros; by simplify_eq/=.
Qed.

(** C12: Control packets arrive.  In each wrapping mode (none, tls-auth, tls-crypt), the packet
    tls_wrap_control makes of a payload starts with the opcode byte and the sender's session
    identifier, and the peer with the matching keys gets exactly the payload back from
    read_control_auth, whatever buffer it arrives in and whatever the memory it allocates held;
    the identifier is entered into its replay window, and both ends stay matched for the next
    packet.  (Packets that carry a wrapped client key are the subject of the theorem on
    tls-crypt-v2.) *)
Theorem control_packet_roundtrip (now now' header h t sb : Z) (prng c : bytes) (fresh : Z -> bytes)
    (verify : option (wrap_ctx -> res bool)) (a b : wrap_ctx) (sid : session_id) (buf : buffer)
    (initial : bool) (send' : packet_id_send) (acc : list packet_id_net) :
  wrap_peers a b -> carries_wkc header = false -> is_u8 header -> Zlen sid = SID_SIZE -> bytes_ok sid ->
  buf_repr buf h c t -> wrap_room a h (Zlen c) ->
  send_wf (pid_send (co_packet_id (tw_opt a))) -> is_u32 (send_time (pid_send (co_packet_id (tw_opt a)))) ->
  0 < now -> is_u32 now -> SEQ_EXPIRED < now' ->
  packet_id_send_update now (pid_send (co_packet_id (tw_opt a))) true = (true, send') ->
  window_hist sb (pid_rec (co_packet_id (tw_opt b))) acc ->
  later (pid_rec (co_packet_id (tw_opt b))) (mk_net (send_id send') (send_time send')) ->
  (forall n, 0 <= n -> Zlen (fresh n) = n /\ bytes_ok (fresh n)) ->
  exists p a', tls_wrap_control now prng a header buf sid = Ret (p, a')
    /\ take 9 (contents p) = header :: sid
    /\ forall rbuf hr tr, buf_repr rbuf hr (contents p) tr ->
       exists q b', read_control_auth now' fresh verify rbuf b initial = Ret (true, q, b')
         /\ contents q = c /\ wrap_peers a' b'
         /\ (tw_mode b <> TLS_WRAP_NONE ->
             window_hist sb (pid_rec (co_packet_id (tw_opt b'))) (mk_net (send_id send') (send_time send') :: acc)).
Proof using LL.
  intros Hp Hk Hu Ls Os Hb Hr Hwf Hst Hn Hnu Hn' Hup Hw Hl Hf.
  destruct (wrap_control_spec now prng a b header sid buf h c t send') as (p & a' & hp & w & tp & E & Hpb & Hwire & Hs & _); [done..|].
  destruct (send_update_fresh _ _ _ _ _ Hwf Hn Hup) as ((Hid & _) & _).
  assert (Hu1 : is_u32 (send_id send')) by (unfold is_u32, PACKET_ID_MAX, UINT32_MAX in *; lia).
  pose proof (send_time_u32 _ _ _ _ _ Hnu Hst Hup) as Hu2.
  exists p, a'. split; [done|]. rewrite (buf_repr_contents _ _ _ _ Hpb). split.
  { destruct (on_wire_header _ _ _ _ _ _ Hwire) as (r & ->). apply take_app_length'. unfold Zlen, SID_SIZE in Ls. cbn. lia. }
  intros rbuf hr tr Hrb.
  destruct (read_control_spec now' fresh verify a b header sid (long_pid (send_id send') (send_time send')) c w rbuf hr tr
    initial sb acc Hp Hk Ls (Zlen_long_pid _ _)) as (q & b' & hq & tq & Eq & Hq & Hg);
    rewrite ?pin_of_long by done; try done; [by apply (buf_repr_fields _ _ _ _ Hb)|].
  rewrite pin_of_long in Hg by done.
  exists q, b'. split; [done|]. split; [by apply (buf_repr_contents _ _ _ _ Hq)|].
  split; [by eapply peers_next|]. unfold got in Hg. destruct (tw_mode b); [done| |]; intros _; by destruct Hg as (o & -> & _ & _ & ?).
Qed.






Lemma take_bytes (w : bytes) n : 0 <= n <= Zlen w -> bytes_ok w ->
  exists x y, w = x ++ y /\ Zlen x = n /\ Zlen y = Zlen w - n /\ bytes_ok x /\ bytes_ok y.
Proof.
  intros Hn Ho. destruct (split_at w n Hn) as (x & y & -> & Lx & Ly & _). apply bytes_ok_app in Ho as [? ?]. eauto 10.
Qed.







(** Cutting off the end of the contents. *)
Lemma truncate_app b h x y t :
  buf_repr b h (x ++ y) t ->
  exists b', buf_inc_len b (- Zlen y) = (true, b') /\ buf_repr b' h x (t + Zlen y) /\ b_data b' = b_data b.
Proof.
  intros Hb. pose proof (Zlen_nonneg x). pose proof (Zlen_nonneg y).
  destruct (Deque.truncate_repr b h (x ++ y) t (Zlen y) Hb) as (b' & E & H'); [rewrite Zlen_app; lia|].
  exists b'. split; [done|]. rewrite take_app_length' in H' by (rewrite length_app, to_nat_Zlen; lia). split; [done|].
  unfold buf_inc_len in E. destruct (negb _); [done|]. by injection E as <-.
Qed.

Lemma advance_app b h x y t :
  buf_repr b h (x ++ y) t ->
  exists b', buf_advance b (Zlen x) = (true, b') /\ buf_repr b' (h + Zlen x) y t /\ b_data b' = b_data b.
Proof.
  intros Hb. pose proof (Zlen_nonneg x). pose proof (Zlen_nonneg y).
  destruct (buf_advance_repr _ _ _ _ Hb (Zlen x)) as (b' & E & H'); [rewrite Zlen_app; lia|].
  exists b'. split; [done|]. rewrite to_nat_Zlen, drop_app_length in H'. split; [done|].
  unfold buf_advance in E. destruct (_ || _); [done|]. by injection E as <-.
Qed.

(** What a receiver whose keys are set up has left of a packet to unwrap: the whole packet, or for
    an opcode that announces a wrapped client key, the packet without as many bytes as its last two
    say.  Without a server key for tls-crypt-v2 such a packet is refused. *)
Definition cut_wkc (w : bytes) : option bytes :=
  if Zlen w <? 2 then None
  else let n := be_val (drop (length w - 2) w) in
       if Zlen w <? n then None else Some (take (Z.to_nat (Zlen w - n)) w).

Lemma extract_established verify rbuf (b : wrap_ctx) hr w tr ck :
  buf_repr rbuf hr w tr -> ctx_cipher (tw_server_key b) = Some ck ->
  match cut_wkc w with
  | None => tls_crypt_v2_extract_client_key verify rbuf b false = Ret (false, rbuf, b)
  | Some w' => exists rbuf' tr', tls_crypt_v2_extract_client_key verify rbuf b false = Ret (true, rbuf', b)
               /\ buf_repr rbuf' hr w' tr'
  end.
Proof using.
  intros Hb Hk. destruct (buf_repr_fields _ _ _ _ Hb) as (Foff & Flen & _ & _ & _ & _ & Ow & _).
  unfold cut_wkc, tls_crypt_v2_extract_client_key. rewrite Hk, (buf_len_repr _ _ _ _ Hb).
  destruct (Z.ltb_spec (Zlen w) 2) as [|Hl]; [done|].
  destruct (take_bytes w (Zlen w - 2)) as (x & l2 & -> & Lx & L2 & _); [lia|done|]. rewrite Zlen_app in *.
  rewrite drop_app_length' by (unfold Zlen in *; rewrite length_app; lia).
  rewrite (buf_bend_repr _ _ _ _ Hb), Zlen_app.
  rewrite (peek_inside rbuf hr x l2 [] tr) by (rewrite ?app_nil_r; (done || lia)). cbn [res_bind].
  set (w := x ++ l2) in *. rewrite <- Zlen_app. fold w. remember (be_val l2) as n eqn:En.
  assert (Hn : 0 <= n) by (subst n; apply be_val_range; by apply (bytes_ok_app x l2)).
  destruct (Z.ltb_spec (Zlen w) n) as [Hlt|Hge].
  - unfold buf_advance. by rewrite (proj2 (Z.ltb_lt (Zlen w - n) 0)), orb_true_r by lia.
  - destruct (take_bytes w (Zlen w - n)) as (y & z & Ew & Ly & Lz & _); [lia|done|].
    rewrite Ew in Hb. destruct (advance_app _ _ _ _ _ Hb) as (b1 & E1 & H1 & _). rewrite Ly in E1. rewrite E1.
    cbn [negb]. rewrite (buf_len_repr _ _ _ _ H1). destruct (truncate_app _ _ _ _ _ Hb) as (b2 & -> & H2 & _).
    cbn [res_bind]. rewrite <- Ly, to_nat_Zlen, Ew, take_app_length. eauto.
Qed.


(** Nothing left to unwrap: [ASSERT (src->len > 0)]. *)
Lemma unwrap_crypt_empty now fresh (b : wrap_ctx) rbuf hr tr :
  tw_mode b = TLS_WRAP_CRYPT -> buf_repr rbuf hr [] tr ->
  (forall n, 0 <= n -> Zlen (fresh n) = n /\ bytes_ok (fresh n)) -> unwrap_by_mode now fresh rbuf b = Fatal.
Proof using.
  intros Mb Hb Hf. unfold unwrap_by_mode. rewrite Mb.
  destruct (buf_repr_fields _ _ _ _ Hb) as (Foff & Flen & Fcap & Fh & Ft & Fmax & _).
  unfold buf_forward_capacity_total. rewrite (proj1 (buf_repr_valid _ _ _ _ Hb)), Fcap, Foff.
  rewrite (proj2 (Z.ltb_ge _ 0)) by (change (Zlen []) with 0; lia). change (Zlen []) with 0 in *.
  destruct (Hf (hr + 0 + tr - hr)) as [Lf Of]; [lia|].
  destruct (alloc_buf_gc_repr (fresh (hr + 0 + tr - hr)) Of) as (tmp & -> & _); [unfold BUF_SIZE_MAX in *; lia|].
  cbn [res_bind]. unfold tls_crypt_unwrap. by rewrite Flen.
Qed.


(** Eleven bytes end a tls-crypt-v2 server: to an established session of a client comes a packet with
    the opcode of a hard reset or of P_CONTROL_WKC_V1, the session id of the client (which every
    control packet shows in the clear) and the length 11.  Nothing of it is authenticated before
    tls_crypt_v2_extract_client_key cuts the wrapped key off, which is then all of the packet, and
    the assertion in tls_crypt_unwrap that there is something to unwrap ends the process. *)
Lemma eleven_bytes_abort (now hr tr header : Z) (fresh : Z -> bytes) (verify : option (wrap_ctx -> res bool))
    (b : wrap_ctx) (sid : session_id) (rbuf : buffer) ck :
  tw_mode b = TLS_WRAP_CRYPT -> ctx_cipher (tw_server_key b) = Some ck -> carries_wkc header = true ->
  Zlen sid = SID_SIZE -> buf_repr rbuf hr (header :: sid ++ [0; 11]) tr ->
  (forall n, 0 <= n -> Zlen (fresh n) = n /\ bytes_ok (fresh n)) ->
  read_control_auth now fresh verify rbuf b false = Fatal.
Proof using.
  intros Mb Hk Hc Ls Hb Hf. rewrite (read_first _ _ _ _ _ _ _ _ _ _ Hb), Hc.
  pose proof (extract_established verify rbuf b _ _ _ _ Hb Hk) as He.
  assert (Ec : cut_wkc (header :: sid ++ [0; 11]) = Some []).
  { assert (Hl : length sid = 8%nat) by (unfold SID_SIZE, Zlen in Ls; lia).
    destruct sid as [|? [|? [|? [|? [|? [|? [|? [|? [|]]]]]]]]]; try discriminate Hl. reflexivity. }
  rewrite Ec in He. destruct He as (rbuf' & tr' & -> & Hb'). cbn [res_bind negb]. by eapply unwrap_crypt_empty.
Qed.

(** ** tls-crypt-v2 *)
Definition key_wf (k : key) : Prop :=
  Zlen (k_cipher k) = 64 /\ Zlen (k_hmac k) = 64 /\ bytes_ok (k_cipher k) /\ bytes_ok (k_hmac k).
Definition key2_wf (k : key2) : Prop :=
  exists k0 k1, k = mk_key2 2 [k0; k1] /\ key_wf k0 /\ key_wf k1.

Lemma key2_bytes_ok k : key2_wf k -> Zlen (key2_bytes k) = 256 /\ bytes_ok (key2_bytes k) /\ key2_of_bytes (key2_bytes k) = k.
Proof.
  intros ([c0 h0] & [c1 h1] & -> & (A1 & A2 & A3 & A4) & B1 & B2 & B3 & B4). cbn in *.
  unfold key2_bytes, key2_of_bytes, key_of_bytes. cbn [key2_keys map concat k_cipher k_hmac]. rewrite app_nil_r.
  rewrite !Zlen_app, !bytes_ok_app. split; [lia|]. split; [done|]. unfold Zlen in *.
  rewrite (take_app_length' (c0 ++ h0)), (drop_app_length' (c0 ++ h0)) by (rewrite length_app; lia).
  by rewrite !take_app_length', !drop_app_length' by lia.
Qed.

(** The wrapped key: tag, encrypted key and metadata, length. *)
Definition wkc_len (md : bytes) : bytes := be_bytes 2 (290 + Zlen md).
Definition wkc_tag (hk : bytes) (k : key2) (md : bytes) : bytes := tls_crypt_tag hk (wkc_len md) (key2_bytes k ++ md).

Lemma wrap_client_key_spec junk wkc hw c tw k mdb hm md tm kb hk (ctx : key_ctx) :
  crypt_key true kb hk ctx -> key2_wf k -> buf_repr mdb hm md tm -> Zlen md <= TLS_CRYPT_V2_MAX_METADATA_LEN ->
  buf_repr wkc hw c tw -> 290 + Zlen md <= tw -> 1040 <= Zlen junk -> bytes_ok junk ->
  exists wkc' ct, tls_crypt_v2_wrap_client_key junk wkc k mdb ctx = Ret (true, wkc')
    /\ cipher_ctx_update (ctr kb true) (vector (ctr kb true) (wkc_tag hk k md)) [] (key2_bytes k ++ md) = Some ct
    /\ Zlen ct = 256 + Zlen md /\ bytes_ok ct
    /\ buf_repr wkc' hw (c ++ wkc_tag hk k md ++ ct ++ wkc_len md) (tw - 290 - Zlen md).
Proof using LL.
  intros [Hc Hh] Hk Hm Lmd Hw Hroom Lj Oj. unfold tls_crypt_v2_wrap_client_key. rewrite Hc, Hh.
  destruct (key2_bytes_ok k Hk) as (Lk & Ok & _). set (keys := key2_bytes k) in *.
  pose proof (cl_ctr_block kb true) as Hblk. set (blk := cipher_ctx_block_size _) in *. pose proof (Zlen_nonneg md).
  unfold TLS_CRYPT_V2_MAX_METADATA_LEN, TLS_CRYPT_V2_MAX_WKC_LEN in *.
  change (1024 - (TLS_CRYPT_V2_CLIENT_KEY_LEN + TLS_CRYPT_V2_TAG_SIZE + 2)) with 734 in Lmd.
  assert (Lt : Zlen (take (Z.to_nat (1024 + blk)) junk) = 1024 + blk) by (apply Zlen_take_drop; lia).
  destruct (alloc_buf_gc_repr (take (Z.to_nat (1024 + blk)) junk)) as (w0 & -> & H0);
    [by apply Forall_take|unfold BUF_SIZE_MAX; lia|]. rewrite Lt in H0. cbn [res_bind].
  change TLS_CRYPT_TAG_SIZE with 32. destruct (write_alloc_repr w0 _ _ _ 32 H0) as (j & w1 & -> & Lj1 & H1); [lia|].
  change (0 + Zlen []) with 0. rewrite (buf_bytes_repr _ _ _ _ Hm), (buf_len_repr _ _ _ _ Hm). cbn [res_bind].
  rewrite Lk. change TLS_CRYPT_V2_TAG_SIZE with 32. replace (256 + Zlen md + 32 + 2) with (290 + Zlen md) by lia.
  fold (wkc_len md). set (tag := hmac_ctx_value (sha hk) (wkc_len md ++ keys ++ md)).
  change tag with (wkc_tag hk k md). destruct (tls_crypt_tag_ok hk (wkc_len md) (keys ++ md)) as [Lg Og]. change (tls_crypt_tag hk (wkc_len md) (keys ++ md)) with (wkc_tag hk k md) in Lg, Og.
  destruct (poke_inside w1 0 [] j [] (1024 + blk - 32) (wkc_tag hk k md)) as (w2 & E2 & H2);
    [by rewrite app_nil_r|lia|done|]. change (0 + Zlen []) with 0 in E2. rewrite E2. cbn [res_bind app] in *. rewrite app_nil_r in H2.
  rewrite (peek_inside w2 0 [] (vector (ctr kb true) (wkc_tag hk k md)) (drop (Z.to_nat (cipher_ctx_iv_length (ctr kb true))) (wkc_tag hk k md)) (1024 + blk - 32));
    [|cbn [app]; by rewrite take_drop|by rewrite Zlen_vector|done].
  cbn [res_bind]. rewrite cl_ctr_reset. cbn [res_bind]. rewrite (buf_forward_capacity_repr _ _ _ _ H2).
  rewrite (proj2 (Z.ltb_ge _ _)) by lia. destruct (buf_repr_fields _ _ _ _ Hm) as (_ & _ & _ & _ & _ & _ & Om & _).
  assert (Okm : bytes_ok (keys ++ md)) by (by apply bytes_ok_app).
  destruct (cl_ctr_update kb true (vector (ctr kb true) (wkc_tag hk k md)) keys Ok) as (o1 & E1 & L1 & O1 & _).
  destruct (cl_ctr_update kb true (vector (ctr kb true) (wkc_tag hk k md)) (keys ++ md) Okm) as (o & Eo & Lo & Oo & Ef).
  destruct (cl_ctr_more _ _ _ _ _ _ _ Ok Om E1 Eo) as (o2 & Em & ->). rewrite E1, Em, Ef.
  rewrite !Zlen_app in Lo. apply bytes_ok_app in Oo as [_ O2].
  destruct (append_out_repr w2 _ _ _ o1 H2) as (w3 & -> & H3); [lia|done|]. cbn [res_bind].
  destruct (append_out_repr w3 _ _ _ o2 H3) as (w4 & -> & H4); [lia|done|]. cbn [res_bind].
  rewrite (append_out_nil _ _ _ _ H4). cbn [res_bind].
  assert (Ll : Zlen (wkc_len md) = 2) by apply Zlen_be_bytes.
  destruct (buf_write_repr _ _ _ _ H4 (wkc_len md)) as (w5 & -> & H5); [apply be_bytes_ok|lia|]. cbn [res_bind].
  unfold buf_copy. rewrite (buf_bytes_repr _ _ _ _ H5). cbn [res_bind].
  rewrite <- !app_assoc in H5. rewrite <- !app_assoc.
  destruct (buf_write_repr _ _ _ _ Hw (wkc_tag hk k md ++ o1 ++ o2 ++ wkc_len md)) as (wkc' & -> & H6);
    [rewrite !bytes_ok_app; split_and!; try done; apply be_bytes_ok|rewrite !Zlen_app; lia|].
  exists wkc', (o1 ++ o2). split; [done|]. split; [done|]. split; [rewrite Zlen_app; lia|]. split; [by apply bytes_ok_app|].
  rewrite !Zlen_app in H6. rewrite <- !app_assoc. by replace (tw - 290 - Zlen md) with (tw - (Zlen (wkc_tag hk k md) + (Zlen o1 + (Zlen o2 + Zlen (wkc_len md))))) by lia.
Qed.

Lemma peek_same_data b b' p n : b_data b' = b_data b -> buf_peek b' p n = buf_peek b p n.
Proof. unfold buf_peek. by intros ->. Qed.

Lemma unwrap_client_key_spec metadata hm tm wrapped hw tw kb hk (ctx : key_ctx) k md ct :
  crypt_key false kb hk ctx -> key2_wf k -> bytes_ok md -> Zlen md <= TLS_CRYPT_V2_MAX_METADATA_LEN ->
  cipher_ctx_update (ctr kb true) (vector (ctr kb true) (wkc_tag hk k md)) [] (key2_bytes k ++ md) = Some ct ->
  Zlen ct = 256 + Zlen md -> bytes_ok ct ->
  buf_repr wrapped hw (wkc_tag hk k md ++ ct ++ wkc_len md) tw -> buf_repr metadata hm [] tm -> Zlen md <= tm ->
  exists metadata', tls_crypt_v2_unwrap_client_key metadata wrapped ctx = Ret (true, k, metadata')
    /\ buf_repr metadata' hm md (tm - Zlen md).
Proof using LL.
  intros [Hc Hh] Hk Om Lmd Ec Lc Oc Hw Hm Hroom. unfold tls_crypt_v2_unwrap_client_key.
  destruct (key2_bytes_ok k Hk) as (Lk & Ok & Ek). destruct (tls_crypt_tag_ok hk (wkc_len md) (key2_bytes k ++ md)) as [Lg Og].
  fold (wkc_tag hk k md) in Lg, Og. set (tag := wkc_tag hk k md) in *. pose proof (Zlen_nonneg md).
  assert (Ll : Zlen (wkc_len md) = 2) by apply Zlen_be_bytes.
  assert (Lw : Zlen (tag ++ ct ++ wkc_len md) = 290 + Zlen md) by (rewrite !Zlen_app; lia).
  rewrite (buf_len_repr _ _ _ _ Hw), Lw.
  unfold TLS_CRYPT_V2_MAX_METADATA_LEN in Lmd. change (TLS_CRYPT_V2_CLIENT_KEY_LEN + TLS_CRYPT_V2_TAG_SIZE + 2) with 290 in Lmd.
  unfold TLS_CRYPT_V2_MAX_WKC_LEN in *. rewrite (proj2 (Z.ltb_ge 1024 _)), (proj2 (Z.ltb_ge _ 2)) by lia.
  rewrite (buf_bend_repr _ _ _ _ Hw), Lw. destruct (buf_repr_fields _ _ _ _ Hw) as (Foff & _). rewrite Foff.
  rewrite (peek_inside wrapped hw (tag ++ ct) (wkc_len md) [] tw) by (rewrite ?app_nil_r, <- ?app_assoc; (done || rewrite ?Zlen_app; lia)).
  cbn [res_bind]. assert (Ev : be_val (wkc_len md) = 290 + Zlen md).
  { unfold wkc_len. rewrite be_val_bytes. change (256 ^ Z.of_nat 2) with 65536. rewrite Z.mod_small; lia. }
  rewrite Ev, Z.eqb_refl. cbn [negb]. assert (Hw' := Hw). rewrite app_assoc in Hw'.
  destruct (truncate_app _ _ _ _ _ Hw') as (w1 & E1 & H1 & D1). rewrite Ll in E1. change (- (2)) with (-2) in E1. rewrite E1.
  destruct (advance_app _ _ _ _ _ H1) as (w2 & E2 & H2 & D2). rewrite Lg in E2. change TLS_CRYPT_TAG_SIZE with 32. rewrite E2.
  cbn [negb]. rewrite Hc. rewrite !(peek_same_data wrapped w2) by congruence.
  rewrite (peek_inside wrapped hw [] (vector (ctr kb false) tag) (drop (Z.to_nat (cipher_ctx_iv_length (ctr kb false))) tag ++ ct ++ wkc_len md) tw);
    [|cbn [app]; rewrite (app_assoc (take _ _)), take_drop; done|by rewrite Zlen_vector|change (Zlen []) with 0; lia].
  cbn [res_bind]. rewrite cl_ctr_reset. cbn [negb].
  change (buf_set_write (Some (replicate 1024 0)) 1024) with (@Ret buffer (mk_buffer 1024 0 0 (Some (replicate (Z.to_nat 1024) 0)))).
  cbn [res_bind]. rewrite (buf_bytes_repr _ _ _ _ H2). cbn [res_bind].
  assert (Evec : vector (ctr kb false) tag = vector (ctr kb true) tag) by (by rewrite !cl_ctr_iv). rewrite Evec.
  assert (Okm : bytes_ok (key2_bytes k ++ md)) by (by apply bytes_ok_app).
  rewrite (cl_ctr_inv _ _ _ _ Okm Ec).
  destruct (cl_ctr_update kb false (vector (ctr kb true) tag) ct Oc) as (o & _ & _ & _ & Ef).
  destruct (prefix_out_empty _ 0 1024 (key2_bytes k ++ md) (proj2 (alloc_buf_repr 1024 ltac:(done)) ltac:(done)))
    as (p1 & -> & Hp1); [rewrite Zlen_app; lia|done|]. cbn [res_bind]. rewrite Ef, (append_out_nil _ _ _ _ Hp1). cbn [res_bind].
  rewrite Hh, (buf_bytes_repr _ _ _ _ Hp1). cbn [res_bind].
  change (hmac_ctx_value (sha hk) (wkc_len md ++ key2_bytes k ++ md)) with tag.
  rewrite mem_write_ok by (rewrite ?Lg; unfold Zlen; rewrite ?length_replicate; lia). cbn [res_bind].
  rewrite (drop_ge (replicate 32 0)), app_nil_r by (unfold Zlen in Lg; rewrite length_replicate; lia).
  change (take (Z.to_nat 0) (replicate 32 0) ++ tag) with tag.
  rewrite (peek_inside wrapped hw [] tag (ct ++ wkc_len md) tw) by (done || (change (Zlen []) with 0; lia)). cbn [res_bind].
  unfold memcmp_eq. rewrite bool_decide_eq_true_2 by done. cbn [negb].
  rewrite (buf_len_repr _ _ _ _ Hp1), Zlen_app, Lk. change TLS_CRYPT_V2_CLIENT_KEY_LEN with 256.
  rewrite (proj2 (Z.ltb_ge _ 256)) by lia. destruct (buf_repr_fields _ _ _ _ Hp1) as (-> & _).
  rewrite (peek_inside p1 0 [] (key2_bytes k) md (1024 - Zlen (key2_bytes k ++ md))) by (done || (change (Zlen []) with 0; lia)).
  cbn [res_bind]. destruct (advance_app _ _ _ _ _ Hp1) as (p2 & E3 & Hp2 & _). rewrite Lk in E3. rewrite E3. cbn [res_bind].
  unfold buf_copy. rewrite (buf_bytes_repr _ _ _ _ Hp2). cbn [res_bind].
  destruct (buf_write_repr _ _ _ _ Hm md Om) as (m' & -> & Hm'); [done|]. cbn [res_bind negb]. rewrite Ek. by exists m'.
Qed.

(** The bytes of a key that the cipher and the digest use. *)
Definition cipher_part (k : key) : bytes := take (Z.to_nat (cipher_kt_key_size (str "AES-256-CTR"))) (k_cipher k).
Definition hmac_part (k : key) : bytes := take 32 (k_hmac k).

Lemma tls_crypt_kt_spec : tls_crypt_kt = Some (mk_kt (str "AES-256-CTR") (str "SHA256")).
Proof using LL. unfold tls_crypt_kt, create_kt. rewrite cl_ctr_valid, (proj2 cl_sha256). by rewrite !andb_false_r. Qed.

Lemma init_crypt_key k enc :
  key_wf k -> exists ctx, init_key_ctx (key_parameters_from_key k) (mk_kt (str "AES-256-CTR") (str "SHA256")) enc = Ret ctx
    /\ crypt_key enc (cipher_part k) (hmac_part k) ctx /\ key_ctx_update_implicit_iv ctx (key_parameters_from_key k) = Ret ctx.
Proof using LL.
  intros (L1 & L2 & _). unfold init_key_ctx. cbn [kt_cipher kt_digest key_parameters_from_key kp_cipher kp_hmac kp_cipher_size kp_hmac_size kp_epoch].
  change (cipher_defined (str "AES-256-CTR")) with true. change (md_defined (str "SHA256")) with true.
  pose proof cl_ctr_key as Hk. unfold MAX_CIPHER_KEY_LENGTH, MAX_HMAC_KEY_LENGTH in *.
  rewrite (proj1 cl_sha256), (proj2 (Z.leb_le _ 64)) by lia. cbn [res_bind].
  rewrite mem_read_ok by lia. cbn [res_bind]. change (SHA256_DIGEST_LENGTH <=? 64) with true. cbn [res_bind].
  unfold SHA256_DIGEST_LENGTH. rewrite mem_read_ok by lia. cbn [res_bind Z.to_nat drop]. rewrite !drop_0. eexists. split; [done|].
  split; [done|]. unfold key_ctx_update_implicit_iv. cbn [ctx_cipher]. by rewrite cl_ctr_mode.
Qed.

Lemma load_client_key_spec k0 k1 (tls_server : bool) :
  key_wf k0 -> key_wf k1 ->
  exists bi, tls_crypt_v2_load_client_key (mk_key2 2 [k0; k1]) tls_server = Ret bi
    /\ (let '(o, i) := if tls_server then (k0, k1) else (k1, k0) in
        crypt_key true (cipher_part o) (hmac_part o) (bi_encrypt bi)
        /\ crypt_key false (cipher_part i) (hmac_part i) (bi_decrypt bi)).
Proof using LL.
  intros H0 H1. unfold tls_crypt_v2_load_client_key. rewrite tls_crypt_kt_spec. unfold init_key_ctx_bi.
  destruct tls_server; cbn [key_direction_state_init KEY_DIRECTION_NORMAL KEY_DIRECTION_INVERSE Z.eqb Pos.eqb res_bind].
  all: change (arr_get (key2_keys (mk_key2 2 [k0; k1])) (out_key (mk_kds 0 1 2))) with (Ret k0)
    || change (arr_get (key2_keys (mk_key2 2 [k0; k1])) (out_key (mk_kds 1 0 2))) with (Ret k1).
  all: change (arr_get (key2_keys (mk_key2 2 [k0; k1])) (in_key (mk_kds 0 1 2))) with (Ret k1)
    || change (arr_get (key2_keys (mk_key2 2 [k0; k1])) (in_key (mk_kds 1 0 2))) with (Ret k0).
  all: cbn [res_bind]; unfold init_key_bi_ctx_send, init_key_bi_ctx_recv.
  - destruct (init_crypt_key k0 true H0) as (e & -> & He & Ee), (init_crypt_key k1 false H1) as (d & -> & Hd & Ed).
    cbn [res_bind]. rewrite Ee, Ed. cbn [res_bind]. eexists. split; [done|]. destruct He, Hd. by split; split.
  - destruct (init_crypt_key k1 true H1) as (e & -> & He & Ee), (init_crypt_key k0 false H0) as (d & -> & Hd & Ed).
    cbn [res_bind]. rewrite Ee, Ed. cbn [res_bind]. eexists. split; [done|]. destruct He, Hd. by split; split.
Qed.

(** The end of a packet with a wrapped key is cut off and unwrapped. *)
Lemma extract_client_key_spec rbuf hr w wkc tr (b : wrap_ctx) skb shk k0 k1 md ct :
  let k := mk_key2 2 [k0; k1] in
  crypt_key false skb shk (tw_server_key b) -> key_wf k0 -> key_wf k1 -> bytes_ok md -> Zlen md <= TLS_CRYPT_V2_MAX_METADATA_LEN ->
  cipher_ctx_update (ctr skb true) (vector (ctr skb true) (wkc_tag shk k md)) [] (key2_bytes k ++ md) = Some ct ->
  Zlen ct = 256 + Zlen md -> bytes_ok ct -> wkc = wkc_tag shk k md ++ ct ++ wkc_len md ->
  buf_repr rbuf hr (w ++ wkc) tr ->
  exists bi md' rbuf' opt', tls_crypt_v2_load_client_key k true = Ret bi /\ buf_repr md' 0 md (TLS_CRYPT_V2_MAX_METADATA_LEN - Zlen md)
    /\ co_keys opt' = bi /\ co_packet_id opt' = co_packet_id (tw_opt b) /\ co_pid_persist opt' = co_pid_persist (tw_opt b)
    /\ co_flags opt' = Z.lor (co_flags (tw_opt b)) CO_PACKET_ID_LONG_FORM
    /\ tls_crypt_v2_extract_client_key None rbuf b true
       = Ret (true, rbuf', mk_tw TLS_WRAP_CRYPT opt' (tw_work b) (tw_server_key b) (tw_wkc b) md' true k)
    /\ buf_repr rbuf' hr w (tr + Zlen wkc).
Proof using LL.
  intros k Hs H0 H1 Om Lmd Ec Lc Oc Ew Hb. unfold tls_crypt_v2_extract_client_key. rewrite (ck_cipher _ _ _ _ Hs).
  destruct (tls_crypt_tag_ok shk (wkc_len md) (key2_bytes k ++ md)) as [Lg Og]. fold (wkc_tag shk k md) in Lg, Og.
  assert (Ll : Zlen (wkc_len md) = 2) by apply Zlen_be_bytes. pose proof (Zlen_nonneg md). pose proof (Zlen_nonneg w).
  assert (Lw : Zlen wkc = 290 + Zlen md) by (rewrite Ew, !Zlen_app; lia).
  rewrite (buf_len_repr _ _ _ _ Hb), Zlen_app, (proj2 (Z.ltb_ge _ 2)) by lia.
  rewrite (buf_bend_repr _ _ _ _ Hb), Zlen_app.
  rewrite (peek_inside rbuf hr (w ++ wkc_tag shk k md ++ ct) (wkc_len md) [] tr);
    [|rewrite app_nil_r, <- !app_assoc, <- Ew; done|done|rewrite !Zlen_app; lia].
  cbn [res_bind]. unfold TLS_CRYPT_V2_MAX_METADATA_LEN in Lmd.
  change (TLS_CRYPT_V2_MAX_WKC_LEN - (TLS_CRYPT_V2_CLIENT_KEY_LEN + TLS_CRYPT_V2_TAG_SIZE + 2)) with 734 in Lmd.
  assert (Ev : be_val (wkc_len md) = Zlen wkc).
  { unfold wkc_len. rewrite be_val_bytes. change (256 ^ Z.of_nat 2) with 65536. rewrite Z.mod_small; lia. }
  rewrite Ev. replace (Zlen w + Zlen wkc - Zlen wkc) with (Zlen w) by lia.
  destruct (advance_app _ _ _ _ _ Hb) as (wr & -> & Hwr & _). cbn [negb].
  change TLS_CRYPT_V2_MAX_METADATA_LEN with 734. rewrite (proj1 (alloc_buf_repr 734 ltac:(done))).
  change (734 <? BUF_SIZE_MAX) with true. cbn [res_bind]. rewrite Ew in Hwr.
  destruct (unwrap_client_key_spec _ 0 734 wr _ _ skb shk (tw_server_key b) k md ct Hs ltac:(by exists k0, k1) Om Lmd Ec Lc Oc Hwr
    (proj2 (alloc_buf_repr 734 ltac:(done)) ltac:(done))) as (md' & -> & Hmd); [lia|]. cbn [res_bind negb].
  destruct (load_client_key_spec k0 k1 true H0 H1) as (bi & Ebi & _). fold k in Ebi. rewrite Ebi. cbn [res_bind].
  destruct (truncate_app _ _ _ _ _ Hb) as (rb & Et & Hrb & _). rewrite (buf_len_repr _ _ _ _ Hwr), <- Ew, Et. cbn [res_bind].
  eexists bi, md', rb, _. split; [done|]. split; [done|]. split_and!; [..|done|done]; done.
Qed.

Lemma flag_lor (o o' : crypto_options) f g :
  co_flags o' = Z.lor (co_flags o) g -> Z.land g f = 0 -> flag o' f = flag o f.
Proof. unfold flag. intros -> Hg. by rewrite Z.land_lor_distr_l, Hg, Z.lor_0_r. Qed.

(** C14: A client key reaches a server that does not know it.  The key is generated together with
    metadata and wrapped under the key of the server (tls_crypt_v2_wrap_client_key); the client
    appends it to its first packet.  The server, which holds nothing but its own key, unwraps it
    from the packet, gets the payload, the key and the metadata, and is then set up for both
    directions: what either end sends next, the other can read. *)
Theorem tls_crypt_v2_first_packet (now now' header h t sb hw0 tw0 hm tm : Z) (prng c junk md skb shk : bytes) (fresh : Z -> bytes)
    (a b : wrap_ctx) (sid : session_id) (buf wkc0 wkc mdb : buffer) (k0 k1 : key) (server_enc : key_ctx)
    (send' : packet_id_send) (acc : list packet_id_net) :
  let k := mk_key2 2 [k0; k1] in
  key_wf k0 -> key_wf k1 -> crypt_key true skb shk server_enc ->
  buf_repr mdb hm md tm -> Zlen md <= TLS_CRYPT_V2_MAX_METADATA_LEN -> buf_repr wkc0 hw0 [] tw0 -> 290 + Zlen md <= tw0 ->
  1040 <= Zlen junk -> bytes_ok junk -> tls_crypt_v2_wrap_client_key junk wkc0 k mdb server_enc = Ret (true, wkc) ->
  tw_mode a = TLS_WRAP_CRYPT -> tls_crypt_v2_load_client_key k false = Ret (co_keys (tw_opt a)) -> tw_wkc a = Some wkc ->
  packet_id_initialized (co_packet_id (tw_opt a)) = true -> flag (tw_opt a) CO_IGNORE_PACKET_ID = false ->
  crypt_key false skb shk (tw_server_key b) -> flag (tw_opt b) CO_IGNORE_PACKET_ID = false ->
  carries_wkc header = true -> is_u8 header -> Zlen sid = SID_SIZE -> bytes_ok sid ->
  buf_repr buf h c t -> wrap_room a h (Zlen c + 290 + Zlen md) ->
  send_wf (pid_send (co_packet_id (tw_opt a))) -> is_u32 (send_time (pid_send (co_packet_id (tw_opt a)))) ->
  0 < now -> is_u32 now -> SEQ_EXPIRED < now' ->
  packet_id_send_update now (pid_send (co_packet_id (tw_opt a))) true = (true, send') ->
  window_hist sb (pid_rec (co_packet_id (tw_opt b))) acc ->
  later (pid_rec (co_packet_id (tw_opt b))) (mk_net (send_id send') (send_time send')) ->
  (forall n, 0 <= n -> Zlen (fresh n) = n /\ bytes_ok (fresh n)) ->
  exists p a', tls_wrap_control now prng a header buf sid = Ret (p, a')
    /\ forall rbuf hr tr, buf_repr rbuf hr (contents p) tr ->
       exists q b', read_control_auth now' fresh None rbuf b true = Ret (true, q, b')
         /\ contents q = c /\ tw_original b' = k /\ contents (tw_metadata b') = md
         /\ wrap_peers a' b' /\ wrap_peers b' a'.
Proof using LL.
  intros k H0 H1 HsE Hmd Lmd Hw0 Hwr Lj Oj Ewkc Ma Ka Wa Ia Fa Hs Fb Hk Hu Ls Os Hb Hr Hwf Hst Hn Hnu Hn' Hup Hwin Hl Hf.
  assert (Hk2 : key2_wf k) by (by exists k0, k1). pose proof (Zlen_nonneg md). pose proof (Zlen_nonneg c).
  destruct (wrap_client_key_spec junk wkc0 hw0 [] tw0 k mdb hm md tm skb shk server_enc) as (wkc' & ct & E & Ec & Lc & Oc & Hwkc); try done.
  rewrite Ewkc in E. injection E as <-. cbn [app] in Hwkc. set (wk := wkc_tag shk k md ++ ct ++ wkc_len md) in *.
  destruct (load_client_key_spec k0 k1 false H0 H1) as (bia & Ea & Hae & Had). fold k in Ea. rewrite Ka in Ea. injection Ea as Ea.
  rewrite <- Ea in Hae, Had.
  assert (Hr' : wrap_room a h (Zlen c)) by (unfold wrap_room in *; rewrite Ma in *; naive_solver lia).
  destruct (wrap_crypt_spec now prng a header sid buf h c t send' _ _ Ma Ia Hae Hu Ls Os Hb Hr' Hup) as (w & cc & Ecc & Hw & Ewrap).
  rewrite Hk, Wa in Ewrap. unfold buf_copy in Ewrap. rewrite (buf_bytes_repr _ _ _ _ Hwkc) in Ewrap. cbn [res_bind] in Ewrap.
  destruct (tls_crypt_tag_ok shk (wkc_len md) (key2_bytes k ++ md)) as [Lg _]. fold (wkc_tag shk k md) in Lg.
  assert (Lwk : Zlen wk = 290 + Zlen md) by (unfold wk, wkc_len; rewrite !Zlen_app, Zlen_be_bytes; lia).
  destruct (buf_write_repr _ _ _ _ Hw wk) as (w' & Ew & Hw').
  { by apply (buf_repr_fields _ _ _ _ Hwkc). } { unfold wrap_room in Hr. rewrite Ma in Hr. lia. }
  rewrite Ew in Ewrap. cbn [res_bind negb] in Ewrap. eexists _, _. split; [exact Ewrap|].
  rewrite (buf_repr_contents _ _ _ _ Hw'). intros rbuf hr tr Hrb.
  set (pid := long_pid (send_id send') (send_time send')) in *. set (tag := tls_crypt_tag _ _ c) in *.
  destruct (extract_client_key_spec rbuf hr (((header :: sid) ++ pid) ++ tag ++ cc) wk tr b skb shk k0 k1 md ct)
    as (bi & md' & rb & opt' & Ebi & Hmd' & K1 & K2 & K3 & K4 & Eex & Hrb'); try done.
  { by apply (buf_repr_fields _ _ _ _ Hmd). }
  set (b1 := mk_tw TLS_WRAP_CRYPT opt' (tw_work b) (tw_server_key b) (tw_wkc b) md' true _) in Eex.
  destruct (load_client_key_spec k0 k1 true H0 H1) as (bi' & Ebi' & Hbe & Hbd). rewrite Ebi in Ebi'. injection Ebi' as <-.
  assert (Fb1 : flag opt' CO_IGNORE_PACKET_ID = false) by (by rewrite (flag_lor (tw_opt b) opt' _ _ K4)).
  assert (Hp : wrap_peers a b1).
  { apply (peers_crypt _ _ (cipher_part k1) (hmac_part k1)); try done. by cbn; rewrite K1. }
  destruct (send_update_fresh _ _ _ _ _ Hwf Hn Hup) as ((Hid & _) & _).
  assert (Hpin : pin_of pid = mk_net (send_id send') (send_time send')).
  { apply pin_of_long; [unfold is_u32, PACKET_ID_MAX, UINT32_MAX in *; lia|by eapply send_time_u32]. }
  destruct (unwrap_mode_spec now' fresh a b1 (header :: sid) pid c (((header :: sid) ++ pid) ++ tag ++ cc) rb hr (tr + Zlen wk) sb acc)
    as (q & b' & hq & tq & Eq & Hq & Hg); try done.
  { rewrite Zlen_cons, Ls. done. } { by apply (buf_repr_fields _ _ _ _ Hb). }
  { unfold on_wire. rewrite Ma. exists (cipher_part k1), (hmac_part k1), cc. cbn. rewrite K1. split_and!; try done. by rewrite <- app_assoc. }
  { unfold b1. cbn [tw_opt]. by rewrite K2. } { rewrite Hpin. unfold b1. cbn [tw_opt]. by rewrite K2. }
  exists q, b'. split.
  { rewrite (read_first now' fresh None rbuf b true hr header (sid ++ pid ++ tag ++ cc ++ wk) tr) by (by rewrite <- !app_assoc in Hrb).
    by rewrite Hk, Eex. }
  split; [by apply (buf_repr_contents _ _ _ _ Hq)|]. unfold got in Hg. cbn in Hg. destruct Hg as (o2 & -> & G1 & G2 & G3).
  split; [done|]. split; [by apply (buf_repr_contents _ _ _ _ Hmd')|].
  split; [apply (peers_crypt _ _ (cipher_part k1) (hmac_part k1)) | apply (peers_crypt _ _ (cipher_part k0) (hmac_part k0))];
    cbn; try done; rewrite ?G1, ?K1; try done; [unfold flag in *; by rewrite G2|by eapply window_hist_init].
Qed.
End Wrap.

(** ** A pair of peers *)
#[export] Instance sample_ctrl_laws : CtrlLaws sample_cipher sample_hmac.
Proof.
  split; try done.
  - intros h d. split; [apply Zlen_be_bytes|apply be_bytes_ok].
  - intros kb enc iv d Hd. exists (sample_crypt (mk_sc kb (str "AES-256-CTR") enc) iv d).
    destruct (sample_crypt_ok (mk_sc kb (str "AES-256-CTR") enc) iv d). done.
  - intros kb enc iv d1 d2 o1 o _ _ [= <-] [= <-]. eexists. split; [done|]. apply fmap_app.
  - intros kb iv d ct Hd [= <-]. cbn. by rewrite sample_crypt_inv.
Qed.

Definition sample_pid : packet_id :=
  match packet_id_init 64 15 None 0 with Ret p => p | _ => mk_pid send_zero rec_zero end.
Lemma sample_pid_hist : window_hist 64 (pid_rec sample_pid) [].
Proof.
  destruct (packet_id_init_hist 64 15 None 0) as (p & E & H & _); [unfold MAX_SEQ_BACKTRACK; lia|unfold MAX_TIME_BACKTRACK; lia|].
  unfold sample_pid. by rewrite E.
Qed.

Definition sample_ctx (enc : bool) (kb hk : bytes) : key_ctx sample_cipher sample_hmac :=
  mk_ctx (Some (cipher_ctx_init kb (str "AES-256-CTR") enc)) (Some (hmac_ctx_init hk (str "SHA256"))) [] 0 0 0.
Definition sample_opt (e d : key_ctx sample_cipher sample_hmac) : crypto_options sample_cipher sample_hmac :=
  mk_co (mk_bi e d true) (mk_ek [] 0) (mk_ek [] 0) sample_kt 0 [] ctx_zero rec_zero sample_pid None CO_PACKET_ID_LONG_FORM.
Definition sample_work (n : nat) : buffer := mk_buffer (Z.of_nat n) 0 0 (Some (replicate n 0)).
Definition sample_wrap (e d : key_ctx sample_cipher sample_hmac) : tls_wrap_ctx sample_cipher sample_hmac :=
  mk_tw TLS_WRAP_CRYPT (sample_opt e d) (sample_work 500) ctx_zero None clear_buf false key2_zero.
Definition sample_left := sample_wrap (sample_ctx true [1] [2]) (sample_ctx false [3] [4]).
Definition sample_right := sample_wrap (sample_ctx true [3] [4]) (sample_ctx false [1] [2]).
Definition sample_sid : session_id := [1; 2; 3; 4; 5; 6; 7; 8].
Definition zeros (n : Z) : bytes := replicate (Z.to_nat n) 0.
Lemma zeros_fresh n : 0 <= n -> Zlen (zeros n) = n /\ bytes_ok (zeros n).
Proof. intros Hn. unfold zeros, Zlen. rewrite length_replicate. split; [lia|]. apply zeros_ok. Qed.

(** The bytes of a P_CONTROL_V1 packet from one peer to the other. *)
Definition sample_wire : bytes :=
  match tls_wrap_control 1000 [] sample_left 32 (around 20 [7; 8; 9]) sample_sid with Ret (p, _) => contents p | _ => [] end.

Lemma sample_peers : wrap_peers sample_left sample_right.
Proof. by apply (peers_crypt _ _ [1] [2]). Qed.

Lemma sample_pid_parts : pid_send sample_pid = send_zero /\ rec_time (pid_rec sample_pid) = 0 /\ rec_id (pid_rec sample_pid) = 0.
Proof. by vm_compute. Qed.
Lemma sample_work_room e d h n : h + 9 + 56 + n <= 500 -> wrap_room (sample_wrap e d) h n.
Proof.
  intros H. split; [|done]. exact (buf_repr_wf _ _ _ _ (proj2 (alloc_buf_repr 500 ltac:(done)) ltac:(done))).
Qed.
Lemma sample_later id time : 0 < id < 100 -> 0 < time -> later (pid_rec sample_pid) (mk_net id time).
Proof.
  intros Hi Ht. destruct sample_pid_parts as (_ & E & _). unfold later. rewrite E. cbn. unfold id_bound. lia.
Qed.

Lemma control_packet_roundtrip_witness : exists q b',
  read_control_auth 1001 zeros None (around 5 sample_wire) sample_right false = Ret (true, q, b')
  /\ contents q = [7; 8; 9] /\ Zlen sample_wire = 52.
Proof.
  destruct (control_packet_roundtrip 1000 1001 32 20 20 64 [] [7; 8; 9] zeros None sample_left sample_right sample_sid
    (around 20 [7; 8; 9]) false (mk_send 1 1000) []) as (p & a' & E & _ & Hr).
  - apply sample_peers.
  - reflexivity.
  - by unfold is_u8.
  - reflexivity.
  - by apply small_ok.
  - apply (around_repr 20 [7; 8; 9]); [by apply small_ok|reflexivity].
  - by apply sample_work_room.
  - cbn [tw_opt sample_left sample_wrap sample_opt co_packet_id]. rewrite (proj1 sample_pid_parts). unfold send_wf, PACKET_ID_MAX, UINT32_MAX. cbn. lia.
  - cbn [tw_opt sample_left sample_wrap sample_opt co_packet_id]. by rewrite (proj1 sample_pid_parts).
  - lia.
  - by unfold is_u32.
  - reflexivity.
  - cbn [tw_opt sample_left sample_wrap sample_opt co_packet_id]. by rewrite (proj1 sample_pid_parts).
  - apply sample_pid_hist.
  - by apply sample_later.
  - intros n Hn. by apply zeros_fresh.
  - assert (Ew : contents p = sample_wire) by (unfold sample_wire; by rewrite E).
    destruct (Hr (around 5 sample_wire) 5 5) as (q & b' & Eq & Hq & _).
    { rewrite Ew. apply (around_repr 5); [apply small_ok; by vm_compute|by vm_compute]. }
    exists q, b'. split; [exact Eq|]. split; [exact Hq|]. by vm_compute.
Defined.



(** A client with a wrapped key, and a server. *)
Definition sample_k0 : key := mk_key (replicate 64 1) (replicate 64 2).
Definition sample_k1 : key := mk_key (replicate 64 3) (replicate 64 4).
Definition sample_k2 : key2 := mk_key2 2 [sample_k0; sample_k1].
Definition sample_wkc : buffer :=
  match tls_crypt_v2_wrap_client_key (zeros 1040) (sample_work 400) sample_k2 (around 0 [0; 42]) (sample_ctx true [9] [10]) with
  | Ret (_, b) => b | _ => clear_buf
  end.
Definition sample_client_keys : key_ctx_bi sample_cipher sample_hmac :=
  match tls_crypt_v2_load_client_key sample_k2 false with Ret bi => bi | _ => mk_bi ctx_zero ctx_zero false end.
Definition sample_v2_client : tls_wrap_ctx sample_cipher sample_hmac :=
  mk_tw TLS_WRAP_CRYPT (sample_opt (bi_encrypt sample_client_keys) (bi_decrypt sample_client_keys)) (sample_work 500) ctx_zero
    (Some sample_wkc) clear_buf false key2_zero.
Definition sample_v2_server : tls_wrap_ctx sample_cipher sample_hmac :=
  mk_tw TLS_WRAP_NONE (sample_opt ctx_zero ctx_zero) (sample_work 500) (sample_ctx false [9] [10]) None clear_buf false key2_zero.
(** A P_CONTROL_HARD_RESET_CLIENT_V3 packet. *)
Definition sample_v2_wire : bytes :=
  match tls_wrap_control 1000 [] sample_v2_client 80 (around 20 [7; 8; 9]) sample_sid with Ret (p, _) => contents p | _ => [] end.

Lemma sample_keys_wf : key_wf sample_k0 /\ key_wf sample_k1.
Proof. split; unfold key_wf; (split; [reflexivity|split; [reflexivity|split; by apply small_ok]]). Qed.
Lemma sample_wkc_spec :
  tls_crypt_v2_wrap_client_key (zeros 1040) (sample_work 400) sample_k2 (around 0 [0; 42]) (sample_ctx true [9] [10])
  = Ret (true, sample_wkc).
Proof.
  destruct (wrap_client_key_spec (zeros 1040) (sample_work 400) 0 [] 400 sample_k2 (around 0 [0; 42]) 0 [0; 42] 0 [9] [10]
    (sample_ctx true [9] [10])) as (w & ct & E & _).
  - done.
  - exists sample_k0, sample_k1. split; [reflexivity|apply sample_keys_wf].
  - apply (around_repr 0 [0; 42]); [by apply small_ok|reflexivity].
  - by vm_compute.
  - exact (proj2 (alloc_buf_repr 400 ltac:(done)) ltac:(done)).
  - by vm_compute.
  - by vm_compute.
  - apply zeros_ok.
  - unfold sample_wkc. by rewrite E.
Qed.

Lemma tls_crypt_v2_first_packet_witness : exists q b',
  read_control_auth 1001 zeros None (around 5 sample_v2_wire) sample_v2_server true = Ret (true, q, b')
  /\ contents q = [7; 8; 9] /\ tw_original b' = sample_k2 /\ contents (tw_metadata b') = [0; 42].
Proof.
  destruct (tls_crypt_v2_first_packet 1000 1001 80 20 20 64 0 400 0 0 [] [7; 8; 9] (zeros 1040) [0; 42] [9] [10] zeros
    sample_v2_client sample_v2_server sample_sid (around 20 [7; 8; 9]) (sample_work 400) sample_wkc (around 0 [0; 42])
    sample_k0 sample_k1 (sample_ctx true [9] [10]) (mk_send 1 1000) []) as (p & a' & E & Hr).
  - apply sample_keys_wf.
  - apply sample_keys_wf.
  - done.
  - apply (around_repr 0 [0; 42]); [by apply small_ok|reflexivity].
  - by vm_compute.
  - exact (proj2 (alloc_buf_repr 400 ltac:(done)) ltac:(done)).
  - by vm_compute.
  - by vm_compute.
  - apply zeros_ok.
  - apply sample_wkc_spec.
  - reflexivity.
  - destruct (load_client_key_spec sample_k0 sample_k1 false) as (bi & Ebi & _); [apply sample_keys_wf..|].
    change (mk_key2 2 [sample_k0; sample_k1]) with sample_k2 in *. unfold sample_v2_client, sample_client_keys.
    cbn [tw_opt]. rewrite Ebi. cbn. assert (Hi : bi_initialized bi = true).
    { assert (W : match tls_crypt_v2_load_client_key sample_k2 false with Ret bi => bi_initialized (cipher_ctx:=sample_cipher) (hmac_ctx:=sample_hmac) bi | _ => false end = true) by (by vm_compute).
      by rewrite Ebi in W. }
    f_equal. destruct bi. cbn in Hi. by subst.
  - reflexivity.
  - by vm_compute.
  - reflexivity.
  - done.
  - reflexivity.
  - reflexivity.
  - by unfold is_u8.
  - reflexivity.
  - by apply small_ok.
  - apply (around_repr 20 [7; 8; 9]); [by apply small_ok|reflexivity].
  - by apply (sample_work_room (bi_encrypt sample_client_keys) (bi_decrypt sample_client_keys)).
  - cbn [tw_opt sample_v2_client sample_opt co_packet_id]. rewrite (proj1 sample_pid_parts). unfold send_wf, PACKET_ID_MAX, UINT32_MAX. cbn. lia.
  - cbn [tw_opt sample_v2_client sample_opt co_packet_id]. by rewrite (proj1 sample_pid_parts).
  - lia.
  - by unfold is_u32.
  - reflexivity.
  - cbn [tw_opt sample_v2_client sample_opt co_packet_id]. by rewrite (proj1 sample_pid_parts).
  - apply sample_pid_hist.
  - by apply sample_later.
  - intros n Hn. by apply zeros_fresh.
  - assert (Ew : contents p = sample_v2_wire) by (unfold sample_v2_wire; by rewrite E).
    destruct (Hr (around 5 sample_v2_wire) 5 5) as (q & b' & Eq & H1 & H2 & H3 & _).
    { rewrite Ew. apply (around_repr 5); [apply small_ok; by vm_compute|by vm_compute]. }
    exists q, b'. split; [exact Eq|]. split; [exact H1|]. split; [exact H2|exact H3].
Defined.
