(* ===== verification/Handshake.v ===== *)
(** * The first packets of a connection (ssl_pkt.c, mudp.c, reflect_filter.c)

    A server answers a reset packet from an unknown address without keeping any state: its
    session identifier is an HMAC over the address, the client's identifier and the time, and only
    a packet that returns it creates a client instance.  The number of answers per period is
    limited. *)

From Stdlib Require Import String.
From S2P Require Import Prelude CircList Buffer PacketId Reliable TlsSend Mtu KeyCtx SampleLib Crypto Aead Channel DataPath CtrlWrap.
#[local] Open Scope Z_scope.

Definition EARLY_NEG_MASK : Z := 0xff000000.
Definition EARLY_NEG_START : Z := 0x0f000000.
Definition CO_FORCE_TLSCRYPTV2_COOKIE : Z := Z.shiftl 1 5.

(** ** reflect_filter.c *)
Record initial_packet_rate_limit : Type := mk_irl {
  max_per_period : Z;
  period_length : Z;
  curr_period_counter : Z;
  last_period_reset : Z;
  warning_displayed : bool
}.

Definition reflect_filter_rate_limit_check (now : Z) (irl : initial_packet_rate_limit)
  : bool * initial_packet_rate_limit :=
  let irl := if last_period_reset irl + period_length irl <? now
             then mk_irl (max_per_period irl) (period_length irl) 0 now false else irl in
  let n := s64 (curr_period_counter irl + 1) in
  let over_limit := max_per_period irl <? n in
  (negb over_limit,
   mk_irl (max_per_period irl) (period_length irl) n (last_period_reset irl) (over_limit || warning_displayed irl)).

Definition reflect_filter_rate_limit_decrease (irl : initial_packet_rate_limit) : initial_packet_rate_limit :=
  if 0 <? curr_period_counter irl
  then mk_irl (max_per_period irl) (period_length irl) (curr_period_counter irl - 1) (last_period_reset irl) (warning_displayed irl)
  else irl.

(** [junk]: the field that is not initialised. *)
Definition initial_rate_limit_init (junk : bool) (max_per_period period_length : Z) : initial_packet_rate_limit :=
  mk_irl max_per_period period_length 0 0 junk.

Inductive first_packet_verdict : Type :=
| VERDICT_VALID_RESET_V2
| VERDICT_VALID_RESET_V3
| VERDICT_VALID_CONTROL_V1
| VERDICT_VALID_ACK_V1
| VERDICT_VALID_WKC_V1
| VERDICT_INVALID.

Section Handshake.
Context {cipher_ctx hmac_ctx : Type} `{CL : CryptoLib cipher_ctx hmac_ctx}.
#[local] Abbreviation wrap_ctx := (tls_wrap_ctx cipher_ctx hmac_ctx).
(** The bytes of [struct sockaddr_in] and [struct sockaddr_in6] in memory. *)
Context (sockaddr_bytes : sockaddr -> bytes).

Record tls_pre_decrypt_state : Type := mk_pds {
  tls_wrap_tmp : wrap_ctx;
  newbuf : buffer;
  peer_session_id : session_id;
  server_session_id : session_id
}.

(** What [struct tls_auth_standalone] holds. *)
Record tls_auth_standalone : Type := mk_tas { tas_wrap : wrap_ctx; tas_workbuf : buffer; tas_headroom : Z }.

(** ** ssl_pkt.c *)
Definition calculate_session_id_hmac (now : Z) (client_sid : session_id) (from : sockaddr) (hmac : hmac_ctx)
    (handwindow offset : Z) : res session_id :=
  let quantum := Z.quot (handwindow + 1) 2 in
  if quantum =? 0 then UB
  else
    let session_id_time := be_bytes 4 (u32 (Z.quot now quantum + offset)) in
    let addr := match sin_family from with AF_INET | AF_INET6 => sockaddr_bytes from | AF_UNSPEC => [] end in
    let! result := mem_write (replicate 32 0) 0 (hmac_ctx_value hmac (session_id_time ++ addr ++ client_sid)) in
    mem_read result 0 SID_SIZE.

(** [for (int offset = -2; offset <= 1; offset++)], with [n] iterations left. *)
Fixpoint hmac_offsets (now : Z) (st : tls_pre_decrypt_state) (from : sockaddr) (hmac : hmac_ctx) (handwindow : Z)
    (sid : session_id) (offset : Z) (n : nat) : res bool :=
  match n with
  | O => Ret false
  | S n =>
      let! expected_id := calculate_session_id_hmac now (peer_session_id st) from hmac handwindow offset in
      if negb (memcmp_eq expected_id sid) then Ret true
      else hmac_offsets now st from hmac handwindow sid (offset + 1) n
  end.

(** [junk]: the local [ack].  The session identifier is stored in the state. *)
Definition check_session_id_hmac (now : Z) (junk : reliable_ack) (st : tls_pre_decrypt_state) (from : option sockaddr)
    (hmac : hmac_ctx) (handwindow : Z) : res (bool * tls_pre_decrypt_state) :=
  match from with
  | None => Ret (false, st)
  | Some from =>
      let! (ok, _, sid, _) := reliable_ack_parse (newbuf st) junk (server_session_id st) in
      let st := mk_pds (tls_wrap_tmp st) (newbuf st) (peer_session_id st) sid in
      if negb ok then Ret (false, st)
      else let! r := hmac_offsets now st from hmac handwindow sid (-2) 4 in Ret (r, st)
  end.

Definition tls_pre_decrypt_lite (now : Z) (fresh : Z -> bytes) (tas : tls_auth_standalone) (st : tls_pre_decrypt_state)
    (buf : buffer) : res (first_packet_verdict * tls_pre_decrypt_state) :=
  if b_len buf <? 1 + SID_SIZE then Ret (VERDICT_INVALID, st)
  else
    let! first := buf_peek buf (b_offset buf) 1 in
    let op := Z.shiftr (be_val first) P_OPCODE_SHIFT in
    let key_id := Z.land (be_val first) P_KEY_ID_MASK in
    if negb ((op =? P_CONTROL_HARD_RESET_CLIENT_V2) || (op =? P_CONTROL_HARD_RESET_CLIENT_V3) || (op =? P_CONTROL_V1)
             || (op =? P_CONTROL_WKC_V1) || (op =? P_ACK_V1)) then Ret (VERDICT_INVALID, st)
    else if negb (key_id =? 0) then Ret (VERDICT_INVALID, st)
    else
      let '(_, tmp) := buf_advance buf 1 in
      let! (sid, _) := session_id_read tmp in
      let st := match sid with
                | Some s => mk_pds (tls_wrap_tmp st) (newbuf st) s (server_session_id st)
                | None => st
                end in
      if match sid with Some s => negb (session_id_defined s) | None => true end then Ret (VERDICT_INVALID, st)
      else
        let! nb := clone_buf buf (fresh (b_capacity buf)) in
        let! (status, nb, ctx) := read_control_auth now fresh None nb (tas_wrap tas) true in
        let st := mk_pds ctx nb (peer_session_id st) (server_session_id st) in
        if negb status then Ret (VERDICT_INVALID, st)
        else
          Ret (if op =? P_CONTROL_V1 then VERDICT_VALID_CONTROL_V1
               else if op =? P_ACK_V1 then VERDICT_VALID_ACK_V1
               else if op =? P_CONTROL_HARD_RESET_CLIENT_V3 then VERDICT_VALID_RESET_V3
               else if op =? P_CONTROL_WKC_V1 then VERDICT_VALID_WKC_V1
               else VERDICT_VALID_RESET_V2, st).

Definition tls_reset_standalone (now : Z) (prng : bytes) (ctx : wrap_ctx) (tas : tls_auth_standalone)
    (own_sid remote_sid : session_id) (header : Z) (request_resend_wkc : bool) : res (buffer * wrap_ctx) :=
  let '(ok, buf) := buf_init_dowork (tas_workbuf tas) (tas_headroom tas) in
  assert! ok in
  let! (_, buf) := buf_write_u8 buf 1 in
  let! (_, buf) := buf_write_u32 buf 0 in
  let! (_, buf) := buf_write buf remote_sid in
  let! (ok, buf) := buf_write buf (be_bytes 4 0) in
  assert! ok in
  let! buf :=
    (if request_resend_wkc then
       let! (_, buf) := buf_write_u16 buf TLV_TYPE_EARLY_NEG_FLAGS in
       let! (_, buf) := buf_write_u16 buf 2 in
       let! (_, buf) := buf_write_u16 buf EARLY_NEG_FLAG_RESEND_WKC in
       Ret buf
     else Ret buf) in
  tls_wrap_control now prng ctx header buf own_sid.

(** ** mudp.c *)
Definition rec_set_initialized (p : packet_id_rec) : packet_id_rec :=
  mk_rec (last_reap p) (rec_time p) (rec_id p) (seq_backtrack p) (time_backtrack p) (max_backtrack_stat p) true
    (seq_list p) (rec_name p) (rec_unit p).

(** The answer is left in [aux_buf]. *)
Definition send_hmac_reset_packet (now : Z) (prng : bytes) (st : tls_pre_decrypt_state) (tas : tls_auth_standalone)
    (aux_buf : buffer) (sid : session_id) (request_resend_wkc : bool) : res (buffer * tls_pre_decrypt_state) :=
  let opt := tw_opt (tls_wrap_tmp st) in
  let opt := set_packet_id opt (mk_pid (reset_packet_id_send (pid_send (co_packet_id opt)))
                                       (rec_set_initialized (pid_rec (co_packet_id opt)))) in
  let header := u8 (Z.lor 0 (Z.shiftl P_CONTROL_HARD_RESET_SERVER_V2 P_OPCODE_SHIFT)) in
  let! (buf, ctx) := tls_reset_standalone now prng (set_tw_opt (tls_wrap_tmp st) opt) tas sid (peer_session_id st)
                       header request_resend_wkc in
  let '(ok, aux_buf) := buf_init_dowork aux_buf (b_offset buf) in
  assert! ok in
  let! (_, aux_buf) := buf_copy aux_buf buf in
  Ret (aux_buf, mk_pds ctx (newbuf st) (peer_session_id st) (server_session_id st)).

(** What the check reads of the context of the server. *)
Record udp_top : Type := mk_top {
  top_tas : tls_auth_standalone;
  top_buf : buffer;
  top_from : sockaddr;
  top_hmac : hmac_ctx;
  top_handwindow : Z;
  top_aux_buf : buffer;
  top_limiter : initial_packet_rate_limit
}.

(** Result: whether to create an instance, the answer to send, the limiter and the state. *)
Definition do_pre_decrypt_check (now : Z) (prng : bytes) (fresh : Z -> bytes) (junk : reliable_ack) (m : udp_top)
    (st : tls_pre_decrypt_state)
  : res (bool * option buffer * initial_packet_rate_limit * tls_pre_decrypt_state) :=
  let tas := top_tas m in
  let! (verdict, st) := tls_pre_decrypt_lite now fresh tas st (top_buf m) in
  let '(below, irl) :=
    match verdict with
    | VERDICT_VALID_RESET_V3 | VERDICT_VALID_RESET_V2 => reflect_filter_rate_limit_check now (top_limiter m)
    | _ => (true, top_limiter m)
    end in
  if negb below then Ret (false, None, irl, st)
  else
    match verdict with
    | VERDICT_VALID_RESET_V3 =>
        let '(ok, tmp) := buf_advance (top_buf m) (1 + SID_SIZE) in
        assert! ok in
        let! (ok, pin, _) := packet_id_read tmp true in
        assert! ok in
        if Z.land (Z.land (net_id pin) EARLY_NEG_MASK) EARLY_NEG_START =? EARLY_NEG_START then
          let! sid := calculate_session_id_hmac now (peer_session_id st) (top_from m) (top_hmac m) (top_handwindow m) 0 in
          let! (reply, st) := send_hmac_reset_packet now prng st tas (top_aux_buf m) sid true in
          Ret (false, Some reply, irl, st)
        else if flag (tw_opt (tas_wrap tas)) CO_FORCE_TLSCRYPTV2_COOKIE then Ret (false, None, irl, st)
        else Ret (true, None, irl, st)
    | VERDICT_VALID_RESET_V2 =>
        let! sid := calculate_session_id_hmac now (peer_session_id st) (top_from m) (top_hmac m) (top_handwindow m) 0 in
        let! (reply, st) := send_hmac_reset_packet now prng st tas (top_aux_buf m) sid false in
        Ret (false, Some reply, irl, st)
    | VERDICT_VALID_CONTROL_V1 | VERDICT_VALID_ACK_V1 | VERDICT_VALID_WKC_V1 =>
        let! (ret, st) := check_session_id_hmac now junk st (Some (top_from m)) (top_hmac m) (top_handwindow m) in
        Ret (ret, None, irl, st)
    | VERDICT_INVALID => Ret (false, None, irl, st)
    end.
End Handshake.

Section Theorems.
Context {cipher_ctx hmac_ctx : Type} `{CL : CryptoLib cipher_ctx hmac_ctx} `{LL : !CtrlLaws cipher_ctx hmac_ctx}.
#[local] Abbreviation wrap_ctx := (tls_wrap_ctx cipher_ctx hmac_ctx).
#[local] Abbreviation pre_state := (tls_pre_decrypt_state (cipher_ctx:=cipher_ctx) (hmac_ctx:=hmac_ctx)).
Context (sockaddr_bytes : sockaddr -> bytes).

(** The session identifier for a client at [from] with the time shifted by [offset]. *)
Definition challenge (now : Z) (sid : session_id) (from : sockaddr) (hmac : hmac_ctx) (handwindow offset : Z) : session_id :=
  take 8 (hmac_ctx_value hmac (be_bytes 4 (u32 (Z.quot now (Z.quot (handwindow + 1) 2) + offset))
    ++ match sin_family from with AF_INET | AF_INET6 => sockaddr_bytes from | AF_UNSPEC => [] end ++ sid)).

Lemma calculate_spec now sid from hmac handwindow offset :
  1 <= handwindow -> hmac_ctx_size hmac = 32 ->
  calculate_session_id_hmac sockaddr_bytes now sid from hmac handwindow offset = Ret (challenge now sid from hmac handwindow offset).
Proof using LL.
  intros Hw Hs. unfold calculate_session_id_hmac, challenge.
  assert (1 <= Z.quot (handwindow + 1) 2) by (apply Z.quot_le_lower_bound; lia).
  rewrite (proj2 (Z.eqb_neq _ 0)) by lia. set (v := hmac_ctx_value _ _). destruct (cl_hmac hmac _ : Zlen v = _ /\ bytes_ok v) as [Lv _].
  rewrite mem_write_ok by (rewrite ?Lv, ?Hs; unfold Zlen; rewrite ?length_replicate; lia). cbn [res_bind].
  rewrite (drop_ge (replicate 32 0)), app_nil_r by (unfold Zlen in Lv; rewrite length_replicate; lia).
  change (take (Z.to_nat 0) (replicate 32 0) ++ v) with v. unfold SID_SIZE. rewrite mem_read_ok by (rewrite ?Lv; lia). done.
Qed.

(** Whether the identifier is the one issued in all four periods that are compared. *)
Definition issued_in_all (now : Z) (csid : session_id) (from : sockaddr) (hmac : hmac_ctx) (handwindow : Z) (sid : session_id) : bool :=
  forallb (fun offset => bool_decide (challenge now csid from hmac handwindow offset = sid)) [-2; -1; 0; 1].

Lemma hmac_offsets_spec now (st : pre_state) from hmac handwindow sid :
  1 <= handwindow -> hmac_ctx_size hmac = 32 ->
  hmac_offsets sockaddr_bytes now st from hmac handwindow sid (-2) 4
  = Ret (negb (issued_in_all now (peer_session_id st) from hmac handwindow sid)).
Proof using LL.
  intros Hw Hs. unfold issued_in_all. cbn [forallb hmac_offsets]. rewrite !calculate_spec by done. cbn [res_bind]. unfold memcmp_eq.
  change (-2 + 1) with (-1). change (-1 + 1) with 0. change (0 + 1) with 1. by repeat case_bool_decide.
Qed.

(** C15: The check of the returned session identifier is inverted.  check_session_id_hmac returns
    true as soon as one of the four identifiers it computes for the client differs from the one
    in the packet, since memcmp_constant_time returns 0 for equal bytes.  So every packet of a
    client with a readable acknowledgment record passes, whatever identifier it carries, unless
    that identifier is the valid one of all four periods at once: a sender who never saw
    the server's answer creates a client instance. *)
Theorem session_id_check_inverted (now handwindow : Z) (junk ack : reliable_ack) (st : pre_state) (from : sockaddr)
    (hmac : hmac_ctx) (sid : session_id) (rest : buffer) :
  1 <= handwindow -> hmac_ctx_size hmac = SHA256_DIGEST_LENGTH ->
  reliable_ack_parse (newbuf st) junk (server_session_id st) = Ret (true, ack, sid, rest) ->
  exists st', check_session_id_hmac sockaddr_bytes now junk st (Some from) hmac handwindow
      = Ret (negb (issued_in_all now (peer_session_id st) from hmac handwindow sid), st')
    /\ server_session_id st' = sid
    /\ (sid <> challenge now (peer_session_id st) from hmac handwindow 0 ->
        check_session_id_hmac sockaddr_bytes now junk st (Some from) hmac handwindow = Ret (true, st')).
Proof using LL.
  intros Hw Hs Hp. unfold check_session_id_hmac. rewrite Hp. cbn [res_bind negb]. rewrite hmac_offsets_spec by done. cbn [res_bind].
  eexists. split; [done|]. split; [done|]. intros Hne. unfold issued_in_all. cbn [forallb peer_session_id].
  rewrite (bool_decide_eq_false_2 (challenge now _ from hmac handwindow 0 = sid)) by congruence. by rewrite !andb_false_r.
Qed.

(** ** The answer to a reset packet *)

(** What the answer says: the client's packet 0 is acknowledged, and this is packet 0; with
    [resend], a flag asks for the wrapped client key again. *)
Definition resend_flag (resend : bool) : bytes :=
  if resend then be_bytes 2 TLV_TYPE_EARLY_NEG_FLAGS ++ be_bytes 2 2 ++ be_bytes 2 EARLY_NEG_FLAG_RESEND_WKC else [].
Definition reset_answer (csid : session_id) (resend : bool) : bytes :=
  ack_record [0] csid ++ be_bytes 4 0 ++ resend_flag resend.
Definition answer_size (resend : bool) : Z := if resend then 23 else 17.

Lemma reset_answer_len csid resend : Zlen csid = 8 -> Zlen (reset_answer csid resend) = answer_size resend.
Proof.
  intros Hs. unfold reset_answer, resend_flag. change (ack_record [0] csid) with (([u8 1] ++ be_bytes 4 0) ++ csid).
  destruct resend; by rewrite !Zlen_app, Hs.
Qed.
Lemma reset_answer_ok csid resend : bytes_ok csid -> bytes_ok (reset_answer csid resend).
Proof.
  intros Hs. unfold reset_answer, ack_record. rewrite !bytes_ok_app. split_and!; [by apply small_ok..|done|by apply small_ok|].
  destruct resend; by apply small_ok.
Qed.

(** The counter of the copy of the context starts afresh. *)
Definition answering (a : wrap_ctx) : wrap_ctx :=
  set_tw_opt a (set_packet_id (tw_opt a) (mk_pid send_zero (rec_set_initialized (pid_rec (co_packet_id (tw_opt a)))))).

Lemma reset_standalone_spec now prng (a b : wrap_ctx) tas sid csid header (resend : bool) :
  wrap_peers a b -> carries_wkc header = false -> is_u8 header -> Zlen sid = 8 -> bytes_ok sid -> Zlen csid = 8 -> bytes_ok csid ->
  buf_wf (tas_workbuf tas) -> b_data (tas_workbuf tas) <> None -> 0 <= tas_headroom tas ->
  let n := answer_size resend in
  tas_headroom tas + n <= b_capacity (tas_workbuf tas) -> wrap_room a (tas_headroom tas) n ->
  pid_send (co_packet_id (tw_opt a)) = send_zero ->
  exists p a' hp w tp, tls_reset_standalone now prng a tas sid csid header resend = Ret (p, a') /\ buf_repr p hp w tp
    /\ on_wire a b (header :: sid) (long_pid 1 now) (reset_answer csid resend) w /\ sent_ctx a (mk_send 1 now) a'
    /\ hp + Zlen w <= tas_headroom tas + 49 + n.
Proof using LL.
  intros Hp Hk Hu Ls Os Lc Oc Hw Hwd Hh n Hcap Hr Hsend. unfold tls_reset_standalone.
  assert (Hn : 17 <= n /\ (resend = true -> n = 23)) by (unfold n, answer_size; destruct resend; lia).
  destruct (buf_init_repr _ (tas_headroom tas) Hw Hwd) as (b0 & -> & H0); [lia|]. cbn [res_bind].
  unfold buf_write_u8, buf_write_u32, buf_write_u16.
  set (t := b_capacity (tas_workbuf tas) - tas_headroom tas) in *.
  assert (L4 : Zlen (be_bytes 4 0) = 4) by apply Zlen_be_bytes.
  destruct (buf_write_repr _ _ _ _ H0 [u8 1]) as (b1 & -> & H1); [by apply small_ok|change (Zlen [u8 1]) with 1; lia|]. cbn [res_bind app] in *.
  change (Zlen [u8 1]) with 1 in H1.
  destruct (buf_write_repr _ _ _ _ H1 (be_bytes 4 0)) as (b2 & -> & H2); [apply be_bytes_ok|lia|]. cbn [res_bind] in *.
  destruct (buf_write_repr _ _ _ _ H2 csid Oc) as (b3 & -> & H3); [lia|]. cbn [res_bind] in *.
  destruct (buf_write_repr _ _ _ _ H3 (be_bytes 4 0)) as (b4 & -> & H4); [apply be_bytes_ok|lia|]. cbn [res_bind] in *.
  change ((([u8 1] ++ be_bytes 4 0) ++ csid) ++ be_bytes 4 0) with ((ack_record [0] csid) ++ be_bytes 4 0) in H4.
  assert (Hb : exists b7 t7,
    (if resend then
       let! (_, buf) := buf_write b4 (be_bytes 2 TLV_TYPE_EARLY_NEG_FLAGS) in
       let! (_, buf) := buf_write buf (be_bytes 2 2) in
       let! (_, buf) := buf_write buf (be_bytes 2 EARLY_NEG_FLAG_RESEND_WKC) in Ret buf
     else Ret b4) = Ret b7 /\ buf_repr b7 (tas_headroom tas) (reset_answer csid resend) t7).
  { unfold reset_answer, resend_flag. destruct resend; [|rewrite app_nil_r; eauto]. destruct Hn as [_ Hn]. specialize (Hn eq_refl).
    assert (L2 : forall x, Zlen (be_bytes 2 x) = 2) by (intros; apply Zlen_be_bytes).
    destruct (buf_write_repr _ _ _ _ H4 (be_bytes 2 TLV_TYPE_EARLY_NEG_FLAGS)) as (b5 & -> & H5); [apply be_bytes_ok|rewrite L2; lia|].
    cbn [res_bind]. destruct (buf_write_repr _ _ _ _ H5 (be_bytes 2 2)) as (b6 & -> & H6); [apply be_bytes_ok|rewrite !L2; lia|].
    cbn [res_bind]. destruct (buf_write_repr _ _ _ _ H6 (be_bytes 2 EARLY_NEG_FLAG_RESEND_WKC)) as (b7 & -> & H7);
      [apply be_bytes_ok|rewrite !L2; lia|]. cbn [res_bind]. rewrite <- !app_assoc in H7. eauto. }
  destruct Hb as (b7 & t7 & Eb & H7). rewrite Eb. cbn [res_bind].
  destruct (wrap_control_spec now prng a b header sid b7 _ (reset_answer csid resend) _ (mk_send 1 now) Hp Hk Hu Ls Os H7)
    as (p & a' & hp & w & tp & E & H); [by rewrite reset_answer_len|by rewrite Hsend|].
  rewrite reset_answer_len in H by done. rewrite E. exists p, a', hp, w, tp. split; [done|]. destruct H as (? & ? & ? & ?).
  by split_and!.
Qed.

Lemma ack_read_answer q hq csid resend t junk_ack junk_sid :
  buf_repr q hq (reset_answer csid resend) t -> Zlen csid = 8 -> session_id_defined csid = true -> ack_wf junk_ack ->
  exists ack rest, reliable_ack_read junk_ack q csid junk_sid = Ret (true, ack, rest) /\ ack_ids ack = [0]
    /\ contents rest = be_bytes 4 0 ++ resend_flag resend.
Proof.
  intros Hq Ls Hd Ha. destruct (reliable_ack_parse_record [0] csid q hq _ t junk_ack junk_sid Hq) as (ack & rest & E & Hi & Hr);
    [by apply Forall_singleton|done|done|done|].
  unfold reliable_ack_read. rewrite E. change (Zlen [0] =? 0) with false. cbn [res_bind negb].
  rewrite Hd. unfold session_id_equal, memcmp_eq. rewrite bool_decide_eq_true_2 by done. cbn [negb orb]. rewrite andb_false_r. eauto.
Qed.

(** The first bytes of a copy are those of the packet. *)
Lemma clone_first b h x r t junk nb :
  buf_repr b h (x :: r) t -> clone_buf b junk = Ret nb ->
  b_len nb = b_len b /\ buf_peek nb (b_offset nb) 1 = Ret [x].
Proof using.
  intros Hb. buf_facts Hb. unfold clone_buf. rewrite (buf_bytes_repr _ _ _ _ Hb), Fvalid. cbn [res_bind].
  unfold buf_poke. cbn [b_data]. unfold mem_write. intros E. inv_step E. inv_step E0. inv_step E0. inv_step E.
  rewrite andb_true_iff, !Z.leb_le in E1. cbn [b_len set_data b_offset]. split; [done|]. unfold buf_peek. cbn [b_data].
  assert (Hl : length (take (Z.to_nat (b_offset b)) junk) = Z.to_nat (b_offset b))
    by (rewrite length_take; pose proof (Zlen_nonneg (x :: r)); unfold Zlen in *; lia).
  cbn [b_data set_data]. set (rest := r ++ _). clearbody rest. pose proof (Zlen_nonneg rest).
  unfold mem_read. rewrite Zlen_app, Zlen_cons. unfold Zlen at 1. rewrite Hl.
  rewrite !(proj2 (Z.leb_le _ _)) by lia. cbn [andb]. by rewrite drop_app_length' by done.
Qed.

(** The wrapped key of a first packet is cut off, and the mode is tls-crypt. *)
Lemma extract_first buf (ctx ctx' : wrap_ctx) buf' :
  tls_crypt_v2_extract_client_key None buf ctx true = Ret (true, buf', ctx') ->
  tw_mode ctx' = TLS_WRAP_CRYPT /\ b_len buf' <= b_len buf.
Proof using.
  unfold tls_crypt_v2_extract_client_key. intros E. inv_step E. inv_step E. inv_step E. inv_step E. inv_step E.
  cbn [negb] in E. inv_steps E.
  split; [done|]. match goal with Hi : buf_inc_len _ _ = _ |- _ => unfold buf_inc_len in Hi; destruct (negb _) in Hi;
    [done|]; injection Hi as <- end. cbn. unfold buf_len, buf_valid. destruct (buf_defined _ && _) eqn:Ev; [|lia].
  apply andb_true_iff in Ev as [_ Ev%Z.leb_le]. lia.
Qed.

Lemma unwrap_crypt_length now fresh buf (ctx ctx' : wrap_ctx) q :
  tw_mode ctx = TLS_WRAP_CRYPT -> unwrap_by_mode now fresh buf ctx = Ret (true, q, ctx') -> 49 <= b_len buf.
Proof using.
  intros Hm. unfold unwrap_by_mode. rewrite Hm. intros E. inv_step E. inv_step E. clear E.
  match goal with Hn : negb ?ok = false |- _ => destruct ok; [|done] end. inv_step E0. inv_step E0. inv_step E0. clear E0.
  match goal with Hu : tls_crypt_unwrap _ _ _ _ = Ret (?ok, _, _) |- _ => destruct ok; [|done]; rename Hu into Eu end.
  unfold tls_crypt_unwrap in Eu. inv_step Eu. inv_step Eu. inv_step Eu. inv_step Eu.
  match goal with Hl : (buf_len buf <? TLS_CRYPT_OFF_CT) = false |- _ => apply Z.ltb_ge in Hl; revert Hl end.
  change TLS_CRYPT_OFF_CT with 49. unfold buf_len. destruct (buf_valid buf); lia.
Qed.

(** A valid reset packet of version 3 has a whole tls-crypt packet in front of the wrapped key. *)
Lemma reset_v3_length now fresh tas (st st1 : pre_state) buf h w t :
  tls_pre_decrypt_lite now fresh tas st buf = Ret (VERDICT_VALID_RESET_V3, st1) -> buf_repr buf h w t -> 49 <= Zlen w.
Proof using.
  intros E Hb. buf_facts Hb. unfold tls_pre_decrypt_lite in E. inv_step E. apply Z.ltb_ge in E0.
  destruct w as [|x w]; [rewrite Flen in E0; change (Zlen []) with 0 in E0; unfold SID_SIZE in E0; lia|].
  rewrite Foff, (peek_inside buf h [] [x] w t) in E by (done || (change (Zlen []) with 0; lia)). cbn [res_bind] in E.
  inv_step E. inv_step E. inv_step E. inv_step E. inv_step E. inv_step E. inv_step E.
  match goal with Hc : clone_buf _ _ = Ret _ |- _ => destruct (clone_first _ _ _ _ _ _ _ Hb Hc) as [Lc Pc] end.
  match goal with Hr : read_control_auth _ _ _ _ _ _ = Ret (?ok, _, _) |- _ => destruct ok; [|done]; rename Hr into Er end.
  cbn [negb] in E. unfold read_control_auth in Er. rewrite Pc in Er. cbn [res_bind] in Er.
  assert (Hop : (Z.shiftr (be_val [x]) P_OPCODE_SHIFT =? P_CONTROL_HARD_RESET_CLIENT_V3) = true).
  { injection E as Ev _. by destruct (_ =? P_CONTROL_V1), (_ =? P_ACK_V1), (_ =? P_CONTROL_HARD_RESET_CLIENT_V3), (_ =? P_CONTROL_WKC_V1). }
  rewrite Hop in Er. cbn [orb] in Er. inv_step Er.
  match goal with He : tls_crypt_v2_extract_client_key _ _ _ _ = Ret (?ok, _, _) |- _ => destruct ok; [|done]; rename He into Ex end.
  apply extract_first in Ex as [Hm Hle]. cbn [negb] in Er. apply unwrap_crypt_length in Er; [|done]. lia.
Qed.

(** The client says in its packet identifier that it supports early negotiation. *)
Definition early_negotiation (w : bytes) : bool :=
  Z.land (Z.land (be_val (take 4 (drop 9 w))) EARLY_NEG_MASK) EARLY_NEG_START =? EARLY_NEG_START.

Lemma reset_v3_pin buf h w t :
  buf_repr buf h w t -> 49 <= Zlen w ->
  exists tmp time rest, buf_advance buf (1 + SID_SIZE) = (true, tmp)
    /\ packet_id_read tmp true = Ret (true, mk_net (be_val (take 4 (drop 9 w))) time, rest).
Proof using.
  intros Hb Hl. buf_facts Hb. destruct (take_bytes w 9) as (hdr & r & -> & Lh & Lr & _ & Or); [lia|done|].
  destruct (take_bytes r 8) as (pid & c & -> & Lp & Lc & _); [lia|done|].
  destruct (advance_header _ _ _ _ _ Hb Lh) as (tmp & E & Ht). change (1 + SID_SIZE) with (SID_SIZE + 1).
  destruct (packet_id_read_long _ _ _ _ _ Ht Lp) as (rest & Er & _). exists tmp, (net_time (pin_of pid)), rest.
  split; [done|]. rewrite Er. unfold pin_of. rewrite drop_app_length', take_app_le by (unfold Zlen in *; lia). done.
Qed.

Section Answer.
Context (now now' sb : Z) (prng : bytes) (fresh' : Z -> bytes) (junk_ack : reliable_ack) (junk_sid : session_id).
Context (m : udp_top (cipher_ctx:=cipher_ctx) (hmac_ctx:=hmac_ctx)) (st1 : pre_state) (b : wrap_ctx).
Context (verify : option (wrap_ctx -> res bool)) (initial : bool) (acc : list packet_id_net) (resend : bool).
Abbreviation csid := (peer_session_id st1).
Abbreviation a := (answering (tls_wrap_tmp st1)).
Abbreviation tas := (top_tas m).
Abbreviation n := (answer_size resend).

(** The buffers of the server have room for the answer. *)
Definition answer_room : Prop :=
  buf_wf (tas_workbuf tas) /\ b_data (tas_workbuf tas) <> None /\ 0 <= tas_headroom tas
  /\ tas_headroom tas + n <= b_capacity (tas_workbuf tas) /\ wrap_room a (tas_headroom tas) n
  /\ buf_wf (top_aux_buf m) /\ b_data (top_aux_buf m) <> None /\ tas_headroom tas + 49 + n <= b_capacity (top_aux_buf m).

(** What the answer is, and what the client [b] reads from it. *)
Definition answered (reply : buffer) : Prop :=
  take 9 (contents reply) = 64 :: challenge now csid (top_from m) (top_hmac m) (top_handwindow m) 0
  /\ forall rbuf hr tr, buf_repr rbuf hr (contents reply) tr ->
     exists q b' ack rest, read_control_auth now' fresh' verify rbuf b initial = Ret (true, q, b')
       /\ reliable_ack_read junk_ack q csid junk_sid = Ret (true, ack, rest) /\ ack_ids ack = [0]
       /\ contents rest = be_bytes 4 0 ++ resend_flag resend.

Lemma answer_spec :
  1 <= top_handwindow m -> hmac_ctx_size (top_hmac m) = SHA256_DIGEST_LENGTH ->
  Zlen csid = SID_SIZE -> bytes_ok csid -> session_id_defined csid = true -> wrap_peers a b -> answer_room ->
  is_u32 now -> SEQ_EXPIRED < now' -> ack_wf junk_ack -> (forall n, 0 <= n -> Zlen (fresh' n) = n /\ bytes_ok (fresh' n)) ->
  window_hist sb (pid_rec (co_packet_id (tw_opt b))) acc -> later (pid_rec (co_packet_id (tw_opt b))) (mk_net 1 now) ->
  exists reply st',
    (let! sid := calculate_session_id_hmac sockaddr_bytes now csid (top_from m) (top_hmac m) (top_handwindow m) 0 in
     send_hmac_reset_packet now prng st1 tas (top_aux_buf m) sid resend) = Ret (reply, st')
    /\ answered reply.
Proof using LL.
  intros Hhw Hhs Ls Os Hdef Hp (Hw & Hwd & Hh & Hcap & Hr & Hx & Hxd & Hxc) Hn Hn' Hja Hf Hwin Hl.
  unfold answered. rewrite calculate_spec by done. cbn [res_bind]. set (sid := challenge now csid _ _ _ 0).
  assert (Hsid : Zlen sid = 8 /\ bytes_ok sid).
  { unfold sid, challenge. set (v := hmac_ctx_value _ _). destruct (cl_hmac (top_hmac m) _ : Zlen v = _ /\ bytes_ok v) as [Lv Ov].
    split; [apply (Zlen_take_drop v 8); rewrite Lv, Hhs; done|by apply Forall_take]. }
  unfold send_hmac_reset_packet.
  change (set_tw_opt (tls_wrap_tmp st1) _) with a. change (u8 (Z.lor 0 (Z.shiftl P_CONTROL_HARD_RESET_SERVER_V2 P_OPCODE_SHIFT))) with 64.
  destruct (reset_standalone_spec now prng a b tas sid csid 64 resend Hp) as (p & a' & hp & w & tp & -> & Hpb & Hwire & Hs & Hlen);
    try done; try (by destruct Hsid). cbn [res_bind].
  destruct (buf_repr_fields _ _ _ _ Hpb) as (-> & _ & _ & Hhp & _ & _ & Ow & _). pose proof (Zlen_nonneg w).
  destruct (buf_init_repr (top_aux_buf m) hp Hx Hxd) as (x0 & -> & H0); [lia|]. cbn [res_bind].
  unfold buf_copy. rewrite (buf_bytes_repr _ _ _ _ Hpb). cbn [res_bind].
  destruct (buf_write_repr _ _ _ _ H0 w Ow) as (x1 & -> & H1); [lia|]. cbn [res_bind app] in *.
  eexists x1, _. split; [done|]. rewrite (buf_repr_contents _ _ _ _ H1). split.
  { destruct (on_wire_header _ _ _ _ _ _ Hwire) as (r & ->). apply take_app_length'. destruct Hsid as [Ls' _]. unfold Zlen in Ls'. cbn. lia. }
  intros rbuf hr tr Hrb. assert (Hu1 : is_u32 1) by (unfold is_u32; lia).
  destruct (read_control_spec now' fresh' verify a b 64 sid (long_pid 1 now) (reset_answer csid resend) w rbuf hr tr initial sb acc Hp)
    as (q & b' & hq & tq & Eq & Hq & _); rewrite ?pin_of_long by done; try done; try (by destruct Hsid); [by apply reset_answer_ok|].
  destruct (ack_read_answer q hq csid resend tq junk_ack junk_sid Hq Ls Hdef Hja) as (ack & rest & ? & ? & ?). by exists q, b', ack, rest.
Qed.
End Answer.

(** C16: Reset packets are answered without a trace, with one exception.  For a reset packet of
    version 2 that passes the checks of tls_pre_decrypt_lite, below the rate limit, and for one of
    version 3 (tls-crypt-v2) whose sender supports early negotiation, the server creates no instance
    and changes nothing but the counter of the limiter; its answer, in each wrapping mode, starts with
    the opcode of a server reset and the identifier computed from the client's address, identifier and
    the time, and the client reads from it that its packet 0 is acknowledged under its own identifier,
    in a packet 0 of the server that for version 3 also asks for the wrapped key again.  For a
    version 3 packet of a client without early negotiation there is no answer at all: an instance is
    created from this first packet, unless force-cookie is set. *)
Theorem reset_answered_statelessly (now now' sb : Z) (prng : bytes) (fresh fresh' : Z -> bytes) (junk junk_ack : reliable_ack)
    (junk_sid : session_id) (m : udp_top (cipher_ctx:=cipher_ctx) (hmac_ctx:=hmac_ctx)) (st st1 : pre_state) (b : wrap_ctx)
    (verify : option (wrap_ctx -> res bool)) (initial : bool) (irl : initial_packet_rate_limit) (acc : list packet_id_net)
    (v3 : bool) (ht tt : Z) (w : bytes) :
  let csid := peer_session_id st1 in
  let a := answering (tls_wrap_tmp st1) in
  tls_pre_decrypt_lite now fresh (top_tas m) st (top_buf m)
  = Ret (if v3 then VERDICT_VALID_RESET_V3 else VERDICT_VALID_RESET_V2, st1) ->
  buf_repr (top_buf m) ht w tt -> reflect_filter_rate_limit_check now (top_limiter m) = (true, irl) ->
  1 <= top_handwindow m -> hmac_ctx_size (top_hmac m) = SHA256_DIGEST_LENGTH ->
  Zlen csid = SID_SIZE -> bytes_ok csid -> session_id_defined csid = true -> wrap_peers a b -> answer_room m st1 v3 ->
  is_u32 now -> SEQ_EXPIRED < now' -> ack_wf junk_ack -> (forall n, 0 <= n -> Zlen (fresh' n) = n /\ bytes_ok (fresh' n)) ->
  window_hist sb (pid_rec (co_packet_id (tw_opt b))) acc -> later (pid_rec (co_packet_id (tw_opt b))) (mk_net 1 now) ->
  if negb v3 || early_negotiation w
  then exists reply st', do_pre_decrypt_check sockaddr_bytes now prng fresh junk m st = Ret (false, Some reply, irl, st')
       /\ answered now now' fresh' junk_ack junk_sid m st1 b verify initial v3 reply
  else do_pre_decrypt_check sockaddr_bytes now prng fresh junk m st
       = Ret (negb (flag (tw_opt (tas_wrap (top_tas m))) CO_FORCE_TLSCRYPTV2_COOKIE), None, irl, st1).
Proof using LL.
  intros csid a Hlite Hb Hirl Hhw Hhs Ls Os Hdef Hp Hroom Hn Hn' Hja Hf Hwin Hl.
  destruct (answer_spec now now' sb prng fresh' junk_ack junk_sid m st1 b verify initial acc v3) as (reply & st' & E & Ha); try done.
  revert E. rewrite calculate_spec by done. cbn [res_bind]. intros E.
  unfold do_pre_decrypt_check. rewrite Hlite. cbn [res_bind]. destruct v3; rewrite Hirl; cbn [negb orb].
  - destruct (reset_v3_pin _ _ _ _ Hb (reset_v3_length _ _ _ _ _ _ _ _ _ Hlite Hb)) as (tmp & time & rest & -> & ->).
    cbn [res_bind net_id]. fold (early_negotiation w). destruct (early_negotiation w); [|by destruct (flag _ _)].
    rewrite calculate_spec by done. cbn [res_bind]. rewrite E. by exists reply, st'.
  - rewrite calculate_spec by done. cbn [res_bind]. rewrite E. by exists reply, st'.
Qed.
End Theorems.

(** ** Examples *)
Definition sample_from : sockaddr := mk_sa AF_INET 1194 167772161 [].
Definition sample_sa_bytes (a : sockaddr) : bytes := be_bytes 2 (sin_port a) ++ be_bytes 4 (sin_addr a).
Definition sample_session_key : sample_hmac := hmac_ctx_init [77] (str "SHA256").
Definition sample_none : tls_wrap_ctx sample_cipher sample_hmac :=
  mk_tw TLS_WRAP_NONE (sample_opt ctx_zero ctx_zero) (sample_work 500) ctx_zero None clear_buf false key2_zero.

(** A client that makes up the identifier of the server. *)
Definition made_up : session_id := [9; 9; 9; 9; 9; 9; 9; 9].
Definition made_up_state : tls_pre_decrypt_state :=
  mk_pds sample_none (around 5 (ack_record [0] made_up)) sample_sid x_session_id_zero.

Lemma session_id_check_inverted_witness : exists st',
  check_session_id_hmac sample_sa_bytes 1000 (mk_ack 0 (replicate 8 0)) made_up_state (Some sample_from) sample_session_key 60 = Ret (true, st')
  /\ server_session_id st' = made_up.
Proof.
  destruct (reliable_ack_parse_record [0] made_up (newbuf made_up_state) 5 [] 5 (mk_ack 0 (replicate 8 0)) x_session_id_zero)
    as (ack & rest & E & _).
  - apply (around_repr 5 (ack_record [0] made_up)); [by apply small_ok|reflexivity].
  - by apply Forall_singleton.
  - reflexivity.
  - by split.
  - by vm_compute.
  - destruct (session_id_check_inverted sample_sa_bytes 1000 60 (mk_ack 0 (replicate 8 0)) ack made_up_state sample_from sample_session_key
      made_up rest) as (st' & _ & Hs & Hok); [lia|reflexivity|exact E|].
    exists st'. split; [|exact Hs]. apply Hok. by vm_compute.
Defined.

(** A server without wrapping that gets a reset packet of a client. *)
Definition sample_reset : bytes := 56 :: sample_sid ++ [0; 0; 0; 0; 0].
Definition sample_top : udp_top (cipher_ctx:=sample_cipher) (hmac_ctx:=sample_hmac) :=
  mk_top (mk_tas sample_none (sample_work 300) 100) (around 5 sample_reset) sample_from sample_session_key 60 (sample_work 300)
    (mk_irl 100 10 0 0 false).
Definition sample_blank_state : tls_pre_decrypt_state := mk_pds sample_none clear_buf x_session_id_zero x_session_id_zero.
Definition sample_st1 : tls_pre_decrypt_state :=
  match tls_pre_decrypt_lite 1000 zeros (top_tas sample_top) sample_blank_state (top_buf sample_top) with
  | Ret (_, st) => st | _ => sample_blank_state
  end.
Definition sample_reply : bytes :=
  match do_pre_decrypt_check sample_sa_bytes 1000 [] zeros (mk_ack 0 (replicate 8 0)) sample_top sample_blank_state with
  | Ret (_, Some r, _, _) => contents r | _ => []
  end.

Lemma sample_answer_room : answer_room sample_top sample_st1 false.
Proof.
  assert (Hw : buf_wf (sample_work 300)) by exact (buf_repr_wf _ _ _ _ (proj2 (alloc_buf_repr 300 ltac:(done)) ltac:(done))).
  unfold answer_room. split_and!; try exact Hw; try done; by vm_compute.
Qed.

Lemma reset_answered_statelessly_witness : exists q b' ack rest,
  read_control_auth 1001 zeros None (around 5 sample_reply) sample_none false = Ret (true, q, b')
  /\ reliable_ack_read (mk_ack 0 (replicate 8 0)) q sample_sid made_up = Ret (true, ack, rest) /\ ack_ids ack = [0].
Proof.
  destruct (reset_answered_statelessly sample_sa_bytes 1000 1001 64 [] zeros zeros (mk_ack 0 (replicate 8 0)) (mk_ack 0 (replicate 8 0)) made_up
    sample_top sample_blank_state sample_st1 sample_none None false (mk_irl 100 10 1 1000 false) [] false 5 5 sample_reset)
    as (reply & st' & E & _ & Hr).
  - by vm_compute.
  - apply (around_repr 5); [apply small_ok; by vm_compute|by vm_compute].
  - by vm_compute.
  - by vm_compute.
  - reflexivity.
  - by vm_compute.
  - apply small_ok. by vm_compute.
  - by vm_compute.
  - apply peers_none; by vm_compute.
  - apply sample_answer_room.
  - by unfold is_u32.
  - reflexivity.
  - by split.
  - intros n Hn. by apply zeros_fresh.
  - apply sample_pid_hist.
  - by apply sample_later.
  - assert (Ew : contents reply = sample_reply) by (unfold sample_reply; by rewrite E).
    destruct (Hr (around 5 sample_reply) 5 5) as (q & b' & ack & rest & Eq & Ea & Hi & _).
    { rewrite Ew. apply (around_repr 5); [apply small_ok; by vm_compute|by vm_compute]. }
    exists q, b', ack, rest. split; [exact Eq|]. split; [|exact Hi].
    assert (Es : peer_session_id sample_st1 = sample_sid) by (by vm_compute). rewrite Es in Ea. exact Ea.
Defined.
