(* ===== verification/Text.v ===== *)
(** * C strings (the text functions of buffer.c and of the C library)

    A C string is the list of its bytes without the terminating NUL.  A pointer into a string
    is the suffix it points to. *)

From S2P Require Import Prelude CircList Buffer KeyCtx.
#[local] Open Scope Z_scope.

(** ** Searching and cutting *)

(** [strncmp (s, p, strlen (p)) == 0] *)
Fixpoint has_prefix (p s : bytes) : bool :=
  match p, s with
  | [], _ => true
  | a :: p, b :: s => (a =? b) && has_prefix p s
  | _ :: _, [] => false
  end.
Fixpoint strstr (s p : bytes) : option bytes :=
  if has_prefix p s then Some s
  else match s with [] => None | _ :: s => strstr s p end.
Fixpoint strchr (s : bytes) (c : Z) : option bytes :=
  match s with [] => None | x :: s' => if x =? c then Some s else strchr s' c end.
(** What is in front of the first [c]. *)
Fixpoint until (c : Z) (s : bytes) : bytes :=
  match s with [] => [] | x :: s => if x =? c then [] else x :: until c s end.
(** The tokens [strsep] returns one after the other. *)
Fixpoint strsep_all (d : Z) (s : bytes) : list bytes :=
  match s with
  | [] => [[]]
  | x :: s =>
      if x =? d then [] :: strsep_all d s
      else match strsep_all d s with t :: ts => (x :: t) :: ts | [] => [[x]] end
  end.
(** [strtok] skips delimiters in front of a token, so that no token is empty. *)
Definition strtok_all (d : Z) (s : bytes) : list bytes := filter (fun t => t <> []) (strsep_all d s).
Definition streq (a b : bytes) : bool := bool_decide (a = b).

(** ** Numbers *)
Definition is_digit (c : Z) : bool := (48 <=? c) && (c <=? 57).
Definition is_space (c : Z) : bool := (c =? 32) || ((9 <=? c) && (c <=? 13)).
Fixpoint skip_space (s : bytes) : bytes :=
  match s with x :: s' => if is_space x then skip_space s' else s | [] => [] end.
Fixpoint digits_val (acc : Z) (s : bytes) : Z :=
  match s with x :: s => if is_digit x then digits_val (acc * 10 + (x - 48)) s else acc | [] => acc end.
(** [%d] of [sscanf]: [None] without a digit, undefined when the number is no [int]. *)
Definition scan_d (s : bytes) : res (option Z) :=
  let s := skip_space s in
  let '(sign, s) := match s with
                    | x :: s' => if x =? 45 then (-1, s') else if x =? 43 then (1, s') else (1, s)
                    | [] => (1, s)
                    end in
  match s with
  | x :: _ => if is_digit x then let! v := c_int (sign * digits_val 0 s) in Ret (Some v) else Ret None
  | [] => Ret None
  end.
(** [sscanf (s, lit "%d", &x)], where [s] starts with the literal. *)
Definition sscanf_d (lit s : bytes) : res (option Z) :=
  if has_prefix lit s then scan_d (drop (length lit) s) else Ret None.

(** [%d] of [printf]; an [int] has at most ten digits. *)
Fixpoint dec_digits (fuel : nat) (n : Z) : bytes :=
  match fuel with
  | O => []
  | S fuel => if n <? 10 then [48 + n] else dec_digits fuel (n / 10) ++ [48 + n mod 10]
  end.
Definition print_d (n : Z) : bytes := if n <? 0 then 45 :: dec_digits 10 (- n) else dec_digits 10 n.

(** ** Text in buffers *)

(** [buf_printf] with the formatted text: as much as fits in front of a NUL. *)
Definition buf_printf (buf : buffer) (text : bytes) : res (bool * buffer) :=
  if buf_defined buf then
    let cap := buf_forward_capacity buf in
    if 0 <? cap then
      let out := take (Z.to_nat (cap - 1)) text in
      let! d := buf_poke buf (b_offset buf + b_len buf) (out ++ [0]) in
      let! d := buf_poke d (b_capacity buf - 1) [0] in
      Ret (Zlen text <? cap, set_window d (b_offset d) (b_len d + Zlen out))
    else Ret (false, buf)
  else Ret (false, buf).
(** The result of the call is not looked at. *)
Definition print (buf : buffer) (text : bytes) : res buffer :=
  let! (_, buf) := buf_printf buf text in Ret buf.

(** [strncpynt] fills what the string leaves with NULs. *)
Definition buf_puts (buf : buffer) (text : bytes) : res (bool * buffer) :=
  let cap := buf_forward_capacity buf in
  if 0 <? cap then
    let out := take (Z.to_nat (cap - 1)) text in
    let! d := buf_poke buf (b_offset buf + b_len buf) (out ++ replicate (Z.to_nat (cap - Zlen out)) 0) in
    let! d := buf_poke d (b_capacity buf - 1) [0] in
    Ret (true, set_window d (b_offset d) (b_len d + Zlen out))
  else Ret (false, buf).

Definition buf_null_terminate (buf : buffer) : res buffer :=
  let! last := match buf_blast buf with Some p => buf_peek buf p 1 | None => Ret [1] end in
  if bool_decide (last = [0]) then Ret buf
  else
    let buf := if negb (buf_safe buf 1) then (buf_inc_len buf (-1)).2 else buf in
    let! (_, buf) := buf_write_u8 buf 0 in Ret buf.

(** [buf_str]: the bytes up to the first NUL, which must be inside the object. *)
Definition buf_str (buf : buffer) : res bytes :=
  match b_data buf with
  | Some d =>
      let s := drop (Z.to_nat (b_offset buf)) d in
      if bool_decide (0 ∈ s) then Ret (until 0 s) else UB
  | None => UB
  end.

(** A decidable fact about literals. *)
Ltac by_eval := unfold bytes_ok; apply (bool_decide_unpack _); vm_compute; exact I.

(** ** Searching *)

Lemma has_prefix_app p s : has_prefix p (p ++ s) = true.
Proof. induction p as [|a p IH]; [done|]. cbn. by rewrite Z.eqb_refl, IH. Qed.

Lemma has_prefix_inv p s : has_prefix p s = true -> s = p ++ drop (length p) s.
Proof.
  revert s. induction p as [|a p IH]; intros [|b s]; cbn; try done.
  intros [->%Z.eqb_eq H]%andb_true_iff. by rewrite <- IH.
Qed.

(** A pattern that ends in a byte the text does not have starts nowhere in it. *)
Lemma strstr_skip q x a b :
  x ∉ a -> (length q <= length a)%nat -> strstr (a ++ b) (q ++ [x]) = strstr (drop (length a - length q) a ++ b) (q ++ [x]).
Proof.
  induction a as [|y a IH]; intros Hx Hl; [by destruct q; cbn in *; [|lia]|].
  destruct (decide (length q = length (y :: a))) as [He | He].
  { by rewrite He, Nat.sub_diag, drop_0. }
  cbn [length] in *. apply not_elem_of_cons in Hx as [Hxy Hx].
  replace (S (length a) - length q)%nat with (S (length a - length q)) by lia. cbn [drop].
  rewrite <- IH by (done || lia). cbn [app strstr].
  destruct (has_prefix (q ++ [x]) (y :: a ++ b)) eqn:E; [exfalso|done].
  apply has_prefix_inv in E. rewrite app_comm_cons, <- app_assoc in E.
  assert (Hin : (y :: a) !! length q = Some x).
  { rewrite <- (lookup_app_l _ b) by (cbn; lia). by rewrite E, lookup_app_r, Nat.sub_diag by done. }
  apply list_elem_of_lookup_2 in Hin. apply elem_of_cons in Hin as [-> | ?]; done.
Qed.

Lemma strstr_here p s : strstr (p ++ s) p = Some (p ++ s).
Proof. destruct (p ++ s) eqn:E; cbn; rewrite <- E, has_prefix_app; done. Qed.

Lemma strstr_cons p y s : has_prefix p (y :: s) = false -> strstr (y :: s) p = strstr s p.
Proof. intros H. cbn [strstr]. by rewrite H. Qed.

Lemma until_app c a b : c ∉ a -> until c (a ++ c :: b) = a.
Proof.
  induction a as [|x a IH]; cbn [app until]; intros H.
  - by rewrite Z.eqb_refl.
  - apply not_elem_of_cons in H as [Hx H]. by rewrite (proj2 (Z.eqb_neq x c)), IH by congruence.
Qed.

Lemma strchr_none c s : c ∉ s -> strchr s c = None.
Proof.
  induction s as [|x s IH]; [done|]. intros [Hx H]%not_elem_of_cons. cbn.
  by rewrite (proj2 (Z.eqb_neq x c)), IH by congruence.
Qed.

(** ** Tokens *)

Fixpoint join (d : Z) (l : list bytes) : bytes :=
  match l with [] => [] | [t] => t | t :: ts => t ++ d :: join d ts end.

Lemma strsep_all_cons d s : exists t ts, strsep_all d s = t :: ts /\ s = join d (t :: ts) /\ Forall (fun t => d ∉ t) (t :: ts).
Proof.
  induction s as [|x s (t & ts & E & Es & Hf)]; cbn [strsep_all].
  { exists [], []. repeat split. constructor; [set_solver|constructor]. }
  destruct (Z.eqb_spec x d) as [-> | Hx].
  - exists [], (t :: ts). rewrite E. repeat split; [by rewrite Es|]. constructor; [set_solver|done].
  - rewrite E. exists (x :: t), ts. repeat split.
    + rewrite Es. by destruct ts.
    + inversion Hf; subst. constructor; [|done]. set_solver.
Qed.

Lemma strsep_all_app d a b : d ∉ a -> strsep_all d (a ++ d :: b) = a :: strsep_all d b.
Proof.
  induction a as [|x a IH]; cbn [app strsep_all]; intros H.
  - by rewrite Z.eqb_refl.
  - apply not_elem_of_cons in H as [Hx H]. by rewrite (proj2 (Z.eqb_neq x d)), IH by congruence.
Qed.

Lemma strsep_all_one d a : d ∉ a -> strsep_all d a = [a].
Proof.
  induction a as [|x a IH]; cbn [strsep_all]; [done|]. intros [Hx H]%not_elem_of_cons.
  by rewrite (proj2 (Z.eqb_neq x d)), IH by congruence.
Qed.

Lemma strsep_all_join d t ts : Forall (fun t => d ∉ t) (t :: ts) -> strsep_all d (join d (t :: ts)) = t :: ts.
Proof.
  revert t. induction ts as [|u ts IH]; intros t H; inversion H; subst.
  - by apply strsep_all_one.
  - change (join d (t :: u :: ts)) with (t ++ d :: join d (u :: ts)). by rewrite strsep_all_app, IH.
Qed.

(** [List.find] finds the first. *)
Lemma find_first {A : Type} (f : A -> bool) l c :
  List.find f l = Some c -> exists pre post, l = pre ++ c :: post /\ f c = true /\ Forall (fun d => f d = false) pre.
Proof.
  induction l as [|x l IH]; [done|]. cbn [List.find]. destruct (f x) eqn:E.
  - intros [= ->]. exists [], l. done.
  - intros H. destruct (IH H) as (pre & post & -> & Hc & Hf). exists (x :: pre), post. split; [done|]. split; [done|]. by constructor.
Qed.

(** ** Numbers *)

Lemma digits_app acc a s : Forall (fun c => is_digit c = true) a ->
  digits_val acc (a ++ s) = digits_val (digits_val acc a) s.
Proof. intros H. revert acc. induction H as [|x a Hx H IH]; intros acc; [done|]. cbn. by rewrite Hx, IH. Qed.

Lemma dec_digits_ok fuel n : 0 <= n < 10 ^ Z.of_nat fuel -> (0 < fuel)%nat ->
  Forall (fun c => is_digit c = true) (dec_digits fuel n) /\ dec_digits fuel n <> [] /\ digits_val 0 (dec_digits fuel n) = n.
Proof.
  assert (Hd : forall k, 0 <= k < 10 -> is_digit (48 + k) = true).
  { intros k Hk. unfold is_digit. apply andb_true_iff. split; apply Z.leb_le; lia. }
  revert n. induction fuel as [|fuel IH]; intros n Hn Hf; [lia|]. cbn [dec_digits].
  destruct (Z.ltb_spec n 10) as [Hl | Hl].
  { repeat split; [repeat constructor; apply Hd; lia|done|]. cbn. rewrite Hd by lia. lia. }
  rewrite Nat2Z.inj_succ, Z.pow_succ_r in Hn by lia.
  assert (Hdiv : 0 <= n / 10 < 10 ^ Z.of_nat fuel).
  { split; [apply Z.div_pos; lia|apply Z.div_lt_upper_bound; lia]. }
  assert (0 < fuel)%nat. { destruct fuel; [cbn in Hn; lia|lia]. }
  destruct (IH (n / 10)) as (Hok & _ & Hv); [lia|done|].
  pose proof (Z.mod_pos_bound n 10 ltac:(lia)).
  repeat split.
  - apply Forall_app. split; [done|]. repeat constructor. apply Hd. lia.
  - by destruct (dec_digits fuel (n / 10)).
  - rewrite digits_app, Hv by done. cbn. rewrite Hd by lia. pose proof (Z.div_mod n 10). lia.
Qed.

Lemma scan_print n s :
  0 <= n <= INT_MAX -> match s with x :: _ => is_digit x = false | [] => True end ->
  scan_d (print_d n ++ s) = Ret (Some n).
Proof.
  intros Hn Hs. unfold print_d. rewrite (proj2 (Z.ltb_ge n 0)) by lia.
  destruct (dec_digits_ok 10 n) as (Hok & Hne & Hv); [unfold INT_MAX in *; cbn; lia|lia|].
  destruct (dec_digits 10 n) as [|x l] eqn:E; [done|]. apply Forall_cons in Hok as [Hx Hl].
  assert (Hr : 48 <= x <= 57). { unfold is_digit in Hx. apply andb_true_iff in Hx as [?%Z.leb_le ?%Z.leb_le]. lia. }
  assert (Hsp : is_space x = false).
  { unfold is_space. apply orb_false_iff. split; [apply Z.eqb_neq; lia|].
    apply andb_false_iff. right. apply Z.leb_gt. lia. }
  assert (Hd : forall k, digits_val k s = k) by (intros k; destruct s; cbn; rewrite ?Hs; done).
  unfold scan_d. rewrite <- app_comm_cons. cbn [skip_space]. rewrite Hsp.
  rewrite (proj2 (Z.eqb_neq x 45)), (proj2 (Z.eqb_neq x 43)) by lia.
  rewrite Hx, app_comm_cons, digits_app, Hd, Z.mul_1_l by (by constructor).
  rewrite Hv, c_int_ok by (unfold is_int, INT_MIN in *; lia). done.
Qed.

(** ** Text in buffers *)

(** The contents [c] with a NUL behind them and room for [t] more characters. *)
Definition text_buf (b : buffer) (h : Z) (c : bytes) (t : Z) : Prop :=
  exists pre post, buf_split b pre c (0 :: post) /\ h = Zlen pre /\ t = Zlen post.

Lemma text_buf_repr b h c t : text_buf b h c t -> buf_repr b h c (t + 1).
Proof. intros (pre & post & H & -> & ->). exists pre, (0 :: post). rewrite Zlen_cons. split; [done|lia]. Qed.

Lemma text_buf_room b h c t : text_buf b h c t -> 0 <= t.
Proof. intros (pre & post & _ & _ & ->). apply Zlen_nonneg. Qed.

Lemma buf_str_text b h c t : text_buf b h c t -> 0 ∉ c -> buf_str b = Ret c.
Proof.
  intros (pre & post & (Hd & Ho & _) & _) Hc. unfold buf_str. rewrite Hd, Ho, to_nat_Zlen, drop_app_length.
  rewrite bool_decide_eq_true_2 by set_solver. by rewrite until_app.
Qed.

(** The stores of [buf_printf] and [buf_puts]: the text, then a NUL at the end of the object. *)
Lemma text_stores b pre c old r out :
  buf_split b pre c (old ++ r) -> bytes_ok out -> Zlen (out ++ [0]) = Zlen old ->
  exists r' d, (let! d := buf_poke b (b_offset b + b_len b) (out ++ [0]) in buf_poke d (b_capacity b - 1) [0]) = Ret d
    /\ Zlen r' = Zlen r /\ buf_split (set_window d (b_offset d) (b_len d + Zlen out)) pre (c ++ out) (0 :: r').
Proof.
  intros (Hd & Ho & Hl & Hc & Hm & O1 & O2 & O3) Hok Hlen. rewrite app_assoc in Hd.
  rewrite Ho, Hl, <- Zlen_app, (buf_poke_split b (pre ++ c) old r (out ++ [0]) Hd) by done. cbn [res_bind].
  apply bytes_ok_app in O3 as [_ O3]. rewrite !Zlen_app in Hc. rewrite Zlen_app in Hlen. change (Zlen [0]) with 1 in Hlen.
  assert (exists r', Zlen r' = Zlen r /\ bytes_ok r' /\ exists x z, (pre ++ c) ++ (out ++ [0]) ++ r = x ++ [z]
            /\ (pre ++ c) ++ out ++ 0 :: r' = x ++ [0]) as (r' & Hr' & Or' & x & z & Hx & Hx').
  { destruct (decide (r = [])) as [-> | Hr].
    - exists []. repeat split; [constructor|]. exists ((pre ++ c) ++ out), 0. rewrite app_nil_r, !app_assoc. done.
    - destruct (exists_last Hr) as (y & z & ->). apply bytes_ok_app in O3 as [O3 _].
      exists (y ++ [0]). rewrite !Zlen_app. split; [done|]. split; [apply bytes_ok_app; split; [done|by repeat constructor]|].
      exists ((pre ++ c) ++ out ++ 0 :: y), z. rewrite <- !app_assoc. done. }
  assert (Hcap : b_capacity b - 1 = Zlen x).
  { apply (f_equal Zlen) in Hx. rewrite !Zlen_app in Hx. change (Zlen [_]) with 1 in Hx at 2. change (Zlen [0]) with 1 in Hx. lia. }
  rewrite Hcap, (buf_poke_split _ x [z] [] [0]); [|by rewrite app_nil_r; cbn; rewrite Hx|done].
  exists r'. eexists. split; [reflexivity|]. split; [done|].
  unfold buf_split, set_data, set_window; cbn. rewrite <- Hx', <- !app_assoc.
  repeat split; try done; rewrite ?Zlen_app, ?Zlen_cons in *; try lia.
  - apply bytes_ok_app. done.
  - constructor; [done|exact Or'].
Qed.

Lemma buf_printf_text b h c t text :
  text_buf b h c t -> bytes_ok text ->
  exists b', buf_printf b text = Ret (Zlen text <=? t, b')
    /\ text_buf b' h (c ++ take (Z.to_nat t) text) (t - Zlen (take (Z.to_nat t) text)).
Proof.
  intros Hb Hok. pose proof (text_buf_repr _ _ _ _ Hb) as Hr. unfold buf_printf.
  destruct (buf_repr_valid _ _ _ _ Hr) as [_ ->]. rewrite (buf_forward_capacity_repr _ _ _ _ Hr).
  destruct Hb as (pre & post & Hs & -> & ->). pose proof (Zlen_nonneg post).
  rewrite (proj2 (Z.ltb_lt 0 _)) by lia. replace (Zlen post + 1 - 1) with (Zlen post) by lia.
  set (out := take _ text). assert (Ho : 0 <= Zlen out <= Zlen post).
  { subst out. unfold Zlen in *. rewrite length_take. lia. }
  destruct (split_at (0 :: post) (Zlen out + 1)) as (old & r & E & L1 & L2 & _); [rewrite Zlen_cons; lia|].
  rewrite E in Hs. rewrite Zlen_cons in L2.
  destruct (text_stores b pre c old r out Hs) as (r' & d & Hp & Hr' & Hd).
  { apply Forall_take. done. } { rewrite Zlen_app. change (Zlen [0]) with 1. lia. }
  rewrite <- res_bind_assoc, Hp. cbn [res_bind]. eexists. split.
  { f_equal. f_equal. destruct (Z.leb_spec (Zlen text) (Zlen post)); [apply Z.ltb_lt|apply Z.ltb_ge]; lia. }
  exists pre, r'. split; [done|]. split; [done|lia].
Qed.

Lemma buf_puts_text b h c t text :
  text_buf b h c t -> bytes_ok text ->
  exists b', buf_puts b text = Ret (true, b')
    /\ text_buf b' h (c ++ take (Z.to_nat t) text) (t - Zlen (take (Z.to_nat t) text)).
Proof.
  intros Hb Hok. pose proof (text_buf_repr _ _ _ _ Hb) as Hr. unfold buf_puts.
  rewrite (buf_forward_capacity_repr _ _ _ _ Hr).
  destruct Hb as (pre & post & (Hd & Ho & Hl & Hc & Hm & O1 & O2 & O3) & -> & ->). pose proof (Zlen_nonneg post).
  rewrite (proj2 (Z.ltb_lt 0 _)) by lia. replace (Zlen post + 1 - 1) with (Zlen post) by lia.
  set (out := take _ text). assert (Hout : 0 <= Zlen out <= Zlen post).
  { subst out. unfold Zlen in *. rewrite length_take. lia. }
  set (rest := replicate (Z.to_nat (Zlen post - Zlen out)) 0).
  assert (Hfill : replicate (Z.to_nat (Zlen post + 1 - Zlen out)) 0 = rest ++ [0]).
  { subst rest. rewrite <- replicate_S_end. f_equal. lia. }
  assert (Hrest : Zlen rest = Zlen post - Zlen out).
  { subst rest. unfold Zlen at 1. rewrite length_replicate. lia. }
  rewrite Hfill, Ho, Hl, <- Zlen_app.
  rewrite (buf_poke_split b (pre ++ c) (0 :: post) [] (out ++ rest ++ [0])).
  2:{ by rewrite app_nil_r, <- app_assoc. }
  2:{ rewrite !Zlen_app, (Zlen_cons 0 post). change (Zlen [0]) with 1. lia. }
  cbn [res_bind].
  replace (b_capacity b - 1) with (Zlen ((pre ++ c) ++ out ++ rest)) by (rewrite !Zlen_app; rewrite Zlen_cons in Hc; lia).
  rewrite (buf_poke_split _ ((pre ++ c) ++ out ++ rest) [0] [] [0]); [|cbn; by rewrite app_nil_r, <- !app_assoc|done].
  cbn [res_bind]. eexists. split; [reflexivity|]. exists pre, rest. unfold buf_split, set_window, set_data; cbn.
  assert (Hz : 0 :: rest = rest ++ [0]). { subst rest. by rewrite <- replicate_S_end, <- replicate_S. }
  rewrite Hz, <- !app_assoc, !Zlen_app. change (Zlen [0]) with 1. rewrite Zlen_cons in Hc.
  assert (bytes_ok (rest ++ [0])).
  { rewrite <- Hz. subst rest. rewrite <- replicate_S. apply Forall_replicate. unfold is_u8. lia. }
  assert (bytes_ok out) by (by apply Forall_take).
  repeat split; try done; try lia. by apply bytes_ok_app.
Qed.

Lemma print_text b h c t text :
  text_buf b h c t -> bytes_ok text ->
  exists b', print b text = Ret b' /\ text_buf b' h (c ++ take (Z.to_nat t) text) (t - Zlen (take (Z.to_nat t) text)).
Proof. intros Hb Hok. destruct (buf_printf_text b h c t text Hb Hok) as (b' & E & H). unfold print. rewrite E. eauto. Qed.

(** What a sequence of prints has put out, of which the first [n] characters are there. *)
Definition printed (n : Z) (b : buffer) (s : bytes) : Prop :=
  text_buf b 0 (take (Z.to_nat n) s) (n - Zlen (take (Z.to_nat n) s)).

Lemma printed_more n b s text :
  0 <= n -> printed n b s -> bytes_ok text -> exists b', print b text = Ret b' /\ printed n b' (s ++ text).
Proof.
  intros Hn Hb Hok. destruct (print_text _ _ _ _ text Hb Hok) as (b' & E & H). exists b'. split; [done|].
  unfold printed. rewrite take_app.
  replace (Z.to_nat n - length s)%nat with (Z.to_nat (n - Zlen (take (Z.to_nat n) s))).
  2:{ unfold Zlen. rewrite length_take. lia. }
  rewrite Zlen_app. by rewrite Z.sub_add_distr.
Qed.

Lemma alloc_printed junk :
  bytes_ok junk -> 0 < Zlen junk < BUF_SIZE_MAX -> exists b, alloc_buf_gc junk = Ret b /\ printed (Zlen junk - 1) b [].
Proof.
  intros Hok Hl. destruct junk as [|x junk]; [change (Zlen (@nil Z)) with 0 in Hl; lia|]. unfold alloc_buf_gc.
  unfold buf_size_valid. rewrite (proj2 (Z.ltb_lt _ _)), (proj2 (Z.eqb_neq _ 0)) by lia. cbn [negb].
  unfold arr_set. cbn [Z.leb Z.compare andb]. rewrite (proj2 (Z.ltb_lt 0 _)) by lia.
  eexists. split; [reflexivity|]. inversion Hok; subst. rewrite Zlen_cons in *.
  exists [], junk. unfold buf_split. rewrite take_nil. cbn [b_data b_offset b_len b_capacity app].
  change (Zlen (@nil Z)) with 0. rewrite Zlen_cons.
  assert (bytes_ok (0 :: junk)) by (constructor; [unfold is_u8; lia|done]).
  repeat split; try done; try lia; constructor.
Qed.
