(* ===== verification/Ncp.v ===== *)
(** * Negotiation of the data channel (ssl_ncp.c, ssl_util.c, push_peer_info of ssl.c)

    The lists of data channel ciphers, the information a peer announces about itself, and the
    choice of the cipher and of the packet format from it: by the server of many clients, and
    by two peers that choose alike without another message. *)

From Stdlib Require Import String.
From S2P Require Import Prelude CircList Buffer PacketId KeyCtx SampleLib Text.
#[local] Open Scope Z_scope.

Definition MAX_NCP_CIPHERS_LENGTH : Z := 127.
Definition IV_PROTO_DATA_V2 : Z := Z.shiftl 1 1.
Definition IV_PROTO_REQUEST_PUSH : Z := Z.shiftl 1 2.
Definition IV_PROTO_TLS_KEY_EXPORT : Z := Z.shiftl 1 3.
Definition IV_PROTO_AUTH_PENDING_KW : Z := Z.shiftl 1 4.
Definition IV_PROTO_NCP_P2P : Z := Z.shiftl 1 5.
Definition IV_PROTO_CC_EXIT_NOTIFY : Z := Z.shiftl 1 7.
Definition IV_PROTO_AUTH_FAIL_TEMP : Z := Z.shiftl 1 8.
Definition IV_PROTO_DYN_TLS_CRYPT : Z := Z.shiftl 1 9.
Definition IV_PROTO_DATA_EPOCH : Z := Z.shiftl 1 10.
Definition IV_PROTO_DNS_OPTION_V2 : Z := Z.shiftl 1 11.
Definition CO_USE_TLS_KEY_MATERIAL_EXPORT : Z := Z.shiftl 1 3.
Definition CO_USE_CC_EXIT_NOTIFY : Z := Z.shiftl 1 6.
Definition CO_USE_DYNAMIC_TLS_CRYPT : Z := Z.shiftl 1 7.
Definition EXPORT_P2P_PEERID_LABEL : bytes := str "EXPORTER-OpenVPN-p2p-peerid".
Definition COMP_F_ADVERTISE_STUBS_ONLY : Z := Z.shiftl 1 3.
Definition COMP_F_ALLOW_NOCOMP_ONLY : Z := Z.shiftl 1 7.

(** [x & flag] as a condition. *)
Definition flag_set (x flag : Z) : bool := negb (Z.land x flag =? 0).

Section Ncp.
Context {cipher_ctx hmac_ctx : Type} `{CL : CryptoLib cipher_ctx hmac_ctx}.

(** ** Variables of the peer information *)
Definition extract_var_peer_info (peer_info : option bytes) (var : bytes) : option bytes :=
  pi ← peer_info; s ← strstr pi var; Some (until 10 (drop (length var) s)).

(** [sscanf (strstr (peer_info, lit), lit "%d", &x)] *)
Definition peer_info_int (peer_info : option bytes) (lit : bytes) : res (option Z) :=
  match pi ← peer_info; strstr pi lit with
  | Some s => sscanf_d lit s
  | None => Ret None
  end.
Definition extract_iv_proto (peer_info : option bytes) : res Z :=
  let! r := peer_info_int peer_info (str "IV_PROTO=") in
  Ret (match r with Some proto => if 0 <? proto then proto else 0 | None => 0 end).
Definition tls_peer_info_ncp_ver (peer_info : option bytes) : res Z :=
  let! r := peer_info_int peer_info (str "IV_NCP=") in Ret (default 0 r).

Definition tls_peer_supports_ncp (peer_info : option bytes) : res bool :=
  match peer_info with
  | None => Ret false
  | Some pi =>
      let! v := tls_peer_info_ncp_ver peer_info in
      Ret ((2 <=? v) || bool_decide (is_Some (strstr pi (str "IV_CIPHERS="))))
  end.

(** ** Lists of ciphers *)
Definition tls_item_in_cipher_list (item list : bytes) : bool := existsb (streq item) (strtok_all 58 list).

(** One token: the new list and whether there is an error. *)
Definition mutate_token (token : bytes) (new_list : buffer) (error_found : bool) : res (buffer * bool) :=
  let optional := has_prefix (str "?") token in
  let token := if optional then drop 1 token else token in
  let nonecipher := streq token (str "none") in
  if negb nonecipher && negb (cipher_valid token) then Ret (new_list, error_found || negb optional)
  else if negb nonecipher && negb (cipher_kt_mode_aead token) && negb (cipher_kt_mode_cbc token)
          && negb (cipher_kt_mode_ofb_cfb token) then Ret (new_list, error_found || negb optional)
  else
    let ovpn_cipher_name := if nonecipher then str "none" else cipher_kt_name token in
    let! new_list := (if 0 <? buf_len new_list
                      then let! (_, b) := buf_puts new_list (str ":") in Ret b else Ret new_list) in
    if negb (Zlen ovpn_cipher_name + 2 <? buf_forward_capacity new_list) then Ret (new_list, true)
    else let! (_, b) := buf_puts new_list ovpn_cipher_name in Ret (b, error_found).
Fixpoint mutate_loop (tokens : list bytes) (new_list : buffer) (error_found : bool) : res (buffer * bool) :=
  match tokens with
  | [] => Ret (new_list, error_found)
  | token :: tokens => let! (b, e) := mutate_token token new_list error_found in mutate_loop tokens b e
  end.
Definition mutate_ncp_cipher_list (list : bytes) : res (option bytes) :=
  let! new_list := alloc_buf MAX_NCP_CIPHERS_LENGTH in
  let! (new_list, error_found) := mutate_loop (strtok_all 58 list) new_list false in
  if negb error_found && (0 <? buf_len new_list) then
    let! new_list := buf_null_terminate new_list in
    let! s := buf_str new_list in Ret (Some s)
  else Ret None.

(** The options that concern ciphers; a string may be NULL before the defaults are set. *)
Record cipher_options : Type := mk_copt {
  ciphername : bytes;
  ncp_ciphers : option bytes;
  ncp_ciphers_conf : option bytes;
  enable_ncp_fallback : bool
}.
Definition set_ciphername (o : cipher_options) (c : bytes) : cipher_options :=
  mk_copt c (ncp_ciphers o) (ncp_ciphers_conf o) (enable_ncp_fallback o).
Definition set_ncp_ciphers (o : cipher_options) (l : option bytes) : cipher_options :=
  mk_copt (ciphername o) l (ncp_ciphers_conf o) (enable_ncp_fallback o).
Definition set_ncp_conf (o : cipher_options) (l : option bytes) : cipher_options :=
  mk_copt (ciphername o) (ncp_ciphers o) l (enable_ncp_fallback o).

(** Reading a string through a pointer that is NULL is undefined. *)
Definition deref_str (s : option bytes) : res bytes := match s with Some s => Ret s | None => UB end.

(** The block has the length of the result and its NUL. *)
Definition append_cipher_to_ncp_list (o : cipher_options) (c : bytes) : res cipher_options :=
  let! l := deref_str (ncp_ciphers o) in Ret (set_ncp_ciphers o (Some (l ++ str ":" ++ c))).

(** The buffer has the exact length of the new list; what does not fit is not written. *)
Definition replace_default_in_ncp_ciphers_option (o : cipher_options) (replace : bytes) : res cipher_options :=
  let search := str "DEFAULT" in
  let! l := deref_str (ncp_ciphers o) in
  let! def := deref_str (strstr l search) in
  let! buf := buf_set_write (Some (repeat 0 (length l + length replace - length search + 1)%nat))
                (Zlen l + Zlen replace - Zlen search + 1) in
  let! (_, buf) := buf_write buf (take (length l - length def) l) in
  let! (_, buf) := buf_write buf replace in
  let! (_, buf) := buf_write buf (drop (length search) def) in
  let! s := buf_str buf in
  Ret (set_ncp_ciphers o (Some s)).

(** [dco_chacha]: what the offload driver supports, if it is used. *)
Definition options_postprocess_setdefault_ncpciphers (dco_chacha : option bytes) (o : cipher_options) : res cipher_options :=
  let default_in_cipher_list :=
    match ncp_ciphers o with Some l => tls_item_in_cipher_list (str "DEFAULT") l | None => false end in
  let o := set_ncp_conf o (ncp_ciphers o) in
  let can_do_chacha := cipher_valid (str "CHACHA20-POLY1305") in
  let can_do_chacha := match dco_chacha with
                       | Some l => if can_do_chacha then tls_item_in_cipher_list (str "CHACHA20-POLY1305") l else false
                       | None => can_do_chacha
                       end in
  let default_ciphers := if can_do_chacha then str "AES-256-GCM:AES-128-GCM:CHACHA20-POLY1305"
                         else str "AES-256-GCM:AES-128-GCM" in
  if match ncp_ciphers_conf o with None => true | Some l => streq default_ciphers l end
  then Ret (set_ncp_conf (set_ncp_ciphers o (Some default_ciphers)) (Some (str "DEFAULT")))
  else if negb default_in_cipher_list then Ret o
  else replace_default_in_ncp_ciphers_option o default_ciphers.

Definition ncp_expanded_ciphers (o : cipher_options) : res bytes :=
  let! l := deref_str (ncp_ciphers o) in
  let! conf := deref_str (ncp_ciphers_conf o) in
  Ret (if streq l conf then [] else str " (" ++ l ++ str ")").

(** ** The server's choice *)
Definition tls_peer_ncp_list (peer_info : option bytes) : res bytes :=
  match extract_var_peer_info peer_info (str "IV_CIPHERS=") with
  | Some iv_ciphers => Ret iv_ciphers
  | None =>
      let! v := tls_peer_info_ncp_ver peer_info in
      Ret (if 2 <=? v then str "AES-256-GCM:AES-128-GCM" else [])
  end.

Definition announces_ciphers (peer_info : option bytes) : bool :=
  match pi ← peer_info; strstr pi (str "IV_CIPHERS=") with Some _ => true | None => false end.

Definition ncp_get_best_cipher (server_list : bytes) (peer_info remote_cipher : option bytes) : res (option bytes) :=
  let! peer_ncp_list := tls_peer_ncp_list peer_info in
  let remote_cipher := match remote_cipher with
                       | None => []
                       | Some c => if announces_ciphers peer_info then [] else c
                       end in
  Ret (List.find (fun token => tls_item_in_cipher_list token peer_ncp_list || streq token remote_cipher)
         (strsep_all 58 server_list)).

Definition tls_poor_mans_ncp (o : cipher_options) (remote_ciphername : option bytes) : res (bool * cipher_options) :=
  match remote_ciphername with
  | Some r =>
      let! l := deref_str (ncp_ciphers o) in
      if tls_item_in_cipher_list r l then Ret (true, set_ciphername o r) else Ret (false, o)
  | None => Ret (false, o)
  end.

(** [found]: whether the server pushed a cipher. *)
Definition check_pull_client_ncp (o : cipher_options) (remote_ciphername : option bytes) (found : bool)
  : res (bool * cipher_options) :=
  if found then Ret (true, o)
  else
    let! (ok, o) := tls_poor_mans_ncp o remote_ciphername in
    if ok then Ret (true, o)
    else Ret (match remote_ciphername with None => enable_ncp_fallback o | Some _ => false end, o).

Definition check_session_cipher (server : bool) (config_ciphername : bytes) (o : cipher_options) : res (bool * cipher_options) :=
  let cipher_allowed_as_fallback := enable_ncp_fallback o && streq (ciphername o) config_ciphername in
  if negb server && negb cipher_allowed_as_fallback then
    let! l := deref_str (ncp_ciphers o) in
    if negb (tls_item_in_cipher_list (ciphername o) l) then Ret (false, set_ciphername o config_ciphername)
    else Ret (true, o)
  else Ret (true, o).

(** ** Two peers *)

(** What the peer-to-peer negotiation sets in [tls_multi] and its options. *)
Record p2p_opts : Type := mk_p2p { p2p_crypto_flags : Z; p2p_use_peer_id : bool; p2p_peer_id : Z }.

Definition get_p2p_ncp_cipher (server : bool) (config_ncp_ciphers : bytes) (peer_info : option bytes) : option bytes :=
  match extract_var_peer_info peer_info (str "IV_CIPHERS=") with
  | None => None
  | Some peer_ciphers =>
      let '(server_ciphers, client_ciphers) :=
        if server then (config_ncp_ciphers, peer_ciphers) else (peer_ciphers, config_ncp_ciphers) in
      List.find (fun token => tls_item_in_cipher_list token client_ciphers) (strsep_all 58 server_ciphers)
  end.

(** [ekm]: the keying material exporter of the TLS session, label and length. *)
Definition p2p_ncp_set_options (ekm : bytes -> Z -> option bytes) (peer_info : option bytes) (data_epoch_supported : bool)
    (common_cipher : option bytes) (p : p2p_opts) : res p2p_opts :=
  let! iv_proto_peer := extract_iv_proto peer_info in
  if negb (flag_set iv_proto_peer IV_PROTO_NCP_P2P) then Ret p
  else
    let '(use_peer_id, peer_id) := if flag_set iv_proto_peer IV_PROTO_DATA_V2 then (true, 0x76706e)
                                   else (p2p_use_peer_id p, p2p_peer_id p) in
    let flags := p2p_crypto_flags p in
    let flags := if flag_set iv_proto_peer IV_PROTO_CC_EXIT_NOTIFY then Z.lor flags CO_USE_CC_EXIT_NOTIFY else flags in
    let flags := if data_epoch_supported && flag_set iv_proto_peer IV_PROTO_DATA_EPOCH
                    && match common_cipher with Some c => cipher_kt_mode_aead c | None => false end
                 then Z.lor flags CO_EPOCH_DATA_KEY_FORMAT
                 else Z.ldiff flags CO_EPOCH_DATA_KEY_FORMAT in
    let! (flags, peer_id) :=
      (if flag_set iv_proto_peer IV_PROTO_TLS_KEY_EXPORT then
         let flags := Z.lor flags CO_USE_TLS_KEY_MATERIAL_EXPORT in
         if use_peer_id then
           match ekm EXPORT_P2P_PEERID_LABEL 3 with
           | None => Ret (flags, peer_id)
           | Some l =>
               let! p0 := arr_get l 0 in
               let! p1 := arr_get l 1 in
               let! p2 := arr_get l 2 in
               Ret (flags, Z.shiftl p0 16 + Z.shiftl p1 8 + p2)
           end
         else Ret (flags, peer_id)
       else Ret (flags, peer_id)) in
    let flags := if flag_set iv_proto_peer IV_PROTO_DYN_TLS_CRYPT then Z.lor flags CO_USE_DYNAMIC_TLS_CRYPT else flags in
    Ret (mk_p2p flags use_peer_id peer_id).

(** The rest of the function writes a message. *)
Definition p2p_mode_ncp (ekm : bytes -> Z -> option bytes) (server : bool) (config_ncp_ciphers : bytes)
    (peer_info : option bytes) (data_epoch_supported : bool) (p : p2p_opts) : res p2p_opts :=
  p2p_ncp_set_options ekm peer_info data_epoch_supported (get_p2p_ncp_cipher server config_ncp_ciphers peer_info) p.

(** ** What a peer announces *)

(** The parts of the build and of the system that show in the announcement. *)
Record host_info : Type := mk_host {
  package_version : bytes;
  platform : option bytes;
  enable_lz4 : bool;
  enable_lzo : bool;
  hwaddr : option bytes;
  ssl_version : bytes;
  plat_ver : bytes;
  env_strings : list bytes;
  info_block : bytes
}.
(** What [push_peer_info] reads of [struct tls_options]. *)
Record info_options : Type := mk_iopt {
  io_detail : Z;
  io_pull : bool;
  io_mode_server : bool;
  io_ncp_ciphers : bytes;
  io_data_epoch_supported : bool;
  io_tun_max_mtu : Z;
  io_comp_flags : Z
}.

Definition print_if (c : bool) (buf : buffer) (text : bytes) : res buffer := if c then print buf text else Ret buf.

Definition comp_generate_peer_info_string (h : host_info) (flags : Z) (out : buffer) : res buffer :=
  if flag_set flags COMP_F_ALLOW_NOCOMP_ONLY then Ret out
  else
    let full := negb (flag_set flags COMP_F_ADVERTISE_STUBS_ONLY) in
    let! out := print_if (full && enable_lz4 h) out (str "IV_LZ4=1" ++ [10]) in
    let! out := print_if (full && enable_lz4 h) out (str "IV_LZ4v2=1" ++ [10]) in
    let! out := print_if (full && enable_lzo h) out (str "IV_LZO=1" ++ [10]) in
    let! out := print_if (negb (full && enable_lzo h)) out (str "IV_LZO_STUB=1" ++ [10]) in
    let! out := print out (str "IV_COMP_STUB=1" ++ [10]) in
    print out (str "IV_COMP_STUBv2=1" ++ [10]).

Definition hex_digit (n : Z) : Z := if n <? 10 then 48 + n else 87 + n.
(** [format_hex_ex (hwaddr, 6, 0, 1, ":", gc)] *)
Definition format_hwaddr (l : bytes) : bytes := join 58 (map (fun b => [hex_digit (b / 16); hex_digit (b mod 16)]) l).

Fixpoint push_env (detail : Z) (es : list bytes) (out : buffer) : res buffer :=
  match es with
  | [] => Ret out
  | e :: es =>
      let wanted := ((has_prefix (str "UV_") e || has_prefix (str "IV_PLAT_VER=") e) && (2 <? detail))
                    || has_prefix (str "IV_GUI_VER=") e || has_prefix (str "IV_SSO=") e in
      let! out := print_if (wanted && buf_safe out (Zlen e + 1)) out (e ++ [10]) in
      push_env detail es out
  end.

Definition iv_proto (o : info_options) : Z :=
  let p := Z.lor (Z.lor IV_PROTO_DATA_V2 IV_PROTO_DNS_OPTION_V2) IV_PROTO_CC_EXIT_NOTIFY in
  let p := if io_pull o
           then Z.lor (Z.lor (Z.lor p IV_PROTO_REQUEST_PUSH) IV_PROTO_AUTH_PENDING_KW) IV_PROTO_AUTH_FAIL_TEMP else p in
  let p := if io_mode_server o || io_pull o then p else Z.lor p IV_PROTO_NCP_P2P in
  let p := if io_data_epoch_supported o then Z.lor p IV_PROTO_DATA_EPOCH else p in
  Z.lor (Z.lor p IV_PROTO_TLS_KEY_EXPORT) IV_PROTO_DYN_TLS_CRYPT.

(** [if (push_peer_info_detail > 1)]: version and platform. *)
Definition info_version (h : host_info) (o : info_options) (out : buffer) : res buffer :=
  let! out := print_if (1 <? io_detail o) out (str "IV_VER=" ++ package_version h ++ [10]) in
  let! out := match platform h with
              | Some p => print_if (1 <? io_detail o) out (str "IV_PLAT=" ++ p ++ [10])
              | None => Ret out
              end in
  print_if (1 <? io_detail o) out (str "IV_TCPNL=1" ++ [10]).
(** Up to the ciphers. *)
Definition info_ciphers (o : info_options) (out : buffer) : res buffer :=
  let! out := print_if (io_pull o) out (str "IV_MTU=" ++ print_d (io_tun_max_mtu o) ++ [10]) in
  let! out := print_if ((io_mode_server o || io_pull o)
                        && tls_item_in_cipher_list (str "AES-128-GCM") (io_ncp_ciphers o)
                        && tls_item_in_cipher_list (str "AES-256-GCM") (io_ncp_ciphers o)) out (str "IV_NCP=2" ++ [10]) in
  print out (str "IV_CIPHERS=" ++ io_ncp_ciphers o ++ [10]).
(** What follows the protocol flags. *)
Definition info_system (h : host_info) (o : info_options) (out : buffer) : res buffer :=
  let detail := io_detail o in
  let! out := (if 1 <? detail then comp_generate_peer_info_string h (io_comp_flags o) out else Ret out) in
  let! out := match hwaddr h with
              | Some a => print_if (2 <? detail) out (str "IV_HWADDR=" ++ format_hwaddr a ++ [10])
              | None => Ret out
              end in
  let! out := print_if (2 <? detail) out (str "IV_SSL=" ++ ssl_version h ++ [10]) in
  let! out := print_if (2 <? detail) out (str "IV_PLAT_VER=" ++ plat_ver h ++ [10]) in
  if 1 <? detail then push_env detail (env_strings h) out else Ret out.

(** The text for the detail level; none at level 0. *)
Definition peer_info_text (h : host_info) (o : info_options) : res (option bytes) :=
  let! out := alloc_buf_gc (info_block h) in
  let! out := info_version h o out in
  if 0 <? io_detail o then
    let! out := info_ciphers o out in
    let! out := print out (str "IV_PROTO=" ++ print_d (iv_proto o) ++ [10]) in
    let! out := info_system h o out in
    let! s := buf_str out in Ret (Some s)
  else Ret None.

(** ** Printing *)

(** Text that a C string can hold. *)
Definition ctext (l : bytes) : Prop := bytes_ok l /\ (0 ∉ l).
Lemma ctext_app a b : ctext a -> ctext b -> ctext (a ++ b).
Proof. intros [? ?] [? ?]. split; [by apply bytes_ok_app|]. rewrite not_elem_of_app. done. Qed.
Lemma ctext_nil : ctext [].
Proof. split; [constructor|set_solver]. Qed.

(** A step that prints a text, as far as it fits. *)
Definition prints (n : Z) (f : buffer -> res buffer) (text : bytes) : Prop :=
  ctext text /\ forall b s, printed n b s -> exists b', f b = Ret b' /\ printed n b' (s ++ text).

Lemma prints_nothing n : prints n Ret [].
Proof. split; [apply ctext_nil|]. intros b s Hb. exists b. by rewrite app_nil_r. Qed.

Lemma prints_print n text : 0 <= n -> ctext text -> prints n (fun b => print b text) text.
Proof. intros Hn [Ht H0]. split; [done|]. intros b s Hb. by apply printed_more. Qed.

Lemma prints_if n (c : bool) text : 0 <= n -> (c = true -> ctext text) -> prints n (fun b => print_if c b text) (if c then text else []).
Proof. intros Hn Ht. destruct c; [by apply prints_print, Ht|apply prints_nothing]. Qed.

Lemma prints_bind n f g t u : prints n f t -> prints n g u -> prints n (fun b => let! b := f b in g b) (t ++ u).
Proof.
  intros [Ht Hf] [Hu Hg]. split; [by apply ctext_app|]. intros b s Hb. destruct (Hf b s Hb) as (b1 & -> & H1).
  rewrite app_assoc. by apply Hg.
Qed.

Lemma prints_case n (o : option bytes) (f : bytes -> buffer -> res buffer) text :
  (forall q, o = Some q -> prints n (f q) (text q)) ->
  prints n (fun b => match o with Some q => f q b | None => Ret b end) (match o with Some q => text q | None => [] end).
Proof. intros H. destruct o as [q|]; [by apply H|apply prints_nothing]. Qed.

Lemma comp_prints n h flags : 0 <= n -> exists text, prints n (comp_generate_peer_info_string h flags) text.
Proof.
  intros Hn. unfold comp_generate_peer_info_string. destruct (flag_set _ _); [eexists; apply prints_nothing|]. eexists.
  repeat (apply prints_bind; [apply prints_if; [done|intros _; split; by_eval]|]).
  apply prints_bind; apply prints_print; try done; split; by_eval.
Qed.

Lemma env_prints n detail es : 0 <= n -> Forall ctext es ->
  forall b s, printed n b s -> exists b' text, push_env detail es b = Ret b' /\ ctext text /\ printed n b' (s ++ text).
Proof.
  intros Hn. induction 1 as [|e es He _ IH]; cbn [push_env]; intros b s Hb.
  { exists b, []. rewrite app_nil_r. split; [done|]. split; [apply ctext_nil|done]. }
  set (c := _ && _). destruct (prints_if n c (e ++ [10]) Hn) as [Ht Hp].
  { intros _. apply ctext_app; [done|split; by_eval]. }
  destruct (Hp b s Hb) as (b1 & -> & H1). destruct (IH b1 _ H1) as (b2 & t & E & Ht2 & H2).
  exists b2, ((if c then e ++ [10] else []) ++ t). cbn [res_bind]. rewrite app_assoc.
  split; [done|]. split; [by apply ctext_app|done].
Qed.

(** ** Two peers choose alike *)

(** A list of ciphers as it is announced: it fits, and no byte of it looks like the end of the
    line or of a name. *)
Record cipher_list (l : bytes) : Prop := {
  cl_bytes : bytes_ok l;
  cl_plain : (0 ∉ l) /\ (10 ∉ l) /\ (61 ∉ l);
  cl_short : Zlen l <= 1400
}.
(** A peer in the peer-to-peer mode, which announces the minimum. *)
Record p2p_peer (h : host_info) (o : info_options) : Prop := {
  pp_detail : io_detail o = 1;
  pp_mode : io_pull o = false /\ io_mode_server o = false;
  pp_list : cipher_list (io_ncp_ciphers o);
  pp_block : bytes_ok (info_block h) /\ Zlen (info_block h) = 512 * 3
}.
Definition p2p_proto (epoch : bool) : Z := if epoch then 3754 else 2730.
Definition info_line (name v : bytes) : bytes := name ++ v ++ [10].
Definition p2p_info (o : info_options) : bytes :=
  info_line (str "IV_CIPHERS=") (io_ncp_ciphers o)
  ++ info_line (str "IV_PROTO=") (print_d (p2p_proto (io_data_epoch_supported o))).

Lemma p2p_prints n h o : 0 <= n -> p2p_peer h o ->
  prints n (fun b => let! b := info_ciphers o b in
                     let! b := print b (str "IV_PROTO=" ++ print_d (iv_proto o) ++ [10]) in info_system h o b) (p2p_info o).
Proof.
  intros Hn [Hd [Hp Hm] [Hok (H0 & _) _] _]. unfold p2p_info.
  replace (p2p_proto (io_data_epoch_supported o)) with (iv_proto o).
  2:{ unfold iv_proto, p2p_proto. rewrite Hp, Hm. by destruct (io_data_epoch_supported o). }
  assert (Hs : ctext (str "IV_PROTO=" ++ print_d (iv_proto o) ++ [10])).
  { unfold iv_proto. rewrite Hp, Hm. destruct (io_data_epoch_supported o); split; by_eval. }
  unfold info_ciphers, info_system. rewrite Hd, Hp, Hm. cbn [print_if orb andb res_bind].
  change (1 <? 1) with false. change (2 <? 1) with false. cbn [print_if res_bind].
  apply prints_bind.
  - apply prints_print; [done|]. apply ctext_app; [split; by_eval|]. apply ctext_app; [done|split; by_eval].
  - rewrite <- (app_nil_r (info_line _ _)). apply prints_bind; [by apply prints_print|].
    destruct (hwaddr h); apply prints_nothing.
Qed.

Lemma alloc_info h :
  bytes_ok (info_block h) -> Zlen (info_block h) = 512 * 3 -> exists b, alloc_buf_gc (info_block h) = Ret b /\ printed 1535 b [].
Proof. intros Hb Hl. destruct (alloc_printed (info_block h)) as (b & E & H); [done|unfold BUF_SIZE_MAX; lia|]. rewrite Hl in H. eauto. Qed.

Lemma p2p_info_length o : cipher_list (io_ncp_ciphers o) -> Zlen (p2p_info o) <= 1426.
Proof.
  intros [_ _ Hs]. assert (Zlen (print_d (p2p_proto (io_data_epoch_supported o))) = 4) by (by destruct (io_data_epoch_supported o)).
  unfold p2p_info, info_line. rewrite !Zlen_app. change (Zlen (str "IV_CIPHERS=")) with 11.
  change (Zlen (str "IV_PROTO=")) with 9. change (Zlen [10]) with 1. lia.
Qed.

Lemma p2p_info_text h o : p2p_peer h o -> peer_info_text h o = Ret (Some (p2p_info o)).
Proof.
  intros Hpeer. pose proof Hpeer as [Hd [Hp Hm] Hl [Hb Hbl]]. destruct (alloc_info h Hb Hbl) as (b0 & E & Hb0).
  unfold peer_info_text, info_version. rewrite E, Hd. change (1 <? 1) with false. change (0 <? 1) with true.
  cbn [print_if res_bind]. replace (match platform h with Some _ => Ret b0 | None => Ret b0 end) with (Ret b0) by (by destruct (platform h)).
  cbn [res_bind]. destruct (p2p_prints 1535 h o ltac:(lia) Hpeer) as [[_ Ht] Hpr].
  destruct (Hpr b0 [] Hb0) as (b & E1 & H1).
  apply res_bind_Ret_inv in E1 as (b1 & -> & E1). cbn [res_bind]. apply res_bind_Ret_inv in E1 as (b2 & -> & E1). cbn [res_bind].
  pose proof (p2p_info_length o Hl) as Hlen.
  cbn [app] in H1. unfold printed in H1. rewrite take_ge in H1 by (unfold Zlen in *; lia).
  rewrite E1. cbn [res_bind]. by rewrite (buf_str_text _ _ _ _ H1).
Qed.

Lemma p2p_info_ciphers o :
  cipher_list (io_ncp_ciphers o) -> extract_var_peer_info (Some (p2p_info o)) (str "IV_CIPHERS=") = Some (io_ncp_ciphers o).
Proof.
  intros [_ (_ & H & _) _]. unfold extract_var_peer_info, p2p_info, info_line. cbn [mbind option_bind].
  rewrite <- !app_assoc, strstr_here. cbn [mbind option_bind]. rewrite drop_app_length. cbn [app]. by rewrite until_app.
Qed.

Lemma p2p_info_proto o :
  cipher_list (io_ncp_ciphers o) -> extract_iv_proto (Some (p2p_info o)) = Ret (p2p_proto (io_data_epoch_supported o)).
Proof.
  intros [_ (_ & _ & H) _]. unfold extract_iv_proto, peer_info_int, p2p_info, info_line. cbn [mbind option_bind]. rewrite <- !app_assoc.
  set (digits := print_d _). set (l := io_ncp_ciphers o) in *.
  assert (E : strstr (str "IV_CIPHERS=" ++ l ++ [10] ++ str "IV_PROTO=" ++ digits ++ [10]) (str "IV_PROTO=")
              = Some (str "IV_PROTO=" ++ digits ++ [10])).
  { transitivity (strstr ((l ++ 10 :: str "IV_PROTO") ++ [61] ++ digits ++ [10]) (str "IV_PROTO" ++ [61])).
    { rewrite <- app_assoc. do 11 (etransitivity; [by apply strstr_cons|]). done. }
    rewrite strstr_skip.
    - rewrite (drop_app_ge l) by (rewrite length_app; cbn; lia).
      replace (length (l ++ 10%Z :: str "IV_PROTO") - length (str "IV_PROTO") - length l)%nat with 1%nat
        by (rewrite length_app; cbn; lia). exact (strstr_here (str "IV_PROTO=") (digits ++ [10])).
    - rewrite not_elem_of_app. split; [done|by_eval].
    - rewrite length_app. cbn. lia. }
  rewrite E. unfold sscanf_d. rewrite has_prefix_app, drop_app_length.
  subst digits. rewrite scan_print; [by destruct (io_data_epoch_supported o)| |done].
  unfold p2p_proto, INT_MAX. destruct (io_data_epoch_supported o); lia.
Qed.

(** The cipher two lists have in common, in the order of the server. *)
Definition common_cipher (server client : bytes) : option bytes :=
  List.find (fun token => tls_item_in_cipher_list token client) (strsep_all 58 server).
(** The packet format of two peers that both have the features of this version. *)
Definition common_format (ekm : bytes -> Z -> option bytes) (epoch : bool) (p : p2p_opts) : p2p_opts :=
  let flags := Z.lor (p2p_crypto_flags p) CO_USE_CC_EXIT_NOTIFY in
  let flags := if epoch then Z.lor flags CO_EPOCH_DATA_KEY_FORMAT else Z.ldiff flags CO_EPOCH_DATA_KEY_FORMAT in
  mk_p2p (Z.lor (Z.lor flags CO_USE_TLS_KEY_MATERIAL_EXPORT) CO_USE_DYNAMIC_TLS_CRYPT) true
    (match ekm EXPORT_P2P_PEERID_LABEL 3 with Some l => be_val l | None => 0x76706e end).

Lemma p2p_set_spec ekm o c epoch p :
  cipher_list (io_ncp_ciphers o) -> (forall l, ekm EXPORT_P2P_PEERID_LABEL 3 = Some l -> length l = 3%nat) ->
  p2p_ncp_set_options ekm (Some (p2p_info o)) epoch c p
  = Ret (common_format ekm (epoch && io_data_epoch_supported o
                            && match c with Some c => cipher_kt_mode_aead c | None => false end) p).
Proof.
  intros Hl He. unfold p2p_ncp_set_options. rewrite p2p_info_proto by done. cbn [res_bind].
  set (aead := match c with Some c => cipher_kt_mode_aead c | None => false end).
  assert (Hid : forall l, length l = 3%nat ->
    (let! p0 := arr_get l 0 in let! p1 := arr_get l 1 in let! p2 := arr_get l 2 in
     Ret (Z.shiftl p0 16 + Z.shiftl p1 8 + p2)) = Ret (be_val l)).
  { intros [|x [|y [|z [|]]]]; try done. intros _.
    change (arr_get [x; y; z] 0) with (Ret x). change (arr_get [x; y; z] 1) with (Ret y). change (arr_get [x; y; z] 2) with (Ret z).
    cbn [res_bind be_val]. change (Zlen [y; z]) with 2. change (Zlen [z]) with 1. change (Zlen []) with 0. rewrite !Z.shiftl_mul_pow2 by done.
    f_equal. lia. }
  unfold common_format. destruct (ekm EXPORT_P2P_PEERID_LABEL 3) as [l|] eqn:E.
  - specialize (Hid l (He l eq_refl)). destruct l as [|x [|y [|z [|]]]]; try (by specialize (He _ eq_refl)).
    assert (E' : Z.shiftl x 16 + Z.shiftl y 8 + z = be_val [x; y; z]) by exact (f_equal (fun r => match r with Ret v => v | _ => 0 end) Hid). rewrite <- E'. destruct (io_data_epoch_supported o), epoch, aead; reflexivity.
  - destruct (io_data_epoch_supported o), epoch, aead; reflexivity.
Qed.

(** C24: two peers in the peer-to-peer mode, one of them the TLS server, negotiate without a
    further message: each reads what the other announces, and both choose the same cipher, the
    first of the server's list that the client has, or none if there is none, and the same packet
    format, peer identifier and kind of keys.  Epoch keys are used exactly when both support
    them and the cipher is an AEAD cipher. *)
Theorem p2p_negotiation_agrees (ekm : bytes -> Z -> option bytes) (ha hb : host_info) (oa ob : info_options) (p : p2p_opts) :
  p2p_peer ha oa -> p2p_peer hb ob -> (forall l, ekm EXPORT_P2P_PEERID_LABEL 3 = Some l -> length l = 3%nat) ->
  exists ia ib c p',
    peer_info_text ha oa = Ret (Some ia) /\ peer_info_text hb ob = Ret (Some ib)
    /\ get_p2p_ncp_cipher true (io_ncp_ciphers oa) (Some ib) = c
    /\ get_p2p_ncp_cipher false (io_ncp_ciphers ob) (Some ia) = c
    /\ c = common_cipher (io_ncp_ciphers oa) (io_ncp_ciphers ob)
    /\ p2p_mode_ncp ekm true (io_ncp_ciphers oa) (Some ib) (io_data_epoch_supported oa) p = Ret p'
    /\ p2p_mode_ncp ekm false (io_ncp_ciphers ob) (Some ia) (io_data_epoch_supported ob) p = Ret p'
    /\ p2p_use_peer_id p' = true
    /\ flag_set (p2p_crypto_flags p') CO_EPOCH_DATA_KEY_FORMAT
       = io_data_epoch_supported oa && io_data_epoch_supported ob
         && match c with Some c => cipher_kt_mode_aead c | None => false end.
Proof.
  intros Ha Hb He. pose proof (pp_list _ _ Ha) as Hla. pose proof (pp_list _ _ Hb) as Hlb.
  exists (p2p_info oa), (p2p_info ob), (common_cipher (io_ncp_ciphers oa) (io_ncp_ciphers ob)). eexists.
  split; [by apply p2p_info_text|]. split; [by apply p2p_info_text|].
  unfold p2p_mode_ncp, get_p2p_ncp_cipher. rewrite !p2p_info_ciphers by done.
  change (List.find _ _) with (common_cipher (io_ncp_ciphers oa) (io_ncp_ciphers ob)).
  rewrite !p2p_set_spec by done. rewrite (andb_comm (io_data_epoch_supported ob)).
  do 5 (split; [reflexivity|]). split; [reflexivity|].
  unfold common_format, flag_set. cbn [p2p_crypto_flags]. set (e := _ && _ && _). clearbody e. clear.
  assert (Hf : forall x, (Z.land (Z.lor (Z.lor x CO_USE_TLS_KEY_MATERIAL_EXPORT) CO_USE_DYNAMIC_TLS_CRYPT) CO_EPOCH_DATA_KEY_FORMAT)
                         = Z.land x CO_EPOCH_DATA_KEY_FORMAT).
  { intros x. rewrite !Z.land_lor_distr_l. change (Z.land CO_USE_TLS_KEY_MATERIAL_EXPORT CO_EPOCH_DATA_KEY_FORMAT) with 0.
    change (Z.land CO_USE_DYNAMIC_TLS_CRYPT CO_EPOCH_DATA_KEY_FORMAT) with 0. by rewrite !Z.lor_0_r. }
  rewrite Hf. destruct e.
  - rewrite Z.land_lor_distr_l, Z.land_diag.
    destruct (Z.eqb_spec (Z.lor (Z.land (Z.lor (p2p_crypto_flags p) CO_USE_CC_EXIT_NOTIFY) CO_EPOCH_DATA_KEY_FORMAT)
      CO_EPOCH_DATA_KEY_FORMAT) 0) as [E|]; [|done]. apply Z.lor_eq_0_iff in E as [_ E]. done.
  - by rewrite Z.land_ldiff.
Qed.

(** ** A client of a server *)

(** Text without a byte that ends a line or a name. *)
Definition plain (l : bytes) : Prop := bytes_ok l /\ (0 ∉ l) /\ (10 ∉ l) /\ (61 ∉ l).

(** A client that pulls its options. *)
Record pull_client (h : host_info) (o : info_options) : Prop := {
  pc_detail : io_detail o = 2;
  pc_mode : io_pull o = true;
  pc_version : plain (package_version h);
  pc_platform : plain (default [] (platform h));
  pc_list : plain (io_ncp_ciphers o);
  pc_mtu : 0 <= io_tun_max_mtu o <= INT_MAX;
  pc_env : Forall (fun e => bytes_ok e /\ (0 ∉ e)) (env_strings h);
  pc_block : bytes_ok (info_block h) /\ Zlen (info_block h) = 512 * 3;
  pc_short : Zlen (package_version h) + Zlen (default [] (platform h)) + Zlen (io_ncp_ciphers o) <= 1300
}.

(** ** Lines of the peer information *)
Lemma strstr_lines p a rest :
  10 ∉ p -> p <> [] -> strstr a p = None -> strstr (a ++ 10 :: rest) p = strstr rest p.
Proof.
  intros Hp Hne. induction a as [|x a IH]; cbn [app strstr].
  - intros _. destruct (has_prefix p (10 :: rest)) eqn:E; [|done]. destruct p as [|y p]; [done|].
    cbn in E. apply andb_true_iff in E as [->%Z.eqb_eq _]. set_solver.
  - intros H. destruct (has_prefix p (x :: a)) eqn:Ea; [done|].
    destruct (has_prefix p (x :: a ++ 10 :: rest)) eqn:E; [|by apply IH]. exfalso.
    apply has_prefix_inv in E. rewrite app_comm_cons in E.
    apply app_eq_inv in E as [(k & Ek & Er) | (k & Ek & Er)].
    + rewrite Ek, has_prefix_app in Ea. done.
    + destruct k as [|y k]; [pose proof (has_prefix_app p []); rewrite app_nil_r in *; congruence|].
      injection Er as <- _. rewrite Ek in Hp. set_solver.
Qed.

Lemma strstr_plain q x a : x ∉ a -> strstr a (q ++ [x]) = None.
Proof.
  induction a as [|y a IH]; intros H.
  - by destruct q.
  - apply not_elem_of_cons in H as [Hy H]. cbn [strstr]. destruct (has_prefix (q ++ [x]) (y :: a)) eqn:E; [|by apply IH].
    apply has_prefix_inv in E. exfalso. assert (x ∈ y :: a) by (rewrite E; set_solver). set_solver.
Qed.

(** A line whose name is another literal. *)
Lemma other_line name v rest :
  61 ∉ v -> strstr (name ++ v) (str "IV_CIPHERS=") = strstr v (str "IV_CIPHERS=") ->
  strstr (info_line name v ++ rest) (str "IV_CIPHERS=") = strstr rest (str "IV_CIPHERS=").
Proof.
  intros Hv Hn. unfold info_line. rewrite app_assoc, <- app_assoc. apply strstr_lines; [by_eval|done|].
  rewrite Hn. by apply (strstr_plain (str "IV_CIPHERS") 61).
Qed.

(** What the client announces in front of its ciphers. *)
Definition head_platform (h : host_info) : bytes :=
  match platform h with Some p => info_line (str "IV_PLAT=") p | None => [] end.
Definition head_ncp (o : info_options) : bytes :=
  if tls_item_in_cipher_list (str "AES-128-GCM") (io_ncp_ciphers o)
     && tls_item_in_cipher_list (str "AES-256-GCM") (io_ncp_ciphers o) then info_line (str "IV_NCP=") (str "2") else [].
Definition client_head (h : host_info) (o : info_options) : bytes :=
  info_line (str "IV_VER=") (package_version h) ++ head_platform h ++ info_line (str "IV_TCPNL=") (str "1")
  ++ info_line (str "IV_MTU=") (print_d (io_tun_max_mtu o)) ++ head_ncp o.

Lemma print_d_plain n : 0 <= n <= INT_MAX -> plain (print_d n) /\ Zlen (print_d n) <= 10.
Proof.
  intros Hn. unfold print_d. rewrite (proj2 (Z.ltb_ge n 0)) by lia.
  destruct (dec_digits_ok 10 n) as (Hok & _); [unfold INT_MAX in *; cbn; lia|lia|].
  assert (Hr : Forall (fun c => 48 <= c <= 57) (dec_digits 10 n)).
  { eapply Forall_impl; [exact Hok|]. intros c. unfold is_digit. intros [?%Z.leb_le ?%Z.leb_le]%andb_true_iff. done. }
  rewrite Forall_forall in Hr. split.
  - unfold plain. split; [apply Forall_forall; intros c Hc; specialize (Hr c Hc); unfold is_u8; lia|].
    repeat split; intros Hc; specialize (Hr _ Hc); lia.
  - assert (Hl : forall fuel m, Zlen (dec_digits fuel m) <= Z.of_nat fuel); [|by apply (Hl 10%nat)].
    induction fuel as [|fuel IH]; intros m; cbn [dec_digits]; [done|].
    destruct (m <? 10); [change (Zlen [_]) with 1; lia|]. rewrite Zlen_app. change (Zlen [_]) with 1. specialize (IH (m / 10)). lia.
Qed.

Lemma info_line_text name v : ctext name -> plain v -> ctext (info_line name v).
Proof. intros Hn (? & ? & _). apply ctext_app; [done|]. apply ctext_app; [by split|split; by_eval]. Qed.

Lemma Zlen_line name v : Zlen (info_line name v) = Zlen name + Zlen v + 1.
Proof. unfold info_line. rewrite !Zlen_app. change (Zlen [10]) with 1. lia. Qed.

Lemma client_head_skip h o rest :
  pull_client h o -> strstr (client_head h o ++ rest) (str "IV_CIPHERS=") = strstr rest (str "IV_CIPHERS=").
Proof.
  intros [_ _ (_ & _ & _ & Hv) (_ & _ & _ & Hp) _ Hm _ _ _]. destruct (print_d_plain _ Hm) as [(_ & _ & _ & Hd) _].
  unfold client_head, head_platform, head_ncp. rewrite <- !app_assoc, other_line; [|done|by repeat (etransitivity; [by apply strstr_cons|])].
  destruct (platform h) as [q|]; cbn [app default] in *;
  rewrite ?(other_line (str "IV_PLAT=") q) by (done || by repeat (etransitivity; [by apply strstr_cons|])).
  all: rewrite (other_line (str "IV_TCPNL=")) by (by_eval || by repeat (etransitivity; [by apply strstr_cons|])).
  all: rewrite (other_line (str "IV_MTU=")) by (done || by repeat (etransitivity; [by apply strstr_cons|])).
  all: destruct (_ && _); [|done].
  all: apply (other_line (str "IV_NCP=")); [by_eval|by repeat (etransitivity; [by apply strstr_cons|])].
Qed.


Lemma client_prints n h o : 0 <= n -> pull_client h o ->
  prints n (fun b => let! b := info_version h o b in info_ciphers o b)
    (client_head h o ++ info_line (str "IV_CIPHERS=") (io_ncp_ciphers o)).
Proof.
  intros Hn [Hd Hm Hv Hp Hl Hmtu _ _ _]. destruct (print_d_plain _ Hmtu) as [Hdig _].
  assert (Hlit : forall name v, ctext name -> plain v -> ctext (info_line name v)) by apply info_line_text.
  replace (client_head h o ++ _) with
    ((info_line (str "IV_VER=") (package_version h) ++ head_platform h ++ info_line (str "IV_TCPNL=") (str "1"))
     ++ info_line (str "IV_MTU=") (print_d (io_tun_max_mtu o)) ++ head_ncp o ++ info_line (str "IV_CIPHERS=") (io_ncp_ciphers o))
    by (unfold client_head; by rewrite <- !app_assoc).
  unfold info_version, info_ciphers. rewrite Hd, Hm, orb_true_r. change (1 <? 2) with true. cbn [andb].
  repeat apply prints_bind.
  - apply (prints_if n true); [done|]. intros _. apply Hlit; [split; by_eval|done].
  - apply (prints_case n (platform h) (fun p b => print_if true b (info_line (str "IV_PLAT=") p)) (info_line (str "IV_PLAT="))).
    intros q Hq. rewrite Hq in Hp. apply (prints_if n true); [done|]. intros _. apply Hlit; [split; by_eval|done].
  - apply (prints_if n true); [done|]. intros _. split; by_eval.
  - apply (prints_if n true); [done|]. intros _. apply Hlit; [split; by_eval|done].
  - apply prints_if; [done|]. intros _. split; by_eval.
  - apply prints_print; [done|]. apply Hlit; [split; by_eval|done].
Qed.

Lemma client_head_length h o :
  pull_client h o -> Zlen (client_head h o) <= 60 + Zlen (package_version h) + Zlen (default [] (platform h)).
Proof.
  intros [_ _ _ _ _ Hm _ _ _]. destruct (print_d_plain _ Hm) as [_ Hdl]. unfold client_head, head_platform, head_ncp.
  rewrite !Zlen_app, !Zlen_line. change (Zlen (str "IV_VER=")) with 7. change (Zlen (str "IV_TCPNL=")) with 9.
  change (Zlen (str "IV_MTU=")) with 7. change (Zlen (str "1")) with 1.
  destruct (_ && _), (platform h) as [q|]; rewrite ?Zlen_line; change (Zlen (str "IV_PLAT=")) with 8;
    change (Zlen (str "IV_NCP=")) with 7; change (Zlen (str "2")) with 1; unfold default, id; change (Zlen (@nil Z)) with 0; lia.
Qed.

Lemma system_prints h o :
  io_detail o = 2 -> Forall ctext (env_strings h) ->
  forall b s, printed 1535 b s -> exists b' text, info_system h o b = Ret b' /\ ctext text /\ printed 1535 b' (s ++ text).
Proof.
  intros Hd He b s Hb. unfold info_system. rewrite Hd. change (1 <? 2) with true. change (2 <? 2) with false. cbv iota.
  destruct (comp_prints 1535 h (io_comp_flags o)) as (t1 & Ht1 & Hp1); [lia|]. destruct (Hp1 b s Hb) as (b1 & -> & H1).
  cbn [res_bind print_if]. replace (match hwaddr h with Some _ => Ret b1 | None => Ret b1 end) with (Ret b1) by (by destruct (hwaddr h)).
  cbn [res_bind]. destruct (env_prints 1535 2 (env_strings h)) with (b := b1) (s := s ++ t1) as (b2 & t2 & E & Ht2 & H2); [lia|done|done|].
  exists b2, (t1 ++ t2). rewrite app_assoc. split; [done|]. split; [by apply ctext_app|done].
Qed.

Lemma iv_proto_text o : ctext (str "IV_PROTO=" ++ print_d (iv_proto o) ++ [10]).
Proof. unfold iv_proto. destruct (io_pull o), (io_mode_server o), (io_data_epoch_supported o); split; by_eval. Qed.

Lemma client_info_text h o :
  pull_client h o ->
  exists rest, peer_info_text h o = Ret (Some (client_head h o ++ info_line (str "IV_CIPHERS=") (io_ncp_ciphers o) ++ rest)).
Proof.
  intros Hc. pose proof (client_head_length h o Hc) as Hlen. destruct (client_prints 1535 h o) as [Ht Hpr]; [lia|done|].
  destruct Hc as [Hd _ _ _ _ _ He [Hb Hbl] Hs]. destruct (alloc_info h Hb Hbl) as (b0 & E0 & Hb0).
  unfold peer_info_text. rewrite E0, Hd. cbn [res_bind]. change (0 <? 2) with true.
  destruct (Hpr b0 [] Hb0) as (b1 & E1 & H1). apply res_bind_Ret_inv in E1 as (b' & -> & E1). cbn [res_bind]. rewrite E1.
  cbn [res_bind]. destruct (prints_print 1535 _ ltac:(lia) (iv_proto_text o)) as [Ht2 Hp2].
  destruct (Hp2 b1 _ H1) as (b2 & -> & H2). cbn [res_bind].
  destruct (system_prints h o Hd He b2 _ H2) as (b3 & t3 & -> & Ht3 & H3). cbn [res_bind].
  set (head := client_head h o ++ info_line _ _) in *. set (t2 := str "IV_PROTO=" ++ _) in *.
  assert (Hhl : Zlen head <= 1535).
  { subst head. rewrite Zlen_app, Zlen_line. change (Zlen (str "IV_CIPHERS=")) with 11. lia. }
  rewrite <- !app_assoc in H3. cbn [app] in H3. unfold printed in H3. rewrite take_app_ge in H3 by (unfold Zlen in *; lia).
  exists (take (Z.to_nat 1535 - length head) (t2 ++ t3)). rewrite app_assoc. fold head.
  rewrite (buf_str_text _ _ _ _ H3); [done|]. destruct Ht as [_ Ht], Ht2 as [_ Ht2], Ht3 as [_ Ht3].
  intros [Hin | Hin%elem_of_take]%elem_of_app; [done|]. destruct Hin as (i & Hin & _). apply list_elem_of_lookup_2 in Hin.
  apply elem_of_app in Hin as [? | ?]; done.
Qed.

Lemma best_cipher_client server_list h o ia remote :
  pull_client h o -> peer_info_text h o = Ret (Some ia) -> [] ∉ strsep_all 58 server_list ->
  ncp_get_best_cipher server_list (Some ia) remote = Ret (common_cipher server_list (io_ncp_ciphers o)).
Proof.
  intros Hc Hi Hne. destruct (client_info_text h o Hc) as (rest & E). 
  assert (ia = client_head h o ++ info_line (str "IV_CIPHERS=") (io_ncp_ciphers o) ++ rest) as -> by congruence. clear Hi E.
  assert (Hs : strstr (client_head h o ++ info_line (str "IV_CIPHERS=") (io_ncp_ciphers o) ++ rest) (str "IV_CIPHERS=")
               = Some (str "IV_CIPHERS=" ++ io_ncp_ciphers o ++ [10] ++ rest)).
  { rewrite client_head_skip by done. unfold info_line. rewrite <- !app_assoc. apply strstr_here. }
  unfold ncp_get_best_cipher, tls_peer_ncp_list, extract_var_peer_info, announces_ciphers. cbn [mbind option_bind].
  rewrite Hs. cbn [mbind option_bind]. rewrite drop_app_length. cbn [app]. rewrite until_app by (by destruct (pc_list _ _ Hc) as (_ & _ & ? & _)).
  cbn [res_bind]. f_equal. unfold common_cipher. assert (Hr : (match remote with Some _ => [] | None => [] end) = @nil Z) by (by destruct remote).
  rewrite Hr. clear -Hne. induction (strsep_all 58 server_list) as [|t ts IH]; [done|]. cbn [List.find].
  apply not_elem_of_cons in Hne as [Ht Hne]. unfold streq at 1. rewrite (bool_decide_eq_false_2 (t = [])) by done. rewrite orb_false_r, IH by done. done.
Qed.

(** A client announces its ciphers with the other variables of its peer information, and the
    server chooses from that text the first cipher of its own list that the client has, whatever
    the client's configured cipher is; the client accepts the cipher that is pushed to it.
    Without a common cipher the server chooses none. *)
Lemma negotiated_cipher_accepted (h : host_info) (o : info_options) (server_list config : bytes) (remote : option bytes)
    (copt : cipher_options) :
  pull_client h o -> [] ∉ strsep_all 58 server_list -> ncp_ciphers copt = Some (io_ncp_ciphers o) ->
  exists ia, peer_info_text h o = Ret (Some ia)
    /\ match ncp_get_best_cipher server_list (Some ia) remote with
       | Ret (Some c) =>
           (exists before after, strsep_all 58 server_list = before ++ c :: after
              /\ tls_item_in_cipher_list c (io_ncp_ciphers o) = true
              /\ Forall (fun d => tls_item_in_cipher_list d (io_ncp_ciphers o) = false) before)
           /\ check_session_cipher false config (set_ciphername copt c) = Ret (true, set_ciphername copt c)
       | Ret None => forall d, d ∈ strsep_all 58 server_list -> tls_item_in_cipher_list d (io_ncp_ciphers o) = false
       | _ => False
       end.
Proof.
  intros Hc Hne Hl. destruct (client_info_text h o Hc) as (rest & E). eexists. split; [exact E|].
  rewrite (best_cipher_client server_list h o _ remote Hc E Hne).
  destruct (common_cipher server_list (io_ncp_ciphers o)) as [c|] eqn:Ec.
  - apply find_first in Ec as (pre & post & Hs & Hcl & Hf). split; [by exists pre, post|].
    unfold check_session_cipher. cbn [ncp_ciphers set_ciphername ciphername enable_ncp_fallback]. rewrite Hl.
    cbn [deref_str res_bind negb andb]. rewrite Hcl. by destruct (negb _).
  - intros d Hd. apply list_elem_of_In in Hd. by apply (find_none _ _ Ec).
Qed.

(** ** The list of ciphers of the configuration *)
Definition bare (token : bytes) : bytes := if has_prefix (str "?") token then drop 1 token else token.
Definition supported (c : bytes) : bool :=
  streq c (str "none") || (cipher_valid c && (cipher_kt_mode_aead c || cipher_kt_mode_cbc c || cipher_kt_mode_ofb_cfb c)).
Definition official (c : bytes) : bytes := if streq c (str "none") then str "none" else cipher_kt_name c.
(** The official names of the supported ciphers, in order, and whether a cipher that is not
    marked as optional is missing. *)
Definition official_names (tokens : list bytes) : list bytes := map official (List.filter supported (map bare tokens)).
Definition missing (tokens : list bytes) : bool :=
  existsb (fun t => negb (supported (bare t)) && negb (has_prefix (str "?") t)) tokens.
Definition names_ok : Prop := forall c, supported c = true -> ctext (official c) /\ official c <> [].

(** The buffer of the new list: without an error so far it holds the names. *)
Definition mutating (b : buffer) (e : bool) (names : list bytes) : Prop :=
  exists c, text_buf b 0 c (126 - Zlen c) /\ (0 ∉ c) /\ (e = false -> c = join 58 names /\ Zlen c <= 124).

Lemma join_snoc names nm :
  Forall (fun x => x <> []) names ->
  join 58 (names ++ [nm]) = (if 0 <? Zlen (join 58 names) then join 58 names ++ [58] else join 58 names) ++ nm.
Proof.
  induction names as [|x names IH]; [done|]. intros H. inversion H as [|? ? Hx Hn]; subst.
  assert (Hpos : forall y l, y <> [] -> 0 < Zlen (y ++ l : bytes)).
  { intros [|z y] l ?; [done|]. cbn [app]. rewrite Zlen_cons. pose proof (Zlen_nonneg (y ++ l)). lia. }
  destruct names as [|y names].
  - cbn [join app]. rewrite (proj2 (Z.ltb_lt _ _)); [by rewrite <- app_assoc|]. specialize (Hpos x [] Hx). by rewrite app_nil_r in Hpos.
  - change (join 58 ((x :: y :: names) ++ [nm])) with (x ++ 58 :: join 58 ((y :: names) ++ [nm])). rewrite IH by done.
    change (join 58 (x :: y :: names)) with (x ++ 58 :: join 58 (y :: names)).
    inversion Hn as [|? ? Hy _]; subst. assert (0 < Zlen (join 58 (y :: names))).
    { destruct names; [specialize (Hpos y [] Hy); by rewrite app_nil_r in Hpos|by apply Hpos]. }
    rewrite !(proj2 (Z.ltb_lt _ _)) by (done || by apply Hpos). by rewrite <- !app_assoc.
Qed.

Lemma puts_fits b c text :
  text_buf b 0 c (126 - Zlen c) -> ctext text -> (0 ∉ c) ->
  exists b' c', buf_puts b text = Ret (true, b') /\ text_buf b' 0 c' (126 - Zlen c') /\ (0 ∉ c')
    /\ (Zlen c + Zlen text <= 126 -> c' = c ++ text).
Proof.
  intros Hb [Ht H0] Hc. destruct (buf_puts_text _ _ _ _ text Hb Ht) as (b' & E & H).
  exists b', (c ++ take (Z.to_nat (126 - Zlen c)) text). split; [done|]. rewrite Zlen_app, Z.sub_add_distr. split; [done|].
  split; [|intros Hl; by rewrite take_ge by (unfold Zlen in *; lia)]. rewrite not_elem_of_app. split; [done|].
  intros (i & Hi & _)%elem_of_take. by apply list_elem_of_lookup_2 in Hi.
Qed.

Lemma text_capacity b c : text_buf b 0 c (126 - Zlen c) -> buf_len b = Zlen c /\ buf_forward_capacity b = 127 - Zlen c.
Proof.
  intros H%text_buf_repr. rewrite (buf_len_repr _ _ _ _ H), (buf_forward_capacity_repr _ _ _ _ H). split; [done|lia].
Qed.

Lemma mutate_add nm b e names :
  ctext nm -> Forall (fun x => x <> []) names -> mutating b e names ->
  exists b' e', (let! b := (if 0 <? buf_len b then let! (_, b) := buf_puts b (str ":") in Ret b else Ret b) in
                 if negb (Zlen nm + 2 <? buf_forward_capacity b) then Ret (b, true)
                 else let! (_, b) := buf_puts b nm in Ret (b, e)) = Ret (b', e')
    /\ mutating b' e' (names ++ [nm])
    /\ e' = e || (124 <? Zlen (join 58 (names ++ [nm]))).
Proof.
  intros Hnm Hne (c & Hb & Hc & He). destruct (text_capacity b c Hb) as [-> _].
  assert (exists b1 c1, (if 0 <? Zlen c then let! (_, b) := buf_puts b (str ":") in Ret b else Ret b) = Ret b1
    /\ text_buf b1 0 c1 (126 - Zlen c1) /\ (0 ∉ c1)
    /\ (Zlen c <= 124 -> c1 = if 0 <? Zlen c then c ++ [58] else c)) as (b1 & c1 & -> & Hb1 & Hc1 & Hj).
  { destruct (0 <? Zlen c); [|exists b, c; done].
    destruct (puts_fits b c (str ":") Hb) as (b1 & c1 & -> & H1 & H2 & H3); [split; by_eval|done|].
    exists b1, c1. split; [done|]. split; [done|]. split; [done|]. intros Hl. apply H3. change (Zlen (str ":")) with 1. lia. }
  cbn [res_bind]. destruct (text_capacity b1 c1 Hb1) as [_ ->].
  assert (Hlen : e = false -> join 58 (names ++ [nm]) = c1 ++ nm).
  { intros Ee. destruct (He Ee) as [-> Hle]. rewrite join_snoc by done. by rewrite Hj. }
  destruct (Z.ltb_spec (Zlen nm + 2) (127 - Zlen c1)) as [Hfit | Hfit]; cbn [negb].
  - destruct (puts_fits b1 c1 nm Hb1 Hnm Hc1) as (b2 & c2 & -> & H1 & H2 & H3). cbn [res_bind]. exists b2, e.
    split; [done|]. rewrite H3 in * by lia. split.
    + exists (c1 ++ nm). split; [done|]. split; [done|]. intros Ee. rewrite (Hlen Ee), Zlen_app. split; [done|lia].
    + destruct e; [done|]. rewrite Hlen, Zlen_app by done. symmetry. apply Z.ltb_ge. lia.
  - exists b1, true. split; [done|]. split; [by exists c1|].
    destruct e; [done|]. rewrite Hlen, Zlen_app by done. symmetry. apply Z.ltb_lt. lia.
Qed.

Lemma join_grows names l : Zlen (join 58 names) <= Zlen (join 58 (names ++ l)).
Proof.
  induction names as [|x [|y names] IH]; [apply Zlen_nonneg| |].
  - destruct l as [|z l]; [done|]. change (join 58 ([x] ++ z :: l)) with (x ++ 58 :: join 58 (z :: l)). change (join 58 [x]) with x.
    rewrite Zlen_app, Zlen_cons. pose proof (Zlen_nonneg (join 58 (z :: l))). lia.
  - change (join 58 ((x :: y :: names) ++ l)) with (x ++ 58 :: join 58 ((y :: names) ++ l)).
    change (join 58 (x :: y :: names)) with (x ++ 58 :: join 58 (y :: names)). rewrite !Zlen_app, !Zlen_cons. lia.
Qed.

(** What one token does. *)
Lemma mutate_token_spec token b e names :
  names_ok -> Forall (fun x => x <> []) names -> mutating b e names ->
  exists b' e', mutate_token token b e = Ret (b', e') /\ mutating b' e' (names ++ official_names [token])
    /\ e' = e || missing [token] || (124 <? Zlen (join 58 (names ++ official_names [token]))).
Proof.
  intros Hok Hne Hm. unfold mutate_token, official_names, missing. cbn [map existsb List.filter]. fold (bare token).
  set (opt := has_prefix _ _).
  assert (Hsup : supported (bare token) = negb (negb (streq (bare token) (str "none")) && negb (cipher_valid (bare token)))
    && negb (negb (streq (bare token) (str "none")) && negb (cipher_kt_mode_aead (bare token))
             && negb (cipher_kt_mode_cbc (bare token)) && negb (cipher_kt_mode_ofb_cfb (bare token)))).
  { unfold supported. destruct (streq _ _), (cipher_valid _), (cipher_kt_mode_aead _), (cipher_kt_mode_cbc _), (cipher_kt_mode_ofb_cfb _); done. }
  assert (Hskip : exists b' e', Ret (b, e || negb opt) = Ret (b', e') /\ mutating b' e' (names ++ [])
            /\ e' = e || (negb false && negb opt || false) || (124 <? Zlen (join 58 (names ++ [])))).
  { rewrite app_nil_r. exists b, (e || negb opt). split; [done|]. destruct Hm as (c & H1 & H2 & H3). split.
    - exists c. split; [done|]. split; [done|]. intros [Ee _]%orb_false_iff. by apply H3.
    - destruct e; [done|]. destruct H3 as [<- H3]; [done|]. rewrite (proj2 (Z.ltb_ge _ _)) by lia. by destruct opt. }
  destruct (negb (streq (bare token) (str "none")) && negb (cipher_valid (bare token))); [rewrite Hsup; exact Hskip|].
  destruct (negb (streq (bare token) (str "none")) && negb _ && _ && _); [rewrite Hsup; exact Hskip|].
  rewrite Hsup. cbn [negb andb map orb]. rewrite orb_false_r. destruct (Hok (bare token) Hsup) as [Hct _].
  exact (mutate_add (official (bare token)) b e names Hct Hne Hm).
Qed.

Lemma mutate_loop_spec tokens b e names :
  names_ok -> Forall (fun x => x <> []) names -> mutating b e names ->
  exists b' e', mutate_loop tokens b e = Ret (b', e') /\ mutating b' e' (names ++ official_names tokens)
    /\ e' = e || missing tokens || (124 <? Zlen (join 58 (names ++ official_names tokens))).
Proof.
  intros Hok. revert b e names. induction tokens as [|t tokens IH]; intros b e names Hne Hm; cbn [mutate_loop].
  - change (official_names []) with (@nil bytes). rewrite app_nil_r. exists b, e. split; [done|]. split; [done|].
    destruct e; [done|]. destruct Hm as (c & _ & _ & H3). destruct H3 as [<- H3]; [done|]. symmetry. apply Z.ltb_ge. lia.
  - destruct (mutate_token_spec t b e names Hok Hne Hm) as (b1 & e1 & -> & H1 & ->). cbn [res_bind].
    assert (Hcons : official_names (t :: tokens) = official_names [t] ++ official_names tokens).
    { unfold official_names. cbn [map List.filter]. by destruct (supported (bare t)). }
    rewrite Hcons, app_assoc. assert (Hne' : Forall (fun x => x <> []) (names ++ official_names [t])).
    { apply Forall_app. split; [done|]. unfold official_names. cbn [map List.filter].
      destruct (supported (bare t)) eqn:Es; [|constructor]. repeat constructor. by apply Hok. }
    destruct (IH _ _ _ Hne' H1) as (b2 & e2 & -> & H2 & ->).
    eexists _, _. split; [reflexivity|]. split; [exact H2|].
    pose proof (join_grows (names ++ official_names [t]) (official_names tokens)) as Hg.
    assert (Hmiss : missing (t :: tokens) = missing [t] || missing tokens) by (unfold missing; cbn; by rewrite orb_false_r).
    rewrite Hmiss. destruct (Z.ltb_spec 124 (Zlen (join 58 (names ++ official_names [t])))).
    + rewrite (proj2 (Z.ltb_lt 124 (Zlen (join 58 ((names ++ _) ++ _))))) by lia. by rewrite !orb_true_r.
    + rewrite orb_false_r. by destruct e, (missing [t]), (missing tokens).
Qed.

Lemma terminate_text b c : text_buf b 0 c (126 - Zlen c) -> (0 ∉ c) -> c <> [] ->
  (let! b := buf_null_terminate b in let! s := buf_str b in Ret (Some s)) = Ret (Some c).
Proof.
  intros Hb Hc Hne. destruct (text_capacity b c Hb) as [Hl Hcap]. pose proof (text_buf_repr _ _ _ _ Hb) as Hr.
  destruct (exists_last Hne) as (a & z & ->). assert (Hz : z <> 0) by (intros ->; set_solver).
  pose proof (Zlen_nonneg a) as Ha. pose proof Hb as (pre & post & (Hd & Ho & _) & _ & _).
  unfold buf_null_terminate, buf_blast. rewrite Hl, Zlen_app. change (Zlen [z]) with 1.
  rewrite (proj2 (Z.ltb_lt 0 _)) by lia. unfold buf_bptr. destruct (buf_repr_valid _ _ _ _ Hr) as [-> _]. cbn [mbind option_bind].
  replace (b_offset b + (Zlen a + 1) - 1) with (Zlen (pre ++ a)) by (rewrite Zlen_app; lia).
  assert (Hpk : buf_peek b (Zlen (pre ++ a)) 1 = Ret [z]).
  { apply (buf_peek_split b (pre ++ a) [z] (0 :: post)). rewrite Hd, <- !app_assoc. done. }
  rewrite Hpk. cbn [res_bind]. rewrite bool_decide_eq_false_2 by congruence.
  pose proof (text_buf_room _ _ _ _ Hb) as Hroom.
  rewrite (buf_safe_repr _ _ _ _ Hr) by lia. rewrite (proj2 (Z.leb_le 1 _)) by lia. cbn [negb].
  destruct (buf_write_repr _ _ _ _ Hr [u8 0]) as (b' & E & pre' & post' & (Hd' & Ho' & _) & _ & _).
  { by_eval. } { change (Zlen [u8 0]) with 1. lia. }
  unfold buf_write_u8. rewrite E. cbn [res_bind]. unfold buf_str. rewrite Hd', Ho', to_nat_Zlen, drop_app_length.
  change [u8 0] with [0]. rewrite <- app_assoc. cbn [app]. rewrite bool_decide_eq_true_2 by set_solver. cbn [res_bind]. by rewrite until_app.
Qed.

(** The configured list of data channel ciphers is brought into its official form: every
    supported cipher under its official name, in order, optional ciphers that are not supported
    left out.  There is no list exactly when a cipher that is not optional is not supported, when
    nothing is left, or when the new list is longer than 124 characters: the message says 127. *)
Lemma mutate_list_exact (l : bytes) :
  names_ok ->
  mutate_ncp_cipher_list l
  = Ret (let names := official_names (strtok_all 58 l) in
         if missing (strtok_all 58 l) || bool_decide (names = []) || (124 <? Zlen (join 58 names)) then None
         else Some (join 58 names)).
Proof.
  intros Hok. unfold mutate_ncp_cipher_list, alloc_buf. change (buf_size_valid MAX_NCP_CIPHERS_LENGTH) with true. cbn [negb res_bind].
  set (b0 := mk_buffer _ _ _ _). assert (H0 : mutating b0 false []).
  { exists []. split; [|split; [by_eval|done]]. exists [], (replicate 126 0). unfold buf_split. cbn.
    repeat split; try done; try constructor; by_eval. }
  destruct (mutate_loop_spec (strtok_all 58 l) b0 false [] Hok) as (b & e & -> & (c & Hb & Hc & He) & Ee); [constructor|done|].
  cbn [res_bind app orb] in *. set (names := official_names (strtok_all 58 l)) in *.
  destruct (text_capacity b c Hb) as [Hl _]. cbv zeta.
  rewrite Hl. destruct e; cbn [negb andb].
  { symmetry in Ee. apply orb_true_iff in Ee as [-> | ->]; [done|]. by rewrite orb_true_r. }
  destruct (He eq_refl) as [-> Hle]. symmetry in Ee. apply orb_false_iff in Ee as [-> ->]. rewrite orb_false_r. cbn [orb].
  destruct (decide (names = [])) as [Hn | Hn].
  { rewrite bool_decide_eq_true_2 by done. by rewrite Hn. }
  rewrite bool_decide_eq_false_2 by done.
  assert (Hj : join 58 names <> []).
  { destruct names as [|x ns] eqn:E; [done|]. assert (x <> []).
    { assert (Hx : In x (official_names (strtok_all 58 l))) by (fold names; rewrite E; by left).
      unfold official_names in Hx. apply in_map_iff in Hx as (y & <- & Hy%filter_In). apply Hok. apply Hy. }
    destruct ns; [done|]. by destruct x. }
  assert (0 < Zlen (join 58 names)).
  { destruct (join 58 names) as [|y js]; [done|]. rewrite Zlen_cons. pose proof (Zlen_nonneg js). lia. }
  rewrite (proj2 (Z.ltb_lt 0 _)) by done. by apply terminate_text.
Qed.
End Ncp.

(** ** Example *)
Definition sample_host : host_info :=
  mk_host (str "2.7") (Some (str "linux")) true true None [] [] [str "UV_ID=1"] (replicate 1536 170).
Definition sample_p2p (epoch : bool) (ciphers : bytes) : info_options := mk_iopt 1 false false ciphers epoch 1500 0.
Definition sample_exporter (label : bytes) (n : Z) : option bytes := Some (take (Z.to_nat n) (label ++ replicate 3 1)).
Definition short_list : bytes := str "CHACHA20-POLY1305:AES-256-GCM".
Definition long_list : bytes := str "AES-128-GCM:AES-256-GCM:CHACHA20-POLY1305".

Lemma sample_p2p_ok epoch ciphers :
  bool_decide (bytes_ok ciphers) && bool_decide ((0 ∉ ciphers) /\ (10 ∉ ciphers) /\ (61 ∉ ciphers)) && (Zlen ciphers <=? 1400) = true ->
  p2p_peer sample_host (sample_p2p epoch ciphers).
Proof.
  intros [[H1%bool_decide_eq_true H2%bool_decide_eq_true]%andb_true_iff H3%Z.leb_le]%andb_true_iff.
  split; [done|done|by split|]. split; [by_eval|by vm_compute].
Qed.

Lemma p2p_negotiation_agrees_witness :
  exists ia ib c p',
    peer_info_text sample_host (sample_p2p true long_list) = Ret (Some ia)
    /\ peer_info_text sample_host (sample_p2p true short_list) = Ret (Some ib)
    /\ get_p2p_ncp_cipher true long_list (Some ib) = c
    /\ get_p2p_ncp_cipher false short_list (Some ia) = c
    /\ c = Some (str "AES-256-GCM")
    /\ p2p_mode_ncp sample_exporter true long_list (Some ib) true (mk_p2p 0 false 0) = Ret p'
    /\ p2p_mode_ncp sample_exporter false short_list (Some ia) true (mk_p2p 0 false 0) = Ret p'
    /\ p2p_use_peer_id p' = true
    /\ flag_set (p2p_crypto_flags p') CO_EPOCH_DATA_KEY_FORMAT
       = match c with Some c => cipher_kt_mode_aead c | None => false end.
Proof.
  refine (p2p_negotiation_agrees sample_exporter sample_host sample_host (sample_p2p true long_list) (sample_p2p true short_list)
            (mk_p2p 0 false 0) _ _ _).
  - apply sample_p2p_ok. by vm_compute.
  - apply sample_p2p_ok. by vm_compute.
  - intros l [= <-]. by vm_compute.
Defined.

Definition sample_pull (ciphers : bytes) : info_options := mk_iopt 2 true false ciphers true 1500 0.
Definition sample_copt : cipher_options := mk_copt (str "BF-CBC") (Some short_list) (Some short_list) false.

Lemma sample_names_ok : names_ok.
Proof.
  intros c. unfold supported, official. destruct (streq c (str "none")) eqn:E.
  - intros _. split; [split; by_eval|done].
  - cbn [orb]. intros [_ Hc]%andb_true_iff. rewrite orb_true_iff, orb_true_iff in Hc.
    destruct Hc as [[Hc%bool_decide_eq_true | Hc] | Hc]; try done. cbn [cipher_kt_name sample_lib].
    rewrite Hc. split; [split; by_eval|done].
Qed.

Example mutate_list_examples :
  mutate_ncp_cipher_list (str "AES-256-GCM:?BF-CBC:none") = Ret (Some (str "AES-256-GCM:none"))
  /\ mutate_ncp_cipher_list (str "AES-256-GCM:BF-CBC") = Ret None
  /\ mutate_ncp_cipher_list (join 58 (replicate 11 (str "AES-256-GCM"))) = Ret None.
Proof.
  split; [|split].
  - exact (mutate_list_exact (str "AES-256-GCM:?BF-CBC:none") sample_names_ok).
  - exact (mutate_list_exact (str "AES-256-GCM:BF-CBC") sample_names_ok).
  - exact (mutate_list_exact (join 58 (replicate 11 (str "AES-256-GCM"))) sample_names_ok).
Qed.
