(* ===== verification/KeyMethod.v ===== *)
(** * The exchange of key material (key method 2 of ssl.c)

    Over the TLS session each peer sends one message: random material for the data channel keys,
    its options, a user name and password and its peer information.  From the material of both
    the keys of the data channel are derived, or from the keying material exporter of the TLS
    session.  Plugins, scripts and certificate checks are arguments. *)

From Stdlib Require Import String.
From S2P Require Import Prelude CircList Buffer PacketId Reliable KeyCtx SampleLib Epoch Crypto Aead Channel DataPath CtrlWrap Text Ncp.
#[local] Open Scope Z_scope.

Definition TLS_OPTIONS_LEN : Z := 512.
Definition KEY_METHOD_2 : Z := 2.
Definition KEY_METHOD_MASK : Z := 15.
(** The value without PKCS#11. *)
Definition USER_PASS_LEN : Z := 128.
Definition KEY_EXPANSION_ID : bytes := str "OpenVPN".
Definition EXPORT_KEY_DATA_LABEL : bytes := str "EXPORTER-OpenVPN-datakeys".
Definition SSLF_AUTH_USER_PASS_OPTIONAL : Z := Z.shiftl 1 3.
Definition SSLF_OPT_VERIFY : Z := Z.shiftl 1 4.
Definition COMP_F_MIGRATE : Z := Z.shiftl 1 5.

(** A write that may fail, and what follows it. *)
Definition and_then (m : res (bool * buffer)) (k : buffer -> res (bool * buffer)) : res (bool * buffer) :=
  let! (ok, b) := m in if ok then k b else Ret (false, b).

Lemma and_then_true b k : and_then (Ret (true, b)) k = k b.
Proof. done. Qed.

(** ** Strings *)
Definition write_empty_string (buf : buffer) : res (bool * buffer) := buf_write_u16 buf 0.

Definition write_string (buf : buffer) (s : bytes) (maxlen : Z) : res (bool * buffer) :=
  let len := s32 (u64 (Zlen s + 1)) in
  if (len <? 1) || ((0 <=? maxlen) && (maxlen <? len)) then Ret (false, buf)
  else and_then (buf_write_u16 buf len) (fun buf => buf_write buf (s ++ [0])).

(** The value, the C string that is stored, if one is, and the buffer. *)
Definition read_string (buf : buffer) (capacity : Z) : res (Z * option bytes * buffer) :=
  let! (len, buf) := buf_read_u16 buf in
  if (len <? 1) || (capacity <? len) then Ret (- len, None, (buf_advance buf len).2)
  else
    let! (s, buf) := buf_read buf len in
    match s with
    | None => Ret (- len, None, buf)
    | Some s => Ret (len, Some (until 0 (take (Z.to_nat (len - 1)) s)), buf)
    end.

Definition read_string_alloc (buf : buffer) : res (option bytes * buffer) :=
  let! (len, buf) := buf_read_u16 buf in
  if len <? 1 then Ret (None, buf)
  else
    let! (s, buf) := buf_read buf len in
    match s with
    | None => Ret (None, buf)
    | Some s => Ret (Some (until 0 (take (Z.to_nat (len - 1)) s)), buf)
    end.

(** ** Options strings *)
Definition options_cmp_equal (actual expected : bytes) : bool :=
  if negb (streq (take 2 actual) (take 2 expected)) then true else streq actual expected.

(** [at_option]: an option starts here. *)
Fixpoint extract_option_loop (at_option : bool) (p opt_name : bytes) : option bytes :=
  if at_option && has_prefix opt_name p && (Zlen opt_name + 1 <? Zlen p) && has_prefix [32] (drop (length opt_name) p)
  then Some (until 44 (drop (length opt_name + 1) p))
  else match p with [] => None | c :: p => extract_option_loop (c =? 44) p opt_name end.
Definition options_string_extract_option (options_string opt_name : bytes) : option bytes :=
  extract_option_loop true options_string opt_name.

(** [fresh n] is a block from [malloc]. *)
Definition options_string_compat_lzo (fresh : Z -> bytes) (options : bytes) : res bytes :=
  match strstr options (str ",link-mtu") with
  | None => Ret options
  | Some tmp =>
      let! r := sscanf_d (str ",link-mtu ") tmp in
      match r with
      | Some link_mtu =>
          if (link_mtu <? 100) || (9900 <? link_mtu) then Ret options
          else
            let! buf := alloc_buf_gc (fresh (Zlen options + Zlen (str ",comp-lzo") + 2)) in
            let! (_, buf) := buf_write buf (take (length options - length tmp) options) in
            let! buf := print buf (str ",link-mtu " ++ print_d (link_mtu + 1)) in
            let tmp := drop (length (str ",link-mtu ") + (if link_mtu <? 1000 then 3 else 4)) tmp in
            let! buf := print buf (tmp ++ str ",comp-lzo") in
            buf_str buf
      | None => Ret options
      end
  end.

(** ** Key sources *)
Record key_source : Type := mk_src { pre_master : bytes; random1 : bytes; random2 : bytes }.
Record key_source2 : Type := mk_src2 { src_client : key_source; src_server : key_source }.
Definition src_zero : key_source := mk_src (replicate 48 0) (replicate 32 0) (replicate 32 0).
Definition src2_zero : key_source2 := mk_src2 src_zero src_zero.
Definition set_src (k2 : key_source2) (server : bool) (k : key_source) : key_source2 :=
  if server then mk_src2 (src_client k2) k else mk_src2 k (src_server k2).

(** [rand]: the bytes [rand_bytes] gives for the call with this number. *)
Definition random_bytes_to_buf (rand : option bytes) (buf : buffer) : res (bool * bytes * buffer) :=
  match rand with
  | None => Fatal
  | Some out => let! (ok, buf) := buf_write buf out in Ret (ok, out, buf)
  end.

Definition key_source2_randomize_write (rand : Z -> Z -> option bytes) (k2 : key_source2) (buf : buffer) (server : bool)
  : res (bool * key_source2 * buffer) :=
  let k := src_zero in
  let! (ok, k, buf) :=
    (if negb server then
       let! (ok, out, buf) := random_bytes_to_buf (rand 0 48) buf in Ret (ok, mk_src out (random1 k) (random2 k), buf)
     else Ret (true, k, buf)) in
  if negb ok then Ret (false, set_src k2 server k, buf)
  else
    let! (ok, out, buf) := random_bytes_to_buf (rand 1 32) buf in
    let k := mk_src (pre_master k) out (random2 k) in
    if negb ok then Ret (false, set_src k2 server k, buf)
    else
      let! (ok, out, buf) := random_bytes_to_buf (rand 2 32) buf in
      Ret (ok, set_src k2 server (mk_src (pre_master k) (random1 k) out), buf).

Definition key_source2_read (k2 : key_source2) (buf : buffer) (server : bool) : res (bool * key_source2 * buffer) :=
  let k := src_zero in
  let! (ok, k, buf) :=
    (if server then
       let! (r, buf) := buf_read buf 48 in
       Ret (match r with Some l => (true, mk_src l (random1 k) (random2 k), buf) | None => (false, k, buf) end)
     else Ret (true, k, buf)) in
  if negb ok then Ret (false, set_src k2 (negb server) k, buf)
  else
    let! (r, buf) := buf_read buf 32 in
    match r with
    | None => Ret (false, set_src k2 (negb server) k, buf)
    | Some l =>
        let k := mk_src (pre_master k) l (random2 k) in
        let! (r, buf) := buf_read buf 32 in
        match r with
        | None => Ret (false, set_src k2 (negb server) k, buf)
        | Some l => Ret (true, set_src k2 (negb server) (mk_src (pre_master k) (random1 k) l), buf)
        end
    end.

Section KeyMethod.
Context {cipher_ctx hmac_ctx : Type} `{CL : CryptoLib cipher_ctx hmac_ctx}.
#[local] Abbreviation crypto_options := (KeyCtx.crypto_options cipher_ctx hmac_ctx).
#[local] Abbreviation key_ctx := (KeyCtx.key_ctx cipher_ctx hmac_ctx).

(** ** The messages *)

(** What the exchange reads of [struct tls_options] and of the primary key. *)
Record km_options : Type := mk_kmo {
  km_server : bool;
  km_local_options : bytes;
  km_remote_options : bytes;
  km_ssl_flags : Z;
  km_info : info_options;
  km_host : host_info;
  km_key_id : Z
}.
(** What it sets in [struct tls_multi] and its options. *)
Record km_multi : Type := mk_kmm {
  km_peer_info : option bytes;
  km_remote_ciphername : option bytes;
  km_remote_usescomp : bool;
  km_p2p : p2p_opts
}.
Definition set_km_p2p (m : km_multi) (p : p2p_opts) : km_multi :=
  mk_kmm (km_peer_info m) (km_remote_ciphername m) (km_remote_usescomp m) p.

Definition push_peer_info (o : km_options) (buf : buffer) : res (bool * buffer) :=
  let! t := peer_info_text (km_host o) (km_info o) in
  match t with
  | Some s => write_string buf s (-1)
  | None => write_empty_string buf
  end.

Definition km_p2p_ncp (ekm : bytes -> Z -> option bytes) (o : km_options) (m : km_multi) : res km_multi :=
  let! p := p2p_mode_ncp ekm (km_server o) (io_ncp_ciphers (km_info o)) (km_peer_info m)
              (io_data_epoch_supported (km_info o)) (km_p2p m) in
  Ret (set_km_p2p m p).

(** [creds]: the user name and password or token to send, if any.  Result: success, the buffer,
    the sources and the state. *)
Definition key_method_2_write (fresh : Z -> bytes) (ekm : bytes -> Z -> option bytes) (rand : Z -> Z -> option bytes)
    (creds : option (bytes * bytes)) (o : km_options) (buf : buffer) (src : key_source2) (m : km_multi)
  : res (bool * buffer * key_source2 * km_multi) :=
  let '(ok, buf) := buf_init_dowork buf 0 in
  assert! ok in
  let! (ok, buf) := and_then (buf_write_u32 buf 0) (fun buf => buf_write_u8 buf KEY_METHOD_2) in
  if negb ok then Ret (false, buf, src2_zero, m)
  else
    let! (ok, src, buf) := key_source2_randomize_write rand src buf (km_server o) in
    if negb ok then Ret (false, buf, src2_zero, m)
    else
      let! options :=
        (if km_remote_usescomp m && io_mode_server (km_info o) && flag_set (io_comp_flags (km_info o)) COMP_F_MIGRATE
         then options_string_compat_lzo fresh (km_local_options o) else Ret (km_local_options o)) in
      let! (ok, buf) :=
        and_then (write_string buf options TLS_OPTIONS_LEN) (fun buf =>
        and_then (match creds with
                  | Some (user, pass) => and_then (write_string buf user (-1)) (fun buf => write_string buf pass (-1))
                  | None => and_then (write_empty_string buf) write_empty_string
                  end)
                 (push_peer_info o)) in
      if negb ok then Ret (false, buf, src2_zero, m)
      else
        let! m := (if km_server o && negb (io_mode_server (km_info o)) && (km_key_id o =? 0)
                   then km_p2p_ncp ekm o m else Ret m) in
        Ret (true, buf, src, m).

(** The checks that decide on the authentication: whether user names are checked and with which
    result, whether TLS verified the certificate, the final checks, and the plugin that may veto. *)
Record auth_checks : Type := mk_ac {
  ac_user_pass_enabled : bool;
  ac_verify_user_pass : bytes -> bytes -> ks_auth_state;
  ac_verified : bool;
  ac_final_checks : ks_auth_state -> ks_auth_state;
  ac_plugin : option bool
}.
Definition auth_positive (a : ks_auth_state) : bool := match a with KS_AUTH_FALSE => false | _ => true end.

(** [None] is the way to [error]. *)
Definition authenticate (ac : auth_checks) (ssl_flags username_len password_len : Z) (username password : bytes)
  : option ks_auth_state :=
  if (username_len <? 0) || (password_len <? 0) then Some KS_AUTH_FALSE
  else if ac_user_pass_enabled ac then
    if (username_len =? 0) || (password_len =? 0) then
      if negb (flag_set ssl_flags SSLF_AUTH_USER_PASS_OPTIONAL) then None
      else Some (ac_verify_user_pass ac [] [])
    else Some (ac_verify_user_pass ac username password)
  else if negb (ac_verified ac) then None
  else Some KS_AUTH_TRUE.

(** What the options and the peer information say about the peer. *)
Definition km_announced (options : bytes) (peer_info : option bytes) (m : km_multi) : km_multi :=
  let remote_ciphername := options_string_extract_option options (str "cipher") in
  let remote_ciphername := match remote_ciphername with
                           | Some c => Some (if streq c (str "[null-cipher]") then str "none" else c)
                           | None => None
                           end in
  let usescomp := match strstr options (str ",comp-lzo,") with Some _ => true | None => false end in
  mk_kmm peer_info remote_ciphername usescomp (km_p2p m).

Definition km_read_error (buf : buffer) (m : km_multi) : res (bool * buffer * ks_auth_state * key_source2 * km_multi) :=
  let! buf := buf_clear buf in Ret (false, buf, KS_AUTH_FALSE, src2_zero, m).

(** The second half of [key_method_2_read]: what was read is judged. *)
Definition km_judge (ekm : bytes -> Z -> option bytes) (ac : auth_checks) (o : km_options) (buf : buffer) (src : key_source2)
    (options : bytes) (username_len password_len : Z) (username password : bytes) (m : km_multi)
  : res (bool * buffer * ks_auth_state * key_source2 * km_multi) :=
  match authenticate ac (km_ssl_flags o) username_len password_len username password with
  | None => km_read_error buf m
  | Some a =>
      let a := if auth_positive a then ac_final_checks ac a else a in
      let a := if negb (options_cmp_equal options (km_remote_options o)) && flag_set (km_ssl_flags o) SSLF_OPT_VERIFY
               then KS_AUTH_FALSE else a in
      let! buf := buf_clear buf in
      let a := match ac_plugin ac with
               | Some success => if auth_positive a && negb success then KS_AUTH_FALSE else a
               | None => a
               end in
      let! m := (if negb (km_server o) && negb (io_pull (km_info o)) && (km_key_id o =? 0)
                 then km_p2p_ncp ekm o m else Ret m) in
      Ret (true, buf, a, src, m)
  end.

Definition key_method_2_read (ekm : bytes -> Z -> option bytes) (ac : auth_checks) (o : km_options) (buf : buffer)
    (src : key_source2) (m : km_multi) : res (bool * buffer * ks_auth_state * key_source2 * km_multi) :=
  let '(ok, buf) := buf_advance buf 4 in
  if negb ok then km_read_error buf m
  else
    let! (key_method_flags, buf) := buf_read_u8 buf in
    if negb (Z.land key_method_flags KEY_METHOD_MASK =? 2) then km_read_error buf m
    else
      let! (ok, src, buf) := key_source2_read src buf (km_server o) in
      if negb ok then km_read_error buf m
      else
        let! (r, options, buf) := read_string buf TLS_OPTIONS_LEN in
        if r <? 0 then km_read_error buf m
        else
          let options := default [] options in
          let! (username_len, username, buf) := read_string buf USER_PASS_LEN in
          let! (password_len, password, buf) := read_string buf USER_PASS_LEN in
          let! (peer_info, buf) := read_string_alloc buf in
          km_judge ekm ac o buf src options username_len password_len (default [] username) (default [] password)
            (km_announced options peer_info m).

(** ** The keys *)

(** [prf]: the pseudo-random function of TLS 1.0, [ssl_tls1_PRF]: seed, secret, length. *)
Definition openvpn_PRF (prf : bytes -> bytes -> Z -> option bytes) (secret label client_seed server_seed : bytes)
    (client_sid server_sid : option session_id) (output_len : Z) : res (option bytes) :=
  let! seed := alloc_buf (Zlen label + Zlen client_seed + Zlen server_seed + SID_SIZE * 2) in
  let! (ok, seed) := buf_write seed label in
  assert! ok in
  let! (ok, seed) := buf_write seed client_seed in
  assert! ok in
  let! (ok, seed) := buf_write seed server_seed in
  assert! ok in
  let! (ok, seed) := match client_sid with Some s => buf_write seed s | None => Ret (true, seed) end in
  assert! ok in
  let! (ok, seed) := match server_sid with Some s => buf_write seed s | None => Ret (true, seed) end in
  assert! ok in
  let! s := buf_bytes seed in
  Ret (prf s secret output_len).

Definition generate_key_expansion_openvpn_prf (prf : bytes -> bytes -> Z -> option bytes) (server : bool)
    (session_id session_id_remote : session_id) (key_src : key_source2) : res (option key2) :=
  let client_sid := if server then session_id_remote else session_id in
  let server_sid := if negb server then session_id_remote else session_id in
  let! master := openvpn_PRF prf (pre_master (src_client key_src)) (KEY_EXPANSION_ID ++ str " master secret")
                   (random1 (src_client key_src)) (random1 (src_server key_src)) None None 48 in
  match master with
  | None => Ret None
  | Some master =>
      let! keys := openvpn_PRF prf master (KEY_EXPANSION_ID ++ str " key expansion")
                     (random2 (src_client key_src)) (random2 (src_server key_src)) (Some client_sid) (Some server_sid) 256 in
      Ret (key2_of_bytes <$> keys)
  end.

Definition generate_key_expansion_tls_export (ekm : bytes -> Z -> option bytes) : option key2 :=
  key2_of_bytes <$> ekm EXPORT_KEY_DATA_LABEL 256.

Definition init_epoch_keys (co : crypto_options) (kt : key_type) (server : bool) (k2 : key2) : res crypto_options :=
  let! kds := key_direction_state_init (if server then KEY_DIRECTION_INVERSE else KEY_DIRECTION_NORMAL) in
  let! ks := arr_get (key2_keys k2) (out_key kds) in
  let! kr := arr_get (key2_keys k2) (in_key kds) in
  let! es := mem_read (k_cipher ks) 0 32 in
  let! er := mem_read (k_cipher kr) 0 32 in
  epoch_init_key_ctx co kt (mk_ek es 1) (mk_ek er 1) 16.

(** [dco]: the result of installing the key in the kernel, if the data channel is there. *)
Definition init_key_contexts (dco : option Z) (crypto_flags : Z) (kt : key_type) (server : bool) (k2 : key2)
    (co : crypto_options) : res crypto_options :=
  let key_direction := if server then KEY_DIRECTION_INVERSE else KEY_DIRECTION_NORMAL in
  match dco with
  | Some ret =>
      match ctx_hmac (bi_encrypt (co_keys co)) with
      | Some _ => Fatal
      | None => if ret <? 0 then Fatal else Ret (set_keys co (mk_bi ctx_zero ctx_zero true))
      end
  | None =>
      if flag_set crypto_flags CO_EPOCH_DATA_KEY_FORMAT then
        if negb (cipher_kt_mode_aead (kt_cipher kt)) then Fatal else init_epoch_keys co kt server k2
      else let! key := init_key_ctx_bi k2 key_direction kt in Ret (set_keys co key)
  end.

Definition check_keys (k2 : key2) (kt : key_type) : res bool :=
  let! k0 := arr_get (key2_keys k2) 0 in
  let! ok := check_key k0 kt in
  if negb ok then Ret false
  else let! k1 := arr_get (key2_keys k2) 1 in check_key k1 kt.

Definition generate_key_expansion (prf : bytes -> bytes -> Z -> option bytes) (ekm : bytes -> Z -> option bytes)
    (dco : option Z) (crypto_flags : Z) (kt : key_type) (server : bool) (session_id session_id_remote : session_id)
    (key_src : key_source2) (co : crypto_options) : res (bool * crypto_options) :=
  if bi_initialized (co_keys co) then Ret (false, co)
  else
    let! k2 := (if flag_set crypto_flags CO_USE_TLS_KEY_MATERIAL_EXPORT
                then Ret (generate_key_expansion_tls_export ekm)
                else generate_key_expansion_openvpn_prf prf server session_id session_id_remote key_src) in
    match k2 with
    | None => Ret (false, co)
    | Some k2 =>
        let! ok := check_keys k2 kt in
        if negb ok then Ret (false, co)
        else let! co := init_key_contexts dco crypto_flags kt server k2 co in Ret (true, co)
    end.

(** ** Strings on the wire *)
Definition string16 (s : bytes) : bytes := be_bytes 2 (Zlen s + 1) ++ s ++ [0].
Definition opt_string16 (s : option bytes) : bytes := match s with Some s => string16 s | None => be_bytes 2 0 end.

Lemma Zlen_string16 s : Zlen (string16 s) = Zlen s + 3.
Proof. unfold string16. rewrite !Zlen_app, Zlen_be_bytes. change (Zlen [0]) with 1. lia. Qed.
Lemma string16_ok s : bytes_ok s -> bytes_ok (string16 s).
Proof. intros H. apply bytes_ok_app. split; [apply be_bytes_ok|]. apply bytes_ok_app. split; [done|by_eval]. Qed.

Lemma write_string_repr b h c t s maxlen :
  buf_repr b h c t -> bytes_ok s -> Zlen s + 3 <= t -> Zlen s + 1 < 65536 -> maxlen < 0 \/ Zlen s + 1 <= maxlen ->
  exists b', write_string b s maxlen = Ret (true, b') /\ buf_repr b' h (c ++ string16 s) (t - Zlen (string16 s)).
Proof.
  intros Hb Hs Ht Hl Hm. pose proof (Zlen_nonneg s). unfold write_string.
  rewrite u64_id by (unfold is_u64; lia). rewrite s32_id by (unfold is_int, INT_MIN, INT_MAX; lia).
  assert (E : (Zlen s + 1 <? 1) || ((0 <=? maxlen) && (maxlen <? Zlen s + 1)) = false).
  { apply orb_false_iff. split; [apply Z.ltb_ge; lia|]. apply andb_false_iff. rewrite Z.leb_gt, Z.ltb_ge. lia. }
  rewrite E. unfold buf_write_u16, and_then.
  destruct (buf_write_repr _ _ _ _ Hb (be_bytes 2 (Zlen s + 1))) as (b1 & -> & H1); [apply be_bytes_ok|rewrite Zlen_be_bytes; lia|].
  cbn [res_bind]. rewrite Zlen_be_bytes in H1.
  destruct (buf_write_repr _ _ _ _ H1 (s ++ [0])) as (b2 & -> & H2).
  { apply bytes_ok_app. split; [done|by_eval]. } { rewrite Zlen_app. change (Zlen [0]) with 1. lia. }
  exists b2. split; [done|]. unfold string16. rewrite <- app_assoc in H2. rewrite (Zlen_app (be_bytes _ _)), Zlen_be_bytes. rewrite Z.sub_add_distr. done.
Qed.

Lemma write_empty_repr b h c t :
  buf_repr b h c t -> 2 <= t -> exists b', write_empty_string b = Ret (true, b') /\ buf_repr b' h (c ++ be_bytes 2 0) (t - 2).
Proof.
  intros Hb Ht. destruct (buf_write_repr _ _ _ _ Hb (be_bytes 2 0)) as (b1 & E & H1); [apply be_bytes_ok|rewrite Zlen_be_bytes; lia|].
  exists b1. rewrite Zlen_be_bytes in H1. done.
Qed.

Lemma read_u16_repr b h x c t :
  buf_repr b h (be_bytes 2 x ++ c) t -> is_u16 x -> exists b', buf_read_u16 b = Ret (x, b') /\ buf_repr b' (h + 2) c t.
Proof.
  intros Hb Hx. destruct (buf_read_repr _ _ _ _ Hb 2) as (b' & E & H).
  { rewrite Zlen_app, Zlen_be_bytes. pose proof (Zlen_nonneg c). lia. }
  exists b'. unfold buf_read_u16. rewrite E. cbn [res_bind].
  change (Z.to_nat 2) with (length (be_bytes 2 x)) in *. rewrite take_app_length in *. rewrite drop_app_length in H.
  rewrite be_val_bytes, Z.mod_small by exact Hx. done.
Qed.

(** The C string in front of the NUL. *)
Lemma until_end s : 0 ∉ s -> until 0 s = s.
Proof.
  induction s as [|x s IH]; [done|]. intros [Hx H]%not_elem_of_cons. cbn [until].
  rewrite (proj2 (Z.eqb_neq x 0)), IH by congruence. done.
Qed.
Lemma until_taken s c : 0 ∉ s -> until 0 (take (Z.to_nat (Zlen s + 1 - 1)) (take (Z.to_nat (Zlen s + 1)) (s ++ 0 :: c))) = s.
Proof.
  intros Hs. rewrite take_take. replace (Init.Nat.min _ _) with (length s) by (unfold Zlen; lia).
  rewrite take_app_length. by apply until_end.
Qed.

Lemma read_body b h s c t :
  buf_repr b h (s ++ 0 :: c) t ->
  exists b', buf_read b (Zlen s + 1) = Ret (Some (take (Z.to_nat (Zlen s + 1)) (s ++ 0 :: c)), b') /\ buf_repr b' (h + (Zlen s + 1)) c t.
Proof.
  intros Hb. pose proof (Zlen_nonneg s). pose proof (Zlen_nonneg c).
  destruct (buf_read_repr _ _ _ _ Hb (Zlen s + 1)) as (b' & E & H1); [rewrite Zlen_app, Zlen_cons; lia|].
  exists b'. split; [done|]. rewrite drop_app_ge in H1 by (unfold Zlen; lia).
  replace (Z.to_nat (Zlen s + 1) - length s)%nat with 1%nat in H1 by (unfold Zlen; lia). done.
Qed.

Lemma read_string_repr b h s c t cap :
  buf_repr b h (string16 s ++ c) t -> (0 ∉ s) -> Zlen s + 1 <= cap -> Zlen s + 1 < 65536 ->
  exists b', read_string b cap = Ret (Zlen s + 1, Some s, b') /\ buf_repr b' (h + Zlen (string16 s)) c t.
Proof.
  intros Hb Hs Hc Hl. pose proof (Zlen_nonneg s). rewrite Zlen_string16. unfold string16 in Hb. rewrite <- !app_assoc in Hb. cbn [app] in Hb.
  destruct (read_u16_repr _ _ _ _ _ Hb) as (b1 & E1 & H1); [unfold is_u16; lia|].
  unfold read_string. rewrite E1. cbn [res_bind].
  assert (E : (Zlen s + 1 <? 1) || (cap <? Zlen s + 1) = false).
  { apply orb_false_iff. rewrite !Z.ltb_ge. lia. }
  rewrite E. destruct (read_body _ _ _ _ _ H1) as (b2 & -> & H2). cbn [res_bind]. rewrite until_taken by done.
  exists b2. split; [done|]. by replace (h + (Zlen s + 3)) with (h + 2 + (Zlen s + 1)) by lia.
Qed.

Lemma read_empty_repr b h c t cap :
  buf_repr b h (be_bytes 2 0 ++ c) t -> exists b', read_string b cap = Ret (0, None, b') /\ buf_repr b' (h + 2) c t.
Proof.
  intros Hb. destruct (read_u16_repr _ _ _ _ _ Hb) as (b1 & E1 & H1); [unfold is_u16; lia|].
  unfold read_string. rewrite E1. cbn [res_bind orb]. change (0 <? 1) with true. cbn [orb].
  destruct (buf_advance_repr _ _ _ _ H1 0) as (b2 & -> & H2); [pose proof (Zlen_nonneg c); lia|].
  exists b2. split; [done|]. by rewrite Z.add_0_r in H2.
Qed.

Lemma read_alloc_repr b h s c t :
  buf_repr b h (opt_string16 s ++ c) t -> match s with Some s => (0 ∉ s) /\ Zlen s + 1 < 65536 | None => True end ->
  exists b', read_string_alloc b = Ret (s, b') /\ buf_repr b' (h + Zlen (opt_string16 s)) c t.
Proof.
  destruct s as [s|]; cbn [opt_string16]; intros Hb Hs; unfold read_string_alloc.
  - destruct Hs as [Hs Hl]. pose proof (Zlen_nonneg s). rewrite Zlen_string16. unfold string16 in Hb. rewrite <- !app_assoc in Hb. cbn [app] in Hb.
    destruct (read_u16_repr _ _ _ _ _ Hb) as (b1 & -> & H1); [unfold is_u16; lia|]. cbn [res_bind].
    rewrite (proj2 (Z.ltb_ge _ _)) by lia. destruct (read_body _ _ _ _ _ H1) as (b2 & -> & H2). cbn [res_bind].
    rewrite until_taken by done. exists b2. split; [done|]. by replace (h + (Zlen s + 3)) with (h + 2 + (Zlen s + 1)) by lia.
  - destruct (read_u16_repr _ _ _ _ _ Hb) as (b1 & -> & H1); [unfold is_u16; lia|]. cbn [res_bind]. eauto.
Qed.

(** ** The message on the wire *)
Definition source_bytes (server : bool) (k : key_source) : bytes := (if server then [] else pre_master k) ++ random1 k ++ random2 k.
Definition cred_bytes (creds : option (bytes * bytes)) : bytes :=
  match creds with Some (user, pass) => string16 user ++ string16 pass | None => be_bytes 2 0 ++ be_bytes 2 0 end.
Definition km_message (server : bool) (k : key_source) (opts : bytes) (creds : option (bytes * bytes)) (info : option bytes) : bytes :=
  be_bytes 4 0 ++ [2] ++ source_bytes server k ++ string16 opts ++ cred_bytes creds ++ opt_string16 info.

(** Random material of the right size. *)
Definition rand_ok (rand : Z -> Z -> option bytes) : Prop := forall i n, 0 <= n -> exists l, rand i n = Some l /\ Zlen l = n /\ bytes_ok l.
Definition drawn (rand : Z -> Z -> option bytes) (server : bool) : key_source :=
  mk_src (if server then replicate 48 0 else default [] (rand 0 48)) (default [] (rand 1 32)) (default [] (rand 2 32)).
Record src_wf (server : bool) (k : key_source) : Prop := {
  sw_pre : if server then pre_master k = replicate 48 0 else Zlen (pre_master k) = 48;
  sw_random : Zlen (random1 k) = 32 /\ Zlen (random2 k) = 32;
  sw_bytes : bytes_ok (source_bytes server k)
}.

Lemma drawn_wf rand server : rand_ok rand -> src_wf server (drawn rand server).
Proof.
  intros H. destruct (H 0 48) as (l0 & E0 & L0 & O0); [lia|]. destruct (H 1 32) as (l1 & E1 & L1 & O1); [lia|].
  destruct (H 2 32) as (l2 & E2 & L2 & O2); [lia|]. unfold drawn. rewrite E0, E1, E2. cbn [default].
  split; cbn [pre_master random1 random2 source_bytes]; [by destruct server|done|].
  unfold source_bytes. cbn. apply bytes_ok_app. split; [destruct server; [constructor|done]|]. by apply bytes_ok_app.
Qed.

Lemma random_to_buf_repr rand i n b h c t :
  rand_ok rand -> 0 <= n <= t -> buf_repr b h c t ->
  exists b' l, random_bytes_to_buf (rand i n) b = Ret (true, l, b') /\ rand i n = Some l /\ buf_repr b' h (c ++ l) (t - n).
Proof.
  intros Hr Hn Hb. destruct (Hr i n) as (l & E & Hl & Ho); [lia|]. unfold random_bytes_to_buf. rewrite E.
  destruct (buf_write_repr _ _ _ _ Hb l Ho) as (b' & -> & H); [lia|]. rewrite Hl in H. eauto.
Qed.

Lemma randomize_spec rand k2 b h c t server :
  rand_ok rand -> buf_repr b h c t -> 112 <= t ->
  exists b' t', key_source2_randomize_write rand k2 b server = Ret (true, set_src k2 server (drawn rand server), b')
    /\ buf_repr b' h (c ++ source_bytes server (drawn rand server)) t' /\ t' = t - Zlen (source_bytes server (drawn rand server)).
Proof.
  intros Hr Hb Ht. pose proof (drawn_wf rand server Hr) as [Hp [H1 H2] _].
  assert (Hlen : Zlen (source_bytes server (drawn rand server)) = if server then 64 else 112).
  { unfold source_bytes. rewrite !Zlen_app, H1, H2. destruct server; [done|]. rewrite Hp. done. }
  rewrite Hlen. unfold key_source2_randomize_write.
  assert (exists b1 c1 t1, (if negb server then
       let! (ok, out, buf) := random_bytes_to_buf (rand 0 48) b in Ret (ok, mk_src out (random1 src_zero) (random2 src_zero), buf)
     else Ret (true, src_zero, b)) = Ret (true, mk_src (pre_master (drawn rand server)) (replicate 32 0) (replicate 32 0), b1)
     /\ buf_repr b1 h (c ++ c1) t1 /\ t1 = t - (if server then 0 else 48) /\ c1 = if server then [] else pre_master (drawn rand server))
    as (b1 & c1 & t1 & -> & Hb1 & -> & ->).
  { destruct server; cbn [negb].
    - exists b, [], t. rewrite app_nil_r, Z.sub_0_r. done.
    - destruct (random_to_buf_repr rand 0 48 b h c t Hr ltac:(lia) Hb) as (b1 & l & -> & E & H). cbn [res_bind].
      exists b1, l, (t - 48). unfold drawn. rewrite E. done. }
  cbn [res_bind negb].
  assert (Hroom : 64 <= t - (if server then 0 else 48)) by (destruct server; lia).
  edestruct (random_to_buf_repr rand 1 32 b1) as (b2 & l1 & -> & E1 & Hb2); [done| |exact Hb1|]; [lia|]. cbn [res_bind negb].
  edestruct (random_to_buf_repr rand 2 32 b2) as (b3 & l2 & -> & E2 & Hb3); [done| |exact Hb2|]; [lia|]. cbn [res_bind negb].
  exists b3, (t - (if server then 0 else 48) - 32 - 32). unfold source_bytes, drawn in *. rewrite E1, E2 in *. cbn [default pre_master random1 random2 from_option id] in *.
  split; [done|]. rewrite <- !app_assoc in Hb3. split; [done|]. destruct server; lia.
Qed.

Lemma source_read_spec k2 k b h c t server :
  buf_repr b h (source_bytes (negb server) k ++ c) t -> src_wf (negb server) k ->
  exists b', key_source2_read k2 b server = Ret (true, set_src k2 (negb server) k, b')
    /\ buf_repr b' (h + Zlen (source_bytes (negb server) k)) c t.
Proof.
  intros Hb [Hp [H1 H2] _]. unfold source_bytes in *. rewrite <- !app_assoc in Hb. unfold key_source2_read.
  assert (Hread : forall b h l c n, buf_repr b h (l ++ c) t -> Zlen l = n ->
            exists b', buf_read b n = Ret (Some l, b') /\ buf_repr b' (h + n) c t).
  { intros b0 h0 l c0 n Hb0 Hl. destruct (buf_read_repr _ _ _ _ Hb0 n) as (b' & E & H).
    { rewrite Zlen_app. pose proof (Zlen_nonneg c0). pose proof (Zlen_nonneg l). lia. }
    rewrite <- Hl, to_nat_Zlen, take_app_length in E. rewrite <- Hl, to_nat_Zlen, drop_app_length in H. rewrite <- Hl. eauto. }
  assert (exists b1 h1, (if server then
       let! (r, buf) := buf_read b 48 in
       Ret (match r with Some l => (true, mk_src l (random1 src_zero) (random2 src_zero), buf) | None => (false, src_zero, buf) end)
     else Ret (true, src_zero, b)) = Ret (true, mk_src (pre_master k) (replicate 32 0) (replicate 32 0), b1)
     /\ buf_repr b1 h1 (random1 k ++ random2 k ++ c) t /\ h1 = h + Zlen (if negb server then [] else pre_master k))
    as (b1 & h1 & -> & Hb1 & ->).
  { destruct server; cbn [negb] in *.
    - destruct (Hread b h (pre_master k) (random1 k ++ random2 k ++ c) 48 Hb Hp) as (b1 & -> & Hb1). cbn [res_bind]. exists b1, (h + 48). by rewrite Hp.
    - exists b, h. unfold src_zero. rewrite Hp. change (Zlen []) with 0. rewrite Z.add_0_r. done. }
  cbn [res_bind negb]. destruct (Hread _ _ _ _ 32 Hb1 H1) as (b2 & -> & Hb2). cbn [res_bind].
  destruct (Hread _ _ _ _ 32 Hb2 H2) as (b3 & -> & Hb3). cbn [res_bind random1 pre_master random2].
  exists b3. destruct k as [p r1 r2]. split; [done|]. rewrite !Zlen_app. cbn [random1 random2] in *. rewrite H1, H2.
  replace (h + (_ + (32 + 32))) with (h + Zlen (if negb server then [] else p) + 32 + 32) by (cbn; lia). done.
Qed.

(** Strings that both ends can handle. *)
Definition creds_ok (creds : option (bytes * bytes)) : Prop :=
  match creds with
  | Some (user, pass) => ctext user /\ ctext pass /\ Zlen user < USER_PASS_LEN /\ Zlen pass < USER_PASS_LEN
  | None => True
  end.
(** What a peer sends; it is not in the peer-to-peer mode or this is not the first key, so that
    there is no negotiation after it. *)
Record km_sender (rand : Z -> Z -> option bytes) (creds : option (bytes * bytes)) (o : km_options) (m : km_multi)
    (info : option bytes) : Prop := {
  se_rand : rand_ok rand;
  se_options : ctext (km_local_options o) /\ Zlen (km_local_options o) < TLS_OPTIONS_LEN;
  se_creds : creds_ok creds;
  se_info : peer_info_text (km_host o) (km_info o) = Ret info;
  se_info_text : match info with Some s => ctext s /\ Zlen s + 1 < 65536 | None => True end;
  se_migrate : km_remote_usescomp m && io_mode_server (km_info o) && flag_set (io_comp_flags (km_info o)) COMP_F_MIGRATE = false;
  se_mode : km_server o && negb (io_mode_server (km_info o)) && (km_key_id o =? 0) = false
}.
#[local] Abbreviation sent rand creds o info :=
  (km_message (km_server o) (drawn rand (km_server o)) (km_local_options o) creds info).

Lemma creds_write creds b h c t (k : buffer -> res (bool * buffer)) :
  buf_repr b h c t -> creds_ok creds -> Zlen (cred_bytes creds) <= t ->
  exists b', and_then (match creds with
                       | Some (user, pass) => and_then (write_string b user (-1)) (fun buf => write_string buf pass (-1))
                       | None => and_then (write_empty_string b) write_empty_string
                       end) k = k b'
    /\ buf_repr b' h (c ++ cred_bytes creds) (t - Zlen (cred_bytes creds)).
Proof.
  intros Hb Hc Ht. destruct creds as [[user pass]|]; cbn [cred_bytes] in *.
  - destruct Hc as ([Hu _] & [Hp _] & Lu & Lp). unfold USER_PASS_LEN in *. rewrite Zlen_app, !Zlen_string16 in Ht. pose proof (Zlen_nonneg pass).
    destruct (write_string_repr _ _ _ _ user (-1) Hb) as (b1 & -> & H1); [done|lia|lia|lia|]. cbn [and_then res_bind].
    destruct (write_string_repr _ _ _ _ pass (-1) H1) as (b2 & -> & H2); [done|rewrite Zlen_string16; lia|lia|lia|]. cbn [and_then res_bind].
    exists b2. split; [done|]. rewrite Zlen_app, Z.sub_add_distr, app_assoc. done.
  - rewrite Zlen_app, !Zlen_be_bytes in Ht.
    destruct (write_empty_repr _ _ _ _ Hb) as (b1 & -> & H1); [lia|]. cbn [and_then res_bind].
    destruct (write_empty_repr _ _ _ _ H1) as (b2 & -> & H2); [lia|]. cbn [and_then res_bind].
    exists b2. split; [done|]. rewrite Zlen_app, !Zlen_be_bytes, app_assoc, Z.sub_add_distr. done.
Qed.

Lemma info_write rand creds o m info b h c t :
  km_sender rand creds o m info -> buf_repr b h c t -> Zlen (opt_string16 info) <= t ->
  exists b', push_peer_info o b = Ret (true, b') /\ buf_repr b' h (c ++ opt_string16 info) (t - Zlen (opt_string16 info)).
Proof.
  intros [_ _ _ Hi Ht _ _] Hb Hl. unfold push_peer_info. rewrite Hi. cbn [res_bind]. destruct info as [i|]; cbn [opt_string16] in *.
  - destruct Ht as [[Ht _] Hlen]. rewrite Zlen_string16 in Hl. apply write_string_repr; try done; lia.
  - rewrite Zlen_be_bytes in *. apply write_empty_repr; [done|lia].
Qed.

Lemma Zlen_source server k : src_wf server k -> Zlen (source_bytes server k) = if server then 64 else 112.
Proof. intros [Hp [H1 H2] _]. unfold source_bytes. rewrite !Zlen_app, H1, H2. destruct server; [done|]. rewrite Hp. done. Qed.

Lemma key_method_2_write_spec fresh ekm rand creds o m info buf src :
  km_sender rand creds o m info -> buf_wf buf -> b_data buf <> None -> b_capacity buf < 65536 ->
  Zlen (sent rand creds o info) + 48 <= b_capacity buf ->
  exists b' t, key_method_2_write fresh ekm rand creds o buf src m
             = Ret (true, b', set_src src (km_server o) (drawn rand (km_server o)), m)
    /\ buf_repr b' 0 (sent rand creds o info) t.
Proof.
  intros Hs Hwf Hd Hc Hfit. pose proof Hs as [Hrand [[Ho _] Hol] Hcr _ _ Hmig Hmode].
  pose proof (drawn_wf rand (km_server o) Hrand) as Hwfs. pose proof (Zlen_source _ _ Hwfs) as Hsrc.
  unfold km_message in *. rewrite !Zlen_app, Zlen_be_bytes, Zlen_string16, Hsrc in Hfit. change (Zlen [2]) with 1 in Hfit.
  pose proof (Zlen_nonneg (cred_bytes creds)) as P1. pose proof (Zlen_nonneg (opt_string16 info)) as P2. pose proof (Zlen_nonneg (km_local_options o)) as P3.
  assert (Hi : exists b0, buf_init_dowork buf 0 = (true, b0) /\ buf_repr b0 0 [] (b_capacity buf)).
  { destruct (buf_init_repr buf 0 Hwf Hd) as (b0 & E & H0); [destruct (km_server o); lia|]. rewrite Z.sub_0_r in H0. eauto. }
  destruct Hi as (b0 & Ei & H0). unfold key_method_2_write. rewrite Ei. unfold buf_write_u32, buf_write_u8.
  assert (Hroom : 112 <= b_capacity buf - 5) by (destruct (km_server o); lia).
  destruct (buf_write_repr _ _ _ _ H0 (be_bytes 4 0)) as (b1 & -> & H1); [apply be_bytes_ok|rewrite Zlen_be_bytes; lia|].
  rewrite Zlen_be_bytes in H1. rewrite and_then_true.
  destruct (buf_write_repr _ _ _ _ H1 [u8 KEY_METHOD_2]) as (b2 & -> & H2); [by_eval|change (Zlen [u8 KEY_METHOD_2]) with 1; lia|].
  cbn [res_bind negb]. change (Zlen [u8 KEY_METHOD_2]) with 1 in H2.
  destruct (randomize_spec rand src b2 _ _ _ (km_server o) Hrand H2) as (b3 & t3 & -> & H3 & Et3); [lia|]. cbn [res_bind negb].
  rewrite Hsrc in Et3. rewrite Hmig. cbn [res_bind].
  destruct (write_string_repr _ _ _ _ (km_local_options o) TLS_OPTIONS_LEN H3) as (b4 & -> & H4);
    [done|destruct (km_server o); lia|unfold TLS_OPTIONS_LEN in *; lia|lia|]. rewrite and_then_true. rewrite Zlen_string16 in H4.
  destruct (creds_write creds b4 _ _ _ (push_peer_info o) H4 Hcr) as (b5 & E5 & H5); [destruct (km_server o); lia|]. rewrite E5.
  destruct (info_write _ _ _ _ _ b5 _ _ _ Hs H5) as (b6 & -> & H6); [destruct (km_server o); lia|]. cbn [res_bind negb].
  rewrite Hmode. cbn [res_bind]. eexists b6, _. split; [done|]. rewrite <- !app_assoc in H6. exact H6.
Qed.

Definition cred_len (s : option bytes) : Z := match s with Some s => Zlen s + 1 | None => 0 end.
(** How the other side judges the message. *)
Definition km_verdict (ac : auth_checks) (o : km_options) (options : bytes) (creds : option (bytes * bytes)) : option ks_auth_state :=
  a ← authenticate ac (km_ssl_flags o) (cred_len (fst <$> creds)) (cred_len (snd <$> creds))
        (default [] (fst <$> creds)) (default [] (snd <$> creds));
  let a := if auth_positive a then ac_final_checks ac a else a in
  let a := if negb (options_cmp_equal options (km_remote_options o)) && flag_set (km_ssl_flags o) SSLF_OPT_VERIFY
           then KS_AUTH_FALSE else a in
  Some (match ac_plugin ac with
        | Some success => if auth_positive a && negb success then KS_AUTH_FALSE else a
        | None => a
        end).

Lemma buf_clear_repr b h c t : buf_repr b h c t -> exists b', buf_clear b = Ret b' /\ b_len b' = 0 /\ buf_wf b'.
Proof.
  intros (pre & post & (Hd & Ho & Hl & Hc & Hm & O1 & O2 & O3) & _ & _).
  pose proof (Zlen_nonneg pre). pose proof (Zlen_nonneg c). pose proof (Zlen_nonneg post).
  assert (Hz : Zlen (replicate (Z.to_nat (b_capacity b)) 0) = b_capacity b) by (unfold Zlen; rewrite length_replicate; lia).
  assert (Oz : bytes_ok (replicate (Z.to_nat (b_capacity b)) 0)) by (apply Forall_replicate; unfold is_u8; lia).
  unfold buf_clear. destruct (Z.ltb_spec 0 (b_capacity b)).
  - pose proof (buf_poke_split b [] (pre ++ c ++ post) [] (replicate (Z.to_nat (b_capacity b)) 0)) as E.
    change (Zlen []) with 0 in E. rewrite E; [|by rewrite app_nil_r|rewrite Hz, !Zlen_app; lia]. cbn [res_bind].
    eexists. split; [reflexivity|]. split; [done|]. unfold buf_wf; cbn. rewrite app_nil_r. repeat split; try done; lia.
  - eexists. split; [reflexivity|]. split; [done|]. unfold buf_wf; cbn. rewrite Hd, !Zlen_app, !bytes_ok_app. repeat split; try done; lia.
Qed.

Lemma creds_read creds b h c t :
  buf_repr b h (cred_bytes creds ++ c) t -> creds_ok creds ->
  exists b1 b2 h2, read_string b USER_PASS_LEN = Ret (cred_len (fst <$> creds), fst <$> creds, b1)
    /\ read_string b1 USER_PASS_LEN = Ret (cred_len (snd <$> creds), snd <$> creds, b2) /\ buf_repr b2 h2 c t.
Proof.
  intros Hb Hc. destruct creds as [[user pass]|]; cbn [cred_bytes] in Hb; rewrite <- app_assoc in Hb.
  - destruct Hc as ([_ Hu] & [_ Hp] & Lu & Lp). unfold USER_PASS_LEN in *.
    destruct (read_string_repr _ _ _ _ _ 128 Hb Hu) as (b1 & E1 & H1); [lia|lia|].
    destruct (read_string_repr _ _ _ _ _ 128 H1 Hp) as (b2 & E2 & H2); [lia|lia|]. eauto 10.
  - destruct (read_empty_repr _ _ _ _ USER_PASS_LEN Hb) as (b1 & E1 & H1).
    destruct (read_empty_repr _ _ _ _ USER_PASS_LEN H1) as (b2 & E2 & H2). eauto 10.
Qed.

Lemma km_judge_spec ekm ac o b h c t src options creds m a :
  buf_repr b h c t -> negb (km_server o) && negb (io_pull (km_info o)) && (km_key_id o =? 0) = false ->
  km_verdict ac o options creds = Some a ->
  exists b', km_judge ekm ac o b src options (cred_len (fst <$> creds)) (cred_len (snd <$> creds))
               (default [] (fst <$> creds)) (default [] (snd <$> creds)) m = Ret (true, b', a, src, m) /\ b_len b' = 0.
Proof.
  intros Hb Hm Hv. unfold km_verdict, km_judge in *. destruct (authenticate _ _ _ _ _ _) as [a0|]; [|done]. cbn [mbind option_bind] in Hv.
  destruct (buf_clear_repr _ _ _ _ Hb) as (b' & -> & Hl & _). cbn [res_bind]. rewrite Hm. cbn [res_bind].
  exists b'. split; [|done]. do 4 f_equal. congruence.
Qed.

(** Up to the strings. *)
Lemma read_head ekm ac o src m k rb h c t :
  buf_repr rb h (be_bytes 4 0 ++ [2] ++ source_bytes (negb (km_server o)) k ++ c) t -> src_wf (negb (km_server o)) k ->
  exists b h2, buf_repr b h2 c t /\ key_method_2_read ekm ac o rb src m
    = let! (r, options, buf) := read_string b TLS_OPTIONS_LEN in
      if r <? 0 then km_read_error buf m
      else
        let options := default [] options in
        let! (username_len, username, buf) := read_string buf USER_PASS_LEN in
        let! (password_len, password, buf) := read_string buf USER_PASS_LEN in
        let! (peer_info, buf) := read_string_alloc buf in
        km_judge ekm ac o buf (set_src src (negb (km_server o)) k) options username_len password_len (default [] username)
          (default [] password) (km_announced options peer_info m).
Proof.
  intros Hb Hk. unfold key_method_2_read.
  destruct (buf_advance_repr _ _ _ _ Hb 4) as (b1 & -> & H1).
  { rewrite Zlen_app, Zlen_be_bytes. match goal with |- context [Zlen ?l] => pose proof (Zlen_nonneg l) end. lia. }
  change (Z.to_nat 4) with (length (be_bytes 4 0)) in H1. rewrite drop_app_length in H1. cbn [negb app] in *.
  destruct (buf_read_u8_cons _ _ _ _ _ H1) as (b2 & -> & H2). cbn [res_bind].
  change (negb (Z.land 2 KEY_METHOD_MASK =? 2)) with false. cbv iota.
  destruct (source_read_spec src k _ _ _ _ (km_server o) H2 Hk) as (b3 & -> & H3). cbn [res_bind negb]. eauto.
Qed.

Lemma key_method_2_read_spec ekm ac o rb src m k opts creds info h t a :
  buf_repr rb h (km_message (negb (km_server o)) k opts creds info) t -> src_wf (negb (km_server o)) k ->
  ctext opts -> Zlen opts < TLS_OPTIONS_LEN -> creds_ok creds ->
  match info with Some s => ctext s /\ Zlen s + 1 < 65536 | None => True end ->
  negb (km_server o) && negb (io_pull (km_info o)) && (km_key_id o =? 0) = false ->
  km_verdict ac o opts creds = Some a ->
  exists b', key_method_2_read ekm ac o rb src m
             = Ret (true, b', a, set_src src (negb (km_server o)) k, km_announced opts info m) /\ b_len b' = 0.
Proof.
  intros Hb Hk [_ Ho] Hol Hcr Hi Hmode Hv. unfold km_message in Hb.
  destruct (read_head ekm ac o src m k _ _ _ _ Hb Hk) as (b3 & h3 & H3 & ->). unfold TLS_OPTIONS_LEN in *.
  destruct (read_string_repr _ _ _ _ _ 512 H3 Ho) as (b4 & -> & H4); [lia|lia|]. cbn [res_bind].
  pose proof (Zlen_nonneg opts). rewrite (proj2 (Z.ltb_ge _ _)) by lia. cbn [default].
  destruct (creds_read creds _ _ _ _ H4 Hcr) as (b5 & b6 & h6 & -> & E6 & H6). cbn [res_bind]. rewrite E6. cbn [res_bind].
  rewrite <- (app_nil_r (opt_string16 info)) in H6.
  destruct (read_alloc_repr _ _ info [] _ H6) as (b7 & -> & H7); [by destruct info as [i|]; [destruct Hi as [[_ ?] ?]|]|]. cbn [res_bind].
  by apply (km_judge_spec ekm ac o b7 _ _ _ _ opts creds _ a H7).
Qed.

(** ** The exchange *)

(** A buffer of the size of the control channel. *)
Definition plain_buf (b : buffer) : Prop := buf_wf b /\ b_data b <> None /\ b_capacity b = 2048.

(** A peer writes into [wb] and the message arrives in [rb]. *)
Definition arrives (wb rb : buffer) : Prop := exists h t, buf_repr rb h (contents wb) t.

Lemma exchange_step fresh ekm1 ekm2 rand creds o m info wb src rb o' ac src' m' a :
  km_sender rand creds o m info -> plain_buf wb -> Zlen (sent rand creds o info) <= 2000 -> km_server o' = negb (km_server o) ->
  negb (km_server o') && negb (io_pull (km_info o')) && (km_key_id o' =? 0) = false ->
  km_verdict ac o' (km_local_options o) creds = Some a ->
  exists wb', key_method_2_write fresh ekm1 rand creds o wb src m
              = Ret (true, wb', set_src src (km_server o) (drawn rand (km_server o)), m)
    /\ (arrives wb' rb ->
        exists rb', key_method_2_read ekm2 ac o' rb src' m'
                    = Ret (true, rb', a, set_src src' (km_server o) (drawn rand (km_server o)), km_announced (km_local_options o) info m')).
Proof.
  intros Hs (Hwf & Hd & Hc) Hlen Hside Hmode Hv. pose proof Hs as [Hrand [Ho Hol] Hcr _ Hi _ _].
  destruct (key_method_2_write_spec fresh ekm1 rand creds o m info wb src Hs Hwf Hd) as (wb' & t & E & Hw); [lia|lia|].
  exists wb'. split; [done|]. intros (h & t' & Hr). rewrite (buf_repr_contents _ _ _ _ Hw) in Hr.
  assert (Hn : km_server o = negb (km_server o')) by (rewrite Hside; by destruct (km_server o)). rewrite Hn in *.
  destruct (key_method_2_read_spec ekm2 ac o' rb src' m' _ _ _ _ _ _ a Hr (drawn_wf _ _ Hrand) Ho Hol Hcr Hi Hmode Hv) as (rb' & Er & _).
  eauto.
Qed.

(** Two sources of key material that belong together give the same keys. *)
Lemma expansion_agrees prf sidc sids src :
  generate_key_expansion_openvpn_prf prf false sidc sids src = generate_key_expansion_openvpn_prf prf true sids sidc src.
Proof. done. Qed.

(** C22: in the exchange of key method 2 the client's message and then the server's message arrive:
    each side reads what the other one wrote, options, credentials and peer information included,
    and judges it by its checks; at the end both hold the same random material, the client's half
    and the server's half, and derive from it and the two session identifiers the same keys. *)
Theorem key_exchange_agrees (fresh : Z -> bytes) (ekm_c ekm_s : bytes -> Z -> option bytes) (prf : bytes -> bytes -> Z -> option bytes)
    (rand_c rand_s : Z -> Z -> option bytes) (creds_c creds_s : option (bytes * bytes)) (oc os : km_options) (mc ms : km_multi)
    (info_c info_s : option bytes) (ac_c ac_s : auth_checks) (a_c a_s : ks_auth_state) (sid_c sid_s : session_id)
    (wc ws rs rc : buffer) :
  let ms1 := km_announced (km_local_options oc) info_c ms in
  let mc1 := km_announced (km_local_options os) info_s mc in
  km_server oc = false -> km_server os = true -> negb (io_pull (km_info oc)) && (km_key_id oc =? 0) = false ->
  km_sender rand_c creds_c oc mc info_c -> km_sender rand_s creds_s os ms1 info_s ->
  plain_buf wc -> plain_buf ws ->
  Zlen (sent rand_c creds_c oc info_c) <= 2000 -> Zlen (sent rand_s creds_s os info_s) <= 2000 ->
  km_verdict ac_s os (km_local_options oc) creds_c = Some a_s -> km_verdict ac_c oc (km_local_options os) creds_s = Some a_c ->
  exists wc' ws' src_c src,
    key_method_2_write fresh ekm_c rand_c creds_c oc wc src2_zero mc = Ret (true, wc', src_c, mc)
    /\ (arrives wc' rs -> exists rs' src_s,
          key_method_2_read ekm_s ac_s os rs src2_zero ms = Ret (true, rs', a_s, src_s, ms1)
          /\ key_method_2_write fresh ekm_s rand_s creds_s os ws src_s ms1 = Ret (true, ws', src, ms1)
          /\ (arrives ws' rc -> exists rc',
                key_method_2_read ekm_c ac_c oc rc src_c mc = Ret (true, rc', a_c, src, mc1)))
    /\ src = mk_src2 (drawn rand_c false) (drawn rand_s true)
    /\ generate_key_expansion_openvpn_prf prf false sid_c sid_s src = generate_key_expansion_openvpn_prf prf true sid_s sid_c src.
Proof.
  cbv zeta. intros Hc Hs Hmode Sc Ss Wc Ws Lc Ls Vs Vc.
  destruct (exchange_step fresh ekm_c ekm_s rand_c creds_c oc mc info_c wc src2_zero rs os ac_s src2_zero ms a_s)
    as (wc' & Ew & Hr); try done; [by rewrite Hc|by rewrite Hs|].
  set (src_c := set_src src2_zero (km_server oc) (drawn rand_c (km_server oc))) in *.
  destruct (exchange_step fresh ekm_s ekm_c rand_s creds_s os (km_announced (km_local_options oc) info_c ms) info_s ws src_c rc oc ac_c src_c mc a_c)
    as (ws' & Ew2 & Hr2); try done; [by rewrite Hs|by rewrite Hc|].
  exists wc', ws', src_c. eexists. split; [done|]. split; [|split; [|apply expansion_agrees]].
  - intros Ha. destruct (Hr Ha) as (rs' & Er). exists rs', src_c. split; [exact Er|]. split; [exact Ew2|]. exact Hr2.
  - unfold src_c. rewrite Hc, Hs. done.
Qed.

(** ** The keys of the data channel *)
Lemma openvpn_PRF_spec prf secret label cs ss csid ssid n :
  bytes_ok label -> bytes_ok cs -> bytes_ok ss ->
  match csid with Some s => Zlen s = 8 /\ bytes_ok s | None => True end ->
  match ssid with Some s => Zlen s = 8 /\ bytes_ok s | None => True end ->
  Zlen label + Zlen cs + Zlen ss < 10000 ->
  openvpn_PRF prf secret label cs ss csid ssid n = Ret (prf (label ++ cs ++ ss ++ default [] csid ++ default [] ssid) secret n).
Proof.
  intros Ol Oc Os Hc Hs Hlen. unfold openvpn_PRF. pose proof (Zlen_nonneg label) as P1. pose proof (Zlen_nonneg cs) as P2. pose proof (Zlen_nonneg ss) as P3.
  change (SID_SIZE * 2) with 16. set (size := _ + 16).
  destruct (alloc_buf_repr size) as [E Hb]; [subst size; lia|]. unfold BUF_SIZE_MAX in *. rewrite (proj2 (Z.ltb_lt _ _)) in E by (subst size; lia).
  rewrite E. specialize (Hb ltac:(subst size; lia)). cbn [res_bind].
  destruct (buf_write_repr _ _ _ _ Hb label Ol) as (b1 & -> & H1); [subst size; lia|]. cbn [res_bind].
  destruct (buf_write_repr _ _ _ _ H1 cs Oc) as (b2 & -> & H2); [subst size; lia|]. cbn [res_bind].
  destruct (buf_write_repr _ _ _ _ H2 ss Os) as (b3 & -> & H3); [subst size; lia|]. cbn [res_bind].
  assert (Hopt : forall b c t (o : option session_id), buf_repr b 0 c t -> 8 <= t -> match o with Some s => Zlen s = 8 /\ bytes_ok s | None => True end ->
    exists b' t', match o with Some s => buf_write b s | None => Ret (true, b) end = Ret (true, b') /\ buf_repr b' 0 (c ++ default [] o) t' /\ t - 8 <= t').
  { intros b c t o Hr Ht Ho. destruct o as [s|].
    - destruct Ho as [Hl Ho]. destruct (buf_write_repr _ _ _ _ Hr s Ho) as (b' & -> & H'); [lia|]. exists b', (t - Zlen s). split; [done|]. split; [done|lia].
    - exists b, t. cbn. rewrite app_nil_r. split; [done|]. split; [done|lia]. }
  destruct (Hopt _ _ _ csid H3) as (b4 & t4 & -> & H4 & Ht4); [subst size; lia|done|]. cbn [res_bind].
  destruct (Hopt _ _ _ ssid H4) as (b5 & t5 & -> & H5 & _); [subst size; lia|done|]. cbn [res_bind].
  rewrite (buf_bytes_repr _ _ _ _ H5). cbn [res_bind]. by rewrite <- !app_assoc.
Qed.

(** Before the keys are installed: cleared contexts and an empty window. *)
Record no_keys (kt : key_type) (co : crypto_options) : Prop := {
  nk_kt : kt_ok kt;
  nk_initialized : bi_initialized (co_keys co) = false;
  nk_encrypt : ctx_epoch (bi_encrypt (co_keys co)) = 0;
  nk_retiring : ctx_epoch (co_retiring co) = 0;
  nk_flag : flag co CO_EPOCH_DATA_KEY_FORMAT = true;
  nk_window : hist (pid_rec (co_packet_id co)) [];
  nk_backtrack : backtrack_ok (pid_rec (co_packet_id co))
}.

Definition first_epoch (k : key) : epoch_key := mk_ek (take 32 (k_cipher k)) 1.

Lemma epoch_keys_channel `{DL : !DeriveLaws cipher_ctx hmac_ctx} `{AL : !AeadLaws cipher_ctx hmac_ctx} kt co server k0 k1 :
  no_keys kt co -> Zlen (k_cipher k0) = 64 -> Zlen (k_cipher k1) = 64 ->
  exists co', init_epoch_keys co kt server (mk_key2 2 [k0; k1]) = Ret co'
    /\ channel kt (first_epoch (if server then k1 else k0)) (first_epoch (if server then k0 else k1)) 16 1 1 co' [].
Proof.
  intros [Hkt _ He Hr Hf Hw Hb] L0 L1.
  assert (Hread : forall k, Zlen (k_cipher k) = 64 -> mem_read (k_cipher k) 0 32 = Ret (ek_key (first_epoch k)) /\ key_ok (first_epoch k)).
  { intros k Hl. split; [rewrite mem_read_ok by lia; done|]. split; [done|]. cbn. unfold Zlen in *. rewrite length_take. lia. }
  destruct (Hread k0 L0) as [E0 K0], (Hread k1 L1) as [E1 K1].
  unfold init_epoch_keys. destruct server;
    [change (key_direction_state_init KEY_DIRECTION_INVERSE) with (Ret (mk_kds 1 0 2))
    |change (key_direction_state_init KEY_DIRECTION_NORMAL) with (Ret (mk_kds 0 1 2))];
    cbn [res_bind out_key in_key key2_keys]; change (arr_get [k0; k1] 0) with (Ret k0); change (arr_get [k0; k1] 1) with (Ret k1);
    cbn [res_bind]; rewrite E0, E1; cbn [res_bind];
    apply session_channel; split; try done; unfold UINT16_MAX; lia.
Qed.

(** The key material both sides use. *)
Definition key_material (prf : bytes -> bytes -> Z -> option bytes) (ekm : bytes -> Z -> option bytes) (crypto_flags : Z)
    (server : bool) (sid sid_remote : session_id) (src : key_source2) : res (option key2) :=
  if flag_set crypto_flags CO_USE_TLS_KEY_MATERIAL_EXPORT then Ret (generate_key_expansion_tls_export ekm)
  else generate_key_expansion_openvpn_prf prf server sid sid_remote src.

(** Functions of the TLS library put out as many bytes as they are asked for. *)
Definition exact_lengths (prf : bytes -> bytes -> Z -> option bytes) (ekm : bytes -> Z -> option bytes) : Prop :=
  (forall seed secret n out, 0 <= n -> prf seed secret n = Some out -> Zlen out = n)
  /\ (forall label n out, 0 <= n -> ekm label n = Some out -> Zlen out = n).

Lemma key_material_shape prf ekm flags server sid sid' src k2 :
  exact_lengths prf ekm -> key_material prf ekm flags server sid sid' src = Ret (Some k2) ->
  exists k0 k1, k2 = mk_key2 2 [k0; k1] /\ Zlen (k_cipher k0) = 64 /\ Zlen (k_cipher k1) = 64.
Proof.
  intros [Hp He] H. assert (exists l, k2 = key2_of_bytes l /\ Zlen l = 256) as (l & -> & Hl).
  { unfold key_material in H. destruct (flag_set _ _).
    - unfold generate_key_expansion_tls_export in H. destruct (ekm _ _) as [l|] eqn:E; [|done].
      exists l. cbn [fmap option_fmap option_map] in H. split; [congruence|by apply (He EXPORT_KEY_DATA_LABEL 256)].
    - unfold generate_key_expansion_openvpn_prf in H. apply res_bind_Ret_inv in H as ([master|] & _ & H); [|done].
      apply res_bind_Ret_inv in H as ([l|] & Hk & H); [|done]. exists l. cbn [fmap option_fmap option_map] in H. split; [congruence|].
      unfold openvpn_PRF in Hk. 
      repeat (apply res_bind_Ret_inv in Hk as (? & _ & Hk) || (case_match; try discriminate Hk)). injection Hk as Hk. by apply (Hp _ _ 256 _) in Hk. }
  exists (key_of_bytes (take 128 l)), (key_of_bytes (drop 128 l)). split; [done|].
  unfold key_of_bytes, Zlen in *. cbn [k_cipher]. rewrite !length_take, length_drop. lia.
Qed.

(** C23: when both sides have exchanged the same material and agreed on epoch keys, the key
    expansion succeeds on both and installs matching keys: the first epoch key of the client's
    direction is the one the server receives with and the other way round, with the replay
    windows empty, so that the data channels of the two are peers from the first packet on. *)
Theorem derived_keys_match `{DL : !DeriveLaws cipher_ctx hmac_ctx} `{AL : !AeadLaws cipher_ctx hmac_ctx}
    (prf : bytes -> bytes -> Z -> option bytes) (ekm : bytes -> Z -> option bytes) (flags : Z) (kt : key_type)
    (sid_c sid_s : session_id) (src : key_source2) (coc cos : crypto_options) (k2 : key2) :
  no_keys kt coc -> no_keys kt cos -> exact_lengths prf ekm -> flag_set flags CO_EPOCH_DATA_KEY_FORMAT = true ->
  key_material prf ekm flags false sid_c sid_s src = Ret (Some k2) -> check_keys k2 kt = Ret true ->
  exists ec es coc' cos',
    generate_key_expansion prf ekm None flags kt false sid_c sid_s src coc = Ret (true, coc')
    /\ generate_key_expansion prf ekm None flags kt true sid_s sid_c src cos = Ret (true, cos')
    /\ channel kt ec es 16 1 1 coc' [] /\ channel kt es ec 16 1 1 cos' [].
Proof.
  intros Nc Ns Hlen Hf Hm Hk. destruct (key_material_shape _ _ _ _ _ _ _ _ Hlen Hm) as (k0 & k1 & -> & L0 & L1).
  destruct (epoch_keys_channel kt coc false k0 k1 Nc L0 L1) as (coc' & Ec & Cc).
  destruct (epoch_keys_channel kt cos true k0 k1 Ns L0 L1) as (cos' & Es & Cs).
  assert (Ha : cipher_kt_mode_aead (kt_cipher kt) = true) by (by destruct (nk_kt _ _ Nc) as (_ & _ & ? & _)).
  assert (Hm' : key_material prf ekm flags true sid_s sid_c src = Ret (Some (mk_key2 2 [k0; k1]))).
  { rewrite <- Hm. unfold key_material. by rewrite expansion_agrees. }
  exists (first_epoch k0), (first_epoch k1), coc', cos'. unfold generate_key_expansion.
  rewrite (nk_initialized _ _ Nc), (nk_initialized _ _ Ns). fold (key_material prf ekm flags false sid_c sid_s src).
  fold (key_material prf ekm flags true sid_s sid_c src). rewrite Hm, Hm'. cbn [res_bind]. rewrite Hk. cbn [res_bind negb].
  unfold init_key_contexts. rewrite Hf, Ha. cbn [negb]. rewrite Ec, Es. done.
Qed.

(** ** A message that ends early *)
Lemma read_string_missing b h c t cap : buf_repr b h c t -> Zlen c < 2 -> read_string b cap = Ret (1, None, b).
Proof.
  intros Hb Hc. unfold read_string, buf_read_u16. rewrite (buf_read_short _ _ _ _ Hb) by lia. cbn [res_bind].
  change (-1 <? 1) with true. cbn [orb]. unfold buf_advance. change (-1 <? 0) with true. by rewrite orb_true_r.
Qed.

(** What is left of the checks when the peer sent no user name. *)
Definition unnamed_verdict (ac : auth_checks) (o : km_options) : ks_auth_state :=
  let a := ac_verify_user_pass ac [] [] in
  let a := if auth_positive a then ac_final_checks ac a else a in
  let a := if negb (options_cmp_equal [] (km_remote_options o)) && flag_set (km_ssl_flags o) SSLF_OPT_VERIFY then KS_AUTH_FALSE else a in
  match ac_plugin ac with Some success => if auth_positive a && negb success then KS_AUTH_FALSE else a | None => a end.

(** C29: [read_string] reports a length of 1 when the message has ended, because it negates the -1 of
    the failed read.  A message that stops after the key material therefore passes the test for
    the required options string, and where a user name is required it is not refused as missing,
    as it is when the peer sends empty strings: the check of user names is run on empty ones. *)
Theorem missing_strings_accepted (ekm : bytes -> Z -> option bytes) (ac : auth_checks) (o : km_options) (src : key_source2) (m : km_multi)
    (k : key_source) (rb rb' : buffer) (h t h' t' : Z) :
  src_wf (negb (km_server o)) k -> ac_user_pass_enabled ac = true ->
  flag_set (km_ssl_flags o) SSLF_AUTH_USER_PASS_OPTIONAL = false -> km_server o = true ->
  buf_repr rb h (be_bytes 4 0 ++ [2] ++ source_bytes (negb (km_server o)) k) t ->
  buf_repr rb' h' (km_message (negb (km_server o)) k [] None None) t' ->
  (exists b, key_method_2_read ekm ac o rb src m
             = Ret (true, b, unnamed_verdict ac o, set_src src (negb (km_server o)) k, km_announced [] None m))
  /\ (exists b, key_method_2_read ekm ac o rb' src m = Ret (false, b, KS_AUTH_FALSE, src2_zero, km_announced [] None m)).
Proof.
  intros Hk Hu Hf Hs Hb Hb'.
  split.
  - rewrite <- (app_nil_r (source_bytes _ _)) in Hb. destruct (read_head ekm ac o src m k _ _ _ _ Hb Hk) as (b & h2 & H2 & ->).
    rewrite !(read_string_missing b _ _ _ _ H2) by done. cbn [res_bind]. change (1 <? 0) with false. cbn [default].
    rewrite (read_string_missing b _ _ _ _ H2) by done. cbn [res_bind].
    rewrite (read_string_missing b _ _ _ _ H2) by done. cbn [res_bind].
    unfold read_string_alloc, buf_read_u16. rewrite (buf_read_short _ _ _ _ H2) by done. cbn [res_bind]. change (-1 <? 1) with true. cbn [res_bind].
    unfold km_judge, authenticate. change ((1 <? 0) || (1 <? 0)) with false. rewrite Hu. change ((1 =? 0) || (1 =? 0)) with false. cbv iota.
    destruct (buf_clear_repr _ _ _ _ H2) as (b' & -> & _). cbn [res_bind]. rewrite Hs. cbn [negb andb res_bind]. eauto.
  - destruct (read_head ekm ac o src m k _ _ _ _ Hb' Hk) as (b & h2 & H2 & ->).
    destruct (read_string_repr _ _ _ _ _ TLS_OPTIONS_LEN H2) as (b4 & -> & H4); [by_eval|vm_compute; discriminate|vm_compute; reflexivity|].
    cbn [res_bind]. change (Zlen [] + 1 <? 0) with false. cbn [default].
    destruct (creds_read None _ _ _ _ H4) as (b5 & b6 & h6 & -> & E6 & H6); [done|]. cbn [res_bind]. rewrite E6. cbn [res_bind].
    rewrite <- (app_nil_r (opt_string16 None)) in H6.
    destruct (read_alloc_repr _ _ None [] _ H6) as (b7 & -> & H7); [done|]. cbn [res_bind].
    unfold km_judge, authenticate. change (cred_len (fst <$> None)) with 0. change (cred_len (snd <$> None)) with 0.
    change ((0 <? 0) || (0 <? 0)) with false. rewrite Hu, Hf. change ((0 =? 0) || (0 =? 0)) with true. cbn [negb]. cbv iota.
    unfold km_read_error. destruct (buf_clear_repr _ _ _ _ H7) as (b' & -> & _). cbn [res_bind]. eauto.
Qed.
End KeyMethod.

(** ** Example *)
Definition sample_rand (seed : Z) (i n : Z) : option bytes := Some (replicate (Z.to_nat n) (u8 (seed + i))).
Definition sample_client_opt : km_options :=
  mk_kmo false (str "V4,dev-type tun,cipher AES-256-GCM,tls-client") (str "V4,dev-type tun,cipher AES-256-GCM,tls-server") 0
    (sample_pull short_list) sample_host 0.
Definition sample_server_opt : km_options :=
  mk_kmo true (str "V4,dev-type tun,cipher AES-256-GCM,tls-server") (str "V4,dev-type tun,cipher AES-256-GCM,tls-client") 0
    (mk_iopt 0 false true long_list true 1500 0) sample_host 0.
Definition sample_mm : km_multi := mk_kmm None None false (mk_p2p 0 false 0).
Definition sample_creds : option (bytes * bytes) := Some (str "alice", str "secret").
(** The server checks the password, the client the certificate of the server. *)
Definition sample_server_checks : auth_checks :=
  mk_ac true (fun u p => if bool_decide (u = str "alice") && bool_decide (p = str "secret") then KS_AUTH_TRUE else KS_AUTH_FALSE) true (fun a => a) None.
Definition sample_client_checks : auth_checks := mk_ac false (fun _ _ => KS_AUTH_FALSE) true (fun a => a) None.
Definition sample_plain : buffer := mk_buffer 2048 0 0 (Some (replicate 2048 0)).
Definition sample_info : option bytes :=
  match peer_info_text sample_host (sample_pull short_list) with Ret i => i | _ => None end.
Definition sample_prf (seed secret : bytes) (n : Z) : option bytes := Some (replicate (Z.to_nat n) (u8 (sample_sum (seed ++ secret)))).

Lemma sample_rand_ok seed : rand_ok (sample_rand seed).
Proof.
  intros i n Hn. eexists. split; [reflexivity|]. unfold Zlen. rewrite length_replicate. split; [lia|].
  apply Forall_replicate, u8_range.
Qed.
Lemma sample_plain_ok : plain_buf sample_plain.
Proof. split; [|done]. unfold buf_wf; cbn [b_data sample_plain]. repeat split; try by vm_compute. by_eval. Qed.

Lemma sample_info_text : match sample_info with Some s => ctext s /\ Zlen s + 1 < 65536 | None => True end.
Proof.
  assert (H : bool_decide (bytes_ok (default [] sample_info)) && bool_decide (0 ∉ default [] sample_info)
              && (Zlen (default [] sample_info) + 1 <? 65536) = true) by (vm_compute; reflexivity).
  revert H. generalize sample_info. intros [s|]; [|done].
  intros [[H1%bool_decide_eq_true H2%bool_decide_eq_true]%andb_true_iff H3%Z.ltb_lt]%andb_true_iff. done.
Qed.

(** What arrives at the server, and then at the client. *)
Definition sample_msg_c : bytes :=
  km_message false (drawn (sample_rand 1) false) (km_local_options sample_client_opt) sample_creds sample_info.
Definition sample_msg_s : bytes :=
  km_message true (drawn (sample_rand 9) true) (km_local_options sample_server_opt) None None.
Definition sample_in (msg : bytes) : buffer := mk_buffer (Zlen msg) 0 (Zlen msg) (Some msg).

Lemma key_exchange_agrees_witness :
  exists wc' ws' src_c src,
    key_method_2_write zeros sample_exporter (sample_rand 1) sample_creds sample_client_opt sample_plain src2_zero sample_mm
    = Ret (true, wc', src_c, sample_mm)
    /\ (arrives wc' (sample_in sample_msg_c) -> exists rs' src_s,
          key_method_2_read sample_exporter sample_server_checks sample_server_opt (sample_in sample_msg_c) src2_zero sample_mm
          = Ret (true, rs', KS_AUTH_TRUE, src_s, km_announced (km_local_options sample_client_opt) sample_info sample_mm)
          /\ key_method_2_write zeros sample_exporter (sample_rand 9) None sample_server_opt sample_plain src_s
               (km_announced (km_local_options sample_client_opt) sample_info sample_mm)
             = Ret (true, ws', src, km_announced (km_local_options sample_client_opt) sample_info sample_mm)
          /\ (arrives ws' (sample_in sample_msg_s) -> exists rc',
                key_method_2_read sample_exporter sample_client_checks sample_client_opt (sample_in sample_msg_s) src_c sample_mm
                = Ret (true, rc', KS_AUTH_TRUE, src, km_announced (km_local_options sample_server_opt) None sample_mm)))
    /\ src = mk_src2 (drawn (sample_rand 1) false) (drawn (sample_rand 9) true)
    /\ generate_key_expansion_openvpn_prf sample_prf false [1; 2; 3; 4; 5; 6; 7; 8] [8; 7; 6; 5; 4; 3; 2; 1] src
       = generate_key_expansion_openvpn_prf sample_prf true [8; 7; 6; 5; 4; 3; 2; 1] [1; 2; 3; 4; 5; 6; 7; 8] src.
Proof.
  apply (key_exchange_agrees zeros sample_exporter sample_exporter sample_prf (sample_rand 1) (sample_rand 9) sample_creds None
           sample_client_opt sample_server_opt sample_mm sample_mm sample_info None sample_client_checks sample_server_checks
           KS_AUTH_TRUE KS_AUTH_TRUE [1; 2; 3; 4; 5; 6; 7; 8] [8; 7; 6; 5; 4; 3; 2; 1] sample_plain sample_plain (sample_in sample_msg_c) (sample_in sample_msg_s)).
  - reflexivity.
  - reflexivity.
  - reflexivity.
  - split; [apply sample_rand_ok|split; [split; by_eval|by vm_compute]| | | |reflexivity|reflexivity].
    + repeat split; by_eval.
    + vm_compute. reflexivity.
    + apply sample_info_text.
  - split; [apply sample_rand_ok|split; [split; by_eval|by vm_compute]|exact I|vm_compute; reflexivity|exact I|reflexivity|reflexivity].
  - apply sample_plain_ok.
  - apply sample_plain_ok.
  - vm_compute. discriminate.
  - vm_compute. discriminate.
  - vm_compute. reflexivity.
  - vm_compute. reflexivity.
Defined.

(** The key state before the keys are installed. *)
Definition sample_keymat (label : bytes) (n : Z) : option bytes := Some (replicate (Z.to_nat n) 7).
Lemma sample_no_keys : no_keys sample_kt sample_blank.
Proof. destruct (sample_start 1 2) as [Hkt _ _ _ He Hr Hf Hw Hb]. by split. Qed.

Lemma derived_keys_match_witness :
  exists ec es coc' cos',
    generate_key_expansion (fun _ _ _ => None) sample_keymat None (Z.lor CO_USE_TLS_KEY_MATERIAL_EXPORT CO_EPOCH_DATA_KEY_FORMAT) sample_kt
      false (replicate 8 1) (replicate 8 2) src2_zero sample_blank = Ret (true, coc')
    /\ generate_key_expansion (fun _ _ _ => None) sample_keymat None (Z.lor CO_USE_TLS_KEY_MATERIAL_EXPORT CO_EPOCH_DATA_KEY_FORMAT) sample_kt
         true (replicate 8 2) (replicate 8 1) src2_zero sample_blank = Ret (true, cos')
    /\ channel sample_kt ec es 16 1 1 coc' [] /\ channel sample_kt es ec 16 1 1 cos' [].
Proof.
  apply (derived_keys_match (fun _ _ _ => None) sample_keymat _ sample_kt (replicate 8 1) (replicate 8 2) src2_zero sample_blank sample_blank
           (key2_of_bytes (replicate 256 7))).
  - apply sample_no_keys.
  - apply sample_no_keys.
  - split; [done|]. intros label n out Hn [= <-]. unfold Zlen. rewrite length_replicate. lia.
  - reflexivity.
  - reflexivity.
  - vm_compute. reflexivity.
Defined.

(** A message that stops after the key material, and one with empty strings. *)
Definition sample_short : bytes := be_bytes 4 0 ++ [2] ++ source_bytes false (drawn (sample_rand 1) false).
Definition sample_empty : bytes := km_message false (drawn (sample_rand 1) false) [] None None.
Lemma sample_in_repr msg : bytes_ok msg -> Zlen msg < 1000 -> buf_repr (sample_in msg) 0 msg 0.
Proof.
  intros Hok Hl. exists [], []. unfold buf_split, sample_in, BUF_SIZE_MAX. cbn [b_data b_offset b_len b_capacity app].
  rewrite app_nil_r. change (Zlen (@nil Z)) with 0. repeat split; try done; try lia; constructor.
Qed.

Lemma missing_strings_accepted_witness :
  (exists b, key_method_2_read sample_exporter sample_server_checks sample_server_opt (sample_in sample_short) src2_zero sample_mm
             = Ret (true, b, unnamed_verdict sample_server_checks sample_server_opt,
                    set_src src2_zero false (drawn (sample_rand 1) false), km_announced [] None sample_mm))
  /\ (exists b, key_method_2_read sample_exporter sample_server_checks sample_server_opt (sample_in sample_empty) src2_zero sample_mm
               = Ret (false, b, KS_AUTH_FALSE, src2_zero, km_announced [] None sample_mm)).
Proof.
  apply (missing_strings_accepted sample_exporter sample_server_checks sample_server_opt src2_zero sample_mm
           (drawn (sample_rand 1) false) (sample_in sample_short) (sample_in sample_empty) 0 0 0 0).
  - apply drawn_wf, sample_rand_ok.
  - reflexivity.
  - reflexivity.
  - reflexivity.
  - apply sample_in_repr; [by_eval|by vm_compute].
  - apply sample_in_repr; [by_eval|by vm_compute].
Defined.
