(* ===== verification/KeyState.v ===== *)
(** * Key states and TLS sessions (ssl.c, ssl_common.h, ssl_openssl.c, ssl_pkt.c, ssl_verify.c, socket.h)

    The state machine of the control channel: each session with the peer has a primary key that
    is negotiated and a retiring one that may still carry data; a tunnel has an active session,
    one with a peer that is not trusted yet and one kept for its retiring key.  The layers below
    are those of Reliable.v (delivery), CtrlWrap.v (wrapping), TlsSend.v (cutting), KeyMethod.v
    (messages and keys) and DataPath.v (the data channel's view of a key).

    The TLS library is the class [TlsLib]; what the system answers (clock, random numbers,
    the verdict on certificates and passwords) is an [env], from which the state draws in
    sequence.  Memory of buffers that are handed out is given by block numbers, so that the
    buffer to send can be told to lie in memory that a session still owns. *)

From Stdlib Require Import String.
From S2P Require Import Prelude CircList Buffer PacketId Reliable TlsSend OTime Mtu KeyCtx Epoch Crypto.
From S2P Require Import Aead Channel DataPath CtrlWrap Handshake Text Ncp KeyMethod.
#[local] Open Scope Z_scope.

(** ** Constants *)
Definition S_ERROR : Z := -2.
Definition S_ERROR_PRE : Z := -1.
Definition S_UNDEF : Z := 0.
Definition S_INITIAL : Z := 1.
Definition S_PRE_START_SKIP : Z := 2.
Definition S_PRE_START : Z := 3.
Definition S_START : Z := 4.
Definition S_SENT_KEY : Z := 5.
Definition S_GOT_KEY : Z := 6.
Definition S_ACTIVE : Z := 7.
Definition P_CONTROL_SOFT_RESET_V1 : Z := 3.
Definition P_FIRST_OPCODE : Z := 3.
Definition P_LAST_OPCODE : Z := 11.
Definition TLS_RELIABLE_N_SEND_BUFFERS : Z := 6.
Definition TLS_RELIABLE_N_REC_BUFFERS : Z := 12.
Definition CAS_NOT_CONNECTED : Z := 0.
Definition CAS_WAITING_AUTH : Z := 1.
Definition CAS_PENDING : Z := 2.
Definition CAS_WAITING_OPTIONS_IMPORT : Z := 6.
Definition CAS_RECONNECT_PENDING : Z := 7.
Inductive auth_deferred_result : Type := ACF_PENDING | ACF_SUCCEEDED | ACF_DISABLED | ACF_FAILED.
Inductive tls_auth_status : Type :=
| TLS_AUTHENTICATION_SUCCEEDED
| TLS_AUTHENTICATION_FAILED
| TLS_AUTHENTICATION_DEFERRED.
Inductive tlsmp : Type := TLSMP_INACTIVE | TLSMP_ACTIVE | TLSMP_KILL | TLSMP_RECONNECT.
#[export] Instance auth_deferred_result_eq : EqDecision auth_deferred_result.
Proof. solve_decision. Defined.
#[export] Instance tls_auth_status_eq : EqDecision tls_auth_status.
Proof. solve_decision. Defined.

(** ** Addresses (socket.h) *)
Definition IN6_IS_ADDR_UNSPECIFIED (a : bytes) : bool := bool_decide (a = replicate 16 0).
Definition addr_defined (a : sockaddr) : bool :=
  match sin_family a with
  | AF_INET => negb (sin_addr a =? 0)
  | AF_INET6 => negb (IN6_IS_ADDR_UNSPECIFIED (sin6_addr a))
  | AF_UNSPEC => false
  end.
Definition link_socket_actual_defined (a : sockaddr) : bool := addr_defined a.
Definition addr_match (a1 a2 : sockaddr) : res bool :=
  match sin_family a1 with
  | AF_INET => Ret (sin_addr a1 =? sin_addr a2)
  | AF_INET6 => Ret (bool_decide (sin6_addr a1 = sin6_addr a2))
  | AF_UNSPEC => Fatal
  end.
Fixpoint addrlist_match (a1 : sockaddr) (l : list sockaddr) : res bool :=
  match l with
  | [] => Ret false
  | cur :: l => let! b := addr_match a1 cur in if b then Ret true else addrlist_match a1 l
  end.
Fixpoint addrlist_port_match (a1 : sockaddr) (l : list sockaddr) : res bool :=
  match l with
  | [] => Ret false
  | cur :: l =>
      let! b := addr_port_match a1 cur in
      if b && bool_decide (sin_family cur = sin_family a1) then Ret true else addrlist_port_match a1 l
  end.
Definition sockaddr_zero : sockaddr := mk_sa AF_UNSPEC 0 0 (replicate 16 0).

(** The part of [struct link_socket_info] that is set when a connection is established. *)
Record link_socket_info : Type := mk_lsi {
  lsi_actual : sockaddr;
  lsi_remote_list : option (list sockaddr);
  lsi_connection_established : bool;
  lsi_remote_float : bool;
  lsi_connection_oriented : bool
}.
Definition addr_match_proto (a1 a2 : sockaddr) (connection_oriented : bool) : res bool :=
  if connection_oriented then addr_match a1 a2 else addr_port_match a1 a2.
Definition addrlist_match_proto (a1 : sockaddr) (l : list sockaddr) (connection_oriented : bool) : res bool :=
  if connection_oriented then addrlist_match a1 l else addrlist_port_match a1 l.

(** The condition and the stores of [link_socket_connection_initiated]; scripts and plugins that
    hear of it are left out. *)
Definition link_socket_set_outgoing_addr (info : link_socket_info) (act : sockaddr) : res link_socket_info :=
  let! changed := (if negb (lsi_connection_established info) then Ret true
                   else let! same := addr_match_proto act (lsi_actual info) (lsi_connection_oriented info) in
                        Ret (negb same)) in
  let! allowed := (if negb changed then Ret false
                   else if lsi_remote_float info then Ret true
                   else match lsi_remote_list info with
                        | None => Ret true
                        | Some l => addrlist_match_proto act l (lsi_connection_oriented info)
                        end) in
  if allowed
  then Ret (mk_lsi act (lsi_remote_list info) true (lsi_remote_float info) (lsi_connection_oriented info))
  else Ret info.

(** ** The TLS library

    [BIO_write] on the plaintext side and on the incoming memory BIO: the result, and
    [BIO_should_retry].  [BIO_read] with the room that is left: a negative result ([None]) or
    the bytes it stored. *)
Class TlsLib (ssl : Type) : Type := {
  SSL_new : bool -> ssl;
  SSL_set_shutdown : ssl -> ssl;
  BIO_write_pt : ssl -> bytes -> Z * bool * ssl;
  BIO_write_ct : ssl -> bytes -> Z * bool * ssl;
  BIO_read_pt : ssl -> Z -> option bytes * bool * ssl;
  BIO_read_ct : ssl -> Z -> option bytes * bool * ssl;
  key_state_export_keying_material : ssl -> bytes -> Z -> option bytes
}.

Section KeyState.
Context {cipher_ctx hmac_ctx ssl : Type} `{CL : CryptoLib cipher_ctx hmac_ctx} `{TL : TlsLib ssl}.
#[local] Abbreviation crypto_options := (KeyCtx.crypto_options cipher_ctx hmac_ctx).
#[local] Abbreviation data_key := (DataPath.key_state (cipher_ctx := cipher_ctx) (hmac_ctx := hmac_ctx)).
#[local] Abbreviation data_multi := (DataPath.tls_multi (cipher_ctx := cipher_ctx) (hmac_ctx := hmac_ctx)).
#[local] Abbreviation wrap_ctx := (CtrlWrap.tls_wrap_ctx cipher_ctx hmac_ctx).

(** ** Input and output of the library (ssl_openssl.c) *)
Definition bio_write (write : bytes -> Z * bool * ssl) (o : ssl) (data : bytes) : Z * ssl :=
  if Zlen data =? 0 then (0, o)
  else
    let '(i, retry, o) := write data in
    if i <? 0 then (if negb retry then (-1, o) else (0, o))
    else if negb (i =? Zlen data) then (-1, o)
    else (1, o).

(** The data just written is erased. *)
Definition bio_write_post (status : Z) (buf : buffer) : res buffer :=
  if status =? 1 then
    let! buf := buf_poke buf (b_offset buf) (replicate (Z.to_nat (buf_len buf)) 0) in
    Ret (set_window buf (b_offset buf) 0)
  else Ret buf.

Definition bio_read (read : Z -> option bytes * bool * ssl) (o : ssl) (buf : buffer) : res (Z * buffer * ssl) :=
  assert! 0 <=? b_len buf in
  if negb (b_len buf =? 0) then Ret (0, buf, o)
  else
    let len := buf_forward_capacity buf in
    let '(out, retry, o) := read len in
    match out with
    | None => if negb retry then Ret (-1, set_window buf (b_offset buf) 0, o) else Ret (0, buf, o)
    | Some [] => Ret (0, set_window buf (b_offset buf) 0, o)
    | Some d =>
        if len <? Zlen d then UB
        else let! buf := buf_poke buf (b_offset buf) d in Ret (1, set_window buf (b_offset buf) (Zlen d), o)
    end.

Definition key_state_write_plaintext (o : ssl) (buf : buffer) : res (Z * buffer * ssl) :=
  let! data := buf_bytes buf in
  let '(ret, o) := bio_write (BIO_write_pt o) o data in
  let! buf := bio_write_post ret buf in Ret (ret, buf, o).
Definition key_state_write_plaintext_const (o : ssl) (data : bytes) : Z * ssl := bio_write (BIO_write_pt o) o data.
Definition key_state_read_ciphertext (o : ssl) (buf : buffer) : res (Z * buffer * ssl) := bio_read (BIO_read_ct o) o buf.
Definition key_state_write_ciphertext (o : ssl) (buf : buffer) : res (Z * buffer * ssl) :=
  let! data := buf_bytes buf in
  let '(ret, o) := bio_write (BIO_write_ct o) o data in
  let! buf := bio_write_post ret buf in Ret (ret, buf, o).
Definition key_state_read_plaintext (o : ssl) (buf : buffer) : res (Z * buffer * ssl) := bio_read (BIO_read_pt o) o buf.
Definition key_state_ssl_shutdown (o : option ssl) : res (option ssl) :=
  match o with Some o => Ret (Some (SSL_set_shutdown o)) | None => UB end.

(** ** State *)

(** [struct key_state]: the fields of the data channel are in [k_data].  A control file of a
    plugin or script is there with the status read from it, or not.  [k_block] numbers the
    memory of the buffers; [None]: the pointers are NULL. *)
Record key_state : Type := mk_key {
  k_data : data_key;
  k_ssl : option ssl;
  k_initial : Z;
  k_established : Z;
  k_must_negotiate : Z;
  k_must_die : Z;
  k_peer_last_packet : Z;
  k_initial_opcode : Z;
  k_session_id_remote : session_id;
  k_key_src : key_source2;
  k_read_buf : buffer;
  k_write_buf : buffer;
  k_ack_buf : buffer;
  k_send : reliable;
  k_rec : reliable;
  k_rec_ack : reliable_ack;
  k_lru_acks : reliable_ack;
  k_paybuf : list bytes;
  k_plugin_auth : option auth_deferred_result;
  k_script_auth : option auth_deferred_result;
  k_mda_status : auth_deferred_result;
  k_block : option Z
}.
Definition with_data (k : key_state) (v : data_key) : key_state :=
    mk_key v (k_ssl k) (k_initial k) (k_established k) (k_must_negotiate k) (k_must_die k) (k_peer_last_packet k)
    (k_initial_opcode k) (k_session_id_remote k) (k_key_src k) (k_read_buf k) (k_write_buf k) (k_ack_buf k) (k_send k)
    (k_rec k) (k_rec_ack k) (k_lru_acks k) (k_paybuf k) (k_plugin_auth k) (k_script_auth k) (k_mda_status k) (k_block
    k).
Definition with_ssl (k : key_state) (v : option ssl) : key_state :=
    mk_key (k_data k) v (k_initial k) (k_established k) (k_must_negotiate k) (k_must_die k) (k_peer_last_packet k)
    (k_initial_opcode k) (k_session_id_remote k) (k_key_src k) (k_read_buf k) (k_write_buf k) (k_ack_buf k) (k_send k)
    (k_rec k) (k_rec_ack k) (k_lru_acks k) (k_paybuf k) (k_plugin_auth k) (k_script_auth k) (k_mda_status k) (k_block
    k).
Definition with_established (k : key_state) (v : Z) : key_state :=
    mk_key (k_data k) (k_ssl k) (k_initial k) v (k_must_negotiate k) (k_must_die k) (k_peer_last_packet k)
    (k_initial_opcode k) (k_session_id_remote k) (k_key_src k) (k_read_buf k) (k_write_buf k) (k_ack_buf k) (k_send k)
    (k_rec k) (k_rec_ack k) (k_lru_acks k) (k_paybuf k) (k_plugin_auth k) (k_script_auth k) (k_mda_status k) (k_block
    k).
Definition with_must_negotiate (k : key_state) (v : Z) : key_state :=
    mk_key (k_data k) (k_ssl k) (k_initial k) (k_established k) v (k_must_die k) (k_peer_last_packet k)
    (k_initial_opcode k) (k_session_id_remote k) (k_key_src k) (k_read_buf k) (k_write_buf k) (k_ack_buf k) (k_send k)
    (k_rec k) (k_rec_ack k) (k_lru_acks k) (k_paybuf k) (k_plugin_auth k) (k_script_auth k) (k_mda_status k) (k_block
    k).
Definition with_must_die (k : key_state) (v : Z) : key_state :=
    mk_key (k_data k) (k_ssl k) (k_initial k) (k_established k) (k_must_negotiate k) v (k_peer_last_packet k)
    (k_initial_opcode k) (k_session_id_remote k) (k_key_src k) (k_read_buf k) (k_write_buf k) (k_ack_buf k) (k_send k)
    (k_rec k) (k_rec_ack k) (k_lru_acks k) (k_paybuf k) (k_plugin_auth k) (k_script_auth k) (k_mda_status k) (k_block
    k).
Definition with_peer_last_packet (k : key_state) (v : Z) : key_state :=
    mk_key (k_data k) (k_ssl k) (k_initial k) (k_established k) (k_must_negotiate k) (k_must_die k) v
    (k_initial_opcode k) (k_session_id_remote k) (k_key_src k) (k_read_buf k) (k_write_buf k) (k_ack_buf k) (k_send k)
    (k_rec k) (k_rec_ack k) (k_lru_acks k) (k_paybuf k) (k_plugin_auth k) (k_script_auth k) (k_mda_status k) (k_block
    k).
Definition with_session_id_remote (k : key_state) (v : session_id) : key_state :=
    mk_key (k_data k) (k_ssl k) (k_initial k) (k_established k) (k_must_negotiate k) (k_must_die k)
    (k_peer_last_packet k) (k_initial_opcode k) v (k_key_src k) (k_read_buf k) (k_write_buf k) (k_ack_buf k) (k_send
    k) (k_rec k) (k_rec_ack k) (k_lru_acks k) (k_paybuf k) (k_plugin_auth k) (k_script_auth k) (k_mda_status k)
    (k_block k).
Definition with_key_src (k : key_state) (v : key_source2) : key_state :=
    mk_key (k_data k) (k_ssl k) (k_initial k) (k_established k) (k_must_negotiate k) (k_must_die k)
    (k_peer_last_packet k) (k_initial_opcode k) (k_session_id_remote k) v (k_read_buf k) (k_write_buf k) (k_ack_buf k)
    (k_send k) (k_rec k) (k_rec_ack k) (k_lru_acks k) (k_paybuf k) (k_plugin_auth k) (k_script_auth k) (k_mda_status
    k) (k_block k).
Definition with_read_buf (k : key_state) (v : buffer) : key_state :=
    mk_key (k_data k) (k_ssl k) (k_initial k) (k_established k) (k_must_negotiate k) (k_must_die k)
    (k_peer_last_packet k) (k_initial_opcode k) (k_session_id_remote k) (k_key_src k) v (k_write_buf k) (k_ack_buf k)
    (k_send k) (k_rec k) (k_rec_ack k) (k_lru_acks k) (k_paybuf k) (k_plugin_auth k) (k_script_auth k) (k_mda_status
    k) (k_block k).
Definition with_write_buf (k : key_state) (v : buffer) : key_state :=
    mk_key (k_data k) (k_ssl k) (k_initial k) (k_established k) (k_must_negotiate k) (k_must_die k)
    (k_peer_last_packet k) (k_initial_opcode k) (k_session_id_remote k) (k_key_src k) (k_read_buf k) v (k_ack_buf k)
    (k_send k) (k_rec k) (k_rec_ack k) (k_lru_acks k) (k_paybuf k) (k_plugin_auth k) (k_script_auth k) (k_mda_status
    k) (k_block k).
Definition with_ack_buf (k : key_state) (v : buffer) : key_state :=
    mk_key (k_data k) (k_ssl k) (k_initial k) (k_established k) (k_must_negotiate k) (k_must_die k)
    (k_peer_last_packet k) (k_initial_opcode k) (k_session_id_remote k) (k_key_src k) (k_read_buf k) (k_write_buf k) v
    (k_send k) (k_rec k) (k_rec_ack k) (k_lru_acks k) (k_paybuf k) (k_plugin_auth k) (k_script_auth k) (k_mda_status
    k) (k_block k).
Definition with_send (k : key_state) (v : reliable) : key_state :=
    mk_key (k_data k) (k_ssl k) (k_initial k) (k_established k) (k_must_negotiate k) (k_must_die k)
    (k_peer_last_packet k) (k_initial_opcode k) (k_session_id_remote k) (k_key_src k) (k_read_buf k) (k_write_buf k)
    (k_ack_buf k) v (k_rec k) (k_rec_ack k) (k_lru_acks k) (k_paybuf k) (k_plugin_auth k) (k_script_auth k)
    (k_mda_status k) (k_block k).
Definition with_rec (k : key_state) (v : reliable) : key_state :=
    mk_key (k_data k) (k_ssl k) (k_initial k) (k_established k) (k_must_negotiate k) (k_must_die k)
    (k_peer_last_packet k) (k_initial_opcode k) (k_session_id_remote k) (k_key_src k) (k_read_buf k) (k_write_buf k)
    (k_ack_buf k) (k_send k) v (k_rec_ack k) (k_lru_acks k) (k_paybuf k) (k_plugin_auth k) (k_script_auth k)
    (k_mda_status k) (k_block k).
Definition with_rec_ack (k : key_state) (v : reliable_ack) : key_state :=
    mk_key (k_data k) (k_ssl k) (k_initial k) (k_established k) (k_must_negotiate k) (k_must_die k)
    (k_peer_last_packet k) (k_initial_opcode k) (k_session_id_remote k) (k_key_src k) (k_read_buf k) (k_write_buf k)
    (k_ack_buf k) (k_send k) (k_rec k) v (k_lru_acks k) (k_paybuf k) (k_plugin_auth k) (k_script_auth k) (k_mda_status
    k) (k_block k).
Definition with_lru_acks (k : key_state) (v : reliable_ack) : key_state :=
    mk_key (k_data k) (k_ssl k) (k_initial k) (k_established k) (k_must_negotiate k) (k_must_die k)
    (k_peer_last_packet k) (k_initial_opcode k) (k_session_id_remote k) (k_key_src k) (k_read_buf k) (k_write_buf k)
    (k_ack_buf k) (k_send k) (k_rec k) (k_rec_ack k) v (k_paybuf k) (k_plugin_auth k) (k_script_auth k) (k_mda_status
    k) (k_block k).
Definition with_paybuf (k : key_state) (v : list bytes) : key_state :=
    mk_key (k_data k) (k_ssl k) (k_initial k) (k_established k) (k_must_negotiate k) (k_must_die k)
    (k_peer_last_packet k) (k_initial_opcode k) (k_session_id_remote k) (k_key_src k) (k_read_buf k) (k_write_buf k)
    (k_ack_buf k) (k_send k) (k_rec k) (k_rec_ack k) (k_lru_acks k) v (k_plugin_auth k) (k_script_auth k)
    (k_mda_status k) (k_block k).
Definition with_plugin_auth (k : key_state) (v : option auth_deferred_result) : key_state :=
    mk_key (k_data k) (k_ssl k) (k_initial k) (k_established k) (k_must_negotiate k) (k_must_die k)
    (k_peer_last_packet k) (k_initial_opcode k) (k_session_id_remote k) (k_key_src k) (k_read_buf k) (k_write_buf k)
    (k_ack_buf k) (k_send k) (k_rec k) (k_rec_ack k) (k_lru_acks k) (k_paybuf k) v (k_script_auth k) (k_mda_status k)
    (k_block k).
Definition with_script_auth (k : key_state) (v : option auth_deferred_result) : key_state :=
    mk_key (k_data k) (k_ssl k) (k_initial k) (k_established k) (k_must_negotiate k) (k_must_die k)
    (k_peer_last_packet k) (k_initial_opcode k) (k_session_id_remote k) (k_key_src k) (k_read_buf k) (k_write_buf k)
    (k_ack_buf k) (k_send k) (k_rec k) (k_rec_ack k) (k_lru_acks k) (k_paybuf k) (k_plugin_auth k) v (k_mda_status k)
    (k_block k).

Definition with_state (k : key_state) (v : Z) : key_state :=
  let d := k_data k in
  with_data k (mk_ks v (ks_key_id d) (ks_authenticated d) (ks_auth_deferred_expire d) (ks_remote_addr d)
                 (ks_crypto_options d) (ks_n_bytes d) (ks_n_packets d)).
Definition with_authenticated (k : key_state) (v : ks_auth_state) : key_state :=
  let d := k_data k in
  with_data k (mk_ks (ks_state d) (ks_key_id d) v (ks_auth_deferred_expire d) (ks_remote_addr d)
                 (ks_crypto_options d) (ks_n_bytes d) (ks_n_packets d)).
Definition with_remote_addr (k : key_state) (v : sockaddr) : key_state :=
  let d := k_data k in
  with_data k (mk_ks (ks_state d) (ks_key_id d) (ks_authenticated d) (ks_auth_deferred_expire d) v
                 (ks_crypto_options d) (ks_n_bytes d) (ks_n_packets d)).
Definition with_crypto (k : key_state) (v : crypto_options) : key_state := with_data k (set_ks_crypto (k_data k) v).
Definition k_state (k : key_state) : Z := ks_state (k_data k).
Definition k_key_id (k : key_state) : Z := ks_key_id (k_data k).
Definition k_remote_addr (k : key_state) : sockaddr := ks_remote_addr (k_data k).
Definition k_crypto (k : key_state) : crypto_options := ks_crypto_options (k_data k).
Definition k_authenticated (k : key_state) : ks_auth_state := ks_authenticated (k_data k).

(** [struct tls_session]; the retiring key may have a wrapping of its own. *)
Record tls_session : Type := mk_tls_session {
  s_burst : bool;
  s_tls_wrap : wrap_ctx;
  s_tls_wrap_reneg : wrap_ctx;
  s_wrap_block : option Z;
  s_reneg_block : option Z;
  s_initial_opcode : Z;
  s_session_id : session_id;
  s_key_id : Z;
  s_untrusted_addr : sockaddr;
  s_primary : key_state;
  s_lame_duck : key_state
}.
Definition set_burst (k : tls_session) (v : bool) : tls_session :=
    mk_tls_session v (s_tls_wrap k) (s_tls_wrap_reneg k) (s_wrap_block k) (s_reneg_block k) (s_initial_opcode k)
    (s_session_id k) (s_key_id k) (s_untrusted_addr k) (s_primary k) (s_lame_duck k).
Definition set_tls_wrap (k : tls_session) (v : wrap_ctx) : tls_session :=
    mk_tls_session (s_burst k) v (s_tls_wrap_reneg k) (s_wrap_block k) (s_reneg_block k) (s_initial_opcode k)
    (s_session_id k) (s_key_id k) (s_untrusted_addr k) (s_primary k) (s_lame_duck k).
Definition set_tls_wrap_reneg (k : tls_session) (v : wrap_ctx) : tls_session :=
    mk_tls_session (s_burst k) (s_tls_wrap k) v (s_wrap_block k) (s_reneg_block k) (s_initial_opcode k) (s_session_id
    k) (s_key_id k) (s_untrusted_addr k) (s_primary k) (s_lame_duck k).
Definition set_session_id (k : tls_session) (v : session_id) : tls_session :=
    mk_tls_session (s_burst k) (s_tls_wrap k) (s_tls_wrap_reneg k) (s_wrap_block k) (s_reneg_block k)
    (s_initial_opcode k) v (s_key_id k) (s_untrusted_addr k) (s_primary k) (s_lame_duck k).
Definition set_untrusted_addr (k : tls_session) (v : sockaddr) : tls_session :=
    mk_tls_session (s_burst k) (s_tls_wrap k) (s_tls_wrap_reneg k) (s_wrap_block k) (s_reneg_block k)
    (s_initial_opcode k) (s_session_id k) (s_key_id k) v (s_primary k) (s_lame_duck k).
Definition set_primary (k : tls_session) (v : key_state) : tls_session :=
    mk_tls_session (s_burst k) (s_tls_wrap k) (s_tls_wrap_reneg k) (s_wrap_block k) (s_reneg_block k)
    (s_initial_opcode k) (s_session_id k) (s_key_id k) (s_untrusted_addr k) v (s_lame_duck k).
Definition set_lame_duck (k : tls_session) (v : key_state) : tls_session :=
    mk_tls_session (s_burst k) (s_tls_wrap k) (s_tls_wrap_reneg k) (s_wrap_block k) (s_reneg_block k)
    (s_initial_opcode k) (s_session_id k) (s_key_id k) (s_untrusted_addr k) (s_primary k) v.

(** What the control channel reads of [struct tls_options]; [o_km] are the options of the
    exchange of keys, and [o_dco] is the answer of the kernel if the data channel is there. *)
Record tls_options : Type := mk_opt {
  o_key_type : key_type;
  o_server : bool;
  o_xmit_hold : bool;
  o_single_session : bool;
  o_mode_server : bool;
  o_transition_window : Z;
  o_handshake_window : Z;
  o_packet_timeout : Z;
  o_renegotiate_bytes : Z;
  o_renegotiate_packets : Z;
  o_aead_usage_limit : Z;
  o_renegotiate_seconds : Z;
  o_replay_window : Z;
  o_replay_time : Z;
  o_tls_crypt_v2 : bool;
  o_tls_wrap : wrap_ctx;
  o_frame : frame;
  o_km : km_options;
  o_dco : option Z
}.
Definition set_limits (o : tls_options) (bytes aead : Z) : tls_options :=
  mk_opt (o_key_type o) (o_server o) (o_xmit_hold o) (o_single_session o) (o_mode_server o) (o_transition_window o)
    (o_handshake_window o) (o_packet_timeout o) bytes (o_renegotiate_packets o) aead (o_renegotiate_seconds o)
    (o_replay_window o) (o_replay_time o) (o_tls_crypt_v2 o) (o_tls_wrap o) (o_frame o) (o_km o) (o_dco o).

(** A buffer on its way to the link shares the memory of the structure it comes from. *)
Inductive owner : Type :=
| Foreign
| WorkBuf (block : Z)
| RenegBuf (block : Z)
| SendBuf (block : Z) (j : nat)
| AckBuf (block : Z).
Record link_buf : Type := mk_lb { lb_buf : buffer; lb_owner : owner }.

(** What a function of the control channel works on besides the session: the fields of
    [struct tls_multi] outside of its sessions, the clock, how many answers of the system
    were used, the next memory block, and the arguments [to_link], [to_link_addr], [wakeup]
    and [to_link_socket_info]. *)
Record shared : Type := mk_shared {
  h_km : km_multi;
  h_cas : Z;
  h_opt : tls_options;
  h_clock : clock;
  h_n : nat;
  h_next : Z;
  h_to_link : link_buf;
  h_tla : option sockaddr;
  h_wakeup : Z;
  h_lsi : link_socket_info
}.
Definition put_km (k : shared) (v : km_multi) : shared :=
  mk_shared v (h_cas k) (h_opt k) (h_clock k) (h_n k) (h_next k) (h_to_link k) (h_tla k) (h_wakeup k) (h_lsi k).
Definition put_cas (k : shared) (v : Z) : shared :=
  mk_shared (h_km k) v (h_opt k) (h_clock k) (h_n k) (h_next k) (h_to_link k) (h_tla k) (h_wakeup k) (h_lsi k).
Definition put_opt (k : shared) (v : tls_options) : shared :=
  mk_shared (h_km k) (h_cas k) v (h_clock k) (h_n k) (h_next k) (h_to_link k) (h_tla k) (h_wakeup k) (h_lsi k).
Definition put_clock (k : shared) (v : clock) : shared :=
  mk_shared (h_km k) (h_cas k) (h_opt k) v (h_n k) (h_next k) (h_to_link k) (h_tla k) (h_wakeup k) (h_lsi k).
Definition put_n (k : shared) (v : nat) : shared :=
  mk_shared (h_km k) (h_cas k) (h_opt k) (h_clock k) v (h_next k) (h_to_link k) (h_tla k) (h_wakeup k) (h_lsi k).
Definition put_next (k : shared) (v : Z) : shared :=
  mk_shared (h_km k) (h_cas k) (h_opt k) (h_clock k) (h_n k) v (h_to_link k) (h_tla k) (h_wakeup k) (h_lsi k).
Definition put_to_link (k : shared) (v : link_buf) : shared :=
  mk_shared (h_km k) (h_cas k) (h_opt k) (h_clock k) (h_n k) (h_next k) v (h_tla k) (h_wakeup k) (h_lsi k).
Definition put_tla (k : shared) (v : option sockaddr) : shared :=
  mk_shared (h_km k) (h_cas k) (h_opt k) (h_clock k) (h_n k) (h_next k) (h_to_link k) v (h_wakeup k) (h_lsi k).
Definition put_wakeup (k : shared) (v : Z) : shared :=
  mk_shared (h_km k) (h_cas k) (h_opt k) (h_clock k) (h_n k) (h_next k) (h_to_link k) (h_tla k) v (h_lsi k).
Definition put_lsi (k : shared) (v : link_socket_info) : shared :=
  mk_shared (h_km k) (h_cas k) (h_opt k) (h_clock k) (h_n k) (h_next k) (h_to_link k) (h_tla k) (h_wakeup k) v.

Definition h_now (h : shared) : Z := now (h_clock h).
Definition h_flags (h : shared) : Z := p2p_crypto_flags (km_p2p (h_km h)).

(** [struct tls_multi]. *)
Record tls_multi : Type := mk_tls_multi {
  m_shared : shared;
  m_active : tls_session;
  m_initial : tls_session;
  m_lame_duck : tls_session;
  m_n_sessions : Z;
  m_n_hard_errors : Z;
  m_n_soft_errors : Z;
  m_tas_last_update : Z;
  m_tas_num_updates : Z;
  m_to_link_addr : option sockaddr;
  m_save_ks : option Z
}.
Definition put_shared (k : tls_multi) (v : shared) : tls_multi :=
    mk_tls_multi v (m_active k) (m_initial k) (m_lame_duck k) (m_n_sessions k) (m_n_hard_errors k) (m_n_soft_errors k)
    (m_tas_last_update k) (m_tas_num_updates k) (m_to_link_addr k) (m_save_ks k).
Definition put_n_sessions (k : tls_multi) (v : Z) : tls_multi :=
    mk_tls_multi (m_shared k) (m_active k) (m_initial k) (m_lame_duck k) v (m_n_hard_errors k) (m_n_soft_errors k)
    (m_tas_last_update k) (m_tas_num_updates k) (m_to_link_addr k) (m_save_ks k).
Definition put_n_hard_errors (k : tls_multi) (v : Z) : tls_multi :=
    mk_tls_multi (m_shared k) (m_active k) (m_initial k) (m_lame_duck k) (m_n_sessions k) v (m_n_soft_errors k)
    (m_tas_last_update k) (m_tas_num_updates k) (m_to_link_addr k) (m_save_ks k).
Definition put_n_soft_errors (k : tls_multi) (v : Z) : tls_multi :=
    mk_tls_multi (m_shared k) (m_active k) (m_initial k) (m_lame_duck k) (m_n_sessions k) (m_n_hard_errors k) v
    (m_tas_last_update k) (m_tas_num_updates k) (m_to_link_addr k) (m_save_ks k).
Definition put_to_link_addr (k : tls_multi) (v : option sockaddr) : tls_multi :=
    mk_tls_multi (m_shared k) (m_active k) (m_initial k) (m_lame_duck k) (m_n_sessions k) (m_n_hard_errors k)
    (m_n_soft_errors k) (m_tas_last_update k) (m_tas_num_updates k) v (m_save_ks k).

(** The answers of the system: the [n]th use gets what is given for [n]. *)
Record env : Type := mk_env {
  e_time : nat -> Z;
  e_session_id : nat -> session_id;
  e_rand : nat -> Z -> Z -> option bytes;
  e_fresh : Z -> bytes;
  e_prf : bytes -> bytes -> Z -> option bytes;
  e_creds : nat -> option (bytes * bytes);
  e_checks : nat -> auth_checks;
  e_deferred : nat -> option auth_deferred_result * option auth_deferred_result * auth_deferred_result;
  e_control_file : nat -> option Z;
  e_management_auth : bool;
  e_verify_wkc : option (wrap_ctx -> res bool);
  e_cipher_insecure : bytes -> bool;
  e_auth_token : option bytes;
  e_tries : nat
}.
Context (e : env).

Definition update_clock (h : shared) : shared := put_n (put_clock h (update_time (h_clock h) (e_time e (h_n h)))) (S (h_n h)).

(** ** Key states *)
Definition co_zero : crypto_options :=
  mk_co (mk_bi ctx_zero ctx_zero false) ek_zero ek_zero (mk_kt [] []) 0 [] ctx_zero rec_zero (mk_pid send_zero rec_zero) None 0.
Definition ack_zero : reliable_ack := mk_ack 0 (replicate (Z.to_nat RELIABLE_ACK_SIZE) 0).
Definition reliable_zero : reliable := mk_reliable 0 0 0 0 false (replicate (Z.to_nat RELIABLE_CAPACITY) entry_zero).
Definition key_state_zero : key_state :=
  mk_key (mk_ks S_UNDEF 0 KS_AUTH_FALSE 0 sockaddr_zero co_zero 0 0) None 0 0 0 0 0 0 x_session_id_zero src2_zero
    clear_buf clear_buf clear_buf reliable_zero reliable_zero ack_zero ack_zero [] None None ACF_PENDING None.

(** [++session->key_id; session->key_id &= P_KEY_ID_MASK; if (!session->key_id) session->key_id = 1;] *)
Definition next_key_id (id : Z) : Z :=
  let id := Z.land (id + 1) P_KEY_ID_MASK in if id =? 0 then 1 else id.

Definition key_state_init (h : shared) (s : tls_session) : res (key_state * tls_session * shared) :=
  let h := update_clock h in
  let o := h_opt h in
  let key_id := s_key_id s in
  let! read_buf := alloc_buf TLS_CHANNEL_BUF_SIZE in
  let! write_buf := alloc_buf TLS_CHANNEL_BUF_SIZE in
  let! ack_buf := alloc_buf (u64 (BUF_SIZE (o_frame o))) in
  let! send := reliable_init (BUF_SIZE (o_frame o)) (headroom (o_frame o)) TLS_RELIABLE_N_SEND_BUFFERS
                 (if negb (key_id =? 0) then false else o_xmit_hold o) in
  let! rec := reliable_init (BUF_SIZE (o_frame o)) (headroom (o_frame o)) TLS_RELIABLE_N_REC_BUFFERS false in
  let send := reliable_set_timeout send (o_packet_timeout o) in
  let! pid := packet_id_init (o_replay_window o) (o_replay_time o) (Some (str "SSL")) key_id in
  let ks := mk_key (mk_ks S_INITIAL key_id KS_AUTH_FALSE 0 sockaddr_zero (set_packet_id co_zero pid) 0 0)
              (Some (SSL_new (o_server o))) 0 0 0 0 0 (s_initial_opcode s) x_session_id_zero src2_zero
              read_buf write_buf ack_buf send rec ack_zero ack_zero [] None None ACF_PENDING (Some (h_next h)) in
  let s := mk_tls_session (s_burst s) (s_tls_wrap s) (s_tls_wrap_reneg s) (s_wrap_block s) (s_reneg_block s)
             P_CONTROL_SOFT_RESET_V1 (s_session_id s) (next_key_id key_id) (s_untrusted_addr s) (s_primary s)
             (s_lame_duck s) in
  Ret (ks, s, put_next h (h_next h + 1)).

(** The pointers are left dangling; with [clear] the whole structure is zeroed. *)
Definition key_state_free (k : key_state) (clear : bool) : key_state :=
  if clear then key_state_zero
  else
    let co := free_epoch_key_ctx (set_keys (k_crypto k) (free_key_ctx_bi (co_keys (k_crypto k)))) in
    let co := set_packet_id co (packet_id_free (co_packet_id co)) in
    let k := with_crypto (with_state k S_UNDEF) co in
    mk_key (k_data k) None (k_initial k) (k_established k) (k_must_negotiate k) (k_must_die k) (k_peer_last_packet k)
      (k_initial_opcode k) (k_session_id_remote k) src2_zero (free_buf (k_read_buf k)) (free_buf (k_write_buf k))
      (free_buf (k_ack_buf k)) reliable_zero reliable_zero ack_zero ack_zero [] None None (k_mda_status k) None.

(** ** Sessions *)
Definition wrap_zero : wrap_ctx := mk_tw TLS_WRAP_NONE co_zero clear_buf ctx_zero None clear_buf false key2_zero.
Definition session_zero : tls_session :=
  mk_tls_session false wrap_zero wrap_zero None None 0 x_session_id_zero 0 sockaddr_zero key_state_zero key_state_zero.

(** [while (!session_id_defined (&session->session_id)) session_id_random (...)]: nothing bounds
    the number of draws, so [e_tries] is the fuel. *)
Fixpoint session_id_loop (fuel : nat) (n : nat) (sid : session_id) : res (session_id * nat) :=
  if session_id_defined sid then Ret (sid, n)
  else match fuel with
       | O => UB
       | S fuel => session_id_loop fuel (S n) (e_session_id e n)
       end.

Definition tls_session_init (h : shared) : res (tls_session * shared) :=
  let o := h_opt h in
  let! (sid, n) := session_id_loop (e_tries e) (h_n h) x_session_id_zero in
  let h := put_n h n in
  let initial_opcode := if o_server o then P_CONTROL_HARD_RESET_SERVER_V2
                        else if o_tls_crypt_v2 o then P_CONTROL_HARD_RESET_CLIENT_V3 else P_CONTROL_HARD_RESET_CLIENT_V2 in
  let! work := alloc_buf (u64 (BUF_SIZE (o_frame o))) in
  let! pid := packet_id_init (o_replay_window o) (o_replay_time o) (Some (str "TLS_WRAP")) 0 in
  let pid := if o_tls_crypt_v2 o then mk_pid (mk_send EARLY_NEG_START (h_now h)) (pid_rec pid) else pid in
  let opt := tw_opt (o_tls_wrap o) in
  let pid := match co_pid_persist opt with Some p => packet_id_persist_load_obj p pid | None => pid end in
  let wrap := set_tw_work (o_tls_wrap o) (set_packet_id opt pid) work in
  let s := mk_tls_session false wrap wrap_zero (Some (h_next h)) None initial_opcode sid 0 sockaddr_zero
             key_state_zero key_state_zero in
  let h := put_next h (h_next h + 1) in
  let! (ks, s, h) := key_state_init h s in
  Ret (set_primary s ks, h).

Definition tls_wrap_free (c : wrap_ctx) : wrap_ctx :=
  let opt := tw_opt c in
  let opt := if packet_id_initialized (co_packet_id opt) then set_packet_id opt (packet_id_free (co_packet_id opt)) else opt in
  let opt := if tw_cleanup c then set_keys opt (free_key_ctx_bi (co_keys opt)) else opt in
  mk_tw (tw_mode c) opt (free_buf (tw_work c)) (tw_server_key c) (tw_wkc c) (free_buf (tw_metadata c)) (tw_cleanup c) key2_zero.

Definition tls_session_free (s : tls_session) (clear : bool) : tls_session :=
  if clear then session_zero
  else mk_tls_session (s_burst s) (tls_wrap_free (s_tls_wrap s)) (tls_wrap_free (s_tls_wrap_reneg s)) None None
         (s_initial_opcode s) (s_session_id s) (s_key_id s) (s_untrusted_addr s)
         (key_state_free (s_primary s) false) (key_state_free (s_lame_duck s) false).

(** The session that is freed is overwritten. *)
Definition reset_session (h : shared) (s : tls_session) : res (tls_session * shared) :=
  let s := tls_session_free s false in tls_session_init h.

Definition key_state_soft_reset (h : shared) (s : tls_session) : res (tls_session * shared) :=
  let ks := with_must_die (s_primary s) (h_now h + o_transition_window (h_opt h)) in
  let lame := key_state_free (s_lame_duck s) false in
  let s := set_lame_duck (set_primary s ks) ks in
  let! (ks, s, h) := key_state_init h s in
  let ks := with_session_id_remote ks (k_session_id_remote (s_lame_duck s)) in
  let ks := with_remote_addr ks (k_remote_addr (s_lame_duck s)) in
  Ret (set_primary s ks, h).

(** The context that wraps packets of a key: renegotiations may have their own. *)
Definition uses_reneg (s : tls_session) (key_id : Z) : bool :=
  (0 <? key_id) && match tw_mode (s_tls_wrap_reneg s) with TLS_WRAP_CRYPT => true | _ => false end.
Definition tls_session_get_tls_wrap (s : tls_session) (key_id : Z) : wrap_ctx :=
  if uses_reneg s key_id then s_tls_wrap_reneg s else s_tls_wrap s.
Definition put_tls_wrap (s : tls_session) (key_id : Z) (c : wrap_ctx) : tls_session :=
  if uses_reneg s key_id then set_tls_wrap_reneg s c else set_tls_wrap s c.
Definition wrap_owner (s : tls_session) (key_id : Z) : owner :=
  if uses_reneg s key_id then match s_reneg_block s with Some b => RenegBuf b | None => Foreign end
  else match s_wrap_block s with Some b => WorkBuf b | None => Foreign end.

(** ** Timers *)
Definition compute_earliest_wakeup (earliest seconds_from_now : Z) : Z :=
  let earliest := if seconds_from_now <? earliest then seconds_from_now else earliest in
  if earliest <? 0 then 0 else earliest.

Definition lame_duck_must_die (h : shared) (s : tls_session) : res (bool * shared) :=
  let lame := s_lame_duck s in
  if S_INITIAL <=? k_state lame then
    assert! negb (k_must_die lame =? 0) in
    if h_now h <? k_must_die lame
    then Ret (false, put_wakeup h (compute_earliest_wakeup (h_wakeup h) (s32 (k_must_die lame - h_now h))))
    else Ret (true, h)
  else Ret (k_state lame =? S_ERROR, h).

Definition auth_deferred_expire_window (o : tls_options) : Z :=
  let ret := o_handshake_window o in
  let r2 := Z.quot (o_renegotiate_seconds o) 2 in
  if negb (o_renegotiate_seconds o =? 0) && (r2 <? ret) then r2 else ret.

Definition should_trigger_renegotiation (h : shared) (ks : key_state) : bool :=
  let o := h_opt h in
  let co := k_crypto ks in
  if negb (o_renegotiate_seconds o =? 0) && (k_established ks + o_renegotiate_seconds o <=? h_now h) then true
  else if (0 <? o_renegotiate_bytes o) && (o_renegotiate_bytes o <=? ks_n_bytes (k_data ks)) then true
  else if negb (o_renegotiate_packets o =? 0) && (u64 (o_renegotiate_packets o) <=? ks_n_packets (k_data ks)) then true
  else if flag co CO_EPOCH_DATA_KEY_FORMAT then 0xF000 <=? ek_epoch (co_epoch_key_send co)
  else if packet_id_close_to_wrapping (pid_send (co_packet_id co)) then true
  else if aead_usage_limit_reached (o_aead_usage_limit o) (bi_encrypt (co_keys co)) (send_id (pid_send (co_packet_id co)))
          || aead_usage_limit_reached (o_aead_usage_limit o) (bi_decrypt (co_keys co)) (rec_id (pid_rec (co_packet_id co)))
  then true
  else cipher_decrypt_verify_fail_warn (bi_decrypt (co_keys co)).

(** ** Steps of the negotiation *)
Definition with_pre_start (k : key_state) (state initial must_negotiate expire : Z) : key_state :=
  let d := k_data k in
  mk_key (mk_ks state (ks_key_id d) (ks_authenticated d) expire (ks_remote_addr d) (ks_crypto_options d) (ks_n_bytes d)
            (ks_n_packets d)) (k_ssl k) initial (k_established k) must_negotiate (k_must_die k) (k_peer_last_packet k)
    (k_initial_opcode k) (k_session_id_remote k) (k_key_src k) (k_read_buf k) (k_write_buf k) (k_ack_buf k) (k_send k)
    (k_rec k) (k_rec_ack k) (k_lru_acks k) (k_paybuf k) (k_plugin_auth k) (k_script_auth k) (k_mda_status k) (k_block k).

Definition session_move_pre_start (h : shared) (ks : key_state) (skip_initial_send : bool) : res (bool * key_state) :=
  let! (buf, r) := reliable_get_buf_output_sequenced (k_send ks) in
  let ks := with_send ks r in
  match buf with
  | None => Ret (false, ks)
  | Some i =>
      let! r := reliable_mark_active_outgoing (k_send ks) i (k_initial_opcode ks) in
      let! r := (if skip_initial_send then reliable_mark_deleted r i else Ret r) in
      let state := if skip_initial_send then S_PRE_START_SKIP else S_PRE_START in
      Ret (true, with_pre_start (with_send ks r) state (h_now h) (h_now h + o_handshake_window (h_opt h))
                   (h_now h + auth_deferred_expire_window (h_opt h)))
  end.

Fixpoint flush_payload_buffer (o : ssl) (l : list bytes) : ssl :=
  match l with
  | [] => o
  | b :: l => flush_payload_buffer (key_state_write_plaintext_const o b).2 l
  end.

Definition session_move_active (h : shared) (ks : key_state) : res (shared * key_state) :=
  let ks := with_must_negotiate (with_state (with_established ks (h_now h)) S_ACTIVE) 0 in
  let! lsi := link_socket_set_outgoing_addr (h_lsi h) (k_remote_addr ks) in
  let h := put_lsi h lsi in
  let h := if h_cas h =? CAS_NOT_CONNECTED
           then put_cas h (if o_mode_server (h_opt h) then CAS_WAITING_AUTH else CAS_WAITING_OPTIONS_IMPORT) else h in
  match k_ssl ks, k_paybuf ks with
  | _, [] => Ret (h, ks)
  | None, _ => UB
  | Some o, l => Ret (h, with_paybuf (with_ssl ks (Some (flush_payload_buffer o l))) [])
  end.

(** [prepend_ack] puts the acknowledgments in front of the payload.  The result tells whether
    the packet is in the work buffer of the wrapping context. *)
Definition write_control_auth (h : shared) (s : tls_session) (buf : buffer) (opcode max_ack : Z) (prepend_ack : bool)
  : res (buffer * bool * tls_session) :=
  let ks := s_primary s in
  let header := u8 (Z.lor (k_key_id ks) (Z.shiftl opcode P_OPCODE_SHIFT)) in
  let max_ack := match tw_mode (s_tls_wrap s) with
                 | TLS_WRAP_NONE => if negb (o_server (h_opt h)) && negb (flag_set (h_flags h) CO_USE_TLS_KEY_MATERIAL_EXPORT)
                                    then min_int max_ack 4 else max_ack
                 | _ => max_ack
                 end in
  assert! link_socket_actual_defined (k_remote_addr ks) in
  let! (ok, rec_ack, lru_acks, buf) :=
    reliable_ack_write (k_rec_ack ks) (k_lru_acks ks) buf (k_session_id_remote ks) max_ack prepend_ack in
  assert! ok in
  let s := set_primary s (with_lru_acks (with_rec_ack ks rec_ack) lru_acks) in
  let ctx := tls_session_get_tls_wrap s (k_key_id ks) in
  let! (buf, ctx) := tls_wrap_control (h_now h) [] ctx header buf (s_session_id s) in
  let in_work := match tw_mode ctx with TLS_WRAP_CRYPT => negb (b_len buf =? 0) | _ => false end in
  Ret (buf, in_work, put_tls_wrap s (k_key_id ks) ctx).

(** The packet in the queue and the one that leaves share their memory. *)
Definition share_memory (r : reliable) (i : nat) (b : buffer) : reliable :=
  match rel_array r !! i with
  | Some en => set_array r (<[i := set_buf en (mk_buffer (b_capacity (e_buf en)) (b_offset (e_buf en)) (b_len (e_buf en))
                                                 (b_data b))]> (rel_array r))
  | None => r
  end.

(** ** One pass over the state *)

(** How a part of [tls_process_state] is left: with [*continue_tls_process], by [goto error] or
    by [return]. *)
Inductive flow : Type := Go (c : bool) | Goto_error (c : bool) | Return (c : bool).
Definition and_go (m : res (flow * shared * tls_session)) (k : bool -> shared -> tls_session -> res (flow * shared * tls_session))
  : res (flow * shared * tls_session) :=
  let! (f, h, s) := m in match f with Go c => k c h s | _ => Ret (f, h, s) end.

Definition on_turn (o : tls_options) (client server : Z) (state : Z) : bool :=
  ((state =? client) && negb (o_server o)) || ((state =? server) && o_server o).

(** From the start to the acknowledgment of the last packet. *)
Definition process_handshake (h : shared) (s : tls_session) : res (flow * shared * tls_session) :=
  let! (c, ks) := (if k_state (s_primary s) =? S_INITIAL then session_move_pre_start h (s_primary s) false
                   else Ret (false, s_primary s)) in
  if (k_must_negotiate ks <=? h_now h) && (S_UNDEF <=? k_state ks) && (k_state ks <? S_ACTIVE)
  then Ret (Goto_error c, h, set_primary s ks)
  else
    let '(c, ks) := if (k_state ks =? S_PRE_START) && reliable_empty (k_send ks) then (true, with_state ks S_START)
                    else (c, ks) in
    if on_turn (h_opt h) S_GOT_KEY S_SENT_KEY (k_state ks) && reliable_empty (k_send ks) then
      let! (h, ks) := session_move_active h ks in Ret (Go true, h, set_primary s ks)
    else Ret (Go c, h, set_primary s ks).

(** A packet that is due goes to the link, and the pass ends; so does the pass of a session that
    has failed. *)
Definition process_send (c : bool) (h : shared) (s : tls_session) : res (flow * shared * tls_session) :=
  let ks := s_primary s in
  if (b_len (lb_buf (h_to_link h)) =? 0) && reliable_can_send (h_now h) (k_send ks) then
    let! (found, r) := reliable_send (h_now h) (k_send ks) in
    match found with
    | None => Fatal
    | Some (i, opcode) =>
        match rel_array r !! i with
        | None => UB
        | Some en =>
            let s := set_primary s (with_send ks r) in
            let! (b, in_work, s) := write_control_auth h s (e_buf en) opcode CONTROL_SEND_ACK_MAX true in
            let ks := s_primary s in
            let own := if in_work then wrap_owner s (k_key_id ks)
                       else match k_block ks with Some a => SendBuf a i | None => Foreign end in
            let s := if in_work then s else set_primary s (with_send ks (share_memory (k_send ks) i b)) in
            Ret (Return false, put_tla (put_to_link h (mk_lb b own)) (Some (k_remote_addr ks)), s)
        end
    end
  else if k_state ks =? S_ERROR_PRE then Ret (Return false, h, set_primary s (with_state ks S_ERROR))
  else Ret (Go c, h, s).

(** The next packet in sequence is given to the TLS library, or its early negotiation is read. *)
Definition process_incoming (c : bool) (h : shared) (s : tls_session) : res (flow * shared * tls_session) :=
  let ks := s_primary s in
  match reliable_get_entry_sequenced (k_rec ks) with
  | None => Ret (Go c, h, s)
  | Some (i, en) =>
      if (e_packet_id en =? 0) && is_hard_reset_method2 (e_opcode en) then
        let co := k_crypto ks in
        let! (ok, flags, r) := parse_early_negotiation_tlvs (k_rec ks) i en (co_flags co) in
        let co := mk_co (co_keys co) (co_epoch_key_send co) (co_epoch_key_recv co) (co_epoch_key_type co)
                    (co_aead_usage_limit co) (co_future co) (co_retiring co) (co_retiring_pid_recv co) (co_packet_id co)
                    (co_pid_persist co) flags in
        let s := set_primary s (with_rec (with_crypto ks co) r) in
        Ret (if ok then Go c else Goto_error c, h, s)
      else
        match k_ssl ks with
        | None => UB
        | Some o =>
            let! (status, b, o) := (if negb (b_len (e_buf en) =? 0) then key_state_write_ciphertext o (e_buf en)
                                    else Ret (1, e_buf en, o)) in
            let r := set_array (k_rec ks) (<[i := set_buf en b]> (rel_array (k_rec ks))) in
            let! (ok, r) := read_incoming_tls_ciphertext r i en status in
            let s := set_primary s (with_rec (with_ssl ks (Some o)) r) in
            Ret (if ok then Go (c || (status =? 1)) else Goto_error c, h, s)
        end
  end.

Definition read_incoming_tls_plaintext (c : bool) (h : shared) (s : tls_session) : res (flow * shared * tls_session) :=
  let ks := s_primary s in
  if negb (b_len (k_read_buf ks) =? 0) then Ret (Go c, h, s)
  else
    let '(ok, buf) := buf_init_dowork (k_read_buf ks) 0 in
    assert! ok in
    match k_ssl ks with
    | None => UB
    | Some o =>
        let! (status, buf, o) := key_state_read_plaintext o buf in
        let h := update_clock h in
        let s := set_primary s (with_read_buf (with_ssl ks (Some o)) buf) in
        if status =? -1 then Ret (Goto_error c, h, s)
        else if status =? 1 then Ret (Go true, put_wakeup h 0, s)
        else Ret (Go c, h, s)
    end.

(** The options of the exchange for the primary key. *)
Definition key_options (h : shared) (ks : key_state) : km_options :=
  let k := o_km (h_opt h) in
  mk_kmo (o_server (h_opt h)) (km_local_options k) (km_remote_options k) (km_ssl_flags k) (km_info k) (km_host k) (k_key_id ks).

Definition send_key (c : bool) (h : shared) (s : tls_session) : res (flow * shared * tls_session) :=
  let ks := s_primary s in
  if (b_len (k_write_buf ks) =? 0) && on_turn (h_opt h) S_START S_GOT_KEY (k_state ks) then
    match k_ssl ks with
    | None => UB
    | Some o =>
        let! (ok, buf, src, km) := key_method_2_write (e_fresh e) (key_state_export_keying_material o) (e_rand e (h_n h))
                                     (e_creds e (h_n h)) (key_options h ks) (k_write_buf ks) (k_key_src ks) (h_km h) in
        let h := put_n (put_km h km) (S (h_n h)) in
        let s := set_primary s (with_key_src (with_write_buf ks buf) src) in
        if negb ok then Ret (Goto_error c, h, s)
        else Ret (Go true, h, set_primary s (with_state (s_primary s) S_SENT_KEY))
    end
  else Ret (Go c, h, s).

(** The verification of a user name and password may leave the decision to a plugin, a script or
    the management client ([e_deferred]). *)
Definition receive_key (c : bool) (h : shared) (s : tls_session) : res (flow * shared * tls_session) :=
  let ks := s_primary s in
  if negb (b_len (k_read_buf ks) =? 0) && on_turn (h_opt h) S_SENT_KEY S_START (k_state ks) then
    match k_ssl ks with
    | None => UB
    | Some o =>
        let! (ok, buf, auth, src, km) := key_method_2_read (key_state_export_keying_material o) (e_checks e (h_n h))
                                           (key_options h ks) (k_read_buf ks) (k_key_src ks) (h_km h) in
        let '(plugin, script, mda) := e_deferred e (h_n h) in
        let h := put_n (put_km h km) (S (h_n h)) in
        let ks := with_key_src (with_read_buf (with_authenticated ks auth) buf) src in
        let ks := mk_key (k_data ks) (k_ssl ks) (k_initial ks) (k_established ks) (k_must_negotiate ks) (k_must_die ks)
                    (k_peer_last_packet ks) (k_initial_opcode ks) (k_session_id_remote ks) (k_key_src ks) (k_read_buf ks)
                    (k_write_buf ks) (k_ack_buf ks) (k_send ks) (k_rec ks) (k_rec_ack ks) (k_lru_acks ks) (k_paybuf ks)
                    plugin script mda (k_block ks) in
        if negb ok then Ret (Goto_error c, h, set_primary s ks)
        else Ret (Go true, h, set_primary s (with_state ks S_GOT_KEY))
    end
  else Ret (Go c, h, s).

Definition write_outgoing_plaintext (c : bool) (h : shared) (s : tls_session) : res (flow * shared * tls_session) :=
  let ks := s_primary s in
  if b_len (k_write_buf ks) =? 0 then Ret (Go c, h, s)
  else
    match k_ssl ks with
    | None => UB
    | Some o =>
        let! (status, buf, o) := key_state_write_plaintext o (k_write_buf ks) in
        let s := set_primary s (with_write_buf (with_ssl ks (Some o)) buf) in
        if status =? -1 then Ret (Goto_error c, h, s)
        else Ret (Go (c || (status =? 1)), h, s)
    end.

(** What the cutting of ciphertext reads of the session. *)
Definition send_view (h : shared) (s : tls_session) : TlsSend.tls_session :=
  let ks := s_primary s in
  TlsSend.mk_session (frame_tun_mtu (o_frame (h_opt h))) (tw_mode (s_tls_wrap s))
    (match ctx_hmac (bi_encrypt (co_keys (tw_opt (s_tls_wrap s)))) with Some c => hmac_ctx_size c | None => 0 end)
    (match tw_wkc (s_tls_wrap s) with Some b => buf_len b | None => 0 end)
    (bool_decide (sin_family (k_remote_addr ks) = AF_INET)) (co_flags (k_crypto ks)) (k_rec_ack ks) (k_lru_acks ks) (k_send ks).

(** [write_outgoing_tls_ciphertext] of TlsSend.v, with the library's side of the call. *)
Definition outgoing_ciphertext (c : bool) (h : shared) (s : tls_session) : res (bool * bool * tls_session) :=
  let ks := s_primary s in
  let avail := reliable_get_num_output_sequenced_available (k_send ks) in
  if avail =? 0 then Ret (true, c, s)
  else
    match k_ssl ks with
    | None => UB
    | Some o =>
        let '(maxlen, _) := ciphertext_limits (send_view h s) avail in
        let! tmp := alloc_buf_gc (e_fresh e maxlen) in
        let! (status, tmp, o) := key_state_read_ciphertext o tmp in
        let! data := buf_bytes tmp in
        let! (ok, c, r) := write_outgoing_tls_ciphertext (send_view h s) (e_fresh e) (fun _ => (status, data)) c in
        Ret (ok, c, set_primary s (with_send (with_ssl ks (Some o)) r))
    end.

Definition check_outgoing_ciphertext (c : bool) (h : shared) (s : tls_session) : res (bool * bool * tls_session) :=
  let ks := s_primary s in
  if S_START <=? k_state ks then
    let! (buf, r) := reliable_get_buf_output_sequenced (k_send ks) in
    let s := set_primary s (with_send ks r) in
    match buf with
    | Some _ => outgoing_ciphertext c h s
    | None => Ret (true, c, s)
    end
  else Ret (true, c, s).

Definition process_outgoing (c : bool) (h : shared) (s : tls_session) : res (flow * shared * tls_session) :=
  let! (ok, c, s) := check_outgoing_ciphertext c h s in
  Ret (if ok then Go c else Goto_error c, h, s).

(** The code at [error]. *)
Definition process_error (c : bool) (h : shared) (s : tls_session) : res (bool * shared * tls_session) :=
  let ks := s_primary s in
  let! o := key_state_ssl_shutdown (k_ssl ks) in
  let s := set_primary s (with_ssl ks o) in
  let! (_, _, s) := check_outgoing_ciphertext c h s in
  Ret (true, h, set_primary s (with_state (s_primary s) S_ERROR_PRE)).

Definition tls_process_state (h : shared) (s : tls_session) : res (bool * shared * tls_session) :=
  let! (f, h, s) :=
    and_go (process_handshake h s) (fun c h s =>
    and_go (process_send c h s) (fun c h s =>
    and_go (process_incoming c h s) (fun c h s =>
    and_go (read_incoming_tls_plaintext c h s) (fun c h s =>
    and_go (send_key c h s) (fun c h s =>
    and_go (receive_key c h s) (fun c h s =>
    and_go (write_outgoing_plaintext c h s) (fun c h s => process_outgoing c h s))))))) in
  match f with
  | Go c | Return c => Ret (c, h, s)
  | Goto_error c => process_error c h s
  end.

(** ** The loop *)

(** [while (continue_tls_process)]; [None]: the state is [S_ERROR]. *)
Fixpoint tls_process_loop (fuel : nat) (h : shared) (s : tls_session) : res (bool * shared * tls_session) :=
  match fuel with
  | O => UB
  | S fuel =>
      let h := update_clock h in
      let! (c, h, s) := tls_process_state h s in
      if k_state (s_primary s) =? S_ERROR then Ret (false, h, s)
      else if c then tls_process_loop fuel h s
      else Ret (true, h, s)
  end.

(** Enough for every pass that makes progress (see KeyMachine.v). *)
Definition process_fuel : nat := 283.

(** Acknowledgments that found no packet to ride on; [None] is the early [return false]. *)
Definition process_acks (h : shared) (s : tls_session) : res (option (shared * tls_session)) :=
  let ks := s_primary s in
  if (b_len (lb_buf (h_to_link h)) =? 0) && negb (reliable_ack_empty (k_rec_ack ks)) then
    if control_packet_needs_wkc (co_flags (k_crypto ks)) (k_send ks) then
      let! (buf, r) := reliable_get_buf_output_sequenced (k_send ks) in
      match buf with
      | None => Ret None
      | Some i =>
          let! r := reliable_mark_active_outgoing r i P_CONTROL_WKC_V1 in
          Ret (Some (h, set_primary s (with_send ks r)))
      end
    else
      let '(ok, buf) := buf_init_dowork (k_ack_buf ks) (headroom (o_frame (h_opt h))) in
      assert! ok in
      let! (b, in_work, s) := write_control_auth h s buf P_ACK_V1 RELIABLE_ACK_SIZE false in
      let ks := s_primary s in
      let own := if in_work then wrap_owner s (k_key_id ks)
                 else match k_block ks with Some a => AckBuf a | None => Foreign end in
      let ack := k_ack_buf ks in
      let s := if in_work then s
               else set_primary s (with_ack_buf ks (mk_buffer (b_capacity ack) (b_offset ack) (b_len ack) (b_data b))) in
      Ret (Some (put_tla (put_to_link h (mk_lb b own)) (Some (k_remote_addr ks)), s))
  else Ret (Some (h, s)).

Definition process_wakeup (h : shared) (ks : key_state) : shared :=
  let h := if (S_INITIAL <=? k_state ks) || (k_state ks =? S_ERROR_PRE) then
             let h := put_wakeup h (compute_earliest_wakeup (h_wakeup h) (reliable_send_timeout (h_now h) (k_send ks))) in
             if negb (k_must_negotiate ks =? 0)
             then put_wakeup h (compute_earliest_wakeup (h_wakeup h) (s32 (k_must_negotiate ks - h_now h))) else h
           else h in
  if negb (k_established ks =? 0) && negb (o_renegotiate_seconds (h_opt h) =? 0)
  then put_wakeup h (compute_earliest_wakeup (h_wakeup h)
                       (s32 (k_established ks + o_renegotiate_seconds (h_opt h) - h_now h)))
  else h.

Definition tls_process (h : shared) (s : tls_session) : res (bool * shared * tls_session) :=
  assert! negb (k_state (s_primary s) =? S_UNDEF) in
  assert! negb (k_state (s_primary s) =? S_ERROR) in
  assert! session_id_defined (s_session_id s) in
  let! (s, h) := (if (S_GENERATED_KEYS <=? k_state (s_primary s)) && should_trigger_renegotiation h (s_primary s)
                  then key_state_soft_reset h s else Ret (s, h)) in
  let! (die, h) := lame_duck_must_die h s in
  let s := if die then set_lame_duck s (key_state_free (s_lame_duck s) true) else s in
  let! (ok, h, s) := tls_process_loop process_fuel h s in
  if negb ok then Ret (false, h, s)
  else
    let h := update_clock h in
    let! acks := process_acks h s in
    match acks with
    | None => Ret (false, h, s)
    | Some (h, s) =>
        let h := process_wakeup h (s_primary s) in
        if h_wakeup h <=? 0 then Ret (true, put_wakeup h 1, s)
        else Ret (negb (b_len (lb_buf (h_to_link h)) =? 0), h, s)
    end.

(** ** The data channel's view *)
Definition session_view (s : tls_session) : data_session :=
  DataPath.mk_session (k_data (s_primary s)) (k_data (s_lame_duck s)).
Definition data_view (m : tls_multi) : data_multi :=
  let p := km_p2p (h_km (m_shared m)) in
  DataPath.mk_multi (session_view (m_active m)) (session_view (m_initial m)) (session_view (m_lame_duck m))
    (h_cas (m_shared m)) (p2p_use_peer_id p) (p2p_peer_id p) (m_save_ks m) (m_n_soft_errors m).

(** ** Sessions of a tunnel *)
Inductive session_index : Type := TM_ACTIVE | TM_INITIAL | TM_LAME_DUCK.
#[export] Instance session_index_eq : EqDecision session_index.
Proof. solve_decision. Defined.
Definition get_session (m : tls_multi) (i : session_index) : tls_session :=
  match i with TM_ACTIVE => m_active m | TM_INITIAL => m_initial m | TM_LAME_DUCK => m_lame_duck m end.
Definition put_session (m : tls_multi) (i : session_index) (s : tls_session) : tls_multi :=
  mk_tls_multi (m_shared m)
    (match i with TM_ACTIVE => s | _ => m_active m end)
    (match i with TM_INITIAL => s | _ => m_initial m end)
    (match i with TM_LAME_DUCK => s | _ => m_lame_duck m end)
    (m_n_sessions m) (m_n_hard_errors m) (m_n_soft_errors m) (m_tas_last_update m) (m_tas_num_updates m)
    (m_to_link_addr m) (m_save_ks m).

(** A session that is used is at one index only: the structure is copied over the one at [dest],
    whose memory is freed ([tls_session_free] without clearing: its blocks have no owner left),
    and the source is initialised again or zeroed. *)
Definition move_session (m : tls_multi) (dest src : session_index) (reinit_src : bool) : res tls_multi :=
  if decide (src = dest) then Fatal
  else
    let m := put_session m dest (get_session m src) in
    if reinit_src then let! (s, h) := tls_session_init (m_shared m) in Ret (put_shared (put_session m src s) h)
    else Ret (put_session m src session_zero).

Definition owner_eqb (o o' : owner) : bool :=
  match o, o' with
  | WorkBuf a, WorkBuf b | RenegBuf a, RenegBuf b | AckBuf a, AckBuf b => a =? b
  | SendBuf a i, SendBuf b j => (a =? b) && (i =? j)%nat
  | _, _ => false
  end.
(** The packets of the send queue of a key, [for (int j = 0; j < ks->send_reliable->size; j++)]. *)
Definition in_send_queue (own : owner) (k : key_state) (b : Z) : bool :=
  match own with
  | SendBuf a j => (a =? b) && (Z.of_nat j <? rel_size (k_send k))
  | _ => false
  end.
Definition key_uses (own : owner) (k : key_state) : res bool :=
  if k_state k =? S_UNDEF then Ret false
  else match k_block k with Some b => Ret (in_send_queue own k b) | None => Fatal end.
Definition check_session_buf_not_used (to_link : link_buf) (s : tls_session) : res link_buf :=
  match b_data (lb_buf to_link) with
  | None => Ret to_link
  | Some _ =>
      let own := lb_owner to_link in
      let used := mk_lb (mk_buffer (b_capacity (lb_buf to_link)) (b_offset (lb_buf to_link)) 0 None) own in
      if match s_wrap_block s with Some b => owner_eqb own (WorkBuf b) | None => false end then Ret used
      else
        let! u := key_uses own (s_primary s) in
        if u then Ret used
        else let! u := key_uses own (s_lame_duck s) in if u then Ret used else Ret to_link
  end.

(** A session that failed: an unexpired retiring key is preserved, and the session starts again. *)
Definition restart_session (m : tls_multi) (i : session_index) : res tls_multi :=
  let s := get_session m i in
  if bool_decide (i = TM_ACTIVE) && (S_GENERATED_KEYS <=? k_state (s_lame_duck s))
     && negb (o_single_session (h_opt (m_shared m)))
  then move_session m TM_LAME_DUCK TM_ACTIVE true
  else
    let! lb := check_session_buf_not_used (h_to_link (m_shared m)) s in
    let! (s, h) := reset_session (put_to_link (m_shared m) lb) s in
    Ret (put_shared (put_session m i s) h).

(** Whether the failure counts as an error of the connection. *)
Definition session_failed (m : tls_multi) (i : session_index) : res (bool * tls_multi) :=
  let m := put_n_soft_errors m (m_n_soft_errors m + 1) in
  let error := match i with
               | TM_ACTIVE => true
               | TM_INITIAL => k_state (s_primary (m_active m)) <? S_ACTIVE
               | TM_LAME_DUCK => false
               end in
  let! m := restart_session m i in Ret (error, m).

(** The address a new session is tried with, as long as none is established. *)
Definition aim_session (m : tls_multi) (i : session_index) : tls_session :=
  let s := get_session m i in
  let ks := s_primary s in
  if bool_decide (i = TM_INITIAL) && (k_state ks =? S_INITIAL) && (k_state (s_primary (m_active m)) <=? S_INITIAL)
     && link_socket_actual_defined (lsi_actual (h_lsi (m_shared m)))
  then set_primary s (with_remote_addr ks (lsi_actual (h_lsi (m_shared m)))) else s.

(** The body of the loop over the sessions: whether the session asks to be called again, and
    whether it failed. *)
Definition process_session (m : tls_multi) (i : session_index) : res (bool * bool * tls_multi) :=
  let m := put_session m i (aim_session m i) in
  let s := get_session m i in
  let ks := s_primary s in
  if ((S_INITIAL <=? k_state ks) || (k_state ks =? S_ERROR_PRE)) && link_socket_actual_defined (k_remote_addr ks) then
    let h := update_clock (put_tla (m_shared m) None) in
    let! (active, h, s) := tls_process h s in
    let m := put_shared (put_session m i s) h in
    let m := match h_tla h with Some a => put_to_link_addr m (Some a) | None => m end in
    if k_state (s_primary s) =? S_ERROR then
      let! (error, m) := session_failed m i in Ret (active, error, m)
    else Ret (active, false, m)
  else Ret (false, false, m).

(** ** Authentication of the keys (ssl_verify.c) *)
Definition TLS_AUTHENTICATED (o : tls_options) (ks : key_state) : bool :=
  S_GOT_KEY - (if o_server o then 1 else 0) <=? k_state ks.

Definition key_state_test_auth_control_file (ads : option auth_deferred_result) (cached : bool) (n : nat)
  : auth_deferred_result * option auth_deferred_result :=
  match ads with
  | None => (ACF_DISABLED, None)
  | Some ACF_PENDING =>
      let ret := if cached then ACF_PENDING
                 else match e_control_file e n with
                      | Some 49 => ACF_SUCCEEDED
                      | Some 48 => ACF_FAILED
                      | _ => ACF_PENDING
                      end in
      (ret, Some ret)
  | Some ret => (ret, Some ret)
  end.

Definition update_key_auth_status (h : shared) (cached : bool) (ks : key_state) : shared * key_state :=
  match k_authenticated ks with
  | KS_AUTH_FALSE => (h, ks)
  | _ =>
      let '(plugin, pa) := key_state_test_auth_control_file (k_plugin_auth ks) cached (h_n h) in
      let '(script, sa) := key_state_test_auth_control_file (k_script_auth ks) cached (S (h_n h)) in
      let man := if e_management_auth e then k_mda_status ks else ACF_DISABLED in
      let ks := with_script_auth (with_plugin_auth ks pa) sa in
      let h := put_n h (S (S (h_n h))) in
      let any x := bool_decide (plugin = x) || bool_decide (script = x) || bool_decide (man = x) in
      if any ACF_FAILED then (h, with_authenticated ks KS_AUTH_FALSE)
      else if any ACF_PENDING then
        if ks_auth_deferred_expire (k_data ks) <=? h_now h then (h, with_authenticated ks KS_AUTH_FALSE) else (h, ks)
      else (h, with_authenticated ks KS_AUTH_TRUE)
  end.

Definition cache_intervals : list Z := [0; 0; 0; 0; 0; 1; 1; 2; 2; 4; 8].
Definition tls_authentication_status_use_cache (m : tls_multi) : bool :=
  let idx := Z.min (m_tas_num_updates m) (Zlen cache_intervals - 1) in
  h_now (m_shared m) <=? m_tas_last_update m + default 0 (cache_intervals !! Z.to_nat idx).

(** One key of the scan: failed, deferred, succeeded. *)
Definition scan_auth (cached : bool) (h : shared) (ks : key_state) : shared * key_state * (bool * bool * bool) :=
  if TLS_AUTHENTICATED (h_opt h) ks then
    let '(h, ks) := update_key_auth_status h cached ks in
    (h, ks, match k_authenticated ks with
            | KS_AUTH_FALSE => (true, false, false)
            | KS_AUTH_DEFERRED => (false, true, false)
            | KS_AUTH_TRUE => (false, false, true)
            end)
  else (h, ks, (false, false, false)).

Definition tls_authentication_status (m : tls_multi) : tls_auth_status * tls_multi :=
  let cached := tls_authentication_status_use_cache m in
  let '(h, k0, (f0, d0, t0)) := scan_auth cached (m_shared m) (s_primary (m_active m)) in
  let '(h, k1, (f1, d1, t1)) := scan_auth cached h (s_lame_duck (m_active m)) in
  let '(h, k2, (f2, d2, t2)) := scan_auth cached h (s_lame_duck (m_lame_duck m)) in
  let a := set_lame_duck (set_primary (m_active m) k0) k1 in
  let l := set_lame_duck (m_lame_duck m) k2 in
  let m := mk_tls_multi h a (m_initial m) l (m_n_sessions m) (m_n_hard_errors m) (m_n_soft_errors m)
             (if cached then m_tas_last_update m else h_now h)
             (if cached then m_tas_num_updates m else u32 (m_tas_num_updates m + 1)) (m_to_link_addr m) (m_save_ks m) in
  (if f0 || f1 || f2 then TLS_AUTHENTICATION_FAILED
   else if t0 || t1 || t2 then TLS_AUTHENTICATION_SUCCEEDED
   else if negb (existsb (TLS_AUTHENTICATED (h_opt h)) [k0; k1; k2]) || (d0 || d1 || d2) then TLS_AUTHENTICATION_DEFERRED
   else TLS_AUTHENTICATION_FAILED, m).

(** ** Keys of the data channel *)
Definition tls_limit_reneg_bytes (ciphername : bytes) (reneg_bytes : Z) : Z :=
  if e_cipher_insecure e ciphername && (reneg_bytes =? -1) then 64 * 1024 * 1024 else reneg_bytes.
Definition tls_get_limit_aead (ciphername : bytes) : Z :=
  let limit := cipher_get_aead_limits ciphername in if limit =? 0 then 0 else limit / 8 * 7.

Definition tls_session_generate_data_channel_keys (h : shared) (s : tls_session) : res (bool * shared * tls_session) :=
  let ks := s_primary s in
  match k_authenticated ks with
  | KS_AUTH_FALSE => Ret (false, h, set_primary s (with_key_src ks src2_zero))
  | _ =>
      let o := h_opt h in
      let co := k_crypto ks in
      let co := mk_co (co_keys co) (co_epoch_key_send co) (co_epoch_key_recv co) (co_epoch_key_type co)
                  (co_aead_usage_limit co) (co_future co) (co_retiring co) (co_retiring_pid_recv co) (co_packet_id co)
                  (co_pid_persist co) (h_flags h) in
      let ekm := match k_ssl ks with Some x => key_state_export_keying_material x | None => fun _ _ => None end in
      let! (ok, co) := generate_key_expansion (e_prf e) ekm (o_dco o) (h_flags h) (o_key_type o) (o_server o)
                         (s_session_id s) (k_session_id_remote ks) (k_key_src ks) co in
      let ks := with_key_src (with_crypto ks co) src2_zero in
      if negb ok then Ret (false, h, set_primary s ks)
      else
        let cipher := kt_cipher (o_key_type o) in
        let o := set_limits o (tls_limit_reneg_bytes cipher (o_renegotiate_bytes o)) (tls_get_limit_aead cipher) in
        Ret (true, put_opt h o, set_primary s (with_state ks S_GENERATED_KEYS))
  end.

(** ** Payload of the control channel *)
Definition tls_send_payload (ks : key_state) (data : bytes) : res (bool * key_state) :=
  if S_ACTIVE <=? k_state ks then
    match k_ssl ks with
    | None => UB
    | Some o => let '(status, o) := key_state_write_plaintext_const o data in Ret (status =? 1, with_ssl ks (Some o))
    end
  else Ret (true, with_paybuf ks (k_paybuf ks ++ [data])).

Definition tls_rec_payload (m : tls_multi) (buf : buffer) : res (bool * buffer * tls_multi) :=
  let ks := s_primary (m_active m) in
  if (S_ACTIVE <=? k_state ks) && negb (buf_len (k_read_buf ks) =? 0) then
    let! (ret, buf) := buf_copy buf (k_read_buf ks) in
    let ks := with_read_buf ks (set_window (k_read_buf ks) (b_offset (k_read_buf ks)) 0) in
    Ret (ret, buf, put_session m TM_ACTIVE (set_primary (m_active m) ks))
  else Ret (false, buf, m).

(** ** The event loop's entry *)

(** The keys of the active session once the connection is set up. *)
Definition generate_active_keys (m : tls_multi) : res tls_multi :=
  let s := m_active m in
  let ks := s_primary s in
  if (CAS_CONNECT_DONE <=? h_cas (m_shared m)) && (k_state ks =? S_ACTIVE) && bool_decide (k_authenticated ks = KS_AUTH_TRUE)
  then
    let! (ok, h, s) := tls_session_generate_data_channel_keys (m_shared m) s in
    let! s := (if ok then Ret s
               else let ks := with_authenticated (s_primary s) KS_AUTH_FALSE in
                    let! o := key_state_ssl_shutdown (k_ssl ks) in
                    Ret (set_primary s (with_state (with_ssl ks o) S_ERROR_PRE))) in
    let! ks := (match e_auth_token e with
                | Some text => if negb (k_key_id (s_primary s) =? 0)
                               then let! (_, ks) := tls_send_payload (s_primary s) text in Ret ks else Ret (s_primary s)
                | None => Ret (s_primary s)
                end) in
    Ret (put_shared (put_session m TM_ACTIVE (set_primary s ks)) h)
  else Ret m.

(** [error]: a session failed and no key of the scan is in use. *)
Definition hard_error (m : tls_multi) (error : bool) : tls_multi :=
  if error && negb (existsb (fun ks => S_ACTIVE <=? k_state ks)
                      [s_primary (m_active m); s_lame_duck (m_active m); s_lame_duck (m_lame_duck m)])
  then put_n_hard_errors m (m_n_hard_errors m + 1) else m.

Definition tls_multi_process (m : tls_multi) : res (tlsmp * tls_multi) :=
  let! (a0, e0, m) := process_session m TM_ACTIVE in
  let! (a1, e1, m) := process_session m TM_INITIAL in
  let! (a2, e2, m) := process_session m TM_LAME_DUCK in
  let active := if a0 || a1 || a2 then TLSMP_ACTIVE else TLSMP_INACTIVE in
  let m := put_shared m (update_clock (m_shared m)) in
  let '(tas, m) := tls_authentication_status m in
  let! m := generate_active_keys m in
  let m := if (h_cas (m_shared m) =? CAS_WAITING_AUTH) && bool_decide (tas = TLS_AUTHENTICATION_SUCCEEDED)
           then put_shared m (put_cas (m_shared m) CAS_PENDING) else m in
  let! (die, h) := lame_duck_must_die (m_shared m) (m_lame_duck m) in
  let m := put_shared m h in
  let m := if die then put_session m TM_LAME_DUCK (tls_session_free (m_lame_duck m) true) else m in
  let! (tas, active, m) :=
    (if TLS_AUTHENTICATED (h_opt (m_shared m)) (s_primary (m_initial m)) then
       let! m := move_session m TM_ACTIVE TM_INITIAL true in
       let '(tas, m) := tls_authentication_status m in
       if h_cas (m_shared m) =? CAS_CONNECT_DONE
       then Ret (tas, TLSMP_RECONNECT, put_shared m (put_cas (m_shared m) CAS_RECONNECT_PENDING))
       else Ret (tas, active, m)
     else Ret (tas, active, m)) in
  let m := hard_error m (e0 || e1 || e2) in
  Ret (if decide (tas = TLS_AUTHENTICATION_FAILED) then TLSMP_KILL else active, m).

(** ** Packets that arrive *)

(** The session a control packet belongs to, by the session identifier of the peer: the first
    match, or none. *)
Definition match_session (m : tls_multi) (sid : session_id) : option session_index :=
  if session_id_equal (k_session_id_remote (s_primary (m_active m))) sid then Some TM_ACTIVE
  else if session_id_equal (k_session_id_remote (s_primary (m_initial m))) sid then Some TM_INITIAL
  else if session_id_equal (k_session_id_remote (s_primary (m_lame_duck m))) sid then Some TM_LAME_DUCK
  else None.

(** [goto error]. *)
Definition packet_error (ret : bool) (m : tls_multi) : res (bool * tls_multi) :=
  Ret (ret, put_n_soft_errors m (m_n_soft_errors m + 1)).

(** Unwraps the packet with the context for its key id. *)
Definition open_packet (m : tls_multi) (i : session_index) (buf : buffer) (key_id : Z) (initial_packet : bool)
  : res (bool * buffer * tls_multi) :=
  let s := get_session m i in
  let! (ok, buf, ctx) := read_control_auth (h_now (m_shared m)) (e_fresh e) (e_verify_wkc e) buf
                           (tls_session_get_tls_wrap s key_id) initial_packet in
  Ret (ok, buf, put_session m i (put_tls_wrap s key_id ctx)).

(** From the point where the packet is unwrapped on: the acknowledgments it carries and the
    packet itself go to the reliability layer of the primary key. *)
Definition take_control_packet (m : tls_multi) (i : session_index) (from : sockaddr) (buf : buffer) (op key_id : Z)
    (sid : session_id) (new_link do_burst : bool) : res (bool * tls_multi) :=
  let s := get_session m i in
  let ks := s_primary s in
  assert! negb (k_state ks =? S_UNDEF) in
  assert! negb (k_state ks =? S_ERROR) in
  assert! session_id_defined (s_session_id s) in
  let! known := (if new_link then Ret true else link_socket_actual_match (k_remote_addr ks) from) in
  let ks := if new_link then with_remote_addr (with_session_id_remote ks sid) from else ks in
  let m := if new_link then put_n_sessions m (m_n_sessions m + 1) else m in
  let m := put_session m i (set_primary s ks) in
  if negb known then packet_error true m
  else
    let '(s, ks) := if do_burst && negb (s_burst s)
                    then (set_burst s true, with_send ks (reliable_schedule_now (h_now (m_shared m)) (k_send ks)))
                    else (s, ks) in
    let m := put_session m i (set_primary s ks) in
    if negb (k_key_id ks =? key_id) then packet_error true m
    else
      let! (ok, send_ack, buf) := reliable_ack_read ack_zero buf (s_session_id s) x_session_id_zero in
      if negb ok then packet_error true m
      else
        let ks := with_send ks (reliable_send_purge (k_send ks) send_ack) in
        let! (o, rec, rec_ack) := recv_control (k_rec ks) (k_rec_ack ks) op buf in
        let ks := with_rec_ack (with_rec ks rec) rec_ack in
        match o with
        | Error => packet_error true (put_session m i (set_primary s ks))
        | _ => Ret (true, put_session m i (set_primary s (with_peer_last_packet ks (h_now (m_shared m)))))
        end.

(** A packet that starts a session with a peer. *)
Definition new_session_packet (m : tls_multi) (from : sockaddr) (buf : buffer) (op key_id : Z) (sid : session_id)
  : res (bool * tls_multi) :=
  if o_single_session (h_opt (m_shared m)) && negb (m_n_sessions m =? 0) then packet_error false m
  else
    let! (ok, buf, m) := open_packet m TM_INITIAL buf key_id true in
    if negb ok then packet_error false m
    else
      let m := put_session m TM_INITIAL (set_untrusted_addr (m_initial m) from) in
      take_control_packet m TM_INITIAL from buf op key_id sid true true.

(** A packet of a session that is there. *)
Definition session_packet (m : tls_multi) (i : session_index) (from : sockaddr) (buf : buffer) (op key_id : Z)
    (sid : session_id) : res (bool * tls_multi) :=
  let s := get_session m i in
  let ks := s_primary s in
  let! known := link_socket_actual_match (k_remote_addr ks) from in
  if negb known then packet_error false m
  else if (op =? P_CONTROL_SOFT_RESET_V1) && (S_GENERATED_KEYS <=? k_state ks) then
    let! (ok, buf, m) := open_packet m i buf key_id false in
    if negb ok then packet_error false m
    else
      let! (s, h) := key_state_soft_reset (m_shared m) (get_session m i) in
      take_control_packet (put_shared (put_session m i s) h) i from buf op key_id sid false false
  else
    let initial_packet := k_state ks =? S_PRE_START_SKIP in
    let m := if initial_packet then put_session m i (set_primary s (with_state ks S_PRE_START)) else m in
    let! (ok, buf, m) := open_packet m i buf key_id initial_packet in
    if negb ok
    then packet_error false (if initial_packet then put_n_hard_errors m (m_n_hard_errors m + 1) else m)
    else take_control_packet m i from buf op key_id sid false (op =? P_CONTROL_SOFT_RESET_V1).

(** Control packets; the result tells whether the packet was authenticated. *)
Definition control_packet (m : tls_multi) (from : sockaddr) (buf : buffer) (first : Z) : res (bool * tls_multi) :=
  let op := Z.shiftr first P_OPCODE_SHIFT in
  let key_id := Z.land first P_KEY_ID_MASK in
  let server := o_server (h_opt (m_shared m)) in
  if (op <? P_FIRST_OPCODE) || (P_LAST_OPCODE <? op) then packet_error false m
  else if is_hard_reset_method2 op
          && ((((op =? P_CONTROL_HARD_RESET_CLIENT_V2) || (op =? P_CONTROL_HARD_RESET_CLIENT_V3)) && negb server)
              || ((op =? P_CONTROL_HARD_RESET_SERVER_V2) && server)) then packet_error false m
  else
    let '(_, tmp) := buf_advance buf 1 in
    let! (sid, _) := session_id_read tmp in
    match sid with
    | None => packet_error false m
    | Some sid =>
        if negb (session_id_defined sid) then packet_error false m
        else
          match match_session m sid with
          | Some TM_LAME_DUCK => packet_error false m
          | Some i => session_packet m i from buf op key_id sid
          | None => if is_hard_reset_method2 op then new_session_packet m from buf op key_id sid else packet_error false m
          end
    end.

(** The changes the data channel made to its view of the keys. *)
Definition put_data_view (m : tls_multi) (d : data_multi) : tls_multi :=
  let key k d := with_data k d in
  let session s d := set_lame_duck (set_primary s (key (s_primary s) (key_primary d))) (key (s_lame_duck s) (key_lame_duck d)) in
  mk_tls_multi (m_shared m) (session (m_active m) (tm_active d)) (m_initial m) (session (m_lame_duck m) (tm_lame_duck d))
    (m_n_sessions m) (m_n_hard_errors m) (n_soft_errors d) (m_tas_last_update m) (m_tas_num_updates m) (m_to_link_addr m)
    (save_ks d).

(** Result: whether a control packet was authenticated, what is left of the packet, and for data
    the key of the scan with the start of the authenticated data. *)
Definition tls_pre_decrypt (m : tls_multi) (from : sockaddr) (buf : buffer) (floated : bool)
  : res (bool * buffer * option (Z * Z) * tls_multi) :=
  let drop := set_window buf (b_offset buf) 0 in
  if b_len buf <=? 0 then Ret (false, drop, None, m)
  else
    let! first := buf_peek buf (b_offset buf) 1 in
    let! first := arr_get first 0 in
    let op := Z.shiftr first P_OPCODE_SHIFT in
    if (op =? P_DATA_V1) || (op =? P_DATA_V2) then
      let! (d, buf, sel) := handle_data_channel_packet (data_view m) from buf floated in
      Ret (false, buf, sel, put_data_view m d)
    else
      let! (ret, m) := control_packet m from buf first in Ret (ret, drop, None, m).

(** ** Entry points of other components *)
Definition tls_session_soft_reset (m : tls_multi) : res tls_multi :=
  let! (s, h) := key_state_soft_reset (m_shared m) (m_active m) in
  Ret (put_shared (put_session m TM_ACTIVE s) h).

(** On [session[TM_INITIAL]] of a new client whose first packet was answered without state. *)
Definition session_skip_to_pre_start (m : tls_multi)
    (state : tls_pre_decrypt_state (cipher_ctx := cipher_ctx) (hmac_ctx := hmac_ctx)) (from : sockaddr)
  : res (bool * tls_multi) :=
  let s := m_initial m in
  let ks := with_remote_addr (with_session_id_remote (s_primary s) (peer_session_id state)) from in
  let ks := with_rec ks (set_pid (k_rec ks) 1) in
  let s := set_burst (set_untrusted_addr (set_session_id s (server_session_id state)) from) true in
  let c := s_tls_wrap s in
  let pid := co_packet_id (tw_opt c) in
  let c := set_tw_opt c (set_packet_id (tw_opt c) (mk_pid (mk_send 1 (send_time (pid_send pid))) (pid_rec pid))) in
  let! (ok, ks) := session_move_pre_start (m_shared m) ks true in
  Ret (ok, put_session m TM_INITIAL (set_primary (set_tls_wrap s c) ks)).

Definition update_addr (addr : sockaddr) (ks : key_state) : res key_state :=
  if negb (link_socket_actual_defined (k_remote_addr ks)) then Ret ks
  else let! same := link_socket_actual_match addr (k_remote_addr ks) in
       Ret (if same then ks else with_remote_addr ks addr).
Definition update_session_addr (addr : sockaddr) (s : tls_session) : res tls_session :=
  let! p := update_addr addr (s_primary s) in
  let! l := update_addr addr (s_lame_duck s) in Ret (set_lame_duck (set_primary s p) l).
Definition tls_update_remote_addr (m : tls_multi) (addr : sockaddr) : res tls_multi :=
  let! a := update_session_addr addr (m_active m) in
  let! i := update_session_addr addr (m_initial m) in
  let! l := update_session_addr addr (m_lame_duck m) in
  Ret (put_session (put_session (put_session m TM_ACTIVE a) TM_INITIAL i) TM_LAME_DUCK l).

Definition tls_init_control_channel_frame_parameters (f : frame) (tls_mtu : Z) : frame :=
  let overhead := 10 + max_int tls_crypt_buf_overhead (packet_id_size true + OPENVPN_MAX_HMAC_SIZE) + 3
                  + ACK_SIZE RELIABLE_ACK_SIZE in
  mk_frame (max_int 1500 tls_mtu + 100) overhead overhead (mss_fix f) (max_fragment_size f)
    (max_int (min_int tls_mtu TLS_CHANNEL_BUF_SIZE) TLS_CHANNEL_MTU_MIN) (tun_max_mtu f) (extra_tun f).
Definition set_frame (o : tls_options) (f : frame) : tls_options :=
  mk_opt (o_key_type o) (o_server o) (o_xmit_hold o) (o_single_session o) (o_mode_server o) (o_transition_window o)
    (o_handshake_window o) (o_packet_timeout o) (o_renegotiate_bytes o) (o_renegotiate_packets o) (o_aead_usage_limit o)
    (o_renegotiate_seconds o) (o_replay_window o) (o_replay_time o) (o_tls_crypt_v2 o) (o_tls_wrap o) f (o_km o) (o_dco o).

(** [MAX_PEER_ID] marks a peer without identifier. *)
Definition MAX_PEER_ID : Z := 0xFFFFFF.
Definition tls_multi_init (h : shared) : tls_multi :=
  let km := mk_kmm None None false (mk_p2p (h_flags h) false MAX_PEER_ID) in
  mk_tls_multi (put_km (put_cas h CAS_NOT_CONNECTED) km) session_zero session_zero session_zero 0 0 0 0 0 None None.
Definition tls_multi_init_finalize (m : tls_multi) (tls_mtu : Z) : res tls_multi :=
  let h := m_shared m in
  let h := put_opt h (set_frame (h_opt h) (tls_init_control_channel_frame_parameters (o_frame (h_opt h)) tls_mtu)) in
  let! (a, h) := tls_session_init h in
  let! (i, h) := tls_session_init h in
  Ret (put_shared (put_session (put_session m TM_ACTIVE a) TM_INITIAL i) h).
End KeyState.
