(* ===== verification/TlsSample.v ===== *)
(** * A small TLS library and two ends of a tunnel

    It satisfies the interface of KeyState.v and can be evaluated: what is written comes out at
    the other end.  With the samples of SampleLib.v and KeyMethod.v it gives a client and a
    server whose whole negotiation can be evaluated.  It offers no security. *)

From Stdlib Require Import String.
From S2P Require Import Prelude CircList Buffer PacketId Reliable TlsSend OTime Mtu KeyCtx SampleLib Epoch Crypto.
From S2P Require Import Aead Channel DataPath CtrlWrap Handshake Text Ncp KeyMethod KeyState.
#[local] Open Scope Z_scope.

Record pipe : Type := mk_pipe { p_in : bytes; p_out : bytes }.
#[export] Instance pipe_lib : TlsLib pipe := {
  SSL_new _ := mk_pipe [] [];
  SSL_set_shutdown p := p;
  BIO_write_pt p d := (Zlen d, false, mk_pipe (p_in p) (p_out p ++ d));
  BIO_write_ct p d := (Zlen d, false, mk_pipe (p_in p ++ d) (p_out p));
  BIO_read_pt p n := match p_in p with
                     | [] => (None, true, p)
                     | l => (Some (take (Z.to_nat n) l), false, mk_pipe (drop (Z.to_nat n) l) (p_out p))
                     end;
  BIO_read_ct p n := match p_out p with
                     | [] => (None, true, p)
                     | l => (Some (take (Z.to_nat n) l), false, mk_pipe (p_in p) (drop (Z.to_nat n) l))
                     end;
  key_state_export_keying_material _ := sample_keymat
}.

#[global] Abbreviation s_env := (env (cipher_ctx := sample_cipher) (hmac_ctx := sample_hmac)).
#[global] Abbreviation s_multi := (tls_multi (cipher_ctx := sample_cipher) (hmac_ctx := sample_hmac) (ssl := pipe)).

Definition sample_tls_options (server : bool) : tls_options :=
  mk_opt sample_kt server false false server 60 60 2 0 0 0 3600 64 15 false sample_none (mk_frame 0 0 0 0 0 0 0 0)
   (if server then sample_server_opt else sample_client_opt) None.
Definition sample_shared (server : bool) (peer : sockaddr) : shared :=
  mk_shared sample_mm 0 (sample_tls_options server) (mk_clock 1000 0 0) 0 1 (mk_lb clear_buf Foreign) None BIG_TIMEOUT
    (mk_lsi peer None false true false).
Definition addr_client := mk_sa AF_INET 5000 1 [].
Definition addr_server := mk_sa AF_INET 1194 2 [].
(** The clock stands still; [seed] makes the random values of an end its own. *)
Definition sample_env (seed : Z) (server : bool) : s_env :=
  mk_env (fun _ => 1000) (fun n => replicate 8 (u8 (seed + Z.of_nat n + 1))) (fun _ => sample_rand seed) zeros sample_prf
    (fun _ => if server then None else sample_creds) (fun _ => if server then sample_server_checks else sample_client_checks)
    (fun _ => (None, None, ACF_DISABLED)) (fun _ => None) false None (fun _ => false) None 3.
Definition start (e : s_env) (server : bool) (peer : sockaddr) : res s_multi :=
  tls_multi_init_finalize e (tls_multi_init (sample_shared server peer)) 1250.

(** A packet in a buffer with room on both sides. *)
Definition inbuf (l : bytes) : buffer := mk_buffer (200 + Zlen l) 100 (Zlen l) (Some (replicate 100 0 ++ l ++ replicate 100 0)).
Definition link_packet (m : s_multi) : bytes := contents (lb_buf (h_to_link (m_shared m))).
