(* ===== verification/KeyMachine.v ===== *)
(** * The negotiation of keys terminates and keeps its invariants

    Theorems about KeyState.v: the loop of [tls_process] ends, each pass moves a key along the
    documented states, and whatever packets arrive and whatever the TLS library answers, the
    assertions on the states of the sessions hold. *)

From Stdlib Require Import String.
From stdpp Require Import relations.
From S2P Require Import Prelude CircList Buffer PacketId Reliable TlsSend OTime Mtu KeyCtx SampleLib Epoch Crypto Aead.
From S2P Require Import Channel DataPath CtrlWrap Handshake Text Ncp KeyMethod KeyState TlsSample.
#[local] Open Scope Z_scope.

(** ** Slots of the queues *)

(** How many entries are in use, and how many are not. *)
Definition count (act : bool) (r : reliable) : nat := length (filter (fun en => e_active en = act) (entries r)).

Lemma count_insert act (l : list reliable_entry) i x y :
  l !! i = Some x ->
  (length (filter (fun en => e_active en = act) (<[i := y]> l)) + (if decide (e_active x = act) then 1 else 0)
   = length (filter (fun en => e_active en = act) l) + (if decide (e_active y = act) then 1 else 0))%nat.
Proof.
  intros H. destruct (split_lookup l i x H) as (l1 & l2 & -> & _ & Hi). rewrite Hi.
  rewrite !filter_app, !length_app, !filter_cons. repeat case_decide; cbn [length]; lia.
Qed.

Lemma entries_lookup r i en : entries r !! i = Some en -> (i < Z.to_nat (rel_size r))%nat /\ rel_array r !! i = Some en.
Proof. unfold entries. intros [H1 H2]%lookup_take_Some. done. Qed.

Lemma count_set r i x y :
  entries r !! i = Some x ->
  forall act, (count act (set_array r (<[i := y]> (rel_array r))) + (if decide (e_active x = act) then 1 else 0)
               = count act r + (if decide (e_active y = act) then 1 else 0))%nat.
Proof.
  intros H act. destruct (entries_lookup _ _ _ H) as [Hi _]. unfold count. rewrite entries_insert by done.
  by apply count_insert.
Qed.

Lemma count_same r i x y :
  entries r !! i = Some x -> e_active y = e_active x ->
  forall act, count act (set_array r (<[i := y]> (rel_array r))) = count act r.
Proof. intros H Ha act. pose proof (count_set r i x y H act) as E. rewrite Ha in E. case_decide; lia. Qed.

Lemma count_size r act : (count act r <= Z.to_nat (rel_size r))%nat.
Proof.
  unfold count. etransitivity; [apply length_filter|]. unfold entries. rewrite length_take. lia.
Qed.

Lemma find_inactive r i en :
  find_entry (fun en => negb (e_active en)) (entries r) 0 = Some (i, en) -> entries r !! i = Some en /\ e_active en = false.
Proof. intros (j & -> & Hj & Ha%negb_true_iff)%find_entry_Some. done. Qed.

(** A slot was handed out: nothing else changed. *)
Definition slot_taken (r : reliable) (i : option nat) (r' : reliable) : Prop :=
  (forall act, count act r' = count act r) /\ rel_size r' = rel_size r
  /\ match i with Some j => exists en, entries r' !! j = Some en /\ e_active en = false | None => True end.

Lemma get_buf_count r i r' : reliable_get_buf r = Ret (i, r') -> slot_taken r i r'.
Proof.
  unfold reliable_get_buf. intros H. destruct (find_entry _ _ _) as [[j en]|] eqn:F.
  - destruct (find_inactive _ _ _ F) as [Hj Ha]. destruct (buf_init_dowork _ _) as [ok b]. destruct ok; [|done].
    injection H as <- <-. split; [intros act; by eapply count_same|]. split; [done|].
    exists (set_buf en b). split; [|done]. destruct (entries_lookup _ _ _ Hj) as [Hlt _].
    rewrite entries_insert by done. apply list_lookup_insert_eq. apply lookup_lt_Some in Hj. done.
  - injection H as <- <-. done.
Qed.

Lemma get_output_count r i r' : reliable_get_buf_output_sequenced r = Ret (i, r') -> slot_taken r i r'.
Proof.
  unfold reliable_get_buf_output_sequenced. intros H.
  destruct (min_active_id r) as [mid|]; [destruct (reliable_pid_in_range1 _ _ _)|]; [by apply get_buf_count| |by apply get_buf_count].
  injection H as <- <-. done.
Qed.

Lemma mark_outgoing_count r j op r' en :
  reliable_mark_active_outgoing r j op = Ret r' -> entries r !! j = Some en -> e_active en = false ->
  (count false r' + 1 = count false r)%nat /\ rel_size r' = rel_size r.
Proof.
  unfold reliable_mark_active_outgoing. intros H Hj Ha. rewrite Hj in H. inv_steps H. split; [|done].
  assert (Hj' : entries (set_pid r (u32 (rel_packet_id r + 1))) !! j = Some en) by done.
  pose proof (count_set _ _ _ (mk_entry true (initial_timeout r) 0 (rel_packet_id r) (e_n_acks en) op b) Hj' false) as E1.
  rewrite Ha in E1. cbn [e_active] in E1. change (count false (set_pid r _)) with (count false r) in E1.
  repeat case_decide; try done. cbn [rel_array set_pid initial_timeout] in *. lia.
Qed.

Lemma mark_deleted_count r i en r' :
  reliable_mark_deleted r i = Ret r' -> entries r !! i = Some en ->
  (count true r' + (if e_active en then 1 else 0) = count true r)%nat /\ rel_size r' = rel_size r.
Proof.
  unfold reliable_mark_deleted. intros H Hi. rewrite Hi in H. inv_steps H. split; [|done].
  pose proof (count_set _ _ _ (set_active en false) Hi true) as E. cbn [e_active set_active] in E.
  change (count true (set_pid (set_array r _) _)) with (count true (set_array r (<[i:=set_active en false]> (rel_array r)))).
  destruct (e_active en); repeat case_decide; try done; lia.
Qed.

Lemma mark_deleted_free r i en r' :
  reliable_mark_deleted r i = Ret r' -> entries r !! i = Some en -> (count false r' <= S (count false r))%nat.
Proof.
  unfold reliable_mark_deleted. intros H Hi. rewrite Hi in H. inv_steps H.
  pose proof (count_set _ _ _ (set_active en false) Hi false) as E. cbn [e_active set_active] in E.
  change (count false (set_pid (set_array r _) _)) with (count false (set_array r (<[i:=set_active en false]> (rel_array r)))).
  repeat case_decide; try done; lia.
Qed.

Lemma enqueue_count r tmp len op tmp' r' :
  send_enqueue r tmp len op = Ret (tmp', r') -> (count false r' + 1 = count false r)%nat /\ rel_size r' = rel_size r.
Proof.
  unfold send_enqueue. intros H. inv_step H. destruct a as [j|]; [|done].
  destruct (get_output_count _ _ _ E) as (Hc & Hs & en & Hj & Ha).
  destruct (entries_lookup _ _ _ Hj) as [Hlt Hj']. rewrite Hj' in H. inv_step H. inv_step H. inv_steps H.
  assert (entries (set_array b (<[j:=set_buf en b1]> (rel_array b))) !! j = Some (set_buf en b1)) as Hj2.
  { rewrite entries_insert by done. apply list_lookup_insert_eq. apply lookup_lt_Some in Hj. done. }
  destruct (mark_outgoing_count _ _ _ _ _ E1 Hj2 Ha) as [E2 E3].
  rewrite (count_same _ _ _ (set_buf en b1) Hj) in E2 by done. rewrite Hc in E2. split; [done|]. by rewrite E3.
Qed.

Lemma split_count fuel flags wkc mx r tmp c c' r' :
  split_loop fuel flags wkc mx r tmp c = Ret (c', r') ->
  (count false r' <= count false r)%nat /\ (c' = true -> c = true \/ (count false r' < count false r)%nat)
  /\ rel_size r' = rel_size r.
Proof.
  revert r tmp c. induction fuel as [|fuel IH]; intros r tmp c H; [done|]. cbn [split_loop] in H.
  destruct (0 <? b_len tmp); [|inv_steps H; split_and!; auto].
  inv_step H. destruct (enqueue_count _ _ _ _ _ _ E) as [E1 E2]. destruct (IH _ _ _ H) as (I1 & _ & I3).
  split_and!; [lia|right; lia|congruence].
Qed.

Lemma outgoing_count v fresh rd c ok c' r' :
  write_outgoing_tls_ciphertext v fresh rd c = Ret (ok, c', r') ->
  (count false r' <= count false (send_reliable v))%nat
  /\ (c' = true -> c = true \/ (count false r' < count false (send_reliable v))%nat)
  /\ rel_size r' = rel_size (send_reliable v).
Proof.
  unfold write_outgoing_tls_ciphertext. intros H.
  destruct (reliable_get_num_output_sequenced_available _ =? 0); [inv_steps H; split_and!; auto|].
  destruct (ciphertext_limits _ _) as [maxlen mx]. inv_step H. destruct (rd maxlen) as [status data]. inv_step H.
  destruct (status =? -1); [inv_steps H; split_and!; auto|].
  destruct (status =? 1); [|inv_steps H; split_and!; auto].
  inv_step H. inv_steps H. by apply split_count in E1.
Qed.

(** ** The documented states *)

(** One step of the negotiation: the client sends its key first, the server answers. *)
Inductive advance (server : bool) : Z -> Z -> Prop :=
| adv_initial : advance server S_INITIAL S_PRE_START
| adv_reset_acked : advance server S_PRE_START S_START
| adv_first : advance server S_START (if server then S_GOT_KEY else S_SENT_KEY)
| adv_second : advance server (if server then S_GOT_KEY else S_SENT_KEY) (if server then S_SENT_KEY else S_GOT_KEY)
| adv_last_acked : advance server (if server then S_SENT_KEY else S_GOT_KEY) S_ACTIVE.

(** A session that failed has one more pass to send its alert. *)
Inductive transition (server : bool) : Z -> Z -> Prop :=
| tr_advance st st' : advance server st st' -> transition server st st'
| tr_fail st : S_INITIAL <= st <= S_GENERATED_KEYS -> transition server st S_ERROR_PRE
| tr_end : transition server S_ERROR_PRE S_ERROR.

Definition rank (server : bool) (st : Z) : nat :=
  if st <? S_UNDEF then 0
  else if st =? S_INITIAL then 8
  else if st =? S_PRE_START then 6
  else if st =? S_START then 5
  else if st =? (if server then S_GOT_KEY else S_SENT_KEY) then 4
  else if st =? (if server then S_SENT_KEY else S_GOT_KEY) then 3
  else 2.

Lemma rank_advance server st st' : advance server st st' -> (rank server st' < rank server st)%nat.
Proof. intros []; destruct server; vm_compute; lia. Qed.
Lemma rank_bound server st : (rank server st <= 8)%nat.
Proof. unfold rank. repeat case_match; lia. Qed.

Definition in_use (st : Z) : Prop := S_INITIAL <= st <= S_GENERATED_KEYS.
Lemma rank_in_use server st : in_use st -> (2 <= rank server st)%nat.
Proof.
  unfold in_use, rank, S_INITIAL, S_UNDEF. intros H. rewrite (proj2 (Z.ltb_ge _ _)) by lia. repeat case_match; lia.
Qed.
Lemma advance_in_use server st st' : advance server st st' -> in_use st /\ in_use st' /\ st' <> S_GENERATED_KEYS.
Proof. unfold in_use. intros []; destruct server; vm_compute; intuition discriminate. Qed.
Lemma advances_in_use server st st' : rtc (advance server) st st' -> in_use st -> in_use st'.
Proof. induction 1 as [|st st1 st' H _ IH]; [done|]. intros _. apply IH. by apply advance_in_use in H as (_ & ? & _). Qed.
Lemma advances_generated server st st' : rtc (advance server) st st' -> st' = S_GENERATED_KEYS -> st = S_GENERATED_KEYS.
Proof.
  induction 1 as [|st st1 st' H _ IH]; [done|]. intros E. apply IH in E. by apply advance_in_use in H as (_ & _ & ?).
Qed.
Lemma advances_failed server st st' : rtc (advance server) st st' -> ~ in_use st -> st' = st.
Proof. intros H. destruct H as [|st st1 st' H _]; [done|]. by apply advance_in_use in H as (? & _). Qed.
Lemma rank_advances server st st' : rtc (advance server) st st' -> (rank server st' <= rank server st)%nat.
Proof. induction 1 as [|st st1 st' H _ IH]; [done|]. apply rank_advance in H. lia. Qed.

Section Passes.
Context {cipher_ctx hmac_ctx ssl : Type} `{CL : CryptoLib cipher_ctx hmac_ctx} `{TL : TlsLib ssl}.
#[local] Abbreviation key_state := (KeyState.key_state (cipher_ctx := cipher_ctx) (hmac_ctx := hmac_ctx) (ssl := ssl)).
#[local] Abbreviation tls_session := (KeyState.tls_session (cipher_ctx := cipher_ctx) (hmac_ctx := hmac_ctx) (ssl := ssl)).
#[local] Abbreviation shared := (KeyState.shared (cipher_ctx := cipher_ctx) (hmac_ctx := hmac_ctx)).
#[local] Abbreviation tls_multi := (KeyState.tls_multi (cipher_ctx := cipher_ctx) (hmac_ctx := hmac_ctx) (ssl := ssl)).
Context (e : env (cipher_ctx := cipher_ctx) (hmac_ctx := hmac_ctx)).

(** What is left to do: the states ahead, packets that arrived, slots to fill, and the two
    buffers of plaintext. *)
Definition weight (server : bool) (k : key_state) : nat :=
  32 * rank server (k_state k) + count true (k_rec k) + count false (k_send k)
  + (if b_len (k_read_buf k) =? 0 then 1 else 0) + (if b_len (k_write_buf k) =? 0 then 0 else 1).

(** What a pass leaves as it is in a key. *)
Record kept (k k' : key_state) : Prop := {
  kp_key_id : k_key_id k' = k_key_id k;
  kp_keys : co_keys (k_crypto k') = co_keys (k_crypto k);
  kp_must_die : k_must_die k' = k_must_die k;
  kp_block : k_block k' = k_block k;
  kp_addr : k_remote_addr k' = k_remote_addr k;
  kp_sid : k_session_id_remote k' = k_session_id_remote k;
  kp_sizes : rel_size (k_send k') = rel_size (k_send k) /\ rel_size (k_rec k') = rel_size (k_rec k)
}.

(** The memory of a buffer on its way to the link belongs to a session. *)
Definition key_owns (k : key_state) (own : owner) : Prop :=
  match own with
  | SendBuf b _ => k_block k = Some b
  | AckBuf b => k_block k = Some b
  | _ => False
  end.
Definition session_owns (s : tls_session) (own : owner) : Prop :=
  match own with
  | Foreign => False
  | WorkBuf b => s_wrap_block s = Some b
  | RenegBuf b => s_reneg_block s = Some b
  | _ => key_owns (s_primary s) own \/ key_owns (s_lame_duck s) own
  end.

(** The session owns buffers to send from. *)
Record has_memory (s : tls_session) : Prop := {
  hm_work : is_Some (s_wrap_block s);
  hm_reneg : is_Some (s_reneg_block s) \/ tw_mode (s_tls_wrap_reneg s) <> TLS_WRAP_CRYPT;
  hm_key : is_Some (k_block (s_primary s))
}.
Lemma wrap_owner_owns s id : has_memory s -> session_owns s (wrap_owner s id).
Proof.
  intros [[b Hb] Hr _]. unfold wrap_owner, uses_reneg. destruct (0 <? id); cbn [andb]; [|rewrite Hb; exact Hb].
  destruct (tw_mode (s_tls_wrap_reneg s)); try (rewrite Hb; exact Hb). destruct Hr as [[b' Hr] | []]; [|done]. rewrite Hr. exact Hr.
Qed.

Lemma put_wrap_memory s id c : has_memory s -> has_memory (put_tls_wrap s id c).
Proof.
  intros [Hw Hr Hk]. unfold put_tls_wrap. destruct (uses_reneg s id) eqn:Eu; [|by split].
  split; [done| |done]. left. destruct Hr as [Hr|Hr]; [done|]. exfalso. unfold uses_reneg in Eu.
  apply andb_true_iff in Eu as [_ Eu]. by destruct (tw_mode _).
Qed.
(** How a part of a pass may change the session and what it shares. *)
Record part (h : shared) (s : tls_session) (h' : shared) (s' : tls_session) : Prop := {
  pt_kept : kept (s_primary s) (s_primary s');
  pt_lame : s_lame_duck s' = s_lame_duck s;
  pt_session : s_session_id s' = s_session_id s /\ s_key_id s' = s_key_id s
               /\ s_wrap_block s' = s_wrap_block s /\ s_reneg_block s' = s_reneg_block s;
  pt_opt : h_opt h' = h_opt h;
  pt_next : h_next h' = h_next h;
  pt_now : h_now h <= h_now h';
  pt_memory : has_memory s -> has_memory s'
}.

Lemma kept_refl k : kept k k.
Proof. by split. Qed.
Lemma kept_trans k k1 k2 : kept k k1 -> kept k1 k2 -> kept k k2.
Proof. intros [] []. split; try congruence. intuition congruence. Qed.
Lemma part_refl h s : part h s h s.
Proof. split; try done; apply kept_refl. Qed.
Lemma part_trans h s h1 s1 h2 s2 : part h s h1 s1 -> part h1 s1 h2 s2 -> part h s h2 s2.
Proof. intros [] []. split; try congruence; [by eapply kept_trans|intuition congruence|lia|auto]. Qed.

(** A part that changes the key only. *)
Lemma part_key h s h' ks :
  kept (s_primary s) ks -> h_opt h' = h_opt h -> h_next h' = h_next h -> h_now h <= h_now h' -> part h s h' (set_primary s ks).
Proof. intros K Ho Hn Hw. split; try done. intros [M1 M2 M3]. split; [done..|]. cbn. by rewrite (kp_block _ _ K). Qed.
Lemma part_primary h s ks : kept (s_primary s) ks -> part h s h (set_primary s ks).
Proof. intros K. by apply part_key. Qed.

(** How a part of a pass is left. *)
Definition goes (server c : bool) (k : key_state) (f : flow) (k' : key_state) : Prop :=
  match f with
  | Go c' => rtc (advance server) (k_state k) (k_state k') /\ (weight server k' <= weight server k)%nat
             /\ (c' = true -> c = true \/ (weight server k' < weight server k)%nat)
  | Goto_error _ => rtc (advance server) (k_state k) (k_state k') /\ (weight server k' <= weight server k + 2)%nat
  | Return c' => c' = false /\ rtc (transition server) (k_state k) (k_state k')
  end.
Definition stage (run : bool -> shared -> tls_session -> res (flow * shared * tls_session)) : Prop :=
  forall c h s f h' s', run c h s = Ret (f, h', s') ->
    part h s h' s' /\ goes (o_server (h_opt h)) c (s_primary s) f (s_primary s').

Lemma advance_transition server st st' : rtc (advance server) st st' -> rtc (transition server) st st'.
Proof. induction 1 as [|st st1 st' H _ IH]; [done|]. eapply rtc_l; [by apply tr_advance|done]. Qed.

Lemma stage_then run run' : stage run -> stage run' -> stage (fun c h s => and_go (run c h s) run').
Proof.
  intros H1 H2 c h s f h' s' H. unfold and_go in H. inv_step H. destruct (H1 _ _ _ _ _ _ E) as [P1 G1].
  destruct a0 as [c1|c1|c1]; [|by inv_steps H|by inv_steps H].
  destruct (H2 _ _ _ _ _ _ H) as [P2 G2]. split; [by eapply part_trans|].
  rewrite (pt_opt _ _ _ _ P1) in G2. destruct G1 as (A1 & W1 & C1). destruct f as [c2|c2|c2]; cbn [goes] in G2 |- *.
  - destruct G2 as (A2 & W2 & C2). split; [by etrans|]. split; [lia|]. intros Hc. destruct (C2 Hc) as [Hc1|?]; [|right; lia].
    destruct (C1 Hc1); [by left|right; lia].
  - destruct G2 as (A2 & W2). split; [by etrans|lia].
  - destruct G2 as (-> & A2). split; [done|]. etrans; [by apply advance_transition|done].
Qed.

Lemma go_same server c k : goes server c k (Go c) k.
Proof. split; [done|]. split; [lia|auto]. Qed.

Lemma clock_moves h : h_now h <= h_now (update_clock e h).
Proof.
  unfold h_now, update_clock, update_time. cbn [h_clock put_n put_clock now]. unfold update_now.
  repeat case_match; cbn [now]; lia.
Qed.

(** Numbers that only compare the fields that changed. *)
Ltac weights := unfold weight; cbn [with_send with_rec with_ssl with_read_buf with_write_buf with_state with_data with_key_src
  with_crypto k_rec k_send k_read_buf k_write_buf k_state k_data ks_state]; repeat case_match; try lia.

Lemma write_control_auth_part h s buf op mx pre b w s' :
  write_control_auth h s buf op mx pre = Ret (b, w, s') ->
  part h s h s' /\ weight (o_server (h_opt h)) (s_primary s') = weight (o_server (h_opt h)) (s_primary s)
  /\ k_state (s_primary s') = k_state (s_primary s).
Proof.
  unfold write_control_auth. intros H. repeat inv_step H. match goal with |- context [put_tls_wrap ?s1 _ _] =>
    assert (P : part h s h s1) by (by apply part_primary) end.
  split; [|by unfold put_tls_wrap; destruct (uses_reneg _ _)]. eapply part_trans; [exact P|].
  split; try done; try by (unfold put_tls_wrap; destruct (uses_reneg _ _)). apply put_wrap_memory.
Qed.

Lemma move_pre_start_spec h ks skip c ks' :
  session_move_pre_start h ks skip = Ret (c, ks') ->
  kept ks ks' /\ k_rec ks' = k_rec ks /\ k_read_buf ks' = k_read_buf ks /\ k_write_buf ks' = k_write_buf ks
  /\ (count false (k_send ks') <= S (count false (k_send ks)))%nat
  /\ (skip = false -> (count false (k_send ks') <= count false (k_send ks))%nat)
  /\ k_state ks' = if c then (if skip then S_PRE_START_SKIP else S_PRE_START) else k_state ks.
Proof.
  unfold session_move_pre_start. intros H. inv_step H. destruct (get_output_count _ _ _ E) as (Hc & Hs & Hi).
  destruct a as [i|]; [|inv_steps H; repeat split; cbn [k_send with_send]; rewrite ?Hc; (lia || congruence)].
  destruct Hi as (en & Hi & Ha). inv_step H. destruct (mark_outgoing_count _ _ _ _ _ E0 Hi Ha) as [E1 E2].
  destruct skip.
  - assert (Hx : exists en', entries x !! i = Some en').
    { apply lookup_lt_is_Some. unfold entries. rewrite E2. apply lookup_lt_Some in Hi. unfold entries in Hi.
      unfold reliable_mark_active_outgoing in E0. rewrite length_take in *. inv_steps E0. cbn [rel_array set_array].
      rewrite length_insert. done. }
    destruct Hx as [en' Hx]. inv_step H. inv_steps H. pose proof (mark_deleted_free _ _ _ _ E3 Hx) as E4.
    destruct (mark_deleted_count _ _ _ _ E3 Hx) as [_ E5]. cbn [with_pre_start with_send k_send] in *. rewrite Hc in *.
    repeat split; first [lia | done | cbn; congruence].
  - inv_steps H. injection E3 as <-. cbn [with_pre_start with_send k_send] in *. rewrite Hc in *. repeat split; first [lia | done | cbn; congruence].
Qed.

Lemma move_active_spec h ks h' ks' :
  session_move_active h ks = Ret (h', ks') ->
  kept ks ks' /\ k_rec ks' = k_rec ks /\ k_read_buf ks' = k_read_buf ks /\ k_write_buf ks' = k_write_buf ks
  /\ k_send ks' = k_send ks /\ k_state ks' = S_ACTIVE /\ h_opt h' = h_opt h /\ h_next h' = h_next h /\ h_now h' = h_now h
  /\ h_to_link h' = h_to_link h.
Proof.
  unfold session_move_active. intros H. inv_step H.
  destruct (k_ssl _) as [o|], (k_paybuf _) as [|p l]; inv_steps H; (case_match; by repeat split).
Qed.

(** Progress of a key: states forward, no weight gained, and less if [c] says so. *)
Definition forward (server c c' : bool) (k k' : key_state) : Prop :=
  kept k k' /\ rtc (advance server) (k_state k) (k_state k') /\ (weight server k' <= weight server k)%nat
  /\ (c' = true -> c = true \/ (weight server k' < weight server k)%nat).
Lemma forward_refl server c k : forward server c c k k.
Proof. split; [apply kept_refl|]. split; [done|]. split; [lia|auto]. Qed.
Lemma forward_trans server c c1 c2 k k1 k2 :
  forward server c c1 k k1 -> forward server c1 c2 k1 k2 -> forward server c c2 k k2.
Proof.
  intros (K1 & A1 & W1 & C1) (K2 & A2 & W2 & C2). split; [by eapply kept_trans|]. split; [by etrans|]. split; [lia|].
  intros H. destruct (C2 H) as [H1|?]; [|right; lia]. destruct (C1 H1); [by left|right; lia].
Qed.
Lemma forward_goes server c c' k k' : forward server c c' k k' -> goes server c k (Go c') k'.
Proof. by intros (_ & ? & ? & ?). Qed.
Lemma forward_error server c c' x k k' : forward server c c' k k' -> goes server c k (Goto_error x) k'.
Proof. intros (_ & ? & ? & _). split; [done|lia]. Qed.

(** A step to the next state pays for what it adds. *)
Lemma forward_advance server c k k' :
  kept k k' -> advance server (k_state k) (k_state k') ->
  (count true (k_rec k') + count false (k_send k') <= count true (k_rec k) + count false (k_send k))%nat ->
  forward server c true k k'.
Proof.
  intros K A W. pose proof (rank_advance _ _ _ A). split; [done|]. split; [by apply rtc_once|].
  assert (weight server k' < weight server k)%nat by (unfold weight; repeat case_match; lia). split; [lia|auto].
Qed.

Lemma on_turn_spec (o : tls_options (cipher_ctx := cipher_ctx) (hmac_ctx := hmac_ctx)) a b st :
  on_turn o a b st = true -> st = if o_server o then b else a.
Proof. unfold on_turn. destruct (o_server o); rewrite ?andb_true_r, ?andb_false_r, ?orb_false_r; cbn; lia. Qed.

Lemma handshake_stage : stage (fun _ h s => process_handshake h s).
Proof.
  intros c h s f h' s' H. unfold process_handshake in H. inv_step H. set (sv := o_server (h_opt h)).
  assert (F1 : forward sv false a (s_primary s) b).
  { destruct (Z.eqb_spec (k_state (s_primary s)) S_INITIAL) as [Hi|Hi]; [|injection E as <- <-; apply forward_refl].
    destruct (move_pre_start_spec _ _ _ _ _ E) as (K & R1 & R2 & R3 & _ & Hs & St). destruct a.
    - apply forward_advance; [done|rewrite Hi, St; constructor|rewrite R1; specialize (Hs eq_refl); lia].
    - split; [done|]. split; [by rewrite St|]. split; [|done]. unfold weight. rewrite St, R1, R2, R3. specialize (Hs eq_refl). lia. }
  assert (F1' : forward sv c a (s_primary s) b) by (destruct F1 as (? & ? & ? & C); split_and!; try done; intros Ha; destruct (C Ha); [done|by right]).
  destruct (_ && (k_state b <? S_ACTIVE)).
  { inv_steps H. split; [apply part_primary, F1|by eapply forward_error]. }
  destruct (if _ && _ then _ else _) as [c1 ks1] eqn:E1.
  assert (F2 : forward sv a c1 b ks1).
  { destruct (_ && reliable_empty _) eqn:Et; injection E1 as <- <-; [|apply forward_refl].
    apply andb_true_iff in Et as [Hst%Z.eqb_eq _]. apply forward_advance; [by split|rewrite Hst; constructor|done]. }
  pose proof (forward_trans _ _ _ _ _ _ _ F1' F2) as F. clear F1 F1' F2.
  destruct (_ && reliable_empty (k_send ks1)) eqn:Et.
  - apply andb_true_iff in Et as [Hst%on_turn_spec _]. inv_step H. inv_steps H.
    destruct (move_active_spec _ _ _ _ E0) as (K & R1 & R2 & R3 & R4 & St & Ho & Hn & Hw & _).
    assert (F3 : forward sv c1 true ks1 b0).
    { apply forward_advance; [done| |by rewrite R1, R4]. rewrite Hst, St. constructor. }
    pose proof (forward_trans _ _ _ _ _ _ _ F F3) as F4. split; [|by apply forward_goes].
    apply part_key; [apply F4|done|done|lia].
  - inv_steps H. split; [apply part_primary, F|by apply forward_goes].
Qed.

Lemma send_size now r i r' : reliable_send now r = Ret (i, r') -> rel_size r' = rel_size r.
Proof. unfold reliable_send. intros H. destruct (best_entry _ _ _ _) as [[j en]|]; inv_steps H; done. Qed.
Lemma share_size r i b : rel_size (share_memory r i b) = rel_size r.
Proof. unfold share_memory. by destruct (rel_array r !! i). Qed.

Lemma kept_send k r : rel_size r = rel_size (k_send k) -> kept k (with_send k r).
Proof. by split. Qed.

Lemma rtc_eq {A} (R : relation A) (x y : A) : x = y -> rtc R x y.
Proof. by intros ->. Qed.

Lemma send_stage : stage process_send.
Proof.
  intros c h s f h' s' H. unfold process_send in H. destruct (_ && reliable_can_send _ _).
  - inv_step H. destruct a as [[i op]|]; [|done]. destruct (rel_array b !! i) as [en|]; [|done]. inv_step H.
    pose proof (send_size _ _ _ _ E) as Hs. destruct (write_control_auth_part _ _ _ _ _ _ _ _ _ E0) as (P & _ & St).
    assert (P0 : part h s h (set_primary s (with_send (s_primary s) b))) by (apply part_primary; by apply kept_send).
    pose proof (part_trans _ _ _ _ _ _ P0 P) as P1.
    inv_steps H. destruct b1.
    + split; [by destruct P1; split|]. split; [done|]. apply rtc_eq. symmetry. exact St.
    + split; [|split; [done|apply rtc_eq; symmetry; exact St]]. eapply part_trans; [exact P1|].
      apply part_key; [apply kept_send, share_size|done..].
  - destruct (Z.eqb_spec (k_state (s_primary s)) S_ERROR_PRE) as [He|He]; inv_steps H.
    + split; [by apply part_primary|]. split; [done|]. rewrite He. apply rtc_once, tr_end.
    + split; [apply part_refl|apply go_same].
Qed.

(** The key changed without a change of its state. *)
Lemma forward_still server c c' k k' :
  kept k k' -> k_state k' = k_state k ->
  (count true (k_rec k') <= count true (k_rec k) /\ count false (k_send k') <= count false (k_send k))%nat ->
  k_read_buf k' = k_read_buf k -> k_write_buf k' = k_write_buf k ->
  (c' = true -> c = true \/ (count true (k_rec k') + count false (k_send k') < count true (k_rec k) + count false (k_send k))%nat) ->
  forward server c c' k k'.
Proof.
  intros K St [W1 W2] R1 R2 C. unfold forward, weight. rewrite St, R1, R2. split; [done|]. split; [done|]. split; [lia|].
  intros H. destruct (C H); [by left|right; lia].
Qed.

Lemma tlvs_count r i en flags ok fl r' :
  parse_early_negotiation_tlvs r i en flags = Ret (ok, fl, r') -> entries r !! i = Some en -> e_active en = true ->
  (count true r' <= count true r)%nat /\ rel_size r' = rel_size r.
Proof.
  unfold parse_early_negotiation_tlvs. intros H Hi Ha. inv_step H.
  assert (Hi' : entries (set_array r (<[i:=set_buf en b]> (rel_array r))) !! i = Some (set_buf en b)).
  { destruct (entries_lookup _ _ _ Hi) as [Hlt _]. rewrite entries_insert by done. apply list_lookup_insert_eq.
    apply lookup_lt_Some in Hi. done. }
  pose proof (count_same _ _ _ (set_buf en b) Hi eq_refl true) as Hc.
  destruct a0; cbn [negb] in H.
  - inv_step H. inv_steps H. destruct (mark_deleted_count _ _ _ _ E0 Hi') as [E1 E2]. split; [lia|done].
  - inv_steps H. split; [lia|done].
Qed.

Lemma deliver_count r i en b status ok r' :
  read_incoming_tls_ciphertext (set_array r (<[i := set_buf en b]> (rel_array r))) i en status = Ret (ok, r') ->
  entries r !! i = Some en -> e_active en = true -> (b_len (e_buf en) = 0 -> status = 1) ->
  (count true r' <= count true r)%nat /\ rel_size r' = rel_size r
  /\ (status = 1 -> ok = true /\ (count true r' < count true r)%nat).
Proof.
  unfold read_incoming_tls_ciphertext. intros H Hi Ha Hz.
  assert (Hi' : entries (set_array r (<[i:=set_buf en b]> (rel_array r))) !! i = Some (set_buf en b)).
  { destruct (entries_lookup _ _ _ Hi) as [Hlt _]. rewrite entries_insert by done. apply list_lookup_insert_eq.
    apply lookup_lt_Some in Hi. done. }
  pose proof (count_same _ _ _ (set_buf en b) Hi eq_refl true) as Hc.
  assert (Hst : (if negb (b_len (e_buf en) =? 0) then status else 1) = status).
  { destruct (Z.eqb_spec (b_len (e_buf en)) 0); [by rewrite Hz|done]. }
  rewrite Hst in H. destruct (Z.eqb_spec status (-1)) as [->|_].
  - inv_steps H. split; [lia|done].
  - destruct (Z.eqb_spec status 1) as [->|Hn].
    + inv_step H. inv_steps H. destruct (mark_deleted_count _ _ _ _ E Hi') as [E1 E2]. cbn [e_active set_buf] in E1.
      rewrite Ha in E1. split; [lia|]. split; [done|]. intros _. split; [done|lia].
    + inv_steps H. split; [lia|done].
Qed.

Lemma incoming_stage : stage process_incoming.
Proof.
  intros c h s f h' s' H. unfold process_incoming in H.
  destruct (reliable_get_entry_sequenced _) as [[i en]|] eqn:F; [|inv_steps H; split; [apply part_refl|apply go_same]].
  apply find_entry_Some in F as (j & Hj & Hi & [Ha _]%andb_true_iff). rewrite Hj in *. clear Hj i. cbn [Nat.add] in *.
  destruct (_ && is_hard_reset_method2 _).
  - inv_step H. inv_steps H. destruct (tlvs_count _ _ _ _ _ _ _ E Hi Ha) as [C1 C2].
    match goal with |- context [set_primary s ?k] => assert (F1 : forward (o_server (h_opt h')) c c (s_primary s) k) end.
    { apply forward_still; try done; auto. }
    split; [apply part_primary, F1|]. destruct a0; [by apply forward_goes|by eapply forward_error].
  - destruct (k_ssl (s_primary s)) as [o|]; [|done]. inv_step H. inv_step H. inv_steps H.
    assert (Hz : b_len (e_buf en) = 0 -> a0 = 1).
    { intros Hl. rewrite Hl in E. cbn [Z.eqb negb] in E. by injection E. }
    destruct (deliver_count _ _ _ _ _ _ _ E0 Hi Ha Hz) as (C1 & C2 & C3).
    assert (F1 : forward (o_server (h_opt h')) c (c || (a0 =? 1)) (s_primary s) (with_rec (with_ssl (s_primary s) (Some b)) b1)).
    { apply forward_still; try done. cbn [k_rec k_send with_rec with_ssl].
      intros [->|Hs%Z.eqb_eq]%orb_true_iff; [by left|]. right. destruct (C3 Hs). lia. }
    split; [apply part_primary, F1|]. destruct a; [by apply forward_goes|by eapply forward_error].
Qed.

Lemma bio_read_spec rd (o : ssl) buf st buf' o' :
  bio_read rd o buf = Ret (st, buf', o') -> b_len buf = 0 ->
  (st = 1 /\ b_len buf' <> 0) \/ (st <> 1 /\ b_len buf' = 0).
Proof.
  unfold bio_read. intros H Hl. rewrite Hl in H. change (0 <=? 0) with true in H. change (negb (0 =? 0)) with false in H.
  cbv iota in H. destruct (rd _) as [[out retry] o1]. destruct out as [[|x l]|].
  - inv_steps H. by right.
  - inv_step H. inv_step H. inv_steps H. left. split; [done|]. cbn [b_len set_window]. unfold Zlen. cbn [length]. lia.
  - inv_steps H; by right.
Qed.

Lemma plaintext_stage : stage (read_incoming_tls_plaintext e).
Proof.
  intros c h s f h' s' H. unfold read_incoming_tls_plaintext in H.
  destruct (Z.eqb_spec (b_len (k_read_buf (s_primary s))) 0) as [Hz|Hz]; cbn [negb] in H;
    [|inv_steps H; split; [apply part_refl|apply go_same]].
  destruct (buf_init_dowork _ _) as [ok buf] eqn:Eb. destruct ok; [|done].
  assert (Hl : b_len buf = 0). { unfold buf_init_dowork in Eb. destruct (_ || negb _); [done|]. by injection Eb as <-. }
  destruct (k_ssl (s_primary s)) as [o|]; [|done]. inv_step H. pose proof (bio_read_spec _ _ _ _ _ _ E Hl) as Hb.
  set (k' := with_read_buf (with_ssl (s_primary s) (Some b)) b0) in *.
  assert (K : kept (s_primary s) k') by done.
  assert (P : part h s (update_clock e h) (set_primary s k')) by (apply part_key; [done|done|done|apply clock_moves]).
  assert (W : (weight (o_server (h_opt h)) k' <= weight (o_server (h_opt h)) (s_primary s))%nat
              /\ (a0 = 1 -> (weight (o_server (h_opt h)) k' < weight (o_server (h_opt h)) (s_primary s))%nat)).
  { unfold weight. subst k'. cbn [k_rec k_send k_read_buf k_write_buf with_read_buf with_ssl]. rewrite Hz.
    change (k_state (with_read_buf _ _)) with (k_state (s_primary s)). change (0 =? 0) with true.
    destruct Hb as [[-> Hb] | [Hn Hb]]; [rewrite (proj2 (Z.eqb_neq _ _)) by done; lia|rewrite Hb]. change (0 =? 0) with true.
    split; [lia|done]. }
  destruct W as [W1 W2]. destruct (a0 =? -1).
  { inv_steps H. split; [done|]. split; [done|]. change (s_primary (set_primary s k')) with k'. lia. }
  destruct (Z.eqb_spec a0 1) as [H1|H1]; inv_steps H.
  - split; [by destruct P; split|]. split; [done|]. split; [done|]. intros _. right. by apply W2.
  - split; [done|]. split; [done|]. split; [done|]. auto.
Qed.

Lemma send_key_stage : stage (send_key e).
Proof.
  intros c h s f h' s' H. unfold send_key in H.
  destruct (_ && on_turn _ _ _ _) eqn:Et; [|inv_steps H; split; [apply part_refl|apply go_same]].
  apply andb_true_iff in Et as [_ Hst%on_turn_spec]. destruct (k_ssl (s_primary s)) as [o|]; [|done]. inv_step H.
  destruct a; cbn [negb] in H; inv_steps H.
  - split; [by apply (part_key h s)|]. apply forward_goes, forward_advance; [by split| |done].
    change (k_state (s_primary (set_primary _ _))) with S_SENT_KEY. rewrite Hst.
    destruct (o_server (h_opt h)) eqn:Es; [apply (adv_second true)|apply (adv_first false)].
  - split; [by apply part_key|]. split; [done|]. unfold weight.
    cbn [s_primary set_primary k_rec k_send k_read_buf k_write_buf with_key_src with_write_buf k_state].
    change (k_state (with_key_src _ _)) with (k_state (s_primary s)). repeat case_match; lia.
Qed.

Lemma receive_key_stage : stage (receive_key e).
Proof.
  intros c h s f h' s' H. unfold receive_key in H.
  destruct (_ && on_turn _ _ _ _) eqn:Et; [|inv_steps H; split; [apply part_refl|apply go_same]].
  apply andb_true_iff in Et as [_ Hst%on_turn_spec]. destruct (k_ssl (s_primary s)) as [o|]; [|done]. inv_step H.
  destruct (e_deferred _ _) as [[plugin script] mda]. destruct a0; cbn [negb] in H; inv_steps H.
  - split; [by apply part_key|]. apply forward_goes, forward_advance; [by split| |done].
    change (k_state (s_primary (set_primary _ _))) with S_GOT_KEY. rewrite Hst.
    destruct (o_server (h_opt h)) eqn:Es; [apply (adv_first true)|apply (adv_second false)].
  - split; [by apply part_key|]. split; [done|]. unfold weight. cbn [s_primary set_primary k_rec k_send k_read_buf k_write_buf with_key_src
      with_read_buf with_authenticated with_data].
    change (k_state (mk_key _ _ _ _ _ _ _ _ _ _ _ _ _ _ _ _ _ _ _ _ _ _)) with (k_state (s_primary s)). repeat case_match; lia.
Qed.

Lemma write_post_len status buf buf' : bio_write_post status buf = Ret buf' -> if status =? 1 then b_len buf' = 0 else buf' = buf.
Proof. unfold bio_write_post. intros H. destruct (status =? 1); [inv_step H|]; by inv_steps H. Qed.

Lemma write_plaintext_stage : stage write_outgoing_plaintext.
Proof.
  intros c h s f h' s' H. unfold write_outgoing_plaintext in H.
  destruct (Z.eqb_spec (b_len (k_write_buf (s_primary s))) 0) as [Hz|Hz]; [inv_steps H; split; [apply part_refl|apply go_same]|].
  destruct (k_ssl (s_primary s)) as [o|]; [|done]. inv_step H. unfold key_state_write_plaintext in E. inv_step E.
  destruct (bio_write _ _ _) as [ret o']. inv_step E. injection E as <- <- <-. apply write_post_len in E1.
  set (k' := with_write_buf (with_ssl (s_primary s) (Some o')) x0) in *.
  assert (K : kept (s_primary s) k') by done.
  assert (W : (weight (o_server (h_opt h)) k' <= weight (o_server (h_opt h)) (s_primary s))%nat
              /\ (ret = 1 -> (weight (o_server (h_opt h)) k' < weight (o_server (h_opt h)) (s_primary s))%nat)).
  { unfold weight. subst k'. cbn [k_rec k_send k_read_buf k_write_buf with_write_buf with_ssl].
    change (k_state (with_write_buf _ _)) with (k_state (s_primary s)). rewrite (proj2 (Z.eqb_neq _ _) Hz).
    destruct (Z.eqb_spec ret 1) as [->|Hn]; [rewrite E1; change (0 =? 0) with true; split; lia|].
    rewrite E1, (proj2 (Z.eqb_neq _ _) Hz). split; [lia|done]. }
  destruct W as [W1 W2]. destruct (ret =? -1); inv_steps H; (split; [by apply part_primary|]).
  - split; [done|]. change (s_primary (set_primary s k')) with k'. lia.
  - split; [done|]. split; [done|]. intros [Hc|Hs%Z.eqb_eq]%orb_true_iff; [by left|right; by apply W2].
Qed.

Lemma check_outgoing_spec c h s ok c' s' :
  check_outgoing_ciphertext e c h s = Ret (ok, c', s') ->
  part h s h s' /\ forward (o_server (h_opt h)) c c' (s_primary s) (s_primary s')
  /\ k_state (s_primary s') = k_state (s_primary s).
Proof.
  unfold check_outgoing_ciphertext. intros H. destruct (S_START <=? _); [|inv_steps H; split; [apply part_refl|split; [apply forward_refl|done]]].
  inv_step H. destruct (get_output_count _ _ _ E) as (Hc & Hs & _).
  set (k1 := with_send (s_primary s) b) in *.
  assert (F1 : forward (o_server (h_opt h)) c c (s_primary s) k1).
  { apply forward_still; try done; [by rewrite <- (Hc false)|auto]. }
  destruct a as [i|]; [|inv_steps H; split; [apply part_primary, F1|by split]].
  unfold outgoing_ciphertext in H. cbn [s_primary set_primary] in H.
  destruct (_ =? 0); [inv_steps H; split; [apply part_primary, F1|by split]|].
  destruct (k_ssl k1) as [o|]; [|done]. destruct (ciphertext_limits _ _) as [maxlen mx].
  inv_step H. inv_step H. inv_step H. inv_step H. inv_steps H. apply outgoing_count in E3 as (W1 & W2 & W3).
  cbn [send_view TlsSend.send_reliable s_primary set_primary] in W1, W2, W3.
  match goal with |- context [set_primary _ (with_send ?k ?r)] =>
    assert (F2 : forward (o_server (h_opt h)) c c' k1 (with_send k r)) end.
  { apply forward_still; try done. cbn [k_rec k_send with_send with_ssl]. intros Hx. destruct (W2 Hx); [by left|right; lia]. }
  pose proof (forward_trans _ _ _ _ _ _ _ F1 F2) as F3. split; [by apply (part_primary h s), F3|by split].
Qed.

Lemma outgoing_stage : stage (process_outgoing e).
Proof.
  intros c h s f h' s' H. unfold process_outgoing in H. inv_step H. inv_steps H.
  destruct (check_outgoing_spec _ _ _ _ _ _ E) as (P & F & _). split; [done|].
  destruct a0; [by apply forward_goes|by eapply forward_error].
Qed.

Lemma weight_state server k st :
  (weight server (with_state k st) + 32 * rank server (k_state k) = weight server k + 32 * rank server st)%nat.
Proof. unfold weight. change (k_state (with_state k st)) with st. cbn [k_rec k_send k_read_buf k_write_buf with_state with_data]. lia. Qed.

Lemma error_pass c h s c' h' s' :
  process_error e c h s = Ret (c', h', s') ->
  c' = true /\ part h s h' s' /\ k_state (s_primary s') = S_ERROR_PRE
  /\ (weight (o_server (h_opt h)) (s_primary s') + 32 * rank (o_server (h_opt h)) (k_state (s_primary s))
      <= weight (o_server (h_opt h)) (s_primary s))%nat.
Proof.
  unfold process_error. intros H. inv_step H. inv_step H. inv_steps H.
  set (s1 := set_primary s (with_ssl (s_primary s) x)) in *.
  destruct (check_outgoing_spec _ _ _ _ _ _ E0) as (P & (_ & _ & W & _) & St).
  assert (P1 : part h' s h' s1) by by apply part_primary.
  pose proof (part_trans _ _ _ _ _ _ P1 P) as P2. split; [done|]. split; [|split; [done|]].
  - eapply part_trans; [exact P2|]. by apply part_primary.
  - change (weight (o_server (h_opt h')) (s_primary s1)) with (weight (o_server (h_opt h')) (s_primary s)) in W.
    change (k_state (s_primary s1)) with (k_state (s_primary s)) in St.
    pose proof (weight_state (o_server (h_opt h')) (s_primary b) S_ERROR_PRE) as Hw. rewrite St in Hw.
    change (rank _ S_ERROR_PRE) with 0%nat in Hw. cbn [s_primary set_primary]. lia.
Qed.

(** The whole pass up to its end or an error. *)
Lemma stages : stage (fun _ h s =>
    and_go (process_handshake h s) (fun c h s =>
    and_go (process_send c h s) (fun c h s =>
    and_go (process_incoming c h s) (fun c h s =>
    and_go (read_incoming_tls_plaintext e c h s) (fun c h s =>
    and_go (send_key e c h s) (fun c h s =>
    and_go (receive_key e c h s) (fun c h s =>
    and_go (write_outgoing_plaintext c h s) (fun c h s => process_outgoing e c h s)))))))).
Proof.
  apply (stage_then (fun _ h s => process_handshake h s)); [apply handshake_stage|].
  apply stage_then; [apply send_stage|]. apply stage_then; [apply incoming_stage|].
  apply stage_then; [apply plaintext_stage|]. apply stage_then; [apply send_key_stage|].
  apply stage_then; [apply receive_key_stage|]. apply stage_then; [apply write_plaintext_stage|]. apply outgoing_stage.
Qed.

(** A session that has failed goes no further than its last packet. *)
Lemma failed_handshake (h : shared) (s : tls_session) :
  k_state (s_primary s) = S_ERROR_PRE -> process_handshake h s = Ret (Go false, h, set_primary s (s_primary s)).
Proof.
  intros H. unfold process_handshake, on_turn. rewrite H. change (S_ERROR_PRE =? S_INITIAL) with false. cbn [res_bind].
  rewrite !H. change (S_UNDEF <=? S_ERROR_PRE) with false. rewrite andb_false_r. cbn [andb].
  change (S_ERROR_PRE =? S_PRE_START) with false. cbn [andb]. cbv iota. rewrite !H.
  change (S_ERROR_PRE =? S_GOT_KEY) with false. change (S_ERROR_PRE =? S_SENT_KEY) with false. done.
Qed.
Lemma failed_send c (h : shared) (s : tls_session) f h' s' :
  k_state (s_primary s) = S_ERROR_PRE -> process_send c h s = Ret (f, h', s') -> f = Return false.
Proof.
  intros Hs H. unfold process_send in H. destruct (_ && reliable_can_send _ _).
  - inv_step H. destruct a as [[i op]|]; [|done]. destruct (rel_array b !! i); [|done]. inv_step H. by inv_steps H.
  - rewrite Hs in H. change (S_ERROR_PRE =? S_ERROR_PRE) with true in H. by inv_steps H.
Qed.

Definition working (st : Z) : Prop := in_use st \/ st = S_ERROR_PRE.

Lemma pass_spec h s c h' s' :
  tls_process_state e h s = Ret (c, h', s') -> working (k_state (s_primary s)) ->
  part h s h' s' /\ rtc (transition (o_server (h_opt h))) (k_state (s_primary s)) (k_state (s_primary s'))
  /\ (c = true -> (weight (o_server (h_opt h)) (s_primary s') < weight (o_server (h_opt h)) (s_primary s))%nat).
Proof.
  intros H Hw. unfold tls_process_state in H. inv_step H. destruct (stages false _ _ _ _ _ E) as [P G].
  destruct a0 as [c1|c1|c1]; cbn [goes] in G.
  - destruct G as (A & W & C). inv_steps H. split; [done|]. split; [by apply advance_transition|]. intros Hc. by destruct (C Hc).
  - destruct G as (A & W). destruct Hw as [Hu|Hf].
    + pose proof (advances_in_use _ _ _ A Hu) as Hu'. destruct (error_pass _ _ _ _ _ _ H) as (-> & P' & St & W').
      rewrite (pt_opt _ _ _ _ P) in W'. split; [by eapply part_trans|]. split.
      * etrans; [by apply advance_transition|]. rewrite St. by apply rtc_once, tr_fail.
      * intros _. pose proof (rank_in_use (o_server (h_opt h)) _ Hu'). lia.
    + exfalso. rewrite failed_handshake in E by done. unfold and_go at 1 in E. cbn [res_bind] in E.
      unfold and_go at 1 in E. inv_step E. apply failed_send in E0 as ->; [|done]. by injection E.
  - destruct G as (-> & A). inv_steps H. done.
Qed.

(** ** The loop ends *)

(** One round of the loop that asks for another. *)
Inductive continues : shared * tls_session -> shared * tls_session -> Prop :=
| continues_intro h s h' s' :
    tls_process_state e (update_clock e h) s = Ret (true, h', s') -> k_state (s_primary s') <> S_ERROR ->
    continues (h, s) (h', s').

Lemma transitions_working server st st' : rtc (transition server) st st' -> working st -> st' <> S_ERROR -> working st'.
Proof.
  induction 1 as [|st st1 st' H Hr IH]; [done|]. intros Hw Hn. destruct H as [st st1 H|st H|].
  - apply advance_in_use in H as (_ & H & _). apply IH; [by left|done].
  - apply IH; [by right|done].
  - exfalso. apply Hn. clear -Hr. inversion Hr as [|? x ? Ht]; [done|]. subst. inversion Ht as [? ? Ha|? Hu|]; subst.
    + apply advance_in_use in Ha as ([Ha _] & _). by vm_compute in Ha.
    + destruct Hu as [Ha _]. by vm_compute in Ha.
Qed.

Lemma continues_spec p p' :
  continues p p' -> working (k_state (s_primary p.2)) ->
  h_opt p'.1 = h_opt p.1 /\ working (k_state (s_primary p'.2))
  /\ (weight (o_server (h_opt p.1)) (s_primary p'.2) < weight (o_server (h_opt p.1)) (s_primary p.2))%nat.
Proof.
  intros [h s h' s' H Hn] Hw. cbn [fst snd] in *. destruct (pass_spec _ _ _ _ _ H Hw) as (P & T & W).
  pose proof (pt_opt _ _ _ _ P) as Ho. change (h_opt (update_clock e h)) with (h_opt h) in *. split; [done|].
  split; [by eapply transitions_working|by apply W].
Qed.

Lemma loop_spec n h s :
  (weight (o_server (h_opt h)) (s_primary s) < n)%nat -> working (k_state (s_primary s)) ->
  (exists r, tls_process_loop e n h s = Ret r)
  \/ exists p, rtc continues (h, s) p /\ forall r, tls_process_state e (update_clock e p.1) p.2 <> Ret r.
Proof.
  revert h s. induction n as [|n IH]; intros h s Hn Hw; [lia|]. cbn [tls_process_loop].
  destruct (tls_process_state e (update_clock e h) s) as [[[c h'] s']| |] eqn:E; cbn [res_bind];
    [|right; exists (h, s); split; [done|cbn [fst snd]; by rewrite E]..].
  destruct (Z.eqb_spec (k_state (s_primary s')) S_ERROR) as [He|He]; [eauto|]. destruct c; [|eauto].
  assert (Hc : continues (h, s) (h', s')) by by constructor.
  destruct (continues_spec _ _ Hc Hw) as (Ho & Hw' & W). cbn [fst snd] in *.
  destruct (IH h' s') as [Hr|(p & Hp & Hf)]; [rewrite Ho; lia|done|by left|]. right. exists p. split; [|done]. by eapply rtc_l.
Qed.

Lemma rounds_bounded n p p' :
  nsteps continues n p p' -> working (k_state (s_primary p.2)) -> (n <= weight (o_server (h_opt p.1)) (s_primary p.2))%nat.
Proof.
  induction 1 as [|n p p1 p' H _ IH]; [lia|]. intros Hw. destruct (continues_spec _ _ H Hw) as (Ho & Hw' & W).
  specialize (IH Hw'). rewrite Ho in IH. lia.
Qed.

Lemma weight_bound server k :
  rel_size (k_send k) <= RELIABLE_CAPACITY -> rel_size (k_rec k) <= RELIABLE_CAPACITY -> (weight server k <= 282)%nat.
Proof.
  unfold RELIABLE_CAPACITY. intros H1 H2. unfold weight. pose proof (rank_bound server (k_state k)).
  pose proof (count_size (k_rec k) true). pose proof (count_size (k_send k) false). repeat case_match; lia.
Qed.

(** C21: the loop of [tls_process] ends.  For every session that is not in an error state, and
    whatever the TLS library answers, every round that asks for another one uses up a state of the negotiation,
    a packet that arrived, a slot of the send queue or one of the plaintext buffers, so fewer than 283
    rounds follow each other; the loop returns, unless an assertion fails inside of a
    round. *)
Theorem tls_process_loop_ends (h : shared) (s : tls_session) :
  working (k_state (s_primary s)) ->
  rel_size (k_send (s_primary s)) <= RELIABLE_CAPACITY -> rel_size (k_rec (s_primary s)) <= RELIABLE_CAPACITY ->
  (forall n p, nsteps continues n (h, s) p -> (n < process_fuel)%nat)
  /\ ((exists r, tls_process_loop e process_fuel h s = Ret r)
      \/ exists p, rtc continues (h, s) p /\ forall r, tls_process_state e (update_clock e p.1) p.2 <> Ret r).
Proof.
  intros Hw H1 H2. pose proof (weight_bound (o_server (h_opt h)) _ H1 H2) as Hb. split.
  - intros n p Hn. apply rounds_bounded in Hn; [|done]. cbn [fst snd] in Hn. unfold process_fuel. lia.
  - apply loop_spec; [unfold process_fuel; lia|done].
Qed.

(** ** The packet that leaves *)

(** Parts that neither send nor end the pass. *)
Definition quiet (run : bool -> shared -> tls_session -> res (flow * shared * tls_session)) : Prop :=
  forall c h s f h' s', run c h s = Ret (f, h', s') ->
    h_to_link h' = h_to_link h /\ match f with Return _ => False | _ => True end.

Lemma quiet_then run run' : quiet run -> quiet run' -> quiet (fun c h s => and_go (run c h s) run').
Proof.
  intros H1 H2 c h s f h' s' H. unfold and_go in H. inv_step H. destruct (H1 _ _ _ _ _ _ E) as [L1 N1].
  destruct a0; [|by inv_steps H|done]. destruct (H2 _ _ _ _ _ _ H) as [L2 N2]. split; [congruence|done].
Qed.

Lemma handshake_quiet : quiet (fun _ h s => process_handshake h s).
Proof.
  intros c h s f h' s' H. unfold process_handshake in H. inv_step H. destruct (_ && (k_state b <? S_ACTIVE)); [by inv_steps H|].
  destruct (if _ && _ then _ else _) as [c1 ks1]. destruct (_ && reliable_empty (k_send ks1)); [|by inv_steps H].
  inv_step H. inv_steps H. apply move_active_spec in E0. by destruct E0 as (_ & _ & _ & _ & _ & _ & _ & _ & _ & ->).
Qed.
Lemma rest_quiet : quiet (fun c h s =>
    and_go (process_incoming c h s) (fun c h s =>
    and_go (read_incoming_tls_plaintext e c h s) (fun c h s =>
    and_go (send_key e c h s) (fun c h s =>
    and_go (receive_key e c h s) (fun c h s =>
    and_go (write_outgoing_plaintext c h s) (fun c h s => process_outgoing e c h s)))))).
Proof.
  repeat apply quiet_then; intros c h s f h' s' H.
  - unfold process_incoming in H. destruct (reliable_get_entry_sequenced _) as [[i en]|]; [|by inv_steps H].
    destruct (_ && is_hard_reset_method2 _); [inv_step H; inv_steps H; by destruct a0|].
    destruct (k_ssl _); [|done]. inv_step H. inv_step H. inv_steps H. by destruct a.
  - unfold read_incoming_tls_plaintext in H. destruct (negb _); [by inv_steps H|]. destruct (buf_init_dowork _ _) as [[] buf]; [|done].
    destruct (k_ssl _); [|done]. inv_step H. destruct (_ =? -1); [by inv_steps H|]. destruct (_ =? 1); by inv_steps H.
  - unfold send_key in H. destruct (_ && on_turn _ _ _ _); [|by inv_steps H]. destruct (k_ssl _); [|done]. inv_step H.
    destruct (negb _); by inv_steps H.
  - unfold receive_key in H. destruct (_ && on_turn _ _ _ _); [|by inv_steps H]. destruct (k_ssl _); [|done]. inv_step H.
    destruct (e_deferred _ _) as [[? ?] ?]. destruct (negb _); by inv_steps H.
  - unfold write_outgoing_plaintext in H. destruct (_ =? 0); [by inv_steps H|]. destruct (k_ssl _); [|done]. inv_step H.
    destruct (_ =? -1); by inv_steps H.
  - unfold process_outgoing in H. inv_step H. inv_steps H. by destruct a0.
Qed.


(** The packet to send is the one that was there, or one of the session itself, which then did not fail. *)
Definition sends (h : shared) (h' : shared) (s' : tls_session) : Prop :=
  h_to_link h' = h_to_link h
  \/ (session_owns s' (lb_owner (h_to_link h')) /\ k_state (s_primary s') <> S_ERROR).

Lemma control_auth_owner h s buf op mx pre b (w : bool) s' k b0 own :
  write_control_auth h s buf op mx pre = Ret (b, w, s') -> has_memory s -> k_block (s_primary s) = Some k ->
  (own = SendBuf k b0 \/ own = AckBuf k) ->
  session_owns s' (if w then wrap_owner s' (k_key_id (s_primary s')) else own).
Proof.
  intros H M Hk Ho. apply write_control_auth_part in H as ([K _ _ _ _ _ Hm] & _). destruct w.
  - by apply wrap_owner_owns, Hm.
  - pose proof (kp_block _ _ K) as Hb. rewrite Hk in Hb. destruct Ho as [-> | ->]; by left.
Qed.

Lemma process_send_link c h s f h' s' :
  process_send c h s = Ret (f, h', s') -> has_memory s -> k_state (s_primary s) <> S_ERROR ->
  match f with Return c' => c' = false /\ sends h h' s' | _ => h_to_link h' = h_to_link h end.
Proof.
  intros H M Hn. unfold process_send in H. destruct (_ && reliable_can_send _ _).
  - inv_step H. destruct a as [[i op]|]; [|done]. destruct (rel_array b !! i) as [en|]; [|done]. inv_step H.
    destruct (hm_key _ M) as [k Hk]. set (s1 := set_primary s (with_send (s_primary s) b)) in *.
    assert (M1 : has_memory s1) by (destruct M; by split).
    pose proof (control_auth_owner _ _ _ _ _ _ _ _ _ k i (SendBuf k i) E0 M1 Hk (or_introl eq_refl)) as Ho.
    apply write_control_auth_part in E0 as (P & _ & St). pose proof (kp_block _ _ (pt_kept _ _ _ _ P)) as Hb.
    change (k_block (s_primary s1)) with (k_block (s_primary s)) in Hb. rewrite Hk in Hb. rewrite Hb in H. inv_steps H.
    split; [done|]. right. cbn [h_to_link put_tla put_to_link lb_owner]. destruct b1.
    + split; [done|]. by rewrite St.
    + split; [exact Ho|]. change (k_state (s_primary (set_primary b0 _))) with (k_state (s_primary b0)). by rewrite St.
  - destruct (_ =? S_ERROR_PRE); inv_steps H; [|done]. split; [done|by left].
Qed.

Lemma pass_sends h s c h' s' :
  tls_process_state e h s = Ret (c, h', s') -> has_memory s -> working (k_state (s_primary s)) ->
  sends h h' s' /\ (c = true -> h_to_link h' = h_to_link h).
Proof.
  intros H M Hw. unfold tls_process_state in H. inv_step H. unfold and_go at 1 in E. inv_step E.
  destruct (handshake_stage false _ _ _ _ _ E0) as [P0 G0]. destruct (handshake_quiet false _ _ _ _ _ E0) as [L0 N0].
  pose proof (pt_memory _ _ _ _ P0 M) as M0.
  assert (Herr : forall c1 h1 s1, process_error e c1 h1 s1 = Ret (c, h', s') -> h_to_link h' = h_to_link h1).
  { intros c1 h1 s1 Hp. unfold process_error in Hp. inv_step Hp. inv_step Hp. by inv_steps Hp. }
  destruct a1 as [c1|c1|c1]; [|injection E as <- <- <-; apply Herr in H; rewrite H; unfold sends; rewrite H; by auto|done].
  unfold and_go at 1 in E. inv_step E. destruct G0 as (A0 & _).
  assert (Hn : k_state (s_primary b1) <> S_ERROR).
  { destruct Hw as [Hu|He]; [apply advances_in_use in A0; [|done]; destruct A0 as [A0 _]; intros Hx; rewrite Hx in A0; by vm_compute in A0|].
    rewrite (advances_failed _ _ _ A0); [by rewrite He|]. rewrite He. intros [A1 _]. by vm_compute in A1. }
  pose proof (process_send_link _ _ _ _ _ _ E1 M0 Hn) as L1.
  destruct a1 as [c2|c2|c2].
  - destruct (rest_quiet _ _ _ _ _ _ E) as [L2 N2]. rewrite L1, L0 in L2.
    destruct a0 as [c3|c3|c3]; [|apply Herr in H; rewrite L2 in H; unfold sends; rewrite H; by auto|done].
    injection H as <- <- <-. unfold sends. rewrite L2. by auto.
  - injection E as <- <- <-. apply Herr in H. rewrite L1, L0 in H. unfold sends. rewrite H. by auto.
  - injection E as <- <- <-. destruct L1 as [-> L1]. injection H as <- <- <-. split; [|done]. unfold sends in *. by rewrite <- L0.
Qed.

Lemma loop_result n h s ok h' s' :
  tls_process_loop e n h s = Ret (ok, h', s') -> has_memory s -> working (k_state (s_primary s)) ->
  part h s h' s' /\ rtc (transition (o_server (h_opt h))) (k_state (s_primary s)) (k_state (s_primary s'))
  /\ sends h h' s' /\ ok = negb (k_state (s_primary s') =? S_ERROR).
Proof.
  revert h s. induction n as [|n IH]; intros h s H M Hw; [done|]. cbn [tls_process_loop] in H. inv_step H.
  destruct (pass_spec _ _ _ _ _ E Hw) as (P & T & _). destruct (pass_sends _ _ _ _ _ E M Hw) as [L Lc].
  assert (P0 : part h s (update_clock e h) s) by (split; try done; apply clock_moves).
  pose proof (part_trans _ _ _ _ _ _ P0 P) as P1. change (h_opt (update_clock e h)) with (h_opt h) in T.
  destruct (Z.eqb_spec (k_state (s_primary b)) S_ERROR) as [He|He].
  { inv_steps H. split; [done|]. split; [done|]. split; [exact L|]. by rewrite He. }
  destruct a0; [|inv_steps H; split; [done|]; split; [done|]; split; [exact L|]; by rewrite (proj2 (Z.eqb_neq _ _) He)].
  destruct (IH _ _ H) as (P2 & T2 & L2 & Ok); [by apply P1|by eapply transitions_working|].
  rewrite (pt_opt _ _ _ _ P) in T2. change (h_opt (update_clock e h)) with (h_opt h) in T2.
  split; [by eapply part_trans|]. split; [by etrans|]. split; [|done]. unfold sends in *. by rewrite Lc in L2.
Qed.

(** ** The invariant of a session *)
Record key_wf (k : key_state) : Prop := {
  kw_keys : S_GENERATED_KEYS <= k_state k -> bi_initialized (co_keys (k_crypto k)) = true;
  kw_id : 0 <= k_key_id k <= P_KEY_ID_MASK;
  kw_block : is_Some (k_block k);
  kw_sizes : rel_size (k_send k) <= RELIABLE_CAPACITY /\ rel_size (k_rec k) <= RELIABLE_CAPACITY
}.
(** A retiring key has a time to die. *)
Definition lame_wf (k : key_state) : Prop := k_state k = S_UNDEF \/ (key_wf k /\ k_must_die k <> 0).
Definition addr_known (k : key_state) : Prop :=
  session_id_defined (k_session_id_remote k) = true -> sin_family (k_remote_addr k) <> AF_UNSPEC.
Record session_wf (s : tls_session) : Prop := {
  sw_key : key_wf (s_primary s);
  sw_sid : session_id_defined (s_session_id s) = true;
  sw_next : s_key_id s = next_key_id (k_key_id (s_primary s));
  sw_lame : lame_wf (s_lame_duck s);
  sw_ids : k_state (s_lame_duck s) <> S_UNDEF -> k_key_id (s_primary s) = next_key_id (k_key_id (s_lame_duck s));
  sw_addr : addr_known (s_primary s);
  sw_memory : has_memory s
}.

(** The blocks of memory a session owns. *)
Definition session_blocks (s : tls_session) : list Z :=
  option_list (s_wrap_block s) ++ option_list (s_reneg_block s) ++ option_list (k_block (s_primary s))
  ++ option_list (k_block (s_lame_duck s)).
(** Blocks are kept, given back or new. *)
Definition blocks_from (n n' : Z) (l l' : list Z) : Prop := n <= n' /\ l' ⊆+ seqZ n (n' - n) ++ l.

Lemma blocks_refl n l : blocks_from n n l l.
Proof. split; [done|]. rewrite Z.sub_diag. done. Qed.
Lemma blocks_trans n n1 n2 l l1 l2 : blocks_from n n1 l l1 -> blocks_from n1 n2 l1 l2 -> blocks_from n n2 l l2.
Proof.
  intros [H1 S1] [H2 S2]. split; [lia|]. etrans; [exact S2|]. etrans; [by apply submseteq_skips_l, S1|].
  replace (n2 - n) with ((n1 - n) + (n2 - n1)) by lia. rewrite seqZ_app by lia. replace (n + (n1 - n)) with n1 by lia.
  rewrite !(assoc_L app), (comm app (seqZ n1 _)). done.
Qed.

Lemma transitions_generated server st st' : rtc (transition server) st st' -> S_GENERATED_KEYS <= st' -> st = st'.
Proof.
  intros [->|(st1 & _ & H)]%rtc_inv_r; [done|]. intros Hg.
  destruct H as [x y Ha|x Hu|]; [|by vm_compute in Hg..]. apply advance_in_use in Ha as (_ & [_ Ha] & Hne). lia.
Qed.

Lemma part_wf h s h' s' server :
  part h s h' s' -> rtc (transition server) (k_state (s_primary s)) (k_state (s_primary s')) -> session_wf s ->
  session_wf s' /\ session_blocks s' = session_blocks s.
Proof.
  intros [[K1 K2 K3 K4 K5 K6 [K7 K8]] L (S1 & S2 & S3 & S4) O N W M] T [[W1 W2 W3 [W4 W5]] Q1 Q2 Q3 Q4 Q5 Q6]. split.
  - split; [split| | | | | |by apply M]; unfold addr_known; rewrite ?K1, ?K2, ?K4, ?K5, ?K6, ?K7, ?K8, ?L, ?S1, ?S2; try done.
    intros Hg. apply W1. by rewrite (transitions_generated _ _ _ T Hg).
  - unfold session_blocks. by rewrite S3, S4, K4, L.
Qed.

Lemma seqZ_one n : seqZ n 1 = [n].
Proof. unfold seqZ. cbn. f_equal. Qed.

Lemma next_key_id_spec id : 0 <= id <= P_KEY_ID_MASK -> 1 <= next_key_id id <= P_KEY_ID_MASK /\ next_key_id id <> id.
Proof.
  unfold P_KEY_ID_MASK. intros H.
  assert (id = 0 \/ id = 1 \/ id = 2 \/ id = 3 \/ id = 4 \/ id = 5 \/ id = 6 \/ id = 7) as Hc by lia.
  destruct Hc as [-> | [-> | [-> | [-> | [-> | [-> | [-> | ->]]]]]]]; vm_compute; intuition discriminate.
Qed.

Lemma reliable_init_size size off n hold r : reliable_init size off n hold = Ret r -> rel_size r = n.
Proof.
  unfold reliable_init. intros H. destruct (_ && _); [|done]. inv_step H. destruct (buf_init_dowork _ _) as [[] ?]; [|done].
  by inv_steps H.
Qed.

Lemma key_state_init_spec h s ks s' h' :
  key_state_init e h s = Ret (ks, s', h') ->
  k_state ks = S_INITIAL /\ k_key_id ks = s_key_id s /\ k_block ks = Some (h_next h) /\ k_session_id_remote ks = x_session_id_zero
  /\ rel_size (k_send ks) = TLS_RELIABLE_N_SEND_BUFFERS /\ rel_size (k_rec ks) = TLS_RELIABLE_N_REC_BUFFERS
  /\ s' = mk_tls_session (s_burst s) (s_tls_wrap s) (s_tls_wrap_reneg s) (s_wrap_block s) (s_reneg_block s)
            P_CONTROL_SOFT_RESET_V1 (s_session_id s) (next_key_id (s_key_id s)) (s_untrusted_addr s) (s_primary s) (s_lame_duck s)
  /\ h_opt h' = h_opt h /\ h_next h' = h_next h + 1 /\ h_now h <= h_now h' /\ h_to_link h' = h_to_link h.
Proof.
  unfold key_state_init. intros H. inv_step H. inv_step H. inv_step H. inv_step H. inv_step H. inv_step H.
  apply reliable_init_size in E2, E3. inv_steps H. repeat split; try done. apply clock_moves.
Qed.

(** The key a session starts with, or goes on with. *)
Lemma fresh_key_wf ks :
  k_state ks = S_INITIAL -> 0 <= k_key_id ks <= P_KEY_ID_MASK -> is_Some (k_block ks) ->
  rel_size (k_send ks) = TLS_RELIABLE_N_SEND_BUFFERS -> rel_size (k_rec ks) = TLS_RELIABLE_N_REC_BUFFERS -> key_wf ks.
Proof.
  intros H1 H2 H3 H4 H5. split; [rewrite H1; intros H; by vm_compute in H|done|done|]. rewrite H4, H5. by vm_compute.
Qed.

(** What a new session or key leaves of the rest. *)
Definition renewed (h h' : shared) : Prop :=
  h_opt h' = h_opt h /\ h_now h <= h_now h' /\ h_to_link h' = h_to_link h.

Lemma soft_reset_spec h s s' h' :
  key_state_soft_reset e h s = Ret (s', h') -> session_wf s -> 0 < h_now h + o_transition_window (h_opt h) ->
  session_wf s' /\ k_state (s_primary s') = S_INITIAL /\ renewed h h'
  /\ blocks_from (h_next h) (h_next h') (session_blocks s) (session_blocks s') /\ s_session_id s' = s_session_id s.
Proof.
  unfold key_state_soft_reset. intros H [[K1 K2 K3 K4] Q1 Q2 Q3 Q4 Q5 [M1 M2 M3]] Ht. inv_step H.
  destruct (key_state_init_spec _ _ _ _ _ E) as (I1 & I2 & I3 & I4 & I5 & I6 & -> & I8 & I9 & I10 & I11). inv_steps H.
  set (lame := with_must_die (s_primary s) (h_now h + o_transition_window (h_opt h))) in *.
  match goal with |- session_wf ?x /\ _ => set (s2 := x) end.
  change (s_key_id (set_lame_duck _ _)) with (s_key_id s) in I2.
  assert (X1 : s_key_id s2 = next_key_id (s_key_id s)) by done. assert (X2 : k_key_id (s_primary s2) = k_key_id a0) by done.
  assert (X3 : s_lame_duck s2 = lame) by done. assert (X4 : k_block (s_primary s2) = k_block a0) by done.
  assert (X5 : k_state (s_primary s2) = k_state a0) by done.
  assert (X6 : rel_size (k_send (s_primary s2)) = rel_size (k_send a0) /\ rel_size (k_rec (s_primary s2)) = rel_size (k_rec a0)) by done.
  assert (X7 : addr_known (s_primary s) -> addr_known (s_primary s2)) by done.
  assert (X8 : s_wrap_block s2 = s_wrap_block s /\ s_reneg_block s2 = s_reneg_block s /\ s_tls_wrap_reneg s2 = s_tls_wrap_reneg s
               /\ s_session_id s2 = s_session_id s) by done.
  assert (X9 : key_wf lame /\ k_must_die lame = h_now h + o_transition_window (h_opt h) /\ k_key_id lame = k_key_id (s_primary s)
               /\ k_block lame = k_block (s_primary s)) by done.
  clearbody s2 lame. destruct X6 as [X6 X6b], X8 as (X8 & X8b & X8c & X8d), X9 as (X9 & Xd & Xi & Xb).
  destruct (next_key_id_spec _ K2) as [N1 N2]. split; [|split; [congruence|split; [done|split; [|done]]]].
  - split; rewrite ?X1, ?X2, ?X3, ?X8d; try done.
    + apply fresh_key_wf; rewrite ?X2, ?X4, ?I2, ?I3, ?Q2; try congruence; [lia|done].
    + by rewrite I2.
    + right. split; [done|lia].
    + intros _. rewrite I2, Q2. by rewrite Xi.
    + by apply X7.
    + split; rewrite ?X8, ?X8b, ?X8c, ?X4, ?I3; done.
  - rewrite I9. split; [lia|]. replace (h_next h + 1 - h_next h) with 1 by lia. rewrite seqZ_one.
    unfold session_blocks. rewrite X3, X4, X8, X8b, Xb, I3. cbn [option_list].
    solve_submseteq.
Qed.

Lemma session_id_loop_defined fuel n sid r n' : session_id_loop e fuel n sid = Ret (r, n') -> session_id_defined r = true.
Proof.
  revert n sid. induction fuel as [|fuel IH]; intros n sid H; cbn [session_id_loop] in H;
    destruct (session_id_defined sid) eqn:Hd; try done; [by injection H as <- <-..|by eapply IH].
Qed.

(** A session that was just set up. *)
Definition new_session (h : shared) (s : tls_session) (h' : shared) : Prop :=
  session_wf s /\ k_state (s_primary s) = S_INITIAL /\ renewed h h' /\ blocks_from (h_next h) (h_next h') [] (session_blocks s).

Lemma session_init_spec h s h' : tls_session_init e h = Ret (s, h') -> new_session h s h'.
Proof.
  unfold tls_session_init. intros H. inv_step H. inv_step H. inv_step H. inv_step H.
  apply session_id_loop_defined in E. injection H as <- <-.
  destruct (key_state_init_spec _ _ _ _ _ E2) as (I1 & I2 & I3 & I4 & I5 & I6 & -> & I8 & I9 & I10 & I11).
  cbn [s_key_id s_wrap_block s_reneg_block] in *. change (h_next (put_next _ _)) with (h_next h + 1) in *.
  match goal with |- new_session _ ?x _ => set (s2 := x) end.
  assert (X1 : s_key_id s2 = next_key_id 0 /\ s_session_id s2 = a /\ s_lame_duck s2 = key_state_zero /\ s_primary s2 = a1
               /\ s_wrap_block s2 = Some (h_next h) /\ s_reneg_block s2 = None /\ s_tls_wrap_reneg s2 = wrap_zero) by done.
  clearbody s2. destruct X1 as (X1 & X2 & X3 & X4 & X5 & X6 & X7). split; [|split; [congruence|split; [done|]]].
  - split; rewrite ?X1, ?X2, ?X3, ?X4; try done.
    + apply fresh_key_wf; try congruence; [by rewrite I2|by rewrite I3].
    + by rewrite I2.
    + by left.
    + unfold addr_known. rewrite I4. done.
    + split; rewrite ?X4, ?X5, ?X6, ?X7; [done|by right|by rewrite I3].
  - unfold session_blocks. rewrite X3, X4, X5, X6, I3, I9. split; [lia|]. cbn [option_list app key_state_zero k_block].
    replace (h_next h + 1 + 1 - h_next h) with (1 + 1) by lia. rewrite seqZ_app by lia. rewrite !seqZ_one. done.
Qed.

(** The end of a call of [tls_process]. *)
Record processed (h : shared) (s : tls_session) (h' : shared) (s' : tls_session) : Prop := {
  pr_wf : session_wf s';
  pr_sid : s_session_id s' = s_session_id s;
  pr_state : working (k_state (s_primary s')) \/ k_state (s_primary s') = S_ERROR;
  pr_opt : h_opt h' = h_opt h;
  pr_now : h_now h <= h_now h';
  pr_blocks : blocks_from (h_next h) (h_next h') (session_blocks s) (session_blocks s');
  pr_sends : sends h h' s'
}.

Lemma lame_duck_spec (h : shared) (s : tls_session) die h' :
  lame_duck_must_die h s = Ret (die, h') -> h_opt h' = h_opt h /\ h_now h' = h_now h /\ h_next h' = h_next h /\ h_to_link h' = h_to_link h.
Proof. unfold lame_duck_must_die. intros H. inv_steps H; done. Qed.

Lemma lame_freed_wf s : session_wf s -> session_wf (set_lame_duck s (key_state_free (s_lame_duck s) true)).
Proof. intros [W1 W2 W3 W4 W5 W6 [M1 M2 M3]]. split; try done. by left. Qed.

Lemma process_acks_spec h s h' s' :
  process_acks h s = Ret (Some (h', s')) -> has_memory s -> k_state (s_primary s) <> S_ERROR ->
  part h s h' s' /\ k_state (s_primary s') = k_state (s_primary s) /\ sends h h' s'.
Proof.
  intros H M Hn. unfold process_acks in H. destruct (_ && negb (reliable_ack_empty _)).
  2: { injection H as <- <-. split; [apply part_refl|]. split; [done|]. by left. }
  destruct (control_packet_needs_wkc _ _).
  - inv_step H. destruct (get_output_count _ _ _ E) as (_ & Hs & Hi). destruct a as [i|]; [|done]. inv_step H. inv_steps H.
    destruct Hi as (en & Hi & Ha). destruct (mark_outgoing_count _ _ _ _ _ E0 Hi Ha) as [_ Hs'].
    split; [|split; [done|by left]]. apply part_primary, kept_send. congruence.
  - destruct (buf_init_dowork _ _) as [[] buf]; [|done]. inv_step H. destruct (hm_key _ M) as [k Hk].
    pose proof (control_auth_owner _ _ _ _ _ _ _ _ _ k 0%nat (AckBuf k) E M Hk (or_intror eq_refl)) as Ho.
    apply write_control_auth_part in E as (P & _ & St). pose proof (kp_block _ _ (pt_kept _ _ _ _ P)) as Hb.
    rewrite Hk in Hb. rewrite Hb in H. inv_steps H. destruct b0.
    + split; [by destruct P; split|]. split; [done|]. right. split; [done|]. by rewrite St.
    + split; [eapply part_trans; [exact P|by apply part_key]|]. split; [done|]. right. split; [exact Ho|].
      change (k_state _) with (k_state (s_primary b)). by rewrite St.
Qed.

Lemma sends_trans h h1 h2 s1 s2 :
  sends h h1 s1 -> sends h1 h2 s2 -> k_state (s_primary s2) <> S_ERROR ->
  (forall own, session_owns s1 own -> session_owns s2 own) -> sends h h2 s2.
Proof.
  intros [L1|[L1 _]] [L2|[L2 N2]] Hn Ho; unfold sends.
  - left. congruence.
  - by right.
  - right. split; [|done]. rewrite L2. by apply Ho.
  - by right.
Qed.

Lemma part_owns h s h' s' own : part h s h' s' -> session_owns s own -> session_owns s' own.
Proof.
  intros [K L (_ & _ & S1 & S2) _ _ _ _]. pose proof (kp_block _ _ K) as Kb. destruct own; cbn [session_owns key_owns];
    rewrite ?S1, ?S2, ?Kb, ?L; done.
Qed.

Lemma wakeup_spec (h : shared) (ks : key_state) :
  h_opt (process_wakeup h ks) = h_opt h /\ h_now (process_wakeup h ks) = h_now h /\ h_next (process_wakeup h ks) = h_next h
  /\ h_to_link (process_wakeup h ks) = h_to_link h.
Proof. unfold process_wakeup. repeat case_match; done. Qed.

Lemma after_loop h0 s0 h s h' s' b :
  (let! (ok, h, s) := tls_process_loop e process_fuel h s in
   if negb ok then Ret (false, h, s)
   else
     let h := update_clock e h in
     let! acks := process_acks h s in
     match acks with
     | None => Ret (false, h, s)
     | Some (h, s) =>
         let h := process_wakeup h (s_primary s) in
         if h_wakeup h <=? 0 then Ret (true, put_wakeup h 1, s)
         else Ret (negb (b_len (lb_buf (h_to_link h)) =? 0), h, s)
     end) = Ret (b, h', s') ->
  session_wf s -> working (k_state (s_primary s)) -> renewed h0 h -> s_session_id s = s_session_id s0 ->
  blocks_from (h_next h0) (h_next h) (session_blocks s0) (session_blocks s) -> processed h0 s0 h' s'.
Proof.
  intros H Wf Hw (R1 & R2 & R3) Hi Hb. inv_step H. destruct (loop_result _ _ _ _ _ _ E (sw_memory _ Wf) Hw) as (P & T & L & Ok).
  destruct (part_wf _ _ _ _ _ P T Wf) as [Wf1 B1].
  assert (Q : processed h0 s0 b1 b0).
  { split; [done|by destruct (pt_session _ _ _ _ P) as [-> _]| |by rewrite (pt_opt _ _ _ _ P)|pose proof (pt_now _ _ _ _ P); lia|by rewrite B1, (pt_next _ _ _ _ P)|].
    - destruct (decide (k_state (s_primary b0) = S_ERROR)); [by right|left; by eapply transitions_working].
    - destruct L as [L|L]; [left; congruence|by right]. }
  destruct a0; cbn [negb] in H; [|by injection H as <- <- <-].
  symmetry in Ok. apply negb_true_iff, Z.eqb_neq in Ok.
  assert (Pc : part b1 b0 (update_clock e b1) b0) by (split; try done; apply clock_moves).
  inv_step H. destruct x as [[h3 s3]|].
  - destruct (process_acks_spec _ _ _ _ E0 (sw_memory _ Wf1) Ok) as (P3 & St3 & L3).
    pose proof (part_trans _ _ _ _ _ _ Pc P3) as P4.
    destruct (part_wf _ _ _ _ (o_server (h_opt b1)) P4 (rtc_eq _ _ _ (eq_sym St3)) Wf1) as [Wf4 B4].
    destruct (wakeup_spec h3 (s_primary s3)) as (U1 & U2 & U3 & U4).
    assert (Q4 : forall w, processed h0 s0 (put_wakeup (process_wakeup h3 (s_primary s3)) w) s3).
    { intros w. destruct Q as [_ Q1 Q2 Q3 Q4 Q5 Q6]. split; [done|by destruct (pt_session _ _ _ _ P4) as [-> _]|by rewrite St3|..].
      - change (h_opt (put_wakeup _ _)) with (h_opt (process_wakeup h3 (s_primary s3))). by rewrite U1, (pt_opt _ _ _ _ P4).
      - change (h_now (put_wakeup _ _)) with (h_now (process_wakeup h3 (s_primary s3))). rewrite U2. pose proof (pt_now _ _ _ _ P4). lia.
      - change (h_next (put_wakeup _ _)) with (h_next (process_wakeup h3 (s_primary s3))). by rewrite U3, B4, (pt_next _ _ _ _ P4).
      - apply (sends_trans h0 b1 _ b0 s3); [done| |by rewrite St3|intros own; by apply (part_owns _ _ _ _ _ P4)].
        unfold sends. change (h_to_link (put_wakeup _ _)) with (h_to_link (process_wakeup h3 (s_primary s3))). rewrite U4. exact L3. }
    destruct (_ <=? 0); injection H as <- <- <-; [apply Q4|]. destruct (Q4 (h_wakeup (process_wakeup h3 (s_primary s3)))). by split.
  - injection H as <- <- <-. destruct Q as [Q1 Q0 Q2 Q3 Q4 Q5 Q6]. split; try done. pose proof (pt_now _ _ _ _ Pc). lia.
Qed.

Lemma tls_process_spec h s a h' s' :
  tls_process e h s = Ret (a, h', s') -> session_wf s -> working (k_state (s_primary s)) ->
  0 < h_now h -> 0 <= o_transition_window (h_opt h) -> processed h s h' s'.
Proof.
  intros H Wf Hw Hn Ht. unfold tls_process in H. destruct (negb _); [|done]. destruct (negb _); [|done].
  destruct (session_id_defined _); [|done]. inv_step H. inv_step H.
  assert (R : session_wf a0 /\ working (k_state (s_primary a0)) /\ renewed h b
              /\ blocks_from (h_next h) (h_next b) (session_blocks s) (session_blocks a0) /\ s_session_id a0 = s_session_id s).
  { destruct (_ && should_trigger_renegotiation _ _).
    - destruct (soft_reset_spec _ _ _ _ E Wf) as (R1 & R2 & R3 & R4); [lia|]. split; [done|]. split; [|done].
      rewrite R2. left. by vm_compute.
    - injection E as <- <-. split; [done|]. split; [done|]. split; [done|]. split; [apply blocks_refl|done]. }
  destruct R as (R1 & R2 & (R3 & R4 & R5) & R6 & R7). destruct (lame_duck_spec _ _ _ _ E0) as (D1 & D2 & D3 & D4).
  assert (Rr : renewed h b0) by (split; [congruence|split; [lia|congruence]]). rewrite <- D3 in R6. destruct a1.
  - eapply after_loop; [exact H|by apply lame_freed_wf|exact R2|done|exact R7|].
    eapply blocks_trans; [exact R6|]. split; [lia|]. rewrite Z.sub_diag. unfold session_blocks.
    cbn [s_wrap_block s_reneg_block s_primary s_lame_duck set_lame_duck key_state_free key_state_zero k_block option_list].
    change (seqZ _ 0) with (@nil Z). cbn [app]. solve_submseteq.
  - by eapply after_loop.
Qed.

(** ** The invariant of a tunnel *)
Definition all_blocks (m : tls_multi) : list Z :=
  session_blocks (m_active m) ++ session_blocks (m_initial m) ++ session_blocks (m_lame_duck m).
Definition blocks_wf (n : Z) (l : list Z) : Prop := NoDup l /\ Forall (fun b => b < n) l.
Definition running (s : tls_session) : Prop := session_wf s /\ working (k_state (s_primary s)).
(** [P] is asked of the two live sessions; a session kept for its retiring key is not processed. *)
Record multi_inv (P : session_index -> tls_session -> Prop) (m : tls_multi) : Prop := {
  mw_active : P TM_ACTIVE (m_active m);
  mw_initial : P TM_INITIAL (m_initial m);
  mw_lame : (k_state (s_primary (m_lame_duck m)) = S_UNDEF \/ k_state (s_primary (m_lame_duck m)) = S_ERROR)
            /\ lame_wf (s_lame_duck (m_lame_duck m));
  mw_now : 0 < h_now (m_shared m);
  mw_window : 0 <= o_transition_window (h_opt (m_shared m));
  mw_blocks : blocks_wf (h_next (m_shared m)) (all_blocks m)
}.
Definition multi_wf (m : tls_multi) : Prop := multi_inv (fun _ => running) m.
(** The session [i] has just failed. *)
Definition failed (i j : session_index) (s : tls_session) : Prop :=
  if decide (j = i) then session_wf s /\ k_state (s_primary s) = S_ERROR else running s.

Lemma blocks_wf_from n n' l l' : blocks_from n n' l l' -> blocks_wf n l -> blocks_wf n' l'.
Proof.
  intros [Hn [r Hr]%submseteq_Permutation] [H1 H2].
  assert (Hd : NoDup (seqZ n (n' - n) ++ l)).
  { apply NoDup_app. split; [apply NoDup_seqZ|]. split; [|done]. intros x Hx%elem_of_seqZ Hl. rewrite Forall_forall in H2.
    specialize (H2 x Hl). lia. }
  rewrite Hr in Hd. apply NoDup_app in Hd as [Hd _]. split; [done|]. apply Forall_forall. intros x Hx.
  assert (Hx' : x ∈ seqZ n (n' - n) ++ l) by (rewrite Hr; apply elem_of_app; by left).
  apply elem_of_app in Hx' as [Hx'%elem_of_seqZ|Hx']; [lia|]. rewrite Forall_forall in H2. specialize (H2 x Hx'). lia.
Qed.

Lemma blocks_app n n' l l' r r' : blocks_from n n' l l' -> r' ⊆+ r -> blocks_from n n' (l ++ r) (l' ++ r').
Proof. intros [H1 H2] H3. split; [done|]. rewrite (assoc_L app). by apply submseteq_app. Qed.
Lemma blocks_perm n n' l l' k k' : blocks_from n n' l l' -> l ≡ₚ k -> l' ≡ₚ k' -> blocks_from n n' k k'.
Proof. intros [H1 H2] Hl Hl'. split; [done|]. by rewrite <- Hl, <- Hl'. Qed.

(** The session at one of the two live indices is replaced. *)
Lemma replace_session_inv (P P' : session_index -> tls_session -> Prop) m i s h :
  multi_inv P m -> i <> TM_LAME_DUCK -> P' i s -> (forall j s, j <> i -> P j s -> P' j s) ->
  blocks_from (h_next (m_shared m)) (h_next h) (session_blocks (get_session m i)) (session_blocks s) ->
  h_opt h = h_opt (m_shared m) -> h_now (m_shared m) <= h_now h -> multi_inv P' (put_shared (put_session m i s) h).
Proof.
  intros [A I L N W B] Hi Hs Hp Hb Ho Hn. destruct i; [| |done].
  - split; try done; cbn [m_shared put_shared]; [by apply Hp|lia|by rewrite Ho|]. eapply blocks_wf_from; [|exact B].
    apply blocks_app; [exact Hb|done].
  - split; try done; cbn [m_shared put_shared]; [by apply Hp|lia|by rewrite Ho|]. eapply blocks_wf_from; [|exact B].
    eapply (blocks_perm _ _ (session_blocks (m_initial m) ++ (session_blocks (m_active m) ++ session_blocks (m_lame_duck m)))
             (session_blocks s ++ (session_blocks (m_active m) ++ session_blocks (m_lame_duck m)))).
    + by apply blocks_app.
    + unfold all_blocks. solve_Permutation.
    + unfold all_blocks. cbn [m_active m_initial m_lame_duck put_shared put_session]. solve_Permutation.
Qed.

(** The packet to send is as it was, or gone. *)
Definition link_kept (h h' : shared) : Prop := h_to_link h' = h_to_link h \/ b_len (lb_buf (h_to_link h')) = 0.

Lemma check_buf_spec lb (s : tls_session) lb' : check_session_buf_not_used lb s = Ret lb' -> lb' = lb \/ b_len (lb_buf lb') = 0.
Proof.
  unfold check_session_buf_not_used. intros H. destruct (b_data _); [|inv_steps H; by left].
  destruct (match s_wrap_block s with Some _ => _ | None => _ end); [inv_steps H; by right|]. inv_step H.
  destruct x; [inv_steps H; by right|]. inv_step H. destruct x; inv_steps H; [by right|by left].
Qed.

Lemma new_running h s h' : new_session h s h' -> running s.
Proof. intros (W & S & _). split; [done|]. rewrite S. left. by vm_compute. Qed.

Lemma restart_spec m0 i m' :
  restart_session e m0 i = Ret m' -> i <> TM_LAME_DUCK -> multi_inv (failed i) m0 ->
  multi_wf m' /\ link_kept (m_shared m0) (m_shared m') /\ h_opt (m_shared m') = h_opt (m_shared m0)
  /\ (i = TM_INITIAL -> m_active m' = m_active m0) /\ (i = TM_ACTIVE -> m_initial m' = m_initial m0)
  /\ k_state (s_primary (get_session m' i)) = S_INITIAL.
Proof.
  intros H Hi Hm0. unfold restart_session in H.
  destruct (_ && negb (o_single_session _)) eqn:Em.
  - apply andb_true_iff in Em as [[Ei%bool_decide_eq_true _]%andb_true_iff _]. subst i.
    unfold move_session in H. rewrite decide_False in H by done. cbv zeta in H. inv_step H. injection H as <-.
    destruct (session_init_spec _ _ _ E) as (N1 & N2 & (N3 & N4 & N5) & N6).
    destruct Hm0 as [[A1 A2] I L N W B]. change (running (m_initial m0)) in I.
    cbn [m_shared put_session get_session put_shared m_active m_initial m_lame_duck] in *. split; [|split; [by left|done]].
    split; cbn [m_shared put_session get_session put_shared m_active m_initial m_lame_duck]; try done.
    + split; [done|]. rewrite N2. left. by vm_compute.
    + split; [by right|]. apply A1.
    + lia.
    + by rewrite N3.
    + eapply blocks_wf_from; [|exact B]. unfold all_blocks.
      cbn [m_shared put_session get_session put_shared m_active m_initial m_lame_duck].
      apply (blocks_perm _ _ ([] ++ all_blocks m0) (session_blocks a ++ (session_blocks (m_initial m0) ++ session_blocks (m_active m0))));
        [|done|solve_Permutation]. apply blocks_app; [done|]. unfold all_blocks. solve_submseteq.
  - inv_step H. inv_step H. injection H as <-. apply check_buf_spec in E. unfold reset_session in E0.
    pose proof (session_init_spec _ _ _ E0) as Hnew. pose proof (new_running _ _ _ Hnew) as Hr.
    destruct Hnew as (N1 & N2 & (N3 & N4 & N5) & [N6 N7]). split; [|split; [|split; [exact N3|by destruct i]]].
    + eapply replace_session_inv; [exact Hm0|done|exact Hr| | |exact N3|done].
      * intros j s' Hj Hf. unfold failed in Hf. by rewrite decide_False in Hf.
      * split; [done|]. etrans; [exact N7|]. rewrite app_nil_r. apply submseteq_inserts_r. done.
    + unfold link_kept. cbn [m_shared put_shared put_session]. rewrite N5. cbn [h_to_link put_to_link]. done.
Qed.

Lemma get_put (m : tls_multi) i s : get_session (put_session m i s) i = s.
Proof. by destruct i. Qed.

(** A change of the key that keeps what the invariant speaks of. *)
Lemma running_key (h : shared) s ks :
  running s -> kept (s_primary s) ks -> k_state ks = k_state (s_primary s) ->
  running (set_primary s ks) /\ session_blocks (set_primary s ks) = session_blocks s.
Proof.
  intros [Wf Hw] K St. destruct (part_wf h s h (set_primary s ks) false (part_primary h s ks K) (rtc_eq _ _ _ (eq_sym St)) Wf) as [W B].
  split; [|done]. split; [done|]. cbn. by rewrite St.
Qed.

Lemma addr_defined_known (a : sockaddr) : link_socket_actual_defined a = true -> sin_family a <> AF_UNSPEC.
Proof. unfold link_socket_actual_defined, addr_defined. by destruct (sin_family a). Qed.

Lemma running_addr s a :
  running s -> sin_family a <> AF_UNSPEC ->
  running (set_primary s (with_remote_addr (s_primary s) a))
  /\ session_blocks (set_primary s (with_remote_addr (s_primary s) a)) = session_blocks s.
Proof.
  intros [[W1 W2 W3 W4 W5 W6 [M1 M2 M3]] Hw] Ha. split; [|done]. split; [|done]. split; try done.
  - by destruct W1.
  - by intros _.
Qed.

Lemma aimed_running m i :
  multi_wf m -> i <> TM_LAME_DUCK ->
  running (aim_session m i) /\ session_blocks (aim_session m i) = session_blocks (get_session m i).
Proof.
  intros Hm Hi. assert (Hr : running (get_session m i)) by (destruct Hm, i; done). unfold aim_session.
  destruct (_ && link_socket_actual_defined _) eqn:E; [|done]. apply andb_true_iff in E as [_ E%addr_defined_known].
  by apply running_addr.
Qed.

Lemma process_session_spec m i a er m' :
  process_session e m i = Ret (a, er, m') -> i <> TM_LAME_DUCK -> multi_wf m ->
  multi_wf m' /\ (i = TM_INITIAL -> m_active m' = m_active m) /\ (i = TM_ACTIVE -> m_initial m' = m_initial m)
  /\ (s_session_id (get_session m' i) = s_session_id (get_session m i) \/ k_state (s_primary (get_session m' i)) = S_INITIAL)
  /\ (link_kept (m_shared m) (m_shared m') \/ session_owns (get_session m' i) (lb_owner (h_to_link (m_shared m')))).
Proof.
  intros H Hi Hm. unfold process_session in H. destruct (aimed_running m i Hm Hi) as [Hr Hb].
  assert (Hm1 : multi_wf (put_session m i (aim_session m i))).
  { apply (replace_session_inv (fun _ => running) (fun _ => running) m i (aim_session m i) (m_shared m)); try done.
    rewrite Hb. apply blocks_refl. }
  assert (Ha1 : (i = TM_INITIAL -> m_active (put_session m i (aim_session m i)) = m_active m)
                /\ (i = TM_ACTIVE -> m_initial (put_session m i (aim_session m i)) = m_initial m)) by by destruct i.
  assert (Hi1 : s_session_id (get_session (put_session m i (aim_session m i)) i) = s_session_id (get_session m i)).
  { rewrite get_put. clear. unfold aim_session. cbv zeta. by destruct (_ && link_socket_actual_defined _). }
  change (m_shared m) with (m_shared (put_session m i (aim_session m i))). rewrite <- Hi1. clear Hi1.
  set (m1 := put_session m i (aim_session m i)) in *. clearbody m1. clear Hr Hb Hm. cbv zeta in H. destruct Ha1 as [Ha1 Ha2].
  destruct (_ && link_socket_actual_defined _); [|injection H as <- <- <-; split_and!; try done; [by left|left; by left]].
  assert (Hr : running (get_session m1 i)) by (destruct Hm1, i; done). destruct Hr as [Wf Hw].
  inv_step H. set (h0 := update_clock e (put_tla (m_shared m1) None)) in *.
  assert (Hn0 : h_now (m_shared m1) <= h_now h0) by apply (clock_moves (put_tla (m_shared m1) None)).
  assert (Hn : 0 < h_now h0) by (pose proof (mw_now _ _ Hm1); lia).
  destruct (tls_process_spec _ _ _ _ _ E Wf Hw Hn (mw_window _ _ Hm1)) as [Q1 Q0 Q2 Q3 Q4 Q5 Q6].
  change (h_opt h0) with (h_opt (m_shared m1)) in *. change (h_next h0) with (h_next (m_shared m1)) in *.
  set (m2 := put_shared (put_session m1 i b) b0) in *.
  set (m3 := match h_tla b0 with Some a => put_to_link_addr m2 (Some a) | None => m2 end) in *.
  assert (X : m_shared m3 = b0 /\ get_session m3 i = b /\ (i = TM_INITIAL -> m_active m3 = m_active m1)
              /\ (i = TM_ACTIVE -> m_initial m3 = m_initial m1)) by (unfold m3, m2; destruct (h_tla b0), i; done).
  assert (Hf : forall P, P i b -> (forall j s, j <> i -> running s -> P j s) -> multi_inv P m3).
  { intros P Hp Hq. assert (Hx : multi_inv P m2) by (apply (replace_session_inv (fun _ => running) P); try done; lia).
    unfold m3. destruct (h_tla b0); [|done]. destruct Hx. by split. }
  assert (Hs : link_kept (m_shared m1) b0 \/ session_owns b (lb_owner (h_to_link b0)) /\ k_state (s_primary b) <> S_ERROR).
  { destruct Q6 as [Q6|Q6]; [left; by left|by right]. }
  clearbody m3. clear m2. destruct X as (X1 & X2 & X3 & X4).
  destruct (Z.eqb_spec (k_state (s_primary b)) S_ERROR) as [He|He].
  - inv_step H. injection H as <- <- <-. unfold session_failed in E0. inv_step E0. injection E0 as <- <-.
    destruct Hs as [Hs|[_ []]]; [|done].
    assert (Hx : multi_inv (failed i) m3).
    { apply Hf; [unfold failed; by rewrite decide_True|]. intros j s Hj Hr. unfold failed. by rewrite decide_False. }
    eapply restart_spec in E1 as (R1 & R2 & R3 & R4 & R5 & R6); [|done|by destruct Hx; split].
    split_and!; [done|..].
    + intros Hy. rewrite R4 by done. etrans; [apply X3, Hy|by apply Ha1].
    + intros Hy. rewrite R5 by done. etrans; [apply X4, Hy|by apply Ha2].
    + by right.
    + left. destruct R2 as [R2|R2]; [|by right]. unfold link_kept in *. rewrite R2. cbn [m_shared put_n_soft_errors]. rewrite X1. exact Hs.
  - destruct Q2 as [Q2|]; [|done]. injection H as <- <- <-. rewrite X1, X2. split_and!; [apply Hf; [by split|done]|..].
    + intros Hy. rewrite X3 by done. by apply Ha1.
    + intros Hy. rewrite X4 by done. by apply Ha2.
    + by left.
    + destruct Hs as [Hs|[Hs _]]; [by left|by right].
Qed.

(** ** Authentication and keys *)

(** Two states of a session with the same memory. *)
Definition same_memory (s s' : tls_session) : Prop :=
  s_wrap_block s' = s_wrap_block s /\ s_reneg_block s' = s_reneg_block s /\ k_block (s_primary s') = k_block (s_primary s)
  /\ k_block (s_lame_duck s') = k_block (s_lame_duck s).
Lemma same_memory_blocks s s' : same_memory s s' -> session_blocks s' = session_blocks s.
Proof. intros (H1 & H2 & H3 & H4). unfold session_blocks. by rewrite H1, H2, H3, H4. Qed.
Lemma same_memory_owns s s' own : same_memory s s' -> session_owns s' own <-> session_owns s own.
Proof. intros (H1 & H2 & H3 & H4). destruct own; cbn [session_owns key_owns]; by rewrite ?H1, ?H2, ?H3, ?H4. Qed.

Definition same_key (k k' : key_state) : Prop := kept k k' /\ k_state k' = k_state k.
Lemma same_key_refl k : same_key k k.
Proof. split; [apply kept_refl|done]. Qed.
Lemma same_key_wf k k' : same_key k k' -> key_wf k -> key_wf k'.
Proof.
  intros [[K1 K2 K3 K4 K5 K6 [K7 K8]] St] [W1 W2 W3 [W4 W5]]. split; rewrite ?St, ?K1, ?K2, ?K4, ?K7, ?K8; done.
Qed.
Lemma same_key_lame k k' : same_key k k' -> lame_wf k -> lame_wf k'.
Proof.
  intros S [H|[H1 H2]]; [left; by rewrite (proj2 S)|]. right. split; [by eapply same_key_wf|]. by rewrite (kp_must_die _ _ (proj1 S)).
Qed.
(** The keys of a session change in what the invariant does not speak of. *)
Lemma running_same s k l :
  running s -> same_key (s_primary s) k -> same_key (s_lame_duck s) l ->
  running (set_lame_duck (set_primary s k) l) /\ same_memory s (set_lame_duck (set_primary s k) l).
Proof.
  intros [[W1 W2 W3 W4 W5 W6 [M1 M2 M3]] Hw] Sk Sl. pose proof Sk as [[K1 K2 K3 K4 K5 K6 _] St].
  pose proof Sl as [[L1 _ _ L4 _ _ _] Lt]. split; [|by repeat split].
  split; [|cbn; by rewrite St]. split; cbn [s_primary s_lame_duck set_lame_duck set_primary s_session_id s_key_id]; try done.
  - by eapply same_key_wf.
  - by rewrite K1.
  - by eapply same_key_lame.
  - rewrite Lt, K1, L1. done.
  - unfold addr_known. by rewrite K5, K6.
  - split; try done. cbn. by rewrite K4.
Qed.

Definition same_shared (h h' : shared) : Prop :=
  h_opt h' = h_opt h /\ h_next h' = h_next h /\ h_now h' = h_now h /\ h_to_link h' = h_to_link h.
Lemma update_auth_same h cached ks h' ks' :
  update_key_auth_status e h cached ks = (h', ks') -> same_shared h h' /\ same_key ks ks'.
Proof.
  unfold update_key_auth_status. intros H. destruct (k_authenticated ks).
  - injection H as <- <-. split; [done|apply same_key_refl].
  - destruct (key_state_test_auth_control_file _ _ _ _) as [p1 p2], (key_state_test_auth_control_file _ _ _ _) as [q1 q2].
    cbv zeta beta in H. repeat match type of H with (if ?b then _ else _) = _ => destruct b end; injection H as <- <-; done.
  - destruct (key_state_test_auth_control_file _ _ _ _) as [p1 p2], (key_state_test_auth_control_file _ _ _ _) as [q1 q2].
    cbv zeta beta in H. repeat match type of H with (if ?b then _ else _) = _ => destruct b end; injection H as <- <-; done.
Qed.
Lemma scan_auth_same cached h ks h' ks' r : scan_auth e cached h ks = (h', ks', r) -> same_shared h h' /\ same_key ks ks'.
Proof.
  unfold scan_auth. intros H. destruct (TLS_AUTHENTICATED _ _); [|injection H as <- <- <-; split; [done|apply same_key_refl]].
  destruct (update_key_auth_status _ _ _ _) as [h1 k1] eqn:E. injection H as <- <- <-. by eapply update_auth_same.
Qed.

(** The tunnel is as before up to the memory of its sessions. *)
Definition same_multi (m m' : tls_multi) : Prop :=
  same_memory (m_active m) (m_active m') /\ same_memory (m_initial m) (m_initial m') /\ same_memory (m_lame_duck m) (m_lame_duck m')
  /\ m_initial m' = m_initial m
  /\ h_to_link (m_shared m') = h_to_link (m_shared m) /\ o_server (h_opt (m_shared m')) = o_server (h_opt (m_shared m)).

Lemma auth_status_spec m tas m' :
  tls_authentication_status e m = (tas, m') -> multi_wf m -> multi_wf m' /\ same_multi m m'.
Proof.
  unfold tls_authentication_status. intros H [A I [L1 L2] N W B].
  destruct (scan_auth _ _ _ _) as [[h1 k1] [[f1 d1] t1]] eqn:E1.
  destruct (scan_auth _ _ h1 _) as [[h2 k2] [[f2 d2] t2]] eqn:E2. destruct (scan_auth _ _ h2 _) as [[h3 k3] [[f3 d3] t3]] eqn:E3.
  injection H as _ <-.
  destruct (scan_auth_same _ _ _ _ _ _ E1) as [(O1 & X1 & N1 & T1) S1], (scan_auth_same _ _ _ _ _ _ E2) as [(O2 & X2 & N2 & T2) S2],
    (scan_auth_same _ _ _ _ _ _ E3) as [(O3 & X3 & N3 & T3) S3].
  destruct (running_same _ _ _ A S1 S2) as [R Sm].
  assert (Sl : same_memory (m_lame_duck m) (set_lame_duck (m_lame_duck m) k3)) by (destruct S3 as [[] _]; by repeat split).
  assert (Si : same_memory (m_initial m) (m_initial m)) by done.
  split.
  - split; cbn [m_active m_initial m_lame_duck m_shared]; try done.
    + split; [done|]. by eapply same_key_lame.
    + lia.
    + by rewrite O3, O2, O1.
    + unfold all_blocks. cbn [m_active m_initial m_lame_duck]. rewrite X3, X2, X1.
      by rewrite (same_memory_blocks _ _ Sm), (same_memory_blocks _ _ Sl).
  - unfold same_multi. cbn [m_active m_initial m_lame_duck m_shared]. rewrite O3, O2, O1, T3, T2, T1. done.
Qed.

Lemma regenerate_keys n i (co co' : KeyCtx.crypto_options cipher_ctx hmac_ctx) :
  regenerate n i co = Ret co' -> co_keys co' = co_keys co.
Proof.
  revert i co. induction n as [|n IH]; intros i co H; cbn [regenerate] in H; [by inv_steps H|].
  repeat (inv_step H); try (apply IH in H; rewrite H; done).
Qed.

Lemma future_keys_same (co co' : KeyCtx.crypto_options cipher_ctx hmac_ctx) :
  epoch_generate_future_receive_keys co = Ret co' -> co_keys co' = co_keys co /\ bi_initialized (co_keys co) = true.
Proof.
  unfold epoch_generate_future_receive_keys. intros H. repeat (inv_step H).
  apply regenerate_keys in E5. by rewrite E5.
Qed.

Lemma expansion_initialized prf ekm dco flags kt server sid rsid src (co co' : KeyCtx.crypto_options cipher_ctx hmac_ctx) :
  generate_key_expansion prf ekm dco flags kt server sid rsid src co = Ret (true, co') -> bi_initialized (co_keys co') = true.
Proof.
  unfold generate_key_expansion. intros H. destruct (bi_initialized _); [discriminate H|]. inv_step H.
  destruct x as [k2|]; [|discriminate H]. inv_step H. destruct (negb x); [discriminate H|].
  inv_step H. injection H as <-. unfold init_key_contexts in E1. destruct dco as [ret|].
  - inv_steps E1. done.
  - inv_step E1.
    + unfold init_epoch_keys in E1. inv_step E1. inv_step E1. inv_step E1. inv_step E1. inv_step E1.
      unfold epoch_init_key_ctx in E1. inv_step E1. inv_step E1. inv_step E1. inv_step E1.
      apply future_keys_same in E1 as [-> E1]. exact E1.
    + inv_step E1. injection E1 as <-. unfold init_key_ctx_bi in E3. repeat inv_step E3. done.
Qed.

(** The primary key of a session changes in its state and its keys. *)
Lemma running_rekeyed s ks :
  running s -> key_wf ks -> working (k_state ks) -> k_key_id ks = k_key_id (s_primary s) -> k_block ks = k_block (s_primary s) ->
  addr_known ks -> running (set_primary s ks) /\ same_memory s (set_primary s ks).
Proof.
  intros [[W1 W2 W3 W4 W5 W6 [M1 M2 M3]] Hw] Kw Kst Kid Kb Ka. split; [|by repeat split]. split; [|done].
  split; cbn [s_primary s_lame_duck set_primary s_session_id s_key_id]; rewrite ?Kid; try done.
  split; try done. cbn. by rewrite Kb.
Qed.

Lemma send_payload_kept ks data ok ks' : tls_send_payload ks data = Ret (ok, ks') -> same_key ks ks'.
Proof. unfold tls_send_payload. intros H. repeat inv_step H; done. Qed.

Lemma ssl_shutdown_some o o' : key_state_ssl_shutdown o = Ret o' -> is_Some o -> is_Some o'.
Proof. unfold key_state_ssl_shutdown. intros H [x ->]. by inv_steps H. Qed.

(** The key material: the state says whether the keys are there. *)
Lemma generate_keys_spec h s ok h' s' :
  tls_session_generate_data_channel_keys e h s = Ret (ok, h', s') -> running s -> k_state (s_primary s) = S_ACTIVE ->
  running s' /\ same_memory s s' /\ h_next h' = h_next h /\ h_now h' = h_now h /\ h_to_link h' = h_to_link h
  /\ o_server (h_opt h') = o_server (h_opt h) /\ o_transition_window (h_opt h') = o_transition_window (h_opt h)
  /\ (if ok then k_state (s_primary s') = S_GENERATED_KEYS else h' = h).
Proof.
  unfold tls_session_generate_data_channel_keys. intros H R St.
  assert (Hk : forall ks, k_state ks = S_ACTIVE -> k_key_id ks = k_key_id (s_primary s) -> k_block ks = k_block (s_primary s) ->
     k_remote_addr ks = k_remote_addr (s_primary s) -> k_session_id_remote ks = k_session_id_remote (s_primary s) ->
     k_send ks = k_send (s_primary s) -> k_rec ks = k_rec (s_primary s) ->
     running (set_primary s ks) /\ same_memory s (set_primary s ks)).
  { intros ks H1 H2 H3 H4 H5 H6 H7. pose proof R as [[[W1 W2 W3 W4] _ _ _ _ W6 _] Hw]. apply running_rekeyed; try done.
    - split; rewrite ?H2, ?H3, ?H6, ?H7; try done. rewrite H1. intros Hx. by vm_compute in Hx.
    - rewrite H1, <- St. done.
    - unfold addr_known. by rewrite H4, H5. }
  destruct (k_authenticated _); [inv_steps H; destruct (Hk (with_key_src (s_primary s) src2_zero)); by try split_and!|..].
  all: inv_step H; destruct a;
    [|inv_steps H; match goal with |- running (set_primary _ ?k) /\ _ => destruct (Hk k) end; by try split_and!].
  all: inv_steps H; apply expansion_initialized in E.
  all: pose proof R as [[[W1 W2 W3 W4] _ _ _ _ W6 _] Hw].
  all: match goal with |- running (set_primary _ ?k) /\ _ => destruct (running_rekeyed s k R) as [R1 R2] end; [..|by split_and!]; try done.
  all: left; by vm_compute.
Qed.

Lemma same_memory_trans s s1 s2 : same_memory s s1 -> same_memory s1 s2 -> same_memory s s2.
Proof. intros (A1 & A2 & A3 & A4) (B1 & B2 & B3 & B4). repeat split; congruence. Qed.
Lemma same_multi_trans m m1 m2 : same_multi m m1 -> same_multi m1 m2 -> same_multi m m2.
Proof.
  intros (A1 & A2 & A3 & A4 & A5 & A6) (B1 & B2 & B3 & B4 & B5 & B6).
  split_and!; try congruence; by eapply same_memory_trans.
Qed.

(** The active session is replaced by one with the same memory. *)
Lemma replace_active m s h :
  multi_wf m -> running s -> same_memory (m_active m) s -> h_next h = h_next (m_shared m) -> h_now (m_shared m) <= h_now h ->
  o_transition_window (h_opt h) = o_transition_window (h_opt (m_shared m)) -> multi_wf (put_shared (put_session m TM_ACTIVE s) h).
Proof.
  intros [A I L N W B] R Sm Hn Ht Hw. split; cbn [m_active m_initial m_lame_duck m_shared put_shared put_session]; try done; [lia|by rewrite Hw|].
  unfold all_blocks. cbn [m_active m_initial m_lame_duck put_shared put_session]. by rewrite Hn, (same_memory_blocks _ _ Sm).
Qed.

Lemma generate_active_spec m m' : generate_active_keys e m = Ret m' -> multi_wf m -> multi_wf m' /\ same_multi m m'.
Proof.
  unfold generate_active_keys. intros H Hm.
  destruct (_ && bool_decide _) eqn:Hc; [|injection H as <-; done].
  apply andb_true_iff in Hc as [[_ Hc%Z.eqb_eq]%andb_true_iff _]. inv_step H.
  destruct (generate_keys_spec _ _ _ _ _ E (mw_active _ _ Hm) Hc) as (R & Sm & N1 & N2 & N3 & N4 & N5 & N6).
  inv_step H. assert (R' : running x /\ same_memory (m_active m) x).
  { destruct a0; [by injection E0 as <-|]. inv_step E0. injection E0 as <-. pose proof R as [[[W1 W2 W3 W4] _ _ _ _ W6 _] Hw].
    match goal with |- running (set_primary _ ?k) /\ _ => destruct (running_rekeyed b k R) as [R1 R2] end; try done.
    by right. }
  destruct R' as [R1 S1]. inv_step H. assert (K : same_key (s_primary x) x0).
  { destruct (e_auth_token e); [|injection E1 as <-; apply same_key_refl].
    destruct (negb _); [|injection E1 as <-; apply same_key_refl]. inv_step E1. injection E1 as <-. by eapply send_payload_kept. }
  injection H as <-. destruct (running_same x x0 (s_lame_duck x) R1 K (same_key_refl _)) as [R2 S2].
  change (set_lame_duck _ _) with (set_primary x x0) in *. pose proof (same_memory_trans _ _ _ S1 S2) as S3.
  split; [apply replace_active; try done; lia|]. by split_and!.
Qed.

(** ** Processing of a tunnel *)

(** A session that waits for its retiring key is left alone. *)
Lemma process_lame m a er m' : process_session e m TM_LAME_DUCK = Ret (a, er, m') -> multi_wf m -> m' = m.
Proof.
  intros H Hm. unfold process_session in H.
  assert (Hp : put_session m TM_LAME_DUCK (aim_session m TM_LAME_DUCK) = m) by by destruct m. rewrite Hp in H. clear Hp.
  destruct (mw_lame _ _ Hm) as [[Hs|Hs] _]; cbn [get_session] in H; rewrite Hs in H; by injection H as <- <- <-.
Qed.

(** Whose memory the packet for the link is in, if there is one. *)
Definition owned_by (m : tls_multi) (i : session_index) : Prop :=
  session_owns (get_session m i) (lb_owner (h_to_link (m_shared m))).
Definition link_empty (m : tls_multi) : Prop := b_len (lb_buf (h_to_link (m_shared m))) = 0.
Definition link_live (m : tls_multi) : Prop := link_empty m \/ owned_by m TM_ACTIVE \/ owned_by m TM_INITIAL.

Lemma same_multi_live m m' : same_multi m m' -> link_live m -> link_live m'.
Proof.
  intros (A1 & A2 & _ & _ & A5 & _) [H|[H|H]]; unfold link_live, link_empty, owned_by in *; rewrite A5; [by left|right; left|right; right];
    by eapply same_memory_owns.
Qed.

Lemma sessions_processed m a0 e0 m1 a1 e1 m2 a2 e2 m3 :
  process_session e m TM_ACTIVE = Ret (a0, e0, m1) -> process_session e m1 TM_INITIAL = Ret (a1, e1, m2) ->
  process_session e m2 TM_LAME_DUCK = Ret (a2, e2, m3) -> multi_wf m ->
  multi_wf m3 /\ (link_empty m -> link_live m3)
  /\ (s_session_id (m_initial m3) = s_session_id (m_initial m) \/ k_state (s_primary (m_initial m3)) = S_INITIAL).
Proof.
  intros H0 H1 H2 Hm.
  destruct (process_session_spec _ _ _ _ _ H0 ltac:(done) Hm) as (W1 & _ & I1 & _ & L1).
  destruct (process_session_spec _ _ _ _ _ H1 ltac:(done) W1) as (W2 & A2 & _ & I2 & L2).
  apply process_lame in H2 as ->; [|done]. specialize (A2 eq_refl). specialize (I1 eq_refl). cbn [get_session] in I2.
  rewrite I1 in I2. split; [done|]. split; [|done]. intros He.
  destruct L2 as [[L2|L2]|L2]; [|by left|by right; right].
  unfold link_live, link_empty, owned_by in *. rewrite L2. cbn [get_session] in *. rewrite A2.
  destruct L1 as [[L1|L1]|L1]; [left; by rewrite L1|by left|by right; left].
Qed.

Lemma update_clock_wf m : multi_wf m -> multi_wf (put_shared m (update_clock e (m_shared m))).
Proof. intros [A I L N W B]. split; try done. cbn [m_shared put_shared]. pose proof (clock_moves (m_shared m)). lia. Qed.

Lemma lame_session_freed m : multi_wf m -> multi_wf (put_session m TM_LAME_DUCK (tls_session_free (m_lame_duck m) true)).
Proof.
  intros [A I L N W B]. split; try done; [split; by left|]. eapply blocks_wf_from; [|exact B]. split; [done|].
  cbn [m_shared put_session]. rewrite Z.sub_diag. change (seqZ _ 0) with (@nil Z). unfold all_blocks. cbn.
  apply submseteq_skips_l, submseteq_skips_l, submseteq_nil_l.
Qed.

(** The initial session takes the place of the active one. *)
Lemma promote_spec m m' :
  move_session e m TM_ACTIVE TM_INITIAL true = Ret m' -> multi_wf m ->
  multi_wf m' /\ m_active m' = m_initial m /\ m_lame_duck m' = m_lame_duck m /\ h_to_link (m_shared m') = h_to_link (m_shared m)
  /\ h_opt (m_shared m') = h_opt (m_shared m)
  /\ blocks_from (h_next (m_shared m)) (h_next (m_shared m')) (session_blocks (m_initial m) ++ session_blocks (m_lame_duck m)) (all_blocks m').
Proof.
  unfold move_session. intros H [A I L N W B]. rewrite decide_False in H by done. cbv zeta in H. inv_step H. injection H as <-.
  pose proof (session_init_spec _ _ _ E) as Hn. pose proof (new_running _ _ _ Hn) as Hr.
  destruct Hn as (N1 & N2 & (N3 & N4 & N5) & N6). change (m_shared (put_session _ _ _)) with (m_shared m) in *.
  assert (Hb : blocks_from (h_next (m_shared m)) (h_next b) (session_blocks (m_initial m) ++ session_blocks (m_lame_duck m))
     (all_blocks (put_shared (put_session (put_session m TM_ACTIVE (get_session m TM_INITIAL)) TM_INITIAL a) b))).
  { eapply (blocks_perm _ _ ([] ++ (session_blocks (m_initial m) ++ session_blocks (m_lame_duck m)))
      (session_blocks a ++ (session_blocks (m_initial m) ++ session_blocks (m_lame_duck m)))); [by apply blocks_app|done|].
    unfold all_blocks. cbn [m_active m_initial m_lame_duck put_shared put_session get_session]. solve_Permutation. }
  split_and!; try done. split; try done.
  - cbn [m_shared put_shared]. lia.
  - cbn [m_shared put_shared]. by rewrite N3.
  - eapply blocks_wf_from; [|exact B]. eapply blocks_trans; [|exact Hb]. split; [done|]. rewrite Z.sub_diag.
    change (seqZ _ 0) with (@nil Z). unfold all_blocks. cbn [app]. by apply submseteq_inserts_l.
Qed.

(** The block of memory a packet is in. *)
Definition owner_block (own : owner) : option Z :=
  match own with Foreign => None | WorkBuf b | RenegBuf b | AckBuf b => Some b | SendBuf b _ => Some b end.
Lemma owns_block (s : tls_session) own : session_owns s own -> exists b, owner_block own = Some b /\ b ∈ session_blocks s.
Proof.
  unfold session_blocks. intros H. assert (Ho : forall (x : option Z) b, x = Some b -> b ∈ option_list x)
    by (intros x b ->; cbn; by apply list_elem_of_singleton).
  destruct own; cbn [session_owns key_owns owner_block] in *; [done|..]; eexists; (split; [done|]); rewrite !elem_of_app;
    naive_solver.
Qed.

(** Nobody owns the memory of the packet for the link any more. *)
Definition link_dangles (m : tls_multi) : Prop :=
  exists b, owner_block (lb_owner (h_to_link (m_shared m))) = Some b /\ b ∉ all_blocks m.

Lemma promoted_link m m' :
  move_session e m TM_ACTIVE TM_INITIAL true = Ret m' -> multi_wf m -> link_live m ->
  link_live m' \/ link_dangles m'.
Proof.
  intros H Hm Hl. destruct (promote_spec _ _ H Hm) as (Hm' & P1 & P2 & P3 & P4 & P5).
  destruct Hl as [Hl|[Hl|Hl]].
  - left. left. unfold link_empty. by rewrite P3.
  - right. destruct (owns_block _ _ Hl) as (b & Hb & Hin). exists b. rewrite P3. split; [done|]. cbn [get_session] in Hin.
    intros Hx. destruct (mw_blocks _ _ Hm) as [B1 B2]. destruct P5 as [_ P5].
    assert (Hy : b ∈ seqZ (h_next (m_shared m)) (h_next (m_shared m') - h_next (m_shared m))
                      ++ (session_blocks (m_initial m) ++ session_blocks (m_lame_duck m))) by (by apply (elem_of_submseteq _ _ _ Hx P5)).
    unfold all_blocks in B1, B2. apply NoDup_app in B1 as (_ & B1 & _).
    apply elem_of_app in Hy as [Hy%elem_of_seqZ|Hy]; [|by apply (B1 b)].
    rewrite Forall_forall in B2. specialize (B2 b). rewrite elem_of_app in B2. specialize (B2 (or_introl Hin)). lia.
  - left. right. left. unfold owned_by in *. cbn [get_session] in *. by rewrite P1, P3.
Qed.

(** What happens after the sessions were processed and before one is promoted. *)
Definition follows (m m' : tls_multi) : Prop :=
  multi_wf m' /\ m_initial m' = m_initial m /\ (link_live m -> link_live m').
Lemma follows_trans m m1 m2 : follows m m1 -> follows m1 m2 -> follows m m2.
Proof. intros (_ & I1 & L1) (W2 & I2 & L2). split; [done|]. split; [congruence|]. tauto. Qed.
Lemma follows_same m m' : multi_wf m' /\ same_multi m m' -> follows m m'.
Proof. intros [W S]. split; [done|]. split; [apply S|by apply same_multi_live]. Qed.
Lemma follows_shared m h : multi_wf m -> same_shared (m_shared m) h -> follows m (put_shared m h).
Proof.
  intros [A I L N W B] (S1 & S2 & S3 & S4). split; [|split; [done|]].
  - split; cbn [m_shared put_shared]; rewrite ?S1, ?S2, ?S3; done.
  - unfold link_live, link_empty, owned_by. cbn [m_shared put_shared get_session]. by rewrite S4.
Qed.

(** The rest of [tls_multi_process] after the sessions were processed. *)
Definition finish (m : tls_multi) (active : tlsmp) (error : bool) : res (tlsmp * tls_multi) :=
  let m := put_shared m (update_clock e (m_shared m)) in
  let '(tas, m) := tls_authentication_status e m in
  let! m := generate_active_keys e m in
  let m := if (h_cas (m_shared m) =? CAS_WAITING_AUTH) && bool_decide (tas = TLS_AUTHENTICATION_SUCCEEDED)
           then put_shared m (put_cas (m_shared m) CAS_PENDING) else m in
  let! (die, h) := lame_duck_must_die (m_shared m) (m_lame_duck m) in
  let m := put_shared m h in
  let m := if die then put_session m TM_LAME_DUCK (tls_session_free (m_lame_duck m) true) else m in
  let! (tas, active, m) :=
    (if TLS_AUTHENTICATED (h_opt (m_shared m)) (s_primary (m_initial m)) then
       let! m := move_session e m TM_ACTIVE TM_INITIAL true in
       let '(tas, m) := tls_authentication_status e m in
       if h_cas (m_shared m) =? CAS_CONNECT_DONE
       then Ret (tas, TLSMP_RECONNECT, put_shared m (put_cas (m_shared m) CAS_RECONNECT_PENDING))
       else Ret (tas, active, m)
     else Ret (tas, active, m)) in
  let m := hard_error m error in
  Ret (if decide (tas = TLS_AUTHENTICATION_FAILED) then TLSMP_KILL else active, m).

Lemma hard_error_spec (m : tls_multi) b : hard_error m b = put_n_hard_errors m (m_n_hard_errors (hard_error m b)).
Proof. unfold hard_error. destruct (_ && _); by destruct m. Qed.

Lemma promote_follows m tas m1 m' :
  move_session e m TM_ACTIVE TM_INITIAL true = Ret m1 -> tls_authentication_status e m1 = (tas, m') -> multi_wf m ->
  multi_wf m' /\ s_session_id (m_active m') = s_session_id (m_initial m) /\ (link_live m -> link_live m' \/ link_dangles m').
Proof.
  intros H1 H2 Hm. destruct (promote_spec _ _ H1 Hm) as (Hm1 & P1 & _ & _ & _ & _).
  destruct (auth_status_spec _ _ _ H2 Hm1) as [Hm' S]. split; [done|]. split.
  - unfold tls_authentication_status in H2.
    destruct (scan_auth _ _ _ _) as [[h1 k1] [[f1 d1] t1]] eqn:E1.
    destruct (scan_auth _ _ h1 _) as [[h2 k2] [[f2 d2] t2]] eqn:E2. destruct (scan_auth _ _ h2 _) as [[h3 k3] [[f3 d3] t3]] eqn:E3.
    injection H2 as _ <-. cbn. by rewrite P1.
  - intros Hl. destruct (promoted_link _ _ H1 Hm Hl) as [Hx|(b & Hb & Hn)]; [left; by eapply same_multi_live|right].
    destruct S as (A1 & A2 & A3 & _ & A5 & _). exists b. rewrite A5. split; [done|].
    unfold all_blocks in *. by rewrite (same_memory_blocks _ _ A1), (same_memory_blocks _ _ A2), (same_memory_blocks _ _ A3).
Qed.

Lemma finish_spec m active error r m' :
  finish m active error = Ret (r, m') -> multi_wf m ->
  multi_wf m'
  /\ (link_live m -> link_live m'
      \/ (k_state (s_primary (m_initial m)) <> S_INITIAL
          /\ s_session_id (m_active m') = s_session_id (m_initial m) /\ link_dangles m')).
Proof.
  unfold finish. intros H Hm.
  assert (F : follows m (put_shared m (update_clock e (m_shared m)))) by (split; [by apply update_clock_wf|done]).
  cbv zeta in H. revert H F. generalize (put_shared m (update_clock e (m_shared m))). intros n0 H F.
  destruct (tls_authentication_status e n0) as [tas n1] eqn:E1.
  pose proof (follows_trans _ _ _ F (follows_same _ _ (auth_status_spec _ _ _ E1 (proj1 F)))) as F1. clear E1 F n0.
  inv_step H. pose proof (follows_trans _ _ _ F1 (follows_same _ _ (generate_active_spec _ _ E (proj1 F1)))) as F2. clear E F1 n1.
  match type of H with context [lame_duck_must_die (m_shared ?x)] => set (n3 := x) in * end.
  assert (F3 : follows m n3).
  { unfold n3. destruct (_ && bool_decide _); [|done]. eapply follows_trans; [exact F2|]. by apply follows_shared; [apply F2|]. }
  clearbody n3. clear F2 x. inv_step H. destruct (lame_duck_spec _ _ _ _ E) as (D1 & D2 & D3 & D4).
  assert (F4 : follows m (put_shared n3 b)).
  { eapply follows_trans; [exact F3|]. by apply follows_shared; [apply F3|]. }
  clear E D1 D2 D3 D4 F3. match type of H with context [TLS_AUTHENTICATED (h_opt (m_shared ?x))] => set (n5 := x) in * end.
  assert (F5 : follows m n5).
  { unfold n5. destruct a; [|done]. eapply follows_trans; [exact F4|]. split; [apply lame_session_freed, F4|done]. }
  clearbody n5. clear F4 n3. destruct F5 as (W5 & I5 & L5). inv_step H. injection H as <- <-. rewrite hard_error_spec.
  assert (Hh : forall P x n, multi_inv P x -> multi_inv P (put_n_hard_errors x n)) by (intros P x n []; by split).
  unfold TLS_AUTHENTICATED in E. rewrite I5 in E.
  destruct (Z.leb_spec (S_GOT_KEY - (if o_server (h_opt (m_shared n5)) then 1 else 0)) (k_state (s_primary (m_initial m)))) as [Ha|_].
  2: { injection E as <- <- <-. split; [by apply Hh|]. intros Hl. left. by apply L5. }
  assert (Hn : k_state (s_primary (m_initial m)) <> S_INITIAL).
  { intros Hx. rewrite Hx in Ha. destruct (o_server _); by vm_compute in Ha. }
  inv_step E. destruct (tls_authentication_status e x) as [tas1 n6] eqn:E2.
  destruct (promote_follows _ _ _ _ E0 E2 W5) as (W6 & I6 & L6).
  assert (Hx : exists h, b0 = put_shared n6 h /\ same_shared (m_shared n6) h).
  { destruct (_ =? _) in E; injection E as <- <- <-; [by eexists|]. exists (m_shared n6). by destruct n6. }
  destruct Hx as (h & -> & Sh). destruct (follows_shared _ _ W6 Sh) as (W7 & _ & L7). split; [by apply Hh|].
  intros Hl. destruct (L6 (L5 Hl)) as [L|(b' & Hb & Hn')]; [left; by apply L7|right]. split; [done|]. split; [by rewrite <- I5|].
  exists b'. destruct Sh as (_ & _ & _ & Sh). cbn [m_shared put_n_hard_errors put_shared]. by rewrite Sh.
Qed.

(** One call of [tls_multi_process]: the invariant, and where the packet for the link is. *)
Lemma multi_process_spec m r m' :
  tls_multi_process e m = Ret (r, m') -> multi_wf m ->
  multi_wf m' /\ (link_empty m -> link_live m' \/ (s_session_id (m_active m') = s_session_id (m_initial m) /\ link_dangles m')).
Proof.
  unfold tls_multi_process. intros H Hm. inv_step H. inv_step H. inv_step H.
  destruct (sessions_processed _ _ _ _ _ _ _ _ _ _ E E0 E1 Hm) as (W & L & Id). clear E E0 E1 Hm.
  apply finish_spec in H as [Hm' Hl]; [|done]. split; [done|]. intros He. destruct (Hl (L He)) as [?|(H1 & H2 & H3)]; [by left|right].
  split; [|done]. destruct Id as [Id|]; [by rewrite H2|done].
Qed.
End Passes.

(** ** A session that was just set up *)
Definition returns {A} (r : res A) : bool := match r with Ret _ => true | _ => false end.
Lemma sample_session_starts : returns (tls_session_init (ssl := pipe) (sample_env 10 false) (sample_shared false addr_server)) = true.
Proof. vm_compute. reflexivity. Qed.
Lemma tls_process_loop_ends_witness :
  exists s h, tls_session_init (ssl := pipe) (sample_env 10 false) (sample_shared false addr_server) = Ret (s, h)
    /\ forall n p, nsteps (continues (sample_env 10 false)) n (h, s) p -> (n < process_fuel)%nat.
Proof.
  pose proof sample_session_starts as H. destruct (tls_session_init _ _) as [[s h]| |] eqn:E; try discriminate H. exists s, h.
  split; [reflexivity|]. destruct (session_init_spec _ _ _ _ E) as ([K _ _ _ _ _ _] & S & _).
  apply (tls_process_loop_ends (sample_env 10 false) h s).
  - rewrite S. left. split; discriminate.
  - exact (proj1 (kw_sizes _ K)).
  - exact (proj2 (kw_sizes _ K)).
Defined.
