(* ===== verification/KeyRun.v ===== *)
(** * Runs of the control channel of a tunnel

    The events other components cause (a packet that arrives, the event loop's call, a reset, a
    new address, payload) as steps on [struct tls_multi], and what holds in every state they
    lead to from [tls_multi_init_finalize]. *)

From Stdlib Require Import String.
From stdpp Require Import relations.
From S2P Require Import Prelude CircList Buffer PacketId Reliable TlsSend OTime Mtu KeyCtx SampleLib Epoch Crypto Aead.
From S2P Require Import Channel DataPath CtrlWrap Handshake Text Ncp KeyMethod KeyState TlsSample KeyMachine.
#[local] Open Scope Z_scope.

Section Runs.
Context {cipher_ctx hmac_ctx ssl : Type} `{CL : CryptoLib cipher_ctx hmac_ctx} `{TL : TlsLib ssl}.
#[local] Abbreviation key_state := (KeyState.key_state (cipher_ctx := cipher_ctx) (hmac_ctx := hmac_ctx) (ssl := ssl)).
#[local] Abbreviation tls_session := (KeyState.tls_session (cipher_ctx := cipher_ctx) (hmac_ctx := hmac_ctx) (ssl := ssl)).
#[local] Abbreviation tls_multi := (KeyState.tls_multi (cipher_ctx := cipher_ctx) (hmac_ctx := hmac_ctx) (ssl := ssl)).
#[local] Abbreviation shared := (KeyState.shared (cipher_ctx := cipher_ctx) (hmac_ctx := hmac_ctx)).
Context (e : env (cipher_ctx := cipher_ctx) (hmac_ctx := hmac_ctx)).

(** ** Packets *)
Lemma put_running (m : tls_multi) i s :
  multi_wf m -> i <> TM_LAME_DUCK -> running s -> same_memory (get_session m i) s -> multi_wf (put_session m i s).
Proof.
  intros Hm Hi Hr Hs. apply (replace_session_inv (fun _ => running) (fun _ => running) m i s (m_shared m)); try done.
  rewrite (same_memory_blocks _ _ Hs). apply blocks_refl.
Qed.
Lemma get_running (m : tls_multi) i : multi_wf m -> i <> TM_LAME_DUCK -> running (get_session m i).
Proof. intros [] Hi. by destruct i. Qed.
Lemma multi_counters (m m' : tls_multi) :
  m_shared m' = m_shared m -> m_active m' = m_active m -> m_initial m' = m_initial m -> m_lame_duck m' = m_lame_duck m ->
  multi_wf m -> multi_wf m'.
Proof. intros H1 H2 H3 H4 [A I L N W B]. split; unfold all_blocks; rewrite ?H1, ?H2, ?H3, ?H4; done. Qed.
Lemma packet_error_wf ret (m : tls_multi) r m' : packet_error ret m = Ret (r, m') -> multi_wf m -> multi_wf m'.
Proof. intros [= <- <-]. by apply multi_counters. Qed.

Lemma wrap_running (s : tls_session) id c : running s -> running (put_tls_wrap s id c) /\ same_memory s (put_tls_wrap s id c).
Proof.
  intros [[W1 W2 W3 W4 W5 W6 M] Hw]. pose proof (put_wrap_memory s id c M) as M'.
  assert (X : s_primary (put_tls_wrap s id c) = s_primary s /\ s_lame_duck (put_tls_wrap s id c) = s_lame_duck s
     /\ s_session_id (put_tls_wrap s id c) = s_session_id s /\ s_key_id (put_tls_wrap s id c) = s_key_id s
     /\ s_wrap_block (put_tls_wrap s id c) = s_wrap_block s /\ s_reneg_block (put_tls_wrap s id c) = s_reneg_block s)
    by (unfold put_tls_wrap; by destruct (uses_reneg s id)).
  destruct X as (X1 & X2 & X3 & X4 & X5 & X6). split.
  - split; [|by rewrite X1]. split; rewrite ?X1, ?X2, ?X3, ?X4; done.
  - repeat split; congruence.
Qed.

Lemma open_packet_wf (m : tls_multi) i buf id ini ok buf' m' :
  open_packet e m i buf id ini = Ret (ok, buf', m') -> i <> TM_LAME_DUCK -> multi_wf m -> multi_wf m'.
Proof.
  unfold open_packet. intros H Hi Hm. inv_step H. injection H as <- <- <-.
  destruct (wrap_running (get_session m i) id b (get_running _ _ Hm Hi)). by apply put_running.
Qed.

Lemma purge_size r a : rel_size (reliable_send_purge r a) = rel_size r.
Proof. unfold reliable_send_purge. revert r. induction (ack_ids a) as [|x l IH]; intros r; [done|]. cbn [fold_left]. by rewrite IH. Qed.
Lemma recv_control_size r a op buf o r' a' : recv_control r a op buf = Ret (o, r', a') -> rel_size r' = rel_size r.
Proof.
  unfold recv_control, recv_store, reliable_get_buf, reliable_mark_active_incoming. intros H.
  repeat (inv_step H || match goal with Hx : _ = Ret _ |- _ => inv_step Hx end || (progress simplify_eq)); try done.
Qed.

(** A change of the primary key that keeps what the invariant speaks of. *)
Lemma put_kept (m : tls_multi) i s ks :
  multi_wf m -> i <> TM_LAME_DUCK -> running s -> same_memory (get_session m i) s -> same_key (s_primary s) ks ->
  running (set_primary s ks) /\ same_memory (get_session m i) (set_primary s ks) /\ multi_wf (put_session m i (set_primary s ks)).
Proof.
  intros Hm Hi Hr Hs Hk. destruct (running_same s ks (s_lame_duck s) Hr Hk (same_key_refl _)) as [R S].
  change (set_lame_duck _ _) with (set_primary s ks) in *. pose proof (same_memory_trans _ _ _ Hs S).
  split; [done|]. split; [done|]. by apply put_running.
Qed.
Lemma put_put (m : tls_multi) i s s' : put_session (put_session m i s) i s' = put_session m i s'.
Proof. by destruct m, i. Qed.
Lemma kept_rec (k : key_state) r : rel_size r = rel_size (k_rec k) -> kept k (with_rec k r).
Proof. intros H. by split. Qed.

(** The remote end of a new session. *)
Lemma linked_running (s : tls_session) from sid :
  running s -> sin_family from <> AF_UNSPEC ->
  let ks := with_remote_addr (with_session_id_remote (s_primary s) sid) from in
  running (set_primary s ks) /\ same_memory s (set_primary s ks).
Proof.
  intros R Hf ks. pose proof R as [[[W1 W2 W3 W4] _ _ _ _ W6 _] Hw]. apply running_rekeyed; try done. by intros _.
Qed.

(** The session [s] with the primary key [k] can take the place of the one at [i]. *)
Definition fits (m : tls_multi) (i : session_index) (s : tls_session) (k : key_state) : Prop :=
  running (set_primary s k) /\ same_memory (get_session m i) (set_primary s k).
Lemma fits_kept (m : tls_multi) i s k k' : fits m i s k -> same_key k k' -> fits m i s k'.
Proof.
  intros [R M] K. destruct (running_same (set_primary s k) k' (s_lame_duck s) R K (same_key_refl _)) as [R' M'].
  split; [exact R'|]. eapply same_memory_trans; [exact M|exact M'].
Qed.
Lemma fits_burst (m : tls_multi) i s k b : fits m i s k -> fits m i (set_burst s b) k.
Proof. intros [[[W1 W2 W3 W4 W5 W6 [M1 M2 M3]] Hw] M]. split; [|exact M]. split; [|exact Hw]. by split. Qed.
Lemma fits_put (m : tls_multi) i s k : fits m i s k -> i <> TM_LAME_DUCK -> multi_wf m -> multi_wf (put_session m i (set_primary s k)).
Proof. intros [R M] Hi Hm. by apply put_running. Qed.

Lemma set_primary_id (s : tls_session) : set_primary s (s_primary s) = s.
Proof. by destruct s. Qed.

Lemma take_control_packet_wf (m : tls_multi) i from buf op id sid new_link do_burst r m' :
  take_control_packet m i from buf op id sid new_link do_burst = Ret (r, m') -> i <> TM_LAME_DUCK ->
  sin_family from <> AF_UNSPEC -> multi_wf m -> multi_wf m'.
Proof.
  unfold take_control_packet. intros H Hi Hf Hm. inv_step H. inv_step H. inv_step H. inv_step H.
  pose proof (get_running m i Hm Hi) as Hr. set (s := get_session m i) in *.
  set (ks0 := if new_link then with_remote_addr (with_session_id_remote (s_primary s) sid) from else s_primary s) in *.
  set (m0 := if new_link then put_n_sessions m (m_n_sessions m + 1) else m) in *.
  assert (Hm0 : multi_wf m0 /\ fits m0 i s ks0).
  { unfold m0, ks0. destruct new_link.
    - split; [by apply (multi_counters m)|]. unfold fits. destruct i; try done; by apply linked_running.
    - split; [done|]. unfold fits. by rewrite set_primary_id. }
  clearbody m0 ks0. destruct Hm0 as [Hm0 F0].
  inv_step H; [by eapply packet_error_wf; [exact H|apply fits_put]|].
  match type of H with (let '(_, _) := ?p in _) = _ => destruct p as [s1 ks1] eqn:Ep end. rewrite !put_put in H.
  assert (F1 : fits m0 i s1 ks1).
  { destruct (_ && _) in Ep; injection Ep as <- <-; [|done]. apply fits_burst. eapply fits_kept; [exact F0|]. by split; [apply kept_send|]. }
  clear Ep F0. inv_step H; [by eapply packet_error_wf; [exact H|apply fits_put]|]. inv_step H.
  inv_step H; [by eapply packet_error_wf; [exact H|apply fits_put]|]. inv_step H.
  match goal with Hx : recv_control _ _ _ _ = Ret (_, ?r, ?a) |- _ =>
    apply recv_control_size in Hx;
    assert (F2 : fits m0 i s1 (with_rec_ack (with_rec (with_send ks1 (reliable_send_purge (k_send ks1) b0)) r) a)) end.
  { eapply fits_kept; [exact F1|]. split; [|done]. split; try done. split; [apply purge_size|done]. }
  inv_step H; [injection H as <- <-; rewrite put_put..|eapply packet_error_wf; [exact H|]; rewrite put_put]; apply fits_put; try done; (eapply fits_kept; [exact F2|done]).
Qed.

Lemma reset_packet_wf (m : tls_multi) i s h :
  key_state_soft_reset e (m_shared m) (get_session m i) = Ret (s, h) -> i <> TM_LAME_DUCK -> multi_wf m ->
  multi_wf (put_shared (put_session m i s) h).
Proof.
  intros H Hi Hm. destruct (get_running m i Hm Hi) as [Wf _].
  destruct (soft_reset_spec _ _ _ _ _ H Wf) as (W & St & (R1 & R2 & R3) & B & _).
  { pose proof (mw_now _ _ Hm). pose proof (mw_window _ _ Hm). lia. }
  apply (replace_session_inv (fun _ => running) (fun _ => running)); try done. split; [done|]. rewrite St. left. by vm_compute.
Qed.

Lemma new_session_packet_wf (m : tls_multi) from buf op id sid r m' :
  new_session_packet e m from buf op id sid = Ret (r, m') -> sin_family from <> AF_UNSPEC -> multi_wf m -> multi_wf m'.
Proof.
  unfold new_session_packet. intros H Hf Hm. inv_step H; [by eapply packet_error_wf|]. inv_step H.
  apply open_packet_wf in E0; [|done..]. inv_step H; [by eapply packet_error_wf|].
  eapply take_control_packet_wf; [exact H|done|done|]. apply put_running; try done.
  pose proof (mw_initial _ _ E0) as [[W1 W2 W3 W4 W5 W6 [M1 M2 M3]] Hw]. split; [|exact Hw]. by split.
Qed.

Lemma session_packet_wf (m : tls_multi) i from buf op id sid r m' :
  session_packet e m i from buf op id sid = Ret (r, m') -> i <> TM_LAME_DUCK -> sin_family from <> AF_UNSPEC ->
  multi_wf m -> multi_wf m'.
Proof.
  unfold session_packet. intros H Hi Hf Hm. inv_step H. inv_step H; [by eapply packet_error_wf|]. inv_step H.
  - inv_step H. apply open_packet_wf in E2; [|done..]. inv_step H; [by eapply packet_error_wf|]. inv_step H.
    eapply take_control_packet_wf; [exact H|done..|]. by apply reset_packet_wf.
  - match type of H with context [open_packet e ?n] => set (n0 := n) in * end.
    assert (W0 : multi_wf n0).
    { unfold n0. destruct (Z.eqb_spec (k_state (s_primary (get_session m i))) S_PRE_START_SKIP) as [Hs|_]; [|done].
      apply fits_put; try done. pose proof (get_running m i Hm Hi) as R. pose proof R as [[[W1 W2 W3 W4] _ _ _ _ W6 _] _].
      apply running_rekeyed; try done. left. by vm_compute. }
    clearbody n0. inv_step H. apply open_packet_wf in E2; [|done..]. inv_step H; [|by eapply take_control_packet_wf].
    eapply packet_error_wf; [exact H|]. destruct (k_state _ =? S_PRE_START_SKIP); [by apply (multi_counters b)|done].
Qed.

Lemma control_packet_wf (m : tls_multi) from buf first r m' :
  control_packet e m from buf first = Ret (r, m') -> sin_family from <> AF_UNSPEC -> multi_wf m -> multi_wf m'.
Proof.
  unfold control_packet. intros H Hf Hm. inv_step H; [by eapply packet_error_wf|]. inv_step H; [by eapply packet_error_wf|].
  destruct (buf_advance buf 1) as [ok tmp]. inv_step H. destruct a as [sid|]; [|by eapply packet_error_wf].
  inv_step H; [by eapply packet_error_wf|]. destruct (match_session m sid) as [[]|].
  1,2: by eapply session_packet_wf. 1: by eapply packet_error_wf.
  inv_step H; [by eapply new_session_packet_wf|by eapply packet_error_wf].
Qed.

(** ** What the data channel does to its keys *)

(** The keys stay installed. *)
#[local] Abbreviation crypto_options := (KeyCtx.crypto_options cipher_ctx hmac_ctx).
Definition installed (co : crypto_options) : bool := bi_initialized (co_keys co).

Lemma init_send_installed (co co' : crypto_options) : epoch_init_send_key_ctx co = Ret co' -> installed co' = installed co.
Proof. unfold epoch_init_send_key_ctx. intros H. repeat inv_step H. done. Qed.
Lemma iterate_send_installed (co co' : crypto_options) : epoch_iterate_send_key co = Ret co' -> installed co' = installed co.
Proof. unfold epoch_iterate_send_key. intros H. inv_step H. inv_step H. by apply init_send_installed in H. Qed.
Lemma send_iterate_installed (co co' : crypto_options) : epoch_check_send_iterate co = Ret co' -> installed co' = installed co.
Proof.
  unfold epoch_check_send_iterate. intros H. inv_step H; [by inv_steps H|]. inv_step H.
  assert (Hx : installed x = installed co).
  { repeat inv_step E0; try done; by apply iterate_send_installed in E0. }
  rewrite <- Hx. inv_step H; [by apply iterate_send_installed in H|by inv_steps H].
Qed.
Lemma future_installed (co co' : crypto_options) : epoch_generate_future_receive_keys co = Ret co' -> installed co' = installed co.
Proof. intros [H _]%future_keys_same. unfold installed. by rewrite H. Qed.
Lemma replace_recv_installed (co co' : crypto_options) ep : epoch_replace_update_recv_key co ep = Ret co' -> installed co' = installed co.
Proof.
  unfold epoch_replace_update_recv_key. intros H. inv_step H. destruct p as [fki c]. inv_step H.
  assert (Hx : installed x = installed co) by (repeat inv_step E0; [by apply init_send_installed in E0|done]).
  inv_step H. inv_step H. apply future_installed in H. rewrite H, <- Hx. done.
Qed.
Lemma check_replay_installed now (co : crypto_options) pin ep ok co' :
  crypto_check_replay now co pin ep = Ret (ok, co') -> installed co' = installed co.
Proof.
  unfold crypto_check_replay. intros H. inv_step H. assert (Hx : installed b = installed co).
  { repeat inv_step E; try done. match goal with Hx : epoch_replace_update_recv_key _ _ = Ret _ |- _ => by apply replace_recv_installed in Hx end. }
  rewrite <- Hx. inv_step H. destruct a; repeat inv_step H; done.
Qed.
Lemma encrypt_installed now prng buf work (co : crypto_options) buf' co' :
  openvpn_encrypt now prng buf work co = Ret (buf', co') -> installed co' = installed co.
Proof.
  unfold openvpn_encrypt, openvpn_encrypt_aead, aead_seal. intros H. inv_step H; [|by inv_steps H]. inv_step H.
  - inv_step H. assert (Hx : installed x = installed co) by (inv_step E1; [by apply send_iterate_installed in E1|by inv_steps E1]).
    rewrite <- Hx. repeat inv_step H; done.
  - unfold openvpn_encrypt_v1, encrypt_v1_iv in H. inv_step H; [|by inv_steps H]. inv_step H.
    assert (Hx : installed b = installed co).
    { clear H. repeat inv_step E2; repeat (match goal with Hi : _ = Ret (_, _, _, ?c) |- context [?c] => inv_step Hi end); done. }
    rewrite <- Hx. repeat inv_step H; done.
Qed.

Lemma slot_set_installed (co : crypto_options) slot c co' : slot_set co slot c = Ret co' -> installed co' = installed co.
Proof. unfold slot_set. intros H. destruct slot; repeat inv_step H; done. Qed.
Lemma aead_open_installed now buf work (co : crypto_options) ad slot c cipher n iv pin ep ok buf' co' :
  aead_open now buf work co ad slot c cipher n iv pin ep = Ret (ok, buf', co') -> installed co' = installed co.
Proof.
  unfold aead_open, error_exit. intros H.
  repeat (inv_step H; try match goal with
    | Hx : slot_set _ _ _ = Ret ?y |- _ => apply slot_set_installed in Hx
    | Hx : crypto_check_replay _ _ _ _ = Ret _ |- _ => apply check_replay_installed in Hx end); done.
Qed.
Lemma decrypt_installed now buf work (co : crypto_options) f ad ok buf' co' :
  openvpn_decrypt now buf work co f ad = Ret (ok, buf', co') -> installed co' = installed co.
Proof.
  unfold openvpn_decrypt. intros H. inv_step H; [|by inv_steps H]. inv_step H.
  - unfold openvpn_decrypt_aead, error_exit in H. repeat (inv_step H); try done; by apply aead_open_installed in H.
  - unfold openvpn_decrypt_v1, error_exit in H. inv_step H; [|by inv_steps H]. inv_step H. inv_step H; [by inv_steps H|].
    inv_step H. inv_step H; [by inv_steps H|]. inv_step H. assert (Hx : installed b4 = installed co).
    { inv_step E6; [by apply check_replay_installed in E6|by inv_steps E6]. }
    rewrite <- Hx. by repeat inv_step H.
Qed.


#[local] Abbreviation data_key := (DataPath.key_state (cipher_ctx := cipher_ctx) (hmac_ctx := hmac_ctx)).
#[local] Abbreviation data_multi := (DataPath.tls_multi (cipher_ctx := cipher_ctx) (hmac_ctx := hmac_ctx)).
(** The data channel counts, moves windows and renews epoch keys. *)
Definition data_kept (k k' : data_key) : Prop :=
  ks_state k' = ks_state k /\ ks_key_id k' = ks_key_id k /\ ks_remote_addr k' = ks_remote_addr k
  /\ installed (ks_crypto_options k') = installed (ks_crypto_options k).
Definition view_kept (d d' : data_multi) : Prop :=
  data_kept (key_primary (tm_active d)) (key_primary (tm_active d'))
  /\ data_kept (key_lame_duck (tm_active d)) (key_lame_duck (tm_active d'))
  /\ data_kept (key_primary (tm_lame_duck d)) (key_primary (tm_lame_duck d'))
  /\ data_kept (key_lame_duck (tm_lame_duck d)) (key_lame_duck (tm_lame_duck d')).
Lemma data_kept_trans k k1 k2 : data_kept k k1 -> data_kept k1 k2 -> data_kept k k2.
Proof. intros (A1 & A2 & A3 & A4) (B1 & B2 & B3 & B4). repeat split; congruence. Qed.
Lemma view_kept_refl d : view_kept d d.
Proof. by repeat split. Qed.
Lemma view_kept_trans d d1 d2 : view_kept d d1 -> view_kept d1 d2 -> view_kept d d2.
Proof. intros (A1 & A2 & A3 & A4) (B1 & B2 & B3 & B4). repeat split; by eapply data_kept_trans. Qed.

Lemma set_scan_kept (d : data_multi) i k k' : get_key_scan d i = Ret k -> data_kept k k' -> view_kept d (set_key_scan d i k').
Proof.
  unfold get_key_scan, set_key_scan. intros H K.
  destruct (i =? 0); [|destruct (i =? 1); [|destruct (i =? 2); [|done]]]; injection H as <-; repeat split; apply K.
Qed.

Lemma encrypt_kept now prng (d : data_multi) buf work d' buf' : encrypt_tls now prng d buf work = Ret (d', buf') -> view_kept d d'.
Proof.
  unfold encrypt_tls. intros H. inv_step H. assert (V1 : view_kept d a0).
  { unfold tls_pre_encrypt in E. repeat inv_step E; by repeat split. }
  eapply view_kept_trans; [exact V1|]. clear E V1. inv_step H. inv_step H. assert (V2 : view_kept a0 a).
  { destruct b as [i|]; [|injection E0 as <- <-; apply view_kept_refl]. inv_step E0. inv_step E0. injection E0 as <- <-.
    apply encrypt_installed in E2. by eapply set_scan_kept. }
  eapply view_kept_trans; [exact V2|]. inv_step H. inv_step H. injection H as <- <-. clear - E2.
  unfold tls_post_encrypt in E2. repeat inv_step E2; [|by repeat split].
  eapply (set_scan_kept (set_save_ks a None)); [eassumption|by repeat split].
Qed.

Lemma handle_kept (d : data_multi) from buf fl d' buf' sel :
  handle_data_channel_packet d from buf fl = Ret (d', buf', sel) -> view_kept d d'.
Proof.
  unfold handle_data_channel_packet. intros H. inv_step H. inv_step H. revert H. generalize 0 at 1.
  induction (Z.to_nat KEY_SCAN_SIZE) as [|n IH]; intros i H; cbn [data_packet_loop] in H.
  { injection H as <- <- <-. apply view_kept_refl. }
  inv_step H. inv_step H. inv_step H; [|by apply IH in H]. unfold take_packet in H. clear IH.
  repeat inv_step H; try (by repeat split); by eapply set_scan_kept.
Qed.

Lemma incoming_kept now (d : data_multi) from buf work f fl ok buf' d' :
  incoming_data_packet now d from buf work f fl = Ret (ok, buf', d') -> view_kept d d'.
Proof.
  unfold incoming_data_packet. intros H. inv_step H. apply handle_kept in E.
  destruct b as [[i ad]|]; [|by inv_steps H]. inv_step H. inv_step H. injection H as <- <- <-.
  eapply view_kept_trans; [exact E|]. apply decrypt_installed in E1. by eapply set_scan_kept.
Qed.


Lemma data_key_wf (k : key_state) d : data_kept (k_data k) d -> key_wf k -> key_wf (with_data k d).
Proof.
  intros (D1 & D2 & D3 & D4) [W1 W2 W3 W4]. split; try done; unfold k_state, k_key_id, k_crypto in *; cbn [with_data k_data].
  - rewrite D1. intros Hg. etrans; [exact D4|by apply W1].
  - by rewrite D2.
Qed.
Lemma data_lame_wf (k : key_state) d : data_kept (k_data k) d -> lame_wf k -> lame_wf (with_data k d).
Proof.
  intros D [H|[H1 H2]]; [left|right; split; [by apply data_key_wf|done]].
  unfold k_state in *. cbn [with_data k_data]. destruct D as [-> _]. exact H.
Qed.
Lemma data_running (s : tls_session) p l :
  running s -> data_kept (k_data (s_primary s)) p -> data_kept (k_data (s_lame_duck s)) l ->
  running (set_lame_duck (set_primary s (with_data (s_primary s) p)) (with_data (s_lame_duck s) l)).
Proof.
  intros [[W1 W2 W3 W4 W5 W6 [M1 M2 M3]] Hw] P L. pose proof P as (P1 & P2 & P3 & P4). pose proof L as (L1 & L2 & L3 & L4).
  split; [|unfold k_state in *; cbn; by rewrite P1]. split; try done.
  - by apply data_key_wf.
  - unfold k_key_id in *. cbn in *. by rewrite P2.
  - by apply data_lame_wf.
  - unfold k_key_id, k_state in *. cbn in *. by rewrite L1, P2, L2.
  - unfold addr_known, k_remote_addr in *. cbn in *. by rewrite P3.
Qed.
Lemma put_data_view_wf (m : tls_multi) d : multi_wf m -> view_kept (data_view m) d -> multi_wf (put_data_view m d).
Proof.
  intros [A I [L1 L2] N W B] (V1 & V2 & V3 & V4). split; try done.
  - by apply data_running.
  - split; [|by apply data_lame_wf]. unfold k_state in *. cbn in *. by rewrite (proj1 V3).
Qed.

(** ** Steps of a tunnel *)

(** What other components do to it: packets from an address, the call of the event loop, a soft
    reset, the answer to a first packet that was checked without state, a peer that moved,
    payload in both directions, data packets, and changes of the fields they own: the state of
    the connection, the socket, the clock, and the buffer of the link that was sent. *)
Inductive control_step : tls_multi -> tls_multi -> Prop :=
| step_packet m from buf floated r buf' sel m' :
    sin_family from <> AF_UNSPEC -> tls_pre_decrypt e m from buf floated = Ret (r, buf', sel, m') -> control_step m m'
| step_process m r m' : tls_multi_process e m = Ret (r, m') -> control_step m m'
| step_soft_reset m m' : tls_session_soft_reset e m = Ret m' -> control_step m m'
| step_skip m st from ok m' :
    sin_family from <> AF_UNSPEC -> session_id_defined (server_session_id st) = true ->
    session_skip_to_pre_start m st from = Ret (ok, m') -> control_step m m'
| step_move m addr m' : sin_family addr <> AF_UNSPEC -> tls_update_remote_addr m addr = Ret m' -> control_step m m'
| step_payload m data ok ks : tls_send_payload (s_primary (m_active m)) data = Ret (ok, ks) ->
    control_step m (put_session m TM_ACTIVE (set_primary (m_active m) ks))
| step_receive m buf ok buf' m' : tls_rec_payload m buf = Ret (ok, buf', m') -> control_step m m'
| step_encrypt m now prng buf work d buf' :
    encrypt_tls now prng (data_view m) buf work = Ret (d, buf') -> control_step m (put_data_view m d)
| step_decrypt m now from buf work f floated ok buf' d :
    incoming_data_packet now (data_view m) from buf work f floated = Ret (ok, buf', d) -> control_step m (put_data_view m d)
| step_owner m h :
    h_opt h = h_opt (m_shared m) -> h_next h = h_next (m_shared m) -> h_now (m_shared m) <= h_now h ->
    (h_to_link h = h_to_link (m_shared m) \/ b_len (lb_buf (h_to_link h)) = 0) -> control_step m (put_shared m h).

(** The states of a tunnel from its creation on. *)
Definition tunnel_run (h : shared) (tls_mtu : Z) (m : tls_multi) : Prop :=
  exists m0, tls_multi_init_finalize e (tls_multi_init h) tls_mtu = Ret m0 /\ rtc control_step m0 m.

Lemma initial_wf (h : shared) tls_mtu m0 :
  tls_multi_init_finalize e (tls_multi_init h) tls_mtu = Ret m0 -> 0 < h_now h -> 0 <= o_transition_window (h_opt h) -> multi_wf m0.
Proof.
  unfold tls_multi_init_finalize. intros H Hn Hw. inv_step H. inv_step H. injection H as <-.
  pose proof (new_running _ _ _ (session_init_spec _ _ _ _ E)) as R1. pose proof (new_running _ _ _ (session_init_spec _ _ _ _ E0)) as R2.
  destruct (session_init_spec _ _ _ _ E) as (_ & _ & (A1 & A2 & _) & B1).
  destruct (session_init_spec _ _ _ _ E0) as (_ & _ & (C1 & C2 & _) & B2).
  split; cbn [m_active m_initial m_lame_duck m_shared put_shared put_session tls_multi_init] in *; try done.
  - split; by left.
  - change (h_now (put_opt _ _)) with (h_now h) in *. lia.
  - rewrite C1, A1. done.
  - eapply blocks_wf_from; [|split; [apply NoDup_nil|apply Forall_nil]; done].
    eapply blocks_trans; [exact B1|]. unfold all_blocks. cbn [m_active m_initial m_lame_duck put_shared put_session tls_multi_init].
    change (session_blocks session_zero) with (@nil Z). rewrite app_nil_r.
    eapply (blocks_perm _ _ ([] ++ session_blocks a) (session_blocks a0 ++ session_blocks a)); [by apply blocks_app|done|].
    apply Permutation_app_comm.
Qed.


Lemma update_addr_same addr (ks ks' : key_state) :
  update_addr addr ks = Ret ks' -> ks' = ks \/ ks' = with_remote_addr ks addr.
Proof. unfold update_addr. intros H. inv_step H; [by inv_steps H; left|]. inv_step H. injection H as <-. destruct x; [by left|by right]. Qed.
Lemma update_session_running addr (s s' : tls_session) :
  update_session_addr addr s = Ret s' -> sin_family addr <> AF_UNSPEC -> running s -> running s' /\ same_memory s s'.
Proof.
  unfold update_session_addr. intros H Ha R. inv_step H. inv_step H. injection H as <-.
  apply update_addr_same in E, E0.
  assert (R1 : running (set_primary s x) /\ same_memory s (set_primary s x)).
  { pose proof R as [[[W1 W2 W3 W4] _ _ _ _ W6 _] Hw]. destruct E as [-> | ->]; [by destruct s|].
    apply running_rekeyed; try done. by intros _. }
  destruct R1 as [[[W1 W2 W3 W4 W5 W6 [M1 M2 M3]] Hw] S1]. clear E R.
  destruct E0 as [-> | ->]; [|split; [|by destruct S1 as (? & ? & ? & ?); repeat split]; split; [|done]]; [by destruct s|].
  split; try done. destruct W4 as [W4|[[K1 K2 K3 K4] K5]]; [by left|right]. by split.
Qed.
Lemma update_lame addr (s s' : tls_session) :
  update_session_addr addr s = Ret s' ->
  k_state (s_primary s') = k_state (s_primary s) /\ (lame_wf (s_lame_duck s) -> lame_wf (s_lame_duck s')) /\ same_memory s s'.
Proof.
  unfold update_session_addr. intros H. inv_step H. inv_step H. injection H as <-. apply update_addr_same in E, E0.
  split; [by destruct E as [-> | ->]|]. split; [|by destruct E as [-> | ->], E0 as [-> | ->]].
  destruct E0 as [-> | ->]; [done|]. intros [W4|[[K1 K2 K3 K4] K5]]; [by left|right]. by split.
Qed.

Lemma move_wf (m : tls_multi) addr m' :
  tls_update_remote_addr m addr = Ret m' -> sin_family addr <> AF_UNSPEC -> multi_wf m -> multi_wf m'.
Proof.
  unfold tls_update_remote_addr. intros H Ha [A I [L1 L2] N W B]. inv_step H. inv_step H. inv_step H. injection H as <-.
  destruct (update_session_running _ _ _ E Ha A) as [R1 S1]. destruct (update_session_running _ _ _ E0 Ha I) as [R2 S2].
  destruct (update_lame _ _ _ E1) as (P1 & P2 & S3). split; cbn [m_active m_initial m_lame_duck m_shared put_session]; try done.
  - rewrite P1. split; [done|by apply P2].
  - unfold all_blocks. cbn [m_active m_initial m_lame_duck put_session].
    by rewrite (same_memory_blocks _ _ S1), (same_memory_blocks _ _ S2), (same_memory_blocks _ _ S3).
Qed.

Lemma skip_wf (m : tls_multi) st from ok m' :
  session_skip_to_pre_start m st from = Ret (ok, m') -> sin_family from <> AF_UNSPEC ->
  session_id_defined (server_session_id st) = true -> multi_wf m -> multi_wf m'.
Proof.
  unfold session_skip_to_pre_start. intros H Hf Hs Hm. inv_step H. injection H as <- <-.
  destruct (move_pre_start_spec _ _ _ _ _ E) as ([K1 K2 K3 K4 K5 K6 [K7 K8]] & _ & _ & _ & _ & _ & St).
  pose proof (mw_initial _ _ Hm) as [[[W1 W2 W3 W4] Q2 Q3 Q4 Q5 Q6 [M1 M2 M3]] Hw].
  assert (Hst : working (k_state b) /\ (S_GENERATED_KEYS <= k_state b -> bi_initialized (co_keys (k_crypto b)) = true)).
  { rewrite St, K2. destruct a; [|done]. split; [left; by vm_compute|intros Hx; by vm_compute in Hx]. }
  destruct Hst as [St1 St2]. apply put_running; try done.
  - split; [|done]. split; try done; cbn.
    + split; [done|by rewrite K1|by rewrite K4|by rewrite K7, K8].
    + by rewrite K1.
    + by rewrite K1.
    + unfold addr_known. rewrite K5. by intros _.
    + split; try done. cbn. by rewrite K4.
Qed.

Lemma fits_self (m : tls_multi) i : multi_wf m -> i <> TM_LAME_DUCK -> fits m i (get_session m i) (s_primary (get_session m i)).
Proof. intros Hm Hi. unfold fits. rewrite set_primary_id. split; [by apply get_running|done]. Qed.

Lemma control_step_wf (m m' : tls_multi) : control_step m m' -> multi_wf m -> multi_wf m'.
Proof.
  intros H Hm. destruct H.
  - unfold tls_pre_decrypt in *. rename H0 into Hp. inv_step Hp; [by inv_steps Hp|]. inv_step Hp. inv_step Hp. inv_step Hp; inv_step Hp.
    + injection Hp as <- <- <- <-. apply put_data_view_wf; [done|]. by eapply handle_kept.
    + injection Hp as <- <- <- <-. by eapply control_packet_wf.
  - by eapply multi_process_spec.
  - unfold tls_session_soft_reset in *. inv_step H. injection H as <-. by apply (reset_packet_wf m TM_ACTIVE).
  - by eapply skip_wf.
  - by eapply move_wf.
  - apply fits_put; try done. eapply fits_kept; [by apply (fits_self m TM_ACTIVE)|by eapply send_payload_kept].
  - unfold tls_rec_payload in *. inv_step H; [|by inv_steps H]. inv_step H. injection H as <- <- <-.
    apply fits_put; try done. by eapply fits_kept; [apply (fits_self m TM_ACTIVE)|].
  - apply put_data_view_wf; [done|]. by eapply encrypt_kept.
  - apply put_data_view_wf; [done|]. by eapply incoming_kept.
  - destruct Hm as [A I L N W B]. split; cbn [m_shared put_shared]; rewrite ?H, ?H0; try done. lia.
Qed.

Lemma run_wf (h : shared) tls_mtu m :
  tunnel_run h tls_mtu m -> 0 < h_now h -> 0 <= o_transition_window (h_opt h) -> multi_wf m.
Proof.
  intros (m0 & H0 & Hr) Hn Hw. pose proof (initial_wf _ _ _ H0 Hn Hw) as Hm. clear H0.
  induction Hr as [|m0 m1 m2 Hs _ IH]; [done|]. by apply IH, (control_step_wf m0).
Qed.


Lemma working_live st : working st -> st <> S_UNDEF /\ st <> S_ERROR.
Proof. unfold working, in_use, S_UNDEF, S_ERROR, S_ERROR_PRE, S_INITIAL. lia. Qed.
Lemma lame_returns (h : shared) (s : tls_session) : lame_wf (s_lame_duck s) -> exists r, lame_duck_must_die h s = Ret r.
Proof.
  intros Hl. unfold lame_duck_must_die. destruct (Z.leb_spec S_INITIAL (k_state (s_lame_duck s))) as [Hs|_]; [|by eexists].
  destruct Hl as [Hl|[_ Hl]]; [rewrite Hl in Hs; by vm_compute in Hs|]. rewrite (proj2 (Z.eqb_neq _ _) Hl). cbn [negb].
  destruct (_ <? _); by eexists.
Qed.
Lemma lame_keys (k : key_state) : lame_wf k -> usable (k_data k) -> bi_initialized (co_keys (k_crypto k)) = true.
Proof. intros [Hl|[[W1 _ _ _] _]] [Hu _]; [unfold k_state in Hl; rewrite Hl in Hu; by vm_compute in Hu|by apply W1]. Qed.
Lemma view_installed (m : tls_multi) : multi_wf m -> keys_installed (data_view m).
Proof.
  intros [[[[W1 _ _ _] _ _ WL _ _ _] _] _ [_ L2] _ _ _]. unfold keys_installed, DataPath.scan.
  rewrite !Forall_cons. split; [|split; [|split]]; cbn; [| | |done].
  - intros [Hu _]. by apply W1.
  - by apply lame_keys.
  - by apply lame_keys.
Qed.
Lemma matched_address (m : tls_multi) sid i from :
  multi_wf m -> session_id_defined sid = true -> match_session m sid = Some i -> i <> TM_LAME_DUCK ->
  exists known, link_socket_actual_match (k_remote_addr (s_primary (get_session m i))) from = Ret known.
Proof.
  intros Hm Hd H Hi. assert (He : session_id_equal (k_session_id_remote (s_primary (get_session m i))) sid = true).
  { unfold match_session in H. destruct i; [| |done].
    - destruct (session_id_equal (k_session_id_remote (s_primary (m_active m))) sid) eqn:E1; [exact E1|].
      repeat case_match; done.
    - repeat case_match; done. }
  unfold session_id_equal, memcmp_eq in He. apply bool_decide_eq_true in He.
  destruct (get_running m i Hm Hi) as [[_ _ _ _ _ Ha _] _]. rewrite <- He in Hd. specialize (Ha Hd).
  unfold link_socket_actual_match, addr_port_match. destruct (sin_family _); [done|by eexists..].
Qed.

(** C17: the invariant of the control channel.  Whatever control and data packets arrive, in whatever
    order the event loop, the timers and the other components call, and whatever the TLS library
    answers, in every state of a tunnel: the two live sessions are neither undefined nor failed, have
    a session identifier, and give a retiring key another key id than the primary one; a retiring key
    has a time to die, so the check of it returns; no key that may encrypt lacks its contexts, so a
    key is chosen or there is none; a session found by the identifier of its peer has an address to
    compare with; and no block of memory has two owners.  These are the conditions the assertions of
    [tls_process], [lame_duck_must_die], [tls_select_encryption_key] and [tls_pre_decrypt] ask. *)
Theorem control_channel_invariant (h : shared) tls_mtu (m : tls_multi) :
  tunnel_run h tls_mtu m -> 0 < h_now h -> 0 <= o_transition_window (h_opt h) ->
  (forall i, i <> TM_LAME_DUCK ->
     let s := get_session m i in
     k_state (s_primary s) <> S_UNDEF /\ k_state (s_primary s) <> S_ERROR /\ session_id_defined (s_session_id s) = true
     /\ (k_state (s_lame_duck s) <> S_UNDEF -> k_key_id (s_lame_duck s) <> k_key_id (s_primary s)))
  /\ (forall i, exists r, lame_duck_must_die (m_shared m) (get_session m i) = Ret r)
  /\ (forall now, exists sel, tls_select_encryption_key now (data_view m) = Ret sel)
  /\ (forall sid i from, session_id_defined sid = true -> match_session m sid = Some i -> i <> TM_LAME_DUCK ->
        exists known, link_socket_actual_match (k_remote_addr (s_primary (get_session m i))) from = Ret known)
  /\ NoDup (all_blocks m).
Proof.
  intros Hr Hn Hw. pose proof (run_wf _ _ _ Hr Hn Hw) as Hm. split; [|split; [|split; [|split]]].
  - intros i Hi. destruct (get_running m i Hm Hi) as [[[_ K _ _] Q1 _ Q3 Q4 _ _] Hwork].
    destruct (working_live _ Hwork) as [W1 W2]. split; [done|]. split; [done|]. split; [done|]. intros Hl. rewrite (Q4 Hl).
    destruct Q3 as [Q3|[[_ L _ _] _]]; [done|]. destruct (next_key_id_spec _ L) as [_ Hne]. congruence.
  - intros i. apply lame_returns. destruct Hm as [[[] _] [[] _] [_ L] _ _ _]. by destruct i.
  - intros now. eexists. by apply select_spec, view_installed.
  - intros sid i from. by apply matched_address.
  - by destruct (mw_blocks _ _ Hm).
Qed.

(** C18: the packet [tls_multi_process] hands to the event loop.  It lies in memory that a session
    of the tunnel owns; the one exception is a call in which the initial session took the place of the
    active one, and then its memory may have no owner any more. *)
Theorem link_packet_has_owner (h : shared) tls_mtu (m m' : tls_multi) r :
  tunnel_run h tls_mtu m -> 0 < h_now h -> 0 <= o_transition_window (h_opt h) -> link_empty m ->
  tls_multi_process e m = Ret (r, m') ->
  link_empty m' \/ (exists i, owned_by m' i) \/ (s_session_id (m_active m') = s_session_id (m_initial m) /\ link_dangles m').
Proof.
  intros Hr Hn Hw He H. destruct (multi_process_spec _ _ _ _ H (run_wf _ _ _ Hr Hn Hw)) as [_ Hl].
  destruct (Hl He) as [[L|[L|L]]|L]; [by left|right; left; by eexists..|by right; right].
Qed.


(** ** Runs that can be evaluated *)
Inductive event : Type :=
| EPacket (from : sockaddr) (buf : buffer) | EProcess | ESent | EPayload (data : bytes) | EConnected (cas : Z).
Definition exec (m : tls_multi) (ev : event) : res tls_multi :=
  match ev with
  | EPacket from buf =>
      if bool_decide (sin_family from = AF_UNSPEC) then UB else let! (_, _, _, m) := tls_pre_decrypt e m from buf false in Ret m
  | EProcess => let! (_, m) := tls_multi_process e m in Ret m
  | ESent => Ret (put_shared m (put_to_link (m_shared m) (mk_lb clear_buf Foreign)))
  | EPayload data => let! (_, ks) := tls_send_payload (s_primary (m_active m)) data in
                     Ret (put_session m TM_ACTIVE (set_primary (m_active m) ks))
  | EConnected cas => Ret (put_shared m (put_cas (m_shared m) cas))
  end.
Fixpoint exec_all (m : tls_multi) (l : list event) : res tls_multi :=
  match l with [] => Ret m | ev :: l => let! m := exec m ev in exec_all m l end.

Lemma exec_step (m m' : tls_multi) ev : exec m ev = Ret m' -> control_step m m'.
Proof.
  destruct ev; cbn [exec]; intros H.
  - inv_step H. inv_step H. injection H as <-. apply bool_decide_eq_false in E. by eapply step_packet.
  - inv_step H. injection H as <-. by eapply step_process.
  - injection H as <-. apply step_owner; try done. by right.
  - inv_step H. injection H as <-. by eapply step_payload.
  - injection H as <-. apply step_owner; try done. by left.
Qed.
Lemma exec_all_steps (m m' : tls_multi) l : exec_all m l = Ret m' -> rtc control_step m m'.
Proof.
  revert m. induction l as [|ev l IH]; intros m H; cbn [exec_all] in H; [injection H as <-; done|].
  inv_step H. eapply rtc_l; [by eapply exec_step|by apply IH].
Qed.
End Runs.

(** A client and a server exchange what they have to send. *)
Definition exchange (ec es : s_env) (p : s_multi * s_multi) : res (s_multi * s_multi) :=
  let '(c, s) := p in
  let! c := exec_all ec c [EProcess] in
  let! s := exec_all es s ((if bool_decide (link_packet c = []) then [] else [EPacket addr_client (inbuf (link_packet c))]) ++ [EProcess]) in
  let! c := exec_all ec c (ESent :: if bool_decide (link_packet s = []) then [] else [EPacket addr_server (inbuf (link_packet s))]) in
  let! s := exec_all es s [ESent] in Ret (c, s).
Fixpoint exchanges (n : nat) (ec es : s_env) (p : s_multi * s_multi) : res (s_multi * s_multi) :=
  match n with O => Ret p | S n => let! p := exchange ec es p in exchanges n ec es p end.

Lemma exchange_steps n ec es c s c' s' :
  exchanges n ec es (c, s) = Ret (c', s') -> rtc (control_step ec) c c' /\ rtc (control_step es) s s'.
Proof.
  revert c s. induction n as [|n IH]; intros c s H; cbn [exchanges] in H; [by injection H as <- <-|].
  inv_step H. unfold exchange in E. inv_step E. inv_step E. inv_step E. inv_step E. injection E as <- <-.
  apply exec_all_steps in E0, E1, E2, E3. apply IH in H as [H1 H2]. split; [|by do 2 (etrans; [eassumption|])].
  by do 2 (etrans; [eassumption|]).
Qed.

(** The server of a tunnel that is set up, when the client starts again: its next packet is the
    one that authenticates the new session, and the server has something to say to the old one. *)
Definition env_server : s_env := sample_env 50 true.
Definition restarted_server : res s_multi :=
  let! c := start (sample_env 10 false) false addr_server in
  let! s := start env_server true sockaddr_zero in
  let! (_, s) := exchanges 3 (sample_env 10 false) env_server (c, s) in
  let! c := start (sample_env 110 false) false addr_server in
  let! (c, s) := exchanges 1 (sample_env 110 false) env_server (c, s) in
  let! c := exec_all (sample_env 110 false) c [EProcess] in
  exec_all env_server s [EPacket addr_client (inbuf (link_packet c)); EPayload (str "PUSH_REPLY")].
Lemma restarted_run m : restarted_server = Ret m -> tunnel_run env_server (sample_shared true sockaddr_zero) 1250 m.
Proof.
  unfold restarted_server, start. intros H. inv_step H. inv_step H. inv_step H. inv_step H. inv_step H. inv_step H.
  apply exchange_steps in E1 as [_ E1]. apply exchange_steps in E3 as [_ E3]. apply exec_all_steps in H.
  eexists. split; [exact E0|]. etrans; [exact E1|]. etrans; [exact E3|exact H].
Qed.
Definition dangles (m : s_multi) : bool :=
  match owner_block (lb_owner (h_to_link (m_shared m))) with Some b => bool_decide (b ∉ all_blocks m) | None => false end.
(** The next call returns a packet that no session owns. *)
Definition frees_packet (run : res s_multi) : bool :=
  match run with
  | Ret m => match tls_multi_process env_server m with
             | Ret (_, m') => bool_decide (link_packet m = []) && negb (bool_decide (link_packet m' = [])) && dangles m'
                              && (b_len (lb_buf (h_to_link (m_shared m))) =? 0)
             | _ => false
             end
  | _ => false
  end.
Lemma frees_packet_spec run :
  frees_packet run = true ->
  exists m r m', run = Ret m /\ tls_multi_process env_server m = Ret (r, m') /\ link_packet m = [] /\ link_packet m' <> []
    /\ link_dangles m' /\ link_empty m.
Proof.
  unfold frees_packet. intros H. destruct run as [m| |]; try discriminate H. exists m.
  destruct (tls_multi_process env_server m) as [[r m']| |]; try discriminate H. exists r, m'.
  apply andb_true_iff in H as [[[H1%bool_decide_eq_true H2%negb_true_iff%bool_decide_eq_false]%andb_true_iff H3]%andb_true_iff H4%Z.eqb_eq].
  split_and!; try done. unfold dangles in H3. unfold link_dangles. destruct (owner_block _); [|done].
  eexists. split; [done|]. by apply bool_decide_eq_true in H3.
Qed.
Lemma restarted_frees_packet : frees_packet restarted_server = true.
Proof. vm_compute. reflexivity. Qed.

(** C19: a promoted session frees a packet that is about to be sent.  [move_session] frees the active
    session without asking whether the packet for the link lies in its memory, which is asked where
    a session is reset: in a run of a server whose client starts again, [tls_multi_process] returns
    a packet in a buffer that no session owns. *)
Theorem promotion_frees_link_packet :
  exists m r m', tunnel_run env_server (sample_shared true sockaddr_zero) 1250 m /\ link_packet m = []
    /\ tls_multi_process env_server m = Ret (r, m') /\ link_packet m' <> [] /\ link_dangles m'.
Proof.
  destruct (frees_packet_spec _ restarted_frees_packet) as (m & r & m' & H1 & H2 & H3 & H4 & H5 & _).
  exists m, r, m'. split; [exact (restarted_run m H1)|]. split; [exact H3|]. split; [exact H2|]. split; [exact H4|exact H5].
Qed.

(** ** The theorems on that run *)
Lemma control_channel_invariant_witness :
  exists m, restarted_server = Ret m /\ NoDup (all_blocks m) /\ exists sel, tls_select_encryption_key 1000 (data_view m) = Ret sel.
Proof.
  destruct (frees_packet_spec _ restarted_frees_packet) as (m & r & m' & H1 & _). exists m. split; [exact H1|].
  destruct (control_channel_invariant env_server (sample_shared true sockaddr_zero) 1250 m) as (_ & _ & H & _ & N).
  - exact (restarted_run m H1).
  - reflexivity.
  - discriminate.
  - split; [exact N|exact (H 1000)].
Defined.
Lemma link_packet_has_owner_witness :
  exists m r m', restarted_server = Ret m /\ tls_multi_process env_server m = Ret (r, m')
    /\ (link_empty m' \/ (exists i, owned_by m' i)
        \/ (s_session_id (m_active m') = s_session_id (m_initial m) /\ link_dangles m')).
Proof.
  destruct (frees_packet_spec _ restarted_frees_packet) as (m & r & m' & H1 & H2 & _ & _ & _ & H6). exists m, r, m'.
  split; [exact H1|]. split; [exact H2|].
  apply (link_packet_has_owner env_server (sample_shared true sockaddr_zero) 1250 m m' r).
  - exact (restarted_run m H1).
  - reflexivity.
  - discriminate.
  - exact H6.
  - exact H2.
Defined.
