(* ===== verification/StreamBuf.v ===== *)
(** * Packets in a TCP stream (socket.c, socket.h, ps.c)

    Over TCP every packet has its length in front; [recv] returns pieces of the stream of any
    size.  [struct stream_buf] collects them until a packet is complete, and keeps what was read
    beyond it.  The buffers [buf], [next] and [buf_init] are windows on one data object, which is
    carried by [buf]; [next] is the place and the room for the next read. *)

From Stdlib Require Import String.
From S2P Require Import Prelude CircList Buffer PacketId Reliable Mtu KeyCtx SampleLib FrameCalc Epoch Crypto Aead Channel DataPath.
#[local] Open Scope Z_scope.

(** ** State *)
(** [PS_DISABLED], [PS_ENABLED], [PS_FOREIGN]. *)
Inductive port_share : Type := PS_DISABLED | PS_ENABLED | PS_FOREIGN.
(** [sb_init] is the offset of [buf_init], whose length is 0; [sb_next] is [None] for the reset
    buffer. *)
Record stream_buf : Type := mk_sb {
  sb_init : Z;
  residual : buffer;
  maxlen : Z;
  residual_fully_formed : bool;
  sb_buf : buffer;
  sb_next : option (Z * Z);
  sb_len : Z;
  sb_error : bool;
  port_share_state : port_share
}.
Definition set_sb_buf (s : stream_buf) (b : buffer) : stream_buf :=
  mk_sb (sb_init s) (residual s) (maxlen s) (residual_fully_formed s) b (sb_next s) (sb_len s) (sb_error s) (port_share_state s).
Definition set_sb_next (s : stream_buf) (n : option (Z * Z)) : stream_buf :=
  mk_sb (sb_init s) (residual s) (maxlen s) (residual_fully_formed s) (sb_buf s) n (sb_len s) (sb_error s) (port_share_state s).
Definition set_sb_len (s : stream_buf) (n : Z) : stream_buf :=
  mk_sb (sb_init s) (residual s) (maxlen s) (residual_fully_formed s) (sb_buf s) (sb_next s) n (sb_error s) (port_share_state s).
Definition set_residual (s : stream_buf) (r : buffer) : stream_buf :=
  mk_sb (sb_init s) r (maxlen s) (residual_fully_formed s) (sb_buf s) (sb_next s) (sb_len s) (sb_error s) (port_share_state s).
Definition set_formed (s : stream_buf) (f : bool) : stream_buf :=
  mk_sb (sb_init s) (residual s) (maxlen s) f (sb_buf s) (sb_next s) (sb_len s) (sb_error s) (port_share_state s).
Definition set_sb_error (s : stream_buf) (p : port_share) : stream_buf :=
  mk_sb (sb_init s) (residual s) (maxlen s) (residual_fully_formed s) (sb_buf s) (sb_next s) (sb_len s) true p.
Definition set_port_share (s : stream_buf) (p : port_share) : stream_buf :=
  mk_sb (sb_init s) (residual s) (maxlen s) (residual_fully_formed s) (sb_buf s) (sb_next s) (sb_len s) (sb_error s) p.

(** ** Operations *)
Definition stream_buf_reset (s : stream_buf) : stream_buf :=
  mk_sb (sb_init s) (residual s) (maxlen s) false (set_window (sb_buf s) (sb_init s) 0) None (-1) (sb_error s)
    (port_share_state s).

Definition stream_buf_init (buf : buffer) (share_tcp_server : bool) : res stream_buf :=
  let! r := alloc_buf (u64 (b_len buf)) in
  Ret (stream_buf_reset (mk_sb (b_offset buf) r (b_len buf) false buf None (-1) false
                           (if share_tcp_server then PS_ENABLED else PS_DISABLED))).

(** The socket buffer of a connection-oriented socket. *)
Definition socket_frame_init (f : frame) (connection_oriented share_tcp_server : bool) : res (option stream_buf) :=
  if connection_oriented then
    let! buf := alloc_buf_sock_tun f in let! s := stream_buf_init buf share_tcp_server in Ret (Some s)
  else Ret None.

Definition stream_buf_set_next (s : stream_buf) : res stream_buf :=
  let b := sb_buf s in
  let len := (if 0 <=? sb_len s then sb_len s else maxlen s) - b_len b in
  assert! 0 <? len in
  assert! buf_safe b (u64 len) in
  Ret (set_sb_next s (Some (b_offset b + b_len b, len))).

Definition stream_buf_get_final (s : stream_buf) : res buffer :=
  assert! buf_defined (sb_buf s) in Ret (sb_buf s).
Definition stream_buf_get_next (s : stream_buf) : res (Z * Z) :=
  match sb_next s with Some n => assert! buf_defined (sb_buf s) in Ret n | None => Fatal end.

Definition stream_buf_close (s : stream_buf) : stream_buf := set_residual s (free_buf (residual s)).

(** ps.c *)
Definition is_openvpn_protocol (buf : buffer) : res bool :=
  let len := buf_len buf in
  if 3 <=? len then
    let! p := buf_peek buf (b_offset buf) 3 in
    let plen := be_val (take 2 p) in
    let! op := arr_get p 2 in
    if op =? Z.shiftl P_CONTROL_HARD_RESET_CLIENT_V3 P_OPCODE_SHIFT then Ret ((336 <=? plen) && (plen <? 1024 + 255))
    else Ret ((14 <=? plen) && (plen <=? 255) && (op =? Z.shiftl P_CONTROL_HARD_RESET_CLIENT_V2 P_OPCODE_SHIFT))
  else if 2 <=? len then
    let! p := buf_peek buf (b_offset buf) 2 in
    let plen := be_val p in Ret ((14 <=? plen) && (plen <=? 255))
  else Ret true.

(** The packet is complete, and what follows it is saved; or more has to be read. *)
Definition packet_complete (s : stream_buf) : res (bool * stream_buf) :=
  if (0 <? sb_len s) && (sb_len s <=? b_len (sb_buf s)) then
    let '(ok, r) := buf_init_dowork (residual s) 0 in
    assert! ok in
    if sb_len s <? b_len (sb_buf s) then
      let! (ok, r, b) := buf_copy_excess r (sb_buf s) (sb_len s) in
      assert! ok in Ret (true, set_residual (set_sb_buf s b) r)
    else Ret (true, set_residual s r)
  else let! s := stream_buf_set_next s in Ret (false, s).

Definition stream_buf_added (s : stream_buf) (length_added : Z) : res (bool * stream_buf) :=
  let b := sb_buf s in
  let s := if 0 <? length_added then set_sb_buf s (set_window b (b_offset b) (b_len b + length_added)) else s in
  if (sb_len s <? 0) && (2 <=? b_len (sb_buf s)) then
    let! mine := match port_share_state s with PS_ENABLED => is_openvpn_protocol (sb_buf s) | _ => Ret true end in
    if negb mine then Ret (false, set_sb_error s PS_FOREIGN)
    else
      let s := match port_share_state s with PS_ENABLED => set_port_share s PS_DISABLED | _ => s end in
      let! (net_size, b) := buf_read (sb_buf s) 2 in
      match net_size with
      | None => Fatal
      | Some net_size =>
          let s := set_sb_len (set_sb_buf s b) (be_val net_size) in
          if (sb_len s <? 1) || (maxlen s <? sb_len s)
          then let s := stream_buf_reset s in Ret (false, set_sb_error s (port_share_state s))
          else packet_complete s
      end
  else packet_complete s.

(** Before the event loop waits; [false]: a packet is there already. *)
Definition stream_buf_read_setup_dowork (s : stream_buf) : res (bool * stream_buf) :=
  let! s := (if negb (b_len (residual s) =? 0) && negb (residual_fully_formed s) then
               let! (ok, b) := buf_copy (sb_buf s) (residual s) in
               assert! ok in
               let '(ok, r) := buf_init_dowork (residual s) 0 in
               assert! ok in
               let! (formed, s) := stream_buf_added (set_residual (set_sb_buf s b) r) 0 in
               Ret (set_formed s formed)
             else Ret s) in
  let! s := (if negb (residual_fully_formed s) then stream_buf_set_next s else Ret s) in
  Ret (negb (residual_fully_formed s), s).

(** [sd_open] is false if the socket has no descriptor ([SOCKET_UNDEFINED]); [recv] is given the
    room and answers with the bytes it stored, none if the peer closed the connection, or an
    error.  Results: the length, the packet (a window on the data of the stream buffer, whose own
    window is empty from then on), [stream_reset]. *)
Definition link_socket_read_tcp (sd_open : bool) (recv : Z -> option bytes) (s : stream_buf)
  : res (Z * option buffer * bool * stream_buf) :=
  if negb (residual_fully_formed s) && negb sd_open then Ret (0, None, true, s) else
  let! (len, s) := (if negb (residual_fully_formed s) then
                      let! (pos, room) := stream_buf_get_next s in
                      match recv room with
                      | None => Ret (-1, s)
                      | Some d => if room <? Zlen d then UB
                                  else let! b := buf_poke (sb_buf s) pos d in Ret (Zlen d, set_sb_buf s b)
                      end
                    else Ret (0, s)) in
  if negb (residual_fully_formed s) && (len <=? 0) then Ret (len, None, len =? 0, s)
  else
    let! (complete, s) := (if residual_fully_formed s then Ret (true, s) else stream_buf_added s len) in
    if complete then
      let! buf := stream_buf_get_final s in
      Ret (b_len buf, Some buf, false, stream_buf_reset s)
    else Ret (0, None, false, s).

(** The length goes in front as two bytes ([packet_size_type]); then the buffer is sent. *)
Definition link_socket_write_tcp (maxlen : Z) (buf : buffer) : res buffer :=
  let len := u16 (buf_len buf) in
  assert! len <=? maxlen in
  let! (ok, buf) := buf_write_prepend buf (be_bytes 2 len) in
  assert! ok in Ret buf.

(** One turn of the event loop on what is left of the stream: [recv] returns at most [k] bytes,
    at least one if there is any, and [EAGAIN] (an error) if there is none. *)
Definition recv_some (k : Z) (stream : bytes) (room : Z) : option bytes :=
  match stream with [] => None | _ => Some (take (Z.to_nat (Z.max 1 (Z.min k room))) stream) end.
Definition receive_one (k : Z) (stream : bytes) (s : stream_buf) : res (option buffer * bytes * stream_buf) :=
  let! (wants, s) := stream_buf_read_setup_dowork s in
  let taken := match sb_next s with
               | Some (_, room) => if wants then length (default [] (recv_some k stream room)) else 0%nat
               | None => 0%nat
               end in
  let! (len, pkt, reset, s) := link_socket_read_tcp true (recv_some k stream) s in
  Ret (pkt, drop taken stream, s).
(** Turns of the event loop, the packets they deliver and the stream that is left. *)
Fixpoint receive (ks : list Z) (stream : bytes) (s : stream_buf) : res (list bytes * bytes * stream_buf) :=
  match ks with
  | [] => Ret ([], stream, s)
  | k :: ks =>
      let! (pkt, stream, s) := receive_one k stream s in
      let! out := match pkt with Some b => let! c := buf_bytes b in Ret [c] | None => Ret [] end in
      let! (more, stream, s) := receive ks stream s in
      Ret (out ++ more, stream, s)
  end.

(** The stream that results from sending the buffers one after the other. *)
Fixpoint write_all (ml : Z) (bufs : list buffer) : res bytes :=
  match bufs with
  | [] => Ret []
  | b :: bufs => let! b := link_socket_write_tcp ml b in let! w := buf_bytes b in let! ws := write_all ml bufs in Ret (w ++ ws)
  end.

(** ** Buffers *)
Lemma fill_repr b h c t d :
  buf_repr b h c t -> Zlen d <= t -> bytes_ok d ->
  exists b', buf_poke b (b_offset b + b_len b) d = Ret b'
    /\ buf_repr (set_window b' (b_offset b') (b_len b' + Zlen d)) h (c ++ d) (t - Zlen d).
Proof.
  intros Hb Ht Ho. pose proof (Zlen_nonneg d). destruct Hb as (pre & post & (Hd & Hof & Hl & Hc & Hm & O1 & O2 & O3) & -> & ->).
  destruct (split_at post (Zlen d)) as (x & y & -> & L1 & L2 & _); [lia|].
  rewrite Hof, Hl, <- Zlen_app, (buf_poke_split b (pre ++ c) x y d); [|rewrite Hd; by rewrite <- !app_assoc|done].
  eexists. split; [done|]. exists pre, y. apply bytes_ok_app in O3 as [O3 O4].
  unfold buf_split, set_window, set_data. cbn. rewrite !bytes_ok_app, !Zlen_app in *. rewrite Hof, Hl.
  repeat split; try done; try lia. by rewrite <- !app_assoc.
Qed.

Lemma poke_window b p d b' : buf_poke b p d = Ret b' -> b_offset b' = b_offset b /\ b_len b' = b_len b.
Proof. unfold buf_poke. destruct (b_data b); [|done]. destruct (mem_write _ _ _); intros [= <-]; done. Qed.

Lemma shorten_repr b h p r t :
  buf_repr b h (p ++ r) t -> buf_repr (set_window b (b_offset b) (Zlen p)) h p (t + Zlen r).
Proof.
  intros (pre & post & (Hd & Ho & Hl & Hc & Hm & O1 & O2 & O3) & -> & ->). apply bytes_ok_app in O2 as [O2 O4].
  exists pre, (r ++ post). unfold buf_split, set_window. cbn. rewrite !bytes_ok_app, !Zlen_app in *.
  repeat split; try done; try lia. rewrite Hd. by rewrite <- !app_assoc.
Qed.

Lemma rewind_repr b h c t h0 :
  buf_repr b h c t -> 0 <= h0 <= h + Zlen c + t -> buf_repr (set_window b h0 0) h0 [] (h + Zlen c + t - h0).
Proof.
  intros Hb Hh. pose proof (buf_repr_wf _ _ _ _ Hb) as Wf. buf_facts Hb.
  destruct (buf_init_repr b h0 Wf Fdata ltac:(lia)) as (b' & E & R). unfold buf_init_dowork in E.
  destruct (_ || _); [discriminate E|]. injection E as <-. by rewrite Fcap in R.
Qed.

Lemma init_repr b h c t :
  buf_repr b h c t -> exists b', buf_init_dowork b 0 = (true, b') /\ buf_repr b' 0 [] (h + Zlen c + t).
Proof.
  intros Hb. pose proof (buf_repr_wf _ _ _ _ Hb) as Wf. buf_facts Hb. pose proof (Zlen_nonneg c).
  destruct (buf_init_repr b 0 Wf Fdata ltac:(lia)) as (b' & E & R). exists b'. split; [done|]. rewrite Fcap in R. by rewrite Z.sub_0_r in R.
Qed.

Lemma excess_repr r b h p x t n :
  buf_repr r 0 [] n -> buf_repr b h (p ++ x) t -> Zlen x <= n -> 0 < Zlen x ->
  exists r' b', buf_copy_excess r b (Zlen p) = Ret (true, r', b') /\ buf_repr r' 0 x (n - Zlen x) /\ buf_repr b' h p (t + Zlen x).
Proof.
  intros Hr Hb Hx H0. pose proof (buf_repr_fields _ _ _ _ Hb) as (F1 & F2 & _ & _ & _ & _ & F3 & _).
  rewrite Zlen_app in F2. pose proof (Zlen_nonneg p). apply bytes_ok_app in F3 as [_ Ox].
  destruct (buf_advance_repr _ _ _ _ Hb (Zlen p)) as (b2 & E2 & R2); [rewrite Zlen_app; lia|].
  rewrite to_nat_Zlen, drop_app_length in R2. destruct (buf_write_repr _ _ _ _ Hr x Ox Hx) as (r' & E3 & R3).
  exists r', (set_window b (b_offset b) (Zlen p)). split; [|split; [exact R3|by apply shorten_repr]].
  unfold buf_copy_excess, buf_copy. rewrite (proj2 (Z.ltb_ge (Zlen p) 0)), (proj2 (Z.ltb_lt (Zlen p) (b_len b))) by lia.
  rewrite E2. cbn [negb]. rewrite (buf_bytes_repr _ _ _ _ R2). cbn [res_bind]. by rewrite E3.
Qed.

(** ** Reassembly *)

(** A packet as it is sent. *)
Definition enc (p : bytes) : bytes := be_bytes 2 (Zlen p) ++ p.
Definition packet_ok (ml : Z) (p : bytes) : Prop := bytes_ok p /\ 1 <= Zlen p <= ml.

Lemma stream_head ml ps c rest :
  Forall (packet_ok ml) ps -> ml < 65536 -> c ++ rest = concat (enc <$> ps) -> 2 <= Zlen c ->
  exists p ps', ps = p :: ps' /\ packet_ok ml p /\ take 2 c = be_bytes 2 (Zlen p) /\ be_val (take 2 c) = Zlen p
    /\ drop 2 c ++ rest = p ++ concat (enc <$> ps').
Proof.
  intros Hok Hml E Hc. destruct ps as [|p ps'].
  { cbn in E. apply app_nil in E as [-> _]. by vm_compute in Hc. }
  apply Forall_cons in Hok as [Hp _]. exists p, ps'. cbn [fmap list_fmap concat] in E. unfold enc at 1 in E.
  rewrite <- app_assoc in E. split; [done|]. split; [done|].
  assert (Ht : take 2 c = be_bytes 2 (Zlen p)).
  { assert (Hx : take 2 (c ++ rest) = be_bytes 2 (Zlen p)) by (rewrite E, take_app_le by (rewrite length_be_bytes; lia); by rewrite take_ge by (rewrite length_be_bytes; lia)).
    rewrite take_app_le in Hx by (unfold Zlen in Hc; lia). exact Hx. }
  split; [exact Ht|]. destruct Hp as [_ Hp]. split.
  - rewrite Ht, be_val_bytes. change (256 ^ Z.of_nat 2) with 65536. apply Z.mod_small. lia.
  - rewrite <- (take_drop 2 c), Ht, <- app_assoc in E. by apply app_inv_head in E.
Qed.

Section Reassembly.
Context (h0 room ml : Z) (Hh0 : 0 <= h0) (Hml : 2 <= ml < 65536) (Hroom : ml + 2 <= room).

(** The collected bytes [c] of a packet whose length [l] is known, or not yet (negative), and the
    bytes [r] read beyond the packet before. *)
Record sb_holds (s : stream_buf) (l : Z) (c r : bytes) : Prop := {
  hd_fixed : sb_init s = h0 /\ maxlen s = ml /\ sb_error s = false /\ port_share_state s = PS_DISABLED;
  hd_len : sb_len s = l;
  hd_buf : let h := if l <? 0 then h0 else h0 + 2 in buf_repr (sb_buf s) h c (h0 + room - h - Zlen c);
  hd_residual : buf_repr (residual s) 0 r (ml - Zlen r)
}.
(** What has arrived and is not delivered, for a packet that is not complete. *)
Definition pending (l : Z) (c : bytes) : bytes := if l <? 0 then c else be_bytes 2 l ++ c.
(** A packet is awaited: its length is not known, or not all of it is there. *)
Definition awaits (l : Z) (c : bytes) : Prop := (l = -1 /\ Zlen c <= 1) \/ (1 <= l <= ml /\ Zlen c < l).
(** The room for the next read, behind what was collected. *)
Definition next_room (l : Z) (c : bytes) : Z := (if l <? 0 then ml else l) - Zlen c.

Lemma set_next_spec s l c r :
  sb_holds s l c r -> awaits l c ->
  stream_buf_set_next s = Ret (set_sb_next s (Some (b_offset (sb_buf s) + b_len (sb_buf s), next_room l c)))
  /\ 0 < next_room l c <= ml.
Proof.
  intros [(_ & F2 & _) L B _] A. cbv zeta in B. pose proof (buf_safe_repr _ _ _ _ B) as Sf. buf_facts B. unfold stream_buf_set_next.
  pose proof (Zlen_nonneg c). rewrite L, F2, Flen.
  assert (Hn : (if 0 <=? l then l else ml) - Zlen c = next_room l c /\ 0 < next_room l c <= ml
               /\ next_room l c <= h0 + room - (if l <? 0 then h0 else h0 + 2) - Zlen c).
  { unfold next_room. destruct A as [[-> A]|[A1 A2]]; [cbn; lia|].
    rewrite (proj2 (Z.ltb_ge l 0)), (proj2 (Z.leb_le 0 l)) by lia. lia. }
  destruct Hn as (-> & Hn & Hs). split; [|done]. rewrite (proj2 (Z.ltb_lt 0 _)) by lia.
  rewrite u64_id by (unfold is_u64; lia). rewrite Sf by lia. by rewrite (proj2 (Z.leb_le _ _)) by lia.
Qed.

(** Reading goes on at [next]. *)
Definition goes_on (s : stream_buf) (l : Z) (c : bytes) : Prop :=
  sb_holds s l c [] /\ awaits l c /\ sb_next s = Some (b_offset (sb_buf s) + b_len (sb_buf s), next_room l c).

Lemma waits_spec s l c :
  sb_holds s l c [] -> awaits l c -> exists s', packet_complete s = Ret (false, s') /\ goes_on s' l c
    /\ residual_fully_formed s' = residual_fully_formed s.
Proof.
  intros H A. destruct (set_next_spec _ _ _ _ H A) as [E _]. eexists. split; [|split; [split; [|split]|]].
  - unfold packet_complete. destruct H as [_ L B _]. cbv zeta in B. buf_facts B. rewrite L, Flen.
    destruct A as [[-> _]|[A1 A2]]; cbn [andb]; [|rewrite (proj2 (Z.leb_gt l (Zlen c))), andb_false_r by lia]; by rewrite E.
  - destruct H. by split.
  - done.
  - done.
  - done.
Qed.

Lemma complete_spec s p x :
  sb_holds s (Zlen p) (p ++ x) [] -> 1 <= Zlen p <= ml -> Zlen x <= ml ->
  exists s', packet_complete s = Ret (true, s') /\ sb_holds s' (Zlen p) p x /\ residual_fully_formed s' = residual_fully_formed s.
Proof.
  intros [F L B R] Hp Hx. cbv zeta in B. rewrite (proj2 (Z.ltb_ge (Zlen p) 0)) in B by lia.
  pose proof (buf_repr_fields _ _ _ _ B) as (_ & F2 & _). unfold packet_complete. rewrite L, F2.
  rewrite Zlen_app in *. pose proof (Zlen_nonneg x).
  rewrite (proj2 (Z.ltb_lt 0 _)), (proj2 (Z.leb_le (Zlen p) _)) by lia. cbn [andb].
  destruct (init_repr _ _ _ _ R) as (r0 & E0 & R0). rewrite E0. change (Zlen []) with 0 in R0.
  replace (0 + 0 + (ml - 0)) with ml in R0 by lia.
  destruct (Z.ltb_spec (Zlen p) (Zlen p + Zlen x)) as [Hlt|Hge].
  - destruct (excess_repr _ _ _ _ _ _ _ R0 B Hx ltac:(lia)) as (r' & b' & E & R1 & B1). rewrite E.
    cbn [res_bind]. eexists. split; [reflexivity|]. split; [|done]. split; try done. cbn [sb_buf set_residual set_sb_buf].
    cbv zeta. rewrite (proj2 (Z.ltb_ge (Zlen p) 0)) by lia.
    by replace (h0 + room - (h0 + 2) - Zlen p) with (h0 + room - (h0 + 2) - (Zlen p + Zlen x) + Zlen x) by lia.
  - assert (x = []) as -> by (apply length_zero_iff_nil; unfold Zlen in *; lia). rewrite app_nil_r in *.
    change (Zlen (@nil Z)) with 0 in *. rewrite Z.add_0_r in B.
    eexists. split; [reflexivity|]. split; [|done]. split; try done.
    + cbv zeta. by rewrite (proj2 (Z.ltb_ge (Zlen p) 0)) by lia.
    + cbn [residual set_residual]. change (Zlen (@nil Z)) with 0. by rewrite Z.sub_0_r.
Qed.

(** What [stream_buf_added] answers when [u] has arrived and [rest] follows it. *)
Definition added_to (s' : stream_buf) (complete : bool) (u rest : bytes) (ps : list bytes) : Prop :=
  if complete then exists p ps' x, ps = p :: ps' /\ sb_holds s' (Zlen p) p x /\ x ++ rest = concat (enc <$> ps') /\ Zlen x <= ml
  else exists l c, goes_on s' l c /\ u = pending l c.

Lemma known_spec s l c rest ps :
  sb_holds s l c [] -> 1 <= l <= ml -> Zlen c <= ml -> Forall (packet_ok ml) ps ->
  be_bytes 2 l ++ c ++ rest = concat (enc <$> ps) ->
  exists k s', packet_complete s = Ret (k, s') /\ added_to s' k (be_bytes 2 l ++ c) rest ps
    /\ residual_fully_formed s' = residual_fully_formed s.
Proof.
  intros H Hl Hc Hok E.
  destruct (stream_head ml ps (be_bytes 2 l ++ c) rest Hok ltac:(lia)) as (p & ps' & -> & [Hp Hp2] & T & V & D);
    [by rewrite <- app_assoc|rewrite Zlen_app; unfold Zlen; rewrite length_be_bytes; lia|].
  rewrite take_app_length' in V by (by rewrite length_be_bytes). rewrite drop_app_length' in D by (by rewrite length_be_bytes).
  rewrite be_val_bytes in V. change (256 ^ Z.of_nat 2) with 65536 in V. rewrite Z.mod_small in V by lia. subst l.
  destruct (Z.ltb_spec (Zlen c) (Zlen p)) as [Hlt|Hge].
  - destruct (waits_spec _ _ _ H ltac:(by right)) as (s' & E1 & G & F). exists false, s'. split; [done|]. split; [|done].
    exists (Zlen p), c. split; [done|]. unfold pending. by rewrite (proj2 (Z.ltb_ge (Zlen p) 0)) by lia.
  - assert (Hx : c = p ++ drop (length p) c /\ drop (length p) c ++ rest = concat (enc <$> ps')).
    { assert (T1 : take (length p) (c ++ rest) = p) by (rewrite D; apply take_app_length).
      assert (T2 : drop (length p) (c ++ rest) = concat (enc <$> ps')) by (rewrite D; apply drop_app_length).
      unfold Zlen in Hge. rewrite take_app_le in T1 by lia. rewrite drop_app_le in T2 by lia. split; [|done].
      by rewrite <- T1 at 1; rewrite take_drop. }
    destruct Hx as [Hx Hr]. rewrite Hx in H. set (x := drop (length p) c) in *. clearbody x. subst c.
    rewrite Zlen_app in Hc. pose proof (Zlen_nonneg p).
    destruct (complete_spec _ _ _ H Hl ltac:(lia)) as (s' & E1 & G & F). exists true, s'. split; [done|]. split; [|done].
    exists p, ps', x. split_and!; try done. lia.
Qed.

Lemma added_spec s l c rest ps :
  sb_holds s l c [] -> l = -1 \/ 1 <= l <= ml -> Zlen c <= ml -> Forall (packet_ok ml) ps ->
  pending l c ++ rest = concat (enc <$> ps) ->
  exists k s', stream_buf_added s 0 = Ret (k, s') /\ added_to s' k (pending l c) rest ps
    /\ residual_fully_formed s' = residual_fully_formed s.
Proof.
  intros H Hl Hc Hok E. unfold pending in *. unfold stream_buf_added. cbn [Z.ltb Z.compare].
  pose proof H as [(F1 & F2 & F3 & F4) L B R]. cbv zeta in B. rewrite L, F4.
  pose proof (buf_repr_fields _ _ _ _ B) as (_ & Fl & _). rewrite Fl.
  destruct Hl as [-> | Hl].
  2:{ rewrite (proj2 (Z.ltb_ge l 0)) in * by lia. cbn [andb]. rewrite <- app_assoc in E. by eapply known_spec. }
  cbn [Z.ltb Z.compare andb] in *. destruct (Z.leb_spec 2 (Zlen c)) as [H2|H2].
  2:{ destruct (waits_spec _ _ _ H) as (s' & E1 & G & F); [left; lia|]. exists false, s'. split; [done|].
      split; [|done]. exists (-1), c. done. }
  destruct (stream_head ml ps c rest Hok ltac:(lia) E H2) as (p & ps' & -> & [Hp Hp2] & T & V & D).
  cbn [res_bind negb].
  destruct (buf_read_repr _ _ _ _ B 2) as (b' & Eb & Rb); [lia|]. rewrite Eb. cbn [res_bind].
  change (Z.to_nat 2) with 2%nat in *. rewrite V. cbn [sb_len set_sb_len maxlen set_sb_buf]. rewrite F2.
  rewrite (proj2 (Z.ltb_ge (Zlen p) 1)), (proj2 (Z.ltb_ge ml (Zlen p))) by lia. cbn [orb].
  assert (Hd : Zlen (drop 2 c) = Zlen c - 2) by (unfold Zlen in *; rewrite length_drop; lia).
  assert (Hc2 : c = be_bytes 2 (Zlen p) ++ drop 2 c) by (rewrite <- T; by rewrite take_drop).
  rewrite Hc2. apply (known_spec (set_sb_len (set_sb_buf s b') (Zlen p)) (Zlen p) (drop 2 c) rest (p :: ps'));
    [|done|lia|exact Hok|by rewrite app_assoc, <- Hc2].
  split; [by cbn|done| |done]. cbv zeta. rewrite (proj2 (Z.ltb_ge (Zlen p) 0)) by lia. cbn [sb_buf set_sb_len set_sb_buf].
  by replace (h0 + room - (h0 + 2) - Zlen (drop 2 c)) with (h0 + room - h0 - Zlen c) by lia.
Qed.

(** Between two turns [u] has arrived and is not delivered: it is in the buffer, or it is what was
    read beyond the last packet. *)
Definition idle (s : stream_buf) (u : bytes) : Prop :=
  residual_fully_formed s = false
  /\ ((exists l c, sb_holds s l c [] /\ awaits l c /\ u = pending l c) \/ (sb_holds s (-1) [] u /\ 1 <= Zlen u <= ml)).

(** After the setup there is a packet, or there is room for the next read. *)
Lemma setup_spec s u rest ps :
  idle s u -> Forall (packet_ok ml) ps -> u ++ rest = concat (enc <$> ps) ->
  exists k s', stream_buf_read_setup_dowork s = Ret (negb k, s') /\ added_to s' k u rest ps
    /\ residual_fully_formed s' = k.
Proof.
  intros [Hf Hs] Hok E. unfold stream_buf_read_setup_dowork. destruct Hs as [(l & c & H & A & ->) | [H Hu]].
  - pose proof H as [_ _ _ R]. pose proof (buf_repr_fields _ _ _ _ R) as (_ & Fl & _). rewrite Fl.
    change (Zlen (@nil Z)) with 0. cbn [Z.eqb negb andb res_bind]. rewrite Hf. cbn [negb].
    destruct (set_next_spec _ _ _ _ H A) as [E1 _]. rewrite E1. cbn [res_bind residual_fully_formed set_sb_next].
    rewrite Hf. exists false. eexists. split; [reflexivity|]. split; [|exact Hf].
    exists l, c. split; [|done]. split; [|by split]. destruct H. by split.
  - pose proof H as [F L B R]. cbv zeta in B. cbn [Z.ltb Z.compare] in B.
    pose proof (buf_repr_fields _ _ _ _ R) as (_ & Fl & _ & _ & _ & _ & Fo & _). rewrite Fl, Hf.
    rewrite (proj2 (Z.eqb_neq (Zlen u) 0)) by lia. cbn [negb andb].
    change (Zlen (@nil Z)) with 0 in B.
    destruct (buf_write_repr _ _ _ _ B u Fo ltac:(lia)) as (b' & E1 & B1). cbn [app] in B1.
    unfold buf_copy. rewrite (buf_bytes_repr _ _ _ _ R). cbn [res_bind]. rewrite E1. cbn [res_bind].
    destruct (init_repr _ _ _ _ R) as (r0 & E0 & R0). rewrite E0.
    replace (0 + Zlen u + (ml - Zlen u)) with ml in R0 by lia.
    destruct (added_spec (set_residual (set_sb_buf s b') r0) (-1) u rest ps) as (k & s' & E2 & D & F2); [|by left|lia|done|done|].
    { split; [by cbn|by cbn| |]; cbn [sb_buf residual set_residual set_sb_buf].
      - cbv zeta. cbn [Z.ltb Z.compare]. by replace (h0 + room - h0 - Zlen u) with (h0 + room - h0 - 0 - Zlen u) by lia.
      - change (Zlen (@nil Z)) with 0. by rewrite Z.sub_0_r. }
    rewrite E2. cbn [res_bind]. assert (D' : added_to (set_formed s' k) k u rest ps).
    { destruct k; cbn in D |- *.
      - destruct D as (p & ps' & x & Hp & Hh & Hx). exists p, ps', x. split; [done|]. split; [by destruct Hh; split|done].
      - destruct D as (l & c & (Hh & Hx) & Hu'). exists l, c. split; [|done]. split; [by destruct Hh; split|done]. }
    exists k. destruct k; cbn [residual_fully_formed set_formed negb res_bind].
    + eexists. split; [reflexivity|]. by split.
    + destruct D' as (l & c & (Hh & A & _) & Hu'). destruct (set_next_spec _ _ _ _ Hh A) as [E3 _]. rewrite E3.
      cbn [res_bind]. eexists. split; [reflexivity|]. split; [|done]. exists l, c. split; [|done].
      split; [|by split]. by destruct Hh; split.
Qed.

(** A packet that is complete is handed out, and the buffer starts over. *)
Lemma final_spec s p x :
  sb_holds s (Zlen p) p x -> 1 <= Zlen p -> Zlen x <= ml ->
  exists b, stream_buf_get_final s = Ret b /\ buf_bytes b = Ret p /\ b_len b = Zlen p /\ idle (stream_buf_reset s) x.
Proof.
  intros [F L B R] Hp Hx. cbv zeta in B. rewrite (proj2 (Z.ltb_ge (Zlen p) 0)) in B by lia. exists (sb_buf s).
  pose proof (buf_repr_valid _ _ _ _ B) as [_ Hd]. pose proof (buf_repr_fields _ _ _ _ B) as (_ & Fl & _).
  split; [unfold stream_buf_get_final; by rewrite Hd|].
  split; [exact (buf_bytes_repr _ _ _ _ B)|]. split; [done|].
  destruct F as (F1 & F2 & F3 & F4). pose proof (buf_repr_fields _ _ _ _ B) as (_ & _ & _ & Fh & Ft & _).
  assert (Hh : sb_holds (stream_buf_reset s) (-1) [] x).
  { split; [by cbn|done| |by cbn]. cbv zeta. cbn [Z.ltb Z.compare sb_buf stream_buf_reset]. rewrite F1.
    pose proof (rewind_repr _ _ _ _ h0 B ltac:(lia)) as Rw. change (Zlen (@nil Z)) with 0.
    by replace (h0 + room - h0 - 0) with (h0 + 2 + Zlen p + (h0 + room - (h0 + 2) - Zlen p) - h0) by lia. }
  split; [done|]. destruct x as [|a x].
  - left. exists (-1), []. split; [exact Hh|]. split; [by left; vm_compute|done].
  - right. split; [exact Hh|]. rewrite Zlen_cons in *. pose proof (Zlen_nonneg x). lia.
Qed.

(** Nothing is left over when the stream has ended and no packet is complete. *)
Lemma awaits_incomplete l c ps :
  awaits l c -> Forall (packet_ok ml) ps -> pending l c = concat (enc <$> ps) -> ps = [].
Proof.
  intros A Hok E. destruct ps as [|p ps]; [done|exfalso]. pose proof Hok as Hok'. apply Forall_cons in Hok' as [[_ Hp] _].
  assert (Hlen : Z.of_nat (length (pending l c)) = Z.of_nat (length (enc p ++ concat (enc <$> ps)))) by (by rewrite E).
  unfold enc at 1 in Hlen. rewrite !length_app, length_be_bytes in Hlen. unfold pending, awaits, Zlen in *. destruct A as [[-> A] | [Al A]].
  - cbn [Z.ltb Z.compare] in Hlen. lia.
  - rewrite (proj2 (Z.ltb_ge l 0)) in E by lia.
    destruct (stream_head ml (p :: ps) (be_bytes 2 l ++ c) [] Hok ltac:(lia)) as (q & qs & Eq & _ & _ & V & D);
      [by rewrite app_nil_r|unfold Zlen; rewrite length_app, length_be_bytes; lia|].
    injection Eq as <- <-. rewrite take_app_length' in V by (by rewrite length_be_bytes).
    rewrite drop_app_length' in D by (by rewrite length_be_bytes).
    rewrite be_val_bytes in V. change (256 ^ Z.of_nat 2) with 65536 in V. rewrite Z.mod_small in V by lia.
    rewrite app_nil_r in D. subst c l. rewrite length_app in A. unfold Zlen in A. lia.
Qed.

Lemma bytes_ok_enc ps : Forall (packet_ok ml) ps -> bytes_ok (concat (enc <$> ps)).
Proof.
  induction 1 as [|p ps [Hp _] _ IH]; [apply Forall_nil_2|].
  change (bytes_ok ((be_bytes 2 (Zlen p) ++ p) ++ concat (enc <$> ps))). rewrite !bytes_ok_app. split; [|done]. split; [apply be_bytes_ok|done].
Qed.

(** What one [recv] takes from the stream. *)
Definition chunk (k room : Z) (rest : bytes) : bytes := take (Z.to_nat (Z.max 1 (Z.min k room))) rest.

Lemma chunk_spec k n rest :
  rest <> [] -> 0 < n -> let d := chunk k n rest in
  recv_some k rest n = Some d /\ (1 <= length d)%nat /\ Zlen d <= n /\ rest = d ++ drop (length d) rest.
Proof.
  intros Hr Hn d. split; [unfold recv_some, d, chunk; by destruct rest|]. unfold d, chunk, Zlen. destruct rest as [|a rest']; [done|].
  rewrite length_take. cbn [length]. split; [lia|]. split; [lia|].
  rewrite <- (take_drop (Z.to_nat (Z.max 1 (Z.min k n))) (a :: rest')) at 1. f_equal.
  destruct (decide (Z.to_nat (Z.max 1 (Z.min k n)) <= length (a :: rest')))%nat as [Hle|Hgt].
  - f_equal. cbn [length] in Hle. lia.
  - rewrite !drop_ge; [done| |]; cbn [length] in *; lia.
Qed.

Lemma pending_app l c d rest : pending l (c ++ d) ++ rest = pending l c ++ d ++ rest.
Proof. unfold pending. destruct (l <? 0); by rewrite <- !app_assoc. Qed.

(** Bytes [d] are stored at [next] and taken over. *)
Lemma arrived_spec s l c d rest ps :
  goes_on s l c -> residual_fully_formed s = false -> Forall (packet_ok ml) ps -> bytes_ok d -> (1 <= length d)%nat ->
  Zlen d <= next_room l c -> pending l c ++ d ++ rest = concat (enc <$> ps) ->
  exists b' kk s', buf_poke (sb_buf s) (b_offset (sb_buf s) + b_len (sb_buf s)) d = Ret b'
    /\ stream_buf_added (set_sb_buf s b') (Zlen d) = Ret (kk, s')
    /\ added_to s' kk (pending l (c ++ d)) rest ps /\ residual_fully_formed s' = false.
Proof.
  intros (H & A & _) Hf Hok Od Hd1 Hd2 E. pose proof H as [F L B R]. cbv zeta in B. set (h := if l <? 0 then h0 else h0 + 2) in *.
  assert (Hfit : Zlen d <= h0 + room - h - Zlen c).
  { unfold next_room, h in *. destruct (Z.ltb_spec l 0); destruct A as [[-> A]|[A1 A2]]; lia. }
  destruct (fill_repr _ _ _ _ d B Hfit Od) as (b' & Ep & Rb). 
  assert (Hs : stream_buf_added (set_sb_buf s b') (Zlen d)
               = stream_buf_added (set_sb_buf s (set_window b' (b_offset b') (b_len b' + Zlen d))) 0).
  { assert (Hz : (0 <? Zlen d) = true) by (apply Z.ltb_lt; unfold Zlen; lia). unfold stream_buf_added. rewrite Hz. reflexivity. }
  destruct (added_spec (set_sb_buf s (set_window b' (b_offset b') (b_len b' + Zlen d))) l (c ++ d) rest ps) as (kk & s' & E1 & D & F1).
  - split; [by cbn|done| |done]. cbv zeta. cbn [sb_buf set_sb_buf]. fold h. rewrite Zlen_app.
    by replace (h0 + room - h - (Zlen c + Zlen d)) with (h0 + room - h - Zlen c - Zlen d) by lia.
  - destruct A as [[-> _]|[? _]]; [by left|by right].
  - rewrite Zlen_app. unfold next_room in Hd2. destruct (l <? 0) eqn:El; destruct A as [[-> ?]|[? ?]]; try lia.
  - done.
  - by rewrite pending_app.
  - exists b', kk, s'. rewrite Hs, E1. split_and!; try done. rewrite F1. exact Hf.
Qed.

(** A read of one to [next_room] bytes. *)
Lemma read_spec k s l c rest ps :
  goes_on s l c -> residual_fully_formed s = false -> Forall (packet_ok ml) ps -> rest <> [] ->
  pending l c ++ rest = concat (enc <$> ps) ->
  let d := chunk k (next_room l c) rest in
  exists pkt s', link_socket_read_tcp true (recv_some k rest) s = Ret (match pkt with Some b => b_len b | None => 0 end, pkt, false, s')
    /\ match pkt with
       | Some b => exists p ps' u, ps = p :: ps' /\ buf_bytes b = Ret p /\ idle s' u
                     /\ u ++ drop (length d) rest = concat (enc <$> ps')
       | None => exists u, idle s' u /\ u ++ drop (length d) rest = concat (enc <$> ps)
       end /\ (1 <= length d)%nat.
Proof.
  intros G Hf Hok Hr E d. pose proof G as (H & A & N). destruct (set_next_spec _ _ _ _ H A) as [_ Hroom2].
  destruct (chunk_spec k (next_room l c) rest Hr ltac:(lia)) as (Erecv & Hd1 & Hd2 & Hd3). fold d in Erecv, Hd1, Hd2, Hd3.
  assert (Od : bytes_ok d).
  { pose proof (bytes_ok_enc ps Hok) as O. rewrite <- E in O. apply bytes_ok_app in O as [_ O].
    rewrite Hd3 in O. by apply bytes_ok_app in O as [O _]. }
  rewrite Hd3 in E. destruct (arrived_spec _ _ _ _ _ _ G Hf Hok Od Hd1 Hd2 E) as (b' & kk & s' & Ep & E1 & D & F1).
  unfold link_socket_read_tcp. rewrite Hf. cbn [negb andb]. unfold stream_buf_get_next. rewrite N.
  destruct H as [_ _ B _]. pose proof (buf_repr_valid _ _ _ _ B) as [_ Hdef]. rewrite Hdef. cbn [res_bind].
  rewrite Erecv, (proj2 (Z.ltb_ge (next_room l c) (Zlen d))) by lia. rewrite Ep. cbn [res_bind].
  change (residual_fully_formed (set_sb_buf s b')) with (residual_fully_formed s). rewrite Hf. cbn [negb andb].
  rewrite (proj2 (Z.leb_gt (Zlen d) 0)) by (unfold Zlen; lia). rewrite E1. cbn [res_bind].
  destruct kk; cbn in D.
  - destruct D as (p & ps' & x & -> & Hh & Ex & Hx). apply Forall_cons in Hok as [[_ Hp] _].
    destruct (final_spec _ _ _ Hh ltac:(lia) Hx) as (b & E2 & Hb & Hl & Hi). rewrite E2. cbn [res_bind].
    exists (Some b), (stream_buf_reset s'). split; [done|]. split; [|done]. exists p, ps', x. done.
  - destruct D as (l' & c' & (Hh & A' & _) & Hu). exists None, s'. split; [done|]. split; [|done].
    exists (pending l (c ++ d)). split; [|by rewrite pending_app]. split; [done|]. left. exists l', c'. done.
Qed.

(** What a turn does: it delivers the next packet, or reads some more, or there is no more. *)
Lemma receive_one_spec k s u rest ps :
  idle s u -> Forall (packet_ok ml) ps -> u ++ rest = concat (enc <$> ps) ->
  exists pkt rest' s', receive_one k rest s = Ret (pkt, rest', s') /\
    match pkt with
    | Some b => exists p ps' u', ps = p :: ps' /\ buf_bytes b = Ret p /\ idle s' u' /\ u' ++ rest' = concat (enc <$> ps')
                  /\ (length rest' <= length rest)%nat
    | None => exists u', idle s' u' /\ u' ++ rest' = concat (enc <$> ps)
                /\ ((length rest' < length rest)%nat \/ rest = [] /\ rest' = [] /\ ps = [])
    end.
Proof.
  intros Hi Hok E. destruct (setup_spec _ _ _ _ Hi Hok E) as (kk & s' & E1 & D & F). unfold receive_one.
  rewrite E1. cbn [res_bind]. destruct kk; cbn [negb]; cbn in D.
  - destruct D as (p & ps' & x & -> & Hh & Ex & Hx). apply Forall_cons in Hok as [[_ Hp] _].
    destruct (final_spec _ _ _ Hh ltac:(lia) Hx) as (b & E2 & Hb & Hl & Hi'). unfold link_socket_read_tcp.
    rewrite F. cbn [negb andb res_bind]. rewrite F. cbn [negb andb res_bind]. rewrite E2. cbn [res_bind].
    exists (Some b), rest, (stream_buf_reset s'). split; [by destruct (sb_next s') as [[? ?]|]|].
    exists p, ps', x. done.
  - destruct D as (l & c & G & ->). pose proof G as (_ & A & N). rewrite N.
    destruct (decide (rest = [])) as [-> | Hr].
    + rewrite app_nil_r in E. pose proof (awaits_incomplete _ _ _ A Hok E) as ->.
      unfold link_socket_read_tcp. rewrite F. cbn [negb andb]. unfold stream_buf_get_next. rewrite N.
      destruct G as ([FF L B R] & _ & _). pose proof (buf_repr_valid _ _ _ _ B) as [_ Hdef]. rewrite Hdef.
      cbn [res_bind recv_some]. rewrite F. cbn [negb andb Z.leb Z.compare res_bind default length drop].
      exists None, [], s'. split; [done|]. exists (pending l c). split; [|split; [by rewrite app_nil_r|by right]].
      split; [done|]. left. exists l, c. split; [by split|done].
    + destruct (read_spec k _ _ _ _ _ G F Hok Hr E) as (pkt & s2 & E2 & D & Hd). rewrite E2. cbn [res_bind].
      pose proof G as (Hh & Ha & _). destruct (set_next_spec _ _ _ _ Hh Ha) as [_ Hn].
      destruct (chunk_spec k (next_room l c) rest Hr ltac:(lia)) as (Er & _). rewrite Er. cbn [default id].
      set (d := chunk k (next_room l c) rest) in *. assert (Hlr : (1 <= length rest)%nat) by (destruct rest; [done|cbn; lia]).
      exists pkt, (drop (length d) rest), s2. split; [done|]. destruct pkt as [b|].
      * destruct D as (p & ps' & u & Hp & Hb & Hu & Hx). exists p, ps', u. rewrite length_drop. split_and!; try done. lia.
      * destruct D as (u & Hu & Hx). exists u. split; [done|]. split; [done|]. left. rewrite length_drop. lia.
Qed.

Lemma receive_spec ks : forall s u rest ps,
  idle s u -> Forall (packet_ok ml) ps -> u ++ rest = concat (enc <$> ps) ->
  exists out rest' s', receive ks rest s = Ret (out, rest', s') /\ out `prefix_of` ps
    /\ ((length rest + length ps <= length ks)%nat -> out = ps).
Proof.
  induction ks as [|k ks IH]; intros s u rest ps Hi Hok E.
  { exists [], rest, s. split; [done|]. split; [apply prefix_nil|]. cbn. destruct ps; [done|]. cbn. lia. }
  destruct (receive_one_spec k _ _ _ _ Hi Hok E) as (pkt & rest1 & s1 & E1 & D). cbn [receive]. rewrite E1. cbn [res_bind].
  destruct pkt as [b|].
  - destruct D as (p & ps' & u' & -> & Hb & Hu & Ex & Hle). rewrite Hb. cbn [res_bind]. apply Forall_cons in Hok as [_ Hok].
    destruct (IH _ _ _ _ Hu Hok Ex) as (out & rest2 & s2 & E2 & Hp & Hall). rewrite E2. cbn [res_bind app].
    exists (p :: out), rest2, s2. split; [done|]. split; [by apply prefix_cons|].
    cbn [length]. intros Hlen. rewrite Hall; [done|lia].
  - destruct D as (u' & Hu & Ex & Hd). cbn [res_bind].
    destruct (IH _ _ _ _ Hu Hok Ex) as (out & rest2 & s2 & E2 & Hp & Hall). rewrite E2. cbn [res_bind app].
    exists out, rest2, s2. split; [done|]. split; [done|]. cbn [length]. intros Hlen.
    destruct Hd as [Hd | (-> & -> & ->)]; [apply Hall; lia|]. by apply prefix_nil_inv in Hp.
Qed.

(** The state after the buffer is set up. *)
Lemma stream_init_spec buf :
  buf_repr (set_window buf h0 0) h0 [] room -> b_offset buf = h0 -> b_len buf = ml ->
  exists s, stream_buf_init buf false = Ret s /\ idle s [].
Proof.
  intros B Ho Hl. unfold stream_buf_init. rewrite Ho, Hl, u64_id by (unfold is_u64; lia).
  destruct (alloc_buf_repr ml) as [Ea Hr]; [lia|]. rewrite (proj2 (Z.ltb_lt ml _)) in Ea by (unfold BUF_SIZE_MAX; lia).
  rewrite Ea. cbn [res_bind]. specialize (Hr ltac:(unfold BUF_SIZE_MAX; lia)).
  eexists. split; [reflexivity|]. split; [done|]. left. exists (-1), []. split; [|split; [by left; vm_compute|done]].
  split; [by cbn|done| |cbn [residual stream_buf_reset]; change (Zlen (@nil Z)) with 0; by rewrite Z.sub_0_r].
  cbv zeta. cbn [Z.ltb Z.compare sb_buf stream_buf_reset sb_init]. change (Zlen (@nil Z)) with 0 in *.
  by replace (h0 + room - h0 - 0) with room by lia.
Qed.
End Reassembly.

Lemma frame_init_spec f :
  0 <= headroom f -> 2 <= payload_size f < 65536 -> 2 <= tailroom f -> BUF_SIZE f < BUF_SIZE_MAX ->
  exists s, socket_frame_init f true false = Ret (Some s) /\ idle (headroom f) (payload_size f + tailroom f) (payload_size f) s [].
Proof.
  intros Hh Hp Ht Hs. destruct (alloc_sock_tun_spec f Hh ltac:(lia) ltac:(lia) Hs) as (b & b' & E & _ & _ & _ & Ei & R).
  assert (Hb : b_offset b = headroom f /\ b_len b = payload_size f).
  { revert E. unfold alloc_buf_sock_tun. destruct (alloc_buf _) as [b0| |]; [cbn [res_bind]|done|done].
    unfold buf_init_dowork. destruct (_ || _); [done|]. cbn [b_offset set_window].
    destruct (buf_safe _ _); [|done]. by intros [= <-]. }
  destruct Hb as [Ho Hl]. unfold buf_init_dowork in Ei. destruct (_ || _); [discriminate Ei|]. injection Ei as <-.
  destruct (stream_init_spec (headroom f) (payload_size f + tailroom f) (payload_size f) Hp b R Ho Hl) as (s & Es & I).
  exists s. split; [|done]. unfold socket_frame_init. rewrite E. cbn [res_bind]. by rewrite Es.
Qed.

(** The packet on the wire. *)
Lemma write_tcp_spec ml b h p t :
  buf_repr b h p t -> 2 <= h -> packet_ok ml p -> ml < 65536 ->
  exists b', link_socket_write_tcp ml b = Ret b' /\ buf_bytes b' = Ret (enc p).
Proof.
  intros B Hh [Op Hp] Hml. unfold link_socket_write_tcp. rewrite (buf_len_repr _ _ _ _ B), u16_id by (unfold is_u16; lia).
  rewrite (proj2 (Z.leb_le _ _)) by lia.
  destruct (buf_write_prepend_repr _ _ _ _ B (be_bytes 2 (Zlen p))) as (b' & E & R); [apply be_bytes_ok|rewrite Zlen_be_bytes; lia|].
  rewrite E. cbn [res_bind]. exists b'. split; [done|]. exact (buf_bytes_repr _ _ _ _ R).
Qed.

Lemma wire_spec ml sent wire ps :
  ml < 65536 -> Forall2 (fun b p => exists h t, buf_repr b h p t /\ 2 <= h /\ packet_ok ml p) sent ps ->
  write_all ml sent = Ret wire -> wire = concat (enc <$> ps) /\ Forall (packet_ok ml) ps.
Proof.
  intros Hml H. revert wire. induction H as [|b p sent ps (h & t & B & Hh & Hp) _ IH]; cbn [write_all].
  { intros wire [= <-]. split; [done|apply Forall_nil_2]. }
  intros wire. destruct (write_tcp_spec ml b h p t B Hh Hp Hml) as (b' & -> & Eb). cbn [res_bind]. rewrite Eb. cbn [res_bind].
  destruct (write_all ml sent) as [w| |]; [|done|done]. cbn [res_bind]. intros [= <-].
  destruct (IH w eq_refl) as [-> Hok]. split; [done|by constructor].
Qed.

Lemma write_all_ok ml sent ps :
  ml < 65536 -> Forall2 (fun b p => exists h t, buf_repr b h p t /\ 2 <= h /\ packet_ok ml p) sent ps ->
  exists wire, write_all ml sent = Ret wire.
Proof.
  intros Hml H. induction H as [|b p sent ps (h & t & B & Hh & Hp) _ [w IH]]; cbn [write_all]; [by eexists|].
  destruct (write_tcp_spec ml b h p t B Hh Hp Hml) as (b' & -> & Eb). cbn [res_bind]. rewrite Eb. cbn [res_bind].
  rewrite IH. by eexists.
Qed.

(** C20: packets sent over TCP arrive as they were sent, whatever pieces of the stream [recv]
    returns: for buffers of 1 to [payload_size] bytes with room for the length in front,
    [link_socket_write_tcp] succeeds on each, and the receiver, initialised by
    [socket_frame_init], delivers in any number of turns of its event loop a prefix of the packets
    sent, in order and unchanged, without an assertion, an error or a read out of bounds; with
    as many turns as there are bytes and packets, all of them. *)
Theorem tcp_stream_roundtrip (f : frame) (sent : list buffer) (ps : list bytes) :
  0 <= headroom f -> 2 <= payload_size f < 65536 -> 2 <= tailroom f -> BUF_SIZE f < BUF_SIZE_MAX ->
  Forall2 (fun b p => exists h t, buf_repr b h p t /\ 2 <= h /\ packet_ok (payload_size f) p) sent ps ->
  exists wire s, write_all (payload_size f) sent = Ret wire /\ socket_frame_init f true false = Ret (Some s)
    /\ forall ks, exists out rest s', receive ks wire s = Ret (out, rest, s') /\ out `prefix_of` ps
         /\ ((length wire + length ps <= length ks)%nat -> out = ps).
Proof.
  intros Hh Hp Ht Hs H. destruct (write_all_ok _ _ _ (proj2 Hp) H) as (wire & Ew).
  destruct (wire_spec _ _ _ _ (proj2 Hp) H Ew) as [-> Hok].
  destruct (frame_init_spec f Hh Hp Ht Hs) as (s & Es & I). exists (concat (enc <$> ps)), s. split; [done|]. split; [done|].
  intros ks. eapply (receive_spec (headroom f) (payload_size f + tailroom f) (payload_size f)); [done|done|lia|exact I|exact Hok|done].
Qed.

(** A length in front that no packet can have is an error, and the collected bytes are dropped. *)
Lemma bad_length_spec h0 room ml s c :
  sb_holds h0 room ml s (-1) c [] -> 2 <= Zlen c -> be_val (take 2 c) < 1 \/ ml < be_val (take 2 c) ->
  exists s', stream_buf_added s 0 = Ret (false, s') /\ sb_error s' = true /\ sb_len s' = -1 /\ b_len (sb_buf s') = 0.
Proof.
  intros [(F1 & F2 & F3 & F4) L B R] Hc Hv. cbv zeta in B. cbn [Z.ltb Z.compare] in B. unfold stream_buf_added.
  cbn [Z.ltb Z.compare]. pose proof (buf_repr_fields _ _ _ _ B) as (_ & Fl & _).
  rewrite L, F4, Fl, (proj2 (Z.leb_le 2 (Zlen c))) by lia. cbn [Z.ltb Z.compare andb res_bind negb].
  destruct (buf_read_repr _ _ _ _ B 2) as (b' & Eb & Rb); [lia|]. rewrite Eb. cbn [res_bind].
  change (Z.to_nat 2) with 2%nat. cbn [sb_len set_sb_len maxlen set_sb_buf]. rewrite F2.
  assert (Hb : (be_val (take 2 c) <? 1) || (ml <? be_val (take 2 c)) = true).
  { apply orb_true_iff. destruct Hv; [left|right]; by apply Z.ltb_lt. }
  rewrite Hb. by eexists.
Qed.

(** ** Examples *)
Definition tcp_frame : frame := mk_frame 16 4 4 0 0 0 0 0.
Definition tcp_packet (p : bytes) : buffer :=
  mk_buffer (2 + Zlen p) 2 (Zlen p) (Some ([0; 0] ++ p)).
Definition tcp_packets : list bytes := [[1; 2; 3]; [9]; [7; 7; 0; 1]].

Lemma tcp_packet_repr p : bytes_ok p -> Zlen p < 1000 -> buf_repr (tcp_packet p) 2 p 0.
Proof.
  intros Ho Hl. exists [0; 0], []. unfold buf_split, tcp_packet, BUF_SIZE_MAX.
  cbn [b_data b_offset b_len b_capacity]. rewrite app_nil_r. change (Zlen [0; 0]) with 2. change (Zlen (@nil Z)) with 0.
  pose proof (Zlen_nonneg p). split_and!; try done; try lia; repeat (constructor; [unfold is_u8; lia|]); constructor.
Qed.

(** One byte at a time, three packets arrive. *)
Example tcp_run :
  (let! w := write_all 16 (tcp_packet <$> tcp_packets) in
   let! s := socket_frame_init tcp_frame true false in
   match s with Some s => let! (out, _, _) := receive (replicate 20 1) w s in Ret out | None => Fatal end)
  = Ret tcp_packets.
Proof. reflexivity. Qed.

Lemma tcp_stream_roundtrip_witness :
  exists wire s, write_all 16 (tcp_packet <$> tcp_packets) = Ret wire /\ socket_frame_init tcp_frame true false = Ret (Some s)
    /\ forall ks, exists out rest s', receive ks wire s = Ret (out, rest, s') /\ out `prefix_of` tcp_packets
         /\ ((length wire + 3 <= length ks)%nat -> out = tcp_packets).
Proof.
  apply (tcp_stream_roundtrip tcp_frame (tcp_packet <$> tcp_packets) tcp_packets); cbn; try lia; [unfold BUF_SIZE, BUF_SIZE_MAX; cbn; lia|].
  assert (H : forall p, bytes_ok p -> 1 <= Zlen p <= 16 -> exists h t, buf_repr (tcp_packet p) h p t /\ 2 <= h /\ packet_ok 16 p).
  { intros p Ho Hl. exists 2, 0. split; [apply tcp_packet_repr; [done|lia]|]. split; [lia|by split]. }
  unfold tcp_packets. cbn [fmap list_fmap]. rewrite !Forall2_cons, Forall2_nil.
  split_and!; [apply H..|done]; unfold bytes_ok; rewrite ?Forall_cons; unfold is_u8, Zlen; cbn; rewrite ?Forall_nil; try lia.
Defined.
