(* ===== verification/WireSize.v ===== *)
(** * Sizes of data packets on the link

    That [packet_size] of FrameCalc is the size of what the encryption code writes: for the AEAD
    formats over the whole of [encrypt_sign], for CBC, OFB, CFB and no cipher over
    [openvpn_encrypt_v1], with what the library puts out for a plaintext as a hypothesis. *)

From Stdlib Require Import String.
From S2P Require Import Prelude CircList Buffer PacketId Mtu Fragment KeyCtx SampleLib Epoch Crypto Aead Channel.
From S2P Require Import FrameCalc DataPath StreamBuf.
#[local] Open Scope Z_scope.

(** ** Windows that grow *)
Lemma write_alloc_len b n p b' :
  buf_write_alloc b n = (Some p, b') -> 0 <= n -> b_len b' = b_len b + n /\ b_offset b' = b_offset b.
Proof.
  unfold buf_write_alloc. destruct (buf_safe b n) eqn:E; [|done]. intros [= _ <-] Hn.
  unfold buf_safe, buf_size_valid, BUF_SIZE_MAX in E. rewrite !andb_true_iff, Z.ltb_lt in E.
  cbn. rewrite s32_id; [done|]. unfold is_int, INT_MIN, INT_MAX. lia.
Qed.
Lemma prepend_len b n p b' :
  buf_prepend b n = (p, b') -> p <> None ->
  b_len b' = b_len b + n /\ b_offset b' = b_offset b - n /\ b_data b' = b_data b.
Proof. unfold buf_prepend. destruct (_ || _); intros [= <- <-] H; done. Qed.
Lemma write_len b d b' : buf_write b d = Ret (true, b') -> b_len b' = b_len b + Zlen d.
Proof.
  unfold buf_write. destruct (buf_write_alloc b (Zlen d)) as [[p|] w] eqn:E; [|done]. intros H. inv_steps H.
  apply write_alloc_len in E as [<- _]; [|apply Zlen_nonneg].
  match goal with Hx : buf_poke _ _ _ = Ret _ |- _ => by apply poke_window in Hx as [_ ->] end.
Qed.
Lemma write_prepend_len b d b' :
  buf_write_prepend b d = Ret (true, b') -> b_len b' = b_len b + Zlen d /\ b_offset b' = b_offset b - Zlen d.
Proof.
  unfold buf_write_prepend. destruct (buf_prepend b (Zlen d)) as [[p|] w] eqn:E; [|done]. intros H. inv_steps H.
  apply prepend_len in E as (<- & <- & _); [|done].
  by match goal with Hx : buf_poke _ _ _ = Ret _ |- _ => apply poke_window in Hx as [-> ->] end.
Qed.
Lemma append_len w out w' : append_out w out = Ret w' -> b_len w' = b_len w + Zlen out.
Proof.
  unfold append_out. intros H. inv_step H. apply poke_window in E as [_ <-]. revert H. unfold buf_inc_len.
  destruct (buf_safe_bidir x (Zlen out)); cbn [negb]; [|done]. by intros [= <-].
Qed.
Lemma bytes_len b c : buf_bytes b = Ret c -> b_data b <> None -> 0 <= b_len b -> Zlen c = b_len b.
Proof.
  unfold buf_bytes, mem_read. destruct (b_data b) as [d|]; [|done]. intros H _ Hl.
  rewrite (proj2 (Z.leb_le _ _)) in H by done. inv_step H. inv_step H.
  rewrite !andb_true_iff, !Z.leb_le in E. unfold Zlen in *. rewrite length_take, length_drop. lia.
Qed.

(** A packet identifier in front of the contents. *)
Lemma write_prepend_data b d b' : buf_write_prepend b d = Ret (true, b') -> b_data b' <> None.
Proof.
  unfold buf_write_prepend. destruct (buf_prepend b (Zlen d)) as [[p|] w]; [|done]. intros H. inv_step H. inv_step H.
  revert E. unfold buf_poke. destruct (b_data w); [|done]. intros H. by inv_steps H.
Qed.
Lemma pid_prepend_len now p buf (lf : bool) p' b' :
  packet_id_write now p buf lf true = Ret (true, p', b') ->
  let n := if lf then 8 else 4 in
  b_len b' = b_len buf + n /\ b_offset b' = b_offset buf - n /\ b_data b' <> None.
Proof.
  unfold packet_id_write. intros H. inv_step H. inv_step H. inv_step H. inv_step H. inv_step H. inv_step H.
  pose proof (write_prepend_data _ _ _ E3) as Hd. apply write_prepend_len in E3 as [L2 O2]. rewrite Zlen_be_bytes in *.
  cbv zeta. destruct lf.
  - destruct a; [|done]. apply write_prepend_len in E1 as [L O]. rewrite Zlen_be_bytes in *. split_and!; [lia|lia|done].
  - inv_step E1. split_and!; [lia|lia|done].
Qed.

(** ** CBC, OFB, CFB and no cipher *)
Section V1.
Context {cipher_ctx hmac_ctx : Type} `{CL : CryptoLib cipher_ctx hmac_ctx} `{DL : !DeriveLaws cipher_ctx hmac_ctx}.
#[local] Abbreviation crypto_options := (KeyCtx.crypto_options cipher_ctx hmac_ctx).
Context (kt : key_type) (kb : bytes) (now : Z) (prng : bytes) (buf work : buffer) (opt : crypto_options).
Context (hb : Z) (plain : bytes) (tb : Z).
Abbreviation ctx := (bi_encrypt (co_keys opt)).
Abbreviation cn := (kt_cipher kt).
Abbreviation cipher := (cipher_ctx_init kb cn true).
Abbreviation long_form := (flag opt CO_PACKET_ID_LONG_FORM).
(** The mode of the context is that of the cipher. *)
Context (Hcbc : cipher_ctx_mode_cbc (Some cipher) = cipher_kt_mode_cbc cn).
Context (Hpid : packet_id_initialized (co_packet_id opt) = true).
Context (Hbuf : buf_repr buf hb plain tb).

(** What is encrypted: with CBC the identifier goes in front of the payload. *)
Lemma v1_iv_len iv_buf buf' opt' d :
  encrypt_v1_iv now prng buf opt cipher = Ret (true, iv_buf, buf', opt') -> buf_bytes buf' = Ret d ->
  Zlen d = (if cipher_kt_mode_cbc cn then if long_form then 8 else 4 else 0) + Zlen plain.
Proof using Hcbc Hpid Hbuf.
  unfold encrypt_v1_iv. rewrite Hcbc, Hpid. buf_facts Hbuf. pose proof (Zlen_nonneg plain). intros He Hd.
  destruct (cipher_kt_mode_cbc cn).
  - inv_step He. inv_step He. inv_step He. apply pid_prepend_len in E0 as (L & _ & Hn).
    apply bytes_len in Hd; [|done|]; destruct long_form; lia.
  - inv_step He. inv_step He. inv_step He. inv_step He. inv_step He.
    rewrite (buf_bytes_repr _ _ _ _ Hbuf) in Hd. by injection Hd as <-.
Qed.

Context (Hk : sizes_ok kt) (Ha : cipher_kt_mode_aead cn = false).
(** The contexts that [init_key_ctx] gives for the key type. *)
Context (Hcipher : ctx_cipher ctx = if cipher_defined cn then Some cipher else None).
Context (Hhmac : match ctx_hmac ctx with
                 | Some h => md_defined (kt_digest kt) = true /\ hmac_ctx_size h = md_kt_size (kt_digest kt)
                 | None => md_defined (kt_digest kt) = false end).
(** The library: CBC pads to the next multiple of the block, and the stream modes put out as many
    bytes as they take. *)
Context (Hout : forall iv d out1 out2, cipher_ctx_update cipher iv [] d = Some out1 ->
  cipher_ctx_final cipher iv [] d = Some out2 ->
  Zlen out1 + Zlen out2 = if cipher_kt_mode_cbc cn then cbc_size kt (Zlen d) else Zlen d).
Context (Hwork : buf_valid work = true) (Hroom : b_len work + 72 <= hb).

Lemma hmac_size_of : match ctx_hmac ctx with Some h => hmac_ctx_size h | None => 0 end = hmac_size kt /\ 0 <= hmac_size kt <= 64.
Proof using Hk Hhmac.
  destruct Hk as [_ _ _ Hmd]. unfold OPENVPN_MAX_HMAC_SIZE in Hmd. unfold hmac_size.
  destruct (ctx_hmac ctx); [destruct Hhmac as [-> ->]|rewrite Hhmac]; lia.
Qed.

(** With a cipher: the HMAC, the vector, and what the cipher puts out. *)
Lemma v1_cipher_len w iv_buf buf' opt' d iv w1 w2 w3 out1 out2 :
  b_len w = b_len work + hmac_size kt ->
  encrypt_v1_iv now prng buf opt cipher = Ret (true, iv_buf, buf', opt') -> buf_bytes buf' = Ret d ->
  mem_read iv_buf 0 (cipher_ctx_iv_length cipher) = Ret iv -> buf_write w iv = Ret (true, w1) ->
  cipher_ctx_update cipher iv [] d = Some out1 -> cipher_ctx_final cipher iv [] d = Some out2 ->
  append_out w1 out1 = Ret w2 -> append_out w2 out2 = Ret w3 -> cipher_defined cn = true ->
  b_len w3 = b_len work + data_packet_size kt long_form false (Zlen plain).
Proof using Hcbc Hpid Hbuf Hout Ha Hk DL.
  intros Hw He Hd Hiv Hwr Hu Hf H1 H2 Hcd. apply (v1_iv_len _ _ _ _ He) in Hd. apply (Hout _ _ _ _ Hu) in Hf.
  apply write_len in Hwr. apply append_len in H1, H2. rewrite law_iv_length in Hiv.
  assert (Zlen iv = cipher_kt_iv_size cn).
  { unfold mem_read in Hiv. inv_step Hiv. inv_step Hiv. rewrite !andb_true_iff, !Z.leb_le in E.
    unfold Zlen in *. rewrite length_take, length_drop. lia. }
  unfold data_packet_size, format_of. rewrite Ha, Hcd. cbn [negb].
  destruct (cipher_kt_mode_cbc cn); rewrite Hd in Hf; lia.
Qed.

(** Without one: the HMAC and the identifier in front of the payload, and the header in front of that. *)
Lemma v1_clear_len p' b1 mac start b2 b3 :
  packet_id_write now (pid_send (co_packet_id opt)) buf long_form true = Ret (true, p', b1) ->
  match ctx_hmac ctx with
  | Some h => let '(p, buf) := buf_prepend b1 (hmac_ctx_size h) in
              match p with Some _ => Ret (p, b_offset b1, buf) | None => Fatal end
  | None => Ret (None, 0, b1)
  end = Ret (mac, start, b2) ->
  (if negb (buf_len work =? 0)
   then let! w := buf_bytes work in let! (_, buf) := buf_write_prepend b2 w in Ret buf
   else Ret b2) = Ret b3 ->
  b_len b3 = b_len work + (hmac_size kt + (if long_form then 8 else 4) + Zlen plain).
Proof using Hbuf Hk Hhmac Hwork Hroom.
  intros H1 H2 H3. buf_facts Hbuf. destruct hmac_size_of as [Eh Hh]. pose proof (Zlen_nonneg plain).
  apply pid_prepend_len in H1 as (L1 & O1 & D1).
  assert (H' : b_len b2 = b_len b1 + hmac_size kt /\ b_offset b2 = b_offset b1 - hmac_size kt /\ b_data b2 = b_data b1).
  { destruct (ctx_hmac ctx) as [h|]; [|inv_step H2; split_and!; [lia|lia|done]].
    destruct (buf_prepend b1 (hmac_ctx_size h)) as [[q|] b'] eqn:E; [|done]. inv_step H2. rewrite <- Eh.
    by apply prepend_len in E. }
  destruct H' as (L2 & O2 & D2). unfold buf_len in H3. rewrite Hwork in H3.
  assert (Hv : b_data work <> None /\ 0 <= b_len work).
  { revert Hwork. unfold buf_valid, buf_defined. destruct (b_data work); [|done]. split; [done|]. by apply Z.leb_le. }
  destruct Hv as [Dw Lw]. destruct (Z.eqb_spec (b_len work) 0) as [E0|]; cbn [negb] in H3.
  - inv_step H3. destruct long_form; lia.
  - inv_step H3. apply bytes_len in E; [|done|done]. inv_step H3. inv_step H3.
    assert (a = true) as ->.
    { revert E0. unfold buf_write_prepend, buf_prepend, buf_bptr, buf_valid, buf_defined. cbn [b_data b_len b_offset set_window].
      rewrite D2. destruct (b_data b1); [|done].
      rewrite !(proj2 (Z.leb_le 0 _)), !(proj2 (Z.ltb_ge _ _)) by (destruct long_form; lia). cbn [andb orb negb].
      intros E0. by inv_steps E0. }
    apply write_prepend_len in E0 as [-> _]. destruct long_form; lia.
Qed.

Lemma encrypt_v1_size p opt' :
  openvpn_encrypt_v1 now prng buf work opt = Ret (p, opt') -> 0 < b_len buf ->
  b_len p = 0 \/ b_len p = b_len work + data_packet_size kt long_form false (Zlen plain).
Proof using All.
  intros He Hl. unfold openvpn_encrypt_v1 in He. rewrite (proj2 (Z.ltb_lt _ _)) in He by done.
  destruct hmac_size_of as [Eh Hh]. inv_step He.
  assert (Hb : a = true -> b_len b0 = b_len work + data_packet_size kt long_form false (Zlen plain)).
  { clear He. rewrite Hcipher, Hpid in E. destruct (cipher_defined cn) eqn:Hcd.
    - inv_step E. assert (Hw : b_len b4 = b_len work + hmac_size kt).
      { destruct (ctx_hmac ctx) as [h|]; [|inv_step E0; lia].
        destruct (buf_write_alloc work (u64 (hmac_ctx_size h))) as [[q|] w] eqn:Ew; [|done]. inv_step E0.
        apply write_alloc_len in Ew as [-> _]; rewrite Eh, u64_id by (unfold is_u64; lia); lia. }
      inv_step E. inv_step E; [by inv_steps E|]. inv_step E. inv_step E. inv_step E. inv_step E. inv_step E; [by inv_steps E|].
      inv_step E. inv_step E. inv_step E. inv_step E. inv_step E. inv_step E. inv_step E.
      match goal with Hn : negb ?x = false, He : encrypt_v1_iv _ _ _ _ _ = Ret (?x, _, _, _) |- _ => destruct x; [|done] end.
      by eapply v1_cipher_len.
    - inv_step E. inv_step E; [by inv_steps E|]. inv_step E. inv_step E. inv_step E.
      match goal with Hn : negb ?x = false, He : packet_id_write _ _ _ _ _ = Ret (?x, _, _) |- _ => destruct x; [|done] end.
      unfold data_packet_size, format_of. rewrite Ha, Hcd. cbn [negb]. by eapply v1_clear_len. }
  destruct a; cbn [negb] in He; [|inv_step He; by left]. right. rewrite <- Hb by done.
  inv_step He; [|by inv_steps He]. inv_steps He.
  by match goal with Hx : buf_poke _ _ _ = Ret _ |- _ => apply poke_window in Hx as [_ ->] end.
Qed.
End V1.

(** ** AEAD, on the whole way of a tunnel packet *)
Section Aead.
Context {cipher_ctx hmac_ctx : Type} `{CL : CryptoLib cipher_ctx hmac_ctx}.
Context `{DL : !DeriveLaws cipher_ctx hmac_ctx} `{AL : !AeadLaws cipher_ctx hmac_ctx}.
Context (compress : option (buffer -> res buffer)).

(** What [encrypt_sign] leaves for the link has the size [packet_size] says, over UDP without a proxy. *)
Lemma encrypt_sign_size (kt : key_type) (o : options) (lsi : link_socket_info) (now : Z) (prng : bytes)
    (comp_frag : bool) (c : path_ctx) (m : tls_multi) (i : Z) (k : key_state) (plain : bytes) (ep : bool) :
  cipher_kt_mode_aead (kt_cipher kt) = true -> tlsmode o = true ->
  ce_proto (ce o) = PROTO_UDP -> ce_socks_proxy_server (ce o) = false -> FrameCalc.use_peer_id o = tm_use_peer_id m ->
  4 <= headroom (dc_frame c) /\ 40 <= tailroom (dc_frame c) ->
  sendable compress now comp_frag c m i k plain -> key_ready now k ep kt ->
  exists c', encrypt_sign compress now prng false comp_frag c = Ret c'
    /\ Zlen (contents (dc_buf c')) = packet_size kt o lsi ep false (Zlen plain).
Proof.
  intros Ha Ht Hp Hs Hpeer Hroom Hsend Hkey.
  destruct (sendable_length compress now prng comp_frag c m i k plain ep kt Hsend Hroom Hkey) as (c' & co' & body & E & Hout & Lb).
  exists c'. split; [done|]. destruct Hout as [-> _]. rewrite Zlen_app, Lb, opcode_len.
  unfold packet_size, link_prefix, data_packet_size, format_of, pid_len, OPENVPN_AEAD_TAG_LENGTH.
  rewrite Ha, Ht, Hp, Hs, Hpeer. change (PROTO_UDP =? PROTO_TCP_CLIENT) with false.
  change (PROTO_UDP =? PROTO_TCP_SERVER) with false. cbn [andb orb]. destruct ep, (tm_use_peer_id m); lia.
Qed.
End Aead.
