(* ===== verification/Base64.v ===== *)
(** * Base64 (base64.c)

    Encoding and decoding, with the arithmetic of [int] and [unsigned int] written out.
    [malloc] succeeds.  The specification is [b64], which takes the bytes in groups of three. *)

From Stdlib Require Import String.
From S2P Require Import Prelude Buffer KeyCtx Text.
#[local] Open Scope Z_scope.

(** ** Encoding *)
Definition base64_chars : bytes := str "ABCDEFGHIJKLMNOPQRSTUVWXYZabcdefghijklmnopqrstuvwxyz0123456789+/".
Definition EQ : Z := 61.

(** One character: the bits of [c] under the mask, shifted down. *)
Definition b64_char (c mask sh : Z) : res Z := arr_get base64_chars (Z.shiftr (Z.land c mask) sh).
(** The loop, with the index [i] of the next byte and the index [p] of the next character. *)
Fixpoint encode_loop (fuel : nat) (q : bytes) (size i p : Z) (s : bytes) : res (Z * bytes) :=
  if i <? size then
    match fuel with
    | O => UB
    | S fuel =>
        let! c := arr_get q i in
        let i := i + 1 in
        let c := c * 256 in
        let! c := (if i <? size then let! x := arr_get q i in Ret (c + x) else Ret c) in
        let i := i + 1 in
        let c := c * 256 in
        let! c := (if i <? size then let! x := arr_get q i in Ret (c + x) else Ret c) in
        let i := i + 1 in
        let! p0 := b64_char c 0x00fc0000 18 in
        let! p1 := b64_char c 0x0003f000 12 in
        let! p2 := b64_char c 0x00000fc0 6 in
        let! p3 := b64_char c 0x0000003f 0 in
        let p3 := if size <? i then EQ else p3 in
        let p2 := if size + 1 <? i then EQ else p2 in
        let! s := mem_write s p [p0; p1; p2; p3] in
        encode_loop fuel q size i (p + 4) s
    end
  else Ret (p, s).
(** The string is [None] where [*str] is not set. *)
Definition openvpn_base64_encode (data : bytes) (size : Z) : res (Z * option bytes) :=
  if size <? 0 then Ret (-1, None)
  else
    let! n := c_int (size * 4) in
    let s := replicate (Z.to_nat (n / 3 + 4)) 0 in
    let! (p, s) := encode_loop (Z.to_nat size) data size 0 0 s in
    let! s := mem_write s p [0] in
    let str := until 0 s in Ret (Zlen str, Some str).

(** ** Decoding *)
Fixpoint pos_from (p : bytes) (c k : Z) : Z :=
  match p with [] => -1 | x :: p => if x =? c then k else pos_from p c (k + 1) end.
Definition pos (c : Z) : Z := pos_from base64_chars c 0.
Definition DECODE_ERROR : Z := 0xffffffff.

Fixpoint token_loop (token : bytes) (val marker : Z) : option (Z * Z) :=
  match token with
  | [] => Some (val, marker)
  | c :: token =>
      let val := u32 (val * 64) in
      if c =? EQ then token_loop token val (marker + 1)
      else if 0 <? marker then None
      else token_loop token (u32 (val + pos c)) marker
  end.
(** [token] is the rest of the string. *)
Definition token_decode (token : bytes) : Z :=
  if Zlen token <? 4 then DECODE_ERROR
  else match token_loop (take 4 token) 0 0 with
       | None => DECODE_ERROR
       | Some (val, marker) => if 2 <? marker then DECODE_ERROR else Z.lor (u32 (Z.shiftl marker 24)) val
       end.

(** [*q++ = b], unless the end is reached. *)
Definition put_byte (data : bytes) (q size b : Z) : res (option bytes) :=
  if (0 <=? size) && (size <=? q) then Ret None else let! d := mem_write data q [b] in Ret (Some d).
Definition starts_group (c : Z) : bool := (c =? EQ) || match strchr base64_chars c with Some _ => true | None => false end.
(** The rest of the string, the object at [data] and the number of bytes written. *)
Fixpoint decode_loop (p data : bytes) (q size : Z) : res (Z * bytes) :=
  match p with
  | [] => Ret (q, data)
  | c :: p1 =>
      if starts_group c then
        let val := token_decode p in
        let marker := Z.land (Z.shiftr val 24) 0xff in
        if val =? DECODE_ERROR then Ret (-1, data)
        else
          let! d := put_byte data q size (Z.land (Z.shiftr val 16) 0xff) in
          match d with None => Ret (-1, data) | Some data =>
            let! d := (if marker <? 2 then put_byte data (q + 1) size (Z.land (Z.shiftr val 8) 0xff) else Ret (Some data)) in
            match d with None => Ret (-1, data) | Some data1 =>
              let q := if marker <? 2 then q + 2 else q + 1 in
              let! d := (if marker <? 1 then put_byte data1 q size (Z.land val 0xff) else Ret (Some data1)) in
              match d with None => Ret (-1, data1) | Some data =>
                let q := if marker <? 1 then q + 1 else q in
                match p1 with _ :: _ :: _ :: p => decode_loop p data q size | _ => UB end
              end
            end
          end
      else Ret (q, data)
  end.
Definition openvpn_base64_decode (str data : bytes) (size : Z) : res (Z * bytes) := decode_loop str data 0 size.

(** ** The specification *)
Definition sym (k : Z) : Z := nth (Z.to_nat k) base64_chars 0.
Definition group (a b c : Z) : bytes :=
  [sym (a / 4); sym (a mod 4 * 16 + b / 16); sym (b mod 16 * 4 + c / 64); sym (c mod 64)].
Fixpoint b64 (d : bytes) : bytes :=
  match d with
  | a :: b :: c :: d => group a b c ++ b64 d
  | [a; b] => take 3 (group a b 0) ++ [EQ]
  | [a] => take 2 (group a 0 0) ++ [EQ; EQ]
  | [] => []
  end.

Lemma sym_ok k : 0 <= k < 64 -> base64_chars !! Z.to_nat k = Some (sym k) /\ pos (sym k) = k /\ starts_group (sym k) = true /\ sym k <> EQ /\ 0 < sym k < 128.
Proof.
  intros H. unfold sym.
  assert (A : Forall (fun n => base64_chars !! n = Some (nth n base64_chars 0) /\ pos (nth n base64_chars 0) = Z.of_nat n
                /\ starts_group (nth n base64_chars 0) = true /\ nth n base64_chars 0 <> EQ /\ 0 < nth n base64_chars 0 < 128) (seq 0 64)).
  { apply (bool_decide_unpack _). by vm_compute. }
  rewrite Forall_forall in A. destruct (A (Z.to_nat k)) as (A1 & A2 & A3 & A4 & A5); [apply elem_of_seq; lia|].
  rewrite Z2Nat.id in A2 by lia. done.
Qed.

Lemma b64_char_ok c k : 0 <= k -> b64_char c (Z.shiftl 63 k) k = Ret (sym ((c / 2 ^ k) mod 64)).
Proof.
  intros Hk. unfold b64_char. rewrite Z.shiftr_land, Z.shiftr_shiftl_l, Z.sub_diag, Z.shiftl_0_r by lia.
  change 63 with (Z.ones 6). rewrite Z.land_ones, Z.shiftr_div_pow2 by lia. change (2 ^ 6) with 64.
  destruct (sym_ok ((c / 2 ^ k) mod 64)) as (H & _); [apply Z.mod_pos_bound; lia|].
  unfold arr_get. rewrite (proj2 (Z.ltb_ge _ 0)) by (apply Z.mod_pos_bound; lia). by rewrite H.
Qed.

Lemma group_chars a b c :
  is_u8 a -> is_u8 b -> is_u8 c ->
  let v := (a * 256 + b) * 256 + c in
  b64_char v 0x00fc0000 18 = Ret (sym (a / 4)) /\ b64_char v 0x0003f000 12 = Ret (sym (a mod 4 * 16 + b / 16))
  /\ b64_char v 0x00000fc0 6 = Ret (sym (b mod 16 * 4 + c / 64)) /\ b64_char v 0x0000003f 0 = Ret (sym (c mod 64)).
Proof.
  intros Ha Hb Hc v. unfold is_u8 in *.
  pose proof (b64_char_ok v 18 ltac:(lia)) as E1. pose proof (b64_char_ok v 12 ltac:(lia)) as E2.
  pose proof (b64_char_ok v 6 ltac:(lia)) as E3. pose proof (b64_char_ok v 0 ltac:(lia)) as E4.
  change (Z.shiftl 63 18) with 0xfc0000 in E1. change (Z.shiftl 63 12) with 0x3f000 in E2.
  change (Z.shiftl 63 6) with 0xfc0 in E3. change (Z.shiftl 63 0) with 0x3f in E4.
  change (2 ^ 18) with 262144 in E1. change (2 ^ 12) with 4096 in E2. change (2 ^ 6) with 64 in E3. change (2 ^ 0) with 1 in E4.
  rewrite E1, E2, E3, E4. unfold v. split_and!; do 2 f_equal; Z.to_euclidean_division_equations; lia.
Qed.

Lemma group_range a b c :
  is_u8 a -> is_u8 b -> is_u8 c ->
  0 <= a / 4 < 64 /\ 0 <= a mod 4 * 16 + b / 16 < 64 /\ 0 <= b mod 16 * 4 + c / 64 < 64 /\ 0 <= c mod 64 < 64.
Proof. unfold is_u8. intros. Z.to_euclidean_division_equations; lia. Qed.

(** Three bytes at a time. *)
Lemma triple_ind (P : bytes -> Prop) :
  P [] -> (forall a, P [a]) -> (forall a b, P [a; b]) -> (forall a b c d, P d -> P (a :: b :: c :: d)) -> forall d, P d.
Proof.
  intros H0 H1 H2 H3. fix IH 1. intros [|a [|b [|c d]]]; [exact H0|apply H1|apply H2|apply H3, IH].
Qed.

Lemma Zlen_b64 d : Zlen (b64 d) = 4 * ((Zlen d + 2) / 3).
Proof.
  induction d as [|a|a b|a b c d IH] using triple_ind; [done|done|done|].
  change (b64 (a :: b :: c :: d)) with (group a b c ++ b64 d). rewrite Zlen_app, IH. change (Zlen (group a b c)) with 4.
  rewrite !Zlen_cons. Z.to_euclidean_division_equations; lia.
Qed.

Lemma b64_nonzero d : bytes_ok d -> 0 ∉ b64 d.
Proof.
  assert (G : forall a b c, is_u8 a -> is_u8 b -> is_u8 c -> 0 ∉ group a b c).
  { intros a b c Ha Hb Hc H. destruct (group_range a b c Ha Hb Hc) as (R1 & R2 & R3 & R4).
    apply sym_ok in R1, R2, R3, R4. unfold group in H. set_solver by lia. }
  assert (Z0 : is_u8 0) by (unfold is_u8; lia).
  induction d as [|a|a b|a b c d IH] using triple_ind; unfold bytes_ok; rewrite ?Forall_cons; [set_solver| | |].
  - intros [Ha _]. specialize (G a 0 0 Ha Z0 Z0). unfold b64, group, EQ in *. cbn [take app]. set_solver by lia.
  - intros (Ha & Hb & _). specialize (G a b 0 Ha Hb Z0). unfold b64, group, EQ in *. cbn [take app]. set_solver by lia.
  - intros (Ha & Hb & Hc & Hd). change (b64 (a :: b :: c :: d)) with (group a b c ++ b64 d).
    rewrite elem_of_app. specialize (IH Hd). specialize (G a b c Ha Hb Hc). tauto.
Qed.

Lemma b64_ok d : bytes_ok d -> bytes_ok (b64 d).
Proof.
  assert (G : forall a b c, is_u8 a -> is_u8 b -> is_u8 c -> bytes_ok (group a b c)).
  { intros a b c Ha Hb Hc. destruct (group_range a b c Ha Hb Hc) as (R1 & R2 & R3 & R4). apply sym_ok in R1, R2, R3, R4.
    unfold bytes_ok, group. rewrite !Forall_cons. unfold is_u8. split_and!; [lia..|apply Forall_nil_2]. }
  assert (Z0 : is_u8 0) by (unfold is_u8; lia). assert (ZE : is_u8 EQ) by (unfold is_u8, EQ; lia).
  induction d as [|a|a b|a b c d IH] using triple_ind; unfold bytes_ok; rewrite ?Forall_cons; [intros _; apply Forall_nil_2| | |].
  - intros [Ha _]. cbn [b64]. rewrite Forall_app, !Forall_cons, Forall_nil. split; [|done]. by apply Forall_take, G.
  - intros (Ha & Hb & _). cbn [b64]. rewrite Forall_app, !Forall_cons, Forall_nil. split; [|done]. by apply Forall_take, G.
  - intros (Ha & Hb & Hc & Hd). change (b64 (a :: b :: c :: d)) with (group a b c ++ b64 d). apply Forall_app.
    split; [by apply G|by apply IH].
Qed.

Lemma mem_write_mid w x z src : length src = length x -> mem_write (w ++ x ++ z) (Zlen w) src = Ret (w ++ src ++ z).
Proof.
  intros E. rewrite mem_write_ok by (rewrite ?Zlen_app; unfold Zlen; lia). rewrite to_nat_Zlen, take_app_length. do 3 f_equal.
  rewrite app_assoc, drop_app_length' by (rewrite length_app; lia). done.
Qed.

Lemma encode_loop_end fuel q size i p s : size <= i -> encode_loop fuel q size i p s = Ret (p, s).
Proof. intros H. destruct fuel; cbn [encode_loop]; by rewrite (proj2 (Z.ltb_ge i size)) by lia. Qed.

Lemma arr_get_behind (d r : bytes) x : arr_get (d ++ x :: r) (Zlen d) = Ret x.
Proof. apply arr_get_Ret. pose proof (Zlen_nonneg d). split; [lia|]. by rewrite to_nat_Zlen, list_lookup_middle. Qed.

(** The rest of the data is encoded at [p], behind what is written. *)
Lemma encode_loop_spec rest : forall fuel pre w z,
  (length rest <= fuel)%nat -> bytes_ok rest -> (length (b64 rest) <= length z)%nat ->
  encode_loop fuel (pre ++ rest) (Zlen pre + Zlen rest) (Zlen pre) (Zlen w) (w ++ z)
  = Ret (Zlen w + Zlen (b64 rest), w ++ b64 rest ++ drop (length (b64 rest)) z).
Proof.
  assert (Z0 : is_u8 0) by (unfold is_u8; lia).
  assert (W : forall w z src, length src = 4%nat -> (4 <= length z)%nat -> mem_write (w ++ z) (Zlen w) src = Ret (w ++ src ++ drop 4 z)).
  { intros w z src Hs Hz. rewrite <- (take_drop 4 z) at 1. apply mem_write_mid. rewrite length_take. lia. }
  induction rest as [|a|a b|a b c rest IH] using triple_ind; intros fuel pre w z Hf Hok Hz; unfold bytes_ok in Hok; rewrite ?Forall_cons in Hok.
  - rewrite encode_loop_end by (change (Zlen (@nil Z)) with 0; lia). cbn. by rewrite Z.add_0_r.
  - destruct fuel as [|fuel]; [cbn in Hf; lia|]. destruct Hok as [Ha _]. cbn [encode_loop].
    destruct (group_chars a 0 0 Ha Z0 Z0) as (E1 & E2 & E3 & E4). rewrite !Z.add_0_r in E1, E2, E3, E4.
    change (Zlen [a]) with 1. rewrite (proj2 (Z.ltb_lt _ _)) by lia. rewrite arr_get_behind. cbn [res_bind].
    rewrite !(proj2 (Z.ltb_ge _ _)) by lia. cbn [res_bind]. rewrite E1, E2, E3, E4. cbn [res_bind].
    rewrite (proj2 (Z.ltb_lt (Zlen pre + 1) _)), (proj2 (Z.ltb_lt (Zlen pre + 1 + 1) _)) by lia.
    rewrite W by (done || (cbn in Hz; lia)). cbn [res_bind]. by rewrite encode_loop_end by lia.
  - destruct fuel as [|fuel]; [cbn in Hf; lia|]. destruct Hok as (Ha & Hb & _). cbn [encode_loop].
    destruct (group_chars a b 0 Ha Hb Z0) as (E1 & E2 & E3 & E4). rewrite !Z.add_0_r in E1, E2, E3, E4.
    change (Zlen [a; b]) with 2. rewrite (proj2 (Z.ltb_lt _ _)) by lia. rewrite arr_get_behind. cbn [res_bind].
    rewrite (proj2 (Z.ltb_lt (Zlen pre + 1) _)) by lia.
    assert (Eb : arr_get (pre ++ [a; b]) (Zlen pre + 1) = Ret b).
    { change [a; b] with ([a] ++ [b]). rewrite app_assoc. replace (Zlen pre + 1) with (Zlen (pre ++ [a])) by (by rewrite Zlen_app).
      apply arr_get_behind. }
    rewrite Eb. cbn [res_bind]. rewrite (proj2 (Z.ltb_ge (Zlen pre + 1 + 1) _)) by lia. cbn [res_bind].
    rewrite E1, E2, E3, E4. cbn [res_bind].
    rewrite (proj2 (Z.ltb_lt (Zlen pre + 2) _)), (proj2 (Z.ltb_ge (Zlen pre + 2 + 1) _)) by lia.
    rewrite W by (done || (cbn in Hz; lia)). cbn [res_bind]. by rewrite encode_loop_end by lia.
  - destruct fuel as [|fuel]; [cbn in Hf; lia|]. destruct Hok as (Ha & Hb & Hc & Hr). cbn [encode_loop].
    destruct (group_chars a b c Ha Hb Hc) as (E1 & E2 & E3 & E4). rewrite !Zlen_cons. pose proof (Zlen_nonneg rest).
    rewrite (proj2 (Z.ltb_lt (Zlen pre) _)), arr_get_behind by lia. cbn [res_bind].
    rewrite (proj2 (Z.ltb_lt (Zlen pre + 1) _)), (proj2 (Z.ltb_lt (Zlen pre + 1 + 1) _)) by lia.
    assert (Eb : arr_get (pre ++ a :: b :: c :: rest) (Zlen pre + 1) = Ret b).
    { replace (Zlen pre + 1) with (Zlen (pre ++ [a])) by (by rewrite Zlen_app).
      change (a :: b :: c :: rest) with ([a] ++ b :: c :: rest). rewrite app_assoc. apply arr_get_behind. }
    assert (Ec : arr_get (pre ++ a :: b :: c :: rest) (Zlen pre + 1 + 1) = Ret c).
    { replace (Zlen pre + 1 + 1) with (Zlen (pre ++ [a; b])) by (rewrite Zlen_app; change (Zlen [a; b]) with 2; lia).
      change (a :: b :: c :: rest) with ([a; b] ++ c :: rest). rewrite app_assoc. apply arr_get_behind. }
    rewrite Eb, Ec. cbn [res_bind]. rewrite E1, E2, E3, E4. cbn [res_bind].
    rewrite !(proj2 (Z.ltb_ge _ (Zlen pre + 1 + 1 + 1))) by lia.
    change (b64 (a :: b :: c :: rest)) with (group a b c ++ b64 rest) in *. rewrite length_app in Hz. change (length (group a b c)) with 4%nat in Hz.
    rewrite W by (done || lia). cbn [res_bind]. fold (group a b c).
    specialize (IH fuel (pre ++ [a; b; c]) (w ++ group a b c) (drop 4 z)).
    rewrite !Zlen_app, <- !app_assoc in IH. change (Zlen [a; b; c]) with 3 in IH. change (Zlen (group a b c)) with 4 in IH.
    replace (Zlen pre + (1 + (1 + (1 + Zlen rest)))) with (Zlen pre + 3 + Zlen rest) by lia.
    replace (Zlen pre + 1 + 1 + 1) with (Zlen pre + 3) by lia. cbn [app] in IH. rewrite IH; [|cbn [length] in Hf; lia|done|rewrite length_drop; lia].
    rewrite Zlen_app. change (Zlen (group a b c)) with 4. rewrite length_app. change (length (group a b c)) with 4%nat.
    rewrite drop_drop, <- app_assoc. f_equal. f_equal; lia.
Qed.

Lemma encode_spec d :
  bytes_ok d -> Zlen d * 4 <= INT_MAX -> openvpn_base64_encode d (Zlen d) = Ret (Zlen (b64 d), Some (b64 d)).
Proof.
  intros Hok Hl. pose proof (Zlen_nonneg d). unfold openvpn_base64_encode. rewrite (proj2 (Z.ltb_ge (Zlen d) 0)) by lia.
  rewrite c_int_ok by (unfold is_int, INT_MIN, INT_MAX in *; lia). cbn [res_bind].
  set (n := Z.to_nat (Zlen d * 4 / 3 + 4)). pose proof (Zlen_b64 d) as Hb.
  assert (Hn : (length (b64 d) < n)%nat).
  { unfold n, Zlen in *. apply Nat2Z.inj_lt. rewrite Z2Nat.id by (Z.to_euclidean_division_equations; lia).
    rewrite Hb. Z.to_euclidean_division_equations; lia. }
  pose proof (encode_loop_spec d (Z.to_nat (Zlen d)) [] [] (replicate n 0)) as E. cbn [app] in E. change (Zlen (@nil Z)) with 0 in E.
  rewrite !Z.add_0_l in E. rewrite E; [|by rewrite to_nat_Zlen|done|rewrite length_replicate; lia]. cbn [res_bind].
  destruct (drop (length (b64 d)) (replicate n 0)) as [|x z] eqn:Ez.
  { apply (f_equal length) in Ez. rewrite length_drop, length_replicate in Ez. cbn in Ez. lia. }
  change (x :: z) with ([x] ++ z). rewrite mem_write_mid by done. cbn [res_bind app].
  by rewrite until_app by (by apply b64_nonzero).
Qed.

(** ** Decoding groups *)
Lemma token_loop_sym k t val : 0 <= k < 64 -> 0 <= val * 64 + k < 2 ^ 32 -> 0 <= val ->
  token_loop (sym k :: t) val 0 = token_loop t (val * 64 + k) 0.
Proof.
  intros Hk Hv H0. destruct (sym_ok k Hk) as (_ & Ep & _ & En & _). cbn [token_loop]. rewrite (proj2 (Z.eqb_neq _ _) En), Ep.
  cbn [Z.ltb Z.compare]. rewrite (u32_id (val * 64)) by (unfold is_u32; lia). by rewrite u32_id by (unfold is_u32; lia).
Qed.

Lemma token_loop_eq t val m : 0 <= val * 64 < 2 ^ 32 -> token_loop (EQ :: t) val m = token_loop t (val * 64) (m + 1).
Proof. intros H. cbn [token_loop]. change (EQ =? EQ) with true. by rewrite u32_id by (unfold is_u32; lia). Qed.

(** The value of a group with [m] padding characters, and the bytes taken from it. *)
Lemma token_decode_ok t p val m :
  length t = 4%nat -> token_loop t 0 0 = Some (val, m) -> 0 <= m <= 2 -> 0 <= val < 2 ^ 24 -> token_decode (t ++ p) = val + m * 2 ^ 24.
Proof.
  intros Ht E Hm Hv. unfold token_decode. rewrite (proj2 (Z.ltb_ge _ _)) by (rewrite Zlen_app; pose proof (Zlen_nonneg p); unfold Zlen; lia).
  rewrite take_app_length' by done. rewrite E, (proj2 (Z.ltb_ge 2 m)) by lia.
  rewrite u32_id by (unfold is_u32; rewrite Z.shiftl_mul_pow2 by lia; lia). rewrite Z.lor_comm. by apply lor_shiftl_add.
Qed.

Lemma taken_bytes a b c m :
  is_u8 a -> is_u8 b -> is_u8 c -> 0 <= m <= 2 -> let v := (a * 256 + b) * 256 + c + m * 2 ^ 24 in
  (v =? DECODE_ERROR) = false /\ Z.land (Z.shiftr v 24) 0xff = m /\ Z.land (Z.shiftr v 16) 0xff = a
  /\ Z.land (Z.shiftr v 8) 0xff = b /\ Z.land v 0xff = c.
Proof.
  intros Ha Hb Hc Hm v. unfold is_u8, DECODE_ERROR in *. change (0xff) with (Z.ones 8). rewrite !Z.land_ones, !Z.shiftr_div_pow2 by lia.
  unfold v. split_and!; [apply Z.eqb_neq; lia|..]; Z.to_euclidean_division_equations; lia.
Qed.

Lemma put_byte_ok w x z size b : size < 0 \/ Zlen w < size -> put_byte (w ++ x :: z) (Zlen w) size b = Ret (Some (w ++ b :: z)).
Proof.
  intros Hs. unfold put_byte. change (x :: z) with ([x] ++ z). rewrite mem_write_mid by done.
  destruct Hs; [by rewrite (proj2 (Z.leb_gt 0 size)) by lia|].
  rewrite (proj2 (Z.leb_gt size _)), andb_false_r by lia. done.
Qed.
Lemma put_byte_at w x z size b q : q = Zlen w -> size < 0 \/ q < size -> put_byte (w ++ x :: z) q size b = Ret (Some (w ++ b :: z)).
Proof. intros ->. apply put_byte_ok. Qed.

(** A group of four characters that stands for the first [3 - m] of three bytes. *)
Lemma decode_group t p a b c m w z size :
  length t = 4%nat -> token_loop t 0 0 = Some ((a * 256 + b) * 256 + c, m) -> 0 <= m <= 2 ->
  is_u8 a -> is_u8 b -> is_u8 c -> (exists k t', 0 <= k < 64 /\ t = sym k :: t') ->
  let bs := take (Z.to_nat (3 - m)) [a; b; c] in
  (length bs <= length z)%nat -> size < 0 \/ Zlen w + (3 - m) <= size ->
  decode_loop (t ++ p) (w ++ z) (Zlen w) size = decode_loop p ((w ++ bs) ++ drop (length bs) z) (Zlen (w ++ bs)) size.
Proof.
  intros Ht E Hm Ha Hb Hc (k & t' & Hk & ->) bs Hz Hs.
  destruct (sym_ok k Hk) as (_ & _ & Eg & _). pose proof (token_decode_ok _ p _ _ Ht E Hm) as Ev.
  destruct (taken_bytes a b c m Ha Hb Hc Hm) as (V0 & V1 & V2 & V3 & V4). rewrite <- Ev in V0, V1, V2, V3, V4 by (unfold is_u8 in *; lia).
  destruct t' as [|t1 [|t2 [|t3 [|? ?]]]]; try discriminate Ht. cbn [app decode_loop]. rewrite Eg. cbn [app] in *.
  rewrite V0, V1, V2, V3, V4. pose proof (Zlen_nonneg w). unfold bs in *. clear bs Ev V0 V1 V2 V3 V4 E.
  assert (Hm' : m = 0 \/ m = 1 \/ m = 2) by lia. destruct Hm' as [-> | [-> | ->]]; cbn [Z.ltb Z.compare Pos.compare Pos.compare_cont].
  - change (take (Z.to_nat (3 - 0)) [a; b; c]) with [a; b; c] in *. destruct z as [|z0 [|z1 [|z2 z]]]; cbn in Hz; try lia. rewrite put_byte_ok by lia. cbn [res_bind].
    change (a :: z1 :: z2 :: z) with ([a] ++ z1 :: z2 :: z). rewrite app_assoc, put_byte_at by (rewrite ?Zlen_app; change (Zlen [a]) with 1; lia). cbn [res_bind].
    change (b :: z2 :: z) with ([b] ++ z2 :: z). rewrite app_assoc, put_byte_at by (rewrite ?Zlen_app; change (Zlen [a]) with 1; change (Zlen [b]) with 1; lia). cbn [res_bind drop].
    rewrite Zlen_app. change (Zlen [a; b; c]) with 3. replace (Zlen w + 2 + 1) with (Zlen w + 3) by lia. by rewrite <- !app_assoc.
  - change (take (Z.to_nat (3 - 1)) [a; b; c]) with [a; b] in *. destruct z as [|z0 [|z1 z]]; cbn in Hz; try lia. rewrite put_byte_ok by lia. cbn [res_bind].
    change (a :: z1 :: z) with ([a] ++ z1 :: z). rewrite app_assoc, put_byte_at by (rewrite ?Zlen_app; change (Zlen [a]) with 1; lia). cbn [res_bind drop].
    rewrite Zlen_app. change (Zlen [a; b]) with 2. by rewrite <- !app_assoc.
  - change (take (Z.to_nat (3 - 2)) [a; b; c]) with [a] in *. destruct z as [|z0 z]; cbn in Hz; try lia. rewrite put_byte_ok by lia. cbn [res_bind drop].
    rewrite Zlen_app. change (Zlen [a]) with 1. by rewrite <- !app_assoc.
Qed.

Lemma group_tokens a b c :
  is_u8 a -> is_u8 b -> is_u8 c ->
  token_loop (group a b c) 0 0 = Some ((a * 256 + b) * 256 + c, 0)
  /\ token_loop (take 3 (group a b 0) ++ [EQ]) 0 0 = Some ((a * 256 + b) * 256 + 0, 1)
  /\ token_loop (take 2 (group a 0 0) ++ [EQ; EQ]) 0 0 = Some ((a * 256 + 0) * 256 + 0, 2).
Proof.
  intros Ha Hb Hc. assert (Z0 : is_u8 0) by (unfold is_u8; lia).
  destruct (group_range a b c Ha Hb Hc) as (R1 & R2 & R3 & R4). destruct (group_range a b 0 Ha Hb Z0) as (_ & _ & R5 & _).
  destruct (group_range a 0 0 Ha Z0 Z0) as (_ & R6 & _). unfold is_u8, group in *. cbn [take app].
  rewrite !token_loop_sym by (done || lia). rewrite !token_loop_eq by lia. cbn [token_loop].
  split_and!; do 2 f_equal; Z.to_euclidean_division_equations; lia.
Qed.

(** The encoding of [d] is decoded to [d], and decoding goes on behind it. *)
Lemma decode_b64 d : forall p w z size,
  bytes_ok d -> (length d <= length z)%nat -> size < 0 \/ Zlen w + Zlen d <= size ->
  decode_loop (b64 d ++ p) (w ++ z) (Zlen w) size = decode_loop p ((w ++ d) ++ drop (length d) z) (Zlen (w ++ d)) size.
Proof.
  assert (Z0 : is_u8 0) by (unfold is_u8; lia).
  assert (S : forall a b c t, is_u8 a -> is_u8 b -> is_u8 c -> exists k t', 0 <= k < 64 /\ sym (a / 4) :: t = sym k :: t').
  { intros a b c t Ha Hb Hc. destruct (group_range a b c Ha Hb Hc) as [R _]. by exists (a / 4), t. }
  induction d as [|a|a b|a b c d IH] using triple_ind; intros p w z size Hok Hz Hs; unfold bytes_ok in Hok; rewrite ?Forall_cons in Hok.
  - cbn [b64 length drop]. by rewrite app_nil_r.
  - destruct Hok as [Ha _]. destruct (group_tokens a 0 0 Ha Z0 Z0) as (_ & _ & E).
    apply (decode_group (take 2 (group a 0 0) ++ [EQ; EQ]) p a 0 0 2 w z size ltac:(done) E ltac:(lia) Ha Z0 Z0 (S a 0 0 _ Ha Z0 Z0) Hz).
    change (Zlen [a]) with 1 in Hs. lia.
  - destruct Hok as (Ha & Hb & _). destruct (group_tokens a b 0 Ha Hb Z0) as (_ & E & _).
    apply (decode_group (take 3 (group a b 0) ++ [EQ]) p a b 0 1 w z size ltac:(done) E ltac:(lia) Ha Hb Z0 (S a b 0 _ Ha Hb Z0) Hz).
    change (Zlen [a; b]) with 2 in Hs. lia.
  - destruct Hok as (Ha & Hb & Hc & Hd). destruct (group_tokens a b c Ha Hb Hc) as (E & _).
    change (b64 (a :: b :: c :: d)) with (group a b c ++ b64 d). rewrite <- app_assoc. rewrite !Zlen_cons in Hs. pose proof (Zlen_nonneg d).
    cbn [length] in Hz.
    rewrite (decode_group (group a b c) (b64 d ++ p) a b c 0 w z size ltac:(done) E ltac:(lia) Ha Hb Hc (S a b c _ Ha Hb Hc))
      by (first [lia | change (take (Z.to_nat (3 - 0)) [a; b; c]) with [a; b; c]; cbn [length]; lia]).
    change (take (Z.to_nat (3 - 0)) [a; b; c]) with [a; b; c]. cbn [length].
    rewrite (IH p (w ++ [a; b; c]) (drop 3 z) size Hd); [|rewrite length_drop; lia|rewrite Zlen_app; change (Zlen [a; b; c]) with 3; lia].
    rewrite drop_drop. replace (3 + length d)%nat with (length d + 3)%nat by lia. rewrite <- !(app_assoc w). by rewrite (Nat.add_comm (length d)).
Qed.

Lemma decode_spec d rest data size :
  bytes_ok d -> (length d <= length data)%nat -> size < 0 \/ Zlen d <= size ->
  openvpn_base64_decode (b64 d ++ rest) data size = decode_loop rest (d ++ drop (length d) data) (Zlen d) size.
Proof. intros Hok Hl Hs. exact (decode_b64 d rest [] data size Hok Hl Hs). Qed.

(** Decoding never leaves its objects: it reports an error or the number of bytes written. *)
Lemma token_decode_short p : (length p < 4)%nat -> token_decode p = DECODE_ERROR.
Proof. intros H. unfold token_decode. by rewrite (proj2 (Z.ltb_lt (Zlen p) 4)) by (unfold Zlen; lia). Qed.

Lemma put_byte_safe data q size b :
  0 <= q -> size <= Zlen data -> 0 <= size -> bytes_ok data ->
  exists d, put_byte data q size (Z.land b 0xff) = Ret d
    /\ match d with Some data' => q + 1 <= size /\ Zlen data' = Zlen data /\ bytes_ok data' | None => True end.
Proof.
  intros Hq Hs H0 Hok. unfold put_byte. rewrite (proj2 (Z.leb_le 0 size)) by lia. cbn [andb].
  destruct (Z.leb_spec size q) as [|H]; [by exists None|].
  rewrite mem_write_ok by (change (Zlen [Z.land b 0xff]) with 1; lia). eexists. split; [reflexivity|]. split; [lia|]. split.
  - unfold Zlen in *. rewrite !length_app, length_take, length_drop. cbn [length]. lia.
  - rewrite !bytes_ok_app. split; [by apply Forall_take|]. split; [|by apply Forall_drop].
    constructor; [|constructor]. change 0xff with (Z.ones 8). rewrite Z.land_ones by lia. apply Z.mod_pos_bound. lia.
Qed.

Lemma decode_loop_safe n : forall p data q size,
  (length p <= n)%nat -> 0 <= q -> 0 <= size <= Zlen data -> bytes_ok data ->
  exists r data', decode_loop p data q size = Ret (r, data') /\ Zlen data' = Zlen data /\ bytes_ok data'
    /\ (r = -1 \/ q <= r <= q + Zlen p).
Proof.
  induction n as [|n IH]; intros p data q size Hn Hq Hs Hok; (destruct p as [|c p1]; [exists q, data; rewrite Z.add_0_r; split_and!; (done || lia)|]).
  { cbn in Hn. lia. }
  cbn [decode_loop]. destruct (starts_group c); [|exists q, data; pose proof (Zlen_nonneg (c :: p1)); split_and!; (done || lia)].
  destruct (Z.eqb_spec (token_decode (c :: p1)) DECODE_ERROR) as [|Hv]; [exists (-1), data; auto|].
  assert (Hp : exists a b d p, p1 = a :: b :: d :: p).
  { destruct p1 as [|a [|b [|d p]]]; [..|by exists a, b, d, p]; destruct Hv; apply token_decode_short; cbn; lia. }
  destruct Hp as (a & b & d & p & ->). clear Hv. generalize (token_decode (c :: a :: b :: d :: p)). intros v.
  cbn [length] in Hn. rewrite !Zlen_cons. pose proof (Zlen_nonneg p). set (marker := Z.land (Z.shiftr v 24) 255).
  destruct (put_byte_safe data q size (Z.shiftr v 16) Hq ltac:(lia) ltac:(lia) Hok) as ([d1|] & -> & H1); [|exists (-1), data; auto].
  destruct H1 as (Q1 & L1 & O1). cbn [res_bind]. destruct (Z.ltb_spec marker 2).
  - destruct (put_byte_safe d1 (q + 1) size (Z.shiftr v 8) ltac:(lia) ltac:(lia) ltac:(lia) O1) as ([d2|] & -> & H2);
      [|exists (-1), d1; rewrite <- L1; auto].
    destruct H2 as (Q2 & L2 & O2). cbn [res_bind]. destruct (marker <? 1).
    + destruct (put_byte_safe d2 (q + 2) size v ltac:(lia) ltac:(lia) ltac:(lia) O2) as ([d3|] & -> & H3);
        [|exists (-1), d2; rewrite <- L1, <- L2; auto].
      destruct H3 as (Q3 & L3 & O3). cbn [res_bind]. destruct (IH p d3 (q + 2 + 1) size) as (r & d' & E & L & O & R); [lia|lia|lia|done|].
      exists r, d'. split_and!; try done; lia.
    + cbn [res_bind]. destruct (IH p d2 (q + 2) size) as (r & d' & E & L & O & R); [lia|lia|lia|done|].
      exists r, d'. split_and!; try done; lia.
  - cbn [res_bind]. rewrite (proj2 (Z.ltb_ge marker 1)) by lia. cbn [res_bind].
    destruct (IH p d1 (q + 1) size) as (r & d' & E & L & O & R); [lia|lia|lia|done|]. exists r, d'. split_and!; try done; lia.
Qed.

Lemma decode_safe s data size :
  0 <= size <= Zlen data -> bytes_ok data ->
  exists r data', openvpn_base64_decode s data size = Ret (r, data') /\ Zlen data' = Zlen data /\ bytes_ok data' /\ (r = -1 \/ 0 <= r <= Zlen s).
Proof. intros Hs Hok. exact (decode_loop_safe (length s) s data 0 size ltac:(lia) ltac:(lia) Hs Hok). Qed.

(** Encodings of groups of three can be put together. *)
Lemma b64_app a b : Zlen a mod 3 = 0 -> b64 (a ++ b) = b64 a ++ b64 b.
Proof.
  induction a as [|x|x y|x y z a IH] using triple_ind; intros H; [done|discriminate H|discriminate H|].
  cbn [app]. change (b64 (x :: y :: z :: a ++ b)) with (group x y z ++ b64 (a ++ b)). rewrite IH; [by rewrite app_assoc|].
  rewrite !Zlen_cons in H. Z.to_euclidean_division_equations; lia.
Qed.

(** Base64 round trip.  For every byte string of up to 2^29 - 1 bytes, openvpn_base64_encode
    stays inside the memory it allocates and returns a string without NUL whose length is its
    result; openvpn_base64_decode of that string into an object with room for the bytes writes
    exactly these bytes, leaves what is behind them and returns their number. *)
Lemma base64_roundtrip (d data : bytes) (size : Z) :
  bytes_ok d -> Zlen d * 4 <= INT_MAX -> (length d <= length data)%nat -> size < 0 \/ Zlen d <= size ->
  exists s, openvpn_base64_encode d (Zlen d) = Ret (Zlen s, Some s) /\ Zlen s = 4 * ((Zlen d + 2) / 3) /\ (0 ∉ s)
    /\ openvpn_base64_decode s data size = Ret (Zlen d, d ++ drop (length d) data).
Proof.
  intros Hok Hl Hd Hs. exists (b64 d). split; [by apply encode_spec|]. split; [apply Zlen_b64|]. split; [by apply b64_nonzero|].
  rewrite <- (app_nil_r (b64 d)). by rewrite decode_spec.
Qed.

(** Inside a group a character outside the alphabet counts as -1 instead of ending the decoding
    with an error. *)
Lemma bad_character_accepted : openvpn_base64_decode (str "AA*A") [0; 0; 0] 3 = Ret (1, [255; 0; 0]).
Proof. reflexivity. Qed.
