(* ===== verification/CharClass.v ===== *)
(** * Character classes (the functions on classes of buffer.c)

    Names, passwords and messages that come from a peer are restricted to a class of characters
    before they reach a script or a log. *)

From S2P Require Import Prelude.
#[local] Open Scope Z_scope.

Definition CC_ANY : Z := Z.shiftl 1 0.
Definition CC_NULL : Z := Z.shiftl 1 1.
Definition CC_ALNUM : Z := Z.shiftl 1 2.
Definition CC_ALPHA : Z := Z.shiftl 1 3.
Definition CC_ASCII : Z := Z.shiftl 1 4.
Definition CC_CNTRL : Z := Z.shiftl 1 5.
Definition CC_DIGIT : Z := Z.shiftl 1 6.
Definition CC_PRINT : Z := Z.shiftl 1 7.
Definition CC_PUNCT : Z := Z.shiftl 1 8.
Definition CC_SPACE : Z := Z.shiftl 1 9.
Definition CC_XDIGIT : Z := Z.shiftl 1 10.
Definition CC_BLANK : Z := Z.shiftl 1 11.
Definition CC_NEWLINE : Z := Z.shiftl 1 12.
Definition CC_CR : Z := Z.shiftl 1 13.
Definition CC_CRLF : Z := Z.lor CC_CR CC_NEWLINE.

(** <ctype.h> in the C locale. *)
Definition between (a b c : Z) : bool := (a <=? c) && (c <=? b).
Definition isdigit (c : Z) : bool := between 48 57 c.
Definition isalpha (c : Z) : bool := between 65 90 c || between 97 122 c.
Definition isalnum (c : Z) : bool := isalpha c || isdigit c.
Definition iscntrl (c : Z) : bool := between 0 31 c || (c =? 127).
Definition isxdigit (c : Z) : bool := isdigit c || between 65 70 c || between 97 102 c.
Definition isspace (c : Z) : bool := between 9 13 c || (c =? 32).
Definition ispunct (c : Z) : bool := between 33 126 c && negb (isalnum c).

(** The tests of [char_class] in their order, each with the bit that asks for it: from the bit of
    [CC_BACKSLASH] on, one bit per character. *)
Definition class_tests (c : Z) : list (Z * bool) :=
  [ (0, true); (1, c =? 0); (2, isalnum c); (3, isalpha c); (4, between 0 127 c); (5, iscntrl c); (6, isdigit c);
    (7, (32 <=? c) && negb (c =? 127)); (8, ispunct c); (9, isspace c); (10, isxdigit c); (11, (c =? 32) || (c =? 9));
    (12, c =? 10); (13, c =? 13); (14, c =? 92); (15, c =? 95); (16, c =? 45); (17, c =? 46); (18, c =? 44); (19, c =? 58);
    (20, c =? 47); (21, c =? 39); (22, c =? 34); (23, c =? 96); (24, c =? 64); (25, c =? 61); (26, c =? 60); (27, c =? 62);
    (28, c =? 124); (29, c =? 63); (30, c =? 42) ].
Definition char_class (c flags : Z) : bool :=
  if flags =? 0 then false else existsb (fun t => Z.testbit flags t.1 && t.2) (class_tests c).

Definition char_inc_exc (c inclusive exclusive : Z) : bool := char_class c inclusive && negb (char_class c exclusive).
Definition string_class (s : bytes) (inclusive exclusive : Z) : bool := forallb (fun c => char_inc_exc c inclusive exclusive) s.

(** Characters outside the class are replaced, or removed if the replacement is NUL; the result
    says whether there was none. *)
Fixpoint string_mod (s : bytes) (inclusive exclusive replace : Z) : bool * bytes :=
  match s with
  | [] => (true, [])
  | c :: s =>
      let '(ret, s) := string_mod s inclusive exclusive replace in
      let ok := char_inc_exc c inclusive exclusive in
      let c := if ok then c else replace in
      (ok && ret, if c =? 0 then s else c :: s)
  end.

(** ** What [string_mod] does *)
Lemma string_mod_id s inc exc r : (0 ∉ s) -> string_class s inc exc = true -> string_mod s inc exc r = (true, s).
Proof.
  induction s as [|c s IH]; intros H0 H; [done|]. cbn in H |- *. apply andb_true_iff in H as [Hc Hs].
  apply not_elem_of_cons in H0 as [H0 H1]. rewrite IH, Hc by done. by rewrite (proj2 (Z.eqb_neq c 0)) by done.
Qed.

Lemma string_mod_app a b inc exc r :
  string_mod (a ++ b) inc exc r
  = ((string_mod a inc exc r).1 && (string_mod b inc exc r).1, (string_mod a inc exc r).2 ++ (string_mod b inc exc r).2).
Proof.
  induction a as [|c a IH]; [cbn; by destruct (string_mod b inc exc r)|]. cbn [app string_mod]. rewrite IH.
  destruct (string_mod a inc exc r), (string_mod b inc exc r). cbn. rewrite andb_assoc. by destruct (_ =? 0).
Qed.

(** The result is in the class if the replacement is, is no longer than the string, and has no
    NUL; it is the string itself exactly if that was in the class. *)
Lemma string_mod_spec s inc exc r :
  (0 ∉ s) -> r = 0 \/ char_inc_exc r inc exc = true ->
  let '(ret, s') := string_mod s inc exc r in
  string_class s' inc exc = true /\ (0 ∉ s') /\ (length s' <= length s)%nat /\ ret = string_class s inc exc
  /\ (r <> 0 -> length s' = length s).
Proof.
  intros H0 Hr. induction s as [|c s IH]; [split_and!; [done|apply not_elem_of_nil|done|done|done]|]. apply not_elem_of_cons in H0 as [H0 H1].
  specialize (IH H1). cbn [string_mod string_class forallb]. destruct (string_mod s inc exc r) as [ret s'].
  destruct IH as (I1 & I2 & I3 & I4 & I5). fold (string_class s inc exc). rewrite <- I4.
  destruct (char_inc_exc c inc exc) eqn:Ec; cbn [andb].
  - rewrite (proj2 (Z.eqb_neq c 0)) by done. split_and!; [cbn; by rewrite Ec|set_solver|cbn; lia|done|].
    intros Hn. cbn. f_equal. by apply I5.
  - destruct (Z.eqb_spec r 0) as [-> | Hn].
    + split_and!; try done. cbn. lia.
    + destruct Hr as [Hr | Hr]; [done|]. split_and!; [cbn; by rewrite Hr|set_solver|cbn; lia|done|].
      intros _. cbn. f_equal. by apply I5.
Qed.
