(* ===== verification/AuthToken.v ===== *)
(** * Authentication tokens (auth_token.c, the password verification of ssl_verify.c)

    With --auth-gen-token the server gives a client that has logged in a token: a session
    identifier, the time of the first login, the time of the token and an HMAC over these and the
    user name, in base64 behind a prefix.  The client sends it as its password from then on.
    The HMAC comes from the interface of KeyCtx.v; random bytes, the clock and the verdicts of
    plugins and scripts are arguments.

    A string on the heap is in memory with its NUL ([heap_str]), a user name or password in an
    array of [USER_PASS_LEN] bytes ([array_str]): what is read or written behind them is [UB]. *)

From Stdlib Require Import String.
From S2P Require Import Prelude Buffer KeyCtx SampleLib DataPath CtrlWrap Text KeyMethod KeyState Base64 CharClass.
#[local] Open Scope Z_scope.

(** ** Data *)
Definition SESSION_ID_PREFIX : bytes := str "SESS_ID_AT_".
Definition PREFIX_LEN : Z := Zlen SESSION_ID_PREFIX.
Definition AUTH_TOKEN_SESSION_ID_LEN : Z := 12.
Definition AUTH_TOKEN_SESSION_ID_BASE64_LEN : Z := AUTH_TOKEN_SESSION_ID_LEN * 8 / 6.
Definition TOKEN_DATA_LEN : Z := 2 * 8 + AUTH_TOKEN_SESSION_ID_LEN + 32.
Definition AUTH_TOKEN_HMAC_OK : Z := Z.shiftl 1 0.
Definition AUTH_TOKEN_EXPIRED : Z := Z.shiftl 1 1.
Definition AUTH_TOKEN_VALID_EMPTYUSER : Z := Z.shiftl 1 2.
Definition SSLF_USERNAME_AS_COMMON_NAME : Z := Z.shiftl 1 2.
Definition TLS_USERNAME_LEN : Z := 64.

Record user_pass : Type := mk_up { username : bytes; password : bytes }.

(** What the verification uses of [struct tls_multi], [struct tls_session] and
    [struct key_state], with the environment of the session. *)
Record au_key : Type := mk_auk {
  auth_token_state_flags : Z;
  au_authenticated : ks_auth_state;
  mda_status : auth_deferred_result
}.
Record au_session : Type := mk_aus {
  au_primary : au_key;
  au_lame_duck : au_key;
  common_name : option bytes
}.
Record au_multi : Type := mk_aum {
  auth_token : option bytes;
  auth_token_initial : option bytes;
  locked_username : option bytes;
  locked_original_username : option bytes;
  client_reason : option bytes;
  au_active : au_session;
  au_initial : au_session;
  au_lame : au_session;
  au_es : list (bytes * option bytes)
}.

Definition set_tokens (m : au_multi) (tok ini : option bytes) : au_multi :=
  mk_aum tok ini (locked_username m) (locked_original_username m) (client_reason m) (au_active m) (au_initial m) (au_lame m) (au_es m).
Definition set_locked (m : au_multi) (u : option bytes) : au_multi :=
  mk_aum (auth_token m) (auth_token_initial m) u (locked_original_username m) (client_reason m) (au_active m) (au_initial m) (au_lame m) (au_es m).
Definition au_set_sessions (m : au_multi) (a i l : au_session) : au_multi :=
  mk_aum (auth_token m) (auth_token_initial m) (locked_username m) (locked_original_username m) (client_reason m) a i l (au_es m).
Definition au_get (m : au_multi) (i : session_index) : au_session :=
  match i with TM_ACTIVE => au_active m | TM_INITIAL => au_initial m | TM_LAME_DUCK => au_lame m end.
Definition au_put (m : au_multi) (i : session_index) (s : au_session) : au_multi :=
  match i with
  | TM_ACTIVE => au_set_sessions m s (au_initial m) (au_lame m)
  | TM_INITIAL => au_set_sessions m (au_active m) s (au_lame m)
  | TM_LAME_DUCK => au_set_sessions m (au_active m) (au_initial m) s
  end.
Definition au_flags (m : au_multi) (i : session_index) : Z := auth_token_state_flags (au_primary (au_get m i)).
Definition put_key (m : au_multi) (i : session_index) (k : au_key) : au_multi :=
  let s := au_get m i in au_put m i (mk_aus k (au_lame_duck s) (common_name s)).
Definition put_flags (m : au_multi) (i : session_index) (flags : Z) : au_multi :=
  let k := au_primary (au_get m i) in put_key m i (mk_auk flags (au_authenticated k) (mda_status k)).
Definition put_authenticated (m : au_multi) (i : session_index) (a : ks_auth_state) : au_multi :=
  let k := au_primary (au_get m i) in put_key m i (mk_auk (auth_token_state_flags k) a (mda_status k)).
Definition put_mda (m : au_multi) (i : session_index) (a : auth_deferred_result) : au_multi :=
  let k := au_primary (au_get m i) in put_key m i (mk_auk (auth_token_state_flags k) (au_authenticated k) a).

(** The newest setting is in front; [None] removes the variable. *)
Definition setenv_str (m : au_multi) (name : bytes) (value : option bytes) : au_multi :=
  mk_aum (auth_token m) (auth_token_initial m) (locked_username m) (locked_original_username m) (client_reason m)
    (au_active m) (au_initial m) (au_lame m) ((name, value) :: au_es m).
Definition auth_set_client_reason (m : au_multi) (reason : bytes) : au_multi :=
  mk_aum (auth_token m) (auth_token_initial m) (locked_username m) (locked_original_username m)
    (if 0 <? Zlen reason then Some reason else None) (au_active m) (au_initial m) (au_lame m) (au_es m).

(** Strings in memory. *)
Definition heap_str (s : bytes) : bytes := s ++ [0].
Definition array_str (s : bytes) : bytes := s ++ replicate (Z.to_nat (USER_PASS_LEN - Zlen s)) 0.
Definition cstr (mem : bytes) (p : Z) : res bytes :=
  if p <? 0 then UB
  else let s := drop (Z.to_nat p) mem in if bool_decide (0 ∈ s) then Ret (until 0 s) else UB.
Definition memcmp_mem (a b : bytes) (n : Z) : res bool :=
  let! x := mem_read a 0 n in let! y := mem_read b 0 n in Ret (memcmp_eq x y).

Definition is_auth_token (password : bytes) : bool := has_prefix SESSION_ID_PREFIX password.

Definition wipe_auth_token (m : au_multi) : au_multi := set_tokens m None None.
Definition tls_deauthenticate (m : au_multi) : au_multi :=
  let m := wipe_auth_token m in
  let deauth (k : au_key) := mk_auk (auth_token_state_flags k) KS_AUTH_FALSE (mda_status k) in
  let f (s : au_session) := mk_aus (deauth (au_primary s)) (deauth (au_lame_duck s)) (common_name s) in
  au_set_sessions m (f (au_active m)) (f (au_initial m)) (f (au_lame m)).

Section AuthToken.
Context {cipher_ctx hmac_ctx : Type} `{CL : CryptoLib cipher_ctx hmac_ctx}.

(** The options of [struct tls_options] that are used; they are the same for all sessions. *)
Record token_options : Type := mk_to {
  auth_token_generate : bool;
  auth_token_call_auth : bool;
  auth_token_lifetime : Z;
  auth_token_renewal : Z;
  auth_token_key : key_ctx cipher_ctx hmac_ctx;
  to_ssl_flags : Z
}.
Context (opt : token_options) (now : Z) (rnd : option bytes).

Definition token_hmac : res hmac_ctx := match ctx_hmac (auth_token_key opt) with Some h => Ret h | None => UB end.

(** ** Creating tokens *)
(** The first time stamp and the session identifier of the token the client got first. *)
Definition token_session (m : au_multi) (timestamp : bytes) : res (bytes * bytes) :=
  match auth_token_initial m with
  | Some initial =>
      let copy := heap_str initial in
      let old_sessid := PREFIX_LEN in
      let old_tstamp_initial := old_sessid + AUTH_TOKEN_SESSION_ID_BASE64_LEN in
      let! copy := mem_write copy (old_tstamp_initial + 12) [0] in
      let! s := cstr copy old_tstamp_initial in
      let! (n, old_tstamp_decode) := openvpn_base64_decode s (replicate 9 0) 9 in
      assert! n =? 9 in
      let! initial_timestamp := mem_read old_tstamp_decode 0 8 in
      let! copy := mem_write copy old_tstamp_initial [0] in
      let! s := cstr copy old_sessid in
      let! (n, sessid) := openvpn_base64_decode s (replicate (Z.to_nat AUTH_TOKEN_SESSION_ID_LEN) 0) AUTH_TOKEN_SESSION_ID_LEN in
      assert! n =? AUTH_TOKEN_SESSION_ID_LEN in
      Ret (initial_timestamp, sessid)
  | None => match rnd with Some sessid => Ret (timestamp, sessid) | None => Fatal end
  end.

Definition write_all_to (b : buffer) (parts : list bytes) : res buffer :=
  foldl (fun r p => let! b := r in let! (ok, b) := buf_write b p in assert! ok in Ret b) (Ret b) parts.

Definition generate_auth_token (up : user_pass) (m : au_multi) : res au_multi :=
  let timestamp := be_bytes 8 (u64 now) in
  let! ctx := token_hmac in
  assert! hmac_ctx_size ctx =? 32 in
  let! (initial_timestamp, sessid) := token_session m timestamp in
  let name := if negb (Z.land (au_flags m TM_ACTIVE) AUTH_TOKEN_VALID_EMPTYUSER =? 0) then [] else username up in
  let hmac_output := hmac_ctx_value ctx (name ++ sessid ++ initial_timestamp ++ timestamp) in
  let! token := alloc_buf_gc (replicate (Z.to_nat TOKEN_DATA_LEN) 0) in
  let! token := write_all_to token [sessid; initial_timestamp; timestamp; hmac_output] in
  let! data := buf_bytes token in
  let! (_, b64output) := openvpn_base64_encode data (b_len token) in
  match b64output with
  | None => UB
  | Some b64output =>
      let! session_token := alloc_buf_gc (replicate (Z.to_nat (PREFIX_LEN + Zlen b64output + 1)) 0) in
      let! session_token := write_all_to session_token [SESSION_ID_PREFIX; b64output] in
      let! (ok, session_token) := buf_write_u8 session_token 0 in
      assert! ok in
      let! tok := Text.buf_str session_token in
      Ret (set_tokens m (Some tok) (Some (default tok (auth_token_initial m))))
  end.

(** ** Verifying tokens *)
Definition check_hmac_token (ctx : hmac_ctx) (b64decoded : bytes) (name : bytes) : res bool :=
  assert! hmac_ctx_size ctx =? 32 in
  let! data := mem_read b64decoded 0 (TOKEN_DATA_LEN - 32) in
  let! hmac := mem_read b64decoded (TOKEN_DATA_LEN - 32) 32 in
  Ret (memcmp_eq (hmac_ctx_value ctx (name ++ data)) hmac).

(** The flags, the user name (emptied for a token of the empty user) and the state. *)
Definition verify_auth_token (up : user_pass) (m : au_multi) : res (Z * user_pass * au_multi) :=
  let! s := cstr (array_str (password up)) PREFIX_LEN in
  let! (decoded_len, b64decoded) := openvpn_base64_decode s (replicate (Z.to_nat USER_PASS_LEN) 0) USER_PASS_LEN in
  if negb (decoded_len =? TOKEN_DATA_LEN) then Ret (0, up, m)
  else
    let! tstamp_initial := mem_read b64decoded AUTH_TOKEN_SESSION_ID_LEN 8 in
    let! tstamp := mem_read b64decoded (AUTH_TOKEN_SESSION_ID_LEN + 8) 8 in
    let timestamp := be_val tstamp in
    let timestamp_initial := be_val tstamp_initial in
    let! ctx := token_hmac in
    let! ok := check_hmac_token ctx b64decoded (username up) in
    let! r := (if ok then Ret (Some (AUTH_TOKEN_HMAC_OK, up))
               else
                 let! ok := check_hmac_token ctx b64decoded [] in
                 Ret (if ok then Some (Z.lor AUTH_TOKEN_HMAC_OK AUTH_TOKEN_VALID_EMPTYUSER, mk_up [] (password up)) else None)) in
    match r with
    | None => Ret (0, up, m)
    | Some (ret, up) =>
        let in_renegotiation_time := (timestamp <=? u64 now) && (u64 now <? u64 (timestamp + u32 (2 * auth_token_renewal opt))) in
        let ret := if negb in_renegotiation_time then Z.lor ret AUTH_TOKEN_EXPIRED else ret in
        let ret := if timestamp <? timestamp_initial then Z.lor ret AUTH_TOKEN_EXPIRED else ret in
        let ret := if negb (auth_token_lifetime opt =? 0) && (u64 (timestamp_initial + auth_token_lifetime opt) <? u64 now)
                   then Z.lor ret AUTH_TOKEN_EXPIRED else ret in
        let m := if negb (Z.land ret AUTH_TOKEN_EXPIRED =? 0) then auth_set_client_reason m (str "SESSION: token expired") else m in
        match auth_token_initial m with
        | Some initial =>
            let! same := memcmp_mem (heap_str initial) (array_str (password up)) (PREFIX_LEN + AUTH_TOKEN_SESSION_ID_BASE64_LEN) in
            Ret (if same then ret else 0, up, m)
        | None => Ret (ret, up, m)
        end
    end.

(** ** The environment of scripts *)
Definition session_state (up : user_pass) (flags : Z) : bytes :=
  if negb (is_auth_token (password up)) then str "Initial"
  else if negb (Z.land flags AUTH_TOKEN_HMAC_OK =? 0) then
    let expired := negb (Z.land flags AUTH_TOKEN_EXPIRED =? 0) in
    if Z.land flags AUTH_TOKEN_VALID_EMPTYUSER =? 0
    then if expired then str "Expired" else str "Authenticated"
    else if expired then str "ExpiredEmptyUser" else str "AuthenticatedEmptyUser"
  else str "Invalid".
Definition add_session_token_env (i : session_index) (up : user_pass) (m : au_multi) : res au_multi :=
  if negb (auth_token_generate opt) then Ret m
  else
    let flags := au_flags m i in
    let m := setenv_str m (str "session_state") (Some (session_state up flags)) in
    let! (source, m) :=
      (if negb (Z.land flags AUTH_TOKEN_HMAC_OK =? 0) && (Z.land flags AUTH_TOKEN_EXPIRED =? 0) then Ret (array_str (password up), m)
       else
         let! m := match auth_token_initial m with Some _ => Ret m | None => generate_auth_token up m end in
         match auth_token_initial m with Some s => Ret (heap_str s, m) | None => UB end) in
    let! id := mem_read source PREFIX_LEN AUTH_TOKEN_SESSION_ID_BASE64_LEN in
    Ret (setenv_str m (str "session_id") (Some (until 0 (id ++ [0])))).

(** ** Passwords *)
Inductive plugin_status : Type := OPENVPN_PLUGIN_FUNC_SUCCESS | OPENVPN_PLUGIN_FUNC_ERROR | OPENVPN_PLUGIN_FUNC_DEFERRED.
Inductive kmda : Type := KMDA_ERROR | KMDA_SUCCESS | KMDA_UNDEF | KMDA_DEF.
(** The management interface decides; the verdicts of plugin and script, [None] without one.
    What they leave in the state for messages to the client is not modelled. *)
Record verdicts : Type := mk_verdicts {
  management_enable_def_auth : bool;
  plugin_verdict : option plugin_status;
  script_verdict : option plugin_status
}.

Definition tls_lock_username (m : au_multi) (name : bytes) : bool * au_multi :=
  match locked_username m with
  | Some locked =>
      let original := match locked_original_username m with Some o => streq name o | None => false end in
      if negb (streq name locked) && negb original then (false, tls_deauthenticate m) else (true, m)
  | None => (true, set_locked m (Some name))
  end.
Definition set_common_name (m : au_multi) (i : session_index) (cn : bytes) : au_multi :=
  let s := au_get m i in
  setenv_str (au_put m i (mk_aus (au_primary s) (au_lame_duck s) (Some cn))) (str "common_name") (Some cn).
Definition ssl_verify_username_length (name : bytes) : bool :=
  negb (negb (Z.land (to_ssl_flags opt) SSLF_USERNAME_AS_COMMON_NAME =? 0) && (TLS_USERNAME_LEN <? Zlen name)).

(** [setenv_untrusted] (the address of the client) is left out. *)
Definition set_verify_user_pass_env (up : user_pass) (m : au_multi) (i : session_index) : res (bool * au_multi) :=
  if negb (Z.land (to_ssl_flags opt) SSLF_AUTH_USER_PASS_OPTIONAL =? 0) || (0 <? Zlen (username up)) then
    let m := setenv_str m (str "username") (Some (username up)) in
    let m := setenv_str m (str "common_name") (common_name (au_get m i)) in
    let! m := add_session_token_env i up m in Ret (true, m)
  else Ret (false, m).

(** [strncmp] and [strncpy] over the array of the user name. *)
Definition override_username (up : user_pass) (m : au_multi) : res user_pass :=
  match locked_original_username m with
  | Some o =>
      if streq (take (Z.to_nat USER_PASS_LEN) (username up)) (take (Z.to_nat USER_PASS_LEN) o) then
        match locked_username m with
        | Some l => if USER_PASS_LEN <=? Zlen l then UB else Ret (mk_up l (password up))
        | None => UB
        end
      else Ret up
  | None => Ret up
  end.

Definition status_ok (s : plugin_status) : bool := match s with OPENVPN_PLUGIN_FUNC_ERROR => false | _ => true end.
Definition is_deferred (s : plugin_status) : bool := match s with OPENVPN_PLUGIN_FUNC_DEFERRED => true | _ => false end.

(** The first part: an authentication token in place of the password.  [None]: the token is
    refused; else whether the other methods are skipped. *)
Definition verify_token_first (up : user_pass) (m : au_multi) (i : session_index) : res (option bool * user_pass * au_multi) :=
  if auth_token_generate opt && is_auth_token (password up) then
    let! (flags, up, m) := verify_auth_token up m in
    let m := put_flags m i flags in
    let m := match auth_token_initial m with Some _ => m | None => set_tokens m (auth_token m) (Some (password up)) end in
    if auth_token_call_auth opt then Ret (Some false, up, m)
    else if flags =? AUTH_TOKEN_HMAC_OK then Ret (Some true, up, m)
    else Ret (None, up, put_authenticated (wipe_auth_token m) i KS_AUTH_FALSE)
  else Ret (Some false, up, m).

(** The last part: the verdict, and a token for the client. *)
Definition accept_user (up : user_pass) (m : au_multi) (i : session_index) (skip_auth : bool) (man : kmda) (plugin script : plugin_status)
  : res au_multi :=
  let m := put_authenticated m i KS_AUTH_TRUE in
  let m := if is_deferred plugin || is_deferred script then put_authenticated m i KS_AUTH_DEFERRED else m in
  let m := match man with
           | KMDA_UNDEF => m
           | _ => if skip_auth then put_mda m i ACF_DISABLED else put_authenticated m i KS_AUTH_DEFERRED
           end in
  let m := if negb (Z.land (to_ssl_flags opt) SSLF_USERNAME_AS_COMMON_NAME =? 0) then set_common_name m i (username up) else m in
  if auth_token_generate opt then
    let flags := au_flags m i in
    let m := match auth_token m with
             | None => if negb (Z.land flags AUTH_TOKEN_HMAC_OK =? 0) && (Z.land flags AUTH_TOKEN_EXPIRED =? 0)
                       then set_tokens m (Some (password up)) (auth_token_initial m) else m
             | Some _ => m
             end in
    generate_auth_token up m
  else Ret m.

(** The environment, the other methods and the checks of the user name. *)
Definition verify_methods (v : verdicts) (up : user_pass) (m : au_multi) (i : session_index) (skip_auth : bool) : res (user_pass * au_multi) :=
  let man := if management_enable_def_auth v then KMDA_DEF else KMDA_UNDEF in
  let! (env_ok, m) := set_verify_user_pass_env up m i in
  let skip_auth := skip_auth || negb env_ok in
  let plugin := if env_ok then OPENVPN_PLUGIN_FUNC_SUCCESS else OPENVPN_PLUGIN_FUNC_ERROR in
  let man := if skip_auth then man else match man with KMDA_DEF => KMDA_SUCCESS | _ => man end in
  let plugin := if skip_auth then plugin else default plugin (plugin_verdict v) in
  let script := if skip_auth then OPENVPN_PLUGIN_FUNC_SUCCESS else default OPENVPN_PLUGIN_FUNC_SUCCESS (script_verdict v) in
  let '(plugin, script) := if ssl_verify_username_length (username up) then (plugin, script)
                           else (OPENVPN_PLUGIN_FUNC_ERROR, OPENVPN_PLUGIN_FUNC_ERROR) in
  let '(ok, m) := if status_ok script && status_ok plugin then tls_lock_username m (username up) else (false, m) in
  if ok && match man with KMDA_ERROR => false | _ => true end then
    let! m := accept_user up m i skip_auth man plugin script in Ret (up, m)
  else Ret (up, put_authenticated m i KS_AUTH_FALSE).

(** Both strings in their character class. *)
Definition remap_names (up : user_pass) : user_pass :=
  mk_up (string_mod (username up) CC_PRINT CC_CRLF 95).2 (string_mod (password up) CC_PRINT CC_CRLF 95).2.
Definition verify_user_pass (v : verdicts) (up : user_pass) (m : au_multi) (i : session_index) : res (user_pass * au_multi) :=
  let! up := override_username (remap_names up) m in
  let! (skip, up, m) := verify_token_first up m i in
  match skip with
  | None => Ret (up, m)
  | Some skip_auth => verify_methods v up m i skip_auth
  end.

(** ** Renewal *)
(** The token that is pushed to the client. *)
Definition resend_auth_token_renegotiation (m : au_multi) : res (option bytes) :=
  match auth_token_initial m with
  | None => Ret None
  | Some _ => match auth_token m with Some t => Ret (Some t) | None => Fatal end
  end.
(** [ready]: the keys of the active session are generated. *)
Definition check_send_auth_token (ready : bool) (m : au_multi) : res (option bytes * au_multi) :=
  if negb ready || negb (bool_decide (au_authenticated (au_primary (au_active m)) = KS_AUTH_TRUE)) then Ret (None, m)
  else
    match auth_token_initial m, locked_username m with
    | Some _, Some name =>
        let! m := generate_auth_token (mk_up (take (Z.to_nat (USER_PASS_LEN - 1)) name) []) m in
        let! t := resend_auth_token_renegotiation m in Ret (t, m)
    | _, _ => Ret (None, m)
    end.
End AuthToken.

(** ** Strings *)
Lemma cstr_at pre s post p : p = Zlen pre -> (0 ∉ s) -> cstr (pre ++ s ++ 0 :: post) p = Ret s.
Proof.
  intros -> H. unfold cstr. pose proof (Zlen_nonneg pre). rewrite (proj2 (Z.ltb_ge _ _)) by lia. rewrite to_nat_Zlen, drop_app_length.
  rewrite bool_decide_eq_true_2 by set_solver. by rewrite until_app.
Qed.

Lemma array_str_split s : Zlen s < USER_PASS_LEN -> array_str s = s ++ 0 :: replicate (Z.to_nat (USER_PASS_LEN - Zlen s - 1)) 0.
Proof.
  intros H. unfold array_str. replace (Z.to_nat (USER_PASS_LEN - Zlen s)) with (S (Z.to_nat (USER_PASS_LEN - Zlen s - 1))) by lia. done.
Qed.

Lemma Zlen_array_str s : Zlen s <= USER_PASS_LEN -> Zlen (array_str s) = USER_PASS_LEN.
Proof. intros H. unfold array_str. rewrite Zlen_app. unfold Zlen at 2. rewrite length_replicate. lia. Qed.

Lemma password_text (s : bytes) :
  (0 ∉ s) -> Zlen s < USER_PASS_LEN - PREFIX_LEN -> cstr (array_str (SESSION_ID_PREFIX ++ s)) PREFIX_LEN = Ret s.
Proof.
  intros H Hl. rewrite array_str_split by (rewrite Zlen_app; unfold PREFIX_LEN in *; lia). rewrite <- app_assoc. by apply cstr_at.
Qed.

(** ** Tokens *)
(** The text of a token with the 60 bytes [d]. *)
Definition token_text (d : bytes) : bytes := SESSION_ID_PREFIX ++ b64 d.
Definition token_data_ok (d : bytes) : Prop := bytes_ok d /\ Zlen d = TOKEN_DATA_LEN.
Definition tok_sessid (d : bytes) : bytes := take 12 d.
Definition tok_initial (d : bytes) : bytes := take 8 (drop 12 d).
Definition tok_time (d : bytes) : bytes := take 8 (drop 20 d).
Definition tok_hmac (d : bytes) : bytes := drop 28 d.

Lemma token_split d :
  token_data_ok d -> exists a b c e, d = a ++ b ++ c ++ e /\ Zlen a = 12 /\ Zlen b = 9 /\ Zlen c = 7 /\ Zlen e = 32
    /\ bytes_ok a /\ bytes_ok b /\ bytes_ok c /\ bytes_ok e.
Proof.
  intros [Ho Hl]. change (Zlen d = 60) in Hl. exists (take 12 d), (take 9 (drop 12 d)), (take 7 (drop 21 d)), (drop 28 d). unfold Zlen in *.
  rewrite !length_take, !length_drop. split.
  - rewrite <- (take_drop 12 d) at 1. f_equal. rewrite <- (take_drop 9 (drop 12 d)) at 1. f_equal. rewrite drop_drop.
    rewrite <- (take_drop 7 (drop _ d)) at 1. f_equal. by rewrite drop_drop.
  - split_and!; try lia; repeat first [apply Forall_take | apply Forall_drop]; done.
Qed.

Lemma token_text_facts d :
  token_data_ok d -> (0 ∉ token_text d) /\ Zlen (token_text d) = 91 /\ is_auth_token (token_text d) = true.
Proof.
  intros [Ho Hl]. unfold token_text. split_and!.
  - rewrite elem_of_app. pose proof (b64_nonzero d Ho). assert (0 ∉ SESSION_ID_PREFIX) by by_eval. tauto.
  - rewrite Zlen_app, Zlen_b64, Hl. done.
  - apply has_prefix_app.
Qed.

Lemma decode_exact d :
  bytes_ok d -> openvpn_base64_decode (b64 d) (replicate (length d) 0) (Zlen d) = Ret (Zlen d, d).
Proof.
  intros Ho. rewrite <- (app_nil_r (b64 d)). rewrite decode_spec by (done || (rewrite ?length_replicate; lia)).
  cbn [decode_loop]. rewrite drop_ge by (rewrite length_replicate; lia). by rewrite app_nil_r.
Qed.

Section TokenSession.
Context {cipher_ctx hmac_ctx : Type} `{CL : CryptoLib cipher_ctx hmac_ctx} {LL : CtrlLaws cipher_ctx hmac_ctx}.
Context (opt : token_options (cipher_ctx := cipher_ctx) (hmac_ctx := hmac_ctx)) (h : hmac_ctx).
Context (Hh : ctx_hmac (auth_token_key opt) = Some h) (Hsize : hmac_ctx_size h = 32).

(** The session of a token the server made itself is read back from it. *)
Lemma token_session_kept rnd m d ts :
  auth_token_initial m = Some (token_text d) -> token_data_ok d -> token_session rnd m ts = Ret (tok_initial d, tok_sessid d).
Proof.
  intros Hm Hd. unfold token_session. rewrite Hm. destruct (token_split d Hd) as (a & b & c & e & -> & La & Lb & Lc & Le & Oa & Ob & Oc & Oe).
  assert (Et : token_text (a ++ b ++ c ++ e) = SESSION_ID_PREFIX ++ b64 a ++ b64 b ++ b64 (c ++ e)).
  { unfold token_text. rewrite (b64_app a) by (by rewrite La). by rewrite (b64_app b) by (by rewrite Lb). }
  assert (Hr : exists x r, b64 (c ++ e) = x :: r).
  { destruct (b64 (c ++ e)) as [|x r] eqn:E; [|by exists x, r]. apply (f_equal Zlen) in E. rewrite Zlen_b64, Zlen_app, Lc, Le in E. discriminate E. }
  destruct Hr as (x & r & Er). rewrite Et, Er. unfold heap_str.
  pose proof (Zlen_b64 a) as Za. rewrite La in Za. change (4 * ((12 + 2) / 3)) with 16 in Za.
  pose proof (Zlen_b64 b) as Zb. rewrite Lb in Zb. change (4 * ((9 + 2) / 3)) with 12 in Zb.
  assert (Ep : PREFIX_LEN = 11) by done. assert (Es : AUTH_TOKEN_SESSION_ID_BASE64_LEN = 16) by done.
  replace ((SESSION_ID_PREFIX ++ b64 a ++ b64 b ++ x :: r) ++ [0]) with ((SESSION_ID_PREFIX ++ b64 a ++ b64 b) ++ [x] ++ r ++ [0])
    by (rewrite <- !app_assoc; done).
  replace (PREFIX_LEN + AUTH_TOKEN_SESSION_ID_BASE64_LEN + 12) with (Zlen (SESSION_ID_PREFIX ++ b64 a ++ b64 b))
    by (rewrite !Zlen_app, Za, Zb, Ep, Es; done).
  rewrite mem_write_mid by done. cbn [res_bind].
  replace ((SESSION_ID_PREFIX ++ b64 a ++ b64 b) ++ [0] ++ r ++ [0]) with ((SESSION_ID_PREFIX ++ b64 a) ++ b64 b ++ 0 :: (r ++ [0]))
    by (rewrite <- !app_assoc; done).
  rewrite cstr_at by (by apply b64_nonzero || (rewrite Zlen_app, Za, Ep, Es; done)). cbn [res_bind].
  replace 9%nat with (length b) by (unfold Zlen in Lb; lia). rewrite <- Lb, (decode_exact b Ob). cbn [res_bind]. rewrite Z.eqb_refl.
  assert (Eb : mem_read b 0 8 = Ret (take 8 b)) by (rewrite mem_read_ok by lia; by rewrite drop_0). rewrite Eb. cbn [res_bind].
  destruct (b64 b) as [|y z] eqn:E2; [discriminate Zb|].
  replace ((SESSION_ID_PREFIX ++ b64 a) ++ (y :: z) ++ 0 :: (r ++ [0])) with ((SESSION_ID_PREFIX ++ b64 a) ++ [y] ++ (z ++ 0 :: (r ++ [0]))) by done.
  replace (PREFIX_LEN + AUTH_TOKEN_SESSION_ID_BASE64_LEN) with (Zlen (SESSION_ID_PREFIX ++ b64 a)) by (rewrite Zlen_app, Za, Ep, Es; done).
  rewrite mem_write_mid by done. cbn [res_bind]. rewrite <- app_assoc. cbn [app].
  rewrite (cstr_at SESSION_ID_PREFIX (b64 a)) by (done || by apply b64_nonzero). cbn [res_bind].
  assert (El : Z.to_nat AUTH_TOKEN_SESSION_ID_LEN = length a) by (unfold Zlen in La; change (Z.to_nat AUTH_TOKEN_SESSION_ID_LEN) with 12%nat; lia).
  rewrite El. change AUTH_TOKEN_SESSION_ID_LEN with 12. rewrite <- La, (decode_exact a Oa). cbn [res_bind]. rewrite Z.eqb_refl.
  unfold tok_initial, tok_sessid. unfold Zlen in La, Lb. rewrite take_app_length' by lia. rewrite drop_app_length' by lia.
  by rewrite take_app_le by lia.
Qed.

Lemma write_parts parts : forall b c t,
  buf_repr b 0 c t -> Forall bytes_ok parts -> Zlen (concat parts) <= t ->
  exists b', write_all_to b parts = Ret b' /\ buf_repr b' 0 (c ++ concat parts) (t - Zlen (concat parts)).
Proof.
  unfold write_all_to. induction parts as [|p parts IH]; intros b c t Hb Hok Hl.
  { exists b. cbn. change (Zlen (@nil Z)) with 0. rewrite app_nil_r, Z.sub_0_r. done. }
  apply Forall_cons in Hok as [Hp Hok]. cbn [concat] in *. rewrite Zlen_app in *. pose proof (Zlen_nonneg (concat parts)).
  destruct (buf_write_repr _ _ _ _ Hb p Hp ltac:(lia)) as (b1 & E & H1). cbn [foldl res_bind]. rewrite E. cbn [res_bind].
  destruct (IH b1 (c ++ p) (t - Zlen p) H1 Hok ltac:(lia)) as (b' & E' & H'). exists b'. split; [exact E'|].
  rewrite <- app_assoc in H'. by replace (t - (Zlen p + Zlen (concat parts))) with (t - Zlen p - Zlen (concat parts)) by lia.
Qed.

Lemma zeros_buf n : 0 <= n < BUF_SIZE_MAX -> exists b, alloc_buf_gc (replicate (Z.to_nat n) 0) = Ret b /\ buf_repr b 0 [] n.
Proof.
  intros Hn. assert (L : Zlen (replicate (Z.to_nat n) 0) = n) by (unfold Zlen; rewrite length_replicate; lia).
  destruct (TlsSend.alloc_buf_gc_repr (replicate (Z.to_nat n) 0)) as (b & E & R).
  - apply Forall_replicate. unfold is_u8. lia.
  - lia.
  - exists b. by rewrite L in R.
Qed.

(** The token is the text of its session, the times and the HMAC. *)
Lemma generate_token_spec now rnd up m initial sessid :
  let timestamp := be_bytes 8 (u64 now) in
  token_session rnd m timestamp = Ret (initial, sessid) -> bytes_ok initial -> Zlen initial = 8 -> bytes_ok sessid -> Zlen sessid = 12 ->
  let name := if negb (Z.land (au_flags m TM_ACTIVE) AUTH_TOKEN_VALID_EMPTYUSER =? 0) then [] else username up in
  let d := sessid ++ initial ++ timestamp ++ hmac_ctx_value h (name ++ sessid ++ initial ++ timestamp) in
  generate_auth_token opt now rnd up m = Ret (set_tokens m (Some (token_text d)) (Some (default (token_text d) (auth_token_initial m))))
  /\ token_data_ok d.
Proof using Hh Hsize LL.
  intros timestamp E Oi Li Os Ls name d. destruct (cl_hmac h (name ++ sessid ++ initial ++ timestamp)) as [Lh Oh].
  rewrite Hsize in Lh. assert (Ht : Zlen timestamp = 8) by apply Zlen_be_bytes. assert (Ot : bytes_ok timestamp) by apply be_bytes_ok.
  assert (Hd : token_data_ok d).
  { split; [unfold d; rewrite !bytes_ok_app; done|]. unfold d. rewrite !Zlen_app, Lh, Li, Ls, Ht. done. }
  split; [|done]. unfold generate_auth_token, token_hmac. rewrite Hh. cbn [res_bind]. rewrite Hsize. cbn [Z.eqb Pos.eqb].
  fold timestamp. rewrite E. cbn [res_bind]. fold name. set (hm := hmac_ctx_value h _) in *.
  destruct (zeros_buf TOKEN_DATA_LEN) as (b & -> & Rb); [by vm_compute|]. cbn [res_bind].
  assert (Hc : concat [sessid; initial; timestamp; hm] = d) by (cbn; by rewrite app_nil_r).
  destruct (write_parts [sessid; initial; timestamp; hm] b [] TOKEN_DATA_LEN Rb) as (b1 & -> & R1);
    [by rewrite !Forall_cons, Forall_nil|rewrite Hc; destruct Hd as [_ ->]; lia|]. rewrite Hc in R1. cbn [app res_bind] in *.
  rewrite (buf_bytes_repr _ _ _ _ R1). cbn [res_bind]. pose proof (buf_repr_fields _ _ _ _ R1) as (_ & -> & _).
  pose proof (proj2 Hd) as Ld. rewrite encode_spec by (apply Hd || (rewrite Ld; by vm_compute)). cbn [res_bind].
  destruct (token_text_facts d Hd) as (N0 & L0 & _). pose proof (Zlen_b64 d) as Lb. rewrite Ld in Lb. change (4 * ((TOKEN_DATA_LEN + 2) / 3)) with 80 in Lb.
  rewrite Lb. destruct (zeros_buf (PREFIX_LEN + 80 + 1)) as (b2 & -> & R2); [by vm_compute|]. cbn [res_bind].
  assert (Ob : bytes_ok (b64 d)) by (apply b64_ok, Hd).
  destruct (write_parts [SESSION_ID_PREFIX; b64 d] b2 [] _ R2) as (b3 & -> & R3);
    [rewrite !Forall_cons, Forall_nil; split; [by_eval|done]|cbn [concat]; rewrite !Zlen_app, Lb; by vm_compute|].
  cbn [concat app res_bind] in *. rewrite app_nil_r in R3. fold (token_text d) in R3. rewrite L0 in R3.
  change (PREFIX_LEN + 80 + 1 - 91) with 1 in R3. unfold buf_write_u8.
  destruct (buf_write_repr _ _ _ _ R3 [u8 0]) as (b4 & -> & R4); [by_eval|done|]. cbn [res_bind].
  destruct R4 as (pre & post & (Dd & Do & _) & Hp & _). assert (pre = []) as -> by (apply length_zero_iff_nil; unfold Zlen in Hp; lia).
  unfold Text.buf_str. rewrite Dd, Do. change (Z.to_nat (Zlen (@nil Z))) with 0%nat. rewrite drop_0.
  change ([] ++ (token_text d ++ [u8 0]) ++ post) with ((token_text d ++ [0]) ++ post). rewrite <- app_assoc.
  change ([0] ++ post) with (0 :: post). rewrite bool_decide_eq_true_2 by (apply elem_of_app; right; left).
  by rewrite until_app by done.
Qed.

(** ** Verification *)
Definition mac_valid (name d : bytes) : bool := bool_decide (hmac_ctx_value h (name ++ take 28 d) = tok_hmac d).
Definition in_renewal_window (now : Z) (d : bytes) : bool :=
  (be_val (tok_time d) <=? u64 now) && (u64 now <? u64 (be_val (tok_time d) + u32 (2 * auth_token_renewal opt))).
Definition over_lifetime (now : Z) (d : bytes) : bool :=
  negb (auth_token_lifetime opt =? 0) && (u64 (be_val (tok_initial d) + auth_token_lifetime opt) <? u64 now).
Definition token_expired (now : Z) (d : bytes) : bool :=
  negb (in_renewal_window now d) || (be_val (tok_time d) <? be_val (tok_initial d)) || over_lifetime now d.
Definition same_session (m : au_multi) (pw : bytes) : bool :=
  match auth_token_initial m with None => true | Some ini => bool_decide (take 27 ini = take 27 pw) end.
(** The stored token is one the server made. *)
Definition stored_session_ok (m : au_multi) : Prop :=
  match auth_token_initial m with None => True | Some ini => exists d, ini = token_text d /\ token_data_ok d end.
(** The stored token is long enough for what is read from it. *)
Definition stored_ok (m : au_multi) : Prop :=
  match auth_token_initial m with Some s => (0 ∉ s) /\ 40 <= Zlen s | None => True end.

Lemma session_stored m : stored_session_ok m -> stored_ok m.
Proof.
  unfold stored_session_ok, stored_ok. destruct (auth_token_initial m); [|done]. intros (d & -> & Hd).
  destruct (token_text_facts d Hd) as (H0 & -> & _). done.
Qed.
Definition verified (now : Z) (d : bytes) (up : user_pass) (m : au_multi) : Z * user_pass * au_multi :=
  let base := if mac_valid (username up) d then Some (AUTH_TOKEN_HMAC_OK, up)
              else if mac_valid [] d then Some (Z.lor AUTH_TOKEN_HMAC_OK AUTH_TOKEN_VALID_EMPTYUSER, mk_up [] (password up)) else None in
  match base with
  | None => (0, up, m)
  | Some (flags, up') =>
      (if same_session m (password up) then if token_expired now d then Z.lor flags AUTH_TOKEN_EXPIRED else flags else 0, up',
       if token_expired now d then auth_set_client_reason m (str "SESSION: token expired") else m)
  end.

Lemma check_hmac_spec D name :
  60 <= Zlen D -> check_hmac_token h D name = Ret (mac_valid name (take 60 D)).
Proof using Hsize.
  intros HD. unfold check_hmac_token. rewrite Hsize. cbn [Z.eqb Pos.eqb]. change (TOKEN_DATA_LEN - 32) with 28.
  rewrite !mem_read_ok by lia. cbn [res_bind]. rewrite drop_0. change (Z.to_nat 28) with 28%nat. change (Z.to_nat 32) with 32%nat.
  unfold mac_valid, memcmp_eq, tok_hmac. rewrite take_take. change (28 `min` 60)%nat with 28%nat.
  by rewrite (skipn_firstn_comm 28 60 D).
Qed.

Lemma same_session_mem m pw :
  stored_ok m -> 27 <= Zlen pw <= USER_PASS_LEN ->
  match auth_token_initial m with
  | Some ini => memcmp_mem (heap_str ini) (array_str pw) (PREFIX_LEN + AUTH_TOKEN_SESSION_ID_BASE64_LEN) = Ret (same_session m pw)
  | None => same_session m pw = true
  end.
Proof.
  unfold stored_ok, same_session. destruct (auth_token_initial m) as [ini|]; [|done]. intros [_ Hl] Hp. unfold memcmp_mem, heap_str. change (PREFIX_LEN + AUTH_TOKEN_SESSION_ID_BASE64_LEN) with 27.
  rewrite (mem_read_ok (array_str pw)) by (rewrite ?Zlen_array_str by lia; unfold USER_PASS_LEN; lia).
  rewrite mem_read_ok by (rewrite ?Zlen_app; change (Zlen [0]) with 1; lia). cbn [res_bind]. rewrite !drop_0.
  unfold memcmp_eq, array_str, Zlen in *. change (Z.to_nat 27) with 27%nat. by rewrite !take_app_le by lia.
Qed.

Lemma verify_spec now s n D name m :
  let up := mk_up name (SESSION_ID_PREFIX ++ s) in
  (0 ∉ s) -> Zlen s < USER_PASS_LEN - PREFIX_LEN -> stored_ok m ->
  openvpn_base64_decode s (replicate (Z.to_nat USER_PASS_LEN) 0) USER_PASS_LEN = Ret (n, D) -> Zlen D = USER_PASS_LEN -> n <= Zlen s ->
  verify_auth_token opt now up m = Ret (if n =? TOKEN_DATA_LEN then verified now (take 60 D) up m else (0, up, m)).
Proof using Hh Hsize.
  intros up H0 Hl Hs E HD Hn. unfold verify_auth_token. cbn [password up]. rewrite password_text by done. cbn [res_bind].
  rewrite E. cbn [res_bind]. destruct (Z.eqb_spec n TOKEN_DATA_LEN) as [->|]; cbn [negb]; [|done].
  change TOKEN_DATA_LEN with 60 in Hn. unfold USER_PASS_LEN in HD.
  rewrite !mem_read_ok by (rewrite ?HD; unfold AUTH_TOKEN_SESSION_ID_LEN; lia). cbn [res_bind]. unfold token_hmac. rewrite Hh. cbn [res_bind].
  assert (E1 : take (Z.to_nat 8) (drop (Z.to_nat (AUTH_TOKEN_SESSION_ID_LEN + 8)) D) = tok_time (take 60 D)).
  { unfold tok_time. change (Z.to_nat 8) with 8%nat. change (Z.to_nat _) with 20%nat. rewrite skipn_firstn_comm, take_take. done. }
  assert (E2 : take (Z.to_nat 8) (drop (Z.to_nat AUTH_TOKEN_SESSION_ID_LEN) D) = tok_initial (take 60 D)).
  { unfold tok_initial. change (Z.to_nat 8) with 8%nat. change (Z.to_nat _) with 12%nat. rewrite skipn_firstn_comm, take_take. done. }
  rewrite E1, E2, !check_hmac_spec by lia. cbn [res_bind]. unfold verified. cbn [username password up].
  fold (in_renewal_window now (take 60 D)). fold (over_lifetime now (take 60 D)).
  assert (Hf : forall ret, ret = 1 \/ ret = 5 ->
    let r1 := if negb (in_renewal_window now (take 60 D)) then Z.lor ret AUTH_TOKEN_EXPIRED else ret in
    let r2 := if be_val (tok_time (take 60 D)) <? be_val (tok_initial (take 60 D)) then Z.lor r1 AUTH_TOKEN_EXPIRED else r1 in
    let r3 := if over_lifetime now (take 60 D) then Z.lor r2 AUTH_TOKEN_EXPIRED else r2 in
    r3 = (if token_expired now (take 60 D) then Z.lor ret AUTH_TOKEN_EXPIRED else ret)
    /\ negb (Z.land r3 AUTH_TOKEN_EXPIRED =? 0) = token_expired now (take 60 D)).
  { intros ret Hr. unfold token_expired. destruct Hr as [-> | ->], (in_renewal_window _ _), (_ <? _), (over_lifetime _ _); done. }
  cbv zeta in Hf. assert (Hm : forall m', auth_token_initial m' = auth_token_initial m -> forall ret up',
    match auth_token_initial m' with
    | Some initial => let! same := memcmp_mem (heap_str initial) (array_str (SESSION_ID_PREFIX ++ s)) (PREFIX_LEN + AUTH_TOKEN_SESSION_ID_BASE64_LEN) in
                      Ret (if same then ret else 0, up', m')
    | None => Ret (ret, up', m')
    end = Ret (if same_session m (SESSION_ID_PREFIX ++ s) then ret else 0, up', m') :> res (Z * user_pass * au_multi)).
  { intros m' E' ret up'. rewrite E'. pose proof (same_session_mem m (SESSION_ID_PREFIX ++ s) Hs) as Hss.
    rewrite Zlen_app in Hss. fold PREFIX_LEN in Hss. specialize (Hss ltac:(change PREFIX_LEN with 11 in *; unfold USER_PASS_LEN in *; lia)).
    destruct (auth_token_initial m) as [ini|]; [by rewrite Hss|by rewrite Hss]. }
  destruct (mac_valid name (take 60 D)); [|destruct (mac_valid [] (take 60 D))]; cbn [res_bind]; [| |done];
    (edestruct Hf as [H1 H2]; [| rewrite H2; rewrite H1; cbn [password up]; by destruct (token_expired _ _); rewrite Hm]); [by left|by right].
Qed.

(** ** A token comes back *)
Lemma token_head d : token_data_ok d -> take 27 (token_text d) = SESSION_ID_PREFIX ++ b64 (tok_sessid d).
Proof.
  intros Hd. destruct (token_split d Hd) as (a & b & c & e & -> & La & _). unfold token_text, tok_sessid.
  rewrite b64_app by (by rewrite La). pose proof (Zlen_b64 a) as Za. rewrite La in Za. change (4 * ((12 + 2) / 3)) with 16 in Za.
  unfold Zlen in La, Za. rewrite (take_app_length' a) by lia. rewrite app_assoc.
  rewrite take_app_length'; [done|]. rewrite length_app. change (length SESSION_ID_PREFIX) with 11%nat. lia.
Qed.

Lemma decode_token d :
  token_data_ok d -> exists D, openvpn_base64_decode (b64 d) (replicate (Z.to_nat USER_PASS_LEN) 0) USER_PASS_LEN = Ret (TOKEN_DATA_LEN, D)
    /\ Zlen D = USER_PASS_LEN /\ take 60 D = d.
Proof.
  intros [Ho Hl]. exists (d ++ drop (length d) (replicate (Z.to_nat USER_PASS_LEN) 0)). change TOKEN_DATA_LEN with 60 in *.
  rewrite <- (app_nil_r (b64 d)). unfold Zlen in *. rewrite decode_spec; [|done|rewrite length_replicate; unfold USER_PASS_LEN; lia|unfold USER_PASS_LEN, Zlen; lia].
  cbn [decode_loop]. unfold Zlen. rewrite Hl. split; [done|]. split.
  - rewrite length_app, length_drop, length_replicate. unfold USER_PASS_LEN. lia.
  - apply take_app_length'. lia.
Qed.

Lemma verify_token now d name m :
  token_data_ok d -> stored_session_ok m ->
  verify_auth_token opt now (mk_up name (token_text d)) m = Ret (verified now d (mk_up name (token_text d)) m).
Proof using Hh Hsize.
  intros Hd Hs%session_stored. destruct (decode_token d Hd) as (D & E & L & T). pose proof (Zlen_b64 (d)) as Zb. rewrite (proj2 Hd) in Zb.
  change (4 * ((TOKEN_DATA_LEN + 2) / 3)) with 80 in Zb. unfold token_text at 1.
  rewrite (verify_spec now (b64 d) TOKEN_DATA_LEN D name m); [|apply b64_nonzero, Hd|rewrite Zb; by vm_compute|done|done|done|rewrite Zb; by vm_compute].
  rewrite Z.eqb_refl, T. done.
Qed.

Lemma parts_of_token a b c e : Zlen a = 12 -> Zlen b = 8 -> Zlen c = 8 ->
  let d := a ++ b ++ c ++ e in tok_sessid d = a /\ tok_initial d = b /\ tok_time d = c /\ tok_hmac d = e /\ take 28 d = a ++ b ++ c.
Proof.
  unfold Zlen, tok_sessid, tok_initial, tok_time, tok_hmac. intros La Lb Lc. cbv zeta. split_and!.
  - apply take_app_length'. lia.
  - rewrite drop_app_length' by lia. apply take_app_length'. lia.
  - rewrite app_assoc, drop_app_length' by (rewrite length_app; lia). apply take_app_length'. lia.
  - rewrite !app_assoc. apply drop_app_length'. rewrite !length_app. lia.
  - rewrite (app_assoc b), (app_assoc a). apply take_app_length'. rewrite !length_app. lia.
Qed.

(** C25: a token is accepted for the time it is meant for.  The token that generate_auth_token
    makes for a user, when the client logs in first or when its session is continued, is 91
    characters; sent back as the password of that user, to the connection it was made for or on a
    new one, verify_auth_token finds its HMAC right, and reports it as expired exactly if the
    clock is in front of the token's time, two renewal intervals have passed since then, or the
    lifetime has passed since the first login of the session. *)
Theorem auth_token_roundtrip (now0 now1 first : Z) (rnd : option bytes) (up : user_pass) (m : au_multi) :
  match auth_token_initial m with
  | None => first = now0 /\ exists r, rnd = Some r /\ bytes_ok r /\ Zlen r = 12
  | Some ini => exists d0, ini = token_text d0 /\ token_data_ok d0 /\ be_val (tok_initial d0) = first
  end ->
  Z.land (au_flags m TM_ACTIVE) AUTH_TOKEN_VALID_EMPTYUSER = 0 ->
  0 <= first <= now0 -> now0 < 2 ^ 62 -> 0 <= now1 < 2 ^ 62 ->
  0 <= auth_token_renewal opt < 2 ^ 31 -> 0 <= auth_token_lifetime opt < 2 ^ 31 ->
  exists m' tok, generate_auth_token opt now0 rnd up m = Ret m' /\ auth_token m' = Some tok /\ Zlen tok = 91
    /\ forall m1, auth_token_initial m1 = None \/ auth_token_initial m1 = auth_token_initial m' ->
         let fine := (now0 <=? now1) && (now1 <? now0 + 2 * auth_token_renewal opt)
                     && ((auth_token_lifetime opt =? 0) || (now1 <=? first + auth_token_lifetime opt)) in
         exists m2, verify_auth_token opt now1 (mk_up (username up) tok) m1
                    = Ret (if fine then AUTH_TOKEN_HMAC_OK else Z.lor AUTH_TOKEN_HMAC_OK AUTH_TOKEN_EXPIRED, mk_up (username up) tok, m2)
                    /\ auth_token_initial m2 = auth_token_initial m1.
Proof using Hh Hsize LL.
  intros Hm Hf H1 H2 H3 Hr Hl. set (ts := be_bytes 8 (u64 now0)).
  assert (Hts : be_val ts = now0).
  { unfold ts. rewrite be_val_bytes. change (256 ^ Z.of_nat 8) with (2 ^ 64). rewrite u64_id by (unfold is_u64; lia). apply Z.mod_small. lia. }
  assert (Hsess : exists ini sid, token_session rnd m ts = Ret (ini, sid) /\ bytes_ok ini /\ Zlen ini = 8 /\ bytes_ok sid /\ Zlen sid = 12
    /\ be_val ini = first /\ match auth_token_initial m with Some old => take 27 old = SESSION_ID_PREFIX ++ b64 sid | None => True end
    /\ stored_session_ok m).
  { destruct (auth_token_initial m) as [old|] eqn:Em.
    - destruct Hm as (d0 & -> & Hd & Hb). exists (tok_initial d0), (tok_sessid d0).
      rewrite (token_session_kept rnd m d0 ts Em Hd). destruct Hd as [Ho Hlen]. change TOKEN_DATA_LEN with 60 in Hlen.
      unfold tok_initial, tok_sessid, Zlen in *. rewrite !length_take, length_drop. split_and!; try done; try lia.
      + by apply Forall_take, Forall_drop.
      + by apply Forall_take.
      + by apply (token_head d0).
      + unfold stored_session_ok. rewrite Em. by exists d0.
    - destruct Hm as (-> & r & -> & Or & Lr). exists ts, r. unfold token_session, stored_session_ok. rewrite Em.
      split_and!; try done. apply be_bytes_ok. }
  destruct Hsess as (ini & sid & Es & Oi & Li & Os & Ls & Hi & Hsame & Hso).
  destruct (generate_token_spec now0 rnd up m ini sid Es Oi Li Os Ls) as [E Hd]. rewrite Hf in E, Hd. cbn [Z.eqb negb] in E, Hd. fold ts in E, Hd.
  set (hm := hmac_ctx_value h (username up ++ sid ++ ini ++ ts)) in *. set (d := sid ++ ini ++ ts ++ hm) in *.
  destruct (parts_of_token sid ini ts hm Ls Li (Zlen_be_bytes 8 _)) as (P1 & P2 & P3 & P4 & P5). fold d in P1, P2, P3, P4, P5.
  eexists _, (token_text d). split; [exact E|]. split; [done|]. split; [by destruct (token_text_facts d Hd) as (_ & ? & _)|].
  intros m1 Hm1 fine. cbn [auth_token_initial set_tokens] in Hm1.
  assert (Hs1 : stored_session_ok m1 /\ same_session m1 (token_text d) = true).
  { unfold stored_session_ok, same_session in *. destruct Hm1 as [-> | ->]; [done|]. destruct (auth_token_initial m) as [old|]; cbn [default id].
    - split; [done|]. apply bool_decide_eq_true_2. unfold id. rewrite Hsame, (token_head d Hd). by rewrite P1.
    - split; [by exists d|]. by apply bool_decide_eq_true_2. }
  destruct Hs1 as [Hs1 Hs2]. rewrite (verify_token now1 d (username up) m1 Hd Hs1). unfold verified. cbn [username password].
  assert (Hv : mac_valid (username up) d = true) by (unfold mac_valid; rewrite P4, P5; by apply bool_decide_eq_true_2).
  rewrite Hv, Hs2. assert (He : token_expired now1 d = negb fine).
  { unfold token_expired, in_renewal_window, over_lifetime, fine. rewrite P2, P3, Hts, Hi.
    rewrite (u64_id now1), (u32_id (2 * _)), !u64_id by (unfold is_u64, is_u32; lia).
    rewrite (proj2 (Z.ltb_ge now0 first)) by lia. rewrite (Z.ltb_antisym now1 (first + _)).
    by rewrite orb_false_r, !negb_andb, negb_orb. }
  rewrite He. clearbody fine. by destruct fine; eexists.
Qed.

(** ** Logging in with a token *)

(** A result, or the process left through an assertion; nothing undefined. *)
Definition partial {A : Type} (r : res A) (P : A -> Prop) : Prop :=
  match r with Ret a => P a | Fatal => True | UB => False end.
Lemma partial_bind {A B : Type} (r : res A) (f : A -> res B) (P : A -> Prop) (Q : B -> Prop) :
  partial r P -> (forall a, P a -> partial (f a) Q) -> partial (res_bind r f) Q.
Proof. destruct r; cbn; eauto. Qed.
Lemma partial_mono {A : Type} (r : res A) (P Q : A -> Prop) : partial r P -> (forall a, P a -> Q a) -> partial r Q.
Proof. destruct r; cbn; auto. Qed.

Definition random_ok (rnd : option bytes) : Prop := match rnd with Some r => bytes_ok r /\ Zlen r = 12 | None => True end.
Lemma not_in_part n k (s : bytes) : (0 ∉ s) -> 0 ∉ take n (drop k s).
Proof.
  intros H Hin. apply H. rewrite <- (take_drop k s), elem_of_app. right. rewrite <- (take_drop n (drop k s)), elem_of_app. by left.
Qed.

Lemma cut_string s n : (0 ∉ s) -> 0 <= n < Zlen s -> exists post, mem_write (heap_str s) n [0] = Ret (take (Z.to_nat n) s ++ 0 :: post ++ [0]).
Proof.
  intros H0 Hn. exists (drop (Z.to_nat n + 1) s). unfold heap_str.
  rewrite mem_write_ok by (rewrite ?Zlen_app; change (Zlen [0]) with 1; lia). cbn [length]. unfold Zlen in Hn.
  by rewrite take_app_le, drop_app_le by lia.
Qed.

Lemma token_session_partial rnd m ts :
  stored_ok m -> random_ok rnd -> bytes_ok ts -> Zlen ts = 8 ->
  partial (token_session rnd m ts) (fun '(ini, sid) => bytes_ok ini /\ Zlen ini = 8 /\ bytes_ok sid /\ Zlen sid = 12).
Proof using.
  intros Hm Hr Ho Hl. unfold token_session, stored_ok in *. destruct (auth_token_initial m) as [pw|]; [|by destruct rnd; cbn].
  destruct Hm as [H0 Hlen]. change (PREFIX_LEN + AUTH_TOKEN_SESSION_ID_BASE64_LEN) with 27. change PREFIX_LEN with 11.
  destruct (cut_string pw (27 + 12) H0 ltac:(lia)) as (post & ->). cbn [res_bind].
  assert (Ht : take (Z.to_nat (27 + 12)) pw = take 27 pw ++ take 12 (drop 27 pw)) by (rewrite take_take_drop; done).
  assert (N1 : 0 ∉ take 12 (drop 27 pw)) by (by apply not_in_part).
  rewrite Ht, <- app_assoc, (cstr_at (take 27 pw) (take 12 (drop 27 pw)) (post ++ [0]) 27) by (done || (unfold Zlen in *; rewrite length_take; lia)).
  cbn [res_bind]. destruct (decode_safe (take 12 (drop 27 pw)) (replicate 9 0) 9) as (n & D & -> & LD & OD & _); [by vm_compute|by_eval|].
  cbn [res_bind]. destruct (n =? 9); [|done]. change (Zlen (replicate 9 0)) with 9 in LD.
  rewrite mem_read_ok by lia. cbn [res_bind]. rewrite drop_0. change (Z.to_nat 8) with 8%nat.
  destruct (take 12 (drop 27 pw)) as [|y z] eqn:E2.
  { apply (f_equal length) in E2. rewrite length_take, length_drop in E2. unfold Zlen in Hlen. cbn [length] in E2. lia. }
  change (take 27 pw ++ (y :: z) ++ 0 :: post ++ [0]) with (take 27 pw ++ [y] ++ (z ++ 0 :: post ++ [0])).
  assert (L27 : Zlen (take 27 pw) = 27) by (unfold Zlen in *; rewrite length_take; lia).
  rewrite <- L27, mem_write_mid by done. cbn [res_bind].
  assert (Ht2 : take 27 pw = take 11 pw ++ take 16 (drop 11 pw)) by (by rewrite take_take_drop).
  assert (N2 : 0 ∉ take 16 (drop 11 pw)) by (by apply not_in_part).
  rewrite Ht2, <- app_assoc. cbn [app]. rewrite (cstr_at (take 11 pw) (take 16 (drop 11 pw))) by (done || (unfold Zlen in *; rewrite length_take; lia)).
  cbn [res_bind]. change (Z.to_nat AUTH_TOKEN_SESSION_ID_LEN) with 12%nat. change AUTH_TOKEN_SESSION_ID_LEN with 12.
  destruct (decode_safe (take 16 (drop 11 pw)) (replicate 12 0) 12) as (n2 & D2 & -> & LD2 & OD2 & _); [by vm_compute|by_eval|].
  cbn [res_bind]. destruct (n2 =? 12); [|done]. cbn. split_and!; [by apply Forall_take|unfold Zlen in *; rewrite length_take; lia|done|done].
Qed.

Lemma generate_partial now rnd up m :
  stored_ok m -> random_ok rnd ->
  partial (generate_auth_token opt now rnd up m) (fun m' => (exists t ini, m' = set_tokens m t ini) /\ stored_ok m').
Proof using Hh Hsize LL.
  intros Hm Hr. pose proof (token_session_partial rnd m (be_bytes 8 (u64 now)) Hm Hr (be_bytes_ok _ _) (Zlen_be_bytes _ _)) as Hp.
  destruct (token_session rnd m (be_bytes 8 (u64 now))) as [[ini sid]| |] eqn:E; cbn in Hp; [| |done].
  - destruct Hp as (Oi & Li & Os & Ls). destruct (generate_token_spec now rnd up m ini sid E Oi Li Os Ls) as [-> Hd]. cbn [partial]. split; [by eauto|].
    destruct (token_text_facts _ Hd) as (N0 & L0 & _). unfold stored_ok in *. cbn [set_tokens auth_token_initial].
    destruct (auth_token_initial m); cbn [default id]; [exact Hm|]. split; [exact N0|]. unfold id. by rewrite L0.
  - unfold generate_auth_token, token_hmac. rewrite Hh. cbn [res_bind]. rewrite Hsize, E. done.
Qed.

Lemma au_get_put m i s : au_get (au_put m i s) i = s.
Proof. by destruct i. Qed.
Lemma flags_put m i f : au_flags (put_flags m i f) i = f.
Proof. unfold au_flags, put_flags, put_key. by rewrite au_get_put. Qed.
Lemma authenticated_put m i a : au_authenticated (au_primary (au_get (put_authenticated m i a) i)) = a.
Proof. unfold put_authenticated, put_key. by rewrite au_get_put. Qed.
(** The stored tokens are only changed where tokens are made or wiped. *)
Lemma tokens_put m i s : auth_token_initial (au_put m i s) = auth_token_initial m /\ auth_token (au_put m i s) = auth_token m.
Proof. by destruct i. Qed.

(** With a token that was accepted the environment gets the session from the password. *)
Lemma env_of_valid_token now rnd up m i :
  auth_token_generate opt = true -> au_flags m i = AUTH_TOKEN_HMAC_OK -> Zlen (password up) <= USER_PASS_LEN ->
  exists ok m', set_verify_user_pass_env opt now rnd up m i = Ret (ok, m') /\ auth_token_initial m' = auth_token_initial m
    /\ au_flags m' i = AUTH_TOKEN_HMAC_OK /\ auth_token m' = auth_token m /\ locked_username m' = locked_username m
    /\ locked_original_username m' = locked_original_username m
    /\ ok = negb (Z.land (to_ssl_flags opt) SSLF_AUTH_USER_PASS_OPTIONAL =? 0) || (0 <? Zlen (username up)).
Proof using.
  intros Hg Hf Hl. unfold set_verify_user_pass_env. destruct (_ || _); [|by exists false, m].
  unfold add_session_token_env. rewrite Hg. cbn [negb].
  match goal with |- context [au_flags ?x i] => change (au_flags x i) with (au_flags m i) end. rewrite Hf.
  change (Z.land AUTH_TOKEN_HMAC_OK AUTH_TOKEN_HMAC_OK =? 0) with false. change (Z.land AUTH_TOKEN_HMAC_OK AUTH_TOKEN_EXPIRED =? 0) with true.
  cbn [negb andb res_bind]. rewrite mem_read_ok by (rewrite ?Zlen_array_str by done; by vm_compute). cbn [res_bind].
  eexists true, _. split; [reflexivity|]. done.
Qed.

Lemma accept_partial now rnd up m i skip man plugin script :
  random_ok rnd -> stored_ok m -> partial (accept_user opt now rnd up m i skip man plugin script) stored_ok.
Proof using Hh Hsize LL.
  intros Hr Hs. unfold accept_user. set (m1 := put_authenticated m i KS_AUTH_TRUE).
  assert (T : forall x i a, auth_token_initial (put_authenticated x i a) = auth_token_initial x) by (intros x j a; apply tokens_put).
  set (m2 := if _ || _ then _ else m1). assert (T2 : auth_token_initial m2 = auth_token_initial m) by (unfold m2, m1; destruct (_ || _); by rewrite !T).
  set (m3 := match man with KMDA_UNDEF => m2 | _ => _ end).
  assert (T3 : auth_token_initial m3 = auth_token_initial m).
  { rewrite <- T2. unfold m3. destruct man; try done; (destruct skip; [apply tokens_put|apply T]). }
  set (m4 := if negb _ then _ else m3). assert (T4 : auth_token_initial m4 = auth_token_initial m).
  { rewrite <- T3. unfold m4. destruct (negb _); [|done]. apply tokens_put. }
  destruct (auth_token_generate opt); [|cbn; unfold stored_ok; by rewrite T4]. set (m5 := match auth_token m4 with None => _ | Some _ => m4 end).
  assert (T5 : auth_token_initial m5 = auth_token_initial m).
  { rewrite <- T4. unfold m5. destruct (auth_token m4); [done|]. by destruct (_ && _). }
  eapply partial_mono; [apply generate_partial; [unfold stored_ok; by rewrite T5|done]|by intros ? [_ ?]].
Qed.

Lemma lock_tokens m name : stored_ok m -> stored_ok (tls_lock_username m name).2.
Proof.
  intros H. unfold tls_lock_username. destruct (locked_username m); [|done]. by destruct (_ && _).
Qed.

Lemma stored_put m i a : stored_ok m -> stored_ok (put_authenticated m i a).
Proof.
  unfold stored_ok. assert (E : auth_token_initial (put_authenticated m i a) = auth_token_initial m) by apply tokens_put.
  by rewrite E.
Qed.

Lemma methods_partial v now rnd up m i :
  auth_token_generate opt = true -> au_flags m i = AUTH_TOKEN_HMAC_OK -> Zlen (password up) <= USER_PASS_LEN ->
  random_ok rnd -> stored_ok m -> partial (verify_methods opt now rnd v up m i true) (fun '(up', m') => up' = up /\ stored_ok m').
Proof using Hh Hsize LL.
  intros Hg Hf Hl Hr Hs. unfold verify_methods. destruct (env_of_valid_token now rnd up m i Hg Hf Hl) as (ok & m' & -> & Hi & _).
  assert (Hs' : stored_ok m') by (unfold stored_ok; by rewrite Hi). cbn [res_bind orb].
  destruct (if ssl_verify_username_length opt (username up) then _ else _) as [plugin script].
  destruct (status_ok script && status_ok plugin); [|split; [done|by apply stored_put]].
  pose proof (lock_tokens m' (username up) Hs') as Hs2. destruct (tls_lock_username m' (username up)) as [b m2].
  destruct (b && _); [|split; [done|by apply stored_put]]. eapply partial_bind; [by apply accept_partial|done].
Qed.

Lemma wiped_ok m i a : stored_ok (put_authenticated (wipe_auth_token m) i a).
Proof. by apply stored_put. Qed.

(** The names that override the one of the client fit into its array. *)
Definition override_ok (m : au_multi) : Prop :=
  match locked_original_username m with Some _ => exists l, locked_username m = Some l /\ Zlen l < USER_PASS_LEN | None => True end.
Definition up_ok (up : user_pass) : Prop :=
  (0 ∉ username up) /\ (0 ∉ password up) /\ Zlen (username up) < USER_PASS_LEN /\ Zlen (password up) < USER_PASS_LEN.

Lemma remap_password up : up_ok up -> (0 ∉ password (remap_names up)) /\ Zlen (password (remap_names up)) < USER_PASS_LEN.
Proof.
  intros (_ & H0 & _ & Hl). unfold remap_names. cbn [password].
  pose proof (string_mod_spec (password up) CC_PRINT CC_CRLF 95 H0 (or_intror eq_refl)) as H. destruct (string_mod _ _ _ _) as [r s].
  destruct H as (_ & H1 & H2 & _). split; [done|]. cbn. unfold Zlen in *. lia.
Qed.

Lemma override_spec up m : override_ok m -> exists name, override_username up m = Ret (mk_up name (password up)).
Proof.
  unfold override_ok, override_username. intros H. destruct (locked_original_username m); [|by exists (username up); destruct up].
  destruct H as (l1 & -> & Hl). destruct (streq _ _); [|by exists (username up); destruct up].
  rewrite (proj2 (Z.leb_gt _ _)) by done. by exists l1.
Qed.

(** What makes a token count: 60 bytes with the right HMAC, in time, of the same session. *)
Definition valid_token (now : Z) (m : au_multi) (up : user_pass) : Prop :=
  exists s D, password up = SESSION_ID_PREFIX ++ s
    /\ openvpn_base64_decode s (replicate (Z.to_nat USER_PASS_LEN) 0) USER_PASS_LEN = Ret (TOKEN_DATA_LEN, D)
    /\ mac_valid (username up) (take 60 D) = true /\ token_expired now (take 60 D) = false /\ same_session m (password up) = true.

(** C26: only a valid token replaces the password.  On a server with --auth-gen-token and without
    external-auth, for every user name and every password that looks like a token, whatever the
    plugins would say, verify_user_pass reads and writes inside its objects; it authenticates the
    client only if the password decodes to 60 bytes whose last 32 are the HMAC, under the
    server's key, of the user name and the other 28, whose times lie in the renewal window and
    the lifetime, and whose session is the one of the tunnel's earlier token.  All it needs of that
    earlier token is that it has at least 40 characters and is a string, which is so again
    afterwards: a token that was accepted in an unusual encoding may be the stored one.  (It may
    leave through an assertion: see the next theorem.) *)
Theorem token_login_authentic (now : Z) (rnd : option bytes) (v : verdicts) (up : user_pass) (m : au_multi) (i : session_index) :
  auth_token_generate opt = true -> auth_token_call_auth opt = false ->
  up_ok up -> override_ok m -> stored_ok m -> random_ok rnd ->
  is_auth_token (password (remap_names up)) = true ->
  partial (verify_user_pass opt now rnd v up m i)
    (fun '(up', m') => stored_ok m' /\ (au_authenticated (au_primary (au_get m' i)) <> KS_AUTH_FALSE -> valid_token now m up')).
Proof using Hh Hsize LL.
  intros Hg Hc Hu Hn Hs Hr Ht. destruct (remap_password up Hu) as [H0 Hl]. unfold verify_user_pass.
  destruct (override_spec (remap_names up) m Hn) as (name & ->). cbn [res_bind]. set (pw := password (remap_names up)) in *.
  apply has_prefix_inv in Ht. change (length SESSION_ID_PREFIX) with 11%nat in Ht. set (s := drop 11 pw) in *. clearbody pw s. subst pw.
  rewrite Zlen_app in Hl. fold PREFIX_LEN in Hl.
  assert (N0 : 0 ∉ s) by (intros H; apply H0, elem_of_app; by right).
  destruct (decode_safe s (replicate (Z.to_nat USER_PASS_LEN) 0) USER_PASS_LEN) as (n & D & Ed & LD & OD & Hrange); [by vm_compute|by_eval|].
  change (Zlen (replicate (Z.to_nat USER_PASS_LEN) 0)) with USER_PASS_LEN in LD. pose proof (Zlen_nonneg s).
  unfold verify_token_first. rewrite Hg. cbn [password]. unfold is_auth_token. rewrite has_prefix_app. cbn [andb].
  rewrite (verify_spec now s n D name m N0 ltac:(lia) Hs Ed LD ltac:(lia)). cbn [res_bind].
  destruct (Z.eqb_spec n TOKEN_DATA_LEN) as [->|Hne].
  2:{ cbn [res_bind]. rewrite Hc. change (0 =? AUTH_TOKEN_HMAC_OK) with false. cbn [res_bind partial].
      split; [apply wiped_ok|]. intros H'. destruct H'. apply authenticated_put. }
  change TOKEN_DATA_LEN with 60 in Hrange. set (up1 := mk_up name (SESSION_ID_PREFIX ++ s)).
  destruct (verified now (take 60 D) up1 m) as [[flags up2] m2] eqn:Ev. cbn [res_bind]. rewrite Hc.
  destruct (Z.eqb_spec flags AUTH_TOKEN_HMAC_OK) as [->|Hne].
  2:{ cbn [res_bind partial]. split; [apply wiped_ok|]. intros H'. destruct H'. apply authenticated_put. }
  assert (Hv : up2 = up1 /\ m2 = m /\ valid_token now m up1).
  { unfold verified in Ev. destruct (mac_valid (username up1) (take 60 D)) eqn:Em.
    - destruct (same_session m (password up1)) eqn:Es; [|discriminate Ev]. destruct (token_expired now (take 60 D)) eqn:Ex; [discriminate Ev|].
      injection Ev as <- <-. split; [done|]. split; [done|]. exists s, D. split_and!; done.
    - destruct (mac_valid [] (take 60 D)); [|discriminate Ev]. by destruct (same_session m (password up1)), (token_expired now (take 60 D)). }
  destruct Hv as (-> & -> & Hv). cbn [res_bind].
  set (m3 := match auth_token_initial (put_flags m i AUTH_TOKEN_HMAC_OK) with Some _ => _ | None => _ end).
  assert (Hm3 : au_flags m3 i = AUTH_TOKEN_HMAC_OK /\ stored_ok m3).
  { assert (Ei : auth_token_initial (put_flags m i AUTH_TOKEN_HMAC_OK) = auth_token_initial m) by apply tokens_put.
    unfold m3. rewrite Ei. pose proof Hs as Hst. unfold stored_ok in *. destruct (auth_token_initial m) as [ini|] eqn:E0.
    - split; [apply flags_put|]. by rewrite Ei.
    - split; [by destruct i|]. cbn [auth_token_initial set_tokens]. split; [exact H0|]. unfold up1. cbn [password]. rewrite Zlen_app.
      change (Zlen SESSION_ID_PREFIX) with 11. lia. }
  destruct Hm3 as [Hf3 Hs3]. eapply partial_mono; [apply (methods_partial v now rnd up1 m3 i Hg Hf3)|].
  - unfold up1. cbn [password]. rewrite Zlen_app. fold PREFIX_LEN. lia.
  - done.
  - done.
  - intros [up' m'] [-> Hs']. done.
Qed.

(** ** A token in another encoding *)
Lemma alphabet_class : forallb (fun c => char_inc_exc c CC_PRINT CC_CRLF) base64_chars = true.
Proof. by vm_compute. Qed.

Lemma b64_class d : bytes_ok d -> string_class (b64 d) CC_PRINT CC_CRLF = true.
Proof.
  unfold string_class. rewrite forallb_forall. intros Ho c Hc. apply list_elem_of_In in Hc.
  assert (A : forall k, 0 <= k < 64 -> char_inc_exc (sym k) CC_PRINT CC_CRLF = true).
  { intros k Hk. pose proof alphabet_class as F. rewrite forallb_forall in F. apply F, list_elem_of_In.
    destruct (sym_ok k Hk) as (E & _). by eapply list_elem_of_lookup_2. }
  assert (E : char_inc_exc EQ CC_PRINT CC_CRLF = true) by (by vm_compute). assert (Z0 : is_u8 0) by (unfold is_u8; lia).
  assert (G : forall a b x, is_u8 a -> is_u8 b -> is_u8 x -> c ∈ group a b x -> char_inc_exc c CC_PRINT CC_CRLF = true).
  { intros a b x Ha Hb Hx H. destruct (group_range a b x Ha Hb Hx) as (R1 & R2 & R3 & R4). unfold group in H.
    rewrite !elem_of_cons, elem_of_nil in H. destruct H as [-> | [-> | [-> | [-> | []]]]]; by apply A. }
  revert Ho Hc. induction d as [|a|a b|a b x d IH] using triple_ind; unfold bytes_ok; rewrite ?Forall_cons.
  - by intros _ ?%elem_of_nil.
  - intros [Ha _]. specialize (G a 0 0 Ha Z0 Z0). unfold b64, group in *. cbn [take app] in *. rewrite !elem_of_cons, elem_of_nil in *. naive_solver.
  - intros (Ha & Hb & _). specialize (G a b 0 Ha Hb Z0). unfold b64, group in *. cbn [take app] in *. rewrite !elem_of_cons, elem_of_nil in *. naive_solver.
  - intros (Ha & Hb & Hx & Hd). change (b64 (a :: b :: x :: d)) with (group a b x ++ b64 d). rewrite elem_of_app. specialize (G a b x Ha Hb Hx). naive_solver.
Qed.

Lemma accept_spec now rnd up m i man plugin script :
  auth_token_generate opt = true ->
  exists m', accept_user opt now rnd up m i true man plugin script = generate_auth_token opt now rnd up m'
    /\ auth_token_initial m' = auth_token_initial m /\ au_authenticated (au_primary (au_get m' i)) <> KS_AUTH_FALSE.
Proof using.
  intros Hg. unfold accept_user. rewrite Hg. set (m1 := put_authenticated m i KS_AUTH_TRUE).
  set (P := fun x => auth_token_initial x = auth_token_initial m /\ au_authenticated (au_primary (au_get x i)) <> KS_AUTH_FALSE).
  assert (P1 : P m1) by (unfold P, m1; split; [apply tokens_put|by rewrite authenticated_put]).
  set (m2 := if _ || _ then _ else m1).
  assert (P2 : P m2).
  { unfold m2. destruct (_ || _); [|done]. unfold P. split; [rewrite <- (proj1 P1); apply tokens_put|by rewrite authenticated_put]. }
  set (m3 := match man with KMDA_UNDEF => m2 | _ => _ end).
  assert (P3 : P m3).
  { assert (Q : P (put_mda m2 i ACF_DISABLED)).
    { unfold P, put_mda, put_key. split; [rewrite <- (proj1 P2); apply tokens_put|]. rewrite au_get_put. apply P2. }
    unfold m3. by destruct man. }
  set (m4 := if negb _ then _ else m3).
  assert (P4 : P m4).
  { unfold m4. destruct (negb _); [|done]. unfold P, set_common_name. split; [rewrite <- (proj1 P3); apply tokens_put|].
    match goal with |- context [setenv_str ?x ?a ?b] => change (au_get (setenv_str x a b) i) with (au_get x i) end.
    rewrite au_get_put. apply P3. }
  eexists. split; [reflexivity|]. destruct (auth_token m4); [done|]. destruct (_ && _); [|done]. by destruct P4, i.
Qed.

(** From a valid token on a new connection to the token of the next time. *)
Lemma login_spec now rnd v s d name m i :
  auth_token_generate opt = true -> auth_token_call_auth opt = false ->
  (0 ∉ name) -> 0 < Zlen name < USER_PASS_LEN -> string_class name CC_PRINT CC_CRLF = true -> ssl_verify_username_length opt name = true ->
  auth_token_initial m = None -> locked_username m = None -> locked_original_username m = None ->
  (0 ∉ s) -> Zlen s < USER_PASS_LEN - PREFIX_LEN -> string_class s CC_PRINT CC_CRLF = true ->
  openvpn_base64_decode s (replicate (Z.to_nat USER_PASS_LEN) 0) USER_PASS_LEN = Ret (60, d ++ drop (length d) (replicate (Z.to_nat USER_PASS_LEN) 0)) ->
  token_data_ok d -> 60 <= Zlen s -> mac_valid name d = true -> token_expired now d = false ->
  let up := mk_up name (SESSION_ID_PREFIX ++ s) in
  exists m', verify_user_pass opt now rnd v up m i = (let! m := generate_auth_token opt now rnd up m' in Ret (up, m))
    /\ auth_token_initial m' = Some (password up) /\ au_authenticated (au_primary (au_get m' i)) <> KS_AUTH_FALSE.
Proof using Hh Hsize.
  intros Hg Hc N0 Hl Cn Hu Hi Hlk Hlo S0 Sl Cs Ed Hd Hs Hm Hx up. unfold verify_user_pass.
  assert (Er : remap_names up = up).
  { unfold remap_names, up. cbn [username password]. rewrite (string_mod_id name) by done.
    rewrite string_mod_id; [done| |unfold string_class; rewrite forallb_app; apply andb_true_iff; split; [by vm_compute|exact Cs]].
    rewrite elem_of_app. assert (0 ∉ SESSION_ID_PREFIX) by by_eval. tauto. }
  rewrite Er. unfold override_username. rewrite Hlo. cbn [res_bind]. unfold verify_token_first. rewrite Hg. cbn [password up].
  unfold is_auth_token. rewrite has_prefix_app. cbn [andb]. destruct Hd as [Ho Hlen]. change TOKEN_DATA_LEN with 60 in Hlen.
  assert (Hso : stored_ok m) by (unfold stored_ok; by rewrite Hi).
  assert (LD : Zlen (d ++ drop (length d) (replicate (Z.to_nat USER_PASS_LEN) 0)) = USER_PASS_LEN).
  { unfold Zlen in *. rewrite length_app, length_drop, length_replicate. unfold USER_PASS_LEN. lia. }
  unfold up. rewrite (verify_spec now s 60 _ name m S0 Sl Hso Ed LD Hs). fold up. change (60 =? TOKEN_DATA_LEN) with true. cbv iota.
  assert (T60 : take 60 (d ++ drop (length d) (replicate (Z.to_nat USER_PASS_LEN) 0)) = d) by (apply take_app_length'; unfold Zlen in Hlen; lia).
  rewrite T60. unfold verified. cbn [username up]. rewrite Hm. unfold same_session. rewrite Hi, Hx. cbn [res_bind].
  rewrite Hc. change (AUTH_TOKEN_HMAC_OK =? AUTH_TOKEN_HMAC_OK) with true. cbv iota. cbn [res_bind].
  assert (Ei : auth_token_initial (put_flags m i AUTH_TOKEN_HMAC_OK) = None) by (rewrite <- Hi; apply tokens_put). rewrite Ei.
  set (m3 := set_tokens _ _ _). assert (F3 : au_flags m3 i = AUTH_TOKEN_HMAC_OK) by (unfold m3; by destruct i).
  assert (K3 : locked_username m3 = None /\ locked_original_username m3 = None) by (unfold m3; rewrite <- Hlk at 1; rewrite <- Hlo; by destruct i).
  assert (LP : Zlen (password up) <= USER_PASS_LEN) by (unfold up; cbn [password]; rewrite Zlen_app; fold PREFIX_LEN; lia).
  unfold verify_methods. destruct (env_of_valid_token now rnd up m3 i Hg F3 LP) as (ok & m4 & -> & I4 & _ & _ & K4 & _ & Hok).
  assert (ok = true) as -> by (rewrite Hok; unfold up; cbn [username]; rewrite (proj2 (Z.ltb_lt 0 _)) by lia; apply orb_true_r).
  cbn [res_bind orb negb username up]. rewrite Hu. cbn [status_ok andb]. unfold tls_lock_username. rewrite K4, (proj1 K3).
  assert (Hman : match (if management_enable_def_auth v then KMDA_DEF else KMDA_UNDEF) with KMDA_ERROR => false | _ => true end = true)
    by (by destruct (management_enable_def_auth v)).
  rewrite Hman. cbn [andb]. set (m5 := set_locked m4 (Some name)).
  destruct (accept_spec now rnd up m5 i (if management_enable_def_auth v then KMDA_DEF else KMDA_UNDEF) OPENVPN_PLUGIN_FUNC_SUCCESS OPENVPN_PLUGIN_FUNC_SUCCESS Hg)
    as (m6 & E6 & I6 & A6).
  exists m6. split; [by rewrite E6|]. split; [|done]. rewrite I6. change (auth_token_initial m5) with (auth_token_initial m4). by rewrite I4.
Qed.

(** The same 60 bytes, the first of them in a group of its own. *)
Definition reencoded (d : bytes) : bytes := b64 (take 1 d) ++ b64 (drop 1 d).

Lemma reencoded_facts d :
  token_data_ok d -> (0 ∉ reencoded d) /\ Zlen (reencoded d) = 84 /\ string_class (reencoded d) CC_PRINT CC_CRLF = true
  /\ openvpn_base64_decode (reencoded d) (replicate (Z.to_nat USER_PASS_LEN) 0) USER_PASS_LEN
     = Ret (60, d ++ drop (length d) (replicate (Z.to_nat USER_PASS_LEN) 0)).
Proof.
  intros [Ho Hl]. change TOKEN_DATA_LEN with 60 in Hl. unfold reencoded.
  assert (O1 : bytes_ok (take 1 d)) by (by apply Forall_take). assert (O2 : bytes_ok (drop 1 d)) by (by apply Forall_drop).
  assert (L1 : Zlen (take 1 d) = 1) by (unfold Zlen in *; rewrite length_take; lia).
  assert (L2 : Zlen (drop 1 d) = 59) by (unfold Zlen in *; rewrite length_drop; lia). split_and!.
  - rewrite elem_of_app. pose proof (b64_nonzero _ O1). pose proof (b64_nonzero _ O2). tauto.
  - rewrite Zlen_app, !Zlen_b64, L1, L2. done.
  - unfold string_class. rewrite forallb_app. apply andb_true_iff. split; by apply b64_class.
  - set (z := replicate (Z.to_nat USER_PASS_LEN) 0). assert (Lz : length z = 128%nat) by apply length_replicate.
    rewrite decode_spec; [|done|unfold Zlen in L1; lia|right; rewrite L1; by vm_compute].
    rewrite <- (app_nil_r (b64 (drop 1 d))). rewrite decode_b64; [|done|rewrite !length_drop, Lz; unfold Zlen in *; lia|right; rewrite L1, L2; by vm_compute].
    cbn [decode_loop]. rewrite drop_drop, take_drop, Hl.
    assert (El : (length (take 1 d) + length (drop 1 d))%nat = length d) by (rewrite length_take, length_drop; unfold Zlen in Hl; lia).
    by rewrite El.
Qed.

(** The session identifier is not found in it: its first 16 characters are only 10 bytes. *)
Lemma reencoded_session rnd m d ts :
  token_data_ok d -> auth_token_initial m = Some (SESSION_ID_PREFIX ++ reencoded d) -> token_session rnd m ts = Fatal.
Proof using.
  intros Hd Hm. unfold token_session. rewrite Hm. destruct (reencoded_facts d Hd) as (R0 & RL & _).
  destruct (token_split d Hd) as (a & b & c & e & Ed & La & Lb & Lc & Le & Oa & Ob & Oc & Oe).
  assert (Hs : exists x y z w, reencoded d = b64 [x] ++ b64 y ++ b64 z ++ w /\ Zlen y = 9 /\ Zlen z = 9 /\ is_u8 x /\ bytes_ok y /\ bytes_ok z).
  { destruct d as [|x d]; [by apply (f_equal length) in Ed; unfold Zlen in La; rewrite length_app in Ed; cbn in Ed; lia|].
    destruct Hd as [Ho Hl]. apply Forall_cons in Ho as [Hx Ho]. rewrite Zlen_cons in Hl. change TOKEN_DATA_LEN with 60 in Hl.
    assert (Ly : Zlen (take 9 d) = 9) by (unfold Zlen in *; rewrite length_take; lia).
    assert (Lz : Zlen (take 9 (drop 9 d)) = 9) by (unfold Zlen in *; rewrite length_take, length_drop; lia).
    exists x, (take 9 d), (take 9 (drop 9 d)), (b64 (drop 18 d)). split; [|split_and!; try done; by repeat (apply Forall_take || apply Forall_drop)].
    assert (Eb : d = take 9 d ++ take 9 (drop 9 d) ++ drop 18 d) by (change (drop 18 d) with (drop (9 + 9) d); by rewrite <- drop_drop, take_drop, take_drop).
    change (b64 [x] ++ b64 d = b64 [x] ++ b64 (take 9 d) ++ b64 (take 9 (drop 9 d)) ++ b64 (drop 18 d)).
    rewrite Eb at 1. rewrite (b64_app (take 9 d)) by (by rewrite Ly). by rewrite (b64_app (take 9 (drop 9 d))) by (by rewrite Lz). }
  destruct Hs as (x & y & z & w & Er & Ly & Lz & Ox & Oy & Oz). rewrite Er in RL |- *. clear Ed La Lb Lc Le Oa Ob Oc Oe a b c e.
  assert (N : forall s, bytes_ok s -> 0 ∉ b64 s) by apply b64_nonzero. assert (Oxx : bytes_ok [x]) by (by constructor).
  pose proof (Zlen_b64 y) as Zy. rewrite Ly in Zy. pose proof (Zlen_b64 z) as Zz. rewrite Lz in Zz. change (4 * ((9 + 2) / 3)) with 12 in *.
  assert (Zx : Zlen (b64 [x]) = 4) by done. rewrite !Zlen_app, Zx, Zy, Zz in RL.
  destruct w as [|w0 w]; [discriminate RL|]. unfold heap_str. change (PREFIX_LEN + AUTH_TOKEN_SESSION_ID_BASE64_LEN) with 27.
  change (PREFIX_LEN) with 11. assert (Zp : Zlen SESSION_ID_PREFIX = 11) by done.
  replace ((SESSION_ID_PREFIX ++ b64 [x] ++ b64 y ++ b64 z ++ w0 :: w) ++ [0])
    with (((SESSION_ID_PREFIX ++ b64 [x] ++ b64 y) ++ b64 z) ++ [w0] ++ (w ++ [0])) by (by rewrite <- !app_assoc).
  assert (L1 : Zlen (SESSION_ID_PREFIX ++ b64 [x] ++ b64 y) = 27) by (by rewrite !Zlen_app, Zp, Zx, Zy).
  assert (L2 : Zlen ((SESSION_ID_PREFIX ++ b64 [x] ++ b64 y) ++ b64 z) = 27 + 12) by (by rewrite Zlen_app, L1, Zz).
  rewrite <- L2, mem_write_mid by done. cbn [res_bind]. rewrite <- (app_assoc _ (b64 z)). cbn [app].
  rewrite cstr_at by (by rewrite ?L1 || by apply N). cbn [res_bind].
  replace 9%nat with (length z) by (unfold Zlen in Lz; lia). rewrite <- Lz, (decode_exact z Oz). cbn [res_bind]. rewrite Z.eqb_refl.
  rewrite mem_read_ok by lia. cbn [res_bind].
  destruct (b64 z) as [|z0 z']; [discriminate Zz|].
  replace ((SESSION_ID_PREFIX ++ b64 [x] ++ b64 y) ++ (z0 :: z') ++ 0 :: (w ++ [0]))
    with ((SESSION_ID_PREFIX ++ b64 [x] ++ b64 y) ++ [z0] ++ (z' ++ 0 :: (w ++ [0]))) by done.
  rewrite <- L1, mem_write_mid by done. cbn [res_bind]. rewrite <- (app_assoc SESSION_ID_PREFIX). cbn [app].
  rewrite (cstr_at SESSION_ID_PREFIX (b64 [x] ++ b64 y)) by (done || (rewrite elem_of_app; intros [H|H]; by eapply N; [|exact H])).
  cbn [res_bind]. change (Z.to_nat AUTH_TOKEN_SESSION_ID_LEN) with 12%nat. change AUTH_TOKEN_SESSION_ID_LEN with 12.
  rewrite decode_spec; [|done|rewrite length_replicate; cbn; lia|right; by vm_compute].
  rewrite <- (app_nil_r (b64 y)), decode_b64; [|done|rewrite length_drop, length_replicate; unfold Zlen in Ly; cbn; lia|right; rewrite Ly; by vm_compute].
  cbn [decode_loop res_bind]. by rewrite Zlen_app, Ly.
Qed.

(** C27: a client with a valid token can end the server.  Take any token the server accepts for a
    user.  Encoded as the server does it, it logs the client in on a new connection.  Encoded
    with the first byte in a group of its own, which the decoder accepts as the same 60 bytes,
    it passes the same checks, is kept as the session's first token, and generate_auth_token,
    which reads the session identifier from fixed characters of it, fails an assertion: the
    server process exits. *)
Theorem reencoded_token_fatal (now : Z) (rnd : option bytes) (v : verdicts) (d name : bytes) (m : au_multi) (i : session_index) :
  auth_token_generate opt = true -> auth_token_call_auth opt = false ->
  (0 ∉ name) -> 0 < Zlen name < USER_PASS_LEN -> string_class name CC_PRINT CC_CRLF = true -> ssl_verify_username_length opt name = true ->
  auth_token_initial m = None -> locked_username m = None -> locked_original_username m = None ->
  token_data_ok d -> mac_valid name d = true -> token_expired now d = false ->
  (exists up' m', verify_user_pass opt now rnd v (mk_up name (token_text d)) m i = Ret (up', m')
     /\ au_authenticated (au_primary (au_get m' i)) <> KS_AUTH_FALSE)
  /\ verify_user_pass opt now rnd v (mk_up name (SESSION_ID_PREFIX ++ reencoded d)) m i = Fatal.
Proof using Hh Hsize LL.
  intros Hg Hc N0 Hl Cn Hu Hi Hlk Hlo Hd Hm Hx. pose proof Hd as [Ho Hlen]. change TOKEN_DATA_LEN with 60 in Hlen. split.
  - pose proof (Zlen_b64 d) as Zb. rewrite Hlen in Zb. change (4 * ((60 + 2) / 3)) with 80 in Zb.
    assert (Ed : openvpn_base64_decode (b64 d) (replicate (Z.to_nat USER_PASS_LEN) 0) USER_PASS_LEN
                 = Ret (60, d ++ drop (length d) (replicate (Z.to_nat USER_PASS_LEN) 0))).
    { rewrite <- (app_nil_r (b64 d)). rewrite decode_spec; [by rewrite Hlen|done|unfold Zlen in Hlen; rewrite length_replicate; unfold USER_PASS_LEN; lia|].
      right. rewrite Hlen. by vm_compute. }
    unfold token_text at 1.
    destruct (login_spec now rnd v (b64 d) d name m i Hg Hc N0 Hl Cn Hu Hi Hlk Hlo (b64_nonzero d Ho)) as (m1 & -> & I1 & A1);
      [rewrite Zb; by vm_compute|by apply b64_class|exact Ed|done|lia|done|done|].
    cbn [password] in I1. fold (token_text d) in I1.
    pose proof (token_session_kept rnd m1 d (be_bytes 8 (u64 now)) I1 Hd) as Es.
    destruct (generate_token_spec now rnd (mk_up name (token_text d)) m1 _ _ Es) as [E _];
      [unfold tok_initial; by apply Forall_take, Forall_drop|unfold tok_initial, Zlen in *; rewrite length_take, length_drop; lia
      |unfold tok_sessid; by apply Forall_take|unfold tok_sessid, Zlen in *; rewrite length_take; lia|].
    fold (token_text d). rewrite E. cbn [res_bind]. eexists _, _. split; [reflexivity|]. by destruct i.
  - destruct (reencoded_facts d Hd) as (R0 & RL & RC & RD).
    destruct (login_spec now rnd v (reencoded d) d name m i Hg Hc N0 Hl Cn Hu Hi Hlk Hlo R0) as (m1 & -> & I1 & _);
      [rewrite RL; by vm_compute|done|done|done|lia|done|done|].
    unfold generate_auth_token, token_hmac. rewrite Hh. cbn [res_bind]. rewrite Hsize. cbn [Z.eqb Pos.eqb].
    by rewrite (reencoded_session rnd m1 d _ Hd I1).
Qed.

(** C28: with external-auth a short password is read beyond its end.  If external authentication is
    always called (auth-gen-token with external-auth), any client that sends as its password the
    prefix of tokens and fewer than 15 characters behind it makes verify_user_pass keep this
    string as the session's first token although it is refused, and add_session_token_env, before
    any external method is asked, copies a session identifier of 16 characters from behind the
    prefix: a read beyond the end of the string's memory. *)
Theorem short_token_overread (now : Z) (rnd : option bytes) (v : verdicts) (name s : bytes) (m : au_multi) (i : session_index) :
  auth_token_generate opt = true -> auth_token_call_auth opt = true ->
  (0 ∉ name) -> 0 < Zlen name < USER_PASS_LEN -> (0 ∉ s) -> Zlen s < 15 ->
  auth_token_initial m = None -> locked_original_username m = None ->
  verify_user_pass opt now rnd v (mk_up name (SESSION_ID_PREFIX ++ s)) m i = UB.
Proof using Hh Hsize.
  intros Hg Hc N0 Hl S0 Sl Hi Hlo. unfold verify_user_pass.
  assert (Hpw : exists name' s', remap_names (mk_up name (SESSION_ID_PREFIX ++ s)) = mk_up name' (SESSION_ID_PREFIX ++ s')
    /\ 0 < Zlen name' /\ (0 ∉ s') /\ Zlen s' < 15).
  { pose proof (string_mod_spec name CC_PRINT CC_CRLF 95 N0 (or_intror eq_refl)) as Hn.
    pose proof (string_mod_spec s CC_PRINT CC_CRLF 95 S0 (or_intror eq_refl)) as Hs.
    assert (E : string_mod (SESSION_ID_PREFIX ++ s) CC_PRINT CC_CRLF 95
                = ((string_mod s CC_PRINT CC_CRLF 95).1, SESSION_ID_PREFIX ++ (string_mod s CC_PRINT CC_CRLF 95).2)).
    { rewrite string_mod_app. by rewrite (string_mod_id SESSION_ID_PREFIX) by (by_eval || by vm_compute). }
    unfold remap_names. cbn [username password]. rewrite E. cbn [snd].
    destruct (string_mod name CC_PRINT CC_CRLF 95) as [r1 name'], (string_mod s CC_PRINT CC_CRLF 95) as [r2 s']. cbn [snd].
    destruct Hn as (_ & _ & _ & _ & Ln). destruct Hs as (_ & Hs0 & Ls & _). specialize (Ln ltac:(done)).
    exists name', s'. unfold Zlen in *. split_and!; (done || lia). }
  destruct Hpw as (name' & s' & -> & Ln & Z0 & Ls). unfold override_username. rewrite Hlo. cbn [res_bind].
  unfold verify_token_first. rewrite Hg. cbn [password]. unfold is_auth_token. rewrite has_prefix_app. cbn [andb].
  destruct (decode_safe s' (replicate (Z.to_nat USER_PASS_LEN) 0) USER_PASS_LEN) as (n & D & Ed & LD & _ & Hr); [by vm_compute|by_eval|].
  change (Zlen (replicate (Z.to_nat USER_PASS_LEN) 0)) with USER_PASS_LEN in LD. pose proof (Zlen_nonneg s').
  assert (Hso : stored_ok m) by (unfold stored_ok; by rewrite Hi).
  rewrite (verify_spec now s' n D name' m Z0 ltac:(change PREFIX_LEN with 11; unfold USER_PASS_LEN; lia) Hso Ed LD ltac:(lia)).
  rewrite (proj2 (Z.eqb_neq n TOKEN_DATA_LEN)) by (change TOKEN_DATA_LEN with 60; lia). cbn [res_bind].
  assert (Ei : auth_token_initial (put_flags m i 0) = None) by (rewrite <- Hi; apply tokens_put). rewrite Ei, Hc. cbn [res_bind].
  set (m2 := set_tokens _ _ _). assert (F2 : au_flags m2 i = 0) by (unfold m2; by destruct i).
  unfold verify_methods, set_verify_user_pass_env. cbn [username]. rewrite (proj2 (Z.ltb_lt 0 _)), orb_true_r by lia.
  unfold add_session_token_env. rewrite Hg. cbn [negb].
  match goal with |- context [au_flags ?x i] => change (au_flags x i) with (au_flags m2 i) end. rewrite F2.
  change (Z.land 0 AUTH_TOKEN_HMAC_OK =? 0) with true. cbn [negb andb]. cbn [auth_token_initial setenv_str m2 set_tokens res_bind].
  unfold mem_read. rewrite (proj2 (Z.leb_gt (PREFIX_LEN + AUTH_TOKEN_SESSION_ID_BASE64_LEN) _)); [by rewrite andb_false_r|].
  unfold heap_str. cbn [password]. rewrite !Zlen_app. change (Zlen SESSION_ID_PREFIX) with 11. change (Zlen [0]) with 1.
  change (PREFIX_LEN + AUTH_TOKEN_SESSION_ID_BASE64_LEN) with 27. lia.
Qed.
End TokenSession.

(** ** Examples *)
Definition sample_hkey : sample_hmac := mk_sh [7; 7; 7].
Definition sample_topt (call_auth : bool) : token_options (cipher_ctx := sample_cipher) (hmac_ctx := sample_hmac) :=
  mk_to true call_auth 0 3600 (mk_ctx None (Some sample_hkey) [] 0 0 0) 0.
Definition blank_key : au_key := mk_auk 0 KS_AUTH_FALSE ACF_DISABLED.
Definition blank_session : au_session := mk_aus blank_key blank_key None.
Definition blank_multi : au_multi := mk_aum None None None None None blank_session blank_session blank_session [].
Definition sample_sessid : bytes := [1; 2; 3; 4; 5; 6; 7; 8; 9; 10; 11; 12].
Definition sample_data : bytes :=
  let body := sample_sessid ++ be_bytes 8 1000 ++ be_bytes 8 1000 in
  body ++ hmac_ctx_value sample_hkey (str "anna" ++ body).
Definition no_verdicts : verdicts := mk_verdicts false None None.

Lemma sample_hctx c : ctx_hmac (auth_token_key (sample_topt c)) = Some sample_hkey.
Proof. reflexivity. Qed.
Lemma sample_hsize : hmac_ctx_size sample_hkey = 32.
Proof. reflexivity. Qed.

(** A login with a password gives the client a token, and the token logs it in. *)
Example token_session_run :
  (let! (_, m) := verify_user_pass (sample_topt false) 1000 (Some sample_sessid) no_verdicts (mk_up (str "anna") (str "secret")) blank_multi TM_ACTIVE in
   let! (_, m') := verify_user_pass (sample_topt false) 4000 None no_verdicts (mk_up (str "anna") (default [] (auth_token m))) blank_multi TM_ACTIVE in
   Ret (auth_token m, au_authenticated (au_primary (au_active m')), au_flags m' TM_ACTIVE))
  = Ret (Some (token_text sample_data), KS_AUTH_TRUE, AUTH_TOKEN_HMAC_OK).
Proof. by vm_compute. Qed.

Lemma auth_token_roundtrip_witness :
  exists m' tok, generate_auth_token (sample_topt false) 1000 (Some sample_sessid) (mk_up (str "anna") []) blank_multi = Ret m'
    /\ auth_token m' = Some tok
    /\ exists m2, verify_auth_token (sample_topt false) 5000 (mk_up (str "anna") tok) m' = Ret (AUTH_TOKEN_HMAC_OK, mk_up (str "anna") tok, m2).
Proof.
  destruct (auth_token_roundtrip (sample_topt false) sample_hkey (sample_hctx _) sample_hsize 1000 5000 1000 (Some sample_sessid) (mk_up (str "anna") []) blank_multi)
    as (m' & tok & E & T & _ & V); [split; [reflexivity|exists sample_sessid; split; [reflexivity|split; [by_eval|reflexivity]]]
      |reflexivity|lia|lia|lia|split; [discriminate|reflexivity]|split; [discriminate|reflexivity]|].
  exists m', tok. split; [exact E|]. split; [exact T|]. destruct (V m' (or_intror eq_refl)) as (m2 & E2 & _). exists m2. exact E2.
Defined.

Lemma token_login_authentic_witness :
  partial (verify_user_pass (sample_topt false) 1000 None no_verdicts (mk_up (str "anna") (SESSION_ID_PREFIX ++ str "forged")) blank_multi TM_ACTIVE)
    (fun '(up', m') => stored_ok m'
      /\ (au_authenticated (au_primary (au_get m' TM_ACTIVE)) <> KS_AUTH_FALSE -> valid_token (sample_topt false) sample_hkey 1000 blank_multi up')).
Proof.
  apply (token_login_authentic (sample_topt false) sample_hkey (sample_hctx _) sample_hsize); [reflexivity|reflexivity| |exact I|exact I|exact I|reflexivity].
  split; [by_eval|]. split; [by_eval|]. split; reflexivity.
Defined.

Lemma reencoded_token_fatal_witness :
  verify_user_pass (sample_topt false) 1500 None no_verdicts (mk_up (str "anna") (SESSION_ID_PREFIX ++ reencoded sample_data)) blank_multi TM_ACTIVE = Fatal.
Proof.
  apply (reencoded_token_fatal (sample_topt false) sample_hkey (sample_hctx _) sample_hsize 1500 None no_verdicts sample_data (str "anna") blank_multi TM_ACTIVE);
    [reflexivity|reflexivity|by_eval|split; reflexivity|reflexivity|reflexivity|reflexivity|reflexivity|reflexivity| | |].
  - split; [by_eval|by vm_compute].
  - by vm_compute.
  - by vm_compute.
Defined.

Lemma short_token_overread_witness :
  verify_user_pass (sample_topt true) 1500 None no_verdicts (mk_up (str "eve") SESSION_ID_PREFIX) blank_multi TM_ACTIVE = UB.
Proof.
  apply (short_token_overread (sample_topt true) sample_hkey (sample_hctx _) sample_hsize 1500 None no_verdicts (str "eve") [] blank_multi TM_ACTIVE);
    [reflexivity|reflexivity|by_eval|split; reflexivity|by_eval|reflexivity|reflexivity|reflexivity].
Defined.
